(* ===== verification/_CoqProject ===== *)
-Q . S2P
Prelude.v
Riscv.v
Memory.v
State.v
Spinlock.v
Sched.v
Kalloc.v
Vm.v
PageTable.v
UserMem.v
Uvm.v
Freewalk.v
Demo.v
VmTheorems.v
Isolation.v
Bio.v
Virtio.v
VirtioInv.v
VirtioTheorems.v
Cache.v
Log.v
Recovery.v
Fs.v
Inode.v
Blocks.v
Dinode.v
Console.v
Pipe.v
File.v
Proc.v
ProcMem.v
ProcTable.v
ProcDemo.v
Fork.v
Wait.v
KernelMap.v
Signal.v
Bsem.v
Syscall.v
Exec.v
Sysfile.v
Plic.v
Trap.v
Trampoline.v
Init.v
Start.v
Main.v
User.v
Programs.v
Grep.v
Shell.v
ShellTheorems.v
ShellRun.v
ShellOrder.v
Malloc.v
MallocTheorems.v
Mkfs.v
MkfsFiles.v
MkfsTheorems.v
Boot.v
