(* ===== verification/Prelude.v ===== *)
(** * Verification of an xv6/RISC-V kernel with signals and binary semaphores

    The program is the kernel under src/kernel: the teaching kernel xv6 for RISC-V,
    extended with UNIX-style signals (kill with a signal number, sigprocmask, sigaction,
    sigret) and binary semaphores (bsem_alloc, bsem_free, bsem_down, bsem_up); the user
    programs under src/user but for the tests; and the tool under src/mkfs that makes the
    initial file system.

    ** How the code is modelled

    Every function of the kernel is a definition of the same name in the monad [M] below.
    A run of a function from a state gives [Ok] with the result and the new state,
    [Panic] with the message, or [Blocked] if the thread is waiting and nothing in its
    schedule lets it go on.  The state of the kernel, [kst] (State.v), has one field for
    each global variable of the C code: the process, file, inode, buffer and semaphore
    tables, the log, the pipes, the console, the locks the running CPU holds, physical
    memory as bytes (page tables, trapframes and the free list of kalloc.c live in it, as
    in the machine) and the disk, as a map from block numbers to contents, with the list
    of the writes made to it.

    The model follows one kernel thread.  What the rest of the system does happens where
    the thread gives up the CPU: [world] (State.v) pairs the state with a schedule
    [w_env], a list of functions on the state, and [sched] (Sched.v) lets them act one
    after the other until the process is RUNNABLE.  Theorems about waiting choose the
    schedule (calls of [wakeup], [bsem_up], [bsem_free], [kill] by other processes);
    theorems about code that does not wait hold for every schedule.  Between two such
    points the locks of the source keep other CPUs away from the data; that spin locks do
    this is proved separately, in [Spinlock.Smp], for any interleaving of the memory
    accesses of any number of CPUs.  The disk driver shares memory with a device, so it has
    a model of its own, in which any number of processes, the interrupt handler and the
    device interleave; [virtio_disk_rw] of Bio.v, the contract by which the buffer cache
    uses it, does a whole transfer at once, and the executions of the driver are proved to
    be executions of that contract.  A device that reports errors makes the driver panic.

    User programs have the state their code has: the shell's parser a position in the line,
    its runcmd a tree of system calls, run as processes that the kernel interleaves, malloc the headers in
    its heap, the programs of Programs.v the system behind an interface of system calls.
    The state of mkfs is the image it writes, of the type of the kernel's disk.  Machine
    mode (Start.v) and the trampoline (Trampoline.v) are instructions on a hart's registers,
    control registers and memory.

    Integers keep their C widths: [u8] .. [u64], [s16], [s32] wrap where the source's
    arithmetic can leave the range of its type.

    ** Files

    - Prelude.v (this file): machine integers, the monad, its program logic, loops.
    - Riscv.v, Memory.v, State.v: riscv.h, memlayout.h, param.h; RAM and string.c; the
      data structures and the state of the kernel.
    - Spinlock.v: spinlock.c on a multiprocessor ([Module Smp]) and as the other files use
      it.  Sched.v: sched, yield, sleep, wakeup, the scheduler of proc.c; sleeplock.c.
    - Kalloc.v: kalloc.c, with the class [PageAllocator] by which the page tables use it.
    - Vm.v: vm.c.  PageTable.v, UserMem.v, Uvm.v, Freewalk.v: the invariant [vm_ok] of all
      the page tables together (which page belongs to which address space, as a table of
      which level or as which user page), and what each function of vm.c does to it.
      VmTheorems.v: the theorems about memory.  Isolation.v: sequences of operations on
      address spaces, and the translation of addresses by the hardware.  Demo.v: concrete
      states for witnesses.
    - Bio.v: bio.c.  Virtio.v: virtio_disk.c and the device; VirtioInv.v: its invariant;
      VirtioTheorems.v: its theorems.  Cache.v: the buffer cache as a view of the disk.
    - Log.v: log.c.  Recovery.v: commit, crashes and recovery.
    - Fs.v: fs.c.  Inode.v: reading files.  Blocks.v: the block bitmap inside a transaction.
      Dinode.v: inodes on disk.
    - Console.v: uart.c, console.c, printf.c.  Pipe.v, File.v: pipe.c, file.c.
    - Proc.v: processes of proc.c.  ProcMem.v, ProcTable.v: the address space of a process,
      allocproc and freeproc, and the invariant [procs_ok] of the process table.  ProcDemo.v:
      concrete process tables.  Fork.v, Wait.v: fork and wait.  KernelMap.v: the kernel's
      address space, which kvmmake builds.  Signal.v: the signals of proc.c.  Bsem.v: its
      semaphores.
    - Syscall.v: arguments of system calls, sysproc.c.  Exec.v: exec.c.  Sysfile.v:
      sysfile.c.  Plic.v: plic.c.  Trap.v: syscall dispatch and trap.c.  Trampoline.v:
      trampoline.S.
    - Init.v: what userinit does.  Start.v: entry.S, start.c and the timer interrupt of
      kernelvec.S.  Main.v: main.c.
    - User.v: user/printf.c and parts of user/ulib.c, the system calls (class [Os]) and what
      programs rely on (class [Files]).  Programs.v: cat, echo, wc, ls, rm, mkdir, ln, kill,
      init and zombie.
    - Grep.v: user/grep.c.  Shell.v, ShellTheorems.v: the parser of user/sh.c.  ShellRun.v:
      its runcmd and main.  ShellOrder.v: its processes side by side.  Malloc.v, MallocTheorems.v: user/umalloc.c.
    - Mkfs.v: mkfs/mkfs.c.  MkfsFiles.v: the files of an image under construction.
      MkfsTheorems.v: what mkfs leaves.  Boot.v: the kernel on an image of mkfs.

    ** What the theorems show

    - Memory (VmTheorems.v, Isolation.v): the allocator neither loses nor duplicates a page;
      uvmalloc, uvmdealloc, uvmfree, uvmcopy, uvmclear and mappages do to user memory what
      they promise, on success and on failure, and keep [vm_ok]; copyout, copyin and
      copyinstr move exactly the bytes user code would, or fail at the first address it may
      not touch.  From kinit on, every sequence of these operations and of stores of the user
      programs behaves as if each address space had a private memory.
    - Locks and scheduling (Spinlock.v, Sched.v): mutual exclusion, refinement of an
      atomic lock, interrupts off inside lock sections; sleep and wakeup meet.
    - Processes (Fork.v, Wait.v): each process in use owns an address space and frames that no
      other process shares; fork returns a child that is a copy of its parent, or -1 with
      nothing lost; wait returns a child that has exited and frees every page it had; neither
      touches another process's memory.
    - Start (Start.v, KernelMap.v, Main.v): every hart reaches main, the clock ticks at equal
      intervals without disturbing what it interrupts; kvmmake builds an address space with
      no page both writable and executable, none accessible to user code, and guard pages
      below the stacks; main gets through and leaves the state from which the theorems
      about processes, memory and the buffer cache start.
    - Disk (Cache.v, Recovery.v, Blocks.v, Dinode.v, Inode.v): a block is in one buffer,
      with its current contents; log_write records each block once; a transaction is atomic, wherever the
      machine stops in commit and however often it stops again in recovery; balloc and
      bfree are the operations of a set of free blocks; what iupdate writes ilock reads;
      readi delivers the bytes of the file.
    - Signals (Signal.v): delivery to a user handler and the way back through sigret,
      default actions, kill.  Three theorems describe behaviour that the code cannot have
      been meant to have: after the first handler no signal is delivered any more, a
      second handler in the same pass loses the signal mask, and a stopped process can be
      neither continued nor killed.
    - Semaphores (Bsem.v): the table implements a map from ids to lock bits; bsem_down
      waits for bsem_up as long as the semaphore is not freed, however often it is woken;
      freeing a semaphore strands its waiters.
    - Pipes are queues of bytes (Pipe.v); the trap path dispatches system calls (Trap.v) and
      keeps the user's registers (Trampoline.v); printint prints the number (Console.v).
    - The disk driver (VirtioTheorems.v): it refines the contract by which the buffer
      cache uses it, call by call; it panics only if the device reports an error, loses no
      wakeup, and, without such an error, every call under way can return.
    - mkfs and the kernel (MkfsTheorems.v, Boot.v): the image is a file system that holds
      the files it was given, the kernel mounts it, and ilock and readi of the kernel
      deliver the bytes of the host's files.  A root directory that fills its blocks gets a
      size that is one block too large.
    - The shell (ShellTheorems.v, ShellRun.v, ShellOrder.v): the parser returns for every
      line, stays in its arrays and inverts a printer; runcmd starts every program with the
      descriptors the command asks for; in every interleaving without a failing fork, lines
      without commands in the background are run one after the other.
    - malloc and free (MallocTheorems.v): blocks in use are disjoint and large enough,
      calls return, and freeing all blocks restores one block.
    - printf of user programs writes what its format says (User.v); cat copies, wc counts and
      ls lists (Programs.v), on every system with the laws of [Files] that has descriptors
      left.
    - grep's matcher decides the regular language of its pattern, and grep prints the
      matching lines (Grep.v).

    ** Fuel

    Loops that are not structural take fuel, and the functions that call them supply
    enough: copyout, copyin and copyinstr the number of bytes, as each turn moves at least
    one; readi and writei likewise; the scans of the buffer list one more than the number
    of buffers; printint 32 digits (10 are enough); the loops that wait ([bsem_down],
    [wait], [piperead], [sigstopHandler] and others) the length of the schedule, plus the
    work that needs no waiting, as each sleep uses up an element; the shell's parser more
    than the length of the line; malloc and free the number of units of the heap; the
    interrupt handler the distance of the two ring indices; user programs that read a file
    more than its length.  The theorems say that
    the functions return, so the fuel is proved to be enough where they apply.

    ** Parameters

    The addresses of linker symbols and of assembly code ([KSyms], with the facts of
    kernel.ld as [ksyms_ok], [trampoline_ok] and [image_ok]; [MSyms] for machine mode), the
    contents of kernel memory that sigaction reads past the end of a field ([SlotTail]),
    what the PLIC's registers return and the disk's interrupt handler (Trap.v), the virtio
    device, which may refuse requests ([device_spec], Virtio.v), which calls of sbrk succeed
    (Malloc.v), which files the shell's processes can open and execute (ShellRun.v), the
    system calls of the other user programs ([Os], with the documented behaviour of files as
    [Files]; User.v), the files of the host that runs mkfs, which is little-endian (Mkfs.v).

    ** Not modelled

    ramdisk.c, which the kernel does not contain; the register saving of kernelvec and
    swtch.S; the programming of the UART by uartinit; grep's main; the tests; the accessed
    and dirty bits of page-table entries.  Writes of one block are atomic with respect to
    crashes. *)

From stdpp Require Import base gmap list strings option numbers.
From Stdlib Require Import ZArith Lia.

#[global] Open Scope Z_scope.

(** ** Machine integers

    A C integer of width [w] is a [Z]; every operation of the source that can
    leave the range of its type wraps explicitly with one of these. *)

Definition u8 (x : Z) : Z := x mod 2 ^ 8.
Definition u16 (x : Z) : Z := x mod 2 ^ 16.
Definition u32 (x : Z) : Z := x mod 2 ^ 32.
Definition u64 (x : Z) : Z := x mod 2 ^ 64.
Definition s16 (x : Z) : Z := (x + 2 ^ 15) mod 2 ^ 16 - 2 ^ 15.
Definition s32 (x : Z) : Z := (x + 2 ^ 31) mod 2 ^ 32 - 2 ^ 31.

(** ** Outcomes of kernel code

    A run of a C function from a state either returns a value and a new state,
    or calls [panic] (which never returns), or sleeps in a state from which
    nothing in its schedule ever lets it run again. *)

Inductive res (St A : Type) : Type :=
| Ok (a : A) (s : St)
| Panic (msg : string) (s : St)
| Blocked (s : St).
Arguments Ok {St A} a s.
Arguments Panic {St A} msg s.
Arguments Blocked {St A} s.

Definition M (St A : Type) : Type := St -> res St A.

#[export] Instance M_ret {St} : MRet (M St) := fun A a s => Ok a s.

#[export] Instance M_bind {St} : MBind (M St) := fun A B k m s =>
  match m s with
  | Ok a s' => k a s'
  | Panic msg s' => Panic msg s'
  | Blocked s' => Blocked s'
  end.

Definition panic {St A} (msg : string) : M St A := fun s => Panic msg s.
(** Never returns. *)
Definition block {St A} : M St A := fun s => Blocked s.
Definition gets {St A} (f : St -> A) : M St A := fun s => Ok (f s) s.
Definition modify {St} (f : St -> St) : M St unit := fun s => Ok tt (f s).
Definition when {St} (b : bool) (m : M St unit) : M St unit :=
  if b then m else mret tt.

(** [for_each l body] is a [for] loop over the elements of [l]. *)
Fixpoint for_each {St A} (l : list A) (body : A -> M St unit) : M St unit :=
  match l with
  | [] => mret tt
  | x :: l => body x;; for_each l body
  end.

(** [for_until l body] is a [for] loop with an early [return] in its body. *)
Fixpoint for_until {St A R} (l : list A) (body : A -> M St (option R)) : M St (option R) :=
  match l with
  | [] => mret None
  | x :: l =>
      r ← body x;
      match r with
      | Some v => mret (Some v)
      | None => for_until l body
      end
  end.

(** ** Program logic

    [wpx P B m Q s]: a run of [m] from [s] that returns satisfies [Q], one that panics
    satisfies [P], and one that never returns satisfies [B].  [wp] is the total
    reading: [m] returns, and its result satisfies [Q]. *)

Definition wpx {St A} (P : string -> St -> Prop) (B : St -> Prop)
    (m : M St A) (Q : A -> St -> Prop) (s : St) : Prop :=
  match m s with
  | Ok a s' => Q a s'
  | Panic msg s' => P msg s'
  | Blocked s' => B s'
  end.

Definition wp {St A} (m : M St A) (Q : A -> St -> Prop) (s : St) : Prop :=
  wpx (fun _ _ => False) (fun _ => False) m Q s.

Section Wp.
Context {St : Type} (P : string -> St -> Prop) (B : St -> Prop).

Lemma wpx_ret {A} (a : A) Q s : Q a s -> wpx P B (mret a) Q s.
Proof. done. Qed.

Lemma wpx_bind {A C} (m : M St A) (k : A -> M St C) Q s :
  wpx P B m (fun a => wpx P B (k a) Q) s -> wpx P B (m ≫= k) Q s.
Proof. unfold wpx, mbind, M_bind. by destruct (m s). Qed.

Lemma wpx_mono {A} (m : M St A) (Q Q' : A -> St -> Prop) s :
  wpx P B m Q s -> (forall a s', Q a s' -> Q' a s') -> wpx P B m Q' s.
Proof. unfold wpx. destruct (m s); auto. Qed.

Lemma wpx_gets {A} (f : St -> A) (Q : A -> St -> Prop) s :
  Q (f s) s -> wpx P B (gets f) Q s.
Proof. done. Qed.

Lemma wpx_modify (f : St -> St) (Q : unit -> St -> Prop) s :
  Q tt (f s) -> wpx P B (modify f) Q s.
Proof. done. Qed.

Lemma wpx_panic {A} msg (Q : A -> St -> Prop) s : P msg s -> wpx P B (panic msg) Q s.
Proof. done. Qed.

Lemma wpx_when b (m : M St unit) Q s :
  (b = true -> wpx P B m Q s) -> (b = false -> Q tt s) -> wpx P B (when b m) Q s.
Proof. destruct b; cbn; auto. Qed.

(** A loop keeps an invariant indexed by the elements already visited. *)
Lemma wpx_for_each {A} (l : list A) (body : A -> M St unit)
    (I : list A -> St -> Prop) Q s :
  I [] s ->
  (forall done x rest s, l = done ++ x :: rest -> I done s ->
     wpx P B (body x) (fun _ => I (done ++ [x])) s) ->
  (forall s, I l s -> Q tt s) ->
  wpx P B (for_each l body) Q s.
Proof.
  intros H0 Hstep HQ.
  assert (Hgen : forall rest dn s, l = dn ++ rest -> I dn s ->
    wpx P B (for_each rest body) Q s).
  { induction rest as [|x rest IH]; intros dn s1 Hl HI.
    - rewrite app_nil_r in Hl. subst dn. by apply HQ.
    - simpl. apply wpx_bind. eapply wpx_mono; [by eapply Hstep|].
      intros u s2 HI2. apply (IH (dn ++ [x])); [by rewrite <- app_assoc|done]. }
  by apply (Hgen l []).
Qed.

(** A search loop: the invariant holds while nothing is found. *)
Lemma wpx_for_until {A R} (l : list A) (body : A -> M St (option R))
    (I : list A -> St -> Prop) (Q : option R -> St -> Prop) s :
  I [] s ->
  (forall done x rest s, l = done ++ x :: rest -> I done s ->
     wpx P B (body x) (fun r s' =>
       match r with Some v => Q (Some v) s' | None => I (done ++ [x]) s' end) s) ->
  (forall s, I l s -> Q None s) ->
  wpx P B (for_until l body) Q s.
Proof.
  intros H0 Hstep HQ.
  assert (Hgen : forall rest dn s, l = dn ++ rest -> I dn s ->
    wpx P B (for_until rest body) Q s).
  { induction rest as [|x rest IH]; intros dn s1 Hl HI.
    - rewrite app_nil_r in Hl. subst dn. by apply HQ.
    - simpl. apply wpx_bind. eapply wpx_mono; [by eapply Hstep|].
      intros [v|] s2 H2; [done|].
      apply (IH (dn ++ [x])); [by rewrite <- app_assoc|done]. }
  by apply (Hgen l []).
Qed.

End Wp.

Lemma wp_run {St A} (m : M St A) (Q : A -> St -> Prop) s :
  wp m Q s <-> exists a s', m s = Ok a s' /\ Q a s'.
Proof.
  unfold wp, wpx. destruct (m s) as [a s'| |]; split.
  - intros H. by exists a, s'.
  - intros (x & y & [= -> ->] & H). done.
  - done.
  - by intros (x & y & [=] & _).
  - done.
  - by intros (x & y & [=] & _).
Qed.

Lemma run_wp {St A} (m : M St A) s a s' :
  wp m (fun x y => x = a /\ y = s') s -> m s = Ok a s'.
Proof. intros H. apply wp_run in H as (x & y & H & -> & ->). done. Qed.

(** One bind whose first part is known to return. *)
Lemma run_bind {St A C} (m : M St A) (k : A -> M St C) s a s' :
  m s = Ok a s' -> (m ≫= k) s = k a s'.
Proof. intros H. unfold mbind, M_bind. by rewrite H. Qed.

Lemma wp_of_run {St A} P B (m : M St A) (Q : A -> St -> Prop) s a s' :
  m s = Ok a s' -> Q a s' -> wpx P B m Q s.
Proof. intros H. unfold wpx. by rewrite H. Qed.

(** ** Search loops *)

(** A loop whose body does nothing until it finds an element that satisfies [P]; with
    that element its run is [r]. *)
Lemma for_until_found {St A R} (l : list A) (P : A -> bool) (body : A -> M St (option R)) s x r :
  (forall y, P y = false -> body y s = Ok None s) -> List.find P l = Some x ->
  body x s = r -> (forall s', r <> Ok None s') -> for_until l body s = r.
Proof.
  intros H0 Hf Hr Hn. induction l as [|y l IH]; [done|]. cbn in Hf |- *.
  destruct (P y) eqn:Hy.
  - injection Hf as ->. unfold mbind, M_bind. rewrite Hr. destruct r as [[v|] s'| |]; try done.
    by destruct (Hn s').
  - rewrite (run_bind _ _ _ None s) by (by apply H0). by apply IH.
Qed.

Lemma for_until_not_found {St A R} (l : list A) (P : A -> bool) (body : A -> M St (option R)) s :
  (forall y, P y = false -> body y s = Ok None s) -> List.find P l = None ->
  for_until l body s = Ok None s.
Proof.
  intros H0 Hf. induction l as [|y l IH]; [done|]. cbn in Hf |- *.
  destruct (P y) eqn:Hy; [done|]. rewrite (run_bind _ _ _ None s) by (by apply H0). by apply IH.
Qed.

(** The first index below [n] that satisfies [P]. *)
Definition first_slot (P : nat -> bool) (n : nat) : option nat := List.find P (seq 0 n).

Lemma find_seq_Some P k n i : List.find P (seq k n) = Some i <->
  (k <= i < k + n)%nat /\ P i = true /\ forall j, (k <= j < i)%nat -> P j = false.
Proof.
  revert k. induction n as [|n IH]; intros k; cbn.
  - split; [done|]. lia.
  - destruct (P k) eqn:Hk.
    + split.
      * intros [= <-]. repeat split; [lia|lia|done|lia].
      * intros (Hi & HP & Hf). f_equal. destruct (decide (k = i)) as [|Hne]; [done|].
        rewrite Hf in Hk by lia. done.
    + rewrite IH. split.
      * intros (Hi & HP & Hf). split; [lia|]. split; [done|]. intros j Hj.
        destruct (decide (j = k)) as [->|]; [done|]. apply Hf. lia.
      * intros (Hi & HP & Hf). assert (k <> i) by congruence. split; [lia|]. split; [done|].
        intros j Hj. apply Hf. lia.
Qed.

Lemma first_slot_Some P n i : first_slot P n = Some i <->
  (i < n)%nat /\ P i = true /\ forall j, (j < i)%nat -> P j = false.
Proof.
  unfold first_slot. rewrite find_seq_Some. split.
  - intros (H1 & H2 & H3). repeat split; [lia|done|]. intros j Hj. apply H3. lia.
  - intros (H1 & H2 & H3). repeat split; [lia|lia|done|]. intros j Hj. apply H3. lia.
Qed.

Lemma first_slot_None P n : first_slot P n = None <-> forall j, (j < n)%nat -> P j = false.
Proof.
  unfold first_slot. split.
  - intros H j Hj. apply (List.find_none _ _ H). apply in_seq. lia.
  - intros H. destruct (List.find P (seq 0 n)) as [i|] eqn:Hf; [|done].
    apply find_seq_Some in Hf as (Hi & HP & _). rewrite H in HP by lia. done.
Qed.

Lemma run_bind_assoc {St A B C} (m : M St A) (f : A -> M St B) (g : B -> M St C) s :
  ((m ≫= f) ≫= g) s = (m ≫= (fun x => f x ≫= g)) s.
Proof. unfold mbind, M_bind. by destruct (m s). Qed.
