(* ===== verification/Riscv.v ===== *)
(** * Machine layout: riscv.h, memlayout.h, param.h, types.h

    The page and page-table arithmetic of kernel/riscv.h, the address-space
    layout of kernel/memlayout.h, the limits of kernel/param.h, and the
    addresses the linker and the assembly files provide. *)

From stdpp Require Import base list.
From Stdlib Require Import ZArith Lia.
From S2P Require Import Prelude.

(** ** Limits (param.h, types.h, proc.h) *)

Definition NPROC : nat := 64.
Definition NCPU : nat := 8.
Definition NOFILE : nat := 16.
Definition NFILE : nat := 100.
Definition NINODE : nat := 50.
Definition NDEV : Z := 10.
Definition ROOTDEV : Z := 1.
Definition MAXARG : nat := 32.
Definition MAXOPBLOCKS : Z := 10.
Definition LOGSIZE : Z := MAXOPBLOCKS * 3.
Definition NBUF : nat := 30.
Definition FSSIZE : Z := 1000.
Definition MAXPATH : Z := 128.

Definition SIG_DFL : Z := 0.
Definition SIG_IGN : Z := 1.
Definition SIGKILL : Z := 9.
Definition SIGSTOP : Z := 17.
Definition SIGCONT : Z := 19.
Definition MAX_BSEM : nat := 128.

(** ** Pages and page-table entries (riscv.h) *)

Definition PGSIZE : Z := 4096.
Definition PGSHIFT : Z := 12.

Definition PGROUNDUP (sz : Z) : Z :=
  Z.land (u64 (sz + PGSIZE - 1)) (Z.lnot (PGSIZE - 1)).
Definition PGROUNDDOWN (a : Z) : Z := Z.land a (Z.lnot (PGSIZE - 1)).

Definition PTE_V : Z := Z.shiftl 1 0.
Definition PTE_R : Z := Z.shiftl 1 1.
Definition PTE_W : Z := Z.shiftl 1 2.
Definition PTE_X : Z := Z.shiftl 1 3.
Definition PTE_U : Z := Z.shiftl 1 4.

Definition PA2PTE (pa : Z) : Z := u64 (Z.shiftl (Z.shiftr pa 12) 10).
Definition PTE2PA (pte : Z) : Z := u64 (Z.shiftl (Z.shiftr pte 10) 12).
Definition PTE_FLAGS (pte : Z) : Z := Z.land pte 0x3FF.

Definition PXMASK : Z := 0x1FF.
Definition PXSHIFT (level : Z) : Z := PGSHIFT + 9 * level.
Definition PX (level va : Z) : Z := Z.land (Z.shiftr va (PXSHIFT level)) PXMASK.

Definition MAXVA : Z := Z.shiftl 1 (9 + 9 + 9 + 12 - 1).

Definition SATP_SV39 : Z := Z.shiftl 8 60.
Definition MAKE_SATP (pagetable : Z) : Z := Z.lor SATP_SV39 (Z.shiftr pagetable 12).

(** ** Status bits of the trap registers (riscv.h) *)

Definition SSTATUS_SPP : Z := Z.shiftl 1 8.
Definition SSTATUS_SPIE : Z := Z.shiftl 1 5.
Definition SSTATUS_SIE : Z := Z.shiftl 1 1.

(** ** Address-space layout (memlayout.h) *)

Definition UART0 : Z := 0x10000000.
Definition UART0_IRQ : Z := 10.
Definition VIRTIO0 : Z := 0x10001000.
Definition VIRTIO0_IRQ : Z := 1.
Definition PLIC : Z := 0x0c000000.
Definition KERNBASE : Z := 0x80000000.
Definition PHYSTOP : Z := KERNBASE + 128 * 1024 * 1024.
Definition TRAMPOLINE : Z := MAXVA - PGSIZE.
Definition KSTACK (p : Z) : Z := TRAMPOLINE - (p + 1) * 2 * PGSIZE.
Definition TRAPFRAME : Z := TRAMPOLINE - PGSIZE.

(** ** What the linker and the assembly files provide

    [ksym_end] is kernel.ld's [end], [ksym_etext] its [etext]; the others are
    the addresses of code in trampoline.S, kernelvec.S and the C functions whose
    address the kernel stores; [sigret_code] is the bytes between
    [sigret_func_start] and [sigret_func_end] of trampoline.S. *)
Class KSyms := {
  ksym_end : Z;
  ksym_etext : Z;
  ksym_trampoline : Z;
  ksym_uservec : Z;
  ksym_userret : Z;
  ksym_kernelvec : Z;
  ksym_forkret : Z;
  ksym_usertrap : Z;
  sigret_code : list Z
}.

(** Every page the allocator hands out lies between the end of the kernel image
    and the top of RAM; the image is loaded at [KERNBASE]. *)
Definition ksyms_ok (KS : KSyms) : Prop :=
  KERNBASE <= ksym_end /\ ksym_end <= PHYSTOP.

(** ** Arithmetic of the macros *)

Lemma land_lnot_low (a : Z) : Z.land a (Z.lnot (PGSIZE - 1)) = a / PGSIZE * PGSIZE.
Proof.
  change (PGSIZE - 1) with (Z.ones 12). rewrite <- Z.ldiff_land.
  rewrite Z.ldiff_ones_r by lia. rewrite Z.shiftr_div_pow2, Z.shiftl_mul_pow2 by lia.
  reflexivity.
Qed.

Lemma PGROUNDDOWN_div (a : Z) : PGROUNDDOWN a = a / PGSIZE * PGSIZE.
Proof. apply land_lnot_low. Qed.

Lemma PGROUNDUP_div (sz : Z) :
  0 <= sz < 2 ^ 64 - PGSIZE -> PGROUNDUP sz = (sz + PGSIZE - 1) / PGSIZE * PGSIZE.
Proof.
  intros H. unfold PGROUNDUP. rewrite land_lnot_low.
  unfold u64. rewrite Z.mod_small by (unfold PGSIZE in *; lia). reflexivity.
Qed.

Lemma PX_div (level va : Z) :
  0 <= level -> PX level va = (va / 2 ^ (12 + 9 * level)) mod 512.
Proof.
  intros H. unfold PX, PXMASK, PXSHIFT, PGSHIFT.
  change 0x1FF with (Z.ones 9). rewrite Z.land_ones by lia.
  rewrite Z.shiftr_div_pow2 by lia. reflexivity.
Qed.

Lemma PX_bound (level va : Z) : 0 <= level -> 0 <= PX level va < 512.
Proof. intros H. rewrite PX_div by lia. apply Z.mod_pos_bound. lia. Qed.

(** The three indices and the page offset determine the address below [MAXVA]. *)
Lemma PX_decompose (va : Z) :
  0 <= va < MAXVA ->
  va = PX 2 va * 2 ^ 30 + PX 1 va * 2 ^ 21 + PX 0 va * 2 ^ 12 + va mod PGSIZE.
Proof.
  intros H. rewrite !PX_div by lia. unfold MAXVA, PGSIZE in *.
  change (Z.shiftl 1 _) with (2 ^ 38) in H.
  change (2 ^ (12 + 9 * 2)) with (2 ^ 30). change (2 ^ (12 + 9 * 1)) with (2 ^ 21).
  change (2 ^ (12 + 9 * 0)) with (2 ^ 12).
  Z.div_mod_to_equations. lia.
Qed.

Lemma PA2PTE_div (pa : Z) : 0 <= pa < 2 ^ 64 -> PA2PTE pa = pa / 4096 * 1024.
Proof.
  intros H. unfold PA2PTE, u64.
  rewrite Z.shiftr_div_pow2, Z.shiftl_mul_pow2 by lia.
  change (2 ^ 12) with 4096. change (2 ^ 10) with 1024.
  apply Z.mod_small. Z.div_mod_to_equations. lia.
Qed.

Lemma PTE2PA_div (pte : Z) : 0 <= pte < 2 ^ 54 -> PTE2PA pte = pte / 1024 * 4096.
Proof.
  intros H. unfold PTE2PA, u64.
  rewrite Z.shiftr_div_pow2, Z.shiftl_mul_pow2 by lia.
  change (2 ^ 12) with 4096. change (2 ^ 10) with 1024.
  apply Z.mod_small. Z.div_mod_to_equations. lia.
Qed.
