(* ===== verification/Memory.v ===== *)
(** * Byte-addressed memory and kernel/string.c

    Physical RAM is a finite map from addresses to bytes.  64-bit words are
    eight bytes in little-endian order, as on RISC-V.  The functions of
    kernel/string.c are the loops of the source over this memory; the ones that
    only read a C string take the string as the function from an index to the
    byte at that index, so that they apply to RAM and to a kernel array alike. *)

From stdpp Require Import base gmap list.
From Stdlib Require Import ZArith Lia.
From S2P Require Import Prelude.

Abbreviation mem := (gmap Z Z).

(** ** Loads and stores *)

Definition ld8 (m : mem) (a : Z) : Z := u8 (default 0 (m !! a)).
Definition st8 (m : mem) (a v : Z) : mem := <[a := u8 v]> m.

Fixpoint ld_bytes (m : mem) (a : Z) (n : nat) : list Z :=
  match n with
  | O => []
  | S n => ld8 m a :: ld_bytes m (a + 1) n
  end.

Fixpoint st_bytes (m : mem) (a : Z) (l : list Z) : mem :=
  match l with
  | [] => m
  | b :: l => st_bytes (st8 m a b) (a + 1) l
  end.

Fixpoint le_split (n : nat) (v : Z) : list Z :=
  match n with
  | O => []
  | S n => u8 v :: le_split n (v / 256)
  end.

Fixpoint le_combine (l : list Z) : Z :=
  match l with
  | [] => 0
  | b :: l => u8 b + 256 * le_combine l
  end.

Definition ld64 (m : mem) (a : Z) : Z := le_combine (ld_bytes m a 8).
Definition st64 (m : mem) (a v : Z) : mem := st_bytes m a (le_split 8 v).
Definition ld32 (m : mem) (a : Z) : Z := le_combine (ld_bytes m a 4).
Definition st32 (m : mem) (a v : Z) : mem := st_bytes m a (le_split 4 v).

(** ** string.c *)

Fixpoint memset (m : mem) (dst c : Z) (n : nat) : mem :=
  match n with
  | O => m
  | S n => memset (st8 m dst c) (dst + 1) c n
  end.

Fixpoint memcmp (m : mem) (s1 s2 : Z) (n : nat) : Z :=
  match n with
  | O => 0
  | S n =>
      if negb (ld8 m s1 =? ld8 m s2) then ld8 m s1 - ld8 m s2
      else memcmp m (s1 + 1) (s2 + 1) n
  end.

(** [while(n-- > 0) *d++ = *s++] *)
Fixpoint copy_forward (m : mem) (d s : Z) (n : nat) : mem :=
  match n with
  | O => m
  | S n => copy_forward (st8 m d (ld8 m s)) (d + 1) (s + 1) n
  end.

(** [while(n-- > 0) *--d = *--s] *)
Fixpoint copy_backward (m : mem) (d s : Z) (n : nat) : mem :=
  match n with
  | O => m
  | S n => copy_backward (st8 m (d - 1) (ld8 m (s - 1))) (d - 1) (s - 1) n
  end.

Definition memmove (m : mem) (dst src : Z) (n : nat) : mem :=
  if (src <? dst) && (dst <? src + Z.of_nat n) then
    copy_backward m (dst + Z.of_nat n) (src + Z.of_nat n) n
  else copy_forward m dst src n.

Definition memcpy (m : mem) (dst src : Z) (n : nat) : mem := memmove m dst src n.

(** A C string: the byte at each index. *)
Definition cstr : Type := nat -> Z.
Definition str_of_list (l : list Z) : cstr := fun i => nth i l 0.
Definition str_of_mem (m : mem) (a : Z) : cstr := fun i => ld8 m (a + Z.of_nat i).

Fixpoint strncmp_from (p q : cstr) (i n : nat) : Z :=
  match n with
  | O => 0
  | S n =>
      if negb (p i =? 0) && (p i =? q i) then strncmp_from p q (S i) n
      else u8 (p i) - u8 (q i)
  end.
Definition strncmp (p q : cstr) (n : nat) : Z := strncmp_from p q 0 n.

(** The bytes [strncpy(s, t, n)] writes at [s], in order. *)
Fixpoint strncpy_from (t : cstr) (i n : nat) : list Z :=
  match n with
  | O => []
  | S n =>
      if t i =? 0 then t i :: replicate n 0
      else t i :: strncpy_from t (S i) n
  end.
Definition strncpy (t : cstr) (n : nat) : list Z := strncpy_from t 0 n.

(** The bytes [safestrcpy(s, t, n)] writes at [s], in order; the loop counter of
    the source is [n - 1] when the first byte is copied. *)
Fixpoint safestrcpy_from (t : cstr) (i n : nat) : list Z :=
  match n with
  | O => [0]
  | S n =>
      if t i =? 0 then [t i; 0]
      else t i :: safestrcpy_from t (S i) n
  end.
Definition safestrcpy (t : cstr) (n : Z) : list Z :=
  if n <=? 0 then [] else safestrcpy_from t 0 (Z.to_nat (n - 1)).

(** [strlen] scans for the first NUL; [None] when there is none among the first
    [fuel] bytes. *)
Fixpoint strlen_from (s : cstr) (n fuel : nat) : option Z :=
  match fuel with
  | O => None
  | S fuel => if s n =? 0 then Some (Z.of_nat n) else strlen_from s (S n) fuel
  end.
Definition strlen (s : cstr) (fuel : nat) : option Z := strlen_from s 0 fuel.

(** ** Loads and stores: laws *)

Create HintDb mem.

Lemma u8_range (x : Z) : 0 <= u8 x < 256.
Proof. apply Z.mod_pos_bound. lia. Qed.

Lemma u8_small (x : Z) : 0 <= x < 256 -> u8 x = x.
Proof. intros. apply Z.mod_small. lia. Qed.

Lemma u8_u8 (x : Z) : u8 (u8 x) = u8 x.
Proof. apply u8_small, u8_range. Qed.

Lemma ld8_range (m : mem) (a : Z) : 0 <= ld8 m a < 256.
Proof. apply u8_range. Qed.

Lemma ld8_st8 (m : mem) (a b v : Z) :
  ld8 (st8 m a v) b = if a =? b then u8 v else ld8 m b.
Proof.
  unfold ld8, st8. destruct (Z.eqb_spec a b) as [->|Hne].
  - rewrite lookup_insert_eq. cbn. apply u8_u8.
  - by rewrite lookup_insert_ne.
Qed.

Lemma ld8_st_bytes (m : mem) (a b : Z) (l : list Z) :
  ld8 (st_bytes m a l) b =
  if (a <=? b) && (b <? a + Z.of_nat (length l)) then u8 (nth (Z.to_nat (b - a)) l 0)
  else ld8 m b.
Proof.
  revert m a; induction l as [|x l IH]; intros m a; cbn [st_bytes length].
  - destruct (Z.leb_spec a b), (Z.ltb_spec b (a + Z.of_nat 0)); cbn; try reflexivity; lia.
  - rewrite IH, ld8_st8.
    destruct (Z.leb_spec (a + 1) b), (Z.ltb_spec b (a + 1 + Z.of_nat (length l))),
      (Z.leb_spec a b), (Z.ltb_spec b (a + Z.of_nat (S (length l)))),
      (Z.eqb_spec a b); cbn [andb]; try lia; try reflexivity.
    + replace (Z.to_nat (b - a)) with (S (Z.to_nat (b - (a + 1)))) by lia. reflexivity.
    + replace (Z.to_nat (b - a)) with 0%nat by lia. reflexivity.
Qed.

Lemma length_ld_bytes (m : mem) (a : Z) (n : nat) : length (ld_bytes m a n) = n.
Proof. revert a; induction n; intros; cbn; auto. Qed.

Lemma nth_ld_bytes (m : mem) (a : Z) (n i : nat) :
  (i < n)%nat -> nth i (ld_bytes m a n) 0 = ld8 m (a + Z.of_nat i).
Proof.
  revert a i; induction n as [|n IH]; intros a i Hi; [lia|].
  destruct i; cbn.
  - f_equal. lia.
  - rewrite IH by lia. f_equal. lia.
Qed.

Lemma ld_bytes_ext (m m' : mem) (a : Z) (n : nat) :
  (forall i, 0 <= i < Z.of_nat n -> ld8 m (a + i) = ld8 m' (a + i)) ->
  ld_bytes m a n = ld_bytes m' a n.
Proof.
  revert a; induction n as [|n IH]; intros a H; cbn; [reflexivity|].
  f_equal.
  - specialize (H 0 ltac:(lia)). by rewrite Z.add_0_r in H.
  - apply IH. intros i Hi. specialize (H (i + 1) ltac:(lia)).
    by replace (a + 1 + i) with (a + (i + 1)) by lia.
Qed.

Lemma ld_bytes_st_bytes_ne (m : mem) (a b : Z) (n : nat) (l : list Z) :
  a + Z.of_nat (length l) <= b \/ b + Z.of_nat n <= a ->
  ld_bytes (st_bytes m a l) b n = ld_bytes m b n.
Proof.
  intros H. apply ld_bytes_ext. intros i Hi. rewrite ld8_st_bytes.
  destruct (Z.leb_spec a (b + i)), (Z.ltb_spec (b + i) (a + Z.of_nat (length l)));
    cbn; try reflexivity; lia.
Qed.

Lemma ld_bytes_st_bytes_eq (m : mem) (a : Z) (l : list Z) :
  ld_bytes (st_bytes m a l) a (length l) = u8 <$> l.
Proof.
  apply (list_eq_same_length _ _ (length l)); rewrite ?length_ld_bytes, ?length_fmap; auto.
  intros i x y Hi Hx Hy.
  apply (nth_lookup_Some _ _ 0) in Hx. rewrite nth_ld_bytes in Hx by lia.
  rewrite ld8_st_bytes in Hx.
  destruct (Z.leb_spec a (a + Z.of_nat i)), (Z.ltb_spec (a + Z.of_nat i) (a + Z.of_nat (length l)));
    cbn in Hx; try lia.
  rewrite list_lookup_fmap in Hy. apply fmap_Some in Hy as (z & Hz & ->).
  apply (nth_lookup_Some _ _ 0) in Hz.
  replace (Z.to_nat (a + Z.of_nat i - a)) with i in Hx by lia. congruence.
Qed.

Lemma length_le_split (n : nat) (v : Z) : length (le_split n v) = n.
Proof. revert v; induction n; intros; cbn; auto. Qed.

Lemma fmap_u8_le_split (n : nat) (v : Z) : u8 <$> le_split n v = le_split n v.
Proof. revert v; induction n as [|n IH]; intros; cbn; [done|]. by rewrite u8_u8, IH. Qed.

Lemma le_combine_fmap_u8 (l : list Z) : le_combine (u8 <$> l) = le_combine l.
Proof. induction l as [|x l IH]; cbn; [done|]. by rewrite u8_u8, IH. Qed.

Lemma le_combine_le_split (n : nat) (v : Z) :
  le_combine (le_split n v) = v mod 2 ^ (8 * Z.of_nat n).
Proof.
  revert v; induction n as [|n IH]; intros v.
  - cbn. by rewrite Z.mod_1_r.
  - cbn [le_split le_combine]. rewrite IH, u8_u8. unfold u8.
    replace (8 * Z.of_nat (S n)) with (8 + 8 * Z.of_nat n) by lia.
    rewrite Z.pow_add_r by lia. change (2 ^ 8) with 256.
    rewrite Z.rem_mul_r by lia. reflexivity.
Qed.

Lemma le_combine_range (l : list Z) : 0 <= le_combine l < 2 ^ (8 * Z.of_nat (length l)).
Proof.
  induction l as [|x l IH]; cbn [le_combine length]; [cbn; lia|].
  pose proof (u8_range x).
  replace (8 * Z.of_nat (S (length l))) with (8 + 8 * Z.of_nat (length l)) by lia.
  rewrite Z.pow_add_r by lia. change (2 ^ 8) with 256. lia.
Qed.

Lemma ld64_range (m : mem) (a : Z) : 0 <= ld64 m a < 2 ^ 64.
Proof.
  unfold ld64. pose proof (le_combine_range (ld_bytes m a 8)) as H.
  rewrite length_ld_bytes in H. exact H.
Qed.

Lemma ld64_st64_eq (m : mem) (a v : Z) : ld64 (st64 m a v) a = u64 v.
Proof.
  unfold ld64, st64.
  pose proof (ld_bytes_st_bytes_eq m a (le_split 8 v)) as H.
  rewrite length_le_split in H. rewrite H, fmap_u8_le_split, le_combine_le_split.
  reflexivity.
Qed.

Lemma ld64_st64_ne (m : mem) (a b v : Z) :
  a + 8 <= b \/ b + 8 <= a -> ld64 (st64 m a v) b = ld64 m b.
Proof.
  intros H. unfold ld64, st64. f_equal. apply ld_bytes_st_bytes_ne.
  rewrite length_le_split. lia.
Qed.

Lemma ld64_ext (m m' : mem) (a : Z) :
  (forall i, 0 <= i < 8 -> ld8 m (a + i) = ld8 m' (a + i)) -> ld64 m a = ld64 m' a.
Proof. intros H. unfold ld64. f_equal. apply ld_bytes_ext. intros. apply H. lia. Qed.

Lemma ld8_st64_ne (m : mem) (a b v : Z) :
  b < a \/ a + 8 <= b -> ld8 (st64 m a v) b = ld8 m b.
Proof.
  intros H. unfold st64. rewrite ld8_st_bytes, length_le_split.
  destruct (Z.leb_spec a b), (Z.ltb_spec b (a + Z.of_nat 8)); cbn [andb]; try reflexivity; lia.
Qed.

(** ** string.c: what the loops compute *)

Lemma ld8_memset (m : mem) (dst c a : Z) (n : nat) :
  ld8 (memset m dst c n) a =
  if (dst <=? a) && (a <? dst + Z.of_nat n) then u8 c else ld8 m a.
Proof.
  revert m dst; induction n as [|n IH]; intros m dst; cbn [memset].
  - destruct (Z.leb_spec dst a), (Z.ltb_spec a (dst + Z.of_nat 0)); cbn; try reflexivity; lia.
  - rewrite IH, ld8_st8.
    destruct (Z.leb_spec (dst + 1) a), (Z.ltb_spec a (dst + 1 + Z.of_nat n)),
      (Z.leb_spec dst a), (Z.ltb_spec a (dst + Z.of_nat (S n))),
      (Z.eqb_spec dst a); cbn [andb]; try lia; try reflexivity.
Qed.

Lemma ld8_copy_forward (m : mem) (d s a : Z) (n : nat) :
  d <= s \/ s + Z.of_nat n <= d ->
  ld8 (copy_forward m d s n) a =
  if (d <=? a) && (a <? d + Z.of_nat n) then ld8 m (s + (a - d)) else ld8 m a.
Proof.
  revert m d s; induction n as [|n IH]; intros m d s H; cbn [copy_forward].
  - destruct (Z.leb_spec d a), (Z.ltb_spec a (d + Z.of_nat 0)); cbn; try reflexivity; lia.
  - rewrite IH by lia. rewrite !ld8_st8.
    destruct (Z.leb_spec (d + 1) a), (Z.ltb_spec a (d + 1 + Z.of_nat n)),
      (Z.leb_spec d a), (Z.ltb_spec a (d + Z.of_nat (S n))),
      (Z.eqb_spec d a), (Z.eqb_spec d (s + 1 + (a - (d + 1))));
      cbn [andb]; try lia; try reflexivity;
      rewrite ?u8_small by apply ld8_range; f_equal; lia.
Qed.

Lemma ld8_copy_backward (m : mem) (d s a : Z) (n : nat) :
  s <= d ->
  ld8 (copy_backward m d s n) a =
  if (d - Z.of_nat n <=? a) && (a <? d) then ld8 m (s + (a - d)) else ld8 m a.
Proof.
  revert m d s; induction n as [|n IH]; intros m d s H; cbn [copy_backward].
  - destruct (Z.leb_spec (d - Z.of_nat 0) a), (Z.ltb_spec a d); cbn; try reflexivity; lia.
  - rewrite IH by lia. rewrite !ld8_st8.
    destruct (Z.leb_spec (d - 1 - Z.of_nat n) a), (Z.ltb_spec a (d - 1)),
      (Z.leb_spec (d - Z.of_nat (S n)) a), (Z.ltb_spec a d),
      (Z.eqb_spec (d - 1) a), (Z.eqb_spec (d - 1) (s - 1 + (a - (d - 1))));
      cbn [andb]; try lia; try reflexivity;
      rewrite ?u8_small by apply ld8_range; f_equal; lia.
Qed.

(** [memmove] copies as if through a temporary, whatever the overlap. *)
Lemma ld8_memmove (m : mem) (dst src a : Z) (n : nat) :
  ld8 (memmove m dst src n) a =
  if (dst <=? a) && (a <? dst + Z.of_nat n) then ld8 m (src + (a - dst)) else ld8 m a.
Proof.
  unfold memmove.
  destruct (Z.ltb_spec src dst), (Z.ltb_spec dst (src + Z.of_nat n)); cbn [andb].
  - rewrite ld8_copy_backward by lia.
    replace (dst + Z.of_nat n - Z.of_nat n) with dst by lia.
    destruct (_ && _); [f_equal; lia | reflexivity].
  - apply ld8_copy_forward. lia.
  - apply ld8_copy_forward. lia.
  - apply ld8_copy_forward. lia.
Qed.

Lemma ld_bytes_memmove (m : mem) (dst src : Z) (n : nat) :
  ld_bytes (memmove m dst src n) dst n = ld_bytes m src n.
Proof.
  apply (list_eq_same_length _ _ n); rewrite ?length_ld_bytes; auto.
  intros i x y Hi Hx Hy.
  apply (nth_lookup_Some _ _ 0) in Hx, Hy. rewrite nth_ld_bytes in Hx, Hy by lia.
  rewrite ld8_memmove in Hx.
  destruct (Z.leb_spec dst (dst + Z.of_nat i)), (Z.ltb_spec (dst + Z.of_nat i) (dst + Z.of_nat n));
    cbn in Hx; try lia.
  replace (src + (dst + Z.of_nat i - dst)) with (src + Z.of_nat i) in Hx by lia. congruence.
Qed.

Lemma ld64_memmove_in (m : mem) (dst src off : Z) (n : nat) :
  0 <= off -> off + 8 <= Z.of_nat n ->
  ld64 (memmove m dst src n) (dst + off) = ld64 m (src + off).
Proof.
  intros H1 H2. unfold ld64. f_equal.
  apply (list_eq_same_length _ _ 8); rewrite ?length_ld_bytes; auto.
  intros i x y Hi Hx Hy.
  apply (nth_lookup_Some _ _ 0) in Hx, Hy. rewrite nth_ld_bytes in Hx, Hy by lia.
  rewrite ld8_memmove in Hx.
  destruct (Z.leb_spec dst (dst + off + Z.of_nat i)),
    (Z.ltb_spec (dst + off + Z.of_nat i) (dst + Z.of_nat n)); cbn in Hx; try lia.
  replace (src + (dst + off + Z.of_nat i - dst)) with (src + off + Z.of_nat i) in Hx by lia.
  congruence.
Qed.

Lemma ld64_memmove_out (m : mem) (dst src a : Z) (n : nat) :
  a + 8 <= dst \/ dst + Z.of_nat n <= a -> ld64 (memmove m dst src n) a = ld64 m a.
Proof.
  intros H. apply ld64_ext. intros i Hi. rewrite ld8_memmove.
  destruct (Z.leb_spec dst (a + i)), (Z.ltb_spec (a + i) (dst + Z.of_nat n)); cbn [andb];
    try reflexivity; lia.
Qed.

Lemma ld64_memset_out (m : mem) (dst c a : Z) (n : nat) :
  a + 8 <= dst \/ dst + Z.of_nat n <= a -> ld64 (memset m dst c n) a = ld64 m a.
Proof.
  intros H. apply ld64_ext. intros i Hi. rewrite ld8_memset.
  destruct (Z.leb_spec dst (a + i)), (Z.ltb_spec (a + i) (dst + Z.of_nat n)); cbn [andb];
    try reflexivity; lia.
Qed.

Lemma ld64_memset_zero (m : mem) (dst a : Z) (n : nat) :
  dst <= a -> a + 8 <= dst + Z.of_nat n -> ld64 (memset m dst 0 n) a = 0.
Proof.
  intros H1 H2. rewrite (ld64_ext _ (st64 m a 0) a).
  - apply ld64_st64_eq.
  - intros i Hi. rewrite ld8_memset.
    destruct (Z.leb_spec dst (a + i)), (Z.ltb_spec (a + i) (dst + Z.of_nat n)); cbn [andb]; try lia.
    unfold st64. rewrite ld8_st_bytes, length_le_split.
    destruct (Z.leb_spec a (a + i)), (Z.ltb_spec (a + i) (a + Z.of_nat 8)); cbn [andb]; try lia.
    replace (a + i - a) with i by lia.
    assert (i = 0 \/ i = 1 \/ i = 2 \/ i = 3 \/ i = 4 \/ i = 5 \/ i = 6 \/ i = 7) as Hc by lia.
    repeat destruct Hc as [->|Hc]; try reflexivity. subst; reflexivity.
Qed.

(** The sizes passed to these are numerals such as 4096: never unfold them. *)
#[global] Arguments memset : simpl never.
#[global] Arguments memmove : simpl never.
#[global] Arguments copy_forward : simpl never.
#[global] Arguments copy_backward : simpl never.
#[global] Arguments ld_bytes : simpl never.
#[global] Arguments st_bytes : simpl never.
#[global] Arguments ld64 : simpl never.
#[global] Arguments st64 : simpl never.
#[global] Arguments Z.to_nat : simpl never.
#[global] Arguments Z.of_nat : simpl never.
