(* ===== verification/State.v ===== *)
(** * The kernel's data structures and its state

    The C structures of proc.h, file.h, buf.h, sleeplock.h, fs.h, log.c, pipe.c,
    console.c and uart.c as records, each with one update function per field, and
    the record [kst] of the kernel's global variables.  A pointer to an element of
    a global array (a process, file, inode, buffer or semaphore) is the element's
    index; a pointer to a page is the page's physical address, 0 being NULL.

    [world] adds to the state what happens to it while the running process is off
    the CPU: each element of [w_env] is what the rest of the system does to the
    kernel state between two moments at which the scheduler looks at the process. *)

From stdpp Require Import base gmap list strings.
From Stdlib Require Import ZArith Lia.
From S2P Require Import Prelude Riscv Memory.

(** [enum procstate] (proc.h). *)
Inductive procstate := UNUSED | USED | SLEEPING | RUNNABLE | RUNNING | ZOMBIE.

(** The [type] of a [struct file] (file.h). *)
Inductive filetype := FD_NONE | FD_PIPE | FD_INODE | FD_DEVICE.

(** The device drivers that appear in [devsw]. *)
Inductive device := DevConsole.

(** The object a sleep-lock belongs to. *)
Inductive slk := SlBuf (b : nat) | SlInode (i : nat).

(** Sleep channels: the addresses the source passes to [sleep] and [wakeup]. *)
Inductive chan :=
| ChProc (i : nat) | ChSem (i : nat) | ChTicks
| ChPipeRead (pi : Z) | ChPipeWrite (pi : Z)
| ChLog | ChSleep (l : slk) | ChUartTx | ChConsR.

(** The spinlocks of the kernel. *)
Inductive lockid :=
| LPid | LWait | LBsem | LProc (i : nat) | LKmem | LFtable | LItable | LLog
| LBcache | LPipe (pi : Z) | LTicks | LCons | LUart | LPr | LSleep (l : slk).

#[export] Instance procstate_eq_dec : EqDecision procstate.
Proof. solve_decision. Defined.
#[export] Instance filetype_eq_dec : EqDecision filetype.
Proof. solve_decision. Defined.
#[export] Instance slk_eq_dec : EqDecision slk.
Proof. solve_decision. Defined.
#[export] Instance chan_eq_dec : EqDecision chan.
Proof. solve_decision. Defined.
#[export] Instance lockid_eq_dec : EqDecision lockid.
Proof. solve_decision. Defined.

(** [struct context] (proc.h): the registers [swtch] saves. *)
Record context : Type := mkContext {
  ctx_ra : Z;
  ctx_sp : Z;
  ctx_s : list Z  (* s0 .. s11 *)
}.

Definition set_ctx_ra (v : Z) (x : context) : context :=
  {| ctx_ra := v; ctx_sp := ctx_sp x; ctx_s := ctx_s x |}.
Definition set_ctx_sp (v : Z) (x : context) : context :=
  {| ctx_ra := ctx_ra x; ctx_sp := v; ctx_s := ctx_s x |}.
Definition set_ctx_s (v : list Z) (x : context) : context :=
  {| ctx_ra := ctx_ra x; ctx_sp := ctx_sp x; ctx_s := v |}.

(** [struct proc] (proc.h).  Its spinlock is the lock [LProc i] of its slot [i]. *)
Record proc : Type := mkProc {
  p_state : procstate;
  p_chan : option chan;  (* 0 is None *)
  p_killed : Z;
  p_xstate : Z;
  p_pid : Z;
  p_parent : option nat;
  p_kstack : Z;
  p_sz : Z;
  p_pagetable : Z;
  p_trapframe : Z;  (* physical address, 0 if none *)
  p_context : context;
  p_ofile : list (option nat);  (* indices into ftable *)
  p_cwd : option nat;  (* index into itable *)
  p_name : list Z;  (* 16 bytes *)
  p_pendingSignals : Z;  (* uint32 *)
  p_signalMask : Z;  (* uint32 *)
  p_signalHandlers : list Z;  (* 32 pointers *)
  p_backupTrapframe : Z;
  p_frozen : Z;
  p_backupSigMask : Z;  (* uint32 *)
  p_sigHandlerFlag : Z;
  p_sigMaskArray : list Z  (* 32 uints *)
}.

Definition set_p_state (v : procstate) (x : proc) : proc :=
  {| p_state := v; p_chan := p_chan x; p_killed := p_killed x; p_xstate := p_xstate x; p_pid :=
     p_pid x; p_parent := p_parent x; p_kstack := p_kstack x; p_sz := p_sz x; p_pagetable :=
     p_pagetable x; p_trapframe := p_trapframe x; p_context := p_context x; p_ofile := p_ofile
     x; p_cwd := p_cwd x; p_name := p_name x; p_pendingSignals := p_pendingSignals x;
     p_signalMask := p_signalMask x; p_signalHandlers := p_signalHandlers x; p_backupTrapframe
     := p_backupTrapframe x; p_frozen := p_frozen x; p_backupSigMask := p_backupSigMask x;
     p_sigHandlerFlag := p_sigHandlerFlag x; p_sigMaskArray := p_sigMaskArray x |}.
Definition set_p_chan (v : option chan) (x : proc) : proc :=
  {| p_state := p_state x; p_chan := v; p_killed := p_killed x; p_xstate := p_xstate x; p_pid :=
     p_pid x; p_parent := p_parent x; p_kstack := p_kstack x; p_sz := p_sz x; p_pagetable :=
     p_pagetable x; p_trapframe := p_trapframe x; p_context := p_context x; p_ofile := p_ofile
     x; p_cwd := p_cwd x; p_name := p_name x; p_pendingSignals := p_pendingSignals x;
     p_signalMask := p_signalMask x; p_signalHandlers := p_signalHandlers x; p_backupTrapframe
     := p_backupTrapframe x; p_frozen := p_frozen x; p_backupSigMask := p_backupSigMask x;
     p_sigHandlerFlag := p_sigHandlerFlag x; p_sigMaskArray := p_sigMaskArray x |}.
Definition set_p_killed (v : Z) (x : proc) : proc :=
  {| p_state := p_state x; p_chan := p_chan x; p_killed := v; p_xstate := p_xstate x; p_pid :=
     p_pid x; p_parent := p_parent x; p_kstack := p_kstack x; p_sz := p_sz x; p_pagetable :=
     p_pagetable x; p_trapframe := p_trapframe x; p_context := p_context x; p_ofile := p_ofile
     x; p_cwd := p_cwd x; p_name := p_name x; p_pendingSignals := p_pendingSignals x;
     p_signalMask := p_signalMask x; p_signalHandlers := p_signalHandlers x; p_backupTrapframe
     := p_backupTrapframe x; p_frozen := p_frozen x; p_backupSigMask := p_backupSigMask x;
     p_sigHandlerFlag := p_sigHandlerFlag x; p_sigMaskArray := p_sigMaskArray x |}.
Definition set_p_xstate (v : Z) (x : proc) : proc :=
  {| p_state := p_state x; p_chan := p_chan x; p_killed := p_killed x; p_xstate := v; p_pid :=
     p_pid x; p_parent := p_parent x; p_kstack := p_kstack x; p_sz := p_sz x; p_pagetable :=
     p_pagetable x; p_trapframe := p_trapframe x; p_context := p_context x; p_ofile := p_ofile
     x; p_cwd := p_cwd x; p_name := p_name x; p_pendingSignals := p_pendingSignals x;
     p_signalMask := p_signalMask x; p_signalHandlers := p_signalHandlers x; p_backupTrapframe
     := p_backupTrapframe x; p_frozen := p_frozen x; p_backupSigMask := p_backupSigMask x;
     p_sigHandlerFlag := p_sigHandlerFlag x; p_sigMaskArray := p_sigMaskArray x |}.
Definition set_p_pid (v : Z) (x : proc) : proc :=
  {| p_state := p_state x; p_chan := p_chan x; p_killed := p_killed x; p_xstate := p_xstate x;
     p_pid := v; p_parent := p_parent x; p_kstack := p_kstack x; p_sz := p_sz x; p_pagetable :=
     p_pagetable x; p_trapframe := p_trapframe x; p_context := p_context x; p_ofile := p_ofile
     x; p_cwd := p_cwd x; p_name := p_name x; p_pendingSignals := p_pendingSignals x;
     p_signalMask := p_signalMask x; p_signalHandlers := p_signalHandlers x; p_backupTrapframe
     := p_backupTrapframe x; p_frozen := p_frozen x; p_backupSigMask := p_backupSigMask x;
     p_sigHandlerFlag := p_sigHandlerFlag x; p_sigMaskArray := p_sigMaskArray x |}.
Definition set_p_parent (v : option nat) (x : proc) : proc :=
  {| p_state := p_state x; p_chan := p_chan x; p_killed := p_killed x; p_xstate := p_xstate x;
     p_pid := p_pid x; p_parent := v; p_kstack := p_kstack x; p_sz := p_sz x; p_pagetable :=
     p_pagetable x; p_trapframe := p_trapframe x; p_context := p_context x; p_ofile := p_ofile
     x; p_cwd := p_cwd x; p_name := p_name x; p_pendingSignals := p_pendingSignals x;
     p_signalMask := p_signalMask x; p_signalHandlers := p_signalHandlers x; p_backupTrapframe
     := p_backupTrapframe x; p_frozen := p_frozen x; p_backupSigMask := p_backupSigMask x;
     p_sigHandlerFlag := p_sigHandlerFlag x; p_sigMaskArray := p_sigMaskArray x |}.
Definition set_p_kstack (v : Z) (x : proc) : proc :=
  {| p_state := p_state x; p_chan := p_chan x; p_killed := p_killed x; p_xstate := p_xstate x;
     p_pid := p_pid x; p_parent := p_parent x; p_kstack := v; p_sz := p_sz x; p_pagetable :=
     p_pagetable x; p_trapframe := p_trapframe x; p_context := p_context x; p_ofile := p_ofile
     x; p_cwd := p_cwd x; p_name := p_name x; p_pendingSignals := p_pendingSignals x;
     p_signalMask := p_signalMask x; p_signalHandlers := p_signalHandlers x; p_backupTrapframe
     := p_backupTrapframe x; p_frozen := p_frozen x; p_backupSigMask := p_backupSigMask x;
     p_sigHandlerFlag := p_sigHandlerFlag x; p_sigMaskArray := p_sigMaskArray x |}.
Definition set_p_sz (v : Z) (x : proc) : proc :=
  {| p_state := p_state x; p_chan := p_chan x; p_killed := p_killed x; p_xstate := p_xstate x;
     p_pid := p_pid x; p_parent := p_parent x; p_kstack := p_kstack x; p_sz := v; p_pagetable :=
     p_pagetable x; p_trapframe := p_trapframe x; p_context := p_context x; p_ofile := p_ofile
     x; p_cwd := p_cwd x; p_name := p_name x; p_pendingSignals := p_pendingSignals x;
     p_signalMask := p_signalMask x; p_signalHandlers := p_signalHandlers x; p_backupTrapframe
     := p_backupTrapframe x; p_frozen := p_frozen x; p_backupSigMask := p_backupSigMask x;
     p_sigHandlerFlag := p_sigHandlerFlag x; p_sigMaskArray := p_sigMaskArray x |}.
Definition set_p_pagetable (v : Z) (x : proc) : proc :=
  {| p_state := p_state x; p_chan := p_chan x; p_killed := p_killed x; p_xstate := p_xstate x;
     p_pid := p_pid x; p_parent := p_parent x; p_kstack := p_kstack x; p_sz := p_sz x;
     p_pagetable := v; p_trapframe := p_trapframe x; p_context := p_context x; p_ofile :=
     p_ofile x; p_cwd := p_cwd x; p_name := p_name x; p_pendingSignals := p_pendingSignals x;
     p_signalMask := p_signalMask x; p_signalHandlers := p_signalHandlers x; p_backupTrapframe
     := p_backupTrapframe x; p_frozen := p_frozen x; p_backupSigMask := p_backupSigMask x;
     p_sigHandlerFlag := p_sigHandlerFlag x; p_sigMaskArray := p_sigMaskArray x |}.
Definition set_p_trapframe (v : Z) (x : proc) : proc :=
  {| p_state := p_state x; p_chan := p_chan x; p_killed := p_killed x; p_xstate := p_xstate x;
     p_pid := p_pid x; p_parent := p_parent x; p_kstack := p_kstack x; p_sz := p_sz x;
     p_pagetable := p_pagetable x; p_trapframe := v; p_context := p_context x; p_ofile :=
     p_ofile x; p_cwd := p_cwd x; p_name := p_name x; p_pendingSignals := p_pendingSignals x;
     p_signalMask := p_signalMask x; p_signalHandlers := p_signalHandlers x; p_backupTrapframe
     := p_backupTrapframe x; p_frozen := p_frozen x; p_backupSigMask := p_backupSigMask x;
     p_sigHandlerFlag := p_sigHandlerFlag x; p_sigMaskArray := p_sigMaskArray x |}.
Definition set_p_context (v : context) (x : proc) : proc :=
  {| p_state := p_state x; p_chan := p_chan x; p_killed := p_killed x; p_xstate := p_xstate x;
     p_pid := p_pid x; p_parent := p_parent x; p_kstack := p_kstack x; p_sz := p_sz x;
     p_pagetable := p_pagetable x; p_trapframe := p_trapframe x; p_context := v; p_ofile :=
     p_ofile x; p_cwd := p_cwd x; p_name := p_name x; p_pendingSignals := p_pendingSignals x;
     p_signalMask := p_signalMask x; p_signalHandlers := p_signalHandlers x; p_backupTrapframe
     := p_backupTrapframe x; p_frozen := p_frozen x; p_backupSigMask := p_backupSigMask x;
     p_sigHandlerFlag := p_sigHandlerFlag x; p_sigMaskArray := p_sigMaskArray x |}.
Definition set_p_ofile (v : list (option nat)) (x : proc) : proc :=
  {| p_state := p_state x; p_chan := p_chan x; p_killed := p_killed x; p_xstate := p_xstate x;
     p_pid := p_pid x; p_parent := p_parent x; p_kstack := p_kstack x; p_sz := p_sz x;
     p_pagetable := p_pagetable x; p_trapframe := p_trapframe x; p_context := p_context x;
     p_ofile := v; p_cwd := p_cwd x; p_name := p_name x; p_pendingSignals := p_pendingSignals x;
     p_signalMask := p_signalMask x; p_signalHandlers := p_signalHandlers x; p_backupTrapframe
     := p_backupTrapframe x; p_frozen := p_frozen x; p_backupSigMask := p_backupSigMask x;
     p_sigHandlerFlag := p_sigHandlerFlag x; p_sigMaskArray := p_sigMaskArray x |}.
Definition set_p_cwd (v : option nat) (x : proc) : proc :=
  {| p_state := p_state x; p_chan := p_chan x; p_killed := p_killed x; p_xstate := p_xstate x;
     p_pid := p_pid x; p_parent := p_parent x; p_kstack := p_kstack x; p_sz := p_sz x;
     p_pagetable := p_pagetable x; p_trapframe := p_trapframe x; p_context := p_context x;
     p_ofile := p_ofile x; p_cwd := v; p_name := p_name x; p_pendingSignals := p_pendingSignals
     x; p_signalMask := p_signalMask x; p_signalHandlers := p_signalHandlers x;
     p_backupTrapframe := p_backupTrapframe x; p_frozen := p_frozen x; p_backupSigMask :=
     p_backupSigMask x; p_sigHandlerFlag := p_sigHandlerFlag x; p_sigMaskArray := p_sigMaskArray
     x |}.
Definition set_p_name (v : list Z) (x : proc) : proc :=
  {| p_state := p_state x; p_chan := p_chan x; p_killed := p_killed x; p_xstate := p_xstate x;
     p_pid := p_pid x; p_parent := p_parent x; p_kstack := p_kstack x; p_sz := p_sz x;
     p_pagetable := p_pagetable x; p_trapframe := p_trapframe x; p_context := p_context x;
     p_ofile := p_ofile x; p_cwd := p_cwd x; p_name := v; p_pendingSignals := p_pendingSignals
     x; p_signalMask := p_signalMask x; p_signalHandlers := p_signalHandlers x;
     p_backupTrapframe := p_backupTrapframe x; p_frozen := p_frozen x; p_backupSigMask :=
     p_backupSigMask x; p_sigHandlerFlag := p_sigHandlerFlag x; p_sigMaskArray := p_sigMaskArray
     x |}.
Definition set_p_pendingSignals (v : Z) (x : proc) : proc :=
  {| p_state := p_state x; p_chan := p_chan x; p_killed := p_killed x; p_xstate := p_xstate x;
     p_pid := p_pid x; p_parent := p_parent x; p_kstack := p_kstack x; p_sz := p_sz x;
     p_pagetable := p_pagetable x; p_trapframe := p_trapframe x; p_context := p_context x;
     p_ofile := p_ofile x; p_cwd := p_cwd x; p_name := p_name x; p_pendingSignals := v;
     p_signalMask := p_signalMask x; p_signalHandlers := p_signalHandlers x; p_backupTrapframe
     := p_backupTrapframe x; p_frozen := p_frozen x; p_backupSigMask := p_backupSigMask x;
     p_sigHandlerFlag := p_sigHandlerFlag x; p_sigMaskArray := p_sigMaskArray x |}.
Definition set_p_signalMask (v : Z) (x : proc) : proc :=
  {| p_state := p_state x; p_chan := p_chan x; p_killed := p_killed x; p_xstate := p_xstate x;
     p_pid := p_pid x; p_parent := p_parent x; p_kstack := p_kstack x; p_sz := p_sz x;
     p_pagetable := p_pagetable x; p_trapframe := p_trapframe x; p_context := p_context x;
     p_ofile := p_ofile x; p_cwd := p_cwd x; p_name := p_name x; p_pendingSignals :=
     p_pendingSignals x; p_signalMask := v; p_signalHandlers := p_signalHandlers x;
     p_backupTrapframe := p_backupTrapframe x; p_frozen := p_frozen x; p_backupSigMask :=
     p_backupSigMask x; p_sigHandlerFlag := p_sigHandlerFlag x; p_sigMaskArray := p_sigMaskArray
     x |}.
Definition set_p_signalHandlers (v : list Z) (x : proc) : proc :=
  {| p_state := p_state x; p_chan := p_chan x; p_killed := p_killed x; p_xstate := p_xstate x;
     p_pid := p_pid x; p_parent := p_parent x; p_kstack := p_kstack x; p_sz := p_sz x;
     p_pagetable := p_pagetable x; p_trapframe := p_trapframe x; p_context := p_context x;
     p_ofile := p_ofile x; p_cwd := p_cwd x; p_name := p_name x; p_pendingSignals :=
     p_pendingSignals x; p_signalMask := p_signalMask x; p_signalHandlers := v;
     p_backupTrapframe := p_backupTrapframe x; p_frozen := p_frozen x; p_backupSigMask :=
     p_backupSigMask x; p_sigHandlerFlag := p_sigHandlerFlag x; p_sigMaskArray := p_sigMaskArray
     x |}.
Definition set_p_backupTrapframe (v : Z) (x : proc) : proc :=
  {| p_state := p_state x; p_chan := p_chan x; p_killed := p_killed x; p_xstate := p_xstate x;
     p_pid := p_pid x; p_parent := p_parent x; p_kstack := p_kstack x; p_sz := p_sz x;
     p_pagetable := p_pagetable x; p_trapframe := p_trapframe x; p_context := p_context x;
     p_ofile := p_ofile x; p_cwd := p_cwd x; p_name := p_name x; p_pendingSignals :=
     p_pendingSignals x; p_signalMask := p_signalMask x; p_signalHandlers := p_signalHandlers x;
     p_backupTrapframe := v; p_frozen := p_frozen x; p_backupSigMask := p_backupSigMask x;
     p_sigHandlerFlag := p_sigHandlerFlag x; p_sigMaskArray := p_sigMaskArray x |}.
Definition set_p_frozen (v : Z) (x : proc) : proc :=
  {| p_state := p_state x; p_chan := p_chan x; p_killed := p_killed x; p_xstate := p_xstate x;
     p_pid := p_pid x; p_parent := p_parent x; p_kstack := p_kstack x; p_sz := p_sz x;
     p_pagetable := p_pagetable x; p_trapframe := p_trapframe x; p_context := p_context x;
     p_ofile := p_ofile x; p_cwd := p_cwd x; p_name := p_name x; p_pendingSignals :=
     p_pendingSignals x; p_signalMask := p_signalMask x; p_signalHandlers := p_signalHandlers x;
     p_backupTrapframe := p_backupTrapframe x; p_frozen := v; p_backupSigMask := p_backupSigMask
     x; p_sigHandlerFlag := p_sigHandlerFlag x; p_sigMaskArray := p_sigMaskArray x |}.
Definition set_p_backupSigMask (v : Z) (x : proc) : proc :=
  {| p_state := p_state x; p_chan := p_chan x; p_killed := p_killed x; p_xstate := p_xstate x;
     p_pid := p_pid x; p_parent := p_parent x; p_kstack := p_kstack x; p_sz := p_sz x;
     p_pagetable := p_pagetable x; p_trapframe := p_trapframe x; p_context := p_context x;
     p_ofile := p_ofile x; p_cwd := p_cwd x; p_name := p_name x; p_pendingSignals :=
     p_pendingSignals x; p_signalMask := p_signalMask x; p_signalHandlers := p_signalHandlers x;
     p_backupTrapframe := p_backupTrapframe x; p_frozen := p_frozen x; p_backupSigMask := v;
     p_sigHandlerFlag := p_sigHandlerFlag x; p_sigMaskArray := p_sigMaskArray x |}.
Definition set_p_sigHandlerFlag (v : Z) (x : proc) : proc :=
  {| p_state := p_state x; p_chan := p_chan x; p_killed := p_killed x; p_xstate := p_xstate x;
     p_pid := p_pid x; p_parent := p_parent x; p_kstack := p_kstack x; p_sz := p_sz x;
     p_pagetable := p_pagetable x; p_trapframe := p_trapframe x; p_context := p_context x;
     p_ofile := p_ofile x; p_cwd := p_cwd x; p_name := p_name x; p_pendingSignals :=
     p_pendingSignals x; p_signalMask := p_signalMask x; p_signalHandlers := p_signalHandlers x;
     p_backupTrapframe := p_backupTrapframe x; p_frozen := p_frozen x; p_backupSigMask :=
     p_backupSigMask x; p_sigHandlerFlag := v; p_sigMaskArray := p_sigMaskArray x |}.
Definition set_p_sigMaskArray (v : list Z) (x : proc) : proc :=
  {| p_state := p_state x; p_chan := p_chan x; p_killed := p_killed x; p_xstate := p_xstate x;
     p_pid := p_pid x; p_parent := p_parent x; p_kstack := p_kstack x; p_sz := p_sz x;
     p_pagetable := p_pagetable x; p_trapframe := p_trapframe x; p_context := p_context x;
     p_ofile := p_ofile x; p_cwd := p_cwd x; p_name := p_name x; p_pendingSignals :=
     p_pendingSignals x; p_signalMask := p_signalMask x; p_signalHandlers := p_signalHandlers x;
     p_backupTrapframe := p_backupTrapframe x; p_frozen := p_frozen x; p_backupSigMask :=
     p_backupSigMask x; p_sigHandlerFlag := p_sigHandlerFlag x; p_sigMaskArray := v |}.

(** [struct semaphore] (proc.h). *)
Record semaphore : Type := mkSemaphore {
  sem_id : Z;
  sem_is_locked : Z;
  sem_is_used : Z
}.

Definition set_sem_id (v : Z) (x : semaphore) : semaphore :=
  {| sem_id := v; sem_is_locked := sem_is_locked x; sem_is_used := sem_is_used x |}.
Definition set_sem_is_locked (v : Z) (x : semaphore) : semaphore :=
  {| sem_id := sem_id x; sem_is_locked := v; sem_is_used := sem_is_used x |}.
Definition set_sem_is_used (v : Z) (x : semaphore) : semaphore :=
  {| sem_id := sem_id x; sem_is_locked := sem_is_locked x; sem_is_used := v |}.

(** [struct sleeplock] (sleeplock.h); its spinlock is [LSleep] of its owner. *)
Record sleeplock : Type := mkSleeplock {
  sl_locked : Z;
  sl_pid : Z
}.

Definition set_sl_locked (v : Z) (x : sleeplock) : sleeplock :=
  {| sl_locked := v; sl_pid := sl_pid x |}.
Definition set_sl_pid (v : Z) (x : sleeplock) : sleeplock :=
  {| sl_locked := sl_locked x; sl_pid := v |}.

(** [struct file] (file.h). *)
Record file : Type := mkFile {
  f_type : filetype;
  f_ref : Z;
  f_readable : Z;
  f_writable : Z;
  f_pipe : Z;  (* address of the pipe's page *)
  f_ip : option nat;
  f_off : Z;  (* uint *)
  f_major : Z  (* short *)
}.

Definition set_f_type (v : filetype) (x : file) : file :=
  {| f_type := v; f_ref := f_ref x; f_readable := f_readable x; f_writable := f_writable x;
     f_pipe := f_pipe x; f_ip := f_ip x; f_off := f_off x; f_major := f_major x |}.
Definition set_f_ref (v : Z) (x : file) : file :=
  {| f_type := f_type x; f_ref := v; f_readable := f_readable x; f_writable := f_writable x;
     f_pipe := f_pipe x; f_ip := f_ip x; f_off := f_off x; f_major := f_major x |}.
Definition set_f_readable (v : Z) (x : file) : file :=
  {| f_type := f_type x; f_ref := f_ref x; f_readable := v; f_writable := f_writable x; f_pipe
     := f_pipe x; f_ip := f_ip x; f_off := f_off x; f_major := f_major x |}.
Definition set_f_writable (v : Z) (x : file) : file :=
  {| f_type := f_type x; f_ref := f_ref x; f_readable := f_readable x; f_writable := v; f_pipe
     := f_pipe x; f_ip := f_ip x; f_off := f_off x; f_major := f_major x |}.
Definition set_f_pipe (v : Z) (x : file) : file :=
  {| f_type := f_type x; f_ref := f_ref x; f_readable := f_readable x; f_writable := f_writable
     x; f_pipe := v; f_ip := f_ip x; f_off := f_off x; f_major := f_major x |}.
Definition set_f_ip (v : option nat) (x : file) : file :=
  {| f_type := f_type x; f_ref := f_ref x; f_readable := f_readable x; f_writable := f_writable
     x; f_pipe := f_pipe x; f_ip := v; f_off := f_off x; f_major := f_major x |}.
Definition set_f_off (v : Z) (x : file) : file :=
  {| f_type := f_type x; f_ref := f_ref x; f_readable := f_readable x; f_writable := f_writable
     x; f_pipe := f_pipe x; f_ip := f_ip x; f_off := v; f_major := f_major x |}.
Definition set_f_major (v : Z) (x : file) : file :=
  {| f_type := f_type x; f_ref := f_ref x; f_readable := f_readable x; f_writable := f_writable
     x; f_pipe := f_pipe x; f_ip := f_ip x; f_off := f_off x; f_major := v |}.

(** [struct inode] (file.h). *)
Record inode : Type := mkInode {
  i_dev : Z;
  i_inum : Z;
  i_ref : Z;
  i_lock : sleeplock;
  i_valid : Z;
  i_type : Z;  (* short *)
  i_major : Z;  (* short *)
  i_minor : Z;  (* short *)
  i_nlink : Z;  (* short *)
  i_size : Z;  (* uint *)
  i_addrs : list Z  (* NDIRECT+1 uints *)
}.

Definition set_i_dev (v : Z) (x : inode) : inode :=
  {| i_dev := v; i_inum := i_inum x; i_ref := i_ref x; i_lock := i_lock x; i_valid := i_valid x;
     i_type := i_type x; i_major := i_major x; i_minor := i_minor x; i_nlink := i_nlink x;
     i_size := i_size x; i_addrs := i_addrs x |}.
Definition set_i_inum (v : Z) (x : inode) : inode :=
  {| i_dev := i_dev x; i_inum := v; i_ref := i_ref x; i_lock := i_lock x; i_valid := i_valid x;
     i_type := i_type x; i_major := i_major x; i_minor := i_minor x; i_nlink := i_nlink x;
     i_size := i_size x; i_addrs := i_addrs x |}.
Definition set_i_ref (v : Z) (x : inode) : inode :=
  {| i_dev := i_dev x; i_inum := i_inum x; i_ref := v; i_lock := i_lock x; i_valid := i_valid x;
     i_type := i_type x; i_major := i_major x; i_minor := i_minor x; i_nlink := i_nlink x;
     i_size := i_size x; i_addrs := i_addrs x |}.
Definition set_i_lock (v : sleeplock) (x : inode) : inode :=
  {| i_dev := i_dev x; i_inum := i_inum x; i_ref := i_ref x; i_lock := v; i_valid := i_valid x;
     i_type := i_type x; i_major := i_major x; i_minor := i_minor x; i_nlink := i_nlink x;
     i_size := i_size x; i_addrs := i_addrs x |}.
Definition set_i_valid (v : Z) (x : inode) : inode :=
  {| i_dev := i_dev x; i_inum := i_inum x; i_ref := i_ref x; i_lock := i_lock x; i_valid := v;
     i_type := i_type x; i_major := i_major x; i_minor := i_minor x; i_nlink := i_nlink x;
     i_size := i_size x; i_addrs := i_addrs x |}.
Definition set_i_type (v : Z) (x : inode) : inode :=
  {| i_dev := i_dev x; i_inum := i_inum x; i_ref := i_ref x; i_lock := i_lock x; i_valid :=
     i_valid x; i_type := v; i_major := i_major x; i_minor := i_minor x; i_nlink := i_nlink x;
     i_size := i_size x; i_addrs := i_addrs x |}.
Definition set_i_major (v : Z) (x : inode) : inode :=
  {| i_dev := i_dev x; i_inum := i_inum x; i_ref := i_ref x; i_lock := i_lock x; i_valid :=
     i_valid x; i_type := i_type x; i_major := v; i_minor := i_minor x; i_nlink := i_nlink x;
     i_size := i_size x; i_addrs := i_addrs x |}.
Definition set_i_minor (v : Z) (x : inode) : inode :=
  {| i_dev := i_dev x; i_inum := i_inum x; i_ref := i_ref x; i_lock := i_lock x; i_valid :=
     i_valid x; i_type := i_type x; i_major := i_major x; i_minor := v; i_nlink := i_nlink x;
     i_size := i_size x; i_addrs := i_addrs x |}.
Definition set_i_nlink (v : Z) (x : inode) : inode :=
  {| i_dev := i_dev x; i_inum := i_inum x; i_ref := i_ref x; i_lock := i_lock x; i_valid :=
     i_valid x; i_type := i_type x; i_major := i_major x; i_minor := i_minor x; i_nlink := v;
     i_size := i_size x; i_addrs := i_addrs x |}.
Definition set_i_size (v : Z) (x : inode) : inode :=
  {| i_dev := i_dev x; i_inum := i_inum x; i_ref := i_ref x; i_lock := i_lock x; i_valid :=
     i_valid x; i_type := i_type x; i_major := i_major x; i_minor := i_minor x; i_nlink :=
     i_nlink x; i_size := v; i_addrs := i_addrs x |}.
Definition set_i_addrs (v : list Z) (x : inode) : inode :=
  {| i_dev := i_dev x; i_inum := i_inum x; i_ref := i_ref x; i_lock := i_lock x; i_valid :=
     i_valid x; i_type := i_type x; i_major := i_major x; i_minor := i_minor x; i_nlink :=
     i_nlink x; i_size := i_size x; i_addrs := v |}.

(** [struct buf] (buf.h), without [disk], which only the disk driver uses.  Pointers
    are slots of the array; slot [NBUF] is [bcache.head]. *)
Record buf : Type := mkBuf {
  b_valid : Z;
  b_dev : Z;
  b_blockno : Z;
  b_lock : sleeplock;
  b_refcnt : Z;
  b_prev : nat;
  b_next : nat;
  b_data : list Z  (* BSIZE bytes *)
}.

Definition set_b_valid (v : Z) (x : buf) : buf :=
  {| b_valid := v; b_dev := b_dev x; b_blockno := b_blockno x; b_lock := b_lock x; b_refcnt :=
     b_refcnt x; b_prev := b_prev x; b_next := b_next x; b_data := b_data x |}.
Definition set_b_dev (v : Z) (x : buf) : buf :=
  {| b_valid := b_valid x; b_dev := v; b_blockno := b_blockno x; b_lock := b_lock x; b_refcnt :=
     b_refcnt x; b_prev := b_prev x; b_next := b_next x; b_data := b_data x |}.
Definition set_b_blockno (v : Z) (x : buf) : buf :=
  {| b_valid := b_valid x; b_dev := b_dev x; b_blockno := v; b_lock := b_lock x; b_refcnt :=
     b_refcnt x; b_prev := b_prev x; b_next := b_next x; b_data := b_data x |}.
Definition set_b_lock (v : sleeplock) (x : buf) : buf :=
  {| b_valid := b_valid x; b_dev := b_dev x; b_blockno := b_blockno x; b_lock := v; b_refcnt :=
     b_refcnt x; b_prev := b_prev x; b_next := b_next x; b_data := b_data x |}.
Definition set_b_refcnt (v : Z) (x : buf) : buf :=
  {| b_valid := b_valid x; b_dev := b_dev x; b_blockno := b_blockno x; b_lock := b_lock x;
     b_refcnt := v; b_prev := b_prev x; b_next := b_next x; b_data := b_data x |}.
Definition set_b_prev (v : nat) (x : buf) : buf :=
  {| b_valid := b_valid x; b_dev := b_dev x; b_blockno := b_blockno x; b_lock := b_lock x;
     b_refcnt := b_refcnt x; b_prev := v; b_next := b_next x; b_data := b_data x |}.
Definition set_b_next (v : nat) (x : buf) : buf :=
  {| b_valid := b_valid x; b_dev := b_dev x; b_blockno := b_blockno x; b_lock := b_lock x;
     b_refcnt := b_refcnt x; b_prev := b_prev x; b_next := v; b_data := b_data x |}.
Definition set_b_data (v : list Z) (x : buf) : buf :=
  {| b_valid := b_valid x; b_dev := b_dev x; b_blockno := b_blockno x; b_lock := b_lock x;
     b_refcnt := b_refcnt x; b_prev := b_prev x; b_next := b_next x; b_data := v |}.

(** [struct superblock] (fs.h). *)
Record superblock : Type := mkSuperblock {
  sb_magic : Z;
  sb_size : Z;
  sb_nblocks : Z;
  sb_ninodes : Z;
  sb_nlog : Z;
  sb_logstart : Z;
  sb_inodestart : Z;
  sb_bmapstart : Z
}.

Definition set_sb_magic (v : Z) (x : superblock) : superblock :=
  {| sb_magic := v; sb_size := sb_size x; sb_nblocks := sb_nblocks x; sb_ninodes := sb_ninodes
     x; sb_nlog := sb_nlog x; sb_logstart := sb_logstart x; sb_inodestart := sb_inodestart x;
     sb_bmapstart := sb_bmapstart x |}.
Definition set_sb_size (v : Z) (x : superblock) : superblock :=
  {| sb_magic := sb_magic x; sb_size := v; sb_nblocks := sb_nblocks x; sb_ninodes := sb_ninodes
     x; sb_nlog := sb_nlog x; sb_logstart := sb_logstart x; sb_inodestart := sb_inodestart x;
     sb_bmapstart := sb_bmapstart x |}.
Definition set_sb_nblocks (v : Z) (x : superblock) : superblock :=
  {| sb_magic := sb_magic x; sb_size := sb_size x; sb_nblocks := v; sb_ninodes := sb_ninodes x;
     sb_nlog := sb_nlog x; sb_logstart := sb_logstart x; sb_inodestart := sb_inodestart x;
     sb_bmapstart := sb_bmapstart x |}.
Definition set_sb_ninodes (v : Z) (x : superblock) : superblock :=
  {| sb_magic := sb_magic x; sb_size := sb_size x; sb_nblocks := sb_nblocks x; sb_ninodes := v;
     sb_nlog := sb_nlog x; sb_logstart := sb_logstart x; sb_inodestart := sb_inodestart x;
     sb_bmapstart := sb_bmapstart x |}.
Definition set_sb_nlog (v : Z) (x : superblock) : superblock :=
  {| sb_magic := sb_magic x; sb_size := sb_size x; sb_nblocks := sb_nblocks x; sb_ninodes :=
     sb_ninodes x; sb_nlog := v; sb_logstart := sb_logstart x; sb_inodestart := sb_inodestart x;
     sb_bmapstart := sb_bmapstart x |}.
Definition set_sb_logstart (v : Z) (x : superblock) : superblock :=
  {| sb_magic := sb_magic x; sb_size := sb_size x; sb_nblocks := sb_nblocks x; sb_ninodes :=
     sb_ninodes x; sb_nlog := sb_nlog x; sb_logstart := v; sb_inodestart := sb_inodestart x;
     sb_bmapstart := sb_bmapstart x |}.
Definition set_sb_inodestart (v : Z) (x : superblock) : superblock :=
  {| sb_magic := sb_magic x; sb_size := sb_size x; sb_nblocks := sb_nblocks x; sb_ninodes :=
     sb_ninodes x; sb_nlog := sb_nlog x; sb_logstart := sb_logstart x; sb_inodestart := v;
     sb_bmapstart := sb_bmapstart x |}.
Definition set_sb_bmapstart (v : Z) (x : superblock) : superblock :=
  {| sb_magic := sb_magic x; sb_size := sb_size x; sb_nblocks := sb_nblocks x; sb_ninodes :=
     sb_ninodes x; sb_nlog := sb_nlog x; sb_logstart := sb_logstart x; sb_inodestart :=
     sb_inodestart x; sb_bmapstart := v |}.

(** [struct log] with its [struct logheader] (log.c). *)
Record logst : Type := mkLog {
  log_start : Z;
  log_size : Z;
  log_outstanding : Z;
  log_committing : Z;
  log_dev : Z;
  lh_n : Z;  (* log.lh.n *)
  lh_block : list Z  (* log.lh.block *)
}.

Definition set_log_start (v : Z) (x : logst) : logst :=
  {| log_start := v; log_size := log_size x; log_outstanding := log_outstanding x;
     log_committing := log_committing x; log_dev := log_dev x; lh_n := lh_n x; lh_block :=
     lh_block x |}.
Definition set_log_size (v : Z) (x : logst) : logst :=
  {| log_start := log_start x; log_size := v; log_outstanding := log_outstanding x;
     log_committing := log_committing x; log_dev := log_dev x; lh_n := lh_n x; lh_block :=
     lh_block x |}.
Definition set_log_outstanding (v : Z) (x : logst) : logst :=
  {| log_start := log_start x; log_size := log_size x; log_outstanding := v; log_committing :=
     log_committing x; log_dev := log_dev x; lh_n := lh_n x; lh_block := lh_block x |}.
Definition set_log_committing (v : Z) (x : logst) : logst :=
  {| log_start := log_start x; log_size := log_size x; log_outstanding := log_outstanding x;
     log_committing := v; log_dev := log_dev x; lh_n := lh_n x; lh_block := lh_block x |}.
Definition set_log_dev (v : Z) (x : logst) : logst :=
  {| log_start := log_start x; log_size := log_size x; log_outstanding := log_outstanding x;
     log_committing := log_committing x; log_dev := v; lh_n := lh_n x; lh_block := lh_block x
     |}.
Definition set_lh_n (v : Z) (x : logst) : logst :=
  {| log_start := log_start x; log_size := log_size x; log_outstanding := log_outstanding x;
     log_committing := log_committing x; log_dev := log_dev x; lh_n := v; lh_block := lh_block x
     |}.
Definition set_lh_block (v : list Z) (x : logst) : logst :=
  {| log_start := log_start x; log_size := log_size x; log_outstanding := log_outstanding x;
     log_committing := log_committing x; log_dev := log_dev x; lh_n := lh_n x; lh_block := v |}.

(** [struct pipe] (pipe.c); its spinlock is [LPipe] of its page. *)
Record pipe : Type := mkPipe {
  pi_data : list Z;  (* PIPESIZE bytes *)
  pi_nread : Z;  (* uint *)
  pi_nwrite : Z;  (* uint *)
  pi_readopen : Z;
  pi_writeopen : Z
}.

Definition set_pi_data (v : list Z) (x : pipe) : pipe :=
  {| pi_data := v; pi_nread := pi_nread x; pi_nwrite := pi_nwrite x; pi_readopen := pi_readopen
     x; pi_writeopen := pi_writeopen x |}.
Definition set_pi_nread (v : Z) (x : pipe) : pipe :=
  {| pi_data := pi_data x; pi_nread := v; pi_nwrite := pi_nwrite x; pi_readopen := pi_readopen
     x; pi_writeopen := pi_writeopen x |}.
Definition set_pi_nwrite (v : Z) (x : pipe) : pipe :=
  {| pi_data := pi_data x; pi_nread := pi_nread x; pi_nwrite := v; pi_readopen := pi_readopen x;
     pi_writeopen := pi_writeopen x |}.
Definition set_pi_readopen (v : Z) (x : pipe) : pipe :=
  {| pi_data := pi_data x; pi_nread := pi_nread x; pi_nwrite := pi_nwrite x; pi_readopen := v;
     pi_writeopen := pi_writeopen x |}.
Definition set_pi_writeopen (v : Z) (x : pipe) : pipe :=
  {| pi_data := pi_data x; pi_nread := pi_nread x; pi_nwrite := pi_nwrite x; pi_readopen :=
     pi_readopen x; pi_writeopen := v |}.

(** The console input buffer (console.c). *)
Record cons : Type := mkCons {
  cons_buf : list Z;  (* INPUT_BUF bytes *)
  cons_r : Z;  (* uint *)
  cons_w : Z;  (* uint *)
  cons_e : Z  (* uint *)
}.

Definition set_cons_buf (v : list Z) (x : cons) : cons :=
  {| cons_buf := v; cons_r := cons_r x; cons_w := cons_w x; cons_e := cons_e x |}.
Definition set_cons_r (v : Z) (x : cons) : cons :=
  {| cons_buf := cons_buf x; cons_r := v; cons_w := cons_w x; cons_e := cons_e x |}.
Definition set_cons_w (v : Z) (x : cons) : cons :=
  {| cons_buf := cons_buf x; cons_r := cons_r x; cons_w := v; cons_e := cons_e x |}.
Definition set_cons_e (v : Z) (x : cons) : cons :=
  {| cons_buf := cons_buf x; cons_r := cons_r x; cons_w := cons_w x; cons_e := v |}.

(** The UART transmit buffer (uart.c), [panicked] (printf.c), and the device: what it
    was given, what its status register will answer and what it has received. *)
Record uart : Type := mkUart {
  tx_buf : list Z;  (* UART_TX_BUF_SIZE bytes *)
  tx_w : Z;  (* uint64 *)
  tx_r : Z;  (* uint64 *)
  uart_out : list Z;  (* bytes written to THR, oldest first *)
  uart_idle : list bool;  (* results of the next reads of LSR_TX_IDLE *)
  uart_rx : list Z;  (* received bytes not read yet *)
  panicked : bool  (* printf.c *)
}.

Definition set_tx_buf (v : list Z) (x : uart) : uart :=
  {| tx_buf := v; tx_w := tx_w x; tx_r := tx_r x; uart_out := uart_out x; uart_idle := uart_idle
     x; uart_rx := uart_rx x; panicked := panicked x |}.
Definition set_tx_w (v : Z) (x : uart) : uart :=
  {| tx_buf := tx_buf x; tx_w := v; tx_r := tx_r x; uart_out := uart_out x; uart_idle :=
     uart_idle x; uart_rx := uart_rx x; panicked := panicked x |}.
Definition set_tx_r (v : Z) (x : uart) : uart :=
  {| tx_buf := tx_buf x; tx_w := tx_w x; tx_r := v; uart_out := uart_out x; uart_idle :=
     uart_idle x; uart_rx := uart_rx x; panicked := panicked x |}.
Definition set_uart_out (v : list Z) (x : uart) : uart :=
  {| tx_buf := tx_buf x; tx_w := tx_w x; tx_r := tx_r x; uart_out := v; uart_idle := uart_idle
     x; uart_rx := uart_rx x; panicked := panicked x |}.
Definition set_uart_idle (v : list bool) (x : uart) : uart :=
  {| tx_buf := tx_buf x; tx_w := tx_w x; tx_r := tx_r x; uart_out := uart_out x; uart_idle := v;
     uart_rx := uart_rx x; panicked := panicked x |}.
Definition set_uart_rx (v : list Z) (x : uart) : uart :=
  {| tx_buf := tx_buf x; tx_w := tx_w x; tx_r := tx_r x; uart_out := uart_out x; uart_idle :=
     uart_idle x; uart_rx := v; panicked := panicked x |}.
Definition set_panicked (v : bool) (x : uart) : uart :=
  {| tx_buf := tx_buf x; tx_w := tx_w x; tx_r := tx_r x; uart_out := uart_out x; uart_idle :=
     uart_idle x; uart_rx := uart_rx x; panicked := v |}.

(** The control registers the trap code reads and writes (riscv.h). *)
Record hwregs : Type := mkHw {
  r_sstatus_rest : Z;  (* sstatus without its SIE bit *)
  r_sepc : Z;
  r_scause : Z;
  r_stval : Z;
  r_stvec : Z;
  r_satp : Z;
  r_sip : Z;
  r_tp : Z  (* hartid *)
}.

Definition set_r_sstatus_rest (v : Z) (x : hwregs) : hwregs :=
  {| r_sstatus_rest := v; r_sepc := r_sepc x; r_scause := r_scause x; r_stval := r_stval x;
     r_stvec := r_stvec x; r_satp := r_satp x; r_sip := r_sip x; r_tp := r_tp x |}.
Definition set_r_sepc (v : Z) (x : hwregs) : hwregs :=
  {| r_sstatus_rest := r_sstatus_rest x; r_sepc := v; r_scause := r_scause x; r_stval := r_stval
     x; r_stvec := r_stvec x; r_satp := r_satp x; r_sip := r_sip x; r_tp := r_tp x |}.
Definition set_r_scause (v : Z) (x : hwregs) : hwregs :=
  {| r_sstatus_rest := r_sstatus_rest x; r_sepc := r_sepc x; r_scause := v; r_stval := r_stval
     x; r_stvec := r_stvec x; r_satp := r_satp x; r_sip := r_sip x; r_tp := r_tp x |}.
Definition set_r_stval (v : Z) (x : hwregs) : hwregs :=
  {| r_sstatus_rest := r_sstatus_rest x; r_sepc := r_sepc x; r_scause := r_scause x; r_stval :=
     v; r_stvec := r_stvec x; r_satp := r_satp x; r_sip := r_sip x; r_tp := r_tp x |}.
Definition set_r_stvec (v : Z) (x : hwregs) : hwregs :=
  {| r_sstatus_rest := r_sstatus_rest x; r_sepc := r_sepc x; r_scause := r_scause x; r_stval :=
     r_stval x; r_stvec := v; r_satp := r_satp x; r_sip := r_sip x; r_tp := r_tp x |}.
Definition set_r_satp (v : Z) (x : hwregs) : hwregs :=
  {| r_sstatus_rest := r_sstatus_rest x; r_sepc := r_sepc x; r_scause := r_scause x; r_stval :=
     r_stval x; r_stvec := r_stvec x; r_satp := v; r_sip := r_sip x; r_tp := r_tp x |}.
Definition set_r_sip (v : Z) (x : hwregs) : hwregs :=
  {| r_sstatus_rest := r_sstatus_rest x; r_sepc := r_sepc x; r_scause := r_scause x; r_stval :=
     r_stval x; r_stvec := r_stvec x; r_satp := r_satp x; r_sip := v; r_tp := r_tp x |}.
Definition set_r_tp (v : Z) (x : hwregs) : hwregs :=
  {| r_sstatus_rest := r_sstatus_rest x; r_sepc := r_sepc x; r_scause := r_scause x; r_stval :=
     r_stval x; r_stvec := r_stvec x; r_satp := r_satp x; r_sip := r_sip x; r_tp := v |}.

(** The state of the kernel as one CPU sees it. *)
Record kst : Type := mkKst {
  k_mem : mem;  (* physical RAM *)
  k_freelist : Z;  (* kmem.freelist *)
  k_held : list lockid;  (* spinlocks this CPU holds, latest first *)
  k_intr : bool;  (* SIE outside lock sections *)
  k_cur : option nat;  (* mycpu()->proc *)
  k_hw : hwregs;
  k_kpgtbl : Z;  (* kernel_pagetable *)
  k_procs : list proc;
  k_initproc : option nat;
  k_nextpid : Z;
  k_first : bool;  (* forkret's static *)
  k_nextsid : Z;
  k_sems : list semaphore;  (* binSemArray *)
  k_ticks : Z;  (* uint *)
  k_files : list file;  (* ftable.file *)
  k_pipes : gmap Z pipe;  (* by page address *)
  k_inodes : list inode;  (* itable.inode *)
  k_bufs : list buf;  (* bcache.buf, then bcache.head *)
  k_log : logst;
  k_sb : superblock;
  k_disk : gmap Z (list Z);  (* block contents *)
  k_dtrace : list (Z * list Z);  (* block writes so far, latest first *)
  k_devsw : list (option device);
  k_cons : cons;
  k_uart : uart;
  k_pr_locking : Z  (* pr.locking (printf.c) *)
}.

Definition set_k_mem (v : mem) (x : kst) : kst :=
  {| k_mem := v; k_freelist := k_freelist x; k_held := k_held x; k_intr := k_intr x; k_cur :=
     k_cur x; k_hw := k_hw x; k_kpgtbl := k_kpgtbl x; k_procs := k_procs x; k_initproc :=
     k_initproc x; k_nextpid := k_nextpid x; k_first := k_first x; k_nextsid := k_nextsid x;
     k_sems := k_sems x; k_ticks := k_ticks x; k_files := k_files x; k_pipes := k_pipes x;
     k_inodes := k_inodes x; k_bufs := k_bufs x; k_log := k_log x; k_sb := k_sb x; k_disk :=
     k_disk x; k_dtrace := k_dtrace x; k_devsw := k_devsw x; k_cons := k_cons x; k_uart :=
     k_uart x; k_pr_locking := k_pr_locking x |}.
Definition set_k_freelist (v : Z) (x : kst) : kst :=
  {| k_mem := k_mem x; k_freelist := v; k_held := k_held x; k_intr := k_intr x; k_cur := k_cur
     x; k_hw := k_hw x; k_kpgtbl := k_kpgtbl x; k_procs := k_procs x; k_initproc := k_initproc
     x; k_nextpid := k_nextpid x; k_first := k_first x; k_nextsid := k_nextsid x; k_sems :=
     k_sems x; k_ticks := k_ticks x; k_files := k_files x; k_pipes := k_pipes x; k_inodes :=
     k_inodes x; k_bufs := k_bufs x; k_log := k_log x; k_sb := k_sb x; k_disk := k_disk x;
     k_dtrace := k_dtrace x; k_devsw := k_devsw x; k_cons := k_cons x; k_uart := k_uart x;
     k_pr_locking := k_pr_locking x |}.
Definition set_k_held (v : list lockid) (x : kst) : kst :=
  {| k_mem := k_mem x; k_freelist := k_freelist x; k_held := v; k_intr := k_intr x; k_cur :=
     k_cur x; k_hw := k_hw x; k_kpgtbl := k_kpgtbl x; k_procs := k_procs x; k_initproc :=
     k_initproc x; k_nextpid := k_nextpid x; k_first := k_first x; k_nextsid := k_nextsid x;
     k_sems := k_sems x; k_ticks := k_ticks x; k_files := k_files x; k_pipes := k_pipes x;
     k_inodes := k_inodes x; k_bufs := k_bufs x; k_log := k_log x; k_sb := k_sb x; k_disk :=
     k_disk x; k_dtrace := k_dtrace x; k_devsw := k_devsw x; k_cons := k_cons x; k_uart :=
     k_uart x; k_pr_locking := k_pr_locking x |}.
Definition set_k_intr (v : bool) (x : kst) : kst :=
  {| k_mem := k_mem x; k_freelist := k_freelist x; k_held := k_held x; k_intr := v; k_cur :=
     k_cur x; k_hw := k_hw x; k_kpgtbl := k_kpgtbl x; k_procs := k_procs x; k_initproc :=
     k_initproc x; k_nextpid := k_nextpid x; k_first := k_first x; k_nextsid := k_nextsid x;
     k_sems := k_sems x; k_ticks := k_ticks x; k_files := k_files x; k_pipes := k_pipes x;
     k_inodes := k_inodes x; k_bufs := k_bufs x; k_log := k_log x; k_sb := k_sb x; k_disk :=
     k_disk x; k_dtrace := k_dtrace x; k_devsw := k_devsw x; k_cons := k_cons x; k_uart :=
     k_uart x; k_pr_locking := k_pr_locking x |}.
Definition set_k_cur (v : option nat) (x : kst) : kst :=
  {| k_mem := k_mem x; k_freelist := k_freelist x; k_held := k_held x; k_intr := k_intr x; k_cur
     := v; k_hw := k_hw x; k_kpgtbl := k_kpgtbl x; k_procs := k_procs x; k_initproc :=
     k_initproc x; k_nextpid := k_nextpid x; k_first := k_first x; k_nextsid := k_nextsid x;
     k_sems := k_sems x; k_ticks := k_ticks x; k_files := k_files x; k_pipes := k_pipes x;
     k_inodes := k_inodes x; k_bufs := k_bufs x; k_log := k_log x; k_sb := k_sb x; k_disk :=
     k_disk x; k_dtrace := k_dtrace x; k_devsw := k_devsw x; k_cons := k_cons x; k_uart :=
     k_uart x; k_pr_locking := k_pr_locking x |}.
Definition set_k_hw (v : hwregs) (x : kst) : kst :=
  {| k_mem := k_mem x; k_freelist := k_freelist x; k_held := k_held x; k_intr := k_intr x; k_cur
     := k_cur x; k_hw := v; k_kpgtbl := k_kpgtbl x; k_procs := k_procs x; k_initproc :=
     k_initproc x; k_nextpid := k_nextpid x; k_first := k_first x; k_nextsid := k_nextsid x;
     k_sems := k_sems x; k_ticks := k_ticks x; k_files := k_files x; k_pipes := k_pipes x;
     k_inodes := k_inodes x; k_bufs := k_bufs x; k_log := k_log x; k_sb := k_sb x; k_disk :=
     k_disk x; k_dtrace := k_dtrace x; k_devsw := k_devsw x; k_cons := k_cons x; k_uart :=
     k_uart x; k_pr_locking := k_pr_locking x |}.
Definition set_k_kpgtbl (v : Z) (x : kst) : kst :=
  {| k_mem := k_mem x; k_freelist := k_freelist x; k_held := k_held x; k_intr := k_intr x; k_cur
     := k_cur x; k_hw := k_hw x; k_kpgtbl := v; k_procs := k_procs x; k_initproc := k_initproc
     x; k_nextpid := k_nextpid x; k_first := k_first x; k_nextsid := k_nextsid x; k_sems :=
     k_sems x; k_ticks := k_ticks x; k_files := k_files x; k_pipes := k_pipes x; k_inodes :=
     k_inodes x; k_bufs := k_bufs x; k_log := k_log x; k_sb := k_sb x; k_disk := k_disk x;
     k_dtrace := k_dtrace x; k_devsw := k_devsw x; k_cons := k_cons x; k_uart := k_uart x;
     k_pr_locking := k_pr_locking x |}.
Definition set_k_procs (v : list proc) (x : kst) : kst :=
  {| k_mem := k_mem x; k_freelist := k_freelist x; k_held := k_held x; k_intr := k_intr x; k_cur
     := k_cur x; k_hw := k_hw x; k_kpgtbl := k_kpgtbl x; k_procs := v; k_initproc := k_initproc
     x; k_nextpid := k_nextpid x; k_first := k_first x; k_nextsid := k_nextsid x; k_sems :=
     k_sems x; k_ticks := k_ticks x; k_files := k_files x; k_pipes := k_pipes x; k_inodes :=
     k_inodes x; k_bufs := k_bufs x; k_log := k_log x; k_sb := k_sb x; k_disk := k_disk x;
     k_dtrace := k_dtrace x; k_devsw := k_devsw x; k_cons := k_cons x; k_uart := k_uart x;
     k_pr_locking := k_pr_locking x |}.
Definition set_k_initproc (v : option nat) (x : kst) : kst :=
  {| k_mem := k_mem x; k_freelist := k_freelist x; k_held := k_held x; k_intr := k_intr x; k_cur
     := k_cur x; k_hw := k_hw x; k_kpgtbl := k_kpgtbl x; k_procs := k_procs x; k_initproc := v;
     k_nextpid := k_nextpid x; k_first := k_first x; k_nextsid := k_nextsid x; k_sems := k_sems
     x; k_ticks := k_ticks x; k_files := k_files x; k_pipes := k_pipes x; k_inodes := k_inodes
     x; k_bufs := k_bufs x; k_log := k_log x; k_sb := k_sb x; k_disk := k_disk x; k_dtrace :=
     k_dtrace x; k_devsw := k_devsw x; k_cons := k_cons x; k_uart := k_uart x; k_pr_locking :=
     k_pr_locking x |}.
Definition set_k_nextpid (v : Z) (x : kst) : kst :=
  {| k_mem := k_mem x; k_freelist := k_freelist x; k_held := k_held x; k_intr := k_intr x; k_cur
     := k_cur x; k_hw := k_hw x; k_kpgtbl := k_kpgtbl x; k_procs := k_procs x; k_initproc :=
     k_initproc x; k_nextpid := v; k_first := k_first x; k_nextsid := k_nextsid x; k_sems :=
     k_sems x; k_ticks := k_ticks x; k_files := k_files x; k_pipes := k_pipes x; k_inodes :=
     k_inodes x; k_bufs := k_bufs x; k_log := k_log x; k_sb := k_sb x; k_disk := k_disk x;
     k_dtrace := k_dtrace x; k_devsw := k_devsw x; k_cons := k_cons x; k_uart := k_uart x;
     k_pr_locking := k_pr_locking x |}.
Definition set_k_first (v : bool) (x : kst) : kst :=
  {| k_mem := k_mem x; k_freelist := k_freelist x; k_held := k_held x; k_intr := k_intr x; k_cur
     := k_cur x; k_hw := k_hw x; k_kpgtbl := k_kpgtbl x; k_procs := k_procs x; k_initproc :=
     k_initproc x; k_nextpid := k_nextpid x; k_first := v; k_nextsid := k_nextsid x; k_sems :=
     k_sems x; k_ticks := k_ticks x; k_files := k_files x; k_pipes := k_pipes x; k_inodes :=
     k_inodes x; k_bufs := k_bufs x; k_log := k_log x; k_sb := k_sb x; k_disk := k_disk x;
     k_dtrace := k_dtrace x; k_devsw := k_devsw x; k_cons := k_cons x; k_uart := k_uart x;
     k_pr_locking := k_pr_locking x |}.
Definition set_k_nextsid (v : Z) (x : kst) : kst :=
  {| k_mem := k_mem x; k_freelist := k_freelist x; k_held := k_held x; k_intr := k_intr x; k_cur
     := k_cur x; k_hw := k_hw x; k_kpgtbl := k_kpgtbl x; k_procs := k_procs x; k_initproc :=
     k_initproc x; k_nextpid := k_nextpid x; k_first := k_first x; k_nextsid := v; k_sems :=
     k_sems x; k_ticks := k_ticks x; k_files := k_files x; k_pipes := k_pipes x; k_inodes :=
     k_inodes x; k_bufs := k_bufs x; k_log := k_log x; k_sb := k_sb x; k_disk := k_disk x;
     k_dtrace := k_dtrace x; k_devsw := k_devsw x; k_cons := k_cons x; k_uart := k_uart x;
     k_pr_locking := k_pr_locking x |}.
Definition set_k_sems (v : list semaphore) (x : kst) : kst :=
  {| k_mem := k_mem x; k_freelist := k_freelist x; k_held := k_held x; k_intr := k_intr x; k_cur
     := k_cur x; k_hw := k_hw x; k_kpgtbl := k_kpgtbl x; k_procs := k_procs x; k_initproc :=
     k_initproc x; k_nextpid := k_nextpid x; k_first := k_first x; k_nextsid := k_nextsid x;
     k_sems := v; k_ticks := k_ticks x; k_files := k_files x; k_pipes := k_pipes x; k_inodes :=
     k_inodes x; k_bufs := k_bufs x; k_log := k_log x; k_sb := k_sb x; k_disk := k_disk x;
     k_dtrace := k_dtrace x; k_devsw := k_devsw x; k_cons := k_cons x; k_uart := k_uart x;
     k_pr_locking := k_pr_locking x |}.
Definition set_k_ticks (v : Z) (x : kst) : kst :=
  {| k_mem := k_mem x; k_freelist := k_freelist x; k_held := k_held x; k_intr := k_intr x; k_cur
     := k_cur x; k_hw := k_hw x; k_kpgtbl := k_kpgtbl x; k_procs := k_procs x; k_initproc :=
     k_initproc x; k_nextpid := k_nextpid x; k_first := k_first x; k_nextsid := k_nextsid x;
     k_sems := k_sems x; k_ticks := v; k_files := k_files x; k_pipes := k_pipes x; k_inodes :=
     k_inodes x; k_bufs := k_bufs x; k_log := k_log x; k_sb := k_sb x; k_disk := k_disk x;
     k_dtrace := k_dtrace x; k_devsw := k_devsw x; k_cons := k_cons x; k_uart := k_uart x;
     k_pr_locking := k_pr_locking x |}.
Definition set_k_files (v : list file) (x : kst) : kst :=
  {| k_mem := k_mem x; k_freelist := k_freelist x; k_held := k_held x; k_intr := k_intr x; k_cur
     := k_cur x; k_hw := k_hw x; k_kpgtbl := k_kpgtbl x; k_procs := k_procs x; k_initproc :=
     k_initproc x; k_nextpid := k_nextpid x; k_first := k_first x; k_nextsid := k_nextsid x;
     k_sems := k_sems x; k_ticks := k_ticks x; k_files := v; k_pipes := k_pipes x; k_inodes :=
     k_inodes x; k_bufs := k_bufs x; k_log := k_log x; k_sb := k_sb x; k_disk := k_disk x;
     k_dtrace := k_dtrace x; k_devsw := k_devsw x; k_cons := k_cons x; k_uart := k_uart x;
     k_pr_locking := k_pr_locking x |}.
Definition set_k_pipes (v : gmap Z pipe) (x : kst) : kst :=
  {| k_mem := k_mem x; k_freelist := k_freelist x; k_held := k_held x; k_intr := k_intr x; k_cur
     := k_cur x; k_hw := k_hw x; k_kpgtbl := k_kpgtbl x; k_procs := k_procs x; k_initproc :=
     k_initproc x; k_nextpid := k_nextpid x; k_first := k_first x; k_nextsid := k_nextsid x;
     k_sems := k_sems x; k_ticks := k_ticks x; k_files := k_files x; k_pipes := v; k_inodes :=
     k_inodes x; k_bufs := k_bufs x; k_log := k_log x; k_sb := k_sb x; k_disk := k_disk x;
     k_dtrace := k_dtrace x; k_devsw := k_devsw x; k_cons := k_cons x; k_uart := k_uart x;
     k_pr_locking := k_pr_locking x |}.
Definition set_k_inodes (v : list inode) (x : kst) : kst :=
  {| k_mem := k_mem x; k_freelist := k_freelist x; k_held := k_held x; k_intr := k_intr x; k_cur
     := k_cur x; k_hw := k_hw x; k_kpgtbl := k_kpgtbl x; k_procs := k_procs x; k_initproc :=
     k_initproc x; k_nextpid := k_nextpid x; k_first := k_first x; k_nextsid := k_nextsid x;
     k_sems := k_sems x; k_ticks := k_ticks x; k_files := k_files x; k_pipes := k_pipes x;
     k_inodes := v; k_bufs := k_bufs x; k_log := k_log x; k_sb := k_sb x; k_disk := k_disk x;
     k_dtrace := k_dtrace x; k_devsw := k_devsw x; k_cons := k_cons x; k_uart := k_uart x;
     k_pr_locking := k_pr_locking x |}.
Definition set_k_bufs (v : list buf) (x : kst) : kst :=
  {| k_mem := k_mem x; k_freelist := k_freelist x; k_held := k_held x; k_intr := k_intr x; k_cur
     := k_cur x; k_hw := k_hw x; k_kpgtbl := k_kpgtbl x; k_procs := k_procs x; k_initproc :=
     k_initproc x; k_nextpid := k_nextpid x; k_first := k_first x; k_nextsid := k_nextsid x;
     k_sems := k_sems x; k_ticks := k_ticks x; k_files := k_files x; k_pipes := k_pipes x;
     k_inodes := k_inodes x; k_bufs := v; k_log := k_log x; k_sb := k_sb x; k_disk := k_disk x;
     k_dtrace := k_dtrace x; k_devsw := k_devsw x; k_cons := k_cons x; k_uart := k_uart x;
     k_pr_locking := k_pr_locking x |}.
Definition set_k_log (v : logst) (x : kst) : kst :=
  {| k_mem := k_mem x; k_freelist := k_freelist x; k_held := k_held x; k_intr := k_intr x; k_cur
     := k_cur x; k_hw := k_hw x; k_kpgtbl := k_kpgtbl x; k_procs := k_procs x; k_initproc :=
     k_initproc x; k_nextpid := k_nextpid x; k_first := k_first x; k_nextsid := k_nextsid x;
     k_sems := k_sems x; k_ticks := k_ticks x; k_files := k_files x; k_pipes := k_pipes x;
     k_inodes := k_inodes x; k_bufs := k_bufs x; k_log := v; k_sb := k_sb x; k_disk := k_disk x;
     k_dtrace := k_dtrace x; k_devsw := k_devsw x; k_cons := k_cons x; k_uart := k_uart x;
     k_pr_locking := k_pr_locking x |}.
Definition set_k_sb (v : superblock) (x : kst) : kst :=
  {| k_mem := k_mem x; k_freelist := k_freelist x; k_held := k_held x; k_intr := k_intr x; k_cur
     := k_cur x; k_hw := k_hw x; k_kpgtbl := k_kpgtbl x; k_procs := k_procs x; k_initproc :=
     k_initproc x; k_nextpid := k_nextpid x; k_first := k_first x; k_nextsid := k_nextsid x;
     k_sems := k_sems x; k_ticks := k_ticks x; k_files := k_files x; k_pipes := k_pipes x;
     k_inodes := k_inodes x; k_bufs := k_bufs x; k_log := k_log x; k_sb := v; k_disk := k_disk
     x; k_dtrace := k_dtrace x; k_devsw := k_devsw x; k_cons := k_cons x; k_uart := k_uart x;
     k_pr_locking := k_pr_locking x |}.
Definition set_k_disk (v : gmap Z (list Z)) (x : kst) : kst :=
  {| k_mem := k_mem x; k_freelist := k_freelist x; k_held := k_held x; k_intr := k_intr x; k_cur
     := k_cur x; k_hw := k_hw x; k_kpgtbl := k_kpgtbl x; k_procs := k_procs x; k_initproc :=
     k_initproc x; k_nextpid := k_nextpid x; k_first := k_first x; k_nextsid := k_nextsid x;
     k_sems := k_sems x; k_ticks := k_ticks x; k_files := k_files x; k_pipes := k_pipes x;
     k_inodes := k_inodes x; k_bufs := k_bufs x; k_log := k_log x; k_sb := k_sb x; k_disk := v;
     k_dtrace := k_dtrace x; k_devsw := k_devsw x; k_cons := k_cons x; k_uart := k_uart x;
     k_pr_locking := k_pr_locking x |}.
Definition set_k_dtrace (v : list (Z * list Z)) (x : kst) : kst :=
  {| k_mem := k_mem x; k_freelist := k_freelist x; k_held := k_held x; k_intr := k_intr x; k_cur
     := k_cur x; k_hw := k_hw x; k_kpgtbl := k_kpgtbl x; k_procs := k_procs x; k_initproc :=
     k_initproc x; k_nextpid := k_nextpid x; k_first := k_first x; k_nextsid := k_nextsid x;
     k_sems := k_sems x; k_ticks := k_ticks x; k_files := k_files x; k_pipes := k_pipes x;
     k_inodes := k_inodes x; k_bufs := k_bufs x; k_log := k_log x; k_sb := k_sb x; k_disk :=
     k_disk x; k_dtrace := v; k_devsw := k_devsw x; k_cons := k_cons x; k_uart := k_uart x;
     k_pr_locking := k_pr_locking x |}.
Definition set_k_devsw (v : list (option device)) (x : kst) : kst :=
  {| k_mem := k_mem x; k_freelist := k_freelist x; k_held := k_held x; k_intr := k_intr x; k_cur
     := k_cur x; k_hw := k_hw x; k_kpgtbl := k_kpgtbl x; k_procs := k_procs x; k_initproc :=
     k_initproc x; k_nextpid := k_nextpid x; k_first := k_first x; k_nextsid := k_nextsid x;
     k_sems := k_sems x; k_ticks := k_ticks x; k_files := k_files x; k_pipes := k_pipes x;
     k_inodes := k_inodes x; k_bufs := k_bufs x; k_log := k_log x; k_sb := k_sb x; k_disk :=
     k_disk x; k_dtrace := k_dtrace x; k_devsw := v; k_cons := k_cons x; k_uart := k_uart x;
     k_pr_locking := k_pr_locking x |}.
Definition set_k_cons (v : cons) (x : kst) : kst :=
  {| k_mem := k_mem x; k_freelist := k_freelist x; k_held := k_held x; k_intr := k_intr x; k_cur
     := k_cur x; k_hw := k_hw x; k_kpgtbl := k_kpgtbl x; k_procs := k_procs x; k_initproc :=
     k_initproc x; k_nextpid := k_nextpid x; k_first := k_first x; k_nextsid := k_nextsid x;
     k_sems := k_sems x; k_ticks := k_ticks x; k_files := k_files x; k_pipes := k_pipes x;
     k_inodes := k_inodes x; k_bufs := k_bufs x; k_log := k_log x; k_sb := k_sb x; k_disk :=
     k_disk x; k_dtrace := k_dtrace x; k_devsw := k_devsw x; k_cons := v; k_uart := k_uart x;
     k_pr_locking := k_pr_locking x |}.
Definition set_k_uart (v : uart) (x : kst) : kst :=
  {| k_mem := k_mem x; k_freelist := k_freelist x; k_held := k_held x; k_intr := k_intr x; k_cur
     := k_cur x; k_hw := k_hw x; k_kpgtbl := k_kpgtbl x; k_procs := k_procs x; k_initproc :=
     k_initproc x; k_nextpid := k_nextpid x; k_first := k_first x; k_nextsid := k_nextsid x;
     k_sems := k_sems x; k_ticks := k_ticks x; k_files := k_files x; k_pipes := k_pipes x;
     k_inodes := k_inodes x; k_bufs := k_bufs x; k_log := k_log x; k_sb := k_sb x; k_disk :=
     k_disk x; k_dtrace := k_dtrace x; k_devsw := k_devsw x; k_cons := k_cons x; k_uart := v;
     k_pr_locking := k_pr_locking x |}.
Definition set_k_pr_locking (v : Z) (x : kst) : kst :=
  {| k_mem := k_mem x; k_freelist := k_freelist x; k_held := k_held x; k_intr := k_intr x; k_cur
     := k_cur x; k_hw := k_hw x; k_kpgtbl := k_kpgtbl x; k_procs := k_procs x; k_initproc :=
     k_initproc x; k_nextpid := k_nextpid x; k_first := k_first x; k_nextsid := k_nextsid x;
     k_sems := k_sems x; k_ticks := k_ticks x; k_files := k_files x; k_pipes := k_pipes x;
     k_inodes := k_inodes x; k_bufs := k_bufs x; k_log := k_log x; k_sb := k_sb x; k_disk :=
     k_disk x; k_dtrace := k_dtrace x; k_devsw := k_devsw x; k_cons := k_cons x; k_uart :=
     k_uart x; k_pr_locking := v |}.

(** What an unused slot of each table holds when the kernel is loaded: C
    initialises globals to zero. *)
Definition context0 : context := mkContext 0 0 (replicate 12 0).
Definition proc0 : proc :=
  mkProc UNUSED None 0 0 0 None 0 0 0 0 context0 (replicate NOFILE None) None
    (replicate 16 0) 0 0 (replicate 32 0) 0 0 0 0 (replicate 32 0).
Definition semaphore0 : semaphore := mkSemaphore 0 0 0.
Definition sleeplock0 : sleeplock := mkSleeplock 0 0.
Definition file0 : file := mkFile FD_NONE 0 0 0 0 None 0 0.
Definition inode0 : inode := mkInode 0 0 0 sleeplock0 0 0 0 0 0 0 (replicate 13 0).
Definition buf0 : buf := mkBuf 0 0 0 sleeplock0 0 0 0 (replicate 1024 0).
Definition pipe0 : pipe := mkPipe (replicate 512 0) 0 0 0 0.

#[export] Instance proc_inhabited : Inhabited proc := populate proc0.
#[export] Instance semaphore_inhabited : Inhabited semaphore := populate semaphore0.
#[export] Instance file_inhabited : Inhabited file := populate file0.
#[export] Instance inode_inhabited : Inhabited inode := populate inode0.
#[export] Instance buf_inhabited : Inhabited buf := populate buf0.

Definition kst0 : kst :=
  mkKst ∅ 0 [] false None (mkHw 0 0 0 0 0 0 0 0) 0
    (replicate NPROC proc0) None 1 true
    1 (replicate MAX_BSEM semaphore0) 0
    (replicate NFILE file0) ∅
    (replicate NINODE inode0) (replicate (S NBUF) buf0) (mkLog 0 0 0 0 0 0 (replicate 30 0))
    (mkSuperblock 0 0 0 0 0 0 0 0) ∅ []
    (replicate 10 None) (mkCons (replicate 128 0) 0 0 0) (mkUart (replicate 32 0) 0 0 [] [] [] false) 0.

Record world : Type := mkWorld { w_ks : kst; w_env : list (kst -> kst) }.

(** Computations of the running kernel thread. *)
Abbreviation K := (M world).

Definition kgets {A} (f : kst -> A) : K A := gets (fun w => f (w_ks w)).
Definition kmodify (f : kst -> kst) : K unit :=
  modify (fun w => mkWorld (f (w_ks w)) (w_env w)).

(** ** Element access *)

Definition get_proc (i : nat) (s : kst) : proc := k_procs s !!! i.
Definition upd_proc (i : nat) (f : proc -> proc) (s : kst) : kst :=
  set_k_procs (alter f i (k_procs s)) s.
Definition proc_of (i : nat) : K proc := kgets (get_proc i).
Definition proc_upd (i : nat) (f : proc -> proc) : K unit := kmodify (upd_proc i f).

(** [for(p = proc; p < &proc[NPROC]; p++)] *)
Definition proc_slots : list nat := seq 0 NPROC.

(** ** RAM access *)

Definition ldM8 (a : Z) : K Z := kgets (fun s => ld8 (k_mem s) a).
Definition ldM64 (a : Z) : K Z := kgets (fun s => ld64 (k_mem s) a).
Definition memM (f : mem -> mem) : K unit := kmodify (fun s => set_k_mem (f (k_mem s)) s).
Definition stM64 (a v : Z) : K unit := memM (fun m => st64 m a v).

(** ** Symbolic execution of kernel code

    [kstep] takes one step of a goal [wpx P B m Q w]; [ksteps] goes on as long as it
    can without choosing a branch. *)

Section StateLemmas.
Context (P : string -> world -> Prop) (B : world -> Prop).

Lemma wpx_kgets {A} (f : kst -> A) (Q : A -> world -> Prop) w :
  Q (f (w_ks w)) w -> wpx P B (kgets f) Q w.
Proof. done. Qed.

Lemma wpx_kmodify f (Q : unit -> world -> Prop) w :
  Q tt (mkWorld (f (w_ks w)) (w_env w)) -> wpx P B (kmodify f) Q w.
Proof. done. Qed.

Lemma wpx_proc_of i (Q : proc -> world -> Prop) w :
  Q (get_proc i (w_ks w)) w -> wpx P B (proc_of i) Q w.
Proof. done. Qed.

Lemma wpx_proc_upd i f (Q : unit -> world -> Prop) w :
  Q tt (mkWorld (upd_proc i f (w_ks w)) (w_env w)) -> wpx P B (proc_upd i f) Q w.
Proof. done. Qed.

Lemma wpx_ldM8 a (Q : Z -> world -> Prop) w :
  Q (ld8 (k_mem (w_ks w)) a) w -> wpx P B (ldM8 a) Q w.
Proof. done. Qed.

Lemma wpx_ldM64 a (Q : Z -> world -> Prop) w :
  Q (ld64 (k_mem (w_ks w)) a) w -> wpx P B (ldM64 a) Q w.
Proof. done. Qed.

Lemma wpx_memM f (Q : unit -> world -> Prop) w :
  Q tt (mkWorld (set_k_mem (f (k_mem (w_ks w))) (w_ks w)) (w_env w)) ->
  wpx P B (memM f) Q w.
Proof. done. Qed.

Lemma wpx_stM64 a v (Q : unit -> world -> Prop) w :
  Q tt (mkWorld (set_k_mem (st64 (k_mem (w_ks w)) a v) (w_ks w)) (w_env w)) ->
  wpx P B (stM64 a v) Q w.
Proof. done. Qed.

End StateLemmas.

Ltac kstep :=
  lazymatch goal with
  | |- wp _ _ _ => unfold wp
  | |- wpx _ _ ?m _ _ =>
      lazymatch m with
      | mbind _ _ => apply wpx_bind
      | mret _ => apply wpx_ret
      | gets _ => apply wpx_gets
      | kgets _ => apply wpx_kgets
      | kmodify _ => apply wpx_kmodify
      | proc_of _ => apply wpx_proc_of
      | proc_upd _ _ => apply wpx_proc_upd
      | ldM8 _ => apply wpx_ldM8
      | ldM64 _ => apply wpx_ldM64
      | memM _ => apply wpx_memM
      | stM64 _ _ => apply wpx_stM64
      | panic _ => apply wpx_panic
      | (if _ then _ else _) => progress (cbn [negb orb andb]; cbv match)
      end
  end; cbn beta; cbn [w_ks w_env].
Ltac ksteps := repeat kstep.

(** Two kernel states built by field updates from the same state are equal. *)
Ltac kst_eq :=
  repeat match goal with s : kst |- _ => destruct s end;
  cbv [w_ks w_env upd_proc
       k_mem k_freelist k_held k_intr k_cur k_hw k_kpgtbl k_procs k_initproc
       k_nextpid k_first k_nextsid k_sems k_ticks k_files k_pipes k_inodes
       k_bufs k_log k_sb k_disk k_dtrace k_devsw k_cons k_uart k_pr_locking
       set_k_mem set_k_freelist set_k_held set_k_intr set_k_cur set_k_hw
       set_k_kpgtbl set_k_procs set_k_initproc set_k_nextpid set_k_first
       set_k_nextsid set_k_sems set_k_ticks set_k_files set_k_pipes set_k_inodes
       set_k_bufs set_k_log set_k_sb set_k_disk set_k_dtrace set_k_devsw
       set_k_cons set_k_uart set_k_pr_locking];
  reflexivity.

(** ** Process-table updates *)

Lemma get_upd_proc i f s :
  (i < length (k_procs s))%nat -> get_proc i (upd_proc i f s) = f (get_proc i s).
Proof. intros H. unfold get_proc, upd_proc. simpl.
  rewrite list_lookup_total_alter, decide_True; done. Qed.

Lemma get_upd_proc_ne i j f s :
  i <> j -> get_proc j (upd_proc i f s) = get_proc j s.
Proof. intros H. unfold get_proc, upd_proc. simpl.
  rewrite list_lookup_total_alter, decide_False; [done|by intros []]. Qed.

Lemma length_upd_proc i f s : length (k_procs (upd_proc i f s)) = length (k_procs s).
Proof. unfold upd_proc. simpl. by rewrite length_alter. Qed.

Lemma upd_proc_twice i f g s : upd_proc i f (upd_proc i g s) = upd_proc i (f ∘ g) s.
Proof.
  unfold upd_proc. simpl.
  assert (H : alter f i (alter g i (k_procs s)) = alter (f ∘ g) i (k_procs s)).
  { apply list_eq. intros j. rewrite !list_lookup_alter. case_decide; [|done].
    rewrite decide_True by done. by destruct (k_procs s !! i). }
  rewrite H. by destruct s.
Qed.

(** Only what [f] does to process [i] matters. *)
Lemma upd_proc_get_ext i f g s : f (get_proc i s) = g (get_proc i s) -> upd_proc i f s = upd_proc i g s.
Proof.
  intros H. unfold upd_proc. f_equal. apply list_eq. intros j. rewrite !list_lookup_alter.
  case_decide as Hij; [subst j|done]. unfold get_proc in H. rewrite list_lookup_total_alt in H.
  destruct (k_procs s !! i); [|done]. cbn in H |- *. by f_equal.
Qed.

Lemma upd_proc_id i f s : f (get_proc i s) = get_proc i s -> upd_proc i f s = s.
Proof.
  intros H. rewrite (upd_proc_get_ext i f id s H). unfold upd_proc.
  assert (Hid : alter id i (k_procs s) = k_procs s).
  { apply list_eq. intros j. rewrite list_lookup_alter. case_decide; [subst j|done]. by destruct (k_procs s !! i). }
  rewrite Hid. by destruct s.
Qed.
