(* ===== verification/Spinlock.v ===== *)
(** * Spin locks (kernel/spinlock.c)

    [Module Smp] is spinlock.c on a multiprocessor, one atomic memory access per
    step: [push_off]/[pop_off] with their nesting count, the [amoswap] loop of
    [acquire], the owner field, and [release].  Its theorems show that the lock
    gives mutual exclusion, that it implements the atomic lock of [Module Spec],
    and that interrupts are off exactly while a lock section is open.

    The other files use locks through the interface at the end: [k_held] is the
    list of locks the running CPU holds, and [acquire] and [release] take and drop
    one, with the panics of the source. *)

From stdpp Require Import base gmap list strings.
From Stdlib Require Import ZArith Lia.
From S2P Require Import Prelude Riscv Memory State.

Module Smp.

(** Per-CPU state (proc.h, [struct cpu]): nesting depth, saved enable flag, and the
    hardware's SIE bit of that CPU. *)
Record cpu : Type := mkCpu { noff : Z; intena : bool; sie : bool }.

(** [struct spinlock]: the lock word and the owner recorded for [holding]. *)
Record spinlock : Type := mkSpinlock { locked : Z; lk_cpu : option nat }.

Definition initlock : spinlock := mkSpinlock 0 None.

(** Where a CPU is inside [acquire] or [release]. *)
Inductive pc :=
| Out                    (* in neither *)
| Spinning (lk : nat)    (* acquire: at the test-and-set loop *)
| Won (lk : nat)         (* acquire: swapped in 1, owner not recorded yet *)
| Dropping (lk : nat)    (* release: owner cleared, lock word still 1 *)
| Popping.               (* release: lock word 0, pop_off still to run *)

Record smp : Type := mkSmp {
  cpus : nat -> cpu;
  pcs : nat -> pc;
  locks : nat -> spinlock
}.

Definition upd {A} (f : nat -> A) (i : nat) (v : A) : nat -> A :=
  fun j => if decide (j = i) then v else f j.

(** [push_off] and [pop_off]; [None] is a panic. *)
Definition push_off (c : cpu) : cpu :=
  let old := sie c in
  {| noff := noff c + 1;
     intena := if noff c =? 0 then old else intena c;
     sie := false |}.

Definition pop_off (c : cpu) : option cpu :=
  if sie c then None
  else if noff c <? 1 then None
  else Some {| noff := noff c - 1; intena := intena c;
               sie := if (noff c - 1 =? 0) && intena c then true else false |}.

Definition holding (s : smp) (i lk : nat) : bool :=
  negb (locked (locks s lk) =? 0) && bool_decide (lk_cpu (locks s lk) = Some i).

(** One step of CPU [i]. *)
Inductive action :=
| AcquireStart (lk : nat) | Swap | RecordOwner
| ReleaseStart (lk : nat) | Unlock | Pop.

Definition set_pc (i : nat) (p : pc) (s : smp) : smp :=
  mkSmp (cpus s) (upd (pcs s) i p) (locks s).
Definition set_lock (lk : nat) (l : spinlock) (s : smp) : smp :=
  mkSmp (cpus s) (pcs s) (upd (locks s) lk l).
Definition set_cpu (i : nat) (c : cpu) (s : smp) : smp :=
  mkSmp (upd (cpus s) i c) (pcs s) (locks s).

(** [exec i a s]: the state after CPU [i] performs [a]; [None] when [a] is not
    its next step or panics. *)
Definition exec (i : nat) (a : action) (s : smp) : option smp :=
  match a, pcs s i with
  | AcquireStart lk, Out =>
      let s := set_cpu i (push_off (cpus s i)) s in
      if holding s i lk then None else Some (set_pc i (Spinning lk) s)
  | Swap, Spinning lk =>
      let old := locked (locks s lk) in
      let s := set_lock lk (mkSpinlock 1 (lk_cpu (locks s lk))) s in
      Some (if old =? 0 then set_pc i (Won lk) s else s)
  | RecordOwner, Won lk =>
      Some (set_pc i Out (set_lock lk (mkSpinlock (locked (locks s lk)) (Some i)) s))
  | ReleaseStart lk, Out =>
      if holding s i lk then
        Some (set_pc i (Dropping lk) (set_lock lk (mkSpinlock (locked (locks s lk)) None) s))
      else None
  | Unlock, Dropping lk =>
      Some (set_pc i Popping (set_lock lk (mkSpinlock 0 (lk_cpu (locks s lk))) s))
  | Pop, Popping =>
      c ← pop_off (cpus s i); Some (set_pc i Out (set_cpu i c s))
  | _, _ => None
  end.

Inductive step : smp -> smp -> Prop :=
| step_exec i a s s' : exec i a s = Some s' -> step s s'.

(** CPU [i] owns lock [lk]: it holds it, or has just won it, or is about to drop it. *)
Definition owns (s : smp) (i lk : nat) : Prop :=
  lk_cpu (locks s lk) = Some i \/ pcs s i = Won lk \/ pcs s i = Dropping lk.

(** All locks free, all CPUs outside any lock section. *)
Definition initial (s : smp) : Prop :=
  (forall lk, locks s lk = initlock) /\
  (forall i, pcs s i = Out) /\
  (forall i, noff (cpus s i) = 0).

Inductive steps : smp -> smp -> Prop :=
| steps_refl s : steps s s
| steps_step s s1 s2 : steps s s1 -> step s1 s2 -> steps s s2.

Lemma upd_eq {A} (f : nat -> A) i v : upd f i v i = v.
Proof. unfold upd. by rewrite decide_True. Qed.
Lemma upd_ne {A} (f : nat -> A) i j v : j <> i -> upd f i v j = f j.
Proof. intros. unfold upd. by rewrite decide_False. Qed.

(** Every step is one of these, with its effect spelt out. *)
Lemma exec_inv i a s s' : exec i a s = Some s' ->
  (exists lk, a = AcquireStart lk /\ pcs s i = Out /\
     s' = mkSmp (upd (cpus s) i (push_off (cpus s i))) (upd (pcs s) i (Spinning lk)) (locks s)) \/
  (exists lk, a = Swap /\ pcs s i = Spinning lk /\ locked (locks s lk) = 0 /\
     s' = mkSmp (cpus s) (upd (pcs s) i (Won lk)) (upd (locks s) lk (mkSpinlock 1 (lk_cpu (locks s lk))))) \/
  (exists lk, a = Swap /\ pcs s i = Spinning lk /\ locked (locks s lk) <> 0 /\
     s' = mkSmp (cpus s) (pcs s) (upd (locks s) lk (mkSpinlock 1 (lk_cpu (locks s lk))))) \/
  (exists lk, a = RecordOwner /\ pcs s i = Won lk /\
     s' = mkSmp (cpus s) (upd (pcs s) i Out) (upd (locks s) lk (mkSpinlock (locked (locks s lk)) (Some i)))) \/
  (exists lk, a = ReleaseStart lk /\ pcs s i = Out /\ locked (locks s lk) <> 0 /\ lk_cpu (locks s lk) = Some i /\
     s' = mkSmp (cpus s) (upd (pcs s) i (Dropping lk)) (upd (locks s) lk (mkSpinlock (locked (locks s lk)) None))) \/
  (exists lk, a = Unlock /\ pcs s i = Dropping lk /\
     s' = mkSmp (cpus s) (upd (pcs s) i Popping) (upd (locks s) lk (mkSpinlock 0 (lk_cpu (locks s lk))))) \/
  (exists c, a = Pop /\ pcs s i = Popping /\ pop_off (cpus s i) = Some c /\
     s' = mkSmp (upd (cpus s) i c) (upd (pcs s) i Out) (locks s)).
Proof.
  unfold exec. intros H. destruct a, (pcs s i) eqn:Hpc; try done.
  - left. destruct (holding _ _ _); [done|]. injection H as <-. by exists lk.
  - right. destruct (Z.eqb_spec (locked (locks s lk)) 0); injection H as <-; [left|right; left]; by exists lk.
  - do 3 right. left. injection H as <-. by exists lk.
  - do 4 right. left. unfold holding in H. exists lk.
    destruct (Z.eqb_spec (locked (locks s lk)) 0); [done|]. cbn in H.
    case_bool_decide; [|done]. injection H as <-. done.
  - do 5 right. left. injection H as <-. by exists lk.
  - do 6 right. destruct (pop_off (cpus s i)) as [c|] eqn:Hp; [|done]. injection H as <-. by exists c.
Qed.

(** ** Mutual exclusion *)

(** The lock a CPU is taking or dropping, when the lock word is its own. *)
Definition inside (p : pc) : option nat :=
  match p with Won lk | Dropping lk => Some lk | _ => None end.

(** A lock is free, or held by a CPU, or on its way to or from one. *)
Inductive lock_ok (s : smp) (lk : nat) : Prop :=
| LkFree : locks s lk = initlock -> (forall j, inside (pcs s j) <> Some lk) -> lock_ok s lk
| LkHeld i : locks s lk = mkSpinlock 1 (Some i) -> (forall j, inside (pcs s j) <> Some lk) -> lock_ok s lk
| LkMid i : locks s lk = mkSpinlock 1 None -> (forall j, inside (pcs s j) = Some lk <-> j = i) -> lock_ok s lk.

Definition mutex_inv (s : smp) : Prop := forall lk, lock_ok s lk.

Lemma owns_inside s i lk : owns s i lk <-> lk_cpu (locks s lk) = Some i \/ inside (pcs s i) = Some lk.
Proof.
  unfold owns. destruct (pcs s i); cbn; split; intros [H|H]; try (by left); try done;
    try (destruct H as [H|H]); try done; try (right; congruence); injection H as ->; tauto.
Qed.

(** A lock that has an owner has one, and its lock word is set. *)
Lemma lock_owner s i j lk : mutex_inv s -> owns s i lk -> owns s j lk -> i = j /\ locked (locks s lk) = 1.
Proof.
  intros Hinv. rewrite !owns_inside. intros Hi Hj.
  destruct (Hinv lk) as [Hl Hn|k Hl Hn|k Hl Hn]; rewrite Hl in *; cbn in *.
  - destruct Hi as [?|Hi]; [done|]. by apply Hn in Hi.
  - destruct Hi as [Hi|Hi]; [|by apply Hn in Hi]. destruct Hj as [Hj|Hj]; [|by apply Hn in Hj].
    split; [congruence|done].
  - destruct Hi as [?|Hi]; [done|]. destruct Hj as [?|Hj]; [done|].
    apply Hn in Hi, Hj. split; [congruence|done].
Qed.

Lemma mutex_initial s : initial s -> mutex_inv s.
Proof. intros (Hl & Hp & _) lk. apply LkFree; [done|]. intros j. by rewrite Hp. Qed.

(** What a step of CPU [i] does to the locks it is not about. *)
Lemma lock_ok_frame s s' i p lk :
  pcs s' = upd (pcs s) i p -> locks s' lk = locks s lk ->
  (inside p = Some lk <-> inside (pcs s i) = Some lk) -> lock_ok s lk -> lock_ok s' lk.
Proof.
  intros Hp Hl Hi H.
  assert (Hin : forall j, inside (pcs s' j) = Some lk <-> inside (pcs s j) = Some lk).
  { intros j. rewrite Hp. unfold upd. destruct (decide (j = i)) as [->|]; [done|done]. }
  destruct H as [H Hn|k H Hn|k H Hn].
  - apply LkFree; [congruence|]. intros j. by rewrite Hin.
  - apply (LkHeld _ _ k); [congruence|]. intros j. by rewrite Hin.
  - apply (LkMid _ _ k); [congruence|]. intros j. by rewrite Hin.
Qed.

Lemma upd_self {A} (f : nat -> A) i j : upd f i (f i) j = f j.
Proof. unfold upd. destruct (decide (j = i)); congruence. Qed.

(** The steps that take a lock word, record the owner, clear it, and free the word. *)
Section LockSteps.
Context (s : smp) (i lk : nat) (Hinv : mutex_inv s).

Lemma lock_win : pcs s i = Spinning lk -> locked (locks s lk) = 0 ->
  lock_ok (mkSmp (cpus s) (upd (pcs s) i (Won lk)) (upd (locks s) lk (mkSpinlock 1 (lk_cpu (locks s lk))))) lk.
Proof.
  intros Hpc H0. destruct (Hinv lk) as [Hl Hn|k Hl Hn|k Hl Hn]; rewrite Hl in *; try done.
  apply (LkMid _ _ i); cbn; [apply upd_eq|]. intros j. destruct (decide (j = i)) as [->|Hne].
  - by rewrite upd_eq.
  - rewrite upd_ne by done. split; [intros H; by destruct (Hn j)|done].
Qed.

Lemma lock_again c : locked (locks s lk) <> 0 ->
  lock_ok (mkSmp c (pcs s) (upd (locks s) lk (mkSpinlock 1 (lk_cpu (locks s lk))))) lk.
Proof.
  intros H0. destruct (Hinv lk) as [Hl Hn|k Hl Hn|k Hl Hn]; rewrite Hl in *; try done.
  - apply (LkHeld _ _ k); cbn; [apply upd_eq|done].
  - apply (LkMid _ _ k); cbn; [apply upd_eq|done].
Qed.

(** CPU [i] is inside [lk]: after it moves on to [p], outside, nobody is. *)
Lemma inside_leave p : inside (pcs s i) = Some lk -> inside p = None ->
  locks s lk = mkSpinlock 1 None /\ forall j, inside (upd (pcs s) i p j) <> Some lk.
Proof.
  intros Hi Hp. destruct (Hinv lk) as [Hl Hn|k Hl Hn|k Hl Hn]; [by destruct (Hn i)..|].
  apply Hn in Hi as <-. split; [done|]. intros j. destruct (decide (j = i)) as [->|Hne].
  - rewrite upd_eq, Hp. done.
  - rewrite upd_ne by done. by rewrite Hn.
Qed.

Lemma lock_record : pcs s i = Won lk ->
  lock_ok (mkSmp (cpus s) (upd (pcs s) i Out) (upd (locks s) lk (mkSpinlock (locked (locks s lk)) (Some i)))) lk.
Proof.
  intros Hpc. destruct (inside_leave Out) as [Hl Hn]; [by rewrite Hpc|done|].
  rewrite Hl. apply (LkHeld _ _ i); cbn; [apply upd_eq|done].
Qed.

Lemma lock_clear : pcs s i = Out -> lk_cpu (locks s lk) = Some i ->
  lock_ok (mkSmp (cpus s) (upd (pcs s) i (Dropping lk)) (upd (locks s) lk (mkSpinlock (locked (locks s lk)) None))) lk.
Proof.
  intros Hpc Hcpu. destruct (Hinv lk) as [Hl Hn|k Hl Hn|k Hl Hn]; rewrite Hl in *; try done.
  apply (LkMid _ _ i); cbn; [apply upd_eq|]. intros j. destruct (decide (j = i)) as [->|Hne].
  - by rewrite upd_eq.
  - rewrite upd_ne by done. split; [intros H; by destruct (Hn j)|done].
Qed.

Lemma lock_drop : pcs s i = Dropping lk ->
  lock_ok (mkSmp (cpus s) (upd (pcs s) i Popping) (upd (locks s) lk (mkSpinlock 0 (lk_cpu (locks s lk))))) lk.
Proof.
  intros Hpc. destruct (inside_leave Popping) as [Hl Hn]; [by rewrite Hpc|done|].
  rewrite Hl. apply LkFree; cbn; [apply upd_eq|done].
Qed.

End LockSteps.

Lemma mutex_step s s' : mutex_inv s -> step s s' -> mutex_inv s'.
Proof.
  intros Hinv Hst lk'. destruct Hst as [i a s s' He].
  apply exec_inv in He as [(lk & _ & Hpc & ->)|[(lk & _ & Hpc & H0 & ->)|[(lk & _ & Hpc & H0 & ->)|
    [(lk & _ & Hpc & ->)|[(lk & _ & Hpc & H0 & Hcpu & ->)|[(lk & _ & Hpc & ->)|(c & _ & Hpc & Hp & ->)]]]]]].
  - eapply lock_ok_frame; [reflexivity|done|by rewrite Hpc|apply Hinv].
  - destruct (decide (lk' = lk)) as [->|Hne]; [by apply lock_win|].
    eapply lock_ok_frame; [reflexivity|cbn; by rewrite upd_ne| |apply Hinv]. rewrite Hpc. cbn. naive_solver.
  - destruct (decide (lk' = lk)) as [->|Hne]; [by apply lock_again|].
    destruct (Hinv lk') as [Hl Hn|k Hl Hn|k Hl Hn].
    + apply LkFree; cbn; [by rewrite upd_ne|done].
    + apply (LkHeld _ _ k); cbn; [by rewrite upd_ne|done].
    + apply (LkMid _ _ k); cbn; [by rewrite upd_ne|done].
  - destruct (decide (lk' = lk)) as [->|Hne]; [by apply lock_record|].
    eapply lock_ok_frame; [reflexivity|cbn; by rewrite upd_ne| |apply Hinv]. rewrite Hpc. cbn. naive_solver.
  - destruct (decide (lk' = lk)) as [->|Hne]; [by apply lock_clear|].
    eapply lock_ok_frame; [reflexivity|cbn; by rewrite upd_ne| |apply Hinv]. rewrite Hpc. cbn. naive_solver.
  - destruct (decide (lk' = lk)) as [->|Hne]; [by apply lock_drop|].
    eapply lock_ok_frame; [reflexivity|cbn; by rewrite upd_ne| |apply Hinv]. rewrite Hpc. cbn. naive_solver.
  - eapply lock_ok_frame; [reflexivity|done|by rewrite Hpc|apply Hinv].
Qed.

Lemma mutex_steps s s' : mutex_inv s -> steps s s' -> mutex_inv s'.
Proof. intros H Hs. induction Hs; [done|]. eapply mutex_step; [|done]. by apply IHHs. Qed.

(** ** Refinement of the atomic lock *)

(** The specification: each lock has an owner or is free; taking a free lock and
    dropping one's own are atomic. *)
Inductive spec_step : (nat -> option nat) -> (nat -> option nat) -> Prop :=
| spec_acquire i lk o : o lk = None -> spec_step o (upd o lk (Some i))
| spec_release i lk o : o lk = Some i -> spec_step o (upd o lk None).

Inductive spec_steps : (nat -> option nat) -> (nat -> option nat) -> Prop :=
| spec_refl o : spec_steps o o
| spec_trans o o1 o2 : spec_steps o o1 -> spec_step o1 o2 -> spec_steps o o2.

(** The owner the specification gives to each lock is the CPU that owns it. *)
Definition abs (s : smp) (o : nat -> option nat) : Prop :=
  forall lk i, o lk = Some i <-> owns s i lk.

Lemma abs_same s s' o : (forall i lk, owns s' i lk <-> owns s i lk) -> abs s o -> abs s' o.
Proof. intros H Ha lk i. by rewrite H. Qed.

(** Whether [j] owns [lk] only depends on the lock and on where [j] is. *)
Lemma owns_ext s s' j lk :
  lk_cpu (locks s' lk) = lk_cpu (locks s lk) ->
  (inside (pcs s' j) = Some lk <-> inside (pcs s j) = Some lk) -> owns s' j lk <-> owns s j lk.
Proof. intros H1 H2. by rewrite !owns_inside, H1, H2. Qed.

Lemma inside_upd (f : nat -> pc) i p j lk :
  (inside p = Some lk <-> inside (f i) = Some lk) ->
  inside (upd f i p j) = Some lk <-> inside (f j) = Some lk.
Proof. intros H. unfold upd. by destruct (decide (j = i)) as [->|]. Qed.

(** Recording and clearing the owner do not change who owns the lock. *)
Lemma owns_record s i lk : mutex_inv s -> pcs s i = Won lk -> forall j lk',
  owns (mkSmp (cpus s) (upd (pcs s) i Out) (upd (locks s) lk (mkSpinlock (locked (locks s lk)) (Some i)))) j lk'
  <-> owns s j lk'.
Proof.
  intros Hinv Hpc j lk'. destruct (decide (lk' = lk)) as [->|Hne].
  - destruct (inside_leave s i lk Hinv Out) as [Hl Hn]; [by rewrite Hpc|done|].
    assert (Hi : owns s i lk) by (right; by left).
    rewrite owns_inside. cbn. rewrite upd_eq. cbn. split.
    + intros [[= <-]|H]; [done|]. by apply Hn in H.
    + intros Hj. left. f_equal. by destruct (lock_owner s i j lk Hinv Hi Hj).
  - apply owns_ext; cbn; [by rewrite upd_ne|]. apply inside_upd. rewrite Hpc. cbn. naive_solver.
Qed.

Lemma owns_clear s i lk : mutex_inv s -> pcs s i = Out -> lk_cpu (locks s lk) = Some i -> forall j lk',
  owns (mkSmp (cpus s) (upd (pcs s) i (Dropping lk)) (upd (locks s) lk (mkSpinlock (locked (locks s lk)) None))) j lk'
  <-> owns s j lk'.
Proof.
  intros Hinv Hpc Hcpu j lk'. destruct (decide (lk' = lk)) as [->|Hne].
  - assert (Hi : owns s i lk) by (by left). rewrite owns_inside. cbn. rewrite upd_eq. cbn. split.
    + intros [?|H]; [done|]. unfold upd in H. destruct (decide (j = i)) as [->|]; [done|].
      apply owns_inside. by right.
    + intros Hj. destruct (lock_owner s i j lk Hinv Hi Hj) as [<- _]. right. by rewrite upd_eq.
  - apply owns_ext; cbn; [by rewrite upd_ne|]. apply inside_upd. rewrite Hpc. cbn. naive_solver.
Qed.

Lemma abs_step s s' o : mutex_inv s -> abs s o -> step s s' ->
  exists o', (o' = o \/ spec_step o o') /\ abs s' o'.
Proof.
  intros Hinv Ha Hst. destruct Hst as [i a s s' He].
  apply exec_inv in He as [(lk & _ & Hpc & ->)|[(lk & _ & Hpc & H0 & ->)|[(lk & _ & Hpc & H0 & ->)|
    [(lk & _ & Hpc & ->)|[(lk & _ & Hpc & H0 & Hcpu & ->)|[(lk & _ & Hpc & ->)|(c & _ & Hpc & Hp & ->)]]]]]].
  - exists o. split; [by left|]. eapply abs_same; [|done]. intros j lk'.
    apply owns_ext; [done|]. apply inside_upd. by rewrite Hpc.
  - assert (Hnone : forall j, ~ owns s j lk).
    { intros j Hj. destruct (lock_owner s j j lk Hinv Hj Hj). lia. }
    exists (upd o lk (Some i)). split.
    { right. apply spec_acquire. destruct (o lk) as [j|] eqn:Ho; [|done]. apply Ha in Ho. by apply Hnone in Ho. }
    intros lk' j. destruct (decide (lk' = lk)) as [->|Hne].
    + rewrite upd_eq, owns_inside. cbn. rewrite upd_eq. cbn. split.
      * intros [= ->]. right. by rewrite upd_eq.
      * intros [H|H]; [destruct (Hnone j); by left|]. unfold upd in H.
        destruct (decide (j = i)) as [->|]; [done|]. destruct (Hnone j). apply owns_inside. by right.
    + rewrite upd_ne by done. rewrite (Ha lk' j). symmetry. apply owns_ext; cbn; [by rewrite upd_ne|].
      apply inside_upd. rewrite Hpc. cbn. naive_solver.
  - exists o. split; [by left|]. eapply abs_same; [|done]. intros j lk'.
    apply owns_ext; cbn; [|done]. unfold upd. by destruct (decide (lk' = lk)) as [->|].
  - exists o. split; [by left|]. eapply abs_same; [|done]. by apply owns_record.
  - exists o. split; [by left|]. eapply abs_same; [|done]. by apply owns_clear.
  - exists (upd o lk None). assert (Hi : owns s i lk) by (right; by right). split.
    { right. apply (spec_release i). by apply Ha. }
    destruct (inside_leave s i lk Hinv Popping) as [Hl Hn]; [by rewrite Hpc|done|].
    intros lk' j. destruct (decide (lk' = lk)) as [->|Hne].
    + rewrite upd_eq, owns_inside. cbn. rewrite upd_eq, Hl. cbn. split; [done|].
      intros [?|H]; [done|]. by apply Hn in H.
    + rewrite upd_ne by done. rewrite (Ha lk' j). symmetry. apply owns_ext; cbn; [by rewrite upd_ne|].
      apply inside_upd. rewrite Hpc. cbn. naive_solver.
  - exists o. split; [by left|]. eapply abs_same; [|done]. intros j lk'.
    apply owns_ext; [done|]. apply inside_upd. by rewrite Hpc.
Qed.

Lemma abs_initial s : initial s -> abs s (fun _ => None).
Proof.
  intros Hi lk i. split; [done|]. rewrite owns_inside. destruct Hi as (Hl & Hp & _).
  rewrite Hl, Hp. by intros [?|?].
Qed.

(** ** Interrupts and nesting *)

(** CPU [i] is the recorded owner of exactly the locks [l]. *)
Definition held_by (s : smp) (i : nat) (l : list nat) : Prop :=
  NoDup l /\ forall lk, lk ∈ l <-> lk_cpu (locks s lk) = Some i.

Definition busy (p : pc) : Z := match p with Out => 0 | _ => 1 end.

(** The nesting count is the number of open lock sections; interrupts are off while it
    is positive, and [intena] remembers the state [e] from before the outermost one. *)
Definition cpu_count (c : cpu) (e : bool) (n : Z) : Prop :=
  noff c = n /\ (n = 0 -> sie c = e) /\ (0 < n -> sie c = false /\ intena c = e).

Definition cpu_ok (e : bool) (s : smp) (i : nat) : Prop :=
  exists l, held_by s i l /\ cpu_count (cpus s i) e (Z.of_nat (length l) + busy (pcs s i)).

Lemma push_off_count c e n : 0 <= n -> cpu_count c e n -> cpu_count (push_off c) e (n + 1).
Proof.
  intros Hn (H1 & H2 & H3). unfold push_off, cpu_count. cbn. split; [lia|]. split; [lia|].
  intros _. split; [done|]. destruct (Z.eqb_spec (noff c) 0).
  - apply H2. lia.
  - apply H3. lia.
Qed.

Lemma pop_off_count c e n : 0 <= n -> cpu_count c e (n + 1) ->
  exists c', pop_off c = Some c' /\ cpu_count c' e n.
Proof.
  intros Hn (H1 & _ & H3). destruct (H3 ltac:(lia)) as [Hs Hi]. unfold pop_off. rewrite Hs.
  rewrite (proj2 (Z.ltb_ge _ _)) by lia. eexists. split; [reflexivity|]. unfold cpu_count. cbn.
  split; [lia|]. rewrite H1, Hi. replace (n + 1 - 1) with n by lia. split.
  - intros ->. by destruct e.
  - intros Hpos. rewrite (proj2 (Z.eqb_neq n 0)) by lia. done.
Qed.

Lemma held_ext s s' i l : (forall lk, lk_cpu (locks s' lk) = lk_cpu (locks s lk)) ->
  held_by s i l -> held_by s' i l.
Proof. intros H [Hn Hl]. split; [done|]. intros lk. by rewrite H. Qed.

(** A step that changes neither owners nor CPUs, and keeps [busy]. *)
Lemma cpu_ok_ext e s s' j : (forall lk, lk_cpu (locks s' lk) = lk_cpu (locks s lk)) ->
  cpus s' j = cpus s j -> busy (pcs s' j) = busy (pcs s j) -> cpu_ok e s j -> cpu_ok e s' j.
Proof.
  intros Hl Hc Hb (l & Hh & Hn). exists l. split; [by eapply held_ext|]. by rewrite Hc, Hb.
Qed.

Lemma busy_upd (f : nat -> pc) i p j : busy p = busy (f i) -> busy (upd f i p j) = busy (f j).
Proof. intros H. unfold upd. by destruct (decide (j = i)) as [->|]. Qed.

(** CPU [i] becomes the recorded owner of a lock that had none. *)
Lemma cpu_ok_record e s i lk j : lk_cpu (locks s lk) = None -> pcs s i = Won lk -> cpu_ok e s j ->
  cpu_ok e (mkSmp (cpus s) (upd (pcs s) i Out) (upd (locks s) lk (mkSpinlock (locked (locks s lk)) (Some i)))) j.
Proof.
  intros Hnone Hpc (l & [Hnd Hl] & Hc).
  assert (Hlk : lk ∉ l) by (rewrite Hl; congruence).
  destruct (decide (j = i)) as [->|Hne].
  - exists (lk :: l). split; [split|].
    + by apply NoDup_cons.
    + intros lk'. rewrite elem_of_cons, Hl. cbn. destruct (decide (lk' = lk)) as [->|].
      * rewrite upd_eq. cbn. intuition congruence.
      * rewrite upd_ne by done. intuition congruence.
    + cbn [cpus pcs]. rewrite upd_eq. cbn [busy length]. rewrite Hpc in Hc. cbn [busy] in Hc.
      by replace (Z.of_nat (S (length l)) + 0) with (Z.of_nat (length l) + 1) by lia.
  - exists l. split; [split; [done|]|].
    + intros lk'. rewrite Hl. cbn. destruct (decide (lk' = lk)) as [->|].
      * rewrite upd_eq, Hnone. cbn. split; [done|]. congruence.
      * by rewrite upd_ne.
    + cbn [cpus pcs]. by rewrite upd_ne.
Qed.

(** CPU [i] gives up a lock it is the recorded owner of. *)
Lemma cpu_ok_clear e s i lk j : lk_cpu (locks s lk) = Some i -> pcs s i = Out -> cpu_ok e s j ->
  cpu_ok e (mkSmp (cpus s) (upd (pcs s) i (Dropping lk)) (upd (locks s) lk (mkSpinlock (locked (locks s lk)) None))) j.
Proof.
  intros Hcpu Hpc (l & [Hnd Hl] & Hc). destruct (decide (j = i)) as [->|Hne].
  - assert (Hlk : lk ∈ l) by (by apply Hl). apply list_elem_of_split in Hlk as (l1 & l2 & ->).
    pose proof Hnd as Hnd'. rewrite <- Permutation_middle in Hnd'. apply NoDup_cons in Hnd' as [Hni Hnd'].
    exists (l1 ++ l2). split; [split; [done|]|].
    + intros lk'. cbn. destruct (decide (lk' = lk)) as [->|Hk].
      * rewrite upd_eq. cbn. intuition congruence.
      * rewrite upd_ne by done. rewrite <- Hl, !elem_of_app, elem_of_cons. intuition congruence.
    + cbn [cpus pcs]. rewrite upd_eq. cbn [busy]. rewrite Hpc in Hc. cbn [busy] in Hc.
      rewrite !length_app in Hc |- *. cbn [length] in Hc.
      by replace (Z.of_nat (length l1 + length l2) + 1) with (Z.of_nat (length l1 + S (length l2)) + 0) by lia.
  - exists l. split; [split; [done|]|].
    + intros lk'. rewrite Hl. cbn. destruct (decide (lk' = lk)) as [->|].
      * rewrite upd_eq, Hcpu. cbn. intuition congruence.
      * by rewrite upd_ne.
    + cbn [cpus pcs]. by rewrite upd_ne.
Qed.

Lemma cpu_ok_step e s s' j : mutex_inv s -> step s s' -> cpu_ok e s j -> cpu_ok e s' j.
Proof.
  intros Hinv Hst Hok. destruct Hst as [i a s s' He].
  apply exec_inv in He as [(lk & _ & Hpc & ->)|[(lk & _ & Hpc & H0 & ->)|[(lk & _ & Hpc & H0 & ->)|
    [(lk & _ & Hpc & ->)|[(lk & _ & Hpc & H0 & Hcpu & ->)|[(lk & _ & Hpc & ->)|(c & _ & Hpc & Hp & ->)]]]]]].
  - destruct (decide (j = i)) as [->|Hne]; [|apply (cpu_ok_ext e s); [done|cbn; by rewrite upd_ne..|done]].
    destruct Hok as (l & Hh & Hc). exists l. split; [by eapply held_ext|]. cbn [cpus pcs].
    rewrite !upd_eq. cbn [busy]. rewrite Hpc in Hc. cbn [busy] in Hc. rewrite Z.add_0_r in Hc.
    apply push_off_count; [lia|done].
  - apply (cpu_ok_ext e s); [|done| |done].
    + intros lk'. cbn. unfold upd. by destruct (decide (lk' = lk)) as [->|].
    + cbn. apply busy_upd. by rewrite Hpc.
  - apply (cpu_ok_ext e s); [|done|done|done]. intros lk'. cbn. unfold upd. by destruct (decide (lk' = lk)) as [->|].
  - apply cpu_ok_record; [|done|done].
    by destruct (inside_leave s i lk Hinv Out) as [-> _]; [rewrite Hpc|..].
  - by apply cpu_ok_clear.
  - apply (cpu_ok_ext e s); [|done| |done].
    + intros lk'. cbn. unfold upd. by destruct (decide (lk' = lk)) as [->|].
    + cbn. apply busy_upd. by rewrite Hpc.
  - destruct (decide (j = i)) as [->|Hne]; [|apply (cpu_ok_ext e s); [done|cbn; by rewrite upd_ne..|done]].
    destruct Hok as (l & Hh & Hc). exists l. split; [by eapply held_ext|]. cbn [cpus pcs].
    rewrite !upd_eq. cbn [busy]. rewrite Hpc in Hc. cbn [busy] in Hc.
    destruct (pop_off_count _ _ _ (Zle_0_nat _) Hc) as (c' & Hp' & Hc').
    rewrite Hp in Hp'. injection Hp' as <-. by rewrite Z.add_0_r.
Qed.

Lemma cpu_ok_initial s i : initial s -> cpu_ok (sie (cpus s i)) s i.
Proof.
  intros (Hl & Hp & Hn). exists []. split; [split; [apply NoDup_nil_2|]|].
  - intros lk. rewrite Hl. split; [intros H; inversion H|done].
  - rewrite Hp. cbn. unfold cpu_count. rewrite Hn. split; [done|]. split; [done|lia].
Qed.

(** ** Theorems *)

(** C9: spin locks give mutual exclusion. Whatever the interleaving of the CPUs' memory
    accesses, in every state reachable from one with all locks free, two CPUs never both
    own a lock, owning being: recorded as owner, or between winning the atomic swap and
    recording it, or between clearing the owner and freeing the lock word; and the lock
    word is 1 exactly while the lock is owned. *)
Theorem spinlock_mutual_exclusion s0 s :
  initial s0 -> steps s0 s -> forall lk,
  (forall i j, owns s i lk -> owns s j lk -> i = j) /\
  (locked (locks s lk) = 1 <-> exists i, owns s i lk).
Proof.
  intros Hi Hs lk. pose proof (mutex_steps _ _ (mutex_initial _ Hi) Hs) as Hinv. split.
  - intros i j Ho Ho'. by destruct (lock_owner s i j lk Hinv Ho Ho').
  - split.
    + intros H1. destruct (Hinv lk) as [Hl Hn|k Hl Hn|k Hl Hn]; rewrite Hl in *; [done|..];
        exists k; apply owns_inside; [left; by rewrite Hl|right; by apply Hn].
    + intros [i Ho]. by destruct (lock_owner s i i lk Hinv Ho Ho).
Qed.

(** spinlock.c implements an atomic lock. Every execution of the multiprocessor
    corresponds to a sequence of atomic acquire and release steps of the specification,
    in which a lock's owner in the specification is the CPU that owns it. *)
Theorem spinlock_refines_atomic_lock s0 s :
  initial s0 -> steps s0 s -> exists o, spec_steps (fun _ => None) o /\ abs s o.
Proof.
  intros Hi Hs. assert (Hgen : mutex_inv s /\ exists o, spec_steps (fun _ => None) o /\ abs s o); [|apply Hgen].
  induction Hs as [s|s s1 s2 Hs IH Hst].
  - split; [by apply mutex_initial|]. exists (fun _ => None). split; [constructor|by apply abs_initial].
  - destruct (IH Hi) as (Hinv & o & Ho & Ha). split; [by eapply mutex_step|].
    destruct (abs_step s1 s2 o Hinv Ha Hst) as (o' & [->|Hsp] & Ha'); [by exists o|].
    exists o'. split; [by econstructor|done].
Qed.

(** [push_off] and [pop_off] keep interrupts off exactly while a CPU is in a lock
    section. In every reachable state a CPU's interrupts are off while it owns a lock or
    is inside [acquire] or [release]; when it is in no lock section they are as they were
    at the start; and [pop_off] never panics. *)
Theorem spinlock_interrupts_off s0 s i :
  initial s0 -> steps s0 s ->
  ((exists lk, owns s i lk) \/ pcs s i <> Out -> sie (cpus s i) = false) /\
  ((forall lk, ~ owns s i lk) -> pcs s i = Out -> sie (cpus s i) = sie (cpus s0 i)) /\
  (pcs s i = Popping -> exists s', exec i Pop s = Some s').
Proof.
  intros Hi Hs.
  assert (Hgen : mutex_inv s /\ cpu_ok (sie (cpus s0 i)) s i).
  { induction Hs as [s|s s1 s2 Hs IH Hst]; [split; [by apply mutex_initial|by apply cpu_ok_initial]|].
    destruct (IH Hi) as [Hinv Hok]. split; [by eapply mutex_step|by eapply cpu_ok_step]. }
  destruct Hgen as (Hinv & l & [Hnd Hl] & Hc). split; [|split].
  - intros Hown. apply Hc. assert (0 <= busy (pcs s i)) by (by destruct (pcs s i)).
    destruct (pcs s i) eqn:Hpc; cbn [busy]; try lia.
    destruct Hown as [[lk Ho]|?]; [|done]. apply owns_inside in Ho as [Ho|Ho]; [|by rewrite Hpc in Ho].
    apply Hl in Ho. destruct l; [inversion Ho|]. cbn. lia.
  - intros Hno Hpc. apply Hc. rewrite Hpc. cbn. destruct l as [|lk l]; [done|].
    destruct (Hno lk). left. apply Hl. left.
  - intros Hpc. rewrite Hpc in Hc. cbn [busy] in Hc.
    destruct (pop_off_count _ _ _ (Zle_0_nat _) Hc) as (c & Hp & _).
    unfold exec. rewrite Hpc, Hp. by eexists.
Qed.

(** Two CPUs compete for a lock: CPU 0 takes it, CPU 1 spins. *)
Definition idle : smp := mkSmp (fun _ => mkCpu 0 false true) (fun _ => Out) (fun _ => initlock).
Definition run_script (l : list (nat * action)) (s : smp) : option smp :=
  foldl (fun os ia => s ← os; exec ia.1 ia.2 s) (Some s) l.

Lemma run_script_steps l s s' : run_script l s = Some s' -> steps s s'.
Proof.
  revert s'. induction l as [|[i a] l IH] using rev_ind; intros s' H.
  - injection H as <-. constructor.
  - unfold run_script in H. rewrite foldl_app in H. cbn in H. fold (run_script l s) in H.
    destruct (run_script l s) as [s1|]; [|done]. econstructor; [by apply IH|]. by econstructor.
Qed.

Definition contention : list (nat * action) :=
  [(0, AcquireStart 5); (1, AcquireStart 5); (0, Swap); (1, Swap); (0, RecordOwner); (1, Swap)]%nat.

Lemma spinlock_mutual_exclusion_witness : exists s,
  run_script contention idle = Some s /\ owns s 0 5 /\ ~ owns s 1 5.
Proof.
  eexists. split; [reflexivity|]. match goal with |- owns ?s _ _ /\ _ => set (st := s) end.
  assert (H0 : owns st 0 5) by (by left). split; [exact H0|]. intros H1.
  destruct (spinlock_mutual_exclusion idle st) with (lk := 5%nat) as [H _]; [done| |].
  - by apply (run_script_steps contention).
  - discriminate (H 0%nat 1%nat H0 H1).
Defined.

Lemma spinlock_refines_atomic_lock_witness : exists s o,
  run_script contention idle = Some s /\ spec_steps (fun _ => None) o /\ o 5%nat = Some 0%nat.
Proof.
  eexists. destruct (spinlock_refines_atomic_lock idle) with (2 := run_script_steps contention idle _ eq_refl)
    as (o & Ho & Ha); [done|].
  exists o. split; [reflexivity|]. split; [exact Ho|]. apply Ha. by left.
Defined.

Lemma spinlock_interrupts_off_witness : exists s,
  run_script contention idle = Some s /\ sie (cpus s 1) = false.
Proof.
  eexists. split; [reflexivity|].
  destruct (spinlock_interrupts_off idle) with (i := 1%nat) (2 := run_script_steps contention idle _ eq_refl)
    as [H _]; [done|]. apply H. by right.
Defined.

End Smp.

(** ** The lock interface of the other components *)

(** [holding]: does this CPU hold the lock? *)
Definition holding (l : lockid) : K bool := kgets (fun s => bool_decide (l ∈ k_held s)).

Definition acquire (l : lockid) : K unit :=
  h ← holding l;
  if h : bool then panic "acquire"
  else kmodify (fun s => set_k_held (l :: k_held s) s).

Fixpoint remove_lock (l : lockid) (held : list lockid) : list lockid :=
  match held with
  | [] => []
  | l' :: held => if decide (l' = l) then held else l' :: remove_lock l held
  end.

Definition release (l : lockid) : K unit :=
  h ← holding l;
  if negb h then panic "release"
  else kmodify (fun s => set_k_held (remove_lock l (k_held s)) s).

(** [intr_get]: interrupts are off while any lock is held. *)
Definition intr_get (s : kst) : bool :=
  match k_held s with [] => k_intr s | _ => false end.

(** ** Rules for the lock interface *)

Lemma set_k_held_id s : set_k_held (k_held s) s = s.
Proof. by destruct s. Qed.

Lemma acquire_run l w :
  l ∉ k_held (w_ks w) ->
  acquire l w = Ok tt (mkWorld (set_k_held (l :: k_held (w_ks w)) (w_ks w)) (w_env w)).
Proof.
  intros H. unfold acquire, holding, kgets, gets, mbind, M_bind.
  rewrite bool_decide_eq_false_2 by done. done.
Qed.

Lemma acquire_panic l w :
  l ∈ k_held (w_ks w) -> acquire l w = Panic "acquire" w.
Proof.
  intros H. unfold acquire, holding, kgets, gets, mbind, M_bind.
  rewrite bool_decide_eq_true_2 by done. done.
Qed.

(** The lock acquired last is released. *)
Lemma release_run l h w :
  k_held (w_ks w) = l :: h ->
  release l w = Ok tt (mkWorld (set_k_held h (w_ks w)) (w_env w)).
Proof.
  intros H. unfold release, holding, kmodify, modify, kgets, gets, mbind, M_bind.
  rewrite H, bool_decide_eq_true_2 by apply list_elem_of_here.
  simpl. rewrite H. simpl. by rewrite decide_True.
Qed.

(** An earlier lock is released under the one acquired last. *)
Lemma release_run_2 l l' h w :
  k_held (w_ks w) = l' :: l :: h -> l' <> l ->
  release l w = Ok tt (mkWorld (set_k_held (l' :: h) (w_ks w)) (w_env w)).
Proof.
  intros H Hne. unfold release, holding, kmodify, modify, kgets, gets, mbind, M_bind.
  rewrite H, bool_decide_eq_true_2 by (apply list_elem_of_further, list_elem_of_here).
  simpl. rewrite H. simpl. rewrite decide_False by done. by rewrite decide_True.
Qed.

Lemma release_panic l w :
  l ∉ k_held (w_ks w) -> release l w = Panic "release" w.
Proof.
  intros H. unfold release, holding, kgets, gets, mbind, M_bind.
  rewrite bool_decide_eq_false_2 by done. done.
Qed.

Lemma wpx_acquire P B l (Q : unit -> world -> Prop) w :
  l ∉ k_held (w_ks w) ->
  Q tt (mkWorld (set_k_held (l :: k_held (w_ks w)) (w_ks w)) (w_env w)) ->
  wpx P B (acquire l) Q w.
Proof. intros H HQ. by eapply wp_of_run; [apply acquire_run|]. Qed.

Lemma wpx_release P B l h (Q : unit -> world -> Prop) w :
  k_held (w_ks w) = l :: h ->
  Q tt (mkWorld (set_k_held h (w_ks w)) (w_env w)) ->
  wpx P B (release l) Q w.
Proof. intros H HQ. by eapply wp_of_run; [apply release_run|]. Qed.
