(* ===== verification/Sched.v ===== *)
(** * Scheduling, sleep and wakeup, sleep locks
      (kernel/proc.c: myproc .. wakeup; kernel/sleeplock.c)

    [swtch] takes the running process off the CPU until the scheduler resumes it:
    the scheduler drops the process's lock, the rest of the system acts (the
    elements of [w_env], in order), and after each of them the scheduler looks at
    the process, resuming it only if it is [RUNNABLE].  When the schedule ends
    without that, the computation is [Blocked]: the process is still off the CPU. *)

From stdpp Require Import base gmap list strings.
From Stdlib Require Import ZArith Lia.
From S2P Require Import Prelude Riscv Memory State Spinlock.

(** Return the current process, or zero if none. *)
Definition myproc : K (option nat) := kgets k_cur.

(** [myproc()] where the source dereferences the result: a null pointer is a page
    fault in the kernel, which ends in [panic("kerneltrap")]. *)
Definition curproc : K nat :=
  p ← myproc;
  match p with
  | Some i => mret i
  | None => panic "kerneltrap"
  end.

(** The scheduler's side of a context switch, [scheduler] after [swtch] returned to
    it and until it resumes process [i]. *)
Fixpoint resume (i : nat) (env : list (kst -> kst)) (s : kst) : res world unit :=
  match env with
  | [] => Blocked (mkWorld s [])
  | e :: env =>
      let s := e s in
      if decide (p_state (get_proc i s) = RUNNABLE) then
        Ok tt (mkWorld (set_k_held [LProc i] (set_k_cur (Some i)
                         (upd_proc i (set_p_state RUNNING) s))) env)
      else resume i env s
  end.

(** [swtch(&p->context, &mycpu()->context)] with the scheduler's
    [c->proc = 0; release(&p->lock)]. *)
Definition swtch (i : nat) : K unit := fun w =>
  resume i (w_env w) (set_k_held [] (set_k_cur None (w_ks w))).

Definition sched : K unit :=
  p ← curproc;
  h ← holding (LProc p);
  if negb h then panic "sched p->lock" else
  noff ← kgets (fun s => length (k_held s));
  if negb (bool_decide (noff = 1%nat)) then panic "sched locks" else
  st ← proc_of p;
  if bool_decide (p_state st = RUNNING) then panic "sched running" else
  ie ← kgets intr_get;
  if ie : bool then panic "sched interruptible" else
  intena ← kgets k_intr;
  swtch p;;
  kmodify (set_k_intr intena).

(** Give up the CPU for one scheduling round. *)
Definition yield : K unit :=
  p ← curproc;
  acquire (LProc p);;
  proc_upd p (set_p_state RUNNABLE);;
  sched;;
  release (LProc p).

(** Atomically release lock and sleep on chan; reacquires lock when awakened. *)
Definition sleep (ch : chan) (lk : lockid) : K unit :=
  p ← curproc;
  acquire (LProc p);;
  release lk;;
  proc_upd p (set_p_chan (Some ch));;
  proc_upd p (set_p_state SLEEPING);;
  sched;;
  proc_upd p (set_p_chan None);;
  release (LProc p);;
  acquire lk.

(** Wake up all processes sleeping on chan, an address that may be NULL. *)
Definition wakeup_ptr (ch : option chan) : K unit :=
  for_each proc_slots (fun p =>
    me ← myproc;
    when (negb (bool_decide (me = Some p))) (
      acquire (LProc p);;
      pr ← proc_of p;
      when (bool_decide (p_state pr = SLEEPING) && bool_decide (p_chan pr = ch))
        (proc_upd p (set_p_state RUNNABLE));;
      release (LProc p))).
Definition wakeup (ch : chan) : K unit := wakeup_ptr (Some ch).

(** One pass of [scheduler]'s loop over the table; [run p] is what happens between
    [swtch] into process [p] and its return. *)
Definition scheduler_pass (run : nat -> K unit) : K unit :=
  kmodify (set_k_intr true);;
  for_each proc_slots (fun p =>
    acquire (LProc p);;
    pr ← proc_of p;
    when (bool_decide (p_state pr = RUNNABLE)) (
      proc_upd p (set_p_state RUNNING);;
      kmodify (set_k_cur (Some p));;
      run p;;
      kmodify (set_k_cur None));;
    release (LProc p)).

(** [while(cond) sleep(chan, lk)].  Every sleep that returns has used up an element
    of the schedule, so [sleep_while] with one more unit of fuel than the schedule
    has elements never runs out of fuel. *)
Fixpoint sleep_while_fuel (fuel : nat) (cond : K bool) (ch : chan) (lk : lockid) : K unit :=
  match fuel with
  | O => block
  | S fuel =>
      b ← cond;
      if b : bool then sleep ch lk;; sleep_while_fuel fuel cond ch lk else mret tt
  end.
Definition sleep_while (cond : K bool) (ch : chan) (lk : lockid) : K unit := fun w =>
  sleep_while_fuel (S (length (w_env w))) cond ch lk w.

(** ** Sleep locks (sleeplock.c) *)

Definition get_sl (l : slk) (s : kst) : sleeplock :=
  match l with
  | SlBuf b => b_lock (k_bufs s !!! b)
  | SlInode i => i_lock (k_inodes s !!! i)
  end.
Definition upd_sl (l : slk) (f : sleeplock -> sleeplock) (s : kst) : kst :=
  match l with
  | SlBuf b => set_k_bufs (alter (fun x => set_b_lock (f (b_lock x)) x) b (k_bufs s)) s
  | SlInode i => set_k_inodes (alter (fun x => set_i_lock (f (i_lock x)) x) i (k_inodes s)) s
  end.

Definition initsleeplock (l : slk) : K unit :=
  kmodify (upd_sl l (fun _ => mkSleeplock 0 0)).

Definition acquiresleep (l : slk) : K unit :=
  acquire (LSleep l);;
  sleep_while (kgets (fun s => negb (sl_locked (get_sl l s) =? 0))) (ChSleep l) (LSleep l);;
  kmodify (upd_sl l (set_sl_locked 1));;
  p ← curproc;
  pr ← proc_of p;
  kmodify (upd_sl l (set_sl_pid (p_pid pr)));;
  release (LSleep l).

Definition releasesleep (l : slk) : K unit :=
  acquire (LSleep l);;
  kmodify (upd_sl l (set_sl_locked 0));;
  kmodify (upd_sl l (set_sl_pid 0));;
  wakeup (ChSleep l);;
  release (LSleep l).

Definition holdingsleep (l : slk) : K bool :=
  acquire (LSleep l);;
  p ← curproc;
  pr ← proc_of p;
  r ← kgets (fun s => negb (sl_locked (get_sl l s) =? 0)
                      && (sl_pid (get_sl l s) =? p_pid pr));
  release (LSleep l);;
  mret r.

(** ** What wakeup does *)

(** The effect of [wakeup(ch)] on slot [p], the caller being [me]. *)
Definition wakes (me : option nat) (ch : option chan) (p : nat) (x : proc) : proc :=
  if bool_decide (me <> Some p) && bool_decide (p_state x = SLEEPING) && bool_decide (p_chan x = ch)
  then set_p_state RUNNABLE x else x.

(** The process table after the first [n] slots have been visited. *)
Definition woken (me : option nat) (ch : option chan) (n : nat) (l : list proc) : list proc :=
  imap (fun p x => if decide (p < n)%nat then wakes me ch p x else x) l.

Lemma woken_0 me ch l : woken me ch 0 l = l.
Proof.
  apply list_eq. intros i. unfold woken. rewrite list_lookup_imap.
  destruct (l !! i); cbn; [|done]. by rewrite decide_False by lia.
Qed.

Lemma woken_all me ch l : woken me ch (length l) l = imap (wakes me ch) l.
Proof.
  apply list_eq. intros i. unfold woken. rewrite !list_lookup_imap.
  destruct (l !! i) eqn:Hi; cbn; [|done]. rewrite decide_True; [done|]. by eapply lookup_lt_Some.
Qed.

Lemma woken_S me ch n l :
  woken me ch (S n) l = alter (wakes me ch n) n (woken me ch n l).
Proof.
  apply list_eq. intros i. unfold woken. rewrite list_lookup_alter, !list_lookup_imap.
  destruct (decide (n = i)) as [<-|Hne]; destruct (l !! _); cbn; try done.
  - by rewrite decide_True, decide_False by lia.
  - destruct (decide (i < n)%nat).
    + by rewrite decide_True by lia.
    + by rewrite decide_False by lia.
Qed.

Lemma woken_lookup me ch n l : woken me ch n l !!! n = l !!! n.
Proof.
  rewrite !list_lookup_total_alt. unfold woken. rewrite list_lookup_imap.
  destruct (l !! n); cbn; [|done]. by rewrite decide_False by lia.
Qed.

Lemma set_k_held_back h s : set_k_held h (set_k_held (k_held s) s) = set_k_held h s.
Proof. kst_eq. Qed.

Lemma alter_id {A} (f : A -> A) (i : nat) (l : list A) :
  (forall x, l !! i = Some x -> f x = x) -> alter f i l = l.
Proof.
  intros H. apply list_eq. intros j. rewrite list_lookup_alter.
  destruct (decide (i = j)) as [<-|]; [|done]. destruct (l !! i) eqn:Hi; cbn; [|done]. by rewrite H.
Qed.

(** One turn of the loop of [wakeup]. *)
Lemma wakeup_turn ch p s env :
  (k_cur s = Some p \/ LProc p ∉ k_held s) -> (p < length (k_procs s))%nat ->
  (me ← myproc;
   when (negb (bool_decide (me = Some p))) (
     acquire (LProc p);;
     pr ← proc_of p;
     when (bool_decide (p_state pr = SLEEPING) && bool_decide (p_chan pr = ch))
       (proc_upd p (set_p_state RUNNABLE));;
     release (LProc p))) (mkWorld s env)
  = Ok tt (mkWorld (upd_proc p (wakes (k_cur s) ch p) s) env).
Proof.
  intros Hl Hp. rewrite (run_bind _ _ _ (k_cur s) (mkWorld s env)) by done.
  assert (Hget : forall h x, k_procs s !! p = Some x -> get_proc p (set_k_held h s) = x).
  { intros h x Hx. unfold get_proc. cbn. by rewrite list_lookup_total_alt, Hx. }
  destruct (lookup_lt_is_Some_2 _ _ Hp) as [x Hx].
  assert (Hskip : wakes (k_cur s) ch p x = x -> upd_proc p (wakes (k_cur s) ch p) s = s).
  { intros Hw. unfold upd_proc. rewrite alter_id; [by destruct s|]. congruence. }
  destruct (decide (k_cur s = Some p)) as [Hc|Hc].
  { rewrite bool_decide_eq_true_2 by done. cbn [negb when]. rewrite Hskip; [done|].
    unfold wakes. by rewrite bool_decide_eq_false_2 by (by intros []). }
  destruct Hl as [?|Hl]; [done|]. rewrite bool_decide_eq_false_2 by done. cbn [negb when].
  rewrite (run_bind _ _ _ tt _ (acquire_run (LProc p) (mkWorld s env) Hl)). cbn [w_ks w_env].
  rewrite (run_bind _ _ _ x (mkWorld (set_k_held (LProc p :: k_held s) s) env))
    by (unfold proc_of, kgets, gets; cbn [w_ks]; by rewrite (Hget _ x)).
  destruct (bool_decide (p_state x = SLEEPING) && bool_decide (p_chan x = ch)) eqn:Hw; cbn [when].
  - rewrite (run_bind _ _ _ tt (mkWorld (upd_proc p (set_p_state RUNNABLE) (set_k_held (LProc p :: k_held s) s)) env)) by done.
    rewrite (release_run _ (k_held s)) by done. f_equal. f_equal. cbn [w_ks].
    assert (He : alter (wakes (k_cur s) ch p) p (k_procs s) = alter (set_p_state RUNNABLE) p (k_procs s)).
    { apply list_eq. intros i. rewrite !list_lookup_alter. destruct (decide (p = i)) as [<-|]; [|done].
      rewrite Hx. cbn. unfold wakes. rewrite (bool_decide_eq_true_2 (k_cur s <> Some p)) by done.
      cbn [andb]. by rewrite Hw. }
    unfold upd_proc. rewrite He. kst_eq.
  - rewrite (run_bind _ _ _ tt (mkWorld (set_k_held (LProc p :: k_held s) s) env)) by done.
    rewrite (release_run _ (k_held s)) by done. cbn [w_ks w_env]. rewrite Hskip.
    + do 2 f_equal. by destruct s.
    + unfold wakes. rewrite (bool_decide_eq_true_2 (k_cur s <> Some p)) by done. cbn [andb]. by rewrite Hw.
Qed.

Lemma upd_proc_procs p f l s : upd_proc p f (set_k_procs l s) = set_k_procs (alter f p l) s.
Proof. kst_eq. Qed.

Lemma wakeup_run ch s env :
  length (k_procs s) = NPROC -> (forall p, LProc p ∈ k_held s -> k_cur s = Some p) ->
  wakeup_ptr ch (mkWorld s env)
  = Ok tt (mkWorld (set_k_procs (imap (wakes (k_cur s) ch) (k_procs s)) s) env).
Proof.
  intros Hlen Hheld. apply run_wp. unfold wakeup_ptr.
  apply (wpx_for_each _ _ _ _ (fun dn w => w =
    mkWorld (set_k_procs (woken (k_cur s) ch (length dn) (k_procs s)) s) env)).
  - cbn. rewrite woken_0. by destruct s.
  - intros dn p rest w Hseq ->. unfold proc_slots in Hseq.
    assert (Hx : seq 0 NPROC !! length dn = Some p) by (rewrite Hseq; by apply list_lookup_middle).
    apply lookup_seq in Hx as [-> Hp]. cbn [Nat.add].
    eapply wp_of_run.
    + apply wakeup_turn; cbn.
      * destruct (decide (k_cur s = Some (length dn))); [by left|right]. intros Hin. by apply Hheld in Hin.
      * unfold woken. rewrite length_imap. lia.
    + rewrite upd_proc_procs, length_app. cbn [length]. rewrite Nat.add_1_r, woken_S. done.
  - intros w ->. split; [done|]. unfold proc_slots. rewrite length_seq, <- Hlen. by rewrite woken_all.
Qed.

(** ** What sleep does *)

(** The rest of the system acts until process [p] can run: the state then, and what is
    still to come; [None] when that never happens. *)
Fixpoint until_runnable (p : nat) (env : list (kst -> kst)) (s : kst) : option (kst * list (kst -> kst)) :=
  match env with
  | [] => None
  | e :: env =>
      if decide (p_state (get_proc p (e s)) = RUNNABLE) then Some (e s, env)
      else until_runnable p env (e s)
  end.

Definition run_all (env : list (kst -> kst)) (s : kst) : kst := foldl (fun s e => e s) s env.

(** The process is on the CPU again. *)
Definition resumed (p : nat) (s : kst) : kst :=
  set_k_held [LProc p] (set_k_cur (Some p) (upd_proc p (set_p_state RUNNING) s)).

Lemma resume_until p env s :
  resume p env s =
  match until_runnable p env s with
  | Some (s', rest) => Ok tt (mkWorld (resumed p s') rest)
  | None => Blocked (mkWorld (run_all env s) [])
  end.
Proof.
  revert s. induction env as [|e env IH]; intros s; [done|]. cbn.
  destruct (decide (p_state (get_proc p (e s)) = RUNNABLE)); [done|]. by rewrite IH.
Qed.

(** What the others see of a sleeping process, and what it finds when it wakes up. *)
Definition asleep (p : nat) (ch : chan) (s : kst) : kst :=
  set_k_held [] (set_k_cur None
    (upd_proc p (fun x => set_p_state SLEEPING (set_p_chan (Some ch) x)) s)).
Definition awoken (p : nat) (lk : lockid) (intr : bool) (s : kst) : kst :=
  set_k_held [lk] (set_k_cur (Some p) (set_k_intr intr
    (upd_proc p (fun x => set_p_chan None (set_p_state RUNNING x)) s))).

Lemma sched_run p s env :
  k_cur s = Some p -> k_held s = [LProc p] -> p_state (get_proc p s) <> RUNNING ->
  sched (mkWorld s env) =
  match until_runnable p env (set_k_held [] (set_k_cur None s)) with
  | Some (s', rest) => Ok tt (mkWorld (set_k_intr (k_intr s) (resumed p s')) rest)
  | None => Blocked (mkWorld (run_all env (set_k_held [] (set_k_cur None s))) [])
  end.
Proof.
  intros Hcur Hheld Hst.
  unfold sched, curproc, myproc, holding, proc_of, kgets, gets, mbind, M_bind. cbn.
  rewrite Hcur. cbn. rewrite Hheld. rewrite bool_decide_eq_true_2 by apply list_elem_of_here. cbn.
  rewrite Hheld, bool_decide_eq_true_2 by done. cbn.
  rewrite bool_decide_eq_false_2 by done. unfold intr_get. cbn. rewrite Hheld.
  unfold swtch. cbn [w_ks w_env]. rewrite resume_until.
  by destruct (until_runnable _ _ _) as [[s' rest]|].
Qed.

Lemma sleep_run ch lk p s env :
  k_cur s = Some p -> (p < length (k_procs s))%nat -> k_held s = [lk] -> lk <> LProc p ->
  sleep ch lk (mkWorld s env) =
  match until_runnable p env (asleep p ch s) with
  | Some (s', rest) => Ok tt (mkWorld (awoken p lk (k_intr s) s') rest)
  | None => Blocked (mkWorld (run_all env (asleep p ch s)) [])
  end.
Proof.
  intros Hcur Hp Hheld Hne. unfold sleep, curproc, myproc.
  rewrite (run_bind _ _ _ p (mkWorld s env)) by (unfold kgets, gets, mbind, M_bind; cbn; by rewrite Hcur).
  assert (Hnot : LProc p ∉ k_held s).
  { rewrite Hheld. intros Hin. apply list_elem_of_singleton in Hin. congruence. }
  rewrite (run_bind _ _ _ tt _ (acquire_run (LProc p) (mkWorld s env) Hnot)).
  cbn [w_ks w_env]. rewrite Hheld.
  rewrite (run_bind _ _ _ tt _ (release_run_2 lk (LProc p) [] (mkWorld (set_k_held [LProc p; lk] s) env) eq_refl ltac:(congruence))).
  cbn [w_ks w_env].
  set (s1 := set_k_held [LProc p] (set_k_held [LProc p; lk] s)).
  set (s2 := upd_proc p (set_p_chan (Some ch)) s1). set (s3 := upd_proc p (set_p_state SLEEPING) s2).
  rewrite (run_bind _ _ _ tt (mkWorld s2 env)) by done.
  rewrite (run_bind _ _ _ tt (mkWorld s3 env)) by done.
  assert (Hst : p_state (get_proc p s3) = SLEEPING).
  { unfold s3. rewrite get_upd_proc; [done|]. unfold s2. by rewrite length_upd_proc. }
  assert (Hs3 : set_k_held [] (set_k_cur None s3) = asleep p ch s).
  { unfold s3, s2, s1, asleep. rewrite upd_proc_twice. kst_eq. }
  assert (Hsched : sched (mkWorld s3 env) =
    match until_runnable p env (asleep p ch s) with
    | Some (s', rest) => Ok tt (mkWorld (set_k_intr (k_intr s3) (resumed p s')) rest)
    | None => Blocked (mkWorld (run_all env (asleep p ch s)) [])
    end).
  { rewrite <- Hs3. by apply sched_run; [|done|rewrite Hst]. }
  destruct (until_runnable p env (asleep p ch s)) as [[s' rest]|]; unfold mbind at 1, M_bind; rewrite Hsched; [|done].
  set (s4 := set_k_intr (k_intr s3) (resumed p s')).
  change (k_intr s3) with (k_intr s) in s4.
  rewrite (run_bind _ _ _ tt (mkWorld (upd_proc p (set_p_chan None) s4) rest)) by done.
  rewrite (run_bind _ _ _ tt _ (release_run (LProc p) [] (mkWorld (upd_proc p (set_p_chan None) s4) rest) eq_refl)). cbn [w_ks w_env].
  rewrite acquire_run by apply not_elem_of_nil. cbn [w_ks w_env]. do 2 f_equal.
  unfold s4, resumed, awoken.
  assert (He : upd_proc p (fun x => set_p_chan None (set_p_state RUNNING x)) s'
    = upd_proc p (set_p_chan None) (upd_proc p (set_p_state RUNNING) s')) by (by rewrite upd_proc_twice).
  rewrite He. kst_eq.
Qed.

Lemma curproc_run s env p : k_cur s = Some p -> curproc (mkWorld s env) = Ok p (mkWorld s env).
Proof. intros H. unfold curproc, myproc, kgets, gets, mbind, M_bind. cbn. by rewrite H. Qed.

(** ** The while loop around sleep *)

(** Every sleep that returns uses up a part of the schedule. *)
Lemma acquire_env l w u w' : acquire l w = Ok u w' -> w_env w' = w_env w.
Proof.
  destruct (decide (l ∈ k_held (w_ks w))) as [H|H].
  - by rewrite acquire_panic.
  - rewrite acquire_run by done. by intros [= _ <-].
Qed.

Lemma release_env l w u w' : release l w = Ok u w' -> w_env w' = w_env w.
Proof.
  unfold release, holding, kgets, gets, mbind, M_bind. destruct (negb _); [done|].
  unfold kmodify, modify. by intros [= _ <-].
Qed.

Lemma resume_env p env s u w' : resume p env s = Ok u w' -> (length (w_env w') < length env)%nat.
Proof.
  revert s. induction env as [|e env IH]; intros s; [done|]. cbn.
  destruct (decide _); [intros [= _ <-]; cbn; lia|]. intros H. apply IH in H. lia.
Qed.

Lemma sched_env w u w' : sched w = Ok u w' -> (length (w_env w') < length (w_env w))%nat.
Proof.
  unfold sched, curproc, myproc, holding, proc_of, kgets, gets, mbind, M_bind.
  destruct (k_cur (w_ks w)) as [p|]; [|done]. cbn.
  repeat (match goal with |- context [if ?b then _ else _] => destruct b end; [done|]; cbn).
  unfold swtch. destruct (resume p (w_env w) _) as [u1 w1| |] eqn:Hr; [|done..].
  unfold kmodify, modify. intros [= _ <-]. cbn. by eapply resume_env.
Qed.

Lemma sleep_env ch lk w u w' : sleep ch lk w = Ok u w' -> (length (w_env w') < length (w_env w))%nat.
Proof.
  unfold sleep, curproc, myproc, kgets, gets, mbind, M_bind.
  destruct (k_cur (w_ks w)) as [p|]; [|done]. cbn.
  destruct (acquire _ w) as [u1 w1| |] eqn:H1; [|done..]. apply acquire_env in H1.
  destruct (release lk w1) as [u2 w2| |] eqn:H2; [|done..]. apply release_env in H2.
  unfold proc_upd, kmodify, modify. cbn.
  destruct (sched _) as [u3 w3| |] eqn:H3; [|done..]. apply sched_env in H3. cbn in H3.
  destruct (release _ _) as [u4 w4| |] eqn:H4; [|done..]. apply release_env in H4. cbn in H4.
  intros H5. apply acquire_env in H5. rewrite H5, H4. cbn. congruence || (rewrite <- H1, <- H2; done).
Qed.

Lemma sleep_while_more cond ch lk : (forall w b w', cond w = Ok b w' -> w_env w' = w_env w) ->
  forall n m w, (length (w_env w) < n)%nat -> (length (w_env w) < m)%nat ->
  sleep_while_fuel n cond ch lk w = sleep_while_fuel m cond ch lk w.
Proof.
  intros Hc. induction n as [|n IH]; intros m w Hn Hm; [lia|]. destruct m as [|m]; [lia|]. cbn.
  unfold mbind, M_bind. destruct (cond w) as [b w1| |] eqn:H1; [|done..]. apply Hc in H1.
  destruct b; [|done]. destruct (sleep ch lk w1) as [u w2| |] eqn:H2; [|done..].
  apply sleep_env in H2. rewrite H1 in H2. apply IH; lia.
Qed.

(** [sleep_while] is the loop [while(cond) sleep(ch, lk)]. *)
Lemma sleep_while_unfold cond ch lk w b :
  (forall w b w', cond w = Ok b w' -> w_env w' = w_env w) -> cond w = Ok b w ->
  sleep_while cond ch lk w = if b then (sleep ch lk;; sleep_while cond ch lk) w else Ok tt w.
Proof.
  intros Hc Hb. unfold sleep_while at 1. cbn [sleep_while_fuel].
  rewrite (run_bind _ _ _ b w) by done. destruct b; [|done].
  unfold mbind, M_bind. destruct (sleep ch lk w) as [u w2| |] eqn:H2; [|done..].
  apply sleep_env in H2. unfold sleep_while. apply (sleep_while_more _ _ _ Hc); lia.
Qed.

(** ** Theorems *)

(** What another process [q] does to the kernel state by calling [wakeup(ch)]. *)
Definition wakeup_by (q : nat) (ch : chan) (s : kst) : kst :=
  match wakeup ch (mkWorld (set_k_cur (Some q) s) []) with
  | Ok _ w | Panic _ w | Blocked w => set_k_cur (k_cur s) (w_ks w)
  end.

Lemma wakeup_by_run q ch s :
  length (k_procs s) = NPROC -> k_held s = [] ->
  wakeup_by q ch s = set_k_procs (imap (wakes (Some q) (Some ch)) (k_procs s)) s.
Proof.
  intros Hlen Hheld. unfold wakeup_by, wakeup. rewrite wakeup_run; cbn.
  - kst_eq.
  - done.
  - rewrite Hheld. intros p Hp. inversion Hp.
Qed.

(** [wakeup(ch)] makes runnable exactly the processes that sleep on [ch], the caller
    excepted: it returns, and every other process, and everything else in the kernel, is
    as before. *)
Theorem wakeup_wakes_exactly ch s env :
  length (k_procs s) = NPROC -> (forall p, LProc p ∈ k_held s -> k_cur s = Some p) ->
  exists l, wakeup ch (mkWorld s env) = Ok tt (mkWorld (set_k_procs l s) env) /\
    length l = NPROC /\
    forall p x, k_procs s !! p = Some x ->
      l !! p = Some (if decide (k_cur s <> Some p /\ p_state x = SLEEPING /\ p_chan x = Some ch)
                     then set_p_state RUNNABLE x else x).
Proof.
  intros Hlen Hheld. exists (imap (wakes (k_cur s) (Some ch)) (k_procs s)).
  split; [by apply wakeup_run|]. split; [by rewrite length_imap|].
  intros p x Hx. rewrite list_lookup_imap, Hx. cbn. f_equal. unfold wakes.
  destruct (decide _) as [(H1 & H2 & H3)|Hn].
  - by rewrite !bool_decide_eq_true_2 by done.
  - destruct (_ && _) eqn:Hb; [|done]. destruct Hn.
    apply andb_prop in Hb as [Hb H3]. apply andb_prop in Hb as [H1 H2].
    by apply bool_decide_eq_true in H1, H2, H3.
Qed.

(** sleep and wakeup meet. A process that holds only [lk] and sleeps on [ch] is seen by
    the others as SLEEPING on [ch] with [lk] free; if another process then calls
    [wakeup(ch)], [sleep] returns, with [lk] held again, the process RUNNING and no longer
    on any channel; a wakeup on another channel leaves it asleep. *)
Theorem sleep_until_wakeup ch ch' lk p q s :
  k_cur s = Some p -> (p < NPROC)%nat -> length (k_procs s) = NPROC -> k_held s = [lk] ->
  lk <> LProc p -> q <> p ->
  if decide (ch' = ch) then
    exists s', sleep ch lk (mkWorld s [wakeup_by q ch']) = Ok tt (mkWorld s' []) /\
      k_held s' = [lk] /\ k_cur s' = Some p /\ p_state (get_proc p s') = RUNNING /\
      p_chan (get_proc p s') = None
  else exists s', sleep ch lk (mkWorld s [wakeup_by q ch']) = Blocked (mkWorld s' []) /\
      k_held s' = [] /\ p_state (get_proc p s') = SLEEPING /\ p_chan (get_proc p s') = Some ch.
Proof.
  intros Hcur Hp Hlen Hheld Hlk Hq. rewrite <- Hlen in Hp.
  rewrite (sleep_run ch lk p s) by done. cbn [until_runnable].
  assert (Hlen' : length (k_procs (asleep p ch s)) = NPROC) by (unfold asleep; cbn; by rewrite length_alter).
  rewrite (wakeup_by_run q ch' (asleep p ch s)) by done.
  destruct (lookup_lt_is_Some_2 _ _ Hp) as [x Hx].
  set (y := set_p_state SLEEPING (set_p_chan (Some ch) x)).
  assert (Hy : k_procs (asleep p ch s) !! p = Some y).
  { unfold asleep. cbn. by rewrite list_lookup_alter, decide_True, Hx by done. }
  remember (imap (wakes (Some q) (Some ch')) (k_procs (asleep p ch s))) as l eqn:Hleq.
  assert (Hl : l !! p = Some (wakes (Some q) (Some ch') p y)) by (by rewrite Hleq, list_lookup_imap, Hy).
  assert (Hw : wakes (Some q) (Some ch') p y = if decide (ch' = ch) then set_p_state RUNNABLE y else y).
  { unfold wakes. rewrite (bool_decide_eq_true_2 (Some q <> Some p)) by congruence.
    rewrite (bool_decide_eq_true_2 (p_state y = SLEEPING)) by done. cbn [andb].
    destruct (decide (ch' = ch)) as [->|Hne]; [by rewrite bool_decide_eq_true_2|].
    rewrite bool_decide_eq_false_2; [done|]. cbn. congruence. }
  assert (Hget : get_proc p (set_k_procs l (asleep p ch s)) = wakes (Some q) (Some ch') p y).
  { unfold get_proc. change (k_procs (set_k_procs l (asleep p ch s))) with l.
    by rewrite list_lookup_total_alt, Hl. }
  rewrite Hget, Hw. destruct (decide (ch' = ch)) as [->|Hne].
  - rewrite decide_True by done. eexists. split; [reflexivity|]. split; [done|]. split; [done|].
    unfold awoken, get_proc. cbn.
    rewrite list_lookup_total_alt, list_lookup_alter, decide_True by done. by rewrite Hl.
  - rewrite decide_False by done. eexists. split; [reflexivity|]. unfold run_all. cbn [foldl].
    rewrite (wakeup_by_run q ch' (asleep p ch s)) by done. rewrite <- Hleq. split; [done|]. by rewrite Hget, Hw.
Qed.

(** Process 3 sleeps on semaphore 7 with the semaphore lock; process 5 wakes it. *)
Definition demo_sleeper : kst :=
  set_k_held [LBsem] (set_k_cur (Some 3%nat) (upd_proc 3 (set_p_state RUNNING) kst0)).

Lemma wakeup_wakes_exactly_witness : exists l,
  wakeup (ChSem 7) (mkWorld demo_sleeper []) = Ok tt (mkWorld (set_k_procs l demo_sleeper) []) /\
  length l = NPROC.
Proof.
  destruct (wakeup_wakes_exactly (ChSem 7) demo_sleeper []) as (l & Hrun & Hlen & _); [reflexivity| |].
  - intros p Hp. apply list_elem_of_singleton in Hp. discriminate Hp.
  - exists l. split; [exact Hrun|exact Hlen].
Defined.

Lemma sleep_until_wakeup_witness : exists s',
  sleep (ChSem 7) LBsem (mkWorld demo_sleeper [wakeup_by 5 (ChSem 7)]) = Ok tt (mkWorld s' []) /\
  k_held s' = [LBsem].
Proof.
  pose proof (sleep_until_wakeup (ChSem 7) (ChSem 7) LBsem 3 5 demo_sleeper) as H.
  rewrite decide_True in H by reflexivity.
  destruct H as (s' & Hrun & Hh & _); [reflexivity|by vm_compute; lia|reflexivity|reflexivity|discriminate|discriminate|].
  exists s'. split; [exact Hrun|exact Hh].
Defined.
