(* ===== verification/Kalloc.v ===== *)
(** * Physical page allocator (kernel/kalloc.c)

    The free list is a linked list threaded through the first word of each free
    page in RAM, headed by [k_freelist]. *)

From stdpp Require Import base gmap list strings.
From Stdlib Require Import ZArith Lia.
From S2P Require Import Prelude Riscv Memory State Spinlock.

Section Kalloc.
Context {KS : KSyms}.

(** Free the page of physical memory at [pa]. *)
Definition kfree (pa : Z) : K unit :=
  if negb (pa mod PGSIZE =? 0) || (pa <? ksym_end) || (PHYSTOP <=? pa) then panic "kfree"
  else
    memM (fun m => memset m pa 1 (Z.to_nat PGSIZE));;
    acquire LKmem;;
    head ← kgets k_freelist;
    stM64 pa head;;
    kmodify (set_k_freelist pa);;
    release LKmem.

(** [for(; p + PGSIZE <= pa_end; p += PGSIZE) kfree(p)] *)
Definition page_count (pa_start pa_end : Z) : nat :=
  Z.to_nat ((pa_end - PGROUNDUP pa_start) / PGSIZE).
Definition freerange (pa_start pa_end : Z) : K unit :=
  for_each (seq 0 (page_count pa_start pa_end))
    (fun i => kfree (PGROUNDUP pa_start + Z.of_nat i * PGSIZE)).

(** [kmem.lock] starts free, as [initlock] leaves it. *)
Definition kinit : K unit := freerange ksym_end PHYSTOP.

(** Allocate one page; 0 if there is none. *)
Definition kalloc : K Z :=
  acquire LKmem;;
  r ← kgets k_freelist;
  (if negb (r =? 0) then next ← ldM64 r; kmodify (set_k_freelist next) else mret tt);;
  release LKmem;;
  when (negb (r =? 0)) (memM (fun m => memset m r 5 (Z.to_nat PGSIZE)));;
  mret r.

End Kalloc.

(** ** The free list *)

(** A page the allocator manages. *)
Definition page_ok `{KSyms} (pa : Z) : Prop :=
  pa mod PGSIZE = 0 /\ ksym_end <= pa < PHYSTOP.

(** The linked list from [head] visits exactly the pages [l]. *)
Fixpoint fl_rep (m : mem) (head : Z) (l : list Z) : Prop :=
  match l with
  | [] => head = 0
  | p :: l => head = p /\ fl_rep m (ld64 m p) l
  end.

(** The free list of state [s] holds the distinct managed pages [l]. *)
Definition free_list `{KSyms} (s : kst) (l : list Z) : Prop :=
  fl_rep (k_mem s) (k_freelist s) l /\ Forall page_ok l /\ NoDup l.

(** Memory [m'] agrees with [m] on the page [p]. *)
Definition same_page (m m' : mem) (p : Z) : Prop :=
  forall a, p <= a < p + PGSIZE -> ld8 m' a = ld8 m a.

(** [s'] is [s] but for the contents of RAM and the head of the free list. *)
Definition mem_only (s s' : kst) : Prop :=
  exists h m, s' = set_k_freelist h (set_k_mem m s).

Lemma mem_only_refl s : mem_only s s.
Proof. exists (k_freelist s), (k_mem s). kst_eq. Qed.

Lemma mem_only_trans s1 s2 s3 : mem_only s1 s2 -> mem_only s2 s3 -> mem_only s1 s3.
Proof. intros (h & m & ->) (h' & m' & ->). exists h', m'. kst_eq. Qed.

Lemma mem_only_set_mem s m : mem_only s (set_k_mem m s).
Proof. exists (k_freelist s), m. kst_eq. Qed.

Lemma mem_only_set_both s h m : mem_only s (set_k_freelist h (set_k_mem m s)).
Proof. by exists h, m. Qed.

Lemma mem_only_held s s' : mem_only s s' -> k_held s' = k_held s.
Proof. by intros (h & m & ->). Qed.

#[export] Instance mem_only_preorder : PreOrder mem_only.
Proof. split; [exact mem_only_refl | exact mem_only_trans]. Qed.

Section KallocProofs.
Context {KS : KSyms} (Hks : ksyms_ok KS).

Lemma page_ok_pos pa : page_ok pa -> 0 < pa < PHYSTOP.
Proof. intros [_ H]. destruct Hks. unfold KERNBASE in *. lia. Qed.

Lemma page_ok_u64 pa : page_ok pa -> u64 pa = pa.
Proof.
  intros H. apply page_ok_pos in H. unfold u64, PHYSTOP, KERNBASE in *.
  apply Z.mod_small. lia.
Qed.

(** Two different pages do not overlap. *)
Lemma page_apart p q :
  p mod PGSIZE = 0 -> q mod PGSIZE = 0 -> p <> q -> p + PGSIZE <= q \/ q + PGSIZE <= p.
Proof.
  unfold PGSIZE. intros Hp Hq Hne.
  pose proof (Z.div_mod p 4096). pose proof (Z.div_mod q 4096). nia.
Qed.

Lemma same_page_ld64 m m' p off :
  same_page m m' p -> 0 <= off -> off + 8 <= PGSIZE -> ld64 m' (p + off) = ld64 m (p + off).
Proof. intros H H1 H2. apply ld64_ext. intros i Hi. apply H. lia. Qed.

Lemma same_page_ld64_0 m m' p : same_page m m' p -> ld64 m' p = ld64 m p.
Proof.
  intros H. replace p with (p + 0) by lia. apply same_page_ld64; [done|lia|].
  unfold PGSIZE; lia.
Qed.

Lemma fl_rep_frame m m' head l :
  (forall p, p ∈ l -> same_page m m' p) -> fl_rep m head l -> fl_rep m' head l.
Proof.
  revert head. induction l as [|p l IH]; intros head Hs; [done|].
  intros [-> H]. split; [done|].
  rewrite (same_page_ld64_0 m m' p) by (apply Hs; left).
  apply IH; [|done]. intros q Hq. apply Hs. by right.
Qed.

Lemma free_list_frame s s' l :
  k_freelist s' = k_freelist s ->
  (forall p, p ∈ l -> same_page (k_mem s) (k_mem s') p) ->
  free_list s l -> free_list s' l.
Proof.
  intros Hf Hs (H & Hok & Hnd). split; [|done].
  rewrite Hf. by eapply fl_rep_frame.
Qed.

Lemma same_page_memset m p q c :
  p mod PGSIZE = 0 -> q mod PGSIZE = 0 -> p <> q ->
  same_page m (memset m p c (Z.to_nat PGSIZE)) q.
Proof.
  intros Hp Hq Hne a Ha. rewrite ld8_memset.
  destruct (page_apart p q Hp Hq Hne);
    destruct (Z.leb_spec p a), (Z.ltb_spec a (p + Z.of_nat (Z.to_nat PGSIZE)));
    cbn [andb]; try reflexivity; lia.
Qed.

Lemma same_page_st64 m p off q v :
  p mod PGSIZE = 0 -> q mod PGSIZE = 0 -> p <> q -> 0 <= off -> off + 8 <= PGSIZE ->
  same_page m (st64 m (p + off) v) q.
Proof.
  intros Hp Hq Hne H1 H2 a Ha. apply ld8_st64_ne.
  destruct (page_apart p q Hp Hq Hne); lia.
Qed.

Lemma same_page_trans m1 m2 m3 p :
  same_page m1 m2 p -> same_page m2 m3 p -> same_page m1 m3 p.
Proof. intros H1 H2 a Ha. rewrite H2 by done. by apply H1. Qed.

(** The memory after [kfree pa]. *)
Definition kfree_mem (m : mem) (pa head : Z) : mem :=
  st64 (memset m pa 1 (Z.to_nat PGSIZE)) pa head.

Lemma kfree_mem_next m pa head : ld64 (kfree_mem m pa head) pa = u64 head.
Proof. apply ld64_st64_eq. Qed.

Lemma same_page_kfree m pa head q :
  pa mod PGSIZE = 0 -> q mod PGSIZE = 0 -> pa <> q -> same_page m (kfree_mem m pa head) q.
Proof.
  intros Hp Hq Hne.
  apply (same_page_trans _ (memset m pa 1 (Z.to_nat PGSIZE))); [by apply same_page_memset|].
  pose proof (same_page_st64 (memset m pa 1 (Z.to_nat PGSIZE)) pa 0 q head) as H.
  rewrite Z.add_0_r in H. apply H; try done; unfold PGSIZE; lia.
Qed.

Lemma kfree_run pa s env :
  page_ok pa -> LKmem ∉ k_held s ->
  kfree pa (mkWorld s env) =
  Ok tt (mkWorld (set_k_freelist pa (set_k_mem (kfree_mem (k_mem s) pa (k_freelist s)) s)) env).
Proof.
  intros [Hal Hrange] Hl. unfold kfree.
  rewrite Hal, Z.eqb_refl. rewrite (proj2 (Z.ltb_ge _ _)) by lia.
  rewrite (proj2 (Z.leb_gt _ _)) by lia.
  apply run_wp. ksteps. apply wpx_acquire; [done|]. ksteps. simpl.
  eapply wpx_release; [done|]. split; [done|]. unfold kfree_mem. kst_eq.
Qed.

Lemma kfree_bad pa w :
  ~ page_ok pa -> kfree pa w = Panic "kfree" w.
Proof.
  intros H. unfold kfree.
  destruct (Z.eqb_spec (pa mod PGSIZE) 0); simpl; [|done].
  destruct (Z.ltb_spec pa ksym_end); simpl; [done|].
  destruct (Z.leb_spec PHYSTOP pa); simpl; [done|].
  destruct H. by repeat split.
Qed.

Lemma kfree_free_list pa s l :
  page_ok pa -> pa ∉ l -> free_list s l ->
  free_list (set_k_freelist pa (set_k_mem (kfree_mem (k_mem s) pa (k_freelist s)) s)) (pa :: l).
Proof.
  intros Hpa Hni (Hrep & Hok & Hnd). split; [|split]; simpl.
  - split; [done|].
    rewrite kfree_mem_next.
    assert (Hu : u64 (k_freelist s) = k_freelist s).
    { destruct l as [|p l]; [by rewrite Hrep|]. destruct Hrep as [-> _].
      apply page_ok_u64. by inversion Hok. }
    rewrite Hu. eapply fl_rep_frame; [|done].
    intros q Hq. assert (Hqok : page_ok q) by (by eapply Forall_forall in Hok).
    destruct Hqok as [Hqa _], Hpa as [Hpa _].
    apply same_page_kfree; try done. by intros ->.
  - by constructor.
  - by constructor.
Qed.

Lemma kalloc_empty s env :
  free_list s [] -> LKmem ∉ k_held s -> kalloc (mkWorld s env) = Ok 0 (mkWorld s env).
Proof.
  intros (H & _) Hl. simpl in H. unfold kalloc. apply run_wp.
  ksteps. apply wpx_acquire; [done|]. ksteps. simpl. rewrite H. simpl. ksteps.
  eapply wpx_release; [done|]. ksteps. split; [done|]. kst_eq.
Qed.

(** The state after [kalloc] has taken the first page [p] of the list. *)
Definition kalloc_state (p : Z) (s : kst) : kst :=
  set_k_freelist (ld64 (k_mem s) p) (set_k_mem (memset (k_mem s) p 5 (Z.to_nat PGSIZE)) s).

Lemma kalloc_run p l s env :
  free_list s (p :: l) -> LKmem ∉ k_held s ->
  kalloc (mkWorld s env) = Ok p (mkWorld (kalloc_state p s) env).
Proof.
  intros ((H & _) & Hok & _) Hl. simpl in H.
  assert (Hp : 0 < p < PHYSTOP) by (apply page_ok_pos; by inversion Hok).
  unfold kalloc. apply run_wp.
  ksteps. apply wpx_acquire; [done|]. ksteps. simpl. rewrite H.
  rewrite (proj2 (Z.eqb_neq p 0)) by lia. simpl. ksteps. simpl.
  eapply wpx_release; [done|]. ksteps.
  split; [done|]. unfold kalloc_state. kst_eq.
Qed.

Lemma kalloc_free_list p l s :
  free_list s (p :: l) -> free_list (kalloc_state p s) l.
Proof.
  intros ((_ & Hrep) & Hok & Hnd). apply NoDup_cons in Hnd as [Hni Hnd].
  apply Forall_cons in Hok as [Hp Hok]. split; [|done]. simpl.
  eapply fl_rep_frame; [|done]. intros q Hq.
  assert (Hqok : page_ok q) by (by eapply Forall_forall in Hok).
  destruct Hqok as [Hqa _], Hp as [Hpa _].
  apply same_page_memset; try done. by intros ->.
Qed.

(** ** Boot: the pages between the kernel and the end of RAM *)

Definition range_pages (a : Z) (n : nat) : list Z :=
  (fun i => a + Z.of_nat i * PGSIZE) <$> seq 0 n.

Lemma range_pages_S a n :
  range_pages a (S n) = range_pages a n ++ [a + Z.of_nat n * PGSIZE].
Proof. unfold range_pages. by rewrite seq_S, fmap_app. Qed.

Lemma elem_range_pages a n p :
  p ∈ range_pages a n <-> exists i, (i < n)%nat /\ p = a + Z.of_nat i * PGSIZE.
Proof.
  unfold range_pages. rewrite list_elem_of_fmap. split.
  - intros (i & -> & Hi). apply elem_of_seq in Hi. exists i. split; [lia|done].
  - intros (i & Hi & ->). exists i. split; [done|]. apply elem_of_seq. lia.
Qed.

(** What [freerange] does to a state, for [n] pages from [a]. *)
Lemma freerange_pages a n s env l :
  (forall i, (i < n)%nat -> page_ok (a + Z.of_nat i * PGSIZE)) ->
  (forall i, (i < n)%nat -> a + Z.of_nat i * PGSIZE ∉ l) ->
  free_list s l -> LKmem ∉ k_held s ->
  wp (for_each (seq 0 n) (fun i => kfree (a + Z.of_nat i * PGSIZE)))
     (fun _ w => free_list (w_ks w) (reverse (range_pages a n) ++ l) /\ w_env w = env /\
        mem_only s (w_ks w))
     (mkWorld s env).
Proof.
  intros Hok Hni Hfl Hl.
  apply (wpx_for_each _ _ _ _ (fun dn w =>
    free_list (w_ks w) (reverse (range_pages a (length dn)) ++ l) /\ w_env w = env /\
    mem_only s (w_ks w))).
  - split; [done|]. split; [done|]. apply mem_only_refl.
  - intros dn x rest [s1 env1] Hseq (Hfl1 & Henv & Hs1). simpl in Henv, Hs1. subst env1.
    assert (Hx : x = length dn /\ (x < n)%nat).
    { assert (Hx : seq 0 n !! length dn = Some x).
      { rewrite Hseq. by apply list_lookup_middle. }
      apply lookup_seq in Hx. lia. }
    destruct Hx as [-> Hn]. rewrite length_app. simpl length.
    eapply wp_of_run.
    { apply kfree_run; [by apply Hok|]. by rewrite (mem_only_held _ _ Hs1). }
    cbn [w_ks w_env]. rewrite Nat.add_1_r, range_pages_S, reverse_snoc.
    split; [|split; [done|]].
    + apply kfree_free_list; [by apply Hok| |done].
      rewrite elem_of_app, elem_of_reverse, elem_range_pages.
      intros [(i & Hi & Heq)|Hin]; [unfold PGSIZE in Heq; lia|by eapply Hni].
    + eapply mem_only_trans; [done|apply mem_only_set_both].
  - intros [s1 env1] (Hfl1 & Henv & H). rewrite length_seq in Hfl1. done.
Qed.

Lemma kinit_pages_ok i :
  (i < page_count ksym_end PHYSTOP)%nat ->
  page_ok (PGROUNDUP ksym_end + Z.of_nat i * PGSIZE).
Proof.
  intros Hi. destruct Hks as [H1 H2]. unfold page_count in Hi.
  rewrite (PGROUNDUP_div ksym_end) in Hi |- * by (unfold PHYSTOP, KERNBASE, PGSIZE in *; lia).
  unfold page_ok, PHYSTOP, KERNBASE, PGSIZE in *.
  pose proof (Z.div_mod (ksym_end + 4096 - 1) 4096).
  pose proof (Z.mod_pos_bound (ksym_end + 4096 - 1) 4096).
  set (q := (ksym_end + 4096 - 1) / 4096) in *.
  split; [|split]; [| lia |].
  - rewrite <- Z.mul_add_distr_r. apply Z.mod_mul. lia.
  - pose proof (Z.div_mod (0x80000000 + 128 * 1024 * 1024 - q * 4096) 4096).
    pose proof (Z.mod_pos_bound (0x80000000 + 128 * 1024 * 1024 - q * 4096) 4096). lia.
Qed.

(** These are all the pages of RAM above the kernel. *)
Lemma kinit_pages_iff p :
  p ∈ range_pages (PGROUNDUP ksym_end) (page_count ksym_end PHYSTOP) <->
  p mod PGSIZE = 0 /\ ksym_end <= p /\ p + PGSIZE <= PHYSTOP.
Proof.
  rewrite elem_range_pages. split.
  - intros (i & Hi & ->). destruct (kinit_pages_ok i Hi) as (Hm & Hlo & Hhi). split; [done|]. split; [done|].
    unfold PHYSTOP, KERNBASE, PGSIZE in *. pose proof (Z.div_mod (PGROUNDUP ksym_end + Z.of_nat i * 4096) 4096). lia.
  - intros (Hm & Hlo & Hhi). destruct Hks as [H1 H2].
    assert (Hup : PGROUNDUP ksym_end = (ksym_end + PGSIZE - 1) / PGSIZE * PGSIZE)
      by (apply PGROUNDUP_div; unfold PHYSTOP, KERNBASE, PGSIZE in *; lia).
    set (q := (ksym_end + PGSIZE - 1) / PGSIZE) in *.
    pose proof (Z.div_mod p PGSIZE ltac:(done)) as Hdiv. rewrite Hm in Hdiv.
    assert (Hq : q <= p / PGSIZE).
    { unfold q. apply Z.lt_succ_r, Z.div_lt_upper_bound; [done|]. unfold PGSIZE in *. lia. }
    exists (Z.to_nat (p / PGSIZE - q)). rewrite Hup. split.
    + unfold page_count. rewrite Hup. apply Z2Nat.inj_lt; [lia| |].
      * apply Z.div_pos; [|done]. unfold PGSIZE in *. lia.
      * apply Z.lt_le_trans with (p / PGSIZE - q + 1); [lia|]. apply Z.div_le_lower_bound; [done|].
        unfold PGSIZE in *. lia.
    + rewrite Z2Nat.id by lia. unfold PGSIZE in *. lia.
Qed.

Lemma kinit_run s env :
  free_list s [] -> LKmem ∉ k_held s ->
  exists s', kinit (mkWorld s env) = Ok tt (mkWorld s' env) /\
    free_list s' (reverse (range_pages (PGROUNDUP ksym_end) (page_count ksym_end PHYSTOP))) /\
    mem_only s s'.
Proof.
  intros Hfl Hl.
  pose proof (freerange_pages (PGROUNDUP ksym_end) (page_count ksym_end PHYSTOP) s env []) as H.
  apply wp_run in H as ([] & [s' env'] & Hr & Hfl' & Henv & Hs').
  - simpl in *. subst env'. exists s'. rewrite app_nil_r in Hfl'. done.
  - apply kinit_pages_ok.
  - intros i _ Hin. inversion Hin.
  - done.
  - done.
Qed.

End KallocProofs.

(** ** The interface to the allocator's clients

    [avail s l]: the pages [l] are available, in the order in which they will be
    handed out.  The client may rely on these laws and nothing else: in particular on
    the pages being managed, distinct, and touched by nothing but the allocator. *)

(** Only the bytes of page [p] change. *)
Definition outside_same (p : Z) (m m' : mem) : Prop :=
  forall a, a < p \/ p + PGSIZE <= a -> ld8 m' a = ld8 m a.

Class PageAllocator {KS : KSyms} (alloc : K Z) (free : Z -> K unit) : Type := {
  avail : kst -> list Z -> Prop;
  avail_ok s l : avail s l -> Forall page_ok l /\ NoDup l;
  avail_frame s s' l :
    k_freelist s' = k_freelist s ->
    (forall p, p ∈ l -> same_page (k_mem s) (k_mem s') p) ->
    avail s l -> avail s' l;
  avail_fun s l l' : avail s l -> avail s l' -> l = l';
  alloc_none s env :
    avail s [] -> LKmem ∉ k_held s -> alloc (mkWorld s env) = Ok 0 (mkWorld s env);
  alloc_some s env p l :
    avail s (p :: l) -> LKmem ∉ k_held s ->
    exists s', alloc (mkWorld s env) = Ok p (mkWorld s' env) /\
      avail s' l /\ mem_only s s' /\ outside_same p (k_mem s) (k_mem s');
  free_page s env p l :
    avail s l -> page_ok p -> p ∉ l -> LKmem ∉ k_held s ->
    exists s', free p (mkWorld s env) = Ok tt (mkWorld s' env) /\
      avail s' (p :: l) /\ mem_only s s' /\ outside_same p (k_mem s) (k_mem s')
}.

Lemma outside_same_refl p m : outside_same p m m.
Proof. done. Qed.

Lemma outside_same_memset p m c : outside_same p m (memset m p c (Z.to_nat PGSIZE)).
Proof.
  intros a Ha. rewrite ld8_memset.
  destruct (Z.leb_spec p a), (Z.ltb_spec a (p + Z.of_nat (Z.to_nat PGSIZE)));
    cbn [andb]; try reflexivity; lia.
Qed.

Lemma outside_same_trans p m1 m2 m3 :
  outside_same p m1 m2 -> outside_same p m2 m3 -> outside_same p m1 m3.
Proof. intros H1 H2 a Ha. rewrite H2 by done. by apply H1. Qed.

Lemma outside_same_st64 p m off v :
  0 <= off -> off + 8 <= PGSIZE -> outside_same p m (st64 m (p + off) v).
Proof. intros H1 H2 a Ha. apply ld8_st64_ne. lia. Qed.

Lemma outside_same_page p q m m' :
  p mod PGSIZE = 0 -> q mod PGSIZE = 0 -> p <> q -> outside_same p m m' -> same_page m m' q.
Proof. intros Hp Hq Hne H a Ha. apply H. destruct (page_apart p q Hp Hq Hne); lia. Qed.

(** The list is determined by its first page. *)
Lemma fl_rep_fun {KS : KSyms} (Hks : ksyms_ok KS) m : forall l l' head,
  fl_rep m head l -> fl_rep m head l' -> Forall page_ok l -> Forall page_ok l' -> l = l'.
Proof.
  induction l as [|p l IH]; intros [|p' l'] head H H' F F'; cbn in H, H'; [done|..].
  - destruct H' as [-> _]. subst. apply Forall_cons in F' as [F' _]. apply (page_ok_pos Hks) in F'. lia.
  - destruct H as [-> _]. subst. apply Forall_cons in F as [F _]. apply (page_ok_pos Hks) in F. lia.
  - destruct H as [-> H], H' as [-> H']. f_equal. apply Forall_cons in F as [_ F], F' as [_ F']. by eapply IH.
Qed.

(** kalloc.c implements the interface. *)
#[export] Instance kalloc_allocator {KS : KSyms} (Hks : ksyms_ok KS) :
  PageAllocator kalloc kfree.
Proof.
  refine {| avail := free_list |}.
  - intros s l (_ & H1 & H2). done.
  - intros s s' l. apply free_list_frame.
  - intros s l l' (H1 & F1 & _) (H2 & F2 & _). by eapply (fl_rep_fun Hks).
  - intros s env. by apply kalloc_empty.
  - intros s env p l H Hl. exists (kalloc_state p s).
    split; [by eapply kalloc_run|]. split; [by apply kalloc_free_list|].
    split; [apply mem_only_set_both|]. apply outside_same_memset.
  - intros s env p l H Hp Hni Hl.
    exists (set_k_freelist p (set_k_mem (kfree_mem (k_mem s) p (k_freelist s)) s)).
    split; [by apply kfree_run|]. split; [by apply kfree_free_list|].
    split; [apply mem_only_set_both|]. cbn.
    apply (outside_same_trans _ _ (memset (k_mem s) p 1 (Z.to_nat PGSIZE)));
      [apply outside_same_memset|].
    pose proof (outside_same_st64 p (memset (k_mem s) p 1 (Z.to_nat PGSIZE)) 0
                  (k_freelist s)) as Ho.
    rewrite Z.add_0_r in Ho. apply Ho; unfold PGSIZE; lia.
Defined.

(** ** Clients of the allocator

    A client that holds the pages [held] and performs a sequence of calls; it frees
    only pages it holds. *)

Inductive alloc_op := OpAlloc | OpFree (p : Z).

Section Client.
Context {KS : KSyms} (alloc : K Z) (free : Z -> K unit).

Fixpoint run_ops (ops : list alloc_op) (held : list Z) : K (list Z) :=
  match ops with
  | [] => mret held
  | OpAlloc :: ops =>
      p ← alloc;
      run_ops ops (if p =? 0 then held else p :: held)
  | OpFree p :: ops =>
      if bool_decide (p ∈ held) then
        free p;; run_ops ops (filter (fun q => q <> p) held)
      else run_ops ops held
  end.

Context `{!PageAllocator alloc free} (Hpos : forall p, page_ok p -> p <> 0).

Lemma filter_ne_perm (p : Z) (l : list Z) :
  NoDup l -> p ∈ l -> p :: filter (fun q => q <> p) l ≡ₚ l.
Proof.
  induction l as [|x l IH]; intros Hnd Hin; [inversion Hin|].
  apply NoDup_cons in Hnd as [Hx Hnd].
  destruct (decide (x = p)) as [->|Hne].
  - rewrite filter_cons_False by (intros H; by apply H).
    f_equiv. clear IH Hin Hnd. induction l as [|y l IH]; [done|].
    apply not_elem_of_cons in Hx as [Hy Hx].
    rewrite filter_cons_True by congruence. f_equiv. by apply IH.
  - rewrite filter_cons_True by done.
    apply elem_of_cons in Hin as [->|Hin]; [done|].
    rewrite Permutation_swap. f_equiv. by apply IH.
Qed.

(** Whatever a client does, every call returns, and the pages it holds and the pages
    still available are together exactly the pages there were at the start. *)
Lemma run_ops_partition ops : forall held s env l,
  avail s l -> NoDup (held ++ l) -> Forall page_ok held -> LKmem ∉ k_held s ->
  exists held' s' l', run_ops ops held (mkWorld s env) = Ok held' (mkWorld s' env) /\
    avail s' l' /\ held' ++ l' ≡ₚ held ++ l.
Proof.
  induction ops as [|[|p] ops IH]; intros held s env l Hav Hnd Hok Hl; simpl.
  - by exists held, s, l.
  - destruct l as [|p l].
    + rewrite (run_bind alloc _ _ 0 (mkWorld s env)) by (by apply alloc_none).
      simpl. by apply IH.
    + destruct (alloc_some s env p l Hav Hl) as (s1 & Hr & Hav1 & Hmo & _).
      rewrite (run_bind alloc _ _ p (mkWorld s1 env)) by done.
      pose proof (avail_ok _ _ Hav) as [Hall _]. apply Forall_cons in Hall as [Hp _].
      rewrite (proj2 (Z.eqb_neq p 0)) by (by apply Hpos).
      destruct (IH (p :: held) s1 env l) as (held' & s' & l' & Hrun & Hav' & Hperm).
      * done.
      * simpl. by rewrite Permutation_middle.
      * by constructor.
      * by rewrite (mem_only_held _ _ Hmo).
      * exists held', s', l'. split; [done|]. split; [done|].
        rewrite Hperm. simpl. apply Permutation_middle.
  - case_bool_decide as Hin; [|by apply IH].
    assert (Hp : page_ok p) by (by eapply Forall_forall in Hok).
    apply NoDup_app in Hnd as (Hnd1 & Hdis & Hnd2).
    destruct (free_page s env p l Hav Hp (Hdis p Hin) Hl) as (s1 & Hr & Hav1 & Hmo & _).
    rewrite (run_bind (free p) _ _ tt (mkWorld s1 env)) by done.
    assert (Heq : filter (fun q => q <> p) held ++ p :: l ≡ₚ held ++ l).
    { rewrite <- Permutation_middle. rewrite app_comm_cons.
      by rewrite filter_ne_perm. }
    destruct (IH (filter (fun q => q <> p) held) s1 env (p :: l))
      as (held' & s' & l' & Hrun & Hav' & Hperm).
    + done.
    + rewrite Heq. by apply NoDup_app.
    + apply Forall_forall. intros q Hq. apply list_elem_of_filter in Hq as [_ Hq].
      by eapply Forall_forall in Hok.
    + by rewrite (mem_only_held _ _ Hmo).
    + exists held', s', l'. split; [done|]. split; [done|]. by rewrite Hperm.
Qed.

End Client.
