(* ===== verification/Vm.v ===== *)
(** * Page tables and user memory (kernel/vm.c)

    Sv39 page tables in RAM: a page-table page holds 512 little-endian 64-bit
    entries.  A function of vm.c that returns a pointer to an entry returns the
    entry's physical address here, 0 for NULL. *)

From stdpp Require Import base gmap list strings.
From Stdlib Require Import ZArith Lia.
From S2P Require Import Prelude Riscv Memory State Spinlock Kalloc.

Definition pgsize : nat := Z.to_nat PGSIZE.

(** Is any bit of [mask] set in [pte]? *)
Definition has (pte mask : Z) : bool := negb (Z.land pte mask =? 0).

(** The number of iterations of [for(a = lo; a < hi; a += PGSIZE)]. *)
Definition page_iters (lo hi : Z) : nat := Z.to_nat ((hi - lo + PGSIZE - 1) / PGSIZE).

Section Vm.
Context {KS : KSyms}.

(** The loop of [walk] from [level] down to 1. *)
Fixpoint walk_from (level : nat) (pagetable va : Z) (alloc : bool) : K Z :=
  match level with
  | O => mret (pagetable + 8 * PX 0 va)
  | S l =>
      let pte := pagetable + 8 * PX (Z.of_nat level) va in
      v ← ldM64 pte;
      if has v PTE_V then walk_from l (PTE2PA v) va alloc
      else if negb alloc then mret 0
      else
        pt ← kalloc;
        if pt =? 0 then mret 0
        else
          memM (fun m => memset m pt 0 pgsize);;
          stM64 pte (Z.lor (PA2PTE pt) PTE_V);;
          walk_from l pt va alloc
  end.

Definition walk (pagetable va : Z) (alloc : bool) : K Z :=
  if MAXVA <=? va then panic "walk" else walk_from 2 pagetable va alloc.

(** Look up a virtual address, return the physical address, or 0 if not mapped. *)
Definition walkaddr (pagetable va : Z) : K Z :=
  if MAXVA <=? va then mret 0 else
  pte ← walk pagetable va false;
  if pte =? 0 then mret 0 else
  v ← ldM64 pte;
  if negb (has v PTE_V) then mret 0
  else if negb (has v PTE_U) then mret 0
  else mret (PTE2PA v).

(** The [for(;;)] of [mappages], with [n] the number of pages after the current one. *)
Fixpoint mappages_from (n : nat) (pagetable a pa perm : Z) : K Z :=
  pte ← walk pagetable a true;
  if pte =? 0 then mret (-1) else
  v ← ldM64 pte;
  if has v PTE_V then panic "remap" else
  stM64 pte (Z.lor (Z.lor (PA2PTE pa) perm) PTE_V);;
  match n with
  | O => mret 0
  | S n => mappages_from n pagetable (u64 (a + PGSIZE)) (u64 (pa + PGSIZE)) perm
  end.

Definition mappages (pagetable va size pa perm : Z) : K Z :=
  let a := PGROUNDDOWN va in
  let last := PGROUNDDOWN (u64 (va + size - 1)) in
  mappages_from (Z.to_nat (u64 (last - a) / PGSIZE)) pagetable a pa perm.

Definition kvmmap (kpgtbl va pa sz perm : Z) : K unit :=
  r ← mappages kpgtbl va sz pa perm;
  if negb (r =? 0) then panic "kvmmap" else mret tt.

(** [proc_mapstacks] (proc.c): a page for each process's kernel stack. *)
Definition proc_mapstacks (kpgtbl : Z) : K unit :=
  for_each proc_slots (fun p =>
    pa ← kalloc;
    if pa =? 0 then panic "kalloc" else
    kvmmap kpgtbl (KSTACK (Z.of_nat p)) pa PGSIZE (Z.lor PTE_R PTE_W)).

Definition kvmmake : K Z :=
  kpgtbl ← kalloc;
  memM (fun m => memset m kpgtbl 0 pgsize);;
  kvmmap kpgtbl UART0 UART0 PGSIZE (Z.lor PTE_R PTE_W);;
  kvmmap kpgtbl VIRTIO0 VIRTIO0 PGSIZE (Z.lor PTE_R PTE_W);;
  kvmmap kpgtbl PLIC PLIC 0x400000 (Z.lor PTE_R PTE_W);;
  kvmmap kpgtbl KERNBASE KERNBASE (ksym_etext - KERNBASE) (Z.lor PTE_R PTE_X);;
  kvmmap kpgtbl ksym_etext ksym_etext (PHYSTOP - ksym_etext) (Z.lor PTE_R PTE_W);;
  kvmmap kpgtbl TRAMPOLINE ksym_trampoline PGSIZE (Z.lor PTE_R PTE_X);;
  proc_mapstacks kpgtbl;;
  mret kpgtbl.

Definition kvminit : K unit :=
  pt ← kvmmake; kmodify (set_k_kpgtbl pt).

Definition kvminithart : K unit :=
  pt ← kgets k_kpgtbl;
  kmodify (fun s => set_k_hw (set_r_satp (MAKE_SATP pt) (k_hw s)) s).

Definition uvmunmap (pagetable va npages : Z) (do_free : bool) : K unit :=
  if negb (va mod PGSIZE =? 0) then panic "uvmunmap: not aligned" else
  for_each (seq 0 (page_iters va (u64 (va + npages * PGSIZE)))) (fun i =>
    let a := va + Z.of_nat i * PGSIZE in
    pte ← walk pagetable a false;
    if pte =? 0 then panic "uvmunmap: walk" else
    v ← ldM64 pte;
    if negb (has v PTE_V) then panic "uvmunmap: not mapped"
    else if PTE_FLAGS v =? PTE_V then panic "uvmunmap: not a leaf"
    else
      when do_free (kfree (PTE2PA v));;
      stM64 pte 0).

Definition uvmcreate : K Z :=
  pagetable ← kalloc;
  if pagetable =? 0 then mret 0 else
  memM (fun m => memset m pagetable 0 pgsize);;
  mret pagetable.

Definition PTE_WRXU : Z := Z.lor (Z.lor (Z.lor PTE_W PTE_R) PTE_X) PTE_U.

(** Load the initcode into address 0 of pagetable. *)
Definition uvminit (pagetable : Z) (src : list Z) : K unit :=
  if PGSIZE <=? Z.of_nat (length src) then panic "inituvm: more than a page" else
  mem ← kalloc;
  memM (fun m => memset m mem 0 pgsize);;
  mappages pagetable 0 PGSIZE mem PTE_WRXU;;
  memM (fun m => st_bytes m mem src).

Definition uvmdealloc (pagetable oldsz newsz : Z) : K Z :=
  if oldsz <=? newsz then mret oldsz else
  when (PGROUNDUP newsz <? PGROUNDUP oldsz)
    (let npages := s32 ((PGROUNDUP oldsz - PGROUNDUP newsz) / PGSIZE) in
     uvmunmap pagetable (PGROUNDUP newsz) (u64 npages) true);;
  mret newsz.

(** The loop of [uvmalloc], over the pages from [oldsz] on; [Some 0] is the early
    return after an allocation failure. *)
Definition uvmalloc (pagetable oldsz newsz : Z) : K Z :=
  if newsz <? oldsz then mret oldsz else
  let oldsz := PGROUNDUP oldsz in
  r ← for_until (seq 0 (page_iters oldsz newsz)) (fun i =>
        let a := oldsz + Z.of_nat i * PGSIZE in
        mem ← kalloc;
        if mem =? 0 then
          uvmdealloc pagetable a oldsz;; mret (Some 0)
        else
          memM (fun m => memset m mem 0 pgsize);;
          r ← mappages pagetable a PGSIZE mem PTE_WRXU;
          if negb (r =? 0) then
            kfree mem;; uvmdealloc pagetable a oldsz;; mret (Some 0)
          else mret None);
  mret (default newsz r).

(** [freewalk] recurses from a page-table page to the tables it points to; [depth]
    is the number of levels below, and a table deeper than that is [Blocked]. *)
Fixpoint freewalk_at (depth : nat) (pagetable : Z) : K unit :=
  for_each (seq 0 512) (fun i =>
    let a := pagetable + 8 * Z.of_nat i in
    pte ← ldM64 a;
    if has pte PTE_V && negb (has pte (Z.lor (Z.lor PTE_R PTE_W) PTE_X)) then
      (match depth with
       | O => block
       | S d => freewalk_at d (PTE2PA pte)
       end);;
      stM64 a 0
    else if has pte PTE_V then panic "freewalk: leaf"
    else mret tt);;
  kfree pagetable.

(** Sv39 tables have three levels. *)
Definition freewalk (pagetable : Z) : K unit := freewalk_at 2 pagetable.

Definition uvmfree (pagetable sz : Z) : K unit :=
  when (0 <? sz) (uvmunmap pagetable 0 (PGROUNDUP sz / PGSIZE) true);;
  freewalk pagetable.

(** Copy a parent's memory into a child's page table. *)
Definition uvmcopy (old new sz : Z) : K Z :=
  r ← for_until (seq 0 (page_iters 0 sz)) (fun n =>
        let i := Z.of_nat n * PGSIZE in
        pte ← walk old i false;
        if pte =? 0 then panic "uvmcopy: pte should exist" else
        v ← ldM64 pte;
        if negb (has v PTE_V) then panic "uvmcopy: page not present" else
        mem ← kalloc;
        if mem =? 0 then
          uvmunmap new 0 (i / PGSIZE) true;; mret (Some (-1))
        else
          memM (fun m => memmove m mem (PTE2PA v) pgsize);;
          r ← mappages new i PGSIZE mem (PTE_FLAGS v);
          if negb (r =? 0) then
            kfree mem;; uvmunmap new 0 (i / PGSIZE) true;; mret (Some (-1))
          else mret None);
  mret (default 0 r).

(** Mark a PTE invalid for user access. *)
Definition uvmclear (pagetable va : Z) : K unit :=
  pte ← walk pagetable va false;
  if pte =? 0 then panic "uvmclear" else
  v ← ldM64 pte;
  stM64 pte (Z.land v (Z.lnot PTE_U)).

(** ** Copying between the kernel and user space

    A kernel buffer is the list of its bytes.  Every iteration of the copy loops moves
    at least one byte, so the number of bytes is enough fuel. *)

Fixpoint copyout_fuel (fuel : nat) (pagetable dstva : Z) (src : list Z) : K Z :=
  match src with
  | [] => mret 0
  | _ =>
      match fuel with
      | O => block
      | S fuel =>
          let va0 := PGROUNDDOWN dstva in
          pa0 ← walkaddr pagetable va0;
          if pa0 =? 0 then mret (-1) else
          let n := Z.to_nat (Z.min (PGSIZE - (dstva - va0)) (Z.of_nat (length src))) in
          memM (fun m => st_bytes m (pa0 + (dstva - va0)) (take n src));;
          copyout_fuel fuel pagetable (u64 (va0 + PGSIZE)) (drop n src)
      end
  end.

(** Copy the bytes [src] to virtual address [dstva]; 0 on success, -1 on error. *)
Definition copyout (pagetable dstva : Z) (src : list Z) : K Z :=
  copyout_fuel (length src) pagetable dstva src.

Fixpoint copyin_fuel (fuel : nat) (pagetable srcva : Z) (len : nat) : K (Z * list Z) :=
  match len with
  | O => mret (0, [])
  | _ =>
      match fuel with
      | O => block
      | S fuel =>
          let va0 := PGROUNDDOWN srcva in
          pa0 ← walkaddr pagetable va0;
          if pa0 =? 0 then mret (-1, []) else
          let n := Z.to_nat (Z.min (PGSIZE - (srcva - va0)) (Z.of_nat len)) in
          bs ← kgets (fun s => ld_bytes (k_mem s) (pa0 + (srcva - va0)) n);
          r ← copyin_fuel fuel pagetable (u64 (va0 + PGSIZE)) (len - n);
          mret (r.1, bs ++ r.2)
      end
  end.

(** Copy [len] bytes from virtual address [srcva]: the result and the bytes that
    reached the kernel buffer. *)
Definition copyin (pagetable srcva : Z) (len : nat) : K (Z * list Z) :=
  copyin_fuel len pagetable srcva len.

(** The inner loop of [copyinstr]: up to [n] bytes at [p], stopping at a NUL. *)
Fixpoint copyinstr_page (m : mem) (p : Z) (n : nat) : list Z * bool :=
  match n with
  | O => ([], false)
  | S n =>
      if ld8 m p =? 0 then ([0], true)
      else let '(bs, got) := copyinstr_page m (p + 1) n in (ld8 m p :: bs, got)
  end.

Fixpoint copyinstr_fuel (fuel : nat) (pagetable srcva : Z) (max : nat) : K (Z * list Z) :=
  match max with
  | O => mret (-1, [])
  | _ =>
      match fuel with
      | O => block
      | S fuel =>
          let va0 := PGROUNDDOWN srcva in
          pa0 ← walkaddr pagetable va0;
          if pa0 =? 0 then mret (-1, []) else
          let n := Z.to_nat (Z.min (PGSIZE - (srcva - va0)) (Z.of_nat max)) in
          bg ← kgets (fun s => copyinstr_page (k_mem s) (pa0 + (srcva - va0)) n);
          if (bg : list Z * bool).2 then mret (0, bg.1)
          else
            r ← copyinstr_fuel fuel pagetable (u64 (va0 + PGSIZE)) (max - n);
            mret (r.1, bg.1 ++ r.2)
      end
  end.

(** Copy a NUL-terminated string from [srcva], at most [max] bytes. *)
Definition copyinstr (pagetable srcva : Z) (max : nat) : K (Z * list Z) :=
  copyinstr_fuel max pagetable srcva max.

End Vm.
