(* ===== verification/PageTable.v ===== *)
(** * The page-table invariant and the correctness of vm.c

    [pt_inv m own]: every physical page with an owner in [own] is a table page of some
    root, at a level and for a range of virtual addresses, or a user page of some root
    at a virtual page number; every valid entry of an inner table page points to the
    table page of the range below it, and every valid user-accessible entry of a leaf
    table points to the user page of that root and page number.  A page has one owner,
    so two address spaces share no user-accessible page, and no user-accessible page is
    a page table. *)

From stdpp Require Import base gmap list strings.
From Stdlib Require Import ZArith Lia.
From S2P Require Import Prelude Riscv Memory State Spinlock Kalloc Vm.

(** ** Entry arithmetic *)

Lemma lor_low (x y k : Z) : 0 <= k -> 0 <= y < 2 ^ k -> Z.lor (x * 2 ^ k) y = x * 2 ^ k + y.
Proof.
  intros Hk Hy. rewrite <- Z.shiftl_mul_pow2 by done.
  symmetry. apply Z.add_nocarry_lor. apply Z.bits_inj'. intros i Hi.
  rewrite Z.land_spec, Z.bits_0, Z.shiftl_spec by done.
  destruct (Z.lt_ge_cases i k) as [Hlt|Hge].
  - by rewrite Z.testbit_neg_r by lia.
  - rewrite andb_comm. destruct (decide (y = 0)) as [->|Hne]; [by rewrite Z.bits_0|].
    rewrite (Z.bits_above_log2 y i); [done|lia|]. apply Z.lt_le_trans with k; [|done].
    apply Z.log2_lt_pow2; lia.
Qed.

Lemma has_pow2 (v k : Z) : 0 <= k -> has v (2 ^ k) = Z.testbit v k.
Proof.
  intros Hk. unfold has. destruct (Z.testbit v k) eqn:Hb.
  - rewrite (proj2 (Z.eqb_neq _ 0)); [done|]. intros H.
    apply (f_equal (fun x => Z.testbit x k)) in H.
    rewrite Z.land_spec, Hb, Z.pow2_bits_true, Z.bits_0 in H by done. done.
  - rewrite (proj2 (Z.eqb_eq _ 0)); [done|]. apply Z.bits_inj'. intros i Hi.
    rewrite Z.land_spec, Z.bits_0, Z.pow2_bits_eqb by done.
    destruct (Z.eqb_spec k i); [subst; by rewrite Hb|apply andb_false_r].
Qed.

Lemma has_V v : has v PTE_V = Z.testbit v 0.
Proof. apply (has_pow2 v 0). lia. Qed.
Lemma has_U v : has v PTE_U = Z.testbit v 4.
Proof. apply (has_pow2 v 4). lia. Qed.

Lemma has_0 mask : has 0 mask = false.
Proof. reflexivity. Qed.

(** The entry [mappages] writes: address [pa], flags [perm] and PTE_V. *)
Definition mk_pte (pa perm : Z) : Z := Z.lor (Z.lor (PA2PTE pa) perm) PTE_V.

Section MkPte.
Context (pa perm : Z) (Hpa : 0 <= pa < 2 ^ 56) (Hal : pa mod PGSIZE = 0)
  (Hperm : 0 <= perm < 1024).

Lemma flags_range : 0 <= Z.lor perm PTE_V < 1024.
Proof.
  change PTE_V with 1.
  assert (0 <= Z.lor perm 1) by (apply Z.lor_nonneg; lia). split; [done|].
  destruct (decide (Z.lor perm 1 = 0)) as [->|Hne]; [lia|].
  change 1024 with (2 ^ 10). apply Z.log2_lt_pow2; [lia|].
  rewrite Z.log2_lor by lia. change (Z.log2 1) with 0.
  destruct (decide (perm = 0)) as [->|Hp]; [cbn; lia|].
  rewrite Z.max_l by apply Z.log2_nonneg. apply Z.log2_lt_pow2; lia.
Qed.

Lemma mk_pte_val : mk_pte pa perm = pa / 4096 * 1024 + Z.lor perm PTE_V.
Proof.
  unfold mk_pte. rewrite PA2PTE_div by lia. rewrite <- Z.lor_assoc.
  change 1024 with (2 ^ 10) at 1. rewrite lor_low; [done|lia|].
  change (2 ^ 10) with 1024. apply flags_range.
Qed.

Lemma mk_pte_range : 0 <= mk_pte pa perm < 2 ^ 54.
Proof.
  rewrite mk_pte_val. pose proof flags_range.
  assert (0 <= pa / 4096 < 2 ^ 44).
  { split; [apply Z.div_pos; lia|]. apply Z.div_lt_upper_bound; [lia|].
    change (4096 * 2 ^ 44) with (2 ^ 56). lia. }
  change (2 ^ 54) with (2 ^ 44 * 1024). nia.
Qed.

Lemma mk_pte_u64 : u64 (mk_pte pa perm) = mk_pte pa perm.
Proof. unfold u64. pose proof mk_pte_range. apply Z.mod_small. lia. Qed.

Lemma PTE2PA_mk_pte : PTE2PA (mk_pte pa perm) = pa.
Proof.
  rewrite PTE2PA_div by apply mk_pte_range. rewrite mk_pte_val.
  pose proof flags_range. rewrite Z.div_add_l by lia.
  rewrite (Z.div_small (Z.lor perm PTE_V)) by lia.
  unfold PGSIZE in Hal. pose proof (Z.div_mod pa 4096). lia.
Qed.

Lemma mk_pte_bit k : 0 <= k < 10 -> Z.testbit (mk_pte pa perm) k = Z.testbit (Z.lor perm PTE_V) k.
Proof.
  intros Hk. unfold mk_pte. rewrite <- Z.lor_assoc, Z.lor_spec, PA2PTE_div by lia.
  change 1024 with (2 ^ 10). rewrite Z.mul_pow2_bits_low by lia. done.
Qed.

Lemma has_V_mk_pte : has (mk_pte pa perm) PTE_V = true.
Proof. rewrite has_V, mk_pte_bit, Z.lor_spec by lia. apply orb_true_r. Qed.

Lemma has_U_mk_pte : has (mk_pte pa perm) PTE_U = has perm PTE_U.
Proof.
  rewrite !has_U, mk_pte_bit, Z.lor_spec by lia.
  change (Z.testbit PTE_V 4) with false. apply orb_false_r.
Qed.

Lemma PTE_FLAGS_mk_pte : PTE_FLAGS (mk_pte pa perm) = Z.lor perm PTE_V.
Proof.
  unfold PTE_FLAGS. rewrite mk_pte_val. change 0x3FF with (Z.ones 10).
  rewrite Z.land_ones by lia. change (2 ^ 10) with 1024.
  rewrite Z.add_comm, Z.mod_add by lia. apply Z.mod_small, flags_range.
Qed.

Lemma has_RWX_mk_pte :
  has (mk_pte pa perm) (Z.lor (Z.lor PTE_R PTE_W) PTE_X)
  = has perm (Z.lor (Z.lor PTE_R PTE_W) PTE_X).
Proof.
  unfold has. f_equal. f_equal. apply Z.bits_inj'. intros i Hi. rewrite !Z.land_spec.
  change (Z.lor (Z.lor PTE_R PTE_W) PTE_X) with 14.
  destruct (decide (i < 10)).
  - rewrite mk_pte_bit, Z.lor_spec by lia.
    destruct (decide (i = 0)) as [->|]; [by rewrite !andb_false_r|].
    assert (Z.testbit PTE_V i = false) as ->.
    { change PTE_V with (2 ^ 0). apply Z.pow2_bits_false. lia. }
    by rewrite orb_false_r.
  - rewrite (Z.bits_above_log2 14 i); [by rewrite !andb_false_r|lia|cbn; lia].
Qed.

End MkPte.

(** ** The table walk as a function of memory *)

(** The address of the entry a walk without allocation ends at, 0 if it stops early. *)
Fixpoint walk_addr (m : mem) (level : nat) (pt va : Z) : Z :=
  match level with
  | O => pt + 8 * PX 0 va
  | S l =>
      let v := ld64 m (pt + 8 * PX (Z.of_nat level) va) in
      if has v PTE_V then walk_addr m l (PTE2PA v) va else 0
  end.

(** The leaf entry for [va]; 0, which is invalid, if there is no leaf table. *)
Fixpoint pte_at (m : mem) (level : nat) (pt va : Z) : Z :=
  match level with
  | O => ld64 m (pt + 8 * PX 0 va)
  | S l =>
      let v := ld64 m (pt + 8 * PX (Z.of_nat level) va) in
      if has v PTE_V then pte_at m l (PTE2PA v) va else 0
  end.
Definition pte_of (m : mem) (root va : Z) : Z := pte_at m 2 root va.

Lemma pte_at_range m va : forall l pt, 0 <= pte_at m l pt va < 2 ^ 64.
Proof.
  induction l as [|l IH]; intros pt; cbn [pte_at]; cbv zeta; [apply ld64_range|].
  destruct (has _ PTE_V); [apply IH|lia].
Qed.

(** The physical address user code reaches at [va], [None] where it faults: the walk through
    the three levels of tables that the kernel builds, whose inner entries are never leaves
    and whose user pages have all permissions.  That the hardware's translation, with its
    permissions and superpages, gives the same is proved in Isolation.v. *)
Definition translate (m : mem) (root va : Z) : option Z :=
  if MAXVA <=? va then None else
  let v := pte_of m root va in
  if has v PTE_V && has v PTE_U then Some (PTE2PA v + va mod PGSIZE) else None.

(** The byte user code reads at [va]. *)
Definition user_byte (m : mem) (root va : Z) : option Z := ld8 m <$> translate m root va.

(** ** Ownership *)

Inductive owner :=
| OTable (root : Z) (level : nat) (prefix : Z)
| OUser (root vpn : Z).

#[export] Instance owner_eq_dec : EqDecision owner.
Proof. solve_decision. Defined.

(** The range of virtual addresses a table page at [level] covers. *)
Definition prefix (level : nat) (va : Z) : Z := va / 2 ^ (21 + 9 * Z.of_nat level).

Definition RWX : Z := Z.lor (Z.lor PTE_R PTE_W) PTE_X.

Record pt_inv {KS : KSyms} (m : mem) (own : gmap Z owner) : Prop := {
  pi_page p o : own !! p = Some o -> page_ok p;
  (* a valid entry of an inner table points to the table of the range below it *)
  pi_node p r l pre i :
    own !! p = Some (OTable r (S l) pre) -> 0 <= i < 512 ->
    has (ld64 m (p + 8 * i)) PTE_V = true ->
    own !! PTE2PA (ld64 m (p + 8 * i)) = Some (OTable r l (pre * 512 + i)) /\
    has (ld64 m (p + 8 * i)) RWX = false;
  (* a valid entry of a leaf table is a leaf; user code reaches user pages only *)
  pi_leaf p r pre i :
    own !! p = Some (OTable r 0 pre) -> 0 <= i < 512 ->
    has (ld64 m (p + 8 * i)) PTE_V = true ->
    has (ld64 m (p + 8 * i)) RWX = true /\
    (has (ld64 m (p + 8 * i)) PTE_U = true ->
     own !! PTE2PA (ld64 m (p + 8 * i)) = Some (OUser r (pre * 512 + i)));
  (* every table page is a root or hangs below its parent *)
  pi_table q r l pre :
    own !! q = Some (OTable r l pre) ->
    (l = 2%nat /\ q = r /\ pre = 0) \/
    ((l < 2)%nat /\ exists p, own !! p = Some (OTable r (S l) (pre / 512)) /\
       has (ld64 m (p + 8 * (pre mod 512))) PTE_V = true /\
       PTE2PA (ld64 m (p + 8 * (pre mod 512))) = q);
  (* every user page is mapped *)
  pi_user q r vpn :
    own !! q = Some (OUser r vpn) ->
    exists p, own !! p = Some (OTable r 0 (vpn / 512)) /\
      has (ld64 m (p + 8 * (vpn mod 512))) PTE_V = true /\
      PTE2PA (ld64 m (p + 8 * (vpn mod 512))) = q;
  (* the tables stay below MAXVA *)
  pi_low q r pre : own !! q = Some (OTable r 0 pre) -> 0 <= pre < 2 ^ 17
}.

Definition root_of (o : owner) : Z :=
  match o with OTable r _ _ => r | OUser r _ => r end.

(** [r] is the root of an address space. *)
Definition is_root (own : gmap Z owner) (r : Z) : Prop := own !! r = Some (OTable r 2 0).

Lemma prefix_2 va : 0 <= va < MAXVA -> prefix 2 va = 0.
Proof.
  intros H. unfold prefix. apply Z.div_small.
  change (21 + 9 * Z.of_nat 2) with 39. change MAXVA with (2 ^ 38) in H. lia.
Qed.

Lemma prefix_S level va :
  prefix (S level) va * 512 + PX (Z.of_nat (S level)) va = prefix level va.
Proof.
  unfold prefix. rewrite PX_div by lia.
  replace (21 + 9 * Z.of_nat (S level)) with ((21 + 9 * Z.of_nat level) + 9) by lia.
  replace (12 + 9 * Z.of_nat (S level)) with (21 + 9 * Z.of_nat level) by lia.
  rewrite Z.pow_add_r by lia. change (2 ^ 9) with 512.
  assert (Hp : 0 < 2 ^ (21 + 9 * Z.of_nat level)) by (apply Z.pow_pos_nonneg; lia).
  rewrite <- Z.div_div by lia. symmetry.
  rewrite (Z.mul_comm (_ / 512)). apply Z.div_mod. lia.
Qed.

(** The leaf table and the index in it determine the page. *)
Lemma prefix_0 va : prefix 0 va * 512 + PX 0 va = va / PGSIZE.
Proof.
  unfold prefix. rewrite PX_div by lia.
  change (21 + 9 * Z.of_nat 0) with 21. change (12 + 9 * 0) with 12.
  change (2 ^ 21) with (4096 * 512). change (2 ^ 12) with 4096. unfold PGSIZE.
  rewrite <- Z.div_div by lia. symmetry.
  rewrite (Z.mul_comm (_ / 512)). apply Z.div_mod. lia.
Qed.

Lemma prefix_low va : 0 <= va < MAXVA -> 0 <= prefix 0 va < 2 ^ 17.
Proof.
  intros H. unfold prefix. change (21 + 9 * Z.of_nat 0) with 21. change MAXVA with (2 ^ 38) in H.
  split; [apply Z.div_pos; lia|]. apply Z.div_lt_upper_bound; lia.
Qed.

Section Inv.
Context {KS : KSyms} (Hks : ksyms_ok KS).

Lemma entry_off i : 0 <= i < 512 -> 0 <= 8 * i /\ 8 * i + 8 <= PGSIZE.
Proof. unfold PGSIZE. lia. Qed.

(** Two entries of table pages are the same or do not overlap. *)
Lemma ld64_entry_ne m p i q j v :
  p mod PGSIZE = 0 -> q mod PGSIZE = 0 -> 0 <= i < 512 -> 0 <= j < 512 ->
  p <> q \/ i <> j -> ld64 (st64 m (p + 8 * i) v) (q + 8 * j) = ld64 m (q + 8 * j).
Proof.
  intros Hp Hq Hi Hj Hne. apply ld64_st64_ne. unfold PGSIZE in *.
  destruct (decide (p = q)) as [->|Hpq]; [lia|].
  destruct (page_apart p q Hp Hq Hpq); unfold PGSIZE in *; lia.
Qed.

Lemma pi_aligned m own p o : pt_inv m own -> own !! p = Some o -> p mod PGSIZE = 0.
Proof. intros Hi Ho. by apply (pi_page _ _ Hi) in Ho as []. Qed.

(** A walk from a table page stays in the tables of the same root, and reaches the
    leaf table that covers [va]. *)
Lemma walk_addr_leaf m own r va : pt_inv m own -> forall l pt,
  own !! pt = Some (OTable r l (prefix l va)) ->
  (walk_addr m l pt va = 0 /\ pte_at m l pt va = 0) \/
  exists p, own !! p = Some (OTable r 0 (prefix 0 va)) /\
    walk_addr m l pt va = p + 8 * PX 0 va /\ pte_at m l pt va = ld64 m (p + 8 * PX 0 va).
Proof.
  intros Hi. induction l as [|l IH]; intros pt Ho; simpl.
  - right. by exists pt.
  - destruct (has _ PTE_V) eqn:Hv; [|by left]. apply IH.
    destruct (pi_node _ _ Hi _ _ _ _ _ Ho (PX_bound _ va (Zle_0_nat _)) Hv) as [Hc _].
    by rewrite prefix_S in Hc.
Qed.

(** Reading the tables only depends on the table pages. *)
Lemma pte_at_frame m m' own r va : pt_inv m own ->
  (forall p r l pre, own !! p = Some (OTable r l pre) -> same_page m m' p) ->
  forall l pt, own !! pt = Some (OTable r l (prefix l va)) ->
  pte_at m' l pt va = pte_at m l pt va.
Proof.
  intros Hi Hs. induction l as [|l IH]; intros pt Ho; simpl.
  - apply same_page_ld64; [by eapply Hs|..];
      pose proof (entry_off _ (PX_bound 0 va ltac:(lia))); lia.
  - pose proof (PX_bound (Z.of_nat (S l)) va ltac:(lia)) as Hb.
    rewrite (same_page_ld64 m m') by first [by eapply Hs | pose proof (entry_off _ Hb); lia].
    destruct (has _ PTE_V) eqn:Hv; [|done]. apply IH.
    destruct (pi_node _ _ Hi _ _ _ _ _ Ho Hb Hv) as [Hc _]. by rewrite prefix_S in Hc.
Qed.

Lemma mod512 (x : Z) : 0 <= x mod 512 < 512.
Proof. apply Z.mod_pos_bound. lia. Qed.

Lemma idx_div pre i : 0 <= i < 512 -> (pre * 512 + i) / 512 = pre.
Proof. intros H. rewrite Z.div_add_l by lia. rewrite Z.div_small by lia. lia. Qed.
Lemma idx_mod pre i : 0 <= i < 512 -> (pre * 512 + i) mod 512 = i.
Proof. intros H. rewrite Z.add_comm, Z.mod_add by lia. by apply Z.mod_small. Qed.

Lemma same_entry m m' p i :
  same_page m m' p -> 0 <= i < 512 -> ld64 m' (p + 8 * i) = ld64 m (p + 8 * i).
Proof. intros H Hi. pose proof (entry_off i Hi). apply same_page_ld64; [done|lia..]. Qed.

Lemma pt_inv_frame m m' own :
  (forall p r l pre, own !! p = Some (OTable r l pre) -> same_page m m' p) ->
  pt_inv m own -> pt_inv m' own.
Proof.
  intros Hs [H1 H2 H3 H4 H5 H6]. split; [done|..|done].
  - intros p r l pre i Ho Hi. rewrite (same_entry m m') by (done || by eapply Hs). by apply H2.
  - intros p r pre i Ho Hi. rewrite (same_entry m m') by (done || by eapply Hs). by apply H3.
  - intros q r l pre Hq. destruct (H4 _ _ _ _ Hq) as [?|(Hl & p & Hp & H)]; [by left|right].
    split; [done|]. exists p. rewrite (same_entry m m') by (apply mod512 || by eapply Hs). done.
  - intros q r vpn Hq. destruct (H5 _ _ _ Hq) as (p & Hp & H).
    exists p. rewrite (same_entry m m') by (apply mod512 || by eapply Hs). done.
Qed.

(** A range of virtual addresses has one table page. *)
Lemma table_unique m own r : pt_inv m own -> forall k l pre p q, (2 - l = k)%nat ->
  own !! p = Some (OTable r l pre) -> own !! q = Some (OTable r l pre) -> p = q.
Proof.
  intros Hinv. induction k as [|k IH]; intros l pre p q Hk Hp Hq;
    destruct (pi_table _ _ Hinv _ _ _ _ Hp) as [(-> & -> & ->)|(Hl & p' & Hp' & Hv & <-)];
    destruct (pi_table _ _ Hinv _ _ _ _ Hq) as [(? & -> & ?)|(Hl' & q' & Hq' & Hv' & <-)];
    try lia; try done.
  assert (p' = q') as ->; [|done]. eapply IH; [|done|done]. lia.
Qed.

(** The owners change from [own] to [own'] when the entry for page [vpn] of [r]
    becomes [v]: in the user page of [vpn] only. *)
Record leaf_change (own own' : gmap Z owner) (r vpn v : Z) : Prop := {
  lc_tab x r' l pre : own' !! x = Some (OTable r' l pre) <-> own !! x = Some (OTable r' l pre);
  lc_ok x o : own' !! x = Some o -> page_ok x;
  lc_v : has v PTE_V = true -> has v RWX = true /\
    (has v PTE_U = true -> own' !! PTE2PA v = Some (OUser r vpn));
  lc_user q r' vpn' : own' !! q = Some (OUser r' vpn') ->
    (r' = r /\ vpn' = vpn /\ has v PTE_V = true /\ PTE2PA v = q) \/
    ((r' <> r \/ vpn' <> vpn) /\ own !! q = Some (OUser r' vpn'));
  lc_keep q r' vpn' : own !! q = Some (OUser r' vpn') -> r' <> r \/ vpn' <> vpn ->
    own' !! q = Some (OUser r' vpn')
}.

(** Writing one entry [v] of a leaf table. *)
Lemma pt_inv_leaf m own own' p r pre i v :
  pt_inv m own -> own !! p = Some (OTable r 0 pre) -> 0 <= i < 512 -> u64 v = v ->
  leaf_change own own' r (pre * 512 + i) v -> pt_inv (st64 m (p + 8 * i) v) own'.
Proof.
  intros Hinv Hp Hi Hu [Htab Hok Hv Huser Hkeep]. set (vpn := pre * 512 + i) in *.
  assert (Hinner : forall x r' l pre' j, own !! x = Some (OTable r' (S l) pre') -> 0 <= j < 512 ->
    ld64 (st64 m (p + 8 * i) v) (x + 8 * j) = ld64 m (x + 8 * j)).
  { intros x r' l pre' j Hx Hj. apply ld64_entry_ne; try done; [by eapply pi_aligned..|].
    left. congruence. }
  assert (Hother : forall x r' pre' j, own !! x = Some (OTable r' 0 pre') -> 0 <= j < 512 ->
    r' <> r \/ pre' * 512 + j <> vpn ->
    ld64 (st64 m (p + 8 * i) v) (x + 8 * j) = ld64 m (x + 8 * j)).
  { intros x r' pre' j Hx Hj Hne. apply ld64_entry_ne; try done; [by eapply pi_aligned..|].
    destruct (decide (p = x)) as [<-|]; [right|by left]. rewrite Hp in Hx.
    injection Hx as <- <-. unfold vpn in Hne. lia. }
  split; [done|..].
  - intros x r' l pre' j Hx Hj HV. apply Htab in Hx.
    rewrite (Hinner _ _ _ _ _ Hx Hj) in HV |- *.
    destruct (pi_node _ _ Hinv _ _ _ _ _ Hx Hj HV) as [Hc Hf]. split; [|done]. by apply Htab.
  - intros x r' pre' j Hx Hj. apply Htab in Hx.
    destruct (decide (x = p /\ j = i)) as [[-> ->]|Hne].
    + rewrite Hp in Hx. injection Hx as <- <-. rewrite ld64_st64_eq, Hu. apply Hv.
    + assert (Hd : r' <> r \/ pre' * 512 + j <> vpn).
      { destruct (decide (r' = r)) as [->|]; [right|by left]. intros He. apply Hne. unfold vpn in He.
        assert (pre' = pre /\ j = i) as [-> ->] by lia.
        split; [|done]. eapply (table_unique _ _ r Hinv 2 0); done. }
      rewrite (Hother _ _ _ _ Hx Hj Hd). intros HV.
      destruct (pi_leaf _ _ Hinv _ _ _ _ Hx Hj HV) as [Hf HU]. split; [done|]. intros H.
      apply Hkeep; [by apply HU|done].
  - intros q r' l pre' Hq. apply Htab in Hq.
    destruct (pi_table _ _ Hinv _ _ _ _ Hq) as [?|(Hl & x & Hx & H)]; [by left|right].
    split; [done|]. exists x. rewrite (Hinner _ _ _ _ _ Hx (mod512 _)). by rewrite Htab.
  - intros q r' vpn' Hq. destruct (Huser _ _ _ Hq) as [(-> & -> & HV & Hpa)|[Hne Hq']].
    + exists p. unfold vpn. rewrite idx_div, idx_mod by done. rewrite Htab, ld64_st64_eq, Hu. done.
    + destruct (pi_user _ _ Hinv _ _ _ Hq') as (x & Hx & H). exists x.
      rewrite (Hother _ _ _ _ Hx (mod512 _)); [by rewrite Htab|].
      destruct Hne; [by left|right].
      rewrite (Z.mul_comm _ 512), <- Z.div_mod by lia. done.
  - intros q r' pre' Hq. apply Htab in Hq. by eapply (pi_low _ _ Hinv).
Qed.

End Inv.

(** ** Walks that allocate *)

Section Walk.
Context {KS : KSyms} (Hks : ksyms_ok KS) `{PA : !PageAllocator kalloc kfree}.

(** The invariant of the whole memory system: page tables, user pages, and the pages
    [fl] still available, which nobody owns. *)
Record vm_ok (s : kst) (own : gmap Z owner) (fl : list Z) : Prop := {
  vo_inv : pt_inv (k_mem s) own;
  vo_avail : avail s fl;
  vo_free p : p ∈ fl -> own !! p = None;
  vo_lock : LKmem ∉ k_held s
}.

(** What adding table pages to root [r] leaves alone: every valid inner entry, and
    every page that is neither a table nor free.  The new owners are table pages, taken
    from the free pages, and user pages, which satisfy [U]. *)
Record grows (r : Z) (U : Z -> Prop) (s : kst) (own : gmap Z owner) (fl : list Z)
    (s' : kst) (own' : gmap Z owner) (fl' : list Z) : Prop := {
  gr_ok : vm_ok s' own' fl';
  gr_mem : mem_only s s';
  gr_sub : own ⊆ own';
  gr_new p o : own' !! p = Some o -> own !! p = None ->
    (p ∈ fl /\ exists l pre, o = OTable r l pre) \/ (U p /\ exists vpn, o = OUser r vpn);
  gr_fl : exists used, fl = used ++ fl';
  gr_keep p r' l pre i : own !! p = Some (OTable r' (S l) pre) -> 0 <= i < 512 ->
    has (ld64 (k_mem s) (p + 8 * i)) PTE_V = true ->
    ld64 (k_mem s') (p + 8 * i) = ld64 (k_mem s) (p + 8 * i);
  gr_same p : p mod PGSIZE = 0 -> p ∉ fl ->
    (forall r' l pre, own !! p <> Some (OTable r' l pre)) ->
    same_page (k_mem s) (k_mem s') p;
  gr_all p : p ∈ fl -> p ∈ fl' \/ is_Some (own' !! p)
}.
#[global] Arguments gr_ok {_ _ _ _ _ _ _ _} _.
#[global] Arguments gr_mem {_ _ _ _ _ _ _ _} _.
#[global] Arguments gr_sub {_ _ _ _ _ _ _ _} _.
#[global] Arguments gr_new {_ _ _ _ _ _ _ _} _.
#[global] Arguments gr_fl {_ _ _ _ _ _ _ _} _.
#[global] Arguments gr_keep {_ _ _ _ _ _ _ _} _.
#[global] Arguments gr_same {_ _ _ _ _ _ _ _} _.
#[global] Arguments gr_all {_ _ _ _ _ _ _ _} _.

(** Every translation that the tables of [own] define is unchanged. *)
Definition same_pte (s : kst) (own : gmap Z owner) (s' : kst) : Prop :=
  forall r' va l pt, own !! pt = Some (OTable r' l (prefix l va)) ->
  pte_at (k_mem s') l pt va = pte_at (k_mem s) l pt va.

Definition extends (r : Z) (s : kst) (own : gmap Z owner) (fl : list Z)
    (s' : kst) (own' : gmap Z owner) (fl' : list Z) : Prop :=
  grows r (fun _ => False) s own fl s' own' fl' /\ same_pte s own s'.

Lemma grows_refl r U s own fl : vm_ok s own fl -> grows r U s own fl s own fl.
Proof.
  intros H. split; try done.
  - intros p o H1 H2. congruence.
  - by exists [].
  - by left.
Qed.

Lemma extends_refl r s own fl : vm_ok s own fl -> extends r s own fl s own fl.
Proof. intros H. split; [by apply grows_refl|by intros r' va l pt _]. Qed.

Lemma grows_mono r (U U' : Z -> Prop) s own fl s' own' fl' :
  (forall p, U p -> U' p) -> grows r U s own fl s' own' fl' -> grows r U' s own fl s' own' fl'.
Proof.
  intros HU [H1 H2 H3 H4 H5 H6 H7 H8]. split; try done.
  intros p o Ho Hn. destruct (H4 p o Ho Hn) as [?|[? ?]]; [by left|right; auto].
Qed.

Lemma grows_trans r U s1 o1 f1 s2 o2 f2 s3 o3 f3 :
  grows r U s1 o1 f1 s2 o2 f2 -> grows r U s2 o2 f2 s3 o3 f3 -> grows r U s1 o1 f1 s3 o3 f3.
Proof.
  intros A B. pose proof (gr_sub A) as Hsub.
  destruct (gr_fl A) as [u1 Hu1], (gr_fl B) as [u2 Hu2]. split.
  - apply B.
  - eapply mem_only_trans; [apply A|apply B].
  - etrans; [done|apply B].
  - intros p o Ho Hn. destruct (o2 !! p) as [o'|] eqn:H2.
    + assert (o = o') as ->.
      { apply (lookup_weaken _ o3) in H2; [congruence|apply B]. }
      by apply (gr_new A).
    + destruct (gr_new B p o Ho H2) as [[Hf Ht]|?]; [left; split; [|done]|by right].
      rewrite Hu1. apply elem_of_app. by right.
  - exists (u1 ++ u2). rewrite <- app_assoc. congruence.
  - intros p r' l pre i Ho Hi Hv.
    pose proof (gr_keep A _ _ _ _ _ Ho Hi Hv) as Hk. rewrite <- Hk.
    eapply (gr_keep B); [by eapply lookup_weaken|done|by rewrite Hk].
  - intros p Hal Hni Hnt. eapply same_page_trans; [by apply A|]. apply B; [done|..].
    + intros Hin. apply Hni. rewrite Hu1. apply elem_of_app. by right.
    + intros r' l pre Ho. destruct (o1 !! p) as [o|] eqn:H1.
      * eapply lookup_weaken in H1; [|exact Hsub]. rewrite Ho in H1. injection H1 as <-.
        by eapply Hnt.
      * destruct (gr_new A p _ Ho H1) as [[? _]|[_ [vpn ?]]]; done.
  - intros p Hp. destruct (gr_all A p Hp) as [Hin|[o Ho]]; [by apply (gr_all B)|right].
    exists o. eapply lookup_weaken; [done|apply B].
Qed.

Lemma extends_trans r s1 o1 f1 s2 o2 f2 s3 o3 f3 :
  extends r s1 o1 f1 s2 o2 f2 -> extends r s2 o2 f2 s3 o3 f3 ->
  extends r s1 o1 f1 s3 o3 f3.
Proof.
  intros [A HA] [B HB]. split; [by eapply grows_trans|].
  intros r' va l pt Ho. rewrite (HB r') by (eapply lookup_weaken; [done|apply A]).
  by apply (HA r').
Qed.

(** The walk without allocation. *)
Lemma walk_from_noalloc l : forall pt va w,
  walk_from l pt va false w = Ok (walk_addr (k_mem (w_ks w)) l pt va) w.
Proof.
  induction l as [|l IH]; intros pt va w; [done|].
  cbn [walk_from walk_addr]. apply run_wp. ksteps. destruct (has _ _).
  - by eapply wp_of_run; [apply IH|].
  - ksteps. done.
Qed.

Lemma walk_noalloc pt va w :
  va < MAXVA -> walk pt va false w = Ok (walk_addr (k_mem (w_ks w)) 2 pt va) w.
Proof.
  intros H. unfold walk. rewrite (proj2 (Z.leb_gt _ _)) by done. apply walk_from_noalloc.
Qed.

(** A zeroed page maps nothing. *)
Lemma pte_at_zero m q va l :
  (forall i, 0 <= i < 512 -> ld64 m (q + 8 * i) = 0) -> pte_at m l q va = 0.
Proof.
  intros Hz. destruct l as [|l]; simpl; rewrite Hz by (apply PX_bound; lia); done.
Qed.

(** The memory after a fresh zeroed page [q] has been linked into entry [i] of [p]. *)
Definition link_mem (m : mem) (p i q : Z) : mem :=
  st64 (memset m q 0 pgsize) (p + 8 * i) (Z.lor (PA2PTE q) PTE_V).

Lemma link_pte q : Z.lor (PA2PTE q) PTE_V = mk_pte q 0.
Proof. unfold mk_pte. by rewrite Z.lor_0_r. Qed.

Lemma page_ok_range p : page_ok p -> 0 <= p < 2 ^ 56.
Proof.
  intros H. apply (page_ok_pos Hks) in H. unfold PHYSTOP, KERNBASE in H. lia.
Qed.

Lemma link_same m p i q x :
  p mod PGSIZE = 0 -> q mod PGSIZE = 0 -> x mod PGSIZE = 0 -> 0 <= i < 512 ->
  x <> p -> x <> q -> same_page m (link_mem m p i q) x.
Proof.
  intros Hp Hq Hx Hi H1 H2. unfold link_mem, pgsize.
  eapply same_page_trans; [by apply (same_page_memset m q x)|].
  pose proof (entry_off i Hi). apply same_page_st64; try done; lia.
Qed.

Lemma link_entry m p i q :
  page_ok q -> ld64 (link_mem m p i q) (p + 8 * i) = mk_pte q 0.
Proof.
  intros Hq. unfold link_mem. rewrite ld64_st64_eq, link_pte.
  apply mk_pte_u64; [by apply page_ok_range|lia].
Qed.

Lemma link_zero m p i q j :
  p mod PGSIZE = 0 -> q mod PGSIZE = 0 -> 0 <= i < 512 -> p <> q -> 0 <= j < 512 ->
  ld64 (link_mem m p i q) (q + 8 * j) = 0.
Proof.
  intros Hp Hq Hi Hne Hj. unfold link_mem.
  rewrite ld64_entry_ne by (try done; by left).
  apply ld64_memset_zero; unfold pgsize, PGSIZE; lia.
Qed.

Lemma link_other m p i q x j :
  p mod PGSIZE = 0 -> q mod PGSIZE = 0 -> x mod PGSIZE = 0 -> 0 <= i < 512 ->
  0 <= j < 512 -> x <> q -> x <> p \/ j <> i ->
  ld64 (link_mem m p i q) (x + 8 * j) = ld64 m (x + 8 * j).
Proof.
  intros Hp Hq Hx Hi Hj Hxq Hne. unfold link_mem.
  rewrite ld64_entry_ne by (try done; lia).
  pose proof (entry_off j Hj).
  apply (same_page_ld64 m); [|lia..]. apply same_page_memset; congruence.
Qed.

(** Linking a fresh page below an invalid entry changes no translation. *)
Lemma link_pte_at m own p r l pre i q :
  pt_inv m own -> own !! p = Some (OTable r (S l) pre) -> 0 <= i < 512 ->
  has (ld64 m (p + 8 * i)) PTE_V = false -> page_ok q -> own !! q = None ->
  forall l' pt r' va, own !! pt = Some (OTable r' l' (prefix l' va)) ->
  pte_at (link_mem m p i q) l' pt va = pte_at m l' pt va.
Proof.
  intros Hinv Hp Hi Hinvalid Hq Hnone.
  pose proof (pi_aligned _ _ _ _ Hinv Hp) as Hpa.
  pose proof (proj1 Hq) as Hqa.
  assert (Hpq : p <> q) by congruence.
  induction l' as [|l' IH]; intros pt r' va Ho; cbn [pte_at]; cbv zeta.
  - rewrite link_other; try done; [by eapply pi_aligned|by apply PX_bound|congruence|left; congruence].
  - pose proof (PX_bound (Z.of_nat (S l')) va ltac:(lia)) as Hb.
    destruct (decide (pt = p /\ PX (Z.of_nat (S l')) va = i)) as [[-> ->]|Hne].
    + rewrite Hinvalid, link_entry, has_V_mk_pte, PTE2PA_mk_pte
        by first [done | by apply page_ok_range].
      apply pte_at_zero. intros j Hj. by apply link_zero.
    + rewrite link_other by first [by eapply pi_aligned | done | congruence | lia].
      destruct (has (ld64 m (pt + 8 * PX (Z.of_nat (S l')) va)) PTE_V) eqn:Hv; [|done]. eapply IH.
      destruct (pi_node _ _ Hinv _ _ _ _ _ Ho Hb Hv) as [Hc _].
      by rewrite prefix_S in Hc.
Qed.

(** The invariant after the link; [q] is now a table page. *)
Lemma link_inv m own p r l pre i q :
  pt_inv m own -> own !! p = Some (OTable r (S l) pre) -> 0 <= i < 512 ->
  has (ld64 m (p + 8 * i)) PTE_V = false -> page_ok q -> own !! q = None ->
  (l = 0%nat -> 0 <= pre * 512 + i < 2 ^ 17) -> pt_inv (link_mem m p i q) (<[q := OTable r l (pre * 512 + i)]> own).
Proof.
  intros Hinv Hp Hi Hinvalid Hq Hnone Hlow.
  pose proof (proj1 Hq) as Hqa. pose proof (page_ok_range q Hq) as Hqr.
  pose proof (pi_aligned _ _ _ _ Hinv Hp) as Hpa.
  assert (Hpq : p <> q) by congruence.
  assert (Hother : forall x o j, own !! x = Some o -> 0 <= j < 512 -> x <> p \/ j <> i ->
    ld64 (link_mem m p i q) (x + 8 * j) = ld64 m (x + 8 * j)).
  { intros x o j Hx Hj Hne. apply link_other; try done; [by eapply pi_aligned|congruence]. }
  assert (Hvalid : forall x o j, own !! x = Some o -> 0 <= j < 512 ->
    has (ld64 m (x + 8 * j)) PTE_V = true ->
    ld64 (link_mem m p i q) (x + 8 * j) = ld64 m (x + 8 * j)).
  { intros x o j Hx Hj HV. eapply Hother; [done..|].
    destruct (decide (x = p)) as [->|]; [right|by left]. intros ->. congruence. }
  assert (Hne : forall x o, own !! x = Some o -> <[q:=OTable r l (pre * 512 + i)]> own !! x = Some o).
  { intros x o Hx. rewrite lookup_insert_ne by congruence. done. }
  split.
  - intros x o. destruct (decide (x = q)) as [->|]; [done|].
    rewrite lookup_insert_ne by done. apply (pi_page _ _ Hinv).
  - intros x r' l' pre' j Hx Hj.
    destruct (decide (x = q)) as [->|Hxq]; [by rewrite link_zero|].
    rewrite lookup_insert_ne in Hx by done.
    destruct (decide (x = p /\ j = i)) as [[-> ->]|].
    + intros _. rewrite link_entry, PTE2PA_mk_pte by done. rewrite Hp in Hx. injection Hx as <- <- <-.
      split; [apply lookup_insert_eq|]. by apply (has_RWX_mk_pte q 0).
    + erewrite Hother by first [done | lia]. intros HV.
      destruct (pi_node _ _ Hinv _ _ _ _ _ Hx Hj HV) as [Hc Hf]. split; [by apply Hne|done].
  - intros x r' pre' j Hx Hj.
    destruct (decide (x = q)) as [->|Hxq]; [by rewrite link_zero|].
    rewrite lookup_insert_ne in Hx by done.
    erewrite Hother by first [done | left; congruence]. intros HV.
    destruct (pi_leaf _ _ Hinv _ _ _ _ Hx Hj HV) as [Hf HU]. split; [done|].
    intros H. apply Hne. by apply HU.
  - intros x r' l' pre' Hx. destruct (decide (x = q)) as [->|Hxq].
    + rewrite lookup_insert_eq in Hx. injection Hx as <- <- <-. right.
      assert (Hl : (S l <= 2)%nat) by (destruct (pi_table _ _ Hinv _ _ _ _ Hp) as [(? & _)|[? _]]; lia).
      split; [lia|]. exists p. rewrite idx_div, idx_mod, link_entry by done.
      split; [by apply Hne|]. split; [by apply has_V_mk_pte|by apply PTE2PA_mk_pte].
    + rewrite lookup_insert_ne in Hx by done.
      destruct (pi_table _ _ Hinv _ _ _ _ Hx) as [?|(Hl & y & Hy & HV & H)]; [by left|right].
      split; [done|]. exists y. rewrite (Hvalid _ _ _ Hy (mod512 _) HV). split; [by apply Hne|done].
  - intros x r' vpn Hx. destruct (decide (x = q)) as [->|Hxq].
    + by rewrite lookup_insert_eq in Hx.
    + rewrite lookup_insert_ne in Hx by done.
      destruct (pi_user _ _ Hinv _ _ _ Hx) as (y & Hy & HV & H).
      exists y. rewrite (Hvalid _ _ _ Hy (mod512 _) HV). split; [by apply Hne|done].
  - intros x r' pre' Hx. destruct (decide (x = q)) as [->|Hxq].
    + rewrite lookup_insert_eq in Hx. injection Hx as _ -> <-. by apply Hlow.
    + rewrite lookup_insert_ne in Hx by done. by eapply (pi_low _ _ Hinv).
Qed.

Lemma set_k_mem_twice m m' s : set_k_mem m (set_k_mem m' s) = set_k_mem m s.
Proof. kst_eq. Qed.

Lemma k_mem_set_k_mem m s : k_mem (set_k_mem m s) = m.
Proof. done. Qed.

Lemma avail_NoDup s fl : avail s fl -> NoDup fl.
Proof. intros H. by apply avail_ok in H as []. Qed.

Lemma avail_page_ok s fl p : avail s fl -> p ∈ fl -> page_ok p.
Proof. intros H Hp. apply avail_ok in H as [H _]. by eapply Forall_forall in H. Qed.

(** Taking a page from the allocator and linking it below an invalid entry. *)
Lemma link_extends r s own q fl s1 p l pre i :
  vm_ok s own (q :: fl) -> own !! p = Some (OTable r (S l) pre) -> 0 <= i < 512 ->
  has (ld64 (k_mem s) (p + 8 * i)) PTE_V = false ->
  avail s1 fl -> mem_only s s1 -> outside_same q (k_mem s) (k_mem s1) ->
  (l = 0%nat -> 0 <= pre * 512 + i < 2 ^ 17) ->
  extends r s own (q :: fl) (set_k_mem (link_mem (k_mem s1) p i q) s1)
    (<[q := OTable r l (pre * 512 + i)]> own) fl.
Proof.
  intros [Hinv Hav Hfree Hlock] Hp Hi Hinvalid Hav1 Hmo Hout Hlow.
  assert (Hqok : page_ok q) by (apply (avail_page_ok _ _ _ Hav); left).
  pose proof (proj1 Hqok) as Hqa. pose proof (pi_aligned _ _ _ _ Hinv Hp) as Hpa.
  assert (Hqn : own !! q = None) by (apply Hfree; left).
  assert (Hpq : p <> q) by congruence.
  assert (Hs1 : forall x, x mod PGSIZE = 0 -> x <> q -> same_page (k_mem s) (k_mem s1) x).
  { intros x Hx Hne. by apply (outside_same_page q). }
  assert (Htab : forall x o, own !! x = Some o -> same_page (k_mem s) (k_mem s1) x).
  { intros x o Hx. apply Hs1; [by eapply pi_aligned|congruence]. }
  assert (Hinv1 : pt_inv (k_mem s1) own).
  { eapply pt_inv_frame; [|done]. intros x r' l' pre' Hx. by eapply Htab. }
  assert (Hinvalid1 : has (ld64 (k_mem s1) (p + 8 * i)) PTE_V = false).
  { pose proof (entry_off i Hi). rewrite (same_page_ld64 (k_mem s)) by first [by eapply Htab | lia]. done. }
  pose proof (avail_NoDup _ _ Hav) as Hnd. apply NoDup_cons in Hnd as [Hqfl Hnd].
  split.
  2:{ intros r' va l' pt Hpt. cbn. rewrite (link_pte_at _ own p r l pre i q) with (r' := r'); try done.
      eapply pte_at_frame; [done| |done]. intros x r'' l'' pre'' Hx. by eapply Htab. }
  split; simpl.
  - split; simpl.
    + by apply link_inv.
    + eapply avail_frame; [|..|exact Hav1]; [done|]. simpl. intros x Hx.
      assert (own !! x = None) by (apply Hfree; by right).
      apply link_same; try done; [|congruence|congruence].
      by apply (avail_page_ok _ _ x Hav1) in Hx as [].
    + intros x Hx. rewrite lookup_insert_ne by congruence. apply Hfree. by right.
    + by rewrite (mem_only_held _ _ Hmo).
  - eapply mem_only_trans; [done|apply mem_only_set_mem].
  - by apply insert_subseteq.
  - intros x o Hx Hn. destruct (decide (x = q)) as [->|Hne].
    + rewrite lookup_insert_eq in Hx. injection Hx as <-. left. split; [left|by eexists _, _].
    + rewrite lookup_insert_ne in Hx by done. congruence.
  - by exists [q].
  - intros x r' l' pre' j Hx Hj Hv.
    rewrite link_other; try done; [|by eapply pi_aligned|congruence|].
    + pose proof (entry_off j Hj). apply (same_page_ld64 (k_mem s)); [by eapply Htab|lia..].
    + destruct (decide (x = p)) as [->|]; [|by left]. right. intros ->. congruence.
  - intros x Hxa Hni Hnt. apply not_elem_of_cons in Hni as [Hxq Hni].
    eapply same_page_trans; [by apply Hs1|]. apply link_same; try done.
    intros ->. by eapply Hnt.
  - intros x [->|Hx]%elem_of_cons; [right|by left]. rewrite lookup_insert_eq. by eexists.
Qed.

(** A walk that may allocate: it ends at the entry for [va] in the leaf table that
    covers it, or the allocator ran dry. *)
Lemma walk_from_alloc r va env : 0 <= va < MAXVA -> forall l pt s own fl,
  vm_ok s own fl -> own !! pt = Some (OTable r l (prefix l va)) ->
  exists a s' own' fl',
    walk_from l pt va true (mkWorld s env) = Ok a (mkWorld s' env) /\
    extends r s own fl s' own' fl' /\
    ((a = 0 /\ fl' = [] /\ (length fl < l)%nat) \/
     (a = walk_addr (k_mem s') l pt va /\ (length fl <= length fl' + l)%nat /\
      exists p, own' !! p = Some (OTable r 0 (prefix 0 va)) /\ a = p + 8 * PX 0 va)).
Proof.
  intros Hva. induction l as [|l IH]; intros pt s own fl Hok Hpt.
  - exists (pt + 8 * PX 0 va), s, own, fl. split; [done|]. split; [by apply extends_refl|].
    right. split; [done|]. split; [lia|]. by exists pt.
  - cbn [walk_from walk_addr]. cbv zeta.
    pose proof (PX_bound (Z.of_nat (S l)) va ltac:(lia)) as Hb.
    set (i := PX (Z.of_nat (S l)) va) in *.
    rewrite (run_bind _ _ _ (ld64 (k_mem s) (pt + 8 * i)) (mkWorld s env)) by done.
    destruct (has (ld64 (k_mem s) (pt + 8 * i)) PTE_V) eqn:Hv.
    + destruct (pi_node _ _ (vo_inv _ _ _ Hok) _ _ _ _ _ Hpt Hb Hv) as [Hc _].
      unfold i in Hc. rewrite prefix_S in Hc. fold i in Hc.
      destruct (IH _ _ _ _ Hok Hc) as (a & s' & own' & fl' & Hrun & Hex & Hres).
      exists a, s', own', fl'. split; [done|]. split; [done|].
      rewrite (gr_keep (proj1 Hex) _ _ _ _ _ Hpt Hb Hv), Hv.
      destruct Hres as [(Ha0 & Hf0 & ?)|(Ha0 & ? & Hp0)]; [left|right];
        (split; [exact Ha0|]); [split; [exact Hf0|lia]|split; [lia|exact Hp0]].
    + cbn [negb]. destruct fl as [|q fl].
      * rewrite (run_bind _ _ _ 0 (mkWorld s env)) by (apply alloc_none; apply Hok).
        exists 0, s, own, []. split; [done|]. split; [by apply extends_refl|].
        left. cbn. repeat split; lia.
      * destruct (alloc_some s env q fl (vo_avail _ _ _ Hok) (vo_lock _ _ _ Hok))
          as (s1 & Hr & Hav1 & Hmo & Hout).
        rewrite (run_bind _ _ _ q (mkWorld s1 env)) by done.
        assert (Hqok : page_ok q) by (eapply avail_page_ok; [apply Hok|left]).
        rewrite (proj2 (Z.eqb_neq q 0)) by (apply (page_ok_pos Hks) in Hqok; lia).
        assert (Hlow : l = 0%nat -> 0 <= prefix (S l) va * 512 + i < 2 ^ 17).
        { intros ->. unfold i. rewrite prefix_S. by apply prefix_low. }
        pose proof (link_extends r s own q fl s1 pt l _ i Hok Hpt Hb Hv Hav1 Hmo Hout Hlow) as Hex.
        set (s2 := set_k_mem (link_mem (k_mem s1) pt i q) s1) in *.
        rewrite (run_bind _ _ _ tt (mkWorld (set_k_mem (memset (k_mem s1) q 0 pgsize) s1) env))
          by done.
        rewrite (run_bind _ _ _ tt (mkWorld s2 env)).
        2:{ unfold stM64, memM, kmodify, modify. cbn [w_ks w_env]. unfold s2, link_mem.
            rewrite set_k_mem_twice, k_mem_set_k_mem. reflexivity. }
        assert (Hc : <[q:=OTable r l (prefix (S l) va * 512 + i)]> own !! q
                     = Some (OTable r l (prefix l va))).
        { rewrite lookup_insert_eq. unfold i. by rewrite prefix_S. }
        destruct (IH _ _ _ _ (gr_ok (proj1 Hex)) Hc)
          as (a & s' & own' & fl' & Hrun & Hex' & Hres).
        exists a, s', own', fl'. split; [done|]. split; [by eapply extends_trans|].
        assert (He : ld64 (k_mem s2) (pt + 8 * i) = mk_pte q 0) by (by apply link_entry).
        assert (Hpt2 : <[q:=OTable r l (prefix (S l) va * 512 + i)]> own !! pt
                       = Some (OTable r (S l) (prefix (S l) va))).
        { rewrite lookup_insert_ne; [exact Hpt|]. intros Heq.
          assert (Hn : own !! pt = None) by (rewrite <- Heq; apply (vo_free _ _ _ Hok); left).
          rewrite Hpt in Hn. discriminate Hn. }
        assert (Hv2 : has (mk_pte q 0) PTE_V = true) by (apply has_V_mk_pte; by apply page_ok_range).
        pose proof (gr_keep (proj1 Hex') _ _ _ _ _ Hpt2 Hb) as Hk.
        rewrite He in Hk. rewrite (Hk Hv2), Hv2, PTE2PA_mk_pte; [|by apply page_ok_range|apply Hqok|lia].
        cbn [length]. destruct Hres as [(Ha0 & Hf0 & ?)|(Ha0 & ? & Hp0)]; [left|right];
        (split; [exact Ha0|]); [split; [exact Hf0|lia]|split; [lia|exact Hp0]].
Qed.

(** ** Writing leaf entries *)

Lemma PX_page level va va' :
  0 <= level -> va / PGSIZE = va' / PGSIZE -> PX level va = PX level va'.
Proof.
  intros Hl H. rewrite !PX_div by done. unfold PGSIZE in H.
  rewrite Z.pow_add_r by lia. change (2 ^ 12) with 4096.
  assert (0 < 2 ^ (9 * level)) by (apply Z.pow_pos_nonneg; lia).
  rewrite <- !Z.div_div by lia. by rewrite H.
Qed.

Lemma pte_at_page m va va' : va / PGSIZE = va' / PGSIZE ->
  forall l pt, pte_at m l pt va = pte_at m l pt va'.
Proof.
  intros H. induction l as [|l IH]; intros pt; cbn [pte_at]; cbv zeta.
  - by rewrite (PX_page 0 va va') by (lia || done).
  - rewrite (PX_page (Z.of_nat (S l)) va va') by (lia || done).
    destruct (has _ _); [apply IH|done].
Qed.

Section LeafWrite.
Context (m : mem) (own : gmap Z owner) (Hinv : pt_inv m own).
Context (p r va v : Z) (Hp : own !! p = Some (OTable r 0 (prefix 0 va))) (Hv : u64 v = v).

(** Inner entries do not change. *)
Lemma leaf_write_inner x r' l pre i : own !! x = Some (OTable r' (S l) pre) ->
  0 <= i < 512 -> ld64 (st64 m (p + 8 * PX 0 va) v) (x + 8 * i) = ld64 m (x + 8 * i).
Proof.
  intros Hx Hi. pose proof (PX_bound 0 va ltac:(lia)).
  apply ld64_entry_ne; try done; [by eapply pi_aligned..|]. left. congruence.
Qed.

Lemma pte_at_write_same : forall l pt,
  own !! pt = Some (OTable r l (prefix l va)) ->
  walk_addr m l pt va = p + 8 * PX 0 va ->
  pte_at (st64 m (p + 8 * PX 0 va) v) l pt va = v.
Proof.
  induction l as [|l IH]; intros pt Ho; cbn [walk_addr pte_at]; cbv zeta.
  - intros ->. by rewrite ld64_st64_eq.
  - pose proof (PX_bound (Z.of_nat (S l)) va ltac:(lia)) as Hb.
    rewrite (leaf_write_inner _ _ _ _ _ Ho Hb).
    destruct (has (ld64 m (pt + 8 * PX (Z.of_nat (S l)) va)) PTE_V) eqn:Hval.
    + intros Hw. apply IH; [|done].
      destruct (pi_node _ _ Hinv _ _ _ _ _ Ho Hb Hval) as [Hc _].
      by rewrite prefix_S in Hc.
    + intros Hw. pose proof (PX_bound 0 va ltac:(lia)).
      apply (pi_page _ _ Hinv) in Hp. apply (page_ok_pos Hks) in Hp. lia.
Qed.

Lemma pte_at_write_other r' va' :
  r' <> r \/ va' / PGSIZE <> va / PGSIZE -> forall l pt,
  own !! pt = Some (OTable r' l (prefix l va')) ->
  pte_at (st64 m (p + 8 * PX 0 va) v) l pt va' = pte_at m l pt va'.
Proof.
  intros Hne. induction l as [|l IH]; intros pt Ho; cbn [pte_at]; cbv zeta.
  - apply ld64_entry_ne; [by eapply pi_aligned..|by apply PX_bound|by apply PX_bound|].
    destruct (decide (p = pt)) as [<-|]; [right|by left]. intros Heq.
    rewrite Hp in Ho. injection Ho as -> Hpre.
    pose proof (prefix_0 va). pose proof (prefix_0 va'). lia.
  - pose proof (PX_bound (Z.of_nat (S l)) va' ltac:(lia)) as Hb.
    rewrite (leaf_write_inner _ _ _ _ _ Ho Hb).
    destruct (has (ld64 m (pt + 8 * PX (Z.of_nat (S l)) va')) PTE_V) eqn:Hval; [|done].
    apply IH. destruct (pi_node _ _ Hinv _ _ _ _ _ Ho Hb Hval) as [Hc _].
    by rewrite prefix_S in Hc.
Qed.

End LeafWrite.

(** The translations after an entry [v] for [va] has been written in root [r]. *)
Definition upd_pte (own : gmap Z owner) (s : kst) (r va v : Z) (s' : kst) : Prop :=
  forall r' va', is_root own r' -> 0 <= va' < MAXVA ->
  pte_of (k_mem s') r' va' =
  if decide (r' = r /\ va' / PGSIZE = va / PGSIZE) then v else pte_of (k_mem s) r' va'.

Lemma leaf_write s own own' fl p r va v :
  pt_inv (k_mem s) own -> avail s fl -> LKmem ∉ k_held s -> p ∉ fl ->
  is_root own r -> 0 <= va < MAXVA ->
  own !! p = Some (OTable r 0 (prefix 0 va)) ->
  walk_addr (k_mem s) 2 r va = p + 8 * PX 0 va -> u64 v = v ->
  leaf_change own own' r (va / PGSIZE) v -> (forall x, x ∈ fl -> own' !! x = None) ->
  let s' := set_k_mem (st64 (k_mem s) (p + 8 * PX 0 va) v) s in
  vm_ok s' own' fl /\ upd_pte own s r va v s'.
Proof.
  intros Hinv Hav Hlock Hpfl Hr Hva Hp Hw Hu Hlc Hfree' s'.
  pose proof (PX_bound 0 va ltac:(lia)) as Hb. pose proof (entry_off _ Hb) as Ho.
  pose proof (pi_aligned _ _ _ _ Hinv Hp) as Hpa. split.
  - split; simpl; try done.
    + eapply pt_inv_leaf; [done..|]. by rewrite prefix_0.
    + apply (avail_frame s); [done| |done]. simpl. intros x Hx.
      apply same_page_st64; try lia.
      -- by apply (avail_page_ok _ _ _ Hav) in Hx as [].
      -- congruence.
  - intros r' va' Hr' Hva'. unfold pte_of, s'. rewrite k_mem_set_k_mem. unfold is_root in *.
    rewrite <- (prefix_2 va) in Hr by done. rewrite <- (prefix_2 va') in Hr' by done.
    case_decide as Hd.
    + destruct Hd as [-> Hpg]. rewrite (pte_at_page _ va' va) by done.
      by eapply pte_at_write_same.
    + eapply pte_at_write_other; [done..| |done]. lia.
Qed.

(** A leaf entry that becomes valid: the owners after mapping [pa] at [vpn].  [user]
    says whether [pa] becomes a page of the address space; it must if user code can
    reach it. *)
Definition map_owner (own : gmap Z owner) (r vpn pa : Z) (user : bool) : gmap Z owner :=
  if user then <[pa := OUser r vpn]> own else own.

Lemma map_owner_change own r vpn pa perm user m p i :
  pt_inv m own -> own !! p = Some (OTable r 0 (vpn / 512)) -> i = vpn mod 512 ->
  has (ld64 m (p + 8 * i)) PTE_V = false ->
  0 <= pa < 2 ^ 56 -> pa mod PGSIZE = 0 -> 0 <= perm < 1024 -> has perm RWX = true ->
  (has perm PTE_U = true -> user = true) ->
  (user = true -> page_ok pa /\ own !! pa = None) ->
  leaf_change own (map_owner own r vpn pa user) r vpn (mk_pte pa perm).
Proof.
  intros Hinv Hp -> Hinval Hpa Hal Hperm HRWX HUu Hfresh. unfold map_owner.
  assert (Hnouser : forall q, own !! q <> Some (OUser r vpn)).
  { intros q Hq. destruct (pi_user _ _ Hinv _ _ _ Hq) as (p' & Hp' & HV & _).
    assert (p' = p) as -> by (eapply (table_unique _ _ r Hinv 2 0); done). congruence. }
  assert (Hdiff : forall q r' vpn', own !! q = Some (OUser r' vpn') -> r' <> r \/ vpn' <> vpn).
  { intros q r' vpn' Hq. destruct (decide (r' = r)) as [->|]; [right|by left].
    intros ->. by eapply Hnouser. }
  assert (Hbits : has (mk_pte pa perm) PTE_V = true /\ has (mk_pte pa perm) RWX = true /\
    has (mk_pte pa perm) PTE_U = has perm PTE_U /\ PTE2PA (mk_pte pa perm) = pa).
  { split; [by apply has_V_mk_pte|]. split; [unfold RWX; by rewrite has_RWX_mk_pte|].
    split; [by apply has_U_mk_pte|by apply PTE2PA_mk_pte]. }
  destruct Hbits as (HV & HR & HU & HPA).
  destruct user eqn:Hus.
  - destruct (Hfresh eq_refl) as [Hok Hnone]. split; rewrite ?HV, ?HPA, ?HR.
    + intros x r' l pre. destruct (decide (x = pa)) as [->|].
      * rewrite lookup_insert_eq. rewrite Hnone. done.
      * by rewrite lookup_insert_ne.
    + intros x o. destruct (decide (x = pa)) as [->|]; [done|].
      rewrite lookup_insert_ne by done. apply (pi_page _ _ Hinv).
    + intros _. split; [done|]. intros _. apply lookup_insert_eq.
    + intros q r' vpn'. destruct (decide (q = pa)) as [->|].
      * rewrite lookup_insert_eq. intros [= <- <-]. by left.
      * rewrite lookup_insert_ne by done. intros Hq. right. split; [by eapply Hdiff|done].
    + intros q r' vpn' Hq _. rewrite lookup_insert_ne; [done|congruence].
  - split; rewrite ?HV, ?HPA, ?HR; try done.
    + intros x o. apply (pi_page _ _ Hinv).
    + intros _. rewrite HU. split; [done|]. intros H. by apply HUu in H.
    + intros q r' vpn' Hq. right. split; [by eapply Hdiff|done].
Qed.

(** ** mappages *)

Lemma is_root_sub own own' r : own ⊆ own' -> is_root own r -> is_root own' r.
Proof. intros Hs H. by eapply lookup_weaken. Qed.

Lemma walk_alloc r va s own fl env :
  vm_ok s own fl -> is_root own r -> 0 <= va < MAXVA ->
  exists a s' own' fl',
    walk r va true (mkWorld s env) = Ok a (mkWorld s' env) /\
    extends r s own fl s' own' fl' /\
    ((a = 0 /\ fl' = [] /\ (length fl < 2)%nat) \/
     (a <> 0 /\ (length fl <= length fl' + 2)%nat /\ walk_addr (k_mem s') 2 r va = a /\ ld64 (k_mem s') a = pte_of (k_mem s) r va /\
      exists p, own' !! p = Some (OTable r 0 (prefix 0 va)) /\ a = p + 8 * PX 0 va)).
Proof.
  intros Hok Hr Hva. unfold walk. rewrite (proj2 (Z.leb_gt _ _)) by lia.
  assert (Hr' : own !! r = Some (OTable r 2 (prefix 2 va))) by (by rewrite prefix_2).
  destruct (walk_from_alloc r va env Hva 2 r s own fl Hok Hr') as (a & s' & own' & fl' & Hrun & Hex & Hres).
  exists a, s', own', fl'. split; [done|]. split; [done|].
  destruct Hres as [Hres|(Ha & Hlen & p & Hp & Hap)]; [by left|right].
  pose proof (vo_inv _ _ _ (gr_ok (proj1 Hex))) as Hinv'.
  assert (Hnz : a <> 0).
  { pose proof (PX_bound 0 va ltac:(lia)).
    pose proof (pi_page _ _ Hinv' _ _ Hp) as Hpok. apply (page_ok_pos Hks) in Hpok. lia. }
  split; [done|]. split; [done|]. split; [done|]. split; [|by exists p].
  unfold pte_of. rewrite <- (proj2 Hex r va 2%nat r Hr').
  destruct (walk_addr_leaf _ own' r va Hinv' 2 r) as [[H0 _]|(p' & _ & Hw & Hpte)].
  - rewrite prefix_2 by done. eapply is_root_sub; [apply Hex|done].
  - congruence.
  - rewrite Hpte. congruence.
Qed.

(** The translations after [k] pages have been mapped from [a] on. *)
Definition mapped (own : gmap Z owner) (s : kst) (r a k pa perm : Z) (s' : kst) : Prop :=
  forall r' va, is_root own r' -> 0 <= va < MAXVA ->
  pte_of (k_mem s') r' va =
  if decide (r' = r /\ a / PGSIZE <= va / PGSIZE < a / PGSIZE + k)
  then mk_pte (pa + (va / PGSIZE - a / PGSIZE) * PGSIZE) perm
  else pte_of (k_mem s) r' va.

Lemma mapped_0 own s r a pa perm s' :
  same_pte s own s' -> mapped own s r a 0 pa perm s'.
Proof.
  intros H r' va Hr Hva. rewrite decide_False by lia.
  apply (H r'). by rewrite prefix_2.
Qed.

Lemma page_succ a i : a mod PGSIZE = 0 -> (a + i * PGSIZE) / PGSIZE = a / PGSIZE + i.
Proof. intros H. apply Z.div_add. done. Qed.

(** The pages that [mappages] may give to user code. *)
Definition map_pages (user : bool) (pa k : Z) (q : Z) : Prop :=
  user = true /\ exists i, 0 <= i < k /\ q = pa + i * PGSIZE.

(** One turn of the loop: the entry is written, or the allocator ran dry. *)
Lemma map_page r a pa perm user s own fl env :
  vm_ok s own fl -> is_root own r -> 0 <= a < MAXVA -> a mod PGSIZE = 0 ->
  0 <= pa < 2 ^ 56 -> pa mod PGSIZE = 0 -> 0 <= perm < 1024 -> has perm RWX = true ->
  has (pte_of (k_mem s) r a) PTE_V = false ->
  (has perm PTE_U = true -> user = true) ->
  (user = true -> page_ok pa /\ own !! pa = None /\ pa ∉ fl) ->
  exists addr s1 own1 fl', walk r a true (mkWorld s env) = Ok addr (mkWorld s1 env) /\
    ((addr = 0 /\ fl' = [] /\ (length fl < 2)%nat /\ extends r s own fl s1 own1 fl') \/
     (addr <> 0 /\ (length fl <= length fl' + 2)%nat /\ has (ld64 (k_mem s1) addr) PTE_V = false /\
      let s' := set_k_mem (st64 (k_mem s1) addr (mk_pte pa perm)) s1 in
      let own' := map_owner own1 r (a / PGSIZE) pa user in
      grows r (map_pages user pa 1) s own fl s' own' fl' /\ mapped own s r a 1 pa perm s')).
Proof.
  intros Hok Hr Ha Hal Hpa Hpal Hperm HRWX Hun HUu Hfresh.
  destruct (walk_alloc r a s own fl env Hok Hr Ha) as (addr & s1 & own1 & fl' & Hrun & Hex & Hres).
  exists addr, s1, own1, fl'. split; [done|].
  destruct Hres as [(-> & -> & ?)|(Hnz & Hlen & Hw & Hld & p & Hp & Hap)]; [by left|right].
  split; [done|]. split; [done|]. split; [by rewrite Hld|]. cbv zeta.
  pose proof (proj1 Hex) as Hg. pose proof (gr_sub Hg) as Hsub.
  pose proof (gr_ok Hg) as Hok1. pose proof (vo_inv _ _ _ Hok1) as Hinv1.
  assert (Hfresh1 : user = true -> page_ok pa /\ own1 !! pa = None).
  { intros HU. destruct (Hfresh HU) as (Hpok & Hn & Hnf). split; [done|].
    destruct (own1 !! pa) as [o|] eqn:Ho; [|done].
    destruct (gr_new Hg pa o Ho Hn) as [[? _]|[? _]]; done. }
  pose proof (prefix_0 a) as Hpre. pose proof (PX_bound 0 a ltac:(lia)) as Hb.
  assert (Hdiv : a / PGSIZE / 512 = prefix 0 a) by (rewrite <- Hpre; by apply idx_div).
  assert (Hmod : a / PGSIZE mod 512 = PX 0 a) by (rewrite <- Hpre; by apply idx_mod).
  assert (Hlc : leaf_change own1 (map_owner own1 r (a / PGSIZE) pa user) r (a / PGSIZE) (mk_pte pa perm)).
  { eapply (map_owner_change _ _ _ _ _ _ (k_mem s1) p); try done; rewrite ?Hdiv, ?Hmod; try done.
    rewrite <- Hap, Hld. done. }
  assert (Hsub' : own1 ⊆ map_owner own1 r (a / PGSIZE) pa user).
  { unfold map_owner. destruct user eqn:HU; [|done].
    apply insert_subseteq. by apply Hfresh1. }
  destruct (leaf_write s1 own1 (map_owner own1 r (a / PGSIZE) pa user) fl' p r a (mk_pte pa perm))
    as [Hok' Hu]; try done; try apply Hok1.
  - intros Hin. apply (vo_free _ _ _ Hok1) in Hin. congruence.
  - by eapply is_root_sub.
  - congruence.
  - by apply mk_pte_u64.
  - intros x Hx. unfold map_owner. destruct user eqn:HU; [|by apply (vo_free _ _ _ Hok1)].
    rewrite lookup_insert_ne; [by apply (vo_free _ _ _ Hok1)|]. intros <-.
    apply (proj2 (proj2 (Hfresh eq_refl))). destruct (gr_fl Hg) as [u ->].
    apply elem_of_app. by right.
  - rewrite <- Hap in Hok', Hu. split.
    + eapply grows_trans; [eapply grows_mono; [|exact Hg]; done|]. split; simpl; try done.
      * apply mem_only_set_mem.
      * intros q o Ho Hn. right. unfold map_owner, map_pages in *.
        destruct user eqn:HU; [|congruence].
        destruct (decide (q = pa)) as [->|Hne]; [|rewrite lookup_insert_ne in Ho by done; congruence].
        rewrite lookup_insert_eq in Ho. injection Ho as <-.
        split; [split; [done|]; exists 0; lia|by eexists].
      * by exists [].
      * intros x r' l pre i Hx Hi _. rewrite Hap. by eapply leaf_write_inner.
      * intros x Hx _ Hnt. pose proof (entry_off _ Hb). rewrite Hap. apply same_page_st64; try lia.
        -- by eapply pi_aligned.
        -- intros <-. by eapply Hnt.
      * by left.
    + intros r' va Hr' Hva. rewrite Hu by (try done; by eapply is_root_sub).
      destruct (decide (r' = r /\ va / PGSIZE = a / PGSIZE)) as [[-> He]|Hne].
      * rewrite decide_True by lia. f_equal. rewrite He. lia.
      * rewrite decide_False by lia. apply (proj2 Hex r'). by rewrite prefix_2.
Qed.

Lemma mapped_app own own1 s r a pa perm s1 k s2 :
  a mod PGSIZE = 0 -> own ⊆ own1 -> 0 <= k ->
  mapped own s r a 1 pa perm s1 ->
  mapped own1 s1 r (a + PGSIZE) k (pa + PGSIZE) perm s2 ->
  mapped own s r a (k + 1) pa perm s2.
Proof.
  intros Hal Hsub Hk H1 H2 r' va Hr Hva.
  rewrite H2 by (try done; by eapply is_root_sub). rewrite (H1 r' va) by done.
  replace (a + PGSIZE) with (a + 1 * PGSIZE) by lia. rewrite page_succ by done.
  case_decide as D1; case_decide as D2; try lia.
  - f_equal. lia.
  - case_decide as D3; lia.
  - by rewrite decide_False by lia.
Qed.

(** The user pages among the pages mapped have their new owner. *)
Definition map_owned (own' : gmap Z owner) (r vpn k pa : Z) (user : bool) : Prop :=
  user = true -> forall i, 0 <= i < k ->
  own' !! (pa + i * PGSIZE) = Some (OUser r (vpn + i)).

Section Mappages.
Context (r perm : Z) (user : bool) (env : list (kst -> kst)).
Context (Hperm : 0 <= perm < 1024) (HRWX : has perm RWX = true).
Context (HUu : has perm PTE_U = true -> user = true).

Lemma mappages_from_spec : forall n a pa s own fl,
  vm_ok s own fl -> is_root own r -> a mod PGSIZE = 0 -> 0 <= a ->
  a + (Z.of_nat n + 1) * PGSIZE <= MAXVA ->
  pa mod PGSIZE = 0 -> 0 <= pa -> pa + (Z.of_nat n + 1) * PGSIZE <= 2 ^ 56 ->
  (forall i, 0 <= i <= Z.of_nat n -> has (pte_of (k_mem s) r (a + i * PGSIZE)) PTE_V = false) ->
  (user = true -> forall i, 0 <= i <= Z.of_nat n ->
     page_ok (pa + i * PGSIZE) /\ own !! (pa + i * PGSIZE) = None /\ pa + i * PGSIZE ∉ fl) ->
  exists e k s' own' fl',
    mappages_from n r a pa perm (mkWorld s env) = Ok e (mkWorld s' env) /\
    grows r (map_pages user pa k) s own fl s' own' fl' /\ mapped own s r a k pa perm s' /\
    map_owned own' r (a / PGSIZE) k pa user /\
    ((e = 0 /\ k = Z.of_nat n + 1 /\ (length fl <= length fl' + 2 * S n)%nat) \/
     (e = -1 /\ 0 <= k <= Z.of_nat n /\ fl' = [] /\ (length fl < 2 * S n)%nat)).
Proof.
  induction n as [|n IH]; intros a pa s own fl Hok Hr Hal Ha Hamax Hpal Hpa Hpamax Hun Hfresh;
    assert (HPG : PGSIZE = 4096) by done.
  all: assert (Hun0 : has (pte_of (k_mem s) r a) PTE_V = false)
         by (specialize (Hun 0 ltac:(lia)); by rewrite Z.mul_0_l, Z.add_0_r in Hun).
  all: assert (Hfresh0 : user = true -> page_ok pa /\ own !! pa = None /\ pa ∉ fl)
         by (intros HU; specialize (Hfresh HU 0 ltac:(lia)); by rewrite Z.mul_0_l, !Z.add_0_r in Hfresh).
  all: destruct (map_page r a pa perm user s own fl env) as (addr & s1 & own1 & fl1 & Hw & Hres); try done; try lia.
  all: cbn [mappages_from]; rewrite (run_bind _ _ _ addr (mkWorld s1 env)) by done.
  all: destruct Hres as [(-> & -> & Hlen & Hex)|(Hnz & Hlen & Hinval & Hg & Hm)];
    [exists (-1), 0, s1, own1, []; split; [done|];
     split; [eapply grows_mono; [|apply Hex]; done|];
     split; [apply mapped_0, Hex|]; split; [intros _ i Hi; lia|right; repeat split; lia]|].
  all: rewrite (proj2 (Z.eqb_neq addr 0)) by done.
  all: rewrite (run_bind _ _ _ (ld64 (k_mem s1) addr) (mkWorld s1 env)) by done; rewrite Hinval.
  all: set (s2 := set_k_mem (st64 (k_mem s1) addr (mk_pte pa perm)) s1) in *.
  all: set (own2 := map_owner own1 r (a / PGSIZE) pa user) in *.
  all: rewrite (run_bind _ _ _ tt (mkWorld s2 env)) by reflexivity.
  all: assert (Hown0 : user = true -> own2 !! pa = Some (OUser r (a / PGSIZE)))
         by (intros HU; unfold own2, map_owner; rewrite HU; apply lookup_insert_eq).
  - exists 0, 1, s2, own2, fl1. split; [done|]. split; [done|]. split; [done|]. split; [|left; repeat split; lia].
    intros HU i Hi. replace i with 0 by lia. rewrite Z.mul_0_l, !Z.add_0_r. by apply Hown0.
  - assert (Hu1 : u64 (a + PGSIZE) = a + PGSIZE).
    { unfold u64. apply Z.mod_small. change MAXVA with (2 ^ 38) in Hamax. lia. }
    assert (Hu2 : u64 (pa + PGSIZE) = pa + PGSIZE) by (unfold u64; apply Z.mod_small; lia).
    rewrite Hu1, Hu2.
    assert (Hmod : forall x, x mod PGSIZE = 0 -> (x + PGSIZE) mod PGSIZE = 0).
    { intros x Hx. replace (x + PGSIZE) with (x + 1 * PGSIZE) by lia. by rewrite Z.mod_add. }
    assert (Hdiv : (a + PGSIZE) / PGSIZE = a / PGSIZE + 1).
    { replace (a + PGSIZE) with (a + 1 * PGSIZE) by lia. by apply page_succ. }
    destruct (IH (a + PGSIZE) (pa + PGSIZE) s2 own2 fl1)
      as (e & k & s' & own' & fl' & Hrun & Hg' & Hm' & Ho' & He); try lia; try (by apply Hmod).
    + apply Hg.
    + eapply is_root_sub; [apply Hg|done].
    + intros i Hi. rewrite (Hm r) by (try done; lia).
      replace (a + PGSIZE + i * PGSIZE) with (a + (i + 1) * PGSIZE) by lia.
      rewrite page_succ, decide_False by (try done; lia). apply Hun. lia.
    + intros HU i Hi. replace (pa + PGSIZE + i * PGSIZE) with (pa + (i + 1) * PGSIZE) by lia.
      destruct (Hfresh HU (i + 1) ltac:(lia)) as (H1 & H2 & H3). split; [done|]. split.
      * destruct (own2 !! (pa + (i + 1) * PGSIZE)) as [o|] eqn:Ho; [|done].
        destruct (gr_new Hg _ o Ho H2) as [[? _]|[(_ & j & Hj & Heq) _]]; [done|]. lia.
      * intros Hin. apply H3. destruct (gr_fl Hg) as [u ->]. apply elem_of_app. by right.
    + assert (Hk : 0 <= k) by (destruct He as [(_ & -> & _)|[_ [[? ?] _]]]; lia).
      exists e, (k + 1), s', own', fl'. split; [done|]. split.
      { eapply grows_trans; (eapply grows_mono; [|done]); intros q (HU & i & Hi & ->); (split; [done|]).
        - exists i. lia.
        - exists (i + 1). lia. }
      split; [eapply mapped_app; [done|apply Hg|done..]|]. split.
      * intros HU i Hi. destruct (decide (i = 0)) as [->|].
        { rewrite Z.mul_0_l, !Z.add_0_r. eapply lookup_weaken; [by apply Hown0|apply Hg']. }
        specialize (Ho' HU (i - 1) ltac:(lia)). rewrite Hdiv in Ho'.
        replace (pa + PGSIZE + (i - 1) * PGSIZE) with (pa + i * PGSIZE) in Ho' by lia.
        replace (a / PGSIZE + 1 + (i - 1)) with (a / PGSIZE + i) in Ho' by lia. done.
      * destruct He as [(-> & -> & ?)|(-> & Hk' & -> & ?)]; [left|right]; repeat split; lia.
Qed.

(** [mappages] of a range of virtual addresses: [n + 1] pages from the first one on. *)
Lemma mappages_spec va size pa s own fl :
  let a := PGROUNDDOWN va in
  let n := (va + size - 1) / PGSIZE - va / PGSIZE in
  vm_ok s own fl -> is_root own r -> 0 <= va -> 0 < size -> va + size <= MAXVA ->
  pa mod PGSIZE = 0 -> 0 <= pa -> pa + (n + 1) * PGSIZE <= 2 ^ 56 ->
  (forall i, 0 <= i <= n -> has (pte_of (k_mem s) r (a + i * PGSIZE)) PTE_V = false) ->
  (user = true -> forall i, 0 <= i <= n ->
     page_ok (pa + i * PGSIZE) /\ own !! (pa + i * PGSIZE) = None /\ pa + i * PGSIZE ∉ fl) ->
  exists e k s' own' fl',
    mappages r va size pa perm (mkWorld s env) = Ok e (mkWorld s' env) /\
    grows r (map_pages user pa k) s own fl s' own' fl' /\ mapped own s r va k pa perm s' /\
    map_owned own' r (va / PGSIZE) k pa user /\
    ((e = 0 /\ k = n + 1 /\ Z.of_nat (length fl) <= Z.of_nat (length fl') + 2 * (n + 1)) \/
     (e = -1 /\ 0 <= k <= n /\ fl' = [] /\ Z.of_nat (length fl) < 2 * (n + 1))).
Proof.
  intros a n Hok Hr Hva Hsz Hmax Hpal Hpa Hpamax Hun Hfresh.
  assert (HPG : PGSIZE = 4096) by done. change MAXVA with (2 ^ 38) in Hmax.
  assert (Ha : a = va / PGSIZE * PGSIZE) by apply PGROUNDDOWN_div.
  assert (Hadiv : a / PGSIZE = va / PGSIZE) by (rewrite Ha; by apply Z.div_mul).
  assert (Hn : 0 <= n) by (unfold n; apply Zle_minus_le_0, Z.div_le_mono; lia).
  assert (Hlast : PGROUNDDOWN (u64 (va + size - 1)) = a + n * PGSIZE).
  { unfold u64. rewrite Z.mod_small by lia. rewrite PGROUNDDOWN_div, Ha. unfold n. lia. }
  pose proof (Z.mul_div_le (va + size - 1) PGSIZE ltac:(lia)).
  unfold mappages. fold a. rewrite Hlast.
  replace (a + n * PGSIZE - a) with (n * PGSIZE) by lia.
  unfold u64. rewrite Z.mod_small by lia. rewrite Z.div_mul by lia.
  destruct (mappages_from_spec (Z.to_nat n) a pa s own fl)
    as (e & k & s' & own' & fl' & Hrun & Hg & Hm & Ho & He);
    rewrite ?Z2Nat.id in * by lia; try done; try lia.
  - rewrite Ha. by apply Z.mod_mul.
  - rewrite Ha. apply Z.mul_nonneg_nonneg; [apply Z.div_pos; lia|done].
  - change MAXVA with (2 ^ 38).
    assert (Hdd : (va + size - 1) / PGSIZE < 2 ^ 26) by (apply Z.div_lt_upper_bound; lia).
    unfold n. rewrite Ha. unfold PGSIZE in *. lia.
  - exists e, k, s', own', fl'. rewrite Hadiv in Ho. split; [done|]. split; [done|].
    split; [intros r' va' Hr' Hva'; by rewrite Hm, Hadiv by done|]. split; [done|].
    destruct He as [(? & ? & ?)|(? & ? & ? & ?)]; [left|right]; repeat split; try done; lia.
Qed.

End Mappages.

(** ** walkaddr *)

Lemma walkaddr_run r va s own env :
  pt_inv (k_mem s) own -> is_root own r -> 0 <= va ->
  walkaddr r va (mkWorld s env) =
  Ok (if MAXVA <=? va then 0 else
      if has (pte_of (k_mem s) r va) PTE_V && has (pte_of (k_mem s) r va) PTE_U
      then PTE2PA (pte_of (k_mem s) r va) else 0) (mkWorld s env).
Proof.
  intros Hinv Hr Hva. unfold walkaddr. destruct (Z.leb_spec MAXVA va); [done|].
  rewrite (run_bind _ _ _ (walk_addr (k_mem s) 2 r va) (mkWorld s env)) by (by apply walk_noalloc).
  assert (Hr' : own !! r = Some (OTable r 2 (prefix 2 va))) by (by rewrite prefix_2).
  unfold pte_of.
  destruct (walk_addr_leaf _ _ _ va Hinv 2 r Hr') as [[-> ->]|(p & Hp & -> & ->)]; [done|].
  pose proof (PX_bound 0 va ltac:(lia)).
  pose proof (pi_page _ _ Hinv _ _ Hp) as Hpok. apply (page_ok_pos Hks) in Hpok.
  rewrite (proj2 (Z.eqb_neq _ 0)) by lia.
  rewrite (run_bind _ _ _ (ld64 (k_mem s) (p + 8 * PX 0 va)) (mkWorld s env)) by done.
  destruct (has _ PTE_V); [|done]. by destruct (has _ PTE_U).
Qed.

(** What user code can reach belongs to its own address space. *)
Lemma translate_owner m own r va pa :
  pt_inv m own -> is_root own r -> 0 <= va -> translate m r va = Some pa ->
  exists p, own !! p = Some (OUser r (va / PGSIZE)) /\ pa = p + va mod PGSIZE.
Proof.
  intros Hinv Hr Hva. unfold translate. destruct (Z.leb_spec MAXVA va); [done|].
  assert (Hr' : own !! r = Some (OTable r 2 (prefix 2 va))) by (by rewrite prefix_2).
  unfold pte_of.
  destruct (walk_addr_leaf _ _ _ va Hinv 2 r Hr') as [[_ ->]|(p & Hp & _ & ->)]; [done|].
  cbv zeta. destruct (has _ PTE_V) eqn:HV; [|done]. destruct (has _ PTE_U) eqn:HU; [|done].
  cbn [andb]. intros [= <-].
  pose proof (proj2 (pi_leaf _ _ Hinv _ _ _ _ Hp (PX_bound 0 va ltac:(lia)) HV) HU) as Ho.
  rewrite prefix_0 in Ho. eexists. split; [exact Ho|done].
Qed.

Lemma translate_inj m own r va r' va' pa :
  pt_inv m own -> is_root own r -> is_root own r' -> 0 <= va -> 0 <= va' ->
  translate m r va = Some pa -> translate m r' va' = Some pa -> r = r' /\ va = va'.
Proof.
  intros Hinv Hr Hr' Hva Hva' H H'.
  apply (translate_owner m own) in H as (p & Hp & ->); try done.
  apply (translate_owner m own) in H' as (p' & Hp' & Heq); try done.
  pose proof (pi_aligned _ _ _ _ Hinv Hp) as Ha. pose proof (pi_aligned _ _ _ _ Hinv Hp') as Ha'.
  pose proof (Z.mod_pos_bound va PGSIZE ltac:(done)). pose proof (Z.mod_pos_bound va' PGSIZE ltac:(done)).
  assert (p = p') as <-.
  { destruct (decide (p = p')); [done|]. destruct (page_apart p p' Ha Ha'); [done|lia..]. }
  rewrite Hp in Hp'. injection Hp' as -> Hvpn. split; [done|].
  rewrite (Z.div_mod va PGSIZE), (Z.div_mod va' PGSIZE) by done. lia.
Qed.

End Walk.
