(* ===== verification/UserMem.v ===== *)
(** * User memory: the copy functions and the user half of vm.c

    The copy functions move bytes between the kernel and the address space of a root;
    the theorems say which bytes user code sees afterwards, in every address space. *)

From stdpp Require Import base gmap list strings.
From Stdlib Require Import ZArith Lia.
From S2P Require Import Prelude Riscv Memory State Spinlock Kalloc Vm PageTable.

Section Copy.
Context {KS : KSyms} (Hks : ksyms_ok KS) `{PA : !PageAllocator kalloc kfree}.

(** After the bytes [bs] have been written at [dst] in the address space of [r]. *)
Definition wrote (own : gmap Z owner) (m : mem) (r dst : Z) (bs : list Z) (m' : mem) : Prop :=
  forall r' va, is_root own r' -> 0 <= va ->
  user_byte m' r' va =
  if decide (r' = r /\ dst <= va < dst + Z.of_nat (length bs))
  then Some (u8 (nth (Z.to_nat (va - dst)) bs 0)) else user_byte m r' va.

(** Pages that do not belong to the user part of [r] are untouched. *)
Definition only_user (own : gmap Z owner) (r : Z) (m m' : mem) : Prop :=
  forall p, p mod PGSIZE = 0 -> (forall vpn, own !! p <> Some (OUser r vpn)) ->
  same_page m m' p.

Record stored (own : gmap Z owner) (fl : list Z) (r dst : Z) (bs : list Z) (s s' : kst) : Prop := {
  sd_ok : vm_ok s' own fl;
  sd_mem : mem_only s s';
  sd_pte : same_pte s own s';
  sd_wrote : wrote own (k_mem s) r dst bs (k_mem s');
  sd_only : only_user own r (k_mem s) (k_mem s')
}.
#[global] Arguments sd_ok {_ _ _ _ _ _ _} _.
#[global] Arguments sd_mem {_ _ _ _ _ _ _} _.
#[global] Arguments sd_pte {_ _ _ _ _ _ _} _.
#[global] Arguments sd_wrote {_ _ _ _ _ _ _} _.
#[global] Arguments sd_only {_ _ _ _ _ _ _} _.

Lemma same_pte_of s own s' r va :
  same_pte s own s' -> is_root own r -> 0 <= va < MAXVA ->
  pte_of (k_mem s') r va = pte_of (k_mem s) r va.
Proof. intros H Hr Hva. apply (H r). by rewrite prefix_2. Qed.

Lemma same_pte_translate s own s' r va :
  same_pte s own s' -> is_root own r -> 0 <= va ->
  translate (k_mem s') r va = translate (k_mem s) r va.
Proof.
  intros H Hr Hva. unfold translate. destruct (Z.leb_spec MAXVA va); [done|].
  by rewrite (same_pte_of s own s').
Qed.

Lemma stored_refl own fl r dst s : vm_ok s own fl -> stored own fl r dst [] s s.
Proof.
  intros H. split; try done. intros r' va Hr Hva. rewrite decide_False; [done|].
  simpl. lia.
Qed.

Lemma stored_trans own fl r dst bs1 bs2 s1 s2 s3 :
  stored own fl r dst bs1 s1 s2 ->
  stored own fl r (dst + Z.of_nat (length bs1)) bs2 s2 s3 ->
  stored own fl r dst (bs1 ++ bs2) s1 s3.
Proof.
  intros A B. split.
  - apply B.
  - eapply mem_only_trans; [apply A|apply B].
  - intros r' va l pt H. rewrite (sd_pte B r') by done. by apply (sd_pte A r').
  - intros r' va Hr Hva. rewrite (sd_wrote B), (sd_wrote A) by done. rewrite length_app.
    destruct (decide (r' = r /\ dst + Z.of_nat (length bs1) <= va <
      dst + Z.of_nat (length bs1) + Z.of_nat (length bs2))).
    + rewrite decide_True by lia. rewrite app_nth2 by lia. do 3 f_equal. lia.
    + destruct (decide (r' = r /\ dst <= va < dst + Z.of_nat (length bs1))).
      * rewrite decide_True by lia. by rewrite app_nth1 by lia.
      * by rewrite decide_False by lia.
  - intros p Hp Hn. eapply same_page_trans; [by apply A|by apply B].
Qed.

(** Addresses of one page translate to one page. *)
Lemma translate_page m r va va' p :
  0 <= va -> 0 <= va' -> va' / PGSIZE = va / PGSIZE ->
  translate m r va = Some (p + va mod PGSIZE) -> translate m r va' = Some (p + va' mod PGSIZE).
Proof.
  intros Hva Hva' Hpg. unfold translate.
  assert (Hlt : (MAXVA <=? va') = (MAXVA <=? va)).
  { unfold PGSIZE in Hpg. change MAXVA with (2 ^ 26 * 4096).
    pose proof (Z.div_mod va 4096). pose proof (Z.div_mod va' 4096).
    pose proof (Z.mod_pos_bound va 4096). pose proof (Z.mod_pos_bound va' 4096).
    destruct (Z.leb_spec (2 ^ 26 * 4096) va), (Z.leb_spec (2 ^ 26 * 4096) va'); lia. }
  rewrite Hlt. destruct (MAXVA <=? va); [done|]. unfold pte_of.
  rewrite (pte_at_page m va' va) by done. cbv zeta.
  generalize (pte_at m 2 r va). intros v. destruct (_ && _); [|done]. intros [= H]. apply Z.add_cancel_r in H. by rewrite H.
Qed.

(** Storing into one page of user memory. *)
Lemma store_user s own fl r p va bs :
  vm_ok s own fl -> is_root own r -> own !! p = Some (OUser r (va / PGSIZE)) -> 0 <= va ->
  translate (k_mem s) r va = Some (p + va mod PGSIZE) ->
  va mod PGSIZE + Z.of_nat (length bs) <= PGSIZE ->
  stored own fl r va bs s (set_k_mem (st_bytes (k_mem s) (p + va mod PGSIZE) bs) s).
Proof.
  intros Hok Hr Hp Hva Htr Hlen. pose proof Hok as [Hinv Hav Hfree Hlock].
  pose proof (Z.mod_pos_bound va PGSIZE ltac:(done)) as Hm.
  pose proof (pi_aligned _ _ _ _ Hinv Hp) as Hpa.
  set (m' := st_bytes (k_mem s) (p + va mod PGSIZE) bs).
  assert (Hld : forall a, a < p \/ p + PGSIZE <= a -> ld8 m' a = ld8 (k_mem s) a).
  { intros a Ha. unfold m'. rewrite ld8_st_bytes.
    destruct (Z.leb_spec (p + va mod PGSIZE) a), (Z.ltb_spec a (p + va mod PGSIZE + Z.of_nat (length bs)));
      cbn [andb]; try reflexivity; lia. }
  assert (Hsame : forall q, q mod PGSIZE = 0 -> q <> p -> same_page (k_mem s) m' q).
  { intros q Hq Hne a Ha. apply Hld. destruct (page_apart q p Hq Hpa Hne); lia. }
  assert (Htab : forall q r' l pre, own !! q = Some (OTable r' l pre) -> same_page (k_mem s) m' q).
  { intros q r' l pre Hq. apply Hsame; [by eapply pi_aligned|congruence]. }
  assert (Hpte : same_pte s own (set_k_mem m' s)).
  { intros r' va' l pt Hpt. cbn. by eapply pte_at_frame. }
  assert (Hin : forall va', va <= va' < va + Z.of_nat (length bs) ->
    translate (k_mem s) r va' = Some (p + va' mod PGSIZE)).
  { intros va' Hr'. apply (translate_page _ _ va); [done|lia| |done].
    pose proof (Z.div_mod va PGSIZE ltac:(done)). unfold PGSIZE in *.
    symmetry. apply Z.div_unique with (va' - 4096 * (va / 4096)); lia. }
  split; [|apply mem_only_set_mem|done| |].
  - split; cbn; try done.
    + by eapply pt_inv_frame.
    + apply (avail_frame s); [done| |done]. intros q Hq. apply Hsame.
      * by apply (avail_page_ok _ _ _ Hav) in Hq as [].
      * apply Hfree in Hq. congruence.
  - intros r' va' Hr' Hva'. unfold user_byte.
    rewrite (same_pte_translate s own (set_k_mem m' s)) by done.
    change (k_mem (set_k_mem m' s)) with m'.
    destruct (translate (k_mem s) r' va') as [pa|] eqn:Htr'; cbn [fmap option_fmap option_map].
    + destruct (translate_owner _ own r' va' pa Hinv Hr' Hva' Htr') as (p' & Hp' & ->).
      pose proof (Z.mod_pos_bound va' PGSIZE ltac:(done)).
      destruct (decide (p' = p)) as [->|Hne].
      * rewrite Hp in Hp'. injection Hp' as <- Hvpn.
        pose proof (Z.div_mod va PGSIZE ltac:(done)). pose proof (Z.div_mod va' PGSIZE ltac:(done)).
        unfold m'. rewrite ld8_st_bytes.
        destruct (Z.leb_spec (p + va mod PGSIZE) (p + va' mod PGSIZE)),
          (Z.ltb_spec (p + va' mod PGSIZE) (p + va mod PGSIZE + Z.of_nat (length bs)));
          cbn [andb]; first [rewrite decide_True by lia | rewrite decide_False by lia].
        -- do 3 f_equal. lia.
        -- done.
        -- done.
        -- lia.
      * rewrite decide_False.
        -- f_equal. apply Hld. pose proof (pi_aligned _ _ _ _ Hinv Hp').
           destruct (page_apart p' p); [done..|lia|lia].
        -- intros [-> Hrange]. apply Hne. rewrite (Hin va') in Htr' by done.
           injection Htr'. lia.
    + rewrite decide_False; [done|]. intros [-> Hrange]. by rewrite (Hin va') in Htr'.
  - intros q Hq Hnu. cbn. apply Hsame; [done|]. intros ->. by eapply Hnu.
Qed.
(** ** The copy loops *)

Lemma rounddown_page va : 0 <= va ->
  0 <= PGROUNDDOWN va /\ PGROUNDDOWN va / PGSIZE = va / PGSIZE /\
  va - PGROUNDDOWN va = va mod PGSIZE /\ (MAXVA <=? PGROUNDDOWN va) = (MAXVA <=? va).
Proof.
  intros Hva. rewrite PGROUNDDOWN_div.
  pose proof (Z.div_mod va PGSIZE ltac:(done)). pose proof (Z.mod_pos_bound va PGSIZE ltac:(done)).
  pose proof (Z.div_pos va PGSIZE ltac:(done) ltac:(done)).
  change MAXVA with (2 ^ 26 * PGSIZE). unfold PGSIZE in *.
  split; [lia|]. split; [by apply Z.div_mul|]. split; [lia|].
  destruct (Z.leb_spec (2 ^ 26 * 4096) (va / 4096 * 4096)), (Z.leb_spec (2 ^ 26 * 4096) va); lia.
Qed.

(** [walkaddr] of the page of [va], as the copy loops call it. *)
Lemma walkaddr_down r va s own fl env :
  vm_ok s own fl -> is_root own r -> 0 <= va ->
  (translate (k_mem s) r va = None /\
   walkaddr r (PGROUNDDOWN va) (mkWorld s env) = Ok 0 (mkWorld s env)) \/
  (exists p, va < MAXVA /\ translate (k_mem s) r va = Some (p + va mod PGSIZE) /\ 0 < p /\
   own !! p = Some (OUser r (va / PGSIZE)) /\
   walkaddr r (PGROUNDDOWN va) (mkWorld s env) = Ok p (mkWorld s env)).
Proof.
  intros Hok Hr Hva. destruct (rounddown_page va Hva) as (H0 & Hpg & _ & Hmax).
  rewrite (walkaddr_run Hks r _ s own env) by first [done | apply Hok]. rewrite Hmax.
  destruct (translate (k_mem s) r va) as [pa|] eqn:Htr.
  - right. destruct (translate_owner _ own r va pa (vo_inv _ _ _ Hok) Hr Hva Htr) as (p & Hp & ->).
    exists p. pose proof (pi_page _ _ (vo_inv _ _ _ Hok) _ _ Hp) as Hpok.
    apply (page_ok_pos Hks) in Hpok.
    unfold translate in Htr. destruct (Z.leb_spec MAXVA va); [done|].
    repeat split; try done; try lia. unfold pte_of in *.
    rewrite (pte_at_page _ (PGROUNDDOWN va) va) by done. revert Htr. cbv zeta.
    generalize (pte_at (k_mem s) 2 r va). intros v. destruct (_ && _); [|done].
    intros [= H1]. apply Z.add_cancel_r in H1. by rewrite H1.
  - left. split; [done|]. unfold translate in Htr. destruct (MAXVA <=? va); [done|].
    unfold pte_of in *. rewrite (pte_at_page _ (PGROUNDDOWN va) va) by done.
    by destruct (_ && _).
Qed.

(** [copyout]: the bytes reach user memory, up to the first address that is not mapped. *)
Lemma copyout_fuel_spec r own fl env : forall fuel dst src s,
  (length src <= fuel)%nat -> vm_ok s own fl -> is_root own r -> 0 <= dst ->
  exists e k s', copyout_fuel fuel r dst src (mkWorld s env) = Ok e (mkWorld s' env) /\
    stored own fl r dst (take k src) s s' /\
    ((e = 0 /\ k = length src) \/
     (e = -1 /\ (k < length src)%nat /\ translate (k_mem s) r (dst + Z.of_nat k) = None)).
Proof.
  induction fuel as [|fuel IH]; intros dst src s Hlen Hok Hr Hdst.
  { destruct src; [|simpl in Hlen; lia]. exists 0, 0%nat, s. split; [done|].
    split; [by apply stored_refl|by left]. }
  destruct src as [|b src].
  { exists 0, 0%nat, s. split; [done|]. split; [by apply stored_refl|by left]. }
  cbn [copyout_fuel]. cbv zeta. set (bs := b :: src) in *.
  assert (Hbs : (0 < length bs)%nat) by (simpl; lia).
  destruct (rounddown_page dst Hdst) as (H0 & Hpg & Hoff & _).
  pose proof (Z.mod_pos_bound dst PGSIZE ltac:(done)) as Hm.
  destruct (walkaddr_down r dst s own fl env Hok Hr Hdst) as [[Hn Hw]|(p & Hmax & Htr & Hp0 & Hp & Hw)].
  { rewrite (run_bind _ _ _ 0 (mkWorld s env)) by done. exists (-1), 0%nat, s.
    split; [done|]. split; [by apply stored_refl|]. right. rewrite Z.add_0_r. done. }
  rewrite (run_bind _ _ _ p (mkWorld s env)) by done. rewrite (proj2 (Z.eqb_neq p 0)) by lia.
  rewrite Hoff. set (n := Z.to_nat (Z.min (PGSIZE - dst mod PGSIZE) (Z.of_nat (length bs)))).
  assert (Hn : (0 < n <= length bs)%nat /\ Z.of_nat n <= PGSIZE - dst mod PGSIZE) by lia.
  assert (Htake : length (take n bs) = n) by (rewrite length_take; lia).
  pose proof (store_user s own fl r p dst (take n bs) Hok Hr Hp Hdst Htr ltac:(lia)) as Hst.
  set (s1 := set_k_mem _ s) in Hst.
  rewrite (run_bind _ _ _ tt (mkWorld s1 env)) by reflexivity.
  destruct (decide (n = length bs)) as [Heq|Hne].
  - rewrite Heq, drop_all in *. exists 0, (length bs), s1.
    split; [by destruct fuel|]. split; [done|by left].
  - assert (Hnext : u64 (PGROUNDDOWN dst + PGSIZE) = dst + Z.of_nat n).
    { unfold u64. change MAXVA with (2 ^ 38) in Hmax.
      assert (PGSIZE = 4096) by done. rewrite Z.mod_small; lia. }
    rewrite Hnext.
    destruct (IH (dst + Z.of_nat n) (drop n bs) s1) as (e & k & s' & Hrun & Hst' & He).
    + rewrite length_drop. lia.
    + apply Hst.
    + done.
    + lia.
    + exists e, (n + k)%nat, s'. split; [done|]. split.
      * rewrite <- take_take_drop. eapply stored_trans; [done|]. by rewrite Htake.
      * rewrite length_drop in He.
        rewrite (same_pte_translate s own s1) in He by (first [apply Hst | done | lia]).
        destruct He as [[-> ->]|(-> & Hk & Ht)]; [left; split; [done|lia]|].
        right. split; [done|]. split; [lia|]. by rewrite Nat2Z.inj_add, Z.add_assoc.
Qed.

(** The bytes of one page from [va] on, as user code sees them. *)
Lemma user_byte_page m r va p i :
  0 <= va -> translate m r va = Some (p + va mod PGSIZE) ->
  0 <= i -> va mod PGSIZE + i < PGSIZE ->
  user_byte m r (va + i) = Some (ld8 m (p + va mod PGSIZE + i)).
Proof.
  intros Hva Htr Hi Hlt. pose proof (Z.div_mod va PGSIZE ltac:(done)).
  pose proof (Z.mod_pos_bound va PGSIZE ltac:(done)).
  assert (Hd : (va + i) / PGSIZE = va / PGSIZE).
  { symmetry. apply Z.div_unique with (va mod PGSIZE + i); lia. }
  assert (Hmod : (va + i) mod PGSIZE = va mod PGSIZE + i).
  { symmetry. apply Z.mod_unique with (va / PGSIZE); lia. }
  unfold user_byte. rewrite (translate_page m r va (va + i) p), Hmod by (done || lia).
  cbn. do 2 f_equal. lia.
Qed.

(** The bytes [bs] are what user code sees from [va] on. *)
Definition reads (m : mem) (r va : Z) (bs : list Z) : Prop :=
  forall i, (i < length bs)%nat -> user_byte m r (va + Z.of_nat i) = Some (nth i bs 0).

Lemma reads_app m r va bs1 bs2 :
  reads m r va bs1 -> reads m r (va + Z.of_nat (length bs1)) bs2 -> reads m r va (bs1 ++ bs2).
Proof.
  intros H1 H2 i Hi. rewrite length_app in Hi.
  destruct (decide (i < length bs1)%nat).
  - rewrite app_nth1 by done. by apply H1.
  - rewrite app_nth2 by lia. rewrite <- H2 by lia. f_equal. lia.
Qed.

Lemma reads_page m r va p n :
  0 <= va -> translate m r va = Some (p + va mod PGSIZE) ->
  va mod PGSIZE + Z.of_nat n <= PGSIZE -> reads m r va (ld_bytes m (p + va mod PGSIZE) n).
Proof.
  intros Hva Htr Hn i Hi. rewrite length_ld_bytes in Hi.
  rewrite nth_ld_bytes by done. apply user_byte_page; [done..|lia|lia].
Qed.

(** [copyin]: the bytes user code sees, up to the first address that is not mapped. *)
Lemma copyin_fuel_spec r own fl env s :
  vm_ok s own fl -> is_root own r -> forall fuel src len,
  (len <= fuel)%nat -> 0 <= src ->
  exists e bs, copyin_fuel fuel r src len (mkWorld s env) = Ok (e, bs) (mkWorld s env) /\
    reads (k_mem s) r src bs /\
    ((e = 0 /\ length bs = len) \/
     (e = -1 /\ (length bs < len)%nat /\ translate (k_mem s) r (src + Z.of_nat (length bs)) = None)).
Proof.
  intros Hok Hr. induction fuel as [|fuel IH]; intros src len Hlen Hsrc.
  { destruct len; [|lia]. exists 0, []. split; [done|]. split; [by intros i Hi; inversion Hi|by left]. }
  destruct len as [|len].
  { exists 0, []. split; [done|]. split; [by intros i Hi; inversion Hi|by left]. }
  cbn [copyin_fuel]. cbv zeta. set (k := S len) in *.
  destruct (rounddown_page src Hsrc) as (H0 & Hpg & Hoff & _).
  pose proof (Z.mod_pos_bound src PGSIZE ltac:(done)) as Hm.
  destruct (walkaddr_down r src s own fl env Hok Hr Hsrc) as [[Hn Hw]|(p & Hmax & Htr & Hp0 & Hp & Hw)].
  { rewrite (run_bind _ _ _ 0 (mkWorld s env)) by done. exists (-1), [].
    split; [done|]. split; [by intros i Hi; inversion Hi|]. right. cbn [length].
    rewrite Z.add_0_r. repeat split; [lia|done]. }
  rewrite (run_bind _ _ _ p (mkWorld s env)) by done. rewrite (proj2 (Z.eqb_neq p 0)) by lia.
  rewrite Hoff. set (n := Z.to_nat (Z.min (PGSIZE - src mod PGSIZE) (Z.of_nat k))).
  assert (Hn : (0 < n <= k)%nat /\ Z.of_nat n <= PGSIZE - src mod PGSIZE) by lia.
  rewrite (run_bind _ _ _ (ld_bytes (k_mem s) (p + src mod PGSIZE) n) (mkWorld s env)) by reflexivity.
  pose proof (reads_page (k_mem s) r src p n Hsrc Htr ltac:(lia)) as Hrd.
  destruct (decide (n = k)) as [Heq|Hne].
  - rewrite Heq, Nat.sub_diag in *. exists 0, (ld_bytes (k_mem s) (p + src mod PGSIZE) k).
    split; [|split; [done|left; by rewrite length_ld_bytes]].
    rewrite (run_bind _ _ _ (0, []) (mkWorld s env)) by (by destruct fuel).
    cbn. by rewrite app_nil_r.
  - assert (Hnext : u64 (PGROUNDDOWN src + PGSIZE) = src + Z.of_nat n).
    { unfold u64. change MAXVA with (2 ^ 38) in Hmax.
      assert (PGSIZE = 4096) by done. rewrite Z.mod_small; lia. }
    rewrite Hnext.
    destruct (IH (src + Z.of_nat n) (k - n)%nat) as (e & bs & Hrun & Hrd' & He); [lia..|].
    rewrite (run_bind _ _ _ (e, bs) (mkWorld s env)) by done.
    exists e, (ld_bytes (k_mem s) (p + src mod PGSIZE) n ++ bs). split; [done|].
    split; [apply reads_app; [done|by rewrite length_ld_bytes]|].
    rewrite length_app, length_ld_bytes.
    destruct He as [[-> He]|(-> & Hk & Ht)]; [left; split; [done|lia]|].
    right. split; [done|]. split; [lia|]. by rewrite Nat2Z.inj_add, Z.add_assoc.
Qed.

(** ** Strings *)

Definition no_nul (l : list Z) : Prop := Forall (fun c => c <> 0) l.

Lemma copyinstr_page_spec m : forall n p,
  exists str, no_nul str /\
    ((copyinstr_page m p n = (str ++ [0], true) /\ (length str < n)%nat) \/
     (copyinstr_page m p n = (str, false) /\ length str = n)) /\
    (forall i, (i < length (copyinstr_page m p n).1)%nat ->
       nth i (copyinstr_page m p n).1 0 = ld8 m (p + Z.of_nat i)).
Proof.
  induction n as [|n IH]; intros p; cbn [copyinstr_page].
  - exists []. split; [constructor|]. split; [by right|]. cbn. lia.
  - destruct (Z.eqb_spec (ld8 m p) 0) as [Hz|Hnz].
    + exists []. split; [constructor|]. split; [left; cbn; split; [done|lia]|].
      intros [|i] Hi; cbn in *; [|lia]. by rewrite Z.add_0_r.
    + destruct (IH (p + 1)) as (str & Hnn & Hres & Hnth).
      destruct (copyinstr_page m (p + 1) n) as [bs got]. cbn [fst] in *.
      exists (ld8 m p :: str). split; [by constructor|]. split.
      * destruct Hres as [[[= -> ->] Hl]|[[= -> ->] Hl]]; [left|right];
          cbn; split; (done || lia).
      * intros [|i] Hi; cbn in *; [by rewrite Z.add_0_r|].
        rewrite Hnth by lia. f_equal. lia.
Qed.

Lemma reads_string_page m r va p n :
  0 <= va -> translate m r va = Some (p + va mod PGSIZE) ->
  va mod PGSIZE + Z.of_nat n <= PGSIZE ->
  reads m r va (copyinstr_page m (p + va mod PGSIZE) n).1.
Proof.
  intros Hva Htr Hn i Hi.
  destruct (copyinstr_page_spec m n (p + va mod PGSIZE)) as (str & _ & Hres & Hnth).
  rewrite Hnth by done. apply user_byte_page; [done..|lia|].
  assert (length (copyinstr_page m (p + va mod PGSIZE) n).1 <= n)%nat.
  { destruct Hres as [[-> Hl]|[-> Hl]]; cbn; rewrite ?length_app; cbn; lia. }
  lia.
Qed.

(** [copyinstr] copies a string with its NUL, or fails: the string is longer than
    [max], or an address inside it is not mapped. *)
Lemma copyinstr_fuel_spec r own fl env s :
  vm_ok s own fl -> is_root own r -> forall fuel src max,
  (max <= fuel)%nat -> 0 <= src ->
  exists str, no_nul str /\
    ((copyinstr_fuel fuel r src max (mkWorld s env) = Ok (0, str ++ [0]) (mkWorld s env) /\
      (length str < max)%nat /\ reads (k_mem s) r src (str ++ [0])) \/
     (copyinstr_fuel fuel r src max (mkWorld s env) = Ok (-1, str) (mkWorld s env) /\
      reads (k_mem s) r src str /\
      (length str = max \/
       (length str < max)%nat /\ translate (k_mem s) r (src + Z.of_nat (length str)) = None))).
Proof.
  intros Hok Hr.
  assert (Hnil : forall src, reads (k_mem s) r src []) by (intros src i Hi; inversion Hi).
  induction fuel as [|fuel IH]; intros src max Hmx Hsrc.
  { destruct max; [|lia]. exists []. split; [constructor|]. right. split; [done|]. split; [done|by left]. }
  destruct max as [|max].
  { exists []. split; [constructor|]. right. split; [done|]. split; [done|by left]. }
  cbn [copyinstr_fuel]. cbv zeta. set (k := S max) in *.
  destruct (rounddown_page src Hsrc) as (H0 & Hpg & Hoff & _).
  pose proof (Z.mod_pos_bound src PGSIZE ltac:(done)) as Hm.
  destruct (walkaddr_down r src s own fl env Hok Hr Hsrc) as [[Hn Hw]|(p & Hmax & Htr & Hp0 & Hp & Hw)].
  { exists []. split; [constructor|]. right.
    rewrite (run_bind _ _ _ 0 (mkWorld s env)) by done.
    split; [done|]. split; [done|]. right. cbn [length]. rewrite Z.add_0_r. split; [lia|done]. }
  rewrite (run_bind _ _ _ p (mkWorld s env)) by done. rewrite (proj2 (Z.eqb_neq p 0)) by lia.
  rewrite Hoff. set (n := Z.to_nat (Z.min (PGSIZE - src mod PGSIZE) (Z.of_nat k))).
  assert (Hn : (0 < n <= k)%nat /\ Z.of_nat n <= PGSIZE - src mod PGSIZE) by lia.
  pose proof (reads_string_page (k_mem s) r src p n Hsrc Htr ltac:(lia)) as Hrd.
  destruct (copyinstr_page_spec (k_mem s) n (p + src mod PGSIZE)) as (str & Hnn & Hres & _).
  rewrite (run_bind _ _ _ (copyinstr_page (k_mem s) (p + src mod PGSIZE) n) (mkWorld s env))
    by reflexivity.
  destruct Hres as [[Hpgs Hl]|[Hpgs Hl]]; rewrite Hpgs in *; cbn [fst snd] in *.
  { exists str. split; [done|]. left. split; [done|]. split; [lia|done]. }
  destruct (decide (n = k)) as [Heq|Hne].
  - rewrite Heq, Nat.sub_diag in *. exists str. split; [done|]. right.
    rewrite (run_bind _ _ _ (-1, []) (mkWorld s env)) by (by destruct fuel).
    cbn. rewrite app_nil_r. split; [done|]. split; [done|by left].
  - assert (Hnext : u64 (PGROUNDDOWN src + PGSIZE) = src + Z.of_nat n).
    { unfold u64. change MAXVA with (2 ^ 38) in Hmax.
      assert (PGSIZE = 4096) by done. rewrite Z.mod_small; lia. }
    rewrite Hnext.
    destruct (IH (src + Z.of_nat n) (k - n)%nat) as (str' & Hnn' & Hres); [lia..|].
    exists (str ++ str'). split; [by apply Forall_app|]. rewrite length_app.
    destruct Hres as [(Hrun & Hl' & Hrd')|(Hrun & Hrd' & Hl')];
      rewrite (run_bind _ _ _ _ (mkWorld s env) Hrun); cbn; [left|right].
    + split; [by rewrite app_assoc|]. split; [lia|]. rewrite <- app_assoc.
      apply reads_app; [done|by rewrite Hl].
    + split; [done|]. split; [apply reads_app; [done|by rewrite Hl]|].
      destruct Hl' as [Hl'|[Hl' Ht]]; [left; lia|right]. split; [lia|].
      by rewrite Hl, Nat2Z.inj_add, Z.add_assoc.
Qed.

(** Only memory and the free list matter. *)
Lemma vm_ok_frame s s' own fl :
  k_mem s' = k_mem s -> k_freelist s' = k_freelist s -> LKmem ∉ k_held s' ->
  vm_ok s own fl -> vm_ok s' own fl.
Proof.
  intros Hm Hf Hl [H1 H2 H3 H4]. split; [by rewrite Hm| |done|done].
  apply (avail_frame s); [done| |done]. intros p Hp a Ha. by rewrite Hm.
Qed.

(** What a process with the page table [r] needs to have its memory copied to and from the kernel. *)
Record user_of (s : kst) (own : gmap Z owner) (fl : list Z) (p : nat) (r : Z) : Prop := {
  us_cur : k_cur s = Some p;
  us_live : p_killed (get_proc p s) = 0;
  us_pt : p_pagetable (get_proc p s) = r;
  us_vm : vm_ok s own fl;
  us_root : is_root own r
}.

(** ** One byte *)

Lemma copyin_1 r s own fl va env :
  vm_ok s own fl -> is_root own r -> 0 <= va ->
  (exists b, user_byte (k_mem s) r va = Some b /\
     copyin r va 1 (mkWorld s env) = Ok (0, [b]) (mkWorld s env)) \/
  (translate (k_mem s) r va = None /\ copyin r va 1 (mkWorld s env) = Ok (-1, []) (mkWorld s env)).
Proof.
  intros Hok Hr Hva. destruct (copyin_fuel_spec r own fl env s Hok Hr 1 va 1) as (e & bs & Hrun & Hrd & He); [lia|done|].
  destruct He as [[-> Hlen]|(-> & Hlen & Ht)].
  - left. destruct bs as [|b [|]]; [done| |done]. exists b.
    specialize (Hrd 0%nat ltac:(cbn; lia)). rewrite Z.add_0_r in Hrd. by split.
  - right. destruct bs; [|cbn in Hlen; lia]. cbn in Ht. rewrite Z.add_0_r in Ht. by split.
Qed.

Lemma copyout_1 r s own fl va b env :
  vm_ok s own fl -> is_root own r -> 0 <= va ->
  (exists s', copyout r va [b] (mkWorld s env) = Ok 0 (mkWorld s' env) /\ stored own fl r va [b] s s') \/
  (translate (k_mem s) r va = None /\
   exists s', copyout r va [b] (mkWorld s env) = Ok (-1) (mkWorld s' env) /\ stored own fl r va [] s s').
Proof.
  intros Hok Hr Hva. destruct (copyout_fuel_spec r own fl env 1 va [b] s) as (e & k & s' & Hrun & Hst & He); [done..|].
  destruct He as [[-> ->]|(-> & Hk & Ht)].
  - left. by exists s'.
  - right. destruct k; [|cbn in Hk; lia]. cbn in Ht. rewrite Z.add_0_r in Ht. split; [done|]. by exists s'.
Qed.

(** ** Pages of the kernel's own

    A page the kernel has allocated and that belongs to no address space: a trapframe
    page, for example.  Writing to it changes no address space. *)

Record kernel_page (own : gmap Z owner) (fl : list Z) (k : Z) : Prop := {
  kp_ok : page_ok k;
  kp_own : own !! k = None;
  kp_fl : k ∉ fl
}.

Lemma kernel_same_page m m' own fl k q :
  kernel_page own fl k -> page_ok q -> q <> k -> outside_same k m m' -> same_page m m' q.
Proof. intros [[Hk _] _ _] [Hq _] Hne H. by apply (outside_same_page k q). Qed.

Lemma vm_ok_kernel s m' own fl k :
  vm_ok s own fl -> kernel_page own fl k -> outside_same k (k_mem s) m' ->
  vm_ok (set_k_mem m' s) own fl /\
  (forall r va, is_root own r -> 0 <= va -> translate m' r va = translate (k_mem s) r va /\
     user_byte m' r va = user_byte (k_mem s) r va).
Proof.
  intros Hok Hk Hout. pose proof Hok as [Hinv Hav Hfree Hlock].
  assert (Hsame : forall q o, own !! q = Some o -> same_page (k_mem s) m' q).
  { intros q o Hq. apply (kernel_same_page _ _ own fl k); [done|by eapply pi_page| |done].
    intros ->. rewrite (kp_own _ _ _ Hk) in Hq. done. }
  split.
  - split; [|apply (avail_frame s); [done| |done]|done|done].
    + apply (pt_inv_frame (k_mem s)); [|done]. intros q r l pre Hq. by eapply Hsame.
    + intros q Hq. apply (kernel_same_page _ _ own fl k); [done| | |done].
      * destruct (avail_ok _ _ Hav) as [Hall _]. rewrite Forall_forall in Hall. by apply Hall.
      * intros ->. by apply (kp_fl _ _ _ Hk).
  - intros r va Hr Hva.
    assert (Ht : translate m' r va = translate (k_mem s) r va).
    { unfold translate. destruct (Z.leb_spec MAXVA va); [done|]. unfold pte_of.
      rewrite (pte_at_frame (k_mem s) m' own r va Hinv) by first [by intros; eapply Hsame | by rewrite prefix_2].
      done. }
    split; [done|]. unfold user_byte. rewrite Ht.
    destruct (translate (k_mem s) r va) as [pa|] eqn:Htr; [|done]. cbn. f_equal.
    destruct (translate_owner _ own r va pa Hinv Hr Hva Htr) as (q & Hq & ->).
    apply (Hsame q _ Hq). pose proof (Z.mod_pos_bound va PGSIZE ltac:(done)). lia.
Qed.

(** Storing into user memory leaves such a page alone. *)
Lemma stored_kernel own fl r dst bs s s' k :
  stored own fl r dst bs s s' -> kernel_page own fl k -> same_page (k_mem s) (k_mem s') k.
Proof.
  intros H [[Hk _] Hn _]. apply (sd_only H); [done|]. intros vpn. by rewrite Hn.
Qed.

End Copy.
