(* ===== verification/Uvm.v ===== *)
(** * Growing, shrinking, copying and freeing user memory
      (kernel/vm.c: uvmunmap .. uvmclear)

    The invariant is [vm_ok] of PageTable.v.  [user_mapped own r lo k]: the [k] virtual
    pages from [lo] on are mapped in the address space of [r]. *)

From stdpp Require Import base gmap list strings.
From Stdlib Require Import ZArith Lia.
From S2P Require Import Prelude Riscv Memory State Spinlock Kalloc Vm PageTable UserMem.

Section Uvm.
Context {KS : KSyms} (Hks : ksyms_ok KS) `{PA : !PageAllocator kalloc kfree}.

Definition user_mapped (own : gmap Z owner) (r lo k : Z) : Prop :=
  forall vpn, lo <= vpn < lo + k -> exists q, own !! q = Some (OUser r vpn).

(** ** From owners to entries *)

Lemma prefix_up l va : prefix l va / 512 = prefix (S l) va /\ prefix l va mod 512 = PX (Z.of_nat (S l)) va.
Proof.
  rewrite <- prefix_S. pose proof (PX_bound (Z.of_nat (S l)) va ltac:(lia)).
  split; [by apply idx_div|by apply idx_mod].
Qed.

(** The leaf table that covers [va] is where the walk from the root ends. *)
Lemma walk_reaches m own r va p :
  pt_inv m own -> own !! p = Some (OTable r 0 (prefix 0 va)) ->
  walk_addr m 2 r va = p + 8 * PX 0 va.
Proof.
  intros Hinv Hp.
  destruct (pi_table _ _ Hinv _ _ _ _ Hp) as [[? _]|(_ & p1 & Hp1 & HV1 & Hto1)]; [lia|].
  destruct (prefix_up 0 va) as [Hd Hm]. rewrite Hd in Hp1. rewrite Hm in HV1, Hto1.
  destruct (pi_table _ _ Hinv _ _ _ _ Hp1) as [[? _]|(_ & p2 & Hp2 & HV2 & Hto2)]; [lia|].
  destruct (prefix_up 1 va) as [Hd' Hm']. rewrite Hd' in Hp2. rewrite Hm' in HV2, Hto2.
  destruct (pi_table _ _ Hinv _ _ _ _ Hp2) as [(_ & -> & _)|[? _]]; [|lia].
  cbn [walk_addr]. cbv zeta. rewrite HV2, Hto2, HV1, Hto1. done.
Qed.

Lemma page_index vpn : vpn * PGSIZE / PGSIZE = vpn /\ (vpn * PGSIZE) mod PGSIZE = 0.
Proof. split; [by apply Z.div_mul|by apply Z.mod_mul]. Qed.

(** The entry of a mapped user page. *)
Lemma user_entry m own r va q :
  pt_inv m own -> own !! q = Some (OUser r (va / PGSIZE)) ->
  exists p, own !! p = Some (OTable r 0 (prefix 0 va)) /\
    walk_addr m 2 r va = p + 8 * PX 0 va /\
    has (ld64 m (p + 8 * PX 0 va)) PTE_V = true /\ has (ld64 m (p + 8 * PX 0 va)) RWX = true /\
    PTE2PA (ld64 m (p + 8 * PX 0 va)) = q.
Proof.
  intros Hinv Hq. destruct (pi_user _ _ Hinv _ _ _ Hq) as (p & Hp & HV & Hto).
  pose proof (prefix_0 va) as Hpre. pose proof (PX_bound 0 va ltac:(lia)) as Hb.
  rewrite <- Hpre, idx_div in Hp by done. rewrite <- Hpre, idx_mod in HV, Hto by done.
  exists p. split; [done|]. split; [by eapply walk_reaches|]. split; [done|].
  split; [|done]. by apply (pi_leaf _ _ Hinv _ _ _ _ Hp Hb).
Qed.

Lemma user_unique m own r vpn q q' :
  pt_inv m own -> own !! q = Some (OUser r vpn) -> own !! q' = Some (OUser r vpn) -> q = q'.
Proof.
  intros Hinv Hq Hq'.
  destruct (pi_user _ _ Hinv _ _ _ Hq) as (p & Hp & _ & <-).
  destruct (pi_user _ _ Hinv _ _ _ Hq') as (p' & Hp' & _ & <-).
  by rewrite (table_unique _ _ r Hinv 2 0 _ p p' eq_refl Hp Hp').
Qed.

Lemma flags_leaf v : has v RWX = true -> (PTE_FLAGS v =? PTE_V) = false.
Proof.
  intros H. apply Z.eqb_neq. intros He. unfold has, RWX in H.
  apply negb_true_iff, Z.eqb_neq in H. apply H.
  assert (Hl : Z.land v (Z.lor (Z.lor PTE_R PTE_W) PTE_X)
    = Z.land (PTE_FLAGS v) (Z.lor (Z.lor PTE_R PTE_W) PTE_X)).
  { unfold PTE_FLAGS. rewrite <- Z.land_assoc. f_equal. }
  rewrite Hl, He. done.
Qed.

(** ** Unmapping *)

(** The owners after the user page [q] of [r] at [vpn] is unmapped. *)
Lemma unmap_change m own r vpn q :
  pt_inv m own -> own !! q = Some (OUser r vpn) -> leaf_change own (delete q own) r vpn 0.
Proof.
  intros Hinv Hq. split; rewrite ?has_0; try done.
  - intros x r' l pre. destruct (decide (x = q)) as [->|].
    + rewrite lookup_delete_eq, Hq. split; congruence.
    + by rewrite lookup_delete_ne.
  - intros x o Hx. apply lookup_delete_Some in Hx as [_ Hx]. by eapply (pi_page _ _ Hinv).
  - intros x r' vpn' Hx. apply lookup_delete_Some in Hx as [Hne Hx]. right. split; [|done].
    destruct (decide (r' = r)) as [->|]; [right|by left]. intros ->. apply Hne.
    by eapply user_unique.
  - intros x r' vpn' Hx Hne. rewrite lookup_delete_ne; [done|]. intros ->.
    rewrite Hq in Hx. injection Hx as -> ->. lia.
Qed.

(** The body of [uvmunmap]'s loop, with [do_free]. *)
Definition unmap_free (r a : Z) : K unit :=
  pte ← walk r a false;
  if pte =? 0 then panic "uvmunmap: walk" else
  v ← ldM64 pte;
  if negb (has v PTE_V) then panic "uvmunmap: not mapped"
  else if PTE_FLAGS v =? PTE_V then panic "uvmunmap: not a leaf"
  else
    when true (kfree (PTE2PA v));;
    stM64 pte 0.

Lemma unmap_free_spec r a q s own fl env :
  vm_ok s own fl -> is_root own r -> 0 <= a < MAXVA -> own !! q = Some (OUser r (a / PGSIZE)) ->
  exists s', unmap_free r a (mkWorld s env) = Ok tt (mkWorld s' env) /\
    vm_ok s' (delete q own) (q :: fl) /\ mem_only s s' /\ upd_pte own s r a 0 s' /\
    (forall p, p mod PGSIZE = 0 -> p <> q -> (forall r' l pre, own !! p <> Some (OTable r' l pre)) ->
       same_page (k_mem s) (k_mem s') p).
Proof.
  intros Hok Hr Ha Hq. pose proof Hok as [Hinv Hav Hfree Hlock].
  destruct (user_entry _ _ _ _ _ Hinv Hq) as (p & Hp & Hw & HV & HR & Hto).
  pose proof (PX_bound 0 a ltac:(lia)) as Hb. pose proof (entry_off _ Hb) as Hoff.
  assert (Hqok : page_ok q) by (by eapply (pi_page _ _ Hinv)). pose proof (proj1 Hqok) as Hqa.
  assert (Hpok : page_ok p) by (by eapply (pi_page _ _ Hinv)). pose proof (proj1 Hpok) as Hpa.
  assert (Hpq : p <> q) by congruence.
  assert (Hqfl : q ∉ fl) by (intros Hin; apply Hfree in Hin; congruence).
  assert (Hpfl : p ∉ fl) by (intros Hin; apply Hfree in Hin; congruence).
  unfold unmap_free.
  rewrite (run_bind _ _ _ (p + 8 * PX 0 a) (mkWorld s env))
    by (rewrite walk_noalloc by lia; cbn [w_ks]; by rewrite Hw).
  rewrite (proj2 (Z.eqb_neq _ 0)) by (apply (page_ok_pos Hks) in Hpok; lia).
  rewrite (run_bind _ _ _ (ld64 (k_mem s) (p + 8 * PX 0 a)) (mkWorld s env)) by done.
  rewrite HV, (flags_leaf _ HR), Hto. cbn [negb when].
  destruct (free_page s env q fl Hav Hqok Hqfl Hlock) as (s1 & Hr1 & Hav1 & Hmo & Hout).
  rewrite (run_bind _ _ _ tt (mkWorld s1 env)) by done.
  assert (Hsame : forall x, x mod PGSIZE = 0 -> x <> q -> same_page (k_mem s) (k_mem s1) x).
  { intros x Hx Hne. by apply (outside_same_page q). }
  assert (Htab : forall x r' l pre, own !! x = Some (OTable r' l pre) -> same_page (k_mem s) (k_mem s1) x).
  { intros x r' l pre Hx. apply Hsame; [by eapply pi_aligned|congruence]. }
  assert (Hinv1 : pt_inv (k_mem s1) own) by (by eapply pt_inv_frame).
  assert (Hpq' : p ∉ q :: fl) by (apply not_elem_of_cons; done).
  destruct (leaf_write Hks s1 own (delete q own) (q :: fl) p r a 0) as [Hok' Hu]; try done.
  - by rewrite (mem_only_held _ _ Hmo).
  - by eapply walk_reaches.
  - by eapply unmap_change.
  - intros x Hx. apply elem_of_cons in Hx as [->|Hx]; [apply lookup_delete_eq|].
    rewrite lookup_delete_ne by congruence. by apply Hfree.
  - eexists. split; [reflexivity|]. split; [exact Hok'|]. split; [|split].
    + eapply mem_only_trans; [done|apply mem_only_set_mem].
    + intros r' va Hr' Hva. rewrite Hu by done. case_decide; [done|].
      unfold pte_of. eapply pte_at_frame; [done|done|]. by rewrite prefix_2.
    + intros x Hx Hne Hnt. eapply same_page_trans; [by apply Hsame|].
      cbn. apply same_page_st64; [done..| |lia|lia]. intros ->. by eapply Hnt.
Qed.

(** ** Ranges of pages *)

(** [o] is a user page of [r] in the range of [k] pages from [lo] on. *)
Definition user_in (r lo k : Z) (o : owner) : Prop :=
  match o with OUser r' vpn => r' = r /\ lo <= vpn < lo + k | OTable _ _ _ => False end.
#[global] Instance user_in_dec r lo k o : Decision (user_in r lo k o).
Proof. destruct o; apply _. Defined.

(** The owners without the user pages of a range. *)
Definition own_del (own : gmap Z owner) (r lo k : Z) : gmap Z owner :=
  filter (fun po => ~ user_in r lo k po.2) own.

Lemma own_del_lookup own r lo k p o :
  own_del own r lo k !! p = Some o <-> own !! p = Some o /\ ~ user_in r lo k o.
Proof. unfold own_del. by rewrite map_lookup_filter_Some. Qed.

Lemma own_del_0 own r lo : own_del own r lo 0 = own.
Proof.
  apply map_eq. intros p. apply option_eq. intros o. rewrite own_del_lookup.
  split; [by intros []|]. intros H. split; [done|]. destruct o; simpl; lia.
Qed.

Lemma own_del_root own r lo k r' : is_root (own_del own r lo k) r' <-> is_root own r'.
Proof.
  unfold is_root. rewrite own_del_lookup. split; [by intros []|]. intros H. split; [done|by intros []].
Qed.

Lemma own_del_succ m own r lo k q :
  pt_inv m own -> 0 <= k -> own !! q = Some (OUser r (lo + k)) ->
  delete q (own_del own r lo k) = own_del own r lo (k + 1).
Proof.
  intros Hinv Hk Hq. apply map_eq. intros p. apply option_eq. intros o.
  rewrite lookup_delete_Some, !own_del_lookup. split.
  - intros (Hne & Ho & Hn). split; [done|]. intros Hu. destruct o as [|r' vpn]; [done|].
    destruct Hu as [-> Hr]. destruct (decide (vpn = lo + k)) as [->|].
    + apply Hne. by eapply user_unique.
    + apply Hn. simpl. lia.
  - intros [Ho Hn]. split; [|split; [done|]].
    + intros ->. rewrite Hq in Ho. injection Ho as <-. apply Hn. simpl. lia.
    + intros Hu. apply Hn. destruct o; simpl in *; lia.
Qed.

(** The translations after the entries of a range have been cleared. *)
Definition unmapped (own : gmap Z owner) (s : kst) (r lo k : Z) (s' : kst) : Prop :=
  forall r' va, is_root own r' -> 0 <= va < MAXVA ->
  pte_of (k_mem s') r' va =
  if decide (r' = r /\ lo <= va / PGSIZE < lo + k) then 0 else pte_of (k_mem s) r' va.

(** What unmapping and freeing a range of user pages does. *)
Record unmaps (r lo k : Z) (s : kst) (own : gmap Z owner) (fl : list Z) (s' : kst) (ps : list Z) : Prop := {
  um_ok : vm_ok s' (own_del own r lo k) (ps ++ fl);
  um_mem : mem_only s s';
  um_pte : unmapped own s r lo k s';
  um_ps q : q ∈ ps <-> exists vpn, own !! q = Some (OUser r vpn) /\ lo <= vpn < lo + k;
  um_same p : p mod PGSIZE = 0 -> p ∉ ps -> (forall r' l pre, own !! p <> Some (OTable r' l pre)) ->
    same_page (k_mem s) (k_mem s') p
}.

Lemma unmaps_0 r lo s own fl : vm_ok s own fl -> unmaps r lo 0 s own fl s [].
Proof.
  intros Hok. split; try done.
  - by rewrite own_del_0.
  - intros r' va Hr Hva. by rewrite decide_False by lia.
  - intros q. split; [intros H; inversion H|]. intros (vpn & _ & ?). lia.
Qed.

Lemma unmaps_succ r lo k s own fl s1 ps env :
  vm_ok s own fl -> is_root own r -> 0 <= lo -> 0 <= k -> (lo + k + 1) * PGSIZE <= MAXVA ->
  unmaps r lo k s own fl s1 ps -> (exists q, own !! q = Some (OUser r (lo + k))) ->
  exists s' q, unmap_free r ((lo + k) * PGSIZE) (mkWorld s1 env) = Ok tt (mkWorld s' env) /\
    unmaps r lo (k + 1) s own fl s' (q :: ps).
Proof.
  intros Hok Hr Hlo Hk Hmax [Uok Umem Upte Ups Usame] [q Hq].
  assert (HPG : PGSIZE = 4096) by done.
  destruct (page_index (lo + k)) as [Hdiv _].
  assert (Hq1 : own_del own r lo k !! q = Some (OUser r (lo + k))).
  { apply own_del_lookup. split; [done|]. simpl. lia. }
  assert (Hr1 : is_root (own_del own r lo k) r) by (by apply own_del_root).
  destruct (unmap_free_spec r ((lo + k) * PGSIZE) q s1 (own_del own r lo k) (ps ++ fl) env)
    as (s' & Hrun & Hok' & Hmo' & Hu & Hsame); [done|done|lia|by rewrite Hdiv|].
  exists s', q. split; [done|]. split.
  - erewrite own_del_succ in Hok' by first [apply Hok | done]. done.
  - by eapply mem_only_trans.
  - intros r' va Hr' Hva. rewrite Hu by (try done; by apply own_del_root). rewrite Hdiv, Upte by done.
    case_decide as D1; [by rewrite decide_True by lia|].
    case_decide as D2; [by rewrite decide_True by lia|]. by rewrite decide_False by lia.
  - intros x. rewrite elem_of_cons, Ups. split.
    + intros [->|(vpn & Hx & Hv)]; [exists (lo + k)|exists vpn]; (split; [done|lia]).
    + intros (vpn & Hx & Hv). destruct (decide (vpn = lo + k)) as [->|].
      * left. eapply user_unique; [apply Hok|done..].
      * right. exists vpn. split; [done|lia].
  - intros p Hp Hni Hnt. apply not_elem_of_cons in Hni as [Hpq Hni].
    eapply same_page_trans; [by apply Usame|]. apply Hsame; [done..|].
    intros r' l pre Ho. apply own_del_lookup in Ho as [Ho _]. by eapply Hnt.
Qed.

Lemma page_iters_count a n : 0 <= n -> page_iters a (a + n * PGSIZE) = Z.to_nat n.
Proof.
  intros Hn. unfold page_iters. f_equal. unfold PGSIZE.
  replace (a + n * 4096 - a + 4096 - 1) with (4095 + n * 4096) by lia.
  rewrite Z.div_add by lia. change (4095 / 4096) with 0. lia.
Qed.

(** In a loop over [seq 0 n] the element is the number of turns already made. *)
Lemma seq_split_lookup n (dn : list nat) x rest :
  seq 0 n = dn ++ x :: rest -> x = length dn /\ (length dn < n)%nat.
Proof.
  intros Hseq. assert (Hx : seq 0 n !! length dn = Some x).
  { rewrite Hseq. by apply list_lookup_middle. }
  apply lookup_seq in Hx. lia.
Qed.

(** [uvmunmap] with [do_free], of [n] mapped pages. *)
Lemma uvmunmap_spec r lo n s own fl env :
  vm_ok s own fl -> is_root own r -> 0 <= lo -> 0 <= n -> (lo + n) * PGSIZE <= MAXVA ->
  user_mapped own r lo n ->
  exists s' ps, uvmunmap r (lo * PGSIZE) n true (mkWorld s env) = Ok tt (mkWorld s' env) /\
    unmaps r lo n s own fl s' ps.
Proof.
  intros Hok Hr Hlo Hn Hmax Hmap. assert (HPG : PGSIZE = 4096) by done.
  change MAXVA with (2 ^ 38) in Hmax.
  unfold uvmunmap. destruct (page_index lo) as [_ ->]. rewrite Z.eqb_refl. cbn [negb].
  unfold u64. rewrite Z.mod_small by lia.
  rewrite page_iters_count by done.
  enough (H : wp (for_each (seq 0 (Z.to_nat n)) (fun i => unmap_free r (lo * PGSIZE + Z.of_nat i * PGSIZE)))
    (fun _ w => exists ps, w_env w = env /\ unmaps r lo n s own fl (w_ks w) ps) (mkWorld s env)).
  { apply wp_run in H as ([] & [s' env'] & Hrun & ps & He & Hu). cbn in He, Hu. subst env'.
    exists s', ps. done. }
  apply (wpx_for_each _ _ _ _ (fun dn w => exists ps, w_env w = env /\
    unmaps r lo (Z.of_nat (length dn)) s own fl (w_ks w) ps)).
  - exists []. split; [done|]. by apply unmaps_0.
  - intros dn x rest [s1 env1] Hseq (ps & He & Hu). cbn in He, Hu. subst env1.
    apply seq_split_lookup in Hseq as [-> Hx].
    destruct (unmaps_succ r lo (Z.of_nat (length dn)) s own fl s1 ps env) as (s' & q & Hrun & Hu');
      try done; try lia.
    { change MAXVA with (2 ^ 38). lia. }
    { apply Hmap. lia. }
    rewrite <- Z.mul_add_distr_r. eapply wp_of_run; [done|]. exists (q :: ps). split; [done|].
    rewrite length_app. cbn [length]. by rewrite Nat2Z.inj_add.
  - intros [s1 env1] (ps & He & Hu). rewrite length_seq, Z2Nat.id in Hu by done. by exists ps.
Qed.

(** ** uvmdealloc *)

(** The number of pages of [sz] bytes. *)
Definition npages (sz : Z) : Z := (sz + PGSIZE - 1) / PGSIZE.

Lemma roundup_npages sz : 0 <= sz <= MAXVA -> PGROUNDUP sz = npages sz * PGSIZE.
Proof.
  intros H. change MAXVA with (2 ^ 38) in H. apply PGROUNDUP_div. unfold PGSIZE. lia.
Qed.

Lemma npages_bounds sz : 0 <= sz -> 0 <= npages sz /\ sz <= npages sz * PGSIZE < sz + PGSIZE.
Proof.
  intros H. unfold npages, PGSIZE. pose proof (Z.div_mod (sz + 4096 - 1) 4096).
  pose proof (Z.mod_pos_bound (sz + 4096 - 1) 4096). lia.
Qed.

Lemma npages_mono a b : a <= b -> npages a <= npages b.
Proof. intros H. unfold npages. apply Z.div_le_mono; [done|lia]. Qed.

Lemma npages_max sz : sz <= MAXVA -> npages sz * PGSIZE <= MAXVA.
Proof.
  intros H. change MAXVA with (2 ^ 26 * 4096) in *. unfold npages, PGSIZE.
  assert ((sz + 4096 - 1) / 4096 < 2 ^ 26 + 1) by (apply Z.div_lt_upper_bound; lia). lia.
Qed.

Lemma npages_page k : npages (k * PGSIZE) = k.
Proof.
  unfold npages, PGSIZE. replace (k * 4096 + 4096 - 1) with (4095 + k * 4096) by lia.
  rewrite Z.div_add by lia. change (4095 / 4096) with 0. lia.
Qed.

Lemma uvmdealloc_spec r oldsz newsz s own fl env :
  vm_ok s own fl -> is_root own r -> 0 <= newsz <= oldsz -> oldsz <= MAXVA ->
  user_mapped own r (npages newsz) (npages oldsz - npages newsz) ->
  exists s' ps, uvmdealloc r oldsz newsz (mkWorld s env) = Ok newsz (mkWorld s' env) /\
    unmaps r (npages newsz) (npages oldsz - npages newsz) s own fl s' ps.
Proof.
  intros Hok Hr Hnew Hold Hmap. unfold uvmdealloc. assert (HPG : PGSIZE = 4096) by done.
  pose proof (npages_mono newsz oldsz ltac:(lia)) as Hmono.
  destruct (Z.leb_spec oldsz newsz) as [Hge|Hlt].
  { assert (oldsz = newsz) as -> by lia. rewrite Z.sub_diag. exists s, []. split; [done|].
    by apply unmaps_0. }
  rewrite !roundup_npages by lia.
  destruct (Z.ltb_spec (npages newsz * PGSIZE) (npages oldsz * PGSIZE)) as [Hp|Hp].
  - cbn [when]. rewrite <- Z.mul_sub_distr_r, Z.div_mul by done.
    pose proof (npages_max oldsz Hold) as Hmx. pose proof (npages_bounds newsz ltac:(lia)).
    change MAXVA with (2 ^ 38) in Hmx.
    assert (Hs : u64 (s32 (npages oldsz - npages newsz)) = npages oldsz - npages newsz).
    { unfold s32, u64. rewrite (Z.mod_small (_ + 2 ^ 31)) by lia. rewrite Z.mod_small; lia. }
    rewrite Hs.
    destruct (uvmunmap_spec r (npages newsz) (npages oldsz - npages newsz) s own fl env)
      as (s' & ps & Hrun & Hu); try done; try lia.
    { change MAXVA with (2 ^ 38). lia. }
    exists s', ps. split; [|done]. by rewrite (run_bind _ _ _ tt (mkWorld s' env)).
  - cbn [when]. exists s, []. split; [done|]. replace (npages oldsz - npages newsz) with 0 by lia.
    by apply unmaps_0.
Qed.

(** ** uvmalloc *)

(** A page taken from the allocator, owned by nobody yet. *)
Lemma take_page s own fl q env :
  vm_ok s own (q :: fl) ->
  exists s1, kalloc (mkWorld s env) = Ok q (mkWorld s1 env) /\ vm_ok s1 own fl /\
    mem_only s s1 /\ outside_same q (k_mem s) (k_mem s1) /\ same_pte s own s1 /\
    page_ok q /\ own !! q = None /\ (q ∉ fl) /\ 0 < q.
Proof.
  intros [Hinv Hav Hfree Hlock].
  destruct (alloc_some s env q fl Hav Hlock) as (s1 & Hrun & Hav1 & Hmo & Hout).
  assert (Hq : page_ok q) by (apply (avail_page_ok _ _ _ Hav); left).
  assert (Hqn : own !! q = None) by (apply Hfree; left).
  pose proof (avail_NoDup _ _ Hav) as Hnd. apply NoDup_cons in Hnd as [Hqfl _].
  assert (Htab : forall x r' l pre, own !! x = Some (OTable r' l pre) -> same_page (k_mem s) (k_mem s1) x).
  { intros x r' l pre Hx. apply (outside_same_page q); [apply Hq|by eapply pi_aligned|congruence|done]. }
  exists s1. split; [done|]. split; [split|].
  - by eapply pt_inv_frame.
  - done.
  - intros x Hx. apply Hfree. by right.
  - by rewrite (mem_only_held _ _ Hmo).
  - split; [done|]. split; [done|]. split; [|split; [done|split; [done|split; [done|]]]].
    + intros r' va l pt Hpt. by eapply pte_at_frame.
    + apply (page_ok_pos Hks) in Hq. lia.
Qed.

(** Filling a page that nobody owns. *)
Lemma fill_page s own fl q m' :
  vm_ok s own fl -> page_ok q -> own !! q = None -> q ∉ fl -> outside_same q (k_mem s) m' ->
  vm_ok (set_k_mem m' s) own fl /\ same_pte s own (set_k_mem m' s).
Proof.
  intros [Hinv Hav Hfree Hlock] Hq Hqn Hqfl Hout.
  assert (Htab : forall x r' l pre, own !! x = Some (OTable r' l pre) -> same_page (k_mem s) m' x).
  { intros x r' l pre Hx. apply (outside_same_page q); [apply Hq|by eapply pi_aligned|congruence|done]. }
  split; [split; cbn|].
  - by eapply pt_inv_frame.
  - apply (avail_frame s); [done| |done]. cbn. intros x Hx.
    apply (outside_same_page q); [apply Hq| |congruence|done].
    by apply (avail_page_ok _ _ _ Hav) in Hx as [].
  - done.
  - done.
  - intros r' va l pt Hpt. cbn. by eapply pte_at_frame.
Qed.

(** A page that nobody owns goes back to the allocator. *)
Lemma give_page s own fl q env :
  vm_ok s own fl -> page_ok q -> own !! q = None -> q ∉ fl ->
  exists s1, kfree q (mkWorld s env) = Ok tt (mkWorld s1 env) /\ vm_ok s1 own (q :: fl) /\
    mem_only s s1 /\ outside_same q (k_mem s) (k_mem s1) /\ same_pte s own s1.
Proof.
  intros [Hinv Hav Hfree Hlock] Hq Hqn Hqfl.
  destruct (free_page s env q fl Hav Hq Hqfl Hlock) as (s1 & Hrun & Hav1 & Hmo & Hout).
  assert (Htab : forall x r' l pre, own !! x = Some (OTable r' l pre) -> same_page (k_mem s) (k_mem s1) x).
  { intros x r' l pre Hx. apply (outside_same_page q); [apply Hq|by eapply pi_aligned|congruence|done]. }
  exists s1. split; [done|]. split; [split|].
  - by eapply pt_inv_frame.
  - done.
  - intros x Hx. apply elem_of_cons in Hx as [->|Hx]; [done|by apply Hfree].
  - by rewrite (mem_only_held _ _ Hmo).
  - split; [done|]. split; [done|]. intros r' va l pt Hpt. by eapply pte_at_frame.
Qed.

(** A page leaves the free list before the tables grow. *)
Lemma grows_after_take r U s own q fl s2 s3 own3 fl3 :
  vm_ok s own (q :: fl) -> mem_only s s2 -> outside_same q (k_mem s) (k_mem s2) ->
  grows r U s2 own fl s3 own3 fl3 -> is_Some (own3 !! q) -> grows r U s own (q :: fl) s3 own3 fl3.
Proof.
  intros Hok Hmo Hout G Hq3. pose proof Hok as [Hinv Hav Hfree _].
  assert (Hq : page_ok q) by (apply (avail_page_ok _ _ _ Hav); left).
  assert (Hqn : own !! q = None) by (apply Hfree; left).
  assert (Htab : forall x r' l pre, own !! x = Some (OTable r' l pre) -> same_page (k_mem s) (k_mem s2) x).
  { intros x r' l pre Hx. apply (outside_same_page q); [apply Hq|by eapply pi_aligned|congruence|done]. }
  split.
  - apply G.
  - eapply mem_only_trans; [done|apply G].
  - apply G.
  - intros p o Ho Hn. destruct (gr_new G p o Ho Hn) as [[Hf ?]|?]; [left|by right].
    split; [by right|done].
  - destruct (gr_fl G) as [u ->]. by exists (q :: u).
  - intros p r' l pre i Ho Hi HV.
    assert (He : ld64 (k_mem s2) (p + 8 * i) = ld64 (k_mem s) (p + 8 * i))
      by (apply same_entry; [by eapply Htab|done]).
    rewrite <- He. eapply (gr_keep G); [done|done|by rewrite He].
  - intros p Hp Hni Hnt. apply not_elem_of_cons in Hni as [Hpq Hni].
    eapply same_page_trans; [|by apply G].
    apply (outside_same_page q); [apply Hq|done|congruence|done].
  - intros p [->|Hp]%elem_of_cons; [by right|by apply G].
Qed.

(** Only the translations of [k] pages of [r] from [lo] on may have changed, and the
    only new user pages are there; pages that were neither free nor tables are intact. *)
Record added (r lo k : Z) (s : kst) (own : gmap Z owner) (fl : list Z)
    (s' : kst) (own' : gmap Z owner) (fl' : list Z) : Prop := {
  ad_ok : vm_ok s' own' fl';
  ad_mem : mem_only s s';
  ad_sub : own ⊆ own';
  ad_new p o : own' !! p = Some o -> own !! p = None -> p ∈ fl;
  ad_pte r' va : is_root own r' -> 0 <= va < MAXVA -> ~ (r' = r /\ lo <= va / PGSIZE < lo + k) ->
    pte_of (k_mem s') r' va = pte_of (k_mem s) r' va;
  ad_old q r' vpn : own' !! q = Some (OUser r' vpn) ->
    own !! q = Some (OUser r' vpn) \/ (r' = r /\ lo <= vpn < lo + k);
  ad_same p : p mod PGSIZE = 0 -> p ∉ fl -> (forall r' l pre, own !! p <> Some (OTable r' l pre)) ->
    same_page (k_mem s) (k_mem s') p;
  ad_root p o : own' !! p = Some o -> own !! p = None -> root_of o = r;
  ad_all p : p ∈ fl -> p ∈ fl' \/ is_Some (own' !! p);
  ad_fl p : p ∈ fl' -> p ∈ fl
}.
#[global] Arguments ad_ok {_ _ _ _ _ _ _ _ _} _.
#[global] Arguments ad_mem {_ _ _ _ _ _ _ _ _} _.
#[global] Arguments ad_sub {_ _ _ _ _ _ _ _ _} _.
#[global] Arguments ad_new {_ _ _ _ _ _ _ _ _} _.
#[global] Arguments ad_pte {_ _ _ _ _ _ _ _ _} _.
#[global] Arguments ad_old {_ _ _ _ _ _ _ _ _} _.
#[global] Arguments ad_same {_ _ _ _ _ _ _ _ _} _.
#[global] Arguments ad_root {_ _ _ _ _ _ _ _ _} _.
#[global] Arguments ad_all {_ _ _ _ _ _ _ _ _} _.
#[global] Arguments ad_fl {_ _ _ _ _ _ _ _ _} _.

(** The [k] pages from [lo] on are mapped, page [vpn] with flags [perm vpn] to a page
    whose byte [j] is [content vpn j]. *)
Definition mapped_as (r lo k : Z) (perm : Z -> Z) (content : Z -> Z -> Z)
    (s : kst) (own : gmap Z owner) : Prop :=
  forall vpn, lo <= vpn < lo + k -> exists q,
    own !! q = Some (OUser r vpn) /\ pte_of (k_mem s) r (vpn * PGSIZE) = mk_pte q (perm vpn) /\
    forall j, 0 <= j < PGSIZE -> ld8 (k_mem s) (q + j) = content vpn j.

(** Everything is as before, but for table pages that have been added to [r]; no page is
    lost. *)
Record undone (r : Z) (s : kst) (own : gmap Z owner) (fl : list Z)
    (s' : kst) (own' : gmap Z owner) (fl' : list Z) : Prop := {
  un_mem : mem_only s s';
  un_pte r' va : is_root own r' -> 0 <= va < MAXVA ->
    pte_of (k_mem s') r' va = pte_of (k_mem s) r' va;
  un_user q r' vpn : own' !! q = Some (OUser r' vpn) <-> own !! q = Some (OUser r' vpn);
  un_root r' : is_root own r' -> is_root own' r';
  un_same p : p mod PGSIZE = 0 -> p ∉ fl -> (forall r' l pre, own !! p <> Some (OTable r' l pre)) ->
    same_page (k_mem s) (k_mem s') p;
  un_sub : own ⊆ own';
  un_new p o : own' !! p = Some o -> own !! p = None -> p ∈ fl /\ root_of o = r;
  un_all p : p ∈ fl -> p ∈ fl' \/ is_Some (own' !! p);
  un_fl p : p ∈ fl' -> p ∈ fl
}.

(** No entry in a range of pages of [r]. *)
Definition pte_free (s : kst) (r lo k : Z) : Prop :=
  forall vpn, lo <= vpn < lo + k -> pte_of (k_mem s) r (vpn * PGSIZE) = 0.

(** The entry of [va] in its leaf table. *)
Lemma pte_of_entry m own r va p :
  pt_inv m own -> is_root own r -> 0 <= va < MAXVA -> own !! p = Some (OTable r 0 (prefix 0 va)) ->
  pte_of m r va = ld64 m (p + 8 * PX 0 va).
Proof.
  intros Hinv Hr Hva Hp.
  assert (Hr' : own !! r = Some (OTable r 2 (prefix 2 va))) by (by rewrite prefix_2).
  pose proof (walk_reaches m own r va p Hinv Hp) as Hw. unfold pte_of.
  destruct (walk_addr_leaf _ _ _ _ Hinv 2 r Hr') as [[H0 _]|(p' & _ & Hw' & Hpte)].
  - pose proof (PX_bound 0 va ltac:(lia)). pose proof (pi_page _ _ Hinv _ _ Hp) as Hpok.
    apply (page_ok_pos Hks) in Hpok. lia.
  - rewrite Hpte. congruence.
Qed.

(** A mapped user page has a valid entry. *)
Lemma user_pte m own r vpn q :
  pt_inv m own -> is_root own r -> 0 <= vpn * PGSIZE < MAXVA -> own !! q = Some (OUser r vpn) ->
  has (pte_of m r (vpn * PGSIZE)) PTE_V = true /\ has (pte_of m r (vpn * PGSIZE)) RWX = true /\
  PTE2PA (pte_of m r (vpn * PGSIZE)) = q.
Proof.
  intros Hinv Hr Hva Hq. destruct (page_index vpn) as [Hdiv _].
  destruct (user_entry m own r (vpn * PGSIZE) q Hinv) as (p & Hp & Hw & HV & HR & Hto); [by rewrite Hdiv|].
  by rewrite (pte_of_entry m own r _ p).
Qed.

Lemma pte_free_user s own fl r lo k q vpn :
  vm_ok s own fl -> is_root own r -> 0 <= lo -> (lo + k) * PGSIZE <= MAXVA ->
  pte_free s r lo k -> own !! q = Some (OUser r vpn) -> ~ (lo <= vpn < lo + k).
Proof.
  intros Hok Hr Hlo Hmax Hun Hq Hin.
  destruct (user_pte (k_mem s) own r vpn q) as [HV _]; [apply Hok|done|unfold PGSIZE in *; lia|done|].
  by rewrite (Hun vpn Hin) in HV.
Qed.

Lemma undo_added r lo k s own fl s1 own1 fl1 s2 ps :
  vm_ok s own fl -> is_root own r -> 0 <= lo -> (lo + k) * PGSIZE <= MAXVA ->
  pte_free s r lo k ->
  added r lo k s own fl s1 own1 fl1 -> unmaps r lo k s1 own1 fl1 s2 ps ->
  undone r s own fl s2 (own_del own1 r lo k) (ps ++ fl1).
Proof.
  intros Hok Hr Hlo Hmax Hun A [Uok Umem Upte Ups Usame].
  split.
  - eapply mem_only_trans; [apply A|done].
  - intros r' va Hr' Hva. rewrite Upte; [|eapply is_root_sub; [apply A|done]|done].
    case_decide as D; [|by apply (ad_pte A)]. destruct D as [-> D].
    rewrite <- (Hun (va / PGSIZE) D). unfold pte_of. apply pte_at_page.
    by rewrite (proj1 (page_index _)).
  - intros q r' vpn. rewrite own_del_lookup. split.
    + intros [Ho Hn]. destruct (ad_old A _ _ _ Ho) as [?|[-> ?]]; [done|]. by destruct Hn.
    + intros Ho. split; [eapply lookup_weaken; [done|apply A]|]. intros [-> Hin].
      exact (pte_free_user s own fl r lo k q vpn Hok Hr Hlo Hmax Hun Ho Hin).
  - intros r' Hr'. apply own_del_root. eapply is_root_sub; [apply A|done].
  - intros p Hp Hni Hnt. eapply same_page_trans; [by apply (ad_same A)|].
    assert (Heq : forall o, own1 !! p = Some o -> own !! p = Some o).
    { intros o Ho. destruct (own !! p) as [o'|] eqn:Ho'.
      - eapply lookup_weaken in Ho'; [|apply A]. congruence.
      - by apply (ad_new A) in Ho. }
    apply Usame; [done|..].
    + rewrite Ups. intros (vpn & Ho & Hin). apply Heq in Ho.
      exact (pte_free_user s own fl r lo k p vpn Hok Hr Hlo Hmax Hun Ho Hin).
    + intros r' l pre Ho. apply Heq in Ho. by eapply Hnt.
  - apply map_subseteq_spec. intros p o Ho. apply own_del_lookup.
    split; [eapply lookup_weaken; [done|apply A]|]. destruct o as [|r' vpn]; [by intros []|]. intros [-> Hin].
    exact (pte_free_user s own fl r lo k p vpn Hok Hr Hlo Hmax Hun Ho Hin).
  - intros p o [Ho _]%own_del_lookup Hn. split; [by eapply (ad_new A)|by eapply (ad_root A)].
  - intros p Hp. destruct (ad_all A p Hp) as [Hin|[o Ho]]; [left; apply elem_of_app; by right|].
    destruct (decide (user_in r lo k o)) as [Hu|Hu].
    + left. apply elem_of_app. left. apply Ups. destruct o as [|r' vpn]; [done|]. destruct Hu as [-> Hu].
      by exists vpn.
    + right. exists o. by apply own_del_lookup.
  - intros p [Hp|Hp]%elem_of_app; [|by apply (ad_fl A)]. apply Ups in Hp as (vpn & Ho & Hin).
    destruct (own !! p) as [o|] eqn:Ho'; [|by eapply (ad_new A)].
    eapply lookup_weaken in Ho' as Hw; [|apply A]. rewrite Ho in Hw. injection Hw as <-.
    by destruct (pte_free_user s own fl r lo k p vpn Hok Hr Hlo Hmax Hun Ho' Hin).
Qed.

(** ** Mapping one fresh page *)

(** Translations other than that of page [vpn] of [r] are unchanged. *)
Definition same_pte_but (own : gmap Z owner) (s : kst) (r vpn : Z) (s' : kst) : Prop :=
  forall r' va, is_root own r' -> 0 <= va < MAXVA -> ~ (r' = r /\ va / PGSIZE = vpn) ->
  pte_of (k_mem s') r' va = pte_of (k_mem s) r' va.

Lemma map_fresh r vpn q perm s own fl env :
  vm_ok s own fl -> is_root own r -> 0 <= vpn -> (vpn + 1) * PGSIZE <= MAXVA ->
  page_ok q -> own !! q = None -> q ∉ fl -> 0 <= perm < 1024 -> has perm RWX = true ->
  pte_of (k_mem s) r (vpn * PGSIZE) = 0 ->
  exists e s' own' fl',
    mappages r (vpn * PGSIZE) PGSIZE q perm (mkWorld s env) = Ok e (mkWorld s' env) /\
    ((e = 0 /\ (length fl <= length fl' + 2)%nat /\ grows r (eq q) s own fl s' own' fl' /\ own' !! q = Some (OUser r vpn) /\
      same_pte_but own s r vpn s' /\ pte_of (k_mem s') r (vpn * PGSIZE) = mk_pte q perm /\
      same_page (k_mem s) (k_mem s') q) \/
     (e = -1 /\ (length fl < 2)%nat /\ fl' = [] /\ grows r (fun _ => False) s own fl s' own' fl' /\ own' !! q = None /\
      forall r' va, is_root own r' -> 0 <= va < MAXVA ->
        pte_of (k_mem s') r' va = pte_of (k_mem s) r' va)).
Proof.
  intros Hok Hr Hvpn Hmax Hq Hqn Hqfl Hperm HRWX Hfree.
  assert (HPG : PGSIZE = 4096) by done. destruct (page_index vpn) as [Hdiv Hmod].
  assert (Hn : (vpn * PGSIZE + PGSIZE - 1) / PGSIZE - vpn * PGSIZE / PGSIZE = 0).
  { rewrite Hdiv. replace (vpn * PGSIZE + PGSIZE - 1) with (4095 + vpn * PGSIZE) by lia.
    rewrite Z.div_add by done. rewrite HPG. change (4095 / 4096) with 0. lia. }
  assert (Hdown : PGROUNDDOWN (vpn * PGSIZE) = vpn * PGSIZE) by (by rewrite PGROUNDDOWN_div, Hdiv).
  pose proof (page_ok_range Hks q Hq) as Hqr. pose proof (page_ok_pos Hks q Hq) as Hqp.
  destruct (mappages_spec Hks r perm true env Hperm HRWX ltac:(done) (vpn * PGSIZE) PGSIZE q s own fl)
    as (e & k & s' & own' & fl' & Hrun & G & Hm & Ho & He); rewrite ?Hn, ?Hdown in *; try done; try lia.
  - apply Hq.
  - unfold PHYSTOP, KERNBASE in Hqp. lia.
  - intros i Hi. replace i with 0 by lia. rewrite Z.mul_0_l, Z.add_0_r, Hfree. done.
  - intros _ i Hi. replace i with 0 by lia. by rewrite Z.mul_0_l, Z.add_0_r.
  - exists e, s', own', fl'. split; [done|]. destruct He as [(-> & -> & Hlen)|(-> & Hk & -> & Hlen)]; [left|right].
    + split; [done|]. split; [lia|]. split.
      { eapply grows_mono; [|done]. intros x (_ & i & Hi & ->). lia. }
      specialize (Ho eq_refl 0 ltac:(lia)). rewrite Hdiv, Z.mul_0_l, !Z.add_0_r in Ho.
      split; [done|]. split; [|split].
      * intros r' va Hr' Hva Hne. rewrite Hm, Hdiv, decide_False by (try done; lia). done.
      * rewrite Hm, Hdiv, decide_True by (try done; lia). f_equal. lia.
      * apply (gr_same G); [apply Hq|done|]. congruence.
    + assert (k = 0) as -> by lia. split; [done|]. split; [lia|]. split; [done|]. split.
      { eapply grows_mono; [|done]. intros x (_ & i & Hi & ->). lia. }
      split.
      * destruct (own' !! q) as [o|] eqn:Hoq; [|done].
        destruct (gr_new G q o Hoq Hqn) as [[? _]|[(_ & i & Hi & _) _]]; [done|lia].
      * intros r' va Hr' Hva. rewrite Hm, Hdiv, decide_False by (try done; lia). done.
Qed.

(** ** The loops that add pages *)

(** [added] after one more page. *)
Lemma added_succ r lo k s own fl s1 own1 q fl1 s2 s3 own3 fl3 :
  0 <= lo -> 0 <= k -> (lo + k + 1) * PGSIZE <= MAXVA -> vm_ok s own fl ->
  added r lo k s own fl s1 own1 (q :: fl1) -> (exists u, fl = u ++ q :: fl1) ->
  mem_only s1 s2 -> outside_same q (k_mem s1) (k_mem s2) -> same_pte s1 own1 s2 ->
  grows r (eq q) s2 own1 fl1 s3 own3 fl3 -> own3 !! q = Some (OUser r (lo + k)) ->
  same_pte_but own1 s2 r (lo + k) s3 ->
  added r lo (k + 1) s own fl s3 own3 fl3.
Proof.
  intros Hlo Hk Hmax Hok A [u Hu] Hmo Hout Hsp G Hq3 Hbut.
  pose proof (grows_after_take r (eq q) s1 own1 q fl1 s2 s3 own3 fl3 (ad_ok A) Hmo Hout G (mk_is_Some _ _ Hq3)) as G'.
  assert (Hqfl : q ∈ fl) by (rewrite Hu; apply elem_of_app; right; left).
  assert (Hsub1 : forall x, x ∈ q :: fl1 -> x ∈ fl) by (intros x Hx; rewrite Hu; apply elem_of_app; by right).
  split.
  - apply G.
  - eapply mem_only_trans; [apply A|apply G'].
  - etrans; [apply A|apply G'].
  - intros p o Ho Hn. destruct (own1 !! p) as [o'|] eqn:Ho'; [by eapply (ad_new A)|].
    destruct (gr_new G' p o Ho Ho') as [[Hf _]|[<- _]]; [by apply Hsub1|done].
  - intros r' va Hr' Hva Hne.
    assert (Hr1 : is_root own1 r') by (eapply is_root_sub; [apply A|done]).
    rewrite Hbut by (try done; lia). rewrite (same_pte_of s1 own1 s2) by done.
    apply (ad_pte A); [done..|lia].
  - intros x r' vpn Ho. destruct (own1 !! x) as [o'|] eqn:Ho'.
    + assert (o' = OUser r' vpn) as ->.
      { eapply lookup_weaken in Ho'; [|apply G']. congruence. }
      destruct (ad_old A _ _ _ Ho') as [?|[-> ?]]; [by left|right; split; [done|lia]].
    + destruct (gr_new G' x _ Ho Ho') as [[_ (l & pre & ?)]|[<- (vpn' & Heq)]]; [done|].
      rewrite Hq3 in Ho. injection Ho as <- <-. right. split; [done|lia].
  - intros p Hp Hni Hnt. eapply same_page_trans; [by apply (ad_same A)|].
    apply (gr_same G'); [done|..].
    + intros Hin. by apply Hni, Hsub1.
    + intros r' l pre Ho. destruct (own !! p) as [o|] eqn:Ho'.
      * eapply lookup_weaken in Ho'; [|apply A]. rewrite Ho in Ho'. injection Ho' as <-. by eapply Hnt.
      * by apply (ad_new A) in Ho.
  - intros p o Ho Hn. destruct (own1 !! p) as [o'|] eqn:Ho'.
    + eapply lookup_weaken in Ho' as Hw; [|apply G']. rewrite Ho in Hw. injection Hw as <-. by eapply (ad_root A).
    + by destruct (gr_new G' p o Ho Ho') as [[_ (l & pre & ->)]|[_ (vpn & ->)]].
  - intros p Hp. destruct (ad_all A p Hp) as [Hin|[o Ho]]; [by apply (gr_all G')|right].
    exists o. eapply lookup_weaken; [done|apply G'].
  - intros p Hp. destruct (gr_fl G) as [u' ->]. apply Hsub1. right. apply elem_of_app. by right.
Qed.

Section AddPage.
Context (r lo k : Z) (s : kst) (own : gmap Z owner) (fl : list Z).
Context (Hok : vm_ok s own fl) (Hr : is_root own r) (Hlo : 0 <= lo) (Hk : 0 <= k)
  (Hmax : (lo + k + 1) * PGSIZE <= MAXVA) (Hfree : pte_free s r lo (k + 1)).
Context (s1 : kst) (own1 : gmap Z owner) (q : Z) (fl1 : list Z).
Context (A : added r lo k s own fl s1 own1 (q :: fl1)) (Hsuf : exists u, fl = u ++ q :: fl1).

(** One turn of the loops of [uvmalloc] and [uvmcopy]: a page is allocated, filled by
    [f] and mapped; if that fails it goes back to the allocator. *)
Lemma add_page f perm (env : list (kst -> kst)) :
  (forall m, outside_same q m (f m)) -> 0 <= perm < 1024 -> has perm RWX = true ->
  exists s2, kalloc (mkWorld s1 env) = Ok q (mkWorld s2 env) /\ 0 < q /\
    outside_same q (k_mem s1) (k_mem s2) /\
    exists e s4 own4 fl4,
    mappages r ((lo + k) * PGSIZE) PGSIZE q perm (mkWorld (set_k_mem (f (k_mem s2)) s2) env)
      = Ok e (mkWorld s4 env) /\
    ((e = 0 /\ added r lo (k + 1) s own fl s4 own4 fl4 /\ (exists u, fl = u ++ fl4) /\
      (length fl1 <= length fl4 + 2)%nat /\
      own4 !! q = Some (OUser r (lo + k)) /\
      pte_of (k_mem s4) r ((lo + k) * PGSIZE) = mk_pte q perm /\
      same_page (f (k_mem s2)) (k_mem s4) q /\
      grows r (eq q) s1 own1 (q :: fl1) s4 own4 fl4 /\ same_pte_but own1 s1 r (lo + k) s4) \/
     (e = -1 /\ (length fl1 < 2)%nat /\ exists s5, kfree q (mkWorld s4 env) = Ok tt (mkWorld s5 env) /\
        added r lo k s own fl s5 own4 [q] /\ own1 ⊆ own4)).
Proof.
  intros Hf Hperm HRWX. assert (HPG : PGSIZE = 4096) by done.
  destruct (take_page s1 own1 fl1 q env (ad_ok A)) as (s2 & Hrun & Hok2 & Hmo & Hout & Hsp & Hq & Hqn & Hqfl & Hq0).
  exists s2. split; [done|]. split; [done|]. split; [done|].
  destruct (fill_page s2 own1 fl1 q (f (k_mem s2)) Hok2 Hq Hqn Hqfl (Hf _)) as [Hok3 Hsp3].
  set (s3 := set_k_mem (f (k_mem s2)) s2) in *.
  assert (Hr1 : is_root own1 r) by (eapply is_root_sub; [apply A|done]).
  assert (Hmo3 : mem_only s1 s3) by (eapply mem_only_trans; [done|apply mem_only_set_mem]).
  assert (Hout3 : outside_same q (k_mem s1) (k_mem s3)) by (eapply outside_same_trans; [done|apply Hf]).
  assert (Hsp13 : same_pte s1 own1 s3) by (intros r' va l pt H; rewrite (Hsp3 r') by done; by apply (Hsp r')).
  assert (Hfree3 : pte_of (k_mem s3) r ((lo + k) * PGSIZE) = 0).
  { rewrite (same_pte_of s1 own1) by (try done; lia). rewrite (ad_pte A); [apply Hfree; lia|done|lia|].
    rewrite (proj1 (page_index _)). lia. }
  destruct (map_fresh r (lo + k) q perm s3 own1 fl1 env) as (e & s4 & own4 & fl4 & Hmap & Hres); try done; try lia.
  exists e, s4, own4, fl4. split; [done|].
  destruct Hres as [(-> & Hlen & G & Hq4 & Hbut & Hpte & Hsame)|(-> & Hlen & -> & G & Hq4 & Hpte)]; [left|right].
  - split; [done|]. destruct Hsuf as [u Hu].
    split; [by eapply (added_succ r lo k s own fl s1 own1 q fl1 s3)|].
    split; [destruct (gr_fl G) as [u' ->]; exists (u ++ q :: u'); by rewrite <- app_assoc|].
    split; [done|]. split; [done|]. split; [done|]. split; [done|]. split; [eapply grows_after_take; [apply A|done..|by eexists]|].
    intros r' va Hr' Hva Hne. rewrite Hbut by done. by apply (same_pte_of s1 own1).
  - split; [done|]. split; [done|].
    destruct (give_page s4 own4 [] q env) as (s5 & Hfr & Hok5 & Hmo5 & Hout5 & Hsp5);
      [apply G|done|done|apply not_elem_of_nil|].
    exists s5. split; [done|].
    destruct Hsuf as [u Hu].
    assert (Hsub1 : forall x, x ∈ q :: fl1 -> x ∈ fl) by (intros x Hx; rewrite Hu; apply elem_of_app; by right).
    assert (Hnew : forall p o, own4 !! p = Some o -> own !! p = None -> p ∈ fl).
    { intros p o Ho Hn. destruct (own1 !! p) as [o'|] eqn:Ho'; [by eapply (ad_new A)|].
      destruct (gr_new G p o Ho Ho') as [[Hx _]|[? _]]; [apply Hsub1; by right|done]. }
    split; [|apply G]. split.
    + done.
    + eapply mem_only_trans; [apply A|]. eapply mem_only_trans; [exact Hmo3|].
      eapply mem_only_trans; [apply G|done].
    + etrans; [apply A|apply G].
    + done.
    + intros r' va Hr' Hva Hne.
      assert (Hr1' : is_root own1 r') by (eapply is_root_sub; [apply A|done]).
      rewrite (same_pte_of s4 own4) by first [done | eapply is_root_sub; [apply G|done]].
      rewrite Hpte, (same_pte_of s1 own1) by done. by apply (ad_pte A).
    + intros x r' vpn Ho. destruct (own1 !! x) as [o'|] eqn:Ho'.
      * eapply lookup_weaken in Ho' as Hw; [|apply G]. rewrite Ho in Hw. injection Hw as <-.
        by apply (ad_old A).
      * destruct (gr_new G x _ Ho Ho') as [[_ (l & pre & ?)]|[? _]]; done.
    + intros p Hp Hni Hnt. assert (Hpq : p <> q) by (intros ->; apply Hni, Hsub1; left).
      assert (Hsq : forall m m', outside_same q m m' -> same_page m m' p)
        by (intros m m'; apply (outside_same_page q); [apply Hq|done|congruence]).
      eapply same_page_trans; [by apply (ad_same A)|]. eapply same_page_trans; [by apply Hsq|].
      eapply same_page_trans; [|by apply Hsq].
      * apply (gr_same G); [done|intros Hin; apply Hni, Hsub1; by right|].
        intros r' l pre Ho. destruct (own !! p) as [o|] eqn:Ho'.
        -- eapply lookup_weaken in Ho'; [|apply A]. rewrite Ho in Ho'. injection Ho' as <-. by eapply Hnt.
        -- by apply (ad_new A) in Ho.
    + intros p o Ho Hn. destruct (own1 !! p) as [o'|] eqn:Ho'.
      * eapply lookup_weaken in Ho' as Hw; [|apply G]. rewrite Ho in Hw. injection Hw as <-. by eapply (ad_root A).
      * by destruct (gr_new G p o Ho Ho') as [[_ (l & pre & ->)]|[? _]].
    + intros p Hp. destruct (ad_all A p Hp) as [[->|Hin]%elem_of_cons|[o Ho]]; [left; left|..].
      * destruct (gr_all G p Hin) as [[]%not_elem_of_nil|?]. by right.
      * right. exists o. eapply lookup_weaken; [done|apply G].
    + intros p ->%list_elem_of_singleton. apply Hsub1. left.
Qed.

(** The pages mapped before stay as they are. *)
Lemma mapped_as_succ perm content s4 own4 fl4 :
  mapped_as r lo k perm content s1 own1 ->
  grows r (eq q) s1 own1 (q :: fl1) s4 own4 fl4 -> same_pte_but own1 s1 r (lo + k) s4 ->
  own4 !! q = Some (OUser r (lo + k)) ->
  pte_of (k_mem s4) r ((lo + k) * PGSIZE) = mk_pte q (perm (lo + k)) ->
  (forall j, 0 <= j < PGSIZE -> ld8 (k_mem s4) (q + j) = content (lo + k) j) ->
  mapped_as r lo (k + 1) perm content s4 own4.
Proof.
  intros Hm G Hbut Hq Hpte Hc vpn Hvpn. destruct (decide (vpn = lo + k)) as [->|Hne]; [by exists q|].
  destruct (Hm vpn ltac:(lia)) as (x & Hx & Hp & Hcx). exists x.
  split; [eapply lookup_weaken; [done|apply G]|]. split.
  - rewrite Hbut; [done|eapply is_root_sub; [apply A|done]|unfold PGSIZE in *; lia|].
    rewrite (proj1 (page_index _)). lia.
  - intros j Hj. rewrite <- Hcx by done. apply (gr_same G x); [|..|lia].
    + eapply pi_aligned; [apply A|done].
    + intros Hin. apply (vo_free _ _ _ (ad_ok A)) in Hin. congruence.
    + intros r' l pre Ho. congruence.
Qed.

End AddPage.

Lemma PTE_WRXU_ok : 0 <= PTE_WRXU < 1024 /\ has PTE_WRXU RWX = true /\ has PTE_WRXU PTE_U = true.
Proof. by vm_compute. Qed.

Lemma added_0 r lo s own fl : vm_ok s own fl -> added r lo 0 s own fl s own fl.
Proof. intros H. split; try done; [congruence|by left|congruence|by left]. Qed.

Lemma pte_free_le s r lo k k' : k <= k' -> pte_free s r lo k' -> pte_free s r lo k.
Proof. intros H Hf vpn Hv. apply Hf. lia. Qed.

Lemma mapped_as_user r lo k perm content s own : mapped_as r lo k perm content s own -> user_mapped own r lo k.
Proof. intros H vpn Hv. destruct (H vpn Hv) as (q & Hq & _). by exists q. Qed.

(** [uvmalloc] failed after [k] pages: it unmaps them again. *)
Lemma dealloc_added r lo k s own fl s1 own1 fl1 env :
  vm_ok s own fl -> is_root own r -> 0 <= lo -> 0 <= k -> (lo + k) * PGSIZE <= MAXVA ->
  pte_free s r lo k -> added r lo k s own fl s1 own1 fl1 -> user_mapped own1 r lo k ->
  exists s2 own2 fl2,
    uvmdealloc r (lo * PGSIZE + k * PGSIZE) (lo * PGSIZE) (mkWorld s1 env)
      = Ok (lo * PGSIZE) (mkWorld s2 env) /\ vm_ok s2 own2 fl2 /\ undone r s own fl s2 own2 fl2.
Proof.
  intros Hok Hr Hlo Hk Hmax Hfree A Hmap. assert (HPG : PGSIZE = 4096) by done.
  rewrite <- Z.mul_add_distr_r.
  destruct (uvmdealloc_spec r ((lo + k) * PGSIZE) (lo * PGSIZE) s1 own1 fl1 env)
    as (s2 & ps & Hrun & Hu); rewrite ?npages_page in *; try done; try lia.
  - apply A.
  - eapply is_root_sub; [apply A|done].
  - by replace (lo + k - lo) with k by lia.
  - replace (lo + k - lo) with k in Hu by lia.
    exists s2, (own_del own1 r lo k), (ps ++ fl1). split; [done|]. split; [apply Hu|].
    by eapply undo_added.
Qed.

(** The body of [uvmalloc]'s loop, at address [a]. *)
Definition uvmalloc_body (r oldsz a : Z) : K (option Z) :=
  mem ← kalloc;
  if mem =? 0 then
    uvmdealloc r a oldsz;; mret (Some 0)
  else
    memM (fun m => memset m mem 0 pgsize);;
    e ← mappages r a PGSIZE mem PTE_WRXU;
    if negb (e =? 0) then
      kfree mem;; uvmdealloc r a oldsz;; mret (Some 0)
    else mret None.

(** What is left after the allocation loop has failed. *)
Definition alloc_failed (r : Z) (s : kst) (own : gmap Z owner) (fl : list Z) (s' : kst) : Prop :=
  exists own' fl', vm_ok s' own' fl' /\ undone r s own fl s' own' fl'.

(** What holds after the allocation loop has mapped [k] pages. *)
Definition alloc_done (r lo k : Z) (perm : Z -> Z) (content : Z -> Z -> Z)
    (s : kst) (own : gmap Z owner) (fl : list Z) (s' : kst) : Prop :=
  exists own' fl', added r lo k s own fl s' own' fl' /\ (exists u, fl = u ++ fl') /\
    Z.of_nat (length fl) <= Z.of_nat (length fl') + 3 * k /\
    mapped_as r lo k perm content s' own'.

Lemma uvmalloc_turn r lo i s own fl s1 env :
  vm_ok s own fl -> is_root own r -> 0 <= lo -> 0 <= i -> (lo + i + 1) * PGSIZE <= MAXVA ->
  pte_free s r lo (i + 1) ->
  alloc_done r lo i (fun _ => PTE_WRXU) (fun _ _ => 0) s own fl s1 ->
  wp (uvmalloc_body r (lo * PGSIZE) (lo * PGSIZE + i * PGSIZE)) (fun res w => w_env w = env /\
    match res with
    | Some v => v = 0 /\ Z.of_nat (length fl) < 3 * (i + 1) /\ alloc_failed r s own fl (w_ks w)
    | None => alloc_done r lo (i + 1) (fun _ => PTE_WRXU) (fun _ _ => 0) s own fl (w_ks w)
    end) (mkWorld s1 env).
Proof.
  intros Hok Hr Hlo Hi Hmax Hfree (own1 & fl1 & A & Hsuf & Hlen & Hm). unfold uvmalloc_body.
  assert (HPG : PGSIZE = 4096) by done. destruct PTE_WRXU_ok as (Hp1 & Hp2 & Hp3).
  assert (Hfree' : pte_free s r lo i) by (eapply pte_free_le; [|done]; lia).
  destruct fl1 as [|q fl1].
  - destruct (dealloc_added r lo i s own fl s1 own1 [] env) as (s2 & own2 & fl2 & Hd & Hok2 & Hun2);
      try done; try lia; [by eapply mapped_as_user|].
    ksteps. eapply wp_of_run; [apply alloc_none; apply A|]. cbn [Z.eqb]. kstep.
    eapply wp_of_run; [exact Hd|]. kstep. split; [done|]. split; [done|].
    split; [cbn [length] in Hlen; lia|]. by exists own2, fl2.
  - destruct (add_page r lo i s own fl Hok Hr Hlo Hi Hmax Hfree s1 own1 q fl1 A Hsuf
      (fun m => memset m q 0 pgsize) PTE_WRXU env) as (s2 & Hrun & Hq0 & Hout & e & s4 & own4 & fl4 & Hmp & Hres);
      [intros m; apply outside_same_memset|done|done|].
    rewrite <- Z.mul_add_distr_r. kstep. kstep. eapply wp_of_run; [exact Hrun|].
    rewrite (proj2 (Z.eqb_neq q 0)) by lia. ksteps. eapply wp_of_run; [exact Hmp|].
    destruct Hres as [(-> & A4 & Hsuf4 & Hlen4 & Hq4 & Hpte4 & Hs4 & G & Hbut)|(-> & Hlen4 & s5 & Hfr & A5 & Hsub)].
    + cbn [negb Z.eqb]. ksteps. split; [done|]. exists own4, fl4. split; [done|]. split; [done|].
      split; [cbn [length] in Hlen; lia|]. eapply (mapped_as_succ r lo i s own fl); try done. intros j Hj. rewrite Hs4 by lia.
      rewrite ld8_memset. unfold pgsize. rewrite Z2Nat.id by lia.
      by rewrite (proj2 (Z.leb_le _ _)), (proj2 (Z.ltb_lt _ _)) by lia.
    + cbn [negb Z.eqb]. kstep. eapply wp_of_run; [exact Hfr|]. rewrite Z.mul_add_distr_r.
      destruct (dealloc_added r lo i s own fl s5 own4 [q] env) as (s6 & own6 & fl6 & Hd & Hok6 & Hun6);
        try done; try lia.
      { intros vpn Hv. destruct (mapped_as_user _ _ _ _ _ _ _ Hm vpn Hv) as (x & Hx). exists x.
        by eapply lookup_weaken. }
      kstep. eapply wp_of_run; [exact Hd|]. kstep. split; [done|]. split; [done|].
      split; [cbn [length] in Hlen; lia|]. by exists own6, fl6.
Qed.

(** [uvmalloc]: the new pages are mapped and zeroed, or everything is as before. *)
Lemma uvmalloc_spec r oldsz newsz s own fl env :
  vm_ok s own fl -> is_root own r -> 0 <= oldsz <= newsz -> newsz <= MAXVA ->
  let lo := npages oldsz in let k := npages newsz - npages oldsz in
  pte_free s r lo k ->
  exists e s' own' fl', uvmalloc r oldsz newsz (mkWorld s env) = Ok e (mkWorld s' env) /\
    ((e = newsz /\ added r lo k s own fl s' own' fl' /\
      Z.of_nat (length fl) <= Z.of_nat (length fl') + 3 * k /\
      mapped_as r lo k (fun _ => PTE_WRXU) (fun _ _ => 0) s' own') \/
     (e = 0 /\ Z.of_nat (length fl) < 3 * k /\ vm_ok s' own' fl' /\ undone r s own fl s' own' fl')).
Proof.
  intros Hok Hr Hsz Hmax lo k Hfree. assert (HPG : PGSIZE = 4096) by done.
  pose proof (npages_bounds oldsz ltac:(lia)) as Hb. pose proof (npages_mono oldsz newsz ltac:(lia)) as Hmono.
  pose proof (npages_max newsz Hmax) as Hmx. destruct PTE_WRXU_ok as (Hp1 & Hp2 & Hp3).
  unfold uvmalloc. rewrite (proj2 (Z.ltb_ge _ _)) by lia. cbv zeta.
  rewrite roundup_npages by lia. fold lo.
  assert (Hit : page_iters (lo * PGSIZE) newsz = Z.to_nat k).
  { unfold page_iters. f_equal. unfold k, lo, npages at 2.
    replace (newsz - npages oldsz * PGSIZE + PGSIZE - 1)
      with (newsz + PGSIZE - 1 + (- npages oldsz) * PGSIZE) by lia.
    rewrite Z.div_add by done. unfold npages. lia. }
  rewrite Hit.
  assert (Hloop : wp (for_until (seq 0 (Z.to_nat k)) (fun i => uvmalloc_body r (lo * PGSIZE) (lo * PGSIZE + Z.of_nat i * PGSIZE)))
    (fun res w => w_env w = env /\
      match res with
      | Some v => v = 0 /\ Z.of_nat (length fl) < 3 * k /\ alloc_failed r s own fl (w_ks w)
      | None => alloc_done r lo k (fun _ => PTE_WRXU) (fun _ _ => 0) s own fl (w_ks w)
      end) (mkWorld s env)).
  { apply (wpx_for_until _ _ _ _ (fun dn w => w_env w = env /\
      alloc_done r lo (Z.of_nat (length dn)) (fun _ => PTE_WRXU) (fun _ _ => 0) s own fl (w_ks w))).
    - split; [done|]. exists own, fl. split; [by apply added_0|]. split; [by exists []|].
      split; [cbn; lia|]. intros vpn Hv. cbn in Hv. lia.
    - intros dn x rest [s1 env1] Hseq (He & Hd). cbn in He, Hd. subst env1.
      apply seq_split_lookup in Hseq as [-> Hx]. rewrite length_app. cbn [length].
      rewrite Nat2Z.inj_add. eapply wpx_mono.
      + apply (uvmalloc_turn r lo (Z.of_nat (length dn)) s own fl s1 env); try done; try lia.
        eapply pte_free_le; [|done]. lia.
      + intros [v|] w [Hw Hres]; [|done]. destruct Hres as (? & ? & ?). repeat split; try done; lia.
    - intros [s1 env1] [He Hd]. by rewrite length_seq, Z2Nat.id in Hd by lia. }
  apply wp_run in Hloop as (res & [s' env'] & Hrun & He & Hres). cbn in He, Hres. subst env'.
  rewrite (run_bind _ _ _ res (mkWorld s' env)) by exact Hrun. destruct res as [v|].
  - destruct Hres as (-> & Hlen & own' & fl' & H1 & H2). exists 0, s', own', fl'. split; [done|by right].
  - destruct Hres as (own' & fl' & H1 & _ & H3 & H2). exists newsz, s', own', fl'. split; [done|by left].
Qed.

(** ** uvmcopy *)

Lemma flags_ok v : has v RWX = true -> 0 <= PTE_FLAGS v < 1024 /\ has (PTE_FLAGS v) RWX = true.
Proof.
  intros H. unfold PTE_FLAGS. change 0x3FF with (Z.ones 10). split.
  - rewrite Z.land_ones by lia. by apply Z.mod_pos_bound.
  - unfold has in *. by rewrite <- Z.land_assoc.
Qed.

Lemma outside_same_memmove q m src : outside_same q m (memmove m q src pgsize).
Proof.
  intros a Ha. rewrite ld8_memmove. unfold pgsize.
  destruct (Z.leb_spec q a), (Z.ltb_spec a (q + Z.of_nat (Z.to_nat PGSIZE)));
    cbn [andb]; try reflexivity; lia.
Qed.

(** The body of [uvmcopy]'s loop, at page [i]. *)
Definition uvmcopy_body (old new : Z) (n : nat) : K (option Z) :=
  let i := Z.of_nat n * PGSIZE in
  pte ← walk old i false;
  if pte =? 0 then panic "uvmcopy: pte should exist" else
  v ← ldM64 pte;
  if negb (has v PTE_V) then panic "uvmcopy: page not present" else
  mem ← kalloc;
  if mem =? 0 then
    uvmunmap new 0 (i / PGSIZE) true;; mret (Some (-1))
  else
    memM (fun m => memmove m mem (PTE2PA v) pgsize);;
    r ← mappages new i PGSIZE mem (PTE_FLAGS v);
    if negb (r =? 0) then
      kfree mem;; uvmunmap new 0 (i / PGSIZE) true;; mret (Some (-1))
    else mret None.

Section Copyvm.
Context (old new : Z) (s : kst) (own : gmap Z owner) (fl : list Z).
Context (Hok : vm_ok s own fl) (Hold : is_root own old) (Hnew : is_root own new) (Hne : old <> new).

(** What the copy looks like: the flags and the bytes of the parent's pages. *)
Definition copy_perm (vpn : Z) : Z := PTE_FLAGS (pte_of (k_mem s) old (vpn * PGSIZE)).
Definition copy_byte (vpn j : Z) : Z :=
  ld8 (k_mem s) (PTE2PA (pte_of (k_mem s) old (vpn * PGSIZE)) + j).

Lemma unmap_added k s1 own1 fl1 env :
  0 <= k -> k * PGSIZE <= MAXVA -> pte_free s new 0 k ->
  added new 0 k s own fl s1 own1 fl1 -> user_mapped own1 new 0 k ->
  exists s2, uvmunmap new 0 k true (mkWorld s1 env) = Ok tt (mkWorld s2 env) /\
    alloc_failed new s own fl s2.
Proof.
  intros Hk Hmax Hfree A Hmap.
  destruct (uvmunmap_spec new 0 k s1 own1 fl1 env) as (s2 & ps & Hrun & Hu); try done; try lia.
  - apply A.
  - eapply is_root_sub; [apply A|done].
  - exists s2. split; [done|]. exists (own_del own1 new 0 k), (ps ++ fl1).
    split; [apply Hu|]. by eapply undo_added.
Qed.

(** The parent's page [x] still has its contents when it is copied. *)
Lemma copied_page_same k s1 own1 q fl1 s2 x vpn j :
  added new 0 k s own fl s1 own1 (q :: fl1) -> own !! x = Some (OUser old vpn) ->
  outside_same q (k_mem s1) (k_mem s2) -> 0 <= j < PGSIZE ->
  ld8 (k_mem s2) (x + j) = ld8 (k_mem s) (x + j).
Proof.
  intros A Hx Hout Hj.
  assert (Hxa : x mod PGSIZE = 0) by (eapply pi_aligned; [apply Hok|done]).
  assert (Hx1 : own1 !! x = Some (OUser old vpn)) by (eapply lookup_weaken; [done|apply A]).
  assert (Hqn : own1 !! q = None) by (apply (vo_free _ _ _ (ad_ok A)); left).
  assert (Hqa : q mod PGSIZE = 0).
  { assert (Hq : page_ok q) by (eapply avail_page_ok; [apply A|left]). apply Hq. }
  transitivity (ld8 (k_mem s1) (x + j)).
  - apply (outside_same_page q x); [done..|congruence|done|lia].
  - apply (ad_same A x); [done| |congruence|lia].
    intros Hin. apply (vo_free _ _ _ Hok) in Hin. congruence.
Qed.

Lemma uvmcopy_turn n s1 env :
  let k := Z.of_nat n in
  (k + 1) * PGSIZE <= MAXVA -> user_mapped own old 0 (k + 1) -> pte_free s new 0 (k + 1) ->
  alloc_done new 0 k copy_perm copy_byte s own fl s1 ->
  wp (uvmcopy_body old new n) (fun res w => w_env w = env /\
    match res with
    | Some v => v = -1 /\ Z.of_nat (length fl) < 3 * (k + 1) /\ alloc_failed new s own fl (w_ks w)
    | None => alloc_done new 0 (k + 1) copy_perm copy_byte s own fl (w_ks w)
    end) (mkWorld s1 env).
Proof.
  intros k Hmax Hmap Hfree (own1 & fl1 & A & Hsuf & Hlen & Hm). unfold uvmcopy_body. cbv zeta. fold k.
  assert (HPG : PGSIZE = 4096) by done. assert (Hk : 0 <= k) by lia.
  destruct (page_index k) as [Hdiv _]. rewrite Hdiv.
  assert (Hfree' : pte_free s new 0 k) by (eapply pte_free_le; [|done]; lia).
  destruct (Hmap k ltac:(lia)) as [x Hx].
  destruct (user_pte (k_mem s) own old k x) as (HV & HR & Hto); [apply Hok|done|lia|done|].
  pose proof (vo_inv _ _ _ (ad_ok A)) as Hinv1.
  assert (Hx1 : own1 !! x = Some (OUser old k)) by (eapply lookup_weaken; [done|apply A]).
  destruct (user_entry (k_mem s1) own1 old (k * PGSIZE) x Hinv1) as (p & Hp & Hw & _); [by rewrite Hdiv|].
  assert (Hpte1 : ld64 (k_mem s1) (p + 8 * PX 0 (k * PGSIZE)) = pte_of (k_mem s) old (k * PGSIZE)).
  { rewrite <- (pte_of_entry _ own1 old) by first [done | lia | eapply is_root_sub; [apply A|done]].
    apply (ad_pte A); [done|lia|]. by intros []. }
  set (v := pte_of (k_mem s) old (k * PGSIZE)) in *.
  destruct (flags_ok v HR) as [Hf1 Hf2].
  kstep. kstep. eapply wp_of_run; [apply walk_noalloc; lia|]. cbn [w_ks]. rewrite Hw.
  rewrite (proj2 (Z.eqb_neq _ 0)).
  2:{ pose proof (pi_page _ _ Hinv1 _ _ Hp) as Hpok. apply (page_ok_pos Hks) in Hpok.
      pose proof (PX_bound 0 (k * PGSIZE) ltac:(lia)). lia. }
  ksteps. rewrite Hpte1, HV. ksteps.
  destruct fl1 as [|q fl1].
  - eapply wp_of_run; [apply alloc_none; apply A|]. cbn [Z.eqb]. kstep.
    destruct (unmap_added k s1 own1 [] env) as (s2 & Hd & Hfail); try done; [lia|by eapply mapped_as_user|].
    eapply wp_of_run; [exact Hd|]. ksteps. split; [done|]. split; [done|].
    split; [cbn [length] in Hlen; lia|done].
  - destruct (add_page new 0 k s own fl Hok Hnew ltac:(lia) Hk Hmax Hfree s1 own1 q fl1 A Hsuf
      (fun m => memmove m q (PTE2PA v) pgsize) (PTE_FLAGS v) env)
      as (s2 & Hrun & Hq0 & Hout & e & s4 & own4 & fl4 & Hmp & Hres);
      [intros m; apply outside_same_memmove|done|done|].
    rewrite Z.add_0_l in Hmp, Hres.
    eapply wp_of_run; [exact Hrun|]. rewrite (proj2 (Z.eqb_neq q 0)) by lia. ksteps.
    eapply wp_of_run; [exact Hmp|].
    destruct Hres as [(-> & A4 & Hsuf4 & Hlen4 & Hq4 & Hpte4 & Hs4 & G & Hbut)|(-> & Hlen4 & s5 & Hfr & A5 & Hsub)].
    + cbn [negb Z.eqb]. ksteps. split; [done|]. exists own4, fl4. split; [done|]. split; [done|].
      split; [cbn [length] in Hlen; lia|]. eapply (mapped_as_succ new 0 k s own fl); try done.
      intros j Hj. rewrite Hs4 by lia. rewrite ld8_memmove. unfold pgsize. rewrite Z2Nat.id by lia.
      rewrite (proj2 (Z.leb_le _ _)), (proj2 (Z.ltb_lt _ _)) by lia. cbn [andb].
      unfold copy_byte. rewrite Z.add_0_l. fold v. rewrite Hto. replace (q + j - q) with j by lia.
      by eapply (copied_page_same k s1 own1 q fl1 s2 x).
    + cbn [negb Z.eqb]. kstep. eapply wp_of_run; [exact Hfr|]. kstep.
      destruct (unmap_added k s5 own4 [q] env) as (s6 & Hd & Hfail); try done; [lia|..].
      { intros vpn Hv. destruct (mapped_as_user _ _ _ _ _ _ _ Hm vpn Hv) as (y & Hy). exists y.
        by eapply lookup_weaken. }
      eapply wp_of_run; [exact Hd|]. ksteps. split; [done|]. split; [done|].
      split; [cbn [length] in Hlen; lia|done].
Qed.

(** [uvmcopy] makes the child's memory equal to the parent's, or undoes everything. *)
Lemma uvmcopy_spec sz env :
  0 <= sz <= MAXVA -> user_mapped own old 0 (npages sz) -> pte_free s new 0 (npages sz) ->
  exists e s', uvmcopy old new sz (mkWorld s env) = Ok e (mkWorld s' env) /\
    ((e = 0 /\ alloc_done new 0 (npages sz) copy_perm copy_byte s own fl s') \/
     (e = -1 /\ Z.of_nat (length fl) < 3 * npages sz /\ alloc_failed new s own fl s')).
Proof.
  intros Hsz Hmap Hfree. pose proof (npages_bounds sz ltac:(lia)) as Hb.
  pose proof (npages_max sz ltac:(lia)) as Hmx. unfold uvmcopy.
  assert (Hit : page_iters 0 sz = Z.to_nat (npages sz)).
  { unfold page_iters, npages. do 2 f_equal. lia. }
  rewrite Hit.
  assert (Hloop : wp (for_until (seq 0 (Z.to_nat (npages sz))) (uvmcopy_body old new))
    (fun res w => w_env w = env /\
      match res with
      | Some v => v = -1 /\ Z.of_nat (length fl) < 3 * npages sz /\ alloc_failed new s own fl (w_ks w)
      | None => alloc_done new 0 (npages sz) copy_perm copy_byte s own fl (w_ks w)
      end) (mkWorld s env)).
  { apply (wpx_for_until _ _ _ _ (fun dn w => w_env w = env /\
      alloc_done new 0 (Z.of_nat (length dn)) copy_perm copy_byte s own fl (w_ks w))).
    - split; [done|]. exists own, fl. split; [by apply added_0|]. split; [by exists []|].
      split; [cbn; lia|]. intros vpn Hv. cbn in Hv. lia.
    - intros dn x rest [s1 env1] Hseq (He & Hd). cbn in He, Hd. subst env1.
      apply seq_split_lookup in Hseq as [-> Hx]. rewrite length_app. cbn [length].
      rewrite Nat2Z.inj_add. eapply wpx_mono.
      + apply (uvmcopy_turn (length dn) s1 env); try done.
        * unfold PGSIZE in *. lia.
        * intros vpn Hv. apply Hmap. lia.
        * eapply pte_free_le; [|done]. lia.
      + intros [v|] w [Hw Hres]; [|done]. destruct Hres as (? & ? & ?). repeat split; try done; lia.
    - intros [s1 env1] [He Hd]. by rewrite length_seq, Z2Nat.id in Hd by lia. }
  apply wp_run in Hloop as (res & [s' env'] & Hrun & He & Hres). cbn in He, Hres. subst env'.
  rewrite (run_bind _ _ _ res (mkWorld s' env)) by exact Hrun. destruct res as [v|].
  - destruct Hres as (-> & Hlen & Hres). exists (-1), s'. split; [done|by right].
  - exists 0, s'. split; [done|by left].
Qed.

End Copyvm.

(** ** uvmcreate *)

(** A zeroed page that nobody owns becomes the root of an empty address space. *)
Lemma new_root s own fl q :
  vm_ok s own fl -> page_ok q -> own !! q = None -> q ∉ fl ->
  (forall i, 0 <= i < 512 -> ld64 (k_mem s) (q + 8 * i) = 0) ->
  vm_ok s (<[q := OTable q 2 0]> own) fl.
Proof.
  intros [[H1 H2 H3 H4 H5 H6] Hav Hfree Hlock] Hq Hqn Hqfl Hz.
  assert (Hold : forall x o, own !! x = Some o -> <[q := OTable q 2 0]> own !! x = Some o)
    by (intros x o Hx; rewrite lookup_insert_ne by congruence; done).
  split; try done.
  - split.
    + intros x o. rewrite lookup_insert_Some. intros [[<- _]|[_ Hx]]; [done|by eapply H1].
    + intros x r l pre i. rewrite lookup_insert_Some. intros [[<- _]|[_ Hx]] Hi HV.
      * by rewrite Hz in HV.
      * destruct (H2 _ _ _ _ _ Hx Hi HV) as [Hc HR]. by split; [apply Hold|].
    + intros x r pre i. rewrite lookup_insert_Some. intros [[_ ?]|[_ Hx]] Hi HV; [done|].
      destruct (H3 _ _ _ _ Hx Hi HV) as [HR HU]. split; [done|]. intros Hu. by apply Hold, HU.
    + intros x r l pre. rewrite lookup_insert_Some. intros [[<- [= <- <- <-]]|[_ Hx]]; [by left|].
      destruct (H4 _ _ _ _ Hx) as [?|(Hl & y & Hy & H)]; [by left|right].
      split; [done|]. exists y. split; [by apply Hold|done].
    + intros x r vpn. rewrite lookup_insert_Some. intros [[_ ?]|[_ Hx]]; [done|].
      destruct (H5 _ _ _ Hx) as (y & Hy & H). exists y. split; [by apply Hold|done].
    + intros x r pre. rewrite lookup_insert_Some. intros [[_ ?]|[_ Hx]]; [done|by eapply H6].
  - intros x Hx. rewrite lookup_insert_ne by congruence. by apply Hfree.
Qed.

(** [uvmcreate] makes an empty address space whenever a page is left. *)
Lemma uvmcreate_spec s own q fl env :
  vm_ok s own (q :: fl) ->
  exists s', uvmcreate (mkWorld s env) = Ok q (mkWorld s' env) /\
    vm_ok s' (<[q := OTable q 2 0]> own) fl /\ own !! q = None /\ mem_only s s' /\
    same_pte s own s' /\ (forall va, pte_of (k_mem s') q va = 0) /\ outside_same q (k_mem s) (k_mem s').
Proof.
  intros Hok. destruct (take_page s own fl q env Hok)
    as (s1 & Hrun & Hok1 & Hmo & Hout & Hsp & Hq & Hqn & Hqfl & Hq0).
  destruct (fill_page s1 own fl q (memset (k_mem s1) q 0 pgsize) Hok1 Hq Hqn Hqfl) as [Hok2 Hsp2].
  { apply outside_same_memset. }
  set (s2 := set_k_mem (memset (k_mem s1) q 0 pgsize) s1) in *.
  assert (Hz : forall i, 0 <= i < 512 -> ld64 (k_mem s2) (q + 8 * i) = 0).
  { intros i Hi. cbn. apply ld64_memset_zero; unfold pgsize, PGSIZE; lia. }
  exists s2. split; [|split; [by apply new_root|split; [done|split; [|split; [|split]]]]].
  - unfold uvmcreate. rewrite (run_bind _ _ _ q (mkWorld s1 env)) by done.
    rewrite (proj2 (Z.eqb_neq q 0)) by lia. done.
  - etransitivity; [exact Hmo|]. apply mem_only_set_mem.
  - intros r' va l pt Hpt. rewrite (Hsp2 r') by done. by apply (Hsp r').
  - intros va. unfold pte_of. cbn [pte_at]. cbv zeta.
    rewrite Hz by (apply PX_bound; lia). by rewrite has_0.
  - eapply outside_same_trans; [done|apply outside_same_memset].
Qed.

Lemma uvmcreate_none s own env :
  vm_ok s own [] -> uvmcreate (mkWorld s env) = Ok 0 (mkWorld s env).
Proof.
  intros Hok. unfold uvmcreate. by rewrite (run_bind _ _ _ 0 (mkWorld s env)) by (apply alloc_none; apply Hok).
Qed.

(** ** uvmclear *)

Lemma clear_U v : 0 <= v < 2 ^ 64 ->
  let v' := Z.land v (Z.lnot PTE_U) in
  u64 v' = v' /\ has v' PTE_V = has v PTE_V /\ has v' RWX = has v RWX /\ has v' PTE_U = false /\
  PTE2PA v' = PTE2PA v.
Proof.
  intros Hv v'. split.
  { unfold u64, v'. rewrite <- Z.land_ones by lia.
    rewrite <- Z.land_assoc, (Z.land_comm (Z.lnot _)), Z.land_assoc, Z.land_ones by lia.
    by rewrite Z.mod_small. }
  assert (Hmask : forall k, Z.land (Z.lnot PTE_U) k = k -> has v' k = has v k).
  { intros k Hk. unfold has, v'. by rewrite <- Z.land_assoc, Hk. }
  split; [by apply Hmask|]. split; [by apply Hmask|]. split.
  - unfold has, v'. rewrite <- Z.land_assoc. change (Z.land (Z.lnot PTE_U) PTE_U) with 0.
    by rewrite Z.land_0_r.
  - unfold PTE2PA. f_equal. f_equal. apply Z.bits_inj'. intros i Hi.
    rewrite !Z.shiftr_spec by lia. unfold v'. rewrite Z.land_spec, Z.lnot_spec by lia.
    change PTE_U with (2 ^ 4). rewrite Z.pow2_bits_false by lia. apply andb_true_r.
Qed.

(** [uvmclear] takes one page away from user code and changes nothing else. *)
Lemma uvmclear_spec r vpn q s own fl env :
  vm_ok s own fl -> is_root own r -> 0 <= vpn * PGSIZE < MAXVA -> own !! q = Some (OUser r vpn) ->
  exists s', uvmclear r (vpn * PGSIZE) (mkWorld s env) = Ok tt (mkWorld s' env) /\
    vm_ok s' own fl /\
    upd_pte own s r (vpn * PGSIZE) (Z.land (pte_of (k_mem s) r (vpn * PGSIZE)) (Z.lnot PTE_U)) s' /\
    (forall p, p mod PGSIZE = 0 -> (forall r' l pre, own !! p <> Some (OTable r' l pre)) ->
       same_page (k_mem s) (k_mem s') p).
Proof.
  intros Hok Hr Hva Hq. pose proof Hok as [Hinv Hav Hfree Hlock].
  destruct (page_index vpn) as [Hdiv _].
  destruct (user_entry (k_mem s) own r (vpn * PGSIZE) q Hinv) as (p & Hp & Hw & HV & HR & Hto); [by rewrite Hdiv|].
  assert (Hpte : pte_of (k_mem s) r (vpn * PGSIZE) = ld64 (k_mem s) (p + 8 * PX 0 (vpn * PGSIZE)))
    by (by apply (pte_of_entry _ own)).
  set (v := ld64 (k_mem s) (p + 8 * PX 0 (vpn * PGSIZE))) in *.
  destruct (clear_U v (ld64_range _ _)) as (H64 & HV' & HR' & HU' & Hto').
  set (v' := Z.land v (Z.lnot PTE_U)) in *. rewrite Hpte.
  assert (Hpok : page_ok p) by (by eapply (pi_page _ _ Hinv)).
  destruct (leaf_write Hks s own own fl p r (vpn * PGSIZE) v') as [Hok' Hu]; try done.
  - intros Hin. apply Hfree in Hin. congruence.
  - rewrite Hdiv. split; try done.
    + intros x o Hx. by eapply (pi_page _ _ Hinv).
    + intros _. rewrite HR', HU'. done.
    + intros x r' vpn' Hx. destruct (decide (r' = r /\ vpn' = vpn)) as [[-> ->]|Hne].
      * left. rewrite HV', Hto'. repeat split; try done. rewrite Hto. by eapply user_unique.
      * right. split; [|done]. destruct (decide (r' = r)) as [->|]; [right|by left]. intros ->. by apply Hne.
  - pose proof (PX_bound 0 (vpn * PGSIZE) ltac:(lia)) as Hb. pose proof (entry_off _ Hb) as Hoff.
    pose proof (proj1 Hpok) as Hpa. eexists. split; [|split; [exact Hok'|split; [exact Hu|]]].
    2:{ intros x Hx Hnt. cbn. apply same_page_st64; [done..| |lia|lia]. intros ->. by eapply Hnt. }
    unfold uvmclear.
    rewrite (run_bind _ _ _ (p + 8 * PX 0 (vpn * PGSIZE)) (mkWorld s env))
      by (rewrite walk_noalloc by lia; cbn [w_ks]; by rewrite Hw).
    rewrite (proj2 (Z.eqb_neq _ 0)) by (apply (page_ok_pos Hks) in Hpok; lia). reflexivity.
Qed.

End Uvm.

Section Bytes.
Context {KS : KSyms} (Hks : ksyms_ok KS) `{PA : !PageAllocator kalloc kfree}.

(** ** From entries to bytes *)

(** User memory is the same when its entries and its pages are. *)
Lemma user_byte_frame s s' own fl r va :
  vm_ok s own fl -> is_root own r -> 0 <= va ->
  (va < MAXVA -> pte_of (k_mem s') r va = pte_of (k_mem s) r va) ->
  (forall p vpn, own !! p = Some (OUser r vpn) -> same_page (k_mem s) (k_mem s') p) ->
  user_byte (k_mem s') r va = user_byte (k_mem s) r va.
Proof.
  intros Hok Hr Hva Hpte Hsame. unfold user_byte.
  assert (Ht : translate (k_mem s') r va = translate (k_mem s) r va).
  { unfold translate. destruct (Z.leb_spec MAXVA va); [done|]. by rewrite Hpte. }
  rewrite Ht. destruct (translate (k_mem s) r va) as [pa|] eqn:Htr; [|done]. cbn. f_equal.
  destruct (translate_owner _ own r va pa (vo_inv _ _ _ Hok) Hr Hva Htr) as (p & Hp & ->).
  apply (Hsame p _ Hp). pose proof (Z.mod_pos_bound va PGSIZE ltac:(done)). lia.
Qed.

(** The pages of a user are not free and hold no tables. *)
Lemma user_page_same s own fl r p vpn m' :
  vm_ok s own fl -> own !! p = Some (OUser r vpn) ->
  (forall p, p mod PGSIZE = 0 -> p ∉ fl -> (forall r' l pre, own !! p <> Some (OTable r' l pre)) ->
     same_page (k_mem s) m' p) -> same_page (k_mem s) m' p.
Proof.
  intros Hok Hp H. apply H; [eapply pi_aligned; [apply Hok|done]| |congruence].
  intros Hin. apply (vo_free _ _ _ Hok) in Hin. congruence.
Qed.

Lemma mapped_as_byte_in r lo k perm content s own va :
  pt_inv (k_mem s) own -> mapped_as r lo k perm content s own ->
  0 <= perm (va / PGSIZE) < 1024 -> 0 <= va < MAXVA -> lo <= va / PGSIZE < lo + k ->
  user_byte (k_mem s) r va =
  if has (perm (va / PGSIZE)) PTE_U then Some (content (va / PGSIZE) (va mod PGSIZE)) else None.
Proof.
  intros Hinv Hm Hperm Hva Hin. destruct (Hm _ Hin) as (q & Hq & Hpte & Hc).
  assert (Hqok : page_ok q) by (by eapply pi_page).
  pose proof (page_ok_range Hks q Hqok) as Hqr.
  unfold user_byte, translate. rewrite (proj2 (Z.leb_gt _ _)) by lia.
  assert (He : pte_of (k_mem s) r va = mk_pte q (perm (va / PGSIZE))).
  { rewrite <- Hpte. apply pte_at_page. by rewrite (proj1 (page_index _)). }
  rewrite He, has_V_mk_pte, has_U_mk_pte by done. cbn [andb].
  destruct (has _ PTE_U); [|done]. cbn. rewrite PTE2PA_mk_pte by (done || apply Hqok).
  by rewrite Hc by (by apply Z.mod_pos_bound).
Qed.

Lemma mapped_as_byte r lo k perm content s own va :
  pt_inv (k_mem s) own -> mapped_as r lo k perm content s own ->
  (forall vpn, 0 <= perm vpn < 1024) -> 0 <= va < MAXVA -> lo <= va / PGSIZE < lo + k ->
  user_byte (k_mem s) r va =
  if has (perm (va / PGSIZE)) PTE_U then Some (content (va / PGSIZE) (va mod PGSIZE)) else None.
Proof. intros Hinv Hm Hperm. by apply (mapped_as_byte_in r lo k perm content s own va). Qed.

Lemma flags_range_1024 v : 0 <= PTE_FLAGS v < 1024.
Proof.
  unfold PTE_FLAGS. change 0x3FF with (Z.ones 10). rewrite Z.land_ones by lia.
  by apply Z.mod_pos_bound.
Qed.

Lemma has_U_flags v : has (PTE_FLAGS v) PTE_U = has v PTE_U.
Proof. unfold has, PTE_FLAGS. by rewrite <- Z.land_assoc. Qed.

Lemma below_npages va sz : 0 <= va < sz -> 0 <= va / PGSIZE < npages sz.
Proof.
  intros H. pose proof (npages_bounds sz ltac:(lia)).
  split; [apply Z.div_pos; [lia|done]|]. apply Z.div_lt_upper_bound; [done|lia].
Qed.

Lemma page_between a b va : a * PGSIZE <= va < b * PGSIZE <-> a <= va / PGSIZE < a + (b - a).
Proof.
  pose proof (Z.div_mod va PGSIZE ltac:(done)). pose proof (Z.mod_pos_bound va PGSIZE ltac:(done)).
  unfold PGSIZE in *. lia.
Qed.

(** The byte the parent reads is the byte the copy is made of. *)
Lemma parent_byte old s own fl va :
  vm_ok s own fl -> is_root own old -> 0 <= va < MAXVA -> user_mapped own old (va / PGSIZE) 1 ->
  user_byte (k_mem s) old va =
  if has (copy_perm old s (va / PGSIZE)) PTE_U
  then Some (copy_byte old s (va / PGSIZE) (va mod PGSIZE)) else None.
Proof.
  intros Hok Hr Hva Hmap. destruct (Hmap (va / PGSIZE) ltac:(lia)) as [x Hx].
  assert (Hvp : 0 <= va / PGSIZE * PGSIZE < MAXVA).
  { pose proof (Z.mul_div_le va PGSIZE ltac:(done)). pose proof (Z.div_pos va PGSIZE ltac:(lia) ltac:(done)).
    unfold PGSIZE in *. lia. }
  destruct (user_pte Hks (k_mem s) own old (va / PGSIZE) x (vo_inv _ _ _ Hok) Hr Hvp Hx) as (HV & _ & _).
  assert (He : pte_of (k_mem s) old va = pte_of (k_mem s) old (va / PGSIZE * PGSIZE)).
  { apply pte_at_page. by rewrite (proj1 (page_index _)). }
  unfold user_byte, translate, copy_perm, copy_byte. rewrite (proj2 (Z.leb_gt _ _)) by lia.
  rewrite He, HV, has_U_flags. cbn [andb]. by destruct (has _ PTE_U).
Qed.

Lemma added_user_byte r lo k s own fl s' own' fl' r' va :
  vm_ok s own fl -> added r lo k s own fl s' own' fl' -> is_root own r' -> 0 <= va ->
  ~ (r' = r /\ lo <= va / PGSIZE < lo + k) ->
  user_byte (k_mem s') r' va = user_byte (k_mem s) r' va.
Proof.
  intros Hok A Hr Hva Hout. apply (user_byte_frame s s' own fl r' va Hok Hr Hva).
  - intros Hlt. by apply (ad_pte A).
  - intros p vpn Hp. eapply user_page_same; [done..|]. apply A.
Qed.

Lemma undone_user_byte r0 s own fl s' own' fl' r va :
  vm_ok s own fl -> undone r0 s own fl s' own' fl' -> is_root own r -> 0 <= va ->
  user_byte (k_mem s') r va = user_byte (k_mem s) r va.
Proof.
  intros Hok U Hr Hva. apply (user_byte_frame s s' own fl r va Hok Hr Hva).
  - intros Hlt. by apply U.
  - intros p vpn Hp. eapply user_page_same; [done..|]. apply U.
Qed.

(** After [uvmcopy] the child reads what the parent reads. *)
Lemma copied_byte old new s own fl s' sz va :
  vm_ok s own fl -> is_root own old -> 0 <= sz <= MAXVA -> user_mapped own old 0 (npages sz) ->
  alloc_done new 0 (npages sz) (copy_perm old s) (copy_byte old s) s own fl s' -> 0 <= va < sz ->
  user_byte (k_mem s') new va = user_byte (k_mem s) old va.
Proof.
  intros Hok Hold Hsz Hmap (own' & fl' & A & _ & _ & Hm) Hva.
  pose proof (below_npages va sz Hva) as Hpg.
  rewrite (mapped_as_byte new 0 (npages sz) (copy_perm old s) (copy_byte old s) s' own' va); [|apply A|done| |lia|lia].
  - symmetry. apply (parent_byte old s own fl); [done|done|lia|]. intros vpn Hv. apply Hmap. lia.
  - intros vpn. apply flags_range_1024.
Qed.

End Bytes.
