(* ===== verification/Freewalk.v ===== *)
(** * Freeing an address space (kernel/vm.c: freewalk, uvmfree)

    [tree_pages m l pt] lists the table pages below the table [pt] of level [l].
    [freewalk] frees exactly these pages, and [uvmfree] every page the address space
    owns: no page is leaked, and no other address space changes. *)

From stdpp Require Import base gmap list strings.
From Stdlib Require Import ZArith Lia.
From S2P Require Import Prelude Riscv Memory State Spinlock Kalloc Vm PageTable UserMem Uvm.

(** The table page entry [i] of [pt] points to. *)
Definition kid (m : mem) (pt : Z) (i : nat) : option Z :=
  let v := ld64 m (pt + 8 * Z.of_nat i) in
  if has v PTE_V then Some (PTE2PA v) else None.

Fixpoint tree_pages (m : mem) (l : nat) (pt : Z) : list Z :=
  pt :: match l with
        | O => []
        | S l => seq 0 512 ≫= (fun i => from_option (tree_pages m l) [] (kid m pt i))
        end.

(** The table pages below entry [i]. *)
Definition sub_pages (m : mem) (l : nat) (pt : Z) (i : nat) : list Z :=
  from_option (tree_pages m l) [] (kid m pt i).

(** No leaf table of the tree has a valid entry, and no inner table has a leaf. *)
Fixpoint tree_ok (m : mem) (l : nat) (pt : Z) : Prop :=
  forall i, (i < 512)%nat -> has (ld64 m (pt + 8 * Z.of_nat i)) PTE_V = true ->
    match l with
    | O => False
    | S l => has (ld64 m (pt + 8 * Z.of_nat i)) RWX = false /\
             tree_ok m l (PTE2PA (ld64 m (pt + 8 * Z.of_nat i)))
    end.

Lemma tree_pages_S m l pt : tree_pages m (S l) pt = pt :: (seq 0 512 ≫= sub_pages m l pt).
Proof. reflexivity. Qed.

Lemma tree_pages_root m l pt : pt ∈ tree_pages m l pt.
Proof. destruct l; left. Qed.

(** The tree only depends on its own pages. *)
Lemma tree_frame m m' : forall l pt,
  (forall p, p ∈ tree_pages m l pt -> same_page m m' p) ->
  tree_pages m' l pt = tree_pages m l pt /\ (tree_ok m l pt -> tree_ok m' l pt).
Proof.
  induction l as [|l IH]; intros pt Hs;
    assert (He : forall i, (i < 512)%nat ->
      ld64 m' (pt + 8 * Z.of_nat i) = ld64 m (pt + 8 * Z.of_nat i))
    by (intros i Hi; apply same_entry; [apply Hs, tree_pages_root|lia]).
  { split; [done|]. intros H i Hi. rewrite He by done. by apply H. }
  assert (Hkid : forall i v, (i < 512)%nat -> v = ld64 m (pt + 8 * Z.of_nat i) ->
    has v PTE_V = true -> forall p, p ∈ tree_pages m l (PTE2PA v) -> same_page m m' p).
  { intros i v Hi -> HV p Hp. apply Hs. rewrite tree_pages_S. right. apply list_elem_of_bind.
    exists i. split; [|apply elem_of_seq; lia]. unfold sub_pages, kid. by rewrite HV. }
  split.
  - rewrite !tree_pages_S. f_equal. apply Forall_bind_ext, Forall_forall. intros i Hi.
    apply elem_of_seq in Hi. unfold sub_pages, kid. rewrite He by lia.
    destruct (has _ PTE_V) eqn:HV; [|done]. cbn. apply IH. eapply Hkid; [|done|done]. lia.
  - cbn [tree_ok]. intros H i Hi. rewrite He by done. intros HV.
    destruct (H i Hi HV) as [HR Hok]. split; [done|]. apply IH; [|done]. by eapply Hkid.
Qed.

Section Freewalk.
Context {KS : KSyms} (Hks : ksyms_ok KS) `{PA : !PageAllocator kalloc kfree}.

(** What freeing the pages [ps] does. *)
Record frees (s : kst) (fl : list Z) (s' : kst) (ps : list Z) : Prop := {
  fr_avail : avail s' (ps ++ fl);
  fr_mem : mem_only s s';
  fr_same p : p mod PGSIZE = 0 -> p ∉ ps -> same_page (k_mem s) (k_mem s') p
}.

(** A tree that can be freed: its pages are distinct pages of RAM, none of them free. *)
Record tree_rep (s : kst) (fl : list Z) (l : nat) (pt : Z) : Prop := {
  tr_ok : tree_ok (k_mem s) l pt;
  tr_nodup : NoDup (tree_pages (k_mem s) l pt);
  tr_page p : p ∈ tree_pages (k_mem s) l pt -> page_ok p;
  tr_fl p : p ∈ tree_pages (k_mem s) l pt -> p ∉ fl;
  tr_avail : avail s fl;
  tr_lock : LKmem ∉ k_held s
}.

(** The loop of [freewalk], after the entries in [dn]. *)
Record fw_loop (s : kst) (fl : list Z) (l : nat) (pt : Z) (dn : list nat) (s1 : kst) (ps : list Z) : Prop := {
  fw_ps : ps ≡ₚ (dn ≫= sub_pages (k_mem s) l pt);
  fw_avail : avail s1 (ps ++ fl);
  fw_mem : mem_only s s1;
  fw_same p : p mod PGSIZE = 0 -> p ∉ ps -> p <> pt -> same_page (k_mem s) (k_mem s1) p;
  fw_rest i : (length dn <= i < 512)%nat ->
    ld64 (k_mem s1) (pt + 8 * Z.of_nat i) = ld64 (k_mem s) (pt + 8 * Z.of_nat i)
}.

Lemma freewalk_entry s fl l pt dn n rest s1 ps s2 qs :
  tree_rep s fl (S l) pt -> seq 0 512 = dn ++ n :: rest -> fw_loop s fl l pt dn s1 ps ->
  has (ld64 (k_mem s) (pt + 8 * Z.of_nat n)) PTE_V = true ->
  qs ≡ₚ sub_pages (k_mem s) l pt n -> frees s1 (ps ++ fl) s2 qs ->
  fw_loop s fl l pt (dn ++ [n]) (set_k_mem (st64 (k_mem s2) (pt + 8 * Z.of_nat n) 0) s2) (qs ++ ps).
Proof.
  intros T Hseq [Hps Hav Hmo Hsame Hrest] HV Hqs [Fav Fmo Fsame].
  pose proof (seq_split_lookup _ _ _ _ Hseq) as [-> Hn].
  assert (HPG : PGSIZE = 4096) by done.
  pose proof (tr_nodup _ _ _ _ T) as Hnd. rewrite tree_pages_S, Hseq, bind_app in Hnd.
  apply NoDup_cons in Hnd as [Hpt _]. cbn in Hpt. fold (@mbind list _ nat Z) in Hpt.
  rewrite !elem_of_app in Hpt.
  assert (Hptq : pt ∉ qs ++ ps).
  { rewrite elem_of_app, Hqs, Hps. tauto. }
  assert (Hptok : page_ok pt) by (apply (tr_page _ _ _ _ T), tree_pages_root).
  pose proof (proj1 Hptok) as Hpta.
  assert (Hptf : pt ∉ fl) by (apply (tr_fl _ _ _ _ T), tree_pages_root).
  assert (Hw : forall p, p mod PGSIZE = 0 -> p <> pt ->
    same_page (k_mem s2) (st64 (k_mem s2) (pt + 8 * Z.of_nat (length dn)) 0) p).
  { intros p Hp Hne. apply same_page_st64; [done|done|congruence|lia|lia]. }
  split.
  - rewrite bind_app. cbn. fold (@mbind list _ nat Z). rewrite app_nil_r, Hqs, Hps.
    apply Permutation_app_comm.
  - rewrite <- app_assoc. apply (avail_frame s2); [done| |done]. intros p Hp. apply Hw.
    + destruct (avail_ok _ _ Fav) as [Hall _]. rewrite Forall_forall in Hall. by apply Hall in Hp as [].
    + intros ->. rewrite app_assoc, elem_of_app in Hp. tauto.
  - etransitivity; [exact Hmo|]. etransitivity; [exact Fmo|]. apply mem_only_set_mem.
  - intros p Hp Hni Hne. rewrite elem_of_app in Hni. cbn.
    eapply same_page_trans; [by apply Hsame; [|tauto|]|].
    eapply same_page_trans; [by apply Fsame; [|tauto]|]. by apply Hw.
  - intros i Hi. rewrite length_app in Hi. cbn in Hi. cbn [k_mem set_k_mem].
    rewrite ld64_entry_ne by (try done; lia). rewrite elem_of_app in Hptq.
    rewrite (same_entry (k_mem s1)) by (try lia; apply Fsame; tauto). apply Hrest. lia.
Qed.

Definition frees_tree (l : nat) : Prop := forall pt s fl env,
  tree_rep s fl l pt ->
  exists s' ps, freewalk_at l pt (mkWorld s env) = Ok tt (mkWorld s' env) /\
    frees s fl s' ps /\ ps ≡ₚ tree_pages (k_mem s) l pt.

Lemma kid_rep s fl l pt dn n rest s1 ps :
  tree_rep s fl (S l) pt -> seq 0 512 = dn ++ n :: rest -> fw_loop s fl l pt dn s1 ps ->
  has (ld64 (k_mem s) (pt + 8 * Z.of_nat n)) PTE_V = true ->
  let c := PTE2PA (ld64 (k_mem s) (pt + 8 * Z.of_nat n)) in
  tree_rep s1 (ps ++ fl) l c /\ tree_pages (k_mem s1) l c = sub_pages (k_mem s) l pt n.
Proof.
  intros T Hseq L HV c. pose proof (seq_split_lookup _ _ _ _ Hseq) as [-> Hn].
  assert (Hsub : sub_pages (k_mem s) l pt (length dn) = tree_pages (k_mem s) l c).
  { unfold sub_pages, kid. by rewrite HV. }
  pose proof (tr_nodup _ _ _ _ T) as Hnd.
  rewrite tree_pages_S, Hseq, bind_app, bind_cons, Hsub in Hnd.
  apply NoDup_cons in Hnd as [Hpt Hnd]. rewrite !elem_of_app in Hpt.
  apply NoDup_app in Hnd as (_ & Hdis & Hnd). apply NoDup_app in Hnd as (Hnd & _ & _).
  assert (Hin : forall p, p ∈ tree_pages (k_mem s) l c -> p ∈ tree_pages (k_mem s) (S l) pt).
  { intros p Hp. rewrite tree_pages_S, Hseq, bind_app, bind_cons, Hsub. right.
    rewrite !elem_of_app. tauto. }
  assert (Hps : forall p, p ∈ tree_pages (k_mem s) l c -> p ∉ ps).
  { intros p Hp Hi. rewrite (fw_ps _ _ _ _ _ _ _ L) in Hi. apply Hdis in Hi.
    rewrite elem_of_app in Hi. tauto. }
  destruct (tree_frame (k_mem s) (k_mem s1) l c) as [He Hok'].
  { intros p Hp. apply (fw_same _ _ _ _ _ _ _ L); [|by apply Hps|].
    - by apply (tr_page _ _ _ _ T), Hin.
    - intros ->. tauto. }
  rewrite He, Hsub. split; [|done]. split; rewrite ?He; try done.
  - apply Hok'. by apply (tr_ok _ _ _ _ T).
  - intros p Hp. by apply (tr_page _ _ _ _ T), Hin.
  - intros p Hp. rewrite elem_of_app. pose proof (tr_fl _ _ _ _ T p (Hin _ Hp)).
    pose proof (Hps p Hp). tauto.
  - apply L.
  - rewrite (mem_only_held _ _ (fw_mem _ _ _ _ _ _ _ L)). apply T.
Qed.

(** The end of [freewalk]: the table page itself is freed. *)
Lemma free_root s fl l pt s1 ps env :
  tree_rep s fl l pt -> avail s1 (ps ++ fl) -> mem_only s s1 -> pt ∉ ps ->
  (forall p, p mod PGSIZE = 0 -> p ∉ ps -> p <> pt -> same_page (k_mem s) (k_mem s1) p) ->
  exists s', kfree pt (mkWorld s1 env) = Ok tt (mkWorld s' env) /\ frees s fl s' (pt :: ps).
Proof.
  intros T Hav Hmo Hpt Hsame.
  assert (Hpok : page_ok pt) by (apply (tr_page _ _ _ _ T), tree_pages_root).
  destruct (free_page s1 env pt (ps ++ fl)) as (s' & Hrun & Hav' & Hmo' & Hout); try done.
  - rewrite elem_of_app. pose proof (tr_fl _ _ _ _ T pt (tree_pages_root _ _ _)). tauto.
  - rewrite (mem_only_held _ _ Hmo). apply T.
  - exists s'. split; [done|]. split; [done|by etransitivity|].
    intros p Hp Hni. apply not_elem_of_cons in Hni as [Hne Hni].
    eapply same_page_trans; [by apply Hsame|].
    apply (outside_same_page pt); [apply Hpok|done|congruence|done].
Qed.

Lemma freewalk_at_S l : frees_tree l -> frees_tree (S l).
Proof.
  intros IH pt s fl env T. cbn [freewalk_at].
  match goal with |- context [for_each _ ?b] => set (body := b) end.
  assert (Hloop : wp (for_each (seq 0 512) body) (fun _ w => exists ps, w_env w = env /\
    fw_loop s fl l pt (seq 0 512) (w_ks w) ps) (mkWorld s env)).
  { apply (wpx_for_each _ _ _ _ (fun dn w => exists ps, w_env w = env /\
      fw_loop s fl l pt dn (w_ks w) ps)); [| |done].
    - exists []. split; [done|]. split; try done. apply T.
    - intros dn n rest [s1 env1] Hseq (ps & He & L). cbn in He, L. subst env1.
      pose proof (seq_split_lookup _ _ _ _ Hseq) as [-> Hn]. unfold body. cbv zeta.
      ksteps. cbn [w_ks]. rewrite (fw_rest _ _ _ _ _ _ _ L) by lia.
      destruct (has (ld64 (k_mem s) (pt + 8 * Z.of_nat (length dn))) PTE_V) eqn:HV; cbn [andb].
      + destruct (tr_ok _ _ _ _ T _ Hn HV) as [HR _]. unfold RWX in HR. rewrite HR. cbn [negb].
        destruct (kid_rep _ _ _ _ _ _ _ _ _ T Hseq L HV) as [T' Hpages].
        destruct (IH _ s1 (ps ++ fl) env T') as (s2 & qs & Hrun & F & Hqs).
        apply wpx_bind. eapply wp_of_run; [exact Hrun|]. ksteps. exists (qs ++ ps). split; [done|].
        rewrite Hpages in Hqs. by eapply freewalk_entry.
      + ksteps. exists ps. split; [done|]. destruct L as [Lps Lav Lmo Lsame Lrest]. split; try done.
        * rewrite bind_app, bind_cons. unfold sub_pages at 2. unfold kid. rewrite HV.
          cbn. by rewrite app_nil_r.
        * intros i Hi. rewrite length_app in Hi. apply Lrest. lia. }
  apply wp_run in Hloop as ([] & [s1 env1] & Hrun & ps & He & L). cbn in He, L. subst env1.
  rewrite (run_bind _ _ _ tt (mkWorld s1 env)) by exact Hrun.
  assert (Hpt : pt ∉ ps).
  { rewrite (fw_ps _ _ _ _ _ _ _ L). pose proof (tr_nodup _ _ _ _ T) as Hnd.
    rewrite tree_pages_S in Hnd. by apply NoDup_cons in Hnd as []. }
  destruct (free_root s fl (S l) pt s1 ps env) as (s' & Hr' & F); try done; try apply L.
  exists s', (pt :: ps). split; [done|]. split; [done|].
  rewrite tree_pages_S. by rewrite (fw_ps _ _ _ _ _ _ _ L).
Qed.

Lemma freewalk_at_0 : frees_tree 0.
Proof.
  intros pt s fl env T. cbn [freewalk_at].
  match goal with |- context [for_each _ ?b] => set (body := b) end.
  assert (Hloop : wp (for_each (seq 0 512) body) (fun _ w => w = mkWorld s env) (mkWorld s env)).
  { apply (wpx_for_each _ _ _ _ (fun _ w => w = mkWorld s env)); [done| |done].
    intros dn n rest w Hseq ->. apply seq_split_lookup in Hseq as [-> Hn].
    unfold body. cbv zeta. ksteps. cbn [w_ks].
    destruct (has (ld64 (k_mem s) (pt + 8 * Z.of_nat (length dn))) PTE_V) eqn:HV; [|by ksteps].
    by destruct (tr_ok _ _ _ _ T _ Hn HV). }
  apply wp_run in Hloop as ([] & w & Hrun & ->).
  rewrite (run_bind _ _ _ tt (mkWorld s env)) by exact Hrun.
  destruct (free_root s fl 0 pt s [] env) as (s' & Hr' & F); try done; try apply T.
  - by apply not_elem_of_nil.
  - by exists s', [pt].
Qed.

(** [freewalk] frees exactly the pages of the tree. *)
Lemma freewalk_at_spec l : frees_tree l.
Proof. induction l; [exact freewalk_at_0|by apply freewalk_at_S]. Qed.

(** ** The trees of the invariant *)

Definition no_leaf (m : mem) (own : gmap Z owner) (r : Z) : Prop :=
  forall p pre i, own !! p = Some (OTable r 0 pre) -> 0 <= i < 512 ->
  has (ld64 m (p + 8 * i)) PTE_V = false.

Section Tree.
Context (m : mem) (own : gmap Z owner) (r : Z) (Hinv : pt_inv m own) (Hnl : no_leaf m own r).

Lemma inv_tree_ok : forall l pt pre, own !! pt = Some (OTable r l pre) -> tree_ok m l pt.
Proof.
  induction l as [|l IH]; intros pt pre Hpt; cbn [tree_ok]; intros i Hi HV.
  - by rewrite (Hnl pt pre (Z.of_nat i) Hpt ltac:(lia)) in HV.
  - destruct (pi_node _ _ Hinv _ _ _ _ (Z.of_nat i) Hpt ltac:(lia) HV) as [Hc HR].
    split; [done|]. by eapply IH.
Qed.

(** Every page of a tree is a table of the range the tree covers. *)
Lemma inv_tree_owner : forall l pt pre, own !! pt = Some (OTable r l pre) ->
  forall p, p ∈ tree_pages m l pt ->
  exists l' pre', own !! p = Some (OTable r l' pre') /\ (l' <= l)%nat /\
    pre' / 512 ^ Z.of_nat (l - l') = pre.
Proof.
  induction l as [|l IH]; intros pt pre Hpt p Hp.
  { apply list_elem_of_singleton in Hp as ->. exists 0%nat, pre. split; [done|]. split; [lia|].
    apply Z.div_1_r. }
  rewrite tree_pages_S in Hp. apply elem_of_cons in Hp as [->|Hp].
  { exists (S l), pre. split; [done|]. split; [lia|]. rewrite Nat.sub_diag. apply Z.div_1_r. }
  apply list_elem_of_bind in Hp as (i & Hp & Hi). apply elem_of_seq in Hi.
  unfold sub_pages, kid in Hp.
  destruct (has (ld64 m (pt + 8 * Z.of_nat i)) PTE_V) eqn:HV; [|by apply not_elem_of_nil in Hp].
  destruct (pi_node _ _ Hinv _ _ _ _ (Z.of_nat i) Hpt ltac:(lia) HV) as [Hc _].
  destruct (IH _ _ Hc p Hp) as (l' & pre' & Ho & Hl & Hpre). exists l', pre'.
  split; [done|]. split; [lia|]. replace (S l - l')%nat with (S (l - l')) by lia.
  rewrite Nat2Z.inj_succ, Z.pow_succ_r, Z.mul_comm, <- Z.div_div by lia.
  rewrite Hpre. apply idx_div. lia.
Qed.

Lemma inv_tree_nodup : forall l pt pre, own !! pt = Some (OTable r l pre) ->
  NoDup (tree_pages m l pt).
Proof.
  induction l as [|l IH]; intros pt pre Hpt; [apply NoDup_singleton|].
  rewrite tree_pages_S.
  assert (Hsub : forall i p, i ∈ seq 0 512 -> p ∈ sub_pages m l pt i ->
    has (ld64 m (pt + 8 * Z.of_nat i)) PTE_V = true /\
    exists l' pre', own !! p = Some (OTable r l' pre') /\ (l' <= l)%nat /\
      pre' / 512 ^ Z.of_nat (l - l') = pre * 512 + Z.of_nat i).
  { intros i p Hi Hp. apply elem_of_seq in Hi. unfold sub_pages, kid in Hp.
    destruct (has _ PTE_V) eqn:HV; [|by apply not_elem_of_nil in Hp]. split; [done|].
    destruct (pi_node _ _ Hinv _ _ _ _ (Z.of_nat i) Hpt ltac:(lia) HV) as [Hc _].
    by apply (inv_tree_owner _ _ _ Hc). }
  apply NoDup_cons. split; [|apply NoDup_bind].
  - intros Hp. apply list_elem_of_bind in Hp as (i & Hp & Hi).
    destruct (Hsub i pt Hi Hp) as (_ & l' & pre' & Ho & Hl & _).
    rewrite Hpt in Ho. injection Ho as <- _. lia.
  - intros i j p Hi Hj Hpi Hpj.
    destruct (Hsub i p Hi Hpi) as (_ & l' & pre' & Ho & _ & He).
    destruct (Hsub j p Hj Hpj) as (_ & l'' & pre'' & Ho' & _ & He').
    rewrite Ho in Ho'. injection Ho' as <- <-. lia.
  - intros i Hi. unfold sub_pages, kid. destruct (has _ PTE_V) eqn:HV; [|apply NoDup_nil_2].
    apply elem_of_seq in Hi.
    destruct (pi_node _ _ Hinv _ _ _ _ (Z.of_nat i) Hpt ltac:(lia) HV) as [Hc _]. by eapply IH.
  - apply NoDup_seq.
Qed.

Lemma kid_in_tree p pre l q : own !! p = Some (OTable r (S l) (pre / 512)) ->
  has (ld64 m (p + 8 * (pre mod 512))) PTE_V = true ->
  PTE2PA (ld64 m (p + 8 * (pre mod 512))) = q ->
  forall x, x ∈ tree_pages m l q -> x ∈ tree_pages m (S l) p.
Proof.
  intros Hp HV Hto x Hx. rewrite tree_pages_S. right. apply list_elem_of_bind.
  pose proof (mod512 pre). exists (Z.to_nat (pre mod 512)). split; [|apply elem_of_seq; lia].
  unfold sub_pages, kid. rewrite Z2Nat.id by lia. by rewrite HV, Hto.
Qed.

(** Every table page of [r] is in the tree of its root. *)
Lemma inv_in_tree q l pre : own !! q = Some (OTable r l pre) -> q ∈ tree_pages m 2 r.
Proof.
  intros Hq. destruct (pi_table _ _ Hinv _ _ _ _ Hq) as [(_ & -> & _)|(Hl & p & Hp & HV & Hto)].
  { apply tree_pages_root. }
  destruct (pi_table _ _ Hinv _ _ _ _ Hp) as [(Hl2 & -> & _)|(Hl1 & p2 & Hp2 & HV2 & Hto2)].
  - injection Hl2 as ->. eapply (kid_in_tree r); [done..|]. apply tree_pages_root.
  - destruct l; [|lia].
    destruct (pi_table _ _ Hinv _ _ _ _ Hp2) as [(_ & -> & _)|[? _]]; [|lia].
    eapply (kid_in_tree r); [done..|]. eapply (kid_in_tree p); [done..|]. apply tree_pages_root.
Qed.

End Tree.

(** ** uvmfree *)


(** The owners without the pages of one address space. *)
Definition own_drop (own : gmap Z owner) (r : Z) : gmap Z owner :=
  filter (fun po => root_of po.2 <> r) own.

Lemma own_drop_lookup own r p o :
  own_drop own r !! p = Some o <-> own !! p = Some o /\ root_of o <> r.
Proof. unfold own_drop. by rewrite map_lookup_filter_Some. Qed.

Lemma pt_inv_drop m own r : pt_inv m own -> pt_inv m (own_drop own r).
Proof.
  intros [H1 H2 H3 H4 H5 H6]. split.
  - intros p o Hp. apply own_drop_lookup in Hp as [Hp _]. by eapply H1.
  - intros p r' l pre i Hp Hi HV. apply own_drop_lookup in Hp as [Hp Hr].
    rewrite own_drop_lookup. destruct (H2 _ _ _ _ _ Hp Hi HV). done.
  - intros p r' pre i Hp Hi HV. apply own_drop_lookup in Hp as [Hp Hr].
    destruct (H3 _ _ _ _ Hp Hi HV) as [HR HU]. split; [done|]. intros Hu.
    rewrite own_drop_lookup. split; [by apply HU|done].
  - intros q r' l pre Hq. apply own_drop_lookup in Hq as [Hq Hr].
    destruct (H4 _ _ _ _ Hq) as [?|(Hl & p & Hp & H)]; [by left|right].
    split; [done|]. exists p. by rewrite own_drop_lookup.
  - intros q r' vpn Hq. apply own_drop_lookup in Hq as [Hq Hr].
    destruct (H5 _ _ _ Hq) as (p & Hp & H). exists p. by rewrite own_drop_lookup.
  - intros q r' pre Hq. apply own_drop_lookup in Hq as [Hq _]. by eapply H6.
Qed.

(** [freewalk] on an address space that maps nothing. *)
Lemma freewalk_spec r s own fl env :
  vm_ok s own fl -> is_root own r -> no_leaf (k_mem s) own r ->
  (forall q vpn, own !! q <> Some (OUser r vpn)) ->
  exists s' ps, freewalk r (mkWorld s env) = Ok tt (mkWorld s' env) /\
    vm_ok s' (own_drop own r) (ps ++ fl) /\ mem_only s s' /\
    (forall q, q ∈ ps <-> exists o, own !! q = Some o /\ root_of o = r) /\
    (forall p, p mod PGSIZE = 0 -> p ∉ ps -> same_page (k_mem s) (k_mem s') p).
Proof.
  intros Hok Hr Hnl Hnu. pose proof Hok as [Hinv Hav Hfree Hlock].
  assert (Hin : forall q, q ∈ tree_pages (k_mem s) 2 r <-> exists o, own !! q = Some o /\ root_of o = r).
  { intros q. split.
    - intros Hq. destruct (inv_tree_owner _ _ _ Hinv _ _ _ Hr q Hq) as (l & pre & Ho & _).
      by exists (OTable r l pre).
    - intros ([r' l pre|r' vpn] & Ho & Hro); cbn in Hro; subst r'.
      + by eapply inv_in_tree.
      + by destruct (Hnu q vpn). }
  destruct (freewalk_at_spec 2 r s fl env) as (s' & ps & Hrun & [Fav Fmo Fsame] & Hps).
  { split; try done.
    - by eapply inv_tree_ok.
    - by eapply inv_tree_nodup.
    - intros p Hp. apply Hin in Hp as (o & Ho & _). by eapply pi_page.
    - intros p Hp Hf. apply Hin in Hp as (o & Ho & _). apply Hfree in Hf. congruence. }
  assert (Hmem : forall q, q ∈ ps <-> exists o, own !! q = Some o /\ root_of o = r).
  { intros q. by rewrite Hps. }
  exists s', ps. split; [done|]. split; [|done]. split; try done.
  - apply pt_inv_frame with (k_mem s); [|by apply pt_inv_drop].
    intros p r' l pre Hp. apply own_drop_lookup in Hp as [Hp Hne].
    apply Fsame; [by eapply pi_aligned|]. rewrite Hmem. intros (o & Ho & Hro). congruence.
  - intros p Hp. destruct (own_drop own r !! p) as [o|] eqn:Ho; [|done].
    apply own_drop_lookup in Ho as [Ho Hne]. apply elem_of_app in Hp as [Hp|Hp].
    + apply Hmem in Hp as (o' & Ho' & Hro). congruence.
    + apply Hfree in Hp. congruence.
  - by rewrite (mem_only_held _ _ Fmo).
Qed.

(** Nothing of [r] is mapped from page [n] on. *)
Definition maps_below (m : mem) (r n : Z) : Prop :=
  forall va, 0 <= va < MAXVA -> n <= va / PGSIZE -> has (pte_of m r va) PTE_V = false.

(** An entry of a leaf table is the entry of a virtual address. *)
Lemma leaf_entry m own r p pre i :
  pt_inv m own -> is_root own r -> own !! p = Some (OTable r 0 pre) ->
  0 <= i < 512 -> exists va, 0 <= va < MAXVA /\ va / PGSIZE = pre * 512 + i /\
    ld64 m (p + 8 * i) = pte_of m r va.
Proof.
  intros Hinv Hr Hp Hi. pose proof (pi_low _ _ Hinv _ _ _ Hp) as Hpre. exists ((pre * 512 + i) * PGSIZE).
  assert (Hva : 0 <= (pre * 512 + i) * PGSIZE < MAXVA).
  { change MAXVA with (2 ^ 38). unfold PGSIZE. lia. }
  destruct (page_index (pre * 512 + i)) as [Hdiv _]. split; [done|]. split; [done|].
  pose proof (prefix_0 ((pre * 512 + i) * PGSIZE)) as H0. rewrite Hdiv in H0.
  pose proof (PX_bound 0 ((pre * 512 + i) * PGSIZE) ltac:(lia)).
  assert (HP : PX 0 ((pre * 512 + i) * PGSIZE) = i) by lia.
  assert (Hpr : prefix 0 ((pre * 512 + i) * PGSIZE) = pre) by lia.
  rewrite (pte_of_entry Hks m own r _ p) by (try done; by rewrite Hpr). by rewrite HP.
Qed.

Lemma user_below m own r n q vpn :
  pt_inv m own -> is_root own r -> maps_below m r n ->
  own !! q = Some (OUser r vpn) -> 0 <= vpn < n.
Proof.
  intros Hinv Hr Hpte Hq. destruct (pi_user _ _ Hinv _ _ _ Hq) as (p & Hp & HV & _).
  pose proof (pi_low _ _ Hinv _ _ _ Hp) as Hb. pose proof (mod512 vpn) as Hm.
  destruct (leaf_entry m own r p _ _ Hinv Hr Hp Hm) as (va & Hva & Hdiv & He).
  assert (Hv : vpn / 512 * 512 + vpn mod 512 = vpn) by (pose proof (Z.div_mod vpn 512); lia).
  rewrite Hv in Hdiv. rewrite He in HV. split; [lia|]. apply Z.nle_gt. intros Hge.
  rewrite Hpte in HV by lia. done.
Qed.

Lemma own_drop_del own r lo k : own_drop (own_del own r lo k) r = own_drop own r.
Proof.
  apply map_eq. intros p. apply option_eq. intros o. rewrite !own_drop_lookup, own_del_lookup.
  split; [tauto|]. intros [Ho Hr]. repeat split; try done. destruct o; cbn in *; [tauto|].
  intros [? _]. congruence.
Qed.

(** What is left after the user pages are unmapped can be freed by [freewalk]. *)
Lemma unmaps_no_leaf r n s own fl s1 ps :
  vm_ok s own fl -> is_root own r -> maps_below (k_mem s) r n ->
  unmaps r 0 n s own fl s1 ps ->
  no_leaf (k_mem s1) (own_del own r 0 n) r /\
  forall q vpn, own_del own r 0 n !! q <> Some (OUser r vpn).
Proof.
  intros Hok Hr Hb U. split.
  - intros p pre i Hp Hi. pose proof Hp as Ho. apply own_del_lookup in Ho as [Ho _].
    destruct (leaf_entry (k_mem s1) (own_del own r 0 n) r p pre i) as (va & Hva & Hdiv & ->);
      try done; try apply U.
    + by apply own_del_root.
    + rewrite (um_pte _ _ _ _ _ _ _ _ U) by done. case_decide as D; [apply has_0|].
      apply Hb; [done|]. pose proof (Z.div_pos va PGSIZE ltac:(lia) ltac:(done)). lia.
  - intros q vpn Hq. apply own_del_lookup in Hq as [Hq Hn]. apply Hn. split; [done|].
    pose proof (user_below _ _ _ _ _ _ (vo_inv _ _ _ Hok) Hr Hb Hq). lia.
Qed.

(** [uvmfree] gives every page of the address space back to the allocator. *)
Lemma uvmfree_spec r sz s own fl env :
  vm_ok s own fl -> is_root own r -> 0 <= sz <= MAXVA ->
  user_mapped own r 0 (npages sz) -> maps_below (k_mem s) r (npages sz) ->
  exists s' ps, uvmfree r sz (mkWorld s env) = Ok tt (mkWorld s' env) /\
    vm_ok s' (own_drop own r) (ps ++ fl) /\ mem_only s s' /\
    (forall q, q ∈ ps <-> exists o, own !! q = Some o /\ root_of o = r) /\
    (forall r' va, r' <> r -> is_root own r' -> 0 <= va < MAXVA ->
       pte_of (k_mem s') r' va = pte_of (k_mem s) r' va) /\
    (forall p, p mod PGSIZE = 0 -> p ∉ ps -> (forall r' l pre, own !! p <> Some (OTable r' l pre)) ->
       same_page (k_mem s) (k_mem s') p).
Proof.
  intros Hok Hr Hsz Hmap Hb. pose proof (npages_bounds sz ltac:(lia)) as Hn.
  pose proof (npages_max sz ltac:(lia)) as Hmx. assert (HPG : PGSIZE = 4096) by done.
  assert (Hun : exists s1 ps1,
    when (0 <? sz) (uvmunmap r 0 (PGROUNDUP sz / PGSIZE) true) (mkWorld s env) = Ok tt (mkWorld s1 env) /\
    unmaps r 0 (npages sz) s own fl s1 ps1).
  { destruct (Z.ltb_spec 0 sz) as [Hlt|Hge]; cbn [when].
    - rewrite roundup_npages, Z.div_mul by lia.
      apply (uvmunmap_spec Hks r 0 (npages sz) s own fl env); try done; lia.
    - assert (sz = 0) as -> by lia. exists s, []. split; [done|].
      change (npages 0) with 0. by apply unmaps_0. }
  destruct Hun as (s1 & ps1 & Hrun1 & U).
  destruct (unmaps_no_leaf r (npages sz) s own fl s1 ps1) as [Hnl Hnu]; try done.
  destruct (freewalk_spec r s1 (own_del own r 0 (npages sz)) (ps1 ++ fl) env)
    as (s' & ps2 & Hrun2 & Hok' & Hmo & Hps2 & Hsame); try done; try apply U.
  { by apply own_del_root. }
  rewrite own_drop_del in Hok'.
  assert (Hps : forall q, q ∈ ps2 ++ ps1 <-> exists o, own !! q = Some o /\ root_of o = r).
  { intros q. rewrite elem_of_app, Hps2, (um_ps _ _ _ _ _ _ _ _ U). split.
    - intros [(o & Ho & Hro)|(vpn & Ho & _)].
      + apply own_del_lookup in Ho as [Ho _]. by exists o.
      + by exists (OUser r vpn).
    - intros ([r' l pre|r' vpn] & Ho & Hro); cbn in Hro; subst r'.
      + left. exists (OTable r l pre). rewrite own_del_lookup. split; [|done]. split; [done|by intros []].
      + right. exists vpn. split; [done|].
        pose proof (user_below _ _ _ _ _ _ (vo_inv _ _ _ Hok) Hr Hb Ho). lia. }
  exists s', (ps2 ++ ps1). unfold uvmfree.
  rewrite (run_bind _ _ _ tt (mkWorld s1 env)) by exact Hrun1.
  split; [done|]. split; [by rewrite <- app_assoc|]. split; [etransitivity; [apply U|done]|].
  split; [done|]. split.
  - intros r' va Hne Hr' Hva. transitivity (pte_of (k_mem s1) r' va).
    + eapply (pte_at_frame (k_mem s1) (k_mem s') (own_drop own r) r').
      * rewrite <- (own_drop_del own r 0 (npages sz)). apply pt_inv_drop, U.
      * intros p r1 l pre Hp. apply own_drop_lookup in Hp as [Hp Hpr].
        apply Hsame; [eapply pi_aligned; [apply Hok|done]|]. rewrite Hps2.
        intros (o & Ho & Hro). apply own_del_lookup in Ho as [Ho _]. congruence.
      * apply own_drop_lookup. by rewrite prefix_2.
    + rewrite (um_pte _ _ _ _ _ _ _ _ U) by done. rewrite decide_False; [done|]. intros []. done.
  - intros p Hp Hni Hnt. rewrite elem_of_app in Hni.
    eapply same_page_trans; [|apply Hsame; [done|tauto]].
    apply (um_same _ _ _ _ _ _ _ _ U); [done|tauto|done].
Qed.

End Freewalk.
