(* ===== verification/Demo.v ===== *)
(** * A small machine

    The kernel's symbols placed so that 16 pages of RAM are left for the allocator, and
    the states the kernel reaches on it: after [kinit], after creating two address
    spaces, and after giving the first of them two pages.  The theorems of the other
    files are applied to these states. *)

From stdpp Require Import base gmap list strings.
From Stdlib Require Import ZArith Lia.
From S2P Require Import Prelude Riscv Memory State Spinlock Kalloc Vm PageTable UserMem Uvm.

#[export] Instance demo_syms : KSyms := {|
  ksym_end := PHYSTOP - 16 * PGSIZE;
  ksym_etext := KERNBASE + 0x8000;
  ksym_trampoline := KERNBASE + 0x7000;
  ksym_uservec := KERNBASE + 0x7000;
  ksym_userret := KERNBASE + 0x7090;
  ksym_kernelvec := KERNBASE + 0x5000;
  ksym_forkret := KERNBASE + 0x1a00;
  ksym_usertrap := KERNBASE + 0x2800;
  (* li a7, 24; ecall *)
  sigret_code := [0x93; 0x08; 0x80; 0x01; 0x73; 0x00; 0x00; 0x00]
|}.

Lemma demo_syms_ok : ksyms_ok demo_syms.
Proof. by vm_compute. Qed.

#[export] Instance demo_allocator : PageAllocator kalloc kfree := kalloc_allocator demo_syms_ok.

(** The state in which a computation ends. *)
Definition after {A} (m : K A) (s : kst) : kst :=
  match m (mkWorld s []) with
  | Ok _ w | Panic _ w | Blocked w => w_ks w
  end.

Lemma after_run {A} (m : K A) s a s' : m (mkWorld s []) = Ok a (mkWorld s' []) -> after m s = s'.
Proof. intros H. unfold after. by rewrite H. Qed.

Definition page (n : Z) : Z := PHYSTOP - n * PGSIZE.
Definition pages (l : list Z) : list Z := page <$> l.

(** ** After kinit *)

Definition demo_boot : kst := after kinit kst0.

Lemma demo_boot_ok :
  vm_ok demo_boot ∅ (pages [1;2;3;4;5;6;7;8;9;10;11;12;13;14;15;16]) /\ k_held demo_boot = [].
Proof.
  destruct (kinit_run demo_syms_ok kst0 []) as (s' & Hrun & Hfl & Hmo).
  { split; [done|]. split; [done|]. apply NoDup_nil_2. }
  { apply not_elem_of_nil. }
  unfold demo_boot. rewrite (after_run _ _ _ _ Hrun).
  split; [|by rewrite (mem_only_held _ _ Hmo)]. split.
  - split; intros *; rewrite lookup_empty; done.
  - exact Hfl.
  - intros p _. apply lookup_empty.
  - rewrite (mem_only_held _ _ Hmo). apply not_elem_of_nil.
Qed.

Lemma demo_boot_mem : mem_only kst0 demo_boot.
Proof.
  destruct (kinit_run demo_syms_ok kst0 []) as (s' & Hrun & _ & Hmo).
  { split; [done|]. split; [done|]. apply NoDup_nil_2. }
  { apply not_elem_of_nil. }
  unfold demo_boot. by rewrite (after_run _ _ _ _ Hrun).
Qed.

#[global] Opaque demo_boot.

(** ** Two address spaces *)

Definition root1 : Z := page 1.
Definition root2 : Z := page 2.
Definition demo_spaces : kst := after uvmcreate (after uvmcreate demo_boot).
Definition own_spaces : gmap Z owner :=
  <[root2 := OTable root2 2 0]> (<[root1 := OTable root1 2 0]> ∅).

Lemma demo_spaces_ok :
  vm_ok demo_spaces own_spaces (pages [3;4;5;6;7;8;9;10;11;12;13;14;15;16]) /\
  k_held demo_spaces = [] /\
  (forall va, 0 <= va < MAXVA -> pte_of (k_mem demo_spaces) root1 va = 0) /\
  (forall va, pte_of (k_mem demo_spaces) root2 va = 0).
Proof.
  destruct (uvmcreate_spec demo_syms_ok demo_boot ∅ root1 _ [] (proj1 demo_boot_ok))
    as (s1 & Hrun1 & Hok1 & _ & Hmo1 & _ & Hz1 & _).
  destruct (uvmcreate_spec demo_syms_ok s1 _ root2 _ [] Hok1)
    as (s2 & Hrun2 & Hok2 & _ & Hmo2 & Hsp2 & Hz2 & _).
  unfold demo_spaces. rewrite (after_run _ _ _ _ Hrun1), (after_run _ _ _ _ Hrun2).
  split; [exact Hok2|]. split; [|split; [|done]].
  - rewrite (mem_only_held _ _ Hmo2), (mem_only_held _ _ Hmo1). apply demo_boot_ok.
  - intros va Hva. rewrite <- (Hz1 va). apply (Hsp2 root1). rewrite prefix_2 by done.
    by rewrite lookup_insert_eq.
Qed.

Lemma demo_spaces_mem : mem_only kst0 demo_spaces.
Proof.
  destruct (uvmcreate_spec demo_syms_ok demo_boot ∅ root1 _ [] (proj1 demo_boot_ok))
    as (s1 & Hrun1 & Hok1 & _ & Hmo1 & _ & _).
  destruct (uvmcreate_spec demo_syms_ok s1 _ root2 _ [] Hok1) as (s2 & Hrun2 & _ & _ & Hmo2 & _ & _).
  unfold demo_spaces. rewrite (after_run _ _ _ _ Hrun1), (after_run _ _ _ _ Hrun2).
  etrans; [apply demo_boot_mem|]. by etrans.
Qed.

#[global] Opaque demo_spaces.

Lemma root1_ok : is_root own_spaces root1.
Proof. by vm_compute. Qed.
Lemma root2_ok : is_root own_spaces root2.
Proof. by vm_compute. Qed.

Lemma roots_ne : root1 <> root2.
Proof. by vm_compute. Qed.

Lemma demo_free1 lo k : 0 <= lo -> (lo + k) * PGSIZE <= MAXVA -> pte_free demo_spaces root1 lo k.
Proof.
  intros Hlo Hmax vpn Hv. destruct demo_spaces_ok as (_ & _ & Hz & _).
  apply Hz. unfold PGSIZE in *. lia.
Qed.

(** ** Two pages of user memory in the first address space *)

Definition demo_user : kst := after (uvmalloc root1 0 8192) demo_spaces.

Lemma demo_user_ok : exists own fl, vm_ok demo_user own fl /\ (6 <= length fl)%nat /\
  is_root own root1 /\ is_root own root2 /\ user_mapped own root1 0 (npages 8192) /\
  mapped_as root1 0 2 (fun _ => PTE_WRXU) (fun _ _ => 0) demo_user own /\
  (forall va, 0 <= va < MAXVA -> 2 <= va / PGSIZE -> pte_of (k_mem demo_user) root1 va = 0) /\
  (forall va, 0 <= va < MAXVA -> pte_of (k_mem demo_user) root2 va = 0) /\
  k_held demo_user = [].
Proof.
  destruct demo_spaces_ok as (Hok & Hheld & Hz1 & Hz2).
  destruct (uvmalloc_spec demo_syms_ok root1 0 8192 demo_spaces own_spaces _ [] Hok root1_ok)
    as (e & s' & own' & fl' & Hrun & Hres); [lia|by vm_compute|by apply demo_free1|].
  unfold demo_user. rewrite (after_run _ _ _ _ Hrun).
  destruct Hres as [(_ & A & Hlen & Hm)|(_ & Hlen & _)].
  - exists own', fl'. split; [apply A|].
    split; [change (npages 8192 - npages 0) with 2 in Hlen; cbn [length pages fmap list_fmap] in Hlen; lia|].
    split; [eapply is_root_sub; [apply A|apply root1_ok]|].
    split; [eapply is_root_sub; [apply A|apply root2_ok]|].
    split; [by eapply mapped_as_user|]. split; [done|].
    split; [|split].
    + intros va Hva Hge. rewrite <- (Hz1 va Hva). apply (ad_pte A); [apply root1_ok|done|].
      change (npages 0) with 0. change (npages 8192) with 2. lia.
    + intros va Hva. rewrite <- (Hz2 va). apply (ad_pte A); [apply root2_ok|done|].
      intros [Hr _]. discriminate Hr.
    + by rewrite (mem_only_held _ _ (ad_mem A)).
  - cbn in Hlen. vm_compute in Hlen. discriminate Hlen.
Qed.

Lemma demo_user_mem : mem_only kst0 demo_user.
Proof.
  destruct demo_spaces_ok as (Hok & _).
  destruct (uvmalloc_spec demo_syms_ok root1 0 8192 demo_spaces own_spaces _ [] Hok root1_ok)
    as (e & s' & own' & fl' & Hrun & Hres); [lia|by vm_compute|by apply demo_free1|].
  unfold demo_user. rewrite (after_run _ _ _ _ Hrun). etrans; [apply demo_spaces_mem|].
  destruct Hres as [(_ & A & _)|(_ & Hlen & _)]; [apply (ad_mem A)|].
  cbn in Hlen. vm_compute in Hlen. discriminate Hlen.
Qed.

#[global] Opaque demo_user.


(** ** Process 3 on the CPU, with the first address space *)

(** [s] with process [i] on the CPU, its process structure being [f x]. *)
Definition on_cpu (i : nat) (f : proc -> proc) (s : kst) : kst := set_k_cur (Some i) (upd_proc i f s).

Lemma on_cpu_fields i f s :
  k_mem (on_cpu i f s) = k_mem s /\ k_freelist (on_cpu i f s) = k_freelist s /\
  k_held (on_cpu i f s) = k_held s /\ k_pipes (on_cpu i f s) = k_pipes s /\
  k_cur (on_cpu i f s) = Some i /\ length (k_procs (on_cpu i f s)) = length (k_procs s) /\
  ((i < length (k_procs s))%nat -> get_proc i (on_cpu i f s) = f (get_proc i s)).
Proof.
  repeat split.
  - apply length_upd_proc.
  - intros H. by apply (get_upd_proc i f s).
Qed.

Definition demo_proc : kst :=
  on_cpu 3 (fun x => set_p_state RUNNING (set_p_pid 4 (set_p_pagetable root1 x))) demo_user.

Lemma demo_user_procs : k_procs demo_user = replicate NPROC proc0 /\ k_pipes demo_user = ∅.
Proof. destruct demo_user_mem as (h & m & Hmem). rewrite Hmem. split; reflexivity. Qed.

Lemma low_page va : 0 <= va < 8192 -> 0 <= va / PGSIZE < 0 + 2.
Proof. intros H. unfold PGSIZE. Z.div_mod_to_equations. lia. Qed.

Lemma demo_proc_ok : exists own fl, user_of demo_proc own fl 3 root1 /\
  (forall va, 0 <= va < 8192 -> user_byte (k_mem demo_proc) root1 va = Some 0) /\
  length (k_procs demo_proc) = NPROC /\ k_held demo_proc = [] /\ k_pipes demo_proc = ∅.
Proof.
  destruct demo_user_ok as (own & fl & Hok & _ & Hr1 & _ & _ & Hm & _ & _ & Hheld).
  destruct demo_user_procs as [Hprocs Hpipes].
  destruct (on_cpu_fields 3 (fun x => set_p_state RUNNING (set_p_pid 4 (set_p_pagetable root1 x))) demo_user)
    as (Fmem & Ffl & Fheld & Fpipes & Fcur & Flen & Fget). fold demo_proc in *.
  rewrite Hprocs, length_replicate in Flen. rewrite Hprocs, length_replicate in Fget.
  assert (H3 : (3 < NPROC)%nat) by (unfold NPROC; lia). apply Fget in H3. clear Fget.
  assert (H3' : get_proc 3 demo_user = proc0) by (unfold get_proc; rewrite Hprocs; reflexivity).
  rewrite H3' in H3.
  exists own, fl. split; [|split; [|split; [|split]]].
  - split.
    + exact Fcur.
    + rewrite H3. reflexivity.
    + rewrite H3. reflexivity.
    + apply (vm_ok_frame demo_user demo_proc); [exact Fmem|exact Ffl|rewrite Fheld; exact (vo_lock _ _ _ Hok)|exact Hok].
    + exact Hr1.
  - intros va Hva. rewrite Fmem. destruct PTE_WRXU_ok as (Hp & _ & HU).
    rewrite (mapped_as_byte demo_syms_ok root1 0 2 (fun _ => PTE_WRXU) (fun _ _ => 0) demo_user own va
      (vo_inv _ _ _ Hok) Hm).
    + rewrite HU. reflexivity.
    + intros _. exact Hp.
    + clear - Hva. change MAXVA with (2 ^ 38). lia.
    + exact (low_page va Hva).
  - exact Flen.
  - rewrite Fheld. exact Hheld.
  - rewrite Fpipes. exact Hpipes.
Qed.

#[global] Opaque demo_proc.

(** ** Process 3 with trapframe pages and two user handlers *)

Definition got (m : K Z) (s : kst) : Z := match m (mkWorld s []) with Ok a _ => a | _ => 0 end.

Lemma got_run m s a s' : m (mkWorld s []) = Ok a (mkWorld s' []) -> got m s = a.
Proof. intros H. unfold got. by rewrite H. Qed.

Definition demo_pages : kst := after kalloc (after kalloc demo_user).
Definition tf_page : Z := got kalloc demo_user.
Definition bk_page : Z := got kalloc (after kalloc demo_user).

(** Signals 5 and 7 are pending and have user handlers at 0x100 and 0x200; the handler of
    signal 5 runs with signal 6 blocked. *)
Definition with_handlers (x : proc) : proc :=
  set_p_signalHandlers (<[5%nat := 0x100]> (<[7%nat := 0x200]> (replicate 32 SIG_DFL)))
 (set_p_sigMaskArray (<[5%nat := 64]> (replicate 32 0))
 (set_p_signalMask 2 (set_p_pendingSignals 160
 (set_p_trapframe tf_page (set_p_backupTrapframe bk_page
 (set_p_state RUNNING (set_p_pid 4 (set_p_pagetable root1 x)))))))).

Definition demo_frames : kst :=
  set_k_mem (st64 (k_mem demo_pages) (tf_page + 48) 8192) (on_cpu 3 with_handlers demo_pages).

Lemma demo_pages_ok : exists own fl, vm_ok demo_pages own fl /\ mem_only kst0 demo_pages /\
  is_root own root1 /\ kernel_page own fl tf_page /\ kernel_page own fl bk_page /\ tf_page <> bk_page.
Proof.
  destruct demo_user_ok as (own & fl & Hok & Hlen & Hr1 & _).
  destruct fl as [|q1 [|q2 fl]]; [cbn in Hlen; lia..|].
  destruct (take_page demo_syms_ok demo_user own (q2 :: fl) q1 [] Hok)
    as (s1 & Hrun1 & Hok1 & Hmo1 & _ & _ & Hq1 & Hn1 & Hf1 & _).
  destruct (take_page demo_syms_ok s1 own fl q2 [] Hok1)
    as (s2 & Hrun2 & Hok2 & Hmo2 & _ & _ & Hq2 & Hn2 & Hf2 & _).
  apply not_elem_of_cons in Hf1 as [Hne Hf1].
  unfold demo_pages, tf_page, bk_page. rewrite (after_run _ _ _ _ Hrun1), (after_run _ _ _ _ Hrun2).
  rewrite (got_run _ _ _ _ Hrun1), (got_run _ _ _ _ Hrun2).
  exists own, fl. split; [exact Hok2|]. split.
  { etrans; [apply demo_user_mem|]. etrans; [exact Hmo1|exact Hmo2]. }
  split; [exact Hr1|]. split; [by split|]. split; [by split|exact Hne].
Qed.

#[global] Opaque demo_pages tf_page bk_page.

Lemma on_cpu_uart i f s : k_uart (on_cpu i f s) = k_uart s.
Proof. done. Qed.

Lemma set_k_mem_fields m s i :
  get_proc i (set_k_mem m s) = get_proc i s /\ k_procs (set_k_mem m s) = k_procs s /\
  k_cur (set_k_mem m s) = k_cur s /\ k_held (set_k_mem m s) = k_held s /\ k_uart (set_k_mem m s) = k_uart s.
Proof. done. Qed.

Lemma demo_frames_ok : exists own fl, vm_ok demo_frames own fl /\ is_root own root1 /\
  kernel_page own fl tf_page /\ kernel_page own fl bk_page /\ tf_page <> bk_page /\
  get_proc 3 demo_frames = with_handlers proc0 /\ length (k_procs demo_frames) = NPROC /\
  k_cur demo_frames = Some 3%nat /\ k_held demo_frames = [] /\ k_uart demo_frames = k_uart kst0.
Proof.
  destruct demo_pages_ok as (own & fl & Hok & Hmo & Hr & Ktf & Kbk & Hne).
  destruct (on_cpu_fields 3 with_handlers demo_pages) as (Fmem & Ffl & Fheld & _ & Fcur & Flen & Fget).
  assert (Fuart : k_uart (on_cpu 3 with_handlers demo_pages) = k_uart demo_pages) by apply on_cpu_uart.
  assert (Hprocs : k_procs demo_pages = replicate NPROC proc0) by (destruct Hmo as (h & m & ->); reflexivity).
  assert (Hheld : k_held demo_pages = []) by (destruct Hmo as (h & m & ->); reflexivity).
  assert (Huart : k_uart demo_pages = k_uart kst0) by (destruct Hmo as (h & m & ->); reflexivity).
  rewrite Hprocs, length_replicate in Flen. rewrite Hprocs, length_replicate in Fget.
  assert (H3 : (3 < NPROC)%nat) by (unfold NPROC; lia). apply Fget in H3. clear Fget.
  assert (H3' : get_proc 3 demo_pages = proc0) by (unfold get_proc; rewrite Hprocs; reflexivity).
  rewrite H3' in H3.
  assert (Hok1 : vm_ok (on_cpu 3 with_handlers demo_pages) own fl).
  { apply (vm_ok_frame demo_pages); [exact Fmem|exact Ffl|rewrite Fheld; exact (vo_lock _ _ _ Hok)|exact Hok]. }
  destruct (vm_ok_kernel _ (st64 (k_mem demo_pages) (tf_page + 48) 8192) own fl tf_page Hok1 Ktf) as [Hok2 _].
  { rewrite Fmem. exact (outside_same_st64 tf_page (k_mem demo_pages) 48 8192
      (proj1 (Z.leb_le 0 48) eq_refl) (proj1 (Z.leb_le (48 + 8) PGSIZE) eq_refl)). }
  exists own, fl. split; [exact Hok2|]. split; [exact Hr|]. split; [exact Ktf|]. split; [exact Kbk|].
  destruct (set_k_mem_fields (st64 (k_mem demo_pages) (tf_page + 48) 8192) (on_cpu 3 with_handlers demo_pages) 3)
    as (G1 & G2 & G3 & G4 & G5). fold demo_frames in *. rewrite G1, G2, G3, G4, G5, Fheld, Fuart.
  split; [exact Hne|]. split; [exact H3|]. split; [exact Flen|]. split; [exact Fcur|].
  split; [exact Hheld|exact Huart].
Qed.

#[global] Opaque demo_frames.
