(* ===== verification/VmTheorems.v ===== *)
(** * What the memory subsystem guarantees
      (kernel/kalloc.c, kernel/vm.c, over Kalloc.v .. Freewalk.v)

    The theorems speak about [user_byte m r va], the byte user code with page table [r]
    reads at [va] ([None]: a page fault), and about the pages the allocator still has. *)

From stdpp Require Import base gmap list strings.
From Stdlib Require Import ZArith Lia.
From S2P Require Import Prelude Riscv Memory State Spinlock Kalloc Vm PageTable UserMem Uvm Freewalk Demo.

Section VmTheorems.
Context {KS : KSyms} (Hks : ksyms_ok KS) `{PA : !PageAllocator kalloc kfree}.

(** ** Theorems *)

(** C7: [uvmcopy] makes the child's memory equal to the parent's. It always returns; on
    success every byte below [sz] reads the same in the child as in the parent, and on
    failure, which needs fewer than three free pages per page of the parent, the child's
    memory is what it was.  In both cases no other address space changes, the parent's
    included, and the page-table invariant holds again. *)
Theorem uvmcopy_copies_memory old new s own fl sz env :
  vm_ok s own fl -> is_root own old -> is_root own new -> old <> new -> 0 <= sz <= MAXVA ->
  user_mapped own old 0 (npages sz) -> pte_free s new 0 (npages sz) ->
  exists e s' own' fl', uvmcopy old new sz (mkWorld s env) = Ok e (mkWorld s' env) /\
    vm_ok s' own' fl' /\ (forall r, is_root own r -> is_root own' r) /\
    (forall r va, r <> new -> is_root own r -> 0 <= va ->
       user_byte (k_mem s') r va = user_byte (k_mem s) r va) /\
    ((e = 0 /\ forall va, 0 <= va < sz -> user_byte (k_mem s') new va = user_byte (k_mem s) old va) \/
     (e = -1 /\ Z.of_nat (length fl) < 3 * npages sz /\
      forall va, 0 <= va -> user_byte (k_mem s') new va = user_byte (k_mem s) new va)).
Proof.
  intros Hok Hold Hnew Hne Hsz Hmap Hfree.
  destruct (uvmcopy_spec Hks old new s own fl Hok Hold Hnew Hne sz env Hsz Hmap Hfree)
    as (e & s' & Hrun & [(-> & D)|(-> & Hlen & own' & fl' & Hok' & U)]).
  - pose proof D as (own' & fl' & A & _). exists 0, s', own', fl'. split; [done|]. split; [apply A|].
    split; [intros r Hr; eapply is_root_sub; [apply A|done]|]. split.
    + intros r va Hr Hroot Hva. apply (added_user_byte new 0 (npages sz) s own fl s' own' fl'); try done.
      by intros [].
    + left. split; [done|]. intros va Hva. by apply (copied_byte Hks old new s own fl s' sz).
  - exists (-1), s', own', fl'. split; [done|]. split; [done|].
    split; [intros r Hr; by apply (un_root _ _ _ _ _ _ _ U)|].
    assert (Hsame : forall r va, is_root own r -> 0 <= va ->
      user_byte (k_mem s') r va = user_byte (k_mem s) r va)
      by (intros r va; by apply (undone_user_byte new s own fl s' own' fl')).
    split; [intros; by apply Hsame|]. right. split; [done|]. split; [done|]. intros; by apply Hsame.
Qed.

(** [uvmalloc] grows a process. It always returns; on success, with result [newsz],
    every byte of the new pages reads zero, and on failure, with result 0, which needs
    fewer than three free pages per new page, nothing has changed.  No other byte of any
    address space changes in either case. *)
Theorem uvmalloc_grows r s own fl oldsz newsz env :
  vm_ok s own fl -> is_root own r -> 0 <= oldsz <= newsz -> newsz <= MAXVA ->
  pte_free s r (npages oldsz) (npages newsz - npages oldsz) ->
  exists e s' own' fl', uvmalloc r oldsz newsz (mkWorld s env) = Ok e (mkWorld s' env) /\
    vm_ok s' own' fl' /\
    ((e = newsz /\ forall r' va, is_root own r' -> 0 <= va ->
        user_byte (k_mem s') r' va =
        if decide (r' = r /\ npages oldsz * PGSIZE <= va < npages newsz * PGSIZE)
        then Some 0 else user_byte (k_mem s) r' va) \/
     (e = 0 /\ Z.of_nat (length fl) < 3 * (npages newsz - npages oldsz) /\
      forall r' va, is_root own r' -> 0 <= va ->
        user_byte (k_mem s') r' va = user_byte (k_mem s) r' va)).
Proof.
  intros Hok Hr Hsz Hmax Hfree. pose proof (npages_max newsz ltac:(lia)) as Hmx.
  pose proof (npages_bounds oldsz ltac:(lia)) as Hb.
  destruct (uvmalloc_spec Hks r oldsz newsz s own fl env Hok Hr Hsz Hmax Hfree)
    as (e & s' & own' & fl' & Hrun & [(-> & A & _ & Hm)|(-> & Hlen & Hok' & U)]).
  - exists newsz, s', own', fl'. split; [done|]. split; [apply A|]. left. split; [done|].
    intros r' va Hr' Hva.
    pose proof (page_between (npages oldsz) (npages newsz) va) as Hpg.
    destruct (decide (r' = r /\ _)) as [[-> Hin]|Hout].
    + destruct PTE_WRXU_ok as (Hp1 & _ & Hp3).
      rewrite (mapped_as_byte Hks r _ _ (fun _ => PTE_WRXU) (fun _ _ => 0) s' own' va (vo_inv _ _ _ (ad_ok A)) Hm)
        by (done || lia). by rewrite Hp3.
    + apply (added_user_byte r (npages oldsz) (npages newsz - npages oldsz) s own fl s' own' fl'); try done.
      intros [-> Hin]. apply Hout. split; [done|]. by apply Hpg.
  - exists 0, s', own', fl'. split; [done|]. split; [done|]. right. split; [done|]. split; [done|].
    intros r' va. by apply (undone_user_byte r s own fl s' own' fl').
Qed.

(** [uvmdealloc] shrinks a process. It always returns [newsz]; the pages above the new
    size are no longer readable, all of them are available to the allocator again, each of
    them once, and no other byte of any address space changes. *)
Theorem uvmdealloc_shrinks r s own fl oldsz newsz env :
  vm_ok s own fl -> is_root own r -> 0 <= newsz <= oldsz -> oldsz <= MAXVA ->
  user_mapped own r (npages newsz) (npages oldsz - npages newsz) ->
  exists s' ps own', uvmdealloc r oldsz newsz (mkWorld s env) = Ok newsz (mkWorld s' env) /\
    vm_ok s' own' (ps ++ fl) /\ NoDup (ps ++ fl) /\
    (forall q, q ∈ ps <-> exists vpn, own !! q = Some (OUser r vpn) /\ npages newsz <= vpn < npages oldsz) /\
    (forall r' va, is_root own r' -> 0 <= va ->
       user_byte (k_mem s') r' va =
       if decide (r' = r /\ npages newsz * PGSIZE <= va < npages oldsz * PGSIZE)
       then None else user_byte (k_mem s) r' va).
Proof.
  intros Hok Hr Hnew Hold Hmap. pose proof (npages_max oldsz ltac:(lia)) as Hmx.
  destruct (uvmdealloc_spec Hks r oldsz newsz s own fl env Hok Hr Hnew Hold Hmap) as (s' & ps & Hrun & U).
  pose proof (um_ok _ _ _ _ _ _ _ _ U) as Hok'.
  exists s', ps, (own_del own r (npages newsz) (npages oldsz - npages newsz)).
  split; [done|]. split; [done|]. split; [apply (avail_ok s'), Hok'|]. split.
  { intros q. rewrite (um_ps _ _ _ _ _ _ _ _ U). split; intros (vpn & Hq & Hv); exists vpn; (split; [done|lia]). }
  intros r' va Hr' Hva.
  pose proof (page_between (npages newsz) (npages oldsz) va) as Hpg.
  destruct (decide (r' = r /\ _)) as [[-> Hin]|Hout].
  - unfold user_byte, translate. rewrite (proj2 (Z.leb_gt _ _)) by lia.
    rewrite (um_pte _ _ _ _ _ _ _ _ U) by (done || lia). rewrite decide_True by (split; [done|by apply Hpg]).
    done.
  - destruct (Z.le_gt_cases MAXVA va) as [Hge|Hlt].
    { unfold user_byte, translate. by rewrite (proj2 (Z.leb_le _ _)) by lia. }
    assert (Hsub : forall p vpn, own !! p = Some (OUser r' vpn) -> vpn = va / PGSIZE ->
      same_page (k_mem s) (k_mem s') p).
    { intros p vpn Hp ->. apply (um_same _ _ _ _ _ _ _ _ U); [eapply pi_aligned; [apply Hok|done]| |congruence].
      rewrite (um_ps _ _ _ _ _ _ _ _ U). intros (vpn & Hp' & Hv). rewrite Hp in Hp'.
      injection Hp' as <- <-. apply Hout. split; [done|]. by apply Hpg. }
    assert (Hpte : pte_of (k_mem s') r' va = pte_of (k_mem s) r' va).
    { rewrite (um_pte _ _ _ _ _ _ _ _ U) by (done || lia).
      apply decide_False. intros [-> Hin]. apply Hout. split; [done|by apply Hpg]. }
    unfold user_byte. assert (Ht : translate (k_mem s') r' va = translate (k_mem s) r' va).
    { unfold translate. by rewrite Hpte. }
    rewrite Ht. destruct (translate (k_mem s) r' va) as [pa|] eqn:Htr; [|done]. cbn. f_equal.
    destruct (translate_owner _ own r' va pa (vo_inv _ _ _ Hok) Hr' Hva Htr) as (p & Hp & ->).
    apply (Hsub p _ Hp eq_refl). pose proof (Z.mod_pos_bound va PGSIZE ltac:(done)). lia.
Qed.

(** [uvmfree] leaks nothing: it returns, every page the address space owns (its user
    pages and its page tables) is available to the allocator again, each of them once,
    and the other address spaces read what they read before. *)
Theorem uvmfree_no_leak r s own fl sz env :
  vm_ok s own fl -> is_root own r -> 0 <= sz <= MAXVA ->
  user_mapped own r 0 (npages sz) -> maps_below (k_mem s) r (npages sz) ->
  exists s' ps, uvmfree r sz (mkWorld s env) = Ok tt (mkWorld s' env) /\
    vm_ok s' (own_drop own r) (ps ++ fl) /\ NoDup (ps ++ fl) /\
    (forall q, q ∈ ps <-> exists o, own !! q = Some o /\ root_of o = r) /\
    (forall r' va, r' <> r -> is_root own r' -> 0 <= va ->
       user_byte (k_mem s') r' va = user_byte (k_mem s) r' va).
Proof.
  intros Hok Hr Hsz Hmap Hb.
  destruct (uvmfree_spec Hks r sz s own fl env Hok Hr Hsz Hmap Hb)
    as (s' & ps & Hrun & Hok' & _ & Hps & Hpte & Hsame).
  exists s', ps. split; [done|]. split; [done|]. split; [apply (avail_ok s'), Hok'|]. split; [done|].
  intros r' va Hne Hr' Hva. apply (user_byte_frame s s' own fl r' va Hok Hr' Hva).
  - intros Hlt. by apply Hpte.
  - intros p vpn Hp. apply Hsame; [eapply pi_aligned; [apply Hok|done]| |congruence].
    rewrite Hps. intros (o & Ho & Hro). rewrite Hp in Ho. injection Ho as <-. done.
Qed.

(** [mappages] and [walkaddr] agree. Mapping a range of user pages returns 0 after
    entering every page of the range, or -1 after running out of memory for table pages
    with two or fewer free pages per page of the range; afterwards [walkaddr] finds the
    physical page of every virtual page that was entered, and for every other page and
    every other address space it finds what it found before. *)
Theorem mappages_walkaddr r s own fl va size pa perm env :
  let n := (va + size - 1) / PGSIZE - va / PGSIZE in
  vm_ok s own fl -> is_root own r -> 0 <= va -> 0 < size -> va + size <= MAXVA ->
  pa mod PGSIZE = 0 -> 0 <= perm < 1024 -> has perm RWX = true -> has perm PTE_U = true ->
  (forall i, 0 <= i <= n -> has (pte_of (k_mem s) r (PGROUNDDOWN va + i * PGSIZE)) PTE_V = false) ->
  (forall i, 0 <= i <= n -> page_ok (pa + i * PGSIZE) /\ own !! (pa + i * PGSIZE) = None /\ pa + i * PGSIZE ∉ fl) ->
  exists e k s' own' fl', mappages r va size pa perm (mkWorld s env) = Ok e (mkWorld s' env) /\
    vm_ok s' own' fl' /\
    ((e = 0 /\ k = n + 1) \/ (e = -1 /\ 0 <= k <= n /\ Z.of_nat (length fl) < 2 * (n + 1))) /\
    forall r' a, is_root own r' -> 0 <= a < MAXVA ->
      exists x, walkaddr r' a (mkWorld s env) = Ok x (mkWorld s env) /\
      walkaddr r' a (mkWorld s' env) =
        Ok (if decide (r' = r /\ va / PGSIZE <= a / PGSIZE < va / PGSIZE + k)
            then pa + (a / PGSIZE - va / PGSIZE) * PGSIZE else x) (mkWorld s' env).
Proof.
  intros n Hok Hr Hva Hsz Hmax Hpal Hperm HRWX HU Hun Hfresh.
  assert (Hn : 0 <= n) by (unfold n; apply Zle_minus_le_0, Z.div_le_mono; [done|lia]).
  assert (Hpos : 0 <= pa).
  { destruct (Hfresh 0 ltac:(lia)) as (Hp & _). apply (page_ok_pos Hks) in Hp. lia. }
  destruct (mappages_spec Hks r perm true env Hperm HRWX ltac:(done) va size pa s own fl)
    as (e & k & s' & own' & fl' & Hrun & G & Hm & Ho & He); try done.
  { destruct (Hfresh n ltac:(lia)) as (Hp & _). apply (page_ok_pos Hks) in Hp.
    fold n. unfold PHYSTOP, KERNBASE, PGSIZE in *. lia. }
  fold n in He. exists e, k, s', own', fl'. split; [done|]. split; [apply G|].
  split; [destruct He as [(? & ? & _)|(? & ? & _ & ?)]; [by left|by right]|].
  intros r' a Hr' Ha. eexists. split; [apply (walkaddr_run Hks r' a s own); [apply Hok|done|lia]|].
  rewrite (walkaddr_run Hks r' a s' own'); [|apply G|eapply is_root_sub; [apply G|done]|lia].
  rewrite (proj2 (Z.leb_gt _ _)) by lia. rewrite (Hm r' a Hr' Ha).
  case_decide as D; [|done]. destruct D as [-> D].
  set (i := a / PGSIZE - va / PGSIZE) in *.
  assert (Hi : 0 <= i <= n) by (destruct He as [(_ & -> & _)|(_ & ? & _)]; lia).
  destruct (Hfresh i Hi) as (Hp & _). pose proof (page_ok_range Hks _ Hp) as Hpr.
  rewrite has_V_mk_pte, has_U_mk_pte, HU, PTE2PA_mk_pte by (done || apply Hp). done.
Qed.

(** What [copyout] writes. It always returns. With result 0 the bytes [src] are at
    [dstva] and no other byte of any address space has changed; with result -1 it stopped
    at the first page that user code may not touch, having written exactly the bytes
    below it.  Kernel pages, page tables and free pages are never written. *)
Theorem copyout_writes r s own fl dstva src env :
  vm_ok s own fl -> is_root own r -> 0 <= dstva ->
  exists e k s', copyout r dstva src (mkWorld s env) = Ok e (mkWorld s' env) /\
    vm_ok s' own fl /\
    ((e = 0 /\ k = length src) \/
     (e = -1 /\ (k < length src)%nat /\ translate (k_mem s) r (dstva + Z.of_nat k) = None)) /\
    (forall r' va, is_root own r' -> 0 <= va -> user_byte (k_mem s') r' va =
       if decide (r' = r /\ dstva <= va < dstva + Z.of_nat k)
       then Some (u8 (nth (Z.to_nat (va - dstva)) src 0)) else user_byte (k_mem s) r' va) /\
    (forall p, p mod PGSIZE = 0 -> (forall vpn, own !! p <> Some (OUser r vpn)) ->
       same_page (k_mem s) (k_mem s') p).
Proof.
  intros Hok Hr Hva.
  destruct (copyout_fuel_spec Hks r own fl env (length src) dstva src s)
    as (e & k & s' & Hrun & Hst & He); [lia|done..|].
  exists e, k, s'. split; [done|]. split; [apply Hst|]. split; [done|]. split; [|apply Hst].
  intros r' va Hr' Hv. rewrite (sd_wrote Hst) by done.
  assert (Hk : (k <= length src)%nat) by (destruct He as [[_ ->]|(_ & ? & _)]; lia).
  rewrite length_take, Nat.min_l by done.
  case_decide as D; [|done]. do 2 f_equal. rewrite !nth_lookup, lookup_take_lt by lia. done.
Qed.

(** What [copyin] reads. It always returns and changes nothing. With result 0 the
    buffer holds the [len] bytes user code reads from [srcva] on; with result -1 it holds
    the bytes up to the first page user code may not touch. *)
Theorem copyin_reads r s own fl srcva len env :
  vm_ok s own fl -> is_root own r -> 0 <= srcva ->
  exists e bs, copyin r srcva len (mkWorld s env) = Ok (e, bs) (mkWorld s env) /\
    (forall i, (i < length bs)%nat -> user_byte (k_mem s) r (srcva + Z.of_nat i) = Some (nth i bs 0)) /\
    ((e = 0 /\ length bs = len) \/
     (e = -1 /\ (length bs < len)%nat /\ translate (k_mem s) r (srcva + Z.of_nat (length bs)) = None)).
Proof.
  intros Hok Hr Hva. by apply (copyin_fuel_spec Hks r own fl env s Hok Hr len srcva len).
Qed.

(** [copyinstr] on success delivers the string user code has at [srcva], with its
    terminating NUL, within [max] bytes; it fails with -1 when there is no NUL in the
    first [max] bytes or when the string runs into a page user code may not touch.  It
    always returns and changes nothing. *)
Theorem copyinstr_string r s own fl srcva max env :
  vm_ok s own fl -> is_root own r -> 0 <= srcva ->
  exists str, Forall (fun c => c <> 0) str /\
    ((copyinstr r srcva max (mkWorld s env) = Ok (0, str ++ [0]) (mkWorld s env) /\
      (length str < max)%nat /\
      forall i, (i < length str + 1)%nat ->
        user_byte (k_mem s) r (srcva + Z.of_nat i) = Some (nth i (str ++ [0]) 0)) \/
     (copyinstr r srcva max (mkWorld s env) = Ok (-1, str) (mkWorld s env) /\
      (forall i, (i < length str)%nat -> user_byte (k_mem s) r (srcva + Z.of_nat i) = Some (nth i str 0)) /\
      (length str = max \/
       (length str < max)%nat /\ translate (k_mem s) r (srcva + Z.of_nat (length str)) = None))).
Proof.
  intros Hok Hr Hva.
  destruct (copyinstr_fuel_spec Hks r own fl env s Hok Hr max srcva max) as (str & Hnn & Hres); [lia|done|].
  exists str. split; [done|]. destruct Hres as [(Hrun & Hlen & Hrd)|Hres]; [left|by right].
  split; [done|]. split; [done|]. intros i Hi. apply Hrd. rewrite length_app. cbn. lia.
Qed.

(** [uvmclear] makes a guard page: the page it is called for becomes unreadable for
    user code, as [copyin] and [copyout] then report, no other byte changes, and the page
    still belongs to the process (it is freed with it). *)
Theorem uvmclear_guards r s own fl vpn q env :
  vm_ok s own fl -> is_root own r -> 0 <= vpn * PGSIZE < MAXVA -> own !! q = Some (OUser r vpn) ->
  exists s', uvmclear r (vpn * PGSIZE) (mkWorld s env) = Ok tt (mkWorld s' env) /\ vm_ok s' own fl /\
    forall r' va, is_root own r' -> 0 <= va < MAXVA ->
      translate (k_mem s') r' va =
      if decide (r' = r /\ va / PGSIZE = vpn) then None else translate (k_mem s) r' va.
Proof.
  intros Hok Hr Hva Hq.
  destruct (uvmclear_spec Hks r vpn q s own fl env Hok Hr Hva Hq) as (s' & Hrun & Hok' & Hu & _).
  exists s'. split; [done|]. split; [done|]. intros r' va Hr' Hv.
  unfold translate. rewrite (proj2 (Z.leb_gt _ _)) by lia. rewrite (Hu r' va Hr' Hv).
  rewrite (proj1 (page_index vpn)). case_decide; [|done].
  destruct (user_pte Hks (k_mem s) own r vpn q (vo_inv _ _ _ Hok) Hr Hva Hq) as (HV & _ & _).
  destruct (clear_U (pte_of (k_mem s) r (vpn * PGSIZE))) as (_ & _ & _ & HU & _).
  { unfold pte_of. apply pte_at_range. }
  by rewrite HU, andb_false_r.
Qed.

End VmTheorems.

(** ** The allocator *)

(** [kinit] hands the allocator every page of RAM above the kernel exactly once: it
    returns, and the free list is the pages from the end of the kernel to PHYSTOP. *)
Theorem kinit_all_pages {KS : KSyms} (Hks : ksyms_ok KS) s env :
  k_freelist s = 0 -> LKmem ∉ k_held s ->
  exists s' l, kinit (mkWorld s env) = Ok tt (mkWorld s' env) /\ free_list s' l /\
    (forall p, p ∈ l <-> p mod PGSIZE = 0 /\ ksym_end <= p /\ p + PGSIZE <= PHYSTOP).
Proof.
  intros Hfl Hl. destruct (kinit_run Hks s env) as (s' & Hrun & Hfl' & _); [|done|].
  { split; [done|]. split; [done|]. apply NoDup_nil_2. }
  exists s', (reverse (range_pages (PGROUNDUP ksym_end) (page_count ksym_end PHYSTOP))).
  split; [done|]. split; [done|]. intros p. rewrite elem_of_reverse. apply (kinit_pages_iff Hks).
Qed.

(** Pages are neither lost nor duplicated. Whatever sequence of allocations and frees
    a client performs, freeing only pages it holds, every call returns, and the pages it
    holds together with the pages still available are a permutation of what they were at
    the start: no page is handed out twice, none is lost. *)
Theorem kalloc_partition {KS : KSyms} (Hks : ksyms_ok KS) ops s env held l :
  free_list s l -> NoDup (held ++ l) -> Forall page_ok held -> LKmem ∉ k_held s ->
  exists held' s' l', run_ops kalloc kfree ops held (mkWorld s env) = Ok held' (mkWorld s' env) /\
    free_list s' l' /\ held' ++ l' ≡ₚ held ++ l.
Proof.
  intros Hfl Hnd Hok Hl.
  apply (run_ops_partition kalloc kfree (PageAllocator0 := kalloc_allocator Hks)); try done.
  intros p Hp. apply (page_ok_pos Hks) in Hp. lia.
Qed.

(** ** The theorems on the small machine *)

(** Forking the first space of [demo_user] into the second succeeds. *)
Lemma uvmcopy_copies_memory_witness : exists s',
  uvmcopy root1 root2 8192 (mkWorld demo_user []) = Ok 0 (mkWorld s' []) /\
  forall va, 0 <= va < 8192 -> user_byte (k_mem s') root2 va = user_byte (k_mem demo_user) root1 va.
Proof.
  destruct demo_user_ok as (own & fl & Hok & Hlen & Hr1 & Hr2 & Hum & _ & _ & Hz2 & _).
  destruct (uvmcopy_copies_memory demo_syms_ok root1 root2 demo_user own fl 8192 [])
    as (e & s' & own' & fl' & Hrun & _ & _ & _ & Hres);
    [exact Hok|exact Hr1|exact Hr2|exact roots_ne|by vm_compute|exact Hum|..].
  - intros vpn Hv. apply Hz2. change (npages 8192) with 2 in Hv. change MAXVA with (2 ^ 38).
    unfold PGSIZE. lia.
  - destruct Hres as [[-> H]|(_ & Hl & _)]; [exists s'; split; [exact Hrun|exact H]|].
    change (npages 8192) with 2 in Hl. lia.
Defined.

(** Growing the empty first space to two pages succeeds. *)
Lemma uvmalloc_grows_witness : exists s',
  uvmalloc root1 0 8192 (mkWorld demo_spaces []) = Ok 8192 (mkWorld s' []) /\
  user_byte (k_mem s') root1 5000 = Some 0.
Proof.
  destruct demo_spaces_ok as (Hok & _ & _ & _).
  destruct (uvmalloc_grows demo_syms_ok root1 demo_spaces own_spaces _ 0 8192 [] Hok root1_ok)
    as (e & s' & own' & fl' & Hrun & _ & Hres); [lia|by vm_compute|by apply demo_free1|].
  destruct Hres as [[-> H]|(_ & Hl & _)].
  - exists s'. split; [exact Hrun|]. by rewrite H by (apply root1_ok || lia).
  - change (npages 8192 - npages 0) with 2 in Hl. cbn in Hl. vm_compute in Hl. discriminate Hl.
Defined.

(** Shrinking it to one page gives back the other one. *)
Lemma uvmdealloc_shrinks_witness : exists s',
  uvmdealloc root1 8192 4096 (mkWorld demo_user []) = Ok 4096 (mkWorld s' []) /\
  user_byte (k_mem s') root1 5000 = None.
Proof.
  destruct demo_user_ok as (own & fl & Hok & Hlen & Hr1 & Hr2 & Hum & _).
  destruct (uvmdealloc_shrinks demo_syms_ok root1 demo_user own fl 8192 4096 [])
    as (s' & ps & own' & Hrun & _ & _ & _ & H); [exact Hok|exact Hr1|lia|by vm_compute|..].
  - intros vpn Hv. apply Hum. change (npages 8192 - npages 4096) with 1 in Hv.
    change (npages 4096) with 1 in Hv. change (npages 8192) with 2. lia.
  - exists s'. split; [exact Hrun|]. by rewrite H by (exact Hr1 || lia).
Defined.

(** Freeing it gives back its pages and its tables. *)
Lemma uvmfree_no_leak_witness : exists s' ps fl,
  uvmfree root1 8192 (mkWorld demo_user []) = Ok tt (mkWorld s' []) /\
  NoDup (ps ++ fl) /\ root1 ∈ ps.
Proof.
  destruct demo_user_ok as (own & fl & Hok & Hlen & Hr1 & Hr2 & Hum & _ & Hz1 & _).
  destruct (uvmfree_no_leak demo_syms_ok root1 demo_user own fl 8192 [])
    as (s' & ps & Hrun & _ & Hnd & Hps & _); [exact Hok|exact Hr1|by vm_compute|exact Hum|..].
  - intros va Hva Hge. by rewrite Hz1.
  - exists s', ps, fl. split; [exact Hrun|]. split; [exact Hnd|]. apply Hps. exists (OTable root1 2 0). split; [exact Hr1|reflexivity].
Defined.

(** A page taken from the allocator by hand is mapped at address 0. *)
Definition demo_taken : kst := after kalloc demo_spaces.
Lemma demo_taken_ok :
  vm_ok demo_taken own_spaces (pages [4;5;6;7;8;9;10;11;12;13;14;15;16]) /\
  page_ok (page 3) /\ own_spaces !! page 3 = None /\
  (page 3 ∉ pages [4;5;6;7;8;9;10;11;12;13;14;15;16]) /\
  (forall va, 0 <= va < MAXVA -> pte_of (k_mem demo_taken) root1 va = 0).
Proof.
  destruct demo_spaces_ok as (Hok & _ & Hz1 & _).
  destruct (take_page demo_syms_ok demo_spaces own_spaces _ (page 3) [] Hok)
    as (s1 & Hrun & Hok1 & _ & _ & Hsp & Hq & Hqn & Hqfl & _).
  unfold demo_taken. rewrite (after_run _ _ _ _ Hrun). split; [done|].
  split; [done|]. split; [done|]. split; [done|]. intros va Hva. rewrite <- (Hz1 va Hva).
  apply (same_pte_of demo_spaces own_spaces); [done|apply root1_ok|done].
Qed.
#[global] Opaque demo_taken.

Lemma mappages_walkaddr_witness : exists s',
  mappages root1 0 4096 (page 3) PTE_WRXU (mkWorld demo_taken []) = Ok 0 (mkWorld s' []) /\
  walkaddr root1 100 (mkWorld s' []) = Ok (page 3) (mkWorld s' []).
Proof.
  destruct demo_taken_ok as (Hok & Hp & Hn & Hf & Hz). destruct PTE_WRXU_ok as (H1 & H2 & H3).
  destruct (mappages_walkaddr demo_syms_ok root1 demo_taken own_spaces _ 0 4096 (page 3) PTE_WRXU [] Hok root1_ok)
    as (e & k & s' & own' & fl' & Hrun & _ & Hres & Hw);
    [lia|lia|by vm_compute|by vm_compute|exact H1|exact H2|exact H3|..].
  - intros i Hi. change ((0 + 4096 - 1) / PGSIZE - 0 / PGSIZE) with 0 in Hi. assert (i = 0) as -> by lia.
    by rewrite Hz by (vm_compute; split; [intros ?|]; done).
  - intros i Hi. change ((0 + 4096 - 1) / PGSIZE - 0 / PGSIZE) with 0 in Hi. assert (i = 0) as -> by lia.
    rewrite Z.mul_0_l, Z.add_0_r. done.
  - destruct Hres as [[-> ->]|(_ & _ & Hl)]; [|vm_compute in Hl; discriminate Hl].
    exists s'. split; [exact Hrun|]. destruct (Hw root1 100 root1_ok) as (x & _ & ->); [by vm_compute|]. reflexivity.
Defined.

(** Writing across the page boundary at 4096, and reading back. *)
Lemma copyout_writes_witness : exists s',
  copyout root1 4094 [1; 2; 3; 4] (mkWorld demo_user []) = Ok 0 (mkWorld s' []) /\
  user_byte (k_mem s') root1 4097 = Some 4.
Proof.
  destruct demo_user_ok as (own & fl & Hok & _ & Hr1 & _ & _ & Hm & _).
  destruct (copyout_writes demo_syms_ok root1 demo_user own fl 4094 [1; 2; 3; 4] [])
    as (e & k & s' & Hrun & _ & Hres & Hb & _); [exact Hok|exact Hr1|lia|].
  destruct Hres as [[-> ->]|(_ & Hk & Ht)].
  - exists s'. split; [exact Hrun|]. rewrite Hb by (exact Hr1 || lia). reflexivity.
  - exfalso. destruct PTE_WRXU_ok as (H1 & _ & H3).
    assert (Hbyte : user_byte (k_mem demo_user) root1 (4094 + Z.of_nat k) = Some 0).
    { cbn [length] in Hk. rewrite (mapped_as_byte demo_syms_ok root1 0 2 _ _ demo_user own _ (vo_inv _ _ _ Hok) Hm).
      - by rewrite H3.
      - done.
      - change MAXVA with (2 ^ 38). lia.
      - unfold PGSIZE. pose proof (Z.div_mod (4094 + Z.of_nat k) 4096).
        pose proof (Z.mod_pos_bound (4094 + Z.of_nat k) 4096). lia. }
    unfold user_byte in Hbyte. by rewrite Ht in Hbyte.
Defined.

Lemma copyin_reads_witness : exists e bs,
  copyin root1 100 8 (mkWorld demo_user []) = Ok (e, bs) (mkWorld demo_user []) /\
  forall i, (i < length bs)%nat -> user_byte (k_mem demo_user) root1 (100 + Z.of_nat i) = Some (nth i bs 0).
Proof.
  destruct demo_user_ok as (own & fl & Hok & _ & Hr1 & _).
  destruct (copyin_reads demo_syms_ok root1 demo_user own fl 100 8 [] Hok Hr1) as (e & bs & Hrun & Hb & _); [lia|].
  exists e, bs. split; [exact Hrun|exact Hb].
Defined.

Lemma copyinstr_string_witness : exists str e,
  copyinstr root1 0 16 (mkWorld demo_user []) = Ok (e, str) (mkWorld demo_user []).
Proof.
  destruct demo_user_ok as (own & fl & Hok & _ & Hr1 & _).
  destruct (copyinstr_string demo_syms_ok root1 demo_user own fl 0 16 [] Hok Hr1)
    as (str & _ & [[Hrun _]|[Hrun _]]); [lia|..].
  - exists (str ++ [0]), 0. exact Hrun.
  - exists str, (-1). exact Hrun.
Defined.

Lemma uvmclear_guards_witness : exists s',
  uvmclear root1 (1 * PGSIZE) (mkWorld demo_user []) = Ok tt (mkWorld s' []) /\
  translate (k_mem s') root1 5000 = None.
Proof.
  destruct demo_user_ok as (own & fl & Hok & _ & Hr1 & _ & Hum & _).
  destruct (Hum 1) as [q Hq]; [change (npages 8192) with 2; lia|].
  destruct (uvmclear_guards demo_syms_ok root1 demo_user own fl 1 q [] Hok Hr1) as (s' & Hrun & _ & H);
    [by vm_compute|exact Hq|].
  exists s'. split; [exact Hrun|]. assert (Hb : 0 <= 5000 < MAXVA) by (change MAXVA with (2 ^ 38); lia).
  pose proof (H root1 5000 Hr1 Hb) as Ht. rewrite Ht.
  apply decide_True. split; reflexivity.
Defined.

Lemma kinit_all_pages_witness : exists s' l,
  kinit (mkWorld kst0 []) = Ok tt (mkWorld s' []) /\ free_list s' l /\ page 1 ∈ l.
Proof.
  destruct (kinit_all_pages demo_syms_ok kst0 []) as (s' & l & Hrun & Hfl & Hl);
    [reflexivity|apply not_elem_of_nil|].
  exists s', l. split; [exact Hrun|]. split; [exact Hfl|]. apply Hl.
  split; [reflexivity|]. vm_compute. split; intros H; discriminate H.
Defined.

(** Three allocations and a free of a page that was allocated. *)
Lemma kalloc_partition_witness : exists held s' l,
  run_ops kalloc kfree [OpAlloc; OpAlloc; OpFree (page 3); OpAlloc] [] (mkWorld demo_spaces [])
    = Ok held (mkWorld s' []) /\
  held ++ l ≡ₚ [] ++ pages [3;4;5;6;7;8;9;10;11;12;13;14;15;16].
Proof.
  destruct demo_spaces_ok as (Hok & Hheld & _).
  destruct (kalloc_partition demo_syms_ok [OpAlloc; OpAlloc; OpFree (page 3); OpAlloc] demo_spaces [] []
    (pages [3;4;5;6;7;8;9;10;11;12;13;14;15;16])) as (held & s' & l & Hrun & _ & Hp).
  - exact (vo_avail _ _ _ Hok).
  - apply (avail_ok demo_spaces), Hok.
  - constructor.
  - rewrite Hheld. apply not_elem_of_nil.
  - exists held, s', l. split; [exact Hrun|exact Hp].
Defined.
