(* ===== verification/Isolation.v ===== *)
(** * The private memories of user programs
      (kernel/vm.c, kernel/kalloc.c: what their callers can rely on)

    From the boot of the allocator on, every sequence of calls of the functions of vm.c,
    mixed with the stores of the user programs themselves, behaves as if each address
    space had a memory of its own.  [vmop] lists the operations, [exec_op] is the kernel's
    code for them, and [outcome] says what they do to a table of private memories, in which
    nothing is shared.  What user code reaches is decided by [sv39], the address
    translation of the privileged architecture, which knows about permissions and
    superpages and is written independently of the kernel's [walk]. *)

From stdpp Require Import base gmap list strings.
From Stdlib Require Import ZArith Lia.
From S2P Require Import Prelude Riscv Memory State Spinlock Kalloc Vm PageTable UserMem Uvm Freewalk Demo.

(** ** Address translation by the hardware *)

Module Sv39.

(** The kind of an access, as the number of the bit of the entry that allows it. *)
Inductive access := Read | Write | Fetch.
Definition bit (k : access) : Z := match k with Read => 1 | Write => 2 | Fetch => 3 end.

Definition ppn (pte : Z) : Z := pte / 2 ^ 10 mod 2 ^ 44.

(** The steps of the translation algorithm from level [i] on, the table being at [a]:
    an entry that is invalid or has the reserved encoding (writable, not readable) faults;
    one that is readable or executable is a leaf, of a superpage if [i] is not 0, which
    must be aligned, and is open to user code if it has the U bit; any other entry points
    to the next table.  (Setting the accessed and dirty bits is left out.) *)
Fixpoint translate_from (m : mem) (i : nat) (a va : Z) (k : access) : option Z :=
  let n := Z.of_nat i in
  let pte := ld64 m (a + 8 * (va / 2 ^ (12 + 9 * n) mod 512)) in
  if negb (Z.testbit pte 0) || (negb (Z.testbit pte 1) && Z.testbit pte 2) then None
  else if Z.testbit pte 1 || Z.testbit pte 3 then
    if Z.testbit pte 4 && Z.testbit pte (bit k) && (ppn pte mod 2 ^ (9 * n) =? 0)
    then Some (ppn pte * 2 ^ 12 + va mod 2 ^ (12 + 9 * n)) else None
  else match i with
       | O => None
       | S j => translate_from m j (ppn pte * 2 ^ 12) va k
       end.

(** Bits 63 to 39 of an address must equal bit 38. *)
Definition canonical (va : Z) : bool := (va <? 2 ^ 38) || (2 ^ 64 - 2 ^ 38 <=? va).

End Sv39.

(** The physical address user code reaches at [va], [None] where it faults. *)
Definition sv39 (m : mem) (root va : Z) (k : Sv39.access) : option Z :=
  if Sv39.canonical va then Sv39.translate_from m 2 root va k else None.

Section Translation.
Context {KS : KSyms} (Hks : ksyms_ok KS).

Lemma ppn_page v p : 0 <= p < 2 ^ 56 -> PTE2PA v = p -> 0 <= v -> Sv39.ppn v * 2 ^ 12 = p.
Proof.
  intros Hp Hv Hv0. unfold PTE2PA, u64, Sv39.ppn in *. rewrite Z.shiftl_mul_pow2, Z.shiftr_div_pow2 in Hv by lia.
  pose proof (Z.div_pos v (2 ^ 10) Hv0 ltac:(lia)). generalize dependent (v / 2 ^ 10). intros x Hx H0.
  pose proof (Z.div_mod (x * 2 ^ 12) (2 ^ 64) ltac:(lia)). pose proof (Z.mod_pos_bound (x * 2 ^ 12) (2 ^ 64) ltac:(lia)).
  pose proof (Z.div_mod x (2 ^ 44) ltac:(lia)). pose proof (Z.mod_pos_bound x (2 ^ 44) ltac:(lia)). lia.
Qed.

Lemma has_RWX_bits v : has v RWX = Z.testbit v 1 || Z.testbit v 2 || Z.testbit v 3.
Proof.
  unfold has. change RWX with 14. apply eq_true_iff_eq. rewrite negb_true_iff, Z.eqb_neq, !orb_true_iff. split.
  - intros H. destruct (Z.testbit v 1) eqn:E1, (Z.testbit v 2) eqn:E2, (Z.testbit v 3) eqn:E3; try by tauto.
    destruct H. apply Z.bits_inj'. intros i Hi. rewrite Z.land_spec, Z.bits_0.
    destruct (decide (i = 1 \/ i = 2 \/ i = 3)) as [[->|[->| ->]]|Hne]; [by rewrite ?E1, ?E2, ?E3..|].
    destruct (decide (i = 0)) as [->|]; [apply andb_false_r|]. rewrite (Z.bits_above_log2 14 i); [apply andb_false_r|lia|].
    change (Z.log2 14) with 3. lia.
  - intros H E. assert (F : forall i, Z.testbit v i && Z.testbit 14 i = false) by (intros i; by rewrite <- Z.land_spec, E, Z.bits_0).
    destruct H as [[H|H]|H]; [specialize (F 1)|specialize (F 2)|specialize (F 3)]; by rewrite H in F.
Qed.

(** User pages are readable, writable and executable. *)
Definition open_page (v : Z) : Prop :=
  has v PTE_V = true -> has v PTE_U = true -> Z.testbit v 1 = true /\ Z.testbit v 2 = true /\ Z.testbit v 3 = true.

Lemma sv39_from m own r va k : pt_inv m own -> 0 <= va -> forall l pt,
  own !! pt = Some (OTable r l (prefix l va)) -> open_page (pte_at m l pt va) ->
  Sv39.translate_from m l pt va k =
  let v := pte_at m l pt va in
  if has v PTE_V && has v PTE_U then Some (PTE2PA v + va mod PGSIZE) else None.
Proof.
  intros Hinv Hva. induction l as [|l IH]; intros pt Hpt Hopen; cbn [Sv39.translate_from pte_at] in *; cbv zeta in *;
    rewrite <- PX_div by lia; pose proof (PX_bound 0 va ltac:(lia)) as Hb.
  - set (v := ld64 m (pt + 8 * PX (Z.of_nat 0) va)) in *. change (PX 0 va) with (PX (Z.of_nat 0) va).
    fold v. rewrite has_V, has_U. unfold open_page in Hopen. change (PX 0 va) with (PX (Z.of_nat 0) va) in Hopen.
    fold v in Hopen. rewrite has_V, has_U in Hopen.
    destruct (Z.testbit v 0) eqn:EV; [|done]. cbn [negb orb andb].
    destruct (Z.testbit v 4) eqn:EU.
    2:{ destruct (negb (Z.testbit v 1) && Z.testbit v 2); [done|]. by destruct (Z.testbit v 1 || Z.testbit v 3). }
    destruct Hopen as (E1 & E2 & E3); [done..|]. rewrite E1. cbn [negb orb andb].
    assert (Hbit : Z.testbit v (Sv39.bit k) = true) by (by destruct k). rewrite Hbit. cbn [andb].
    change (9 * Z.of_nat 0) with 0. rewrite Z.mod_1_r. cbn [Z.eqb].
    destruct (pi_leaf _ _ Hinv pt r (prefix 0 va) (PX (Z.of_nat 0) va) Hpt) as [_ Hu]; [by apply PX_bound|by rewrite has_V|].
    fold v in Hu. rewrite has_U in Hu. specialize (Hu EU).
    pose proof (page_ok_range Hks _ (pi_page _ _ Hinv _ _ Hu)) as Hr.
    rewrite (ppn_page v _ Hr eq_refl) by (apply ld64_range). done.
  - set (v := ld64 m (pt + 8 * PX (Z.of_nat (S l)) va)) in *. rewrite (has_V v) in *.
    destruct (Z.testbit v 0) eqn:EV; [|by rewrite has_0].
    destruct (pi_node _ _ Hinv pt r l (prefix (S l) va) (PX (Z.of_nat (S l)) va) Hpt) as [Hc HR];
      [apply PX_bound; lia|by rewrite has_V|]. fold v in Hc, HR. rewrite has_RWX_bits in HR.
    apply orb_false_iff in HR as [[E1 E2]%orb_false_iff E3]. rewrite E1, E2, E3. cbn [negb orb andb].
    pose proof (page_ok_range Hks _ (pi_page _ _ Hinv _ _ Hc)) as Hr.
    rewrite (ppn_page v _ Hr eq_refl) by (apply ld64_range). rewrite prefix_S in Hc. by apply IH.
Qed.

Lemma sv39_step m own r l pt pre va k : pt_inv m own -> own !! pt = Some (OTable r (S l) pre) ->
  Sv39.translate_from m (S l) pt va k = None \/
  exists q, own !! q = Some (OTable r l (pre * 512 + PX (Z.of_nat (S l)) va)) /\
    Sv39.translate_from m (S l) pt va k = Sv39.translate_from m l q va k.
Proof.
  intros Hinv Hpt. cbn [Sv39.translate_from]. cbv zeta. rewrite <- PX_div by lia.
  set (v := ld64 m (pt + 8 * PX (Z.of_nat (S l)) va)) in *.
  destruct (Z.testbit v 0) eqn:EV; [|by left].
  destruct (pi_node _ _ Hinv pt r l pre (PX (Z.of_nat (S l)) va) Hpt) as [Hc HR];
    [apply PX_bound; lia|by rewrite has_V|]. fold v in Hc, HR. rewrite has_RWX_bits in HR.
  apply orb_false_iff in HR as [[E1 E2]%orb_false_iff E3]. rewrite E1, E2, E3. cbn [negb orb andb].
  pose proof (page_ok_range Hks _ (pi_page _ _ Hinv _ _ Hc)) as Hr.
  rewrite (ppn_page v _ Hr eq_refl) by (apply ld64_range). right. eauto.
Qed.

(** Nothing is mapped in the upper half of the root table. *)
Lemma sv39_high m own r va k : pt_inv m own -> is_root own r -> 256 <= PX 2 va ->
  Sv39.translate_from m 2 r va k = None.
Proof.
  intros Hinv Hr Hhigh.
  destruct (sv39_step m own r 1 r 0 va k Hinv Hr) as [->|(q1 & Hq1 & ->)]; [done|].
  destruct (sv39_step m own r 0 q1 _ va k Hinv Hq1) as [->|(q0 & Hq0 & ->)]; [done|].
  pose proof (pi_low _ _ Hinv _ _ _ Hq0). pose proof (PX_bound 1 va ltac:(lia)).
  change (Z.of_nat 1) with 1 in *. change (Z.of_nat 2) with 2 in *. lia.
Qed.

(** On the tables of the kernel the hardware agrees with [translate]. *)
Lemma sv39_translate m own r va k : pt_inv m own -> is_root own r -> 0 <= va < 2 ^ 64 ->
  (forall va, 0 <= va < MAXVA -> open_page (pte_of m r va)) -> sv39 m r va k = translate m r va.
Proof.
  intros Hinv Hr Hva Hopen. unfold sv39, translate. change MAXVA with (2 ^ 38) in *.
  destruct (Z.leb_spec (2 ^ 38) va) as [Hge|Hlt].
  - destruct (Sv39.canonical va) eqn:E; [|done]. apply (sv39_high m own); [done..|].
    unfold Sv39.canonical in E. rewrite (proj2 (Z.ltb_ge _ _)) in E by lia. apply Z.leb_le in E.
    rewrite PX_div by lia. change (12 + 9 * 2) with 30.
    pose proof (Z.div_mod va (2 ^ 30) ltac:(lia)). pose proof (Z.mod_pos_bound va (2 ^ 30) ltac:(lia)).
    pose proof (Z.div_mod (va / 2 ^ 30) 512 ltac:(lia)). pose proof (Z.mod_pos_bound (va / 2 ^ 30) 512 ltac:(lia)). lia.
  - unfold Sv39.canonical. rewrite (proj2 (Z.ltb_lt _ _)) by lia. cbn [orb].
    apply (sv39_from m own r va k Hinv); [lia|rewrite prefix_2; [done|exact (conj (proj1 Hva) Hlt)]|apply Hopen; lia].
Qed.

End Translation.

(** ** Address spaces and what is done with them *)

(** A private memory: the size its owner knows, and the byte at each address, [None]
    where there is none. *)
Record aspace := mkSpace { a_size : Z; a_byte : Z -> option Z }.

(** The address spaces in use, by the address of their root page table. *)
Abbreviation spaces := (gmap Z aspace).

Inductive vmop :=
| Create                                  (* uvmcreate *)
| Grow (r newsz : Z)                      (* uvmalloc *)
| Shrink (r newsz : Z)                    (* uvmdealloc *)
| Copy (old new : Z)                      (* uvmcopy *)
| Guard (r va : Z)                        (* uvmclear *)
| CopyOut (r va : Z) (bs : list Z)        (* copyout *)
| Store (r va b : Z)                      (* a store of the user program *)
| Destroy (r : Z).                        (* uvmfree *)

Definition space_of (t : spaces) (r : Z) : aspace := default (mkSpace 0 (fun _ => None)) (t !! r).
Definition in_use (t : spaces) (r : Z) : bool := bool_decide (is_Some (t !! r)).

(** What the callers in proc.c and exec.c see to: they name address spaces in use, grow
    them up to MAXVA, shrink them to at most their size, copy into an empty one, and clear
    pages below the size. *)
Definition allowed (t : spaces) (o : vmop) : bool :=
  match o with
  | Create => true
  | Grow r newsz => in_use t r && (a_size (space_of t r) <=? newsz) && (newsz <=? MAXVA)
  | Shrink r newsz => in_use t r && (0 <=? newsz) && (newsz <=? a_size (space_of t r))
  | Copy old new => in_use t old && in_use t new && negb (old =? new) && (a_size (space_of t new) =? 0)
  | Guard r va => in_use t r && (va mod PGSIZE =? 0) && (0 <=? va) && (va <? a_size (space_of t r))
  | CopyOut r va _ => in_use t r && (0 <=? va)
  | Store r va _ => in_use t r && (0 <=? va) && (va <? 2 ^ 64)
  | Destroy r => in_use t r
  end.

Section Ops.
Context {KS : KSyms}.

(** A store instruction of user code running on the page table [r]; it does nothing if it
    faults. *)
Definition user_store (r va b : Z) : K unit :=
  m ← kgets k_mem;
  match sv39 m r va Sv39.Write with
  | Some pa => kmodify (set_k_mem (st8 m pa b))
  | None => mret tt
  end.

(** The code behind an operation, and its result. *)
Definition exec_op (t : spaces) (o : vmop) : K Z :=
  match o with
  | Create => uvmcreate
  | Grow r newsz => uvmalloc r (a_size (space_of t r)) newsz
  | Shrink r newsz => uvmdealloc r (a_size (space_of t r)) newsz
  | Copy old new => uvmcopy old new (a_size (space_of t old))
  | Guard r va => uvmclear r va;; mret 0
  | CopyOut r va bs => copyout r va bs
  | Store r va b => user_store r va b;; mret 0
  | Destroy r => uvmfree r (a_size (space_of t r));; mret 0
  end.

End Ops.

(** *** What the operations do to the private memories *)

Definition put (a : aspace) (va b : Z) : aspace :=
  mkSpace (a_size a) (fun x => if decide (x = va) then Some (u8 b) else a_byte a x).

(** [copyout] writes up to the first byte that is not there. *)
Fixpoint put_bytes (a : aspace) (va : Z) (bs : list Z) : aspace :=
  match bs with
  | [] => a
  | b :: bs => match a_byte a va with None => a | Some _ => put_bytes (put a va b) (va + 1) bs end
  end.

(** The size becomes [n]; the pages between the two sizes read [v]. *)
Definition resize (a : aspace) (n lo hi : Z) (v : option Z) : aspace :=
  mkSpace n (fun va => if decide (lo * PGSIZE <= va < hi * PGSIZE) then v else a_byte a va).

(** The new table, given the result [e] of the operation; each operation changes one
    address space only.  0 is the result of [uvmcreate] and [uvmalloc] if memory runs out,
    -1 that of [uvmcopy]. *)
Definition outcome (t : spaces) (o : vmop) (e : Z) : spaces :=
  match o with
  | Create => if e =? 0 then t else <[e := mkSpace 0 (fun _ => None)]> t
  | Grow r newsz =>
      let a := space_of t r in
      if e =? 0 then t else <[r := resize a newsz (npages (a_size a)) (npages newsz) (Some 0)]> t
  | Shrink r newsz =>
      let a := space_of t r in <[r := resize a newsz (npages newsz) (npages (a_size a)) None]> t
  | Copy old new => if e =? 0 then <[new := space_of t old]> t else t
  | Guard r va =>
      let a := space_of t r in <[r := resize a (a_size a) (va / PGSIZE) (va / PGSIZE + 1) None]> t
  | CopyOut r va bs => <[r := put_bytes (space_of t r) va bs]> t
  | Store r va b => let a := space_of t r in match a_byte a va with Some _ => <[r := put a va b]> t | None => t end
  | Destroy r => delete r t
  end.

(** A sequence of operations; those that are not allowed are left out.  An address space
    that is created must not be in use. *)
Fixpoint run_vm `{KSyms} (ops : list vmop) (t : spaces) : K spaces :=
  match ops with
  | [] => mret t
  | o :: ops =>
      if negb (allowed t o) then run_vm ops t else
      e ← exec_op t o;
      if match o with Create => in_use t e | _ => false end then panic "in use"
      else run_vm ops (outcome t o e)
  end.

Lemma put_bytes_spec bs : forall a va k, (k <= length bs)%nat ->
  (forall i, (i < k)%nat -> is_Some (a_byte a (va + Z.of_nat i))) ->
  k = length bs \/ a_byte a (va + Z.of_nat k) = None ->
  a_size (put_bytes a va bs) = a_size a /\
  forall x, a_byte (put_bytes a va bs) x =
    if decide (va <= x < va + Z.of_nat k) then Some (u8 (nth (Z.to_nat (x - va)) bs 0)) else a_byte a x.
Proof.
  induction bs as [|b bs IH]; intros a va k Hk Hin Hend.
  { cbn in Hk. assert (k = 0)%nat as -> by lia. split; [done|]. intros x. by rewrite decide_False by lia. }
  cbn [put_bytes length] in *. destruct k as [|k].
  { rewrite Z.add_0_r in *. destruct Hend as [|Hend]; [lia|]. rewrite Hend. split; [done|].
    intros x. by rewrite decide_False by lia. }
  destruct (Hin 0%nat ltac:(lia)) as [y Hy]. rewrite Z.add_0_r in Hy. rewrite Hy.
  assert (Hput : forall j, a_byte (put a va b) (va + 1 + Z.of_nat j) = a_byte a (va + Z.of_nat (S j))).
  { intros j. unfold put. cbn [a_byte]. rewrite decide_False by lia. f_equal. lia. }
  destruct (IH (put a va b) (va + 1) k) as [Hs Hb]; [lia|..].
  { intros i Hi. rewrite Hput. apply Hin. lia. }
  { rewrite Hput. destruct Hend; [left; lia|by right]. }
  split; [done|]. intros x. rewrite Hb. destruct (decide (x = va)) as [->|Hne].
  - rewrite decide_False by lia. rewrite decide_True by lia. unfold put. cbn [a_byte].
    by rewrite decide_True, Z.sub_diag by done.
  - destruct (decide (va + 1 <= x < _)) as [Hx|Hx].
    + rewrite decide_True by lia. replace (Z.to_nat (x - va)) with (S (Z.to_nat (x - (va + 1)))) by lia. done.
    + unfold put. cbn [a_byte]. by rewrite !decide_False by lia.
Qed.

Section Private.
Context {KS : KSyms} (Hks : ksyms_ok KS) `{PA : !PageAllocator kalloc kfree}.

(** ** The invariant *)

(** The address space [r] holds the private memory [a]. *)
Record holds (m : mem) (own : gmap Z owner) (r : Z) (a : aspace) : Prop := {
  h_root : is_root own r;
  h_size : 0 <= a_size a <= MAXVA;
  h_user : user_mapped own r 0 (npages (a_size a));
  h_rest va : 0 <= va < MAXVA -> npages (a_size a) <= va / PGSIZE -> pte_of m r va = 0;
  h_open va : 0 <= va < MAXVA -> open_page (pte_of m r va);
  h_byte va : 0 <= va -> user_byte m r va = a_byte a va
}.

Definition agrees (s : kst) (own : gmap Z owner) (fl : list Z) (t : spaces) : Prop :=
  vm_ok s own fl /\ map_Forall (holds (k_mem s) own) t.

(** An address space whose entries and bytes are as before. *)
Lemma private_frame m m' own own' r a : holds m own r a -> is_root own' r ->
  (forall q vpn, own !! q = Some (OUser r vpn) -> own' !! q = Some (OUser r vpn)) ->
  (forall va, 0 <= va < MAXVA -> pte_of m' r va = pte_of m r va) ->
  (forall va, 0 <= va -> user_byte m' r va = user_byte m r va) -> holds m' own' r a.
Proof.
  intros [H1 H2 H3 H4 H5 H6] Hr Hu Hpte Hb. split; try done.
  - intros vpn Hv. destruct (H3 vpn Hv) as [q Hq]. eauto.
  - intros va Hva Hn. rewrite Hpte by done. by apply H4.
  - intros va Hva. rewrite Hpte by done. by apply H5.
  - intros va Hva. rewrite Hb by done. by apply H6.
Qed.

Lemma holds_ext m own r a a' : holds m own r a -> a_size a' = a_size a ->
  (forall va, 0 <= va -> a_byte a' va = a_byte a va) -> holds m own r a'.
Proof.
  intros [H1 H2 H3 H4 H5 H6] Hs Hb. split; rewrite ?Hs; try done.
  intros va Hva. rewrite Hb by done. by apply H6.
Qed.

(** One address space changes, the others are framed. *)
Lemma agrees_change s own fl t s' own' fl' r a : agrees s own fl t -> vm_ok s' own' fl' ->
  holds (k_mem s') own' r a ->
  (forall r' a', r' <> r -> t !! r' = Some a' -> holds (k_mem s) own r' a' -> holds (k_mem s') own' r' a') ->
  agrees s' own' fl' (<[r := a]> t).
Proof.
  intros [_ Hall] Hok Hr Hothers. split; [done|]. intros r' a' [[<- <-]|[Hne Ha]]%lookup_insert_Some; [done|].
  apply Hothers; [done..|]. by apply Hall.
Qed.

Lemma in_use_spec t r : in_use t r = true -> t !! r = Some (space_of t r).
Proof. unfold in_use, space_of. intros [a Ha]%bool_decide_eq_true. by rewrite Ha. Qed.

Lemma agrees_root s own fl t r a : agrees s own fl t -> t !! r = Some a -> is_root own r /\ 0 < r.
Proof.
  intros [Hok Hall] Hr. pose proof (h_root _ _ _ _ (Hall r a Hr)) as Hroot. split; [done|].
  pose proof (pi_page _ _ (vo_inv _ _ _ Hok) _ _ Hroot) as Hp. apply (page_ok_pos Hks) in Hp. lia.
Qed.

(** ** The operations *)

Definition step_ok (t : spaces) (o : vmop) (s : kst) (env : list (kst -> kst)) : Prop :=
  exists e s' own' fl', exec_op t o (mkWorld s env) = Ok e (mkWorld s' env) /\
    (o = Create -> in_use t e = false) /\ agrees s' own' fl' (outcome t o e).

Lemma create_step s own fl t env : agrees s own fl t -> step_ok t Create s env.
Proof.
  intros A. pose proof A as [Hok Hall]. destruct fl as [|q fl].
  { exists 0, s, own, []. cbn [exec_op outcome]. split; [by eapply uvmcreate_none|]. split; [|done].
    intros _. apply bool_decide_eq_false. intros [a Ha]. pose proof (agrees_root _ _ _ _ _ _ A Ha). lia. }
  destruct (uvmcreate_spec Hks s own q fl env Hok) as (s' & Hrun & Hok' & Hn & _ & Hsp & Hz & Hout).
  assert (Hq : page_ok q) by (eapply avail_page_ok; [apply Hok|left]).
  pose proof (page_ok_pos Hks q Hq) as Hpos.
  assert (Hfree : t !! q = None).
  { destruct (t !! q) as [a|] eqn:Ha; [|done]. pose proof (agrees_root _ _ _ _ _ _ A Ha) as [H _]. unfold is_root in H. congruence. }
  exists q, s', (<[q := OTable q 2 0]> own), fl. cbn [exec_op outcome]. split; [done|]. split.
  { intros _. apply bool_decide_eq_false. rewrite Hfree. by intros [? ?]. }
  rewrite (proj2 (Z.eqb_neq q 0)) by lia. eapply agrees_change; [done..| |].
  - split; cbn [a_size a_byte].
    + apply lookup_insert_eq.
    + by vm_compute.
    + intros vpn Hv. change (npages 0) with 0 in Hv. lia.
    + intros va _ _. apply Hz.
    + intros va _ HV. by rewrite Hz, has_0 in HV.
    + intros va _. unfold user_byte, translate. rewrite Hz, has_0. by destruct (MAXVA <=? va).
  - intros r' a' Hne _ H. eapply private_frame; [exact H|..].
    + unfold is_root. rewrite lookup_insert_ne by done. apply H.
    + intros x vpn Hx. rewrite lookup_insert_ne; [done|congruence].
    + intros va Hva. apply (same_pte_of s own s' r' va Hsp); [apply H|done].
    + intros va Hva. apply (user_byte_frame s s' own (q :: fl) r' va Hok); [apply H|done|..].
      * intros Hlt. apply (same_pte_of s own s' r' va Hsp); [apply H|lia].
      * intros p vpn Hp. apply (outside_same_page q); [apply Hq|by eapply pi_aligned, Hp; apply Hok|congruence|done].
Qed.

(** Address spaces that an allocation for another one leaves alone. *)
Lemma added_holds r lo k s own fl s' own' fl' r' a : vm_ok s own fl -> added r lo k s own fl s' own' fl' ->
  r' <> r -> holds (k_mem s) own r' a -> holds (k_mem s') own' r' a.
Proof.
  intros Hok A Hne H. eapply private_frame; [exact H|..].
  - eapply is_root_sub; [apply A|apply H].
  - intros q vpn Hq. eapply lookup_weaken; [exact Hq|apply A].
  - intros va Hva. apply (ad_pte A); [apply H|done|]. by intros [].
  - intros va Hva. eapply added_user_byte; [done..|apply H|done|]. by intros [].
Qed.

Lemma undone_holds r s own fl s' own' fl' r' a : vm_ok s own fl -> undone r s own fl s' own' fl' ->
  holds (k_mem s) own r' a -> holds (k_mem s') own' r' a.
Proof.
  intros Hok U H. eapply private_frame; [exact H|..].
  - apply U, H.
  - intros q vpn Hq. by apply U.
  - intros va Hva. apply U; [apply H|done].
  - intros va Hva. eapply undone_user_byte; [done..|apply H|done].
Qed.

Lemma undone_agrees r s own fl s' own' fl' t : agrees s own fl t -> vm_ok s' own' fl' ->
  undone r s own fl s' own' fl' -> agrees s' own' fl' t.
Proof. intros [Hok Hall] Hok' U. split; [done|]. intros r' a' Ha. apply (undone_holds r s own fl s' own' fl'); [done..|]. by apply Hall. Qed.

Lemma mapped_as_pte r lo k perm content s own va :
  mapped_as r lo k perm content s own -> lo <= va / PGSIZE < lo + k ->
  exists q, own !! q = Some (OUser r (va / PGSIZE)) /\ pte_of (k_mem s) r va = mk_pte q (perm (va / PGSIZE)).
Proof.
  intros Hm Hv. destruct (Hm _ Hv) as (q & Hq & Hpte & _). exists q. split; [done|]. rewrite <- Hpte.
  unfold pte_of. apply pte_at_page. by rewrite (proj1 (page_index _)).
Qed.

Lemma mk_pte_flag pa perm k : 0 <= pa < 2 ^ 56 -> pa mod PGSIZE = 0 -> 0 <= perm < 1024 -> 1 <= k < 10 ->
  Z.testbit (mk_pte pa perm) k = Z.testbit perm k.
Proof.
  intros Hpa Hal Hperm Hk. rewrite mk_pte_bit by (done || lia). rewrite Z.lor_spec.
  change PTE_V with (2 ^ 0). rewrite Z.pow2_bits_false by lia. apply orb_false_r.
Qed.

(** The address space that has got [k] more pages. *)
Lemma alloc_holds r k perm content s own fl s' own' fl' a a' :
  vm_ok s own fl -> holds (k_mem s) own r a ->
  let lo := npages (a_size a) in
  added r lo k s own fl s' own' fl' -> mapped_as r lo k perm content s' own' ->
  (forall vpn, lo <= vpn < lo + k -> 0 <= perm vpn < 1024 /\
     (has (perm vpn) PTE_U = true -> forall i, 1 <= i <= 3 -> Z.testbit (perm vpn) i = true)) ->
  0 <= k -> 0 <= a_size a' <= MAXVA -> npages (a_size a') = lo + k ->
  (forall va, 0 <= va -> a_byte a' va =
     if decide (lo <= va / PGSIZE < lo + k)
     then (if has (perm (va / PGSIZE)) PTE_U then Some (content (va / PGSIZE) (va mod PGSIZE)) else None)
     else a_byte a va) ->
  holds (k_mem s') own' r a'.
Proof.
  intros Hok H lo Ad Hm Hperm Hk Hsz Hn Hbyte. split.
  - eapply is_root_sub; [apply Ad|apply H].
  - done.
  - rewrite Hn. intros vpn Hv. destruct (decide (vpn < lo)) as [Hlt|Hge].
    + destruct (h_user _ _ _ _ H vpn ltac:(lia)) as [q Hq]. exists q. eapply lookup_weaken; [exact Hq|apply Ad].
    + destruct (Hm vpn ltac:(lia)) as (q & Hq & _). by exists q.
  - intros va Hva Hv. rewrite (ad_pte Ad); [|apply H|done|lia]. apply (h_rest _ _ _ _ H); [done|]. fold lo. lia.
  - intros va Hva. destruct (decide (lo <= va / PGSIZE < lo + k)) as [Hin|Hout].
    + destruct (mapped_as_pte _ _ _ _ _ _ _ va Hm Hin) as (q & Hq & ->). destruct (Hperm _ Hin) as [Hp HU].
      pose proof (pi_page _ _ (vo_inv _ _ _ (ad_ok Ad)) _ _ Hq) as Hpq. pose proof (page_ok_range Hks q Hpq) as Hqr.
      pose proof (proj1 Hpq). intros _ Hu. rewrite has_U_mk_pte in Hu by done.
      rewrite !mk_pte_flag by (done || lia). by rewrite !(HU Hu) by lia.
    + rewrite (ad_pte Ad); [|apply H|done|by intros []]. by apply (h_open _ _ _ _ H).
  - intros va Hva. rewrite Hbyte by done. case_decide as D.
    + destruct (Hm _ D) as (q & Hq & _).
      assert (Hmax : va < MAXVA).
      { pose proof (npages_max (a_size a') ltac:(lia)). pose proof (Z.div_mod va PGSIZE ltac:(done)).
        pose proof (Z.mod_pos_bound va PGSIZE ltac:(done)). unfold PGSIZE in *. lia. }
      apply (mapped_as_byte_in Hks r lo k perm content s' own' va); [apply Ad|done|by apply Hperm|lia|done].
    + rewrite <- (h_byte _ _ _ _ H va Hva). eapply added_user_byte; [exact Hok|exact Ad|apply H|done|]. by intros [].
Qed.

Lemma grow_step r newsz s own fl t env : agrees s own fl t -> allowed t (Grow r newsz) = true ->
  step_ok t (Grow r newsz) s env.
Proof.
  intros A Hal. cbn [allowed] in Hal. apply andb_true_iff in Hal as [[Hu Hlo%Z.leb_le]%andb_true_iff Hhi%Z.leb_le].
  apply in_use_spec in Hu. pose proof A as [Hok Hall]. pose proof (Hall _ _ Hu) as H. set (a := space_of t r) in *.
  pose proof (h_size _ _ _ _ H) as Hsz. pose proof (npages_mono _ _ Hlo) as Hmono.
  pose proof (npages_bounds (a_size a) ltac:(lia)) as Hb. pose proof (npages_max newsz Hhi) as Hmx.
  assert (HPG : PGSIZE = 4096) by done.
  destruct (uvmalloc_spec Hks r (a_size a) newsz s own fl env Hok (h_root _ _ _ _ H)) as (e & s' & own' & fl' & Hrun & Hres); [lia|done|..].
  { intros vpn Hv. apply (h_rest _ _ _ _ H); [lia|]. rewrite (proj1 (page_index _)). lia. }
  exists e, s', own', fl'. cbn [exec_op outcome]. fold a. split; [done|]. split; [done|].
  destruct Hres as [(-> & Ad & _ & Hm)|(-> & _ & Hok' & U)]; [|by eapply undone_agrees].
  assert (Hnew : holds (k_mem s') own' r (resize a newsz (npages (a_size a)) (npages newsz) (Some 0))).
  { destruct PTE_WRXU_ok as (Hp1 & _ & Hp3).
    eapply (alloc_holds r _ _ _ s own fl s' own' fl' a); [exact Hok|exact H|exact Ad|exact Hm|..]; cbn [resize a_size a_byte].
    - intros vpn _. split; [exact Hp1|]. intros _ i Hi. assert (i = 1 \/ i = 2 \/ i = 3) as [->|[->| ->]] by lia; done.
    - lia.
    - lia.
    - lia.
    - intros va Hva. pose proof (page_between (npages (a_size a)) (npages newsz) va) as Hpg. rewrite Hp3.
      by apply decide_ext. }
  assert (Ag : agrees s' own' fl' (<[r := resize a newsz (npages (a_size a)) (npages newsz) (Some 0)]> t)).
  { eapply agrees_change; [exact A|apply Ad|exact Hnew|]. intros r' a' Hne _. by eapply added_holds. }
  destruct (Z.eqb_spec newsz 0) as [E|_]; [|exact Ag].
  assert (E0 : a_size a = 0) by lia. split; [apply Ad|]. intros r' a' Ha'.
  destruct (decide (r' = r)) as [->|Hne]; [|by apply Ag; rewrite lookup_insert_ne].
  rewrite Hu in Ha'. injection Ha' as <-. eapply holds_ext; [exact Hnew|unfold resize; cbn; lia|].
  intros va Hva. unfold resize. cbn [a_byte]. rewrite E0, E. by rewrite decide_False by lia.
Qed.

Lemma copy_step old new s own fl t env : agrees s own fl t -> allowed t (Copy old new) = true ->
  step_ok t (Copy old new) s env.
Proof.
  intros A Hal. cbn [allowed] in Hal.
  apply andb_true_iff in Hal as [[[Ho Hn]%andb_true_iff Hne%negb_true_iff%Z.eqb_neq]%andb_true_iff Hz%Z.eqb_eq].
  apply in_use_spec in Ho, Hn. pose proof A as [Hok Hall]. pose proof (Hall _ _ Ho) as H. pose proof (Hall _ _ Hn) as H'.
  set (a := space_of t old) in *. set (b := space_of t new) in *.
  assert (Hb0 : npages (a_size b) = 0) by (by rewrite Hz).
  pose proof (h_size _ _ _ _ H) as Hsz. pose proof (npages_bounds (a_size a) ltac:(lia)) as Hb.
  pose proof (npages_max (a_size a) ltac:(lia)) as Hmx. assert (HPG : PGSIZE = 4096) by done.
  destruct (uvmcopy_spec Hks old new s own fl Hok (h_root _ _ _ _ H) (h_root _ _ _ _ H') Hne (a_size a) env Hsz (h_user _ _ _ _ H))
    as (e & s' & Hrun & Hres).
  { intros vpn Hv. apply (h_rest _ _ _ _ H'); [lia|]. rewrite (proj1 (page_index _)), Hb0. lia. }
  destruct Hres as [(-> & own' & fl' & Ad & _ & _ & Hm)|(-> & _ & own' & fl' & Hok' & U)].
  2:{ exists (-1), s', own', fl'. cbn [exec_op outcome Z.eqb]. split; [done|]. split; [done|]. by eapply undone_agrees. }
  exists 0, s', own', fl'. cbn [exec_op outcome Z.eqb]. split; [done|]. split; [done|]. fold a.
  eapply agrees_change; [exact A|apply Ad| |intros r' a' Hr _; by eapply added_holds].
  rewrite <- Hb0 in Ad, Hm.
  eapply (alloc_holds new _ _ _ s own fl s' own' fl' b a); [exact Hok|exact H'|exact Ad|exact Hm|..]; rewrite ?Hb0; [|lia|done|lia|].
  - intros vpn Hv. split; [apply flags_range_1024|]. intros HU i Hi. unfold copy_perm in *. rewrite has_U_flags in HU.
    destruct (h_user _ _ _ _ H vpn ltac:(lia)) as [q Hq].
    destruct (user_pte Hks (k_mem s) own old vpn q (vo_inv _ _ _ Hok) (h_root _ _ _ _ H) ltac:(lia) Hq) as (HV & _ & _).
    destruct (h_open _ _ _ _ H (vpn * PGSIZE) ltac:(lia) HV HU) as (B1 & B2 & B3).
    unfold PTE_FLAGS. rewrite Z.land_spec.
    assert (i = 1 \/ i = 2 \/ i = 3) as [->|[->| ->]] by lia; rewrite ?B1, ?B2, ?B3; done.
  - intros va Hva. rewrite <- (h_byte _ _ _ _ H va Hva). case_decide as D.
    + assert (Hmax : va < MAXVA).
      { pose proof (Z.div_mod va PGSIZE ltac:(done)). pose proof (Z.mod_pos_bound va PGSIZE ltac:(done)). lia. }
      apply (parent_byte Hks old s own fl); [done|apply H|lia|]. intros vpn Hv. apply (h_user _ _ _ _ H). lia.
    + rewrite <- (h_byte _ _ _ _ H' va Hva). unfold user_byte, translate. destruct (Z.leb_spec MAXVA va); [done|].
      pose proof (Z.div_pos va PGSIZE Hva ltac:(done)).
      rewrite (h_rest _ _ _ _ H) by lia. by rewrite (h_rest _ _ _ _ H') by lia.
Qed.

(** Bytes outside the pages that are unmapped. *)
Lemma unmapped_byte r lo k s own fl s' ps r' va : vm_ok s own fl -> unmaps r lo k s own fl s' ps ->
  is_root own r' -> 0 <= va -> ~ (r' = r /\ lo <= va / PGSIZE < lo + k) ->
  user_byte (k_mem s') r' va = user_byte (k_mem s) r' va.
Proof.
  intros Hok U Hr Hva Hout. unfold user_byte.
  assert (Ht : translate (k_mem s') r' va = translate (k_mem s) r' va).
  { unfold translate. destruct (Z.leb_spec MAXVA va); [done|].
    assert (Hpte : pte_of (k_mem s') r' va = pte_of (k_mem s) r' va).
    { rewrite (um_pte _ _ _ _ _ _ _ _ U) by (done || lia). by apply decide_False. }
    by rewrite Hpte. }
  rewrite Ht. destruct (translate (k_mem s) r' va) as [pa|] eqn:Htr; [|done]. cbn. f_equal.
  destruct (translate_owner _ own r' va pa (vo_inv _ _ _ Hok) Hr Hva Htr) as (p & Hp & ->).
  apply (um_same _ _ _ _ _ _ _ _ U p); [by eapply pi_aligned, Hp; apply Hok| |congruence|].
  - rewrite (um_ps _ _ _ _ _ _ _ _ U). intros (v & Hp' & Hv). rewrite Hp in Hp'. injection Hp' as -> <-. by apply Hout.
  - pose proof (Z.mod_pos_bound va PGSIZE ltac:(done)). lia.
Qed.

Lemma shrink_step r newsz s own fl t env : agrees s own fl t -> allowed t (Shrink r newsz) = true ->
  step_ok t (Shrink r newsz) s env.
Proof.
  intros A Hal. cbn [allowed] in Hal. apply andb_true_iff in Hal as [[Hu Hlo%Z.leb_le]%andb_true_iff Hhi%Z.leb_le].
  apply in_use_spec in Hu. pose proof A as [Hok Hall]. pose proof (Hall _ _ Hu) as H. set (a := space_of t r) in *.
  pose proof (h_size _ _ _ _ H) as Hsz. pose proof (npages_mono _ _ Hhi) as Hmono.
  pose proof (npages_bounds newsz Hlo) as Hb. set (k := npages (a_size a) - npages newsz) in *.
  destruct (uvmdealloc_spec Hks r (a_size a) newsz s own fl env Hok (h_root _ _ _ _ H)) as (s' & ps & Hrun & U);
    [lia|lia|intros vpn Hv; apply (h_user _ _ _ _ H); lia|].
  fold k in U. exists newsz, s', (own_del own r (npages newsz) k), (ps ++ fl). cbn [exec_op outcome]. fold a.
  split; [done|]. split; [done|].
  assert (Hkeep : forall r' q vpn, own !! q = Some (OUser r' vpn) -> ~ (r' = r /\ npages newsz <= vpn < npages newsz + k) ->
    own_del own r (npages newsz) k !! q = Some (OUser r' vpn) /\ same_page (k_mem s) (k_mem s') q).
  { intros r' q vpn Hq Hout. split; [by apply own_del_lookup|].
    apply (um_same _ _ _ _ _ _ _ _ U); [by eapply pi_aligned, Hq; apply Hok| |congruence].
    rewrite (um_ps _ _ _ _ _ _ _ _ U). intros (v & Hq' & Hv). rewrite Hq in Hq'. injection Hq' as -> ->. by apply Hout. }
  eapply agrees_change; [exact A|apply U|..].
  - split; unfold resize; cbn [a_size a_byte].
    + apply own_del_root, H.
    + lia.
    + intros vpn Hv. destruct (h_user _ _ _ _ H vpn ltac:(lia)) as [q Hq]. exists q. apply (Hkeep r q vpn Hq). lia.
    + intros va Hva Hn. rewrite (um_pte _ _ _ _ _ _ _ _ U) by (apply H || done). case_decide as D; [done|].
      apply (h_rest _ _ _ _ H); [done|]. lia.
    + intros va Hva. rewrite (um_pte _ _ _ _ _ _ _ _ U) by (apply H || done).
      case_decide as D; [intros HV; by rewrite has_0 in HV|by apply (h_open _ _ _ _ H)].
    + intros va Hva. pose proof (page_between (npages newsz) (npages (a_size a)) va) as Hpg. fold k in Hpg. case_decide as D.
      * unfold user_byte, translate. destruct (Z.leb_spec MAXVA va); [done|].
        rewrite (um_pte _ _ _ _ _ _ _ _ U) by (apply H || lia). by rewrite decide_True by (split; [done|by apply Hpg]).
      * rewrite <- (h_byte _ _ _ _ H va Hva). apply (unmapped_byte r (npages newsz) k s own fl s' ps r va Hok U); [apply H|done|].
        intros [_ Hin]. by apply D, Hpg.
  - intros r' a' Hne _ H'. eapply private_frame; [exact H'|apply own_del_root, H'|..].
    + intros q vpn Hq. apply (Hkeep r' q vpn Hq). by intros [].
    + intros va Hva. rewrite (um_pte _ _ _ _ _ _ _ _ U) by (apply H' || done). apply decide_False. by intros [].
    + intros va Hva. apply (unmapped_byte r (npages newsz) k s own fl s' ps r' va Hok U); [apply H'|done|]. by intros [].
Qed.

Lemma guard_step r va s own fl t env : agrees s own fl t -> allowed t (Guard r va) = true ->
  step_ok t (Guard r va) s env.
Proof.
  intros A Hal. cbn [allowed] in Hal.
  apply andb_true_iff in Hal as [[[Hu Hal%Z.eqb_eq]%andb_true_iff H0%Z.leb_le]%andb_true_iff Hlt%Z.ltb_lt].
  apply in_use_spec in Hu. pose proof A as [Hok Hall]. pose proof (Hall _ _ Hu) as H. set (a := space_of t r) in *.
  pose proof (h_size _ _ _ _ H) as Hsz. set (vpn := va / PGSIZE).
  assert (Hva : va = vpn * PGSIZE) by (pose proof (Z.div_mod va PGSIZE ltac:(done)); unfold vpn, PGSIZE in *; lia).
  destruct (h_user _ _ _ _ H vpn) as [q Hq]; [apply below_npages; lia|].
  destruct (uvmclear_spec Hks r vpn q s own fl env Hok (h_root _ _ _ _ H)) as (s' & Hrun & Hok' & Hpte & Hsame); [lia|done|].
  exists 0, s', own, fl. cbn [exec_op outcome]. fold a vpn.
  split; [rewrite Hva; by rewrite (run_bind _ _ _ tt (mkWorld s' env))|]. split; [done|].
  assert (Hbyte : forall r' x, is_root own r' -> 0 <= x -> ~ (r' = r /\ x / PGSIZE = vpn) ->
    user_byte (k_mem s') r' x = user_byte (k_mem s) r' x).
  { intros r' x Hr' Hx Hout. apply (user_byte_frame s s' own fl r' x Hok Hr' Hx).
    - intros Hmax. rewrite Hpte by (done || lia). rewrite (proj1 (page_index _)). by apply decide_False.
    - intros p v Hp. apply Hsame; [by eapply pi_aligned, Hp; apply Hok|congruence]. }
  pose proof (clear_U (pte_of (k_mem s) r (vpn * PGSIZE)) (pte_at_range _ _ _ _)) as (_ & _ & _ & HU & _).
  eapply agrees_change; [exact A|exact Hok'|..].
  - split; unfold resize; cbn [a_size a_byte]; try apply H.
    + intros x Hx Hn. rewrite Hpte by (apply H || done). rewrite (proj1 (page_index _)). rewrite decide_False; [by apply (h_rest _ _ _ _ H)|].
      pose proof (below_npages va (a_size a) ltac:(lia)). unfold vpn in *. lia.
    + intros x Hx. rewrite Hpte by (apply H || done). case_decide as D; [intros _ HU'; congruence|by apply (h_open _ _ _ _ H)].
    + intros x Hx. pose proof (page_between vpn (vpn + 1) x) as Hpg. case_decide as D.
      * unfold user_byte, translate. destruct (Z.leb_spec MAXVA x); [done|].
        assert (Hp : pte_of (k_mem s') r x = Z.land (pte_of (k_mem s) r (vpn * PGSIZE)) (Z.lnot PTE_U)).
        { rewrite Hpte by (apply H || lia). rewrite (proj1 (page_index _)). apply decide_True. split; [done|]. lia. }
        by rewrite Hp, HU, andb_false_r.
      * rewrite <- (h_byte _ _ _ _ H x Hx). apply Hbyte; [apply H|done|]. intros [_ E]. apply D, Hpg. lia.
  - intros r' a' Hne _ H'. eapply private_frame; [exact H'|apply H'|done|..].
    + intros x Hx. rewrite Hpte by (apply H' || done). apply decide_False. by intros [].
    + intros x Hx. apply Hbyte; [apply H'|done|]. by intros [].
Qed.

(** Bytes have been stored into the pages of one address space. *)
Lemma stored_agrees r dst bs s own fl s' t a a' : agrees s own fl t -> t !! r = Some a ->
  stored own fl r dst bs s s' -> a_size a' = a_size a ->
  (forall va, 0 <= va -> a_byte a' va =
     if decide (dst <= va < dst + Z.of_nat (length bs)) then Some (u8 (nth (Z.to_nat (va - dst)) bs 0)) else a_byte a va) ->
  agrees s' own fl (<[r := a']> t).
Proof.
  intros A Hr S Hsize Hbyte. pose proof A as [Hok Hall]. pose proof (Hall _ _ Hr) as H.
  assert (Hpte : forall r' va, is_root own r' -> 0 <= va < MAXVA -> pte_of (k_mem s') r' va = pte_of (k_mem s) r' va)
    by (intros r' va; apply (same_pte_of s own s' r' va), S).
  eapply agrees_change; [exact A|apply S|..].
  - split; rewrite ?Hsize; try apply H.
    + intros va Hva Hn. rewrite Hpte by (apply H || done). by apply (h_rest _ _ _ _ H).
    + intros va Hva. rewrite Hpte by (apply H || done). by apply (h_open _ _ _ _ H).
    + intros va Hva. rewrite (sd_wrote S) by (apply H || done). rewrite Hbyte by done.
      rewrite <- (h_byte _ _ _ _ H va Hva). apply decide_ext. tauto.
  - intros r' b Hne _ H'. eapply private_frame; [exact H'|apply H'|done|intros va; apply Hpte, H'|].
    intros va Hva. rewrite (sd_wrote S) by (apply H' || done). apply decide_False. by intros [].
Qed.

Lemma copyout_step r va bs s own fl t env : agrees s own fl t -> allowed t (CopyOut r va bs) = true ->
  step_ok t (CopyOut r va bs) s env.
Proof.
  intros A Hal. cbn [allowed] in Hal. apply andb_true_iff in Hal as [Hu H0%Z.leb_le].
  apply in_use_spec in Hu. pose proof A as [Hok Hall]. pose proof (Hall _ _ Hu) as H. set (a := space_of t r) in *.
  destruct (copyout_fuel_spec Hks r own fl env (length bs) va bs s) as (e & k & s' & Hrun & S & He); [lia|done|apply H|done|].
  exists e, s', own, fl. cbn [exec_op outcome]. fold a. split; [done|]. split; [done|].
  assert (Hk : (k <= length bs)%nat) by (destruct He as [[_ ->]|(_ & ? & _)]; lia).
  assert (Hlen : length (take k bs) = k) by (rewrite length_take; lia).
  destruct (put_bytes_spec bs a va k Hk) as [Hs Hb].
  { intros i Hi. rewrite <- (h_byte _ _ _ _ H) by lia. unfold user_byte.
    rewrite <- (same_pte_translate s own s') by (apply S || apply H || lia).
    pose proof (sd_wrote S r (va + Z.of_nat i) (h_root _ _ _ _ H) ltac:(lia)) as Hw.
    rewrite decide_True in Hw by (rewrite Hlen; split; [done|lia]). unfold user_byte in Hw.
    destruct (translate (k_mem s') r _); [|done]. by eexists. }
  { destruct He as [[_ ->]|(_ & _ & Hn)]; [by left|right]. rewrite <- (h_byte _ _ _ _ H) by lia. unfold user_byte. by rewrite Hn. }
  eapply (stored_agrees r va (take k bs) s own fl s' t a); [exact A|exact Hu|exact S|exact Hs|].
  intros x Hx. rewrite Hb, Hlen. case_decide as D; [|done]. do 2 f_equal. rewrite !nth_lookup, lookup_take_lt by lia. done.
Qed.

Lemma store_step r va b s own fl t env : agrees s own fl t -> allowed t (Store r va b) = true ->
  step_ok t (Store r va b) s env.
Proof.
  intros A Hal. cbn [allowed] in Hal. apply andb_true_iff in Hal as [[Hu H0%Z.leb_le]%andb_true_iff Hmax%Z.ltb_lt].
  apply in_use_spec in Hu. pose proof A as [Hok Hall]. pose proof (Hall _ _ Hu) as H. set (a := space_of t r) in *.
  pose proof (sv39_translate Hks (k_mem s) own r va Sv39.Write (vo_inv _ _ _ Hok) (h_root _ _ _ _ H) ltac:(lia) (h_open _ _ _ _ H)) as Hsv.
  pose proof (h_byte _ _ _ _ H va H0) as Hbyte. unfold user_byte in Hbyte. unfold step_ok. cbn [exec_op outcome]. fold a.
  assert (Hrun : forall s', user_store r va b (mkWorld s env) = Ok tt (mkWorld s' env) ->
    (user_store r va b;; mret 0) (mkWorld s env) = Ok 0 (mkWorld s' env)) by (intros s' E; by rewrite (run_bind _ _ _ tt (mkWorld s' env))).
  destruct (translate (k_mem s) r va) as [pa|] eqn:Htr; cbn in Hbyte.
  - rewrite <- Hbyte. destruct (translate_owner _ own r va pa (vo_inv _ _ _ Hok) (h_root _ _ _ _ H) H0 Htr) as (p & Hp & ->).
    pose proof (Z.mod_pos_bound va PGSIZE ltac:(done)) as Hm.
    pose proof (store_user s own fl r p va [b] Hok (h_root _ _ _ _ H) Hp H0 Htr ltac:(cbn; lia)) as S. cbn [st_bytes] in S.
    exists 0, (set_k_mem (st8 (k_mem s) (p + va mod PGSIZE) b) s), own, fl. split; [|split; [done|]].
    + apply Hrun. unfold user_store. rewrite (run_bind _ _ _ (k_mem s) (mkWorld s env)) by done. by rewrite Hsv.
    + eapply (stored_agrees r va [b] s own fl); [exact A|exact Hu|exact S|done|]. intros x Hx. cbn [put a_byte length].
      destruct (decide (x = va)) as [->|Hne]; [by rewrite decide_True, Z.sub_diag by lia|by rewrite decide_False by lia].
  - rewrite <- Hbyte. exists 0, s, own, fl. split; [|done].
    apply Hrun. unfold user_store. rewrite (run_bind _ _ _ (k_mem s) (mkWorld s env)) by done. by rewrite Hsv.
Qed.

Lemma destroy_step r s own fl t env : agrees s own fl t -> allowed t (Destroy r) = true -> step_ok t (Destroy r) s env.
Proof.
  intros A Hal. cbn [allowed] in Hal. apply in_use_spec in Hal as Hu. pose proof A as [Hok Hall].
  pose proof (Hall _ _ Hu) as H. set (a := space_of t r) in *.
  destruct (uvmfree_spec Hks r (a_size a) s own fl env Hok (h_root _ _ _ _ H) (h_size _ _ _ _ H) (h_user _ _ _ _ H))
    as (s' & ps & Hrun & Hok' & _ & Hps & Hpte & Hsame).
  { intros va Hva Hn. rewrite (h_rest _ _ _ _ H) by done. apply has_0. }
  exists 0, s', (own_drop own r), (ps ++ fl). cbn [exec_op outcome]. fold a.
  split; [by rewrite (run_bind _ _ _ tt (mkWorld s' env))|]. split; [done|]. split; [done|].
  intros r' a' [Hne Ha']%lookup_delete_Some. pose proof (Hall _ _ Ha') as H'.
  eapply private_frame; [exact H'|..].
  - apply own_drop_lookup. split; [apply H'|done].
  - intros q vpn Hq. by apply own_drop_lookup.
  - intros va Hva. apply Hpte; [done|apply H'|done].
  - intros va Hva. apply (user_byte_frame s s' own fl r' va Hok); [apply H'|done|..].
    + intros Hlt. apply Hpte; [done|apply H'|lia].
    + intros p vpn Hp. apply Hsame; [by eapply pi_aligned, Hp; apply Hok| |congruence].
      rewrite Hps. intros (o & Ho & Hro). rewrite Hp in Ho. injection Ho as <-. done.
Qed.

Lemma op_step o s own fl t env : agrees s own fl t -> allowed t o = true -> step_ok t o s env.
Proof.
  destruct o; eauto using create_step, grow_step, shrink_step, copy_step, guard_step, copyout_step, store_step, destroy_step.
Qed.

Lemma run_vm_agrees ops : forall s own fl t env, agrees s own fl t ->
  exists t' s' own' fl', run_vm ops t (mkWorld s env) = Ok t' (mkWorld s' env) /\ agrees s' own' fl' t'.
Proof.
  induction ops as [|o ops IH]; intros s own fl t env A; cbn [run_vm].
  { by exists t, s, own, fl. }
  destruct (allowed t o) eqn:Hal; cbn [negb]; [|by eapply IH].
  destruct (op_step o s own fl t env A Hal) as (e & s' & own' & fl' & Hrun & Hnew & A').
  rewrite (run_bind _ _ _ e (mkWorld s' env)) by done.
  destruct (match o with Create => in_use t e | _ => false end) eqn:E; [|by eapply IH].
  destruct o; try done. by rewrite Hnew in E.
Qed.

End Private.

(** ** From boot on *)

Section Boot.
Context {KS : KSyms} (Hks : ksyms_ok KS).
#[local] Instance boot_allocator : PageAllocator kalloc kfree := kalloc_allocator Hks.

Lemma boot_agrees s env : k_freelist s = 0 -> LKmem ∉ k_held s ->
  exists s', kinit (mkWorld s env) = Ok tt (mkWorld s' env) /\
    agrees s' ∅ (reverse (range_pages (PGROUNDUP ksym_end) (page_count ksym_end PHYSTOP))) ∅.
Proof.
  intros Hfl Hl. destruct (kinit_run Hks s env) as (s' & Hrun & Hfl' & Hmo); [|done|].
  { split; [done|]. split; [done|]. apply NoDup_nil_2. }
  exists s'. split; [done|]. split; [|apply map_Forall_empty]. split.
  - split; intros *; rewrite lookup_empty; done.
  - exact Hfl'.
  - intros p _. apply lookup_empty.
  - by rewrite (mem_only_held _ _ Hmo).
Qed.

Lemma reached_translate s own fl t r a va k : agrees s own fl t -> t !! r = Some a -> 0 <= va < 2 ^ 64 ->
  sv39 (k_mem s) r va k = translate (k_mem s) r va.
Proof.
  intros [Hok Hall] Hr Hva. pose proof (Hall _ _ Hr) as H.
  apply (sv39_translate Hks _ own); [apply Hok|apply H|done|apply H].
Qed.

Lemma page_part p x : page_ok p -> 0 <= x < PGSIZE -> ksym_end <= p + x < PHYSTOP /\ PGROUNDDOWN (p + x) = p.
Proof.
  intros Hp Hx. pose proof (page_ok_pos Hks p Hp). destruct Hp as [Hal Hp].
  pose proof (Z.div_mod p PGSIZE ltac:(done)). split.
  - unfold PHYSTOP, KERNBASE, PGSIZE in *. lia.
  - destruct (rounddown_page (p + x) ltac:(lia)) as (_ & _ & Hmod & _). rewrite Z.add_mod, Hal in Hmod by done.
    rewrite Z.add_0_l, Zmod_mod, (Z.mod_small x) in Hmod by done. lia.
Qed.

(** C14: every sequence of operations on address spaces (creating, growing, shrinking and
    freeing them, copying one into another, clearing a page, copying out of the kernel, and
    the stores of user programs), started after [kinit], runs without a panic, and
    afterwards each address space holds its private memory: what user code reads at any
    address, as the hardware translates it, is what the operations on this address space
    alone have put there, and a page fault where they have put nothing.  [walkaddr] finds
    the page the hardware uses.  The physical address reached is RAM above the kernel,
    belongs to no free page, and is reached from no other address of this or of any other
    address space. *)
Theorem user_memory_isolated ops s env :
  k_freelist s = 0 -> LKmem ∉ k_held s ->
  exists t s' l, (kinit;; run_vm ops ∅) (mkWorld s env) = Ok t (mkWorld s' env) /\ free_list s' l /\
    forall r a va k, t !! r = Some a -> 0 <= va < 2 ^ 64 ->
      ld8 (k_mem s') <$> sv39 (k_mem s') r va k = a_byte a va /\
      (exists p, walkaddr r (PGROUNDDOWN va) (mkWorld s' env) = Ok p (mkWorld s' env) /\
         sv39 (k_mem s') r va k = if p =? 0 then None else Some (p + va mod PGSIZE)) /\
      forall pa, sv39 (k_mem s') r va k = Some pa ->
        ksym_end <= pa < PHYSTOP /\ (PGROUNDDOWN pa ∉ l) /\
        forall r' a' va' k', t !! r' = Some a' -> 0 <= va' < 2 ^ 64 ->
          sv39 (k_mem s') r' va' k' = Some pa -> r' = r /\ va' = va.
Proof.
  intros Hfl Hl. destruct (boot_agrees s env Hfl Hl) as (s0 & Hrun0 & A0).
  destruct (run_vm_agrees Hks ops s0 _ _ _ env A0) as (t & s' & own & fl & Hrun & A). pose proof A as [Hok Hall].
  exists t, s', fl. split; [by rewrite (run_bind _ _ _ tt (mkWorld s0 env))|]. split; [apply Hok|].
  intros r a va k Hr Hva. pose proof (Hall _ _ Hr) as H. rewrite (reached_translate s' own fl t r a) by done.
  split; [apply H; lia|]. split.
  { destruct (walkaddr_down Hks r va s' own fl env Hok (h_root _ _ _ _ H)) as [[Ht Hw]|(p & _ & Ht & Hp & _ & Hw)]; [lia|..].
    - by exists 0.
    - exists p. split; [done|]. by rewrite (proj2 (Z.eqb_neq p 0)) by lia. }
  intros pa Htr. destruct (translate_owner _ own r va pa (vo_inv _ _ _ Hok) (h_root _ _ _ _ H) (proj1 Hva) Htr) as (p & Hp & ->).
  destruct (page_part p (va mod PGSIZE)) as (Hram & Hpg); [by eapply (pi_page _ _ (vo_inv _ _ _ Hok))|by apply Z.mod_pos_bound|].
  split; [done|]. split.
  { rewrite Hpg. intros Hin. apply (vo_free _ _ _ Hok) in Hin. congruence. }
  intros r' a' va' k' Hr' Hva' Htr'. rewrite (reached_translate s' own fl t r' a') in Htr' by done.
  pose proof (h_root _ _ _ _ (Hall _ _ Hr')) as Hroot'.
  apply (translate_inj (k_mem s') own r' va' r va (p + va mod PGSIZE)); try done; [apply Hok|apply H|lia|lia].
Qed.

End Boot.

(** ** Two programs on the small machine *)

Lemma run_vm_cons `{KSyms} o ops t s env e s' : allowed t o = true ->
  exec_op t o (mkWorld s env) = Ok e (mkWorld s' env) -> (o = Create -> in_use t e = false) ->
  run_vm (o :: ops) t (mkWorld s env) = run_vm ops (outcome t o e) (mkWorld s' env).
Proof.
  intros Hal Hrun Hnew. cbn [run_vm]. rewrite Hal. cbn [negb]. rewrite (run_bind _ _ _ e (mkWorld s' env)) by done.
  destruct o; try done. by rewrite Hnew.
Qed.

(** The results of operations when there are pages enough. *)
Lemma demo_create t s own q fl : agrees s own (q :: fl) t -> exists s' own',
  exec_op t Create (mkWorld s []) = Ok q (mkWorld s' []) /\ in_use t q = false /\ agrees s' own' fl (outcome t Create q).
Proof.
  intros A. destruct (uvmcreate_spec demo_syms_ok s own q fl [] (proj1 A)) as (s' & Hrun & Hok & _).
  destruct (create_step demo_syms_ok s own (q :: fl) t [] A) as (e & s1 & own1 & fl1 & Hrun1 & Hnew & A1).
  cbn [exec_op] in *. rewrite Hrun in Hrun1. injection Hrun1 as <- <-. exists s', own1. split; [done|]. split; [by apply Hnew|].
  by rewrite <- (avail_fun s' fl1 fl (vo_avail _ _ _ (proj1 A1)) (vo_avail _ _ _ Hok)).
Qed.

Lemma demo_grow t s own fl r a n : agrees s own fl t -> allowed t (Grow r n) = true -> t !! r = Some a ->
  3 * (npages n - npages (a_size a)) <= Z.of_nat (length fl) -> exists s' own' fl',
  exec_op t (Grow r n) (mkWorld s []) = Ok n (mkWorld s' []) /\ agrees s' own' fl' (outcome t (Grow r n) n) /\
  Z.of_nat (length fl) <= Z.of_nat (length fl') + 3 * (npages n - npages (a_size a)).
Proof.
  intros A Hal Hr Hlen. destruct (grow_step demo_syms_ok r n s own fl t [] A Hal) as (e & s' & own' & fl' & Hrun & _ & A').
  pose proof (proj2 A _ _ Hr) as H. pose proof (h_size _ _ _ _ H) as Hsz. assert (HPG : PGSIZE = 4096) by done.
  cbn [allowed] in Hal. apply andb_true_iff in Hal as [[_ Hlo%Z.leb_le]%andb_true_iff Hhi%Z.leb_le].
  assert (E : space_of t r = a) by (unfold space_of; by rewrite Hr). cbn [exec_op] in *. rewrite E in *.
  pose proof (npages_bounds (a_size a) ltac:(lia)). pose proof (npages_max n Hhi).
  destruct (uvmalloc_spec demo_syms_ok r (a_size a) n s own fl [] (proj1 A) (h_root _ _ _ _ H)) as (e1 & s1 & own1 & fl1 & Hrun1 & Hres);
    [lia|done|intros vpn Hv; apply (h_rest _ _ _ _ H); [lia|rewrite (proj1 (page_index _)); lia]|].
  rewrite Hrun in Hrun1. injection Hrun1 as <- <-. destruct Hres as [(-> & Ad & Hl & _)|(_ & Hl & _)]; [|lia].
  exists s', own', fl'. split; [done|]. split; [done|].
  by rewrite (avail_fun s' fl' fl1 (vo_avail _ _ _ (proj1 A')) (vo_avail _ _ _ (ad_ok Ad))).
Qed.

Lemma demo_copy t s own fl old new a : agrees s own fl t -> allowed t (Copy old new) = true -> t !! old = Some a ->
  3 * npages (a_size a) <= Z.of_nat (length fl) -> exists s' own' fl',
  exec_op t (Copy old new) (mkWorld s []) = Ok 0 (mkWorld s' []) /\ agrees s' own' fl' (outcome t (Copy old new) 0).
Proof.
  intros A Hal Ho Hlen. destruct (copy_step demo_syms_ok old new s own fl t [] A Hal) as (e & s' & own' & fl' & Hrun & _ & A').
  exists s', own', fl'. cbn [allowed] in Hal.
  apply andb_true_iff in Hal as [[[_ Hn%in_use_spec]%andb_true_iff Hne%negb_true_iff%Z.eqb_neq]%andb_true_iff Hz%Z.eqb_eq].
  pose proof (proj2 A _ _ Ho) as H. pose proof (proj2 A _ _ Hn) as H'. pose proof (h_size _ _ _ _ H) as Hsz.
  pose proof (npages_max (a_size a) ltac:(lia)). assert (HPG : PGSIZE = 4096) by done.
  destruct (uvmcopy_spec demo_syms_ok old new s own fl (proj1 A) (h_root _ _ _ _ H) (h_root _ _ _ _ H') Hne (a_size a) [] Hsz (h_user _ _ _ _ H))
    as (e1 & s1 & Hrun1 & Hres).
  { intros vpn Hv. apply (h_rest _ _ _ _ H'); [lia|]. rewrite (proj1 (page_index _)), Hz. change (npages 0) with 0. lia. }
  assert (E : space_of t old = a) by (unfold space_of; by rewrite Ho). cbn [exec_op] in *. rewrite E in *.
  rewrite Hrun in Hrun1. injection Hrun1 as <- <-.
  destruct Hres as [(-> & _)|(_ & Hl & _)]; [|lia]. by split.
Qed.

(** A parent with two pages forks, and writes 9. *)
Definition demo_ops : list vmop := [Create; Create; Grow root1 8192; Copy root1 root2; Store root1 4100 9].
Definition demo_table : spaces :=
  foldl (fun t oe => outcome t oe.1 oe.2) ∅ (zip demo_ops [root1; root2; 8192; 0; 0]).

Lemma demo_run : exists s', (kinit;; run_vm demo_ops ∅) (mkWorld kst0 []) = Ok demo_table (mkWorld s' []).
Proof.
  destruct (boot_agrees demo_syms_ok kst0 []) as (s0 & Hrun0 & A0); [done|apply not_elem_of_nil|].
  rewrite (run_bind _ _ _ tt (mkWorld s0 [])) by done. unfold demo_table, demo_ops. cbn [zip zip_with foldl fst snd].
  destruct (demo_create ∅ s0 ∅ root1 (root2 :: pages [3;4;5;6;7;8;9;10;11;12;13;14;15;16]) A0) as (s1 & own1 & Hrun1 & Hnew1 & A1).
  rewrite (run_vm_cons _ _ _ _ _ root1 s1) by done.
  destruct (demo_create _ s1 own1 root2 _ A1) as (s2 & own2 & Hrun2 & Hnew2 & A2).
  rewrite (run_vm_cons _ _ _ _ _ root2 s2) by done. set (t2 := outcome _ Create root2) in *.
  destruct (demo_grow t2 s2 own2 _ root1 (mkSpace 0 (fun _ => None)) 8192 A2) as (s3 & own3 & fl3 & Hrun3 & A3 & Hl3);
    [done|done|by vm_compute|].
  rewrite (run_vm_cons _ _ _ _ _ 8192 s3) by done. set (t3 := outcome t2 _ 8192) in *.
  destruct (demo_copy t3 s3 own3 fl3 root1 root2 (space_of t3 root1) A3) as (s4 & own4 & fl4 & Hrun4 & A4); [done|done|..].
  { change (npages (a_size (space_of t3 root1))) with 2. change (npages 8192) with 2 in Hl3. change (npages _) with 0 in Hl3.
    change (length _) with 14%nat in Hl3 at 1. lia. }
  rewrite (run_vm_cons _ _ _ _ _ 0 s4) by done. set (t4 := outcome t3 _ 0) in *.
  destruct (store_step demo_syms_ok root1 4100 9 s4 own4 fl4 t4 [] A4) as (e & s5 & own5 & fl5 & Hrun5 & _); [done|].
  rewrite (run_vm_cons _ _ _ _ _ e s5) by done. by exists s5.
Qed.

(** After the fork the parent reads 9 and the child still 0. *)
Lemma user_memory_isolated_witness : exists s', (kinit;; run_vm demo_ops ∅) (mkWorld kst0 []) = Ok demo_table (mkWorld s' []) /\
  ld8 (k_mem s') <$> sv39 (k_mem s') root1 4100 Sv39.Read = Some 9 /\
  ld8 (k_mem s') <$> sv39 (k_mem s') root2 4100 Sv39.Read = Some 0.
Proof.
  destruct demo_run as (s & Hrun).
  destruct (user_memory_isolated demo_syms_ok demo_ops kst0 []) as (t & s' & l & Hrun' & _ & H);
    [reflexivity|apply not_elem_of_nil|].
  rewrite Hrun in Hrun'. injection Hrun' as <- <-. exists s. split; [exact Hrun|]. split.
  - destruct (H root1 (space_of demo_table root1) 4100 Sv39.Read) as [-> _]; [reflexivity|lia|vm_compute; reflexivity].
  - destruct (H root2 (space_of demo_table root2) 4100 Sv39.Read) as [-> _]; [reflexivity|lia|vm_compute; reflexivity].
Defined.
