(* ===== verification/Bio.v ===== *)
(** * Buffer cache (kernel/bio.c)

    [k_bufs] holds the [NBUF] buffers and, in slot [NBUF], the list head
    [bcache.head]; [b_prev] and [b_next] are the links of the LRU list.  The disk is
    [k_disk]; [virtio_disk_rw] is the contract of the disk driver as its caller sees it: one
    step that moves one block between the buffer and the disk, and records each write.  What
    happens while the caller sleeps is not in this file: Virtio.v models the driver, with the
    other processes, the device and its errors, and VirtioTheorems.v proves that each call
    that returns has taken the step of the contract once, between its start and its return. *)

From stdpp Require Import base gmap list strings.
From Stdlib Require Import ZArith Lia.
From S2P Require Import Prelude Riscv Memory State Spinlock Sched.

Definition BSIZE : Z := 1024.
Definition bsize : nat := Z.to_nat BSIZE.

Definition bhead : nat := NBUF.
Definition get_buf (b : nat) (s : kst) : buf := k_bufs s !!! b.
Definition buf_of (b : nat) : K buf := kgets (get_buf b).
Definition buf_upd (b : nat) (f : buf -> buf) : K unit :=
  kmodify (fun s => set_k_bufs (alter f b (k_bufs s)) s).

(** A block that was never written reads as zeroes. *)
Definition disk_block (d : gmap Z (list Z)) (bno : Z) : list Z :=
  default (replicate bsize 0) (d !! bno).

Definition virtio_disk_rw (b : nat) (write : bool) : K unit :=
  bf ← buf_of b;
  if write then
    kmodify (fun s => set_k_dtrace ((b_blockno bf, b_data bf) :: k_dtrace s)
                        (set_k_disk (<[b_blockno bf := b_data bf]> (k_disk s)) s))
  else
    d ← kgets k_disk;
    buf_upd b (set_b_data (disk_block d (b_blockno bf))).

Definition binit : K unit :=
  buf_upd bhead (set_b_prev bhead);;
  buf_upd bhead (set_b_next bhead);;
  for_each (seq 0 NBUF) (fun b =>
    h ← buf_of bhead;
    buf_upd b (set_b_next (b_next h));;
    buf_upd b (set_b_prev bhead);;
    initsleeplock (SlBuf b);;
    h ← buf_of bhead;
    buf_upd (b_next h) (set_b_prev b);;
    buf_upd bhead (set_b_next b)).

(** The first loop of [bget]: follow [next] from [b] to the head. *)
Fixpoint bget_cached (fuel : nat) (b : nat) (dev blockno : Z) : K (option nat) :=
  match fuel with
  | O => block
  | S fuel =>
      if bool_decide (b = bhead) then mret None else
      bf ← buf_of b;
      if (b_dev bf =? dev) && (b_blockno bf =? blockno) then mret (Some b)
      else bget_cached fuel (b_next bf) dev blockno
  end.

(** The second loop: follow [prev] to the least recently used unused buffer. *)
Fixpoint bget_unused (fuel : nat) (b : nat) : K (option nat) :=
  match fuel with
  | O => block
  | S fuel =>
      if bool_decide (b = bhead) then mret None else
      bf ← buf_of b;
      if b_refcnt bf =? 0 then mret (Some b)
      else bget_unused fuel (b_prev bf)
  end.

(** Each loop visits at most the [NBUF] buffers and the head. *)
Definition bget (dev blockno : Z) : K nat :=
  acquire LBcache;;
  h ← buf_of bhead;
  hit ← bget_cached (S NBUF) (b_next h) dev blockno;
  match hit with
  | Some b =>
      buf_upd b (fun x => set_b_refcnt (u32 (b_refcnt x + 1)) x);;
      release LBcache;;
      acquiresleep (SlBuf b);;
      mret b
  | None =>
      h ← buf_of bhead;
      free ← bget_unused (S NBUF) (b_prev h);
      match free with
      | Some b =>
          buf_upd b (set_b_dev dev);;
          buf_upd b (set_b_blockno blockno);;
          buf_upd b (set_b_valid 0);;
          buf_upd b (set_b_refcnt 1);;
          release LBcache;;
          acquiresleep (SlBuf b);;
          mret b
      | None => panic "bget: no buffers"
      end
  end.

(** Return a locked buf with the contents of the indicated block. *)
Definition bread (dev blockno : Z) : K nat :=
  b ← bget dev blockno;
  bf ← buf_of b;
  when (b_valid bf =? 0)
    (virtio_disk_rw b false;; buf_upd b (set_b_valid 1));;
  mret b.

Definition bwrite (b : nat) : K unit :=
  h ← holdingsleep (SlBuf b);
  if negb h then panic "bwrite" else virtio_disk_rw b true.

(** Release a locked buffer; move it to the head of the most-recently-used list. *)
Definition brelse (b : nat) : K unit :=
  h ← holdingsleep (SlBuf b);
  if negb h then panic "brelse" else
  releasesleep (SlBuf b);;
  acquire LBcache;;
  buf_upd b (fun x => set_b_refcnt (u32 (b_refcnt x - 1)) x);;
  bf ← buf_of b;
  when (b_refcnt bf =? 0) (
    buf_upd (b_next bf) (set_b_prev (b_prev bf));;
    buf_upd (b_prev bf) (set_b_next (b_next bf));;
    h ← buf_of bhead;
    buf_upd b (set_b_next (b_next h));;
    buf_upd b (set_b_prev bhead);;
    h ← buf_of bhead;
    buf_upd (b_next h) (set_b_prev b);;
    buf_upd bhead (set_b_next b));;
  release LBcache.

Definition bpin (b : nat) : K unit :=
  acquire LBcache;;
  buf_upd b (fun x => set_b_refcnt (u32 (b_refcnt x + 1)) x);;
  release LBcache.

Definition bunpin (b : nat) : K unit :=
  acquire LBcache;;
  buf_upd b (fun x => set_b_refcnt (u32 (b_refcnt x - 1)) x);;
  release LBcache.
