(* ===== verification/Virtio.v ===== *)
(** * The disk driver (kernel/virtio_disk.c, kernel/virtio.h)

    The driver and the device share the descriptor table and two rings in memory.  A
    call of [virtio_disk_rw] allocates three descriptors, describes the transfer in them,
    publishes their head in the avail ring and sleeps; the device takes heads from that
    ring, transfers the data, writes a status byte and returns the head in the used ring;
    [virtio_disk_intr] reads the used ring and wakes the callers.

    [vst] is the memory the two share, the driver's own variables, the buffers, and for
    each process the point of [virtio_disk_rw] at which it is ([pc]).  Code between two
    points at which the vdisk_lock is free, or at which the device can see a difference,
    is one action ([exec]); [vstep] interleaves the actions of any number of processes,
    the interrupt handler, the device and the owners of the buffers.  The device is a
    parameter; [device_spec] says what the virtio specification (sections 2.6 and 5.2)
    promises of it.

    Steps carry events: the calls and returns of [virtio_disk_rw], the changes the owners
    of the buffers make, wakeups by something else, the errors the device reports.

    The theorems: every execution of the system is one of the contract [virtio_disk_rw] of
    Bio.v, on which the buffer cache is built, with the same events; the driver panics only
    when the device has reported an error, and never indexes an array out of range; no
    completion is lost; and no call under way is ever stuck. *)

From stdpp Require Import base functions gmap list strings.
From Stdlib Require Import ZArith Lia.
From S2P Require Import Prelude Riscv Memory State Spinlock Sched Bio.

(** ** The structures of virtio.h *)

Definition NUM : Z := 8.
Definition VRING_DESC_F_NEXT : Z := 1.
Definition VRING_DESC_F_WRITE : Z := 2.
Definition VIRTIO_BLK_T_IN : Z := 0.
Definition VIRTIO_BLK_T_OUT : Z := 1.

(** The addresses the driver gives to the device: a command header, the data of a buffer,
    a status byte, or none. *)
Inductive daddr := ANull | AOps (i : Z) | AData (b : nat) | AStatus (i : Z).

Record virtq_desc := mkDesc { d_addr : daddr; d_len : Z; d_flags : Z; d_next : Z }.
Definition set_d_flags (x : Z) (d : virtq_desc) : virtq_desc :=
  mkDesc (d_addr d) (d_len d) x (d_next d).

Record virtio_blk_req := mkReq { r_type : Z; r_reserved : Z; r_sector : Z }.

(** The fields of struct buf the driver uses. *)
Record dbuf := mkDbuf { db_blockno : Z; db_data : list Z; db_disk : Z }.
Definition set_db_data (x : list Z) (b : dbuf) : dbuf := mkDbuf (db_blockno b) x (db_disk b).
Definition set_db_disk (x : Z) (b : dbuf) : dbuf := mkDbuf (db_blockno b) (db_data b) x.

(** Who can hold the vdisk_lock. *)
Inductive thread := TProc (p : nat) | TIntr.

(** Where a process is in [virtio_disk_rw(b, write)]; [h] is idx[0].
    - [Want]: about to acquire the lock and look for descriptors
    - [SleepFree]: asleep on &disk.free[0]
    - [Ready]: the request is written to the ring, not yet published; holds the lock
    - [SleepBuf]: asleep on b
    - [Woken]: woken up, about to acquire the lock and look at b->disk *)
Inductive pc :=
| Idle
| Want (b : nat) (w : bool)
| SleepFree (b : nat) (w : bool)
| Ready (h : Z) (b : nat) (w : bool)
| SleepBuf (h : Z) (b : nat) (w : bool)
| Woken (h : Z) (b : nat) (w : bool).

Record vst := mkVst {
  v_desc : Z -> virtq_desc;  (* disk.desc *)
  v_avail_idx : Z;  (* disk.avail->idx *)
  v_avail_ring : Z -> Z;  (* disk.avail->ring *)
  v_used_idx : Z;  (* disk.used->idx *)
  v_used_ring : Z -> Z;  (* disk.used->ring[].id *)
  v_free : Z -> Z;  (* disk.free *)
  v_seen : Z;  (* disk.used_idx *)
  v_info_b : Z -> option nat;  (* disk.info[].b *)
  v_info_status : Z -> Z;  (* disk.info[].status *)
  v_ops : Z -> virtio_blk_req;  (* disk.ops *)
  v_lock : option thread;  (* holder of disk.vdisk_lock *)
  v_mmio : list (Z * Z);  (* writes to the device's registers, latest first *)
  v_bufs : nat -> dbuf;  (* struct buf *)
  v_pc : nat -> pc;  (* where each process is in virtio_disk_rw *)
  v_disk : Z -> Z;  (* device: the bytes of the disk *)
  v_last : Z;  (* device: next entry of the avail ring *)
  v_pending : list Z  (* device: requests taken, not finished *)
}.

Definition set_v_desc (x : Z -> virtq_desc) (s : vst) : vst :=
  mkVst x (v_avail_idx s) (v_avail_ring s) (v_used_idx s) (v_used_ring s) (v_free s)
    (v_seen s) (v_info_b s) (v_info_status s) (v_ops s) (v_lock s) (v_mmio s) (v_bufs s)
    (v_pc s) (v_disk s) (v_last s) (v_pending s).
Definition set_v_avail_idx (x : Z) (s : vst) : vst :=
  mkVst (v_desc s) x (v_avail_ring s) (v_used_idx s) (v_used_ring s) (v_free s) (v_seen
    s) (v_info_b s) (v_info_status s) (v_ops s) (v_lock s) (v_mmio s) (v_bufs s) (v_pc
    s) (v_disk s) (v_last s) (v_pending s).
Definition set_v_avail_ring (x : Z -> Z) (s : vst) : vst :=
  mkVst (v_desc s) (v_avail_idx s) x (v_used_idx s) (v_used_ring s) (v_free s) (v_seen
    s) (v_info_b s) (v_info_status s) (v_ops s) (v_lock s) (v_mmio s) (v_bufs s) (v_pc
    s) (v_disk s) (v_last s) (v_pending s).
Definition set_v_used_idx (x : Z) (s : vst) : vst :=
  mkVst (v_desc s) (v_avail_idx s) (v_avail_ring s) x (v_used_ring s) (v_free s) (v_seen
    s) (v_info_b s) (v_info_status s) (v_ops s) (v_lock s) (v_mmio s) (v_bufs s) (v_pc
    s) (v_disk s) (v_last s) (v_pending s).
Definition set_v_used_ring (x : Z -> Z) (s : vst) : vst :=
  mkVst (v_desc s) (v_avail_idx s) (v_avail_ring s) (v_used_idx s) x (v_free s) (v_seen
    s) (v_info_b s) (v_info_status s) (v_ops s) (v_lock s) (v_mmio s) (v_bufs s) (v_pc
    s) (v_disk s) (v_last s) (v_pending s).
Definition set_v_free (x : Z -> Z) (s : vst) : vst :=
  mkVst (v_desc s) (v_avail_idx s) (v_avail_ring s) (v_used_idx s) (v_used_ring s) x
    (v_seen s) (v_info_b s) (v_info_status s) (v_ops s) (v_lock s) (v_mmio s) (v_bufs s)
    (v_pc s) (v_disk s) (v_last s) (v_pending s).
Definition set_v_seen (x : Z) (s : vst) : vst :=
  mkVst (v_desc s) (v_avail_idx s) (v_avail_ring s) (v_used_idx s) (v_used_ring s)
    (v_free s) x (v_info_b s) (v_info_status s) (v_ops s) (v_lock s) (v_mmio s) (v_bufs
    s) (v_pc s) (v_disk s) (v_last s) (v_pending s).
Definition set_v_info_b (x : Z -> option nat) (s : vst) : vst :=
  mkVst (v_desc s) (v_avail_idx s) (v_avail_ring s) (v_used_idx s) (v_used_ring s)
    (v_free s) (v_seen s) x (v_info_status s) (v_ops s) (v_lock s) (v_mmio s) (v_bufs s)
    (v_pc s) (v_disk s) (v_last s) (v_pending s).
Definition set_v_info_status (x : Z -> Z) (s : vst) : vst :=
  mkVst (v_desc s) (v_avail_idx s) (v_avail_ring s) (v_used_idx s) (v_used_ring s)
    (v_free s) (v_seen s) (v_info_b s) x (v_ops s) (v_lock s) (v_mmio s) (v_bufs s)
    (v_pc s) (v_disk s) (v_last s) (v_pending s).
Definition set_v_ops (x : Z -> virtio_blk_req) (s : vst) : vst :=
  mkVst (v_desc s) (v_avail_idx s) (v_avail_ring s) (v_used_idx s) (v_used_ring s)
    (v_free s) (v_seen s) (v_info_b s) (v_info_status s) x (v_lock s) (v_mmio s) (v_bufs
    s) (v_pc s) (v_disk s) (v_last s) (v_pending s).
Definition set_v_lock (x : option thread) (s : vst) : vst :=
  mkVst (v_desc s) (v_avail_idx s) (v_avail_ring s) (v_used_idx s) (v_used_ring s)
    (v_free s) (v_seen s) (v_info_b s) (v_info_status s) (v_ops s) x (v_mmio s) (v_bufs
    s) (v_pc s) (v_disk s) (v_last s) (v_pending s).
Definition set_v_mmio (x : list (Z * Z)) (s : vst) : vst :=
  mkVst (v_desc s) (v_avail_idx s) (v_avail_ring s) (v_used_idx s) (v_used_ring s)
    (v_free s) (v_seen s) (v_info_b s) (v_info_status s) (v_ops s) (v_lock s) x (v_bufs
    s) (v_pc s) (v_disk s) (v_last s) (v_pending s).
Definition set_v_bufs (x : nat -> dbuf) (s : vst) : vst :=
  mkVst (v_desc s) (v_avail_idx s) (v_avail_ring s) (v_used_idx s) (v_used_ring s)
    (v_free s) (v_seen s) (v_info_b s) (v_info_status s) (v_ops s) (v_lock s) (v_mmio s)
    x (v_pc s) (v_disk s) (v_last s) (v_pending s).
Definition set_v_pc (x : nat -> pc) (s : vst) : vst :=
  mkVst (v_desc s) (v_avail_idx s) (v_avail_ring s) (v_used_idx s) (v_used_ring s)
    (v_free s) (v_seen s) (v_info_b s) (v_info_status s) (v_ops s) (v_lock s) (v_mmio s)
    (v_bufs s) x (v_disk s) (v_last s) (v_pending s).
Definition set_v_disk (x : Z -> Z) (s : vst) : vst :=
  mkVst (v_desc s) (v_avail_idx s) (v_avail_ring s) (v_used_idx s) (v_used_ring s)
    (v_free s) (v_seen s) (v_info_b s) (v_info_status s) (v_ops s) (v_lock s) (v_mmio s)
    (v_bufs s) (v_pc s) x (v_last s) (v_pending s).
Definition set_v_last (x : Z) (s : vst) : vst :=
  mkVst (v_desc s) (v_avail_idx s) (v_avail_ring s) (v_used_idx s) (v_used_ring s)
    (v_free s) (v_seen s) (v_info_b s) (v_info_status s) (v_ops s) (v_lock s) (v_mmio s)
    (v_bufs s) (v_pc s) (v_disk s) x (v_pending s).
Definition set_v_pending (x : list Z) (s : vst) : vst :=
  mkVst (v_desc s) (v_avail_idx s) (v_avail_ring s) (v_used_idx s) (v_used_ring s)
    (v_free s) (v_seen s) (v_info_b s) (v_info_status s) (v_ops s) (v_lock s) (v_mmio s)
    (v_bufs s) (v_pc s) (v_disk s) (v_last s) x.

(** Memory before the kernel runs: globals are zero, and so is the device. *)
Definition zero_desc : virtq_desc := mkDesc ANull 0 0 0.

Definition upd {I A} `{EqDecision I} (i : I) (x : A) (f : I -> A) : I -> A := <[i := x]> f.

(** ** Primitives of the kernel the driver calls *)

Definition V := M vst.

(** [sleep] and [wakeup] on the two kinds of channel the driver uses. *)
Definition wakeup_free : V unit :=
  modify (fun s => set_v_pc (fun p =>
    match v_pc s p with SleepFree b w => Want b w | c => c end) s).

Definition wakeup_buf (b : nat) : V unit :=
  modify (fun s => set_v_pc (fun p =>
    match v_pc s p with
    | SleepBuf h b' w => if decide (b' = b) then Woken h b' w else SleepBuf h b' w
    | c => c
    end) s).

Definition acquire_vdisk (t : thread) : V unit :=
  l ← gets v_lock;
  match l with
  | None => modify (set_v_lock (Some t))
  | Some _ => block
  end.

Definition release_vdisk : V unit := modify (set_v_lock None).

(** An array of NUM elements is indexed with [i]. *)
Definition in_array (i : Z) : V unit :=
  if (0 <=? i) && (i <? NUM) then mret tt else panic "index out of bounds".

Definition set_pc (p : nat) (c : pc) : V unit := modify (fun s => set_v_pc (upd p c (v_pc s)) s).
Definition set_desc (i : Z) (f : virtq_desc -> virtq_desc) : V unit :=
  modify (fun s => set_v_desc (upd i (f (v_desc s i)) (v_desc s)) s).
Definition set_free (i : Z) (x : Z) : V unit :=
  modify (fun s => set_v_free (upd i x (v_free s)) s).
Definition set_status (i : Z) (x : Z) : V unit :=
  modify (fun s => set_v_info_status (upd i x (v_info_status s)) s).
Definition set_info_b (i : Z) (x : option nat) : V unit :=
  modify (fun s => set_v_info_b (upd i x (v_info_b s)) s).
Definition set_ops (i : Z) (x : virtio_blk_req) : V unit :=
  modify (fun s => set_v_ops (upd i x (v_ops s)) s).
Definition set_buf (b : nat) (f : dbuf -> dbuf) : V unit :=
  modify (fun s => set_v_bufs (upd b (f (v_bufs s b)) (v_bufs s)) s).

(** ** Initialisation *)

Definition VIRTIO_MMIO_MAGIC_VALUE : Z := 0x000.
Definition VIRTIO_MMIO_VERSION : Z := 0x004.
Definition VIRTIO_MMIO_DEVICE_ID : Z := 0x008.
Definition VIRTIO_MMIO_VENDOR_ID : Z := 0x00c.
Definition VIRTIO_MMIO_DEVICE_FEATURES : Z := 0x010.
Definition VIRTIO_MMIO_DRIVER_FEATURES : Z := 0x020.
Definition VIRTIO_MMIO_GUEST_PAGE_SIZE : Z := 0x028.
Definition VIRTIO_MMIO_QUEUE_SEL : Z := 0x030.
Definition VIRTIO_MMIO_QUEUE_NUM_MAX : Z := 0x034.
Definition VIRTIO_MMIO_QUEUE_NUM : Z := 0x038.
Definition VIRTIO_MMIO_QUEUE_PFN : Z := 0x040.
Definition VIRTIO_MMIO_QUEUE_NOTIFY : Z := 0x050.
Definition VIRTIO_MMIO_INTERRUPT_STATUS : Z := 0x060.
Definition VIRTIO_MMIO_INTERRUPT_ACK : Z := 0x064.
Definition VIRTIO_MMIO_STATUS : Z := 0x070.
Definition VIRTIO_CONFIG_S_ACKNOWLEDGE : Z := 1.
Definition VIRTIO_CONFIG_S_DRIVER : Z := 2.
Definition VIRTIO_CONFIG_S_DRIVER_OK : Z := 4.
Definition VIRTIO_CONFIG_S_FEATURES_OK : Z := 8.
Definition VIRTIO_BLK_F_RO : Z := 5.
Definition VIRTIO_BLK_F_SCSI : Z := 7.
Definition VIRTIO_BLK_F_CONFIG_WCE : Z := 11.
Definition VIRTIO_BLK_F_MQ : Z := 12.
Definition VIRTIO_F_ANY_LAYOUT : Z := 27.
Definition VIRTIO_RING_F_INDIRECT_DESC : Z := 28.
Definition VIRTIO_RING_F_EVENT_IDX : Z := 29.

Definition write_reg (r v : Z) : V unit :=
  modify (fun s => set_v_mmio ((r, u32 v) :: v_mmio s) s).

(** [features &= ~(1 << n)] *)
Definition without (features n : Z) : Z := Z.land features (Z.lnot (Z.shiftl 1 n)).

(** memset(disk.pages, 0, sizeof(disk.pages)): the descriptors and both rings. *)
Definition clear_pages : V unit :=
  modify (set_v_desc (fun _ => zero_desc));;
  modify (set_v_avail_idx 0);;
  modify (set_v_avail_ring (fun _ => 0));;
  modify (set_v_used_idx 0);;
  modify (set_v_used_ring (fun _ => 0)).

(** [reg r] is what a read of register [r] gives, [pages] the address of disk.pages. *)
Definition virtio_disk_init (reg : Z -> Z) (pages : Z) : V unit :=
  modify (set_v_lock None);;
  if negb (reg VIRTIO_MMIO_MAGIC_VALUE =? 0x74726976) ||
     negb (reg VIRTIO_MMIO_VERSION =? 1) ||
     negb (reg VIRTIO_MMIO_DEVICE_ID =? 2) ||
     negb (reg VIRTIO_MMIO_VENDOR_ID =? 0x554d4551)
  then panic "could not find virtio disk" else
  let status := Z.lor 0 VIRTIO_CONFIG_S_ACKNOWLEDGE in
  write_reg VIRTIO_MMIO_STATUS status;;
  let status := Z.lor status VIRTIO_CONFIG_S_DRIVER in
  write_reg VIRTIO_MMIO_STATUS status;;
  let features := reg VIRTIO_MMIO_DEVICE_FEATURES in
  let features := without features VIRTIO_BLK_F_RO in
  let features := without features VIRTIO_BLK_F_SCSI in
  let features := without features VIRTIO_BLK_F_CONFIG_WCE in
  let features := without features VIRTIO_BLK_F_MQ in
  let features := without features VIRTIO_F_ANY_LAYOUT in
  let features := without features VIRTIO_RING_F_EVENT_IDX in
  let features := without features VIRTIO_RING_F_INDIRECT_DESC in
  write_reg VIRTIO_MMIO_DRIVER_FEATURES features;;
  let status := Z.lor status VIRTIO_CONFIG_S_FEATURES_OK in
  write_reg VIRTIO_MMIO_STATUS status;;
  let status := Z.lor status VIRTIO_CONFIG_S_DRIVER_OK in
  write_reg VIRTIO_MMIO_STATUS status;;
  write_reg VIRTIO_MMIO_GUEST_PAGE_SIZE PGSIZE;;
  write_reg VIRTIO_MMIO_QUEUE_SEL 0;;
  let max := reg VIRTIO_MMIO_QUEUE_NUM_MAX in
  if max =? 0 then panic "virtio disk has no queue 0" else
  if max <? NUM then panic "virtio disk max queue too short" else
  write_reg VIRTIO_MMIO_QUEUE_NUM NUM;;
  clear_pages;;
  write_reg VIRTIO_MMIO_QUEUE_PFN (Z.shiftr pages PGSHIFT);;
  for_each (seqZ 0 NUM) (fun i => set_free i 1).

(** ** Descriptors *)

Definition alloc_desc : V Z :=
  r ← for_until (seqZ 0 NUM) (fun i =>
    f ← gets (fun s => v_free s i);
    if negb (f =? 0) then set_free i 0;; mret (Some i) else mret None);
  mret (default (-1) r).

Definition free_desc (i : Z) : V unit :=
  if NUM <=? i then panic "free_desc 1" else
  in_array i;;
  f ← gets (fun s => v_free s i);
  if negb (f =? 0) then panic "free_desc 2" else
  set_desc i (fun _ => zero_desc);;
  set_free i 1;;
  wakeup_free.

(** Each turn frees a descriptor that was not free: NUM turns at most. *)
Fixpoint free_chain_loop (fuel : nat) (i : Z) : V unit :=
  match fuel with
  | O => block
  | S fuel =>
      in_array i;;
      d ← gets (fun s => v_desc s i);
      let flag := d_flags d in
      let nxt := d_next d in
      free_desc i;;
      if negb (Z.land flag VRING_DESC_F_NEXT =? 0) then free_chain_loop fuel nxt else mret tt
  end.

Definition free_chain (i : Z) : V unit := free_chain_loop (Z.to_nat NUM) i.

(** The loop with [n] turns to go; [idx] are the descriptors allocated so far. *)
Fixpoint alloc3_loop (n : nat) (idx : list Z) : V (option (list Z)) :=
  match n with
  | O => mret (Some idx)
  | S n =>
      i ← alloc_desc;
      if i <? 0 then for_each idx free_desc;; mret None
      else alloc3_loop n (idx ++ [i])
  end.

Definition alloc3_desc : V (option (list Z)) := alloc3_loop 3 [].

(** ** Transfers *)

(** Format the three descriptors of a request and write its head to the avail ring. *)
Definition format_request (idx0 idx1 idx2 : Z) (b : nat) (write : bool) : V unit :=
  bf ← gets (fun s => v_bufs s b);
  let sector := u32 (db_blockno bf * (BSIZE / 512)) in
  set_ops idx0 (mkReq (if write then VIRTIO_BLK_T_OUT else VIRTIO_BLK_T_IN) 0 sector);;
  set_desc idx0 (fun _ => mkDesc (AOps idx0) 16 VRING_DESC_F_NEXT idx1);;
  set_desc idx1 (fun d => mkDesc (AData b) BSIZE (if write then 0 else VRING_DESC_F_WRITE) (d_next d));;
  set_desc idx1 (fun d => mkDesc (d_addr d) (d_len d) (Z.lor (d_flags d) VRING_DESC_F_NEXT) idx2);;
  set_status idx0 0xff;;
  set_desc idx2 (fun _ => mkDesc (AStatus idx0) 1 VRING_DESC_F_WRITE 0);;
  set_buf b (set_db_disk 1);;
  set_info_b idx0 (Some b);;
  modify (fun s => set_v_avail_ring (upd (v_avail_idx s mod NUM) idx0 (v_avail_ring s)) s).

(** From [acquire] to the ring entry: look for descriptors, or sleep until some are freed. *)
Definition rw_alloc (p : nat) (b : nat) (write : bool) : V unit :=
  acquire_vdisk (TProc p);;
  r ← alloc3_desc;
  match r with
  | Some [idx0; idx1; idx2] =>
      format_request idx0 idx1 idx2 b write;;
      set_pc p (Ready idx0 b write)
  | _ => set_pc p (SleepFree b write);; release_vdisk
  end.

(** The loop that waits for [virtio_disk_intr], one turn, and the end of the call. *)
Definition rw_wait (p : nat) (h : Z) (b : nat) (write : bool) : V unit :=
  d ← gets (fun s => db_disk (v_bufs s b));
  if d =? 1 then set_pc p (SleepBuf h b write);; release_vdisk
  else
    set_info_b h None;;
    free_chain h;;
    release_vdisk;;
    set_pc p Idle.

(** Publish the ring entry, notify the device, and wait. *)
Definition rw_publish (p : nat) (h : Z) (b : nat) (write : bool) : V unit :=
  modify (fun s => set_v_avail_idx (u16 (v_avail_idx s + 1)) s);;
  write_reg VIRTIO_MMIO_QUEUE_NOTIFY 0;;
  rw_wait p h b write.

(** ** Interrupts *)

Definition intr_enter (status : Z) : V unit :=
  acquire_vdisk TIntr;;
  write_reg VIRTIO_MMIO_INTERRUPT_ACK (Z.land status 0x3).

(** The body of the loop of [virtio_disk_intr]. *)
Definition intr_turn : V unit :=
  seen ← gets v_seen;
  id ← gets (fun s => v_used_ring s (seen mod NUM));
  in_array id;;
  st ← gets (fun s => v_info_status s id);
  if negb (st =? 0) then panic "virtio_disk_intr status" else
  ob ← gets (fun s => v_info_b s id);
  match ob with
  | None => panic "null pointer"
  | Some b =>
      set_buf b (set_db_disk 0);;
      wakeup_buf b;;
      modify (fun s => set_v_seen (u16 (v_seen s + 1)) s)
  end.

(** One test of the loop's condition, and what follows. *)
Definition intr_loop : V unit :=
  seen ← gets v_seen;
  used ← gets v_used_idx;
  if negb (seen =? used) then intr_turn else release_vdisk.

(** ** Actions *)

Inductive action :=
| Call (p : nat) (b : nat) (w : bool)  (* virtio_disk_rw(b, w) is called by p *)
| Run (p : nat)                        (* p goes on *)
| Spurious (p : nat)                   (* p is woken by something else, as kill does *)
| IntrEnter (status : Z)
| IntrLoop.

Definition exec (a : action) : V unit :=
  match a with
  | Call p b w =>
      c ← gets (fun s => v_pc s p);
      match c with Idle => set_pc p (Want b w) | _ => block end
  | Run p =>
      c ← gets (fun s => v_pc s p);
      match c with
      | Want b w => rw_alloc p b w
      | Ready h b w => rw_publish p h b w
      | Woken h b w => acquire_vdisk (TProc p);; rw_wait p h b w
      | _ => block
      end
  | Spurious p =>
      c ← gets (fun s => v_pc s p);
      match c with
      | SleepFree b w => set_pc p (Want b w)
      | SleepBuf h b w => set_pc p (Woken h b w)
      | _ => block
      end
  | IntrEnter status => intr_enter status
  | IntrLoop =>
      l ← gets v_lock;
      match l with Some TIntr => intr_loop | _ => block end
  end.

(** ** The device *)

Definition disk_bytes (d : Z -> Z) (off len : Z) : list Z := (fun i => d (off + i)) <$> seqZ 0 len.

Definition disk_store (d : Z -> Z) (off : Z) (l : list Z) : Z -> Z :=
  fun o => if (off <=? o) && (o <? off + Z.of_nat (length l)) then l !!! Z.to_nat (o - off) else d o.

Definition has_flag (d : virtq_desc) (f : Z) : bool := negb (Z.land (d_flags d) f =? 0).

(** The device looks at the next entry of the avail ring. *)
Definition dev_take (s : vst) : vst :=
  set_v_last (u16 (v_last s + 1))
    (set_v_pending (v_pending s ++ [v_avail_ring s (v_last s mod NUM)]) s).

(** How a request ends: with its transfer and a status of 0, or with one of the error
    statuses of section 5.2.6, VIRTIO_BLK_S_IOERR (1) and VIRTIO_BLK_S_UNSUPP (2).  Nothing is
    known of the data of a request that failed: [junk] is what it leaves in the block, or in
    the buffer. *)
Inductive outcome := Success | Failure (status : Z) (junk : list Z).

Definition status_of (o : outcome) : Z := match o with Success => 0 | Failure st _ => st end.
Definition bytes_of (o : outcome) (l : list Z) : list Z :=
  match o with Success => l | Failure _ junk => junk end.
Definition documented (o : outcome) : Prop :=
  match o with Success => True | Failure st junk => (st = 1 \/ st = 2) /\ length junk = bsize end.

(** Section 5.2.6 of the specification: a request is a header, a data buffer and a status
    byte.  The header names the direction and the first sector; the device reads a data
    buffer without the WRITE flag and writes one with it. *)
Definition dev_transfer (req : virtio_blk_req) (d : virtq_desc) (b : nat) (o : outcome) (s : vst) : option vst :=
  let off := r_sector req * 512 in
  if (r_type req =? VIRTIO_BLK_T_OUT) && negb (has_flag d VRING_DESC_F_WRITE) then
    Some (set_v_disk (disk_store (v_disk s) off
      (bytes_of o (take (Z.to_nat (d_len d)) (db_data (v_bufs s b))))) s)
  else if (r_type req =? VIRTIO_BLK_T_IN) && has_flag d VRING_DESC_F_WRITE then
    Some (set_v_bufs (upd b (set_db_data (bytes_of o (disk_bytes (v_disk s) off (d_len d))) (v_bufs s b))
                        (v_bufs s)) s)
  else None.

(** The device finishes the request at [h]: the transfer, the status, the entry of the
    used ring.  [None]: the chain is not of the form the specification asks for, or the
    request goes past the [cap] sectors of the disk. *)
Definition dev_serve (cap : Z) (h : Z) (o : outcome) (s : vst) : option vst :=
  let d0 := v_desc s h in
  let d1 := v_desc s (d_next d0) in
  let d2 := v_desc s (d_next d1) in
  match d_addr d0, d_addr d1, d_addr d2 with
  | AOps i, AData b, AStatus j =>
      if has_flag d0 VRING_DESC_F_NEXT && has_flag d1 VRING_DESC_F_NEXT &&
         negb (has_flag d2 VRING_DESC_F_NEXT) && has_flag d2 VRING_DESC_F_WRITE &&
         (d_len d0 =? 16) && (d_len d1 mod 512 =? 0) && (d_len d2 =? 1) &&
         (r_sector (v_ops s i) * 512 + d_len d1 <=? cap * 512)
      then
        s ← dev_transfer (v_ops s i) d1 b o s;
        Some (set_v_info_status (upd j (status_of o) (v_info_status s))
                (set_v_used_ring (upd (v_used_idx s mod NUM) h (v_used_ring s))
                  (set_v_used_idx (u16 (v_used_idx s + 1))
                    (set_v_pending (filter (fun x => x <> h) (v_pending s)) s))))
      else None
  | _, _, _ => None
  end.

(** What the driver relies on: each step of the device takes an entry of the avail ring or
    finishes a request it has taken, in any order, with success or with an error.  A step
    [device s e s'] that reports an error has [e = Some h], with [h] the head of the request;
    about a malformed request, one that [dev_serve] does not accept, nothing is promised. *)
Definition device_spec (cap : Z) (device : vst -> option Z -> vst -> Prop) : Prop :=
  forall s e s', device s e s' ->
    (e = None /\ v_last s <> v_avail_idx s /\ s' = dev_take s) \/
    exists h o, h ∈ v_pending s /\ documented o /\
      e = match o with Success => None | Failure _ _ => Some h end /\
      (dev_serve cap h o s = Some s' \/ dev_serve cap h o s = None).

(** ** The system *)

Definition uses (c : pc) : option nat :=
  match c with
  | Idle => None
  | Want b _ | SleepFree b _ | Ready _ b _ | SleepBuf _ b _ | Woken _ b _ => Some b
  end.

(** The callers of [virtio_disk_rw] hold the sleep lock of the buffer, and ask for a block
    of the disk. *)
Definition may_call (cap : Z) (a : action) (s : vst) : Prop :=
  match a with
  | Call p b w =>
      (forall q, uses (v_pc s q) <> Some b) /\ (b < NBUF)%nat /\
      0 <= db_blockno (v_bufs s b) < 2 ^ 31 /\ (db_blockno (v_bufs s b) + 1) * 2 <= cap
  | _ => True
  end.

(** What the world outside the driver sees of a step. *)
Inductive event :=
| ECall (p b : nat) (w : bool)                       (* p calls virtio_disk_rw(b, w) *)
| EReturn (p : nat)                                  (* the call of p returns *)
| EOwner (b : nat) (blockno : Z) (data : list Z)     (* the owner of b changes it *)
| EWake (p : nat)                                    (* p is woken by something else *)
| EFail (b : nat).                                   (* the device reports an error for b *)

(** [s'] is the state after the action: a call that has returned leaves its process idle. *)
Definition event_of (a : action) (s' : vst) : option event :=
  match a with
  | Call p b w => Some (ECall p b w)
  | Run p => match v_pc s' p with Idle => Some (EReturn p) | _ => None end
  | Spurious p => Some (EWake p)
  | _ => None
  end.

Inductive vstep (cap : Z) (device : vst -> option Z -> vst -> Prop) (s : vst) : option event -> vst -> Prop :=
| VAct a s' : may_call cap a s -> exec a s = Ok tt s' -> vstep cap device s (event_of a s') s'
| VDev e s' : device s e s' -> vstep cap device s (h ← e; EFail <$> v_info_b s h) s'
| VOwner b blockno data :
    (forall q, uses (v_pc s q) <> Some b) -> (b < NBUF)%nat -> length data = bsize ->
    vstep cap device s (Some (EOwner b blockno data))
      (set_v_bufs (upd b (mkDbuf blockno data (db_disk (v_bufs s b))) (v_bufs s)) s).

(** A sequence of steps, with the events of those that have one. *)
Inductive traces {A E} (step : A -> option E -> A -> Prop) : A -> list E -> A -> Prop :=
| traces_refl s : traces step s [] s
| traces_step s e s1 tr s2 :
    step s e s1 -> traces step s1 tr s2 ->
    traces step s (match e with Some x => x :: tr | None => tr end) s2.

(** The globals when the kernel starts. *)
Definition fresh (s : vst) : Prop :=
  v_seen s = 0 /\ v_last s = 0 /\ v_pending s = [] /\ (forall p, v_pc s p = Idle) /\
  (forall b, length (db_data (v_bufs s b)) = bsize).

(** ** The contract

    What the rest of the kernel believes: the disk is the one of [kst], and a call of
    [virtio_disk_rw] performs the function of that name of Bio.v once, between its start
    and its return.  A call for which the device reports an error does not return, and
    leaves the block, or the buffer, with any contents. *)

Inductive progress := Asked | Done | Failed.

Record contract := mkContract {
  c_k : kst;
  c_req : nat -> option (nat * bool * progress)
}.

(** The block of buffer [b], or the buffer, after a transfer that failed. *)
Definition spoil (b : nat) (w : bool) (junk : list Z) (k : kst) : kst :=
  if w then set_k_disk (<[b_blockno (get_buf b k) := junk]> (k_disk k)) k
  else set_k_bufs (alter (set_b_data junk) b (k_bufs k)) k.

Inductive cstep (s : contract) : option event -> contract -> Prop :=
| CCall p b w :
    c_req s p = None -> (forall q b' w' d, c_req s q = Some (b', w', d) -> b' <> b) ->
    cstep s (Some (ECall p b w)) (mkContract (c_k s) (upd p (Some (b, w, Asked)) (c_req s)))
| CPerform p b w env k' :
    c_req s p = Some (b, w, Asked) ->
    virtio_disk_rw b w (mkWorld (c_k s) env) = Ok tt (mkWorld k' env) ->
    cstep s None (mkContract k' (upd p (Some (b, w, Done)) (c_req s)))
| CReturn p b w :
    c_req s p = Some (b, w, Done) ->
    cstep s (Some (EReturn p)) (mkContract (c_k s) (upd p None (c_req s)))
| CFail p b w junk :
    c_req s p = Some (b, w, Asked) ->
    cstep s (Some (EFail b)) (mkContract (spoil b w junk (c_k s)) (upd p (Some (b, w, Failed)) (c_req s)))
| CWake p : cstep s (Some (EWake p)) s
| COwner b blockno data :
    (forall q b' w d, c_req s q = Some (b', w, d) -> b' <> b) ->
    cstep s (Some (EOwner b blockno data))
      (mkContract (set_k_bufs (alter (fun x => set_b_data data (set_b_blockno blockno x)) b
                                 (k_bufs (c_k s))) (c_k s)) (c_req s)).

(** What the status byte of a request says: the driver sets it to 0xff. *)
Definition progress_of (status : Z) : progress :=
  if status =? 0 then Done else if status =? 0xff then Asked else Failed.

(** The request of a process at [c]. *)
Definition request (status : Z -> Z) (c : pc) : option (nat * bool * progress) :=
  match c with
  | Idle => None
  | Want b w | SleepFree b w => Some (b, w, Asked)
  | Ready h b w | SleepBuf h b w | Woken h b w => Some (b, w, progress_of (status h))
  end.

(** The blocks of the disk up to its capacity, and the buffers. *)
Record implements (cap : Z) (s : vst) (c : contract) : Prop := {
  im_req : forall p, c_req c p = request (v_info_status s) (v_pc s p);
  im_disk : forall bno, 0 <= bno -> (bno + 1) * 2 <= cap ->
    disk_block (k_disk (c_k c)) bno = disk_bytes (v_disk s) (bno * BSIZE) BSIZE;
  im_len : length (k_bufs (c_k c)) = S NBUF;
  im_buf : forall b, (b < NBUF)%nat ->
    b_blockno (get_buf b (c_k c)) = db_blockno (v_bufs s b) /\
    b_data (get_buf b (c_k c)) = db_data (v_bufs s b)
}.
