(* ===== verification/VirtioInv.v ===== *)
(** * The disk driver's invariant

    [inv] says which requests are in flight, which descriptors each of them owns and where
    it is on its way: prepared, in the avail ring, taken by the device, in the used ring,
    seen by the interrupt handler.  Every step of the system keeps it. *)

From stdpp Require Import base functions gmap list strings.
From Stdlib Require Import ZArith Lia.
From S2P Require Import Prelude Riscv Memory State Spinlock Sched Bio Virtio.

#[local] Set Warnings "-clear-no-such-hyp".

(** ** Rings

    The entries of a ring between two free-running 16-bit indices. *)
Record queue (ring : Z -> Z) (lo hi : Z) (q : list Z) : Prop := {
  q_lo : 0 <= lo < 2 ^ 16;
  q_hi : hi = u16 (lo + Z.of_nat (length q));
  q_at : forall i h, q !! i = Some h -> ring ((lo + Z.of_nat i) mod NUM) = h
}.

Lemma upd_same {I A} `{EqDecision I} (i : I) (x : A) f : upd i x f i = x.
Proof. unfold upd. apply fn_lookup_insert. Qed.
Lemma upd_other {I A} `{EqDecision I} (i j : I) (x : A) f : i <> j -> upd i x f j = f j.
Proof. intros H. unfold upd. by apply fn_lookup_insert_ne. Qed.
Lemma upd_at {I A} `{EqDecision I} (i j : I) (x : A) f :
  upd i x f j = if decide (i = j) then x else f j.
Proof. case_decide; [subst; apply upd_same|by apply upd_other]. Qed.

Lemma u16_mod8 x : u16 x mod NUM = x mod NUM.
Proof.
  unfold u16, NUM. apply Z.mod_mod_divide. exists (2 ^ 13). done.
Qed.

Lemma u16_add x y : u16 (u16 x + y) = u16 (x + y).
Proof. unfold u16. by rewrite Z.add_mod_idemp_l. Qed.

Section Queue.
Context (ring : Z -> Z) (lo hi : Z) (q : list Z).

Lemma queue_publish h : queue ring lo hi q -> ring (hi mod NUM) = h ->
  queue ring lo (u16 (hi + 1)) (q ++ [h]).
Proof.
  intros [H1 H2 H3] Hh. split; [done| |].
  - rewrite H2, u16_add, length_app. cbn. f_equal. lia.
  - intros i x Hx. apply lookup_app_Some in Hx as [Hx|[Hi Hx]]; [by apply H3|].
    destruct (i - length q)%nat as [|n] eqn:Hn; [|by destruct n].
    injection Hx as <-. rewrite <- Hh, H2, u16_mod8. do 2 f_equal. lia.
Qed.

(** The slot after the last entry is not in use while the ring is not full. *)
Lemma queue_write h : queue ring lo hi q -> (Z.of_nat (length q) < NUM) ->
  queue (upd (hi mod NUM) h ring) lo hi q.
Proof.
  intros [H1 H2 H3] Hl. split; [done|done|]. intros i x Hx.
  pose proof (lookup_lt_Some _ _ _ Hx) as Hi. rewrite upd_other; [by apply H3|].
  rewrite H2, u16_mod8. unfold NUM in *. intros He.
  assert (Hz : (Z.of_nat (length q) - Z.of_nat i) mod 8 = 0).
  { replace (Z.of_nat (length q) - Z.of_nat i)
      with ((lo + Z.of_nat (length q)) - (lo + Z.of_nat i)) by lia.
    rewrite Zminus_mod, He, Z.sub_diag. done. }
  rewrite Z.mod_small in Hz; lia.
Qed.

Lemma queue_empty : queue ring lo hi q -> Z.of_nat (length q) <= NUM -> (lo = hi <-> q = []).
Proof.
  intros [H1 H2 _] Hl. subst hi. unfold u16, NUM in *. split.
  - intros He. destruct q as [|x l]; [done|]. exfalso. cbn [length] in *.
    rewrite Nat2Z.inj_succ in *.
    destruct (Z.lt_ge_cases (lo + Z.succ (Z.of_nat (length l))) (2 ^ 16)).
    + rewrite Z.mod_small in He; lia.
    + rewrite <- (Z.mod_unique _ (2 ^ 16) 1 (lo + Z.succ (Z.of_nat (length l)) - 2 ^ 16)) in He; lia.
  - intros ->. cbn. rewrite Z.mod_small; lia.
Qed.

End Queue.

Lemma queue_pop ring lo hi h q : queue ring lo hi (h :: q) ->
  ring (lo mod NUM) = h /\ queue ring (u16 (lo + 1)) hi q.
Proof.
  intros [H1 H2 H3]. split.
  - rewrite <- (H3 0%nat h) by done. do 2 f_equal. cbn. lia.
  - split.
    + unfold u16. apply Z.mod_pos_bound. lia.
    + rewrite u16_add, H2. f_equal. cbn [length]. lia.
    + intros i x Hx. rewrite <- (H3 (S i) x Hx), <- (u16_mod8 (lo + Z.of_nat (S i))).
      rewrite <- u16_mod8, u16_add, !u16_mod8. do 2 f_equal. lia.
Qed.

(** Heads are different descriptors, so a ring never overflows. *)
Lemma heads_bound (l : list Z) : NoDup l -> (forall h, h ∈ l -> 0 <= h < NUM) ->
  Z.of_nat (length l) <= NUM.
Proof.
  intros Hd Hb. assert (H : (length l <= length (seqZ 0 NUM))%nat).
  { apply submseteq_length, NoDup_submseteq; [done|]. intros x Hx. apply elem_of_seqZ.
    specialize (Hb x Hx). lia. }
  rewrite length_seqZ in H. unfold NUM in *. lia.
Qed.

(** ** Requests *)

Inductive phase := Prep | Queued | Taken | Used | Seen.
#[export] Instance phase_eq_dec : EqDecision phase.
Proof. solve_decision. Defined.

Record vreq := mkVreq { q_p : nat; q_b : nat; q_w : bool; q_1 : Z; q_2 : Z; q_ph : phase }.
Definition set_ph (x : phase) (r : vreq) : vreq :=
  mkVreq (q_p r) (q_b r) (q_w r) (q_1 r) (q_2 r) x.

Definition chain (h : Z) (r : vreq) : list Z := [h; q_1 r; q_2 r].

(** The status byte of a request: 0xff until the device writes it, and 0 once the interrupt
    handler has accepted it. *)
Definition status_in (x : phase) (st : Z) : Prop :=
  match x with Used => st = 0 \/ st = 1 \/ st = 2 | Seen => st = 0 | _ => st = 0xff end.

(** What the driver has written for a request. *)
Record formatted (s : vst) (h : Z) (r : vreq) : Prop := {
  f_d0 : v_desc s h = mkDesc (AOps h) 16 1 (q_1 r);
  f_d1 : v_desc s (q_1 r) = mkDesc (AData (q_b r)) BSIZE (if q_w r then 1 else 3) (q_2 r);
  f_d2 : v_desc s (q_2 r) = mkDesc (AStatus h) 1 2 0;
  f_op : v_ops s h = mkReq (if q_w r then 1 else 0) 0 (db_blockno (v_bufs s (q_b r)) * 2);
  f_ib : v_info_b s h = Some (q_b r);
  f_st : status_in (q_ph r) (v_info_status s h);
  f_dk : db_disk (v_bufs s (q_b r)) = if decide (q_ph r = Seen) then 0 else 1
}.

(** Where the process is while its request is in phase [x]. *)
Definition waits (x : phase) (h : Z) (b : nat) (w : bool) (c : pc) : Prop :=
  match x with
  | Prep => c = Ready h b w
  | Seen => c = Woken h b w
  | _ => c = SleepBuf h b w \/ c = Woken h b w
  end.

Definition phase_of (R : gmap Z vreq) (h : Z) : option phase := q_ph <$> R !! h.

(** The head a process waits for. *)
Definition head_of (c : pc) : option Z :=
  match c with Ready h _ _ | SleepBuf h _ _ | Woken h _ _ => Some h | _ => None end.

Record inv (cap : Z) (s : vst) (R : gmap Z vreq) (qa qu : list Z) : Prop := {
  i_chain : forall h r, R !! h = Some r ->
    NoDup (chain h r) /\ forall i, i ∈ chain h r -> 0 <= i < NUM;
  i_disj : forall h r h' r' i, R !! h = Some r -> R !! h' = Some r' ->
    i ∈ chain h r -> i ∈ chain h' r' -> h = h';
  i_free : forall i, 0 <= i < NUM ->
    (v_free s i = 0 <-> exists h r, R !! h = Some r /\ i ∈ chain h r);
  i_fmt : forall h r, R !! h = Some r -> formatted s h r;
  i_req : forall h r, R !! h = Some r ->
    waits (q_ph r) h (q_b r) (q_w r) (v_pc s (q_p r));
  i_pc : forall p h, head_of (v_pc s p) = Some h -> exists r, R !! h = Some r /\ q_p r = p;
  i_one : forall p q b, uses (v_pc s p) = Some b -> uses (v_pc s q) = Some b -> p = q;
  i_blk : forall p b, uses (v_pc s p) = Some b -> (b < NBUF)%nat /\
    0 <= db_blockno (v_bufs s b) < 2 ^ 31 /\ (db_blockno (v_bufs s b) + 1) * 2 <= cap;
  i_lock : forall p, v_lock s = Some (TProc p) <-> exists h b w, v_pc s p = Ready h b w;
  i_avail : queue (v_avail_ring s) (v_last s) (v_avail_idx s) qa;
  i_used : queue (v_used_ring s) (v_seen s) (v_used_idx s) qu;
  i_nda : NoDup qa;
  i_ndt : NoDup (v_pending s);
  i_ndu : NoDup qu;
  i_qa : forall h, h ∈ qa <-> phase_of R h = Some Queued;
  i_qt : forall h, h ∈ v_pending s <-> phase_of R h = Some Taken;
  i_qu : forall h, h ∈ qu <-> phase_of R h = Some Used;
  i_prep : forall h, phase_of R h = Some Prep -> v_avail_ring s (v_avail_idx s mod NUM) = h;
  i_len : forall b, length (db_data (v_bufs s b)) = bsize
}.

(** ** Descriptors *)

Lemma alloc_desc_run s :
  (exists i, 0 <= i < NUM /\ v_free s i <> 0 /\
     alloc_desc s = Ok i (set_v_free (upd i 0 (v_free s)) s)) \/
  ((forall i, 0 <= i < NUM -> v_free s i = 0) /\ alloc_desc s = Ok (-1) s).
Proof.
  unfold alloc_desc. set (body := fun i : Z => _).
  destruct (List.find (fun i => negb (v_free s i =? 0)) (seqZ 0 NUM)) as [i|] eqn:Hf.
  - left. exists i. pose proof (List.find_some _ _ Hf) as [Hin Hi].
    apply list_elem_of_In, elem_of_seqZ in Hin. apply negb_true_iff, Z.eqb_neq in Hi.
    split; [lia|]. split; [done|].
    rewrite (run_bind _ _ _ (Some i) (set_v_free (upd i 0 (v_free s)) s)); [done|].
    eapply for_until_found; [|exact Hf| |done].
    + intros j Hj. unfold body, mbind, M_bind, gets. by rewrite Hj.
    + unfold body, mbind, M_bind, gets. apply Z.eqb_neq in Hi. by rewrite Hi.
  - right. split.
    + intros i Hi. pose proof (List.find_none _ _ Hf i) as Hn. cbn in Hn.
      apply Z.eqb_eq, negb_false_iff, Hn, list_elem_of_In, elem_of_seqZ. lia.
    + rewrite (run_bind _ _ _ None s); [done|]. eapply for_until_not_found; [|exact Hf].
      intros j Hj. unfold body, mbind, M_bind, gets. by rewrite Hj.
Qed.

(** The state after [free_desc i]. *)
Definition freed (i : Z) (s : vst) : vst :=
  set_v_pc (fun p => match v_pc s p with SleepFree b w => Want b w | c => c end)
    (set_v_free (upd i 1 (v_free s)) (set_v_desc (upd i zero_desc (v_desc s)) s)).

Lemma free_desc_run i s : 0 <= i < NUM -> v_free s i = 0 -> free_desc i s = Ok tt (freed i s).
Proof.
  intros Hi Hf. unfold free_desc, in_array, mbind, M_bind, gets.
  rewrite (proj2 (Z.leb_gt NUM i)), (proj2 (Z.leb_le 0 i)), (proj2 (Z.ltb_lt i NUM)) by lia.
  cbn. by rewrite Hf.
Qed.

(** Freeing several different descriptors. *)
Lemma free_descs_run l s : NoDup l -> (forall i, i ∈ l -> 0 <= i < NUM /\ v_free s i = 0) ->
  for_each l free_desc s = Ok tt (foldl (fun s i => freed i s) s l).
Proof.
  revert s. induction l as [|i l IH]; intros s Hd Hl; [done|]. cbn [for_each foldl].
  apply NoDup_cons in Hd as [Hn Hd]. destruct (Hl i) as [Hi Hf]; [set_solver|].
  rewrite (run_bind _ _ _ tt (freed i s)) by (by apply free_desc_run).
  apply IH; [done|]. intros j Hj. destruct (Hl j) as [Hj1 Hj2]; [set_solver|].
  split; [done|]. cbn. rewrite upd_other; [done|]. intros ->. done.
Qed.

(** What freeing descriptors changes. *)
Record frees (l : list Z) (s s' : vst) : Prop := {
  fr_free : forall i, v_free s' i = if decide (i ∈ l) then 1 else v_free s i;
  fr_desc : forall i, v_desc s' i = if decide (i ∈ l) then zero_desc else v_desc s i;
  fr_pc : l <> [] -> forall p, v_pc s' p = match v_pc s p with SleepFree b w => Want b w | c => c end;
  fr_pc0 : l = [] -> v_pc s' = v_pc s;
  fr_rest : s' = set_v_pc (v_pc s') (set_v_free (v_free s') (set_v_desc (v_desc s') s))
}.

Lemma freed_frees l s : frees l s (foldl (fun s i => freed i s) s l).
Proof.
  induction l as [|i l IH] using rev_ind.
  - split; [intros; by rewrite decide_False by set_solver..|done|done|by destruct s].
  - rewrite foldl_app. cbn [foldl]. set (s1 := foldl _ s l) in *. destruct IH as [I1 I2 I3 I5 I4].
    split.
    + intros j. cbn. rewrite upd_at, I1. repeat case_decide; set_solver.
    + intros j. cbn. rewrite upd_at, I2. repeat case_decide; set_solver.
    + intros _ p. cbn. destruct (decide (l = [])) as [->|Hl]; [done|].
      rewrite I3 by done. by destruct (v_pc s p).
    + by intros [_ [=]]%app_nil.
    + rewrite I4. done.
Qed.

(** The state after allocating the descriptors [l]. *)
Definition taken (l : list Z) (s : vst) : vst :=
  foldl (fun s i => set_v_free (upd i 0 (v_free s)) s) s l.

Lemma taken_free l s i : v_free (taken l s) i = if decide (i ∈ l) then 0 else v_free s i.
Proof.
  unfold taken. induction l as [|x l IH] using rev_ind; [by rewrite decide_False by set_solver|].
  rewrite foldl_app. cbn. rewrite upd_at. repeat case_decide; set_solver.
Qed.

Lemma taken_rest l s : taken l s = set_v_free (v_free (taken l s)) s.
Proof.
  unfold taken. induction l as [|x l IH] using rev_ind; [by destruct s|].
  rewrite foldl_app. cbn. rewrite IH. done.
Qed.

Definition available (s : vst) (l : list Z) : Prop :=
  NoDup l /\ forall i, i ∈ l -> 0 <= i < NUM /\ v_free s i <> 0.

Lemma alloc3_loop_run n idx s : available s idx ->
  (exists l, length l = n /\ available s (idx ++ l) /\
     alloc3_loop n idx (taken idx s) = Ok (Some (idx ++ l)) (taken (idx ++ l) s)) \/
  (exists l s', (length l < length idx + n)%nat /\ available s l /\
     (forall i, 0 <= i < NUM -> v_free s i <> 0 -> i ∈ l) /\
     alloc3_loop n idx (taken idx s) = Ok None s' /\ frees l s s').
Proof.
  revert idx. induction n as [|n IH]; intros idx [Hd Hidx]; cbn [alloc3_loop].
  { left. exists []. rewrite app_nil_r. by repeat split; try done; apply Hidx. }
  destruct (alloc_desc_run (taken idx s)) as [(i & Hi & Hf & Hr)|[Hnone Hr]];
    rewrite (run_bind _ _ _ _ _ Hr).
  - rewrite taken_free in Hf. case_decide as Hin; [done|].
    rewrite (proj2 (Z.ltb_ge i 0)) by lia.
    replace (set_v_free _ _) with (taken (idx ++ [i]) s)
      by (unfold taken; by rewrite foldl_app).
    destruct (IH (idx ++ [i])) as [(l & Hl & Hav & Hrun)|(l & s' & Hl & H)].
    + split; [apply NoDup_app; split; [done|]; split; [set_solver|apply NoDup_singleton]|].
      intros j [Hj|Hj%list_elem_of_singleton]%elem_of_app; [by apply Hidx|by subst].
    + left. exists (i :: l). rewrite <- app_assoc in Hav, Hrun. cbn. auto.
    + right. exists l, s'. split; [rewrite length_app in Hl; cbn in Hl; lia|done].
  - right. cbn [Z.ltb Z.compare]. exists idx.
    eexists. split; [lia|]. split; [done|]. split.
    { intros i Hi Hf. specialize (Hnone i Hi). rewrite taken_free in Hnone.
      case_decide; done. }
    assert (Hfree : forall i, i ∈ idx -> 0 <= i < NUM /\ v_free (taken idx s) i = 0).
    { intros i Hi. split; [by apply Hidx|]. rewrite taken_free. by rewrite decide_True. }
    rewrite (run_bind _ _ _ _ _ (free_descs_run idx _ Hd Hfree)).
    split; [done|]. pose proof (freed_frees idx (taken idx s)) as [F1 F2 F3 F5 F4].
    set (s' := foldl _ (taken idx s) idx) in *. clearbody s'. split.
    + intros i. rewrite F1, taken_free. repeat case_decide; done.
    + intros i. rewrite F2. by rewrite taken_rest.
    + intros Hne p. rewrite F3 by done. by rewrite taken_rest.
    + intros Hne. rewrite F5 by done. by rewrite taken_rest.
    + etransitivity; [exact F4|]. by rewrite taken_rest.
Qed.

Lemma alloc3_desc_run s :
  (exists i j k, available s [i; j; k] /\
     alloc3_desc s = Ok (Some [i; j; k]) (taken [i; j; k] s)) \/
  (exists l s', (length l < 3)%nat /\ available s l /\
     (forall i, 0 <= i < NUM -> v_free s i <> 0 -> i ∈ l) /\
     alloc3_desc s = Ok None s' /\ frees l s s').
Proof.
  destruct (alloc3_loop_run 3 [] s) as [(l & Hl & Hav & Hr)|(l & s' & H)].
  - split; [apply NoDup_nil_2|set_solver].
  - left. destruct l as [|i [|j [|k [|]]]]; try done. by exists i, j, k.
  - right. exists l, s'. done.
Qed.

(** A request's three descriptors are freed. *)
Lemma free_chain_run h r s : NoDup (chain h r) ->
  (forall i, i ∈ chain h r -> 0 <= i < NUM /\ v_free s i = 0) ->
  v_desc s h = mkDesc (AOps h) 16 1 (q_1 r) ->
  v_desc s (q_1 r) = mkDesc (AData (q_b r)) BSIZE (if q_w r then 1 else 3) (q_2 r) ->
  v_desc s (q_2 r) = mkDesc (AStatus h) 1 2 0 ->
  exists s', free_chain h s = Ok tt s' /\ frees (chain h r) s s'.
Proof.
  intros Hd Hc D0 D1 D2. exists (foldl (fun s i => freed i s) s (chain h r)).
  split; [|apply freed_frees]. unfold chain in *.
  rewrite !NoDup_cons in Hd. destruct Hd as (N0 & N1 & N2 & _).
  destruct (Hc h) as [B0 F0]; [set_solver|]. destruct (Hc (q_1 r)) as [B1 F1]; [set_solver|].
  destruct (Hc (q_2 r)) as [B2 F2]; [set_solver|].
  assert (h <> q_1 r /\ h <> q_2 r /\ q_1 r <> q_2 r) as (E1 & E2 & E3) by set_solver.
  unfold free_chain. change (Z.to_nat NUM) with 8%nat. cbn [foldl free_chain_loop].
  assert (Hin : forall i s, 0 <= i < NUM -> in_array i s = Ok tt s).
  { intros i s0 Hi. unfold in_array.
    by rewrite (proj2 (Z.leb_le 0 i)), (proj2 (Z.ltb_lt i NUM)) by lia. }
  rewrite (run_bind _ _ _ _ _ (Hin h s B0)), (run_bind _ _ _ (v_desc s h) s) by done.
  rewrite D0. cbn [d_flags d_next].
  rewrite (run_bind _ _ _ tt (freed h s)) by (by apply free_desc_run).
  change (negb (Z.land 1 VRING_DESC_F_NEXT =? 0)) with true. cbn iota.
  rewrite (run_bind _ _ _ _ _ (Hin (q_1 r) _ B1)).
  rewrite (run_bind _ _ _ (v_desc (freed h s) (q_1 r)) (freed h s)) by done.
  cbn [freed v_desc set_v_pc set_v_free set_v_desc]. rewrite upd_other, D1 by done. cbn [d_flags d_next].
  rewrite (run_bind _ _ _ tt (freed (q_1 r) (freed h s)));
    [|apply free_desc_run; [done|]; cbn; by rewrite upd_other].
  replace (negb (Z.land (if q_w r then 1 else 3) VRING_DESC_F_NEXT =? 0)) with true
    by (by destruct (q_w r)). cbn iota.
  rewrite (run_bind _ _ _ _ _ (Hin (q_2 r) _ B2)).
  rewrite (run_bind _ _ _ (v_desc (freed (q_1 r) (freed h s)) (q_2 r)) (freed (q_1 r) (freed h s))) by done.
  cbn [freed v_desc set_v_pc set_v_free set_v_desc]. rewrite !upd_other, D2 by done. cbn [d_flags d_next].
  rewrite (run_bind _ _ _ tt (freed (q_2 r) (freed (q_1 r) (freed h s))));
    [|apply free_desc_run; [done|]; cbn; by rewrite !upd_other].
  done.
Qed.

(** ** Facts about requests *)

Lemma waits_uses x h b w c : waits x h b w c -> uses c = Some b /\ head_of c = Some h.
Proof. destruct x; cbn; intros; destruct_or?; subst; done. Qed.

Lemma waits_ready x h b w c : waits x h b w c -> x <> Prep -> forall h' b' w', c <> Ready h' b' w'.
Proof. destruct x; cbn; intros; destruct_or?; subst; done. Qed.

Lemma phase_of_insert R h r x : phase_of (<[h := set_ph x r]> R) h = Some x.
Proof. unfold phase_of. by rewrite lookup_insert_eq. Qed.

Lemma phase_of_insert_ne R h h' r : h <> h' -> phase_of (<[h := r]> R) h' = phase_of R h'.
Proof. intros H. unfold phase_of. by rewrite lookup_insert_ne. Qed.

Lemma phase_of_Some R h x : phase_of R h = Some x <-> exists r, R !! h = Some r /\ q_ph r = x.
Proof.
  unfold phase_of. rewrite fmap_Some. split; intros (r & H1 & H2); exists r; auto.
Qed.

(** The heads in phase [y], as the request at [h] moves to another phase. *)
Section Members.
Context (R : gmap Z vreq) (q : list Z) (h : Z) (r : vreq) (y : phase).
Context (Hq : forall i, i ∈ q <-> phase_of R i = Some y) (Hr : R !! h = Some r).

Lemma phase_mem x : q_ph r <> y -> x <> y ->
  forall i, i ∈ q <-> phase_of (<[h := set_ph x r]> R) i = Some y.
Proof.
  intros H1 H2 i. rewrite Hq. destruct (decide (h = i)) as [<-|Hne].
  - rewrite phase_of_insert. unfold phase_of. rewrite Hr. cbn. naive_solver congruence.
  - by rewrite phase_of_insert_ne.
Qed.

Lemma phase_add : q_ph r <> y ->
  forall i, i ∈ q ++ [h] <-> phase_of (<[h := set_ph y r]> R) i = Some y.
Proof.
  intros H1 i. rewrite elem_of_app, list_elem_of_singleton, Hq. destruct (decide (h = i)) as [<-|Hne].
  - rewrite phase_of_insert. naive_solver.
  - rewrite phase_of_insert_ne by done. naive_solver.
Qed.

Lemma phase_del x (q' : list Z) : x <> y -> (forall i, i ∈ q' <-> i ∈ q /\ i <> h) ->
  forall i, i ∈ q' <-> phase_of (<[h := set_ph x r]> R) i = Some y.
Proof.
  intros H1 H2 i. rewrite H2, Hq. destruct (decide (h = i)) as [<-|Hne].
  - rewrite phase_of_insert. naive_solver.
  - rewrite phase_of_insert_ne by done. naive_solver.
Qed.

Lemma phase_not_in : q_ph r <> y -> h ∉ q.
Proof. intros H. rewrite Hq. unfold phase_of. rewrite Hr. cbn. congruence. Qed.

End Members.

Section Facts.
Context (cap : Z) (s : vst) (R : gmap Z vreq) (qa qu : list Z) (I : inv cap s R qa qu).

Lemma req_head h r : R !! h = Some r ->
  uses (v_pc s (q_p r)) = Some (q_b r) /\ head_of (v_pc s (q_p r)) = Some h.
Proof. intros H. eapply waits_uses, (i_req _ _ _ _ _ I), H. Qed.

Lemma req_inj_p h r h' r' : R !! h = Some r -> R !! h' = Some r' -> q_p r = q_p r' -> h = h'.
Proof.
  intros H H' He. pose proof (req_head h r H) as [_ E]. pose proof (req_head h' r' H') as [_ E'].
  rewrite He in E. congruence.
Qed.

Lemma req_inj_b h r h' r' : R !! h = Some r -> R !! h' = Some r' -> q_b r = q_b r' -> h = h'.
Proof.
  intros H H' He. pose proof (req_head h r H) as [E _]. pose proof (req_head h' r' H') as [E' _].
  apply (req_inj_p h r h' r' H H'). apply (i_one _ _ _ _ _ I _ _ (q_b r)); congruence.
Qed.

Lemma req_range h r : R !! h = Some r -> 0 <= h < NUM.
Proof. intros H. apply (i_chain _ _ _ _ _ I h r H). unfold chain. set_solver. Qed.

Lemma req_owned h r i : R !! h = Some r -> i ∈ chain h r -> 0 <= i < NUM /\ v_free s i = 0.
Proof.
  intros H Hi. pose proof (proj2 (i_chain _ _ _ _ _ I h r H) i Hi) as Hb. split; [done|].
  apply (i_free _ _ _ _ _ I i Hb). eauto.
Qed.

(** Rings have room for a request that is not in them. *)
Lemma ring_room q h r : R !! h = Some r -> NoDup q ->
  (forall x, x ∈ q -> x <> h /\ is_Some (R !! x)) -> Z.of_nat (length q) < NUM.
Proof.
  intros Hh Hd Hq. enough (Z.of_nat (length (h :: q)) <= NUM) by (cbn [length] in *; lia).
  apply heads_bound.
  - apply NoDup_cons. split; [|done]. intros Hin. by destruct (Hq h Hin).
  - intros x [->|Hx]%elem_of_cons; [by eapply req_range|].
    destruct (Hq x Hx) as [_ [r' Hr']]. by eapply req_range.
Qed.

End Facts.

(** The description of a request is kept by steps that do not touch it. *)
Lemma formatted_ext s s' h r : formatted s h r ->
  (forall i, i ∈ chain h r -> v_desc s' i = v_desc s i) ->
  v_ops s' h = v_ops s h -> v_info_b s' h = v_info_b s h ->
  v_info_status s' h = v_info_status s h ->
  db_blockno (v_bufs s' (q_b r)) = db_blockno (v_bufs s (q_b r)) ->
  db_disk (v_bufs s' (q_b r)) = db_disk (v_bufs s (q_b r)) -> formatted s' h r.
Proof.
  intros [F1 F2 F3 F4 F5 F6 F7] Hd Ho Hi Hs Hb Hk. unfold chain in Hd.
  split; [rewrite Hd by set_solver; done..| | | |]; congruence.
Qed.

(** A step that only moves processes between waking and sleeping, and touches only
    descriptors that are free. *)
Lemma inv_quiet cap s s' R qa qu : inv cap s R qa qu ->
  (forall i, 0 <= i < NUM -> (v_free s' i = 0 <-> v_free s i = 0)) ->
  (forall i, 0 <= i < NUM -> v_free s i = 0 -> v_desc s' i = v_desc s i) ->
  v_ops s' = v_ops s -> v_info_b s' = v_info_b s -> v_info_status s' = v_info_status s ->
  v_bufs s' = v_bufs s -> v_avail_idx s' = v_avail_idx s -> v_avail_ring s' = v_avail_ring s ->
  v_used_idx s' = v_used_idx s -> v_used_ring s' = v_used_ring s -> v_seen s' = v_seen s ->
  v_last s' = v_last s -> v_pending s' = v_pending s ->
  (forall p, v_lock s' = Some (TProc p) <-> v_lock s = Some (TProc p)) ->
  (forall p, uses (v_pc s' p) = uses (v_pc s p) /\ head_of (v_pc s' p) = head_of (v_pc s p) /\
     forall h b w, v_pc s' p = Ready h b w <-> v_pc s p = Ready h b w) ->
  (forall h r, R !! h = Some r -> waits (q_ph r) h (q_b r) (q_w r) (v_pc s' (q_p r))) ->
  inv cap s' R qa qu.
Proof.
  intros I Hf Hd E1 E2 E3 E4 E5 E6 E7 E8 E9 E10 E11 Hl Hpc Hw.
  split; try (rewrite ?E1, ?E2, ?E3, ?E4, ?E5, ?E6, ?E7, ?E8, ?E9, ?E10, ?E11; apply I).
  - intros i Hi. rewrite Hf by done. by apply I.
  - intros h r Hr. eapply formatted_ext; [by apply I| |by rewrite ?E1, ?E2, ?E3, ?E4..].
    intros i Hi. destruct (req_owned _ _ _ _ _ I h r i Hr Hi). by apply Hd.
  - done.
  - intros p h. destruct (Hpc p) as (_ & -> & _). by apply I.
  - intros p q b. destruct (Hpc p) as (-> & _). destruct (Hpc q) as (-> & _). by apply I.
  - intros p b. destruct (Hpc p) as (-> & _). rewrite E4. by apply I.
  - intros p. rewrite Hl, (i_lock _ _ _ _ _ I). destruct (Hpc p) as (_ & _ & Hr).
    split; intros (h & b & w & H); exists h, b, w; by apply Hr.
Qed.

(** A step that moves the request at [h] on to phase [x]. *)
Lemma inv_phase cap s s' R qa qu h r x qa' qu' : inv cap s R qa qu -> R !! h = Some r ->
  v_desc s' = v_desc s -> v_free s' = v_free s -> v_ops s' = v_ops s ->
  v_info_b s' = v_info_b s ->
  status_in x (v_info_status s' h) ->
  (forall i, h <> i -> v_info_status s' i = v_info_status s i) ->
  (forall b, db_blockno (v_bufs s' b) = db_blockno (v_bufs s b) /\
     length (db_data (v_bufs s' b)) = bsize /\
     db_disk (v_bufs s' b) =
       if decide (q_b r = b) then (if decide (x = Seen) then 0 else 1) else db_disk (v_bufs s b)) ->
  (forall p, p <> q_p r -> v_pc s' p = v_pc s p) ->
  waits x h (q_b r) (q_w r) (v_pc s' (q_p r)) -> x <> Prep ->
  (forall p, v_lock s' = Some (TProc p) <-> v_lock s = Some (TProc p) /\ p <> q_p r) ->
  queue (v_avail_ring s') (v_last s') (v_avail_idx s') qa' ->
  queue (v_used_ring s') (v_seen s') (v_used_idx s') qu' ->
  NoDup qa' -> NoDup (v_pending s') -> NoDup qu' ->
  (forall i, i ∈ qa' <-> phase_of (<[h := set_ph x r]> R) i = Some Queued) ->
  (forall i, i ∈ v_pending s' <-> phase_of (<[h := set_ph x r]> R) i = Some Taken) ->
  (forall i, i ∈ qu' <-> phase_of (<[h := set_ph x r]> R) i = Some Used) ->
  (forall i, i <> h -> phase_of R i = Some Prep -> v_avail_ring s' (v_avail_idx s' mod NUM) = i) ->
  inv cap s' (<[h := set_ph x r]> R) qa' qu'.
Proof.
  intros I Hr Ed Ef Eo Eb Est Est' Ebuf Epc Hw Hx Hl Qa Qu Na Nt Nu Ma Mt Mu Hp.
  assert (Hlook : forall h' r', <[h := set_ph x r]> R !! h' = Some r' ->
    exists r0, R !! h' = Some r0 /\ chain h' r' = chain h' r0 /\ q_p r' = q_p r0 /\ q_b r' = q_b r0 /\
      (h' = h /\ r' = set_ph x r \/ h' <> h /\ r' = r0)).
  { intros h' r'. destruct (decide (h = h')) as [<-|Hne].
    - rewrite lookup_insert_eq. intros [= <-]. exists r. by repeat split; auto.
    - rewrite lookup_insert_ne by done. intros H. exists r'. by repeat split; auto. }
  assert (Hback : forall h' r0, R !! h' = Some r0 -> exists r', <[h := set_ph x r]> R !! h' = Some r' /\
    chain h' r' = chain h' r0 /\ q_p r' = q_p r0).
  { intros h' r0 H0. destruct (decide (h = h')) as [<-|Hne].
    - assert (r0 = r) as -> by congruence. exists (set_ph x r). by rewrite lookup_insert_eq.
    - exists r0. by rewrite lookup_insert_ne. }
  pose proof (req_head _ _ _ _ _ I h r Hr) as [Hu Hh]. pose proof (waits_uses _ _ _ _ _ Hw) as [Hu' Hh'].
  assert (Hus : forall p, uses (v_pc s' p) = uses (v_pc s p) /\ head_of (v_pc s' p) = head_of (v_pc s p)).
  { intros p. destruct (decide (p = q_p r)) as [->|Hne]; [split; congruence|]. by rewrite Epc. }
  split; try done.
  - intros h' r' (r0 & H0 & Hc & _)%Hlook. rewrite Hc. by apply I.
  - intros h1 r1 h2 r2 i (r01 & H1 & C1 & _)%Hlook (r02 & H2 & C2 & _)%Hlook.
    rewrite C1, C2. by apply I.
  - intros i Hi. rewrite Ef, (i_free _ _ _ _ _ I i Hi). split.
    + intros (h' & r0 & H0 & Hin). destruct (Hback h' r0 H0) as (r' & H' & Hc & _).
      exists h', r'. by rewrite Hc.
    + intros (h' & r' & (r0 & H0 & Hc & _)%Hlook & Hin). exists h', r0. by rewrite <- Hc.
  - intros h' r' (r0 & H0 & Hc & _ & _ & [[-> ->]|[Hne ->]])%Hlook.
    + destruct (i_fmt _ _ _ _ _ I h r Hr) as [F1 F2 F3 F4 F5 F6 F7].
      destruct (Ebuf (q_b r)) as (B1 & _ & B2). rewrite decide_True in B2 by done.
      split; cbn; rewrite ?Ed, ?Eo, ?Eb, ?B1; done.
    + destruct (Ebuf (q_b r0)) as (B1 & _ & B2). rewrite decide_False in B2.
      2:{ intros He. apply Hne. symmetry. by eapply req_inj_b. }
      eapply formatted_ext; [by apply I|by rewrite Ed|by rewrite Eo|by rewrite Eb| |done|done].
      by rewrite Est'.
  - intros h' r' (r0 & H0 & _ & _ & _ & [[-> ->]|[Hne ->]])%Hlook; [done|].
    rewrite Epc; [by apply I|]. intros He. apply Hne. by eapply req_inj_p.
  - intros p h'. rewrite (proj2 (Hus p)). intros (r0 & H0 & Hp0)%(i_pc _ _ _ _ _ I).
    destruct (Hback h' r0 H0) as (r' & H' & _ & Hp'). exists r'. by rewrite Hp'.
  - intros p q b. rewrite !(proj1 (Hus _)). by apply I.
  - intros p b. rewrite (proj1 (Hus p)). rewrite (proj1 (Ebuf b)). by apply I.
  - intros p. rewrite Hl, (i_lock _ _ _ _ _ I). split.
    + intros [(h' & b & w & H) Hne]. exists h', b, w. by rewrite Epc.
    + intros (h' & b & w & H). destruct (decide (p = q_p r)) as [->|Hne].
      * by destruct (waits_ready _ _ _ _ _ Hw Hx h' b w).
      * split; [|done]. exists h', b, w. by rewrite <- Epc.
  - intros i Hi. destruct (decide (h = i)) as [<-|Hne].
    + rewrite phase_of_insert in Hi. congruence.
    + rewrite phase_of_insert_ne in Hi by done. by apply Hp.
  - intros b. by destruct (Ebuf b) as (_ & H & _).
Qed.

(** ** The steps of the system *)

Section Steps.
Context (cap : Z).

(** The driver's locks: an action of [p] starts with the lock free. *)
Lemma acquire_vdisk_run t s : v_lock s = None -> acquire_vdisk t s = Ok tt (set_v_lock (Some t) s).
Proof. intros H. unfold acquire_vdisk, mbind, M_bind, gets. by rewrite H. Qed.

Lemma acquire_vdisk_busy t t' s : v_lock s = Some t' -> acquire_vdisk t s = Blocked s.
Proof. intros H. unfold acquire_vdisk, mbind, M_bind, gets. by rewrite H. Qed.

(** Publishing a request. *)
Lemma publish_inv s R qa qu p h b w : inv cap s R qa qu -> v_pc s p = Ready h b w ->
  exists r s', rw_publish p h b w s = Ok tt s' /\ R !! h = Some r /\ q_ph r = Prep /\
    inv cap s' (<[h := set_ph Queued r]> R) (qa ++ [h]) qu /\
    s' = set_v_lock None (set_v_pc (upd p (SleepBuf h b w) (v_pc s))
           (set_v_mmio (v_mmio s') (set_v_avail_idx (v_avail_idx s') s))).
Proof.
  intros I Hpc. destruct (i_pc _ _ _ _ _ I p h) as (r & Hr & Hp); [by rewrite Hpc|].
  pose proof (i_req _ _ _ _ _ I h r Hr) as Hw. rewrite Hp, Hpc in Hw.
  assert (q_ph r = Prep /\ q_b r = b /\ q_w r = w) as (Hph & <- & <-).
  { destruct (q_ph r); cbn in Hw; destruct_or?; simplify_eq; done. }
  destruct (i_fmt _ _ _ _ _ I h r Hr) as [_ _ _ _ _ Fs Fk]. rewrite Hph in Fs, Fk. cbn in Fs.
  rewrite decide_False in Fk by done.
  eexists r, _. split.
  { unfold rw_publish, rw_wait, mbind, M_bind, modify, gets. cbn. rewrite Fk. reflexivity. }
  split; [done|]. split; [done|]. split; [|done].
  assert (Hin : h ∉ qa) by (eapply phase_not_in; [apply I|done|by rewrite Hph]).
  eapply inv_phase; try done; cbn.
  - intros b. split; [done|]. split; [apply I|]. case_decide; [by subst|done].
  - intros q Hq. by rewrite upd_other by congruence.
  - left. by rewrite <- Hp, upd_same.
  - intros q. rewrite (i_lock _ _ _ _ _ I). split; [done|]. intros [(h' & b' & w' & H') Hq].
    assert (Hl : v_lock s = Some (TProc p)) by (apply (i_lock _ _ _ _ _ I); eauto).
    assert (Hl' : v_lock s = Some (TProc q)) by (apply (i_lock _ _ _ _ _ I); eauto). congruence.
  - apply queue_publish; [apply I|]. apply (i_prep _ _ _ _ _ I). unfold phase_of. by rewrite Hr, <- Hph.
  - apply I.
  - apply NoDup_app. split; [apply I|]. split; [set_solver|apply NoDup_singleton].
  - apply I.
  - apply I.
  - apply phase_add; [apply I|by rewrite Hph].
  - apply phase_mem; [apply I|done|by rewrite Hph|done].
  - apply phase_mem; [apply I|done|by rewrite Hph|done].
  - intros i Hne Hi. exfalso. apply Hne. apply (i_prep _ _ _ _ _ I) in Hi. rewrite <- Hi.
    apply (i_prep _ _ _ _ _ I). unfold phase_of. by rewrite Hr, <- Hph.
Qed.

Lemma in_array_run i s : 0 <= i < NUM -> in_array i s = Ok tt s.
Proof.
  intros Hi. unfold in_array. by rewrite (proj2 (Z.leb_le 0 i)), (proj2 (Z.ltb_lt i NUM)) by lia.
Qed.

Lemma used_bound s R qa qu : inv cap s R qa qu -> Z.of_nat (length qu) <= NUM.
Proof.
  intros I. apply heads_bound; [apply I|]. intros h Hh.
  apply (i_qu _ _ _ _ _ I), phase_of_Some in Hh as (r & Hr & _). by eapply req_range.
Qed.

Lemma avail_bound s R qa qu : inv cap s R qa qu -> Z.of_nat (length qa) <= NUM.
Proof.
  intros I. apply heads_bound; [apply I|]. intros h Hh.
  apply (i_qa _ _ _ _ _ I), phase_of_Some in Hh as (r & Hr & _). by eapply req_range.
Qed.

(** The request at the front of the used ring. *)
Definition front (s : vst) : Z := v_used_ring s (v_seen s mod NUM).

(** The interrupt handler panics on an entry whose request failed. *)
Lemma intr_turn_fails s R qa qu : inv cap s R qa qu -> v_seen s <> v_used_idx s ->
  v_info_status s (front s) <> 0 -> intr_turn s = Panic "virtio_disk_intr status" s /\
  exists r, R !! front s = Some r /\ q_ph r = Used.
Proof.
  intros I Hne Hst. pose proof (i_used _ _ _ _ _ I) as Q. pose proof (used_bound _ _ _ _ I) as Hb.
  destruct qu as [|h qu']; [by destruct Hne; apply (queue_empty _ _ _ _ Q Hb)|].
  destruct (queue_pop _ _ _ _ _ Q) as [Hh _]. fold (front s) in Hh.
  assert (Hph : phase_of R h = Some Used) by (apply (i_qu _ _ _ _ _ I); set_solver).
  apply phase_of_Some in Hph as (r & Hr & Hph). rewrite Hh in *. split; [|eauto].
  unfold intr_turn, mbind, M_bind, gets. fold (front s). rewrite Hh, in_array_run by (by eapply req_range).
  by rewrite (proj2 (Z.eqb_neq _ _) Hst).
Qed.

(** It accepts the others. *)
Lemma intr_turn_inv s R qa qu : inv cap s R qa qu -> v_seen s <> v_used_idx s ->
  v_info_status s (front s) = 0 ->
  exists h r qu' s', intr_turn s = Ok tt s' /\ qu = h :: qu' /\ R !! h = Some r /\ q_ph r = Used /\
    inv cap s' (<[h := set_ph Seen r]> R) qa qu' /\
    v_pc s' (q_p r) = Woken h (q_b r) (q_w r) /\ (forall p, p <> q_p r -> v_pc s' p = v_pc s p) /\
    (forall b, v_bufs s' b =
       if decide (q_b r = b) then set_db_disk 0 (v_bufs s b) else v_bufs s b) /\
    v_info_status s' = v_info_status s /\ v_disk s' = v_disk s /\ v_free s' = v_free s /\
    v_lock s' = v_lock s.
Proof.
  intros I Hne Hst. pose proof (i_used _ _ _ _ _ I) as Q. pose proof (used_bound _ _ _ _ I) as Hb.
  destruct qu as [|h qu']; [by destruct Hne; apply (queue_empty _ _ _ _ Q Hb)|].
  destruct (queue_pop _ _ _ _ _ Q) as [Hh Q'].
  unfold front in Hst. rewrite Hh in Hst.
  assert (Hph : phase_of R h = Some Used) by (apply (i_qu _ _ _ _ _ I); set_solver).
  apply phase_of_Some in Hph as (r & Hr & Hph).
  pose proof (req_range _ _ _ _ _ I h r Hr) as Hrange.
  pose proof (i_req _ _ _ _ _ I h r Hr) as Hw. rewrite Hph in Hw.
  destruct (i_fmt _ _ _ _ _ I h r Hr) as [_ _ _ _ Fb _ Fk]. rewrite Hph in Fk.
  rewrite decide_False in Fk by done.
  pose proof (i_ndu _ _ _ _ _ I) as [Hnin Hnd]%NoDup_cons.
  eexists h, r, qu', _. split.
  { unfold intr_turn, mbind, M_bind, gets. rewrite Hh, in_array_run by done. rewrite Hst. cbn.
    rewrite Fb. reflexivity. }
  split; [done|]. split; [done|]. split; [done|].
  assert (Hpc : forall p, match v_pc s p with
     | SleepBuf h' b' w => if decide (b' = q_b r) then Woken h' b' w else SleepBuf h' b' w
     | c => c end = if decide (p = q_p r) then Woken h (q_b r) (q_w r) else v_pc s p).
  { intros p. case_decide as Hp.
    - subst. cbn in Hw. destruct Hw as [->| ->]; [by rewrite decide_True|done].
    - destruct (v_pc s p) as [| | | |h' b' w|] eqn:Hc; try done. rewrite decide_False; [done|].
      intros ->. apply Hp, (i_one _ _ _ _ _ I _ _ (q_b r)); [by rewrite Hc|].
      by eapply req_head. }
  split; [|cbn].
  - eapply inv_phase; try done; cbn.
    + intros b. rewrite upd_at. case_decide as Hd; [subst|].
      * cbn. split; [done|]. split; [apply I|done].
      * split; [done|]. split; [apply I|done].
    + intros p Hp. rewrite Hpc. by rewrite decide_False.
    + rewrite Hpc. by rewrite decide_True.
    + intros p. split; [|naive_solver]. intros Hl. split; [done|]. intros ->.
      apply (i_lock _ _ _ _ _ I) in Hl as (h' & b' & w' & Hl). cbn in Hw. destruct Hw; congruence.
    + apply I.
    + apply I.
    + apply I.
    + apply phase_mem; [apply I|done|by rewrite Hph|done].
    + apply phase_mem; [apply I|done|by rewrite Hph|done].
    + eapply phase_del; [apply I|done|]. intros i. set_solver.
    + intros i _ Hi. by apply I.
  - rewrite Hpc, decide_True by done. split; [done|]. split.
    + intros p Hp. by rewrite Hpc, decide_False.
    + split; [|done]. intros b. rewrite upd_at. case_decide; by subst.
Qed.

(** The device takes an entry of the avail ring. *)
Lemma dev_take_inv s R qa qu : inv cap s R qa qu -> v_last s <> v_avail_idx s ->
  exists h r qa', qa = h :: qa' /\ R !! h = Some r /\ q_ph r = Queued /\
    inv cap (dev_take s) (<[h := set_ph Taken r]> R) qa' qu.
Proof.
  intros I Hne. pose proof (i_avail _ _ _ _ _ I) as Q. pose proof (avail_bound _ _ _ _ I) as Hb.
  destruct qa as [|h qa']; [by destruct Hne; apply (queue_empty _ _ _ _ Q Hb)|].
  destruct (queue_pop _ _ _ _ _ Q) as [Hh Q'].
  assert (Hph : phase_of R h = Some Queued) by (apply (i_qa _ _ _ _ _ I); set_solver).
  apply phase_of_Some in Hph as (r & Hr & Hph). exists h, r, qa'.
  split; [done|]. split; [done|]. split; [done|].
  pose proof (i_req _ _ _ _ _ I h r Hr) as Hw. rewrite Hph in Hw.
  destruct (i_fmt _ _ _ _ _ I h r Hr) as [_ _ _ _ Fb Fs Fk]. rewrite Hph in Fs, Fk. cbn in Fs.
  rewrite decide_False in Fk by done.
  pose proof (i_nda _ _ _ _ _ I) as [Hnin Hnd]%NoDup_cons.
  eapply inv_phase; try done; cbn.
  - intros b. split; [done|]. split; [apply I|]. case_decide; [by subst|done].
  - intros p. split; [|naive_solver]. intros Hl. split; [done|]. intros ->.
    apply (i_lock _ _ _ _ _ I) in Hl as (h' & b' & w' & Hl). cbn in Hw. destruct Hw; congruence.
  - apply I.
  - rewrite Hh. apply NoDup_app. split; [apply I|]. split; [|apply NoDup_singleton].
    intros x Hx ->%list_elem_of_singleton. revert Hx. eapply phase_not_in; [apply I|done|by rewrite Hph].
  - apply I.
  - eapply phase_del; [apply I|done|]. intros i. set_solver.
  - rewrite Hh. apply phase_add; [apply I|by rewrite Hph].
  - apply phase_mem; [apply I|done|by rewrite Hph|done].
  - intros i _ Hi. by apply I.
Qed.

(** The transfer of a request, as the device makes it. *)
Definition transfer (r : vreq) (o : outcome) (s : vst) : vst :=
  let bf := v_bufs s (q_b r) in
  let off := db_blockno bf * BSIZE in
  if q_w r then set_v_disk (disk_store (v_disk s) off (bytes_of o (db_data bf))) s
  else set_v_bufs (upd (q_b r) (set_db_data (bytes_of o (disk_bytes (v_disk s) off BSIZE)) bf) (v_bufs s)) s.

Definition served (h : Z) (r : vreq) (o : outcome) (s : vst) : vst :=
  let s := transfer r o s in
  set_v_info_status (upd h (status_of o) (v_info_status s))
    (set_v_used_ring (upd (v_used_idx s mod NUM) h (v_used_ring s))
      (set_v_used_idx (u16 (v_used_idx s + 1))
        (set_v_pending (filter (fun x => x <> h) (v_pending s)) s))).

Lemma dev_serve_run s R qa qu h r o : inv cap s R qa qu -> R !! h = Some r ->
  dev_serve cap h o s = Some (served h r o s).
Proof.
  intros I Hr. destruct (i_fmt _ _ _ _ _ I h r Hr) as [F0 F1 F2 F3 _ _ _].
  destruct (i_blk _ _ _ _ _ I (q_p r) (q_b r)) as (_ & Hb & Hc); [by eapply req_head|].
  unfold dev_serve. rewrite F0. cbn [d_next d_addr]. rewrite F1. cbn [d_next d_addr]. rewrite F2.
  cbn [d_next d_addr d_len]. rewrite F3. cbn [r_sector].
  set (bno := db_blockno (v_bufs s (q_b r))) in *.
  rewrite (proj2 (Z.leb_le _ (cap * 512))) by (change BSIZE with 1024; lia).
  replace (has_flag (mkDesc (AData (q_b r)) BSIZE (if q_w r then 1 else 3) (q_2 r)) VRING_DESC_F_NEXT)
    with true by (by destruct (q_w r)).
  change (has_flag (mkDesc (AOps h) 16 1 (q_1 r)) VRING_DESC_F_NEXT) with true.
  change (has_flag (mkDesc (AStatus h) 1 2 0) VRING_DESC_F_NEXT) with false.
  change (has_flag (mkDesc (AStatus h) 1 2 0) VRING_DESC_F_WRITE) with true.
  change (BSIZE mod 512 =? 0) with true. cbn [andb negb Z.eqb Pos.eqb].
  unfold dev_transfer, served, transfer. cbn [r_sector r_type d_len].
  replace (bno * 2 * 512) with (bno * BSIZE) by (change BSIZE with 1024; lia).
  destruct (q_w r); cbn [has_flag d_flags VRING_DESC_F_WRITE]; [|done].
  change (Z.to_nat BSIZE) with bsize. rewrite take_ge; [done|].
  rewrite (i_len _ _ _ _ _ I). done.
Qed.

Lemma length_disk_bytes d off len : length (disk_bytes d off len) = Z.to_nat len.
Proof. unfold disk_bytes. by rewrite length_fmap, length_seqZ. Qed.

(** The device finishes a request. *)
Lemma served_inv s R qa qu h r o : documented o -> inv cap s R qa qu -> R !! h = Some r ->
  q_ph r = Taken -> inv cap (served h r o s) (<[h := set_ph Used r]> R) qa (qu ++ [h]).
Proof.
  intros Ho I Hr Hph.
  pose proof (i_req _ _ _ _ _ I h r Hr) as Hw. rewrite Hph in Hw.
  destruct (i_fmt _ _ _ _ _ I h r Hr) as [_ _ _ _ Fb Fs Fk]. rewrite Hph in Fs, Fk. cbn in Fs.
  rewrite decide_False in Fk by done.
  assert (Hin : h ∉ qu) by (eapply phase_not_in; [apply I|done|by rewrite Hph]).
  assert (Hroom : Z.of_nat (length qu) < NUM).
  { eapply ring_room; [done|done|apply I|]. intros x Hx. split; [by intros ->|].
    apply (i_qu _ _ _ _ _ I), phase_of_Some in Hx as (r' & Hr' & _). by exists r'. }
  assert (Et : forall A (f : vst -> A), (forall x s, f (set_v_disk x s) = f s) ->
    (forall x s, f (set_v_bufs x s) = f s) -> f (transfer r o s) = f s).
  { intros A f H1 H2. unfold transfer. by destruct (q_w r). }
  eapply inv_phase; try done; cbn; try (by apply Et).
  - rewrite upd_same. destruct o as [|st junk]; [by left|]. by right; destruct Ho.
  - intros i Hi. rewrite upd_other by done. by rewrite (Et _ v_info_status).
  - intros b. unfold transfer. destruct (q_w r); cbn.
    + split; [done|]. split; [apply I|]. case_decide; [by subst|done].
    + rewrite upd_at. case_decide as Hd; [subst|].
      * cbn. split; [done|]. split; [|done]. destruct o; [apply length_disk_bytes|apply Ho].
      * split; [done|]. split; [apply I|done].
  - intros p _. by rewrite (Et _ v_pc).
  - by rewrite (Et _ v_pc).
  - intros p. rewrite (Et _ v_lock) by done. split; [|naive_solver]. intros Hl. split; [done|].
    intros ->. apply (i_lock _ _ _ _ _ I) in Hl as (h' & b' & w' & Hl). cbn in Hw. destruct Hw; congruence.
  - rewrite (Et _ v_avail_ring), (Et _ v_last), (Et _ v_avail_idx) by done. apply I.
  - rewrite (Et _ v_used_ring), (Et _ v_seen), (Et _ v_used_idx) by done.
    apply queue_publish; [|by rewrite upd_same]. by apply queue_write; [apply I|].
  - apply I.
  - rewrite (Et _ v_pending) by done. apply NoDup_filter, I.
  - apply NoDup_app. split; [apply I|]. split; [set_solver|apply NoDup_singleton].
  - apply phase_mem; [apply I|done|by rewrite Hph|done].
  - rewrite (Et _ v_pending) by done. eapply phase_del; [apply I|done|].
    intros i. rewrite list_elem_of_filter. naive_solver.
  - apply phase_add; [apply I|by rewrite Hph].
  - intros i _ Hi. rewrite (Et _ v_avail_ring), (Et _ v_avail_idx) by done. by apply I.
Qed.

(** A process wakes up before its request is finished. *)
Lemma wait_again_inv s R qa qu p h b w : inv cap s R qa qu -> v_pc s p = Woken h b w ->
  v_lock s = None -> db_disk (v_bufs s b) = 1 ->
  inv cap (set_v_pc (upd p (SleepBuf h b w) (v_pc s)) s) R qa qu.
Proof.
  intros I Hpc Hl Hd. eapply inv_quiet; try done; cbn.
  - intros q. rewrite upd_at. case_decide; [subst; by rewrite Hpc|done].
  - intros h' r Hr. pose proof (i_req _ _ _ _ _ I h' r Hr) as Hw. rewrite upd_at.
    case_decide as Hq; [|done]. subst p. rewrite Hpc in Hw.
    pose proof (f_dk _ _ _ (i_fmt _ _ _ _ _ I h' r Hr)) as Fk.
    destruct (q_ph r); cbn in Hw |- *; destruct_or?; simplify_eq; auto.
    rewrite decide_True in Fk by done. congruence.
Qed.

(** The last part of a call: the three descriptors are free again. *)
Lemma finish_inv s R qa qu p h b w : inv cap s R qa qu -> v_pc s p = Woken h b w ->
  v_lock s = None -> db_disk (v_bufs s b) <> 1 ->
  exists r s', rw_wait p h b w (set_v_lock (Some (TProc p)) s) = Ok tt s' /\
    R !! h = Some r /\ q_p r = p /\ q_b r = b /\ q_w r = w /\ q_ph r = Seen /\
    inv cap s' (delete h R) qa qu /\
    (forall q, v_pc s' q = if decide (q = p) then Idle
                           else match v_pc s q with SleepFree b w => Want b w | c => c end) /\
    v_bufs s' = v_bufs s /\ v_info_status s' = v_info_status s /\ v_disk s' = v_disk s /\
    v_lock s' = None.
Proof.
  intros I Hpc Hl Hd. destruct (i_pc _ _ _ _ _ I p h) as (r & Hr & Hp); [by rewrite Hpc|].
  pose proof (i_req _ _ _ _ _ I h r Hr) as Hw. rewrite Hp, Hpc in Hw.
  assert (q_b r = b /\ q_w r = w) as [<- <-].
  { destruct (q_ph r); cbn in Hw; destruct_or?; simplify_eq; done. }
  pose proof (i_fmt _ _ _ _ _ I h r Hr) as [F0 F1 F2 _ _ _ Fk].
  assert (Hph : q_ph r = Seen) by (by case_decide). clear Fk.
  set (s1 := set_v_info_b (upd h None (v_info_b s)) (set_v_lock (Some (TProc p)) s)).
  destruct (free_chain_run h r s1) as (s2 & Hrun & Hfr); [by apply I| |done|done|done|].
  { intros i Hi. by eapply (req_owned _ _ _ _ _ I). }
  exists r, (set_v_pc (upd p Idle (v_pc s2)) (set_v_lock None s2)). split.
  { unfold rw_wait. rewrite (run_bind _ _ _ (db_disk (v_bufs s (q_b r))) (set_v_lock (Some (TProc p)) s)) by done.
    rewrite (proj2 (Z.eqb_neq _ _)) by done.
    rewrite (run_bind _ _ _ tt s1) by done. rewrite (run_bind _ _ _ _ _ Hrun). done. }
  do 5 (split; [done|]). destruct Hfr as [G1 G2 G3 _ G4].
  assert (Hpcs : forall q, upd p Idle (v_pc s2) q = if decide (q = p) then Idle
       else match v_pc s q with SleepFree b w => Want b w | c => c end).
  { intros q. rewrite upd_at. repeat case_decide; try congruence. by rewrite G3. }
  rewrite G4. cbn. split; [|by repeat split].
  assert (Hne : forall h' r', delete h R !! h' = Some r' -> h' <> h /\ R !! h' = Some r' /\
    q_p r' <> p /\ forall i, i ∈ chain h' r' -> i ∉ chain h r).
  { intros h' r' [Hne H]%lookup_delete_Some. split; [done|]. split; [done|]. split.
    - intros He. apply Hne. eapply req_inj_p; [done|exact Hr|done|congruence].
    - intros i Hi Hi'. apply Hne. by eapply (i_disj _ _ _ _ _ I). }
  assert (Hph' : forall i x, x <> Seen -> phase_of (delete h R) i = Some x <-> phase_of R i = Some x).
  { intros i x Hx. unfold phase_of. destruct (decide (i = h)) as [->|Hi].
    - rewrite lookup_delete_eq, Hr. cbn. naive_solver congruence.
    - by rewrite lookup_delete_ne. }
  split; cbn; try apply I.
  - intros h' r' (_ & H & _)%Hne. by apply I.
  - intros h1 r1 h2 r2 i (_ & H1 & _)%Hne (_ & H2 & _)%Hne. by apply I.
  - intros i Hi. rewrite G1. case_decide as Hin.
    + split; [done|]. intros (h' & r' & (_ & H & _ & Hc)%Hne & Hi'). by destruct (Hc i Hi').
    + cbn. rewrite (i_free _ _ _ _ _ I i Hi). split.
      * intros (h' & r' & H & Hi'). exists h', r'. split; [|done]. apply lookup_delete_Some.
        split; [|done]. intros ->. congruence.
      * intros (h' & r' & (_ & H & _)%Hne & Hi'). eauto.
  - intros h' r' (Hn & H & _ & Hc)%Hne.
    eapply formatted_ext; [by apply I| |done|cbn; by rewrite upd_other|done|done|done].
    intros i Hi. cbn. rewrite G2, decide_False by (by apply Hc). done.
  - intros h' r' (_ & H & Hq & _)%Hne. rewrite Hpcs, decide_False by done.
    pose proof (i_req _ _ _ _ _ I h' r' H) as Hw'. pose proof (waits_uses _ _ _ _ _ Hw') as [_ Hh].
    by destruct (v_pc s (q_p r')).
  - intros q h'. rewrite Hpcs. case_decide as Hq; [done|]. intros Hh.
    destruct (i_pc _ _ _ _ _ I q h') as (r' & Hr' & Hq'); [by destruct (v_pc s q)|].
    exists r'. split; [|done]. apply lookup_delete_Some. split; [|done]. intros <-. congruence.
  - intros q q' b. rewrite !Hpcs. repeat case_decide; try done. intros U U'.
    apply (i_one _ _ _ _ _ I _ _ b); [by destruct (v_pc s q)|by destruct (v_pc s q')].
  - intros q b. rewrite Hpcs. case_decide; [done|]. intros U. apply (i_blk _ _ _ _ _ I q).
    by destruct (v_pc s q).
  - intros q. split; [done|]. intros (h' & b' & w' & H). rewrite Hpcs in H. case_decide; [done|].
    assert (Hq : v_pc s q = Ready h' b' w') by (by destruct (v_pc s q)).
    assert (v_lock s = Some (TProc q)) by (apply (i_lock _ _ _ _ _ I); eauto). congruence.
  - intros i. rewrite Hph' by done. apply I.
  - intros i. rewrite Hph' by done. apply I.
  - intros i. rewrite Hph' by done. apply I.
  - intros i. rewrite Hph' by done. apply I.
Qed.

(** The request that [format_request] writes; nothing else changes. *)
Record formats (i j k : Z) (b : nat) (w : bool) (s s' : vst) : Prop := {
  fo_d : v_desc s' i = mkDesc (AOps i) 16 1 j /\
    v_desc s' j = mkDesc (AData b) BSIZE (if w then 1 else 3) k /\
    v_desc s' k = mkDesc (AStatus i) 1 2 0 /\
    forall x, x ∉ [i; j; k] -> v_desc s' x = v_desc s x;
  fo_ops : v_ops s' = upd i (mkReq (if w then 1 else 0) 0 (u32 (db_blockno (v_bufs s b) * 2))) (v_ops s);
  fo_st : v_info_status s' = upd i 255 (v_info_status s);
  fo_ib : v_info_b s' = upd i (Some b) (v_info_b s);
  fo_ring : v_avail_ring s' = upd (v_avail_idx s mod NUM) i (v_avail_ring s);
  fo_bufs : v_bufs s' = upd b (set_db_disk 1 (v_bufs s b)) (v_bufs s);
  fo_rest : s' = set_v_desc (v_desc s') (set_v_ops (v_ops s') (set_v_info_status (v_info_status s')
    (set_v_info_b (v_info_b s') (set_v_avail_ring (v_avail_ring s') (set_v_bufs (v_bufs s') s)))))
}.

Lemma format_request_run i j k b w s : NoDup [i; j; k] ->
  exists s', format_request i j k b w s = Ok tt s' /\ formats i j k b w s s'.
Proof.
  rewrite !NoDup_cons. intros (N1 & N2 & _).
  assert (i <> j /\ i <> k /\ j <> k) as (E1 & E2 & E3) by set_solver.
  eexists. split.
  { cbv [format_request mbind M_bind gets set_ops set_desc set_status set_buf set_info_b modify].
    reflexivity. }
  split; cbn; try done. rewrite !upd_at. repeat split.
  - repeat case_decide; try congruence; done.
  - repeat case_decide; try congruence. by destruct w.
  - repeat case_decide; try congruence; done.
  - intros x Hx. rewrite !upd_at. repeat case_decide; set_solver.
Qed.

(** A process gets its descriptors and writes its request. *)
Lemma submit_inv s s' R qa qu p b w i j k : inv cap s R qa qu -> v_pc s p = Want b w ->
  v_lock s = None -> available s [i; j; k] ->
  formats i j k b w (taken [i; j; k] (set_v_lock (Some (TProc p)) s)) s' ->
  inv cap (set_v_pc (upd p (Ready i b w) (v_pc s')) s')
    (<[i := mkVreq p b w j k Prep]> R) qa qu /\ R !! i = None.
Proof.
  intros I Hpc Hl [Hnd Hav] [(D0 & D1 & D2 & Dx) Eo Es Eb Er Ebf Hrest].
  set (s0 := set_v_lock (Some (TProc p)) s) in *.
  assert (Hf0 := taken_free [i; j; k] s0). rewrite (taken_rest [i; j; k] s0) in *.
  set (fr := v_free (taken [i; j; k] s0)) in *. cbn in D0, D1, D2, Dx, Eo, Es, Eb, Er, Ebf.
  destruct (i_blk _ _ _ _ _ I p b) as (Hbn & Hb & Hc); [by rewrite Hpc|].
  set (r := mkVreq p b w j k Prep).
  assert (Hown : forall h r', R !! h = Some r' -> forall x, x ∈ chain h r' -> x ∉ [i; j; k]).
  { intros h r' Hr' x Hx Hin. destruct (Hav x Hin) as [_ Hne]. apply Hne.
    by eapply (req_owned _ _ _ _ _ I). }
  assert (Hnone : R !! i = None).
  { destruct (R !! i) as [r'|] eqn:Hr'; [|done]. exfalso.
    apply (Hown i r' Hr' i); [unfold chain|]; set_solver. }
  split; [|done].
  assert (Hlook : forall h r', <[i := r]> R !! h = Some r' ->
    h = i /\ r' = r \/ h <> i /\ R !! h = Some r' /\ q_p r' <> p /\ q_b r' <> b).
  { intros h r' [[<- <-]|[Hne H]]%lookup_insert_Some; [by left|]. right. repeat split; [done|done| |].
    - intros He. pose proof (req_head _ _ _ _ _ I h r' H) as [_ Hh]. rewrite He, Hpc in Hh. done.
    - intros He. pose proof (req_head _ _ _ _ _ I h r' H) as [Hu Hh].
      assert (q_p r' = p) as Hp.
      { apply (i_one _ _ _ _ _ I _ _ b); [by rewrite Hu, He|by rewrite Hpc]. }
      rewrite Hp, Hpc in Hh. done. }
  assert (Hpcs : forall q, upd p (Ready i b w) (v_pc s') q = if decide (q = p) then Ready i b w else v_pc s q).
  { assert (Hpcf : v_pc s' = v_pc s) by (rewrite Hrest; done).
    intros q. rewrite upd_at, Hpcf. repeat case_decide; congruence. }
  assert (Eq : v_lock s' = Some (TProc p) /\ v_free s' = fr /\ v_avail_idx s' = v_avail_idx s /\
    v_last s' = v_last s /\ v_used_idx s' = v_used_idx s /\ v_used_ring s' = v_used_ring s /\
    v_seen s' = v_seen s /\ v_pending s' = v_pending s) by (rewrite Hrest; done).
  destruct Eq as (E1 & E2 & E3 & E4 & E5 & E6 & E7 & E8). clear Hrest.
  assert (Hph : forall h x, x <> Prep -> phase_of (<[i := r]> R) h = Some x <-> phase_of R h = Some x).
  { intros h x Hx. destruct (decide (i = h)) as [<-|Hne].
    - unfold phase_of. rewrite lookup_insert_eq, Hnone. cbn. naive_solver.
    - by rewrite phase_of_insert_ne. }
  assert (Hprep : forall h, phase_of R h <> Some Prep).
  { intros h (r' & Hr' & Hp)%phase_of_Some. pose proof (i_req _ _ _ _ _ I h r' Hr') as Hw.
    rewrite Hp in Hw. cbn in Hw.
    assert (v_lock s = Some (TProc (q_p r'))) by (apply (i_lock _ _ _ _ _ I); eauto). congruence. }
  assert (Hroom : Z.of_nat (length qa) < NUM).
  { pose proof (heads_bound (i :: qa)) as H. cbn [length] in H. enough (Z.of_nat (S (length qa)) <= NUM) by lia.
    apply H.
    - apply NoDup_cons. split; [|apply I]. rewrite (i_qa _ _ _ _ _ I). unfold phase_of.
      by rewrite Hnone.
    - intros h [->|Hh]%elem_of_cons; [apply Hav; set_solver|].
      apply (i_qa _ _ _ _ _ I), phase_of_Some in Hh as (r' & Hr' & _). by eapply req_range. }
  split; cbn; rewrite ?E1, ?E3, ?E4, ?E5, ?E6, ?E7, ?E8; try apply I.
  - intros h r' [[-> ->]|(_ & H & _)]%Hlook; [|by apply I].
    split; [done|]. intros x Hx. by apply Hav.
  - intros h1 r1 h2 r2 x [[-> ->]|(_ & H1 & _)]%Hlook [[-> ->]|(_ & H2 & _)]%Hlook Hx1 Hx2; try done.
    + by destruct (Hown h2 r2 H2 x Hx2).
    + by destruct (Hown h1 r1 H1 x Hx1).
    + by eapply (i_disj _ _ _ _ _ I).
  - intros x Hx. rewrite E2, Hf0. case_decide as Hin.
    + split; [|done]. intros _. exists i, r. by rewrite lookup_insert_eq.
    + cbn. rewrite (i_free _ _ _ _ _ I x Hx). split.
      * intros (h & r' & H & Hi). exists h, r'. split; [|done]. rewrite lookup_insert_ne; [done|].
        intros <-. congruence.
      * intros (h & r' & [[-> ->]|(_ & H & _)]%Hlook & Hi); [done|eauto].
  - intros h r' [[-> ->]|(Hn & H & _ & Hbb)]%Hlook.
    + split; cbn; try done; rewrite ?Eo, ?Es, ?Eb, ?Ebf, ?upd_same; try done. cbn.
      unfold u32. rewrite Z.mod_small by lia. done.
    + eapply formatted_ext; [by apply I| |cbn..].
      * intros x Hx. cbn. apply Dx. by eapply Hown.
      * by rewrite Eo, upd_other.
      * by rewrite Eb, upd_other.
      * by rewrite Es, upd_other.
      * by rewrite Ebf, upd_other.
      * by rewrite Ebf, upd_other.
  - intros h r' [[-> ->]|(_ & H & Hp & _)]%Hlook; rewrite Hpcs.
    + by rewrite decide_True.
    + rewrite decide_False by done. by apply I.
  - intros q h. rewrite Hpcs. case_decide as Hq.
    + intros [= <-]. exists r. by rewrite lookup_insert_eq.
    + intros (r' & H & Hp)%(i_pc _ _ _ _ _ I). exists r'. split; [|done].
      rewrite lookup_insert_ne; [done|]. intros <-. congruence.
  - assert (Hus : forall q, uses (upd p (Ready i b w) (v_pc s') q) = uses (v_pc s q)).
    { intros q. rewrite Hpcs. case_decide; [subst; by rewrite Hpc|done]. }
    intros q q' b'. rewrite !Hus. apply I.
  - intros q b' Hu. rewrite Ebf. assert (Hu' : uses (v_pc s q) = Some b').
    { rewrite Hpcs in Hu. case_decide; [subst; by rewrite Hpc|done]. }
    destruct (i_blk _ _ _ _ _ I q b' Hu') as (X1 & X2 & X3). rewrite upd_at. by case_decide; subst.
  - intros q. rewrite Hpcs. case_decide as Hq; [subst; naive_solver|]. split; [naive_solver|].
    intros (h & b' & w' & H). assert (v_lock s = Some (TProc q)) by (apply (i_lock _ _ _ _ _ I); eauto).
    congruence.
  - rewrite Er. by apply queue_write; [apply I|].
  - intros h. rewrite Hph by done. apply I.
  - intros h. rewrite Hph by done. apply I.
  - intros h. rewrite Hph by done. apply I.
  - intros h Hh. rewrite Er. destruct (decide (i = h)) as [<-|Hne]; [by rewrite upd_same|].
    rewrite phase_of_insert_ne in Hh by done. by destruct (Hprep h).
  - intros b'. rewrite Ebf, upd_at. case_decide; cbn; apply I.
Qed.

End Steps.
