(* ===== verification/VirtioTheorems.v ===== *)
(** * Theorems about the disk driver

    The system of Virtio.v keeps its invariant and simulates the contract, event by event; it
    panics only on an error of the device and never loses a wakeup; and every call under way
    can return. *)

From stdpp Require Import base functions gmap list strings.
From Stdlib Require Import ZArith Lia.
From S2P Require Import Prelude Riscv Memory State Spinlock Sched Bio Virtio VirtioInv.

#[local] Set Warnings "-clear-no-such-hyp".

(** ** The disk in blocks *)

Lemma disk_bytes_ext d d' off len :
  (forall o, off <= o < off + len -> d o = d' o) -> disk_bytes d off len = disk_bytes d' off len.
Proof.
  intros H. unfold disk_bytes. apply list_fmap_ext. intros i x Hx.
  apply lookup_seqZ in Hx as [-> Hx]. apply H. lia.
Qed.

Lemma disk_store_same d off l : disk_bytes (disk_store d off l) off (Z.of_nat (length l)) = l.
Proof.
  unfold disk_bytes. apply list_eq. intros i. rewrite list_lookup_fmap.
  destruct (decide (i < length l)%nat) as [Hi|Hi].
  - rewrite (proj2 (lookup_seqZ 0 (Z.of_nat (length l)) i (Z.of_nat i))) by lia. cbn.
    unfold disk_store. rewrite (proj2 (Z.leb_le _ _)), (proj2 (Z.ltb_lt _ _)) by lia. cbn.
    replace (Z.to_nat (off + Z.of_nat i - off)) with i by lia.
    destruct (lookup_lt_is_Some_2 l i Hi) as [x Hx]. by rewrite (list_lookup_total_correct _ _ _ Hx).
  - rewrite lookup_seqZ_ge by lia. cbn. by rewrite lookup_ge_None_2 by lia.
Qed.

Lemma disk_store_other d off l off' len :
  off' + len <= off \/ off + Z.of_nat (length l) <= off' ->
  disk_bytes (disk_store d off l) off' len = disk_bytes d off' len.
Proof.
  intros H. apply disk_bytes_ext. intros o Ho. unfold disk_store.
  destruct (Z.leb_spec off o), (Z.ltb_spec o (off + Z.of_nat (length l))); cbn; try done. lia.
Qed.

(** ** Simulation *)

Section Simulation.
Context (cap : Z).

(** Nothing the contract talks about changes. *)
Lemma implements_stutter s s' c : implements cap s c ->
  (forall p, request (v_info_status s') (v_pc s' p) = request (v_info_status s) (v_pc s p)) ->
  v_disk s' = v_disk s ->
  (forall b, db_blockno (v_bufs s' b) = db_blockno (v_bufs s b) /\
             db_data (v_bufs s' b) = db_data (v_bufs s b)) ->
  implements cap s' c.
Proof.
  intros [I1 I2 I3 I4] Hr Hd Hb. split; [|by rewrite Hd|done|].
  - intros p. by rewrite Hr.
  - intros b. destruct (Hb b) as [-> ->]. apply I4.
Qed.

(** The request of another process does not depend on the status byte at [h]. *)
Lemma request_other s R qa qu h r x p : inv cap s R qa qu -> R !! h = Some r -> p <> q_p r ->
  request (upd h x (v_info_status s)) (v_pc s p) = request (v_info_status s) (v_pc s p).
Proof.
  intros I Hr Hp. assert (Hh : head_of (v_pc s p) <> Some h).
  { intros (r' & Hr' & Hq)%(i_pc _ _ _ _ _ I). congruence. }
  destruct (v_pc s p); cbn in *; try done; by rewrite upd_other by congruence.
Qed.

(** The device's transfer is the contract's, or the failure the contract knows of. *)
Definition after (b : nat) (w : bool) (o : outcome) (k : kst) : kst :=
  match o with
  | Failure _ junk => spoil b w junk k
  | Success =>
      let bf := get_buf b k in
      if w then set_k_dtrace ((b_blockno bf, b_data bf) :: k_dtrace k)
                  (set_k_disk (<[b_blockno bf := b_data bf]> (k_disk k)) k)
      else set_k_bufs (alter (set_b_data (disk_block (k_disk k) (b_blockno bf))) b (k_bufs k)) k
  end.

Lemma after_disk b w o k : k_disk (after b w o k) =
  if w then <[b_blockno (get_buf b k) := bytes_of o (b_data (get_buf b k))]> (k_disk k) else k_disk k.
Proof. by destruct o, w. Qed.

Lemma after_bufs b w o k : k_bufs (after b w o k) =
  if w then k_bufs k
  else alter (set_b_data (bytes_of o (disk_block (k_disk k) (b_blockno (get_buf b k))))) b (k_bufs k).
Proof. by destruct o, w. Qed.

Definition progress_after (o : outcome) : progress := match o with Success => Done | _ => Failed end.

Lemma after_step c p b w o : c_req c p = Some (b, w, Asked) ->
  cstep c (match o with Success => None | Failure _ _ => Some (EFail b) end)
    (mkContract (after b w o (c_k c)) (upd p (Some (b, w, progress_after o)) (c_req c))).
Proof.
  intros Hr. destruct o as [|st junk]; [|by apply CFail].
  apply (CPerform c p b w []); [done|]. unfold virtio_disk_rw.
  rewrite (run_bind _ _ _ (get_buf b (c_k c)) (mkWorld (c_k c) [])) by done. by destruct w.
Qed.

Lemma served_performs s R qa qu h r o c : documented o -> inv cap s R qa qu -> R !! h = Some r ->
  q_ph r = Taken -> implements cap s c ->
  exists c', cstep c (match o with Success => None | Failure _ _ => Some (EFail (q_b r)) end) c' /\
    implements cap (served h r o s) c'.
Proof.
  intros Ho I Hr Hph [M1 M2 M3 M4].
  pose proof (i_req _ _ _ _ _ I h r Hr) as Hw. rewrite Hph in Hw.
  pose proof (f_st _ _ _ (i_fmt _ _ _ _ _ I h r Hr)) as Fs. rewrite Hph in Fs. cbn in Fs.
  destruct (i_blk _ _ _ _ _ I (q_p r) (q_b r)) as (Hbn & Hb & Hc); [by eapply req_head|].
  assert (Hreq : c_req c (q_p r) = Some (q_b r, q_w r, Asked)).
  { rewrite M1. destruct Hw as [-> | ->]; cbn; by rewrite Fs. }
  destruct (M4 (q_b r) Hbn) as [Bb Bd].
  eexists. split; [by apply (after_step c (q_p r) (q_b r) (q_w r) o)|].
  split; cbn [c_k c_req].
  - assert (Hst : progress_of (status_of o) = progress_after o).
    { destruct o as [|st junk]; [done|]. destruct Ho as [[-> | ->] _]; done. }
    assert (Hpc : v_pc (served h r o s) = v_pc s) by (unfold served, transfer; by destruct (q_w r)).
    assert (Hss : v_info_status (served h r o s) = upd h (status_of o) (v_info_status s))
      by (unfold served, transfer; by destruct (q_w r)).
    intros p. rewrite Hpc, Hss, upd_at. case_decide as Hp; [subst p|].
    + destruct Hw as [-> | ->]; cbn; by rewrite upd_same, Hst.
    + rewrite M1. symmetry. by eapply request_other.
  - intros bno H0 H1. rewrite after_disk. unfold served, transfer, disk_block.
    destruct (q_w r); cbn; [|by apply M2]. rewrite Bb, Bd.
    assert (Hlen : Z.of_nat (length (bytes_of o (db_data (v_bufs s (q_b r))))) = BSIZE).
    { destruct o; cbn; [by rewrite (i_len _ _ _ _ _ I)|by rewrite (proj2 Ho)]. }
    destruct (decide (bno = db_blockno (v_bufs s (q_b r)))) as [->|Hne].
    + rewrite lookup_insert_eq. cbn. symmetry. rewrite <- Hlen at 3. apply disk_store_same.
    + rewrite lookup_insert_ne by congruence. rewrite disk_store_other; [by apply M2|].
      rewrite Hlen. change BSIZE with 1024. lia.
  - rewrite after_bufs. destruct (q_w r); [done|]. by rewrite length_alter.
  - intros b Hb'. unfold get_buf at 1 2. rewrite after_bufs. unfold served, transfer.
    destruct (q_w r); [by apply M4|]. cbn. rewrite upd_at.
    rewrite list_lookup_total_alter. destruct (decide (q_b r = b)) as [Hd|Hd].
    + subst b. rewrite decide_True by (split; [done|rewrite M3; lia]). cbn.
      fold (get_buf (q_b r) (c_k c)). rewrite Bb. split; [done|]. by rewrite M2 by lia.
    + rewrite decide_False by (intros []; congruence). by apply M4.
Qed.

(** A step with event [e] is matched by the contract: by a step with the same event, or, when
    it has none, by nothing. *)
Definition csim (e : option event) (s s' : vst) : Prop := forall c, implements cap s c ->
  exists c', (e = None /\ c' = c \/ cstep c e c') /\ implements cap s' c'.

(** An action that can be taken keeps the invariant and does what the contract allows. *)
Definition good (ev : vst -> option event) (m : V unit) (s : vst) : Prop :=
  m s = Blocked s \/
  exists s' R' qa' qu', m s = Ok tt s' /\ inv cap s' R' qa' qu' /\ csim (ev s') s s'.

(** Events that mean nothing to the contract. *)
Definition silent (e : option event) : Prop := e = None \/ exists p, e = Some (EWake p).

Lemma csim_stutter e s s' : silent e ->
  (forall p, request (v_info_status s') (v_pc s' p) = request (v_info_status s) (v_pc s p)) ->
  v_disk s' = v_disk s ->
  (forall b, db_blockno (v_bufs s' b) = db_blockno (v_bufs s b) /\
             db_data (v_bufs s' b) = db_data (v_bufs s b)) -> csim e s s'.
Proof.
  intros He H1 H2 H3 c Hc. exists c. split; [|by eapply implements_stutter].
  destruct He as [->|[p ->]]; [by left|right; apply CWake].
Qed.

Lemma quiet_good ev (m : V unit) s s' R qa qu : inv cap s R qa qu -> m s = Ok tt s' ->
  silent (ev s') -> inv cap s' R qa qu -> v_info_status s' = v_info_status s -> v_disk s' = v_disk s ->
  v_bufs s' = v_bufs s ->
  (forall p, request (v_info_status s) (v_pc s' p) = request (v_info_status s) (v_pc s p)) -> good ev m s.
Proof.
  intros I Hm He I' E1 E2 E3 E4. right. exists s', R, qa, qu. split; [done|]. split; [done|].
  apply csim_stutter; [done|by rewrite E1|done|by rewrite E3].
Qed.

Lemma call_inv s R qa qu p b w : inv cap s R qa qu -> may_call cap (Call p b w) s ->
  v_pc s p = Idle -> inv cap (set_v_pc (upd p (Want b w) (v_pc s)) s) R qa qu.
Proof.
  intros I (Hu & Hbn & Hb & Hc) Hpc.
  assert (Hno : forall h r, R !! h = Some r -> q_p r <> p).
  { intros h r Hr Hp. pose proof (req_head _ _ _ _ _ I h r Hr) as [Hh _]. rewrite Hp, Hpc in Hh. done. }
  split; cbn; try apply I.
  - intros h r Hr. destruct (i_fmt _ _ _ _ _ I h r Hr). by split.
  - intros h r Hr. rewrite upd_other by (intros ->; by eapply Hno). by apply I.
  - intros q h. rewrite upd_at. case_decide; [done|]. apply I.
  - intros q q' b'. rewrite !upd_at. repeat case_decide; cbn; try (intros; congruence). apply I.
  - intros q b'. rewrite upd_at. case_decide; [by intros [= <-]|]. apply I.
  - intros q. rewrite upd_at. case_decide; [subst|apply I].
    rewrite (i_lock _ _ _ _ _ I), Hpc. naive_solver.
Qed.

Lemma call_good s R qa qu p b w : inv cap s R qa qu -> may_call cap (Call p b w) s ->
  good (event_of (Call p b w)) (exec (Call p b w)) s.
Proof.
  intros I Hm. unfold good, exec, mbind, M_bind, gets.
  destruct (v_pc s p) eqn:Hpc; try by left. right.
  eexists _, R, qa, qu. split; [done|]. split; [by apply call_inv|]. destruct Hm as [Hu _].
  intros c [M1 M2 M3 M4]. eexists. split.
  - right. apply (CCall c p b w); [by rewrite M1, Hpc|].
    intros q b' w' d Hq ->. rewrite M1 in Hq. apply (Hu q). by destruct (v_pc s q); cbn in *; simplify_eq.
  - split; cbn; try done. intros q. rewrite !upd_at. case_decide; [done|]. by rewrite M1.
Qed.

Lemma spurious_good s R qa qu p : inv cap s R qa qu -> good (event_of (Spurious p)) (exec (Spurious p)) s.
Proof.
  intros I. unfold good at 1, exec, mbind, M_bind, gets.
  destruct (v_pc s p) as [| |b w| |h b w|] eqn:Hpc; try by left.
  - change (good (event_of (Spurious p)) (set_pc p (Want b w)) s).
    assert (Hq : forall q, upd p (Want b w) (v_pc s) q = v_pc s q \/
      q = p /\ upd p (Want b w) (v_pc s) q = Want b w).
    { intros q. rewrite upd_at. case_decide; auto. }
    eapply quiet_good; [done|done|right; by exists p| |done..|]; cbn.
    + eapply inv_quiet; try done; cbn.
      * intros q. destruct (Hq q) as [->|[-> ->]]; [done|]. rewrite Hpc. done.
      * intros h r Hr. pose proof (i_req _ _ _ _ _ I h r Hr) as Hw.
        destruct (Hq (q_p r)) as [->|[He _]]; [done|].
        pose proof (waits_uses _ _ _ _ _ Hw) as [_ Hh]. rewrite He, Hpc in Hh. done.
    + intros q. destruct (Hq q) as [->|[-> ->]]; [done|]. by rewrite Hpc.
  - change (good (event_of (Spurious p)) (set_pc p (Woken h b w)) s).
    assert (Hq : forall q, upd p (Woken h b w) (v_pc s) q = v_pc s q \/
      q = p /\ upd p (Woken h b w) (v_pc s) q = Woken h b w).
    { intros q. rewrite upd_at. case_decide; auto. }
    eapply quiet_good; [done|done|right; by exists p| |done..|]; cbn.
    + eapply inv_quiet; try done; cbn.
      * intros q. destruct (Hq q) as [->|[-> ->]]; [done|]. rewrite Hpc. done.
      * intros h' r Hr. pose proof (i_req _ _ _ _ _ I h' r Hr) as Hw.
        destruct (Hq (q_p r)) as [->|[He ->]]; [done|]. rewrite He, Hpc in Hw.
        destruct (q_ph r); cbn in *; destruct_or?; simplify_eq; auto.
    + intros q. destruct (Hq q) as [->|[-> ->]]; [done|]. by rewrite Hpc.
Qed.

Lemma intr_enter_good s R qa qu x : inv cap s R qa qu -> good (event_of (IntrEnter x)) (exec (IntrEnter x)) s.
Proof.
  intros I. destruct (v_lock s) as [t|] eqn:Hl.
  - left. cbn. unfold intr_enter, mbind, M_bind. by rewrite (acquire_vdisk_busy _ t).
  - eapply (quiet_good _ _ _ (set_v_mmio ((VIRTIO_MMIO_INTERRUPT_ACK, u32 (Z.land x 0x3)) :: v_mmio s)
              (set_v_lock (Some TIntr) s))); [done| |by left| |done..].
    + cbn. unfold intr_enter, mbind, M_bind. rewrite acquire_vdisk_run by done. reflexivity.
    + eapply inv_quiet; try done; cbn; [|apply I]. intros p. rewrite Hl. naive_solver.
Qed.

(** The handler is at an entry of the used ring whose request failed. *)
Definition at_error (s : vst) : Prop :=
  v_lock s = Some TIntr /\ v_seen s <> v_used_idx s /\ v_info_status s (front s) <> 0.

Lemma intr_loop_good s R qa qu : inv cap s R qa qu -> ~ at_error s ->
  good (event_of IntrLoop) (exec IntrLoop) s.
Proof.
  intros I Hne. unfold good, exec. rewrite (run_bind _ _ _ (v_lock s) s) by done.
  destruct (v_lock s) as [[p|]|] eqn:Hl; try by left. right.
  unfold intr_loop. rewrite (run_bind _ _ _ (v_seen s) s), (run_bind _ _ _ (v_used_idx s) s) by done.
  destruct (v_seen s =? v_used_idx s) eqn:He; cbn [negb].
  - exists (set_v_lock None s), R, qa, qu. split; [done|]. split.
    + eapply inv_quiet; try done; cbn; [|apply I]. intros p. rewrite Hl. naive_solver.
    + apply csim_stutter; [by left|done..].
  - apply Z.eqb_neq in He. assert (Hst : v_info_status s (front s) = 0) by (apply dec_stable; intros Hst; by apply Hne).
    destruct (intr_turn_inv cap s R qa qu I He Hst)
      as (h & r & qu' & s' & Hrun & -> & Hr & Hph & I' & Hp & Hq & Hb & Hs & Hd & _).
    exists s', (<[h := set_ph Seen r]> R), qa, qu'. split; [done|]. split; [done|].
    pose proof (i_req _ _ _ _ _ I h r Hr) as Hw. rewrite Hph in Hw.
    apply csim_stutter; [by left| |done|].
    + intros p. rewrite Hs. destruct (decide (p = q_p r)) as [->|Hn]; [|by rewrite Hq].
      rewrite Hp. by destruct Hw as [-> | ->].
    + intros b. rewrite Hb. by case_decide.
Qed.

(** Not enough descriptors: those that were allocated are freed again. *)
Lemma alloc_fails_inv s s' R qa qu p b w l : inv cap s R qa qu -> v_pc s p = Want b w ->
  v_lock s = None -> available s l -> frees l (set_v_lock (Some (TProc p)) s) s' ->
  inv cap (set_v_lock None (set_v_pc (upd p (SleepFree b w) (v_pc s')) s')) R qa qu /\
  csim None s (set_v_lock None (set_v_pc (upd p (SleepFree b w) (v_pc s')) s')).
Proof.
  intros I Hpc Hl [_ Hav] [F1 F2 F3 F5 F4]. cbn in F1, F2, F3, F5.
  assert (Hp : forall q, upd p (SleepFree b w) (v_pc s') q = v_pc s q \/
    exists b' w', (upd p (SleepFree b w) (v_pc s') q = Want b' w' \/
                   upd p (SleepFree b w) (v_pc s') q = SleepFree b' w') /\
                  (v_pc s q = Want b' w' \/ v_pc s q = SleepFree b' w')).
  { intros q. rewrite upd_at. case_decide as Hq; [subst; right; exists b, w; auto|].
    destruct (decide (l = [])) as [->|Hne].
    - left. by rewrite F5.
    - rewrite F3 by done. destruct (v_pc s q) as [| |b' w'| | |]; auto. right. exists b', w'. auto. }
  rewrite F4. cbn. split.
  - eapply inv_quiet; try done; cbn.
    + intros i Hi. rewrite F1. case_decide as Hin; [|done]. split; [done|]. intros H0.
      by destruct (Hav i Hin) as [_ []].
    + intros i Hi H0. rewrite F2. case_decide as Hin; [|done]. by destruct (Hav i Hin) as [_ []].
    + intros q. by rewrite Hl.
    + intros q. destruct (Hp q) as [->|(b' & w' & [-> | ->] & [-> | ->])]; done.
    + intros h r Hr. pose proof (i_req _ _ _ _ _ I h r Hr) as Hw.
      destruct (Hp (q_p r)) as [->|(b' & w' & _ & Hc)]; [done|].
      pose proof (waits_uses _ _ _ _ _ Hw) as [_ Hh]. destruct Hc as [Hc|Hc]; rewrite Hc in Hh; done.
  - apply csim_stutter; [by left| |done|done]. intros q. cbn.
    destruct (Hp q) as [->|(b' & w' & [-> | ->] & [-> | ->])]; done.
Qed.

Lemma run_want_good s R qa qu p b w : inv cap s R qa qu -> v_pc s p = Want b w ->
  good (event_of (Run p)) (rw_alloc p b w) s.
Proof.
  intros I Hpc. destruct (v_lock s) as [t|] eqn:Hl.
  { left. unfold rw_alloc, mbind, M_bind. by rewrite (acquire_vdisk_busy _ t). }
  right. unfold rw_alloc. rewrite (run_bind _ _ _ _ _ (acquire_vdisk_run (TProc p) s Hl)).
  destruct (alloc3_desc_run (set_v_lock (Some (TProc p)) s))
    as [(i & j & k & Hav & Hrun)|(l & s' & _ & Hav & _ & Hrun & Hfr)]; rewrite (run_bind _ _ _ _ _ Hrun).
  - destruct (format_request_run i j k b w (taken [i; j; k] (set_v_lock (Some (TProc p)) s)))
      as (s' & Hf & Hfo); [apply Hav|].
    rewrite (run_bind _ _ _ _ _ Hf).
    destruct (submit_inv cap s s' R qa qu p b w i j k I Hpc Hl Hav Hfo) as [I' Hnone].
    eexists _, _, qa, qu. split; [done|]. split; [exact I'|].
    destruct Hfo as [_ _ Es _ _ Ebf Hrest].
    rewrite (taken_rest [i; j; k]) in Es, Ebf, Hrest. cbn in Es, Ebf.
    apply csim_stutter; cbn.
    + rewrite upd_same. by left.
    + rewrite Es, Hrest. cbn. intros q. rewrite upd_at. case_decide as Hq.
      * subst. rewrite Hpc. cbn. by rewrite upd_same.
      * assert (Hh : head_of (v_pc s q) <> Some i).
        { intros (r' & Hr' & _)%(i_pc _ _ _ _ _ I). congruence. }
        destruct (v_pc s q); cbn in *; try done; by rewrite upd_other by congruence.
    + by rewrite Hrest.
    + intros b'. rewrite Ebf, upd_at. case_decide; by subst.
  - destruct (alloc_fails_inv s s' R qa qu p b w l I Hpc Hl Hav Hfr) as [I' Hc].
    eexists _, R, qa, qu. split; [done|]. split; [done|]. cbn. by rewrite upd_same.
Qed.

Lemma run_good s R qa qu p : inv cap s R qa qu -> good (event_of (Run p)) (exec (Run p)) s.
Proof.
  intros I. destruct (v_pc s p) as [|b w| |h b w| |h b w] eqn:Hpc;
    unfold good, exec; rewrite (run_bind _ _ _ (v_pc s p) s) by done; rewrite Hpc; try by left.
  - by eapply run_want_good.
  - right. destruct (publish_inv cap s R qa qu p h b w I Hpc) as (r & s' & Hrun & Hr & Hph & I' & Hs).
    eexists s', _, _, _. split; [done|]. split; [exact I'|]. rewrite Hs.
    apply csim_stutter; [cbn; rewrite upd_same; by left| |done|done]. intros q. cbn. rewrite upd_at.
    case_decide; [subst; by rewrite Hpc|done].
  - destruct (v_lock s) as [t|] eqn:Hl.
    { left. unfold mbind, M_bind. by rewrite (acquire_vdisk_busy _ t). }
    right. rewrite (run_bind _ _ _ _ _ (acquire_vdisk_run (TProc p) s Hl)).
    destruct (decide (db_disk (v_bufs s b) = 1)) as [Hd|Hd].
    + exists (set_v_lock None (set_v_pc (upd p (SleepBuf h b w) (v_pc s)) s)), R, qa, qu.
      split; [unfold rw_wait, mbind, M_bind, gets; cbn; by rewrite Hd|]. split.
      * pose proof (wait_again_inv cap s R qa qu p h b w I Hpc Hl Hd) as I'.
        eapply inv_quiet; [exact I'|done..| |done|apply I']. intros q. cbn. by rewrite Hl.
      * apply csim_stutter; [cbn; rewrite upd_same; by left| |done|done]. intros q. cbn. rewrite upd_at.
        case_decide; [subst; by rewrite Hpc|done].
    + destruct (finish_inv cap s R qa qu p h b w I Hpc Hl Hd)
        as (r & s' & Hrun & Hr & Hp & Hb & Hw & Hph & I' & Hpcs & Eb & Es & Ed & _).
      exists s', (delete h R), qa, qu. split; [done|]. split; [done|].
      pose proof (f_st _ _ _ (i_fmt _ _ _ _ _ I h r Hr)) as Fs. rewrite Hph in Fs. cbn in Fs.
      intros c [M1 M2 M3 M4]. eexists. split.
      * right. cbn. rewrite Hpcs, decide_True by done. apply (CReturn c p b w). rewrite M1, Hpc. cbn. by rewrite Fs.
      * split; cbn; [|by rewrite Ed|done|by rewrite Eb]. intros q. rewrite upd_at, Hpcs, Es.
        repeat case_decide; try congruence; [done|]. rewrite M1. by destruct (v_pc s q).
Qed.

(** Every action, whenever it is taken. *)
Lemma exec_good a s R qa qu : inv cap s R qa qu -> may_call cap a s ->
  good (event_of a) (exec a) s \/
  a = IntrLoop /\ at_error s /\ exec a s = Panic "virtio_disk_intr status" s.
Proof.
  intros I Hc. destruct a.
  - left. by eapply call_good.
  - left. by eapply run_good.
  - left. by eapply spurious_good.
  - left. by eapply intr_enter_good.
  - destruct (v_lock s) as [[q|]|] eqn:Hl;
      [left; eapply intr_loop_good; [done|intros []; congruence]| |left; eapply intr_loop_good; [done|intros []; congruence]].
    destruct (decide (v_seen s = v_used_idx s)) as [He|He]; [left; eapply intr_loop_good; [done|by intros (_ & [] & _)]|].
    destruct (decide (v_info_status s (front s) = 0)) as [Hs|Hs];
      [left; eapply intr_loop_good; [done|by intros (_ & _ & [])]|].
    right. split; [done|]. split; [done|]. unfold exec, intr_loop.
    rewrite (run_bind _ _ _ (v_lock s) s) by done. rewrite Hl.
    rewrite (run_bind _ _ _ (v_seen s) s), (run_bind _ _ _ (v_used_idx s) s) by done.
    rewrite (proj2 (Z.eqb_neq _ _) He). by eapply intr_turn_fails.
Qed.

End Simulation.

(** ** The system *)

Section System.
Context (cap : Z) (device : vst -> option Z -> vst -> Prop) (Hdev : device_spec cap device).

(** What a step of the device is, in a state of the system. *)
Lemma device_step s e s' R qa qu : inv cap s R qa qu -> device s e s' ->
  (e = None /\ v_last s <> v_avail_idx s /\ s' = dev_take s) \/
  exists h r o, R !! h = Some r /\ q_ph r = Taken /\ documented o /\ s' = served h r o s /\
    (h ← e; EFail <$> v_info_b s h) = match o with Success => None | Failure _ _ => Some (EFail (q_b r)) end.
Proof.
  intros I Hs. destruct (Hdev s e s' Hs) as [H|(h & o & Hh & Ho & -> & Hserve)]; [by left|right].
  apply (i_qt _ _ _ _ _ I), phase_of_Some in Hh as (r & Hr & Hph).
  pose proof (dev_serve_run cap s R qa qu h r o I Hr) as Hrun.
  exists h, r, o. do 3 (split; [done|]). split; [destruct Hserve; congruence|].
  destruct o; [done|]. cbn. by rewrite (f_ib _ _ _ (i_fmt _ _ _ _ _ I h r Hr)).
Qed.

Lemma owner_inv s R qa qu b bno data : inv cap s R qa qu -> (forall q, uses (v_pc s q) <> Some b) ->
  length data = bsize ->
  inv cap (set_v_bufs (upd b (mkDbuf bno data (db_disk (v_bufs s b))) (v_bufs s)) s) R qa qu.
Proof.
  intros I Hu Hlen. assert (Hb : forall b', (exists q, uses (v_pc s q) = Some b') -> b <> b').
  { intros b' [q Hq] <-. by destruct (Hu q). }
  split; cbn; try apply I.
  - intros h r Hr. pose proof (req_head _ _ _ _ _ I h r Hr) as [Hq _].
    eapply formatted_ext; [by apply I|done..| |]; cbn; rewrite upd_other; eauto.
  - intros q b' Hq. rewrite upd_other by eauto. by apply (i_blk _ _ _ _ _ I q).
  - intros b'. rewrite upd_at. case_decide; [done|apply I].
Qed.

Lemma owner_csim s b bno data : (forall q, uses (v_pc s q) <> Some b) -> (b < NBUF)%nat ->
  csim cap (Some (EOwner b bno data)) s
    (set_v_bufs (upd b (mkDbuf bno data (db_disk (v_bufs s b))) (v_bufs s)) s).
Proof.
  intros Hu Hbn c [M1 M2 M3 M4]. eexists. split; [right; apply (COwner c b bno data)|].
  - intros q b' w d Hq ->. apply (Hu q). rewrite M1 in Hq.
    by destruct (v_pc s q); cbn in *; simplify_eq.
  - split; cbn; [done|done|by rewrite length_alter|]. intros b' Hb'. rewrite upd_at.
    unfold get_buf. cbn. rewrite list_lookup_total_alter. rewrite M3.
    destruct (decide (b = b')) as [Hd|Hd].
    + subst. rewrite decide_True by (split; [done|lia]). done.
    + rewrite decide_False by (intros []; congruence). by apply M4.
Qed.

Lemma step_good s e s' R qa qu : inv cap s R qa qu -> vstep cap device s e s' ->
  exists R' qa' qu', inv cap s' R' qa' qu' /\ csim cap e s s'.
Proof.
  intros I [a s1 Hc Hrun|e1 s1 Hs|b bno data Hu Hbn Hlen].
  - destruct (exec_good cap a s R qa qu I Hc) as [[Hb|(s2 & R' & qa' & qu' & Hr & H)]|(_ & _ & Hp)];
      [congruence| |congruence].
    assert (s2 = s1) as -> by congruence. eauto.
  - destruct (device_step s e1 s1 R qa qu I Hs) as [(-> & Hne & ->)|(h & r & o & Hr & Hph & Ho & -> & ->)].
    + destruct (dev_take_inv cap s R qa qu I Hne) as (h & r & qa' & _ & _ & _ & I').
      do 3 eexists. split; [exact I'|]. apply csim_stutter; [by left|done..].
    + do 3 eexists. split; [by eapply served_inv|]. intros c Hc.
      destruct (served_performs cap s R qa qu h r o c Ho I Hr Hph Hc) as (c' & Hc' & H). eauto.
  - exists R, qa, qu. split; [by apply owner_inv|by apply owner_csim].
Qed.

(** Every execution of the system is one of the contract, with the same events. *)
Lemma steps_good s tr s' R qa qu c : inv cap s R qa qu -> implements cap s c ->
  traces (vstep cap device) s tr s' ->
  exists R' qa' qu' c', inv cap s' R' qa' qu' /\ traces cstep c tr c' /\ implements cap s' c'.
Proof.
  intros I Hc Hs. revert R qa qu c I Hc. induction Hs as [s|s e s1 tr s2 H1 _ IH]; intros R qa qu c I Hc.
  - exists R, qa, qu, c. split; [done|]. split; [apply traces_refl|done].
  - destruct (step_good s e s1 R qa qu I H1) as (R1 & qa1 & qu1 & I1 & Hsim).
    destruct (Hsim c Hc) as (c1 & Hc1 & Him).
    destruct (IH R1 qa1 qu1 c1 I1 Him) as (R' & qa' & qu' & c' & I' & Hr & H').
    exists R', qa', qu', c'. split; [done|]. split; [|done].
    destruct Hc1 as [[-> ->]|Hc1]; [done|]. by eapply traces_step.
Qed.

End System.

(** ** The initial state *)

Definition device_found (reg : Z -> Z) : Prop :=
  reg VIRTIO_MMIO_MAGIC_VALUE = 0x74726976 /\ reg VIRTIO_MMIO_VERSION = 1 /\
  reg VIRTIO_MMIO_DEVICE_ID = 2 /\ reg VIRTIO_MMIO_VENDOR_ID = 0x554d4551 /\
  NUM <= reg VIRTIO_MMIO_QUEUE_NUM_MAX.

#[export] Instance device_found_dec reg : Decision (device_found reg).
Proof. unfold device_found. apply _. Defined.

Lemma all_free_run l s : exists s', for_each l (fun i => set_free i 1) s = Ok tt s' /\
  (forall i, v_free s' i = if decide (i ∈ l) then 1 else v_free s i) /\
  s' = set_v_free (v_free s') s.
Proof.
  revert s. induction l as [|x l IH]; intros s.
  - exists s. split; [done|]. split; [intros; by rewrite decide_False by set_solver|by destruct s].
  - destruct (IH (set_v_free (upd x 1 (v_free s)) s)) as (s' & H1 & H2 & H3). exists s'.
    split; [exact H1|]. split.
    + intros i. rewrite H2. cbn. rewrite upd_at. repeat case_decide; set_solver.
    + by rewrite H3.
Qed.

Lemma init_run reg pages s : device_found reg -> exists s1,
  virtio_disk_init reg pages s = for_each (seqZ 0 NUM) (fun i => set_free i 1) s1 /\
  v_lock s1 = None /\ v_avail_idx s1 = 0 /\ v_used_idx s1 = 0 /\
  v_seen s1 = v_seen s /\ v_last s1 = v_last s /\ v_pending s1 = v_pending s /\ v_pc s1 = v_pc s /\
  v_bufs s1 = v_bufs s /\ v_disk s1 = v_disk s /\ v_info_status s1 = v_info_status s.
Proof.
  intros (R1 & R2 & R3 & R4 & R5). eexists. split.
  - unfold virtio_disk_init. rewrite R1, R2, R3, R4.
    rewrite (proj2 (Z.eqb_neq (reg VIRTIO_MMIO_QUEUE_NUM_MAX) 0)) by (unfold NUM in R5; lia).
    rewrite (proj2 (Z.ltb_ge (reg VIRTIO_MMIO_QUEUE_NUM_MAX) NUM)) by lia.
    cbv [mbind M_bind modify write_reg clear_pages]. reflexivity.
  - done.
Qed.

Lemma init_found reg pages s s' : virtio_disk_init reg pages s = Ok tt s' -> device_found reg.
Proof.
  unfold virtio_disk_init. cbv [mbind M_bind modify].
  destruct (reg VIRTIO_MMIO_MAGIC_VALUE =? 0x74726976) eqn:E1; [|done].
  destruct (reg VIRTIO_MMIO_VERSION =? 1) eqn:E2; [|done].
  destruct (reg VIRTIO_MMIO_DEVICE_ID =? 2) eqn:E3; [|done].
  destruct (reg VIRTIO_MMIO_VENDOR_ID =? 0x554d4551) eqn:E4; [|done].
  destruct (reg VIRTIO_MMIO_QUEUE_NUM_MAX =? 0) eqn:E5; [done|].
  destruct (reg VIRTIO_MMIO_QUEUE_NUM_MAX <? NUM) eqn:E6; [done|]. intros _.
  apply Z.eqb_eq in E1, E2, E3, E4. apply Z.ltb_ge in E6. done.
Qed.

Lemma init_inv cap reg pages s s' : fresh s -> virtio_disk_init reg pages s = Ok tt s' ->
  inv cap s' ∅ [] [] /\ (forall p, v_pc s' p = Idle) /\ v_lock s' = None.
Proof.
  intros (H1 & H2 & H3 & H4 & H5) Hrun. pose proof (init_found _ _ _ _ Hrun) as Hreg.
  destruct (init_run reg pages s Hreg) as (s1 & Hi & E1 & E3 & E4 & E5 & E6 & E7 & E8 & E9 & E10 & _).
  destruct (all_free_run (seqZ 0 NUM) s1) as (s2 & Hf & F1 & F2).
  assert (s2 = s') as -> by congruence. clear Hi Hf Hrun.
  assert (Hpc : forall p, v_pc s' p = Idle) by (intros p; rewrite F2; cbn; by rewrite E8).
  assert (Hq : forall ring, queue ring 0 0 []) by (intros; split; [lia|done|done]).
  split; [|split; [done|by rewrite F2]].
  split; try (intros h; rewrite ?lookup_empty; by intros); try (apply NoDup_nil_2).
  - intros i Hi. rewrite F1, decide_True by (apply elem_of_seqZ; lia).
    split; [done|]. intros (h & r & H & _). by rewrite lookup_empty in H.
  - intros p h. by rewrite Hpc.
  - intros p q b. by rewrite Hpc.
  - intros p b. by rewrite Hpc.
  - intros p. rewrite Hpc, F2. cbn. rewrite E1. naive_solver.
  - rewrite F2. cbn. rewrite E3, E6, H2. apply Hq.
  - rewrite F2. cbn. rewrite E4, E5, H1. apply Hq.
  - rewrite F2. cbn. rewrite E7, H3. apply NoDup_nil_2.
  - intros h. split; [by intros ?%not_elem_of_nil|done].
  - intros h. rewrite F2. cbn. rewrite E7, H3. split; [by intros ?%not_elem_of_nil|done].
  - intros h. split; [by intros ?%not_elem_of_nil|done].
  - intros b. rewrite F2. cbn. rewrite E9. apply H5.
Qed.

(** The states the system can be in once the driver is initialised. *)
Definition reachable_by (cap : Z) (device : vst -> option Z -> vst -> Prop) (reg : Z -> Z)
    (tr : list event) (s : vst) : Prop :=
  exists pages s0 s1, fresh s0 /\ virtio_disk_init reg pages s0 = Ok tt s1 /\
    traces (vstep cap device) s1 tr s.

Definition reachable (cap : Z) (device : vst -> option Z -> vst -> Prop) (reg : Z -> Z) (s : vst) : Prop :=
  exists tr, reachable_by cap device reg tr s.

(** ** Processes waiting for descriptors *)

(** Nobody sleeps on &disk.free[0] while three descriptors are free. *)
Definition sfree (s : vst) : Prop := forall p b w, v_pc s p = SleepFree b w ->
  forall i j k, ~ available s [i; j; k].

Lemma sfree_mono s s' : sfree s ->
  (forall p b w, v_pc s' p = SleepFree b w -> v_pc s p = SleepFree b w) ->
  (forall i, v_free s' i <> 0 -> v_free s i <> 0) -> sfree s'.
Proof.
  intros H Hp Hf p b w Hs i j k [Hd Hav]. apply (H p b w (Hp _ _ _ Hs) i j k). split; [done|].
  intros x Hx. destruct (Hav x Hx). auto.
Qed.

Section Waiting.
Context (cap : Z).

Lemma run_sfree s s' R qa qu p : inv cap s R qa qu -> sfree s ->
  exec (Run p) s = Ok tt s' -> sfree s'.
Proof.
  intros I Hs. unfold exec. rewrite (run_bind _ _ _ (v_pc s p) s) by done.
  destruct (v_pc s p) as [|b w| |h b w| |h b w] eqn:Hpc; try done.
  - unfold rw_alloc. destruct (v_lock s) as [t|] eqn:Hl.
    { unfold mbind at 1, M_bind at 1. by rewrite (acquire_vdisk_busy _ t). }
    rewrite (run_bind _ _ _ _ _ (acquire_vdisk_run (TProc p) s Hl)).
    destruct (alloc3_desc_run (set_v_lock (Some (TProc p)) s))
      as [(i & j & k & Hav & Hrun)|(l & s1 & Hlen & Hav & Hall & Hrun & Hfr)]; rewrite (run_bind _ _ _ _ _ Hrun).
    + destruct (format_request_run i j k b w (taken [i; j; k] (set_v_lock (Some (TProc p)) s)))
        as (s1 & Hf & Hfo); [apply Hav|]. rewrite (run_bind _ _ _ _ _ Hf). intros [= <-].
      destruct Hfo as [_ _ _ _ _ _ Hrest]. eapply sfree_mono; [done|..]; rewrite Hrest; cbn.
      * intros q b' w'. rewrite upd_at. by case_decide.
      * intros x. rewrite !upd_at. by repeat case_decide.
    + intros [= <-] q b' w' _ i j k [Hd Hav']. destruct Hfr as [F1 _ _ _ F4].
      assert (Hsub : [i; j; k] ⊆+ l).
      { apply NoDup_submseteq; [done|]. intros x Hx. destruct (Hav' x Hx) as [Hx1 Hx2]. cbn in Hx2.
        rewrite F1 in Hx2. case_decide; [done|]. by apply Hall. }
      apply submseteq_length in Hsub. cbn in Hsub. lia.
  - intros Hrun. destruct (publish_inv cap s R qa qu p h b w I Hpc) as (r & s1 & Hrun1 & _ & _ & _ & Hs1).
    assert (s1 = s') as -> by congruence. rewrite Hs1. eapply sfree_mono; [done| |done]. cbn.
    intros q b' w'. rewrite upd_at. by case_decide.
  - destruct (v_lock s) as [t|] eqn:Hl.
    { unfold mbind at 1, M_bind at 1. by rewrite (acquire_vdisk_busy _ t). }
    rewrite (run_bind _ _ _ _ _ (acquire_vdisk_run (TProc p) s Hl)).
    destruct (decide (db_disk (v_bufs s b) = 1)) as [Hd|Hd].
    + unfold rw_wait, mbind, M_bind, gets. cbn. rewrite Hd. intros [= <-].
      eapply sfree_mono; [done| |done]. cbn. intros q b' w'. rewrite upd_at. by case_decide.
    + destruct (finish_inv cap s R qa qu p h b w I Hpc Hl Hd) as (r & s1 & Hrun & _ & _ & _ & _ & _ & _ & Hpcs & _).
      intros Hrun'. assert (s1 = s') as -> by congruence. intros q b' w' Hq. rewrite Hpcs in Hq.
      case_decide; [done|]. by destruct (v_pc s q).
Qed.

Lemma step_sfree device s e s' R qa qu : device_spec cap device -> inv cap s R qa qu -> sfree s ->
  vstep cap device s e s' -> sfree s'.
Proof.
  intros Hdev I Hs [a s1 _ Hrun|e1 s1 Hd|b bno data _ _ _].
  - destruct a as [p b w|p|p|x|]; [|by eapply run_sfree|..]; cbn in Hrun.
    + unfold mbind, M_bind, gets in Hrun. destruct (v_pc s p); try done. injection Hrun as <-.
      eapply sfree_mono; [done| |done]. cbn. intros q b' w'. rewrite upd_at. by case_decide.
    + unfold mbind, M_bind, gets in Hrun. destruct (v_pc s p); try done; injection Hrun as <-;
      (eapply sfree_mono; [done| |done]; cbn; intros q b' w'; rewrite upd_at; by case_decide).
    + unfold intr_enter, acquire_vdisk, mbind, M_bind, gets in Hrun.
      destruct (v_lock s); [done|]. injection Hrun as <-. by eapply sfree_mono.
    + rewrite (run_bind _ _ _ (v_lock s) s) in Hrun by done. destruct (v_lock s) as [[]|]; try done.
      unfold intr_loop in Hrun.
      rewrite (run_bind _ _ _ (v_seen s) s), (run_bind _ _ _ (v_used_idx s) s) in Hrun by done.
      destruct (v_seen s =? v_used_idx s) eqn:He; cbn [negb] in Hrun.
      { injection Hrun as <-. by eapply sfree_mono. }
      apply Z.eqb_neq in He.
      destruct (decide (v_info_status s (front s) = 0)) as [Hst|Hst].
      2:{ destruct (intr_turn_fails cap s R qa qu I He Hst). congruence. }
      destruct (intr_turn_inv cap s R qa qu I He Hst)
        as (h & r & qu' & s2 & Hrun' & _ & _ & _ & _ & Hp & Hq & _ & _ & _ & Hf & _).
      assert (s2 = s1) as -> by congruence. eapply sfree_mono; [done| |by rewrite Hf].
      intros q b' w' H. destruct (decide (q = q_p r)) as [->|Hn]; [congruence|]. by rewrite <- Hq.
  - destruct (device_step cap device Hdev s e1 s1 R qa qu I Hd)
      as [(_ & _ & ->)|(h & r & o & _ & _ & _ & -> & _)]; [by eapply sfree_mono|].
    eapply sfree_mono; [done|..]; unfold served, transfer; by destruct (q_w r).
  - by eapply sfree_mono.
Qed.

End Waiting.

(** ** Errors of the device *)

Section Errors.
Context (cap : Z).

(** Some contract state corresponds to any state of the driver. *)
Lemma implements_ex s : exists c, implements cap s c.
Proof.
  set (disk := list_to_map ((fun b => (b, disk_bytes (v_disk s) (b * BSIZE) BSIZE)) <$> seqZ 0 cap) : gmap Z (list Z)).
  set (bufs := (fun b => set_b_data (db_data (v_bufs s b)) (set_b_blockno (db_blockno (v_bufs s b)) buf0)) <$> seq 0 (S NBUF)).
  exists (mkContract (set_k_bufs bufs (set_k_disk disk kst0)) (fun p => request (v_info_status s) (v_pc s p))).
  split; [done| | |].
  - intros bno H0 H1. unfold disk_block. cbn [c_k k_disk set_k_bufs set_k_disk].
    assert (disk !! bno = Some (disk_bytes (v_disk s) (bno * BSIZE) BSIZE)) as ->; [|done].
    apply elem_of_list_to_map_1.
    + rewrite <- list_fmap_compose. cbn. rewrite list_fmap_id. apply NoDup_seqZ.
    + apply list_elem_of_fmap. exists bno. split; [done|]. apply elem_of_seqZ. lia.
  - done.
  - intros b Hb. unfold get_buf. cbn [c_k k_bufs set_k_bufs].
    erewrite list_lookup_total_correct; [|unfold bufs; rewrite list_lookup_fmap, lookup_seq_lt by lia; reflexivity].
    done.
Qed.

(** A trace with no error, or one with an error. *)
Lemma failed_before (tr : list event) : ~ (forall b, EFail b ∉ tr) -> exists b, EFail b ∈ tr.
Proof.
  induction tr as [|e tr IH]; intros H.
  - destruct H. intros b. apply not_elem_of_nil.
  - destruct e as [p b w|p|b bno data|p|b]; try (destruct IH as [b' Hb'];
      [intros Hn; apply H; intros b' [|]%elem_of_cons; [done|by apply (Hn b')]|exists b'; by right]).
    exists b. by left.
Qed.

(** No request under way has failed. *)
Definition clean (s : vst) : Prop :=
  forall p b w, request (v_info_status s) (v_pc s p) <> Some (b, w, Failed).

Lemma cstep_failed c e c' p b w : cstep c e c' -> c_req c' p = Some (b, w, Failed) ->
  c_req c p = Some (b, w, Failed) \/ exists b, e = Some (EFail b).
Proof.
  intros [] Hf; cbn in Hf; eauto; rewrite upd_at in Hf; case_decide; simplify_eq; eauto.
Qed.

Lemma csim_clean e s s' : csim cap e s s' -> (forall b, e <> Some (EFail b)) -> clean s -> clean s'.
Proof.
  intros Hs He Hc p b w Hf. destruct (implements_ex s) as [c Hi].
  destruct (Hs c Hi) as (c' & Hstep & Hi'). apply (Hc p b w).
  rewrite <- (im_req _ _ _ Hi') in Hf. rewrite <- (im_req _ _ _ Hi).
  destruct Hstep as [[_ ->]|Hstep]; [done|].
  destruct (cstep_failed c e c' p b w Hstep Hf) as [|[b' ->]]; [done|]. by destruct (He b').
Qed.

(** The entry the handler reads next is one of a request that did not fail. *)
Lemma clean_front s R qa qu : inv cap s R qa qu -> clean s -> v_seen s <> v_used_idx s ->
  v_info_status s (front s) = 0.
Proof.
  intros I Hc Hne. apply dec_stable. intros Hst.
  destruct (intr_turn_fails cap s R qa qu I Hne Hst) as (_ & r & Hr & Hph).
  pose proof (f_st _ _ _ (i_fmt _ _ _ _ _ I _ r Hr)) as Fs.
  pose proof (i_req _ _ _ _ _ I _ r Hr) as Hw. rewrite Hph in Fs, Hw.
  destruct Fs as [Fs|Fs]; [done|].
  apply (Hc (q_p r) (q_b r) (q_w r)). destruct Hw as [-> | ->]; cbn; by destruct Fs as [-> | ->].
Qed.

End Errors.

(** ** Reachable states *)

Definition sound (cap : Z) (s : vst) : Prop := (exists R qa qu, inv cap s R qa qu) /\ sfree s.

Section Reach.
Context (cap : Z) (device : vst -> option Z -> vst -> Prop) (Hdev : device_spec cap device).

Lemma sound_traces s tr s' : sound cap s -> traces (vstep cap device) s tr s' -> sound cap s'.
Proof.
  intros H Hs. induction Hs as [s|s e s1 tr s2 H1 _ IH]; [done|]. apply IH.
  destruct H as [(R & qa & qu & I) Hf]. split; [|by eapply step_sfree].
  destruct (step_good cap device Hdev s e s1 R qa qu I H1) as (R' & qa' & qu' & I' & _). eauto.
Qed.

Lemma clean_traces s tr s' : sound cap s -> clean s -> traces (vstep cap device) s tr s' ->
  (forall b, EFail b ∉ tr) -> clean s'.
Proof.
  intros Ho H Hs Hf. induction Hs as [s|s e s1 tr s2 H1 Hs IH]; [done|].
  destruct Ho as [(R & qa & qu & I) Hfr].
  destruct (step_good cap device Hdev s e s1 R qa qu I H1) as (R' & qa' & qu' & I' & Hc).
  apply IH.
  - split; [eauto|exact (step_sfree cap device s e s1 R qa qu Hdev I Hfr H1)].
  - eapply csim_clean; [done| |done]. intros b ->. apply (Hf b). apply list_elem_of_here.
  - intros b Hb. apply (Hf b). destruct e; set_solver.
Qed.

(** What holds in every state the system reaches. *)
Lemma reachable_sound reg tr s : reachable_by cap device reg tr s -> sound cap s.
Proof.
  intros (pages & s0 & s1 & H0 & Hi & Hs). destruct (init_inv cap _ _ _ _ H0 Hi) as (I & Hp & _).
  eapply sound_traces; [|done]. split; [eauto|]. intros p b w H. congruence.
Qed.

Lemma reachable_clean reg tr s : reachable_by cap device reg tr s -> (forall b, EFail b ∉ tr) -> clean s.
Proof.
  intros (pages & s0 & s1 & H0 & Hi & Hs). destruct (init_inv cap _ _ _ _ H0 Hi) as (I & Hp & _).
  eapply clean_traces; [| |done].
  - split; [eauto|]. intros p b w H. congruence.
  - intros p b w. by rewrite Hp.
Qed.

Lemma reachable_inv reg s : reachable cap device reg s -> (exists R qa qu, inv cap s R qa qu) /\ sfree s.
Proof. intros [tr H]. by eapply reachable_sound. Qed.

End Reach.

(** ** Calls return *)

(** The device takes what is in the ring and finishes what it has taken. *)
Definition device_live (cap : Z) (device : vst -> option Z -> vst -> Prop) : Prop :=
  (forall s, v_last s <> v_avail_idx s -> device s None (dev_take s)) /\
  (forall s h s', h ∈ v_pending s -> dev_serve cap h Success s = Some s' -> device s None s').

(** How far a request, a process that has none yet and the handler are from being done. *)
Definition rank (x : phase) : nat :=
  match x with Prep => 6 | Queued => 5 | Taken => 4 | Used => 3 | Seen => 1 end.
Definition weight (R : gmap Z vreq) : nat := map_fold (fun _ r n => rank (q_ph r) + n)%nat 0%nat R.
Definition far (c : pc) : nat := match c with Want _ _ => 10 | SleepFree _ _ => 11 | _ => 0 end.
Definition busy (l : option thread) : nat := match l with Some TIntr => 1 | _ => 0 end.
Definition effort (s : vst) (R : gmap Z vreq) (p : nat) : nat :=
  (weight R + far (v_pc s p) + busy (v_lock s))%nat.

Lemma weight_insert R h r : R !! h = None -> weight (<[h := r]> R) = (rank (q_ph r) + weight R)%nat.
Proof. intros H. unfold weight. rewrite map_fold_insert_L; [done| |done]. intros. lia. Qed.

Lemma weight_delete R h r : R !! h = Some r -> weight R = (rank (q_ph r) + weight (delete h R))%nat.
Proof. intros H. rewrite <- (insert_delete_id R h r) at 1 by done. apply weight_insert, lookup_delete_eq. Qed.

Lemma weight_phase R h r x : R !! h = Some r ->
  (weight (<[h := set_ph x r]> R) + rank (q_ph r) = weight R + rank x)%nat.
Proof.
  intros H. rewrite <- insert_delete_eq, weight_insert by apply lookup_delete_eq.
  rewrite (weight_delete R h r H). cbn. lia.
Qed.

Section Live.
Context (cap : Z) (device : vst -> option Z -> vst -> Prop) (Hlive : device_live cap device) (p : nat).

Definition return_events (tr : list event) : Prop := forall e, e ∈ tr -> exists q, e = EReturn q.

(** The call of [p] returns, or the system comes nearer to it, with no event other than the
    return of a call. *)
Definition advances (s : vst) (R : gmap Z vreq) : Prop :=
  exists tr s', traces (vstep cap device) s tr s' /\ return_events tr /\
    (EReturn p ∈ tr \/ exists R' qa' qu', inv cap s' R' qa' qu' /\ v_pc s' p <> Idle /\
       (effort s' R' p < effort s R p)%nat).

Lemma advance_silent s s' R R' qa' qu' : traces (vstep cap device) s [] s' -> inv cap s' R' qa' qu' ->
  v_pc s' p <> Idle -> (effort s' R' p < effort s R p)%nat -> advances s R.
Proof. intros Ht I Hp He. exists [], s'. split; [done|]. split; [set_solver|]. right. eauto 8. Qed.

Lemma act_silent s a s' : may_call cap a s -> exec a s = Ok tt s' -> event_of a s' = None ->
  traces (vstep cap device) s [] s'.
Proof.
  intros Hc Hr He. pose proof (VAct cap device s a s' Hc Hr) as H. rewrite He in H.
  eapply (traces_step _ _ None); [done|apply traces_refl].
Qed.

(** The lock holder goes on. *)
Lemma advance_publish s R qa qu q h b w : inv cap s R qa qu -> v_pc s p <> Idle ->
  v_lock s = Some (TProc q) -> v_pc s q = Ready h b w -> advances s R.
Proof.
  intros I Hp Hl Hq. destruct (publish_inv cap s R qa qu q h b w I Hq) as (r & s' & Hrun & Hr & Hph & I' & Hs).
  assert (Hpc : v_pc s' = upd q (SleepBuf h b w) (v_pc s)) by (by rewrite Hs).
  assert (Hl' : v_lock s' = None) by (by rewrite Hs). clear Hs.
  eapply advance_silent; [eapply (act_silent _ (Run q)); [done| |]|exact I'| |].
  - unfold exec. rewrite (run_bind _ _ _ (v_pc s q) s) by done. rewrite Hq. exact Hrun.
  - cbn. by rewrite Hpc, upd_same.
  - rewrite Hpc, upd_at. by case_decide.
  - unfold effort. rewrite Hl, Hl', Hpc, upd_at. pose proof (weight_phase R h r Queued Hr) as W.
    rewrite Hph in W. cbn in W |- *. case_decide; [subst; rewrite Hq; cbn; lia|lia].
Qed.

Lemma advance_turn s R qa qu : inv cap s R qa qu -> clean s -> v_pc s p <> Idle ->
  v_lock s = Some TIntr -> v_seen s <> v_used_idx s ->
  exists s' R' qu', traces (vstep cap device) s [] s' /\ inv cap s' R' qa qu' /\ v_pc s' p <> Idle /\
    v_lock s' = Some TIntr /\ (weight R' + far (v_pc s' p) + 2 <= weight R + far (v_pc s p))%nat.
Proof.
  intros I Hc Hp Hl Hne. pose proof (clean_front cap s R qa qu I Hc Hne) as Hst.
  destruct (intr_turn_inv cap s R qa qu I Hne Hst)
    as (h & r & qu' & s' & Hrun & _ & Hr & Hph & I' & Hp' & Hq' & _ & _ & _ & _ & Hl').
  exists s', (<[h := set_ph Seen r]> R), qu'. split.
  { apply (act_silent _ IntrLoop); [done| |done]. unfold exec. rewrite (run_bind _ _ _ (v_lock s) s) by done.
    rewrite Hl. unfold intr_loop.
    rewrite (run_bind _ _ _ (v_seen s) s), (run_bind _ _ _ (v_used_idx s) s) by done.
    by rewrite (proj2 (Z.eqb_neq _ _) Hne). }
  split; [done|]. pose proof (weight_phase R h r Seen Hr) as W. rewrite Hph in W. cbn in W.
  destruct (decide (p = q_p r)) as [->|Hn].
  - rewrite Hp'. split; [done|]. split; [congruence|]. cbn. lia.
  - rewrite Hq' by done. split; [done|]. split; [congruence|]. lia.
Qed.

Lemma advance_handler s R qa qu : inv cap s R qa qu -> clean s -> v_pc s p <> Idle ->
  v_lock s = Some TIntr -> advances s R.
Proof.
  intros I Hc Hp Hl. destruct (decide (v_seen s = v_used_idx s)) as [He|Hne].
  - assert (I' : inv cap (set_v_lock None s) R qa qu).
    { eapply inv_quiet; try done; cbn; [|apply I]. intros q. rewrite Hl. naive_solver. }
    eapply advance_silent; [eapply (act_silent _ IntrLoop); [done| |done]|exact I'|done|].
    + unfold exec. rewrite (run_bind _ _ _ (v_lock s) s) by done. rewrite Hl. unfold intr_loop.
      rewrite (run_bind _ _ _ (v_seen s) s), (run_bind _ _ _ (v_used_idx s) s) by done.
      by rewrite He, Z.eqb_refl.
    + unfold effort. rewrite Hl. cbn. lia.
  - destruct (advance_turn s R qa qu I Hc Hp Hl Hne) as (s' & R' & qu' & Ht & I' & Hp' & Hl' & Hw).
    eapply advance_silent; [done..|]. unfold effort. rewrite Hl, Hl'. lia.
Qed.

(** An interrupt. *)
Lemma advance_interrupt s R qa qu : inv cap s R qa qu -> clean s -> v_pc s p <> Idle ->
  v_lock s = None -> v_seen s <> v_used_idx s -> advances s R.
Proof.
  intros I Hc Hp Hl Hne.
  set (s1 := set_v_mmio ((VIRTIO_MMIO_INTERRUPT_ACK, u32 (Z.land 1 0x3)) :: v_mmio s) (set_v_lock (Some TIntr) s)).
  assert (H1 : exec (IntrEnter 1) s = Ok tt s1).
  { cbn. unfold intr_enter. by rewrite (run_bind _ _ _ _ _ (acquire_vdisk_run TIntr s Hl)). }
  assert (I1 : inv cap s1 R qa qu).
  { eapply inv_quiet; try done; cbn; [|apply I]. intros q. rewrite Hl. naive_solver. }
  destruct (advance_turn s1 R qa qu I1 Hc Hp eq_refl Hne) as (s' & R' & qu' & Ht & I' & Hp' & Hl' & Hw).
  eapply advance_silent; [|done|done|].
  - eapply (traces_step _ _ None); [|done]. by apply (VAct cap device s (IntrEnter 1) s1).
  - unfold effort. rewrite Hl, Hl'. cbn in Hw |- *. lia.
Qed.

(** The device. *)
Lemma advance_take s R qa qu : inv cap s R qa qu -> v_pc s p <> Idle -> v_last s <> v_avail_idx s ->
  advances s R.
Proof.
  intros I Hp Hne. destruct (dev_take_inv cap s R qa qu I Hne) as (h & r & qa' & _ & Hr & Hph & I').
  eapply advance_silent; [|exact I'|done|].
  - eapply (traces_step _ _ None); [|apply traces_refl]. by apply (VDev _ _ _ None), Hlive.
  - unfold effort. cbn. pose proof (weight_phase R h r Taken Hr) as W. rewrite Hph in W. cbn in W. lia.
Qed.

Lemma advance_serve s R qa qu h : inv cap s R qa qu -> v_pc s p <> Idle -> h ∈ v_pending s -> advances s R.
Proof.
  intros I Hp Hh. pose proof Hh as (r & Hr & Hph)%(i_qt _ _ _ _ _ I)%phase_of_Some.
  pose proof (dev_serve_run cap s R qa qu h r Success I Hr) as Hrun.
  assert (E : v_pc (served h r Success s) = v_pc s /\ v_lock (served h r Success s) = v_lock s).
  { unfold served, transfer. by destruct (q_w r). }
  destruct E as [Epc El].
  eapply advance_silent; [|by apply (served_inv cap s R qa qu h r Success Logic.I I Hr Hph)|by rewrite Epc|].
  - eapply (traces_step _ _ None); [|apply traces_refl]. apply (VDev _ _ _ None).
    eapply Hlive; [exact Hh|exact Hrun].
  - unfold effort. rewrite Epc, El. pose proof (weight_phase R h r Used Hr) as W. rewrite Hph in W.
    cbn in W. lia.
Qed.

(** A call whose request has been seen returns. *)
Lemma advance_finish s R qa qu h r : inv cap s R qa qu -> v_pc s p <> Idle -> v_lock s = None ->
  R !! h = Some r -> q_ph r = Seen -> advances s R.
Proof.
  intros I Hp Hl Hr Hph. pose proof (i_req _ _ _ _ _ I h r Hr) as Hw. rewrite Hph in Hw. cbn in Hw.
  pose proof (f_dk _ _ _ (i_fmt _ _ _ _ _ I h r Hr)) as Fk. rewrite decide_True in Fk by done.
  destruct (finish_inv cap s R qa qu (q_p r) h (q_b r) (q_w r) I Hw Hl)
    as (r' & s' & Hrun & Hr' & _ & _ & _ & _ & I' & Hpcs & _ & _ & _ & Hl'); [by rewrite Fk|].
  assert (Ht : traces (vstep cap device) s [EReturn (q_p r)] s').
  { eapply (traces_step _ _ (Some (EReturn (q_p r)))); [|apply traces_refl].
    assert (Hx : exec (Run (q_p r)) s = Ok tt s').
    { unfold exec. rewrite (run_bind _ _ _ (v_pc s (q_p r)) s) by done. rewrite Hw.
      by rewrite (run_bind _ _ _ _ _ (acquire_vdisk_run (TProc (q_p r)) s Hl)). }
    pose proof (VAct cap device s (Run (q_p r)) s' Logic.I Hx) as H. cbn in H.
    by rewrite Hpcs, decide_True in H. }
  exists [EReturn (q_p r)], s'. split; [done|]. split; [intros e ->%list_elem_of_singleton; eauto|].
  destruct (decide (p = q_p r)) as [->|Hn]; [left; set_solver|right].
  exists (delete h R), qa, qu. split; [done|]. rewrite Hpcs, decide_False by done.
  split; [by destruct (v_pc s p)|]. unfold effort. rewrite Hpcs, decide_False, Hl, Hl' by done.
  rewrite (weight_delete R h r Hr), Hph. cbn. destruct (v_pc s p); cbn; lia.
Qed.

(** With no request under way a call that wants descriptors finds three. *)
Lemma advance_alloc s qa qu b w : inv cap s ∅ qa qu -> v_lock s = None -> v_pc s p = Want b w ->
  advances s ∅.
Proof.
  intros I Hl Hpc. destruct (alloc3_desc_run (set_v_lock (Some (TProc p)) s))
    as [(i & j & k & Hav & Hrun)|(l & s' & Hlen & Hav & Hall & Hrun & Hfr)].
  2:{ exfalso. assert (Hsub : [0; 1; 2] ⊆+ l).
      { apply NoDup_submseteq; [by apply (bool_decide_eq_true_1 (NoDup [0; 1; 2]))|]. intros x Hx. apply Hall.
        - unfold NUM. set_unfold. lia.
        - cbn. intros H0. apply (i_free _ _ _ _ _ I) in H0 as (h & r & Hr & _); [|unfold NUM; set_unfold; lia].
          by rewrite lookup_empty in Hr. }
      apply submseteq_length in Hsub. cbn in Hsub. lia. }
  destruct (format_request_run i j k b w (taken [i; j; k] (set_v_lock (Some (TProc p)) s)))
    as (s2 & Hf & Hfo); [apply Hav|].
  destruct (submit_inv cap s s2 ∅ qa qu p b w i j k I Hpc Hl Hav Hfo) as [I2 _].
  assert (El : v_lock s2 = Some (TProc p)).
  { destruct Hfo as [_ _ _ _ _ _ Hrest]. rewrite Hrest. by rewrite taken_rest. }
  eapply advance_silent; [eapply (act_silent _ (Run p)); [done| |]|exact I2| |].
  - unfold exec. rewrite (run_bind _ _ _ (v_pc s p) s) by done. rewrite Hpc. unfold rw_alloc.
    rewrite (run_bind _ _ _ _ _ (acquire_vdisk_run (TProc p) s Hl)), (run_bind _ _ _ _ _ Hrun).
    by rewrite (run_bind _ _ _ _ _ Hf).
  - cbn. by rewrite upd_same.
  - cbn. by rewrite upd_same.
  - unfold effort. cbn. rewrite upd_same, El, Hpc. cbn. rewrite weight_insert by apply lookup_empty.
    cbn. lia.
Qed.

(** In every state of the system something can be done. *)
Lemma advance s R qa qu : inv cap s R qa qu -> sfree s -> clean s -> v_pc s p <> Idle -> advances s R.
Proof.
  intros I Hf Hc Hp. destruct (v_lock s) as [[q|]|] eqn:Hl.
  - pose proof Hl as (h & b & w & Hq)%(i_lock _ _ _ _ _ I). by eapply advance_publish.
  - by eapply advance_handler.
  - destruct (decide (v_seen s = v_used_idx s)) as [Eu|]; [|by eapply advance_interrupt].
    destruct (decide (v_last s = v_avail_idx s)) as [Ea|]; [|by eapply advance_take].
    destruct (v_pending s) as [|h l] eqn:Et; [|eapply (advance_serve s R qa qu h); [done..|rewrite Et; set_solver]].
    apply (queue_empty _ _ _ _ (i_used _ _ _ _ _ I)) in Eu; [|by eapply used_bound].
    apply (queue_empty _ _ _ _ (i_avail _ _ _ _ _ I)) in Ea; [|by eapply avail_bound]. subst qa qu.
    destruct (map_choose_or_empty R) as [(h & r & Hr)| ->].
    + assert (Hph : phase_of R h = Some (q_ph r)) by (unfold phase_of; by rewrite Hr).
      destruct (q_ph r) eqn:E; [|by apply (i_qa _ _ _ _ _ I), not_elem_of_nil in Hph|
        apply (i_qt _ _ _ _ _ I) in Hph; rewrite Et in Hph; by apply not_elem_of_nil in Hph|
        by apply (i_qu _ _ _ _ _ I), not_elem_of_nil in Hph|by eapply advance_finish].
      pose proof (i_req _ _ _ _ _ I h r Hr) as Hw. rewrite E in Hw.
      assert (Hl' : v_lock s = Some (TProc (q_p r))) by (apply (i_lock _ _ _ _ _ I); eauto). congruence.
    + assert (Hh : head_of (v_pc s p) = None).
      { destruct (head_of (v_pc s p)) as [h|] eqn:Hh; [|done].
        apply (i_pc _ _ _ _ _ I) in Hh as (r & Hr & _). by rewrite lookup_empty in Hr. }
      destruct (v_pc s p) as [|b w|b w| | |] eqn:Hpc; try done; [by eapply advance_alloc|].
      exfalso. apply (Hf p b w Hpc 0 1 2). split; [by apply (bool_decide_eq_true_1 (NoDup [0; 1; 2]))|].
      intros i Hi. assert (Hi8 : 0 <= i < NUM) by (unfold NUM; set_unfold; lia). split; [done|].
      intros H0. apply (i_free _ _ _ _ _ I i Hi8) in H0 as (h & r & Hr & _). by rewrite lookup_empty in Hr.
Qed.

Lemma traces_app s tr s1 tr' s2 : traces (vstep cap device) s tr s1 -> traces (vstep cap device) s1 tr' s2 ->
  traces (vstep cap device) s (tr ++ tr') s2.
Proof.
  intros H1 H2. induction H1 as [|s e s1 tr s3 Hs _ IH]; [done|]. specialize (IH H2).
  destruct e as [e|]; [by eapply (traces_step _ _ (Some e))|by eapply (traces_step _ _ None)].
Qed.

Lemma call_returns (Hdev : device_spec cap device) s : sound cap s -> clean s -> v_pc s p <> Idle ->
  exists tr s', traces (vstep cap device) s tr s' /\ return_events tr /\ EReturn p ∈ tr.
Proof.
  intros Hs Hc Hp. pose proof Hs as [(R & qa & qu & I) _].
  remember (effort s R p) as n eqn:Hn. revert s R qa qu I Hn Hs Hc Hp.
  induction (lt_wf n) as [n _ IH]. intros s R qa qu I -> Hs Hc Hp.
  destruct (advance s R qa qu I (proj2 Hs) Hc Hp) as (tr & s1 & Ht & Hr & [Hin|(R1 & qa1 & qu1 & I1 & Hp1 & He)]).
  { eauto. }
  assert (Hno : forall b, EFail b ∉ tr) by (intros b [q ?]%Hr; done).
  destruct (IH _ He s1 R1 qa1 qu1 I1 eq_refl) as (tr' & s' & Ht' & Hr' & Hin); [| |done|].
  { by eapply sound_traces. }
  { by eapply clean_traces. }
  exists (tr ++ tr'), s'. split; [by eapply traces_app|]. split; [|set_solver].
  intros e [He'|He']%elem_of_app; auto.
Qed.

End Live.

(** ** A concrete system *)

Definition demo_reg (r : Z) : Z :=
  match r with
  | 0 => 0x74726976 | 4 => 1 | 8 => 2 | 12 => 0x554d4551 | 0x34 => 8 | _ => 0
  end.

Definition demo_v0 : vst :=
  mkVst (fun _ => zero_desc) 0 (fun _ => 0) 0 (fun _ => 0) (fun _ => 0) 0 (fun _ => None) (fun _ => 0)
    (fun _ => mkReq 0 0 0) None [] (fun b => mkDbuf (Z.of_nat b) (replicate bsize 7) 0) (fun _ => Idle)
    (fun _ => 0) 0 [].

(** A device that does what the specification allows, and only that. *)
Definition demo_device (cap : Z) (s : vst) (e : option Z) (s' : vst) : Prop :=
  (e = None /\ v_last s <> v_avail_idx s /\ s' = dev_take s) \/
  exists h o, h ∈ v_pending s /\ documented o /\
    e = match o with Success => None | Failure _ _ => Some h end /\ dev_serve cap h o s = Some s'.

Definition demo_v1 : vst :=
  match virtio_disk_init demo_reg 0x80020000 demo_v0 with Ok _ s => s | _ => demo_v0 end.

(** The state after an action, and after the device has finished request 0. *)
Definition act (a : action) (s : vst) : vst := match exec a s with Ok _ s' => s' | _ => s end.
Definition finish (o : outcome) (s : vst) : vst := default s (dev_serve 2000 0 o s).

(** Process 1 asks for a write of buffer 3 to block 3, allocates descriptors and publishes
    the request, which the device takes. *)
Definition demo_v2 : vst := act (Call 1 3 true) demo_v1.
Definition demo_v3 : vst := act (Run 1) demo_v2.
Definition demo_v4 : vst := act (Run 1) demo_v3.
Definition demo_v5 : vst := dev_take demo_v4.

(** The device finishes it, the interrupt handler looks at the used ring, and the call
    returns. *)
Definition demo_v6 : vst := finish Success demo_v5.
Definition demo_v7 : vst := act (IntrEnter 1) demo_v6.
Definition demo_v8 : vst := act IntrLoop demo_v7.
Definition demo_v9 : vst := act IntrLoop demo_v8.
Definition demo_v10 : vst := act (Run 1) demo_v9.

(** The device reports an I/O error. *)
Definition demo_junk : outcome := Failure 1 (replicate bsize 9).
Definition demo_e6 : vst := finish demo_junk demo_v5.
Definition demo_e7 : vst := act (IntrEnter 1) demo_e6.

Definition returns (m : V unit) (s : vst) : bool := match m s with Ok _ _ => true | _ => false end.

Lemma demo_act a s e tr s' : may_call 2000 a s -> returns (exec a) s = true ->
  event_of a (act a s) = e -> traces (vstep 2000 (demo_device 2000)) (act a s) tr s' ->
  traces (vstep 2000 (demo_device 2000)) s (match e with Some x => x :: tr | None => tr end) s'.
Proof.
  intros Hc Hr <-. apply traces_step, VAct; [done|]. unfold returns, act in *.
  by destruct (exec a s) as [[] s2| |].
Qed.

Lemma demo_take s tr s' : v_last s <> v_avail_idx s ->
  traces (vstep 2000 (demo_device 2000)) (dev_take s) tr s' ->
  traces (vstep 2000 (demo_device 2000)) s tr s'.
Proof. intros Hn. apply (traces_step _ s None), (VDev _ _ _ None). by left. Qed.

Lemma demo_finish o s tr s' : documented o -> v_pending s = [0] -> v_info_b s 0 = Some 3%nat ->
  bool_decide (is_Some (dev_serve 2000 0 o s)) = true ->
  traces (vstep 2000 (demo_device 2000)) (finish o s) tr s' ->
  traces (vstep 2000 (demo_device 2000)) s (match o with Success => tr | Failure _ _ => EFail 3 :: tr end) s'.
Proof.
  intros Ho Hp Hb [s1 Hs]%bool_decide_eq_true_1. unfold finish. rewrite Hs. cbn. intros Ht.
  assert (H : demo_device 2000 s (match o with Success => None | Failure _ _ => Some 0 end) s1).
  { right. exists 0, o. rewrite Hp. split; [set_solver|]. done. }
  apply (VDev 2000 (demo_device 2000)) in H. destruct o; cbn in H.
  - by apply (traces_step _ s None _ _ _ H).
  - rewrite Hb in H. by apply (traces_step _ s (Some (EFail 3)) _ _ _ H).
Qed.

Lemma demo_spec cap : device_spec cap (demo_device cap).
Proof. intros s e s' [H|(h & o & H1 & H2 & H3 & H4)]; [by left|right]. exists h, o. auto. Qed.

Lemma demo_live cap : device_live cap (demo_device cap).
Proof. split; [by left|]. intros s h s' H1 H2. right. by exists h, Success. Qed.

Lemma demo_fresh : fresh demo_v0.
Proof. repeat split. Qed.

Lemma demo_init : virtio_disk_init demo_reg 0x80020000 demo_v0 = Ok tt demo_v1.
Proof. reflexivity. Qed.

Lemma demo_from s tr : traces (vstep 2000 (demo_device 2000)) demo_v1 tr s ->
  reachable_by 2000 (demo_device 2000) demo_reg tr s.
Proof. intros H. exists 0x80020000, demo_v0, demo_v1. split; [apply demo_fresh|]. split; [apply demo_init|done]. Qed.

Lemma demo_reachable : reachable 2000 (demo_device 2000) demo_reg demo_v1.
Proof. exists []. apply demo_from, traces_refl. Qed.

Lemma demo_may_call : may_call 2000 (Call 1 3 true) demo_v1.
Proof.
  split; [intros q H; vm_compute in H; discriminate H|]. split; [unfold NBUF; lia|].
  change (db_blockno (v_bufs demo_v1 3)) with 3. lia.
Qed.

#[local] Opaque act finish.

(** The call up to its sleep, then the rest of it. *)
Lemma demo_traces4 tr s : traces (vstep 2000 (demo_device 2000)) demo_v4 tr s ->
  traces (vstep 2000 (demo_device 2000)) demo_v1 (ECall 1 3 true :: tr) s.
Proof.
  intros H. apply (demo_act (Call 1 3 true) demo_v1 (Some (ECall 1 3 true)) tr);
    [apply demo_may_call|vm_compute; reflexivity..|].
  apply (demo_act (Run 1) demo_v2 None tr); [exact Logic.I|vm_compute; reflexivity..|].
  apply (demo_act (Run 1) demo_v3 None tr); [exact Logic.I|vm_compute; reflexivity..|exact H].
Qed.

Lemma demo_traces10 : traces (vstep 2000 (demo_device 2000)) demo_v1 [ECall 1 3 true; EReturn 1] demo_v10.
Proof.
  apply demo_traces4. apply demo_take; [vm_compute; discriminate|].
  apply (demo_finish Success demo_v5 [EReturn 1]); [exact Logic.I|vm_compute; reflexivity..|].
  apply (demo_act (IntrEnter 1) demo_v6 None [EReturn 1]); [exact Logic.I|vm_compute; reflexivity..|].
  apply (demo_act IntrLoop demo_v7 None [EReturn 1]); [exact Logic.I|vm_compute; reflexivity..|].
  apply (demo_act IntrLoop demo_v8 None [EReturn 1]); [exact Logic.I|vm_compute; reflexivity..|].
  apply (demo_act (Run 1) demo_v9 (Some (EReturn 1)) []); [exact Logic.I|vm_compute; reflexivity..|apply traces_refl].
Qed.

Lemma demo_traces_e7 : traces (vstep 2000 (demo_device 2000)) demo_v1 [ECall 1 3 true; EFail 3] demo_e7.
Proof.
  apply demo_traces4. apply demo_take; [vm_compute; discriminate|].
  apply (demo_finish demo_junk demo_v5 []); [split; [by left|reflexivity]|vm_compute; reflexivity..|].
  apply (demo_act (IntrEnter 1) demo_e6 None []); [exact Logic.I|vm_compute; reflexivity..|apply traces_refl].
Qed.

(** ** Theorems *)

(** C8: The driver implements the contract on which the buffer cache is built.  Whatever the
    interleaving of any number of callers, the interrupt handler, the device and the owners of
    the buffers, every execution of the system, with its sequence of calls, returns, changes
    of buffers by their owners and errors of the device, is an execution of the contract with
    the same sequence, and the two end with the same disk, buffers and calls under way.  In the
    contract each call of [virtio_disk_rw] performs the function of that name of Bio.v
    exactly once, after its call and before its return; a call for which the device
    reports an error does not return. *)
Theorem virtio_refines_contract (cap : Z) (device : vst -> option Z -> vst -> Prop) (reg : Z -> Z) (pages : Z)
    (s0 s1 s : vst) (tr : list event) (c0 : contract) :
  device_spec cap device -> fresh s0 -> virtio_disk_init reg pages s0 = Ok tt s1 ->
  implements cap s1 c0 -> traces (vstep cap device) s1 tr s ->
  exists c, traces cstep c0 tr c /\ implements cap s c.
Proof.
  intros Hd H0 Hi Him Hs. destruct (init_inv cap _ _ _ _ H0 Hi) as (I & _).
  destruct (steps_good cap device Hd s1 tr s _ _ _ c0 I Him Hs) as (_ & _ & _ & c & _ & H). eauto.
Qed.

Lemma virtio_refines_contract_witness : exists c0 c, implements 2000 demo_v1 c0 /\
  traces cstep c0 [ECall 1 3 true; EReturn 1] c /\ implements 2000 demo_v10 c.
Proof.
  destruct (implements_ex 2000 demo_v1) as [c0 H0].
  destruct (virtio_refines_contract 2000 (demo_device 2000) demo_reg 0x80020000 demo_v0 demo_v1 demo_v10
              [ECall 1 3 true; EReturn 1] c0) as [c Hc].
  - apply demo_spec.
  - apply demo_fresh.
  - apply demo_init.
  - exact H0.
  - apply demo_traces10.
  - exists c0, c. exact (conj H0 Hc).
Defined.

(** C21: The driver panics for one reason only, an error reported by the device.  Whatever
    the interleaving, in every state the system reaches an action of the driver returns or
    waits for the lock, unless it is the interrupt handler's look at an entry of the used ring
    whose status is not 0: then it panics with the message of the source, and the device has
    reported an error before.  So a descriptor is never freed twice, every request the device
    returns belongs to a waiting caller, and every index is within its array. *)
Theorem virtio_panics_on_device_error_only (cap : Z) (device : vst -> option Z -> vst -> Prop) (reg : Z -> Z)
    (tr : list event) (s : vst) (a : action) :
  device_spec cap device -> reachable_by cap device reg tr s -> may_call cap a s ->
  exec a s = Blocked s \/ (exists s', exec a s = Ok tt s') \/
  (a = IntrLoop /\ exec a s = Panic "virtio_disk_intr status" s /\
   v_seen s <> v_used_idx s /\ v_info_status s (v_used_ring s (v_seen s mod NUM)) <> 0 /\
   exists b, EFail b ∈ tr).
Proof.
  intros Hd Hs Hc. destruct (reachable_sound cap device Hd reg tr s Hs) as [(R & qa & qu & I) _].
  destruct (exec_good cap a s R qa qu I Hc) as [[H|(s' & _ & _ & _ & H & _)]|(Ha & (_ & Hne & Hst) & Hp)];
    [by left|right; left; eauto|right; right].
  do 4 (split; [done|]). apply (failed_before tr). intros Hno. apply Hst.
  apply (clean_front cap s R qa qu I); [|done]. by eapply reachable_clean.
Qed.

Lemma virtio_panics_on_device_error_only_witness :
  exec IntrLoop demo_e7 = Panic "virtio_disk_intr status" demo_e7 /\
  exists b, EFail b ∈ [ECall 1 3 true; EFail 3].
Proof.
  destruct (virtio_panics_on_device_error_only 2000 (demo_device 2000) demo_reg
              [ECall 1 3 true; EFail 3] demo_e7 IntrLoop) as [H|[[s' H]|(_ & H & _ & _ & Hb)]].
  - apply demo_spec.
  - apply demo_from, demo_traces_e7.
  - exact Logic.I.
  - exfalso. vm_compute in H. discriminate H.
  - exfalso. vm_compute in H. discriminate H.
  - exact (conj H Hb).
Defined.

(** The descriptors linked from [h]. *)
Definition desc_chain (s : vst) (h : Z) : list Z :=
  let n := d_next (v_desc s h) in [h; n; d_next (v_desc s n)].

(** No descriptor is lost or shared.  The descriptors that are not free are those of the
    chains of the calls under way: each call owns three different ones, no two calls share
    one, and when no call is under way all are free. *)
Theorem virtio_descriptors_owned (cap : Z) (device : vst -> option Z -> vst -> Prop) (reg : Z -> Z) (s : vst) :
  device_spec cap device -> reachable cap device reg s ->
  (forall i, 0 <= i < NUM -> (v_free s i = 0 <->
     exists p h, head_of (v_pc s p) = Some h /\ i ∈ desc_chain s h)) /\
  (forall p h, head_of (v_pc s p) = Some h ->
     NoDup (desc_chain s h) /\ forall i, i ∈ desc_chain s h -> 0 <= i < NUM) /\
  (forall p p' h h' i, head_of (v_pc s p) = Some h -> head_of (v_pc s p') = Some h' ->
     i ∈ desc_chain s h -> i ∈ desc_chain s h' -> p = p').
Proof.
  intros Hd Hs. destruct (reachable_inv cap device Hd reg s Hs) as [(R & qa & qu & I) _].
  assert (Hch : forall h r, R !! h = Some r -> desc_chain s h = chain h r).
  { intros h r Hr. destruct (i_fmt _ _ _ _ _ I h r Hr) as [F0 F1 _ _ _ _ _].
    unfold desc_chain, chain. rewrite F0. cbn. by rewrite F1. }
  split; [|split].
  - intros i Hi. rewrite (i_free _ _ _ _ _ I i Hi). split.
    + intros (h & r & Hr & Hin). exists (q_p r), h. rewrite (Hch h r Hr). split; [|done].
      by eapply req_head.
    + intros (p & h & (r & Hr & _)%(i_pc _ _ _ _ _ I) & Hin). exists h, r.
      by rewrite <- (Hch h r Hr).
  - intros p h (r & Hr & _)%(i_pc _ _ _ _ _ I). rewrite (Hch h r Hr). by apply I.
  - intros p p' h h' i (r & Hr & <-)%(i_pc _ _ _ _ _ I) (r' & Hr' & <-)%(i_pc _ _ _ _ _ I).
    rewrite (Hch h r Hr), (Hch h' r' Hr'). intros H1 H2.
    assert (h = h') as <- by (by eapply (i_disj _ _ _ _ _ I)). congruence.
Qed.

Lemma virtio_descriptors_owned_witness : v_free demo_v1 7 = 0 <->
  exists p h, head_of (v_pc demo_v1 p) = Some h /\ 7 ∈ desc_chain demo_v1 h.
Proof.
  apply (virtio_descriptors_owned 2000 (demo_device 2000) demo_reg demo_v1).
  - apply demo_spec.
  - apply demo_reachable.
  - unfold NUM. lia.
Defined.

(** C38: No wakeup is lost.  A process asleep on its buffer has a request that the device has
    not taken, or has not finished, or that the interrupt handler has yet to see; a process
    asleep on the list of free descriptors waits for a call that holds some. *)
Theorem virtio_no_lost_wakeup (cap : Z) (device : vst -> option Z -> vst -> Prop) (reg : Z -> Z) (s : vst) (p : nat) :
  device_spec cap device -> reachable cap device reg s ->
  (forall h b w, v_pc s p = SleepBuf h b w -> db_disk (v_bufs s b) = 1 /\
     (v_last s <> v_avail_idx s \/ h ∈ v_pending s \/ v_seen s <> v_used_idx s)) /\
  (forall b w, v_pc s p = SleepFree b w -> exists q h, head_of (v_pc s q) = Some h).
Proof.
  intros Hd Hs. destruct (reachable_inv cap device Hd reg s Hs) as [(R & qa & qu & I) Hf]. split.
  - intros h b w Hpc. destruct (i_pc _ _ _ _ _ I p h) as (r & Hr & Hp); [by rewrite Hpc|].
    pose proof (i_req _ _ _ _ _ I h r Hr) as Hw. rewrite Hp, Hpc in Hw.
    pose proof (f_dk _ _ _ (i_fmt _ _ _ _ _ I h r Hr)) as Fk.
    assert (Hph : phase_of R h = Some (q_ph r)) by (unfold phase_of; by rewrite Hr).
    destruct (q_ph r); cbn in Hw; try done; rewrite decide_False in Fk by done;
      (assert (q_b r = b) as <- by (destruct Hw; congruence)); (split; [done|]).
    + left. intros He. apply (i_qa _ _ _ _ _ I) in Hph.
      apply (queue_empty _ _ _ _ (i_avail _ _ _ _ _ I)) in He; [|by eapply avail_bound]. set_solver.
    + right. left. by apply (i_qt _ _ _ _ _ I).
    + right. right. intros He. apply (i_qu _ _ _ _ _ I) in Hph.
      apply (queue_empty _ _ _ _ (i_used _ _ _ _ _ I)) in He; [|by eapply used_bound]. set_solver.
  - intros b w Hpc. destruct (map_choose_or_empty R) as [(h & r & Hr)| ->].
    + exists (q_p r), h. by eapply req_head.
    + exfalso. apply (Hf p b w Hpc 0 1 2). split; [by apply (bool_decide_eq_true_1 (NoDup [0; 1; 2]))|].
      intros i Hi. assert (Hi8 : 0 <= i < NUM) by (unfold NUM; set_unfold; lia). split; [done|].
      intros H0. apply (i_free _ _ _ _ _ I i Hi8) in H0 as (h & r & Hr & _). by rewrite lookup_empty in Hr.
Qed.

Lemma virtio_no_lost_wakeup_witness : db_disk (v_bufs demo_v4 3) = 1 /\
  (v_last demo_v4 <> v_avail_idx demo_v4 \/ 0 ∈ v_pending demo_v4 \/ v_seen demo_v4 <> v_used_idx demo_v4).
Proof.
  apply (virtio_no_lost_wakeup 2000 (demo_device 2000) demo_reg demo_v4 1
           (demo_spec 2000)) with (w := true).
  - exists [ECall 1 3 true]. apply demo_from, demo_traces4, traces_refl.
  - vm_compute. reflexivity.
Defined.

(** C39: No call is ever stuck.  In every state the system reaches, with any number of calls
    under way, while the device has reported no error and serves its queue, each call under
    way can still return: some sequence of steps of the callers, the device and the interrupt
    handler, without any new call, error or wakeup other than the driver's own, contains its
    return. *)
Theorem virtio_call_can_return (cap : Z) (device : vst -> option Z -> vst -> Prop) (reg : Z -> Z)
    (tr : list event) (s : vst) (p : nat) :
  device_spec cap device -> device_live cap device -> reachable_by cap device reg tr s ->
  (forall b, EFail b ∉ tr) -> v_pc s p <> Idle ->
  exists tr' s', traces (vstep cap device) s tr' s' /\
    (forall e, e ∈ tr' -> exists q, e = EReturn q) /\ EReturn p ∈ tr'.
Proof.
  intros Hd Hlive Hs Hno Hp. eapply call_returns; [done|done| |by eapply reachable_clean|done].
  by eapply reachable_sound.
Qed.

Lemma virtio_call_can_return_witness : exists tr' s',
  traces (vstep 2000 (demo_device 2000)) demo_v4 tr' s' /\
  (forall e, e ∈ tr' -> exists q, e = EReturn q) /\ EReturn 1 ∈ tr'.
Proof.
  apply (virtio_call_can_return 2000 (demo_device 2000) demo_reg [ECall 1 3 true] demo_v4 1).
  - apply demo_spec.
  - apply demo_live.
  - apply demo_from, demo_traces4, traces_refl.
  - intros b [H|H]%elem_of_cons; [discriminate H|by apply not_elem_of_nil in H].
  - vm_compute. discriminate.
Defined.

(** [virtio_disk_init] returns exactly if the registers identify a version 1 virtio
    disk with a queue of at least NUM entries; otherwise it panics, with the message of the
    first test that fails. *)
Theorem virtio_disk_init_checks (reg : Z -> Z) (pages : Z) (s : vst) :
  0 <= reg VIRTIO_MMIO_QUEUE_NUM_MAX ->
  match virtio_disk_init reg pages s with
  | Ok _ s' => device_found reg /\ forall i, 0 <= i < NUM -> v_free s' i = 1
  | Panic msg _ =>
      ~ device_found reg /\
      (msg = "could not find virtio disk"%string \/
       msg = "virtio disk has no queue 0"%string /\ reg VIRTIO_MMIO_QUEUE_NUM_MAX = 0 \/
       msg = "virtio disk max queue too short"%string /\
         0 < reg VIRTIO_MMIO_QUEUE_NUM_MAX < NUM)
  | Blocked _ => False
  end.
Proof.
  intros Hq. destruct (decide (device_found reg)) as [Hf|Hf].
  - destruct (init_run reg pages s Hf) as (s1 & -> & _).
    destruct (all_free_run (seqZ 0 NUM) s1) as (s2 & -> & F & _). split; [done|].
    intros i Hi. rewrite F. by rewrite decide_True by (apply elem_of_seqZ; lia).
  - unfold virtio_disk_init. cbv [mbind M_bind modify].
    destruct (reg VIRTIO_MMIO_MAGIC_VALUE =? 0x74726976) eqn:E1; [|cbn; auto].
    destruct (reg VIRTIO_MMIO_VERSION =? 1) eqn:E2; [|cbn; auto].
    destruct (reg VIRTIO_MMIO_DEVICE_ID =? 2) eqn:E3; [|cbn; auto].
    destruct (reg VIRTIO_MMIO_VENDOR_ID =? 0x554d4551) eqn:E4; [|cbn; auto].
    destruct (reg VIRTIO_MMIO_QUEUE_NUM_MAX =? 0) eqn:E5; [cbn|].
    { apply Z.eqb_eq in E5. split; [done|]. auto. }
    destruct (reg VIRTIO_MMIO_QUEUE_NUM_MAX <? NUM) eqn:E6.
    { cbn -[Z.lt NUM]. split; [done|]. right. right. split; [done|].
      apply Z.eqb_neq in E5. apply Z.ltb_lt in E6. lia. }
    destruct Hf. apply Z.eqb_eq in E1, E2, E3, E4. apply Z.ltb_ge in E6. done.
Qed.

Lemma virtio_disk_init_checks_witness : 0 <= demo_reg VIRTIO_MMIO_QUEUE_NUM_MAX /\
  match virtio_disk_init demo_reg 0x80020000 demo_v0 with
  | Ok _ s' => device_found demo_reg /\ forall i, 0 <= i < NUM -> v_free s' i = 1
  | Panic msg _ =>
      ~ device_found demo_reg /\
      (msg = "could not find virtio disk"%string \/
       msg = "virtio disk has no queue 0"%string /\ demo_reg VIRTIO_MMIO_QUEUE_NUM_MAX = 0 \/
       msg = "virtio disk max queue too short"%string /\
         0 < demo_reg VIRTIO_MMIO_QUEUE_NUM_MAX < NUM)
  | Blocked _ => False
  end.
Proof. split; [done|]. apply (virtio_disk_init_checks demo_reg 0x80020000 demo_v0). done. Defined.
