(* ===== verification/Cache.v ===== *)
(** * The buffer cache as a view of the disk (about Bio.v)

    The buffers form a ring through [bcache.head] whatever is allocated and released
    ([seg]), each block of the device is in at most one buffer, and the buffers that are in
    use hold a logical view of the disk ([cache_ok]): [cv] gives the contents of every
    block as the file system sees it, [refs] the references to it, [lk] the blocks that
    are locked and the pids of the lock holders.  The operations are described on this
    view; what they do to the LRU order stays inside this file. *)

From stdpp Require Import base functions gmap list strings.
From Stdlib Require Import ZArith Lia.
From S2P Require Import Prelude Riscv Memory State Spinlock Sched Bio.

#[local] Set Warnings "-clear-no-such-hyp".

(** ** Sleep locks that need no waiting *)

Lemma upd_sl_held l f h s : upd_sl l f (set_k_held h s) = set_k_held h (upd_sl l f s).
Proof. destruct l; unfold upd_sl; kst_eq. Qed.

Lemma upd_sl_procs l f x s : upd_sl l f (set_k_procs x s) = set_k_procs x (upd_sl l f s).
Proof. destruct l; unfold upd_sl; kst_eq. Qed.

Lemma get_sl_held l h s : get_sl l (set_k_held h s) = get_sl l s.
Proof. by destruct l. Qed.

Lemma upd_sl_twice l f g s : upd_sl l f (upd_sl l g s) = upd_sl l (f ∘ g) s.
Proof.
  assert (Halt : forall A (f g h : A -> A) (i : nat) (x : list A), (forall a, f (g a) = h a) ->
    alter f i (alter g i x) = alter h i x).
  { intros A f' g' h i x Hh. apply list_eq. intros j. rewrite !list_lookup_alter. case_decide; [|done].
    rewrite decide_True by done. destruct (x !! i); cbn; [by rewrite Hh|done]. }
  destruct l; unfold upd_sl; cbn; (erewrite Halt; [|reflexivity]); destruct s; reflexivity.
Qed.

Lemma set_k_held_self s h : set_k_held (k_held s) (set_k_held h s) = s.
Proof. by destruct s. Qed.

Lemma acquiresleep_run l p s env :
  k_cur s = Some p -> LSleep l ∉ k_held s -> sl_locked (get_sl l s) = 0 ->
  acquiresleep l (mkWorld s env)
  = Ok tt (mkWorld (upd_sl l (fun _ => mkSleeplock 1 (p_pid (get_proc p s))) s) env).
Proof.
  intros Hcur Hl Hfree. unfold acquiresleep. set (s1 := set_k_held (LSleep l :: k_held s) s).
  rewrite (run_bind _ _ _ tt (mkWorld s1 env)) by (by apply (acquire_run (LSleep l) (mkWorld s env))).
  rewrite (run_bind _ _ _ tt (mkWorld s1 env)).
  2:{ rewrite (sleep_while_unfold _ _ _ _ false); [done|by intros ? ? ? [= _ <-]|].
      unfold kgets, gets. cbn [w_ks]. unfold s1. by rewrite get_sl_held, Hfree. }
  rewrite (run_bind _ _ _ tt (mkWorld (upd_sl l (set_sl_locked 1) s1) env)) by done.
  rewrite (run_bind _ _ _ p (mkWorld (upd_sl l (set_sl_locked 1) s1) env)) by (apply curproc_run; by destruct l).
  rewrite (run_bind _ _ _ (get_proc p s) (mkWorld (upd_sl l (set_sl_locked 1) s1) env)) by (by destruct l).
  set (s2 := upd_sl l (fun _ => mkSleeplock 1 (p_pid (get_proc p s))) s).
  rewrite (run_bind _ _ _ tt (mkWorld (set_k_held (LSleep l :: k_held s) s2) env)).
  2:{ unfold kmodify, modify. cbn [w_ks w_env]. do 2 f_equal. rewrite upd_sl_twice. unfold s1, s2.
      by rewrite upd_sl_held. }
  rewrite (release_run (LSleep l) (k_held s)) by done. cbn [w_ks w_env]. do 2 f_equal.
  replace (k_held s) with (k_held s2) at 1 by (by destruct l). apply set_k_held_self.
Qed.

Lemma holdingsleep_run l p s env :
  k_cur s = Some p -> LSleep l ∉ k_held s ->
  holdingsleep l (mkWorld s env)
  = Ok (negb (sl_locked (get_sl l s) =? 0) && (sl_pid (get_sl l s) =? p_pid (get_proc p s))) (mkWorld s env).
Proof.
  intros Hcur Hl. unfold holdingsleep. set (s1 := set_k_held (LSleep l :: k_held s) s).
  rewrite (run_bind _ _ _ tt (mkWorld s1 env)) by (by apply (acquire_run (LSleep l) (mkWorld s env))).
  rewrite (run_bind _ _ _ p (mkWorld s1 env)) by (by apply curproc_run).
  rewrite (run_bind _ _ _ (get_proc p s) (mkWorld s1 env)) by done.
  rewrite (run_bind _ _ _ (negb (sl_locked (get_sl l s) =? 0) && (sl_pid (get_sl l s) =? p_pid (get_proc p s)))
    (mkWorld s1 env)) by (unfold kgets, gets, s1; cbn [w_ks]; by rewrite get_sl_held).
  rewrite (run_bind _ _ _ tt (mkWorld s env)); [done|].
  rewrite (release_run (LSleep l) (k_held s)) by done. cbn [w_ks w_env]. unfold s1. by rewrite set_k_held_self.
Qed.

Lemma releasesleep_run l p s env :
  k_cur s = Some p -> LSleep l ∉ k_held s -> length (k_procs s) = NPROC -> (forall q, LProc q ∉ k_held s) ->
  releasesleep l (mkWorld s env)
  = Ok tt (mkWorld (set_k_procs (imap (wakes (Some p) (Some (ChSleep l))) (k_procs s))
      (upd_sl l (fun _ => mkSleeplock 0 0) s)) env).
Proof.
  intros Hcur Hl Hlen Hp. unfold releasesleep. set (s1 := set_k_held (LSleep l :: k_held s) s).
  rewrite (run_bind _ _ _ tt (mkWorld s1 env)) by (by apply (acquire_run (LSleep l) (mkWorld s env))).
  rewrite (run_bind _ _ _ tt (mkWorld (upd_sl l (set_sl_locked 0) s1) env)) by done.
  set (s2 := upd_sl l (fun _ => mkSleeplock 0 0) s).
  rewrite (run_bind _ _ _ tt (mkWorld (set_k_held (LSleep l :: k_held s) s2) env)).
  2:{ unfold kmodify, modify. cbn [w_ks w_env]. do 2 f_equal. rewrite upd_sl_twice. unfold s1, s2.
      by rewrite upd_sl_held. }
  assert (Hs2 : k_procs s2 = k_procs s /\ k_cur s2 = k_cur s /\ k_held s2 = k_held s) by (by destruct l).
  destruct Hs2 as (Hs2 & Hc2 & Hh2).
  rewrite (run_bind _ _ _ tt (mkWorld (set_k_procs (imap (wakes (Some p) (Some (ChSleep l))) (k_procs s))
    (set_k_held (LSleep l :: k_held s) s2)) env)).
  2:{ unfold wakeup. rewrite wakeup_run.
      - cbn. by rewrite Hc2, Hcur, Hs2.
      - cbn. by rewrite Hs2.
      - cbn. intros q Hq. apply elem_of_cons in Hq as [Hq|Hq]; [done|]. by apply Hp in Hq. }
  rewrite (release_run (LSleep l) (k_held s)) by done. cbn [w_ks w_env]. rewrite <- Hh2. do 2 f_equal; kst_eq.
Qed.

(** ** The ring *)

Lemma alter_total (f : buf -> buf) i j (l : list buf) : (i < length l)%nat ->
  alter f i l !!! j = if decide (i = j) then f (l !!! j) else l !!! j.
Proof.
  intros Hi. rewrite !list_lookup_total_alt, list_lookup_alter. destruct (decide (i = j)) as [->|Hne].
  - by destruct (lookup_lt_is_Some_2 _ _ Hi) as [x ->].
  - done.
Qed.

(** A field that [f] leaves alone. *)
Lemma alter_field {A} (g : buf -> A) (f : buf -> buf) i j (l : list buf) :
  (forall x, g (f x) = g x) -> g (alter f i l !!! j) = g (l !!! j).
Proof.
  intros Hf. rewrite !list_lookup_total_alt, list_lookup_alter. destruct (decide (i = j)) as [->|Hne].
  - destruct (l !! j); cbn; [apply Hf|done].
  - done.
Qed.

(** From [x], [b_next] goes through [o] to [y], and [b_prev] back. *)
Fixpoint seg (l : list buf) (x : nat) (o : list nat) (y : nat) : Prop :=
  match o with
  | [] => b_next (l !!! x) = y /\ b_prev (l !!! y) = x
  | z :: o => b_next (l !!! x) = z /\ b_prev (l !!! z) = x /\ seg l z o y
  end.

Lemma seg_app l o1 : forall x z o2 y, seg l x (o1 ++ z :: o2) y <-> seg l x o1 z /\ seg l z o2 y.
Proof.
  induction o1 as [|a o1 IH]; intros x z o2 y; cbn; [tauto|]. rewrite IH. tauto.
Qed.

Lemma seg_ext l l' o : forall x y,
  (forall u, u ∈ x :: o -> b_next (l' !!! u) = b_next (l !!! u)) ->
  (forall u, u ∈ o ++ [y] -> b_prev (l' !!! u) = b_prev (l !!! u)) ->
  seg l x o y -> seg l' x o y.
Proof.
  induction o as [|z o IH]; intros x y Hn Hp; cbn [seg].
  - intros [H1 H2]. rewrite Hn, Hp by left. done.
  - intros (H1 & H2 & H3). rewrite Hn, Hp by left. split; [done|]. split; [done|].
    apply IH; [| |done].
    + intros u Hu. apply Hn. by right.
    + intros u Hu. apply Hp. by right.
Qed.

Lemma seg_prev l o1 : forall x b o2 y, seg l x (o1 ++ b :: o2) y -> b_prev (l !!! b) ∈ x :: o1.
Proof.
  induction o1 as [|a o1 IH]; intros x b o2 y; cbn.
  - intros (_ & -> & _). left.
  - intros (_ & _ & H). right. by eapply IH.
Qed.

Lemma seg_next l o2 x y : seg l x o2 y -> b_next (l !!! x) ∈ o2 ++ [y].
Proof. destruct o2; cbn; [intros [-> _]|intros [-> _]]; left. Qed.

Section Ring.
Context (l : list buf).

Definition unlinked (b : nat) : list buf :=
  alter (set_b_next (b_next (l !!! b))) (b_prev (l !!! b))
    (alter (set_b_prev (b_prev (l !!! b))) (b_next (l !!! b)) l).

Lemma unlinked_next b u : (b_prev (l !!! b) < length l)%nat -> b_next (unlinked b !!! u) =
  if decide (b_prev (l !!! b) = u) then b_next (l !!! b) else b_next (l !!! u).
Proof.
  intros H. unfold unlinked. rewrite alter_total by (by rewrite length_alter).
  destruct (decide _); [done|]. by apply alter_field.
Qed.

Lemma unlinked_prev b u : (b_next (l !!! b) < length l)%nat -> b_prev (unlinked b !!! u) =
  if decide (b_next (l !!! b) = u) then b_prev (l !!! b) else b_prev (l !!! u).
Proof.
  intros H. unfold unlinked. rewrite (alter_field b_prev) by done. rewrite alter_total by done.
  by destruct (decide _).
Qed.

Lemma seg_unlink b o2 y : forall o1 x,
  NoDup (x :: o1 ++ b :: o2) -> NoDup (o1 ++ b :: o2 ++ [y]) ->
  Forall (fun u => (u < length l)%nat) (x :: y :: o1 ++ b :: o2) ->
  seg l x (o1 ++ b :: o2) y -> seg (unlinked b) x (o1 ++ o2) y.
Proof.
  induction o1 as [|a o1 IH]; intros x Hn Hp Hlt Hs; cbn [app] in *.
  - destruct Hs as (H1 & H2 & H3). apply NoDup_cons in Hn as [Hx Hn]. apply NoDup_cons in Hp as [Hb Hp].
    assert (Hxl : (b_prev (l !!! b) < length l)%nat) by (rewrite H2; by apply Forall_cons in Hlt as [? _]).
    assert (Hnl : (b_next (l !!! b) < length l)%nat).
    { pose proof (seg_next _ _ _ _ H3) as Hin. rewrite Forall_forall in Hlt. apply Hlt.
      apply elem_of_app in Hin as [Hin|Hin%list_elem_of_singleton]; [by do 3 right|rewrite Hin; by right; left]. }
    destruct o2 as [|z o2]; cbn [app seg] in *.
    + destruct H3 as [H4 H5]. rewrite unlinked_next, unlinked_prev by done. by rewrite !decide_True.
    + destruct H3 as (H4 & H5 & H6). rewrite unlinked_next, unlinked_prev by done. rewrite !decide_True by done.
      split; [done|]. split; [done|]. apply (seg_ext l); [| |done].
      * intros u Hu. rewrite unlinked_next by done. rewrite decide_False; [done|].
        intros He. apply Hx. rewrite <- H2, He. by right.
      * intros u Hu. rewrite unlinked_prev by done. rewrite decide_False; [done|].
        intros He. apply NoDup_cons in Hp as [Hz _]. apply Hz. by rewrite <- H4, He.
  - destruct Hs as (H1 & H2 & H3). apply NoDup_cons in Hn as [Hx Hn]. apply NoDup_cons in Hp as [Ha Hp].
    pose proof (seg_prev _ _ _ _ _ _ H3) as Hpin.
    assert (Hnin : b_next (l !!! b) ∈ o2 ++ [y]) by (apply seg_app in H3 as [_ H3]; by apply seg_next).
    assert (Hxl : (b_prev (l !!! b) < length l)%nat).
    { rewrite Forall_forall in Hlt. apply Hlt. clear - Hpin. set_solver. }
    assert (Hnl : (b_next (l !!! b) < length l)%nat).
    { rewrite Forall_forall in Hlt. apply Hlt. clear - Hnin. set_solver. }
    cbn [seg]. rewrite unlinked_next, unlinked_prev by done.
    rewrite decide_False by (intros He; apply Hx; rewrite <- He; clear - Hpin; set_solver).
    rewrite decide_False by (intros He; apply Ha; rewrite <- He; clear - Hnin; set_solver).
    split; [done|]. split; [done|]. apply IH; [done|done| |done].
    rewrite Forall_forall in Hlt |- *. intros u Hu. apply Hlt. clear - Hu. set_solver.
Qed.

(** [b] put behind [h]. *)
Definition linked (h b : nat) : list buf :=
  alter (set_b_next b) h
    (alter (set_b_prev b) (b_next (l !!! h))
      (alter (set_b_prev h) b (alter (set_b_next (b_next (l !!! h))) b l))).

Lemma seg_link h b o : b ∉ h :: o -> NoDup (h :: o) -> (b < length l)%nat ->
  Forall (fun u => (u < length l)%nat) (h :: o) ->
  seg l h o h -> seg (linked h b) h (b :: o) h.
Proof.
  intros Hb Hnd Hbl Hlt Hs. apply NoDup_cons in Hnd as [Hh Hnd]. apply Forall_cons in Hlt as [Hhl Hlt].
  assert (Hbh : b <> h) by (intros ->; apply Hb; left).
  assert (Hfin : b_next (l !!! h) ∈ h :: o) by (apply seg_next in Hs; clear - Hs; set_solver).
  assert (Hfl : (b_next (l !!! h) < length l)%nat).
  { rewrite Forall_forall in Hlt. apply elem_of_cons in Hfin as [->|Hfin]; [done|by apply Hlt]. }
  assert (Hbf : b <> b_next (l !!! h)) by (by intros ->).
  assert (Hnext : forall u, b_next (linked h b !!! u) =
    if decide (h = u) then b else if decide (b = u) then b_next (l !!! h) else b_next (l !!! u)).
  { intros u. unfold linked. rewrite alter_total by (by rewrite !length_alter). destruct (decide (h = u)); [done|].
    rewrite !(alter_field b_next (set_b_prev _)) by done. rewrite alter_total by done. by destruct (decide (b = u)). }
  assert (Hprev : forall u, b_prev (linked h b !!! u) =
    if decide (b_next (l !!! h) = u) then b else if decide (b = u) then h else b_prev (l !!! u)).
  { intros u. unfold linked. rewrite (alter_field b_prev) by done. rewrite alter_total by (by rewrite !length_alter).
    destruct (decide (_ = u)); [done|]. rewrite alter_total by (by rewrite length_alter).
    destruct (decide (b = u)); [done|]. by rewrite (alter_field b_prev). }
  cbn [seg]. rewrite Hnext, Hprev, decide_True by done. rewrite decide_False by congruence. rewrite decide_True by done.
  split; [done|]. split; [done|]. destruct o as [|z o]; cbn [seg] in *.
  - destruct Hs as [H1 H2]. rewrite Hnext, Hprev. rewrite decide_False by congruence. rewrite decide_True by done.
    by rewrite decide_True.
  - destruct Hs as (H1 & H2 & H3). rewrite Hnext, Hprev. rewrite decide_False by congruence. rewrite decide_True by done.
    rewrite decide_True by done. split; [done|]. split; [done|]. apply NoDup_cons in Hnd as [Hz Hnd].
    apply (seg_ext l); [| |done].
    + intros u Hu. rewrite Hnext, decide_False, decide_False; [done|clear - Hb Hu; set_solver|clear - Hh Hu; set_solver].
    + intros u Hu. rewrite Hprev, decide_False, decide_False; [done|clear - Hb Hu; set_solver|].
      rewrite H1. clear - Hu Hz Hh. set_solver.
Qed.
End Ring.

(** What [brelse] does to the links when the last reference goes. *)
Definition moved (l : list buf) (b : nat) : list buf := linked (unlinked l b) bhead b.

Lemma length_unlinked l b : length (unlinked l b) = length l.
Proof. unfold unlinked. by rewrite !length_alter. Qed.

Lemma seg_moved l b o1 o2 :
  length l = S NBUF -> o1 ++ b :: o2 ≡ₚ seq 0 NBUF -> seg l bhead (o1 ++ b :: o2) bhead ->
  seg (moved l b) bhead (b :: o1 ++ o2) bhead.
Proof.
  intros Hlen Hperm Hs.
  assert (Hnd : NoDup (o1 ++ b :: o2)) by (rewrite Hperm; apply NoDup_seq).
  assert (Hin : forall u, u ∈ o1 ++ b :: o2 -> (u < NBUF)%nat).
  { intros u Hu. rewrite Hperm in Hu. apply elem_of_seq in Hu. lia. }
  assert (Hh : bhead ∉ o1 ++ b :: o2) by (intros Hu; apply Hin in Hu; unfold bhead in Hu; lia).
  assert (Hnd2 : NoDup (bhead :: o1 ++ b :: o2)) by (by apply NoDup_cons).
  assert (Hlt : forall u, u ∈ bhead :: o1 ++ b :: o2 -> (u < length l)%nat).
  { intros u Hu. rewrite Hlen. apply elem_of_cons in Hu as [->|Hu]; [unfold bhead; lia|]. apply Hin in Hu. lia. }
  apply seg_link.
  - apply NoDup_app in Hnd as (_ & H1 & H2). apply NoDup_cons in H2 as [H2 _].
    clear - Hh H1 H2. set_solver.
  - apply NoDup_cons. split; [clear - Hh; set_solver|]. apply NoDup_app in Hnd as (H1 & H2 & H3).
    apply NoDup_app. apply NoDup_cons in H3 as [H3 H4]. split; [done|]. split; [|done]. clear - H2. set_solver.
  - rewrite length_unlinked. apply Hlt. clear. set_solver.
  - rewrite length_unlinked. apply Forall_forall. intros u Hu. apply Hlt. clear - Hu. set_solver.
  - apply seg_unlink; [done| | |done].
    + replace (o1 ++ b :: o2 ++ [bhead]) with ((o1 ++ b :: o2) ++ [bhead]) by (by rewrite <- app_assoc).
      by rewrite <- Permutation_cons_append.
    + apply Forall_forall. intros u Hu. apply Hlt. clear - Hu. set_solver.
Qed.

(** ** The loops of bget *)

Lemma bget_cached_run s env dev bno : forall o x fuel,
  seg (k_bufs s) x o bhead -> bhead ∉ o -> (length o < fuel)%nat ->
  bget_cached fuel (b_next (k_bufs s !!! x)) dev bno (mkWorld s env)
  = Ok (List.find (fun b => (b_dev (get_buf b s) =? dev) && (b_blockno (get_buf b s) =? bno)) o) (mkWorld s env).
Proof.
  induction o as [|z o IH]; intros x fuel Hs Hh Hf; (destruct fuel as [|fuel]; [cbn in Hf; lia|]); cbn [bget_cached].
  - destruct Hs as [-> _]. by rewrite bool_decide_eq_true_2.
  - destruct Hs as (-> & _ & Hs). apply not_elem_of_cons in Hh as [Hz Hh].
    rewrite bool_decide_eq_false_2 by done.
    rewrite (run_bind _ _ _ (get_buf z s) (mkWorld s env)) by done. cbn [List.find].
    destruct (_ && _); [done|]. apply IH; [done|done|cbn in Hf; lia].
Qed.

Lemma bget_unused_run s env : forall o y fuel,
  seg (k_bufs s) bhead o y -> bhead ∉ o -> (length o < fuel)%nat ->
  bget_unused fuel (b_prev (k_bufs s !!! y)) (mkWorld s env)
  = Ok (List.find (fun b => b_refcnt (get_buf b s) =? 0) (reverse o)) (mkWorld s env).
Proof.
  induction o as [|z o IH] using rev_ind; intros y fuel Hs Hh Hf; (destruct fuel as [|fuel]; [cbn in Hf; lia|]); cbn [bget_unused].
  - destruct Hs as [_ ->]. by rewrite bool_decide_eq_true_2.
  - apply seg_app in Hs as [Hs [_ ->]]. rewrite length_app in Hf. cbn in Hf.
    rewrite bool_decide_eq_false_2 by (clear - Hh; set_solver).
    rewrite (run_bind _ _ _ (get_buf z s) (mkWorld s env)) by done. rewrite reverse_snoc. cbn [List.find].
    destruct (_ =? 0); [done|]. apply IH; [done|clear - Hh; set_solver|lia].
Qed.

(** ** Updating a buffer *)

Definition ubuf (b : nat) (f : buf -> buf) (s : kst) : kst := set_k_bufs (alter f b (k_bufs s)) s.

Lemma ubuf_twice b f g s : ubuf b f (ubuf b g s) = ubuf b (f ∘ g) s.
Proof.
  unfold ubuf. cbn. assert (H : alter f b (alter g b (k_bufs s)) = alter (f ∘ g) b (k_bufs s)).
  { apply list_eq. intros j. rewrite !list_lookup_alter. case_decide; [|done].
    rewrite decide_True by done. by destruct (k_bufs s !! b). }
  rewrite H. by destruct s.
Qed.

Lemma ubuf_get_ext b f g s : f (get_buf b s) = g (get_buf b s) -> ubuf b f s = ubuf b g s.
Proof.
  intros H. unfold ubuf. f_equal. apply list_eq. intros j. rewrite !list_lookup_alter.
  case_decide as Hij; [subst j|done]. unfold get_buf in H. rewrite list_lookup_total_alt in H.
  destruct (k_bufs s !! b); [|done]. cbn in H |- *. by f_equal.
Qed.

Lemma ubuf_id b f s : f (get_buf b s) = get_buf b s -> ubuf b f s = s.
Proof.
  intros H. rewrite (ubuf_get_ext b f id s H). unfold ubuf.
  assert (Hid : alter id b (k_bufs s) = k_bufs s).
  { apply list_eq. intros j. rewrite list_lookup_alter. case_decide; [subst j|done]. by destruct (k_bufs s !! b). }
  rewrite Hid. by destruct s.
Qed.

Lemma get_ubuf b f s : (b < length (k_bufs s))%nat -> get_buf b (ubuf b f s) = f (get_buf b s).
Proof. intros H. unfold get_buf, ubuf. cbn. by rewrite alter_total, decide_True. Qed.

Lemma get_ubuf_ne b b' f s : b' <> b -> get_buf b' (ubuf b f s) = get_buf b' s.
Proof.
  intros H. unfold get_buf, ubuf. cbn. rewrite !list_lookup_total_alt, list_lookup_alter, decide_False; congruence.
Qed.

Lemma length_ubuf b f s : length (k_bufs (ubuf b f s)) = length (k_bufs s).
Proof. unfold ubuf. cbn. apply length_alter. Qed.

Lemma ubuf_held b f h s : ubuf b f (set_k_held h s) = set_k_held h (ubuf b f s).
Proof. unfold ubuf. kst_eq. Qed.

(** ** The cache as a view of the disk *)

(** The kernel thread of process [p] (pid [pid]), holding none of the locks that the
    buffer cache takes. *)
Record thread (p : nat) (pid : Z) (s : kst) : Prop := {
  th_cur : k_cur s = Some p;
  th_pid : p_pid (get_proc p s) = pid;
  th_len : length (k_procs s) = NPROC;
  th_bcache : LBcache ∉ k_held s;
  th_sleep l : LSleep l ∉ k_held s;
  th_proc q : LProc q ∉ k_held s
}.

(** [y] is process [x] in a possibly different state. *)
Definition same_but_state (x y : proc) : Prop := exists st, y = set_p_state st x.

Lemma same_but_state_refl x : same_but_state x x.
Proof. exists (p_state x). by destruct x. Qed.

(** What the buffer cache may change: buffers, the disk, and which processes are runnable. *)
Definition io_only (s s' : kst) : Prop :=
  exists bs d t l, s' = set_k_bufs bs (set_k_disk d (set_k_dtrace t (set_k_procs l s))) /\
    length l = length (k_procs s) /\ forall q, same_but_state (get_proc q s) (l !!! q).

Lemma io_only_refl s : io_only s s.
Proof. exists (k_bufs s), (k_disk s), (k_dtrace s), (k_procs s). split; [kst_eq|]. split; [done|]. intros q. apply same_but_state_refl. Qed.

Lemma io_only_trans s1 s2 s3 : io_only s1 s2 -> io_only s2 s3 -> io_only s1 s3.
Proof.
  intros (b1 & d1 & t1 & l1 & -> & Hl1 & Hp1) (b2 & d2 & t2 & l2 & -> & Hl2 & Hp2).
  exists b2, d2, t2, l2. split; [kst_eq|]. cbn in Hl2. split; [congruence|].
  intros q. destruct (Hp1 q) as [st1 E1], (Hp2 q) as [st2 E2]. exists st2. rewrite E2.
  change (get_proc q (set_k_bufs b1 _)) with (l1 !!! q). rewrite E1. by destruct (get_proc q s1).
Qed.

#[global] Instance io_only_preorder : PreOrder io_only.
Proof. split; [exact io_only_refl|exact io_only_trans]. Qed.

Lemma io_only_bufs s bs : io_only s (set_k_bufs bs s).
Proof.
  exists bs, (k_disk s), (k_dtrace s), (k_procs s). split; [kst_eq|]. split; [done|].
  intros q. apply same_but_state_refl.
Qed.

Lemma io_only_log s s' : io_only s s' -> k_log s' = k_log s.
Proof. by intros (b1 & d1 & t1 & l1 & -> & _). Qed.

Lemma io_only_held s s' : io_only s s' -> k_held s' = k_held s.
Proof. by intros (b1 & d1 & t1 & l1 & -> & _). Qed.

Lemma thread_io p pid s s' : io_only s s' -> thread p pid s -> thread p pid s'.
Proof.
  intros (b1 & d1 & t1 & l1 & -> & Hl & Hp) [H1 H2 H3 H4 H5 H6]. split; try done.
  - change (p_pid (l1 !!! p) = pid). destruct (Hp p) as [st ->]. by destruct (get_proc p s).
  - cbn. congruence.
Qed.

Section Cache.
Context (dev : Z).

(** Buffer [b] is the one of block [bno]. *)
Definition caches (s : kst) (b : nat) (bno : Z) : Prop :=
  (b < NBUF)%nat /\ b_dev (get_buf b s) = dev /\ b_blockno (get_buf b s) = bno.

Record cache_ok (s : kst) (cv : Z -> list Z) (refs : Z -> Z) (lk : gmap Z Z) : Prop := {
  co_len : length (k_bufs s) = S NBUF;
  co_ring : exists o, seg (k_bufs s) bhead o bhead /\ o ≡ₚ seq 0 NBUF;
  co_uniq b b' bno : caches s b bno -> caches s b' bno -> b = b';
  co_free b : (b < NBUF)%nat -> b_dev (get_buf b s) <> dev ->
    b_refcnt (get_buf b s) = 0 /\ sl_locked (b_lock (get_buf b s)) = 0;
  co_ref b bno : caches s b bno -> b_refcnt (get_buf b s) = refs bno;
  co_range bno : 0 <= refs bno < 2 ^ 31;
  co_used bno : 0 < refs bno -> exists b, caches s b bno /\ b_valid (get_buf b s) = 1;
  co_data b bno : caches s b bno ->
    b_valid (get_buf b s) = 0 \/ (b_valid (get_buf b s) = 1 /\ b_data (get_buf b s) = cv bno);
  co_clean bno : refs bno = 0 -> cv bno = disk_block (k_disk s) bno;
  co_lock b bno : caches s b bno ->
    b_lock (get_buf b s) = match lk !! bno with Some q => mkSleeplock 1 q | None => mkSleeplock 0 0 end;
  co_lk bno : is_Some (lk !! bno) -> 0 < refs bno
}.

Lemma caches_fun s b bno bno' : caches s b bno -> caches s b bno' -> bno = bno'.
Proof. intros (_ & _ & <-) (_ & _ & <-). done. Qed.

(** A step that changes the buffer of block [bno] (or makes an unused buffer the one of
    block [bno]) and nothing else in the cache, and the disk at most at [bno]. *)
Lemma cache_alter s s' b bno cv refs lk cv' refs' lk' :
  cache_ok s cv refs lk -> (b < NBUF)%nat ->
  length (k_bufs s') = length (k_bufs s) -> (forall b', b' <> b -> get_buf b' s' = get_buf b' s) ->
  b_next (get_buf b s') = b_next (get_buf b s) -> b_prev (get_buf b s') = b_prev (get_buf b s) ->
  caches s' b bno ->
  caches s b bno \/ (b_refcnt (get_buf b s) = 0 /\ forall b', ~ caches s b' bno) ->
  (forall x, x <> bno -> cv' x = cv x /\ refs' x = refs x /\ lk' !! x = lk !! x /\
     disk_block (k_disk s') x = disk_block (k_disk s) x) ->
  b_refcnt (get_buf b s') = refs' bno -> 0 <= refs' bno < 2 ^ 31 -> b_valid (get_buf b s') = 1 ->
  b_data (get_buf b s') = cv' bno -> (refs' bno = 0 -> cv' bno = disk_block (k_disk s') bno) ->
  b_lock (get_buf b s') = match lk' !! bno with Some q => mkSleeplock 1 q | None => mkSleeplock 0 0 end ->
  (is_Some (lk' !! bno) -> 0 < refs' bno) ->
  cache_ok s' cv' refs' lk'.
Proof.
  intros [H1 (o & Hseg & Ho) H3 H4 H5 H6 H7 H8 H9 H10 H11] Hb Hlen Hoth Hn Hp Hcb Hold Hag Hrc Hrange Hv Hd Hcl Hlk Hlkp.
  assert (Hother : forall b' x, b' <> b -> caches s' b' x -> caches s b' x /\ x <> bno).
  { intros b' x Hne (Hx1 & Hx2 & Hx3). rewrite Hoth in Hx2, Hx3 by done.
    assert (Hc : caches s b' x) by done. split; [done|]. intros ->.
    destruct Hold as [Hold|[_ Hno]]; [by apply Hne, (H3 b' b bno)|by apply (Hno b')]. }
  split.
  - congruence.
  - exists o. split; [|done]. apply (seg_ext (k_bufs s)); [| |done]; intros u _;
      (destruct (decide (u = b)) as [->|Hne]; [done|]; by specialize (Hoth u Hne); unfold get_buf in Hoth; rewrite Hoth).
  - intros b1 b2 x Hx1 Hx2. destruct (decide (b1 = b)) as [->|Hn1], (decide (b2 = b)) as [->|Hn2]; [done|..].
    + apply Hother in Hx2 as [_ Hx]; [|done]. destruct Hx. by eapply caches_fun.
    + apply Hother in Hx1 as [_ Hx]; [|done]. destruct Hx. by eapply caches_fun.
    + apply Hother in Hx1 as [Hx1 _], Hx2 as [Hx2 _]; [|done..]. by eapply H3.
  - intros b' Hb' Hdev. destruct (decide (b' = b)) as [->|Hne]; [destruct Hdev; apply Hcb|].
    rewrite Hoth in Hdev |- * by done. by apply H4.
  - intros b' x Hx. destruct (decide (b' = b)) as [->|Hne].
    + by rewrite (caches_fun _ _ _ _ Hx Hcb).
    + apply Hother in Hx as [Hx Hxn]; [|done]. rewrite Hoth by done. rewrite (H5 _ _ Hx). symmetry. by apply Hag.
  - intros x. destruct (decide (x = bno)) as [->|Hne]; [done|]. destruct (Hag x Hne) as (_ & -> & _). done.
  - intros x Hx. destruct (decide (x = bno)) as [->|Hne]; [by exists b|].
    destruct (Hag x Hne) as (_ & Hr & _). rewrite Hr in Hx. destruct (H7 x Hx) as (b0 & Hc0 & Hv0).
    assert (Hb0 : b0 <> b).
    { intros ->. destruct Hold as [Hold|[Hz _]]; [by destruct Hne; eapply caches_fun|].
      rewrite (H5 _ _ Hc0) in Hz. lia. }
    exists b0. unfold caches. rewrite Hoth by done. done.
  - intros b' x Hx. destruct (decide (b' = b)) as [->|Hne].
    + right. by rewrite (caches_fun _ _ _ _ Hx Hcb).
    + apply Hother in Hx as [Hx Hxn]; [|done]. rewrite Hoth by done. destruct (Hag x Hxn) as (-> & _). by apply H8.
  - intros x Hx. destruct (decide (x = bno)) as [->|Hne]; [by apply Hcl|].
    destruct (Hag x Hne) as (-> & Hr & _ & ->). apply H9. congruence.
  - intros b' x Hx. destruct (decide (b' = b)) as [->|Hne].
    + by rewrite (caches_fun _ _ _ _ Hx Hcb).
    + apply Hother in Hx as [Hx Hxn]; [|done]. rewrite Hoth by done. rewrite (H10 _ _ Hx).
      by destruct (Hag x Hxn) as (_ & _ & -> & _).
  - intros x Hx. destruct (decide (x = bno)) as [->|Hne]; [by apply Hlkp|].
    destruct (Hag x Hne) as (_ & -> & Hl & _). apply H11. by rewrite <- Hl.
Qed.

(** ** bget and bread *)

(** Block [bno] can be had without waiting and without running out of buffers. *)
Record gettable (s : kst) (refs : Z -> Z) (lk : gmap Z Z) (bno : Z) : Prop := {
  gt_unlocked : lk !! bno = None;
  gt_room : 0 < refs bno \/ exists b, (b < NBUF)%nat /\ b_refcnt (get_buf b s) = 0;
  gt_max : refs bno + 1 < 2 ^ 31
}.

(** The end of [bget], the buffer found: [f] is what has been done to it. *)
Lemma bget_end b f p pid s env : thread p pid s -> (b < length (k_bufs s))%nat ->
  sl_locked (b_lock (f (get_buf b s))) = 0 ->
  (release LBcache;; acquiresleep (SlBuf b);; mret b)
    (mkWorld (ubuf b f (set_k_held (LBcache :: k_held s) s)) env)
  = Ok b (mkWorld (ubuf b (fun x => set_b_lock (mkSleeplock 1 pid) (f x)) s) env).
Proof.
  intros [T1 T2 T3 T4 T5 T6] Hb Hl. rewrite ubuf_held.
  rewrite (run_bind _ _ _ tt (mkWorld (ubuf b f s) env)).
  2:{ rewrite (release_run LBcache (k_held s)) by done. cbn [w_ks w_env]. do 2 f_equal. }
  rewrite (run_bind _ _ _ tt _ (acquiresleep_run (SlBuf b) p (ubuf b f s) env T1 (T5 _)
    ltac:(unfold get_sl; fold (get_buf b (ubuf b f s)); by rewrite get_ubuf))).
  unfold mret, M_ret. do 2 f_equal. change (get_proc p (ubuf b f s)) with (get_proc p s). rewrite T2.
  unfold upd_sl. fold (ubuf b (fun x => set_b_lock (mkSleeplock 1 pid) x) (ubuf b f s)).
  by rewrite ubuf_twice.
Qed.

Lemma bget_run s cv refs lk bno p pid env :
  thread p pid s -> cache_ok s cv refs lk -> gettable s refs lk bno ->
  exists b y, bget dev bno (mkWorld s env) = Ok b (mkWorld (ubuf b (fun _ => y) s) env) /\ (b < NBUF)%nat /\
  ((caches s b bno /\ y = set_b_lock (mkSleeplock 1 pid) (set_b_refcnt (refs bno + 1) (get_buf b s))) \/
   (b_refcnt (get_buf b s) = 0 /\ (forall b', ~ caches s b' bno) /\
    y = set_b_lock (mkSleeplock 1 pid) (set_b_refcnt 1 (set_b_valid 0 (set_b_blockno bno (set_b_dev dev (get_buf b s))))))).
Proof.
  intros Hth Hok [Hlk Hroom Hmax]. pose proof Hok as [H1 (o & Hseg & Ho) H3 H4 H5 H6 H7 H8 H9 H10 H11].
  assert (Hin : forall u, u ∈ o <-> (u < NBUF)%nat).
  { intros u. rewrite Ho, elem_of_seq. lia. }
  assert (Hho : bhead ∉ o) by (rewrite Hin; unfold bhead; lia).
  assert (Hlo : length o = NBUF) by (rewrite Ho; apply length_seq).
  set (s1 := set_k_held (LBcache :: k_held s) s).
  unfold bget. rewrite (run_bind _ _ _ tt (mkWorld s1 env)) by (apply (acquire_run LBcache (mkWorld s env)), Hth).
  rewrite (run_bind _ _ _ (get_buf bhead s) (mkWorld s1 env)) by done.
  set (P := fun b => (b_dev (get_buf b s) =? dev) && (b_blockno (get_buf b s) =? bno)).
  rewrite (run_bind _ _ _ (List.find P o) (mkWorld s1 env)).
  2:{ apply (bget_cached_run s1 env dev bno o bhead); [done|done|lia]. }
  destruct (List.find P o) as [b|] eqn:Hf.
  - apply List.find_some in Hf as [Hbin HP]. apply list_elem_of_In, Hin in Hbin.
    apply andb_prop in HP as [HP1 HP2]. apply Z.eqb_eq in HP1, HP2.
    assert (Hc : caches s b bno) by done.
    set (f := fun x => set_b_refcnt (u32 (b_refcnt x + 1)) x).
    rewrite (run_bind _ _ _ tt (mkWorld (ubuf b f s1) env)) by done.
    exists b, (set_b_lock (mkSleeplock 1 pid) (set_b_refcnt (refs bno + 1) (get_buf b s))).
    split; [|split; [done|by left]].
    unfold s1. rewrite (bget_end b f p pid s env Hth); [|lia|].
    + do 2 f_equal. apply ubuf_get_ext. unfold f. rewrite (H5 _ _ Hc).
      assert (Hu : u32 (refs bno + 1) = refs bno + 1) by (unfold u32; apply Z.mod_small; specialize (H6 bno); lia).
      by rewrite Hu.
    + cbn. by rewrite (H10 _ _ Hc), Hlk.
  - assert (Hno : forall b', ~ caches s b' bno).
    { intros b' (Hb' & Hd & Hbn). pose proof (List.find_none _ _ Hf b') as Hn. unfold P in Hn.
      rewrite Hd, Hbn, !Z.eqb_refl in Hn. discriminate Hn. by apply list_elem_of_In, Hin. }
    rewrite (run_bind _ _ _ (get_buf bhead s) (mkWorld s1 env)) by done.
    rewrite (run_bind _ _ _ (List.find (fun b => b_refcnt (get_buf b s) =? 0) (reverse o)) (mkWorld s1 env)).
    2:{ apply (bget_unused_run s1 env o bhead); [done|done|lia]. }
    destruct (List.find _ (reverse o)) as [b|] eqn:Hf2.
    2:{ destruct Hroom as [Hr|(b & Hb & Hz)].
        - destruct (H7 bno Hr) as (b & Hc & _). by destruct (Hno b).
        - pose proof (List.find_none _ _ Hf2 b) as Hn. cbn in Hn. rewrite Hz in Hn. discriminate Hn.
          apply list_elem_of_In. rewrite elem_of_reverse. by apply Hin. }
    apply List.find_some in Hf2 as [Hbin HP]. apply list_elem_of_In in Hbin. rewrite elem_of_reverse in Hbin.
    apply Hin in Hbin. apply Z.eqb_eq in HP.
    set (f := fun x => set_b_refcnt 1 (set_b_valid 0 (set_b_blockno bno (set_b_dev dev x)))).
    rewrite (run_bind _ _ _ tt (mkWorld (ubuf b (set_b_dev dev) s1) env)) by done.
    rewrite (run_bind _ _ _ tt (mkWorld (ubuf b (set_b_blockno bno) (ubuf b (set_b_dev dev) s1)) env)) by done.
    rewrite (run_bind _ _ _ tt (mkWorld (ubuf b (set_b_valid 0) (ubuf b (set_b_blockno bno) (ubuf b (set_b_dev dev) s1))) env)) by done.
    rewrite (run_bind _ _ _ tt (mkWorld (ubuf b (set_b_refcnt 1) (ubuf b (set_b_valid 0) (ubuf b (set_b_blockno bno) (ubuf b (set_b_dev dev) s1)))) env)) by done.
    rewrite !ubuf_twice. change (_ ∘ _) with f.
    exists b, (set_b_lock (mkSleeplock 1 pid) (f (get_buf b s))). split; [|split; [done|by right]].
    unfold s1. rewrite (bget_end b f p pid s env Hth); [|lia|].
    + do 2 f_equal. by apply ubuf_get_ext.
    + cbn. destruct (decide (b_dev (get_buf b s) = dev)) as [Hd|Hd]; [|by apply H4].
      assert (Hc : caches s b (b_blockno (get_buf b s))) by done.
      rewrite (H10 _ _ Hc). destruct (lk !! b_blockno (get_buf b s)) as [q|] eqn:Hq; [|reflexivity].
      specialize (H11 _ (mk_is_Some _ _ Hq)). rewrite (H5 _ _ Hc) in HP. lia.
Qed.

(** The effect of an operation on buffer [b] that changes only this buffer. *)
Lemma io_only_ubuf b f s : io_only s (ubuf b f s).
Proof. apply io_only_bufs. Qed.

(** Taking a reference to block [bno], and its lock. *)
Lemma cache_got s cv refs lk bno b pid z :
  cache_ok s cv refs lk -> (b < NBUF)%nat -> refs bno + 1 < 2 ^ 31 ->
  caches s b bno \/ (b_refcnt (get_buf b s) = 0 /\ forall b', ~ caches s b' bno) ->
  b_next z = b_next (get_buf b s) -> b_prev z = b_prev (get_buf b s) -> b_dev z = dev -> b_blockno z = bno ->
  b_refcnt z = refs bno + 1 -> b_valid z = 1 -> b_data z = cv bno -> b_lock z = mkSleeplock 1 pid ->
  cache_ok (ubuf b (fun _ => z) s) cv (<[bno := refs bno + 1]> refs) (<[bno := pid]> lk) /\
  caches (ubuf b (fun _ => z) s) b bno.
Proof.
  intros Hok Hb Hmax Hold Z1 Z2 Z3 Z4 Z5 Z6 Z7 Z8. pose proof (co_len _ _ _ _ Hok) as Hlen.
  pose proof (co_range _ _ _ _ Hok bno) as Hr.
  assert (Hgz : get_buf b (ubuf b (fun _ => z) s) = z) by (apply get_ubuf; lia).
  assert (Hcz : caches (ubuf b (fun _ => z) s) b bno) by (unfold caches; by rewrite Hgz).
  split; [|done].
  apply (cache_alter s _ b bno cv refs lk); try done; rewrite ?Hgz, ?fn_lookup_insert, ?lookup_insert_eq; try done; try lia.
  - apply length_ubuf.
  - intros b' Hne. by apply get_ubuf_ne.
  - intros x Hx. by rewrite fn_lookup_insert_ne, lookup_insert_ne by done.
Qed.

Lemma bread_spec s cv refs lk bno p pid env :
  thread p pid s -> cache_ok s cv refs lk -> gettable s refs lk bno ->
  exists b s', bread dev bno (mkWorld s env) = Ok b (mkWorld s' env) /\
    cache_ok s' cv (<[bno := refs bno + 1]> refs) (<[bno := pid]> lk) /\ caches s' b bno /\
    (forall b' x, caches s b' x -> 0 < refs x -> caches s' b' x) /\
    io_only s s' /\ k_disk s' = k_disk s /\ k_dtrace s' = k_dtrace s.
Proof.
  intros Hth Hok Hgt. destruct (bget_run s cv refs lk bno p pid env Hth Hok Hgt) as (b & y & Hrun & Hb & Hcase).
  pose proof (co_len _ _ _ _ Hok) as Hlen. assert (Hbl : (b < length (k_bufs s))%nat) by lia.
  pose proof (gt_max _ _ _ _ Hgt) as Hmax.
  assert (Hy : b_next y = b_next (get_buf b s) /\ b_prev y = b_prev (get_buf b s) /\ b_dev y = dev /\
    b_blockno y = bno /\ b_refcnt y = refs bno + 1 /\ b_lock y = mkSleeplock 1 pid /\
    ((b_valid y = 1 /\ b_data y = cv bno) \/ (b_valid y = 0 /\ cv bno = disk_block (k_disk s) bno))).
  { assert (Huse : (forall b', caches s b' bno -> b_valid (get_buf b' s) = 0) -> refs bno = 0).
    { intros Hinv. destruct (decide (refs bno = 0)) as [|Hr]; [done|]. pose proof (co_range _ _ _ _ Hok bno).
      destruct (co_used _ _ _ _ Hok bno) as (b' & Hc' & Hv'); [lia|]. rewrite Hinv in Hv' by done. lia. }
    destruct Hcase as [[Hc ->]|(Hz & Hno & ->)]; cbn.
    - repeat (split; [first [reflexivity|apply Hc]|]). destruct (co_data _ _ _ _ Hok b bno Hc) as [Hv|Hv]; [right|by left].
      split; [done|]. apply (co_clean _ _ _ _ Hok), Huse. intros b' Hc'. by rewrite (co_uniq _ _ _ _ Hok b' b bno Hc' Hc).
    - assert (Hr : refs bno = 0) by (apply Huse; intros b' Hc'; by destruct (Hno b')). rewrite Hr.
      repeat (split; [reflexivity|]). right. split; [done|]. by apply (co_clean _ _ _ _ Hok). }
  assert (Hold : caches s b bno \/ (b_refcnt (get_buf b s) = 0 /\ forall b', ~ caches s b' bno)) by tauto.
  assert (Hkeep : forall z b' x, b_dev z = dev -> b_blockno z = bno -> caches s b' x -> 0 < refs x ->
    caches (ubuf b (fun _ => z) s) b' x).
  { intros z b' x Z3 Z4 Hc Hx. unfold caches. destruct (decide (b' = b)) as [->|Hne]; [|by rewrite get_ubuf_ne].
    rewrite get_ubuf by done. split; [done|]. split; [done|]. destruct Hold as [Hold|[Hz _]].
    - rewrite Z4. by eapply caches_fun.
    - rewrite (co_ref _ _ _ _ Hok _ _ Hc) in Hz. lia. }
  clear Hcase. destruct Hy as (Y1 & Y2 & Y3 & Y4 & Y5 & Y6 & Hy).
  unfold bread. rewrite (run_bind _ _ _ _ _ Hrun).
  set (s1 := ubuf b (fun _ => y) s) in *. assert (Hg1 : get_buf b s1 = y) by (by apply get_ubuf).
  rewrite (run_bind _ _ _ y (mkWorld s1 env)) by (unfold buf_of, kgets, gets; cbn [w_ks]; by rewrite Hg1).
  destruct Hy as [[Hv Hd]|[Hv Hd]]; rewrite Hv; cbn [Z.eqb when].
  - exists b, s1. split; [done|]. destruct (cache_got s cv refs lk bno b pid y) as [H1 H2]; try done.
    split; [done|]. split; [done|].
    split; [by intros b' x; apply Hkeep|]. split; [apply io_only_ubuf|done].
  - set (z := set_b_valid 1 (set_b_data (disk_block (k_disk s) bno) y)).
    exists b, (ubuf b (fun _ => z) s). split.
    + rewrite (run_bind _ _ _ tt (mkWorld (ubuf b (fun _ => z) s) env)); [done|].
      unfold virtio_disk_rw. rewrite (run_bind _ _ _ tt (mkWorld (ubuf b (set_b_data (disk_block (k_disk s) bno)) s1) env)).
      * unfold buf_upd, kmodify, modify. cbn [w_ks w_env]. do 2 f_equal.
        match goal with |- ?t = _ => change t with (ubuf b (set_b_valid 1) (ubuf b (set_b_data (disk_block (k_disk s) bno)) s1)) end.
        unfold s1. by rewrite !ubuf_twice.
      * rewrite (run_bind _ _ _ (get_buf b s1) (mkWorld s1 env)) by done. rewrite Hg1.
        rewrite (run_bind _ _ _ (k_disk s) (mkWorld s1 env)) by done. by rewrite Y4.
    + destruct (cache_got s cv refs lk bno b pid z) as [H1 H2]; try done.
      split; [done|]. split; [done|].
    split; [by intros b' x; apply Hkeep|]. split; [apply io_only_ubuf|done].
Qed.

(** ** A buffer in use *)

Lemma caches_valid s cv refs lk b bno : cache_ok s cv refs lk -> caches s b bno -> 0 < refs bno ->
  b_valid (get_buf b s) = 1 /\ b_data (get_buf b s) = cv bno.
Proof.
  intros Hok Hc Hr. destruct (co_used _ _ _ _ Hok bno Hr) as (b' & Hc' & Hv).
  rewrite (co_uniq _ _ _ _ Hok b' b bno Hc' Hc) in Hv. split; [done|].
  destruct (co_data _ _ _ _ Hok b bno Hc) as [H|[_ H]]; [congruence|done].
Qed.

Lemma caches_ubuf s b bno f b' x : (b < length (k_bufs s))%nat -> caches s b bno ->
  b_dev (f (get_buf b s)) = dev -> b_blockno (f (get_buf b s)) = bno ->
  caches (ubuf b f s) b' x <-> caches s b' x.
Proof.
  intros Hb (H1 & H2 & H3) F1 F2. unfold caches. destruct (decide (b' = b)) as [->|Hne]; [|by rewrite get_ubuf_ne].
  rewrite get_ubuf by done. rewrite F1, F2, H2, H3. done.
Qed.

(** Changing the reference count, the contents or the lock of a buffer in use. *)
Lemma cache_ubuf s cv refs lk b bno d n lk' f :
  cache_ok s cv refs lk -> caches s b bno -> 0 < refs bno -> 0 <= n < 2 ^ 31 ->
  (forall x, x <> bno -> lk' !! x = lk !! x) -> (is_Some (lk' !! bno) -> 0 < n) ->
  (n = 0 -> d = disk_block (k_disk s) bno) ->
  f (get_buf b s) = set_b_data d (set_b_refcnt n (set_b_lock
    (match lk' !! bno with Some q => mkSleeplock 1 q | None => mkSleeplock 0 0 end) (get_buf b s))) ->
  cache_ok (ubuf b f s) (<[bno := d]> cv) (<[bno := n]> refs) lk'.
Proof.
  intros Hok Hc Hr Hn Hlk Hlkn Hz Hf. pose proof (co_len _ _ _ _ Hok) as Hlen. pose proof Hc as (Hb & Hc2 & Hc3).
  assert (Hg : get_buf b (ubuf b f s) = f (get_buf b s)) by (apply get_ubuf; lia).
  destruct (caches_valid s cv refs lk b bno Hok Hc Hr) as [Hv _].
  apply (cache_alter s _ b bno cv refs lk); try done; rewrite ?Hg, ?Hf, ?fn_lookup_insert; try done.
  - apply length_ubuf.
  - intros b' Hne. by apply get_ubuf_ne.
  - by apply (caches_ubuf s b bno); rewrite ?Hf; try done; lia.
  - by left.
  - intros x Hx. rewrite !fn_lookup_insert_ne by done. repeat split; by apply Hlk.
Qed.

(** ** bwrite *)

Lemma bwrite_spec s cv refs lk b bno p pid env :
  thread p pid s -> cache_ok s cv refs lk -> caches s b bno -> lk !! bno = Some pid ->
  exists s', bwrite b (mkWorld s env) = Ok tt (mkWorld s' env) /\ cache_ok s' cv refs lk /\
    (forall b' x, caches s' b' x <-> caches s b' x) /\ io_only s s' /\
    k_disk s' = <[bno := cv bno]> (k_disk s) /\ k_dtrace s' = (bno, cv bno) :: k_dtrace s.
Proof.
  intros Hth Hok Hc Hlk. pose proof (co_lk _ _ _ _ Hok bno (mk_is_Some _ _ Hlk)) as Hr.
  destruct (caches_valid s cv refs lk b bno Hok Hc Hr) as [Hv Hd]. pose proof Hc as (Hb & Hc2 & Hc3).
  exists (set_k_dtrace ((bno, cv bno) :: k_dtrace s) (set_k_disk (<[bno := cv bno]> (k_disk s)) s)).
  split; [|split; [|split; [done|split; [|done]]]].
  - unfold bwrite. rewrite (run_bind _ _ _ true (mkWorld s env)).
    2:{ rewrite (holdingsleep_run (SlBuf b) p) by apply Hth. unfold get_sl. fold (get_buf b s).
        rewrite (co_lock _ _ _ _ Hok b bno Hc), Hlk. cbn. by rewrite (th_pid _ _ _ Hth), Z.eqb_refl. }
    cbn [negb]. unfold virtio_disk_rw. rewrite (run_bind _ _ _ (get_buf b s) (mkWorld s env)) by done.
    by rewrite Hc3, Hd.
  - apply (cache_alter s _ b bno cv refs lk); try done.
    + by left.
    + intros x Hx. repeat split. unfold disk_block. cbn. by rewrite lookup_insert_ne.
    + by apply (co_ref _ _ _ _ Hok).
    + by apply (co_range _ _ _ _ Hok).
    + lia.
    + by apply (co_lock _ _ _ _ Hok).
  - exists (k_bufs s), (<[bno := cv bno]> (k_disk s)), ((bno, cv bno) :: k_dtrace s), (k_procs s). split; [kst_eq|].
    split; [done|]. intros q. apply same_but_state_refl.
Qed.

(** ** Reference counts *)

Lemma brefs_run b f p pid s env : thread p pid s ->
  (acquire LBcache;; buf_upd b f;; release LBcache) (mkWorld s env) = Ok tt (mkWorld (ubuf b f s) env).
Proof.
  intros Hth. set (s1 := set_k_held (LBcache :: k_held s) s).
  rewrite (run_bind _ _ _ tt (mkWorld s1 env)) by (apply (acquire_run LBcache (mkWorld s env)), Hth).
  rewrite (run_bind _ _ _ tt (mkWorld (ubuf b f s1) env)) by done. unfold s1. rewrite ubuf_held.
  rewrite (release_run LBcache (k_held s)) by done. cbn [w_ks w_env]. do 2 f_equal.
Qed.

Lemma fn_insert_id {A} (f : Z -> A) x a : f x = a -> forall y, (<[x := a]> f) y = f y.
Proof. intros <- y. destruct (decide (x = y)) as [<-|H]; [by rewrite fn_lookup_insert|by rewrite fn_lookup_insert_ne]. Qed.

Lemma cache_ok_ext s cv cv' refs refs' lk : (forall x, cv' x = cv x) -> (forall x, refs' x = refs x) ->
  cache_ok s cv refs lk -> cache_ok s cv' refs' lk.
Proof.
  intros Hcv Hrefs [H1 H2 H3 H4 H5 H6 H7 H8 H9 H10 H11].
  split; try done; intros *; rewrite ?Hcv, ?Hrefs; auto.
Qed.

Lemma bdata_spec s cv refs lk b bno d f :
  cache_ok s cv refs lk -> caches s b bno -> 0 < refs bno ->
  f (get_buf b s) = set_b_data d (get_buf b s) ->
  cache_ok (ubuf b f s) (<[bno := d]> cv) refs lk /\ (forall b' x, caches (ubuf b f s) b' x <-> caches s b' x).
Proof.
  intros Hok Hc Hr Hf. pose proof (co_len _ _ _ _ Hok) as Hlen. pose proof Hc as (Hb & Hc2 & Hc3). split.
  - apply (cache_ok_ext _ (<[bno := d]> cv) _ (<[bno := refs bno]> refs)); [done|intros x; by rewrite (fn_insert_id refs)|].
    apply (cache_ubuf s cv refs lk b bno d (refs bno) lk); try done.
    + by apply (co_range _ _ _ _ Hok).
    + lia.
    + rewrite <- (co_lock _ _ _ _ Hok b bno Hc), <- (co_ref _ _ _ _ Hok b bno Hc), Hf. by destruct (get_buf b s).
  - intros b' x. apply (caches_ubuf s b bno); rewrite ?Hf; try done. lia.
Qed.

(** [bpin] and [bunpin], [n] being the new count. *)
Lemma bpins_spec s cv refs lk b bno n f p pid env :
  thread p pid s -> cache_ok s cv refs lk -> caches s b bno -> 0 < refs bno -> 0 < n < 2 ^ 31 ->
  f (get_buf b s) = set_b_refcnt n (get_buf b s) ->
  exists s', (acquire LBcache;; buf_upd b f;; release LBcache) (mkWorld s env) = Ok tt (mkWorld s' env) /\
    cache_ok s' cv (<[bno := n]> refs) lk /\ (forall b' x, caches s' b' x <-> caches s b' x) /\ io_only s s' /\
    k_disk s' = k_disk s /\ k_dtrace s' = k_dtrace s.
Proof.
  intros Hth Hok Hc Hr Hn Hf. pose proof (co_len _ _ _ _ Hok) as Hlen. pose proof Hc as (Hb & Hc2 & Hc3).
  destruct (caches_valid s cv refs lk b bno Hok Hc Hr) as [Hv Hd].
  exists (ubuf b f s). split; [by apply (brefs_run b f p pid)|]. split; [|split; [|split; [apply io_only_ubuf|done]]].
  - apply (cache_ok_ext _ (<[bno := cv bno]> cv) _ (<[bno := n]> refs)); [intros x; by rewrite (fn_insert_id cv)|done|].
    apply (cache_ubuf s cv refs lk b bno (cv bno) n lk); try done; try lia.
    rewrite <- (co_lock _ _ _ _ Hok b bno Hc), <- Hd, Hf. by destruct (get_buf b s).
  - intros b' x. apply (caches_ubuf s b bno); rewrite ?Hf; try done. lia.
Qed.

Lemma bpin_spec s cv refs lk b bno p pid env :
  thread p pid s -> cache_ok s cv refs lk -> caches s b bno -> 0 < refs bno -> refs bno + 1 < 2 ^ 31 ->
  exists s', bpin b (mkWorld s env) = Ok tt (mkWorld s' env) /\
    cache_ok s' cv (<[bno := refs bno + 1]> refs) lk /\ (forall b' x, caches s' b' x <-> caches s b' x) /\ io_only s s' /\
    k_disk s' = k_disk s /\ k_dtrace s' = k_dtrace s.
Proof.
  intros Hth Hok Hc Hr Hn. apply (bpins_spec s cv refs lk b bno _ _ p pid); try done; [lia|].
  rewrite (co_ref _ _ _ _ Hok b bno Hc). unfold u32. by rewrite Z.mod_small by lia.
Qed.

Lemma bunpin_spec s cv refs lk b bno p pid env :
  thread p pid s -> cache_ok s cv refs lk -> caches s b bno -> 1 < refs bno ->
  exists s', bunpin b (mkWorld s env) = Ok tt (mkWorld s' env) /\
    cache_ok s' cv (<[bno := refs bno - 1]> refs) lk /\ (forall b' x, caches s' b' x <-> caches s b' x) /\ io_only s s' /\
    k_disk s' = k_disk s /\ k_dtrace s' = k_dtrace s.
Proof.
  intros Hth Hok Hc Hr. pose proof (co_range _ _ _ _ Hok bno) as Hrange.
  apply (bpins_spec s cv refs lk b bno _ _ p pid); try done; [lia|lia|].
  rewrite (co_ref _ _ _ _ Hok b bno Hc). unfold u32. by rewrite Z.mod_small by lia.
Qed.

(** ** brelse *)

(** Everything in a buffer but its links. *)
Definition body (x : buf) := (b_valid x, b_dev x, b_blockno x, b_lock x, b_refcnt x, b_data x).

Lemma moved_body l b j : body (moved l b !!! j) = body (l !!! j).
Proof. unfold moved, linked, unlinked. by rewrite !(alter_field body). Qed.

Lemma length_moved l b : length (moved l b) = length l.
Proof. unfold moved, linked. by rewrite !length_alter, length_unlinked. Qed.

(** Only the order of the ring changes. *)
Lemma cache_relink s s' cv refs lk o :
  cache_ok s cv refs lk -> length (k_bufs s') = length (k_bufs s) ->
  (forall j, body (get_buf j s') = body (get_buf j s)) -> k_disk s' = k_disk s ->
  seg (k_bufs s') bhead o bhead -> o ≡ₚ seq 0 NBUF ->
  cache_ok s' cv refs lk /\ (forall b x, caches s' b x <-> caches s b x).
Proof.
  intros [H1 H2 H3 H4 H5 H6 H7 H8 H9 H10 H11] Hlen Hbody Hdisk Hseg Ho.
  assert (E : forall j, b_valid (get_buf j s') = b_valid (get_buf j s) /\ b_dev (get_buf j s') = b_dev (get_buf j s) /\
    b_blockno (get_buf j s') = b_blockno (get_buf j s) /\ b_lock (get_buf j s') = b_lock (get_buf j s) /\
    b_refcnt (get_buf j s') = b_refcnt (get_buf j s) /\ b_data (get_buf j s') = b_data (get_buf j s)).
  { intros j. specialize (Hbody j). unfold body in Hbody. by injection Hbody as -> -> -> -> -> ->. }
  assert (Hc : forall b x, caches s' b x <-> caches s b x).
  { intros b x. unfold caches. by destruct (E b) as (_ & -> & -> & _). }
  split; [|done]. split.
  - congruence.
  - by exists o.
  - intros b b' x. rewrite !Hc. apply H3.
  - intros b. destruct (E b) as (_ & -> & _ & -> & -> & _). apply H4.
  - intros b x. rewrite Hc. destruct (E b) as (_ & _ & _ & _ & -> & _). apply H5.
  - done.
  - intros x Hx. destruct (H7 x Hx) as (b & Hb & Hv). exists b. rewrite Hc. by destruct (E b) as (-> & _).
  - intros b x. rewrite Hc. destruct (E b) as (-> & _ & _ & _ & _ & ->). apply H8.
  - intros x. rewrite Hdisk. apply H9.
  - intros b x. rewrite Hc. destruct (E b) as (_ & _ & _ & -> & _). apply H10.
  - done.
Qed.

(** Moving [b] behind the head. *)
Lemma move_run b s env : b <> bhead -> let bf := get_buf b s in
  (buf_upd (b_next bf) (set_b_prev (b_prev bf));;
   buf_upd (b_prev bf) (set_b_next (b_next bf));;
   h ← buf_of bhead;
   buf_upd b (set_b_next (b_next h));;
   buf_upd b (set_b_prev bhead);;
   h ← buf_of bhead;
   buf_upd (b_next h) (set_b_prev b);;
   buf_upd bhead (set_b_next b)) (mkWorld s env)
  = Ok tt (mkWorld (set_k_bufs (moved (k_bufs s) b) s) env).
Proof.
  intros Hb bf.
  rewrite (run_bind _ _ _ tt (mkWorld (ubuf (b_next bf) (set_b_prev (b_prev bf)) s) env)) by done.
  set (s2 := set_k_bufs (unlinked (k_bufs s) b) s).
  rewrite (run_bind _ _ _ tt (mkWorld s2 env)) by done.
  rewrite (run_bind _ _ _ (get_buf bhead s2) (mkWorld s2 env)) by done.
  set (nx := b_next (get_buf bhead s2)).
  rewrite (run_bind _ _ _ tt (mkWorld (ubuf b (set_b_next nx) s2) env)) by done.
  set (s4 := ubuf b (set_b_prev bhead) (ubuf b (set_b_next nx) s2)).
  rewrite (run_bind _ _ _ tt (mkWorld s4 env)) by done.
  rewrite (run_bind _ _ _ (get_buf bhead s2) (mkWorld s4 env)).
  2:{ unfold buf_of, kgets, gets. cbn [w_ks]. unfold s4. by rewrite !get_ubuf_ne by congruence. }
  fold nx. rewrite (run_bind _ _ _ tt (mkWorld (ubuf nx (set_b_prev b) s4) env)) by done. done.
Qed.

Lemma brelse_run b p pid s env :
  thread p pid s -> (b < NBUF)%nat -> length (k_bufs s) = S NBUF -> b_lock (get_buf b s) = mkSleeplock 1 pid ->
  let s1 := ubuf b (fun x => set_b_refcnt (u32 (b_refcnt x - 1)) (set_b_lock (mkSleeplock 0 0) x)) s in
  let bs := if u32 (b_refcnt (get_buf b s) - 1) =? 0 then moved (k_bufs s1) b else k_bufs s1 in
  brelse b (mkWorld s env) = Ok tt (mkWorld (set_k_bufs bs
    (set_k_procs (imap (wakes (Some p) (Some (ChSleep (SlBuf b)))) (k_procs s)) s)) env).
Proof.
  intros Hth Hb Hlen Hlk s1 bs. set (pl := imap (wakes (Some p) (Some (ChSleep (SlBuf b)))) (k_procs s)).
  assert (Hbl : (b < length (k_bufs s))%nat) by lia.
  unfold brelse. rewrite (run_bind _ _ _ true (mkWorld s env)).
  2:{ rewrite (holdingsleep_run (SlBuf b) p) by apply Hth. unfold get_sl. fold (get_buf b s).
      rewrite Hlk. cbn. by rewrite (th_pid _ _ _ Hth), Z.eqb_refl. }
  cbn [negb].
  rewrite (run_bind _ _ _ tt _ (releasesleep_run (SlBuf b) p s env (th_cur _ _ _ Hth) (th_sleep _ _ _ Hth _)
    (th_len _ _ _ Hth) (th_proc _ _ _ Hth))).
  fold pl. unfold upd_sl. fold (ubuf b (fun x => set_b_lock (mkSleeplock 0 0) x) s).
  set (s2 := set_k_procs pl (ubuf b (fun x => set_b_lock (mkSleeplock 0 0) x) s)).
  set (s3 := set_k_held (LBcache :: k_held s) s2).
  rewrite (run_bind _ _ _ tt (mkWorld s3 env)) by (apply (acquire_run LBcache (mkWorld s2 env)), Hth).
  set (s4 := set_k_held (LBcache :: k_held s) (set_k_procs pl s1)).
  rewrite (run_bind _ _ _ tt (mkWorld s4 env)).
  2:{ unfold buf_upd, kmodify, modify. cbn [w_ks w_env]. do 2 f_equal.
      match goal with |- ?t = _ => change t with (ubuf b (fun x => set_b_refcnt (u32 (b_refcnt x - 1)) x) s3) end.
      transitivity (set_k_held (LBcache :: k_held s) (set_k_procs pl
        (ubuf b (fun x => set_b_refcnt (u32 (b_refcnt x - 1)) x) (ubuf b (fun x => set_b_lock (mkSleeplock 0 0) x) s)))); [done|].
      rewrite ubuf_twice. done. }
  rewrite (run_bind _ _ _ (get_buf b s4) (mkWorld s4 env)) by done.
  assert (Hg : b_refcnt (get_buf b s4) = u32 (b_refcnt (get_buf b s) - 1)).
  { change (get_buf b s4) with (get_buf b s1). unfold s1. by rewrite get_ubuf. }
  rewrite Hg.
  rewrite (run_bind _ _ _ tt (mkWorld (set_k_bufs bs s4) env)).
  2:{ unfold bs. destruct (_ =? 0); cbn [when].
      - apply (move_run b s4 env). unfold bhead. lia.
      - unfold mret, M_ret. do 2 f_equal. }
  rewrite (release_run LBcache (k_held s)) by done. cbn [w_ks w_env]. do 2 f_equal.
Qed.

Lemma brelse_spec s cv refs lk b bno p pid env :
  thread p pid s -> cache_ok s cv refs lk -> caches s b bno -> lk !! bno = Some pid ->
  (1 < refs bno \/ cv bno = disk_block (k_disk s) bno) ->
  exists s', brelse b (mkWorld s env) = Ok tt (mkWorld s' env) /\
    cache_ok s' cv (<[bno := refs bno - 1]> refs) (delete bno lk) /\ (forall b' x, caches s' b' x <-> caches s b' x) /\
    io_only s s' /\ k_disk s' = k_disk s /\ k_dtrace s' = k_dtrace s.
Proof.
  intros Hth Hok Hc Hlk Hkeep. pose proof (co_len _ _ _ _ Hok) as Hlen. pose proof Hc as (Hb & Hc2 & Hc3).
  pose proof (co_lk _ _ _ _ Hok bno (mk_is_Some _ _ Hlk)) as Hr. pose proof (co_range _ _ _ _ Hok bno) as Hrange.
  destruct (caches_valid s cv refs lk b bno Hok Hc Hr) as [Hv Hd].
  pose proof (co_lock _ _ _ _ Hok b bno Hc) as Hl. rewrite Hlk in Hl.
  pose proof (brelse_run b p pid s env Hth Hb Hlen Hl) as Hrun. cbn zeta in Hrun.
  set (f := fun x => set_b_refcnt (u32 (b_refcnt x - 1)) (set_b_lock (mkSleeplock 0 0) x)) in *.
  assert (Hu : u32 (b_refcnt (get_buf b s) - 1) = refs bno - 1).
  { rewrite (co_ref _ _ _ _ Hok b bno Hc). unfold u32. apply Z.mod_small. lia. }
  assert (Hf : f (get_buf b s) = set_b_data (cv bno) (set_b_refcnt (refs bno - 1) (set_b_lock (mkSleeplock 0 0) (get_buf b s)))).
  { unfold f. rewrite Hu, <- Hd. by destruct (get_buf b s). }
  assert (Hok1 : cache_ok (ubuf b f s) cv (<[bno := refs bno - 1]> refs) (delete bno lk)).
  { apply (cache_ok_ext _ (<[bno := cv bno]> cv) _ (<[bno := refs bno - 1]> refs)); [intros x; by rewrite (fn_insert_id cv)|done|].
    apply (cache_ubuf s cv refs lk b bno (cv bno) (refs bno - 1)); rewrite ?lookup_delete_eq; try done; try lia.
    - intros x Hx. by rewrite lookup_delete_ne.
    - intros Hz. destruct Hkeep; [lia|done]. }
  assert (Hc1 : forall b' x, caches (ubuf b f s) b' x <-> caches s b' x).
  { intros b' x. apply (caches_ubuf s b bno); rewrite ?Hf; try done. lia. }
  set (bs := if _ =? 0 then _ else _) in Hrun. set (pl := imap _ _) in Hrun.
  eexists. split; [exact Hrun|]. set (s' := set_k_bufs bs _).
  assert (Hbs : length bs = S NBUF /\ (forall j, body (bs !!! j) = body (k_bufs (ubuf b f s) !!! j)) /\
    exists o, seg bs bhead o bhead /\ o ≡ₚ seq 0 NBUF).
  { pose proof (co_len _ _ _ _ Hok1) as Hlen1. destruct (co_ring _ _ _ _ Hok1) as (o & Hseg & Ho).
    unfold bs. destruct (_ =? 0); [|split; [done|split; [done|by exists o]]].
    rewrite length_moved. split; [done|]. split; [intros j; apply moved_body|].
    assert (Hin : b ∈ o) by (rewrite Ho; apply elem_of_seq; lia).
    apply list_elem_of_split in Hin as (o1 & o2 & ->). exists (b :: o1 ++ o2).
    split; [by apply seg_moved|]. by rewrite Permutation_middle. }
  destruct Hbs as (Hbl & Hbody & o & Hseg & Ho).
  destruct (cache_relink (ubuf b f s) s' cv (<[bno := refs bno - 1]> refs) (delete bno lk) o Hok1) as [H1 H2]; try done.
  { change (length bs = length (k_bufs (ubuf b f s))). rewrite Hbl. by rewrite length_ubuf. }
  split; [done|]. split; [intros b' x; by rewrite H2, Hc1|]. split; [|done].
  exists bs, (k_disk s), (k_dtrace s), pl. split; [unfold s'; kst_eq|]. unfold pl. split; [by rewrite length_imap|].
  intros q. unfold get_proc. rewrite !list_lookup_total_alt, list_lookup_imap.
  destruct (k_procs s !! q) as [x|]; [|apply same_but_state_refl]. cbn. unfold wakes.
  destruct (_ && _); [by exists RUNNABLE|apply same_but_state_refl].
Qed.

(** ** There is an unused buffer *)

(** As long as fewer than [NBUF] blocks are in use. *)
Lemma free_buffer s cv refs lk (busy : list Z) :
  cache_ok s cv refs lk -> (forall x, 0 < refs x -> x ∈ busy) -> (length busy < NBUF)%nat ->
  exists b, (b < NBUF)%nat /\ b_refcnt (get_buf b s) = 0.
Proof.
  intros Hok Hbusy Hlen.
  destruct (decide (Exists (fun b => b_refcnt (get_buf b s) = 0) (seq 0 NBUF))) as [He|Hn].
  { apply Exists_exists in He as (b & Hb & Hz). apply elem_of_seq in Hb. exists b. split; [lia|done]. }
  apply not_Exists_Forall in Hn; [|apply _]. rewrite Forall_forall in Hn.
  assert (Hc : forall b, (b < NBUF)%nat -> caches s b (b_blockno (get_buf b s)) /\ b_blockno (get_buf b s) ∈ busy).
  { intros b Hb. assert (Hz : b_refcnt (get_buf b s) <> 0) by (apply Hn, elem_of_seq; lia).
    assert (Hd : b_dev (get_buf b s) = dev).
    { destruct (decide (b_dev (get_buf b s) = dev)) as [|Hd]; [done|].
      destruct Hz. by apply (co_free _ _ _ _ Hok b Hb). }
    assert (Hcb : caches s b (b_blockno (get_buf b s))) by done. split; [done|].
    apply Hbusy. rewrite <- (co_ref _ _ _ _ Hok _ _ Hcb).
    pose proof (co_range _ _ _ _ Hok (b_blockno (get_buf b s))) as Hr. rewrite <- (co_ref _ _ _ _ Hok _ _ Hcb) in Hr. lia. }
  assert (Hsub : (fun b => b_blockno (get_buf b s)) <$> seq 0 NBUF ⊆+ busy).
  { apply NoDup_submseteq.
    - apply NoDup_fmap_2_strong; [|apply NoDup_seq]. intros b b' Hb Hb' Heq.
      apply elem_of_seq in Hb, Hb'. destruct (Hc b) as [Hc1 _]; [lia|]. destruct (Hc b') as [Hc2 _]; [lia|].
      rewrite <- Heq in Hc2. by apply (co_uniq _ _ _ _ Hok b b' _ Hc1 Hc2).
    - intros x Hx. apply list_elem_of_fmap in Hx as (b & -> & Hb). apply elem_of_seq in Hb. apply Hc. lia. }
  apply submseteq_length in Hsub. rewrite length_fmap, length_seq in Hsub. lia.
Qed.

End Cache.

(** ** binit *)

(** The links of [b] and the head after one turn of [binit]'s loop. *)
Lemma binit_turn b s env : (b < NBUF)%nat ->
  (h ← buf_of bhead;
   buf_upd b (set_b_next (b_next h));;
   buf_upd b (set_b_prev bhead);;
   initsleeplock (SlBuf b);;
   h ← buf_of bhead;
   buf_upd (b_next h) (set_b_prev b);;
   buf_upd bhead (set_b_next b)) (mkWorld s env)
  = Ok tt (mkWorld (set_k_bufs (linked (k_bufs (ubuf b (set_b_lock (mkSleeplock 0 0)) s)) bhead b) s) env).
Proof.
  intros Hb. assert (Hbh : bhead <> b) by (unfold bhead; lia).
  set (nx := b_next (get_buf bhead s)).
  rewrite (run_bind _ _ _ (get_buf bhead s) (mkWorld s env)) by done. fold nx.
  rewrite (run_bind _ _ _ tt (mkWorld (ubuf b (set_b_next nx) s) env)) by done.
  rewrite (run_bind _ _ _ tt (mkWorld (ubuf b (set_b_prev bhead) (ubuf b (set_b_next nx) s)) env)) by done.
  set (s3 := ubuf b (set_b_prev bhead) (ubuf b (set_b_next nx) (ubuf b (set_b_lock (mkSleeplock 0 0)) s))).
  rewrite (run_bind _ _ _ tt (mkWorld s3 env)).
  2:{ unfold initsleeplock, kmodify, modify, upd_sl. cbn [w_ks w_env]. do 2 f_equal.
      match goal with |- ?t = _ => change t with
        (ubuf b (fun x => set_b_lock (mkSleeplock 0 0) x) (ubuf b (set_b_prev bhead) (ubuf b (set_b_next nx) s))) end.
      unfold s3. by rewrite !ubuf_twice. }
  rewrite (run_bind _ _ _ (get_buf bhead s) (mkWorld s3 env)).
  2:{ unfold buf_of, kgets, gets. cbn [w_ks]. unfold s3. by rewrite !get_ubuf_ne. }
  fold nx. rewrite (run_bind _ _ _ tt (mkWorld (ubuf nx (set_b_prev b) s3) env)) by done.
  unfold linked. assert (Hnx : b_next (k_bufs (ubuf b (set_b_lock (mkSleeplock 0 0)) s) !!! bhead) = nx).
  { fold (get_buf bhead (ubuf b (set_b_lock (mkSleeplock 0 0)) s)). by rewrite get_ubuf_ne. }
  rewrite Hnx. done.
Qed.

Lemma binit_loop : forall js o s env,
  length (k_bufs s) = S NBUF -> seg (k_bufs s) bhead o bhead -> NoDup (js ++ o) ->
  Forall (fun b => (b < NBUF)%nat) (js ++ o) ->
  exists bs, for_each js (fun b =>
      h ← buf_of bhead;
      buf_upd b (set_b_next (b_next h));;
      buf_upd b (set_b_prev bhead);;
      initsleeplock (SlBuf b);;
      h ← buf_of bhead;
      buf_upd (b_next h) (set_b_prev b);;
      buf_upd bhead (set_b_next b)) (mkWorld s env) = Ok tt (mkWorld (set_k_bufs bs s) env) /\
    length bs = S NBUF /\ seg bs bhead (reverse js ++ o) bhead /\
    forall b, body (bs !!! b) = body (if decide (b ∈ js) then set_b_lock (mkSleeplock 0 0) (get_buf b s) else get_buf b s).
Proof.
  induction js as [|j js IH]; intros o s env Hlen Hseg Hnd Hlt.
  { exists (k_bufs s). split; [cbn; unfold mret, M_ret; do 2 f_equal; by destruct s|]. split; [done|]. split; [done|].
    intros b. by rewrite decide_False by apply not_elem_of_nil. }
  cbn [app] in Hnd, Hlt. apply NoDup_cons in Hnd as [Hj Hnd]. apply Forall_cons in Hlt as [Hjl Hlt].
  cbn [for_each]. rewrite (run_bind _ _ _ tt _ (binit_turn j s env Hjl)).
  set (l1 := k_bufs (ubuf j (set_b_lock (mkSleeplock 0 0)) s)).
  assert (Hl1 : length l1 = S NBUF) by (unfold l1; by rewrite length_ubuf).
  assert (Hseg1 : seg l1 bhead o bhead).
  { apply (seg_ext (k_bufs s)); [| |done]; intros u _; unfold l1, ubuf; cbn; by apply alter_field. }
  rewrite Forall_forall in Hlt.
  assert (Hho : bhead ∉ o).
  { intros Hin. specialize (Hlt bhead). unfold bhead in Hlt at 2. assert (NBUF < NBUF)%nat; [|lia]. apply Hlt.
    apply elem_of_app. by right. }
  assert (Hseg2 : seg (linked l1 bhead j) bhead (j :: o) bhead).
  { apply seg_link; [| | | |done].
    - apply not_elem_of_cons. split; [unfold bhead; lia|]. intros Hin. apply Hj, elem_of_app. by right.
    - apply NoDup_cons. split; [done|]. by apply NoDup_app in Hnd as (_ & _ & Hnd).
    - lia.
    - apply Forall_cons. split; [unfold bhead; lia|]. apply Forall_forall. intros u Hu.
      assert (u < NBUF)%nat by (apply Hlt, elem_of_app; by right). lia. }
  destruct (IH (j :: o) (set_k_bufs (linked l1 bhead j) s) env) as (bs & Hrun & Hbl & Hbs & Hbody).
  - cbn. unfold linked. by rewrite !length_alter.
  - done.
  - rewrite <- Permutation_middle. by apply NoDup_cons.
  - apply Forall_forall. intros u Hu. rewrite <- Permutation_middle in Hu. apply elem_of_cons in Hu as [->|Hu]; [done|by apply Hlt].
  - exists bs. split; [|split; [done|split]].
    + rewrite Hrun. do 2 f_equal.
    + rewrite reverse_cons, <- app_assoc. done.
    + intros b. rewrite Hbody. unfold get_buf. cbn [k_bufs set_k_bufs].
      assert (Hb1 : body (linked l1 bhead j !!! b) = body (if decide (b = j) then set_b_lock (mkSleeplock 0 0) (k_bufs s !!! b) else k_bufs s !!! b)).
      { unfold linked. rewrite !(alter_field body) by done. unfold l1, ubuf. cbn. rewrite alter_total by lia.
        destruct (decide (j = b)) as [->|Hne]; [by rewrite decide_True|by rewrite decide_False]. }
      destruct (decide (b ∈ js)) as [Hin|Hin].
      * rewrite (decide_True (P := b ∈ j :: js)) by (by right).
        assert (b <> j) by (intros ->; apply Hj, elem_of_app; by left). rewrite decide_False in Hb1 by done.
        unfold body in Hb1 |- *. cbn [b_valid b_dev b_blockno b_lock b_refcnt b_data set_b_lock].
        injection Hb1 as E1 E2 E3 _ E5 E6. by rewrite E1, E2, E3, E5, E6.
      * rewrite Hb1. destruct (decide (b = j)) as [->|Hne].
        -- by rewrite decide_True by left.
        -- rewrite decide_False; [done|]. apply not_elem_of_cons. done.
Qed.

(** After [binit] on zeroed buffers the cache is empty: every block is as on disk. *)
Lemma binit_bufs dev s env :
  length (k_bufs s) = S NBUF ->
  (forall b, (b < NBUF)%nat -> b_dev (get_buf b s) <> dev /\ b_refcnt (get_buf b s) = 0) ->
  exists bs, let s' := set_k_bufs bs s in binit (mkWorld s env) = Ok tt (mkWorld s' env) /\
    cache_ok dev s' (disk_block (k_disk s)) (fun _ => 0) ∅ /\ (forall b x, ~ caches dev s' b x).
Proof.
  intros Hlen Hz. unfold binit. set (s1 := ubuf bhead (set_b_next bhead) (ubuf bhead (set_b_prev bhead) s)).
  rewrite (run_bind _ _ _ tt (mkWorld (ubuf bhead (set_b_prev bhead) s) env)) by done.
  rewrite (run_bind _ _ _ tt (mkWorld s1 env)) by done.
  assert (Hl1 : length (k_bufs s1) = S NBUF) by (unfold s1; by rewrite !length_ubuf).
  assert (Hhl : (bhead < length (k_bufs s))%nat) by (rewrite Hlen; unfold bhead; lia).
  destruct (binit_loop (seq 0 NBUF) [] s1 env) as (bs & Hrun & Hbl & Hseg & Hbody); [done| | | |].
  - cbn [seg]. fold (get_buf bhead s1). unfold s1. rewrite get_ubuf by (by rewrite length_ubuf). rewrite get_ubuf by done. done.
  - rewrite app_nil_r. apply NoDup_seq.
  - rewrite app_nil_r. apply Forall_seq. lia.
  - rewrite Hrun. rewrite app_nil_r in Hseg.
    exists bs. split; [reflexivity|].
    assert (Hb : forall b, (b < NBUF)%nat -> body (bs !!! b) = body (set_b_lock (mkSleeplock 0 0) (get_buf b s))).
    { intros b Hb. rewrite Hbody, decide_True by (apply elem_of_seq; lia). unfold s1.
      rewrite !get_ubuf_ne by (unfold bhead; lia). done. }
    assert (Hno : forall b x, ~ caches dev (set_k_bufs bs s1) b x).
    { intros b x (Hbn & Hd & _). change (b_dev (bs !!! b) = dev) in Hd. specialize (Hb b Hbn). unfold body in Hb.
      injection Hb as _ Hd' _ _ _ _. destruct (Hz b Hbn) as [Hne _]. cbn in Hd'. congruence. }
    split; [|exact Hno]. split.
    + exact Hbl.
    + exists (reverse (seq 0 NBUF)). split; [exact Hseg|]. apply reverse_Permutation.
    + intros b b' x Hc. destruct (Hno _ _ Hc).
    + intros b Hbn _. change (b_refcnt (bs !!! b) = 0 /\ sl_locked (b_lock (bs !!! b)) = 0).
      specialize (Hb b Hbn). unfold body in Hb. injection Hb as _ _ _ Hlk Hrc _. rewrite Hlk, Hrc.
      split; [by apply Hz|reflexivity].
    + intros b x Hc. destruct (Hno _ _ Hc).
    + intros x. lia.
    + intros x Hx. lia.
    + intros b x Hc. destruct (Hno _ _ Hc).
    + intros x _. reflexivity.
    + intros b x Hc. destruct (Hno _ _ Hc).
    + intros x [q Hq]. rewrite lookup_empty in Hq. discriminate Hq.
Qed.

Lemma binit_spec dev s env :
  length (k_bufs s) = S NBUF ->
  (forall b, (b < NBUF)%nat -> b_dev (get_buf b s) <> dev /\ b_refcnt (get_buf b s) = 0) ->
  exists s', binit (mkWorld s env) = Ok tt (mkWorld s' env) /\ io_only s s' /\ k_disk s' = k_disk s /\
    cache_ok dev s' (disk_block (k_disk s)) (fun _ => 0) ∅ /\ (forall b x, ~ caches dev s' b x).
Proof.
  intros Hlen Hz. destruct (binit_bufs dev s env Hlen Hz) as (bs & Hrun & Hok). exists (set_k_bufs bs s).
  split; [exact Hrun|]. split; [apply io_only_bufs|]. by split.
Qed.

(** ** Theorems *)

(** C23: [bread] returns the block. If the block is not locked and a buffer can be had, [bread]
    returns, without waiting, the only buffer of the block, locked by the caller, valid and
    with the block's current contents (those of the cache if the block is cached, else
    those of the disk); it writes nothing to the disk, takes one reference, and leaves
    every other block's contents, references and lock as they were. *)
Theorem bread_returns_block dev s cv refs lk bno p pid env :
  thread p pid s -> cache_ok dev s cv refs lk -> gettable s refs lk bno ->
  exists b s', bread dev bno (mkWorld s env) = Ok b (mkWorld s' env) /\
    b_data (get_buf b s') = cv bno /\ b_valid (get_buf b s') = 1 /\
    b_lock (get_buf b s') = mkSleeplock 1 pid /\
    (forall b', caches dev s' b' bno <-> b' = b) /\
    cache_ok dev s' cv (<[bno := refs bno + 1]> refs) (<[bno := pid]> lk) /\
    k_disk s' = k_disk s /\ k_dtrace s' = k_dtrace s.
Proof.
  intros Hth Hok Hgt. pose proof (co_range _ _ _ _ _ Hok bno) as Hr.
  destruct (bread_spec dev s cv refs lk bno p pid env Hth Hok Hgt) as (b & s' & Hrun & Hok' & Hc & _ & _ & Hd & Ht).
  exists b, s'. split; [done|].
  destruct (caches_valid dev s' _ _ _ b bno Hok' Hc) as [Hv Hdata]; [rewrite fn_lookup_insert; lia|].
  split; [done|]. split; [done|]. split; [by rewrite (co_lock _ _ _ _ _ Hok' b bno Hc), lookup_insert_eq|].
  split; [|done]. intros b'. split; [|by intros ->]. intros Hc'. by apply (co_uniq _ _ _ _ _ Hok' b' b bno).
Qed.

(** [brelse] keeps what was written. Releasing a locked buffer whose block is on disk or
    still referenced drops one reference and the lock, and every block, this one
    included, keeps its contents: a later [bread] returns them, from the cache or from
    the disk.  The LRU list stays a ring of all the buffers. *)
Theorem brelse_keeps_view dev s cv refs lk b bno p pid env :
  thread p pid s -> cache_ok dev s cv refs lk -> caches dev s b bno -> lk !! bno = Some pid ->
  (1 < refs bno \/ cv bno = disk_block (k_disk s) bno) ->
  exists s', brelse b (mkWorld s env) = Ok tt (mkWorld s' env) /\
    cache_ok dev s' cv (<[bno := refs bno - 1]> refs) (delete bno lk) /\ k_disk s' = k_disk s /\
    exists o, seg (k_bufs s') bhead o bhead /\ o ≡ₚ seq 0 NBUF.
Proof.
  intros Hth Hok Hc Hlk Hkeep.
  destruct (brelse_spec dev s cv refs lk b bno p pid env Hth Hok Hc Hlk Hkeep) as (s' & Hrun & Hok' & _ & _ & Hd & _).
  exists s'. split; [done|]. split; [done|]. split; [done|]. apply Hok'.
Qed.

(** ** Witnesses: an empty cache, process 2 (pid 7) on the CPU *)

Definition demo_cpu (l : logst) : kst :=
  set_k_log l (set_k_cur (Some 2%nat) (upd_proc 2 (fun x => set_p_pid 7 (set_p_state RUNNING x)) kst0)).

Lemma demo_cache_ok l : exists s, thread 2 7 s /\ k_log s = l /\ k_disk s = ∅ /\ k_held s = [] /\
  cache_ok 1 s (disk_block ∅) (fun _ => 0) ∅ /\ forall b x, ~ caches 1 s b x.
Proof.
  destruct (binit_spec 1 (demo_cpu l) []) as (s1 & Hrun & Hio & Hd & Hok & Hno).
  - reflexivity.
  - intros b Hb. assert (Hg : get_buf b (demo_cpu l) = buf0).
    { unfold get_buf, demo_cpu. cbn [k_bufs set_k_log set_k_cur upd_proc set_k_procs kst0].
      apply lookup_total_replicate_2. lia. }
    rewrite Hg. split; [discriminate|reflexivity].
  - assert (Hth : thread 2 7 (demo_cpu l)) by (split; [reflexivity|reflexivity|reflexivity|intros *; apply not_elem_of_nil..]).
    exists s1. split; [by apply (thread_io _ _ (demo_cpu l))|]. split; [exact (io_only_log _ _ Hio)|].
    split; [exact Hd|]. split; [exact (io_only_held _ _ Hio)|]. split; [exact Hok|exact Hno].
Qed.

Lemma demo_gettable s : cache_ok 1 s (disk_block ∅) (fun _ => 0) ∅ -> gettable s (fun _ => 0) ∅ 40.
Proof.
  intros Hok. split; [apply lookup_empty| |lia]. right.
  apply (free_buffer 1 s (disk_block ∅) (fun _ => 0) ∅ [] Hok); [lia|unfold NBUF; cbn; lia].
Qed.

Lemma bread_returns_block_witness : exists s b s',
  bread 1 40 (mkWorld s []) = Ok b (mkWorld s' []) /\ b_data (get_buf b s') = replicate bsize 0.
Proof.
  destruct (demo_cache_ok (k_log kst0)) as (s & Hth & _ & Hd & _ & Hok & _).
  destruct (bread_returns_block 1 s (disk_block ∅) (fun _ => 0) ∅ 40 2 7 [] Hth Hok (demo_gettable s Hok))
    as (b & s' & Hrun & Hdata & _).
  exists s, b, s'. split; [exact Hrun|]. rewrite Hdata. reflexivity.
Defined.

Lemma brelse_keeps_view_witness : exists s b s',
  (b ← bread 1 40; brelse b;; mret b) (mkWorld s []) = Ok b (mkWorld s' []) /\
  cache_ok 1 s' (disk_block ∅) (<[40 := 0]> (<[40 := 1]> (fun _ => 0))) (delete 40 (<[40 := 7]> ∅)).
Proof.
  destruct (demo_cache_ok (k_log kst0)) as (s & Hth & _ & Hd & _ & Hok & _).
  destruct (bread_spec 1 s (disk_block ∅) (fun _ => 0) ∅ 40 2 7 [] Hth Hok (demo_gettable s Hok))
    as (b & s1 & Hrun1 & Hok1 & Hc1 & _ & Hio1 & Hd1 & _).
  destruct (brelse_keeps_view 1 s1 (disk_block ∅) (<[40 := 1]> (fun _ => 0)) (<[40 := 7]> ∅) b 40 2 7 [])
    as (s2 & Hrun2 & Hok2 & _).
  - exact (thread_io _ _ _ _ Hio1 Hth).
  - exact Hok1.
  - exact Hc1.
  - apply lookup_insert_eq.
  - right. rewrite Hd1, Hd. reflexivity.
  - exists s, b, s2. split; [|exact Hok2].
    rewrite (run_bind _ _ _ _ _ Hrun1), (run_bind _ _ _ _ _ Hrun2). reflexivity.
Defined.
