(* ===== verification/Log.v ===== *)
(** * Write-ahead log (kernel/log.c) *)

From stdpp Require Import base gmap list strings.
From Stdlib Require Import ZArith Lia.
From S2P Require Import Prelude Riscv Memory State Spinlock Sched Bio.

(** ** Fields of the structures stored in a block *)

Definition splice (l : list Z) (off : nat) (bs : list Z) : list Z :=
  take off l ++ bs ++ drop (off + length bs) l.
Definition get16 (l : list Z) (off : nat) : Z := le_combine (take 2 (drop off l)).
Definition get32 (l : list Z) (off : nat) : Z := le_combine (take 4 (drop off l)).
Definition put16 (l : list Z) (off : nat) (v : Z) : list Z := splice l off (le_split 2 v).
Definition put32 (l : list Z) (off : nat) (v : Z) : list Z := splice l off (le_split 4 v).

Definition log_upd (f : logst -> logst) : K unit :=
  kmodify (fun s => set_k_log (f (k_log s)) s).
Definition log_get : K logst := kgets k_log.

(** [log.lh.n] as a loop bound: an [int] below which a [for] loop counts from 0. *)
Definition lh_range (l : logst) : list nat := seq 0 (Z.to_nat (lh_n l)).

(** Copy committed blocks from log to their home location. *)
Definition install_trans (recovering : Z) : K unit :=
  l ← log_get;
  for_each (lh_range l) (fun tail =>
    lbuf ← bread (log_dev l) (u32 (log_start l + Z.of_nat tail + 1));
    dbuf ← bread (log_dev l) (u32 (lh_block l !!! tail));
    lb ← buf_of lbuf;
    buf_upd dbuf (set_b_data (b_data lb));;
    bwrite dbuf;;
    when (recovering =? 0) (bunpin dbuf);;
    brelse lbuf;;
    brelse dbuf).

(** Read the log header from disk into the in-memory log header. *)
Definition read_head : K unit :=
  l ← log_get;
  b ← bread (log_dev l) (u32 (log_start l));
  bf ← buf_of b;
  let lh := b_data bf in
  log_upd (set_lh_n (s32 (get32 lh 0)));;
  l ← log_get;
  for_each (lh_range l) (fun i =>
    log_upd (fun l => set_lh_block (<[i := s32 (get32 lh (4 + 4 * i))]> (lh_block l)) l));;
  brelse b.

(** Write in-memory log header to disk: the point at which a transaction commits. *)
Definition write_head : K unit :=
  l ← log_get;
  b ← bread (log_dev l) (u32 (log_start l));
  buf_upd b (fun x => set_b_data (put32 (b_data x) 0 (lh_n l)) x);;
  for_each (lh_range l) (fun i =>
    buf_upd b (fun x => set_b_data (put32 (b_data x) (4 + 4 * i) (lh_block l !!! i)) x));;
  bwrite b;;
  brelse b.

Definition recover_from_log : K unit :=
  read_head;;
  install_trans 1;;
  log_upd (set_lh_n 0);;
  write_head.

(** [sizeof(struct logheader)] is [4 + 4 * LOGSIZE]. *)
Definition initlog (dev : Z) (sb : superblock) : K unit :=
  if BSIZE <=? 4 + 4 * LOGSIZE then panic "initlog: too big logheader" else
  log_upd (set_log_start (s32 (sb_logstart sb)));;
  log_upd (set_log_size (s32 (sb_nlog sb)));;
  log_upd (set_log_dev dev);;
  recover_from_log.

(** Called at the start of each FS system call: the [while(1)] sleeps while the log
    commits or may run out of space. *)
Definition begin_op_must_wait (l : logst) : bool :=
  if negb (log_committing l =? 0) then true
  else LOGSIZE <? lh_n l + (log_outstanding l + 1) * MAXOPBLOCKS.

Definition begin_op : K unit :=
  acquire LLog;;
  sleep_while (l ← log_get; mret (begin_op_must_wait l)) ChLog LLog;;
  log_upd (fun l => set_log_outstanding (log_outstanding l + 1) l);;
  release LLog.

(** Copy modified blocks from cache to log. *)
Definition write_log : K unit :=
  l ← log_get;
  for_each (lh_range l) (fun tail =>
    to ← bread (log_dev l) (u32 (log_start l + Z.of_nat tail + 1));
    from ← bread (log_dev l) (u32 (lh_block l !!! tail));
    fb ← buf_of from;
    buf_upd to (set_b_data (b_data fb));;
    bwrite to;;
    brelse from;;
    brelse to).

Definition commit : K unit :=
  l ← log_get;
  when (0 <? lh_n l) (
    write_log;;
    write_head;;
    install_trans 0;;
    log_upd (set_lh_n 0);;
    write_head).

(** Called at the end of each FS system call. *)
Definition end_op : K unit :=
  acquire LLog;;
  log_upd (fun l => set_log_outstanding (log_outstanding l - 1) l);;
  l ← log_get;
  if negb (log_committing l =? 0) then panic "log.committing" else
  if log_outstanding l =? 0 then
    log_upd (set_log_committing 1);;
    release LLog;;
    commit;;
    acquire LLog;;
    log_upd (set_log_committing 0);;
    wakeup ChLog;;
    release LLog
  else
    wakeup ChLog;;
    release LLog.

(** The scan of [log_write] for a block already in the log. *)
Fixpoint log_find (blocks : list Z) (i n : nat) (blockno : Z) : nat :=
  match n with
  | O => i
  | S n => if u32 (blocks !!! i) =? blockno then i else log_find blocks (S i) n blockno
  end.

(** Caller has modified [b->data] and is done with the buffer. *)
Definition log_write (b : nat) : K unit :=
  acquire LLog;;
  l ← log_get;
  if (LOGSIZE <=? lh_n l) || (log_size l - 1 <=? lh_n l) then panic "too big a transaction" else
  if log_outstanding l <? 1 then panic "log_write outside of trans" else
  bf ← buf_of b;
  let i := log_find (lh_block l) 0 (Z.to_nat (lh_n l)) (b_blockno bf) in
  log_upd (fun l => set_lh_block (<[i := s32 (b_blockno bf)]> (lh_block l)) l);;
  when (Z.of_nat i =? lh_n l) (
    bpin b;;
    log_upd (fun l => set_lh_n (lh_n l + 1) l));;
  release LLog.
