(* ===== verification/Recovery.v ===== *)
(** * Commit and recovery (about Log.v)

    The disk writes of [commit] and of recovery, and what a crash between any two of them
    leaves behind.  [hdr] is the header block that [write_head] writes; [rec_writes] are
    the writes of recovery on a given disk.  The theorems say that after a crash at any
    point of [commit], and any number of crashes during recovery, the file system finds
    either all the blocks of the transaction or none of them. *)

From stdpp Require Import base functions gmap list strings.
From Stdlib Require Import ZArith Lia.
From S2P Require Import Prelude Riscv Memory State Spinlock Sched Bio Cache Log.

#[local] Set Warnings "-clear-no-such-hyp".

(** ** Fields of a block *)

Lemma length_splice l off bs : (off + length bs <= length l)%nat -> length (splice l off bs) = length l.
Proof. intros H. unfold splice. rewrite !length_app, length_take, length_drop. lia. Qed.

Lemma splice_same l off bs : (off + length bs <= length l)%nat ->
  take (length bs) (drop off (splice l off bs)) = bs.
Proof.
  intros H. unfold splice. rewrite drop_app_length' by (rewrite length_take; lia). by rewrite take_app_length.
Qed.

Lemma splice_other l off bs off' n :
  (off + length bs <= length l)%nat -> (off' + n <= off)%nat \/ (off + length bs <= off')%nat ->
  take n (drop off' (splice l off bs)) = take n (drop off' l).
Proof.
  intros H [Hlo|Hhi]; unfold splice.
  - rewrite drop_app_le by (rewrite length_take; lia). rewrite take_app_le by (rewrite length_drop, length_take; lia).
    rewrite skipn_firstn_comm, take_take. f_equal. lia.
  - rewrite drop_app_ge by (rewrite length_take; lia). rewrite length_take.
    rewrite drop_app_ge by lia. rewrite drop_drop. f_equal. f_equal. lia.
Qed.

Lemma get32_put32_eq l off v : (off + 4 <= length l)%nat -> get32 (put32 l off v) off = u32 v.
Proof.
  intros H. unfold get32, put32. pose proof (splice_same l off (le_split 4 v)) as E. rewrite length_le_split in E.
  rewrite E by done. rewrite le_combine_le_split. done.
Qed.

Lemma get32_put32_ne l off off' v : (off + 4 <= length l)%nat ->
  (off' + 4 <= off)%nat \/ (off + 4 <= off')%nat -> get32 (put32 l off v) off' = get32 l off'.
Proof.
  intros H Hne. unfold get32, put32. f_equal. apply splice_other; by rewrite length_le_split.
Qed.

Lemma length_put32 l off v : (off + 4 <= length l)%nat -> length (put32 l off v) = length l.
Proof. intros H. unfold put32. apply length_splice. by rewrite length_le_split. Qed.

(** ** The header block *)

Definition hdr_put (blocks : list Z) (d : list Z) (js : list nat) : list Z :=
  foldl (fun d i => put32 d (4 + 4 * i) (blocks !!! i)) d js.

(** The block [write_head] writes over [d]. *)
Definition hdr (d : list Z) (n : Z) (blocks : list Z) : list Z :=
  hdr_put blocks (put32 d 0 n) (seq 0 (Z.to_nat n)).

Lemma length_hdr_put blocks js : forall d, length d = bsize -> Forall (fun i => (i < 29)%nat) js ->
  length (hdr_put blocks d js) = bsize.
Proof.
  induction js as [|i js IH]; intros d Hd His; [done|]. apply Forall_cons in His as [Hi His].
  cbn [hdr_put foldl]. apply IH; [|done]. rewrite length_put32; [done|]. rewrite Hd. change bsize with 1024%nat. lia.
Qed.

Lemma hdr_put_other blocks off js : forall d, length d = bsize -> Forall (fun i => (i < 29)%nat) js ->
  (forall i, i ∈ js -> (off + 4 <= 4 + 4 * i)%nat \/ (4 + 4 * i + 4 <= off)%nat) ->
  get32 (hdr_put blocks d js) off = get32 d off.
Proof.
  induction js as [|i js IH]; intros d Hd His Hoff; [done|]. apply Forall_cons in His as [Hi His].
  assert (Hfit : (4 + 4 * i + 4 <= length d)%nat) by (rewrite Hd; change bsize with 1024%nat; lia).
  cbn [hdr_put foldl]. fold (hdr_put blocks (put32 d (4 + 4 * i) (blocks !!! i)) js).
  rewrite IH; [|by rewrite length_put32|done|intros j Hj; apply Hoff; by right].
  apply get32_put32_ne; [done|]. apply Hoff. left.
Qed.

Lemma hdr_put_block blocks i js : forall d, length d = bsize -> Forall (fun i => (i < 29)%nat) js -> NoDup js ->
  i ∈ js -> get32 (hdr_put blocks d js) (4 + 4 * i) = u32 (blocks !!! i).
Proof.
  induction js as [|j js IH]; intros d Hd His Hnd Hi; [by apply not_elem_of_nil in Hi|].
  apply Forall_cons in His as [Hj His]. apply NoDup_cons in Hnd as [Hnj Hnd].
  assert (Hfit : (4 + 4 * j + 4 <= length d)%nat) by (rewrite Hd; change bsize with 1024%nat; lia).
  cbn [hdr_put foldl]. fold (hdr_put blocks (put32 d (4 + 4 * j) (blocks !!! j)) js).
  apply elem_of_cons in Hi as [->|Hi]; [|apply IH; try done; by rewrite length_put32].
  rewrite hdr_put_other; [by apply get32_put32_eq|by rewrite length_put32|done|].
  intros k Hk. assert (k <> j) by congruence. lia.
Qed.

Section Header.
Context (d : list Z) (n : Z) (blocks : list Z).
Hypothesis (Hd : length d = bsize) (Hn : 0 <= n <= 29).

Lemma hdr_range : Forall (fun i => (i < 29)%nat) (seq 0 (Z.to_nat n)).
Proof. apply Forall_seq. lia. Qed.

Lemma length_hdr : length (hdr d n blocks) = bsize.
Proof.
  unfold hdr. apply length_hdr_put; [|apply hdr_range]. rewrite length_put32; [done|]. rewrite Hd. change bsize with 1024%nat. lia.
Qed.

Lemma hdr_count : get32 (hdr d n blocks) 0 = n.
Proof.
  unfold hdr. assert (Hfit : (0 + 4 <= length d)%nat) by (rewrite Hd; change bsize with 1024%nat; lia).
  rewrite hdr_put_other; [|by rewrite length_put32|apply hdr_range|intros i _; lia].
  rewrite get32_put32_eq by done. unfold u32. apply Z.mod_small. lia.
Qed.

Lemma hdr_entry i : (Z.of_nat i < n) -> get32 (hdr d n blocks) (4 + 4 * i) = u32 (blocks !!! i).
Proof.
  intros Hi. unfold hdr. apply hdr_put_block; [|apply hdr_range|apply NoDup_seq|apply elem_of_seq; lia].
  rewrite length_put32; [done|]. rewrite Hd. change bsize with 1024%nat. lia.
Qed.

End Header.

(** ** Sequences of writes *)

(** What the writes [ws], in this order, do to a disk and to the view of it. *)
Definition write_all (ws : list (Z * list Z)) (d : gmap Z (list Z)) : gmap Z (list Z) :=
  foldl (fun d w => <[fst w := snd w]> d) d ws.
Definition view_all (ws : list (Z * list Z)) (cv : Z -> list Z) : Z -> list Z :=
  foldl (fun c w => <[fst w := snd w]> c) cv ws.

(** The last write to block [x]. *)
Fixpoint written (ws : list (Z * list Z)) (x : Z) : option (list Z) :=
  match ws with
  | [] => None
  | w :: ws =>
      match written ws x with
      | Some c => Some c
      | None => if decide (fst w = x) then Some (snd w) else None
      end
  end.

Lemma view_all_lookup ws : forall cv x, view_all ws cv x = default (cv x) (written ws x).
Proof.
  induction ws as [|w ws IH]; intros cv x; [done|]. cbn [view_all foldl written].
  fold (view_all ws (<[fst w := snd w]> cv)). rewrite IH. destruct (written ws x); [done|]. cbn.
  destruct (decide _) as [<-|Hne]; [by rewrite fn_lookup_insert|by rewrite fn_lookup_insert_ne].
Qed.

Lemma write_all_lookup ws : forall d x,
  disk_block (write_all ws d) x = default (disk_block d x) (written ws x).
Proof.
  induction ws as [|w ws IH]; intros d x; [done|]. cbn [write_all foldl written].
  fold (write_all ws (<[fst w := snd w]> d)). rewrite IH. destruct (written ws x); [done|]. cbn. unfold disk_block.
  destruct (decide _) as [<-|Hne]; [by rewrite lookup_insert_eq|by rewrite lookup_insert_ne].
Qed.

Lemma written_None ws x : x ∉ ws.*1 -> written ws x = None.
Proof.
  induction ws as [|w ws IH]; [done|]. cbn. intros H. apply not_elem_of_cons in H as [H1 H2].
  rewrite IH by done. rewrite decide_False by congruence. done.
Qed.

Lemma written_Some ws x : x ∈ ws.*1 -> exists c, written ws x = Some c /\ (x, c) ∈ ws.
Proof.
  induction ws as [|[y b] ws IH]; cbn; [by intros ?%not_elem_of_nil|]. intros H.
  destruct (decide (x ∈ ws.*1)) as [Hin|Hnin].
  - destruct (IH Hin) as (c & -> & Hc). exists c. split; [done|by right].
  - rewrite written_None by done. apply elem_of_cons in H as [->|H]; [|done].
    rewrite decide_True by done. exists b. split; [done|left].
Qed.

Lemma written_app ws1 ws2 x : written (ws1 ++ ws2) x =
  match written ws2 x with Some c => Some c | None => written ws1 x end.
Proof.
  induction ws1 as [|w ws1 IH]; cbn; [by destruct (written ws2 x)|]. rewrite IH. by destruct (written ws2 x).
Qed.

Lemma write_all_app ws1 ws2 d : write_all (ws1 ++ ws2) d = write_all ws2 (write_all ws1 d).
Proof. apply foldl_app. Qed.

(** ** The operations of the log, on the view of the cache *)

(** Taking and releasing a block leaves the references and locks as they were. *)
Lemma cache_back dev s cv refs lk x q n : cache_ok dev s cv n (delete x (<[x := q]> lk)) -> lk !! x = None ->
  (forall y, refs y = n y) -> cache_ok dev s cv refs lk.
Proof.
  intros Hok Hlk Hn. rewrite delete_insert_id in Hok by done. by apply (cache_ok_ext dev s cv cv n refs).
Qed.

Lemma fn_back (f : Z -> Z) x y : f y = (<[x := (<[x := f x + 1]> f) x - 1]> (<[x := f x + 1]> f)) y.
Proof.
  rewrite fn_lookup_insert. destruct (decide (x = y)) as [<-|Hne].
  - rewrite fn_lookup_insert. lia.
  - by rewrite !fn_lookup_insert_ne.
Qed.

(** What an operation on blocks inside a transaction may change: the log and what the
    buffer cache changes. *)
Definition fs_only (s s' : kst) : Prop := exists l, io_only (set_k_log l s) s'.

Lemma fs_only_io s s' : io_only s s' -> fs_only s s'.
Proof. intros H. exists (k_log s). by replace (set_k_log (k_log s) s) with s by kst_eq. Qed.

Lemma fs_only_trans s1 s2 s3 : fs_only s1 s2 -> fs_only s2 s3 -> fs_only s1 s3.
Proof.
  intros (l1 & b1 & d1 & t1 & q1 & -> & Hl1 & Hp1) (l2 & Hio). exists l2. etrans; [|exact Hio].
  exists b1, d1, t1, q1. split; [kst_eq|done].
Qed.

#[global] Instance fs_only_preorder : PreOrder fs_only.
Proof. split; [intros s; apply fs_only_io, io_only_refl|exact fs_only_trans]. Qed.

Section LogOps.
Context (dev start : Z) (p : nat) (pid : Z).
Hypothesis Hstart : 0 <= start /\ start + 31 < 2 ^ 31.

(** The log is LOGSIZE = 30 blocks: the header and 29 slots, as many as log_write lets the
    header have when the superblock says so. *)
Definition in_log (x : Z) : Prop := start <= x <= start + 29.

(** The log's blocks are not in use, and [k] more buffers can be taken. *)
Record room (refs : Z -> Z) (lk : gmap Z Z) (k : nat) : Prop := {
  rm_log x : in_log x -> refs x = 0 /\ lk !! x = None;
  rm_max x : refs x + 2 < 2 ^ 31;
  rm_busy : exists busy, (forall x, 0 < refs x -> x ∈ busy) /\ (length busy + k <= NBUF)%nat
}.

Lemma room_get s cv refs lk k x : cache_ok dev s cv refs lk -> room refs lk (S k) -> lk !! x = None ->
  gettable s refs lk x.
Proof.
  intros Hok [H1 H2 (busy & Hb & Hlen)] Hlk. split; [done| |specialize (H2 x); lia]. right.
  apply (free_buffer dev s cv refs lk busy Hok Hb). lia.
Qed.

(** The loop of [write_head]. *)
Lemma hdr_put_run b blocks : forall js s env,
  for_each js (fun i => buf_upd b (fun x => set_b_data (put32 (b_data x) (4 + 4 * i) (blocks !!! i)) x)) (mkWorld s env)
  = Ok tt (mkWorld (ubuf b (fun x => set_b_data (hdr_put blocks (b_data x) js) x) s) env).
Proof.
  induction js as [|i js IH]; intros s env.
  - cbn. unfold mret, M_ret. do 2 f_equal. symmetry. apply ubuf_id. by destruct (get_buf b s).
  - cbn [for_each].
    rewrite (run_bind _ _ _ tt (mkWorld (ubuf b (fun x => set_b_data (put32 (b_data x) (4 + 4 * i) (blocks !!! i)) x) s) env)) by done.
    rewrite IH, ubuf_twice. done.
Qed.

Record log_is (l : logst) (s : kst) : Prop := {
  li_log : k_log s = l;
  li_dev : log_dev l = dev;
  li_start : log_start l = start
}.

Lemma log_is_io l s s' : io_only s s' -> log_is l s -> log_is l s'.
Proof. intros Hio [H1 H2 H3]. split; [by rewrite (io_only_log _ _ Hio)|done|done]. Qed.

Lemma write_head_spec s cv refs lk l env :
  thread p pid s -> cache_ok dev s cv refs lk -> room refs lk 1 -> log_is l s -> 0 <= lh_n l <= 29 ->
  length (cv start) = bsize -> let h := hdr (cv start) (lh_n l) (lh_block l) in
  exists s', write_head (mkWorld s env) = Ok tt (mkWorld s' env) /\ cache_ok dev s' (<[start := h]> cv) refs lk /\
    io_only s s' /\ k_disk s' = <[start := h]> (k_disk s) /\ k_dtrace s' = (start, h) :: k_dtrace s.
Proof.
  intros Hth Hok Hroom [L1 L2 L3] Hn Hlen h.
  assert (Hin : in_log start) by (unfold in_log; lia). destruct (rm_log _ _ _ Hroom start Hin) as [Hr0 Hlk0].
  unfold write_head. rewrite (run_bind _ _ _ l (mkWorld s env)) by (by rewrite <- L1). rewrite L2, L3.
  assert (Hu : u32 start = start) by (unfold u32; apply Z.mod_small; lia). rewrite Hu.
  destruct (bread_spec dev s cv refs lk start p pid env Hth Hok (room_get s cv refs lk 0 start Hok Hroom Hlk0))
    as (b & s1 & Hrun1 & Hok1 & Hc1 & _ & Hio1 & Hd1 & Ht1).
  rewrite (run_bind _ _ _ _ _ Hrun1).
  rewrite (run_bind _ _ _ tt (mkWorld (ubuf b (fun x => set_b_data (put32 (b_data x) 0 (lh_n l)) x) s1) env)) by done.
  rewrite (run_bind _ _ _ _ _ (hdr_put_run b (lh_block l) (lh_range l) _ env)). rewrite ubuf_twice.
  assert (Hr1 : 0 < (<[start := refs start + 1]> refs : Z -> Z) start) by (rewrite fn_lookup_insert; lia).
  destruct (caches_valid dev s1 _ _ _ b start Hok1 Hc1 Hr1) as [_ Hdata].
  destruct (bdata_spec dev s1 cv _ _ b start h
    ((fun x => set_b_data (hdr_put (lh_block l) (b_data x) (lh_range l)) x) ∘ (fun x => set_b_data (put32 (b_data x) 0 (lh_n l)) x))
    Hok1 Hc1 Hr1) as [Hok2 Hc2].
  { cbn. rewrite Hdata. by destruct (get_buf b s1). }
  set (s2 := ubuf b _ s1) in *.
  assert (Hth2 : thread p pid s2) by (apply (thread_io _ _ s1); [apply io_only_ubuf|by apply (thread_io _ _ s)]).
  destruct (bwrite_spec dev s2 _ _ _ b start p pid env Hth2 Hok2 (proj2 (Hc2 _ _) Hc1) (lookup_insert_eq _ _ _))
    as (s3 & Hrun3 & Hok3 & Hc3 & Hio3 & Hd3 & Ht3).
  rewrite (run_bind _ _ _ _ _ Hrun3). rewrite fn_lookup_insert in Hd3, Ht3.
  destruct (brelse_spec dev s3 _ _ _ b start p pid env (thread_io _ _ _ _ Hio3 Hth2) Hok3)
    as (s4 & Hrun4 & Hok4 & _ & Hio4 & Hd4 & Ht4).
  { by apply Hc3, Hc2. }
  { apply lookup_insert_eq. }
  { right. unfold disk_block. by rewrite Hd3, lookup_insert_eq, fn_lookup_insert. }
  exists s4. split; [done|]. split; [|split; [|split]].
  - eapply cache_back; [exact Hok4|done|apply fn_back].
  - etrans; [exact Hio1|]. etrans; [apply io_only_ubuf|]. by etrans.
  - rewrite Hd4, Hd3. by rewrite <- Hd1.
  - rewrite Ht4, Ht3. by rewrite <- Ht1.
Qed.

(** Two blocks taken one after the other. *)
Lemma bread_two s cv refs lk x y env :
  thread p pid s -> cache_ok dev s cv refs lk -> x <> y -> lk !! x = None -> lk !! y = None ->
  room refs lk 1 -> 0 < refs y \/ room refs lk 2 ->
  exists bx sx by_ s2, bread dev x (mkWorld s env) = Ok bx (mkWorld sx env) /\
    bread dev y (mkWorld sx env) = Ok by_ (mkWorld s2 env) /\
    cache_ok dev s2 cv (<[y := refs y + 1]> (<[x := refs x + 1]> refs)) (<[y := pid]> (<[x := pid]> lk)) /\
    caches dev s2 bx x /\ caches dev s2 by_ y /\ io_only s s2 /\ k_disk s2 = k_disk s /\ k_dtrace s2 = k_dtrace s.
Proof.
  intros Hth Hok Hne Hlx Hly Hroom Hy.
  destruct (bread_spec dev s cv refs lk x p pid env Hth Hok (room_get s cv refs lk 0 x Hok Hroom Hlx))
    as (bx & sx & Hrun1 & Hok1 & Hc1 & _ & Hio1 & Hd1 & Ht1).
  assert (Hrx : 0 <= refs x) by apply (co_range _ _ _ _ _ Hok).
  assert (Hgy : gettable sx (<[x := refs x + 1]> refs) (<[x := pid]> lk) y).
  { split.
    - by rewrite lookup_insert_ne.
    - rewrite fn_lookup_insert_ne by done. destruct Hy as [Hy|[_ _ (busy & Hb & Hlen)]]; [by left|right].
      apply (free_buffer dev sx cv _ _ (x :: busy) Hok1); [|cbn; lia].
      intros z Hz. destruct (decide (x = z)) as [<-|Hxz]; [left|]. rewrite fn_lookup_insert_ne in Hz by done.
      right. by apply Hb.
    - rewrite fn_lookup_insert_ne by done. pose proof (rm_max _ _ _ Hroom y). lia. }
  destruct (bread_spec dev sx cv _ _ y p pid env (thread_io _ _ _ _ Hio1 Hth) Hok1 Hgy)
    as (by_ & s2 & Hrun2 & Hok2 & Hc2 & Hkeep2 & Hio2 & Hd2 & Ht2).
  rewrite fn_lookup_insert_ne in Hok2 by done.
  exists bx, sx, by_, s2. split; [done|]. split; [done|]. split; [done|]. split; [|split; [done|split; [by etrans|]]].
  - apply Hkeep2; [done|]. rewrite fn_lookup_insert. lia.
  - split; congruence.
Qed.

(** One turn of [write_log]: the cached block [y] goes to block [x] of the log. *)
Lemma write_log_step s cv refs lk x y env :
  thread p pid s -> cache_ok dev s cv refs lk -> room refs lk 1 -> in_log x -> ~ in_log y ->
  lk !! y = None -> 0 < refs y ->
  exists s', (to ← bread dev x; from ← bread dev y; fb ← buf_of from;
      buf_upd to (set_b_data (b_data fb));; bwrite to;; brelse from;; brelse to) (mkWorld s env)
    = Ok tt (mkWorld s' env) /\
    cache_ok dev s' (<[x := cv y]> cv) refs lk /\ io_only s s' /\
    k_disk s' = <[x := cv y]> (k_disk s) /\ k_dtrace s' = (x, cv y) :: k_dtrace s.
Proof.
  intros Hth Hok Hroom Hx Hy Hly Hry. destruct (rm_log _ _ _ Hroom x Hx) as [Hrx Hlx].
  assert (Hne : x <> y) by congruence.
  destruct (bread_two s cv refs lk x y env Hth Hok Hne Hlx Hly Hroom (or_introl Hry))
    as (to & s1 & from & s2 & Hrun1 & Hrun2 & Hok2 & Hcx & Hcy & Hio2 & Hd2 & Ht2).
  rewrite (run_bind _ _ _ _ _ Hrun1), (run_bind _ _ _ _ _ Hrun2).
  rewrite (run_bind _ _ _ (get_buf from s2) (mkWorld s2 env)) by done.
  set (refs2 := <[y := refs y + 1]> (<[x := refs x + 1]> refs)) in *. set (lk2 := <[y := pid]> (<[x := pid]> lk)) in *.
  assert (R2x : refs2 x = 1) by (unfold refs2; rewrite fn_lookup_insert_ne, fn_lookup_insert by done; lia).
  assert (R2y : refs2 y = refs y + 1) by (unfold refs2; by rewrite fn_lookup_insert).
  destruct (caches_valid dev s2 cv refs2 lk2 from y Hok2 Hcy) as [_ Hdy]; [lia|]. rewrite Hdy.
  set (f := set_b_data (cv y)). set (s3 := ubuf to f s2).
  rewrite (run_bind _ _ _ tt (mkWorld s3 env)) by done.
  destruct (bdata_spec dev s2 cv refs2 lk2 to x (cv y) f Hok2 Hcx) as [Hok3 Hc3]; [lia|done|]. fold s3 in Hok3, Hc3.
  assert (Hth3 : thread p pid s3) by (apply (thread_io _ _ s2); [apply io_only_ubuf|by apply (thread_io _ _ s)]).
  assert (Hl2x : lk2 !! x = Some pid) by (unfold lk2; rewrite lookup_insert_ne by done; apply lookup_insert_eq).
  destruct (bwrite_spec dev s3 _ _ _ to x p pid env Hth3 Hok3 (proj2 (Hc3 _ _) Hcx) Hl2x)
    as (s4 & Hrun4 & Hok4 & Hc4 & Hio4 & Hd4 & Ht4). rewrite fn_lookup_insert in Hd4, Ht4.
  rewrite (run_bind _ _ _ _ _ Hrun4).
  destruct (brelse_spec dev s4 _ _ _ from y p pid env (thread_io _ _ _ _ Hio4 Hth3) Hok4)
    as (s5 & Hrun5 & Hok5 & Hc5 & Hio5 & Hd5 & Ht5); [by apply Hc4, Hc3|apply lookup_insert_eq|left; lia|].
  rewrite (run_bind _ _ _ _ _ Hrun5).
  destruct (brelse_spec dev s5 _ _ _ to x p pid env (thread_io _ _ _ _ Hio5 (thread_io _ _ _ _ Hio4 Hth3)) Hok5)
    as (s6 & Hrun6 & Hok6 & _ & Hio6 & Hd6 & Ht6).
  { by apply Hc5, Hc4, Hc3. }
  { by rewrite lookup_delete_ne. }
  { right. unfold disk_block. rewrite Hd5, Hd4, lookup_insert_eq, fn_lookup_insert. done. }
  exists s6. split; [done|]. split; [|split; [|split]].
  - unfold lk2 in Hok6. rewrite delete_insert_id in Hok6 by (by rewrite lookup_insert_ne).
    eapply cache_back; [exact Hok6|done|]. intros z. rewrite R2y, (fn_lookup_insert_ne refs2 y x) by done. rewrite R2x.
    destruct (decide (x = z)) as [<-|Hxz]; [rewrite fn_lookup_insert; lia|]. rewrite fn_lookup_insert_ne by done.
    destruct (decide (y = z)) as [<-|Hyz]; [rewrite fn_lookup_insert; lia|]. unfold refs2. by rewrite !fn_lookup_insert_ne.
  - etrans; [exact Hio2|]. etrans; [apply io_only_ubuf|]. etrans; [exact Hio4|]. by etrans.
  - rewrite Hd6, Hd5, Hd4. change (k_disk s3) with (k_disk s2). by rewrite Hd2.
  - rewrite Ht6, Ht5, Ht4. change (k_dtrace s3) with (k_dtrace s2). by rewrite Ht2.
Qed.

(** The references after [install_trans] has dealt with block [y]. *)
Definition unpinned (recovering y : Z) (refs : Z -> Z) : Z -> Z :=
  if recovering =? 0 then <[y := refs y - 1]> refs else refs.

Lemma unpinned_ne recovering y refs x : x <> y -> unpinned recovering y refs x = refs x.
Proof. intros H. unfold unpinned. destruct (_ =? 0); [by rewrite fn_lookup_insert_ne|done]. Qed.

Lemma unpinned_le recovering y refs x : unpinned recovering y refs x <= refs x.
Proof.
  destruct (decide (x = y)) as [->|Hne]; [|rewrite unpinned_ne by done; lia].
  unfold unpinned. destruct (_ =? 0); [rewrite fn_lookup_insert; lia|lia].
Qed.

(** [bunpin] when not recovering. *)
Lemma unpin_spec s cv refs lk b y recovering env :
  thread p pid s -> cache_ok dev s cv refs lk -> caches dev s b y -> 0 < refs y ->
  (recovering = 0 -> 1 < refs y) ->
  exists s', (when (recovering =? 0) (bunpin b)) (mkWorld s env) = Ok tt (mkWorld s' env) /\
    cache_ok dev s' cv (unpinned recovering y refs) lk /\ (forall b' x, caches dev s' b' x <-> caches dev s b' x) /\
    io_only s s' /\ k_disk s' = k_disk s /\ k_dtrace s' = k_dtrace s.
Proof.
  intros Hth Hok Hc Hr Hrec. unfold unpinned. destruct (Z.eqb_spec recovering 0) as [->|_]; cbn [when].
  - apply (bunpin_spec dev s cv refs lk b y p pid); [done..|]. by apply Hrec.
  - exists s. done.
Qed.

(** One turn of [install_trans]: block [x] of the log goes home to block [y]. *)
Lemma install_step s cv refs lk x y recovering env :
  thread p pid s -> cache_ok dev s cv refs lk -> room refs lk 1 -> in_log x -> ~ in_log y ->
  lk !! y = None -> 0 < refs y \/ room refs lk 2 -> (recovering = 0 -> 0 < refs y) ->
  exists s', (lbuf ← bread dev x; dbuf ← bread dev y; lb ← buf_of lbuf;
      buf_upd dbuf (set_b_data (b_data lb));; bwrite dbuf;; when (recovering =? 0) (bunpin dbuf);;
      brelse lbuf;; brelse dbuf) (mkWorld s env)
    = Ok tt (mkWorld s' env) /\
    cache_ok dev s' (<[y := cv x]> cv) (unpinned recovering y refs) lk /\ io_only s s' /\
    k_disk s' = <[y := cv x]> (k_disk s) /\ k_dtrace s' = (y, cv x) :: k_dtrace s.
Proof.
  intros Hth Hok Hroom Hx Hy Hly Hget Hrec. destruct (rm_log _ _ _ Hroom x Hx) as [Hrx Hlx].
  assert (Hne : x <> y) by congruence. pose proof (co_range _ _ _ _ _ Hok y) as Hry.
  pose proof (co_clean _ _ _ _ _ Hok x Hrx) as Hclean.
  destruct (bread_two s cv refs lk x y env Hth Hok Hne Hlx Hly Hroom Hget)
    as (lb & s1 & db & s2 & Hrun1 & Hrun2 & Hok2 & Hcx & Hcy & Hio2 & Hd2 & Ht2).
  rewrite (run_bind _ _ _ _ _ Hrun1), (run_bind _ _ _ _ _ Hrun2).
  rewrite (run_bind _ _ _ (get_buf lb s2) (mkWorld s2 env)) by done.
  set (refs2 := <[y := refs y + 1]> (<[x := refs x + 1]> refs)) in *. set (lk2 := <[y := pid]> (<[x := pid]> lk)) in *.
  assert (R2x : refs2 x = 1) by (unfold refs2; rewrite fn_lookup_insert_ne, fn_lookup_insert by done; lia).
  assert (R2y : refs2 y = refs y + 1) by (unfold refs2; by rewrite fn_lookup_insert).
  destruct (caches_valid dev s2 cv refs2 lk2 lb x Hok2 Hcx) as [_ Hdx]; [lia|]. rewrite Hdx.
  set (f := set_b_data (cv x)). set (s3 := ubuf db f s2).
  rewrite (run_bind _ _ _ tt (mkWorld s3 env)) by done.
  destruct (bdata_spec dev s2 cv refs2 lk2 db y (cv x) f Hok2 Hcy) as [Hok3 Hc3]; [lia|done|]. fold s3 in Hok3, Hc3.
  assert (Hth3 : thread p pid s3) by (apply (thread_io _ _ s2); [apply io_only_ubuf|by apply (thread_io _ _ s)]).
  destruct (bwrite_spec dev s3 _ _ _ db y p pid env Hth3 Hok3 (proj2 (Hc3 _ _) Hcy) (lookup_insert_eq _ _ _))
    as (s4 & Hrun4 & Hok4 & Hc4 & Hio4 & Hd4 & Ht4). rewrite fn_lookup_insert in Hd4, Ht4.
  rewrite (run_bind _ _ _ _ _ Hrun4). pose proof (thread_io _ _ _ _ Hio4 Hth3) as Hth4.
  destruct (unpin_spec s4 _ refs2 lk2 db y recovering env Hth4 Hok4) as (s5 & Hrun5 & Hok5 & Hc5 & Hio5 & Hd5 & Ht5);
    [by apply Hc4, Hc3|lia|intros Hz; specialize (Hrec Hz); lia|].
  rewrite (run_bind _ _ _ _ _ Hrun5). pose proof (thread_io _ _ _ _ Hio5 Hth4) as Hth5.
  set (refs5 := unpinned recovering y refs2) in *.
  assert (R5x : refs5 x = 1) by (unfold refs5; by rewrite unpinned_ne).
  destruct (brelse_spec dev s5 _ _ _ lb x p pid env Hth5 Hok5)
    as (s6 & Hrun6 & Hok6 & Hc6 & Hio6 & Hd6 & Ht6).
  { by apply Hc5, Hc4, Hc3. }
  { unfold lk2. rewrite lookup_insert_ne by done. apply lookup_insert_eq. }
  { right. rewrite fn_lookup_insert_ne by done. rewrite Hclean. unfold disk_block.
    rewrite Hd5, Hd4, lookup_insert_ne by done. change (k_disk s3) with (k_disk s2). by rewrite Hd2. }
  rewrite (run_bind _ _ _ _ _ Hrun6).
  destruct (brelse_spec dev s6 _ _ _ db y p pid env (thread_io _ _ _ _ Hio6 Hth5) Hok6)
    as (s7 & Hrun7 & Hok7 & _ & Hio7 & Hd7 & Ht7).
  { by apply Hc6, Hc5, Hc4, Hc3. }
  { unfold lk2. rewrite lookup_delete_ne by done. apply lookup_insert_eq. }
  { right. unfold disk_block. by rewrite Hd6, Hd5, Hd4, lookup_insert_eq, fn_lookup_insert. }
  exists s7. split; [done|]. split; [|split; [|split]].
  - apply (cache_ok_ext dev s7 (<[y := cv x]> cv) _ (<[y := (<[x := refs5 x - 1]> refs5) y - 1]> (<[x := refs5 x - 1]> refs5))).
    + done.
    + intros z. rewrite R5x, (fn_lookup_insert_ne refs5 x y) by done.
      destruct (decide (y = z)) as [<-|Hyz].
      * rewrite fn_lookup_insert. unfold refs5, unpinned. destruct (_ =? 0); [rewrite !fn_lookup_insert|]; lia.
      * rewrite fn_lookup_insert_ne, unpinned_ne by done.
        destruct (decide (x = z)) as [<-|Hxz]; [rewrite fn_lookup_insert; lia|]. rewrite fn_lookup_insert_ne by done.
        unfold refs5. rewrite unpinned_ne by done. unfold refs2. by rewrite !fn_lookup_insert_ne.
    + unfold lk2 in Hok7. rewrite (delete_delete _ y x), delete_insert_id in Hok7 by (by rewrite lookup_insert_ne).
      by rewrite delete_insert_id in Hok7.
  - etrans; [exact Hio2|]. etrans; [apply io_only_ubuf|]. etrans; [exact Hio4|]. etrans; [exact Hio5|]. by etrans.
  - rewrite Hd7, Hd6, Hd5, Hd4. change (k_disk s3) with (k_disk s2). by rewrite Hd2.
  - rewrite Ht7, Ht6, Ht5, Ht4. change (k_dtrace s3) with (k_dtrace s2). by rewrite Ht2.
Qed.

(** Entry [i] of the header, and the block of the log that holds it. *)
Definition home (l : logst) (i : nat) : Z := u32 (lh_block l !!! i).
Definition slot (i : nat) : Z := start + 1 + Z.of_nat i.

Lemma slot_in_log i : (i < 29)%nat -> in_log (slot i).
Proof. unfold in_log, slot. lia. Qed.

Lemma slot_u32 i : (i < 29)%nat -> u32 (start + Z.of_nat i + 1) = slot i.
Proof. intros Hi. unfold u32, slot. rewrite Z.mod_small by lia. lia. Qed.

Definition log_writes (l : logst) (cv : Z -> list Z) (js : list nat) : list (Z * list Z) :=
  (fun i => (slot i, cv (home l i))) <$> js.
Definition home_writes (l : logst) (cv : Z -> list Z) (js : list nat) : list (Z * list Z) :=
  (fun i => (home l i, cv (slot i))) <$> js.

Definition write_log_body (l : logst) (tail : nat) : K unit :=
  to ← bread (log_dev l) (u32 (log_start l + Z.of_nat tail + 1));
  from ← bread (log_dev l) (u32 (lh_block l !!! tail));
  fb ← buf_of from;
  buf_upd to (set_b_data (b_data fb));;
  bwrite to;;
  brelse from;;
  brelse to.

Lemma write_log_loop l refs lk env : log_dev l = dev -> log_start l = start -> room refs lk 1 -> forall js s cv,
  thread p pid s -> cache_ok dev s cv refs lk ->
  Forall (fun i => (i < 29)%nat /\ ~ in_log (home l i) /\ lk !! home l i = None /\ 0 < refs (home l i)) js ->
  exists s', for_each js (write_log_body l) (mkWorld s env) = Ok tt (mkWorld s' env) /\
    cache_ok dev s' (view_all (log_writes l cv js) cv) refs lk /\ io_only s s' /\
    k_disk s' = write_all (log_writes l cv js) (k_disk s) /\
    k_dtrace s' = reverse (log_writes l cv js) ++ k_dtrace s.
Proof.
  intros L2 L3 Hroom. induction js as [|i js IH]; intros s cv Hth Hok Hjs.
  { exists s. split; [done|]. split; [done|]. split; [apply io_only_refl|done]. }
  apply Forall_cons in Hjs as [(Hi & Hy & Hly & Hry) Hjs].
  destruct (write_log_step s cv refs lk (slot i) (home l i) env Hth Hok Hroom (slot_in_log i Hi) Hy Hly Hry)
    as (s1 & Hrun1 & Hok1 & Hio1 & Hd1 & Ht1).
  destruct (IH s1 _ (thread_io _ _ _ _ Hio1 Hth) Hok1 Hjs) as (s2 & Hrun2 & Hok2 & Hio2 & Hd2 & Ht2).
  assert (Hsame : log_writes l (<[slot i := cv (home l i)]> cv) js = log_writes l cv js).
  { unfold log_writes. apply list_fmap_ext. intros k j Hj. f_equal. rewrite fn_lookup_insert_ne; [done|].
    rewrite Forall_forall in Hjs. apply list_elem_of_lookup_2 in Hj. destruct (Hjs j Hj) as (_ & Hnj & _).
    intros He. apply Hnj. rewrite <- He. by apply slot_in_log. }
  rewrite Hsame in Hok2, Hd2, Ht2.
  exists s2. split; [|split; [done|split; [by etrans|split]]].
  - cbn [for_each]. rewrite (run_bind _ _ _ tt (mkWorld s1 env)); [done|].
    rewrite <- Hrun1. unfold write_log_body. rewrite L2, L3, slot_u32 by done. done.
  - rewrite Hd2, Hd1. done.
  - rewrite Ht2, Ht1. cbn [log_writes fmap list_fmap]. rewrite reverse_cons, <- app_assoc. done.
Qed.

Definition install_body (l : logst) (recovering : Z) (tail : nat) : K unit :=
  lbuf ← bread (log_dev l) (u32 (log_start l + Z.of_nat tail + 1));
  dbuf ← bread (log_dev l) (u32 (lh_block l !!! tail));
  lb ← buf_of lbuf;
  buf_upd dbuf (set_b_data (b_data lb));;
  bwrite dbuf;;
  when (recovering =? 0) (bunpin dbuf);;
  brelse lbuf;;
  brelse dbuf.

Definition unpin_all (l : logst) (recovering : Z) (js : list nat) (refs : Z -> Z) : Z -> Z :=
  foldl (fun r i => unpinned recovering (home l i) r) refs js.

Lemma room_unpinned recovering y refs lk k : ~ in_log y -> room refs lk k -> room (unpinned recovering y refs) lk k.
Proof.
  intros Hy [H1 H2 (busy & Hb & Hlen)]. split.
  - intros x Hx. rewrite unpinned_ne by congruence. by apply H1.
  - intros x. pose proof (unpinned_le recovering y refs x). specialize (H2 x). lia.
  - exists busy. split; [|done]. intros x Hx. apply Hb. pose proof (unpinned_le recovering y refs x). lia.
Qed.

Lemma install_loop l recovering lk env : log_dev l = dev -> log_start l = start -> forall js s cv refs,
  thread p pid s -> cache_ok dev s cv refs lk -> room refs lk 1 ->
  (recovering <> 0 -> room refs lk 2) -> NoDup (home l <$> js) ->
  Forall (fun i => (i < 29)%nat /\ ~ in_log (home l i) /\ lk !! home l i = None /\
    (recovering = 0 -> 0 < refs (home l i))) js ->
  exists s', for_each js (install_body l recovering) (mkWorld s env) = Ok tt (mkWorld s' env) /\
    cache_ok dev s' (view_all (home_writes l cv js) cv) (unpin_all l recovering js refs) lk /\ io_only s s' /\
    k_disk s' = write_all (home_writes l cv js) (k_disk s) /\
    k_dtrace s' = reverse (home_writes l cv js) ++ k_dtrace s.
Proof.
  intros L2 L3. induction js as [|i js IH]; intros s cv refs Hth Hok Hroom Hroom2 Hnd Hjs.
  { exists s. split; [done|]. split; [done|]. split; [apply io_only_refl|done]. }
  apply Forall_cons in Hjs as [(Hi & Hy & Hly & Hry) Hjs]. cbn [fmap list_fmap] in Hnd. apply NoDup_cons in Hnd as [Hni Hnd].
  assert (Hget : 0 < refs (home l i) \/ room refs lk 2).
  { destruct (decide (recovering = 0)) as [Hz|Hz]; [left; by apply Hry|right; by apply Hroom2]. }
  destruct (install_step s cv refs lk (slot i) (home l i) recovering env Hth Hok Hroom (slot_in_log i Hi) Hy Hly Hget Hry)
    as (s1 & Hrun1 & Hok1 & Hio1 & Hd1 & Ht1).
  assert (Hother : forall j, j ∈ js -> home l j <> home l i).
  { intros j Hj He. apply Hni. rewrite <- He. by apply list_elem_of_fmap_2. }
  destruct (IH s1 _ _ (thread_io _ _ _ _ Hio1 Hth) Hok1) as (s2 & Hrun2 & Hok2 & Hio2 & Hd2 & Ht2); [| |done| |].
  { by apply room_unpinned. }
  { intros Hz. apply room_unpinned; [done|by apply Hroom2]. }
  { rewrite Forall_forall in Hjs |- *. intros j Hj. destruct (Hjs j Hj) as (H1 & H2 & H3 & H4).
    split; [done|]. split; [done|]. split; [done|]. intros Hz. rewrite unpinned_ne by (by apply Hother). by apply H4. }
  assert (Hsame : home_writes l (<[home l i := cv (slot i)]> cv) js = home_writes l cv js).
  { unfold home_writes. apply list_fmap_ext. intros k j Hj. f_equal. rewrite fn_lookup_insert_ne; [done|].
    rewrite Forall_forall in Hjs. apply list_elem_of_lookup_2 in Hj. destruct (Hjs j Hj) as (Hj30 & _).
    intros He. apply Hy. rewrite He. by apply slot_in_log. }
  rewrite Hsame in Hok2, Hd2, Ht2.
  exists s2. split; [|split; [done|split; [by etrans|split]]].
  - cbn [for_each]. rewrite (run_bind _ _ _ tt (mkWorld s1 env)); [done|].
    rewrite <- Hrun1. unfold install_body. rewrite L2, L3, slot_u32 by done. done.
  - rewrite Hd2, Hd1. done.
  - rewrite Ht2, Ht1. cbn [home_writes fmap list_fmap]. rewrite reverse_cons, <- app_assoc. done.
Qed.

(** A transaction ready to be committed: the header lists [n] distinct blocks outside the
    log, each in use (pinned) and unlocked. *)
Record transaction (l : logst) (refs : Z -> Z) (lk : gmap Z Z) : Prop := {
  tr_dev : log_dev l = dev;
  tr_start : log_start l = start;
  tr_n : 0 < lh_n l <= 29;
  tr_nodup : NoDup (home l <$> lh_range l);
  tr_blocks : Forall (fun i => (i < 29)%nat /\ ~ in_log (home l i) /\ lk !! home l i = None /\ 0 < refs (home l i)) (lh_range l)
}.

(** The disk writes of [commit], in order. *)
Definition commit_writes (l : logst) (cv : Z -> list Z) : list (Z * list Z) :=
  let h := hdr (cv start) (lh_n l) (lh_block l) in
  log_writes l cv (lh_range l) ++ [(start, h)] ++
  ((fun i => (home l i, cv (home l i))) <$> lh_range l) ++ [(start, hdr h 0 (lh_block l))].

Lemma view_log_start l cv js : Forall (fun i => (i < 29)%nat) js ->
  view_all (log_writes l cv js) cv start = cv start.
Proof.
  intros Hjs. rewrite view_all_lookup, written_None; [done|]. unfold log_writes. rewrite <- list_fmap_compose.
  intros Hin. apply list_elem_of_fmap in Hin as (i & Hi & _). unfold compose, slot in Hi. cbn in Hi. lia.
Qed.

Lemma view_log_slot l cv js i : NoDup js -> i ∈ js -> view_all (log_writes l cv js) cv (slot i) = cv (home l i).
Proof.
  intros Hnd Hi. rewrite view_all_lookup.
  destruct (written_Some (log_writes l cv js) (slot i)) as (c & -> & Hc).
  { unfold log_writes. rewrite <- list_fmap_compose. apply list_elem_of_fmap. by exists i. }
  cbn. unfold log_writes in Hc. apply list_elem_of_fmap in Hc as (j & Hj & _). injection Hj as Hs Hc.
  assert (j = i) as -> by (unfold slot in Hs; lia). done.
Qed.

Lemma cache_log s cv refs lk x : cache_ok dev s cv refs lk -> cache_ok dev (set_k_log x s) cv refs lk.
Proof. intros [H1 H2 H3 H4 H5 H6 H7 H8 H9 H10 H11]. by split. Qed.

Lemma thread_log s x : thread p pid s -> thread p pid (set_k_log x s).
Proof. intros [H1 H2 H3 H4 H5 H6]. by split. Qed.

Lemma range_29 l : lh_n l <= 29 -> Forall (fun i => (i < 29)%nat) (lh_range l).
Proof. intros H. apply Forall_seq. lia. Qed.

Lemma room_unpin_all l recovering js lk k : forall refs,
  Forall (fun i => ~ in_log (home l i)) js -> room refs lk k -> room (unpin_all l recovering js refs) lk k.
Proof.
  induction js as [|i js IH]; intros refs Hjs Hroom; [done|]. apply Forall_cons in Hjs as [Hi Hjs].
  apply (IH (unpinned recovering (home l i) refs)); [done|]. by apply room_unpinned.
Qed.

(** The blocks of the header can be installed. *)
Record installable (l : logst) (recovering : Z) (refs : Z -> Z) (lk : gmap Z Z) : Prop := {
  in_n : 0 <= lh_n l <= 29;
  in_nodup : NoDup (home l <$> lh_range l);
  in_home i : i ∈ lh_range l -> ~ in_log (home l i) /\ lk !! home l i = None /\ (recovering = 0 -> 0 < refs (home l i));
  in_room : room refs lk 1;
  in_room2 : recovering <> 0 -> room refs lk 2
}.

(** The writes that bring the logged blocks home and clear the header. *)
Definition install_writes (l : logst) (cv : Z -> list Z) : list (Z * list Z) :=
  home_writes l cv (lh_range l) ++ [(start, hdr (cv start) 0 (lh_block l))].

Lemma home_phase s cv refs lk l recovering env :
  thread p pid s -> cache_ok dev s cv refs lk -> log_is l s -> installable l recovering refs lk ->
  length (cv start) = bsize ->
  exists s' cv', (install_trans recovering;; log_upd (set_lh_n 0);; write_head) (mkWorld s env) = Ok tt (mkWorld s' env) /\
    k_disk s' = write_all (install_writes l cv) (k_disk s) /\
    k_dtrace s' = reverse (install_writes l cv) ++ k_dtrace s /\
    k_log s' = set_lh_n 0 l /\ cache_ok dev s' cv' (unpin_all l recovering (lh_range l) refs) lk /\ thread p pid s' /\
    fs_only s s'.
Proof.
  intros Hth Hok Hl [In Ind Ihome Iroom Iroom2] Hlen. pose proof Hl as [L1 L2 L3].
  assert (Hnot : Forall (fun i => ~ in_log (home l i)) (lh_range l)) by (apply Forall_forall; intros i Hi; by apply Ihome).
  destruct (install_loop l recovering lk env L2 L3 (lh_range l) s cv refs Hth Hok Iroom Iroom2 Ind)
    as (s3 & Hrun3 & Hok3 & Hio3 & Hd3 & Ht3).
  { apply Forall_forall. intros i Hi. split; [|by apply Ihome]. apply elem_of_seq in Hi. lia. }
  rewrite (run_bind _ _ _ tt (mkWorld s3 env)).
  2:{ unfold install_trans. rewrite (run_bind _ _ _ l (mkWorld s env)) by (by rewrite <- L1). exact Hrun3. }
  pose proof (thread_io _ _ _ _ Hio3 Hth) as Hth3. pose proof (io_only_log _ _ Hio3) as Hl3. rewrite L1 in Hl3.
  set (s4 := set_k_log (set_lh_n 0 l) s3).
  rewrite (run_bind _ _ _ tt (mkWorld s4 env)) by (unfold log_upd, kmodify, modify; cbn [w_ks w_env]; by rewrite Hl3).
  set (cv3 := view_all _ cv) in Hok3.
  assert (Hcv3 : cv3 start = cv start).
  { unfold cv3. rewrite view_all_lookup, written_None; [done|]. unfold home_writes.
    rewrite <- list_fmap_compose. intros Hin. apply list_elem_of_fmap in Hin as (i & He & Hi).
    destruct (Ihome i Hi) as (Hn & _). apply Hn. unfold in_log. cbn in He. lia. }
  destruct (write_head_spec s4 cv3 _ lk (set_lh_n 0 l) env (thread_log _ _ Hth3) (cache_log _ _ _ _ _ Hok3))
    as (s5 & Hrun5 & Hok5 & Hio5 & Hd5 & Ht5); [by apply room_unpin_all|done|cbn; lia|by rewrite Hcv3|].
  rewrite Hcv3 in Hok5, Hd5, Ht5. eexists s5, _. split; [exact Hrun5|]. unfold install_writes. split; [|split; [|split; [|split; [|split]]]].
  - rewrite write_all_app, Hd5. change (k_disk s4) with (k_disk s3). by rewrite Hd3.
  - rewrite reverse_app, Ht5. change (k_dtrace s4) with (k_dtrace s3). by rewrite Ht3.
  - by rewrite (io_only_log _ _ Hio5).
  - exact Hok5.
  - apply (thread_io _ _ _ _ Hio5). by apply thread_log.
  - etrans; [by apply fs_only_io|]. by exists (set_lh_n 0 l).
Qed.

Lemma unpin_recovering l js refs : unpin_all l 1 js refs = refs.
Proof. unfold unpin_all. induction js as [|i js IH]; [done|]. exact IH. Qed.

Lemma commit_spec s cv refs lk l env :
  thread p pid s -> cache_ok dev s cv refs lk -> room refs lk 1 -> k_log s = l -> transaction l refs lk ->
  length (cv start) = bsize ->
  exists s' cv', commit (mkWorld s env) = Ok tt (mkWorld s' env) /\
    k_disk s' = write_all (commit_writes l cv) (k_disk s) /\
    k_dtrace s' = reverse (commit_writes l cv) ++ k_dtrace s /\
    k_log s' = set_lh_n 0 l /\ cache_ok dev s' cv' (unpin_all l 0 (lh_range l) refs) lk /\ thread p pid s'.
Proof.
  intros Hth Hok Hroom Hlog [Tdev Tstart Tn Tnd Tb] Hlen.
  unfold commit. rewrite (run_bind _ _ _ l (mkWorld s env)) by (by rewrite <- Hlog).
  rewrite (proj2 (Z.ltb_lt 0 (lh_n l))) by lia. cbn [when].
  destruct (write_log_loop l refs lk env Tdev Tstart Hroom (lh_range l) s cv Hth Hok Tb)
    as (s1 & Hrun1 & Hok1 & Hio1 & Hd1 & Ht1).
  rewrite (run_bind _ _ _ tt (mkWorld s1 env)).
  2:{ unfold write_log. rewrite (run_bind _ _ _ l (mkWorld s env)) by (by rewrite <- Hlog). exact Hrun1. }
  pose proof (thread_io _ _ _ _ Hio1 Hth) as Hth1.
  assert (Hl1 : log_is l s1) by (split; [by rewrite (io_only_log _ _ Hio1)|done|done]).
  set (cv1 := view_all (log_writes l cv (lh_range l)) cv) in *.
  assert (Hcv1 : cv1 start = cv start) by (apply view_log_start, range_29; lia).
  destruct (write_head_spec s1 cv1 refs lk l env Hth1 Hok1 Hroom Hl1) as (s2 & Hrun2 & Hok2 & Hio2 & Hd2 & Ht2);
    [lia|by rewrite Hcv1|]. rewrite Hcv1 in Hok2, Hd2, Ht2. set (h := hdr (cv start) (lh_n l) (lh_block l)) in *.
  rewrite (run_bind _ _ _ _ _ Hrun2).
  assert (Hhw : install_writes l (<[start := h]> cv1)
    = ((fun i => (home l i, cv (home l i))) <$> lh_range l) ++ [(start, hdr h 0 (lh_block l))]).
  { unfold install_writes, home_writes. rewrite fn_lookup_insert. f_equal.
    apply list_fmap_ext. intros k i Hi. apply list_elem_of_lookup_2 in Hi. f_equal.
    rewrite fn_lookup_insert_ne by (unfold slot; lia). apply view_log_slot; [apply NoDup_seq|done]. }
  destruct (home_phase s2 _ refs lk l 0 env (thread_io _ _ _ _ Hio2 Hth1) Hok2 (log_is_io _ _ _ Hio2 Hl1))
    as (s' & cv' & Hrun' & Hd' & Ht' & Hl' & Hok' & Hth' & _).
  { split; [lia|done| |done|done]. intros i Hi. rewrite Forall_forall in Tb. destruct (Tb i Hi) as (_ & H2 & H3 & H4). done. }
  { rewrite fn_lookup_insert. apply length_hdr; [done|lia]. }
  rewrite Hhw in Hd', Ht'. exists s', cv'. split; [exact Hrun'|].
  unfold commit_writes. fold h. rewrite !write_all_app, !reverse_app. split; [|split; [|done]].
  - rewrite Hd', Hd2, Hd1. by rewrite write_all_app.
  - rewrite Ht', Ht2, Ht1, reverse_app. by rewrite <- !app_assoc.
Qed.

(** ** Recovery *)

(** The header on disk [d]: its count and its entries. *)
Definition disk_n (d : gmap Z (list Z)) : nat := Z.to_nat (s32 (get32 (disk_block d start) 0)).
Definition disk_home (d : gmap Z (list Z)) (i : nat) : Z := u32 (s32 (get32 (disk_block d start) (4 + 4 * i))).

(** A disk whose header makes sense. *)
Record log_disk (d : gmap Z (list Z)) : Prop := {
  ld_len : length (disk_block d start) = bsize;
  ld_n : 0 <= s32 (get32 (disk_block d start) 0) <= 29;
  ld_nodup : NoDup (disk_home d <$> seq 0 (disk_n d));
  ld_home i : (i < disk_n d)%nat -> ~ in_log (disk_home d i)
}.

(** The disk writes of recovery. *)
Definition rec_writes (d : gmap Z (list Z)) : list (Z * list Z) :=
  ((fun i => (disk_home d i, disk_block d (slot i))) <$> seq 0 (disk_n d)) ++
  [(start, put32 (disk_block d start) 0 0)].

(** The loop of [read_head] over the entries of the header block [d]. *)
Lemma read_entries d : forall js s env l, k_log s = l ->
  exists bs, for_each js (fun i => log_upd (fun l => set_lh_block (<[i := s32 (get32 d (4 + 4 * i))]> (lh_block l)) l)) (mkWorld s env)
    = Ok tt (mkWorld (set_k_log (set_lh_block bs l) s) env) /\ length bs = length (lh_block l) /\
    forall i, (i < length (lh_block l))%nat ->
      bs !!! i = if decide (i ∈ js) then s32 (get32 d (4 + 4 * i)) else lh_block l !!! i.
Proof.
  induction js as [|j js IH]; intros s env l Hl.
  - exists (lh_block l). split; [|split; [done|]].
    + cbn. unfold mret, M_ret. do 2 f_equal. rewrite <- Hl. destruct s as [? ? ? ? ? ? ? ? ? ? ? ? ? ? ? ? ? ? g ? ? ? ? ? ? ?].
      by destruct g.
    + intros i Hi. by rewrite decide_False by apply not_elem_of_nil.
  - set (l1 := set_lh_block (<[j := s32 (get32 d (4 + 4 * j))]> (lh_block l)) l).
    destruct (IH (set_k_log l1 s) env l1 eq_refl) as (bs & Hrun & Hlen & Hbs).
    assert (Hlen1 : length (lh_block l1) = length (lh_block l)) by (unfold l1; cbn; by rewrite length_insert).
    exists bs. split; [|split; [by rewrite Hlen|]].
    + cbn [for_each]. rewrite (run_bind _ _ _ tt (mkWorld (set_k_log l1 s) env)).
      2:{ unfold log_upd, kmodify, modify. cbn [w_ks w_env]. by rewrite Hl. }
      rewrite Hrun. do 2 f_equal.
    + intros i Hi. rewrite Hbs by lia. destruct (decide (i ∈ js)) as [Hin|Hin].
      * by rewrite decide_True by (by right).
      * unfold l1. cbn [lh_block set_lh_block]. destruct (decide (i = j)) as [->|Hne].
        -- rewrite decide_True by left. by apply list_lookup_total_insert_eq.
        -- rewrite decide_False by (apply not_elem_of_cons; done). by apply list_lookup_total_insert_ne.
Qed.

Lemma s32_u32 x : u32 (s32 x) = u32 x.
Proof. unfold s32, u32. rewrite Zminus_mod_idemp_l. f_equal. lia. Qed.

(** After recovery the header in memory is empty and no block is in use: the view of the disk
    is the disk. *)
Record settled (l : logst) (s s' : kst) (lk : gmap Z Z) : Prop := {
  se_thread : thread p pid s';
  se_cache : cache_ok dev s' (disk_block (k_disk s')) (fun _ => 0) lk;
  se_only : fs_only s s';
  se_log : exists l', k_log s' = set_lh_n 0 l' /\ log_dev l' = log_dev l /\ log_start l' = log_start l /\
    log_size l' = log_size l /\ log_outstanding l' = log_outstanding l /\ log_committing l' = log_committing l /\
    length (lh_block l') = length (lh_block l)
}.

Lemma home_phase_disk s d lk env l : thread p pid s -> cache_ok dev s (disk_block d) (fun _ => 0) lk ->
  (forall x, lk !! x = None) -> k_disk s = d -> log_disk d -> log_is l s -> lh_n l = Z.of_nat (disk_n d) ->
  (forall i, (i < disk_n d)%nat -> home l i = disk_home d i) ->
  exists s', (install_trans 1;; log_upd (set_lh_n 0);; write_head) (mkWorld s env) = Ok tt (mkWorld s' env) /\
    k_disk s' = write_all (rec_writes d) d /\ k_dtrace s' = reverse (rec_writes d) ++ k_dtrace s /\
    settled l s s' lk.
Proof.
  intros Hth Hok Hlk Hd [D1 D2 D3 D4] Hl Hn Hhome.
  assert (Hrange : lh_range l = seq 0 (disk_n d)) by (unfold lh_range; by rewrite Hn, Nat2Z.id).
  assert (Hfm : home l <$> lh_range l = disk_home d <$> seq 0 (disk_n d)).
  { rewrite Hrange. apply list_fmap_ext. intros k i Hi. apply list_elem_of_lookup_2, elem_of_seq in Hi. apply Hhome. lia. }
  assert (Hroom : room (fun _ => 0) lk 2).
  { split; [by intros x _|lia|]. exists []. split; [lia|]. cbn. unfold NBUF. lia. }
  destruct (home_phase s (disk_block d) (fun _ => 0) lk l 1 env Hth Hok Hl) as (s' & cv' & Hrun & Hd' & Ht' & Hl' & Hok' & Hth' & Hfs).
  - split.
    + rewrite Hn. unfold disk_n. lia.
    + by rewrite Hfm.
    + intros i Hi. rewrite Hrange in Hi. apply elem_of_seq in Hi. rewrite Hhome by lia. split; [apply D4; lia|].
      split; [done|lia].
    + destruct Hroom as [H1 H2 (busy & H3 & H4)]. split; [done|done|]. exists busy. split; [done|lia].
    + done.
  - done.
  - assert (Hw : install_writes l (disk_block d) = rec_writes d).
    { unfold install_writes, rec_writes, home_writes. rewrite Hrange. f_equal.
      apply list_fmap_ext. intros k i Hi. apply list_elem_of_lookup_2, elem_of_seq in Hi. f_equal. apply Hhome. lia. }
    rewrite Hw, Hd in *. rewrite unpin_recovering in Hok'. exists s'. split; [done|]. split; [done|]. split; [done|].
    split; [done| |done|by exists l].
    apply (cache_ok_ext dev s' cv' _ (fun _ => 0)); [|done|done]. intros x. symmetry. by apply (co_clean _ _ _ _ _ Hok').
Qed.

Lemma read_head_spec s d lk env l : thread p pid s -> cache_ok dev s (disk_block d) (fun _ => 0) lk ->
  (forall x, lk !! x = None) -> k_disk s = d -> log_disk d -> log_is l s -> length (lh_block l) = 30%nat ->
  exists s' l', read_head (mkWorld s env) = Ok tt (mkWorld s' env) /\ cache_ok dev s' (disk_block d) (fun _ => 0) lk /\
    thread p pid s' /\ log_is l' s' /\ k_disk s' = d /\ k_dtrace s' = k_dtrace s /\
    lh_n l' = Z.of_nat (disk_n d) /\ (forall i, (i < disk_n d)%nat -> home l' i = disk_home d i) /\
    fs_only s s' /\ exists bs, l' = set_lh_block bs (set_lh_n (lh_n l') l) /\ length bs = length (lh_block l).
Proof.
  intros Hth Hok Hlk Hd [D1 D2 D3 D4] [L1 L2 L3] Hlen. set (dt := disk_block d start) in *.
  unfold read_head. rewrite (run_bind _ _ _ l (mkWorld s env)) by (by rewrite <- L1). rewrite L2, L3.
  assert (Hu : u32 start = start) by (unfold u32; apply Z.mod_small; lia). rewrite Hu.
  assert (Hroom : room (fun _ => 0) lk 1).
  { split; [by intros x _|lia|]. exists []. split; [lia|]. cbn. unfold NBUF. lia. }
  destruct (bread_spec dev s (disk_block d) _ lk start p pid env Hth Hok (room_get s _ _ lk 0 start Hok Hroom (Hlk _)))
    as (b & s1 & Hrun1 & Hok1 & Hc1 & _ & Hio1 & Hd1 & Ht1).
  rewrite (run_bind _ _ _ _ _ Hrun1). rewrite (run_bind _ _ _ (get_buf b s1) (mkWorld s1 env)) by done.
  destruct (caches_valid dev s1 _ _ _ b start Hok1 Hc1) as [_ Hdata]; [rewrite fn_lookup_insert; lia|].
  rewrite Hdata. fold dt. pose proof (io_only_log _ _ Hio1) as Hl1. rewrite L1 in Hl1.
  set (l2 := set_lh_n (s32 (get32 dt 0)) l). set (s2 := set_k_log l2 s1).
  rewrite (run_bind _ _ _ tt (mkWorld s2 env)) by (unfold log_upd, kmodify, modify; cbn [w_ks w_env]; by rewrite Hl1).
  rewrite (run_bind _ _ _ l2 (mkWorld s2 env)) by done.
  destruct (read_entries dt (lh_range l2) s2 env l2 eq_refl) as (bs & Hrun3 & Hlen3 & Hbs).
  rewrite (run_bind _ _ _ _ _ Hrun3). set (l3 := set_lh_block bs l2) in *. set (s3 := set_k_log l3 s2).
  assert (Hth3 : thread p pid s3) by (apply thread_log, thread_log; by apply (thread_io _ _ s)).
  destruct (brelse_spec dev s3 (disk_block d) _ _ b start p pid env Hth3 (cache_log _ _ _ _ _ (cache_log _ _ _ _ _ Hok1)))
    as (s4 & Hrun4 & Hok4 & _ & Hio4 & Hd4 & Ht4); [done|apply lookup_insert_eq|right; by rewrite <- Hd, <- Hd1|].
  exists s4, l3. split; [done|]. split; [eapply cache_back; [exact Hok4|done|apply (fn_back (fun _ => 0))]|].
  split; [by apply (thread_io _ _ _ _ Hio4)|]. split; [|split; [|split; [|split; [|split; [|split]]]]].
  - split; [by rewrite (io_only_log _ _ Hio4)|done|done].
  - rewrite Hd4. change (k_disk s3) with (k_disk s1). congruence.
  - rewrite Ht4. change (k_dtrace s3) with (k_dtrace s1). congruence.
  - unfold disk_n. fold dt. change (lh_n l3) with (s32 (get32 dt 0)). lia.
  - intros i Hi. unfold disk_n in Hi. fold dt in Hi. unfold home, disk_home. fold dt. change (lh_block l3) with bs.
    rewrite Hbs by (unfold l2; cbn; lia). rewrite decide_True; [done|]. apply elem_of_seq. unfold l2. cbn. lia.
  - etrans; [by apply fs_only_io|]. exists l3. exact Hio4.
  - by exists bs.
Qed.

Lemma recover_spec s d lk env l : thread p pid s -> cache_ok dev s (disk_block d) (fun _ => 0) lk ->
  (forall x, lk !! x = None) -> k_disk s = d -> log_disk d -> log_is l s -> length (lh_block l) = 30%nat ->
  exists s', recover_from_log (mkWorld s env) = Ok tt (mkWorld s' env) /\
    k_disk s' = write_all (rec_writes d) d /\ k_dtrace s' = reverse (rec_writes d) ++ k_dtrace s /\ settled l s s' lk.
Proof.
  intros Hth Hok Hlk Hd Hld Hl Hlen.
  destruct (read_head_spec s d lk env l Hth Hok Hlk Hd Hld Hl Hlen)
    as (s1 & l1 & Hrun1 & Hok1 & Hth1 & Hl1 & Hd1 & Ht1 & Hn1 & Hh1 & Hfs1 & bs & Hl1' & Hbs).
  unfold recover_from_log. rewrite (run_bind _ _ _ _ _ Hrun1).
  destruct (home_phase_disk s1 d lk env l1 Hth1 Hok1 Hlk Hd1 Hld Hl1 Hn1 Hh1) as (s' & Hrun & Hd' & Ht' & [S1 S2 S3 (l2 & S4 & S5 & S6 & S7 & S8 & S9 & S10)]).
  exists s'. split; [done|]. split; [done|]. split; [by rewrite <- Ht1|]. split; [done|done|by etrans|].
  rewrite Hl1' in S5, S6, S7, S8, S9, S10. cbn in S5, S6, S7, S8, S9, S10. exists l2. rewrite <- Hbs. done.
Qed.

(** ** Crashes *)

Definition recovered (d : gmap Z (list Z)) : gmap Z (list Z) := write_all (rec_writes d) d.

(** A crash after some of the writes of recovery. *)
Definition rec_crash (d d' : gmap Z (list Z)) : Prop := exists k, d' = write_all (take k (rec_writes d)) d.

Lemma log_disk_ext d d' : (forall x, in_log x -> disk_block d' x = disk_block d x) -> log_disk d ->
  log_disk d' /\ rec_writes d' = rec_writes d.
Proof.
  intros Hsame [D1 D2 D3 D4]. assert (Hs : disk_block d' start = disk_block d start) by (apply Hsame; unfold in_log; lia).
  assert (Hn : disk_n d' = disk_n d) by (unfold disk_n; by rewrite Hs).
  assert (Hh : forall i, disk_home d' i = disk_home d i) by (intros i; unfold disk_home; by rewrite Hs).
  split.
  - split; [by rewrite Hs|by rewrite Hs| |].
    + rewrite Hn. erewrite list_fmap_ext; [exact D3|]. intros k i _. apply Hh.
    + intros i Hi. rewrite Hh. apply D4. lia.
  - unfold rec_writes. rewrite Hn, Hs. f_equal. apply list_fmap_ext. intros k i Hi.
    apply list_elem_of_lookup_2, elem_of_seq in Hi. rewrite Hh. f_equal. apply Hsame, slot_in_log.
    unfold disk_n in Hi. lia.
Qed.

(** An empty header: recovery only rewrites the header. *)
Lemma empty_log d : length (disk_block d start) = bsize -> get32 (disk_block d start) 0 = 0 ->
  log_disk d /\ forall x, ~ in_log x -> disk_block (recovered d) x = disk_block d x.
Proof.
  intros Hlen H0. assert (Hn : disk_n d = 0%nat) by (unfold disk_n; by rewrite H0). split.
  - split; [done|rewrite H0; change (s32 0) with 0; lia|rewrite Hn; apply NoDup_nil_2|rewrite Hn; lia].
  - intros x Hx. unfold recovered. rewrite write_all_lookup, written_None; [done|].
    unfold rec_writes. rewrite Hn. cbn. intros Hin. apply list_elem_of_singleton in Hin. apply Hx. unfold in_log. lia.
Qed.

Lemma rec_homes d : (rec_writes d).*1 = (disk_home d <$> seq 0 (disk_n d)) ++ [start].
Proof. unfold rec_writes. rewrite fmap_app, <- list_fmap_compose. done. Qed.

Lemma take_not_in (ws : list (Z * list Z)) k x : x ∉ ws.*1 -> x ∉ (take k ws).*1.
Proof.
  intros Hx Hin. apply Hx. rewrite <- (take_drop k ws), fmap_app. apply elem_of_app. by left.
Qed.

Lemma rec_crash_step d d' : log_disk d -> rec_crash d d' ->
  log_disk d' /\ forall x, ~ in_log x -> disk_block (recovered d') x = disk_block (recovered d) x.
Proof.
  intros Hld [k ->]. pose proof Hld as [D1 D2 D3 D4].
  set (homes := (fun i => (disk_home d i, disk_block d (slot i))) <$> seq 0 (disk_n d)).
  assert (Hws : rec_writes d = homes ++ [(start, put32 (disk_block d start) 0 0)]) by done.
  assert (Hlh : length homes = disk_n d) by (unfold homes; by rewrite length_fmap, length_seq).
  destruct (decide (k <= disk_n d)%nat) as [Hk|Hk].
  - set (d' := write_all (take k (rec_writes d)) d).
    assert (Hin : forall x, in_log x -> disk_block d' x = disk_block d x).
    { intros x Hx. unfold d'. rewrite write_all_lookup, written_None; [done|].
      rewrite Hws, take_app_le by lia. apply take_not_in. unfold homes. rewrite <- list_fmap_compose.
      intros Hin. apply list_elem_of_fmap in Hin as (i & -> & Hi). apply elem_of_seq in Hi. apply (D4 i); [lia|done]. }
    destruct (log_disk_ext d d' Hin Hld) as [Hld' Hw]. split; [done|]. intros x Hx. unfold recovered.
    rewrite Hw, !write_all_lookup. destruct (decide (x ∈ (rec_writes d).*1)) as [Hxin|Hxn].
    + by destruct (written_Some _ _ Hxin) as (c & -> & _).
    + rewrite written_None by done. cbn. unfold d'. rewrite write_all_lookup, written_None; [done|]. by apply take_not_in.
  - rewrite take_ge by (rewrite Hws, length_app; cbn; lia). fold (recovered d).
    assert (Hst : disk_block (recovered d) start = put32 (disk_block d start) 0 0).
    { unfold recovered. rewrite write_all_lookup, Hws, written_app. cbn. by rewrite decide_True. }
    assert (Hfit : (0 + 4 <= length (disk_block d start))%nat) by (rewrite D1; change bsize with 1024%nat; lia).
    apply empty_log; rewrite Hst; [by rewrite length_put32|by rewrite get32_put32_eq].
Qed.

Lemma rec_crashes d d' : rtc rec_crash d d' -> log_disk d ->
  log_disk d' /\ forall x, ~ in_log x -> disk_block (recovered d') x = disk_block (recovered d) x.
Proof.
  induction 1 as [d|d d1 d2 H1 _ IH]; intros Hld; [done|].
  destruct (rec_crash_step d d1 Hld H1) as [Hld1 Hx1]. destruct (IH Hld1) as [Hld2 Hx2]. split; [done|].
  intros x Hx. by rewrite Hx2, Hx1.
Qed.

(** ** Crashes of commit *)

Section CommitCrash.
Context (l : logst) (cv : Z -> list Z) (d : gmap Z (list Z)).
Hypothesis (Hn : 0 < lh_n l <= 29) (Hnd : NoDup (home l <$> lh_range l))
  (Hhome : forall i, i ∈ lh_range l -> ~ in_log (home l i))
  (Hhdr : disk_block d start = cv start) (Hlen : length (cv start) = bsize)
  (Hempty : get32 (cv start) 0 = 0)
  (Hdirty : forall x, cv x <> disk_block d x -> x ∈ home l <$> lh_range l).

Let h := hdr (cv start) (lh_n l) (lh_block l).
Let slots := log_writes l cv (lh_range l).
Let homes := (fun i => (home l i, cv (home l i))) <$> lh_range l.

Lemma homes_keys : homes.*1 = home l <$> lh_range l.
Proof. unfold homes. by rewrite <- list_fmap_compose. Qed.

Lemma homes_none x : in_log x -> x ∉ homes.*1.
Proof.
  intros Hx Hin. rewrite homes_keys in Hin. apply list_elem_of_fmap in Hin as (i & -> & Hi). by apply (Hhome i Hi).
Qed.

Lemma slots_none x : ~ in_log x \/ x = start -> x ∉ slots.*1.
Proof.
  intros Hx Hin. unfold slots, log_writes in Hin. rewrite <- list_fmap_compose in Hin.
  apply list_elem_of_fmap in Hin as (i & -> & Hi). apply elem_of_seq in Hi. unfold compose in Hx. cbn in Hx.
  destruct Hx as [Hx|Hx]; [apply Hx, slot_in_log; lia|unfold slot in Hx; lia].
Qed.

(** The blocks of the transaction, once they are home. *)
Lemma homes_view x : default (disk_block d x) (written homes x) = cv x.
Proof.
  destruct (decide (x ∈ homes.*1)) as [Hin|Hin].
  - destruct (written_Some _ _ Hin) as (c & -> & Hc). cbn. unfold homes in Hc.
    apply list_elem_of_fmap in Hc as (i & Hi & _). injection Hi as -> ->. done.
  - rewrite written_None by done. cbn. rewrite homes_keys in Hin.
    destruct (decide (cv x = disk_block d x)) as [->|Hx]; [done|]. by apply Hdirty in Hx.
Qed.

(** A crash before the header is written. *)
Lemma crash_before ws : ws = take (length ws) slots -> let d' := write_all ws d in
  log_disk d' /\ forall x, ~ in_log x -> disk_block (recovered d') x = disk_block d x.
Proof.
  intros Hws d'. assert (Hnot : forall x, ~ in_log x \/ x = start -> disk_block d' x = disk_block d x).
  { intros x Hx. unfold d'. rewrite write_all_lookup, written_None; [done|]. rewrite Hws. by apply take_not_in, slots_none. }
  destruct (empty_log d') as [H1 H2]; [rewrite Hnot, Hhdr by (by right); done..|].
  split; [done|]. intros x Hx. rewrite H2 by done. apply Hnot. by left.
Qed.

(** A crash after the header is written and before it is cleared. *)
Lemma crash_during j : let d' := write_all (slots ++ [(start, h)] ++ take j homes) d in
  log_disk d' /\ forall x, ~ in_log x -> disk_block (recovered d') x = cv x.
Proof.
  intros d'.
  assert (Hst : disk_block d' start = h).
  { unfold d'. rewrite write_all_lookup, !written_app, written_None; [cbn; by rewrite decide_True|].
    apply take_not_in, homes_none. unfold in_log. lia. }
  assert (Hnat : disk_n d' = Z.to_nat (lh_n l)).
  { unfold disk_n. rewrite Hst. unfold h. rewrite hdr_count by (done || lia). unfold s32. rewrite Z.mod_small by lia. f_equal. lia. }
  assert (Hh : forall i, (i < Z.to_nat (lh_n l))%nat -> disk_home d' i = home l i).
  { intros i Hi. unfold disk_home. rewrite Hst. unfold h. rewrite hdr_entry by (done || lia). rewrite s32_u32.
    unfold home, u32. by rewrite Z.mod_mod. }
  assert (Hslot : forall i, (i < Z.to_nat (lh_n l))%nat -> disk_block d' (slot i) = cv (home l i)).
  { intros i Hi. unfold d'. rewrite write_all_lookup, !written_app, written_None by
      (apply take_not_in, homes_none, slot_in_log; lia). cbn. rewrite decide_False by (unfold slot; lia).
    destruct (written_Some slots (slot i)) as (c & -> & Hc).
    { unfold slots, log_writes. rewrite <- list_fmap_compose. apply list_elem_of_fmap. exists i. split; [done|]. apply elem_of_seq. lia. }
    cbn. unfold slots, log_writes in Hc. apply list_elem_of_fmap in Hc as (k & Hk & _). injection Hk as Hs ->.
    assert (k = i) as -> by (unfold slot in Hs; lia). done. }
  assert (Hfm : disk_home d' <$> seq 0 (disk_n d') = home l <$> lh_range l).
  { rewrite Hnat. apply list_fmap_ext. intros k i Hi. apply list_elem_of_lookup_2, elem_of_seq in Hi. apply Hh. lia. }
  assert (Hld : log_disk d').
  { split.
    - rewrite Hst. apply length_hdr; (done || lia).
    - rewrite Hst. unfold h. rewrite hdr_count by (done || lia). unfold s32. rewrite Z.mod_small by lia. lia.
    - by rewrite Hfm.
    - intros i Hi. rewrite Hnat in Hi. rewrite Hh by done. apply Hhome, elem_of_seq. lia. }
  split; [done|]. intros x Hx. unfold recovered. rewrite write_all_lookup.
  assert (Hrw : rec_writes d' = homes ++ [(start, put32 h 0 0)]).
  { unfold rec_writes, homes. rewrite Hst, Hnat. f_equal. apply list_fmap_ext. intros k i Hi.
    apply list_elem_of_lookup_2, elem_of_seq in Hi. rewrite Hh, Hslot by lia. done. }
  rewrite Hrw, written_app. cbn [written]. rewrite decide_False by (cbn; intros <-; apply Hx; unfold in_log; lia).
  rewrite <- (homes_view x). destruct (decide (x ∈ homes.*1)) as [Hin|Hin].
  - by destruct (written_Some _ _ Hin) as (c & -> & _).
  - rewrite (written_None homes) by done. cbn [default]. unfold d'.
    rewrite write_all_lookup, !written_app, written_None by (by apply take_not_in). cbn [written].
    rewrite decide_False by (cbn; intros <-; apply Hx; unfold in_log; lia).
    rewrite written_None; [done|]. apply slots_none. by left.
Qed.

(** A crash after the header is cleared. *)
Lemma crash_after : let d' := write_all (commit_writes l cv) d in
  log_disk d' /\ forall x, ~ in_log x -> disk_block (recovered d') x = cv x.
Proof.
  intros d'. assert (Hlh : length h = bsize) by (apply length_hdr; (done || lia)).
  assert (Hst : disk_block d' start = hdr h 0 (lh_block l)).
  { unfold d', commit_writes. rewrite write_all_lookup, !written_app. cbn. by rewrite decide_True. }
  destruct (empty_log d') as [H1 H2].
  - rewrite Hst. apply length_hdr; (done || lia).
  - rewrite Hst. apply hdr_count; (done || lia).
  - split; [done|]. intros x Hx. rewrite H2 by done. unfold d', commit_writes. fold slots homes.
    assert (Hxs : start <> x) by (intros <-; apply Hx; unfold in_log; lia).
    rewrite write_all_lookup, !written_app. cbn [written fst snd]. rewrite !decide_False by done.
    rewrite <- (homes_view x). destruct (written homes x); [done|].
    rewrite written_None; [done|]. apply slots_none. by left.
Qed.

Lemma crash_commit k : let d' := write_all (take k (commit_writes l cv)) d in
  log_disk d' /\ forall x, ~ in_log x ->
    disk_block (recovered d') x = if decide (k <= Z.to_nat (lh_n l))%nat then disk_block d x else cv x.
Proof.
  intros d'. assert (Hls : length slots = Z.to_nat (lh_n l)) by (unfold slots, log_writes, lh_range; by rewrite length_fmap, length_seq).
  assert (Hlh : length homes = Z.to_nat (lh_n l)) by (unfold homes, lh_range; by rewrite length_fmap, length_seq).
  destruct (decide (k <= Z.to_nat (lh_n l))%nat) as [Hk|Hk].
  - unfold d', commit_writes. fold slots. rewrite take_app_le by lia. apply crash_before. f_equal. rewrite length_take. lia.
  - destruct (decide (k <= Z.to_nat (lh_n l) + 1 + Z.to_nat (lh_n l))%nat) as [Hk2|Hk2].
    + assert (Htake : take k (commit_writes l cv) = slots ++ [(start, h)] ++ take (k - S (Z.to_nat (lh_n l))) homes).
      { unfold commit_writes. fold slots homes h. rewrite take_app_ge by lia. rewrite Hls. f_equal.
        replace (k - Z.to_nat (lh_n l))%nat with (S (k - S (Z.to_nat (lh_n l)))) by lia. cbn [app take]. f_equal.
        rewrite take_app_le by lia. done. }
      unfold d'. rewrite Htake. apply crash_during.
    + unfold d'. rewrite take_ge; [apply crash_after|]. unfold commit_writes. fold slots homes.
      rewrite !length_app, Hls, Hlh. cbn. lia.
Qed.

End CommitCrash.

End LogOps.

(** ** log_write *)

Lemma log_find_spec blocks bno : forall n i, let j := log_find blocks i n bno in
  (i <= j <= i + n)%nat /\ (forall k, (i <= k < j)%nat -> u32 (blocks !!! k) <> bno) /\
  ((j < i + n)%nat -> u32 (blocks !!! j) = bno).
Proof.
  induction n as [|n IH]; intros i; cbn [log_find]; cbn zeta; [split; [lia|]; split; [lia|lia]|].
  destruct (Z.eqb_spec (u32 (blocks !!! i)) bno) as [He|Hne].
  - split; [lia|]. split; [lia|done].
  - destruct (IH (S i)) as (H1 & H2 & H3). split; [lia|]. split; [|intros Hlt; apply H3; lia].
    intros k Hk. destruct (decide (k = i)) as [->|Hki]; [done|]. apply H2. lia.
Qed.

(** The header of an open transaction to which [k] blocks can still be added. *)
Record header_ok (l : logst) (k : Z) : Prop := {
  ho_n : 0 <= lh_n l;
  ho_size : lh_n l + k <= 30 /\ lh_n l + k <= log_size l - 1;
  ho_open : 1 <= log_outstanding l;
  ho_len : length (lh_block l) = 30%nat;
  ho_int i : i ∈ lh_range l -> lh_block l !!! i = s32 (home l i);
  ho_nodup : NoDup (home l <$> lh_range l)
}.

Lemma header_le l k k' : k' <= k -> header_ok l k -> header_ok l k'.
Proof. intros Hk [H1 H2 H3 H4 H5 H6]. split; try done. lia. Qed.

(** The header with block [bno] added. *)
Definition header_add (bno : Z) (l : logst) : logst :=
  set_lh_n (lh_n l + 1) (set_lh_block (<[Z.to_nat (lh_n l) := s32 bno]> (lh_block l)) l).

Lemma home_append l bno k : header_ok l (1 + k) -> 0 <= k -> 0 <= bno < 2 ^ 31 ->
  home (header_add bno l) <$> lh_range (header_add bno l) = (home l <$> lh_range l) ++ [bno].
Proof.
  intros [H1 H2 H3 H4 H5 H6] Hk Hb. set (l' := header_add bno l).
  assert (Hlast : home l' (Z.to_nat (lh_n l)) = bno).
  { unfold home, l', header_add. cbn [lh_block set_lh_n set_lh_block]. rewrite list_lookup_total_insert_eq by lia.
    rewrite s32_u32. unfold u32. apply Z.mod_small. lia. }
  unfold lh_range. change (lh_n l') with (lh_n l + 1).
  rewrite Z2Nat.inj_add by lia. rewrite seq_app, fmap_app. cbn [seq Nat.add fmap list_fmap]. f_equal.
  - apply list_fmap_ext. intros j i Hi. apply list_elem_of_lookup_2, elem_of_seq in Hi. unfold home, l', header_add. cbn.
    by rewrite list_lookup_total_insert_ne by lia.
  - change (Z.to_nat 1) with 1%nat. cbn [seq fmap list_fmap]. by rewrite Hlast.
Qed.

Lemma lh_block_same l i x : lh_block l !!! i = x -> (i < length (lh_block l))%nat ->
  set_lh_block (<[i := x]> (lh_block l)) l = l.
Proof.
  intros Hx Hi. assert (He : <[i := x]> (lh_block l) = lh_block l).
  { apply list_insert_id. rewrite <- Hx. by apply list_lookup_lookup_total_lt. }
  rewrite He. by destruct l.
Qed.

Lemma header_append l bno k : header_ok l (1 + k) -> 0 <= k -> 0 <= bno < 2 ^ 31 -> bno ∉ home l <$> lh_range l ->
  header_ok (header_add bno l) k.
Proof.
  intros Hho Hk Hb Hin. pose proof Hho as [H1 H2 H3 H4 H5 H6].
  split; [cbn; lia|cbn; lia|done|cbn; by rewrite length_insert| |].
  - intros i Hi. apply elem_of_seq in Hi. cbn in Hi. unfold home. cbn.
    destruct (decide (i = Z.to_nat (lh_n l))) as [->|Hne].
    + rewrite list_lookup_total_insert_eq by lia. rewrite s32_u32. unfold u32. by rewrite Z.mod_small by lia.
    + rewrite list_lookup_total_insert_ne by lia. apply H5, elem_of_seq. lia.
  - rewrite (home_append l bno k) by done. apply NoDup_app. split; [done|]. split; [|apply NoDup_singleton].
    intros x Hx Hx'. apply list_elem_of_singleton in Hx' as ->. done.
Qed.

(** Where [log_write] puts the block. *)
Lemma log_slot l bno :
  let i := log_find (lh_block l) 0 (Z.to_nat (lh_n l)) bno in
  if decide (bno ∈ home l <$> lh_range l)
  then (i < Z.to_nat (lh_n l))%nat /\ u32 (lh_block l !!! i) = bno else i = Z.to_nat (lh_n l).
Proof.
  destruct (log_find_spec (lh_block l) bno (Z.to_nat (lh_n l)) 0) as (J1 & J2 & J3). cbn zeta in *.
  set (i := log_find _ _ _ _) in *. case_decide as Hin.
  - assert (Hi : (i < Z.to_nat (lh_n l))%nat).
    { apply list_elem_of_fmap in Hin as (j & Hj & Hjr). apply elem_of_seq in Hjr.
      destruct (decide (i < Z.to_nat (lh_n l))%nat) as [|Hge]; [done|]. destruct (J2 j); [lia|]. by rewrite Hj. }
    split; [done|]. apply J3. lia.
  - destruct (decide (i < Z.to_nat (lh_n l))%nat) as [Hlt|]; [|lia]. destruct Hin.
    apply list_elem_of_fmap. exists i. split; [symmetry; apply J3; lia|]. apply elem_of_seq. lia.
Qed.

Lemma thread_fs p pid s s' : fs_only s s' -> thread p pid s -> thread p pid s'.
Proof. intros (l & Hio) Hth. apply (thread_io _ _ _ _ Hio). by apply thread_log. Qed.

Lemma fs_only_fields s s' : fs_only s s' ->
  k_held s' = k_held s /\ k_sb s' = k_sb s /\ k_inodes s' = k_inodes s /\ k_mem s' = k_mem s.
Proof. by intros (l & b & d & t & q & -> & _). Qed.

(** Block [bno] of the transaction is pinned once, whenever it joined. *)
Definition pin (l : logst) (bno : Z) (refs : Z -> Z) : Z -> Z :=
  if decide (bno ∈ home l <$> lh_range l) then refs else <[bno := refs bno + 1]> refs.
Definition record (l : logst) (bno : Z) : logst :=
  if decide (bno ∈ home l <$> lh_range l) then l else header_add bno l.

Lemma log_write_spec dev p pid s cv refs lk b bno k env :
  thread p pid s -> LLog ∉ k_held s -> cache_ok dev s cv refs lk -> caches dev s b bno -> 0 < refs bno ->
  refs bno + 1 < 2 ^ 31 -> header_ok (k_log s) (1 + k) -> 0 <= k -> 0 <= bno < 2 ^ 31 ->
  exists s', log_write b (mkWorld s env) = Ok tt (mkWorld s' env) /\ fs_only s s' /\ k_disk s' = k_disk s /\
    k_log s' = record (k_log s) bno /\ header_ok (k_log s') k /\ cache_ok dev s' cv (pin (k_log s) bno refs) lk /\
    (forall b' x, caches dev s' b' x <-> caches dev s b' x).
Proof.
  intros Hth HL Hok Hc Hr Hmax Hho Hk Hbno. set (l := k_log s) in *. pose proof Hho as [H1 H2 H3 H4 H5 H6].
  set (s1 := set_k_held (LLog :: k_held s) s).
  assert (Hth1 : thread p pid s1).
  { destruct Hth as [T1 T2 T3 T4 T5 T6]. split; try done; intros *; apply not_elem_of_cons; done. }
  assert (Hok1 : cache_ok dev s1 cv refs lk) by (destruct Hok; by split).
  unfold log_write. rewrite (run_bind _ _ _ tt (mkWorld s1 env)) by (by apply (acquire_run LLog (mkWorld s env))).
  rewrite (run_bind _ _ _ l (mkWorld s1 env)) by done.
  rewrite (proj2 (Z.leb_gt LOGSIZE (lh_n l))) by (change LOGSIZE with 30; lia).
  rewrite (proj2 (Z.leb_gt (log_size l - 1) (lh_n l))) by lia. cbn [orb].
  rewrite (proj2 (Z.ltb_ge (log_outstanding l) 1)) by lia.
  rewrite (run_bind _ _ _ (get_buf b s1) (mkWorld s1 env)) by done.
  assert (Hbn : b_blockno (get_buf b s1) = bno) by apply Hc. rewrite Hbn.
  pose proof (log_slot l bno) as Hslot. cbn zeta in Hslot.
  generalize dependent (log_find (lh_block l) 0 (Z.to_nat (lh_n l)) bno). intros i Hslot.
  set (s2 := set_k_log (set_lh_block (<[i := s32 bno]> (lh_block l)) l) s1).
  rewrite (run_bind _ _ _ tt (mkWorld s2 env)) by done. unfold record, pin.
  destruct (decide (bno ∈ home l <$> lh_range l)) as [Hin|Hin].
  - destruct Hslot as [Hi Hu]. rewrite (proj2 (Z.eqb_neq (Z.of_nat i) (lh_n l))) by lia. cbn [when].
    rewrite (run_bind _ _ _ tt (mkWorld s2 env)) by done.
    assert (Hs : set_k_held (k_held s) s2 = s).
    { unfold s2. rewrite lh_block_same; [unfold s1, l; kst_eq| |lia].
      rewrite H5 by (apply elem_of_seq; lia). f_equal. exact Hu. }
    exists s. rewrite (release_run LLog (k_held s)) by done. cbn [w_ks w_env]. rewrite Hs.
    split; [done|]. split; [reflexivity|]. split; [done|]. split; [done|]. split; [by apply (header_le l (1 + k)); [lia|]|done].
  - subst i. rewrite (proj2 (Z.eqb_eq (Z.of_nat _) (lh_n l))) by lia. cbn [when].
    destruct (bpin_spec dev s2 cv refs lk b bno p pid env) as (s3 & Hrun3 & Hok3 & Hc3 & Hio3 & Hd3 & _); try done.
    { by apply thread_log. }
    { by apply cache_log. }
    assert (Hl3 : set_lh_n (lh_n (k_log s3) + 1) (k_log s3) = header_add bno l) by (by rewrite (io_only_log _ _ Hio3)).
    set (s4 := set_k_log (header_add bno l) s3).
    assert (Hh4 : k_held s4 = LLog :: k_held s) by (by destruct Hio3 as (? & ? & ? & ? & -> & _)).
    rewrite (run_bind _ _ _ tt (mkWorld s4 env)).
    2:{ rewrite (run_bind _ _ _ tt _ Hrun3). unfold log_upd, kmodify, modify. cbn [w_ks w_env]. by rewrite Hl3. }
    exists (set_k_held (k_held s) s4). split; [by rewrite (release_run LLog (k_held s))|].
    split; [|split; [exact Hd3|split; [done|split; [by apply header_append|split; [|done]]]]].
    + destruct Hio3 as (bs & dk & t & q & E & Hq). exists (header_add bno l), bs, dk, t, q. split; [|exact Hq].
      unfold s4. rewrite E. unfold s2, s1. kst_eq.
    + assert (Hok4 : cache_ok dev s4 cv (<[bno := refs bno + 1]> refs) lk) by (by apply cache_log).
      destruct Hok4; by split.
Qed.

(** ** Theorems *)

(** A machine that has just booted with disk [d]: nothing cached. *)
Record rebooted (dev : Z) (p : nat) (pid : Z) (d : gmap Z (list Z)) (s : kst) : Prop := {
  rb_thread : thread p pid s;
  rb_cache : cache_ok dev s (disk_block d) (fun _ => 0) ∅;
  rb_disk : k_disk s = d;
  rb_log : length (lh_block (k_log s)) = 30%nat
}.

Lemma initlog_run dev start sb p pid d s env : 0 <= start /\ start + 31 < 2 ^ 31 -> sb_logstart sb = start ->
  rebooted dev p pid d s -> log_disk start d ->
  exists s', initlog dev sb (mkWorld s env) = Ok tt (mkWorld s' env) /\
    k_disk s' = recovered start d /\ k_dtrace s' = reverse (rec_writes start d) ++ k_dtrace s /\
    exists s0 l, settled dev p pid l s0 s' ∅ /\ s0 = set_k_log l s /\ log_dev l = dev /\ log_start l = start /\
      log_size l = s32 (sb_nlog sb) /\ log_outstanding l = log_outstanding (k_log s) /\
      log_committing l = log_committing (k_log s) /\ length (lh_block l) = 30%nat.
Proof.
  intros Hstart Hsb [Hth Hok Hd Hlen] Hld. unfold initlog.
  change (BSIZE <=? 4 + 4 * LOGSIZE) with false. cbn match.
  set (s1 := set_k_log (set_log_start (s32 (sb_logstart sb)) (k_log s)) s).
  set (s2 := set_k_log (set_log_size (s32 (sb_nlog sb)) (k_log s1)) s1).
  set (s3 := set_k_log (set_log_dev dev (k_log s2)) s2).
  rewrite (run_bind _ _ _ tt (mkWorld s1 env)) by done. rewrite (run_bind _ _ _ tt (mkWorld s2 env)) by done.
  rewrite (run_bind _ _ _ tt (mkWorld s3 env)) by done.
  destruct (recover_spec dev start p pid Hstart s3 d ∅ env (k_log s3)) as (s' & Hrun & Hd' & Ht' & Hse).
  - by do 3 apply thread_log.
  - by do 3 apply cache_log.
  - intros x. apply lookup_empty.
  - done.
  - done.
  - split; [done|done|]. cbn. rewrite Hsb. unfold s32. rewrite Z.mod_small by lia. lia.
  - done.
  - exists s'. split; [done|]. split; [done|]. split; [done|]. exists s3, (k_log s3). split; [done|].
    split; [by destruct s|]. split; [done|]. split; [|done]. cbn. rewrite Hsb. unfold s32. rewrite Z.mod_small by lia. lia.
Qed.

(** C1: a transaction is atomic across crashes. [commit] returns, and its disk writes are
    [ws] in order.  Suppose the machine stops after any [k] of them, and then any number of
    times in the middle of recovery, which leaves the disk [d].  Then [initlog] after the
    next boot returns, and every block outside the log is as before the transaction if the
    header had not been written ([k] is at most the number of logged blocks), and is the
    transaction's version otherwise: all of the transaction or nothing. *)
Theorem commit_crash_atomic dev start p pid s cv refs lk l env :
  0 <= start /\ start + 31 < 2 ^ 31 -> thread p pid s -> cache_ok dev s cv refs lk -> room start refs lk 1 ->
  k_log s = l -> transaction dev start l refs lk ->
  length (cv start) = bsize -> get32 (cv start) 0 = 0 ->
  (forall x, cv x <> disk_block (k_disk s) x -> x ∈ home l <$> lh_range l) ->
  exists s' ws, commit (mkWorld s env) = Ok tt (mkWorld s' env) /\
    k_dtrace s' = reverse ws ++ k_dtrace s /\ k_disk s' = write_all ws (k_disk s) /\
  forall k d, rtc (rec_crash start) (write_all (take k ws) (k_disk s)) d ->
  forall p' pid' s1 sb env1, rebooted dev p' pid' d s1 -> sb_logstart sb = start ->
  exists s2, initlog dev sb (mkWorld s1 env1) = Ok tt (mkWorld s2 env1) /\
    k_dtrace s2 = reverse (rec_writes start d) ++ k_dtrace s1 /\
    forall x, ~ in_log start x -> disk_block (k_disk s2) x =
      if decide (k <= Z.to_nat (lh_n l))%nat then disk_block (k_disk s) x else cv x.
Proof.
  intros Hstart Hth Hok Hroom Hlog Htr Hlen Hempty Hdirty.
  destruct (commit_spec dev start p pid Hstart s cv refs lk l env Hth Hok Hroom Hlog Htr Hlen)
    as (s' & cv' & Hrun & Hd & Ht & _).
  exists s', (commit_writes start l cv). split; [done|]. split; [done|]. split; [done|].
  intros k d Hcr p' pid' s1 sb env1 Hrb Hsb. destruct Htr as [Tdev Tstart Tn Tnd Tb].
  assert (Hin : in_log start start) by (unfold in_log; lia).
  destruct (crash_commit start l cv (k_disk s) Tn Tnd) with (k := k) as [Hld Hx]; try done.
  { intros i Hi. rewrite Forall_forall in Tb. by apply Tb. }
  { symmetry. apply (co_clean _ _ _ _ _ Hok), (rm_log _ _ _ _ Hroom start Hin). }
  destruct (rec_crashes start _ d Hcr Hld) as [Hld2 Hx2].
  destruct (initlog_run dev start sb p' pid' d s1 env1 Hstart Hsb Hrb Hld2) as (s2 & Hrun2 & Hd2 & Ht2 & _).
  exists s2. split; [done|]. split; [done|]. intros x Hnx. rewrite Hd2, Hx2, Hx by done. done.
Qed.

(** [log_write] records each block once. It returns; the block is in the header
    afterwards, once, beside the blocks that were there; it is pinned in the cache when it
    was not there before, and when it was (absorption) nothing changes.  No block's
    contents and nothing on the disk change. *)
Theorem log_write_records dev p pid s cv refs lk b bno l env :
  thread p pid s -> LLog ∉ k_held s -> cache_ok dev s cv refs lk -> caches dev s b bno -> 0 < refs bno ->
  refs bno + 1 < 2 ^ 31 -> k_log s = l -> header_ok l 1 -> 0 <= bno < 2 ^ 31 ->
  exists s' l', log_write b (mkWorld s env) = Ok tt (mkWorld s' env) /\ k_log s' = l' /\ k_held s' = k_held s /\
    (if decide (bno ∈ home l <$> lh_range l)
     then l' = l /\ cache_ok dev s' cv refs lk
     else home l' <$> lh_range l' = (home l <$> lh_range l) ++ [bno] /\
          cache_ok dev s' cv (<[bno := refs bno + 1]> refs) lk) /\
    k_disk s' = k_disk s.
Proof.
  intros Hth HL Hok Hc Hr Hmax <- Hho Hbno.
  destruct (log_write_spec dev p pid s cv refs lk b bno 0 env) as (s' & Hrun & Hfs & Hd & Hl & _ & Hok' & _); try done.
  exists s', (k_log s'). split; [done|]. split; [done|]. split; [apply (fs_only_fields _ _ Hfs)|]. split; [|done].
  rewrite Hl. unfold record, pin in *. case_decide; [done|]. split; [by apply (home_append _ _ 0)|done].
Qed.

(** ** Witness: a transaction of one block *)

Definition demo_log : logst := mkLog 2 30 0 1 1 1 (40 :: replicate 29 0).

(** Buffer 0 holds block 40, with new contents, pinned. *)
Definition demo_dirty (x : buf) : buf :=
  mkBuf 1 1 40 (mkSleeplock 0 0) 1 (b_prev x) (b_next x) (replicate bsize 7).
Definition demo_cv : Z -> list Z := <[40 := replicate bsize 7]> (disk_block ∅).
Definition demo_refs : Z -> Z := <[40 := 1]> (fun _ => 0).

Lemma demo_fs_ok : exists s, thread 2 7 s /\ k_log s = demo_log /\ k_disk s = ∅ /\ cache_ok 1 s demo_cv demo_refs ∅.
Proof.
  destruct (demo_cache_ok demo_log) as (s1 & Hth & Hl & Hd & _ & Hok & Hno).
  exists (ubuf 0 demo_dirty s1).
  assert (Hlen : length (k_bufs s1) = S NBUF) by apply Hok.
  assert (Hg : get_buf 0 (ubuf 0 demo_dirty s1) = demo_dirty (get_buf 0 s1)) by (apply get_ubuf; lia).
  split; [apply (thread_io _ _ s1); [apply io_only_ubuf|exact Hth]|].
  split; [exact Hl|]. split; [exact Hd|].
  assert (H0 : b_refcnt (get_buf 0 s1) = 0).
  { apply (co_free _ _ _ _ _ Hok); [unfold NBUF; lia|]. intros Hdev.
    apply (Hno 0%nat (b_blockno (get_buf 0 s1))). split; [unfold NBUF; lia|split; [exact Hdev|reflexivity]]. }
  apply (cache_alter 1 s1 _ 0 40 (disk_block ∅) (fun _ => 0) ∅); rewrite ?Hg; unfold demo_refs, demo_cv;
    rewrite ?fn_lookup_insert.
  - exact Hok.
  - unfold NBUF. lia.
  - apply length_ubuf.
  - intros b Hb. by apply get_ubuf_ne.
  - reflexivity.
  - reflexivity.
  - unfold caches. rewrite Hg. split; [unfold NBUF; lia|]. split; reflexivity.
  - right. split; [exact H0|intros b; apply (Hno b 40)].
  - intros x Hx. rewrite !fn_lookup_insert_ne by congruence. repeat split.
  - reflexivity.
  - lia.
  - reflexivity.
  - reflexivity.
  - lia.
  - reflexivity.
  - intros [q Hq]. rewrite lookup_empty in Hq. discriminate Hq.
Qed.

Lemma demo_transaction : transaction 1 2 demo_log demo_refs ∅ /\ room 2 demo_refs ∅ 1.
Proof.
  split; split.
  - reflexivity.
  - reflexivity.
  - cbn. lia.
  - change (NoDup [40]). apply NoDup_singleton.
  - change (lh_range demo_log) with [0%nat]. apply Forall_singleton. split; [lia|]. split; [change (home demo_log 0) with 40; unfold in_log; lia|].
    split; [apply lookup_empty|]. change (home demo_log 0) with 40. unfold demo_refs. rewrite fn_lookup_insert. lia.
  - intros x Hx. split; [|apply lookup_empty]. unfold demo_refs. rewrite fn_lookup_insert_ne; [done|].
    unfold in_log in Hx. lia.
  - intros x. unfold demo_refs. destruct (decide (40 = x)) as [<-|Hne]; [rewrite fn_lookup_insert|rewrite fn_lookup_insert_ne by done]; lia.
  - exists [40]. split; [|unfold NBUF; cbn; lia]. intros x Hx. unfold demo_refs in Hx.
    destruct (decide (40 = x)) as [<-|Hne]; [left|]. rewrite fn_lookup_insert_ne in Hx by done. lia.
Qed.

(** The block is lost when the machine stops after the first write, and there when it
    stops after the second. *)
Lemma commit_crash_atomic_witness : exists s s' ws,
  commit (mkWorld s []) = Ok tt (mkWorld s' []) /\ k_disk s' = write_all ws (k_disk s) /\
  forall s1 sb, sb_logstart sb = 2 ->
  (rebooted 1 2 7 (write_all (take 1 ws) (k_disk s)) s1 ->
    exists s2, initlog 1 sb (mkWorld s1 []) = Ok tt (mkWorld s2 []) /\ disk_block (k_disk s2) 40 = replicate bsize 0) /\
  (rebooted 1 2 7 (write_all (take 2 ws) (k_disk s)) s1 ->
    exists s2, initlog 1 sb (mkWorld s1 []) = Ok tt (mkWorld s2 []) /\ disk_block (k_disk s2) 40 = replicate bsize 7).
Proof.
  destruct demo_fs_ok as (s & Hth & Hl & Hd & Hok). destruct demo_transaction as [Htr Hroom].
  destruct (commit_crash_atomic 1 2 2 7 s demo_cv demo_refs ∅ demo_log []) as (s' & ws & Hrun & Ht & Hd' & Hcrash).
  - lia.
  - exact Hth.
  - exact Hok.
  - exact Hroom.
  - exact Hl.
  - exact Htr.
  - unfold demo_cv. rewrite fn_lookup_insert_ne by lia. apply length_replicate.
  - unfold demo_cv. rewrite fn_lookup_insert_ne by lia. vm_compute. reflexivity.
  - intros x Hx. change (x ∈ [40]). apply list_elem_of_singleton. destruct (decide (40 = x)) as [<-|Hne]; [reflexivity|].
    destruct Hx. unfold demo_cv. rewrite fn_lookup_insert_ne by done. by rewrite Hd.
  - exists s, s', ws. split; [exact Hrun|]. split; [exact Hd'|]. intros s1 sb Hsb.
    assert (H40 : ~ in_log 2 40) by (unfold in_log; lia). split; intros Hrb.
    + destruct (Hcrash 1%nat _ (rtc_refl _ _) 2%nat 7 s1 sb [] Hrb Hsb) as (s2 & Hrun2 & _ & Hx).
      exists s2. split; [exact Hrun2|]. rewrite (Hx 40 H40), decide_True by (cbn; lia). rewrite Hd. reflexivity.
    + destruct (Hcrash 2%nat _ (rtc_refl _ _) 2%nat 7 s1 sb [] Hrb Hsb) as (s2 & Hrun2 & _ & Hx).
      exists s2. split; [exact Hrun2|]. rewrite (Hx 40 H40), decide_False by (cbn; lia). unfold demo_cv. by rewrite fn_lookup_insert.
Defined.

(** Block 41 joins the transaction. *)
Lemma log_write_records_witness : exists s b s',
  log_write b (mkWorld s []) = Ok tt (mkWorld s' []) /\
  home (k_log s') <$> lh_range (k_log s') = [40; 41].
Proof.
  set (l := set_log_outstanding 1 demo_log).
  destruct (demo_cache_ok l) as (s & Hth & Hl & Hd & Hh & Hok & _).
  assert (Hg : gettable s (fun _ => 0) ∅ 41).
  { split; [apply lookup_empty| |lia]. right.
    apply (free_buffer 1 s (disk_block ∅) (fun _ => 0) ∅ [] Hok); [lia|unfold NBUF; cbn; lia]. }
  destruct (bread_spec 1 s (disk_block ∅) (fun _ => 0) ∅ 41 2 7 [] Hth Hok Hg)
    as (b & s1 & Hrun1 & Hok1 & Hc1 & _ & Hio1 & _).
  destruct (log_write_records 1 2 7 s1 (disk_block ∅) (<[41 := 1]> (fun _ => 0)) (<[41 := 7]> ∅) b 41 l [])
    as (s2 & l' & Hrun2 & Hl2 & _ & Hres & _).
  - exact (thread_io _ _ _ _ Hio1 Hth).
  - rewrite (io_only_held _ _ Hio1), Hh. apply not_elem_of_nil.
  - exact Hok1.
  - exact Hc1.
  - rewrite fn_lookup_insert. lia.
  - rewrite fn_lookup_insert. lia.
  - rewrite (io_only_log _ _ Hio1). exact Hl.
  - split; [cbn; lia|cbn; lia|cbn; lia|reflexivity| |].
    + intros i Hi. change (i ∈ [0%nat]) in Hi. apply list_elem_of_singleton in Hi as ->. reflexivity.
    + change (NoDup [40]). apply NoDup_singleton.
  - lia.
  - exists s1, b, s2. split; [exact Hrun2|]. change (home l <$> lh_range l) with [40] in Hres.
    rewrite decide_False in Hres by (intros Hin; apply list_elem_of_singleton in Hin; discriminate Hin).
    rewrite Hl2. exact (proj1 Hres).
Defined.
