(* ===== verification/Fs.v ===== *)
(** * File system (kernel/fs.c): blocks, inodes, directories, paths *)

From stdpp Require Import base gmap list strings.
From Stdlib Require Import ZArith Lia.
From S2P Require Import Prelude Riscv Memory State Spinlock Sched Kalloc Vm Bio Log.

(** ** On-disk format (fs.h, stat.h) *)

Definition ROOTINO : Z := 1.
Definition FSMAGIC : Z := 0x10203040.
Definition NDIRECT : nat := 12.
Definition NINDIRECT : nat := 256.
Definition MAXFILE : Z := Z.of_nat NDIRECT + Z.of_nat NINDIRECT.
Definition IPB : Z := 16.
Definition IBLOCK (i : Z) (sb : superblock) : Z := u32 (i / IPB + sb_inodestart sb).
Definition BPB : Z := BSIZE * 8.
Definition BBLOCK (b : Z) (sb : superblock) : Z := u32 (b / BPB + sb_bmapstart sb).
Definition DIRSIZ : nat := 14.
Definition DIRENT_SIZE : Z := 16.
Definition T_DIR : Z := 1.
Definition T_FILE : Z := 2.
Definition T_DEVICE : Z := 3.

(** [struct dinode] at byte [off] of a block: type, major, minor, nlink, size and the
    [NDIRECT + 1] block addresses, 64 bytes in all. *)
Definition dinode_off (inum : Z) : nat := Z.to_nat (inum mod IPB * 64).
Definition dinode_type (l : list Z) (off : nat) : Z := s16 (get16 l off).
Definition dinode_load (l : list Z) (off : nat) (ip : inode) : inode :=
  set_i_type (s16 (get16 l off))
 (set_i_major (s16 (get16 l (off + 2)))
 (set_i_minor (s16 (get16 l (off + 4)))
 (set_i_nlink (s16 (get16 l (off + 6)))
 (set_i_size (get32 l (off + 8))
 (set_i_addrs ((fun k => get32 l (off + 12 + 4 * k)%nat) <$> seq 0 13) ip))))).
Definition addrs_bytes (addrs : list Z) : list Z := addrs ≫= le_split 4.
Definition dinode_store (ip : inode) (off : nat) (l : list Z) : list Z :=
  splice (put32 (put16 (put16 (put16 (put16 l off (i_type ip)) (off + 2) (i_major ip))
    (off + 4) (i_minor ip)) (off + 6) (i_nlink ip)) (off + 8) (i_size ip))
    (off + 12) (addrs_bytes (i_addrs ip)).

(** ** Super block *)

Definition superblock_load (l : list Z) : superblock :=
  mkSuperblock (get32 l 0) (get32 l 4) (get32 l 8) (get32 l 12) (get32 l 16) (get32 l 20)
    (get32 l 24) (get32 l 28).

Definition readsb (dev : Z) : K unit :=
  bp ← bread dev 1;
  bf ← buf_of bp;
  kmodify (set_k_sb (superblock_load (b_data bf)));;
  brelse bp.

Definition fsinit (dev : Z) : K unit :=
  readsb dev;;
  sb ← kgets k_sb;
  if negb (sb_magic sb =? FSMAGIC) then panic "invalid file system" else
  initlog dev sb.

(** ** Blocks *)

(** Zero a block. *)
Definition bzero (dev bno : Z) : K unit :=
  bp ← bread dev (u32 bno);
  buf_upd bp (set_b_data (replicate bsize 0));;
  log_write bp;;
  brelse bp.

(** [(bp->data[bi/8] & (1 << (bi % 8))) == 0]: is the block free in the bitmap? *)
Definition bit_mask (bi : Z) : Z := Z.shiftl 1 (bi mod 8).
Definition bit_clear (l : list Z) (bi : Z) : bool :=
  Z.land (l !!! Z.to_nat (bi / 8)) (bit_mask bi) =? 0.

(** Allocate a zeroed disk block. *)
Definition balloc (dev : Z) : K Z :=
  sb ← kgets k_sb;
  r ← for_until (seq 0 (Z.to_nat ((sb_size sb + BPB - 1) / BPB))) (fun n =>
        let b := Z.of_nat n * BPB in
        bp ← bread dev (BBLOCK b sb);
        hit ← for_until (seq 0 (Z.to_nat (Z.min BPB (sb_size sb - b)))) (fun n =>
                let bi := Z.of_nat n in
                bf ← buf_of bp;
                if bit_clear (b_data bf) bi then
                  buf_upd bp (fun x => set_b_data
                    (alter (fun byte => u8 (Z.lor byte (bit_mask bi))) (Z.to_nat (bi / 8)) (b_data x)) x);;
                  log_write bp;;
                  brelse bp;;
                  bzero dev (b + bi);;
                  mret (Some (b + bi))
                else mret None);
        match hit with
        | Some blk => mret (Some blk)
        | None => brelse bp;; mret None
        end);
  match r with
  | Some blk => mret blk
  | None => panic "balloc: out of blocks"
  end.

(** Free a disk block. *)
Definition bfree (dev b : Z) : K unit :=
  sb ← kgets k_sb;
  bp ← bread dev (BBLOCK b sb);
  let bi := b mod BPB in
  bf ← buf_of bp;
  if bit_clear (b_data bf) bi then panic "freeing free block" else
  buf_upd bp (fun x => set_b_data
    (alter (fun byte => Z.land byte (Z.lnot (bit_mask bi))) (Z.to_nat (bi / 8)) (b_data x)) x);;
  log_write bp;;
  brelse bp.

(** ** Inodes *)

Definition get_inode (i : nat) (s : kst) : inode := k_inodes s !!! i.
Definition inode_of (i : nat) : K inode := kgets (get_inode i).
Definition inode_upd (i : nat) (f : inode -> inode) : K unit :=
  kmodify (fun s => set_k_inodes (alter f i (k_inodes s)) s).
Definition inode_slots : list nat := seq 0 NINODE.

Definition iinit : K unit := for_each inode_slots (fun i => initsleeplock (SlInode i)).

(** Find the inode with number inum on device dev and return the in-memory copy.
    [empty] is the first free slot seen so far. *)
Fixpoint iget_scan (slots : list nat) (tbl : list inode) (dev inum : Z) (empty : option nat)
    : nat + option nat :=
  match slots with
  | [] => inr empty
  | i :: slots =>
      let ip := tbl !!! i in
      if (0 <? i_ref ip) && (i_dev ip =? dev) && (i_inum ip =? inum) then inl i
      else iget_scan slots tbl dev inum
             (match empty with
              | Some e => Some e
              | None => if i_ref ip =? 0 then Some i else None
              end)
  end.

Definition iget (dev inum : Z) : K nat :=
  acquire LItable;;
  tbl ← kgets k_inodes;
  match iget_scan inode_slots tbl dev inum None with
  | inl i =>
      inode_upd i (fun x => set_i_ref (i_ref x + 1) x);;
      release LItable;;
      mret i
  | inr None => panic "iget: no inodes"
  | inr (Some i) =>
      inode_upd i (set_i_dev dev);;
      inode_upd i (set_i_inum inum);;
      inode_upd i (set_i_ref 1);;
      inode_upd i (set_i_valid 0);;
      release LItable;;
      mret i
  end.

(** Allocate an inode on device dev. *)
Definition ialloc (dev type : Z) : K nat :=
  sb ← kgets k_sb;
  r ← for_until (seq 1 (Z.to_nat (sb_ninodes sb) - 1)) (fun n =>
        let inum := Z.of_nat n in
        bp ← bread dev (IBLOCK inum sb);
        bf ← buf_of bp;
        let off := dinode_off inum in
        if dinode_type (b_data bf) off =? 0 then
          buf_upd bp (fun x => set_b_data
            (put16 (splice (b_data x) off (replicate 64 0)) off type) x);;
          log_write bp;;
          brelse bp;;
          i ← iget dev inum;
          mret (Some i)
        else
          brelse bp;; mret None);
  match r with
  | Some i => mret i
  | None => panic "ialloc: no inodes"
  end.

(** Copy a modified in-memory inode to disk. *)
Definition iupdate (i : nat) : K unit :=
  ip ← inode_of i;
  sb ← kgets k_sb;
  bp ← bread (i_dev ip) (IBLOCK (i_inum ip) sb);
  buf_upd bp (fun x => set_b_data (dinode_store ip (dinode_off (i_inum ip)) (b_data x)) x);;
  log_write bp;;
  brelse bp.

Definition idup (i : nat) : K nat :=
  acquire LItable;;
  inode_upd i (fun x => set_i_ref (i_ref x + 1) x);;
  release LItable;;
  mret i.

(** Lock the given inode; reads the inode from disk if necessary. *)
Definition ilock (i : nat) : K unit :=
  ip ← inode_of i;
  if i_ref ip <? 1 then panic "ilock" else
  acquiresleep (SlInode i);;
  ip ← inode_of i;
  when (i_valid ip =? 0) (
    sb ← kgets k_sb;
    bp ← bread (i_dev ip) (IBLOCK (i_inum ip) sb);
    bf ← buf_of bp;
    inode_upd i (dinode_load (b_data bf) (dinode_off (i_inum ip)));;
    brelse bp;;
    inode_upd i (set_i_valid 1);;
    ip ← inode_of i;
    if i_type ip =? 0 then panic "ilock: no type" else mret tt).

Definition iunlock (i : nat) : K unit :=
  h ← holdingsleep (SlInode i);
  ip ← inode_of i;
  if negb h || (i_ref ip <? 1) then panic "iunlock" else
  releasesleep (SlInode i).

(** ** Inode content *)

(** Return the disk block address of the nth block in inode ip, allocating it if
    there is none. *)
Definition bmap (i : nat) (bn : Z) : K Z :=
  ip ← inode_of i;
  if bn <? Z.of_nat NDIRECT then
    let addr := i_addrs ip !!! Z.to_nat bn in
    if addr =? 0 then
      addr ← balloc (i_dev ip);
      inode_upd i (fun x => set_i_addrs (<[Z.to_nat bn := addr]> (i_addrs x)) x);;
      mret addr
    else mret addr
  else
    let bn := bn - Z.of_nat NDIRECT in
    if bn <? Z.of_nat NINDIRECT then
      addr ← (let addr := i_addrs ip !!! NDIRECT in
              if addr =? 0 then
                addr ← balloc (i_dev ip);
                inode_upd i (fun x => set_i_addrs (<[NDIRECT := addr]> (i_addrs x)) x);;
                mret addr
              else mret addr);
      bp ← bread (i_dev ip) addr;
      bf ← buf_of bp;
      let addr := get32 (b_data bf) (4 * Z.to_nat bn) in
      addr ← (if addr =? 0 then
                addr ← balloc (i_dev ip);
                buf_upd bp (fun x => set_b_data (put32 (b_data x) (4 * Z.to_nat bn) addr) x);;
                log_write bp;;
                mret addr
              else mret addr);
      brelse bp;;
      mret addr
    else panic "bmap: out of range".

(** Truncate inode (discard contents). *)
Definition itrunc (i : nat) : K unit :=
  for_each (seq 0 NDIRECT) (fun k =>
    ip ← inode_of i;
    let a := i_addrs ip !!! k in
    when (negb (a =? 0)) (
      bfree (i_dev ip) a;;
      inode_upd i (fun x => set_i_addrs (<[k := 0]> (i_addrs x)) x)));;
  ip ← inode_of i;
  let ind := i_addrs ip !!! NDIRECT in
  when (negb (ind =? 0)) (
    bp ← bread (i_dev ip) ind;
    for_each (seq 0 NINDIRECT) (fun j =>
      bf ← buf_of bp;
      let a := get32 (b_data bf) (4 * j) in
      when (negb (a =? 0)) (bfree (i_dev ip) a));;
    brelse bp;;
    bfree (i_dev ip) ind;;
    inode_upd i (fun x => set_i_addrs (<[NDIRECT := 0]> (i_addrs x)) x));;
  inode_upd i (set_i_size 0);;
  iupdate i.

(** Drop a reference to an in-memory inode; free the inode on disk when that was the
    last reference and it has no links. *)
Definition iput (i : nat) : K unit :=
  acquire LItable;;
  ip ← inode_of i;
  when ((i_ref ip =? 1) && negb (i_valid ip =? 0) && (i_nlink ip =? 0)) (
    acquiresleep (SlInode i);;
    release LItable;;
    itrunc i;;
    inode_upd i (set_i_type 0);;
    iupdate i;;
    inode_upd i (set_i_valid 0);;
    releasesleep (SlInode i);;
    acquire LItable);;
  inode_upd i (fun x => set_i_ref (i_ref x - 1) x);;
  release LItable.

Definition iunlockput (i : nat) : K unit := iunlock i;; iput i.

(** [struct stat] (stat.h). *)
Record stat : Type := mkStat {
  st_dev : Z; st_ino : Z; st_type : Z; st_nlink : Z; st_size : Z
}.
Definition stati (ip : inode) : stat :=
  mkStat (i_dev ip) (i_inum ip) (i_type ip) (i_nlink ip) (i_size ip).

(** The destination of [either_copyout] and the source of [either_copyin] (proc.c): a
    user virtual address of the current process, RAM at a kernel address, or a
    kernel variable, given by its bytes. *)
Inductive cdst := DUser (va : Z) | DKern (pa : Z) | DLocal.
Inductive csrc := SUser (va : Z) | SLocal (l : list Z).

Section Fs.
Context {KS : KSyms}.

(** For [DLocal] the bytes themselves are the result: the caller stores them. *)
Definition either_copyout (d : cdst) (src : list Z) : K Z :=
  match d with
  | DUser va => p ← curproc; pr ← proc_of p; copyout (p_pagetable pr) va src
  | DKern pa => memM (fun m => st_bytes m pa src);; mret 0
  | DLocal => mret 0
  end.

Definition either_copyin (sr : csrc) (len : nat) : K (Z * list Z) :=
  match sr with
  | SUser va => p ← curproc; pr ← proc_of p; copyin (p_pagetable pr) va len
  | SLocal l => mret (0, take len l)
  end.

Definition cdst_add (d : cdst) (m : Z) : cdst :=
  match d with
  | DUser va => DUser (u64 (va + m))
  | DKern pa => DKern (u64 (pa + m))
  | DLocal => DLocal
  end.
Definition csrc_add (s : csrc) (m : Z) : csrc :=
  match s with
  | SUser va => SUser (u64 (va + m))
  | SLocal l => SLocal (drop (Z.to_nat m) l)
  end.

(** The loop of [readi]; each iteration moves [m >= 1] bytes, so [n - tot] is enough
    fuel.  Returns the count ([-1] on a copy error) and the bytes read. *)
Fixpoint readi_loop (fuel : nat) (i : nat) (d : cdst) (off n tot : Z) : K (Z * list Z) :=
  if n <=? tot then mret (tot, []) else
  match fuel with
  | O => block
  | S fuel =>
      ip ← inode_of i;
      bno ← bmap i (off / BSIZE);
      bp ← bread (i_dev ip) bno;
      let m := Z.min (n - tot) (BSIZE - off mod BSIZE) in
      bf ← buf_of bp;
      let bs := take (Z.to_nat m) (drop (Z.to_nat (off mod BSIZE)) (b_data bf)) in
      r ← either_copyout d bs;
      brelse bp;;
      if r =? -1 then mret (-1, [])
      else
        r ← readi_loop fuel i (cdst_add d m) (off + m) n (tot + m);
        mret (r.1, bs ++ r.2)
  end.

(** Read data from inode: the number of bytes, and the bytes. *)
Definition readi (i : nat) (d : cdst) (off n : Z) : K (Z * list Z) :=
  ip ← inode_of i;
  if (i_size ip <? off) || (u32 (off + n) <? off) then mret (0, []) else
  let n := if i_size ip <? u32 (off + n) then i_size ip - off else n in
  readi_loop (Z.to_nat n) i d off n 0.

(** The loop of [writei]: the final [off] and [tot]. *)
Fixpoint writei_loop (fuel : nat) (i : nat) (sr : csrc) (off n tot : Z) : K (Z * Z) :=
  if n <=? tot then mret (off, tot) else
  match fuel with
  | O => block
  | S fuel =>
      ip ← inode_of i;
      bno ← bmap i (off / BSIZE);
      bp ← bread (i_dev ip) bno;
      let m := Z.min (n - tot) (BSIZE - off mod BSIZE) in
      r ← either_copyin sr (Z.to_nat m);
      buf_upd bp (fun x => set_b_data (splice (b_data x) (Z.to_nat (off mod BSIZE)) r.2) x);;
      if r.1 =? -1 then brelse bp;; mret (off, tot)
      else
        log_write bp;;
        brelse bp;;
        writei_loop fuel i (csrc_add sr m) (off + m) n (tot + m)
  end.

(** Write data to inode: the number of bytes written, or -1. *)
Definition writei (i : nat) (sr : csrc) (off n : Z) : K Z :=
  ip ← inode_of i;
  if (i_size ip <? off) || (u32 (off + n) <? off) then mret (-1) else
  if MAXFILE * BSIZE <? u32 (off + n) then mret (-1) else
  r ← writei_loop (Z.to_nat n) i sr off n 0;
  inode_upd i (fun x => if i_size x <? r.1 then set_i_size r.1 x else x);;
  iupdate i;;
  mret r.2.

(** ** Directories *)

Definition namecmp (s t : list Z) : Z := strncmp (str_of_list s) (str_of_list t) DIRSIZ.

(** [struct dirent]: the inode number and the name. *)
Definition dirent_inum (de : list Z) : Z := get16 de 0.
Definition dirent_name (de : list Z) : list Z := drop 2 de.

(** The number of iterations of [for(off = start; off < size; off += sizeof(de))]. *)
Definition dirent_iters (start size : Z) : nat :=
  Z.to_nat ((size - start + DIRENT_SIZE - 1) / DIRENT_SIZE).

(** Look for a directory entry: the inode and the entry's offset. *)
Definition dirlookup (dp : nat) (name : list Z) : K (option (nat * Z)) :=
  d ← inode_of dp;
  if negb (i_type d =? T_DIR) then panic "dirlookup not DIR" else
  for_until (seq 0 (dirent_iters 0 (i_size d))) (fun k =>
    let off := Z.of_nat k * DIRENT_SIZE in
    r ← readi dp DLocal off DIRENT_SIZE;
    if negb (r.1 =? DIRENT_SIZE) then panic "dirlookup read" else
    let de := r.2 in
    if dirent_inum de =? 0 then mret None
    else if namecmp name (dirent_name de) =? 0 then
      ip ← iget (i_dev d) (dirent_inum de);
      mret (Some (ip, off))
    else mret None).

(** Write a new directory entry (name, inum) into the directory dp. *)
Definition dirlink (dp : nat) (name : list Z) (inum : Z) : K Z :=
  r ← dirlookup dp name;
  match r with
  | Some (ip, _) => iput ip;; mret (-1)
  | None =>
      d ← inode_of dp;
      hit ← for_until (seq 0 (dirent_iters 0 (i_size d))) (fun k =>
              let off := Z.of_nat k * DIRENT_SIZE in
              r ← readi dp DLocal off DIRENT_SIZE;
              if negb (r.1 =? DIRENT_SIZE) then panic "dirlink read" else
              if dirent_inum r.2 =? 0 then mret (Some off) else mret None);
      let off := default (Z.of_nat (dirent_iters 0 (i_size d)) * DIRENT_SIZE) hit in
      let de := le_split 2 inum ++ strncpy (str_of_list name) DIRSIZ in
      n ← writei dp (SLocal de) off DIRENT_SIZE;
      if negb (n =? DIRENT_SIZE) then panic "dirlink" else mret 0
  end.

(** ** Paths

    A path is the list of its bytes up to the NUL. *)

Definition SLASH : Z := 47.

(** Step over the slashes at the front of a path. *)
Fixpoint skip_slashes (path : list Z) : list Z :=
  match path with
  | c :: rest => if c =? SLASH then skip_slashes rest else path
  | [] => []
  end.

(** The path element at the front, up to a slash or the end, and what follows it. *)
Fixpoint take_elem (path : list Z) : list Z * list Z :=
  match path with
  | c :: rest =>
      if c =? SLASH then ([], path)
      else let '(e, r) := take_elem rest in (c :: e, r)
  | [] => ([], [])
  end.

(** Copy the next path element from path into the [DIRSIZ]-byte buffer [name]. *)
Definition skipelem (path name : list Z) : option (list Z * list Z) :=
  let path := skip_slashes path in
  match path with
  | [] => None
  | _ =>
      let '(s, rest) := take_elem path in
      let name :=
        if (DIRSIZ <=? length s)%nat then splice name 0 (take DIRSIZ s)
        else splice name 0 (s ++ [0]) in
      Some (skip_slashes rest, name)
  end.

(** Look up and return the inode for a path name; each iteration of the loop takes
    an element off the path, so the path's length bounds it. *)
Fixpoint namex_loop (fuel : nat) (ip : nat) (path name : list Z) (nameiparent : bool)
    : K (option nat * list Z) :=
  match skipelem path name with
  | None =>
      if nameiparent then iput ip;; mret (None, name)
      else mret (Some ip, name)
  | Some (path, name) =>
      match fuel with
      | O => block
      | S fuel =>
          ilock ip;;
          d ← inode_of ip;
          if negb (i_type d =? T_DIR) then iunlockput ip;; mret (None, name) else
          if nameiparent && bool_decide (path = []) then iunlock ip;; mret (Some ip, name) else
          next ← dirlookup ip name;
          match next with
          | None => iunlockput ip;; mret (None, name)
          | Some (next, _) =>
              iunlockput ip;; namex_loop fuel next path name nameiparent
          end
      end
  end.

Definition namex (path : list Z) (nameiparent : bool) (name : list Z) : K (option nat * list Z) :=
  ip ← (match path with
        | c :: _ =>
            if c =? SLASH then iget ROOTDEV ROOTINO
            else p ← curproc; pr ← proc_of p;
                 match p_cwd pr with Some d => idup d | None => panic "kerneltrap" end
        | [] => p ← curproc; pr ← proc_of p;
                match p_cwd pr with Some d => idup d | None => panic "kerneltrap" end
        end);
  namex_loop (length path) ip path name nameiparent.

Definition namei (path : list Z) : K (option nat) :=
  r ← namex path false (replicate DIRSIZ 0); mret r.1.

(** The parent's inode and the final path element. *)
Definition nameiparent (path : list Z) : K (option nat * list Z) :=
  namex path true (replicate DIRSIZ 0).

End Fs.
