(* ===== verification/Inode.v ===== *)
(** * Reading files (about Fs.v)

    What [bmap] and [readi] do on the view of the disk of Cache.v: [file_byte] gives the
    bytes of the file of an inode through its direct and indirect blocks, and [readi]
    moves them to user memory, to kernel memory or into a kernel variable. *)

From stdpp Require Import base functions gmap list strings.
From Stdlib Require Import ZArith Lia.
From S2P Require Import Prelude Riscv Memory State Spinlock Sched Kalloc Vm PageTable UserMem Demo Bio Cache Log Recovery Fs.

#[local] Set Warnings "-clear-no-such-hyp".

(** ** Destinations *)

(** The state [s] with the memory of [s']. *)
Definition with_mem (s' s : kst) : kst := set_k_freelist (k_freelist s') (set_k_mem (k_mem s') s).

Section Reading.
Context {KS : KSyms} (Hks : ksyms_ok KS) `{PA : !PageAllocator kalloc kfree}.
Context (own : gmap Z owner) (fl : list Z) (r : Z) (Hroot : is_root own r).

(** The bytes [bs] have gone to [d]. *)
Definition sent (d : cdst) (bs : list Z) (s s' : kst) : Prop :=
  match d with
  | DUser va => stored own fl r va bs s (with_mem s' s)
  | DKern pa => k_mem s' = st_bytes (k_mem s) pa bs /\ k_freelist s' = k_freelist s
  | DLocal => k_mem s' = k_mem s /\ k_freelist s' = k_freelist s
  end.

(** [n] bytes can be sent to [d], as far as the kernel is concerned. *)
Definition can_send (d : cdst) (n : Z) (s : kst) : Prop :=
  match d with
  | DUser va => 0 <= va /\ va + n < 2 ^ 64 /\ vm_ok s own fl
  | DKern pa => 0 <= pa /\ pa + n < 2 ^ 64
  | DLocal => True
  end.

(** User code has no access to byte [k] of the destination. *)
Definition faults (d : cdst) (k : nat) (s : kst) : Prop :=
  match d with DUser va => translate (k_mem s) r (va + Z.of_nat k) = None | _ => False end.

Lemma st_bytes_app m a l1 l2 : st_bytes m a (l1 ++ l2) = st_bytes (st_bytes m a l1) (a + Z.of_nat (length l1)) l2.
Proof.
  revert m a. induction l1 as [|b l1 IH]; intros m a.
  - cbn [app length]. by rewrite Z.add_0_r.
  - change (st_bytes (st8 m a b) (a + 1) (l1 ++ l2) =
      st_bytes (st_bytes (st8 m a b) (a + 1) l1) (a + Z.of_nat (length (b :: l1))) l2).
    rewrite IH. f_equal. cbn [length]. lia.
Qed.

(** Only the memory matters. *)
Lemma stored_frame va bs s1 s2 t1 t2 :
  stored own fl r va bs s1 s2 -> k_mem t1 = k_mem s1 -> k_mem t2 = k_mem s2 -> k_freelist t2 = k_freelist s2 ->
  LKmem ∉ k_held t2 -> mem_only t1 t2 -> stored own fl r va bs t1 t2.
Proof.
  intros H E1 E2 E3 Hl Hm. split; [|done| | |].
  - by apply (vm_ok_frame s2); [..|apply H].
  - intros r' va' l pt. rewrite E1, E2. apply (sd_pte H).
  - rewrite E1, E2. apply H.
  - rewrite E1, E2. apply H.
Qed.

Lemma mem_only_with s s' : mem_only s (with_mem s' s).
Proof. by exists (k_freelist s'), (k_mem s'). Qed.

Lemma sent_same d s s1 s2 bs :
  k_mem s2 = k_mem s1 -> k_freelist s2 = k_freelist s1 -> sent d bs s s1 -> sent d bs s s2.
Proof.
  intros E1 E2. destruct d; cbn; unfold with_mem; rewrite E1, E2; done.
Qed.

Lemma sent_refl d s n : can_send d n s -> sent d [] s s.
Proof.
  destruct d; cbn; [|done..]. intros (_ & _ & Hok). replace (with_mem s s) with s by (unfold with_mem; kst_eq).
  by apply stored_refl.
Qed.

Lemma cdst_add_eq d n m s : 0 <= n -> 0 <= m -> can_send d (n + m) s ->
  cdst_add d n = match d with DUser va => DUser (va + n) | DKern pa => DKern (pa + n) | DLocal => DLocal end.
Proof.
  intros Hn Hm Hd. destruct d; cbn in *; [..|done]; unfold u64; rewrite Z.mod_small; done || lia.
Qed.

Lemma can_send_add d n m s s' : 0 <= n -> 0 <= m -> can_send d (n + m) s ->
  match d with DUser _ => vm_ok s' own fl | _ => True end -> can_send (cdst_add d n) m s'.
Proof.
  intros Hn Hm Hd Hok. rewrite (cdst_add_eq d n m s) by done. destruct d; cbn in *; [..|done]; (split; [lia|]).
  - split; [lia|done].
  - lia.
Qed.

Lemma sent_trans d bs1 bs2 n s s1 s2 :
  Z.of_nat (length bs1) = n -> can_send d (n + Z.of_nat (length bs2)) s -> LKmem ∉ k_held s ->
  sent d bs1 s s1 -> sent (cdst_add d n) bs2 s1 s2 -> sent d (bs1 ++ bs2) s s2.
Proof.
  intros <- Hd Hl H1. rewrite (cdst_add_eq d _ (Z.of_nat (length bs2)) s) by (done || lia).
  destruct d as [va|pa|]; cbn in *.
  - intros H2. eapply stored_trans; [exact H1|]. apply (stored_frame _ _ _ _ _ _ H2); try done.
    by exists (k_freelist s2), (k_mem s2).
  - intros [-> ->]. destruct H1 as [-> ->]. by rewrite st_bytes_app.
  - intros [-> ->]. done.
Qed.

Lemma sent_fault d bs n k s s1 :
  Z.of_nat (length bs) = n -> can_send d (n + Z.of_nat k) s -> sent d bs s s1 ->
  faults (cdst_add d n) k s1 -> faults d (length bs + k) s.
Proof.
  intros <- Hd H1. rewrite (cdst_add_eq d _ (Z.of_nat k) s) by (done || lia).
  destruct d as [va|pa|]; cbn in *; [|done..]. intros H2.
  rewrite Nat2Z.inj_add, Z.add_assoc. rewrite <- H2. symmetry.
  apply (same_pte_translate s own (with_mem s1 s)); [apply H1|done|lia].
Qed.

(** ** The state of a thread that reads files *)

Context (dev : Z) (p : nat) (pid : Z).

(** The thread [p] is in the kernel, and the cache and the page tables are in order. *)
Record reader (s : kst) (cv : Z -> list Z) (refs : Z -> Z) (lk : gmap Z Z) : Prop := {
  rd_thread : thread p pid s;
  rd_cache : cache_ok dev s cv refs lk;
  rd_pt : p_pagetable (get_proc p s) = r;
  rd_kmem : LKmem ∉ k_held s
}.

Lemma cache_same_bufs s s' cv refs lk :
  k_bufs s' = k_bufs s -> k_disk s' = k_disk s -> cache_ok dev s cv refs lk -> cache_ok dev s' cv refs lk.
Proof.
  intros E1 E2 [H1 H2 H3 H4 H5 H6 H7 H8 H9 H10 H11].
  assert (Hg : forall b, get_buf b s' = get_buf b s) by (intros b; unfold get_buf; by rewrite E1).
  assert (Hc : forall b x, caches dev s' b x <-> caches dev s b x) by (intros b x; unfold caches; by rewrite Hg).
  split; try setoid_rewrite Hc; try setoid_rewrite Hg; rewrite ?E1; try done.
  intros x Hx. rewrite E2. by apply H9.
Qed.

Lemma reader_io s s' cv refs lk cv' refs' lk' :
  io_only s s' -> cache_ok dev s' cv' refs' lk' -> reader s cv refs lk -> reader s' cv' refs' lk'.
Proof.
  intros Hio Hok [H1 H2 H3 H4]. split; [by apply (thread_io _ _ s)|done| |].
  - destruct Hio as (bs & dk & t & l & -> & _ & Hp). change (p_pagetable (l !!! p) = r).
    destruct (Hp p) as [st ->]. by destruct (get_proc p s).
  - by rewrite (io_only_held _ _ Hio).
Qed.

Lemma reader_mem s s' cv refs lk : mem_only s s' -> reader s cv refs lk -> reader s' cv refs lk.
Proof.
  intros (h & m & ->) [[H1 H2 H3 H4 H5 H6] H7 H8 H9]. split; [by split| |done..].
  by apply (cache_same_bufs s).
Qed.

(** [either_copyout] sends the bytes, or stops at the first page that is not the user's. *)
Lemma either_copyout_run d bs s cv refs lk env :
  reader s cv refs lk -> can_send d (Z.of_nat (length bs)) s ->
  exists e k s', either_copyout d bs (mkWorld s env) = Ok e (mkWorld s' env) /\ mem_only s s' /\
    match d with DUser _ => vm_ok s' own fl | _ => True end /\
    sent d (take k bs) s s' /\
    ((e = 0 /\ k = length bs) \/ (e = -1 /\ (k < length bs)%nat /\ faults d k s)).
Proof.
  intros Hrd Hd. destruct d as [va|pa|].
  - destruct Hd as (H1 & H2 & Hok).
    destruct (copyout_fuel_spec Hks r own fl env (length bs) va bs s) as (e & k & s' & Hrun & Hst & He); [lia|done..|].
    exists e, k, s'. split.
    { unfold either_copyout. rewrite (run_bind _ _ _ p (mkWorld s env)).
      2:{ unfold curproc. rewrite (run_bind _ _ _ (Some p) (mkWorld s env)); [done|].
          unfold myproc, kgets, gets. cbn [w_ks]. by rewrite (th_cur _ _ _ (rd_thread _ _ _ _ Hrd)). }
      rewrite (run_bind _ _ _ (get_proc p s) (mkWorld s env)) by done. rewrite (rd_pt _ _ _ _ Hrd). exact Hrun. }
    split; [apply Hst|]. split; [apply Hst|]. split; [|done].
    cbn. destruct (sd_mem Hst) as (h & m & ->). exact Hst.
  - exists 0, (length bs), (set_k_mem (st_bytes (k_mem s) pa bs) s). split; [done|].
    split; [exists (k_freelist s), (st_bytes (k_mem s) pa bs); kst_eq|]. split; [done|].
    split; [|by left]. by rewrite firstn_all.
  - exists 0, (length bs), s. split; [done|]. split; [apply mem_only_refl|]. split; [done|]. split; [done|by left].
Qed.

(** ** Files *)

(** Block [bn] of the file, and the byte at offset [o]. *)
Definition file_block (cv : Z -> list Z) (ip : inode) (bn : Z) : Z :=
  if bn <? Z.of_nat NDIRECT then i_addrs ip !!! Z.to_nat bn
  else get32 (cv (i_addrs ip !!! NDIRECT)) (4 * Z.to_nat (bn - Z.of_nat NDIRECT)).
Definition file_byte (cv : Z -> list Z) (ip : inode) (o : Z) : Z :=
  cv (file_block cv ip (o / BSIZE)) !!! Z.to_nat (o mod BSIZE).
Definition file_data (cv : Z -> list Z) (ip : inode) (off : Z) (n : nat) : list Z :=
  (fun j => file_byte cv ip (off + Z.of_nat j)) <$> seq 0 n.

(** A block that is there, not locked, and not referenced too often. *)
Definition idle (refs : Z -> Z) (lk : gmap Z Z) (x : Z) : Prop := x <> 0 /\ lk !! x = None /\ refs x + 1 < 2 ^ 31.

(** All the blocks of the file of [ip], up to its size, are allocated and idle, and the
    cache has a buffer to spare. *)
Record file_ok (cv : Z -> list Z) (refs : Z -> Z) (lk : gmap Z Z) (ip : inode) : Prop := {
  fo_dev : i_dev ip = dev;
  fo_size : 0 <= i_size ip <= MAXFILE * BSIZE;
  fo_block bn : 0 <= bn -> bn * BSIZE < i_size ip ->
    idle refs lk (file_block cv ip bn) /\ length (cv (file_block cv ip bn)) = bsize;
  fo_indirect : Z.of_nat NDIRECT * BSIZE < i_size ip -> idle refs lk (i_addrs ip !!! NDIRECT);
  fo_spare : exists busy, (forall x, 0 < refs x -> x ∈ busy) /\ (length busy < NBUF)%nat
}.

Section File.
Context (cv : Z -> list Z) (refs : Z -> Z) (lk : gmap Z Z) (i : nat) (ip : inode) (Hfile : file_ok cv refs lk ip).

Lemma idle_get s x : cache_ok dev s cv refs lk -> idle refs lk x -> gettable s refs lk x.
Proof.
  intros Hok (_ & H1 & H2). destruct (fo_spare _ _ _ _ Hfile) as (busy & Hb & Hl). split; [done| |done].
  right. by apply (free_buffer dev s cv refs lk busy).
Qed.

(** Taking a block, and giving it back. *)
Lemma take_block s x env : reader s cv refs lk -> idle refs lk x ->
  exists b s', bread dev x (mkWorld s env) = Ok b (mkWorld s' env) /\ io_only s s' /\ k_disk s' = k_disk s /\
    b_data (get_buf b s') = cv x /\ caches dev s' b x /\
    reader s' cv (<[x := refs x + 1]> refs) (<[x := pid]> lk).
Proof.
  intros Hrd Hx. pose proof (rd_cache _ _ _ _ Hrd) as Hok. pose proof (co_range _ _ _ _ _ Hok x) as Hr.
  destruct (bread_spec dev s cv refs lk x p pid env (rd_thread _ _ _ _ Hrd) Hok (idle_get s x Hok Hx))
    as (b & s' & Hrun & Hok' & Hc & _ & Hio & Hd & _).
  exists b, s'. split; [done|]. split; [done|]. split; [done|].
  destruct (caches_valid dev s' _ _ _ b x Hok' Hc) as [_ Hdata]; [rewrite fn_lookup_insert; lia|].
  split; [done|]. split; [done|]. by apply (reader_io s s' cv refs lk).
Qed.

Lemma give_block s b x env :
  reader s cv (<[x := refs x + 1]> refs) (<[x := pid]> lk) -> caches dev s b x -> idle refs lk x ->
  (refs x = 0 -> cv x = disk_block (k_disk s) x) -> 0 <= refs x ->
  exists s', brelse b (mkWorld s env) = Ok tt (mkWorld s' env) /\ io_only s s' /\ k_disk s' = k_disk s /\
    reader s' cv refs lk.
Proof.
  intros Hrd Hc (_ & Hlk & _) Hclean Hr.
  destruct (brelse_spec dev s cv _ _ b x p pid env (rd_thread _ _ _ _ Hrd) (rd_cache _ _ _ _ Hrd) Hc)
    as (s' & Hrun & Hok & _ & Hio & Hd & _).
  - apply lookup_insert_eq.
  - rewrite fn_lookup_insert. destruct (decide (refs x = 0)); [right; auto|left; lia].
  - exists s'. split; [done|]. split; [done|]. split; [done|]. eapply reader_io; [exact Hio| |exact Hrd].
    eapply cache_back; [exact Hok|done|apply fn_back].
Qed.

Lemma rd_clean s x : reader s cv refs lk -> (refs x = 0 -> cv x = disk_block (k_disk s) x) /\ 0 <= refs x.
Proof. intros [_ Hok _ _]. split; [apply (co_clean _ _ _ _ _ Hok)|apply (co_range _ _ _ _ _ Hok)]. Qed.

(** [bmap] finds the block, through the indirect block where there is one. *)
Lemma bmap_run bn s env : reader s cv refs lk -> get_inode i s = ip -> 0 <= bn -> bn * BSIZE < i_size ip ->
  exists s', bmap i bn (mkWorld s env) = Ok (file_block cv ip bn) (mkWorld s' env) /\ io_only s s' /\
    k_disk s' = k_disk s /\ reader s' cv refs lk.
Proof.
  intros Hrd Hi H0 Hbn. destruct (fo_block _ _ _ _ Hfile bn H0 Hbn) as [[Hnz _] _]. apply Z.eqb_neq in Hnz.
  unfold bmap. rewrite (run_bind _ _ _ ip (mkWorld s env)) by (by rewrite <- Hi).
  unfold file_block in Hnz |- *. destruct (Z.ltb_spec bn (Z.of_nat NDIRECT)) as [Hlt|Hge].
  { rewrite Hnz. exists s. split; [done|]. split; [apply io_only_refl|done]. }
  pose proof (fo_size _ _ _ _ Hfile) as Hsz. change (MAXFILE * BSIZE) with 274432 in Hsz. change BSIZE with 1024 in *.
  rewrite (proj2 (Z.ltb_lt (bn - Z.of_nat NDIRECT) (Z.of_nat NINDIRECT)))
    by (change (Z.of_nat NDIRECT) with 12; change (Z.of_nat NINDIRECT) with 256; lia).
  assert (Hind : idle refs lk (i_addrs ip !!! NDIRECT)) by (apply (fo_indirect _ _ _ _ Hfile); change BSIZE with 1024; lia).
  set (a := i_addrs ip !!! NDIRECT) in *.
  assert (Ha : (a =? 0) = false) by (apply Z.eqb_neq, Hind). rewrite Ha.
  rewrite (run_bind _ _ _ a (mkWorld s env)) by done. rewrite (fo_dev _ _ _ _ Hfile).
  destruct (take_block s a env Hrd Hind) as (b & s1 & Hrun1 & Hio1 & Hd1 & Hdata & Hc & Hrd1).
  rewrite (run_bind _ _ _ _ _ Hrun1).
  rewrite (run_bind _ _ _ (get_buf b s1) (mkWorld s1 env)) by done. rewrite Hdata, Hnz.
  rewrite (run_bind _ _ _ (get32 (cv a) (4 * Z.to_nat (bn - Z.of_nat NDIRECT))) (mkWorld s1 env)) by done.
  destruct (rd_clean s a Hrd) as [Hcl Hr]. rewrite <- Hd1 in Hcl.
  destruct (give_block s1 b a env Hrd1 Hc Hind Hcl Hr) as (s2 & Hrun2 & Hio2 & Hd2 & Hrd2).
  rewrite (run_bind _ _ _ _ _ Hrun2). exists s2. split; [done|]. split; [by etrans|]. split; [congruence|done].
Qed.

Lemma length_file_data off n : length (file_data cv ip off n) = n.
Proof. unfold file_data. by rewrite length_fmap, length_seq. Qed.

Lemma file_data_app off n1 n2 :
  file_data cv ip off (n1 + n2) = file_data cv ip off n1 ++ file_data cv ip (off + Z.of_nat n1) n2.
Proof.
  unfold file_data. rewrite seq_app, fmap_app. f_equal. apply list_eq. intros j.
  rewrite !list_lookup_fmap. destruct (decide (j < n2)%nat).
  - rewrite !lookup_seq_lt by done. cbn. f_equal. f_equal. lia.
  - by rewrite !lookup_seq_ge by lia.
Qed.

(** What one turn of the loop takes from a block. *)
Lemma block_data off m : 0 <= off -> 0 <= m <= BSIZE - off mod BSIZE ->
  length (cv (file_block cv ip (off / BSIZE))) = bsize ->
  take (Z.to_nat m) (drop (Z.to_nat (off mod BSIZE)) (cv (file_block cv ip (off / BSIZE)))) =
  file_data cv ip off (Z.to_nat m).
Proof.
  intros Ho Hm Hl. set (blk := cv _) in *. change bsize with 1024%nat in Hl. change BSIZE with 1024 in *.
  pose proof (Z.mod_pos_bound off 1024 ltac:(lia)) as Hmod.
  apply list_eq. intros j. unfold file_data. rewrite list_lookup_fmap. destruct (decide (j < Z.to_nat m)%nat) as [Hj|Hj].
  - rewrite lookup_take_lt, lookup_drop by done. rewrite lookup_seq_lt by done. cbn [fmap option_fmap option_map].
    unfold file_byte. change BSIZE with 1024.
    assert (Hq : (off + Z.of_nat (0 + j)) / 1024 = off / 1024 /\
                 (off + Z.of_nat (0 + j)) mod 1024 = off mod 1024 + Z.of_nat j).
    { pose proof (Z.div_mod off 1024 ltac:(lia)) as Hdm.
      split; [symmetry; apply (Z.div_unique _ _ _ (off mod 1024 + Z.of_nat j))|symmetry; apply (Z.mod_unique _ _ (off / 1024))]; lia. }
    destruct Hq as [-> ->]. fold blk.
    destruct (lookup_lt_is_Some_2 blk (Z.to_nat (off mod 1024) + j)) as [c Hc]; [lia|]. rewrite Hc.
    replace (Z.to_nat (off mod 1024 + Z.of_nat j)) with (Z.to_nat (off mod 1024) + j)%nat by lia.
    by rewrite (list_lookup_total_correct _ _ _ Hc).
  - rewrite lookup_take_ge by lia. by rewrite lookup_seq_ge by lia.
Qed.

Lemma get_inode_io s s' : io_only s s' -> get_inode i s' = get_inode i s.
Proof. by intros (bs & dk & t & l & -> & _). Qed.

Lemma io_only_mem s s' : io_only s s' -> k_mem s' = k_mem s /\ k_freelist s' = k_freelist s.
Proof. by intros (bs & dk & t & l & -> & _). Qed.

Lemma can_send_io d n s s' : io_only s s' -> LKmem ∉ k_held s -> can_send d n s -> can_send d n s'.
Proof.
  intros Hio Hl Hd. destruct (io_only_mem _ _ Hio) as [E1 E2]. destruct d; cbn in *; [|done..].
  destruct Hd as (H1 & H2 & H3). split; [done|]. split; [done|]. apply (vm_ok_frame s); try done.
  by rewrite (io_only_held _ _ Hio).
Qed.

Lemma can_send_le d n m s : m <= n -> can_send d n s -> can_send d m s.
Proof. intros Hm. destruct d; cbn; intros; [|lia|done]. split; [lia|]. split; [lia|tauto]. Qed.

Lemma sent_from d s0 s s' bs :
  k_mem s0 = k_mem s -> k_freelist s0 = k_freelist s -> LKmem ∉ k_held s -> sent d bs s0 s' -> sent d bs s s'.
Proof.
  intros E1 E2 Hl. destruct d; cbn; [|by rewrite E1, E2..].
  intros H. apply (stored_frame _ _ _ _ _ _ H); try done. apply mem_only_with.
Qed.

(** The body of the loop of [readi], up to the test of the result of the copy. *)
Lemma readi_turn {A} d off m s env (k : Z -> list Z -> K A) :
  reader s cv refs lk -> get_inode i s = ip -> can_send d m s -> 0 <= off -> off < i_size ip ->
  0 < m <= BSIZE - off mod BSIZE ->
  let bs := file_data cv ip off (Z.to_nat m) in
  exists e j s', (bno ← bmap i (off / BSIZE);
      bp ← bread (i_dev ip) bno;
      bf ← buf_of bp;
      let bs := take (Z.to_nat m) (drop (Z.to_nat (off mod BSIZE)) (b_data bf)) in
      r ← either_copyout d bs;
      brelse bp;; k r bs) (mkWorld s env) = k e bs (mkWorld s' env) /\
    reader s' cv refs lk /\ get_inode i s' = ip /\ k_disk s' = k_disk s /\
    match d with DUser _ => vm_ok s' own fl | _ => True end /\ sent d (take j bs) s s' /\
    ((e = 0 /\ j = Z.to_nat m) \/ (e = -1 /\ (j < Z.to_nat m)%nat /\ faults d j s)).
Proof.
  intros Hrd Hi Hd Ho Hsz Hm bs. set (x := file_block cv ip (off / BSIZE)) in *.
  pose proof (Z.div_mod off BSIZE ltac:(done)) as Hdm. pose proof (Z.mod_pos_bound off BSIZE ltac:(done)) as Hmod.
  assert (Hq : 0 <= off / BSIZE) by (by apply Z.div_pos). assert (Hq2 : off / BSIZE * BSIZE < i_size ip) by lia.
  destruct (fo_block _ _ _ _ Hfile _ Hq Hq2) as [Hidle Hlen]. fold x in Hidle, Hlen.
  destruct (bmap_run _ s env Hrd Hi Hq Hq2) as (s1 & Hrun1 & Hio1 & Hd1 & Hrd1). fold x in Hrun1.
  destruct (take_block s1 x env Hrd1 Hidle) as (b & s2 & Hrun2 & Hio2 & Hd2 & Hdata & Hc & Hrd2).
  assert (Hbs : take (Z.to_nat m) (drop (Z.to_nat (off mod BSIZE)) (b_data (get_buf b s2))) = bs).
  { rewrite Hdata. apply block_data; [done|lia|exact Hlen]. }
  assert (Hio : io_only s s2) by (by etrans).
  assert (Hlb : Z.of_nat (length bs) = m) by (unfold bs; rewrite length_file_data; lia).
  assert (Hd' : can_send d (Z.of_nat (length bs)) s2).
  { rewrite Hlb. apply (can_send_io d m s); [done|apply Hrd|done]. }
  destruct (either_copyout_run d bs s2 _ _ _ env Hrd2 Hd') as (e & j & s3 & Hrun3 & Hmem & Hvm & Hsent & He).
  pose proof (reader_mem _ _ _ _ _ Hmem Hrd2) as Hrd3. destruct Hmem as (fh & mm & Hs3).
  assert (Hc3 : caches dev s3 b x) by (by rewrite Hs3).
  destruct (rd_clean s x Hrd) as [Hcl Hr].
  assert (Hd3 : k_disk s3 = k_disk s) by (rewrite Hs3; cbn; congruence). rewrite <- Hd3 in Hcl.
  destruct (give_block s3 b x env Hrd3 Hc3 Hidle Hcl Hr) as (s4 & Hrun4 & Hio4 & Hd4 & Hrd4).
  destruct (io_only_mem _ _ Hio) as [E1 E2], (io_only_mem _ _ Hio4) as [F1 F2].
  exists e, j, s4. split; [|split; [done|split; [|split; [congruence|split; [|split]]]]].
  - rewrite (run_bind _ _ _ _ _ Hrun1), (fo_dev _ _ _ _ Hfile), (run_bind _ _ _ _ _ Hrun2).
    rewrite (run_bind _ _ _ (get_buf b s2) (mkWorld s2 env)) by done. cbv zeta. rewrite Hbs.
    rewrite (run_bind _ _ _ _ _ Hrun3), (run_bind _ _ _ _ _ Hrun4). done.
  - rewrite (get_inode_io _ _ Hio4), Hs3. rewrite <- Hi, <- (get_inode_io _ _ Hio). done.
  - destruct d; [|done..]. apply (vm_ok_frame s3); try done. apply Hrd4.
  - apply (sent_same d s s3 s4); [done..|]. apply (sent_from d s2 s s3); try done. apply Hrd.
  - rewrite <- Hlb, Nat2Z.id. destruct He as [?|(? & ? & Hf)]; [by left|right]. split; [done|]. split; [done|].
    destruct d; cbn in Hf |- *; [|done..]. by rewrite <- E1.
Qed.

(** What [readi] does with [k] bytes of the file from [off] on: all of them go to [d] and
    are counted, or the copy stops at the first byte user code has no access to. *)
Definition read_result (d : cdst) (off : Z) (k : nat) (count : Z) (e : Z * list Z) (s s' : kst) : Prop :=
  (e = (count, file_data cv ip off k) /\ sent d (file_data cv ip off k) s s') \/
  (e.1 = -1 /\ exists j, (j < k)%nat /\ sent d (take j (file_data cv ip off k)) s s' /\ faults d j s).

Lemma readi_loop_run n env : forall fuel d off tot s,
  reader s cv refs lk -> get_inode i s = ip -> can_send d (n - tot) s ->
  0 <= off -> 0 <= tot <= n -> off + (n - tot) <= i_size ip -> n - tot <= Z.of_nat fuel ->
  exists e s', readi_loop fuel i d off n tot (mkWorld s env) = Ok e (mkWorld s' env) /\
    reader s' cv refs lk /\ get_inode i s' = ip /\ k_disk s' = k_disk s /\
    read_result d off (Z.to_nat (n - tot)) n e s s'.
Proof.
  assert (Hend : forall d off s, reader s cv refs lk -> get_inode i s = ip -> can_send d (n - n) s ->
    reader s cv refs lk /\ get_inode i s = ip /\ k_disk s = k_disk s /\ read_result d off (Z.to_nat (n - n)) n (n, []) s s).
  { intros d off s Hrd Hi Hd. do 3 (split; [done|]). left. rewrite Z.sub_diag. split; [done|].
    by apply (sent_refl d s (n - n)). }
  induction fuel as [|fuel IH]; intros d off tot s Hrd Hi Hd Ho Ht Hsz Hf; cbn [readi_loop].
  { assert (tot = n) as -> by lia. rewrite Z.leb_refl. exists (n, []), s. split; [done|]. by apply Hend. }
  destruct (Z.leb_spec n tot) as [Hle|Hlt].
  { assert (tot = n) as -> by lia. exists (n, []), s. split; [done|]. by apply Hend. }
  pose proof (Z.mod_pos_bound off BSIZE ltac:(done)) as Hmod.
  set (m := Z.min (n - tot) (BSIZE - off mod BSIZE)) in *.
  destruct (readi_turn d off m s env (fun r bs => if r =? -1 then mret (-1, [])
      else r ← readi_loop fuel i (cdst_add d m) (off + m) n (tot + m); mret (r.1, bs ++ r.2)))
    as (e & j & s1 & Hrun & Hrd1 & Hi1 & Hd1 & Hvm & Hsent & He); [done|done| |lia..|].
  { apply (can_send_le d (n - tot)); [lia|done]. }
  rewrite (run_bind _ _ _ ip (mkWorld s env)) by (by rewrite <- Hi).
  match type of Hrun with _ = ?t => match goal with |- context [mbind ?f (bmap i (off / BSIZE)) ?w] =>
    replace (mbind f (bmap i (off / BSIZE)) w) with t by (symmetry; exact Hrun) end end.
  assert (Hsplit : file_data cv ip off (Z.to_nat (n - tot)) =
    file_data cv ip off (Z.to_nat m) ++ file_data cv ip (off + m) (Z.to_nat (n - (tot + m)))).
  { replace (Z.to_nat (n - tot)) with (Z.to_nat m + Z.to_nat (n - (tot + m)))%nat by lia.
    rewrite file_data_app. do 2 f_equal. lia. }
  set (b1 := file_data cv ip off (Z.to_nat m)) in *. set (b2 := file_data cv ip (off + m) _) in *.
  assert (Hl1 : Z.of_nat (length b1) = m) by (unfold b1; rewrite length_file_data; lia).
  assert (Hl2 : length b2 = Z.to_nat (n - (tot + m))) by (unfold b2; apply length_file_data).
  destruct He as [[-> ->]|(-> & Hj & Hfault)].
  2:{ exists (-1, []), s1. split; [done|]. do 3 (split; [done|]). right. split; [done|]. exists j.
      split; [lia|]. split; [|done]. rewrite Hsplit, take_app_le by lia. done. }
  rewrite take_ge in Hsent by lia. cbn [Z.eqb Z.opp].
  destruct (IH (cdst_add d m) (off + m) (tot + m) s1) as (e & s2 & Hrun2 & Hrd2 & Hi2 & Hd2 & Hres); try done; try lia.
  { apply (can_send_add d m _ s); [lia..| |done]. by replace (m + (n - (tot + m))) with (n - tot) by lia. }
  assert (Hk : forall k, (k <= length b2)%nat -> can_send d (m + Z.of_nat k) s).
  { intros k Hk. apply (can_send_le d (n - tot)); [lia|done]. }
  exists (e.1, b1 ++ e.2), s2. split; [|split; [done|split; [done|split; [congruence|]]]].
  { rewrite (run_bind _ _ _ _ _ Hrun2). done. }
  unfold read_result. rewrite Hsplit. destruct Hres as [[-> Hs2]|(He & k & Hk2 & Hs2 & Hf2)].
  - left. split; [done|]. apply (sent_trans d b1 b2 m s s1 s2); try done; [by apply Hk|apply Hrd].
  - right. split; [done|]. exists (length b1 + k)%nat. split; [lia|]. split.
    + rewrite take_app_add. fold b2 in Hs2. apply (sent_trans d b1 (take k b2) m s s1 s2); try done; [|apply Hrd].
      apply Hk. rewrite length_take. lia.
    + apply (sent_fault d b1 m k s s1); try done. apply Hk. lia.
Qed.

(** What is there to read: nothing beyond the size, and nothing if the end of the range
    does not fit in 32 bits. *)
Definition readable (off n : Z) : nat :=
  if (off <=? i_size ip) && (off + n <? 2 ^ 32) then Z.to_nat (Z.min n (i_size ip - off)) else 0%nat.

Lemma readi_run d off n s env :
  reader s cv refs lk -> get_inode i s = ip -> can_send d n s -> 0 <= off < 2 ^ 32 -> 0 <= n < 2 ^ 32 ->
  exists e s', readi i d off n (mkWorld s env) = Ok e (mkWorld s' env) /\
    reader s' cv refs lk /\ get_inode i s' = ip /\ k_disk s' = k_disk s /\
    read_result d off (readable off n) (Z.of_nat (readable off n)) e s s'.
Proof.
  intros Hrd Hi Hd Ho Hn. unfold readi. rewrite (run_bind _ _ _ ip (mkWorld s env)) by (by rewrite <- Hi).
  assert (Hu : u32 (off + n) = if off + n <? 2 ^ 32 then off + n else off + n - 2 ^ 32).
  { unfold u32. destruct (Z.ltb_spec (off + n) (2 ^ 32)); [apply Z.mod_small; lia|].
    symmetry. apply (Z.mod_unique _ _ 1); lia. }
  rewrite Hu. unfold readable.
  assert (Hnone : exists e s', (mret (0, []) : K (Z * list Z)) (mkWorld s env) = Ok e (mkWorld s' env) /\
    reader s' cv refs lk /\ get_inode i s' = ip /\ k_disk s' = k_disk s /\ read_result d off 0 (Z.of_nat 0) e s s').
  { exists (0, []), s. split; [done|]. do 3 (split; [done|]). left. split; [done|]. by apply (sent_refl d s n). }
  destruct (Z.ltb_spec (i_size ip) off), (Z.leb_spec off (i_size ip)); try lia; [done|].
  destruct (Z.ltb_spec (off + n) (2 ^ 32)).
  2:{ rewrite (proj2 (Z.ltb_lt (off + n - 2 ^ 32) off)) by lia. done. }
  rewrite (proj2 (Z.ltb_ge (off + n) off)) by lia. cbn [orb andb].
  set (n' := if _ <? off + n then _ else _).
  assert (Hn' : n' = Z.min n (i_size ip - off)) by (unfold n'; destruct (Z.ltb_spec (i_size ip) (off + n)); lia).
  destruct (readi_loop_run n' env (Z.to_nat n') d off 0 s) as (e & s' & Hrun & K1 & K2 & K3 & K4); try done; try lia.
  { apply (can_send_le d n); [lia|done]. }
  exists e, s'. split; [done|]. do 3 (split; [done|]). rewrite Z.sub_0_r in K4.
  rewrite <- Hn'. by rewrite Z2Nat.id by lia.
Qed.

(** ** Theorem *)

(** C24: [readi] reads the file. For an inode whose blocks are on the disk or in the cache,
    and idle, [readi] returns without waiting.  It delivers the bytes of the file from
    [off] on, through the direct and the indirect blocks, as many as were asked for and
    as there are before the end of the file, to the user address, kernel address or
    variable [d], and returns their number; or it returns -1, having delivered exactly
    the bytes before the first one that user code has no access to.  The view of the
    disk, the references and locks of the blocks and the inode are as they were. *)
Theorem readi_reads_file d off n s env :
  reader s cv refs lk -> get_inode i s = ip -> can_send d n s -> 0 <= off < 2 ^ 32 -> 0 <= n < 2 ^ 32 ->
  let k := readable off n in
  exists e s', readi i d off n (mkWorld s env) = Ok e (mkWorld s' env) /\
    cache_ok dev s' cv refs lk /\ get_inode i s' = ip /\ k_disk s' = k_disk s /\
    ((e = (Z.of_nat k, file_data cv ip off k) /\ sent d (file_data cv ip off k) s s') \/
     (e.1 = -1 /\ exists j, (j < k)%nat /\ sent d (take j (file_data cv ip off k)) s s' /\ faults d j s)).
Proof.
  intros Hrd Hi Hd Ho Hn k. destruct (readi_run d off n s env Hrd Hi Hd Ho Hn) as (e & s' & Hrun & K1 & K2 & K3 & K4).
  exists e, s'. split; [exact Hrun|]. split; [apply K1|]. by split.
Qed.
End File.
End Reading.

(** ** Witness: three bytes of a file of five, read into the first address space *)

Definition demo_ip : inode := mkInode 1 2 1 (mkSleeplock 1 4) 1 T_FILE 0 0 1 5 (40 :: replicate 12 0).
Definition demo_block : list Z := [104; 101; 108; 108; 111] ++ replicate 1019 0.
Definition demo_files (s : kst) : kst :=
  set_k_inodes (demo_ip :: replicate (NINODE - 1) inode0) (set_k_disk {[40 := demo_block]} s).

Lemma demo_files_fields s :
  k_mem (demo_files s) = k_mem s /\ k_freelist (demo_files s) = k_freelist s /\ k_held (demo_files s) = k_held s /\
  k_procs (demo_files s) = k_procs s /\ k_cur (demo_files s) = k_cur s /\ k_bufs (demo_files s) = k_bufs s /\
  get_inode 0 (demo_files s) = demo_ip /\ k_disk (demo_files s) = {[40 := demo_block]}.
Proof. repeat split. Qed.

Lemma on_cpu_bufs j f s : k_bufs (on_cpu j f s) = k_bufs s.
Proof. reflexivity. Qed.

#[local] Transparent demo_proc.
Lemma demo_proc_bufs : k_bufs demo_proc = replicate (S NBUF) buf0 /\ p_pid (get_proc 3 demo_proc) = 4.
Proof.
  unfold demo_proc. set (f := fun x => _). destruct (on_cpu_fields 3 f demo_user) as (_ & _ & _ & _ & _ & _ & Fget).
  destruct demo_user_procs as [Hprocs _]. destruct demo_user_mem as (h & m & Hmem). split.
  - rewrite on_cpu_bufs, Hmem. reflexivity.
  - rewrite Fget by (rewrite Hprocs, length_replicate; unfold NPROC; lia).
    unfold get_proc. rewrite Hprocs. reflexivity.
Qed.
#[local] Opaque demo_proc.

Lemma demo_file_ok : file_ok 1 (disk_block {[40 := demo_block]}) (fun _ => 0) ∅ demo_ip.
Proof.
  split; [reflexivity|split; discriminate| |discriminate|].
  - intros bn H0 Hbn. assert (bn = 0) as -> by (change BSIZE with 1024 in Hbn; cbn in Hbn; lia).
    split; [|reflexivity]. split; [discriminate|]. split; [apply lookup_empty|lia].
  - exists []. split; [intros x Hx; lia|unfold NBUF; cbn; lia].
Qed.

(** The cache just initialised, process 3 (pid 4) on the CPU. *)
Lemma binit_reader s1 own fl :
  user_of s1 own fl 3 root1 -> length (k_procs s1) = NPROC -> k_held s1 = [] ->
  k_bufs s1 = replicate (S NBUF) buf0 -> p_pid (get_proc 3 s1) = 4 ->
  exists s, reader root1 1 3 4 s (disk_block {[40 := demo_block]}) (fun _ => 0) ∅ /\ get_inode 0 s = demo_ip /\
    vm_ok s own fl /\ is_root own root1 /\ k_mem s = k_mem s1.
Proof.
  intros [U1 _ U3 U4 U5] Hlen Hheld Hb Hpid.
  destruct (demo_files_fields s1) as (F1 & F2 & F3 & F4 & F5 & F6 & F7 & F8). set (s0 := demo_files s1) in *.
  clearbody s0. destruct (binit_spec 1 s0 []) as (s & _ & Hio & _ & Hok & _).
  - rewrite F6, Hb. apply length_replicate.
  - intros b Hlt. unfold get_buf. rewrite F6, Hb, lookup_total_replicate_2 by lia. split; [discriminate|reflexivity].
  - rewrite F8 in Hok. destruct (io_only_mem s0 s Hio) as [E1 E2]. pose proof (io_only_held _ _ Hio) as E3.
    assert (Hp : forall q, get_proc q s0 = get_proc q s1) by (intros q; unfold get_proc; by rewrite F4).
    assert (Hth : thread 3 4 s).
    { apply (thread_io _ _ s0 s Hio). split; rewrite ?F3, ?F5, ?Hheld; [done|by rewrite Hp|by rewrite F4|..];
        intros; apply not_elem_of_nil. }
    assert (Hl : LKmem ∉ k_held s) by (rewrite E3, F3, Hheld; apply not_elem_of_nil).
    exists s. split; [split; [exact Hth|exact Hok| |exact Hl]|].
    + destruct Hio as (bs & dk & t & l & -> & _ & Hq). destruct (Hq 3%nat) as [st Hst].
      change (p_pagetable (l !!! 3%nat) = root1). rewrite Hst, Hp. rewrite <- U3. by destruct (get_proc 3 s1).
    + split; [rewrite <- F7; exact (get_inode_io 0 s0 s Hio)|]. split; [|split; [exact U5|]].
      * apply (vm_ok_frame s1); [by rewrite E1, F1|by rewrite E2, F2|exact Hl|exact U4].
      * by rewrite E1, F1.
Qed.

Lemma demo_reader : exists s own fl,
  reader root1 1 3 4 s (disk_block {[40 := demo_block]}) (fun _ => 0) ∅ /\ get_inode 0 s = demo_ip /\
  vm_ok s own fl /\ is_root own root1 /\ (forall va, 0 <= va < 8192 -> user_byte (k_mem s) root1 va = Some 0).
Proof.
  destruct demo_proc_ok as (own & fl & Hu & Hmem & Hlen & Hheld & _). destruct demo_proc_bufs as [Hb Hpid].
  destruct (binit_reader demo_proc own fl Hu Hlen Hheld Hb Hpid) as (s & H1 & H2 & H3 & H4 & H5).
  exists s, own, fl. rewrite H5. exact (conj H1 (conj H2 (conj H3 (conj H4 Hmem)))).
Qed.

Lemma readi_reads_file_witness : exists s s',
  readi 0 (DUser 100) 1 3 (mkWorld s []) = Ok (3, [101; 108; 108]) (mkWorld s' []) /\
  user_byte (k_mem s') root1 100 = Some 101 /\ user_byte (k_mem s') root1 102 = Some 108.
Proof.
  destruct demo_reader as (s & own & fl & Hrd & Hi & Hvm & Hr & Hmem).
  destruct (readi_reads_file demo_syms_ok own fl root1 Hr 1 3 4 (disk_block {[40 := demo_block]}) (fun _ => 0) ∅ 0 demo_ip
    demo_file_ok (DUser 100) 1 3 s []) as (e & s' & Hrun & _ & _ & _ & Hres).
  - exact Hrd.
  - exact Hi.
  - split; [lia|]. split; [lia|exact Hvm].
  - lia.
  - lia.
  - change (readable demo_ip 1 3) with 3%nat in Hres.
    change (file_data (disk_block {[40 := demo_block]}) demo_ip 1 3) with [101; 108; 108] in Hres.
    destruct Hres as [[-> Hs]|(_ & j & Hj & _ & Hf)].
    + exists s, s'. split; [exact Hrun|]. pose proof (sd_wrote Hs) as Hw.
      assert (Hm : forall t, k_mem (with_mem s' t) = k_mem s') by reflexivity. rewrite Hm in Hw.
      split; rewrite Hw by (exact Hr || lia); reflexivity.
    + exfalso. cbn in Hf. specialize (Hmem (100 + Z.of_nat j) ltac:(lia)). unfold user_byte in Hmem.
      by rewrite Hf in Hmem.
Defined.
