(* ===== verification/Blocks.v ===== *)
(** * Disk blocks and inodes inside a transaction (about Fs.v)

    The pattern bread, change the data, log_write, brelse on the view of the disk of
    Cache.v ([fs_state], [taken]), and with it the block bitmap and the inodes on disk:
    [balloc] and [bfree] are the operations of a set of free blocks, and [iupdate] and
    [ilock] a round trip of an inode through its place in an inode block. *)

From stdpp Require Import base functions gmap list strings.
From Stdlib Require Import ZArith Lia.
From S2P Require Import Prelude Riscv Memory State Spinlock Sched Bio Cache Log Recovery Fs.

#[local] Set Warnings "-clear-no-such-hyp".

(** ** Pins *)

Lemma pin_le l x refs y : refs y <= pin l x refs y <= refs y + 1.
Proof.
  unfold pin. case_decide; [lia|]. destruct (decide (x = y)) as [<-|Hne];
    [rewrite fn_lookup_insert; lia|rewrite fn_lookup_insert_ne by done; lia].
Qed.

Lemma pin_pos l x refs : (x ∈ home l <$> lh_range l -> 0 < refs x) -> 0 <= refs x -> 0 < pin l x refs x.
Proof. intros H H0. unfold pin. case_decide; [auto|rewrite fn_lookup_insert; lia]. Qed.

Lemma pin_ref l x refs y : pin l x (<[x := refs x + 1]> refs) y = (<[x := pin l x refs x + 1]> (pin l x refs)) y.
Proof.
  unfold pin. case_decide; [done|]. destruct (decide (x = y)) as [<-|Hne];
    [by rewrite !fn_lookup_insert|by rewrite !fn_lookup_insert_ne].
Qed.

Lemma pin_busy l x refs busy n :
  (forall y, 0 < refs y -> y ∈ busy) -> Z.of_nat (length busy) + 1 <= n ->
  exists busy', (forall y, 0 < pin l x refs y -> y ∈ busy') /\ Z.of_nat (length busy') <= n.
Proof.
  intros Hb Hn. unfold pin. case_decide as Hin; [exists busy; split; [done|lia]|]. exists (x :: busy). split; [|cbn; lia].
  intros y Hy. destruct (decide (x = y)) as [<-|Hne]; [left|right]. rewrite fn_lookup_insert_ne in Hy by done. auto.
Qed.

Lemma record_home l x k y : header_ok l (1 + k) -> 0 <= k -> 0 <= x < 2 ^ 31 ->
  y ∈ home (record l x) <$> lh_range (record l x) -> y = x \/ y ∈ home l <$> lh_range l.
Proof.
  intros Hho Hk Hx. unfold record. case_decide; [by right|]. rewrite (home_append l x k) by done.
  rewrite elem_of_app, list_elem_of_singleton. tauto.
Qed.

Section Blocks.
Context (dev : Z) (p : nat) (pid : Z).

(** The thread [p] in a transaction with room for [k] more blocks: the blocks of the
    transaction are pinned, and the cache has a buffer for each block to come and one to
    work with. *)
Record fs_state (s : kst) (cv : Z -> list Z) (refs : Z -> Z) (lk : gmap Z Z) (k : Z) : Prop := {
  fs_thread : thread p pid s;
  fs_cache : cache_ok dev s cv refs lk;
  fs_log : LLog ∉ k_held s;
  fs_header : header_ok (k_log s) k;
  fs_pinned x : x ∈ home (k_log s) <$> lh_range (k_log s) -> 0 < refs x;
  fs_small x : refs x + k + 1 < 2 ^ 31;
  fs_spare : exists busy, (forall x, 0 < refs x -> x ∈ busy) /\ Z.of_nat (length busy) + k + 1 <= Z.of_nat NBUF
}.

(** The same, while the thread has block [x] in buffer [b]. *)
Record taken (s : kst) (cv : Z -> list Z) (refs : Z -> Z) (lk : gmap Z Z) (k : Z) (b : nat) (x : Z) : Prop := {
  tk_thread : thread p pid s;
  tk_cache : cache_ok dev s cv (<[x := refs x + 1]> refs) (<[x := pid]> lk);
  tk_log : LLog ∉ k_held s;
  tk_header : header_ok (k_log s) k;
  tk_pinned y : y ∈ home (k_log s) <$> lh_range (k_log s) -> 0 < refs y;
  tk_small y : 0 <= refs y /\ refs y + k + 1 < 2 ^ 31;
  tk_spare : exists busy, (forall y, 0 < refs y -> y ∈ busy) /\ Z.of_nat (length busy) + k + 1 <= Z.of_nat NBUF;
  tk_buf : caches dev s b x;
  tk_data : b_data (get_buf b s) = cv x;
  tk_idle : lk !! x = None;
  tk_clean : refs x = 0 -> cv x = disk_block (k_disk s) x
}.

Lemma fs_take s cv refs lk k x env : fs_state s cv refs lk k -> 0 <= k -> lk !! x = None ->
  exists b s', bread dev x (mkWorld s env) = Ok b (mkWorld s' env) /\ io_only s s' /\ k_disk s' = k_disk s /\
    taken s' cv refs lk k b x.
Proof.
  intros [F1 F2 F3 F4 F5 F6 (busy & F7 & F8)] Hk Hlk. pose proof (co_range _ _ _ _ _ F2) as Hr.
  assert (Hg : gettable s refs lk x).
  { split; [done| |specialize (F6 x); lia]. right. apply (free_buffer dev s cv refs lk busy F2 F7). lia. }
  destruct (bread_spec dev s cv refs lk x p pid env F1 F2 Hg) as (b & s' & Hrun & Hok & Hc & _ & Hio & Hd & _).
  exists b, s'. split; [done|]. split; [done|]. split; [done|]. pose proof (io_only_log _ _ Hio) as Hl.
  destruct (caches_valid dev s' _ _ _ b x Hok Hc) as [_ Hdata]; [rewrite fn_lookup_insert; specialize (Hr x); lia|].
  split; rewrite ?Hl, ?Hd; try done.
  - by apply (thread_io _ _ s).
  - by rewrite (io_only_held _ _ Hio).
  - intros y. specialize (Hr y). specialize (F6 y). lia.
  - by exists busy.
  - apply (co_clean _ _ _ _ _ F2).
Qed.

Lemma fs_give s cv refs lk k b x env : taken s cv refs lk k b x ->
  exists s', brelse b (mkWorld s env) = Ok tt (mkWorld s' env) /\ io_only s s' /\ k_disk s' = k_disk s /\
    fs_state s' cv refs lk k.
Proof.
  intros [T1 T2 T3 T4 T5 T6 T7 T8 T9 T10 T11].
  destruct (brelse_spec dev s cv _ _ b x p pid env T1 T2 T8) as (s' & Hrun & Hok & _ & Hio & Hd & _).
  - apply lookup_insert_eq.
  - rewrite fn_lookup_insert. destruct (decide (refs x = 0)); [right; auto|left; specialize (T6 x); lia].
  - exists s'. split; [done|]. split; [done|]. split; [done|]. pose proof (io_only_log _ _ Hio) as Hl.
    split; rewrite ?Hl; try done.
    + by apply (thread_io _ _ s).
    + eapply cache_back; [exact Hok|done|apply fn_back].
    + by rewrite (io_only_held _ _ Hio).
    + intros y. apply T6.
Qed.


(** Changing the data, [log_write] and [brelse]: the block gets its new contents and is in
    the transaction. *)
Lemma fs_put s cv refs lk k b x d f env : taken s cv refs lk (1 + k) b x -> 0 <= k -> 0 <= x < 2 ^ 31 ->
  f (get_buf b s) = set_b_data d (get_buf b s) ->
  exists s1 s2, let s0 := ubuf b f s in
    buf_upd b f (mkWorld s env) = Ok tt (mkWorld s0 env) /\
    log_write b (mkWorld s0 env) = Ok tt (mkWorld s1 env) /\
    brelse b (mkWorld s1 env) = Ok tt (mkWorld s2 env) /\
    fs_only s s2 /\ k_disk s2 = k_disk s /\ k_log s2 = record (k_log s) x /\
    fs_state s2 (<[x := d]> cv) (pin (k_log s) x refs) lk k.
Proof.
  intros [T1 T2 T3 T4 T5 T6 (busy & T7 & T7') T8 T9 T10 T11] Hk Hx Hf. pose proof (T6 x) as Hrx.
  assert (Hr1 : 0 < (<[x := refs x + 1]> refs : Z -> Z) x) by (rewrite fn_lookup_insert; lia).
  destruct (bdata_spec dev s cv _ _ b x d f T2 T8 Hr1 Hf) as [Hok0 Hc0].
  set (s0 := ubuf b f s) in *. assert (Hio0 : io_only s s0) by apply io_only_ubuf.
  destruct (log_write_spec dev p pid s0 (<[x := d]> cv) (<[x := refs x + 1]> refs) (<[x := pid]> lk) b x k env)
    as (s1 & Hrun1 & Hfs1 & Hd1 & Hl1 & Hho1 & Hok1 & Hc1); try done.
  { by apply (thread_io _ _ s). }
  { by apply Hc0. }
  { rewrite fn_lookup_insert. lia. }
  change (k_log s0) with (k_log s) in *. set (l := k_log s) in *.
  pose proof (pin_pos l x refs (T5 x) ltac:(lia)) as Hpos. pose proof (pin_le l x refs) as Hle.
  apply (cache_ok_ext dev s1 _ (<[x := d]> cv) _ (<[x := pin l x refs x + 1]> (pin l x refs))) in Hok1;
    [|done|intros y; symmetry; apply pin_ref].
  destruct (brelse_spec dev s1 _ _ _ b x p pid env (thread_fs _ _ _ _ Hfs1 (thread_io _ _ _ _ Hio0 T1)) Hok1)
    as (s2 & Hrun2 & Hok2 & _ & Hio2 & Hd2 & _).
  { by apply Hc1, Hc0. }
  { apply lookup_insert_eq. }
  { left. rewrite fn_lookup_insert. lia. }
  assert (Hfs : fs_only s s2) by (etrans; [by apply fs_only_io|]; etrans; [exact Hfs1|by apply fs_only_io]).
  exists s1, s2. split; [done|]. split; [done|]. split; [done|]. split; [done|]. split; [by rewrite Hd2, Hd1|].
  pose proof (io_only_log _ _ Hio2) as Hl2. split; [by rewrite Hl2|].
  split; rewrite ?Hl2; try done.
  - by apply (thread_fs _ _ _ _ Hfs).
  - eapply cache_back; [exact Hok2|done|apply fn_back].
  - destruct (fs_only_fields _ _ Hfs) as (-> & _). done.
  - rewrite Hl1. intros y Hy. apply (record_home l x k) in Hy as [->|Hy]; try done. specialize (Hle y). specialize (T5 y Hy). lia.
  - intros y. specialize (Hle y). specialize (T6 y). lia.
  - destruct (pin_busy l x refs busy (Z.of_nat NBUF - k - 1) T7) as (busy' & B1 & B2); [lia|]. exists busy'. split; [done|lia].
Qed.

(** ** Bits *)

Lemma bit_clear_testbit l bi : 0 <= bi -> bit_clear l bi = negb (Z.testbit (l !!! Z.to_nat (bi / 8)) (bi mod 8)).
Proof.
  intros Hb. unfold bit_clear, bit_mask. set (a := l !!! _). pose proof (Z.mod_pos_bound bi 8 ltac:(lia)) as Hk.
  set (n := bi mod 8) in *. rewrite Z.shiftl_1_l.
  assert (Hbits : forall i, 0 <= i -> Z.testbit (Z.land a (2 ^ n)) i = (i =? n) && Z.testbit a n).
  { intros i Hi. rewrite Z.land_spec, Z.pow2_bits_eqb by lia. rewrite (Z.eqb_sym i n).
    destruct (Z.eqb_spec n i) as [->|]; [by rewrite andb_true_r|by rewrite andb_false_r]. }
  destruct (Z.testbit a n) eqn:Ha; cbn [negb].
  - apply Z.eqb_neq. intros H0. specialize (Hbits n ltac:(lia)). rewrite H0, Z.bits_0, Z.eqb_refl in Hbits. done.
  - apply Z.eqb_eq. apply Z.bits_inj'. intros i Hi. rewrite Hbits, Z.bits_0 by done. by rewrite andb_false_r.
Qed.

(** What [balloc] and [bfree] do to a bitmap block. *)
Definition set_bit (l : list Z) (bi : Z) : list Z :=
  alter (fun byte => u8 (Z.lor byte (bit_mask bi))) (Z.to_nat (bi / 8)) l.
Definition clear_bit (l : list Z) (bi : Z) : list Z :=
  alter (fun byte => Z.land byte (Z.lnot (bit_mask bi))) (Z.to_nat (bi / 8)) l.

Lemma alter_bit_clear (f : Z -> Z) l bi bj (q : bool) :
  0 <= bi < 8 * Z.of_nat (length l) -> 0 <= bj < 8 * Z.of_nat (length l) ->
  (forall byte n, 0 <= n < 8 -> Z.testbit (f byte) n = if n =? bi mod 8 then q else Z.testbit byte n) ->
  bit_clear (alter f (Z.to_nat (bi / 8)) l) bj = if bj =? bi then negb q else bit_clear l bj.
Proof.
  intros Hi Hj Hf. rewrite !bit_clear_testbit by lia.
  pose proof (Z.mod_pos_bound bi 8 ltac:(lia)). pose proof (Z.mod_pos_bound bj 8 ltac:(lia)).
  pose proof (Z.div_mod bi 8 ltac:(lia)). pose proof (Z.div_mod bj 8 ltac:(lia)).
  destruct (decide (bj / 8 = bi / 8)) as [E|E].
  - rewrite E. destruct (lookup_lt_is_Some_2 l (Z.to_nat (bi / 8))) as [y Hy]; [lia|].
    rewrite !list_lookup_total_alt, list_lookup_alter_eq, Hy. cbn. rewrite Hf by lia.
    destruct (Z.eqb_spec (bj mod 8) (bi mod 8)), (Z.eqb_spec bj bi); (done || lia).
  - rewrite !list_lookup_total_alt, list_lookup_alter_ne by lia.
    destruct (Z.eqb_spec bj bi) as [->|]; [done|done].
Qed.

Lemma bit_clear_set l bi bj : 0 <= bi < 8 * Z.of_nat (length l) -> 0 <= bj < 8 * Z.of_nat (length l) ->
  bit_clear (set_bit l bi) bj = if bj =? bi then false else bit_clear l bj.
Proof.
  intros Hi Hj. unfold set_bit. rewrite (alter_bit_clear _ l bi bj true); [done|done|done|].
  intros byte n Hn. unfold u8, bit_mask. rewrite Z.shiftl_1_l. pose proof (Z.mod_pos_bound bi 8 ltac:(lia)).
  rewrite Z.mod_pow2_bits_low, Z.lor_spec, Z.pow2_bits_eqb by lia.
  rewrite (Z.eqb_sym n). destruct (bi mod 8 =? n); [by rewrite orb_true_r|by rewrite orb_false_r].
Qed.

Lemma bit_clear_clear l bi bj : 0 <= bi < 8 * Z.of_nat (length l) -> 0 <= bj < 8 * Z.of_nat (length l) ->
  bit_clear (clear_bit l bi) bj = if bj =? bi then true else bit_clear l bj.
Proof.
  intros Hi Hj. unfold clear_bit. rewrite (alter_bit_clear _ l bi bj false); [done|done|done|].
  intros byte n Hn. unfold bit_mask. rewrite Z.shiftl_1_l. pose proof (Z.mod_pos_bound bi 8 ltac:(lia)).
  rewrite Z.land_spec, Z.lnot_spec, Z.pow2_bits_eqb by lia.
  rewrite (Z.eqb_sym n). destruct (bi mod 8 =? n); [by rewrite andb_false_r|by rewrite andb_true_r].
Qed.

(** ** The block bitmap *)

Definition block_free (cv : Z -> list Z) (sb : superblock) (b : Z) : bool :=
  bit_clear (cv (BBLOCK b sb)) (b mod BPB).

(** The bitmap is on the disk, marked as used itself, and nobody holds it. *)
Record bitmap_ok (cv : Z -> list Z) (sb : superblock) (lk : gmap Z Z) : Prop := {
  bm_size : 0 <= sb_size sb < 2 ^ 31;
  bm_start : 0 <= sb_bmapstart sb /\ sb_bmapstart sb + sb_size sb < 2 ^ 31;
  bm_block b : 0 <= b < sb_size sb -> length (cv (BBLOCK b sb)) = bsize /\ lk !! BBLOCK b sb = None;
  bm_used b c : 0 <= b < sb_size sb -> 0 <= c < sb_size sb -> block_free cv sb b = true -> b <> BBLOCK c sb
}.

Definition free_blocks (cv : Z -> list Z) (sb : superblock) (F : gset Z) : Prop :=
  forall b, b ∈ F <-> 0 <= b < sb_size sb /\ block_free cv sb b = true.

Section Bitmap.
Context (sb : superblock).

Lemma BBLOCK_eq cv lk b : bitmap_ok cv sb lk -> 0 <= b < sb_size sb ->
  BBLOCK b sb = b / BPB + sb_bmapstart sb /\ 0 <= BBLOCK b sb < 2 ^ 31.
Proof.
  intros [H1 H2 _ _] Hb. change BPB with 8192. unfold BBLOCK. change BPB with 8192.
  assert (0 <= b / 8192 <= b) by (split; [apply Z.div_pos; lia|apply Z.div_le_upper_bound; lia]).
  unfold u32. rewrite Z.mod_small by lia. lia.
Qed.

(** A change of one bit of the bitmap. *)
Lemma block_free_bit cv lk (g : list Z -> Z -> list Z) (q : bool) b j :
  (forall l bi bj, 0 <= bi < 8 * Z.of_nat (length l) -> 0 <= bj < 8 * Z.of_nat (length l) ->
     bit_clear (g l bi) bj = if bj =? bi then q else bit_clear l bj) ->
  bitmap_ok cv sb lk -> 0 <= b < sb_size sb -> 0 <= j < sb_size sb ->
  block_free (<[BBLOCK b sb := g (cv (BBLOCK b sb)) (b mod BPB)]> cv) sb j = if j =? b then q else block_free cv sb j.
Proof.
  intros Hg Hbm Hb Hj. destruct (BBLOCK_eq cv lk b Hbm Hb) as [Eb _], (BBLOCK_eq cv lk j Hbm Hj) as [Ej _].
  destruct (bm_block _ _ _ Hbm b Hb) as [Hl _]. unfold block_free. change BPB with 8192 in *.
  pose proof (Z.div_mod b 8192 ltac:(lia)). pose proof (Z.mod_pos_bound b 8192 ltac:(lia)).
  pose proof (Z.div_mod j 8192 ltac:(lia)). pose proof (Z.mod_pos_bound j 8192 ltac:(lia)).
  destruct (decide (BBLOCK j sb = BBLOCK b sb)) as [E|E].
  - rewrite E, fn_lookup_insert, Hg by (rewrite Hl; change bsize with 1024%nat; lia).
    destruct (Z.eqb_spec (j mod 8192) (b mod 8192)), (Z.eqb_spec j b); (done || lia).
  - rewrite fn_lookup_insert_ne by done. destruct (Z.eqb_spec j b) as [->|]; done.
Qed.

Lemma bitmap_change cv lk (g : list Z -> Z -> list Z) (q : bool) b :
  (forall l bi bj, 0 <= bi < 8 * Z.of_nat (length l) -> 0 <= bj < 8 * Z.of_nat (length l) ->
     bit_clear (g l bi) bj = if bj =? bi then q else bit_clear l bj) ->
  (forall l bi, length (g l bi) = length l) ->
  (q = true -> forall c, 0 <= c < sb_size sb -> b <> BBLOCK c sb) ->
  bitmap_ok cv sb lk -> 0 <= b < sb_size sb ->
  bitmap_ok (<[BBLOCK b sb := g (cv (BBLOCK b sb)) (b mod BPB)]> cv) sb lk.
Proof.
  intros Hg Hlen Hq Hbm Hb. pose proof (block_free_bit cv lk g q b) as Hbit. pose proof Hbm as [H1 H2 H3 H4].
  split; [done|done| |].
  - intros c Hc. split; [|by apply H3]. destruct (decide (BBLOCK b sb = BBLOCK c sb)) as [<-|E].
    + rewrite fn_lookup_insert, Hlen. by apply H3.
    + rewrite fn_lookup_insert_ne by done. by apply H3.
  - intros j c Hj Hc Hf. rewrite Hbit in Hf by done. destruct (Z.eqb_spec j b) as [->|]; auto.
Qed.

Lemma bitmap_other cv lk x d : (forall c, 0 <= c < sb_size sb -> x <> BBLOCK c sb) -> bitmap_ok cv sb lk ->
  bitmap_ok (<[x := d]> cv) sb lk /\ forall j, 0 <= j < sb_size sb -> block_free (<[x := d]> cv) sb j = block_free cv sb j.
Proof.
  intros Hx [H1 H2 H3 H4].
  assert (Hsame : forall j, 0 <= j < sb_size sb -> (<[x := d]> cv) (BBLOCK j sb) = cv (BBLOCK j sb))
    by (intros j Hj; rewrite fn_lookup_insert_ne; [done|by apply Hx]).
  assert (Hf : forall j, 0 <= j < sb_size sb -> block_free (<[x := d]> cv) sb j = block_free cv sb j)
    by (intros j Hj; unfold block_free; by rewrite Hsame).
  split; [|done]. split; [done|done| |].
  - intros b Hb. rewrite Hsame by done. by apply H3.
  - intros b c Hb Hc. rewrite Hf by done. by apply H4.
Qed.

(** [bzero] of a block nobody holds. *)
Lemma bzero_run s cv refs lk k b env : fs_state s cv refs lk (1 + k) -> 0 <= k -> 0 <= b < 2 ^ 31 -> lk !! b = None ->
  exists s' refs', bzero dev b (mkWorld s env) = Ok tt (mkWorld s' env) /\ fs_only s s' /\ k_disk s' = k_disk s /\
    fs_state s' (<[b := replicate bsize 0]> cv) refs' lk k.
Proof.
  intros Hs Hk Hb Hlk. unfold bzero. replace (u32 b) with b by (unfold u32; rewrite Z.mod_small; lia).
  destruct (fs_take s cv refs lk (1 + k) b env Hs) as (bp & s1 & Hrun1 & Hio1 & Hd1 & Htk); [lia|done|].
  destruct (fs_put s1 cv refs lk k bp b (replicate bsize 0) (set_b_data (replicate bsize 0)) env)
    as (s2 & s3 & R1 & R2 & R3 & Hfs & Hd & _ & Hst); try done.
  exists s3, (pin (k_log s1) b refs). rewrite (run_bind _ _ _ _ _ Hrun1), (run_bind _ _ _ _ _ R1), (run_bind _ _ _ _ _ R2).
  split; [done|]. split; [etrans; [by apply fs_only_io|done]|]. split; [congruence|done].
Qed.

(** What has become of the state after block [b] has been allocated. *)
Definition allocated (s : kst) (cv : Z -> list Z) (lk : gmap Z Z) (k : Z) (b : Z) (s' : kst) : Prop :=
  exists refs', fs_only s s' /\ k_disk s' = k_disk s /\
    fs_state s' (<[b := replicate bsize 0]> (<[BBLOCK b sb := set_bit (cv (BBLOCK b sb)) (b mod BPB)]> cv)) refs' lk k.

(** The scan of one block of the bitmap, as in the source. *)
Definition balloc_scan (b : Z) (bp : nat) : K (option Z) :=
  for_until (seq 0 (Z.to_nat (Z.min BPB (sb_size sb - b)))) (fun n =>
    let bi := Z.of_nat n in
    bf ← buf_of bp;
    if bit_clear (b_data bf) bi then
      buf_upd bp (fun x => set_b_data
        (alter (fun byte => u8 (Z.lor byte (bit_mask bi))) (Z.to_nat (bi / 8)) (b_data x)) x);;
      log_write bp;;
      brelse bp;;
      bzero dev (b + bi);;
      mret (Some (b + bi))
    else mret None).

Lemma balloc_scan_found n s cv refs lk k bp b env :
  bitmap_ok cv sb lk -> taken s cv refs lk (2 + k) bp (BBLOCK b sb) -> 0 <= k ->
  0 <= b < sb_size sb -> b / BPB = n -> block_free cv sb b = true -> lk !! b = None ->
  (forall c, c / BPB = n -> 0 <= c < b -> block_free cv sb c = false) ->
  exists s', balloc_scan (n * BPB) bp (mkWorld s env) = Ok (Some b) (mkWorld s' env) /\ allocated s cv lk k b s'.
Proof.
  intros Hbm Htk Hk Hb Hn Hfree Hlk Hbefore. destruct (BBLOCK_eq cv lk b Hbm Hb) as [Eb Hx].
  pose proof (Z.div_mod b BPB ltac:(done)) as Hdm. pose proof (Z.mod_pos_bound b BPB ltac:(done)) as Hmod.
  set (x := BBLOCK b sb) in *. set (bi := b mod BPB) in *.
  set (f := fun y => set_b_data (alter (fun byte => u8 (Z.lor byte (bit_mask bi))) (Z.to_nat (bi / 8)) (b_data y)) y).
  destruct (fs_put s cv refs lk (1 + k) bp x (set_bit (cv x) bi) f env) as (s1 & s2 & R1 & R2 & R3 & Hfs & Hd & _ & Hst).
  { by replace (1 + (1 + k)) with (2 + k) by lia. }
  { lia. }
  { done. }
  { unfold f, set_bit. by rewrite (tk_data _ _ _ _ _ _ _ Htk). }
  destruct (bzero_run s2 _ _ lk k b env Hst Hk) as (s3 & refs3 & Hrun3 & Hfs3 & Hd3 & Hst3);
    [pose proof (bm_size _ _ _ Hbm); lia|done|].
  exists s3. split.
  - unfold balloc_scan. apply (for_until_found _ (fun m => bit_clear (cv x) (Z.of_nat m)) _ _ (Z.to_nat bi)).
    + intros m Hm. rewrite (run_bind _ _ _ (get_buf bp s) (mkWorld s env)) by done.
      by rewrite (tk_data _ _ _ _ _ _ _ Htk), Hm.
    + apply find_seq_Some. split; [lia|]. split; [by rewrite Z2Nat.id by lia|]. intros m Hm.
      assert (Hc : (n * BPB + Z.of_nat m) / BPB = n).
      { rewrite Z.div_add_l by done. rewrite Z.div_small; lia. }
      specialize (Hbefore (n * BPB + Z.of_nat m) Hc). unfold block_free in Hbefore.
      assert (HB : BBLOCK (n * BPB + Z.of_nat m) sb = x) by (unfold x, BBLOCK; by rewrite Hc, Hn).
      rewrite HB in Hbefore. rewrite Z.add_comm, Z.mod_add, Z.mod_small in Hbefore by (done || lia).
      apply Hbefore. assert (0 <= b / BPB) by (apply Z.div_pos; [lia|done]). nia.
    + rewrite (run_bind _ _ _ (get_buf bp s) (mkWorld s env)) by done.
      rewrite (tk_data _ _ _ _ _ _ _ Htk), Z2Nat.id by lia. unfold block_free in Hfree. fold x bi in Hfree. rewrite Hfree.
      rewrite (run_bind _ _ _ _ _ R1), (run_bind _ _ _ _ _ R2), (run_bind _ _ _ _ _ R3).
      replace (n * BPB + bi) with b by lia. by rewrite (run_bind _ _ _ _ _ Hrun3).
    + done.
  - exists refs3. split; [by etrans|]. split; [congruence|done].
Qed.

Lemma BBLOCK_first n m : 0 <= m < BPB ->
  BBLOCK (n * BPB + m) sb = BBLOCK (n * BPB) sb /\ (n * BPB + m) mod BPB = m /\ (n * BPB + m) / BPB = n.
Proof.
  intros Hm. assert (Hd : (n * BPB + m) / BPB = n) by (rewrite Z.div_add_l by done; rewrite Z.div_small; lia).
  split; [unfold BBLOCK; by rewrite Hd, Z.div_mul|]. split; [|done].
  rewrite Z.add_comm, Z.mod_add by done. by apply Z.mod_small.
Qed.

Lemma balloc_scan_none n s cv refs lk k bp env :
  taken s cv refs lk k bp (BBLOCK (n * BPB) sb) ->
  (forall m, 0 <= m < BPB -> n * BPB + m < sb_size sb -> block_free cv sb (n * BPB + m) = false) ->
  balloc_scan (n * BPB) bp (mkWorld s env) = Ok None (mkWorld s env).
Proof.
  intros Htk Hused. unfold balloc_scan.
  apply (for_until_not_found _ (fun m => bit_clear (cv (BBLOCK (n * BPB) sb)) (Z.of_nat m))).
  - intros m Hm. rewrite (run_bind _ _ _ (get_buf bp s) (mkWorld s env)) by done.
    by rewrite (tk_data _ _ _ _ _ _ _ Htk), Hm.
  - apply first_slot_None. intros m Hm. destruct (BBLOCK_first n (Z.of_nat m)) as (E1 & E2 & _); [lia|].
    specialize (Hused (Z.of_nat m)). unfold block_free in Hused. rewrite E1, E2 in Hused. apply Hused; lia.
Qed.

(** One turn of [balloc]'s outer loop. *)
Definition balloc_turn (n : nat) : K (option Z) :=
  let b := Z.of_nat n * BPB in
  bp ← bread dev (BBLOCK b sb);
  hit ← balloc_scan b bp;
  match hit with
  | Some blk => mret (Some blk)
  | None => brelse bp;; mret None
  end.

Lemma balloc_turn_none n s cv refs lk k env :
  bitmap_ok cv sb lk -> fs_state s cv refs lk k -> 0 <= k -> Z.of_nat n * BPB < sb_size sb ->
  (forall m, 0 <= m < BPB -> Z.of_nat n * BPB + m < sb_size sb -> block_free cv sb (Z.of_nat n * BPB + m) = false) ->
  exists s', balloc_turn n (mkWorld s env) = Ok None (mkWorld s' env) /\ io_only s s' /\ k_disk s' = k_disk s /\
    fs_state s' cv refs lk k.
Proof.
  intros Hbm Hs Hk Hn Hused. unfold balloc_turn. cbv zeta.
  destruct (bm_block _ _ _ Hbm (Z.of_nat n * BPB)) as [_ Hlk]; [split; [apply Z.mul_nonneg_nonneg; lia || done|done]|].
  destruct (fs_take s cv refs lk k _ env Hs Hk Hlk) as (bp & s1 & Hrun1 & Hio1 & Hd1 & Htk).
  destruct (fs_give s1 cv refs lk k bp _ env Htk) as (s2 & Hrun2 & Hio2 & Hd2 & Hst).
  exists s2. rewrite (run_bind _ _ _ _ _ Hrun1).
  rewrite (run_bind _ _ _ None (mkWorld s1 env)) by (by apply (balloc_scan_none _ _ cv refs lk k)).
  rewrite (run_bind _ _ _ _ _ Hrun2). split; [done|]. split; [by etrans|]. split; [congruence|done].
Qed.

Lemma allocated_io s s1 cv lk k b s' : io_only s s1 -> k_disk s1 = k_disk s ->
  allocated s1 cv lk k b s' -> allocated s cv lk k b s'.
Proof.
  intros Hio Hd (refs' & H1 & H2 & H3). exists refs'. split; [etrans; [by apply fs_only_io|done]|]. split; [congruence|done].
Qed.

Lemma balloc_loop_found cv refs lk k b env :
  bitmap_ok cv sb lk -> 0 <= k -> 0 <= b < sb_size sb -> block_free cv sb b = true -> lk !! b = None ->
  (forall c, 0 <= c < b -> block_free cv sb c = false) ->
  forall cnt n s, fs_state s cv refs lk (2 + k) -> (n <= Z.to_nat (b / BPB) < n + cnt)%nat ->
  exists s', for_until (seq n cnt) balloc_turn (mkWorld s env) = Ok (Some b) (mkWorld s' env) /\ allocated s cv lk k b s'.
Proof.
  intros Hbm Hk Hb Hfree Hlk Hbefore. pose proof (Z.div_mod b BPB ltac:(done)) as Hdm.
  pose proof (Z.mod_pos_bound b BPB ltac:(done)) as Hmod.
  assert (Hq : 0 <= b / BPB) by (apply Z.div_pos; [lia|done]).
  induction cnt as [|cnt IH]; intros n s Hs Hn; [lia|]. cbn [seq for_until].
  destruct (decide (n = Z.to_nat (b / BPB))) as [->|Hne].
  - destruct (bm_block _ _ _ Hbm b Hb) as [_ Hlkx].
    destruct (fs_take s cv refs lk (2 + k) _ env Hs ltac:(lia) Hlkx) as (bp & s1 & Hrun1 & Hio1 & Hd1 & Htk).
    destruct (balloc_scan_found (b / BPB) s1 cv refs lk k bp b env) as (s2 & Hrun2 & Hall); try done.
    { intros c _ Hc. by apply Hbefore. }
    exists s2. split; [|by apply (allocated_io s s1)].
    rewrite (run_bind _ _ _ (Some b) (mkWorld s2 env)); [done|]. unfold balloc_turn. rewrite Z2Nat.id by lia. cbv zeta.
    destruct (BBLOCK_first (b / BPB) (b mod BPB) Hmod) as (E & _ & _).
    replace (b / BPB * BPB + b mod BPB) with b in E by lia. rewrite <- E.
    rewrite (run_bind _ _ _ _ _ Hrun1). by rewrite (run_bind _ _ _ _ _ Hrun2).
  - assert (Hlt : (Z.of_nat n + 1) * BPB <= b / BPB * BPB) by (apply Z.mul_le_mono_nonneg_r; [done|lia]).
    destruct (balloc_turn_none n s cv refs lk (2 + k) env) as (s1 & Hrun1 & Hio1 & Hd1 & Hs1); try done; try lia.
    { intros m Hm _. apply Hbefore. assert (0 <= Z.of_nat n * BPB) by (apply Z.mul_nonneg_nonneg; [lia|done]). lia. }
    destruct (IH (S n) s1 Hs1 ltac:(lia)) as (s2 & Hrun2 & Hall). exists s2.
    rewrite (run_bind _ _ _ _ _ Hrun1). split; [done|]. by apply (allocated_io s s1).
Qed.

Lemma balloc_loop_none cv refs lk k env :
  bitmap_ok cv sb lk -> 0 <= k -> (forall c, 0 <= c < sb_size sb -> block_free cv sb c = false) ->
  forall cnt n s, fs_state s cv refs lk k -> (Z.of_nat (n + cnt) - 1) * BPB < sb_size sb ->
  exists s', for_until (seq n cnt) balloc_turn (mkWorld s env) = Ok None (mkWorld s' env).
Proof.
  intros Hbm Hk Hused. induction cnt as [|cnt IH]; intros n s Hs Hn; [by exists s|]. cbn [seq for_until].
  destruct (balloc_turn_none n s cv refs lk k env) as (s1 & Hrun1 & Hio1 & Hd1 & Hs1); try done.
  { eapply Z.le_lt_trans; [|exact Hn]. apply Z.mul_le_mono_nonneg_r; [done|lia]. }
  { intros m Hm Hlt. apply Hused. assert (0 <= Z.of_nat n * BPB) by (apply Z.mul_nonneg_nonneg; [lia|done]). lia. }
  destruct (IH (S n) s1 Hs1) as (s2 & Hrun2); [by replace (S n + cnt)%nat with (n + S cnt)%nat by lia|].
  exists s2. by rewrite (run_bind _ _ _ _ _ Hrun1).
Qed.

(** The number of blocks of the bitmap. *)
Lemma balloc_iters : 0 <= sb_size sb -> let n := (sb_size sb + BPB - 1) / BPB in
  0 <= n /\ (n - 1) * BPB < sb_size sb <= n * BPB.
Proof.
  intros H n. change BPB with 8192 in *. unfold n. pose proof (Z.div_mod (sb_size sb + 8192 - 1) 8192 ltac:(lia)).
  pose proof (Z.mod_pos_bound (sb_size sb + 8192 - 1) 8192 ltac:(lia)).
  split; [apply Z.div_pos; lia|lia].
Qed.

Lemma balloc_run s cv refs lk k b env :
  bitmap_ok cv sb lk -> k_sb s = sb -> fs_state s cv refs lk (2 + k) -> 0 <= k ->
  0 <= b < sb_size sb -> block_free cv sb b = true -> lk !! b = None ->
  (forall c, 0 <= c < b -> block_free cv sb c = false) ->
  exists s', balloc dev (mkWorld s env) = Ok b (mkWorld s' env) /\ allocated s cv lk k b s'.
Proof.
  intros Hbm Hsb Hs Hk Hb Hfree Hlk Hbefore. destruct (balloc_iters ltac:(lia)) as (Hn & Hlo & Hhi).
  destruct (balloc_loop_found cv refs lk k b env Hbm Hk Hb Hfree Hlk Hbefore
    (Z.to_nat ((sb_size sb + BPB - 1) / BPB)) 0 s Hs) as (s' & Hrun & Hall).
  { assert (b / BPB < (sb_size sb + BPB - 1) / BPB) by (apply Z.div_lt_upper_bound; [done|lia]).
    assert (0 <= b / BPB) by (apply Z.div_pos; [lia|done]). lia. }
  exists s'. split; [|done]. unfold balloc. rewrite (run_bind _ _ _ sb (mkWorld s env)) by (by rewrite <- Hsb).
  rewrite (run_bind _ _ _ _ _ Hrun). done.
Qed.

Lemma balloc_full_run s cv refs lk k env :
  bitmap_ok cv sb lk -> k_sb s = sb -> fs_state s cv refs lk k -> 0 <= k ->
  (forall c, 0 <= c < sb_size sb -> block_free cv sb c = false) ->
  exists w', balloc dev (mkWorld s env) = Panic "balloc: out of blocks" w'.
Proof.
  intros Hbm Hsb Hs Hk Hused. destruct (balloc_iters (proj1 (bm_size _ _ _ Hbm))) as (Hn & Hlo & Hhi).
  destruct (balloc_loop_none cv refs lk k env Hbm Hk Hused (Z.to_nat ((sb_size sb + BPB - 1) / BPB)) 0 s Hs) as (s' & Hrun).
  { rewrite Nat.add_0_l, Z2Nat.id; lia. }
  eexists. unfold balloc. rewrite (run_bind _ _ _ sb (mkWorld s env)) by (by rewrite <- Hsb).
  rewrite (run_bind _ _ _ _ _ Hrun). done.
Qed.

Lemma bfree_run s cv refs lk k b env :
  bitmap_ok cv sb lk -> k_sb s = sb -> fs_state s cv refs lk (1 + k) -> 0 <= k -> 0 <= b < sb_size sb ->
  if block_free cv sb b then exists w', bfree dev b (mkWorld s env) = Panic "freeing free block" w'
  else exists s' refs', bfree dev b (mkWorld s env) = Ok tt (mkWorld s' env) /\ fs_only s s' /\ k_disk s' = k_disk s /\
    fs_state s' (<[BBLOCK b sb := clear_bit (cv (BBLOCK b sb)) (b mod BPB)]> cv) refs' lk k.
Proof.
  intros Hbm Hsb Hs Hk Hb. destruct (BBLOCK_eq cv lk b Hbm Hb) as [_ Hx]. destruct (bm_block _ _ _ Hbm b Hb) as [_ Hlk].
  destruct (fs_take s cv refs lk (1 + k) _ env Hs ltac:(lia) Hlk) as (bp & s1 & Hrun1 & Hio1 & Hd1 & Htk).
  unfold bfree. rewrite (run_bind _ _ _ sb (mkWorld s env)) by (by rewrite <- Hsb). rewrite (run_bind _ _ _ _ _ Hrun1).
  cbv zeta. rewrite (run_bind _ _ _ (get_buf bp s1) (mkWorld s1 env)) by done. rewrite (tk_data _ _ _ _ _ _ _ Htk).
  fold (block_free cv sb b). destruct (block_free cv sb b) eqn:Hf; [by eexists|].
  destruct (fs_put s1 cv refs lk k bp (BBLOCK b sb) (clear_bit (cv (BBLOCK b sb)) (b mod BPB))
    (fun x => set_b_data (alter (fun byte => Z.land byte (Z.lnot (bit_mask (b mod BPB)))) (Z.to_nat (b mod BPB / 8)) (b_data x)) x) env)
    as (s2 & s3 & R1 & R2 & R3 & Hfs & Hd & _ & Hst); try done.
  { unfold clear_bit. by rewrite (tk_data _ _ _ _ _ _ _ Htk). }
  exists s3, (pin (k_log s1) (BBLOCK b sb) refs). rewrite (run_bind _ _ _ _ _ R1), (run_bind _ _ _ _ _ R2).
  split; [done|]. split; [etrans; [by apply fs_only_io|done]|]. split; [congruence|done].
Qed.

(** ** The set of free blocks *)

Lemma length_set_bit l bi : length (set_bit l bi) = length l.
Proof. apply length_alter. Qed.
Lemma length_clear_bit l bi : length (clear_bit l bi) = length l.
Proof. apply length_alter. Qed.

Lemma free_after_balloc cv lk F b : bitmap_ok cv sb lk -> free_blocks cv sb F -> b ∈ F ->
  let cv' := <[b := replicate bsize 0]> (<[BBLOCK b sb := set_bit (cv (BBLOCK b sb)) (b mod BPB)]> cv) in
  bitmap_ok cv' sb lk /\ free_blocks cv' sb (F ∖ {[b]}).
Proof.
  intros Hbm HF Hin cv'. apply HF in Hin as [Hb Hfree].
  assert (Hnb : forall c, 0 <= c < sb_size sb -> b <> BBLOCK c sb) by (intros c Hc; by apply (bm_used _ _ _ Hbm)).
  pose proof (bitmap_change cv lk set_bit false b bit_clear_set length_set_bit ltac:(done) Hbm Hb) as Hbm1.
  destruct (bitmap_other _ lk b (replicate bsize 0) Hnb Hbm1) as [Hbm2 Hsame]. split; [done|].
  intros c. rewrite elem_of_difference, elem_of_singleton, (HF c). split.
  - intros [[Hc Hf] Hne]. split; [done|]. unfold cv'.
    rewrite Hsame, (block_free_bit cv lk set_bit false) by (done || apply bit_clear_set). by apply Z.eqb_neq in Hne as ->.
  - intros [Hc Hf]. unfold cv' in Hf.
    rewrite Hsame, (block_free_bit cv lk set_bit false) in Hf by (done || apply bit_clear_set).
    destruct (Z.eqb_spec c b); done.
Qed.

Lemma free_after_bfree cv lk F b : bitmap_ok cv sb lk -> free_blocks cv sb F -> 0 <= b < sb_size sb ->
  (forall c, 0 <= c < sb_size sb -> b <> BBLOCK c sb) ->
  let cv' := <[BBLOCK b sb := clear_bit (cv (BBLOCK b sb)) (b mod BPB)]> cv in
  bitmap_ok cv' sb lk /\ free_blocks cv' sb (F ∪ {[b]}).
Proof.
  intros Hbm HF Hb Hnb cv'. split; [by apply (bitmap_change cv lk clear_bit true b bit_clear_clear length_clear_bit)|].
  intros c. rewrite elem_of_union, elem_of_singleton, (HF c). split.
  - intros Hc. assert (Hr : 0 <= c < sb_size sb) by (destruct Hc as [[? _]| ->]; done). split; [done|]. unfold cv'.
    rewrite (block_free_bit cv lk clear_bit true) by (done || apply bit_clear_clear).
    destruct (Z.eqb_spec c b); [done|]. by destruct Hc as [[_ ?]|].
  - intros [Hc Hf]. unfold cv' in Hf. rewrite (block_free_bit cv lk clear_bit true) in Hf by (done || apply bit_clear_clear).
    destruct (Z.eqb_spec c b); [by right|by left].
Qed.

(** C25: the bitmap is a set of free blocks. [balloc] takes the least free block out of the
    set, fills it with zeros and returns it; with no free block it panics.  [bfree] puts a
    used block back; freeing a free block panics.  Both record the blocks they write in
    the transaction, touch no other block's contents, and write nothing to the disk. *)
Theorem bitmap_ops_refine s cv refs lk k F env :
  k_sb s = sb -> bitmap_ok cv sb lk -> free_blocks cv sb F -> fs_state s cv refs lk k -> 0 <= k ->
  (F = ∅ -> exists w', balloc dev (mkWorld s env) = Panic "balloc: out of blocks" w') /\
  (forall b, b ∈ F -> (forall c, c ∈ F -> b <= c) -> lk !! b = None -> 2 <= k ->
     exists s' cv' refs', balloc dev (mkWorld s env) = Ok b (mkWorld s' env) /\
       fs_state s' cv' refs' lk (k - 2) /\ bitmap_ok cv' sb lk /\ free_blocks cv' sb (F ∖ {[b]}) /\
       cv' b = replicate bsize 0 /\ (forall x, x <> b -> x <> BBLOCK b sb -> cv' x = cv x) /\ k_disk s' = k_disk s) /\
  (forall b, b ∈ F -> 1 <= k -> exists w', bfree dev b (mkWorld s env) = Panic "freeing free block" w') /\
  (forall b, 0 <= b < sb_size sb -> b ∉ F -> (forall c, 0 <= c < sb_size sb -> b <> BBLOCK c sb) -> 1 <= k ->
     exists s' cv' refs', bfree dev b (mkWorld s env) = Ok tt (mkWorld s' env) /\
       fs_state s' cv' refs' lk (k - 1) /\ bitmap_ok cv' sb lk /\ free_blocks cv' sb (F ∪ {[b]}) /\
       (forall x, x <> BBLOCK b sb -> cv' x = cv x) /\ k_disk s' = k_disk s).
Proof.
  intros Hsb Hbm HF Hs Hk. split; [|split; [|split]].
  - intros ->. apply (balloc_full_run s cv refs lk k env Hbm Hsb Hs Hk). intros c Hc.
    destruct (block_free cv sb c) eqn:Hf; [|done].
    exfalso. apply (not_elem_of_empty (C:=gset Z) c). by apply HF.
  - intros b Hb Hmin Hlk Hk2. pose proof Hb as Hb'. apply HF in Hb' as [Hr Hf].
    destruct (balloc_run s cv refs lk (k - 2) b env) as (s' & Hrun & refs' & _ & Hd & Hst); try done; try lia.
    { by replace (2 + (k - 2)) with k by lia. }
    { intros c Hc. destruct (block_free cv sb c) eqn:Hfc; [|done]. destruct (Z.lt_irrefl b).
      eapply Z.le_lt_trans; [|apply Hc]. apply Hmin, HF. split; [lia|done]. }
    destruct (free_after_balloc cv lk F b Hbm HF Hb) as [Hbm' HF'].
    eexists s', _, refs'. split; [done|]. split; [exact Hst|]. split; [done|]. split; [done|].
    split; [by rewrite fn_lookup_insert|]. split; [|done]. intros x Hx1 Hx2. by rewrite !fn_lookup_insert_ne.
  - intros b Hb Hk1. apply HF in Hb as [Hr Hf].
    pose proof (bfree_run s cv refs lk (k - 1) b env Hbm Hsb) as Hrun. rewrite Hf in Hrun. apply Hrun; try done; try lia.
    by replace (1 + (k - 1)) with k by lia.
  - intros b Hr Hb Hnb Hk1. destruct (block_free cv sb b) eqn:Hf; [by destruct Hb; apply HF|].
    pose proof (bfree_run s cv refs lk (k - 1) b env Hbm Hsb) as Hrun. rewrite Hf in Hrun.
    destruct Hrun as (s' & refs' & Hrun & _ & Hd & Hst); try done; try lia.
    { by replace (1 + (k - 1)) with k by lia. }
    destruct (free_after_bfree cv lk F b Hbm HF Hr Hnb) as [Hbm' HF'].
    eexists s', _, refs'. split; [done|]. split; [exact Hst|]. split; [done|]. split; [done|]. split; [|done].
    intros x Hx. by rewrite fn_lookup_insert_ne.
Qed.
End Bitmap.
End Blocks.

(** ** Witness: ten blocks, all free *)

Definition demo_open : logst := mkLog 2 30 1 0 1 0 (replicate 30 0).
Definition demo_sb : superblock := mkSuperblock FSMAGIC 10 10 200 30 2 32 45.

Lemma fs_sb dev p pid s cv refs lk k x : fs_state dev p pid s cv refs lk k -> fs_state dev p pid (set_k_sb x s) cv refs lk k.
Proof. intros [[T1 T2 T3 T4 T5 T6] F2 F3 F4 F5 F6 F7]. split; [by split|by destruct F2; split|done..]. Qed.

Lemma demo_fs_state : exists s, fs_state 1 2 7 s (disk_block ∅) (fun _ => 0) ∅ 3 /\ k_sb s = demo_sb.
Proof.
  destruct (demo_cache_ok demo_open) as (s & Hth & Hl & _ & Hh & Hok & _).
  exists (set_k_sb demo_sb s). split; [|reflexivity]. apply fs_sb. split.
  - exact Hth.
  - exact Hok.
  - rewrite Hh. apply not_elem_of_nil.
  - rewrite Hl. split; [cbn; lia|cbn; lia|cbn; lia|reflexivity| |apply NoDup_nil_2].
    intros i Hi. by apply not_elem_of_nil in Hi.
  - rewrite Hl. intros x Hx. by apply not_elem_of_nil in Hx.
  - intros x. lia.
  - exists []. split; [intros x Hx; lia|change (Z.of_nat NBUF) with 30; cbn; lia].
Qed.

Lemma demo_bitmap : bitmap_ok (disk_block ∅) demo_sb ∅ /\ free_blocks (disk_block ∅) demo_sb (list_to_set (seqZ 0 10)).
Proof.
  assert (HB : forall b, 0 <= b < 10 -> BBLOCK b demo_sb = 45).
  { intros b Hb. unfold BBLOCK. change BPB with 8192. by rewrite (Z.div_small b 8192) by lia. }
  split.
  - split; [split; [discriminate|reflexivity]|split; [discriminate|reflexivity]| |].
    + intros b Hb. split; [apply length_replicate|apply lookup_empty].
    + intros b c Hb Hc _. rewrite HB by exact Hc. cbn in Hb. lia.
  - intros b. rewrite elem_of_list_to_set, elem_of_seqZ. change (sb_size demo_sb) with 10. split; [|intros [H _]; lia].
    intros Hb. split; [lia|]. unfold block_free. rewrite HB by lia. rewrite bit_clear_testbit by (apply Z.mod_pos_bound; done).
    unfold disk_block. rewrite lookup_empty. cbn [default]. rewrite list_lookup_total_alt, lookup_replicate_2, Z.bits_0; [done|].
    change BPB with 8192. rewrite Z.mod_small by lia. change bsize with 1024%nat.
    assert (0 <= b / 8) by (apply Z.div_pos; lia). assert (b / 8 < 2) by (apply Z.div_lt_upper_bound; lia). lia.
Qed.

(** Block 0 is allocated, freed again, and cannot be freed twice. *)
Lemma bitmap_ops_refine_witness : exists s s1 s2 w, balloc 1 (mkWorld s []) = Ok 0 (mkWorld s1 []) /\
  bfree 1 0 (mkWorld (set_k_sb demo_sb s1) []) = Ok tt (mkWorld s2 []) /\
  bfree 1 0 (mkWorld s []) = Panic "freeing free block" w.
Proof.
  destruct demo_fs_state as (s & Hs & Hsb). destruct demo_bitmap as [Hbm HF].
  assert (H0 : (0 : Z) ∈ (list_to_set (seqZ 0 10) : gset Z)) by (apply elem_of_list_to_set, elem_of_seqZ; lia).
  destruct (bitmap_ops_refine 1 2 7 demo_sb s (disk_block ∅) (fun _ => 0) ∅ 3 (list_to_set (seqZ 0 10)) []
    Hsb Hbm HF Hs ltac:(lia)) as (_ & Halloc & Hpanic & _).
  destruct (Halloc 0 H0) as (s1 & cv1 & refs1 & Hrun1 & Hs1 & Hbm1 & HF1 & _).
  { intros c Hc. apply elem_of_list_to_set, elem_of_seqZ in Hc. lia. }
  { apply lookup_empty. }
  { lia. }
  destruct (Hpanic 0 H0 ltac:(lia)) as (w & Hw).
  destruct (bitmap_ops_refine 1 2 7 demo_sb (set_k_sb demo_sb s1) cv1 refs1 ∅ (3 - 2) (list_to_set (seqZ 0 10) ∖ {[0]}) []
    eq_refl Hbm1 HF1 (fs_sb _ _ _ _ _ _ _ _ _ Hs1) ltac:(lia)) as (_ & _ & _ & Hfree).
  destruct (Hfree 0) as (s2 & cv2 & refs2 & Hrun2 & _).
  - split; [lia|reflexivity].
  - intros Hin. apply elem_of_difference in Hin as [_ Hin]. by apply Hin, elem_of_singleton.
  - intros c Hc. change (sb_size demo_sb) with 10 in Hc. unfold BBLOCK. change BPB with 8192.
    rewrite (Z.div_small c 8192) by lia. discriminate.
  - lia.
  - exists s, s1, s2, w. split; [exact Hrun1|]. split; [exact Hrun2|exact Hw].
Defined.
