(* ===== verification/Dinode.v ===== *)
(** * Inodes on disk (about Fs.v)

    [dinode_store] and [dinode_load] are a round trip of the fields of an inode through its
    64 bytes of an inode block and leave the other inodes of the block alone; with that,
    what [iupdate] writes is what a later [ilock] reads. *)

From stdpp Require Import base functions gmap list strings.
From Stdlib Require Import ZArith Lia.
From S2P Require Import Prelude Riscv Memory State Spinlock Sched Bio Cache Log Recovery Fs Blocks.

#[local] Set Warnings "-clear-no-such-hyp".

(** ** The bytes of an inode *)

Lemma splice_app l off a b : (off + length a <= length l)%nat ->
  splice (splice l off a) (off + length a) b = splice l off (a ++ b).
Proof.
  intros Ha. unfold splice. set (t := take off l). assert (Ht : length t = off) by (unfold t; rewrite length_take; lia).
  rewrite (app_assoc t a), take_app_length' by (rewrite length_app; lia).
  replace (off + length a + length b)%nat with (length (t ++ a) + length b)%nat by (rewrite length_app; lia).
  rewrite drop_app_add, drop_drop, <- !app_assoc. do 4 f_equal. rewrite length_app. lia.
Qed.

(** Reading inside what has just been written. *)
Lemma splice_inside l off B j n : (off + length B <= length l)%nat -> (j + n <= length B)%nat ->
  take n (drop (off + j) (splice l off B)) = take n (drop j B).
Proof.
  intros HB Hj. unfold splice. rewrite <- drop_drop, drop_app_length' by (rewrite length_take; lia).
  rewrite drop_app_le by lia. rewrite take_app_le; [done|]. rewrite length_drop. lia.
Qed.

Definition dinode_bytes (ip : inode) : list Z :=
  le_split 2 (i_type ip) ++ le_split 2 (i_major ip) ++ le_split 2 (i_minor ip) ++ le_split 2 (i_nlink ip) ++
  le_split 4 (i_size ip) ++ addrs_bytes (i_addrs ip).

Lemma length_addrs_bytes a : length (addrs_bytes a) = (4 * length a)%nat.
Proof.
  induction a as [|x a IH]; [done|]. change (addrs_bytes (x :: a)) with (le_split 4 x ++ addrs_bytes a).
  rewrite length_app, length_le_split, IH. cbn. lia.
Qed.

Lemma addrs_bytes_nth a : forall k, (k < length a)%nat -> take 4 (drop (4 * k) (addrs_bytes a)) = le_split 4 (a !!! k).
Proof.
  induction a as [|x a IH]; intros k Hk; [cbn in Hk; lia|].
  change (addrs_bytes (x :: a)) with (le_split 4 x ++ addrs_bytes a). destruct k as [|k].
  - change (4 * 0)%nat with 0%nat. rewrite drop_0, take_app_length' by (by rewrite length_le_split). done.
  - replace (4 * S k)%nat with (length (le_split 4 x) + 4 * k)%nat by (rewrite length_le_split; lia).
    rewrite drop_app_add. cbn in Hk. rewrite IH by lia. done.
Qed.

Lemma length_dinode_bytes ip : length (i_addrs ip) = 13%nat -> length (dinode_bytes ip) = 64%nat.
Proof. intros H. unfold dinode_bytes. rewrite !length_app, !length_le_split, length_addrs_bytes, H. done. Qed.

Lemma dinode_store_bytes ip off l : length (i_addrs ip) = 13%nat -> (off + 64 <= length l)%nat ->
  dinode_store ip off l = splice l off (dinode_bytes ip).
Proof.
  intros Ha Hl. unfold dinode_store, dinode_bytes, put16, put32.
  assert (Hs : forall a b o, o = (off + length a)%nat -> (length a <= 64)%nat ->
    splice (splice l off a) o b = splice l off (a ++ b)) by (intros a b o -> ?; apply splice_app; lia).
  rewrite (Hs (le_split 2 (i_type ip))) by (rewrite length_le_split; lia).
  rewrite Hs by (rewrite !length_app, !length_le_split; lia).
  rewrite Hs by (rewrite !length_app, !length_le_split; lia).
  rewrite Hs by (rewrite !length_app, !length_le_split; lia).
  rewrite Hs by (rewrite !length_app, !length_le_split; lia).
  by rewrite <- !app_assoc.
Qed.

(** The fields of an inode in the ranges of their C types. *)
Record fields_ok (ip : inode) : Prop := {
  fk_type : -2 ^ 15 <= i_type ip < 2 ^ 15;
  fk_major : -2 ^ 15 <= i_major ip < 2 ^ 15;
  fk_minor : -2 ^ 15 <= i_minor ip < 2 ^ 15;
  fk_nlink : -2 ^ 15 <= i_nlink ip < 2 ^ 15;
  fk_size : 0 <= i_size ip < 2 ^ 32;
  fk_addrs : length (i_addrs ip) = 13%nat /\ Forall (fun a => 0 <= a < 2 ^ 32) (i_addrs ip)
}.

(** The in-memory inode [x] with the fields that are on disk taken from [ip]. *)
Definition with_fields (ip x : inode) : inode :=
  set_i_type (i_type ip) (set_i_major (i_major ip) (set_i_minor (i_minor ip)
    (set_i_nlink (i_nlink ip) (set_i_size (i_size ip) (set_i_addrs (i_addrs ip) x))))).

Lemma s16_get v : -2 ^ 15 <= v < 2 ^ 15 -> s16 (le_combine (le_split 2 v)) = v.
Proof.
  intros Hv. rewrite le_combine_le_split. change (2 ^ (8 * Z.of_nat 2)) with (2 ^ 16). unfold s16.
  rewrite Z.add_mod_idemp_l by lia. rewrite Z.mod_small by lia. lia.
Qed.

Lemma u32_get v : 0 <= v < 2 ^ 32 -> le_combine (le_split 4 v) = v.
Proof. intros Hv. rewrite le_combine_le_split. change (2 ^ (8 * Z.of_nat 4)) with (2 ^ 32). by apply Z.mod_small. Qed.

Lemma dinode_roundtrip ip off l x : fields_ok ip -> (off + 64 <= length l)%nat ->
  dinode_load (dinode_store ip off l) off x = with_fields ip x.
Proof.
  intros [F1 F2 F3 F4 F5 [F6 F7]] Hl. rewrite dinode_store_bytes by done.
  pose proof (length_dinode_bytes ip F6) as HB.
  assert (Hin : forall j n, (j + n <= 64)%nat ->
    take n (drop (off + j) (splice l off (dinode_bytes ip))) = take n (drop j (dinode_bytes ip)))
    by (intros j n Hj; apply splice_inside; lia).
  assert (Hat : forall pre w post n, dinode_bytes ip = pre ++ w ++ post -> length w = n ->
    take n (drop (length pre) (dinode_bytes ip)) = w)
    by (intros pre w post n -> <-; rewrite drop_app_length; apply take_app_length).
  unfold dinode_load, with_fields, get16, get32.
  replace off with (off + 0)%nat at 1 by lia. rewrite !Hin by lia.
  set (t := le_split 2 (i_type ip)). set (ma := le_split 2 (i_major ip)). set (mi := le_split 2 (i_minor ip)).
  set (nl := le_split 2 (i_nlink ip)). set (sz := le_split 4 (i_size ip)). set (ad := addrs_bytes (i_addrs ip)).
  assert (HE : dinode_bytes ip = t ++ ma ++ mi ++ nl ++ sz ++ ad) by done.
  rewrite (Hat [] t (ma ++ mi ++ nl ++ sz ++ ad) 2%nat HE (length_le_split _ _) : take 2 (drop 0 _) = t).
  assert (Hma : take 2 (drop 2 (dinode_bytes ip)) = ma) by (apply (Hat t _ (mi ++ nl ++ sz ++ ad)); done).
  assert (Hmi : take 2 (drop 4 (dinode_bytes ip)) = mi)
    by (apply (Hat (t ++ ma) _ (nl ++ sz ++ ad)); [by rewrite HE, <- app_assoc|done]).
  assert (Hnl : take 2 (drop 6 (dinode_bytes ip)) = nl)
    by (apply (Hat (t ++ ma ++ mi) _ (sz ++ ad)); [by rewrite HE, <- !app_assoc|done]).
  assert (Hsz : take 4 (drop 8 (dinode_bytes ip)) = sz)
    by (apply (Hat (t ++ ma ++ mi ++ nl) _ ad); [by rewrite HE, <- !app_assoc|done]).
  rewrite Hma, Hmi, Hnl, Hsz. unfold t, ma, mi, nl, sz. rewrite !s16_get, u32_get by done. do 5 f_equal. f_equal.
  apply list_eq. intros k. rewrite list_lookup_fmap. destruct (decide (k < 13)%nat) as [Hk|Hk].
  - rewrite lookup_seq_lt by done. cbn [fmap option_fmap option_map Nat.add].
    destruct (lookup_lt_is_Some_2 (i_addrs ip) k) as [a Ha]; [lia|]. rewrite Ha. f_equal.
    rewrite <- Nat.add_assoc, Hin by lia. rewrite <- drop_drop.
    assert (Hd : drop 12 (dinode_bytes ip) = ad).
    { rewrite HE. change 12%nat with (length (t ++ ma ++ mi ++ nl ++ sz)). rewrite !app_assoc. by rewrite drop_app_length. }
    rewrite Hd. unfold ad. rewrite addrs_bytes_nth by lia. rewrite (list_lookup_total_correct _ _ _ Ha).
    apply u32_get. rewrite Forall_lookup in F7. by apply (F7 k).
  - rewrite lookup_seq_ge by lia. symmetry. apply lookup_ge_None_2. lia.
Qed.

(** The other inodes of the block are as before. *)
Lemma dinode_other ip off off' l x : length (i_addrs ip) = 13%nat -> (off + 64 <= length l)%nat ->
  (off' + 64 <= off)%nat \/ (off + 64 <= off')%nat ->
  dinode_load (dinode_store ip off l) off' x = dinode_load l off' x.
Proof.
  intros Ha Hl Hne. rewrite dinode_store_bytes by done. pose proof (length_dinode_bytes ip Ha) as HB.
  assert (Ho : forall j n, (j + n <= 64)%nat ->
    take n (drop (off' + j) (splice l off (dinode_bytes ip))) = take n (drop (off' + j) l))
    by (intros j n Hj; apply splice_other; lia).
  pose proof (Ho 0%nat 2%nat ltac:(lia)) as H0. rewrite Nat.add_0_r in H0.
  unfold dinode_load, get16, get32. rewrite H0, !Ho by lia. do 6 f_equal. apply list_fmap_ext. intros k j Hj. apply lookup_seq in Hj as [-> Hj].
  rewrite <- Nat.add_assoc, Ho by lia. done.
Qed.

(** ** iupdate and ilock *)

Section Dinode.
Context (dev : Z) (p : nat) (pid : Z) (sb : superblock).

(** The block of inode [n] is on the disk and nobody holds it. *)
Definition iblock_ok (cv : Z -> list Z) (lk : gmap Z Z) (n : Z) : Prop :=
  0 <= n /\ 0 <= IBLOCK n sb < 2 ^ 31 /\ lk !! IBLOCK n sb = None /\ length (cv (IBLOCK n sb)) = bsize.

Lemma dinode_off_le n : 0 <= n -> (dinode_off n + 64 <= bsize)%nat.
Proof.
  intros Hn. unfold dinode_off. change bsize with 1024%nat. change IPB with 16. pose proof (Z.mod_pos_bound n 16 ltac:(lia)). lia.
Qed.

Lemma fs_inodes s cv refs lk k l : fs_state dev p pid s cv refs lk k -> fs_state dev p pid (set_k_inodes l s) cv refs lk k.
Proof. intros [[T1 T2 T3 T4 T5 T6] F2 F3 F4 F5 F6 F7]. split; [by split|by destruct F2; split|done..]. Qed.

Lemma taken_inodes s cv refs lk k b x l :
  taken dev p pid s cv refs lk k b x -> taken dev p pid (set_k_inodes l s) cv refs lk k b x.
Proof. intros [[T1 T2 T3 T4 T5 T6] F2 F3 F4 F5 F6 F7 F8 F9 F10 F11]. split; [by split|by destruct F2; split|done..]. Qed.

Lemma get_inode_alter j f s : (j < length (k_inodes s))%nat ->
  get_inode j (set_k_inodes (alter f j (k_inodes s)) s) = f (get_inode j s).
Proof.
  intros Hj. unfold get_inode. cbn. destruct (lookup_lt_is_Some_2 (k_inodes s) j Hj) as [y Hy].
  by rewrite !list_lookup_total_alt, list_lookup_alter_eq, Hy.
Qed.

Lemma iupdate_run s cv refs lk k i ip env :
  fs_state dev p pid s cv refs lk (1 + k) -> 0 <= k -> k_sb s = sb -> get_inode i s = ip -> i_dev ip = dev ->
  iblock_ok cv lk (i_inum ip) ->
  exists s' refs', let x := IBLOCK (i_inum ip) sb in
    iupdate i (mkWorld s env) = Ok tt (mkWorld s' env) /\ fs_only s s' /\ k_disk s' = k_disk s /\
    fs_state dev p pid s' (<[x := dinode_store ip (dinode_off (i_inum ip)) (cv x)]> cv) refs' lk k.
Proof.
  intros Hs Hk Hsb Hi Hdev (Hn & Hx & Hlk & Hlen). unfold iupdate.
  rewrite (run_bind _ _ _ ip (mkWorld s env)) by (by rewrite <- Hi).
  rewrite (run_bind _ _ _ sb (mkWorld s env)) by (by rewrite <- Hsb). rewrite Hdev.
  destruct (fs_take dev p pid s cv refs lk (1 + k) _ env Hs ltac:(lia) Hlk) as (bp & s1 & Hrun1 & Hio1 & Hd1 & Htk).
  rewrite (run_bind _ _ _ _ _ Hrun1).
  set (f := fun x => set_b_data (dinode_store ip (dinode_off (i_inum ip)) (b_data x)) x).
  destruct (fs_put dev p pid s1 cv refs lk k bp _ (dinode_store ip (dinode_off (i_inum ip)) (cv (IBLOCK (i_inum ip) sb))) f env Htk)
    as (s2 & s3 & R1 & R2 & R3 & Hfs & Hd & _ & Hst); try done.
  { unfold f. by rewrite (tk_data _ _ _ _ _ _ _ _ _ _ Htk). }
  exists s3, (pin (k_log s1) (IBLOCK (i_inum ip) sb) refs). cbv zeta.
  rewrite (run_bind _ _ _ _ _ R1), (run_bind _ _ _ _ _ R2). split; [done|].
  split; [etrans; [by apply fs_only_io|done]|]. split; [congruence|done].
Qed.

Lemma ilock_run s cv refs lk k j x env :
  fs_state dev p pid s cv refs lk k -> 0 <= k -> k_sb s = sb -> (j < length (k_inodes s))%nat -> get_inode j s = x ->
  i_dev x = dev -> 1 <= i_ref x -> i_valid x = 0 -> sl_locked (i_lock x) = 0 -> iblock_ok cv lk (i_inum x) ->
  let y := dinode_load (cv (IBLOCK (i_inum x) sb)) (dinode_off (i_inum x)) (set_i_lock (mkSleeplock 1 pid) x) in
  exists s', ilock j (mkWorld s env) =
      (if i_type y =? 0 then Panic "ilock: no type" (mkWorld s' env) else Ok tt (mkWorld s' env)) /\
    get_inode j s' = set_i_valid 1 y /\ fs_state dev p pid s' cv refs lk k /\ k_disk s' = k_disk s.
Proof.
  intros Hs Hk Hsb Hj Hx Hdev Href Hval Hfree (Hn & Hb & Hlk & Hlen) y.
  pose proof (fs_thread _ _ _ _ _ _ _ _ Hs) as Hth. unfold ilock.
  rewrite (run_bind _ _ _ x (mkWorld s env)) by (by rewrite <- Hx).
  rewrite (proj2 (Z.ltb_ge (i_ref x) 1)) by lia.
  set (x1 := set_i_lock (mkSleeplock 1 pid) x).
  set (s1 := set_k_inodes (alter (fun z => set_i_lock (mkSleeplock 1 pid) z) j (k_inodes s)) s).
  rewrite (run_bind _ _ _ tt (mkWorld s1 env)).
  2:{ rewrite (acquiresleep_run (SlInode j) p) by (apply Hth || (unfold get_sl; fold (get_inode j s); by rewrite Hx)).
      by rewrite (th_pid _ _ _ Hth). }
  assert (Hx1 : get_inode j s1 = x1) by (unfold s1, x1; by rewrite get_inode_alter, Hx).
  assert (Hl1 : length (k_inodes s1) = length (k_inodes s)) by (unfold s1; cbn; apply length_alter).
  assert (Hs1 : fs_state dev p pid s1 cv refs lk k) by (by apply fs_inodes).
  rewrite (run_bind _ _ _ x1 (mkWorld s1 env)) by (by rewrite <- Hx1). unfold x1 at 1. cbn [i_valid set_i_lock]. rewrite Hval.
  cbn [Z.eqb when]. rewrite (run_bind _ _ _ sb (mkWorld s1 env)) by (by rewrite <- Hsb).
  change (i_dev x1) with (i_dev x). change (i_inum x1) with (i_inum x). rewrite Hdev.
  destruct (fs_take dev p pid s1 cv refs lk k _ env Hs1 Hk Hlk) as (bp & s2 & Hrun2 & Hio2 & Hd2 & Htk).
  rewrite (run_bind _ _ _ _ _ Hrun2). rewrite (run_bind _ _ _ (get_buf bp s2) (mkWorld s2 env)) by done.
  rewrite (tk_data _ _ _ _ _ _ _ _ _ _ Htk). set (ld := dinode_load _ _).
  assert (Hi2 : k_inodes s2 = k_inodes s1) by (by destruct Hio2 as (? & ? & ? & ? & -> & _)).
  set (s3 := set_k_inodes (alter ld j (k_inodes s2)) s2).
  rewrite (run_bind _ _ _ tt (mkWorld s3 env)) by done.
  assert (Hx3 : get_inode j s3 = y).
  { unfold s3. rewrite get_inode_alter by (rewrite Hi2; lia). unfold get_inode at 1. rewrite Hi2. fold (get_inode j s1). by rewrite Hx1. }
  assert (Hl3 : length (k_inodes s3) = length (k_inodes s)) by (unfold s3; cbn; by rewrite length_alter, Hi2).
  destruct (fs_give dev p pid s3 cv refs lk k bp _ env (taken_inodes _ _ _ _ _ _ _ _ Htk)) as (s4 & Hrun4 & Hio4 & Hd4 & Hs4).
  rewrite (run_bind _ _ _ _ _ Hrun4).
  assert (Hi4 : k_inodes s4 = k_inodes s3) by (by destruct Hio4 as (? & ? & ? & ? & -> & _)).
  set (s5 := set_k_inodes (alter (set_i_valid 1) j (k_inodes s4)) s4).
  rewrite (run_bind _ _ _ tt (mkWorld s5 env)) by done.
  assert (Hx5 : get_inode j s5 = set_i_valid 1 y).
  { unfold s5. rewrite get_inode_alter by (rewrite Hi4; lia). unfold get_inode at 1. rewrite Hi4. fold (get_inode j s3). by rewrite Hx3. }
  rewrite (run_bind _ _ _ (set_i_valid 1 y) (mkWorld s5 env)) by (by rewrite <- Hx5).
  exists s5. split; [change (i_type (set_i_valid 1 y)) with (i_type y); by destruct (i_type y =? 0)|]. split; [done|]. split; [by apply fs_inodes|]. change (k_disk s5) with (k_disk s4). rewrite Hd4. exact Hd2.
Qed.

(** The view of the disk after [iupdate] of [ip]. *)
Lemma iupdate_view cv ip x n : length (i_addrs ip) = 13%nat -> 0 <= n -> 0 <= i_inum ip -> n <> i_inum ip ->
  length (cv (IBLOCK (i_inum ip) sb)) = bsize -> 0 <= sb_inodestart sb ->
  n / IPB + sb_inodestart sb < 2 ^ 32 -> i_inum ip / IPB + sb_inodestart sb < 2 ^ 32 ->
  let b := IBLOCK (i_inum ip) sb in
  let cv' := <[b := dinode_store ip (dinode_off (i_inum ip)) (cv b)]> cv in
  dinode_load (cv' (IBLOCK n sb)) (dinode_off n) x = dinode_load (cv (IBLOCK n sb)) (dinode_off n) x.
Proof.
  intros Ha Hn Hi Hne Hlen Hst H1 H2 b cv'. unfold cv'. destruct (decide (b = IBLOCK n sb)) as [E|E];
    [|by rewrite fn_lookup_insert_ne]. rewrite <- E, fn_lookup_insert.
  apply dinode_other; [done|unfold b; rewrite Hlen; by apply dinode_off_le|]. unfold b, IBLOCK, u32 in E. unfold dinode_off.
  change IPB with 16 in *. pose proof (Z.div_mod n 16 ltac:(lia)). pose proof (Z.div_mod (i_inum ip) 16 ltac:(lia)).
  pose proof (Z.mod_pos_bound n 16 ltac:(lia)). pose proof (Z.mod_pos_bound (i_inum ip) 16 ltac:(lia)).
  assert (0 <= n / 16) by (apply Z.div_pos; lia). assert (0 <= i_inum ip / 16) by (apply Z.div_pos; lia).
  rewrite !Z.mod_small in E by lia. lia.
Qed.

(** C26: an inode on disk is what was written. [iupdate] returns, with the inode block in
    the transaction; the other inodes and all other blocks are as before; and a later
    [ilock] of the same inode, in any slot of the table and in any state in which the
    block still has these contents, reads exactly the fields [iupdate] wrote, and locks
    the inode. *)
Theorem inode_roundtrip s cv refs lk k i ip env :
  fs_state dev p pid s cv refs lk (1 + k) -> 0 <= k -> k_sb s = sb -> get_inode i s = ip -> i_dev ip = dev ->
  iblock_ok cv lk (i_inum ip) -> fields_ok ip -> i_type ip <> 0 ->
  exists s1 cv1 refs1, iupdate i (mkWorld s env) = Ok tt (mkWorld s1 env) /\
    fs_state dev p pid s1 cv1 refs1 lk k /\ k_disk s1 = k_disk s /\
    (forall x, x <> IBLOCK (i_inum ip) sb -> cv1 x = cv x) /\
    (forall n x, 0 <= n -> n <> i_inum ip -> 0 <= sb_inodestart sb -> Z.max n (i_inum ip) / IPB + sb_inodestart sb < 2 ^ 32 ->
       dinode_load (cv1 (IBLOCK n sb)) (dinode_off n) x = dinode_load (cv (IBLOCK n sb)) (dinode_off n) x) /\
    (forall s2 cv2 refs2 lk2 k2 j env2,
       fs_state dev p pid s2 cv2 refs2 lk2 k2 -> 0 <= k2 -> k_sb s2 = sb ->
       cv2 (IBLOCK (i_inum ip) sb) = cv1 (IBLOCK (i_inum ip) sb) -> lk2 !! IBLOCK (i_inum ip) sb = None ->
       (j < length (k_inodes s2))%nat -> i_dev (get_inode j s2) = dev -> i_inum (get_inode j s2) = i_inum ip ->
       1 <= i_ref (get_inode j s2) -> i_valid (get_inode j s2) = 0 -> sl_locked (i_lock (get_inode j s2)) = 0 ->
       exists s3, ilock j (mkWorld s2 env2) = Ok tt (mkWorld s3 env2) /\
         get_inode j s3 = set_i_valid 1 (with_fields ip (set_i_lock (mkSleeplock 1 pid) (get_inode j s2))) /\
         fs_state dev p pid s3 cv2 refs2 lk2 k2).
Proof.
  intros Hs Hk Hsb Hi Hdev Hib Hf Ht. pose proof Hib as (Hn & Hx & Hlk & Hlen). pose proof (dinode_off_le _ Hn) as Hoff.
  destruct (iupdate_run s cv refs lk k i ip env Hs Hk Hsb Hi Hdev Hib) as (s1 & refs1 & Hrun & _ & Hd & Hs1).
  eexists s1, _, refs1. split; [done|]. split; [exact Hs1|]. split; [done|]. split; [|split].
  - intros x Hne. by rewrite fn_lookup_insert_ne.
  - intros n x Hn0 Hne Hst Hmax. destruct (fk_addrs _ Hf) as [Ha _].
    assert (n / IPB <= Z.max n (i_inum ip) / IPB /\ i_inum ip / IPB <= Z.max n (i_inum ip) / IPB)
      by (split; apply Z.div_le_mono; done || lia).
    apply iupdate_view; done || lia.
  - intros s2 cv2 refs2 lk2 k2 j env2 Hs2 Hk2 Hsb2 Hcv Hlk2 Hj H1 H2 H3 H4 H5. rewrite fn_lookup_insert in Hcv.
    destruct (ilock_run s2 cv2 refs2 lk2 k2 j (get_inode j s2) env2) as (s3 & Hrun3 & Hg & Hs3 & _); try done.
    { rewrite H2. split; [done|]. split; [done|]. split; [done|]. rewrite Hcv.
      rewrite dinode_store_bytes, length_splice; rewrite ?length_dinode_bytes; try apply Hf; lia. }
    rewrite H2, Hcv, dinode_roundtrip in Hrun3, Hg by (done || lia). exists s3. split; [|by split].
    apply Z.eqb_neq in Ht. change (i_type (with_fields ip _)) with (i_type ip) in Hrun3. by rewrite Ht in Hrun3.
Qed.
End Dinode.

(** ** Witness: inode 3 written from slot 0 and read into slot 1 *)

Definition demo_inode : inode := mkInode 1 3 1 sleeplock0 1 T_FILE 0 0 1 5 (40 :: replicate 12 0).
Definition demo_slot : inode := mkInode 1 3 1 sleeplock0 0 0 0 0 0 0 (replicate 13 0).

Lemma demo_iblock : iblock_ok demo_sb (disk_block ∅) ∅ 3 /\ fields_ok demo_inode.
Proof.
  assert (HI : IBLOCK 3 demo_sb = 32) by reflexivity.
  split.
  - split; [lia|]. rewrite HI. split; [lia|]. split; [apply lookup_empty|apply length_replicate].
  - unfold demo_inode, T_FILE. split; cbn [i_type i_major i_minor i_nlink i_size i_addrs]; try lia.
    split; [reflexivity|]. repeat constructor; lia.
Qed.

Lemma inode_roundtrip_witness : exists s s1 s3,
  iupdate 0 (mkWorld s []) = Ok tt (mkWorld s1 []) /\
  ilock 1 (mkWorld (set_k_sb demo_sb (set_k_inodes [demo_inode; demo_slot] s1)) []) = Ok tt (mkWorld s3 []) /\
  i_size (get_inode 1 s3) = 5 /\ i_addrs (get_inode 1 s3) = 40 :: replicate 12 0.
Proof.
  destruct demo_fs_state as (s & Hs & Hsb). destruct demo_iblock as [Hib Hf].
  set (s0 := set_k_inodes [demo_inode; demo_slot] s).
  destruct (inode_roundtrip 1 2 7 demo_sb s0 (disk_block ∅) (fun _ => 0) ∅ 2 0 demo_inode [])
    as (s1 & cv1 & refs1 & Hrun & Hs1 & _ & _ & _ & Hlock).
  - exact (fs_inodes 1 2 7 _ _ _ _ _ _ Hs).
  - lia.
  - exact Hsb.
  - reflexivity.
  - reflexivity.
  - exact Hib.
  - exact Hf.
  - discriminate.
  - set (s2 := set_k_sb demo_sb (set_k_inodes [demo_inode; demo_slot] s1)).
    destruct (Hlock s2 cv1 refs1 ∅ 2 1%nat []) as (s3 & Hrun3 & Hg & _).
    + exact (fs_sb 1 2 7 _ _ _ _ _ _ (fs_inodes 1 2 7 _ _ _ _ _ _ Hs1)).
    + lia.
    + reflexivity.
    + reflexivity.
    + apply lookup_empty.
    + cbn. lia.
    + reflexivity.
    + reflexivity.
    + cbn. lia.
    + reflexivity.
    + reflexivity.
    + exists s0, s1, s3. split; [exact Hrun|]. split; [exact Hrun3|]. rewrite Hg. split; reflexivity.
Defined.
