(* ===== verification/Console.v ===== *)
(** * Console and serial line (kernel/uart.c, kernel/printf.c, kernel/console.c)

    The device is part of the state: [uart_out] collects the bytes written to its
    transmit register, [uart_idle] gives the successive answers of its
    transmit-idle status bit (busy once they run out) and [uart_rx] the bytes
    waiting in its receive register.  [uartputc_sync] waits for the status bit; the
    device is taken to become idle eventually. *)

From stdpp Require Import base gmap list strings.
From Stdlib Require Import ZArith Lia.
From Stdlib Require Import Ascii.
From S2P Require Import Prelude Riscv Memory State Spinlock Sched Kalloc Vm Bio Log Fs.

Fixpoint bytes_of (s : string) : list Z :=
  match s with
  | EmptyString => []
  | String c s => Z.of_N (N_of_ascii c) :: bytes_of s
  end.

Definition uart_upd (f : uart -> uart) : K unit := kmodify (fun s => set_k_uart (f (k_uart s)) s).
Definition cons_upd (f : cons -> cons) : K unit := kmodify (fun s => set_k_cons (f (k_cons s)) s).

(** ** uart.c *)

Definition UART_TX_BUF_SIZE : Z := 32.

(** [WriteReg(THR, c)] *)
Definition write_thr (c : Z) : K unit :=
  uart_upd (fun u => set_uart_out (uart_out u ++ [u8 c]) u).

(** [ReadReg(LSR) & LSR_TX_IDLE] *)
Definition read_tx_idle : K bool :=
  u ← kgets k_uart;
  match uart_idle u with
  | [] => mret false
  | b :: rest => uart_upd (set_uart_idle rest);; mret b
  end.

(** [for(;;);] when the kernel has panicked on another CPU. *)
Definition stop_if_panicked : K unit :=
  u ← kgets k_uart;
  if panicked u then block else mret tt.

Definition uartputc_sync (c : Z) : K unit :=
  stop_if_panicked;;
  write_thr c.

(** The loop of [uartstart]: every iteration reads the status once. *)
Fixpoint uartstart_fuel (fuel : nat) : K unit :=
  u ← kgets k_uart;
  if tx_w u =? tx_r u then mret tt else
  idle ← read_tx_idle;
  if negb idle then mret tt else
  match fuel with
  | O => mret tt
  | S fuel =>
      let c := tx_buf u !!! Z.to_nat (tx_r u mod UART_TX_BUF_SIZE) in
      uart_upd (fun u => set_tx_r (u64 (tx_r u + 1)) u);;
      wakeup ChUartTx;;
      write_thr c;;
      uartstart_fuel fuel
  end.
Definition uartstart : K unit := fun w =>
  uartstart_fuel (length (uart_idle (k_uart (w_ks w)))) w.

(** Add a character to the output buffer; sleeps while the buffer is full. *)
Definition uartputc (c : Z) : K unit :=
  acquire LUart;;
  stop_if_panicked;;
  sleep_while (kgets (fun s => tx_w (k_uart s) =? u64 (tx_r (k_uart s) + UART_TX_BUF_SIZE)))
    ChUartTx LUart;;
  uart_upd (fun u => set_tx_buf
    (<[Z.to_nat (tx_w u mod UART_TX_BUF_SIZE) := u8 c]> (tx_buf u)) u);;
  uart_upd (fun u => set_tx_w (u64 (tx_w u + 1)) u);;
  uartstart;;
  release LUart.

(** Read one input character; -1 if none is waiting. *)
Definition uartgetc : K Z :=
  u ← kgets k_uart;
  match uart_rx u with
  | [] => mret (-1)
  | c :: rest => uart_upd (set_uart_rx rest);; mret c
  end.

(** ** printf.c *)

Definition digits : list Z := bytes_of "0123456789abcdef".

(** The [do .. while] of [printint]: least significant digit first.  A 32-bit number
    has at most 32 digits in any base. *)
Fixpoint printint_digits (fuel : nat) (x base : Z) : list Z :=
  match fuel with
  | O => []
  | S fuel =>
      (digits !!! Z.to_nat (x mod base)) ::
      (if x / base =? 0 then [] else printint_digits fuel (x / base) base)
  end.

(** The bytes [printint(xx, base, sign)] prints. *)
Definition printint (xx base : Z) (sign : bool) : list Z :=
  let neg := sign && (xx <? 0) in
  let x := if neg then u32 (- xx) else u32 xx in
  let buf := printint_digits 32 x base ++ (if neg then [45] else []) in
  rev buf.

(** The bytes [printptr(x)] prints: sixteen hexadecimal digits, from the top. *)
Fixpoint printptr_digits (n : nat) (x : Z) : list Z :=
  match n with
  | O => []
  | S n => (digits !!! Z.to_nat (Z.shiftr x 60)) :: printptr_digits n (u64 (Z.shiftl x 4))
  end.
Definition printptr (x : Z) : list Z := [48; 120] ++ printptr_digits 16 x.

(** A variadic argument: an integer or pointer, or a string ([None] is NULL). *)
Inductive va := VInt (z : Z) | VStr (s : option (list Z)).
Definition va_int (ap : list va) : Z := match ap with VInt z :: _ => z | _ => 0 end.
Definition va_str (ap : list va) : option (list Z) := match ap with VStr s :: _ => s | _ => None end.

(** The bytes [printf(fmt, ...)] prints. *)
Fixpoint printf_bytes (fmt : list Z) (ap : list va) : list Z :=
  match fmt with
  | [] => []
  | c :: fmt =>
      if negb (c =? 37) then c :: printf_bytes fmt ap
      else
        match fmt with
        | [] => []
        | c :: fmt =>
            if c =? 100 then printint (s32 (va_int ap)) 10 true ++ printf_bytes fmt (tail ap)
            else if c =? 120 then printint (s32 (va_int ap)) 16 true ++ printf_bytes fmt (tail ap)
            else if c =? 112 then printptr (u64 (va_int ap)) ++ printf_bytes fmt (tail ap)
            else if c =? 115 then
              default (bytes_of "(null)") (va_str ap) ++ printf_bytes fmt (tail ap)
            else if c =? 37 then 37 :: printf_bytes fmt ap
            else 37 :: c :: printf_bytes fmt ap
        end
  end.

Definition BACKSPACE : Z := 0x100.

(** console.c: send one character to the uart. *)
Definition consputc (c : Z) : K unit :=
  if c =? BACKSPACE then uartputc_sync 8;; uartputc_sync 32;; uartputc_sync 8
  else uartputc_sync c.

Definition printf (fmt : string) (ap : list va) : K unit :=
  locking ← kgets k_pr_locking;
  when (negb (locking =? 0)) (acquire LPr);;
  for_each (printf_bytes (bytes_of fmt) ap) consputc;;
  when (negb (locking =? 0)) (release LPr).

(** What [panic(s)] does before it stops: the message, and [panicked]. *)
Definition panic_message (s : list Z) : K unit :=
  kmodify (set_k_pr_locking 0);;
  printf "panic: " [];;
  for_each (printf_bytes s []) consputc;;
  for_each [10] consputc;;
  uart_upd (set_panicked true).

Definition printfinit : K unit := kmodify (set_k_pr_locking 1).

(** [procdump] (proc.c). *)
Definition state_name (st : procstate) : string :=
  match st with
  | UNUSED => "unused"
  | USED => "???"
  | SLEEPING => "sleep "
  | RUNNABLE => "runble"
  | RUNNING => "run   "
  | ZOMBIE => "zombie"
  end.

(** A C string in a kernel array, up to its NUL. *)
Fixpoint until_nul (l : list Z) : list Z :=
  match l with
  | [] => []
  | c :: l => if c =? 0 then [] else c :: until_nul l
  end.

Definition newline : string := String (ascii_of_nat 10) EmptyString.

Definition procdump : K unit :=
  printf newline [];;
  for_each proc_slots (fun p =>
    pr ← proc_of p;
    if bool_decide (p_state pr = UNUSED) then mret tt else
    printf "%d %s %s" [VInt (p_pid pr); VStr (Some (bytes_of (state_name (p_state pr))));
                       VStr (Some (until_nul (p_name pr)))];;
    printf newline []).

(** ** console.c *)

Definition INPUT_BUF : Z := 128.
Definition CTRL_D : Z := 4.
Definition CTRL_H : Z := 8.
Definition CTRL_P : Z := 16.
Definition CTRL_U : Z := 21.
Definition NL : Z := 10.

Definition cons_at (c : cons) (i : Z) : Z := cons_buf c !!! Z.to_nat (i mod INPUT_BUF).

(** The kill-line loop: erase back to the last newline or to [w]; at most the whole
    buffer is erased. *)
Fixpoint kill_line (fuel : nat) : K unit :=
  match fuel with
  | O => mret tt
  | S fuel =>
      c ← kgets k_cons;
      if negb (cons_e c =? cons_w c) && negb (cons_at c (u32 (cons_e c - 1)) =? NL) then
        cons_upd (fun c => set_cons_e (u32 (cons_e c - 1)) c);;
        consputc BACKSPACE;;
        kill_line fuel
      else mret tt
  end.

(** The console input interrupt handler. *)
Definition consoleintr (ch : Z) : K unit :=
  acquire LCons;;
  c ← kgets k_cons;
  (if ch =? CTRL_P then procdump
   else if ch =? CTRL_U then kill_line (S (Z.to_nat INPUT_BUF))
   else if (ch =? CTRL_H) || (ch =? 0x7f) then
     when (negb (cons_e c =? cons_w c)) (
       cons_upd (fun c => set_cons_e (u32 (cons_e c - 1)) c);;
       consputc BACKSPACE)
   else
     when (negb (ch =? 0) && (u32 (cons_e c - cons_r c) <? INPUT_BUF)) (
       let ch := if ch =? 13 then NL else ch in
       consputc ch;;
       cons_upd (fun c => set_cons_buf
         (<[Z.to_nat (cons_e c mod INPUT_BUF) := u8 ch]> (cons_buf c)) c);;
       cons_upd (fun c => set_cons_e (u32 (cons_e c + 1)) c);;
       c ← kgets k_cons;
       when ((ch =? NL) || (ch =? CTRL_D) || (cons_e c =? u32 (cons_r c + INPUT_BUF))) (
         cons_upd (fun c => set_cons_w (cons_e c) c);;
         wakeup ChConsR)));;
  release LCons.

(** Handle a uart interrupt. *)
Fixpoint uartintr_input (fuel : nat) : K unit :=
  match fuel with
  | O => mret tt
  | S fuel =>
      c ← uartgetc;
      if c =? -1 then mret tt else consoleintr c;; uartintr_input fuel
  end.
Definition uartintr : K unit :=
  (fun w => uartintr_input (S (length (uart_rx (k_uart (w_ks w))))) w);;
  acquire LUart;;
  uartstart;;
  release LUart.

(** [uartinit] programs the device and initialises its lock. *)
Definition consoleinit : K unit :=
  kmodify (fun s => set_k_devsw (<[1%nat := Some DevConsole]> (k_devsw s)) s).

Section Console.
Context {KS : KSyms}.

(** User write()s to the console. *)
Fixpoint consolewrite_loop (n : nat) (src : csrc) (i : Z) : K Z :=
  match n with
  | O => mret i
  | S n =>
      r ← either_copyin src 1;
      if r.1 =? -1 then mret i
      else
        uartputc (r.2 !!! 0%nat);;
        consolewrite_loop n (csrc_add src 1) (i + 1)
  end.
Definition consolewrite (src : csrc) (n : Z) : K Z := consolewrite_loop (Z.to_nat n) src 0.

(** [while(cons.r == cons.w)]: wait for input; [false] when the process was killed.
    Each turn that sleeps uses up an element of the schedule. *)
Fixpoint cons_wait (fuel : nat) : K bool :=
  match fuel with
  | O => block
  | S fuel =>
      c ← kgets k_cons;
      if negb (cons_r c =? cons_w c) then mret true else
      p ← curproc;
      pr ← proc_of p;
      if negb (p_killed pr =? 0) then release LCons;; mret false
      else sleep ChConsR LCons;; cons_wait fuel
  end.

(** The loop of [consoleread]; [Some r] is what remains of [n] at the end, [None] an
    early return with -1. *)
Fixpoint consoleread_loop (n : nat) (target : Z) (dst : cdst) : K (option nat) :=
  match n with
  | O => mret (Some O)
  | S n' =>
      ok ← (fun w => cons_wait (S (length (w_env w))) w);
      if negb ok then mret None else
      c ← kgets k_cons;
      let ch := cons_at c (cons_r c) in
      cons_upd (fun c => set_cons_r (u32 (cons_r c + 1)) c);;
      if ch =? CTRL_D then
        when (Z.of_nat n <? target) (cons_upd (fun c => set_cons_r (u32 (cons_r c - 1)) c));;
        mret (Some n)
      else
        r ← either_copyout dst [ch];
        if r =? -1 then mret (Some n)
        else if ch =? NL then mret (Some n')
        else consoleread_loop n' target (cdst_add dst 1)
  end.

(** User read()s from the console: copy up to a whole input line. *)
Definition consoleread (dst : cdst) (n : Z) : K Z :=
  acquire LCons;;
  r ← consoleread_loop (Z.to_nat n) (u32 n) dst;
  match r with
  | None => mret (-1)
  | Some rest => release LCons;; mret (if 0 <? n then n - Z.of_nat rest else 0)
  end.

End Console.

(** ** What printf does to the device *)

(** The bytes the device receives for one call of [consputc]. *)
Definition cons_out (c : Z) : list Z := if c =? BACKSPACE then [8; 32; 8] else [u8 c].

(** The state after the bytes [l] went out. *)
Definition sent (l : list Z) (s : kst) : kst :=
  set_k_uart (set_uart_out (uart_out (k_uart s) ++ l) (k_uart s)) s.

Lemma sent_nil s : sent [] s = s.
Proof. unfold sent. rewrite app_nil_r. destruct s as [? ? ? ? ? ? ? ? ? ? ? ? ? ? ? ? ? ? ? ? ? ? ? ? u ?]. by destruct u. Qed.

Lemma sent_app l1 l2 s : sent l2 (sent l1 s) = sent (l1 ++ l2) s.
Proof. unfold sent. cbn. by rewrite app_assoc. Qed.

Lemma sent_panicked l s : panicked (k_uart (sent l s)) = panicked (k_uart s).
Proof. done. Qed.

Lemma uartputc_sync_run c s env : panicked (k_uart s) = false ->
  uartputc_sync c (mkWorld s env) = Ok tt (mkWorld (sent [u8 c] s) env).
Proof.
  intros H. unfold uartputc_sync, stop_if_panicked.
  unfold mbind, M_bind, kgets, gets. cbn [w_ks]. by rewrite H.
Qed.

Lemma consputc_run c s env : panicked (k_uart s) = false ->
  consputc c (mkWorld s env) = Ok tt (mkWorld (sent (cons_out c) s) env).
Proof.
  intros H. unfold consputc, cons_out. destruct (c =? BACKSPACE); [|by apply uartputc_sync_run].
  rewrite (run_bind _ _ _ _ _ (uartputc_sync_run 8 s env H)).
  rewrite (run_bind _ _ _ _ _ (uartputc_sync_run 32 (sent [u8 8] s) env H)).
  rewrite uartputc_sync_run by done. by rewrite !sent_app.
Qed.

Lemma print_run l s env : panicked (k_uart s) = false ->
  for_each l consputc (mkWorld s env) = Ok tt (mkWorld (sent (l ≫= cons_out) s) env).
Proof.
  revert s. induction l as [|c l IH]; intros s H; cbn [for_each].
  - cbn. by rewrite sent_nil.
  - rewrite (run_bind _ _ _ _ _ (consputc_run c s env H)). rewrite IH by done.
    rewrite sent_app. reflexivity.
Qed.

(** [printf] returns, and what it printed went out; nothing else changes. *)
Lemma printf_run fmt ap s env :
  panicked (k_uart s) = false -> (k_pr_locking s <> 0 -> LPr ∉ k_held s) ->
  printf fmt ap (mkWorld s env)
  = Ok tt (mkWorld (sent (printf_bytes (bytes_of fmt) ap ≫= cons_out) s) env).
Proof.
  intros Hp Hl. unfold printf. rewrite (run_bind _ _ _ (k_pr_locking s) (mkWorld s env)) by done.
  destruct (Z.eqb_spec (k_pr_locking s) 0) as [Hz|Hnz]; cbn [negb when].
  - rewrite (run_bind _ _ _ tt (mkWorld s env)) by done.
    by rewrite (run_bind _ _ _ _ _ (print_run _ s env Hp)).
  - rewrite (run_bind _ _ _ tt _ (acquire_run LPr (mkWorld s env) (Hl Hnz))). cbn [w_ks w_env].
    set (s1 := set_k_held (LPr :: k_held s) s).
    rewrite (run_bind _ _ _ _ _ (print_run _ s1 env Hp)).
    rewrite (release_run LPr (k_held s) (mkWorld (sent _ s1) env)) by done. reflexivity.
Qed.

(** ** printint prints the number *)

(** The value of a digit, of a numeral (most significant digit first), and of a numeral
    with an optional minus sign. *)
Definition digit_val (c : Z) : Z := if c <=? 57 then c - 48 else c - 87.
Definition num_val (base : Z) (l : list Z) : Z := foldl (fun v c => v * base + digit_val c) 0 l.
Definition int_val (base : Z) (l : list Z) : Z :=
  match l with c :: l' => if c =? 45 then - num_val base l' else num_val base l | [] => 0 end.

Lemma digits_nth x : 0 <= x < 16 -> let c := digits !!! Z.to_nat x in digit_val c = x /\ c <> 45.
Proof.
  intros Hx. assert (Hc : x = 0 \/ x = 1 \/ x = 2 \/ x = 3 \/ x = 4 \/ x = 5 \/ x = 6 \/ x = 7 \/ x = 8 \/ x = 9 \/
    x = 10 \/ x = 11 \/ x = 12 \/ x = 13 \/ x = 14 \/ x = 15) by lia.
  repeat (destruct Hc as [->|Hc]; [by vm_compute|]). subst x. by vm_compute.
Qed.

Lemma num_val_snoc base l c : num_val base (l ++ [c]) = num_val base l * base + digit_val c.
Proof. unfold num_val. by rewrite foldl_app. Qed.

(** The digits of [x], least significant first: their value, no minus sign among them, and
    no leading zero. *)
Lemma printint_digits_val base : 2 <= base <= 16 -> forall fuel x, 0 <= x < base ^ Z.of_nat (S fuel) ->
  let l := printint_digits (S fuel) x base in
  num_val base (rev l) = x /\ Forall (fun c => c <> 45) l /\ l <> [] /\ (x <> 0 -> List.last l 0 <> 48).
Proof.
  intros Hb. induction fuel as [|fuel IH]; intros x Hx l.
  - assert (Hx' : 0 <= x < base) by (change (Z.of_nat 1) with 1 in Hx; rewrite Z.pow_1_r in Hx; done).
    unfold l. cbn [printint_digits]. rewrite (Z.div_small x base), (Z.mod_small x base) by lia. cbn [Z.eqb].
    destruct (digits_nth x) as [Hv Hn]; [lia|]. cbn zeta in Hv, Hn. set (c := digits !!! Z.to_nat x) in *.
    split; [unfold num_val; cbn; lia|]. split; [by apply Forall_singleton|]. split; [done|]. cbn.
    intros H0 H48. rewrite H48 in Hv. vm_compute in Hv. lia.
  - assert (Hmod : 0 <= x mod base < base) by (apply Z.mod_pos_bound; lia).
    destruct (digits_nth (x mod base)) as [Hv Hn]; [lia|]. cbn zeta in Hv, Hn.
    assert (Hl : l = (digits !!! Z.to_nat (x mod base)) ::
      (if x / base =? 0 then [] else printint_digits (S fuel) (x / base) base)) by done.
    rewrite Hl. set (c := digits !!! Z.to_nat (x mod base)) in *. clearbody c. clear l Hl.
    pose proof (Z.div_mod x base ltac:(lia)) as Hdm. pose proof (Z.div_pos x base ltac:(lia) ltac:(lia)) as Hdp.
    destruct (Z.eqb_spec (x / base) 0) as [Hz|Hz].
    + split; [unfold num_val; cbn; lia|]. split; [by apply Forall_singleton|]. split; [done|]. cbn.
      intros H0 H48. rewrite H48 in Hv. change (digit_val 48) with 0 in Hv. nia.
    + assert (Hd : 0 <= x / base < base ^ Z.of_nat (S fuel)).
      { split; [done|]. apply Z.div_lt_upper_bound; [lia|].
        replace (Z.of_nat (S (S fuel))) with (1 + Z.of_nat (S fuel)) in Hx by lia. rewrite Z.pow_add_r, Z.pow_1_r in Hx by lia. lia. }
      destruct (IH (x / base) Hd) as (H1 & H2 & H3 & H4). set (l := printint_digits (S fuel) (x / base) base) in *.
      cbn [rev]. rewrite num_val_snoc, H1, Hv. split; [lia|]. split; [by apply Forall_cons|]. split; [done|].
      intros _. destruct l as [|c' l']; [done|]. change (List.last (c :: c' :: l') 0) with (List.last (c' :: l') 0). by apply H4.
Qed.

Lemma last_rev_hd (l : list Z) : l <> [] -> exists l', rev l = List.last l 0 :: l'.
Proof.
  intros H. destruct (@exists_last _ l H) as (l' & a & ->). exists (rev l').
  rewrite rev_app_distr, List.last_last. done.
Qed.

Lemma int_val_plain base l : Forall (fun c => c <> 45) l -> int_val base (rev l) = num_val base (rev l).
Proof.
  intros H. unfold int_val. destruct (rev l) as [|c l'] eqn:He; [done|].
  assert (Hc : c <> 45).
  { rewrite Forall_forall in H. apply H, list_elem_of_In. rewrite in_rev, He. by left. }
  by rewrite (proj2 (Z.eqb_neq c 45)).
Qed.

(** A number below [base ^ k] has at most [k] digits. *)
Lemma printint_digits_length base : 2 <= base -> forall k fuel x, (0 < k)%nat -> 0 <= x < base ^ Z.of_nat k ->
  (length (printint_digits fuel x base) <= k)%nat.
Proof.
  intros Hb. induction k as [|k IH]; intros fuel x Hk Hx; [lia|]. destruct fuel as [|fuel]; [cbn; lia|].
  cbn [printint_digits length]. destruct (Z.eqb_spec (x / base) 0) as [|Hz]; [cbn; lia|].
  destruct k as [|k].
  { change (Z.of_nat 1) with 1 in Hx. rewrite Z.pow_1_r in Hx. by rewrite Z.div_small in Hz by lia. }
  apply le_n_S, IH; [lia|]. split; [apply Z.div_pos; lia|]. apply Z.div_lt_upper_bound; [lia|].
  replace (Z.of_nat (S (S k))) with (1 + Z.of_nat (S k)) in Hx by lia. rewrite Z.pow_add_r, Z.pow_1_r in Hx by lia. lia.
Qed.

(** [printint] prints the number. For every 32-bit [xx] and base 10 or 16, the
    characters it prints read back as [xx], INT_MIN included, when printed with a sign,
    and as the unsigned value of its bits otherwise; there is no leading zero, and there
    are at most 11 characters, so that the 16 bytes of its buffer are enough. *)
Theorem printint_prints xx base :
  -2 ^ 31 <= xx < 2 ^ 31 -> base = 10 \/ base = 16 ->
  int_val base (printint xx base true) = xx /\ int_val base (printint xx base false) = xx mod 2 ^ 32 /\
  (0 < xx -> List.hd 0 (printint xx base true) <> 48) /\
  forall sign, (length (printint xx base sign) <= 11)%nat.
Proof.
  intros Hxx Hbase. assert (Hb : 2 <= base <= 16) by lia.
  assert (Hpow : 2 ^ 32 <= base ^ Z.of_nat 32) by (change (Z.of_nat 32) with 32; apply Z.pow_le_mono_l; lia).
  assert (Hdig : forall x, 0 <= x < 2 ^ 32 -> let l := printint_digits 32 x base in
    num_val base (rev l) = x /\ Forall (fun c => c <> 45) l /\ l <> [] /\ (x <> 0 -> List.last l 0 <> 48)).
  { intros x Hx. apply (printint_digits_val base Hb 31 x). split; [lia|]. eapply Z.lt_le_trans; [|exact Hpow]. lia. }
  assert (Hplain : forall x, 0 <= x < 2 ^ 32 -> int_val base (rev (printint_digits 32 x base ++ [])) = x).
  { intros x Hx. rewrite app_nil_r. destruct (Hdig x Hx) as (H1 & H2 & _). by rewrite int_val_plain. }
  assert (Hu : 0 <= u32 xx < 2 ^ 32) by (apply Z.mod_pos_bound; lia).
  unfold printint. cbn [andb]. split; [|split; [|split]].
  - destruct (Z.ltb_spec xx 0) as [Hneg|Hpos]; cbn match.
    + rewrite rev_app_distr. cbn [rev app int_val]. change (45 =? 45) with true. cbn match.
      assert (Hm : u32 (- xx) = - xx) by (unfold u32; apply Z.mod_small; lia). rewrite Hm.
      destruct (Hdig (- xx)) as (H1 & _); [lia|]. cbn zeta in H1. lia.
    + assert (Hm : u32 xx = xx) by (unfold u32; apply Z.mod_small; lia). rewrite Hplain; lia.
  - by apply Hplain.
  - intros Hpos. rewrite (proj2 (Z.ltb_ge xx 0)) by lia. cbn match. rewrite app_nil_r.
    assert (Hm : u32 xx = xx) by (unfold u32; apply Z.mod_small; lia). rewrite Hm.
    destruct (Hdig xx) as (_ & _ & H3 & H4); [lia|]. destruct (last_rev_hd _ H3) as (l' & ->). apply H4. lia.
  - intros sign. set (x := if sign && _ then _ else _). cbv zeta. rewrite length_rev, length_app.
    assert (Hx : 0 <= x < 2 ^ 32) by (unfold x, u32; destruct (sign && _); apply Z.mod_pos_bound; lia).
    assert (length (printint_digits 32 x base) <= 10)%nat.
    { apply printint_digits_length; [lia|lia|]. split; [lia|]. destruct Hbase as [->| ->]; cbn; lia. }
    clearbody x. destruct (sign && _); cbn [length]; lia.
Qed.

Lemma printint_prints_witness : int_val 10 (printint (-2147483648) 10 true) = -2147483648 /\
  int_val 16 (printint 48879 16 false) = 48879.
Proof.
  split.
  - apply (printint_prints (-2147483648) 10); [lia|left; reflexivity].
  - apply (printint_prints 48879 16); [lia|right; reflexivity].
Defined.
