(* ===== verification/Pipe.v ===== *)
(** * Pipes (kernel/pipe.c: pipeclose, pipewrite, piperead)

    A pipe lives in a page of its own; [k_pipes] maps the page's address to it.
    [pipealloc] is in File.v, with the file table it allocates from.

    The ring buffer stands for the queue of the bytes written and not yet read
    ([pipe_queue]); the theorems say what [pipewrite] and [piperead] do to that queue and
    to user memory. *)

From stdpp Require Import base gmap list strings.
From Stdlib Require Import ZArith Lia.
From S2P Require Import Prelude Riscv Memory State Spinlock Sched Kalloc Vm PageTable UserMem Uvm Demo.

Definition PIPESIZE : Z := 512.

Definition get_pipe (pi : Z) (s : kst) : pipe := default pipe0 (k_pipes s !! pi).
Definition pipe_of (pi : Z) : K pipe := kgets (get_pipe pi).
Definition pipe_upd (pi : Z) (f : pipe -> pipe) : K unit :=
  kmodify (fun s => set_k_pipes (<[pi := f (get_pipe pi s)]> (k_pipes s)) s).

(** [pi->nwrite == pi->nread + PIPESIZE] and [pi->nread == pi->nwrite]. *)
Definition pipe_full (p : pipe) : bool := pi_nwrite p =? u32 (pi_nread p + PIPESIZE).
Definition pipe_empty (p : pipe) : bool := pi_nread p =? pi_nwrite p.

(** [pi->data[pi->nwrite++ % PIPESIZE] = ch] *)
Definition pipe_put (ch : Z) (p : pipe) : pipe :=
  set_pi_nwrite (u32 (pi_nwrite p + 1))
    (set_pi_data (<[Z.to_nat (pi_nwrite p mod PIPESIZE) := ch]> (pi_data p)) p).

(** [ch = pi->data[pi->nread++ % PIPESIZE]] *)
Definition pipe_front (p : pipe) : Z := pi_data p !!! Z.to_nat (pi_nread p mod PIPESIZE).
Definition pipe_pop (p : pipe) : pipe := set_pi_nread (u32 (pi_nread p + 1)) p.

Section Pipe.
Context {KS : KSyms}.

Definition pipeclose (pi : Z) (writable : Z) : K unit :=
  acquire (LPipe pi);;
  (if negb (writable =? 0) then
     pipe_upd pi (set_pi_writeopen 0);; wakeup (ChPipeRead pi)
   else
     pipe_upd pi (set_pi_readopen 0);; wakeup (ChPipeWrite pi));;
  p ← pipe_of pi;
  if (pi_readopen p =? 0) && (pi_writeopen p =? 0) then
    release (LPipe pi);;
    kmodify (fun s => set_k_pipes (delete pi (k_pipes s)) s);;
    kfree pi
  else release (LPipe pi).

(** The loop of [pipewrite]: the final [i], or [None] for the early return with -1.
    Each turn writes a byte or sleeps. *)
Fixpoint pipewrite_loop (fuel : nat) (pi addr i n : Z) : K (option Z) :=
  if n <=? i then mret (Some i) else
  match fuel with
  | O => block
  | S fuel =>
      p ← pipe_of pi;
      pr ← curproc;
      me ← proc_of pr;
      if (pi_readopen p =? 0) || negb (p_killed me =? 0) then
        release (LPipe pi);; mret None
      else if pipe_full p then
        wakeup (ChPipeRead pi);;
        sleep (ChPipeWrite pi) (LPipe pi);;
        pipewrite_loop fuel pi addr i n
      else
        r ← copyin (p_pagetable me) (u64 (addr + i)) 1;
        if r.1 =? -1 then mret (Some i)
        else
          pipe_upd pi (pipe_put (r.2 !!! 0%nat));;
          pipewrite_loop fuel pi addr (i + 1) n
  end.

Definition pipewrite (pi addr n : Z) : K Z :=
  acquire (LPipe pi);;
  r ← (fun w => pipewrite_loop (Z.to_nat n + length (w_env w)) pi addr 0 n w);
  match r with
  | None => mret (-1)
  | Some i =>
      wakeup (ChPipeRead pi);;
      release (LPipe pi);;
      mret i
  end.

(** [while(pi->nread == pi->nwrite && pi->writeopen)]: wait for data; [false] when the
    process was killed. *)
Fixpoint piperead_wait (fuel : nat) (pi : Z) : K bool :=
  match fuel with
  | O => block
  | S fuel =>
      p ← pipe_of pi;
      if pipe_empty p && negb (pi_writeopen p =? 0) then
        pr ← curproc;
        me ← proc_of pr;
        if negb (p_killed me =? 0) then release (LPipe pi);; mret false
        else sleep (ChPipeRead pi) (LPipe pi);; piperead_wait fuel pi
      else mret true
  end.

(** The copy loop of [piperead]: the final [i]. *)
Fixpoint piperead_copy (n : nat) (pi addr i : Z) : K Z :=
  match n with
  | O => mret i
  | S n =>
      p ← pipe_of pi;
      if pipe_empty p then mret i else
      let ch := pipe_front p in
      pipe_upd pi pipe_pop;;
      pr ← curproc;
      me ← proc_of pr;
      r ← copyout (p_pagetable me) (u64 (addr + i)) [ch];
      if r =? -1 then mret i else piperead_copy n pi addr (i + 1)
  end.

Definition piperead (pi addr n : Z) : K Z :=
  acquire (LPipe pi);;
  ok ← (fun w => piperead_wait (S (length (w_env w))) pi w);
  if negb ok then mret (-1) else
  i ← piperead_copy (Z.to_nat n) pi addr 0;
  wakeup (ChPipeWrite pi);;
  release (LPipe pi);;
  mret i.

End Pipe.

(** ** The ring buffer is a queue

    The counters are 32-bit and wrap around; [PIPESIZE] divides 2^32, so an index into
    the buffer is the same before and after a counter wraps. *)

Definition pipe_count (p : pipe) : Z := u32 (pi_nwrite p - pi_nread p).

Record pipe_ok (p : pipe) : Prop := {
  po_len : length (pi_data p) = Z.to_nat PIPESIZE;
  po_nread : 0 <= pi_nread p < 2 ^ 32;
  po_nwrite : 0 <= pi_nwrite p < 2 ^ 32;
  po_count : pipe_count p <= PIPESIZE
}.

(** The byte [k] places behind the front. *)
Definition pipe_nth (p : pipe) (k : nat) : Z :=
  pi_data p !!! Z.to_nat ((pi_nread p + Z.of_nat k) mod PIPESIZE).
Definition pipe_queue (p : pipe) : list Z := pipe_nth p <$> seq 0 (Z.to_nat (pipe_count p)).

Lemma pipe_count_pos p : 0 <= pipe_count p.
Proof. unfold pipe_count, u32. by apply Z.mod_pos_bound. Qed.

Lemma length_pipe_queue p : Z.of_nat (length (pipe_queue p)) = pipe_count p.
Proof. unfold pipe_queue. rewrite length_fmap, length_seq. pose proof (pipe_count_pos p). lia. Qed.

Lemma u32_small x : 0 <= x < 2 ^ 32 -> u32 x = x.
Proof. intros H. unfold u32. by apply Z.mod_small. Qed.

(** [nwrite] is [nread] plus the count, up to a wrap. *)
Lemma pipe_nwrite p : pipe_ok p -> pi_nwrite p = u32 (pi_nread p + pipe_count p).
Proof.
  intros [_ Hr Hw _]. unfold pipe_count, u32. rewrite Z.add_mod_idemp_r by lia.
  replace (pi_nread p + (pi_nwrite p - pi_nread p)) with (pi_nwrite p) by lia.
  symmetry. by apply Z.mod_small.
Qed.

Lemma u32_mod x : u32 x mod PIPESIZE = x mod PIPESIZE.
Proof. unfold u32, PIPESIZE. Z.div_mod_to_equations. lia. Qed.

Lemma pipe_full_count p : pipe_ok p -> pipe_full p = (pipe_count p =? PIPESIZE).
Proof.
  intros Hok. unfold pipe_full. rewrite (pipe_nwrite p Hok). pose proof (pipe_count_pos p).
  destruct Hok as [_ Hr _ Hc].
  unfold u32, PIPESIZE in *. apply Bool.eq_iff_eq_true. rewrite !Z.eqb_eq.
  split; [|by intros ->]. Z.div_mod_to_equations. lia.
Qed.

Lemma pipe_empty_count p : pipe_ok p -> pipe_empty p = (pipe_count p =? 0).
Proof.
  intros Hok. unfold pipe_empty, pipe_count. destruct Hok as [_ Hr Hw _]. unfold u32.
  apply Bool.eq_iff_eq_true. rewrite !Z.eqb_eq. split.
  - intros ->. by rewrite Z.sub_diag.
  - Z.div_mod_to_equations. lia.
Qed.

Lemma pipe_put_count ch p : pipe_ok p -> pipe_count p < PIPESIZE ->
  pipe_count (pipe_put ch p) = pipe_count p + 1.
Proof.
  intros Hok Hlt. pose proof (pipe_count_pos p). unfold pipe_count, pipe_put in *. cbn.
  destruct Hok as [_ Hr Hw _]. unfold u32, PIPESIZE in *. Z.div_mod_to_equations. lia.
Qed.

(** Two places of the queue have different indices in the buffer. *)
Lemma ring_index_ne (r : Z) (j k : Z) : 0 <= j -> j < k -> k < j + PIPESIZE ->
  (r + j) mod PIPESIZE <> (r + k) mod PIPESIZE.
Proof. unfold PIPESIZE. intros. Z.div_mod_to_equations. lia. Qed.

Lemma ring_index_lt x : (Z.to_nat (x mod PIPESIZE) < Z.to_nat PIPESIZE)%nat.
Proof. pose proof (Z.mod_pos_bound x PIPESIZE ltac:(done)). lia. Qed.

(** Writing a byte appends it to the queue. *)
Lemma pipe_put_queue ch p : pipe_ok p -> pipe_count p < PIPESIZE ->
  pipe_ok (pipe_put ch p) /\ pipe_queue (pipe_put ch p) = pipe_queue p ++ [ch].
Proof.
  intros Hok Hlt. pose proof (pipe_put_count ch p Hok Hlt) as Hc. pose proof (pipe_count_pos p) as H0.
  pose proof (pipe_nwrite p Hok) as Hw. destruct Hok as [Hlen Hr Hw' Hc'].
  split.
  - split; [cbn; by rewrite length_insert|done|cbn; by apply Z.mod_pos_bound|lia].
  - assert (Hidx : pi_nwrite p mod PIPESIZE = (pi_nread p + pipe_count p) mod PIPESIZE) by (rewrite Hw; apply u32_mod).
    unfold pipe_queue. rewrite Hc. replace (Z.to_nat (pipe_count p + 1)) with (S (Z.to_nat (pipe_count p))) by lia.
    rewrite seq_S, fmap_app. cbn [fmap list_fmap]. f_equal.
    + apply list_fmap_ext. intros i k Hk. apply lookup_seq in Hk as [-> Hk]. unfold pipe_nth, pipe_put. cbn.
      rewrite list_lookup_total_insert_ne; [done|]. rewrite Hidx. intros He.
      apply (ring_index_ne (pi_nread p) (Z.of_nat i) (pipe_count p)); [lia..|].
      pose proof (Z.mod_pos_bound (pi_nread p + Z.of_nat i) PIPESIZE ltac:(done)).
      pose proof (Z.mod_pos_bound (pi_nread p + pipe_count p) PIPESIZE ltac:(done)). lia.
    + f_equal. unfold pipe_nth, pipe_put. cbn. rewrite Z2Nat.id, Hidx by lia.
      rewrite list_lookup_total_insert_eq; [done|]. rewrite Hlen. apply ring_index_lt.
Qed.

(** Reading a byte takes the front off the queue. *)
Lemma pipe_pop_queue p : pipe_ok p -> 0 < pipe_count p ->
  pipe_ok (pipe_pop p) /\ pipe_queue p = pipe_front p :: pipe_queue (pipe_pop p).
Proof.
  intros Hok Hpos. pose proof Hok as [Hlen Hr Hw Hc].
  assert (Hcount : pipe_count (pipe_pop p) = pipe_count p - 1).
  { unfold pipe_count, pipe_pop in *. cbn. unfold u32, PIPESIZE in *. Z.div_mod_to_equations. lia. }
  split; [split; [done|cbn; by apply Z.mod_pos_bound|done|lia]|].
  unfold pipe_queue. rewrite Hcount.
  replace (Z.to_nat (pipe_count p)) with (S (Z.to_nat (pipe_count p - 1))) by lia.
  cbn [seq fmap list_fmap]. f_equal.
  - unfold pipe_nth, pipe_front. by rewrite Z.add_0_r.
  - rewrite <- seq_shift, <- list_fmap_compose. apply list_fmap_ext. intros i k _. cbn.
    unfold pipe_nth, pipe_pop. cbn. do 2 f_equal.
    rewrite <- (u32_mod (pi_nread p + Z.of_nat (S k))), <- (u32_mod (u32 (pi_nread p + 1) + Z.of_nat k)).
    unfold u32. rewrite Z.add_mod_idemp_l by lia. do 2 f_equal. lia.
Qed.

(** ** The copy loops *)

Definition with_pipe (pi : Z) (q : pipe) (s : kst) : kst := set_k_pipes (<[pi := q]> (k_pipes s)) s.

Lemma get_with_pipe pi q s : get_pipe pi (with_pipe pi q s) = q.
Proof. unfold get_pipe, with_pipe. cbn. by rewrite lookup_insert_eq. Qed.

Lemma with_pipe_twice pi q q' s : with_pipe pi q' (with_pipe pi q s) = with_pipe pi q' s.
Proof. unfold with_pipe. cbn. by rewrite insert_insert_eq. Qed.

Lemma pipe_upd_run pi f q s env :
  pipe_upd pi f (mkWorld (with_pipe pi q s) env) = Ok tt (mkWorld (with_pipe pi (f q) s) env).
Proof.
  unfold pipe_upd, kmodify, modify. cbn [w_ks w_env]. rewrite get_with_pipe.
  change (Ok tt (mkWorld (with_pipe pi (f q) (with_pipe pi q s)) env)
    = Ok tt (mkWorld (with_pipe pi (f q) s) env)). by rewrite with_pipe_twice.
Qed.

Section PipeRuns.
Context {KS : KSyms} (Hks : ksyms_ok KS) `{PA : !PageAllocator kalloc kfree}.

Lemma pipewrite_loop_run pi addr n p r s own fl env :
  user_of s own fl p r -> 0 <= addr -> addr + n <= 2 ^ 64 ->
  forall fuel i q, 0 <= i <= n -> n - i <= Z.of_nat fuel -> pipe_ok q -> pi_readopen q <> 0 ->
  pipe_count q + (n - i) <= PIPESIZE ->
  exists bs q', pipewrite_loop fuel pi addr i n (mkWorld (with_pipe pi q s) env)
      = Ok (Some (i + Z.of_nat (length bs))) (mkWorld (with_pipe pi q' s) env) /\
    pipe_ok q' /\ pipe_queue q' = pipe_queue q ++ bs /\
    pi_readopen q' = pi_readopen q /\ pi_writeopen q' = pi_writeopen q /\
    reads (k_mem s) r (addr + i) bs /\
    (i + Z.of_nat (length bs) = n \/ (i + Z.of_nat (length bs) < n /\
     translate (k_mem s) r (addr + i + Z.of_nat (length bs)) = None)).
Proof.
  intros [Hcur Hlive Hpt Hvm Hr] Haddr Htop.
  assert (Hnil : forall va, reads (k_mem s) r va []) by (intros va j Hj; inversion Hj).
  induction fuel as [|fuel IH]; intros i q Hi Hfuel Hok Hopen Hroom; cbn [pipewrite_loop].
  { rewrite (proj2 (Z.leb_le n i)) by lia. exists [], q. cbn. rewrite Z.add_0_r, app_nil_r.
    repeat split; try done; try apply Hok. left. lia. }
  destruct (Z.leb_spec n i) as [Hle|Hlt].
  { exists [], q. cbn. rewrite Z.add_0_r, app_nil_r. repeat split; try done; try apply Hok. left. lia. }
  rewrite (run_bind _ _ _ q (mkWorld (with_pipe pi q s) env)).
  2:{ unfold pipe_of, kgets, gets. cbn [w_ks]. by rewrite get_with_pipe. }
  rewrite (run_bind _ _ _ p _ (curproc_run (with_pipe pi q s) env p Hcur)).
  rewrite (run_bind _ _ _ (get_proc p s) (mkWorld (with_pipe pi q s) env)) by done.
  rewrite Hlive, (proj2 (Z.eqb_neq _ _) Hopen). cbn [orb negb Z.eqb].
  rewrite (pipe_full_count q Hok), (proj2 (Z.eqb_neq (pipe_count q) PIPESIZE)) by lia.
  rewrite Hpt. unfold u64. rewrite Z.mod_small by lia.
  destruct (copyin_1 Hks r (with_pipe pi q s) own fl (addr + i) env) as [(b & Hb & Hrun)|[Ht Hrun]];
    [by apply (vm_ok_frame s); try apply Hvm|done|lia| |].
  - rewrite (run_bind _ _ _ _ _ Hrun). cbn [fst snd]. change (0 =? -1) with false. cbv iota.
    rewrite (run_bind _ _ _ tt _ (pipe_upd_run pi (pipe_put ([b] !!! 0%nat)) q s env)).
    change ([b] !!! 0%nat) with b.
    destruct (pipe_put_queue b q Hok ltac:(lia)) as [Hok' Hq'].
    destruct (IH (i + 1) (pipe_put b q)) as (bs & q' & Hrun' & Ho & Hqq & H1 & H2 & Hrd & Hend);
      [lia|lia|done|done| |].
    { rewrite pipe_put_count by (done || lia). lia. }
    exists (b :: bs), q'. cbn [length]. rewrite Nat2Z.inj_succ.
    replace (i + Z.succ (Z.of_nat (length bs))) with (i + 1 + Z.of_nat (length bs)) by lia.
    split; [done|]. split; [done|]. split; [by rewrite Hqq, Hq', <- app_assoc|].
    split; [done|]. split; [done|].
    replace (addr + (i + 1)) with (addr + i + 1) in * by lia.
    split.
    + apply (reads_app _ _ _ [b]); [|done]. intros j Hj. destruct j; [|cbn in Hj; lia].
      cbn. by rewrite Z.add_0_r.
    + replace (addr + i + Z.succ (Z.of_nat (length bs))) with (addr + i + 1 + Z.of_nat (length bs)) by lia. done.
  - rewrite (run_bind _ _ _ _ _ Hrun). cbn [fst]. change (-1 =? -1) with true. cbv iota.
    exists [], q. cbn. rewrite !Z.add_0_r, app_nil_r.
    repeat split; try done; try apply Hok. right. by split; [lia|].
Qed.

(** Storing into user memory and changing a pipe commute. *)
Lemma stored_with_pipe own fl r dst bs pi q s s1 :
  stored own fl r dst bs (with_pipe pi q s) s1 ->
  exists s', s1 = with_pipe pi q s' /\ stored own fl r dst bs s s'.
Proof.
  intros [Hok Hmo Hpte Hw Ho]. destruct Hmo as (h & m & ->).
  exists (set_k_freelist h (set_k_mem m s)). split; [kst_eq|]. split; try done.
  - apply (vm_ok_frame (set_k_freelist h (set_k_mem m (with_pipe pi q s)))); [done..|apply (vo_lock _ _ _ Hok)|exact Hok].
  - apply mem_only_set_both.
Qed.

(** The copy loop of [piperead]: it moves the front of the queue to user memory.  When a
    copy fails, the byte it was to copy has left the queue already. *)
Lemma piperead_copy_run pi addr p r own fl env : 0 <= addr ->
  forall n i q s, user_of s own fl p r -> 0 <= i -> addr + i + Z.of_nat n <= 2 ^ 64 -> pipe_ok q ->
  exists k s' q', piperead_copy n pi addr i (mkWorld (with_pipe pi q s) env)
      = Ok (i + Z.of_nat k) (mkWorld (with_pipe pi q' s') env) /\
    stored own fl r (addr + i) (take k (pipe_queue q)) s s' /\
    pipe_ok q' /\ pi_readopen q' = pi_readopen q /\ pi_writeopen q' = pi_writeopen q /\
    (k <= n)%nat /\ (k <= length (pipe_queue q))%nat /\
    ((k = Nat.min n (length (pipe_queue q)) /\ pipe_queue q' = drop k (pipe_queue q)) \/
     ((k < Nat.min n (length (pipe_queue q)))%nat /\ pipe_queue q' = drop (S k) (pipe_queue q) /\
      translate (k_mem s) r (addr + i + Z.of_nat k) = None)).
Proof.
  intros Haddr. induction n as [|n IH]; intros i q s Hu Hi Htop Hok; cbn [piperead_copy].
  { exists 0%nat, s, q. rewrite Z.add_0_r. split; [done|]. split; [apply stored_refl, Hu|].
    split; [done|]. do 2 (split; [done|]). split; [lia|]. split; [lia|]. left. by rewrite drop_0. }
  rewrite (run_bind _ _ _ q (mkWorld (with_pipe pi q s) env)).
  2:{ unfold pipe_of, kgets, gets. cbn [w_ks]. by rewrite get_with_pipe. }
  rewrite (pipe_empty_count q Hok). pose proof (length_pipe_queue q) as Hlen.
  destruct (Z.eqb_spec (pipe_count q) 0) as [Hz|Hnz].
  { exists 0%nat, s, q. rewrite Z.add_0_r. split; [done|]. split; [apply stored_refl, Hu|].
    split; [done|]. do 2 (split; [done|]). split; [lia|]. split; [lia|]. left. rewrite drop_0. split; [lia|done]. }
  pose proof (pipe_count_pos q). destruct (pipe_pop_queue q Hok ltac:(lia)) as [Hok' Hq].
  pose proof Hu as [Hcur Hlive Hpt Hvm Hr].
  rewrite (run_bind _ _ _ tt _ (pipe_upd_run pi pipe_pop q s env)).
  set (q1 := pipe_pop q) in *.
  rewrite (run_bind _ _ _ p _ (curproc_run (with_pipe pi q1 s) env p Hcur)).
  rewrite (run_bind _ _ _ (get_proc p s) (mkWorld (with_pipe pi q1 s) env)) by done.
  rewrite Hpt. unfold u64. rewrite Z.mod_small by lia. rewrite Hq in *. cbn [length] in *.
  destruct (copyout_1 Hks r (with_pipe pi q1 s) own fl (addr + i) (pipe_front q) env)
    as [(s1 & Hrun & Hst)|(Ht & s1 & Hrun & Hst)]; [by apply (vm_ok_frame s); try apply Hvm|done|lia| |];
    destruct (stored_with_pipe _ _ _ _ _ _ _ _ _ Hst) as (s2 & -> & Hst2);
    rewrite (run_bind _ _ _ _ _ Hrun); cbv iota zeta beta.
  - change (0 =? -1) with false. cbv iota.
    assert (Hu2 : user_of s2 own fl p r).
    { destruct (sd_mem Hst2) as (h & m & ->). split; try done. apply (sd_ok Hst2). }
    destruct (IH (i + 1) q1 s2) as (k & s' & q' & Hrun' & Hst' & Ho & H1 & H2 & Hk1 & Hk2 & Hend); [done|lia|lia|done|].
    exists (S k), s', q'. replace (i + Z.of_nat (S k)) with (i + 1 + Z.of_nat k) by lia. split; [done|].
    cbn [take drop]. replace (addr + (i + 1)) with (addr + i + 1) in * by lia.
    split; [apply (stored_trans _ _ _ _ [pipe_front q] _ s s2); [done|exact Hst']|].
    split; [done|]. do 2 (split; [done|]). split; [lia|]. split; [lia|].
    destruct Hend as [[Hk Hqq]|(Hk & Hqq & Ht)]; [left|right].
    + split; [lia|done].
    + split; [lia|]. split; [done|]. rewrite <- (same_pte_translate s own s2) by (done || lia || apply Hst2).
      rewrite <- Ht. f_equal. lia.
  - change (-1 =? -1) with true. cbv iota. exists 0%nat, s2, q1. rewrite Z.add_0_r. split; [done|].
    split; [done|]. split; [done|]. do 2 (split; [done|]). split; [lia|]. split; [lia|]. right.
    cbn [drop]. rewrite drop_0, Z.add_0_r. split; [lia|]. by split.
Qed.

End PipeRuns.

(** ** Theorems *)

Section PipeTheorems.
Context {KS : KSyms} (Hks : ksyms_ok KS) `{PA : !PageAllocator kalloc kfree}.

Lemma get_pipe_with pi s q : k_pipes s !! pi = Some q -> with_pipe pi q s = s /\ get_pipe pi s = q.
Proof.
  intros H. unfold with_pipe, get_pipe. rewrite insert_id by done. rewrite H. by destruct s.
Qed.

(** A process that holds no process lock may call [wakeup]. *)
Definition no_proc_lock (s : kst) : Prop := forall p, LProc p ∉ k_held s.

Lemma acquire_bind {A} l (m : K A) s env : l ∉ k_held s ->
  (acquire l;; m) (mkWorld s env) = m (mkWorld (set_k_held (l :: k_held s) s) env).
Proof. intros H. by rewrite (run_bind _ _ _ tt _ (acquire_run l (mkWorld s env) H)). Qed.

(** The end of [pipewrite] and of [piperead]: wake the other side, drop the lock. *)
Lemma wake_and_release {A} ch l (v : A) s env :
  length (k_procs s) = NPROC -> no_proc_lock s -> l ∉ k_held s -> (forall p, l <> LProc p) ->
  (wakeup ch;; release l;; mret v) (mkWorld (set_k_held (l :: k_held s) s) env)
  = Ok v (mkWorld (set_k_procs (imap (wakes (k_cur s) (Some ch)) (k_procs s)) s) env).
Proof.
  intros Hlen Hnp Hl Hne. set (s1 := set_k_held (l :: k_held s) s).
  assert (Hw : wakeup ch (mkWorld s1 env) =
    Ok tt (mkWorld (set_k_procs (imap (wakes (k_cur s) (Some ch)) (k_procs s)) s1) env)).
  { unfold wakeup. rewrite wakeup_run; [done|done|]. intros p Hp. cbn in Hp.
    apply elem_of_cons in Hp as [Hp|Hp]; [by destruct (Hne p)|by destruct (Hnp p)]. }
  rewrite (run_bind _ _ _ _ _ Hw).
  rewrite (run_bind _ _ _ tt _ (release_run l (k_held s) (mkWorld (set_k_procs _ s1) env) eq_refl)).
  unfold mret, M_ret. cbn [w_ks w_env]. unfold s1. f_equal.
Qed.

(** C19: a pipe is a queue of bytes; writing appends to it. When the read end is open,
    the writer is not killed and the buffer has room, [pipewrite] returns the number of
    bytes it took; these are the bytes at [addr] in the writer's memory, all [n] of them or
    those before the first address that is not mapped; they are appended to the queue, in
    order, whatever the values of the wrapping 32-bit counters; readers asleep on the pipe
    become runnable, and nothing else changes. *)
Theorem pipewrite_appends pi addr n p r q s own fl env :
  user_of s own fl p r -> length (k_procs s) = NPROC -> no_proc_lock s -> LPipe pi ∉ k_held s ->
  k_pipes s !! pi = Some q -> pipe_ok q -> pi_readopen q <> 0 ->
  0 <= addr -> 0 <= n -> addr + n <= 2 ^ 64 -> Z.of_nat (length (pipe_queue q)) + n <= PIPESIZE ->
  exists bs q', pipewrite pi addr n (mkWorld s env) =
      Ok (Z.of_nat (length bs)) (mkWorld (set_k_procs (imap (wakes (Some p) (Some (ChPipeRead pi))) (k_procs s))
        (with_pipe pi q' s)) env) /\
    pipe_ok q' /\ pipe_queue q' = pipe_queue q ++ bs /\
    reads (k_mem s) r addr bs /\
    (Z.of_nat (length bs) = n \/
     Z.of_nat (length bs) < n /\ translate (k_mem s) r (addr + Z.of_nat (length bs)) = None).
Proof.
  intros Hu Hlen Hnp Hl Hq Hok Hopen Haddr Hn Htop Hroom. rewrite length_pipe_queue in Hroom.
  set (s1 := set_k_held (LPipe pi :: k_held s) s).
  assert (Hu1 : user_of s1 own fl p r).
  { destruct Hu as [H1 H2 H3 H4 H5]. split; try done. apply (vm_ok_frame s); [done..| |done].
    cbn. apply not_elem_of_cons. split; [done|apply H4]. }
  destruct (pipewrite_loop_run Hks pi addr n p r s1 own fl env Hu1 Haddr Htop
    (Z.to_nat n + length env) 0 q) as (bs & q' & Hrun & Hok' & Hqq & _ & _ & Hrd & Hend); [lia|lia|done|done|lia|].
  rewrite Z.add_0_l in Hrun. rewrite Z.add_0_r in Hrd, Hend.
  exists bs, q'. split; [|done]. unfold pipewrite. rewrite acquire_bind by done. fold s1.
  assert (Hw1 : with_pipe pi q s1 = s1) by (by apply (get_pipe_with pi s1 q)).
  rewrite Hw1 in Hrun.
  unfold mbind at 1, M_bind. cbn [w_env]. rewrite Hrun.
  change (with_pipe pi q' s1) with (set_k_held (LPipe pi :: k_held (with_pipe pi q' s)) (with_pipe pi q' s)).
  rewrite wake_and_release by done. change (k_cur (with_pipe pi q' s)) with (k_cur s).
  by rewrite (us_cur _ _ _ _ _ Hu).
Qed.

(** C20: reading takes from the front of the queue. When the pipe has data, or the write end
    is closed, [piperead] returns without sleeping: it moves up to [n] bytes from the front
    of the queue to the reader's memory at [addr], in order, and returns their number (so 0,
    end of file, when the queue is empty and the write end closed).  If an address is not
    mapped it stops there; the byte it was about to deliver is lost.  Writers asleep on the
    pipe become runnable. *)
Theorem piperead_drains pi addr n p r q s own fl env :
  user_of s own fl p r -> length (k_procs s) = NPROC -> no_proc_lock s -> LPipe pi ∉ k_held s ->
  k_pipes s !! pi = Some q -> pipe_ok q -> pipe_queue q <> [] \/ pi_writeopen q = 0 ->
  0 <= addr -> 0 <= n -> addr + n <= 2 ^ 64 ->
  exists k s1 q', piperead pi addr n (mkWorld s env) =
      Ok (Z.of_nat k) (mkWorld (set_k_procs (imap (wakes (Some p) (Some (ChPipeWrite pi))) (k_procs s))
        (with_pipe pi q' s1)) env) /\
    stored own fl r addr (take k (pipe_queue q)) s s1 /\ pipe_ok q' /\
    ((k = Nat.min (Z.to_nat n) (length (pipe_queue q)) /\ pipe_queue q' = drop k (pipe_queue q)) \/
     ((k < Nat.min (Z.to_nat n) (length (pipe_queue q)))%nat /\ pipe_queue q' = drop (S k) (pipe_queue q) /\
      translate (k_mem s) r (addr + Z.of_nat k) = None)).
Proof.
  intros Hu Hlen Hnp Hl Hq Hok Hdata Haddr Hn Htop.
  destruct (get_pipe_with pi s q Hq) as [_ Hg].
  set (h := LPipe pi :: k_held s). set (s1 := set_k_held h s).
  assert (Hlk : LKmem ∉ h) by (apply not_elem_of_cons; split; [done|apply Hu]).
  assert (Hu1 : user_of s1 own fl p r).
  { destruct Hu as [H1 H2 H3 H4 H5]. split; try done. by apply (vm_ok_frame s). }
  destruct (piperead_copy_run Hks pi addr p r own fl env Haddr (Z.to_nat n) 0 q s1 Hu1)
    as (k & s2 & q' & Hrun & Hst & Hok' & _ & _ & _ & _ & Hend); [lia|lia|done|].
  rewrite Z.add_0_r in Hst, Hend. rewrite Z.add_0_l in Hrun.
  set (s3 := set_k_held (k_held s) s2).
  assert (Hs2 : s2 = set_k_held h s3 /\ stored own fl r addr (take k (pipe_queue q)) s s3).
  { destruct Hst as [H1 (hd & m & ->) H3 H4 H5]. split; [unfold s3, s1; kst_eq|]. split; try done.
    - apply (vm_ok_frame (set_k_freelist hd (set_k_mem m s1))); [done..|apply Hu|exact H1].
    - exists hd, m. unfold s3, s1. kst_eq. }
  destruct Hs2 as [Hs2 Hst3]. clearbody s3. exists k, s3, q'. split; [|done].
  unfold piperead. rewrite acquire_bind by done. fold h s1.
  assert (Hw1 : with_pipe pi q s1 = s1) by (by apply (get_pipe_with pi s1 q)).
  rewrite Hw1 in Hrun.
  assert (Hwait : piperead_wait (S (length env)) pi (mkWorld s1 env) = Ok true (mkWorld s1 env)).
  { cbn [piperead_wait]. rewrite (run_bind _ _ _ q (mkWorld s1 env)) by (unfold pipe_of, kgets, gets; cbn; by rewrite <- Hg).
    rewrite pipe_empty_count, <- length_pipe_queue by done.
    destruct Hdata as [Hne| ->]; [|by rewrite andb_false_r].
    destruct (pipe_queue q); [done|]. done. }
  unfold mbind at 1, M_bind. cbn [w_env]. rewrite Hwait. cbn [negb].
  rewrite (run_bind _ _ _ _ _ Hrun). rewrite Hs2.
  assert (Hp3 : k_procs s3 = k_procs s /\ k_cur s3 = k_cur s /\ k_held s3 = k_held s).
  { destruct (sd_mem Hst3) as (hd & m & ->). done. }
  destruct Hp3 as (Hp3 & Hc3 & Hh3).
  change (with_pipe pi q' (set_k_held h s3)) with (set_k_held h (with_pipe pi q' s3)).
  assert (Hh : h = LPipe pi :: k_held (with_pipe pi q' s3)) by (unfold h; by rewrite <- Hh3).
  rewrite Hh, wake_and_release.
  - change (k_cur (with_pipe pi q' s3)) with (k_cur s3). change (k_procs (with_pipe pi q' s3)) with (k_procs s3).
    by rewrite Hp3, Hc3, (us_cur _ _ _ _ _ Hu).
  - cbn. by rewrite Hp3.
  - intros p' Hp'. cbn in Hp'. rewrite Hh3 in Hp'. by destruct (Hnp p').
  - cbn. by rewrite Hh3.
  - done.
Qed.

End PipeTheorems.

(** A pipe that holds one byte, 65, with both counters about to wrap around. *)
Definition demo_pi : Z := page 9.
Definition demo_ring : pipe := mkPipe (replicate 512 65) (2 ^ 32 - 2) (2 ^ 32 - 1) 1 1.
Definition demo_pipe : kst := with_pipe demo_pi demo_ring demo_proc.

Lemma demo_ring_ok : pipe_ok demo_ring /\ pipe_queue demo_ring = [65].
Proof. split; [split|]; vm_compute; (reflexivity || (split; congruence) || congruence). Qed.

Lemma demo_pipe_ok : exists own fl, user_of demo_pipe own fl 3 root1 /\
  length (k_procs demo_pipe) = NPROC /\ no_proc_lock demo_pipe /\ (LPipe demo_pi ∉ k_held demo_pipe) /\
  k_pipes demo_pipe !! demo_pi = Some demo_ring.
Proof.
  destruct demo_proc_ok as (own & fl & Hu & _ & Hlen & Hheld & _).
  destruct Hu as [H1 H2 H3 H4 H5].
  assert (F : forall q s, k_cur (with_pipe demo_pi q s) = k_cur s /\ k_procs (with_pipe demo_pi q s) = k_procs s /\
    k_mem (with_pipe demo_pi q s) = k_mem s /\ k_freelist (with_pipe demo_pi q s) = k_freelist s /\
    k_held (with_pipe demo_pi q s) = k_held s) by (intros; repeat split).
  destruct (F demo_ring demo_proc) as (F1 & F2 & F3 & F4 & F5). fold demo_pipe in *.
  assert (G : get_proc 3 demo_pipe = get_proc 3 demo_proc) by (unfold get_proc; rewrite F2; reflexivity).
  exists own, fl. split; [|split; [|split; [|split]]].
  - split.
    + rewrite F1. exact H1.
    + rewrite G. exact H2.
    + rewrite G. exact H3.
    + apply (vm_ok_frame demo_proc demo_pipe); [exact F3|exact F4|rewrite F5; exact (vo_lock _ _ _ H4)|exact H4].
    + exact H5.
  - rewrite F2. exact Hlen.
  - intros p. rewrite F5, Hheld. apply not_elem_of_nil.
  - rewrite F5, Hheld. apply not_elem_of_nil.
  - unfold demo_pipe, with_pipe. cbn [k_pipes set_k_pipes]. apply lookup_insert_eq.
Qed.

#[global] Opaque demo_pipe.

Lemma pipewrite_appends_witness : exists s' k, k <= 3 /\
  pipewrite demo_pi 16 3 (mkWorld demo_pipe []) = Ok k (mkWorld s' []).
Proof.
  destruct demo_pipe_ok as (own & fl & Hu & Hlen & Hnp & Hl & Hq). destruct demo_ring_ok as [Hok Hqueue].
  destruct (pipewrite_appends demo_syms_ok demo_pi 16 3 3 root1 demo_ring demo_pipe own fl [] Hu Hlen Hnp Hl Hq Hok)
    as (bs & q' & Hrun & _ & _ & _ & Hend); [discriminate|lia|lia|lia|rewrite Hqueue; cbn; unfold PIPESIZE; lia|].
  eexists _, _. split; [|exact Hrun]. clear - Hend. lia.
Defined.

Lemma piperead_drains_witness : exists s' k, (k <= 1)%nat /\
  piperead demo_pi 16 8 (mkWorld demo_pipe []) = Ok (Z.of_nat k) (mkWorld s' []).
Proof.
  destruct demo_pipe_ok as (own & fl & Hu & Hlen & Hnp & Hl & Hq). destruct demo_ring_ok as [Hok Hqueue].
  destruct (piperead_drains demo_syms_ok demo_pi 16 8 3 root1 demo_ring demo_pipe own fl [] Hu Hlen Hnp Hl Hq Hok)
    as (k & s1 & q' & Hrun & _ & _ & Hend); [left; rewrite Hqueue; discriminate|lia|lia|lia|].
  eexists _, k. split; [|exact Hrun]. rewrite Hqueue in Hend. cbn [length] in Hend. clear - Hend. lia.
Defined.
