(* ===== verification/File.v ===== *)
(** * Open files (kernel/file.c, pipealloc of kernel/pipe.c) *)

From stdpp Require Import base gmap list strings.
From Stdlib Require Import ZArith Lia.
From S2P Require Import Prelude Riscv Memory State Spinlock Sched Kalloc Vm Bio Log Fs Console Pipe.

Definition get_file (f : nat) (s : kst) : file := k_files s !!! f.
Definition file_of (f : nat) : K file := kgets (get_file f).
Definition file_upd (f : nat) (g : file -> file) : K unit :=
  kmodify (fun s => set_k_files (alter g f (k_files s)) s).
Definition file_slots : list nat := seq 0 NFILE.

(** Allocate a file structure. *)
Definition filealloc : K (option nat) :=
  acquire LFtable;;
  r ← for_until file_slots (fun f =>
        fl ← file_of f;
        if f_ref fl =? 0 then file_upd f (set_f_ref 1);; mret (Some f) else mret None);
  release LFtable;;
  mret r.

(** Increment ref count for file f. *)
Definition filedup (f : nat) : K nat :=
  acquire LFtable;;
  fl ← file_of f;
  if f_ref fl <? 1 then panic "filedup" else
  file_upd f (fun x => set_f_ref (f_ref x + 1) x);;
  release LFtable;;
  mret f.

Section File.
Context {KS : KSyms}.

(** The inode of a file that has one; a null pointer is a kernel page fault. *)
Definition file_ip (fl : file) : K nat :=
  match f_ip fl with Some i => mret i | None => panic "kerneltrap" end.

(** Close file f: decrement ref count, close when reaches 0. *)
Definition fileclose (f : nat) : K unit :=
  acquire LFtable;;
  fl ← file_of f;
  if f_ref fl <? 1 then panic "fileclose" else
  file_upd f (fun x => set_f_ref (f_ref x - 1) x);;
  ff ← file_of f;
  if 0 <? f_ref ff then release LFtable else
  file_upd f (set_f_ref 0);;
  file_upd f (set_f_type FD_NONE);;
  release LFtable;;
  match f_type ff with
  | FD_PIPE => pipeclose (f_pipe ff) (f_writable ff)
  | FD_INODE | FD_DEVICE =>
      begin_op;;
      ip ← file_ip ff;
      iput ip;;
      end_op
  | FD_NONE => mret tt
  end.

(** The bytes of a [struct stat]: dev, ino, type, nlink at offsets 0, 4, 8, 10, and
    size at offset 16 after padding. *)
Definition stat_bytes (st : stat) : list Z :=
  le_split 4 (st_dev st) ++ le_split 4 (st_ino st) ++ le_split 2 (st_type st) ++
  le_split 2 (st_nlink st) ++ replicate 4 0 ++ le_split 8 (st_size st).

(** Get metadata about file f. *)
Definition filestat (f : nat) (addr : Z) : K Z :=
  p ← curproc;
  fl ← file_of f;
  match f_type fl with
  | FD_INODE | FD_DEVICE =>
      ip ← file_ip fl;
      ilock ip;;
      ino ← inode_of ip;
      let st := stati ino in
      iunlock ip;;
      pr ← proc_of p;
      r ← copyout (p_pagetable pr) addr (stat_bytes st);
      if r <? 0 then mret (-1) else mret 0
  | _ => mret (-1)
  end.

(** [devsw[major]], when [major] is in range. *)
Definition dev_of (major : Z) : K (option device) :=
  if (major <? 0) || (NDEV <=? major) then mret None
  else kgets (fun s => k_devsw s !! Z.to_nat major ≫= id).

(** Read from file f. *)
Definition fileread (f : nat) (addr n : Z) : K Z :=
  fl ← file_of f;
  if f_readable fl =? 0 then mret (-1) else
  match f_type fl with
  | FD_PIPE => piperead (f_pipe fl) addr n
  | FD_DEVICE =>
      d ← dev_of (f_major fl);
      match d with
      | None => mret (-1)
      | Some DevConsole => consoleread (DUser addr) n
      end
  | FD_INODE =>
      ip ← file_ip fl;
      ilock ip;;
      r ← readi ip (DUser addr) (f_off fl) (u32 n);
      when (0 <? r.1) (file_upd f (fun x => set_f_off (u32 (f_off x + r.1)) x));;
      iunlock ip;;
      mret r.1
  | FD_NONE => panic "fileread"
  end.

(** The loop of [filewrite] for an inode: the final [i]. *)
Definition filewrite_max : Z := ((MAXOPBLOCKS - 1 - 1 - 2) / 2) * BSIZE.
Fixpoint filewrite_loop (fuel : nat) (f ip : nat) (addr i n : Z) : K Z :=
  if n <=? i then mret i else
  match fuel with
  | O => block
  | S fuel =>
      let n1 := Z.min (n - i) filewrite_max in
      begin_op;;
      ilock ip;;
      fl ← file_of f;
      r ← writei ip (SUser (u64 (addr + i))) (f_off fl) n1;
      when (0 <? r) (file_upd f (fun x => set_f_off (u32 (f_off x + r)) x));;
      iunlock ip;;
      end_op;;
      if negb (r =? n1) then mret i
      else filewrite_loop fuel f ip addr (i + r) n
  end.

(** Write to file f. *)
Definition filewrite (f : nat) (addr n : Z) : K Z :=
  fl ← file_of f;
  if f_writable fl =? 0 then mret (-1) else
  match f_type fl with
  | FD_PIPE => pipewrite (f_pipe fl) addr n
  | FD_DEVICE =>
      d ← dev_of (f_major fl);
      match d with
      | None => mret (-1)
      | Some DevConsole => consolewrite (SUser addr) n
      end
  | FD_INODE =>
      ip ← file_ip fl;
      i ← filewrite_loop (Z.to_nat n) f ip addr 0 n;
      mret (if i =? n then n else -1)
  | FD_NONE => panic "filewrite"
  end.

(** [pipealloc] (pipe.c): two files on a new pipe; [None] is the result -1. *)
Definition pipealloc : K (option (nat * nat)) :=
  f0 ← filealloc;
  match f0 with
  | None => mret None
  | Some f0 =>
      f1 ← filealloc;
      match f1 with
      | None => fileclose f0;; mret None
      | Some f1 =>
          pi ← kalloc;
          if pi =? 0 then fileclose f0;; fileclose f1;; mret None
          else
            kmodify (fun s => set_k_pipes (<[pi := mkPipe (replicate 512 5) 0 0 1 1]> (k_pipes s)) s);;
            file_upd f0 (fun x => set_f_pipe pi (set_f_writable 0 (set_f_readable 1 (set_f_type FD_PIPE x))));;
            file_upd f1 (fun x => set_f_pipe pi (set_f_writable 1 (set_f_readable 0 (set_f_type FD_PIPE x))));;
            mret (Some (f0, f1))
      end
  end.

End File.
