(* ===== verification/Proc.v ===== *)
(** * Processes (kernel/proc.c: procinit .. wait) *)

From stdpp Require Import base gmap list strings.
From Stdlib Require Import ZArith Lia.
From S2P Require Import Prelude Riscv Memory State Spinlock Sched Kalloc Vm Bio Log Fs Console Pipe File.

(** ** The trapframe page (proc.h): byte offsets of the fields of [struct trapframe] *)

Definition TF_kernel_satp : Z := 0.
Definition TF_kernel_sp : Z := 8.
Definition TF_kernel_trap : Z := 16.
Definition TF_epc : Z := 24.
Definition TF_kernel_hartid : Z := 32.
Definition TF_ra : Z := 40.
Definition TF_sp : Z := 48.
Definition TF_a0 : Z := 112.
Definition TF_a1 : Z := 120.
Definition TF_a2 : Z := 128.
Definition TF_a3 : Z := 136.
Definition TF_a4 : Z := 144.
Definition TF_a5 : Z := 152.
Definition TF_a7 : Z := 168.
Definition TF_SIZE : nat := 288.

(** [p->trapframe->field], and an assignment to it. *)
Definition tf_get (p : nat) (field : Z) : K Z :=
  pr ← proc_of p; ldM64 (p_trapframe pr + field).
Definition tf_set (p : nat) (field v : Z) : K unit :=
  pr ← proc_of p; stM64 (p_trapframe pr + field) v.

Section Proc.
Context {KS : KSyms}.

(** Initialize the proc table at boot time. *)
Definition procinit : K unit :=
  for_each proc_slots (fun p => proc_upd p (set_p_kstack (KSTACK (Z.of_nat p)))).

Definition allocpid : K Z :=
  acquire LPid;;
  pid ← kgets k_nextpid;
  kmodify (fun s => set_k_nextpid (s32 (k_nextpid s + 1)) s);;
  release LPid;;
  mret pid.

(** Create a user page table for a process, with no user memory, but with trampoline
    pages. *)
Definition proc_pagetable (p : nat) : K Z :=
  pagetable ← uvmcreate;
  if pagetable =? 0 then mret 0 else
  r ← mappages pagetable TRAMPOLINE PGSIZE ksym_trampoline (Z.lor PTE_R PTE_X);
  if r <? 0 then uvmfree pagetable 0;; mret 0 else
  pr ← proc_of p;
  r ← mappages pagetable TRAPFRAME PGSIZE (p_trapframe pr) (Z.lor PTE_R PTE_W);
  if r <? 0 then
    uvmunmap pagetable TRAMPOLINE 1 false;;
    uvmfree pagetable 0;;
    mret 0
  else mret pagetable.

(** Free a process's page table, and the physical memory it refers to. *)
Definition proc_freepagetable (pagetable sz : Z) : K unit :=
  uvmunmap pagetable TRAMPOLINE 1 false;;
  uvmunmap pagetable TRAPFRAME 1 false;;
  uvmfree pagetable sz.

(** Free a proc structure and the data hanging from it, including user pages. *)
Definition freeproc (p : nat) : K unit :=
  pr ← proc_of p;
  when (negb (p_trapframe pr =? 0)) (kfree (p_trapframe pr));;
  proc_upd p (set_p_trapframe 0);;
  when (negb (p_backupTrapframe pr =? 0)) (kfree (p_backupTrapframe pr));;
  proc_upd p (set_p_backupTrapframe 0);;
  when (negb (p_pagetable pr =? 0)) (proc_freepagetable (p_pagetable pr) (p_sz pr));;
  proc_upd p (set_p_pagetable 0);;
  proc_upd p (set_p_sz 0);;
  proc_upd p (set_p_pid 0);;
  proc_upd p (set_p_parent None);;
  proc_upd p (fun x => set_p_name (<[0%nat := 0]> (p_name x)) x);;
  proc_upd p (set_p_chan None);;
  proc_upd p (set_p_killed 0);;
  proc_upd p (set_p_xstate 0);;
  proc_upd p (set_p_state UNUSED).

(** Look in the process table for an UNUSED proc; with its lock held. *)
Definition find_unused : K (option nat) :=
  for_until proc_slots (fun p =>
    acquire (LProc p);;
    pr ← proc_of p;
    if bool_decide (p_state pr = UNUSED) then mret (Some p)
    else release (LProc p);; mret None).

(** If found, initialize state required to run in the kernel, and return with its lock
    held; [None] if there are no free procs or a memory allocation fails. *)
Definition allocproc : K (option nat) :=
  r ← find_unused;
  match r with
  | None => mret None
  | Some p =>
      pid ← allocpid;
      proc_upd p (set_p_pid pid);;
      proc_upd p (set_p_state USED);;
      tf ← kalloc;
      proc_upd p (set_p_trapframe tf);;
      if tf =? 0 then freeproc p;; release (LProc p);; mret None else
      pt ← proc_pagetable p;
      proc_upd p (set_p_pagetable pt);;
      if pt =? 0 then freeproc p;; release (LProc p);; mret None else
      proc_upd p (fun x => set_p_context
        (mkContext ksym_forkret (p_kstack x + PGSIZE) (replicate 12 0)) x);;
      proc_upd p (set_p_signalMask 0);;
      proc_upd p (set_p_pendingSignals 0);;
      proc_upd p (set_p_sigHandlerFlag 0);;
      proc_upd p (set_p_frozen 0);;
      btf ← kalloc;
      proc_upd p (set_p_backupTrapframe btf);;
      for_each (seq 0 32) (fun i =>
        proc_upd p (fun x => set_p_signalHandlers (<[i := SIG_DFL]> (p_signalHandlers x)) x);;
        proc_upd p (fun x => set_p_sigMaskArray (<[i := 0]> (p_sigMaskArray x)) x));;
      mret (Some p)
  end.

(** The user program that calls exec("/init"). *)
Definition initcode : list Z :=
  [0x17; 0x05; 0x00; 0x00; 0x13; 0x05; 0x45; 0x02;
   0x97; 0x05; 0x00; 0x00; 0x93; 0x85; 0x35; 0x02;
   0x93; 0x08; 0x70; 0x00; 0x73; 0x00; 0x00; 0x00;
   0x93; 0x08; 0x20; 0x00; 0x73; 0x00; 0x00; 0x00;
   0xef; 0xf0; 0x9f; 0xff; 0x2f; 0x69; 0x6e; 0x69;
   0x74; 0x00; 0x00; 0x24; 0x00; 0x00; 0x00; 0x00;
   0x00; 0x00; 0x00; 0x00].

(** [safestrcpy(p->name, t, sizeof(p->name))] *)
Definition set_name (t : list Z) (x : proc) : proc :=
  set_p_name (splice (p_name x) 0 (safestrcpy (str_of_list t) 16)) x.

(** Set up first user process. *)
Definition userinit : K unit :=
  r ← allocproc;
  match r with
  | None => panic "kerneltrap"
  | Some p =>
      kmodify (set_k_initproc (Some p));;
      pr ← proc_of p;
      uvminit (p_pagetable pr) initcode;;
      proc_upd p (set_p_sz PGSIZE);;
      tf_set p TF_epc 0;;
      tf_set p TF_sp PGSIZE;;
      proc_upd p (set_name (bytes_of "initcode"));;
      cwd ← namei (bytes_of "/");
      proc_upd p (set_p_cwd cwd);;
      proc_upd p (set_p_state RUNNABLE);;
      release (LProc p)
  end.

(** Grow or shrink user memory by n bytes. *)
Definition growproc (n : Z) : K Z :=
  p ← curproc;
  pr ← proc_of p;
  let sz := u32 (p_sz pr) in
  if 0 <? n then
    r ← uvmalloc (p_pagetable pr) sz (u32 (sz + n));
    let sz := u32 r in
    if sz =? 0 then mret (-1)
    else proc_upd p (set_p_sz sz);; mret 0
  else if n <? 0 then
    r ← uvmdealloc (p_pagetable pr) sz (u32 (sz + n));
    proc_upd p (set_p_sz (u32 r));; mret 0
  else proc_upd p (set_p_sz sz);; mret 0.

(** Create a new process, copying the parent. *)
Definition fork : K Z :=
  p ← curproc;
  r ← allocproc;
  match r with
  | None => mret (-1)
  | Some np =>
      pp ← proc_of p;
      cp ← proc_of np;
      e ← uvmcopy (p_pagetable pp) (p_pagetable cp) (p_sz pp);
      if e <? 0 then freeproc np;; release (LProc np);; mret (-1) else
      proc_upd np (set_p_sz (p_sz pp));;
      proc_upd np (set_p_signalMask (p_signalMask pp));;
      for_each (seq 0 32) (fun i =>
        proc_upd np (fun x => set_p_signalHandlers
          (<[i := p_signalHandlers pp !!! i]> (p_signalHandlers x)) x);;
        proc_upd np (fun x => set_p_sigMaskArray
          (<[i := p_sigMaskArray pp !!! i]> (p_sigMaskArray x)) x));;
      memM (fun m => memmove m (p_trapframe cp) (p_trapframe pp) TF_SIZE);;
      tf_set np TF_a0 0;;
      for_each (seq 0 NOFILE) (fun i =>
        match p_ofile pp !! i ≫= id with
        | Some f =>
            f ← filedup f;
            proc_upd np (fun x => set_p_ofile (<[i := Some f]> (p_ofile x)) x)
        | None => mret tt
        end);;
      (match p_cwd pp with
       | Some d => d ← idup d; proc_upd np (set_p_cwd (Some d))
       | None => panic "kerneltrap"
       end);;
      proc_upd np (set_name (p_name pp));;
      c ← proc_of np;
      let pid := p_pid c in
      release (LProc np);;
      acquire LWait;;
      proc_upd np (set_p_parent (Some p));;
      release LWait;;
      acquire (LProc np);;
      proc_upd np (set_p_state RUNNABLE);;
      release (LProc np);;
      mret pid
  end.

(** Pass p's abandoned children to init. *)
Definition reparent (p : nat) : K unit :=
  for_each proc_slots (fun pp =>
    pr ← proc_of pp;
    when (bool_decide (p_parent pr = Some p)) (
      ip ← kgets k_initproc;
      proc_upd pp (set_p_parent ip);;
      wakeup_ptr (ChProc <$> ip))).

(** Exit the current process.  Does not return. *)
Definition exit (status : Z) : K unit :=
  p ← curproc;
  ip ← kgets k_initproc;
  if bool_decide (ip = Some p) then panic "init exiting" else
  for_each (seq 0 NOFILE) (fun fd =>
    pr ← proc_of p;
    match p_ofile pr !! fd ≫= id with
    | Some f =>
        fileclose f;;
        proc_upd p (fun x => set_p_ofile (<[fd := None]> (p_ofile x)) x)
    | None => mret tt
    end);;
  begin_op;;
  pr ← proc_of p;
  (match p_cwd pr with Some d => iput d | None => panic "kerneltrap" end);;
  end_op;;
  proc_upd p (set_p_cwd None);;
  acquire LWait;;
  reparent p;;
  pr ← proc_of p;
  wakeup_ptr (ChProc <$> p_parent pr);;
  acquire (LProc p);;
  proc_upd p (set_p_xstate status);;
  proc_upd p (set_p_state ZOMBIE);;
  release LWait;;
  sched;;
  panic "zombie exit".

(** One scan of the table by [wait]: [inl r] is a return with value [r] (all locks
    dropped), [inr havekids] the end of the scan. *)
Fixpoint wait_scan (slots : list nat) (p : nat) (addr : Z) (havekids : bool) : K (Z + bool) :=
  match slots with
  | [] => mret (inr havekids)
  | np :: slots =>
      c ← proc_of np;
      if bool_decide (p_parent c = Some p) then
        acquire (LProc np);;
        c ← proc_of np;
        if bool_decide (p_state c = ZOMBIE) then
          let pid := p_pid c in
          pp ← proc_of p;
          e ← (if negb (addr =? 0) then
                 r ← copyout (p_pagetable pp) addr (le_split 4 (p_xstate c));
                 mret (r <? 0)
               else mret false);
          if e : bool then
            release (LProc np);; release LWait;; mret (inl (-1))
          else
            freeproc np;;
            release (LProc np);;
            release LWait;;
            mret (inl pid)
        else release (LProc np);; wait_scan slots p addr true
      else wait_scan slots p addr havekids
  end.

(** The [for(;;)] of [wait]; each further turn follows a sleep. *)
Fixpoint wait_loop (fuel : nat) (p : nat) (addr : Z) : K Z :=
  match fuel with
  | O => block
  | S fuel =>
      r ← wait_scan proc_slots p addr false;
      match r with
      | inl v => mret v
      | inr havekids =>
          pr ← proc_of p;
          if negb havekids || negb (p_killed pr =? 0) then release LWait;; mret (-1)
          else sleep (ChProc p) LWait;; wait_loop fuel p addr
      end
  end.

(** Wait for a child process to exit and return its pid. *)
Definition wait (addr : Z) : K Z :=
  p ← curproc;
  acquire LWait;;
  fuel ← gets (fun w => S (length (w_env w)));
  wait_loop fuel p addr.

End Proc.
