(* ===== verification/ProcMem.v ===== *)
(** * The memory of a process (kernel/proc.c: proc_pagetable, proc_freepagetable)

    [space] is what the page table of a process maps: its user pages, the trampoline and
    its trapframe, and nothing else.  [builds] is what a construction of a new address
    space does to the rest of the machine, whatever part of it is done; tearing such an
    address space down gives back exactly the pages that went into it. *)

From stdpp Require Import base gmap list strings.
From Stdlib Require Import ZArith Lia.
From S2P Require Import Prelude Riscv Memory State Spinlock Sched Kalloc Vm PageTable UserMem Uvm Freewalk.
From S2P Require Import Bio Log Fs Console Pipe File Proc.

#[local] Set Warnings "-clear-no-such-hyp".

(** kernel.ld: the trampoline is a page of the kernel's text. *)
Definition trampoline_ok (KS : KSyms) : Prop :=
  ksym_trampoline mod PGSIZE = 0 /\ KERNBASE <= ksym_trampoline < ksym_end.

Definition TEXT_PERM : Z := Z.lor PTE_R PTE_X.
Definition FRAME_PERM : Z := Z.lor PTE_R PTE_W.

Section ProcMem.
Context {KS : KSyms} (Hks : ksyms_ok KS) `{PA : !PageAllocator kalloc kfree}.

(** ** Kernel pages in a user page table *)

(** A page without PTE_U is mapped: table pages may be needed. *)
Lemma map_kernel_page r vpn pa perm s own fl env :
  vm_ok s own fl -> is_root own r -> 0 <= vpn -> (vpn + 1) * PGSIZE <= MAXVA ->
  0 <= pa < PHYSTOP -> pa mod PGSIZE = 0 -> 0 <= perm < 1024 -> has perm RWX = true ->
  has perm PTE_U = false -> pte_of (k_mem s) r (vpn * PGSIZE) = 0 ->
  exists e s' own' fl',
    mappages r (vpn * PGSIZE) PGSIZE pa perm (mkWorld s env) = Ok e (mkWorld s' env) /\
    grows r (fun _ => False) s own fl s' own' fl' /\ same_pte_but own s r vpn s' /\
    ((e = 0 /\ (length fl <= length fl' + 2)%nat /\ pte_of (k_mem s') r (vpn * PGSIZE) = mk_pte pa perm) \/
     (e = -1 /\ (length fl < 2)%nat /\ pte_of (k_mem s') r (vpn * PGSIZE) = 0)).
Proof.
  intros Hok Hr Hvpn Hmax Hpa Hal Hperm HRWX HU Hfree.
  assert (HPG : PGSIZE = 4096) by done. destruct (page_index vpn) as [Hdiv Hmod].
  assert (Hn : (vpn * PGSIZE + PGSIZE - 1) / PGSIZE - vpn * PGSIZE / PGSIZE = 0).
  { rewrite Hdiv. replace (vpn * PGSIZE + PGSIZE - 1) with (4095 + vpn * PGSIZE) by lia.
    rewrite Z.div_add by done. rewrite HPG. change (4095 / 4096) with 0. lia. }
  assert (Hdown : PGROUNDDOWN (vpn * PGSIZE) = vpn * PGSIZE) by (by rewrite PGROUNDDOWN_div, Hdiv).
  destruct (mappages_spec Hks r perm false env Hperm HRWX ltac:(congruence) (vpn * PGSIZE) PGSIZE pa s own fl)
    as (e & k & s' & own' & fl' & Hrun & G & Hm & Ho & He); rewrite ?Hn, ?Hdown in *; try done; try lia.
  - unfold PHYSTOP, KERNBASE in Hpa. lia.
  - intros i Hi. replace i with 0 by lia. rewrite Z.mul_0_l, Z.add_0_r, Hfree. done.
  - exists e, s', own', fl'. split; [done|]. split.
    { eapply grows_mono; [|done]. by intros x []. }
    assert (Hin : 0 <= vpn * PGSIZE < MAXVA) by lia.
    destruct He as [(-> & -> & Hlen)|(-> & Hk & -> & Hlen)].
    + split; [intros r' va Hr' Hva Hne; rewrite Hm, Hdiv, decide_False by (try done; lia); done|].
      left. split; [done|]. split; [lia|]. rewrite Hm, Hdiv, decide_True by (try done; lia). f_equal. lia.
    + assert (k = 0) as -> by lia.
      assert (Hsame : forall r' va, is_root own r' -> 0 <= va < MAXVA -> pte_of (k_mem s') r' va = pte_of (k_mem s) r' va)
        by (intros r' va Hr' Hva; rewrite Hm, decide_False by (try done; lia); done).
      split; [intros r' va Hr' Hva _; by apply Hsame|]. right. split; [done|]. split; [lia|]. by rewrite Hsame.
Qed.

(** [uvmunmap] of one page without freeing it: the entry goes, the page stays. *)
Lemma unmap_kernel_page r vpn s own fl env :
  vm_ok s own fl -> is_root own r -> 0 <= vpn -> (vpn + 1) * PGSIZE <= MAXVA ->
  has (pte_of (k_mem s) r (vpn * PGSIZE)) PTE_V = true ->
  has (pte_of (k_mem s) r (vpn * PGSIZE)) PTE_U = false ->
  (forall q, own !! q <> Some (OUser r vpn)) ->
  exists s', uvmunmap r (vpn * PGSIZE) 1 false (mkWorld s env) = Ok tt (mkWorld s' env) /\
    vm_ok s' own fl /\ mem_only s s' /\ upd_pte own s r (vpn * PGSIZE) 0 s' /\
    (forall p, p mod PGSIZE = 0 -> (forall r' l pre, own !! p <> Some (OTable r' l pre)) ->
       same_page (k_mem s) (k_mem s') p).
Proof.
  intros Hok Hr Hvpn Hmax HV HU Hnot. pose proof Hok as [Hinv Hav Hfree Hlock].
  assert (HPG : PGSIZE = 4096) by done. destruct (page_index vpn) as [Hdiv Hmod].
  set (va := vpn * PGSIZE) in *. assert (Hva : 0 <= va < MAXVA) by lia.
  assert (Hr' : own !! r = Some (OTable r 2 (prefix 2 va))) by (by rewrite prefix_2).
  destruct (walk_addr_leaf _ _ _ _ Hinv 2 r Hr') as [[_ H0]|(p & Hp & Hw & Hpte)].
  { unfold pte_of in HV. by rewrite H0, has_0 in HV. }
  fold (pte_of (k_mem s) r va) in Hpte. rewrite Hpte in HV, HU.
  pose proof (PX_bound 0 va ltac:(lia)) as Hb. pose proof (entry_off _ Hb) as Hoff.
  assert (Hpok : page_ok p) by (by eapply (pi_page _ _ Hinv)). pose proof (proj1 Hpok) as Hpa.
  destruct (pi_leaf _ _ Hinv _ _ _ _ Hp Hb HV) as [HR _].
  assert (Hch : leaf_change own own r (va / PGSIZE) 0).
  { split; rewrite ?has_0; try done.
    - intros x o Hx. by eapply (pi_page _ _ Hinv).
    - intros x r' vpn' Hx. right. split; [|done]. destruct (decide (r' = r)) as [->|]; [right|by left].
      rewrite Hdiv. intros ->. by eapply Hnot. }
  destruct (leaf_write Hks s own own fl p r va 0) as [Hok' Hu]; try done.
  { intros Hin. apply Hfree in Hin. congruence. }
  eexists. split.
  { unfold uvmunmap. rewrite Hmod. cbn [negb Z.eqb].
    change MAXVA with (2 ^ 38) in Hva, Hmax. unfold u64. rewrite Z.mod_small by lia.
    rewrite page_iters_count by done. change (Z.to_nat 1) with 1%nat. cbn [seq for_each].
    change (Z.of_nat 0) with 0. rewrite Z.mul_0_l, Z.add_0_r.
    erewrite run_bind; [reflexivity|].
    erewrite run_bind by (rewrite walk_noalloc by (change MAXVA with (2 ^ 38); lia); cbn [w_ks]; by rewrite Hw).
    rewrite (proj2 (Z.eqb_neq _ 0)) by (apply (page_ok_pos Hks) in Hpok; lia).
    erewrite run_bind by done. cbn [w_ks]. rewrite HV, (flags_leaf _ HR). cbn [negb when]. reflexivity. }
  split; [exact Hok'|]. split; [apply mem_only_set_mem|]. split; [exact Hu|].
  intros x Hx Hnt. cbn. apply same_page_st64; [done..| |lia|lia]. intros ->. by eapply Hnt.
Qed.

(** ** Building an address space *)

(** What the construction of a process with the address space [r] does to everything else:
    its pages come from the free pages, none of which is lost, and no other address space
    changes.  [xs] are the pages taken for the kernel, the process's trapframes. *)
Record builds (r : Z) (xs : list Z) (s : kst) (own : gmap Z owner) (fl : list Z)
    (s' : kst) (own' : gmap Z owner) (fl' : list Z) : Prop := {
  bd_ok : vm_ok s' own' fl';
  bd_sub : own ⊆ own';
  bd_new p o : own' !! p = Some o -> own !! p = None -> p ∈ fl /\ root_of o = r;
  bd_all p : p ∈ fl -> p ∈ fl' \/ is_Some (own' !! p) \/ p ∈ xs;
  bd_frames x : x ∈ xs -> x ∈ fl /\ (x ∉ fl') /\ own' !! x = None;
  bd_fl p : p ∈ fl' -> p ∈ fl;
  bd_pte r' va : r' <> r -> is_root own r' -> 0 <= va < MAXVA ->
    pte_of (k_mem s') r' va = pte_of (k_mem s) r' va;
  bd_same p : p mod PGSIZE = 0 -> p ∉ fl -> (forall r' l pre, own !! p <> Some (OTable r' l pre)) ->
    same_page (k_mem s) (k_mem s') p
}.

Lemma builds_refl r s own fl : vm_ok s own fl -> builds r [] s own fl s own fl.
Proof. intros H. split; try done; [congruence|by left|by intros x ?%not_elem_of_nil]. Qed.

Lemma builds_trans r xs ys s1 o1 f1 s2 o2 f2 s3 o3 f3 :
  builds r xs s1 o1 f1 s2 o2 f2 -> builds r ys s2 o2 f2 s3 o3 f3 -> builds r (xs ++ ys) s1 o1 f1 s3 o3 f3.
Proof.
  intros A B.
  assert (Hold : forall p o, o2 !! p = Some o -> o3 !! p = Some o)
    by (intros p o Ho; eapply lookup_weaken; [done|apply B]).
  split.
  - apply B.
  - etrans; [apply A|apply B].
  - intros p o Ho Hn. destruct (o2 !! p) as [o'|] eqn:H2.
    + apply Hold in H2 as H3. rewrite Ho in H3. injection H3 as <-. by eapply bd_new.
    + destruct (bd_new _ _ _ _ _ _ _ _ B p o Ho H2) as [Hp Hroot]. split; [by eapply bd_fl|done].
  - intros p Hp. rewrite elem_of_app. destruct (bd_all _ _ _ _ _ _ _ _ A p Hp) as [Hin|[[o Ho]|Hx]].
    + destruct (bd_all _ _ _ _ _ _ _ _ B p Hin) as [?|[?|?]]; [by left|right; by left|right; right; by right].
    + right; left. exists o. by apply Hold.
    + right; right. by left.
  - intros x [Hx|Hx]%elem_of_app.
    + destruct (bd_frames _ _ _ _ _ _ _ _ A x Hx) as (H1 & H2 & H3). split; [done|].
      split; [intros Hin; by apply H2, (bd_fl _ _ _ _ _ _ _ _ B)|].
      destruct (o3 !! x) as [o|] eqn:Ho; [|done]. by destruct (bd_new _ _ _ _ _ _ _ _ B x o Ho H3).
    + destruct (bd_frames _ _ _ _ _ _ _ _ B x Hx) as (H1 & H2 & H3). split; [by eapply bd_fl|done].
  - intros p Hp. eapply bd_fl; [exact A|]. by eapply bd_fl.
  - intros r' va Hne Hr Hva. rewrite (bd_pte _ _ _ _ _ _ _ _ B); [by eapply bd_pte|done| |done].
    eapply is_root_sub; [apply A|done].
  - intros p Hal Hni Hnt. eapply same_page_trans; [by eapply (bd_same _ _ _ _ _ _ _ _ A)|].
    apply (bd_same _ _ _ _ _ _ _ _ B); [done|..].
    + intros Hin. by apply Hni, (bd_fl _ _ _ _ _ _ _ _ A).
    + intros r' l pre Ho. destruct (o1 !! p) as [o|] eqn:H1.
      * eapply lookup_weaken in H1 as H2; [|apply A]. rewrite Ho in H2. injection H2 as <-. by eapply Hnt.
      * by apply (bd_new _ _ _ _ _ _ _ _ A) in Ho as [? _].
Qed.

Lemma grows_builds r vpn s own fl s' own' fl' :
  grows r (fun _ => False) s own fl s' own' fl' -> same_pte_but own s r vpn s' ->
  builds r [] s own fl s' own' fl'.
Proof.
  intros G Hbut. split; try apply G.
  - intros p o Ho Hn. by destruct (gr_new G p o Ho Hn) as [[? (l & pre & ->)]|[[] _]].
  - intros p Hp. destruct (gr_all G p Hp); [by left|right; by left].
  - by intros x ?%not_elem_of_nil.
  - intros p Hp. destruct (gr_fl G) as [u ->]. apply elem_of_app. by right.
  - intros r' va Hne Hr Hva. apply Hbut; [done..|]. by intros [].
Qed.

Lemma added_builds r lo k s own fl s' own' fl' :
  added r lo k s own fl s' own' fl' -> builds r [] s own fl s' own' fl'.
Proof.
  intros A. split; try apply A.
  - intros p o Ho Hn. split; [by eapply (ad_new A)|by eapply (ad_root A)].
  - intros p Hp. destruct (ad_all A p Hp); [by left|right; by left].
  - by intros x ?%not_elem_of_nil.
  - intros r' va Hne Hr Hva. apply (ad_pte A); [done..|]. by intros [].
Qed.

Lemma undone_builds r s own fl s' own' fl' :
  vm_ok s' own' fl' -> undone r s own fl s' own' fl' -> builds r [] s own fl s' own' fl'.
Proof.
  intros Hok U. split; try apply U; [done|..].
  - intros p Hp. destruct (un_all _ _ _ _ _ _ _ U p Hp); [by left|right; by left].
  - by intros x ?%not_elem_of_nil.
  - intros r' va _. apply U.
Qed.

Lemma uvmcreate_builds s own r fl env :
  vm_ok s own (r :: fl) ->
  exists s', uvmcreate (mkWorld s env) = Ok r (mkWorld s' env) /\ 0 < r /\ own !! r = None /\
    builds r [] s own (r :: fl) s' (<[r := OTable r 2 0]> own) fl /\ mem_only s s' /\
    forall va, pte_of (k_mem s') r va = 0.
Proof.
  intros Hok. destruct (uvmcreate_spec Hks s own r fl env Hok) as (s' & Hrun & Hok' & Hn & Hmo & Hsp & H0 & Hout).
  assert (Hrok : page_ok r) by (eapply avail_page_ok; [apply Hok|left]).
  exists s'. split; [done|]. split; [apply (page_ok_pos Hks) in Hrok; lia|]. split; [done|]. split; [|done].
  split; try done.
  - by apply insert_subseteq.
  - intros p o. rewrite lookup_insert_Some. intros [[<- <-]|[_ Ho]] Hp; [split; [left|done]|congruence].
  - intros p [->|Hp]%elem_of_cons; [right; left|by left]. rewrite lookup_insert_eq. by eexists.
  - by intros x ?%not_elem_of_nil.
  - intros p Hp. by right.
  - intros r' va _ Hr Hva. by eapply same_pte_of.
  - intros p Hp [Hpr _]%not_elem_of_cons _. apply (outside_same_page r); [apply Hrok|done|congruence|done].
Qed.

(** ** Tearing it down again *)

Lemma root_of_root m own p o : pt_inv m own -> own !! p = Some o -> is_root own (root_of o).
Proof.
  intros Hinv Ho.
  assert (Htab : forall k l q r pre, (2 - l = k)%nat -> own !! q = Some (OTable r l pre) -> is_root own r).
  { induction k as [|k IH]; intros l q r pre Hk Hq;
      (destruct (pi_table _ _ Hinv _ _ _ _ Hq) as [(-> & -> & ->)|(Hl & x & Hx & _)]; [done|]); [lia|].
    apply (IH (S l) x r (pre / 512)); [lia|done]. }
  destruct o as [r l pre|r vpn]; cbn [root_of]; [by eapply Htab|].
  destruct (pi_user _ _ Hinv _ _ _ Ho) as (x & Hx & _). by eapply Htab.
Qed.

(** The machine is as before; the free pages may be in another order. *)
Record restored (s : kst) (own : gmap Z owner) (fl : list Z) (s' : kst) (fl' : list Z) : Prop := {
  rs_ok : vm_ok s' own fl';
  rs_fl : fl' ≡ₚ fl;
  rs_pte r va : is_root own r -> 0 <= va < MAXVA -> pte_of (k_mem s') r va = pte_of (k_mem s) r va;
  rs_same p : p mod PGSIZE = 0 -> p ∉ fl -> (forall r' l pre, own !! p <> Some (OTable r' l pre)) ->
    same_page (k_mem s) (k_mem s') p
}.

(** The address space [r] is gone; its pages are free, and so are the kernel pages [xs]. *)
Record drops (r : Z) (xs : list Z) (s : kst) (own : gmap Z owner) (fl : list Z)
    (s' : kst) (fl' : list Z) : Prop := {
  dr_ok : vm_ok s' (own_drop own r) fl';
  dr_fl q : q ∈ fl' <-> q ∈ fl \/ q ∈ xs \/ exists o, own !! q = Some o /\ root_of o = r;
  dr_pte r' va : r' <> r -> is_root own r' -> 0 <= va < MAXVA ->
    pte_of (k_mem s') r' va = pte_of (k_mem s) r' va;
  dr_same p : p mod PGSIZE = 0 -> p ∉ fl' -> (forall r' l pre, own !! p <> Some (OTable r' l pre)) ->
    same_page (k_mem s) (k_mem s') p
}.

Lemma uvmfree_drops r sz s own fl env :
  vm_ok s own fl -> is_root own r -> 0 <= sz <= MAXVA ->
  user_mapped own r 0 (npages sz) -> maps_below (k_mem s) r (npages sz) ->
  exists s' fl', uvmfree r sz (mkWorld s env) = Ok tt (mkWorld s' env) /\ mem_only s s' /\
    drops r [] s own fl s' fl'.
Proof.
  intros Hok Hr Hsz Hmap Hb.
  destruct (uvmfree_spec Hks r sz s own fl env Hok Hr Hsz Hmap Hb)
    as (s' & ps & Hrun & Hok' & Hmo & Hps & Hpte & Hsame).
  exists s', (ps ++ fl). split; [done|]. split; [done|]. split; [done| |done|].
  - intros q. rewrite elem_of_app, Hps, elem_of_nil. naive_solver.
  - intros p Hp Hni Hnt. apply Hsame; [done| |done]. intros Hin. apply Hni, elem_of_app. by left.
Qed.

Section Teardown.
Context (r : Z) (s : kst) (own : gmap Z owner) (fl : list Z) (s1 : kst) (own1 : gmap Z owner) (fl1 : list Z).
Context (Hok : vm_ok s own fl) (Hn : own !! r = None) (xs : list Z) (B : builds r xs s own fl s1 own1 fl1).

Lemma not_root p o : own !! p = Some o -> root_of o <> r.
Proof.
  intros Ho He. pose proof (root_of_root _ _ _ _ (vo_inv _ _ _ Hok) Ho) as H. rewrite He in H.
  unfold is_root in H. congruence.
Qed.

Lemma builds_old p o : own1 !! p = Some o -> p ∉ fl \/ root_of o <> r -> own !! p = Some o.
Proof.
  intros Ho Hor. destruct (own !! p) as [o'|] eqn:Hp.
  - eapply lookup_weaken in Hp; [|apply B]. congruence.
  - destruct (bd_new _ _ _ _ _ _ _ _ B p o Ho Hp). by destruct Hor.
Qed.

Lemma builds_drop : own_drop own1 r = own.
Proof.
  apply map_eq. intros p. apply option_eq. intros o. rewrite own_drop_lookup. split.
  - intros [Ho Hne]. apply builds_old; [done|by right].
  - intros Ho. split; [eapply lookup_weaken; [done|apply B]|by eapply not_root].
Qed.

(** Dropping an address space that is being built undoes the construction. *)
Lemma drops_restored s2 fl2 : drops r xs s1 own1 fl1 s2 fl2 -> restored s own fl s2 fl2.
Proof.
  intros [Hok2 Hfl Hpte Hsame]. rewrite builds_drop in Hok2.
  assert (Hperm : fl2 ≡ₚ fl).
  { apply NoDup_Permutation; [apply (avail_ok s2), Hok2|apply (avail_ok s), Hok|]. intros q. rewrite Hfl. split.
    - intros [Hq|[Hq|(o & Ho & Hroot)]]; [by eapply bd_fl|by eapply bd_frames|].
      destruct (decide (q ∈ fl)) as [|Hni]; [done|]. by apply builds_old, not_root in Ho; [|by left].
    - intros Hq. destruct (bd_all _ _ _ _ _ _ _ _ B q Hq) as [?|[[o Ho]|?]]; [by left| |right; by left].
      right; right. exists o. split; [done|]. eapply bd_new; [exact B|done|]. by apply (vo_free _ _ _ Hok). }
  split; [done|done|..].
  - intros r' va Hr' Hva. assert (Hne : r' <> r) by (intros ->; unfold is_root in Hr'; congruence).
    rewrite Hpte; [by eapply bd_pte|done| |done]. eapply is_root_sub; [apply B|done].
  - intros p Hal Hni Hnt. eapply same_page_trans; [by eapply bd_same|].
    apply Hsame; [done|by rewrite Hperm|]. intros r' l pre Ho. eapply Hnt, builds_old; [done|by left].
Qed.

End Teardown.

(** [uvmfree] of an address space under construction. *)
Lemma uvmfree_teardown r s own fl s1 own1 fl1 env :
  vm_ok s own fl -> own !! r = None -> builds r [] s own fl s1 own1 fl1 -> is_root own1 r ->
  maps_below (k_mem s1) r 0 ->
  exists s2 fl2, uvmfree r 0 (mkWorld s1 env) = Ok tt (mkWorld s2 env) /\ mem_only s1 s2 /\
    restored s own fl s2 fl2.
Proof.
  intros Hok Hn B Hr Hbel.
  destruct (uvmfree_drops r 0 s1 own1 fl1 env (bd_ok _ _ _ _ _ _ _ _ B) Hr) as (s2 & fl2 & Hrun & Hmo & D);
    [by vm_compute|intros vpn Hv; change (npages 0) with 0 in Hv; lia|done|].
  exists s2, fl2. split; [done|]. split; [done|]. by eapply drops_restored.
Qed.

(** ** proc_pagetable *)

Definition tramp_vpn : Z := 2 ^ 26 - 1.
Definition frame_vpn : Z := 2 ^ 26 - 2.

(** The entries of [r] are those of [f], by page number. *)
Definition entries (m : mem) (r : Z) (f : Z -> Z) : Prop :=
  forall va, 0 <= va < MAXVA -> pte_of m r va = f (va / PGSIZE).

Lemma entries_ext m r f g : (forall v, f v = g v) -> entries m r f -> entries m r g.
Proof. intros He H va Hva. rewrite <- He. by apply H. Qed.

Lemma entries_set own s r vpn v s' f :
  is_root own r -> 0 <= vpn * PGSIZE < MAXVA -> same_pte_but own s r vpn s' ->
  pte_of (k_mem s') r (vpn * PGSIZE) = v -> entries (k_mem s) r f ->
  entries (k_mem s') r (fun x => if x =? vpn then v else f x).
Proof.
  intros Hr Hin Hbut Hv He va Hva. destruct (Z.eqb_spec (va / PGSIZE) vpn) as [Hp|Hp].
  - rewrite <- Hv. unfold pte_of. apply pte_at_page. rewrite Hp. by rewrite (proj1 (page_index _)).
  - rewrite Hbut; [by apply He|done..|]. by intros [].
Qed.

Lemma upd_pte_but own s r vpn s' :
  upd_pte own s r (vpn * PGSIZE) 0 s' -> same_pte_but own s r vpn s'.
Proof.
  intros H r' va Hr' Hva Hne. rewrite H by done. rewrite (proj1 (page_index _)).
  by rewrite decide_False.
Qed.

Lemma entries_below m r f n :
  entries m r f -> (forall v, n <= v -> f v = 0) -> maps_below m r n.
Proof. intros He Hf va Hva Hn. rewrite He, Hf by done. apply has_0. Qed.

Lemma kernel_not_user s own fl r vpn pa perm :
  vm_ok s own fl -> is_root own r -> 0 <= vpn * PGSIZE < MAXVA -> 0 <= pa < PHYSTOP ->
  pa mod PGSIZE = 0 -> 0 <= perm < 1024 -> own !! pa = None ->
  pte_of (k_mem s) r (vpn * PGSIZE) = mk_pte pa perm -> forall q, own !! q <> Some (OUser r vpn).
Proof.
  intros Hok Hr Hin Hpa Hal Hperm Hn Hpte q Hq.
  destruct (user_pte Hks _ _ _ _ _ (vo_inv _ _ _ Hok) Hr Hin Hq) as (_ & _ & Hto).
  rewrite Hpte, PTE2PA_mk_pte in Hto; [congruence| |done|done]. unfold PHYSTOP, KERNBASE in Hpa. lia.
Qed.

Lemma unmap_builds r vpn s own fl s' :
  vm_ok s' own fl -> same_pte_but own s r vpn s' ->
  (forall p, p mod PGSIZE = 0 -> (forall r' l pre, own !! p <> Some (OTable r' l pre)) ->
     same_page (k_mem s) (k_mem s') p) ->
  builds r [] s own fl s' own fl.
Proof.
  intros Hok Hbut Hsame.
  split; try done; [congruence|by left|by intros x ?%not_elem_of_nil| |by intros p Hp _; apply Hsame].
  intros r' va Hne Hr Hva. apply Hbut; [done..|]. by intros [].
Qed.

(** What the page table of a process maps: [n] user pages, the trampoline and the
    trapframe page [tf]. *)
Record space (m : mem) (own : gmap Z owner) (r n tf : Z) : Prop := {
  sp_root : is_root own r;
  sp_size : 0 <= n /\ n * PGSIZE <= TRAPFRAME;
  sp_user : user_mapped own r 0 n;
  sp_tramp : pte_of m r TRAMPOLINE = mk_pte ksym_trampoline TEXT_PERM;
  sp_frame : pte_of m r TRAPFRAME = mk_pte tf FRAME_PERM;
  sp_rest va : 0 <= va < TRAPFRAME -> n <= va / PGSIZE -> pte_of m r va = 0
}.

Context (Htr : trampoline_ok KS).

Lemma tramp_page : 0 <= ksym_trampoline < PHYSTOP /\ ksym_trampoline mod PGSIZE = 0.
Proof.
  destruct Htr as [Hal Hr]. destruct Hks as [Hk1 Hk2]. split; [|done]. unfold KERNBASE in *. lia.
Qed.

Lemma tramp_unowned m own : pt_inv m own -> own !! ksym_trampoline = None.
Proof.
  intros Hinv. destruct (own !! ksym_trampoline) as [o|] eqn:Ho; [|done].
  apply (pi_page _ _ Hinv) in Ho as [_ Hp]. destruct Htr as [_ Hr]. lia.
Qed.

Lemma mem_only_proc s s' p : mem_only s s' -> get_proc p s' = get_proc p s.
Proof. by intros (h & m & ->). Qed.

Lemma restored_refl s own fl : vm_ok s own fl -> restored s own fl s fl.
Proof. intros H. by split. Qed.

(** One of the two pages of the kernel is unmapped. *)
Lemma unmap_kernel r vpn pa perm s own fl env f :
  vm_ok s own fl -> is_root own r -> entries (k_mem s) r f -> f vpn = mk_pte pa perm ->
  0 <= vpn -> (vpn + 1) * PGSIZE <= MAXVA -> 0 <= pa < PHYSTOP -> pa mod PGSIZE = 0 ->
  0 <= perm < 1024 -> has perm PTE_U = false -> own !! pa = None ->
  exists s', uvmunmap r (vpn * PGSIZE) 1 false (mkWorld s env) = Ok tt (mkWorld s' env) /\ mem_only s s' /\
    vm_ok s' own fl /\ builds r [] s own fl s' own fl /\
    entries (k_mem s') r (fun x => if x =? vpn then 0 else f x) /\
    (forall p, p mod PGSIZE = 0 -> (forall r' l pre, own !! p <> Some (OTable r' l pre)) ->
       same_page (k_mem s) (k_mem s') p).
Proof.
  intros Hok Hr E Hf Hv0 Hv1 Hpa Hal Hperm HU Hn.
  assert (Hin : 0 <= vpn * PGSIZE < MAXVA) by (unfold PGSIZE in *; lia).
  assert (Hpte : pte_of (k_mem s) r (vpn * PGSIZE) = mk_pte pa perm)
    by (rewrite E by done; by rewrite (proj1 (page_index _))).
  assert (H56 : 0 <= pa < 2 ^ 56) by (unfold PHYSTOP, KERNBASE in Hpa; lia).
  destruct (unmap_kernel_page r vpn s own fl env) as (s' & Hrun & Hok' & Hmo & Hu & Hsame); try done.
  { rewrite Hpte. by apply has_V_mk_pte. }
  { rewrite Hpte. by rewrite has_U_mk_pte. }
  { by eapply kernel_not_user. }
  apply upd_pte_but in Hu as Hbut. exists s'. split; [done|]. split; [done|]. split; [done|].
  split; [by eapply unmap_builds|]. split; [|done].
  eapply entries_set; try done. rewrite Hu by done. by rewrite decide_True.
Qed.

(** Success: the address space has no user pages yet. *)
Definition has_space (s : kst) (own : gmap Z owner) (fl : list Z) (r tf n k : Z) (s' : kst) : Prop :=
  exists own' fl', 0 < r /\ own !! r = None /\ builds r [] s own fl s' own' fl' /\
    space (k_mem s') own' r n tf /\ Z.of_nat (length fl) <= Z.of_nat (length fl') + k.

Lemma proc_pagetable_spec p tf s own fl env :
  vm_ok s own fl -> p_trapframe (get_proc p s) = tf -> 0 <= tf < PHYSTOP -> tf mod PGSIZE = 0 ->
  exists r s', proc_pagetable p (mkWorld s env) = Ok r (mkWorld s' env) /\ mem_only s s' /\
    (has_space s own fl r tf 0 5 s' \/
     (r = 0 /\ (length fl < 5)%nat /\ exists fl', restored s own fl s' fl')).
Proof.
  intros Hok Htf Htfr Htfa. unfold proc_pagetable. destruct tramp_page as [Htp Hta].
  change TRAMPOLINE with (tramp_vpn * PGSIZE). change TRAPFRAME with (frame_vpn * PGSIZE).
  assert (Hti : 0 <= tramp_vpn * PGSIZE < MAXVA) by (by vm_compute).
  assert (Hfi : 0 <= frame_vpn * PGSIZE < MAXVA) by (by vm_compute).
  destruct fl as [|r fl].
  { exists 0, s. rewrite (run_bind _ _ _ 0 (mkWorld s env)) by (by eapply uvmcreate_none).
    split; [done|]. split; [done|]. right. split; [done|]. split; [cbn; lia|]. exists []. by apply restored_refl. }
  destruct (uvmcreate_builds s own r fl env Hok) as (s1 & Hrun1 & Hr0 & Hn & B1 & Hmo1 & Hz1).
  rewrite (run_bind _ _ _ r (mkWorld s1 env)) by done. rewrite (proj2 (Z.eqb_neq r 0)) by lia.
  set (own1 := <[r := OTable r 2 0]> own) in *.
  assert (Hr1 : is_root own1 r) by apply lookup_insert_eq.
  assert (E1 : entries (k_mem s1) r (fun _ => 0)) by (intros va _; apply Hz1).
  destruct (map_kernel_page r tramp_vpn ksym_trampoline TEXT_PERM s1 own1 fl env)
    as (e & s2 & own2 & fl2 & Hrun2 & G2 & Hbut2 & Hres2); try done; [apply B1|].
  rewrite (run_bind _ _ _ e (mkWorld s2 env)) by exact Hrun2.
  assert (B2 : builds r [] s own (r :: fl) s2 own2 fl2) by (eapply (builds_trans r [] []); [done|by eapply grows_builds]).
  assert (Hr2 : is_root own2 r) by (eapply is_root_sub; [apply G2|done]).
  assert (Hmo2 : mem_only s s2) by (etrans; [done|apply G2]).
  destruct Hres2 as [(-> & Hlen2 & Hpte2)|(-> & Hlen2 & Hpte2)];
    pose proof (entries_set own1 s1 r tramp_vpn _ s2 _ Hr1 Hti Hbut2 Hpte2 E1) as E2; cbn [Z.ltb Z.compare].
  2:{ destruct (uvmfree_teardown r s own (r :: fl) s2 own2 fl2 env Hok Hn B2 Hr2)
        as (s3 & fl3 & Hrun3 & Hmo3 & R3).
      { eapply entries_below; [exact E2|]. intros v _. cbn beta. by case_match. }
      exists 0, s3. rewrite (run_bind _ _ _ tt (mkWorld s3 env)) by done. split; [done|].
      split; [by etrans|]. right. split; [done|]. split; [cbn; lia|by exists fl3]. }
  rewrite (run_bind _ _ _ (get_proc p s2) (mkWorld s2 env)) by done.
  rewrite (mem_only_proc s s2) by done. rewrite Htf.
  destruct (map_kernel_page r frame_vpn tf FRAME_PERM s2 own2 fl2 env)
    as (e & s3 & own3 & fl3 & Hrun3 & G3 & Hbut3 & Hres3); try done; [apply B2|by rewrite E2|].
  rewrite (run_bind _ _ _ e (mkWorld s3 env)) by exact Hrun3.
  assert (B3 : builds r [] s own (r :: fl) s3 own3 fl3) by (eapply (builds_trans r [] []); [done|by eapply grows_builds]).
  assert (Hr3 : is_root own3 r) by (eapply is_root_sub; [apply G3|done]).
  assert (Hmo3 : mem_only s s3) by (etrans; [done|apply G3]).
  destruct Hres3 as [(-> & Hlen3 & Hpte3)|(-> & Hlen3 & Hpte3)];
    pose proof (entries_set own2 s2 r frame_vpn _ s3 _ Hr2 Hfi Hbut3 Hpte3 E2) as E3; cbn [Z.ltb Z.compare].
  - exists r, s3. split; [done|]. split; [done|]. left. exists own3, fl3. split; [done|]. split; [done|].
    split; [done|]. split; [|cbn; lia]. split; try done.
    + by intros vpn Hv; lia.
    + change TRAMPOLINE with (tramp_vpn * PGSIZE). by rewrite E3.
    + intros va Hva _. change TRAPFRAME with (frame_vpn * 4096) in Hva.
      unfold frame_vpn in Hva. rewrite E3 by (change MAXVA with (2 ^ 38); lia).
      assert (va / PGSIZE < frame_vpn) by (unfold PGSIZE, frame_vpn; apply Z.div_lt_upper_bound; lia).
      unfold tramp_vpn, frame_vpn in *.
      rewrite (proj2 (Z.eqb_neq _ _)), (proj2 (Z.eqb_neq _ _)) by lia. done.
  - destruct (unmap_kernel r tramp_vpn ksym_trampoline TEXT_PERM s3 own3 fl3 env _ (bd_ok _ _ _ _ _ _ _ _ B3) Hr3 E3)
      as (s4 & Hrun4 & Hmo4 & Hok4 & B34 & E4 & _); try done.
    { eapply tramp_unowned, (bd_ok _ _ _ _ _ _ _ _ B3). }
    assert (B4 : builds r [] s own (r :: fl) s4 own3 fl3) by (eapply (builds_trans r [] []); [exact B3|exact B34]).
    rewrite (run_bind _ _ _ tt (mkWorld s4 env)) by done.
    destruct (uvmfree_teardown r s own (r :: fl) s4 own3 fl3 env Hok Hn B4 Hr3)
      as (s5 & fl5 & Hrun5 & Hmo5 & R5).
    { eapply entries_below; [exact E4|]. intros v _. cbn beta.
      by destruct (v =? tramp_vpn), (v =? frame_vpn). }
    exists 0, s5. rewrite (run_bind _ _ _ tt (mkWorld s5 env)) by done. split; [done|].
    split; [by etrans; [|etrans]|]. right. split; [done|]. split; [cbn; lia|by exists fl5].
Qed.

(** ** proc_freepagetable *)

Lemma drops_after r s own fl s1 s2 fl2 :
  builds r [] s own fl s1 own fl -> drops r [] s1 own fl s2 fl2 ->
  (forall p, p mod PGSIZE = 0 -> (forall r' l pre, own !! p <> Some (OTable r' l pre)) ->
     same_page (k_mem s) (k_mem s1) p) ->
  drops r [] s own fl s2 fl2.
Proof.
  intros B [H1 H2 H3 H4] Hsame. split; [done|done|..].
  - intros r' va Hne Hr Hva. rewrite H3 by done. by eapply bd_pte.
  - intros p Hal Hni Hnt. eapply same_page_trans; [by apply Hsame|by apply H4].
Qed.

Lemma space_entries m own r n tf : space m own r n tf ->
  exists f, entries m r f /\ f tramp_vpn = mk_pte ksym_trampoline TEXT_PERM /\
    f frame_vpn = mk_pte tf FRAME_PERM /\ forall v, n <= v < frame_vpn -> f v = 0.
Proof.
  intros [Hr Hsz Hu Ht Hf Hrest]. exists (fun v => pte_of m r (v * PGSIZE)). split; [|split; [exact Ht|split; [exact Hf|]]].
  - intros va Hva. unfold pte_of. apply pte_at_page. by rewrite (proj1 (page_index _)).
  - intros v Hv. apply Hrest; [|rewrite (proj1 (page_index _)); lia].
    change TRAPFRAME with (frame_vpn * PGSIZE). unfold PGSIZE. lia.
Qed.

Lemma proc_freepagetable_drops r sz tf s own fl env :
  vm_ok s own fl -> space (k_mem s) own r (npages sz) tf -> 0 <= sz -> 0 <= tf < PHYSTOP ->
  tf mod PGSIZE = 0 -> own !! tf = None ->
  exists s' fl', proc_freepagetable r sz (mkWorld s env) = Ok tt (mkWorld s' env) /\ mem_only s s' /\
    drops r [] s own fl s' fl'.
Proof.
  intros Hok Hsp Hsz Htf Htfa Hn. unfold proc_freepagetable. destruct tramp_page as [Htp Hta].
  pose proof (npages_bounds sz Hsz) as Hb. destruct (sp_size _ _ _ _ _ Hsp) as [_ Hmax].
  assert (HTF : TRAPFRAME = frame_vpn * PGSIZE) by done.
  assert (HTR : TRAMPOLINE = tramp_vpn * PGSIZE) by done.
  destruct (space_entries _ _ _ _ _ Hsp) as (f & E & Ht & Hf & Hrest). destruct Hsp as [Hr _ Hu _ _ _].
  rewrite HTR, HTF. rewrite HTF in Hmax.
  destruct (unmap_kernel r tramp_vpn ksym_trampoline TEXT_PERM s own fl env f)
    as (s1 & Hrun1 & Hmo1 & Hok1 & B1 & E1 & Hs1); try done.
  { eapply tramp_unowned, (vo_inv _ _ _ Hok). }
  destruct (unmap_kernel r frame_vpn tf FRAME_PERM s1 own fl env _ Hok1 Hr E1)
    as (s2 & Hrun2 & Hmo2 & Hok2 & B2 & E2 & Hs2); try done.
  destruct (uvmfree_drops r sz s2 own fl env Hok2 Hr) as (s3 & fl3 & Hrun3 & Hmo3 & D); [|done|..].
  { change MAXVA with (2 ^ 26 * PGSIZE). unfold frame_vpn, PGSIZE in *. lia. }
  { intros va Hva Hn'. rewrite E2 by done.
    assert (va / PGSIZE <= tramp_vpn).
    { apply Z.lt_succ_r, Z.div_lt_upper_bound; [done|]. change MAXVA with (2 ^ 38) in Hva. unfold tramp_vpn, PGSIZE. lia. }
    destruct (Z.eqb_spec (va / PGSIZE) frame_vpn), (Z.eqb_spec (va / PGSIZE) tramp_vpn); try apply has_0.
    rewrite Hrest; [apply has_0|]. unfold tramp_vpn, frame_vpn in *. lia. }
  exists s3, fl3. rewrite (run_bind _ _ _ tt (mkWorld s1 env)) by done.
  rewrite (run_bind _ _ _ tt (mkWorld s2 env)) by done. split; [done|].
  split; [by etrans; [|etrans]|]. eapply drops_after; [eapply (builds_trans r [] []); [exact B1|exact B2]|done|].
  intros p Hp Hnt. eapply same_page_trans; [by apply Hs1|by apply Hs2].
Qed.

End ProcMem.
