(* ===== verification/ProcTable.v ===== *)
(** * The process table (kernel/proc.c: allocproc, freeproc)

    [procs_ok] is the invariant that ties the process table to memory: every process has
    an address space of its own and trapframe pages of its own, an unused slot has none.
    [allocproc] builds a process out of free pages and [freeproc] gives them back. *)

From stdpp Require Import base gmap list strings.
From Stdlib Require Import ZArith Lia.
From S2P Require Import Prelude Riscv Memory State Spinlock Sched Kalloc Vm PageTable UserMem Uvm Freewalk.
From S2P Require Import Bio Log Fs Console Pipe File Proc ProcMem.

#[local] Set Warnings "-clear-no-such-hyp".

(** A trapframe pointer as a list of pages: none if it is null. *)
Definition frame (x : Z) : list Z := if x =? 0 then [] else [x].

Definition frames (pr : proc) : list Z := frame (p_backupTrapframe pr) ++ frame (p_trapframe pr).

(** What [freeproc] leaves of a process. *)
Definition reset (x : proc) : proc :=
  set_p_state UNUSED (set_p_xstate 0 (set_p_killed 0 (set_p_chan None
    (set_p_name (<[0%nat := 0]> (p_name x)) (set_p_parent None (set_p_pid 0 (set_p_sz 0
      (set_p_pagetable 0 x)))))))).
Definition dead (x : proc) : proc := reset (set_p_backupTrapframe 0 (set_p_trapframe 0 x)).

Lemma elem_of_frame x q : q ∈ frame x <-> q = x /\ x <> 0.
Proof.
  unfold frame. destruct (Z.eqb_spec x 0) as [->|]; [rewrite elem_of_nil|rewrite list_elem_of_singleton]; naive_solver.
Qed.

Lemma mem_only_upd_proc p f s s' : mem_only s s' -> mem_only (upd_proc p f s) (upd_proc p f s').
Proof. intros (h & m & ->). by exists h, m. Qed.

Lemma bind_proc_upd {A} p f (k : unit -> K A) s env :
  (proc_upd p f ≫= k) (mkWorld s env) = k tt (mkWorld (upd_proc p f s) env).
Proof. done. Qed.

Lemma proc_upd_run p f s env : proc_upd p f (mkWorld s env) = Ok tt (mkWorld (upd_proc p f s) env).
Proof. done. Qed.

Section ProcTable.
Context {KS : KSyms} (Hks : ksyms_ok KS) `{PA : !PageAllocator kalloc kfree} (Htr : trampoline_ok KS).

(** What [freeproc] may find in a slot: a process, or the beginning of one. *)
Record parts (s : kst) (own : gmap Z owner) (fl : list Z) (pr : proc) : Prop := {
  pa_frame : p_trapframe pr = 0 \/ kernel_page own fl (p_trapframe pr);
  pa_backup : p_backupTrapframe pr = 0 \/ kernel_page own fl (p_backupTrapframe pr);
  pa_apart : p_backupTrapframe pr = 0 \/ p_backupTrapframe pr <> p_trapframe pr;
  pa_space : p_pagetable pr = 0 \/ (p_trapframe pr <> 0 /\ 0 <= p_sz pr /\
    space (k_mem s) own (p_pagetable pr) (npages (p_sz pr)) (p_trapframe pr))
}.

(** ** freeproc *)

Lemma kernel_page_cons own fl x q : kernel_page own fl x -> q <> x -> kernel_page own (q :: fl) x.
Proof. intros [H1 H2 H3] Hne. split; [done..|]. by apply not_elem_of_cons. Qed.

Lemma kfree_frame x s own fl env :
  vm_ok s own fl -> x = 0 \/ kernel_page own fl x ->
  exists s', when (negb (x =? 0)) (kfree x) (mkWorld s env) = Ok tt (mkWorld s' env) /\ mem_only s s' /\
    vm_ok s' own (frame x ++ fl) /\ same_pte s own s' /\
    (forall p, p mod PGSIZE = 0 -> p ∉ frame x -> same_page (k_mem s) (k_mem s') p).
Proof.
  intros Hok Hx. unfold frame. destruct (Z.eqb_spec x 0) as [->|Hne].
  { exists s. split; [done|]. split; [done|]. split; [done|]. by split. }
  destruct Hx as [|[Hp Hn Hf]]; [done|].
  destruct (give_page s own fl x env Hok Hp Hn Hf) as (s' & Hrun & Hok' & Hmo & Hout & Hsp).
  exists s'. split; [exact Hrun|]. split; [done|]. split; [done|]. split; [done|].
  intros p Hal Hpx%not_elem_of_cons. apply (outside_same_page x); [apply Hp|done|naive_solver|done].
Qed.

Lemma drops_none s own fl : vm_ok s own fl -> drops 0 [] s own fl s fl.
Proof.
  intros Hok. assert (H0 : own !! 0 = None).
  { destruct (own !! 0) as [o|] eqn:Ho; [|done]. apply (pi_page _ _ (vo_inv _ _ _ Hok)), (page_ok_pos Hks) in Ho. lia. }
  assert (Hd : own_drop own 0 = own) by (exact (builds_drop 0 s own fl s own fl Hok H0 [] (builds_refl 0 s own fl Hok))).
  split; [by rewrite Hd| |done|done]. intros q. rewrite elem_of_nil. split; [by left|].
  intros [?|[[]|(o & Ho & Hr)]]; [done|]. by destruct (not_root 0 s own fl Hok H0 q o Ho).
Qed.

Lemma space_frame s own s' r n tf :
  same_pte s own s' -> space (k_mem s) own r n tf -> space (k_mem s') own r n tf.
Proof.
  intros Hsp [Hr Hsz Hu Ht Hf Hrest].
  assert (Hsame : forall va, 0 <= va < MAXVA -> pte_of (k_mem s') r va = pte_of (k_mem s) r va)
    by (intros va Hva; by eapply same_pte_of).
  split; [done..| | |].
  - rewrite <- Ht. apply Hsame. by vm_compute.
  - rewrite <- Hf. apply Hsame. by vm_compute.
  - intros va Hva Hn. rewrite Hsame; [by apply Hrest|]. change TRAPFRAME with (2 ^ 38 - 8192) in Hva.
    change MAXVA with (2 ^ 38). lia.
Qed.

(** Freeing kernel pages first. *)
Lemma drops_frames r x s own fl s1 s2 fl2 xs :
  same_pte s own s1 ->
  (forall p, p mod PGSIZE = 0 -> p ∉ frame x -> same_page (k_mem s) (k_mem s1) p) ->
  drops r xs s1 own (frame x ++ fl) s2 fl2 -> drops r (xs ++ frame x) s own fl s2 fl2.
Proof.
  intros Hsp Hsame [H1 H2 H3 H4]. split; [done|..].
  - intros q. rewrite H2, !elem_of_app. naive_solver.
  - intros r' va Hne Hr Hva. rewrite H3 by done. by eapply same_pte_of.
  - intros p Hal Hni Hnt. eapply same_page_trans; [|by apply H4]. apply Hsame; [done|]. intros Hx.
    apply Hni, H2. left. apply elem_of_app. by left.
Qed.

Lemma vm_ok_upd_proc s own fl p f : vm_ok s own fl -> vm_ok (upd_proc p f s) own fl.
Proof. intros [H1 H2 H3 H4]. split; [done| |done|done]. by eapply avail_frame; [| |exact H2]. Qed.

Lemma drops_upd_proc r xs s own fl s' fl' p f :
  drops r xs s own fl s' fl' -> drops r xs s own fl (upd_proc p f s') fl'.
Proof. intros [H1 H2 H3 H4]. split; [by apply vm_ok_upd_proc|done..]. Qed.

(** [freeproc] frees exactly the pages of the process. *)
Lemma freeproc_spec np s own fl env :
  let pr := get_proc np s in
  vm_ok s own fl -> parts s own fl pr ->
  exists s' fl', freeproc np (mkWorld s env) = Ok tt (mkWorld s' env) /\
    mem_only (upd_proc np dead s) s' /\ drops (p_pagetable pr) (frames pr) s own fl s' fl'.
Proof.
  intros pr Hok [Hfr Hbk Hap Hsp].
  destruct (kfree_frame (p_trapframe pr) s own fl env Hok Hfr) as (s1 & Hrun1 & Hmo1 & Hok1 & Hsp1 & Hs1).
  set (s1' := upd_proc np (set_p_trapframe 0) s1).
  assert (Hbk1 : p_backupTrapframe pr = 0 \/ kernel_page own (frame (p_trapframe pr) ++ fl) (p_backupTrapframe pr)).
  { destruct Hbk as [|Hbk]; [by left|]. destruct Hap as [|Hap]; [by left|right]. unfold frame.
    case_match; [done|]. by apply kernel_page_cons. }
  destruct (kfree_frame (p_backupTrapframe pr) s1' own (frame (p_trapframe pr) ++ fl) env)
    as (s2 & Hrun2 & Hmo2 & Hok2 & Hsp2 & Hs2); [by apply vm_ok_upd_proc|done|].
  set (s2' := upd_proc np (set_p_backupTrapframe 0) s2).
  set (fl2 := frame (p_backupTrapframe pr) ++ frame (p_trapframe pr) ++ fl) in *.
  assert (Hok2' : vm_ok s2' own fl2) by (by apply vm_ok_upd_proc).
  assert (H3 : exists s3 fl3, when (negb (p_pagetable pr =? 0)) (proc_freepagetable (p_pagetable pr) (p_sz pr))
      (mkWorld s2' env) = Ok tt (mkWorld s3 env) /\ mem_only s2' s3 /\ drops (p_pagetable pr) [] s2' own fl2 s3 fl3).
  { destruct (Z.eqb_spec (p_pagetable pr) 0) as [He|Hne].
    { exists s2', fl2. rewrite He. split; [done|]. split; [done|]. by apply drops_none. }
    destruct Hsp as [|(Htf & Hsz & Hsp)]; [done|]. destruct Hfr as [|[Hfp Hfo Hff]]; [done|].
    apply (proc_freepagetable_drops Hks Htr (p_pagetable pr) (p_sz pr) (p_trapframe pr)); try done.
    - apply (space_frame s1' own s2' _ _ _ Hsp2), (space_frame s own s1' _ _ _ Hsp1), Hsp.
    - apply (page_ok_pos Hks) in Hfp. lia.
    - apply Hfp. }
  destruct H3 as (s3 & fl3 & Hrun3 & Hmo3 & D3).
  assert (D1 : drops (p_pagetable pr) (frames pr) s own fl s3 fl3).
  { apply (drops_frames _ (p_trapframe pr) s own fl s1' s3 fl3 (frame (p_backupTrapframe pr)) Hsp1 Hs1).
    by apply (drops_frames _ (p_backupTrapframe pr) s1' own _ s2' s3 fl3 [] Hsp2 Hs2). }
  exists (upd_proc np reset s3), fl3. split; [|split; [|by apply drops_upd_proc]].
  - unfold freeproc. rewrite (run_bind _ _ _ pr (mkWorld s env)) by done.
    rewrite (run_bind _ _ _ tt (mkWorld s1 env)) by done. rewrite (run_bind _ _ _ tt (mkWorld s1' env)) by done.
    rewrite (run_bind _ _ _ tt (mkWorld s2 env)) by done. rewrite (run_bind _ _ _ tt (mkWorld s2' env)) by done.
    rewrite (run_bind _ _ _ tt (mkWorld s3 env)) by done. by rewrite !bind_proc_upd, proc_upd_run, !upd_proc_twice.
  - change dead with (reset ∘ (set_p_backupTrapframe 0 ∘ set_p_trapframe 0)). rewrite <- !upd_proc_twice.
    apply mem_only_upd_proc. etrans; [|exact Hmo3]. apply mem_only_upd_proc. etrans; [|exact Hmo2].
    by apply mem_only_upd_proc.
Qed.

(** ** Building and undoing *)

Lemma builds_frame r xs s0 s own fl s' own' fl' s1 :
  k_mem s0 = k_mem s -> k_mem s1 = k_mem s' -> vm_ok s1 own' fl' ->
  builds r xs s own fl s' own' fl' -> builds r xs s0 own fl s1 own' fl'.
Proof. intros H0 H1 Hok [B1 B2 B3 B4 B5 B6 B7 B8]. split; rewrite ?H0, ?H1; done. Qed.

Lemma builds_xs r xs ys s own fl s' own' fl' :
  (forall x, x ∈ xs <-> x ∈ ys) -> builds r xs s own fl s' own' fl' -> builds r ys s own fl s' own' fl'.
Proof.
  intros He [B1 B2 B3 B4 B5 B6 B7 B8]. split; try done.
  - intros p. rewrite <- He. apply B4.
  - intros x. rewrite <- He. apply B5.
Qed.

(** A page for the kernel. *)
Lemma kalloc_frame s own fl env :
  vm_ok s own fl ->
  exists x s' fl', kalloc (mkWorld s env) = Ok x (mkWorld s' env) /\ mem_only s s' /\
    (forall r, builds r (frame x) s own fl s' own fl') /\ same_pte s own s' /\
    ((x = 0 /\ fl = []) \/ (kernel_page own fl' x /\ length fl = S (length fl'))).
Proof.
  intros Hok. destruct fl as [|q fl].
  { exists 0, s, []. split; [apply alloc_none; apply Hok|]. split; [done|].
    split; [intros r; by apply builds_refl|]. split; [done|by left]. }
  destruct (take_page Hks s own fl q env Hok) as (s' & Hrun & Hok' & Hmo & Hout & Hsp & Hq & Hqn & Hqf & Hq0).
  exists q, s', fl. split; [done|]. split; [done|]. split; [intros r|split; [done|right; by split]].
  unfold frame. rewrite (proj2 (Z.eqb_neq q 0)) by lia. split; try done.
  - congruence.
  - intros p [->|Hp]%elem_of_cons; [right; right; left|by left].
  - intros x ->%list_elem_of_singleton. split; [left|done].
  - intros p Hp. by right.
  - intros r' va _ Hr Hva. by eapply same_pte_of.
  - intros p Hp [Hpq _]%not_elem_of_cons _. apply (outside_same_page q); [apply Hq|done|congruence|done].
Qed.

Lemma mem_only_set_held h s s' : mem_only s s' -> mem_only (set_k_held h s) (set_k_held h s').
Proof. intros (f & m & ->). by exists f, m. Qed.

(** A process that could not be completed is given up: memory is as it was. *)
Lemma undo_proc {A} (v : A) np r xs s own fl s1 own1 fl1 env :
  vm_ok s own fl -> own !! r = None -> builds r xs s own fl s1 own1 fl1 ->
  parts s1 own1 fl1 (get_proc np s1) -> p_pagetable (get_proc np s1) = r ->
  (forall x, x ∈ xs <-> x ∈ frames (get_proc np s1)) -> k_held s1 = [LProc np] ->
  exists s2 fl2, (freeproc np;; release (LProc np);; mret v) (mkWorld s1 env) = Ok v (mkWorld s2 env) /\
    mem_only (set_k_held [] (upd_proc np dead s1)) s2 /\ restored s own fl s2 fl2.
Proof.
  intros Hok Hn B Hpa Hpt Hxs Hheld.
  destruct (freeproc_spec np s1 own1 fl1 env (bd_ok _ _ _ _ _ _ _ _ B) Hpa) as (s2 & fl2 & Hrun & Hmo & D).
  rewrite Hpt in D. eapply builds_xs in B; [|exact Hxs].
  destruct (drops_restored r s own fl s1 own1 fl1 Hok Hn _ B s2 fl2 D) as [R1 R2 R3 R4].
  assert (Hheld2 : k_held s2 = [LProc np]) by (rewrite (mem_only_held _ _ Hmo); done).
  exists (set_k_held [] s2), fl2. split; [|split].
  - rewrite (run_bind _ _ _ tt (mkWorld s2 env)) by done.
    by rewrite (run_bind _ _ _ tt (mkWorld (set_k_held [] s2) env)) by (by apply release_run).
  - by apply mem_only_set_held.
  - split; [|done..]. eapply vm_ok_frame; [..|exact R1]; [done..|apply not_elem_of_nil].
Qed.

(** ** allocproc *)

Definition is_unused (s : kst) (i : nat) : bool := bool_decide (p_state (get_proc i s) = UNUSED).

Lemma find_unused_run s env :
  k_held s = [] ->
  find_unused (mkWorld s env) =
  match first_slot (is_unused s) NPROC with
  | Some np => Ok (Some np) (mkWorld (set_k_held [LProc np] s) env)
  | None => Ok None (mkWorld s env)
  end.
Proof.
  intros Hh. unfold find_unused.
  match goal with |- context [for_until proc_slots ?b] => set (body := b) end.
  assert (Hacq : forall i, acquire (LProc i) (mkWorld s env) = Ok tt (mkWorld (set_k_held [LProc i] s) env)).
  { intros i. rewrite acquire_run by (cbn; rewrite Hh; apply not_elem_of_nil). cbn. by rewrite Hh. }
  assert (Hno : forall i, is_unused s i = false -> body i (mkWorld s env) = Ok None (mkWorld s env)).
  { intros i Hi. unfold body. rewrite (run_bind _ _ _ _ _ (Hacq i)).
    rewrite (run_bind _ _ _ (get_proc i s) (mkWorld (set_k_held [LProc i] s) env)) by done.
    unfold is_unused in Hi. rewrite Hi. rewrite (run_bind _ _ _ tt (mkWorld s env)); [done|].
    rewrite (release_run _ []) by done. cbn. rewrite <- Hh. by destruct s. }
  destruct (first_slot _ _) as [np|] eqn:Hf.
  - eapply (for_until_found _ (is_unused s)); [exact Hno|exact Hf| |done].
    apply first_slot_Some in Hf as (_ & Hu & _). unfold body. rewrite (run_bind _ _ _ _ _ (Hacq np)).
    rewrite (run_bind _ _ _ (get_proc np s) (mkWorld (set_k_held [LProc np] s) env)) by done.
    unfold is_unused in Hu. by rewrite Hu.
  - by apply (for_until_not_found _ (is_unused s)).
Qed.

Definition next_pid (s : kst) : kst := set_k_nextpid (s32 (k_nextpid s + 1)) s.

Lemma allocpid_run s env :
  LPid ∉ k_held s -> allocpid (mkWorld s env) = Ok (k_nextpid s) (mkWorld (next_pid s) env).
Proof.
  intros Hl. unfold allocpid. apply run_wp. kstep. kstep. apply wpx_acquire; [done|]. cbn [w_ks w_env].
  ksteps. eapply wpx_release; [reflexivity|]. ksteps. split; [done|]. by f_equal.
Qed.

(** A loop that updates two arrays of the process, element by element. *)
Lemma for_each_upd2 np (f g : nat -> proc -> proc) l s env :
  for_each l (fun i => proc_upd np (f i);; proc_upd np (g i)) (mkWorld s env) =
  Ok tt (mkWorld (upd_proc np (fun x => foldl (fun x i => g i (f i x)) x l) s) env).
Proof.
  revert s. induction l as [|i l IH]; intros s; cbn [for_each foldl].
  - by rewrite upd_proc_id.
  - rewrite (run_bind _ _ _ tt (mkWorld (upd_proc np (fun x => g i (f i x)) s) env)).
    + rewrite IH, upd_proc_twice. done.
    + rewrite bind_proc_upd, proc_upd_run, upd_proc_twice. done.
Qed.

Lemma insert_all {A} (v : nat -> A) n l : length l = n ->
  foldl (fun l i => <[i := v i]> l) l (seq 0 n) = v <$> seq 0 n.
Proof.
  intros Hl.
  assert (H : forall k, (k <= n)%nat -> foldl (fun l i => <[i := v i]> l) l (seq 0 k) = (v <$> seq 0 k) ++ drop k l).
  { induction k as [|k IH]; intros Hk; [done|]. rewrite seq_S, foldl_snoc, IH by lia. cbn [Nat.add].
    rewrite fmap_app, <- app_assoc. rewrite insert_app_r_alt by (rewrite length_fmap, length_seq; lia).
    rewrite length_fmap, length_seq, Nat.sub_diag.
    destruct (lookup_lt_is_Some_2 l k ltac:(lia)) as [x Hx]. rewrite (drop_S l x k Hx). done. }
  rewrite H by lia. rewrite drop_ge by lia. by rewrite app_nil_r.
Qed.

(** The arrays of struct proc have the lengths they are declared with. *)
Record shaped (pr : proc) : Prop := {
  sh_ofile : length (p_ofile pr) = NOFILE;
  sh_name : length (p_name pr) = 16%nat;
  sh_handlers : length (p_signalHandlers pr) = 32%nat;
  sh_masks : length (p_sigMaskArray pr) = 32%nat
}.

(** A slot that is not in use holds no pages and no files. *)
Record clean (pr : proc) : Prop := {
  cl_frame : p_trapframe pr = 0;
  cl_backup : p_backupTrapframe pr = 0;
  cl_pagetable : p_pagetable pr = 0;
  cl_sz : p_sz pr = 0;
  cl_killed : p_killed pr = 0;
  cl_ofile : p_ofile pr = replicate NOFILE None
}.

(** A slot after [allocproc]. *)
Definition filled (btf : Z) (x : proc) : proc :=
  set_p_sigMaskArray (replicate 32 0) (set_p_signalHandlers (replicate 32 SIG_DFL)
    (set_p_backupTrapframe btf (set_p_frozen 0 (set_p_sigHandlerFlag 0 (set_p_pendingSignals 0
      (set_p_signalMask 0 (set_p_context (mkContext ksym_forkret (p_kstack x + PGSIZE) (replicate 12 0)) x))))))).
Definition fresh (pid r tf btf : Z) (x : proc) : proc :=
  filled btf (set_p_pagetable r (set_p_trapframe tf (set_p_state USED (set_p_pid pid x)))).

(** What [allocproc] builds. *)
Record new_proc (s : kst) (own : gmap Z owner) (fl : list Z) (r tf btf n : Z)
    (s' : kst) (own' : gmap Z owner) (fl' : list Z) : Prop := {
  np_root : own !! r = None /\ 0 < r;
  np_builds : builds r (frame btf ++ frame tf) s own fl s' own' fl';
  np_space : space (k_mem s') own' r n tf;
  np_frame : kernel_page own' fl' tf;
  np_backup : btf = 0 \/ (kernel_page own' fl' btf /\ btf <> tf)
}.

Lemma builds_kernel_page r xs s own fl s' own' fl' x :
  builds r xs s own fl s' own' fl' -> kernel_page own fl x -> kernel_page own' fl' x.
Proof.
  intros B [H1 H2 H3]. split; [done|..].
  - destruct (own' !! x) as [o|] eqn:Ho; [|done]. by destruct (bd_new _ _ _ _ _ _ _ _ B x o Ho H2).
  - intros Hin. by apply H3, (bd_fl _ _ _ _ _ _ _ _ B).
Qed.

(** The loop over the two signal arrays. *)
Lemma sig_arrays np (h m : nat -> Z) s env : shaped (get_proc np s) ->
  for_each (seq 0 32) (fun i =>
    proc_upd np (fun x => set_p_signalHandlers (<[i := h i]> (p_signalHandlers x)) x);;
    proc_upd np (fun x => set_p_sigMaskArray (<[i := m i]> (p_sigMaskArray x)) x)) (mkWorld s env) =
  Ok tt (mkWorld (upd_proc np (fun x =>
    set_p_sigMaskArray (m <$> seq 0 32) (set_p_signalHandlers (h <$> seq 0 32) x)) s) env).
Proof.
  intros [_ _ Hh Hm].
  rewrite (for_each_upd2 np (fun i x => set_p_signalHandlers (<[i := h i]> (p_signalHandlers x)) x)
    (fun i x => set_p_sigMaskArray (<[i := m i]> (p_sigMaskArray x)) x)).
  do 2 f_equal. apply upd_proc_get_ext. generalize dependent (get_proc np s). intros x Hh Hm.
  assert (H : forall l x, foldl (fun x i => set_p_sigMaskArray (<[i := m i]> (p_sigMaskArray
        (set_p_signalHandlers (<[i := h i]> (p_signalHandlers x)) x)))
      (set_p_signalHandlers (<[i := h i]> (p_signalHandlers x)) x)) x l =
    set_p_sigMaskArray (foldl (fun l i => <[i := m i]> l) (p_sigMaskArray x) l)
      (set_p_signalHandlers (foldl (fun l i => <[i := h i]> l) (p_signalHandlers x) l) x)).
  { induction l as [|i l IH]; intros y; cbn [foldl]; [by destruct y|]. by rewrite IH. }
  by rewrite H, !insert_all by done.
Qed.

Lemma restored_builds r s own fl s' fl' : restored s own fl s' fl' -> builds r [] s own fl s' own fl'.
Proof.
  intros [R1 R2 R3 R4]. split; try done.
  - congruence.
  - intros p Hp. left. by rewrite R2.
  - by intros x ?%not_elem_of_nil.
  - intros p. by rewrite R2.
  - intros r' va _. apply R3.
Qed.

Lemma held_cycle np f h s : k_held s = [] ->
  set_k_held [] (upd_proc np f (next_pid (set_k_held h s))) = next_pid (upd_proc np f s).
Proof. intros Hh. destruct s. cbn in Hh. by subst. Qed.

Lemma unowned_0 s own fl : vm_ok s own fl -> own !! 0 = None.
Proof.
  intros Hok. destruct (own !! 0) as [o|] eqn:Ho; [|done].
  apply (pi_page _ _ (vo_inv _ _ _ Hok)), (page_ok_pos Hks) in Ho. lia.
Qed.

(** The failures of [allocproc]. *)
Lemma allocproc_undo np f s own fl s1 fl1 tf env :
  k_held s = [] -> vm_ok s own fl -> (np < length (k_procs s))%nat ->
  mem_only (upd_proc np f (next_pid (set_k_held [LProc np] s))) s1 -> builds 0 (frame tf) s own fl s1 own fl1 ->
  (forall x, dead (f x) = dead x) ->
  let pr := f (get_proc np s) in
  p_trapframe pr = tf -> p_backupTrapframe pr = 0 -> p_pagetable pr = 0 -> (tf = 0 \/ kernel_page own fl1 tf) ->
  exists s' fl', (freeproc np;; release (LProc np);; mret None : K (option nat)) (mkWorld s1 env) = Ok None (mkWorld s' env) /\
    mem_only (next_pid (upd_proc np dead s)) s' /\ restored s own fl s' fl'.
Proof.
  intros Hh Hok Hnp Hmo B Hdead pr H1 H2 H3 H4.
  assert (Hg : get_proc np s1 = pr).
  { rewrite (mem_only_proc _ _ np Hmo). by rewrite get_upd_proc. }
  destruct (undo_proc (None : option nat) np 0 (frame tf) s own fl s1 own fl1 env) as (s2 & fl2 & Hrun & Hmo2 & R); try done.
  - by eapply unowned_0.
  - rewrite Hg. split; rewrite ?H1, ?H2, ?H3; [done|by left..].
  - by rewrite Hg.
  - intros x. unfold frames. by rewrite Hg, H1, H2.
  - by rewrite (mem_only_held _ _ Hmo).
  - exists s2, fl2. split; [done|]. split; [|done]. etrans; [|exact Hmo2].
    rewrite (upd_proc_get_ext np dead (dead ∘ f) s) by (by rewrite <- Hdead).
    rewrite <- (held_cycle np (dead ∘ f) [LProc np] s Hh), <- upd_proc_twice.
    by apply mem_only_set_held, mem_only_upd_proc.
Qed.

(** The end of [allocproc], after the page table. *)
Definition alloc_tail (p : nat) : K (option nat) :=
  proc_upd p (fun x => set_p_context (mkContext ksym_forkret (p_kstack x + PGSIZE) (replicate 12 0)) x);;
  proc_upd p (set_p_signalMask 0);;
  proc_upd p (set_p_pendingSignals 0);;
  proc_upd p (set_p_sigHandlerFlag 0);;
  proc_upd p (set_p_frozen 0);;
  btf ← kalloc;
  proc_upd p (set_p_backupTrapframe btf);;
  for_each (seq 0 32) (fun i =>
    proc_upd p (fun x => set_p_signalHandlers (<[i := SIG_DFL]> (p_signalHandlers x)) x);;
    proc_upd p (fun x => set_p_sigMaskArray (<[i := 0]> (p_sigMaskArray x)) x));;
  mret (Some p).

Lemma allocproc_eq :
  allocproc = (r ← find_unused;
    match r with
    | None => mret None
    | Some p =>
        pid ← allocpid;
        proc_upd p (set_p_pid pid);;
        proc_upd p (set_p_state USED);;
        tf ← kalloc;
        proc_upd p (set_p_trapframe tf);;
        if tf =? 0 then freeproc p;; release (LProc p);; mret None else
        pt ← proc_pagetable p;
        proc_upd p (set_p_pagetable pt);;
        if pt =? 0 then freeproc p;; release (LProc p);; mret None else alloc_tail p
    end).
Proof. unfold allocproc, alloc_tail. reflexivity. Qed.

Lemma alloc_tail_spec np s own fl env :
  vm_ok s own fl -> shaped (get_proc np s) -> (np < length (k_procs s))%nat ->
  exists btf s' fl', alloc_tail np (mkWorld s env) = Ok (Some np) (mkWorld s' env) /\
    mem_only (upd_proc np (filled btf) s) s' /\ (forall r, builds r (frame btf) s own fl s' own fl') /\
    same_pte s own s' /\ (btf = 0 \/ kernel_page own fl' btf) /\ (length fl <= S (length fl'))%nat.
Proof.
  intros Hok Hsh Hnp. unfold alloc_tail. rewrite !bind_proc_upd, !upd_proc_twice.
  match goal with |- context [mkWorld (upd_proc np ?f s) env] => set (g := f) end.
  destruct (kalloc_frame (upd_proc np g s) own fl env (vm_ok_upd_proc _ _ _ _ _ Hok))
    as (btf & s1 & fl1 & Hrun & Hmo & B & Hsp & Hres).
  rewrite (run_bind _ _ _ btf (mkWorld s1 env)) by done. rewrite bind_proc_upd.
  set (s2 := upd_proc np (set_p_backupTrapframe btf) s1).
  assert (Hmo2 : mem_only (upd_proc np (set_p_backupTrapframe btf ∘ g) s) s2)
    by (rewrite <- upd_proc_twice; by apply mem_only_upd_proc).
  assert (Hsh2 : shaped (get_proc np s2)).
  { rewrite (mem_only_proc _ _ np Hmo2), get_upd_proc by done. destruct Hsh. by split. }
  rewrite (run_bind _ _ _ _ _ (sig_arrays np (fun _ => SIG_DFL) (fun _ => 0) s2 env Hsh2)).
  eexists btf, _, fl1. split; [done|]. split; [|split; [|split; [done|]]].
  - change (filled btf) with ((fun x => set_p_sigMaskArray ((fun _ => 0) <$> seq 0 32)
      (set_p_signalHandlers ((fun _ => SIG_DFL) <$> seq 0 32) x)) ∘ (set_p_backupTrapframe btf ∘ g)).
    rewrite <- (upd_proc_twice np _ (set_p_backupTrapframe btf ∘ g)). by apply mem_only_upd_proc.
  - intros r. eapply builds_frame; [| | |apply B]; [done..|]. do 2 apply vm_ok_upd_proc. apply (B r).
  - destruct Hres as [[-> ->]|[Hk Hl]]; [split; [by left|cbn; lia]|split; [by right|lia]].
Qed.

(** [allocproc] once a slot is found: a process with an empty address space, or, when
    memory runs out, nothing. *)
Lemma allocproc_spec np s own fl env :
  k_held s = [] -> vm_ok s own fl -> first_slot (is_unused s) NPROC = Some np -> length (k_procs s) = NPROC ->
  clean (get_proc np s) -> shaped (get_proc np s) ->
  (exists s' fl', allocproc (mkWorld s env) = Ok None (mkWorld s' env) /\
     mem_only (next_pid (upd_proc np dead s)) s' /\ restored s own fl s' fl' /\ (length fl < 6)%nat) \/
  (exists s' own' fl' r tf btf, allocproc (mkWorld s env) = Ok (Some np) (mkWorld s' env) /\
     mem_only (set_k_held [LProc np] (next_pid (upd_proc np (fresh (k_nextpid s) r tf btf) s))) s' /\
     new_proc s own fl r tf btf 0 s' own' fl' /\ Z.of_nat (length fl) <= Z.of_nat (length fl') + 7).
Proof.
  intros Hh Hok Hf Hlen [C1 C2 C3 C4 _ _] Hsh.
  assert (Hnp : (np < length (k_procs s))%nat) by (rewrite Hlen; by apply first_slot_Some in Hf as [? _]).
  assert (Hl : forall l, l <> LProc np -> l ∉ [LProc np]) by (intros l Hl; by rewrite list_elem_of_singleton).
  rewrite allocproc_eq. rewrite (run_bind _ _ _ (Some np) (mkWorld (set_k_held [LProc np] s) env))
    by (by rewrite find_unused_run, Hf by done).
  rewrite (run_bind _ _ _ (k_nextpid s) (mkWorld (next_pid (set_k_held [LProc np] s)) env))
    by (rewrite allocpid_run; [done|by apply Hl]).
  rewrite !bind_proc_upd, upd_proc_twice. set (s0 := next_pid (set_k_held [LProc np] s)).
  set (g1 := set_p_state USED ∘ set_p_pid (k_nextpid s)).
  assert (Hok1 : vm_ok (upd_proc np g1 s0) own fl) by (eapply vm_ok_frame; [..|exact Hok]; [done..|by apply Hl]).
  destruct (kalloc_frame (upd_proc np g1 s0) own fl env Hok1) as (tf & s2 & fl2 & Hrun2 & Hmo2 & B2 & _ & Hres2).
  rewrite (run_bind _ _ _ tf (mkWorld s2 env)) by done. rewrite bind_proc_upd.
  set (g3 := set_p_trapframe tf ∘ g1). set (s3 := upd_proc np (set_p_trapframe tf) s2).
  assert (Hmo3 : mem_only (upd_proc np g3 s0) s3)
    by (unfold g3; rewrite <- upd_proc_twice; by apply mem_only_upd_proc).
  assert (Hok3 : vm_ok s3 own fl2) by (apply vm_ok_upd_proc; apply (B2 0)).
  assert (B3 : forall r, builds r (frame tf) s own fl s3 own fl2)
    by (intros r; by eapply builds_frame; [| | |apply B2]).
  destruct (Z.eqb_spec tf 0) as [->|Htf].
  { left. destruct Hres2 as [[_ ->]|[[Hp _ _] _]]; [|apply (page_ok_pos Hks) in Hp; lia].
    destruct (allocproc_undo np g3 s own [] s3 fl2 0 env) as (s' & fl' & Hrun & Hmo & R); try done; [by left|].
    exists s', fl'. split; [done|]. split; [done|]. split; [done|cbn; lia]. }
  destruct Hres2 as [[? _]|[Ktf Hlen2]]; [done|].
  assert (Hg3 : get_proc np s3 = g3 (get_proc np s)) by (rewrite (mem_only_proc _ _ np Hmo3); by rewrite get_upd_proc).
  destruct (proc_pagetable_spec Hks Htr np tf s3 own fl2 env Hok3) as (r & s4 & Hrun4 & Hmo4 & Hres4).
  { by rewrite Hg3. } { destruct Ktf as [Hp _ _]. apply (page_ok_pos Hks) in Hp. lia. } { apply Ktf. }
  rewrite (run_bind _ _ _ r (mkWorld s4 env)) by done. rewrite bind_proc_upd.
  set (g5 := set_p_pagetable r ∘ g3). set (s5 := upd_proc np (set_p_pagetable r) s4).
  assert (Hmo5 : mem_only (upd_proc np g5 s0) s5)
    by (unfold g5; rewrite <- upd_proc_twice; apply mem_only_upd_proc; by etrans).
  destruct Hres4 as [(own4 & fl4 & Hr0 & Hrn & B4 & Hsp & Hlen4)|(-> & Hlen4 & fl4 & R4)].
  2:{ left. cbn [Z.eqb]. apply (restored_builds 0) in R4 as B4.
      destruct (allocproc_undo np g5 s own fl s5 fl4 tf env) as (s' & fl' & Hrun & Hmo & R); try done.
      - rewrite <- (app_nil_r (frame tf)). eapply (builds_trans 0 (frame tf) []); [apply B3|].
        eapply builds_frame; [| | |exact B4]; [done..|]. apply vm_ok_upd_proc, R4.
      - right. by eapply builds_kernel_page.
      - exists s', fl'. split; [done|]. split; [done|]. split; [done|lia]. }
  right. rewrite (proj2 (Z.eqb_neq r 0)) by lia.
  assert (Hg5 : get_proc np s5 = g5 (get_proc np s)) by (rewrite (mem_only_proc _ _ np Hmo5); by rewrite get_upd_proc).
  assert (Hok5 : vm_ok s5 own4 fl4) by (apply vm_ok_upd_proc; apply B4).
  destruct (alloc_tail_spec np s5 own4 fl4 env Hok5) as (btf & s6 & fl6 & Hrun6 & Hmo6 & B6 & Hsp6 & Hk6 & Hlen6).
  { rewrite Hg5. destruct Hsh. by split. }
  { destruct Hmo5 as (h & m & ->). cbn. by rewrite length_alter. }
  assert (B5 : builds r (frame tf) s own fl s5 own4 fl4).
  { rewrite <- (app_nil_r (frame tf)). eapply builds_trans; [apply B3|]. by eapply builds_frame; [| | |exact B4]. }
  assert (Ktf4 : kernel_page own4 fl4 tf) by (eapply builds_kernel_page; [exact B4|exact Ktf]).
  exists s6, own4, fl6, r, tf, btf. split; [exact Hrun6|]. split; [|split; [|lia]].
  - etrans; [|exact Hmo6]. etrans; [|apply mem_only_upd_proc; exact Hmo5]. rewrite upd_proc_twice. by destruct s.
  - split; [done| |exact (space_frame s5 own4 s6 _ _ _ Hsp6 Hsp)|..].
    + eapply builds_xs; [|eapply builds_trans; [exact B5|apply B6]]. intros x. rewrite !elem_of_app. tauto.
    + by eapply builds_kernel_page; [apply (B6 r)|].
    + destruct Hk6 as [|Hk6]; [by left|]. destruct (decide (btf = 0)) as [|Hb]; [by left|right].
      split; [done|]. intros ->. eapply kp_fl; [exact Ktf4|].
      by apply (bd_frames _ _ _ _ _ _ _ _ (B6 r)), elem_of_frame.
Qed.

(** ** The invariant of the process table *)

(** The memory of a process that exists. *)
Record live (s : kst) (own : gmap Z owner) (fl : list Z) (pr : proc) : Prop := {
  lv_space : space (k_mem s) own (p_pagetable pr) (npages (p_sz pr)) (p_trapframe pr);
  lv_sz : 0 <= p_sz pr;
  lv_frame : kernel_page own fl (p_trapframe pr);
  lv_backup : p_backupTrapframe pr = 0 \/
    (kernel_page own fl (p_backupTrapframe pr) /\ p_backupTrapframe pr <> p_trapframe pr)
}.

Record procs_ok (s : kst) (own : gmap Z owner) (fl : list Z) : Prop := {
  po_vm : vm_ok s own fl;
  po_len : length (k_procs s) = NPROC;
  po_shape i : (i < NPROC)%nat -> shaped (get_proc i s);
  po_live i : (i < NPROC)%nat -> p_state (get_proc i s) <> UNUSED -> live s own fl (get_proc i s);
  po_clean i : (i < NPROC)%nat -> p_state (get_proc i s) = UNUSED -> clean (get_proc i s);
  po_zombie i : (i < NPROC)%nat -> p_state (get_proc i s) = ZOMBIE -> p_ofile (get_proc i s) = replicate NOFILE None;
  po_apart i j : (i < NPROC)%nat -> (j < NPROC)%nat -> i <> j ->
    p_state (get_proc i s) <> UNUSED -> p_state (get_proc j s) <> UNUSED ->
    p_pagetable (get_proc i s) <> p_pagetable (get_proc j s) /\
    forall x, x ∈ frames (get_proc i s) -> x ∉ frames (get_proc j s)
}.

Lemma live_parts s own fl pr : live s own fl pr -> parts s own fl pr.
Proof.
  intros [H1 H2 H3 H4]. split.
  - by right.
  - destruct H4 as [|[? ?]]; [by left|by right].
  - destruct H4 as [|[? ?]]; [by left|by right].
  - right. split; [|done]. destruct H3 as [Hp _ _]. apply (page_ok_pos Hks) in Hp. lia.
Qed.

Lemma live_frames s own fl pr x : live s own fl pr -> x ∈ frames pr -> kernel_page own fl x.
Proof.
  intros [H1 H2 H3 H4] [[-> Hx]%elem_of_frame|[-> Hx]%elem_of_frame]%elem_of_app; [|done].
  by destruct H4 as [|[? ?]].
Qed.

Lemma builds_space r xs s own fl s' own' fl' r' n tf :
  builds r xs s own fl s' own' fl' -> r' <> r -> space (k_mem s) own r' n tf -> space (k_mem s') own' r' n tf.
Proof.
  intros B Hne [Hr Hsz Hu Ht Hf Hrest].
  assert (Hsame : forall va, 0 <= va < MAXVA -> pte_of (k_mem s') r' va = pte_of (k_mem s) r' va)
    by (intros va Hva; by eapply bd_pte).
  split; [eapply is_root_sub; [apply B|done]|done|..].
  - intros vpn Hv. destruct (Hu vpn Hv) as [q Hq]. exists q. eapply lookup_weaken; [done|apply B].
  - rewrite <- Ht. apply Hsame. by vm_compute.
  - rewrite <- Hf. apply Hsame. by vm_compute.
  - intros va Hva Hn. rewrite Hsame; [by apply Hrest|]. change TRAPFRAME with (2 ^ 38 - 8192) in Hva.
    change MAXVA with (2 ^ 38). lia.
Qed.

Lemma builds_live r xs s own fl s' own' fl' pr :
  builds r xs s own fl s' own' fl' -> p_pagetable pr <> r -> live s own fl pr -> live s' own' fl' pr.
Proof.
  intros B Hne [H1 H2 H3 H4]. split; [by eapply builds_space|done|by eapply builds_kernel_page|].
  destruct H4 as [|[H4 H5]]; [by left|right]. split; [by eapply builds_kernel_page|done].
Qed.

Lemma live_root s own fl pr : live s own fl pr -> is_root own (p_pagetable pr).
Proof. intros H. apply H. Qed.

(** Slot [np] changes, the others keep their processes. *)
Lemma procs_ok_slot r xs s own fl s' own' fl' np :
  procs_ok s own fl -> builds r xs s own fl s' own' fl' -> own !! r = None ->
  (np < NPROC)%nat -> length (k_procs s') = NPROC ->
  (forall i, i <> np -> get_proc i s' = get_proc i s) ->
  let c := get_proc np s' in
  shaped c -> (p_state c = UNUSED -> clean c) -> (p_state c = ZOMBIE -> p_ofile c = replicate NOFILE None) ->
  (p_state c <> UNUSED -> live s' own' fl' c /\ p_pagetable c = r /\ forall x, x ∈ frames c -> x ∈ xs) ->
  procs_ok s' own' fl'.
Proof.
  intros P B Hn Hnp Hlen Hoth c Hsh Hcl Hz Hlv.
  assert (Hroot : forall i, (i < NPROC)%nat -> p_state (get_proc i s) <> UNUSED -> p_pagetable (get_proc i s) <> r).
  { intros i Hi Hst He. pose proof (live_root _ _ _ _ (po_live _ _ _ P i Hi Hst)) as H.
    rewrite He in H. unfold is_root in H. congruence. }
  assert (Hnew : forall i, (i < NPROC)%nat -> i <> np -> p_state (get_proc i s) <> UNUSED -> p_state c <> UNUSED ->
    p_pagetable (get_proc i s) <> p_pagetable c /\ forall x, x ∈ frames (get_proc i s) -> x ∉ frames c).
  { intros i Hi Hne Hst Hc. destruct (Hlv Hc) as (_ & Hpt & Hfr). rewrite Hpt. split; [by apply Hroot|].
    intros x Hx Hx'. apply Hfr, (bd_frames _ _ _ _ _ _ _ _ B) in Hx' as [Hx' _].
    by apply (live_frames _ _ _ _ _ (po_live _ _ _ P i Hi Hst)) in Hx as [_ _ Hx]. }
  split; [apply B|done|..].
  - intros i Hi. destruct (decide (i = np)) as [->|Hne]; [done|]. rewrite Hoth by done. by apply (po_shape _ _ _ P).
  - intros i Hi. destruct (decide (i = np)) as [->|Hne]; [intros; by apply Hlv|]. rewrite Hoth by done. intros Hst.
    eapply builds_live; [exact B|by apply Hroot|]. by apply (po_live _ _ _ P).
  - intros i Hi. destruct (decide (i = np)) as [->|Hne]; [done|]. rewrite Hoth by done. by apply (po_clean _ _ _ P).
  - intros i Hi. destruct (decide (i = np)) as [->|Hne]; [done|]. rewrite Hoth by done. by apply (po_zombie _ _ _ P).
  - intros i j Hi Hj Hij. destruct (decide (i = np)) as [->|Hi']; [|destruct (decide (j = np)) as [->|Hj']].
    + rewrite (Hoth j) by done. intros Hc Hst. destruct (Hnew j Hj ltac:(done) Hst Hc) as [H1 H2].
      split; [done|]. intros x Hx Hx'. by eapply H2.
    + rewrite (Hoth i) by done. intros Hst Hc. by apply Hnew.
    + rewrite (Hoth i), (Hoth j) by done. by apply (po_apart _ _ _ P).
Qed.

(** An empty address space after [uvmalloc] or [uvmcopy]. *)
Lemma added_space r n tf s1 own1 fl1 s2 own2 fl2 :
  added r 0 n s1 own1 fl1 s2 own2 fl2 -> user_mapped own2 r 0 n -> 0 <= n /\ n * PGSIZE <= TRAPFRAME ->
  space (k_mem s1) own1 r 0 tf -> space (k_mem s2) own2 r n tf.
Proof.
  intros A Hm Hn [Hr _ _ Ht Hf Hrest]. change TRAPFRAME with (frame_vpn * PGSIZE) in Hn.
  assert (Hsame : forall va, 0 <= va < MAXVA -> n <= va / PGSIZE -> pte_of (k_mem s2) r va = pte_of (k_mem s1) r va)
    by (intros va Hva Hge; apply (ad_pte A); [done..|lia]).
  assert (Hlt : n <= frame_vpn) by (unfold PGSIZE in Hn; lia).
  split; [eapply is_root_sub; [apply A|done]|done|done|..].
  - rewrite <- Ht. apply Hsame; [by vm_compute|]. change (TRAMPOLINE / PGSIZE) with (frame_vpn + 1). lia.
  - rewrite <- Hf. apply Hsame; [by vm_compute|]. done.
  - intros va Hva Hge. rewrite Hsame; [apply Hrest; [done|]|..|done].
    + apply Z.div_pos; [lia|done].
    + change TRAPFRAME with (2 ^ 38 - 8192) in Hva. change MAXVA with (2 ^ 38). lia.
Qed.

Lemma shaped_dead pr : shaped pr -> shaped (dead pr).
Proof. intros [H1 H2 H3 H4]. split; cbn; [done|by rewrite length_insert|done|done]. Qed.

Lemma clean_dead pr : clean pr -> clean (dead pr).
Proof. intros [H1 H2 H3 H4 H5 H6]. by split. Qed.

End ProcTable.
