(* ===== verification/ProcDemo.v ===== *)
(** * Processes on the small machine

    Process tables that satisfy [procs_ok], made by [allocproc] and [uvmalloc] on the
    machine of Demo.v. *)

From stdpp Require Import base gmap list strings.
From Stdlib Require Import ZArith Lia.
From S2P Require Import Prelude Riscv Memory State Spinlock Sched Kalloc Vm PageTable UserMem Uvm Freewalk Demo.
From S2P Require Import Bio Log Fs Console Pipe File Proc ProcMem ProcTable.

Lemma demo_trampoline : trampoline_ok demo_syms.
Proof. by vm_compute. Qed.

Lemma k_held_set h s : k_held (set_k_held h s) = h.
Proof. reflexivity. Qed.

(** A process with [sz] bytes of memory in slot [np]; [f] sets the rest of the slot. *)
Definition spawn (np : nat) (sz : Z) (f : proc -> proc) (s : kst) : kst :=
  let s1 := after allocproc s in
  let s2 := after (uvmalloc (p_pagetable (get_proc np s1)) 0 sz) s1 in
  set_k_held [] (upd_proc np (f ∘ set_p_sz sz) s2).

Lemma held_spawn np sz f s : k_held (spawn np sz f s) = [].
Proof. unfold spawn. cbv zeta. apply (k_held_set []). Qed.

(** What [f] leaves alone. *)
Record keeps_memory (f : proc -> proc) : Prop := {
  km_memory x : p_pagetable (f x) = p_pagetable x /\ p_sz (f x) = p_sz x /\
    p_trapframe (f x) = p_trapframe x /\ p_backupTrapframe (f x) = p_backupTrapframe x;
  km_shaped x : shaped x -> shaped (f x);
  km_state x : p_state (f x) <> UNUSED;
  km_zombie x : p_state (f x) = ZOMBIE -> p_ofile (f x) = replicate NOFILE None
}.

Lemma spawn_ok np sz f s own fl :
  procs_ok s own fl -> k_held s = [] -> first_slot (is_unused s) NPROC = Some np ->
  0 <= sz -> npages sz * PGSIZE <= TRAPFRAME -> 3 * npages sz + 7 <= Z.of_nat (length fl) -> keeps_memory f ->
  exists own' fl' pid r tf btf, procs_ok (spawn np sz f s) own' fl' /\
    Z.of_nat (length fl) <= Z.of_nat (length fl') + 3 * npages sz + 7 /\
    mem_only (next_pid (upd_proc np (f ∘ set_p_sz sz ∘ fresh pid r tf btf) s)) (spawn np sz f s).
Proof.
  intros P Hh Hslot Hsz Hmax Hlen K.
  pose proof (proj1 (first_slot_Some _ _ _) Hslot) as (Hnp & Hun & _). apply bool_decide_eq_true in Hun.
  pose proof (po_clean _ _ _ P np Hnp Hun) as C. pose proof (po_shape _ _ _ P np Hnp) as Hsh.
  destruct (allocproc_spec demo_syms_ok demo_trampoline np s own fl [] Hh (po_vm _ _ _ P) Hslot (po_len _ _ _ P) C Hsh)
    as [(? & ? & _ & _ & _ & ?)|(s1 & own1 & fl1 & r & tf & btf & Hrun & Hmo & [[Hrn Hr0] B Sp Hf Hb] & Hl)].
  { pose proof (npages_bounds sz Hsz). lia. }
  set (g := fresh (k_nextpid s) r tf btf) in *.
  assert (Hg : get_proc np s1 = g (get_proc np s)).
  { rewrite (mem_only_proc _ _ np Hmo). apply (get_upd_proc np g s). by rewrite (po_len _ _ _ P). }
  assert (Hfree : pte_free s1 r (npages 0) (npages sz - npages 0)).
  { change (npages 0) with 0. intros vpn Hv. apply (sp_rest _ _ _ _ _ Sp).
    - change TRAPFRAME with (2 ^ 38 - 8192) in *. unfold PGSIZE in *. lia.
    - apply Z.div_pos; [unfold PGSIZE; lia|done]. }
  pose proof (npages_bounds sz Hsz) as Hnb.
  destruct (uvmalloc_spec demo_syms_ok r 0 sz s1 own1 fl1 [] (bd_ok _ _ _ _ _ _ _ _ B) (sp_root _ _ _ _ _ Sp))
    as (e & s2 & own2 & fl2 & Hrun2 & Hres); [lia| |done|].
  { change TRAPFRAME with (2 ^ 38 - 8192) in *. change MAXVA with (2 ^ 38). lia. }
  change (npages 0) with 0 in Hres. rewrite Z.sub_0_r in Hres.
  destruct Hres as [(_ & A & Hl2 & Hm)|(_ & Hl2 & _)]; [|lia].
  set (s' := spawn np sz f s).
  assert (Hs' : s' = set_k_held [] (upd_proc np (f ∘ set_p_sz sz) s2)).
  { unfold s', spawn. rewrite (after_run _ _ _ _ Hrun), Hg. change (p_pagetable (g (get_proc np s))) with r.
    by rewrite (after_run _ _ _ _ Hrun2). }
  assert (Hmo' : mem_only (next_pid (upd_proc np (f ∘ set_p_sz sz ∘ g) s)) s').
  { rewrite Hs', <- upd_proc_twice. etrans; [|apply mem_only_set_held, mem_only_upd_proc; etrans; [exact Hmo|apply A]].
    exists (k_freelist s), (k_mem s). destruct s. cbn in Hh. by subst. }
  exists own2, fl2, (k_nextpid s), r, tf, btf. split; [|split; [lia|exact Hmo']].
  assert (Hc : get_proc np s' = f (set_p_sz sz (g (get_proc np s)))).
  { rewrite (mem_only_proc _ _ np Hmo'). apply (get_upd_proc np (f ∘ set_p_sz sz ∘ g) s). by rewrite (po_len _ _ _ P). }
  pose proof (added_space _ _ _ _ _ _ _ _ _ A (mapped_as_user _ _ _ _ _ _ _ Hm) (conj (proj1 Hnb) Hmax) Sp) as Sp2.
  assert (B' : builds r (frame btf ++ frame tf) s own fl s' own2 fl2).
  { rewrite <- (app_nil_r (_ ++ _)). eapply builds_trans; [exact B|].
    eapply builds_frame; [| | |exact (added_builds _ _ _ _ _ _ _ _ _ A)]; [done|by rewrite Hs'|].
    apply (vm_ok_frame s2); [by rewrite Hs'..|rewrite Hs'; apply not_elem_of_nil|apply A]. }
  eapply (procs_ok_slot r (frame btf ++ frame tf) s own fl s' own2 fl2 np P B' Hrn Hnp).
  - rewrite Hs'. cbn. rewrite length_alter. destruct (ad_mem A) as (h & m & ->). destruct Hmo as (h' & m' & ->).
    cbn. rewrite length_alter. apply P.
  - intros i Hi. rewrite (mem_only_proc _ _ i Hmo'). by apply (get_upd_proc_ne np i).
  - rewrite Hc. apply K. destruct Hsh. by split.
  - rewrite Hc. intros H. by apply K in H.
  - rewrite Hc. apply K.
  - intros _. rewrite Hc. destruct (km_memory f K (set_p_sz sz (g (get_proc np s)))) as (K1 & K2 & K3 & K4).
    split; [|split; [by rewrite K1|]].
    + split; rewrite ?K1, ?K2, ?K3, ?K4.
      * assert (Hm' : k_mem s' = k_mem s2) by (by rewrite Hs'). rewrite Hm'. exact Sp2.
      * done.
      * eapply builds_kernel_page; [exact (added_builds _ _ _ _ _ _ _ _ _ A)|exact Hf].
      * destruct Hb as [|[Hb ?]]; [by left|right]. split; [|done].
        eapply builds_kernel_page; [exact (added_builds _ _ _ _ _ _ _ _ _ A)|exact Hb].
    + intros x. unfold frames. by rewrite K3, K4.
Qed.

(** The invariant of the table reads the memory, the free list and the table only. *)
Lemma procs_ok_same s s' own fl :
  k_mem s' = k_mem s -> k_freelist s' = k_freelist s -> LKmem ∉ k_held s' -> k_procs s' = k_procs s ->
  procs_ok s own fl -> procs_ok s' own fl.
Proof.
  intros Hm Hf Hh Hp [P1 P2 P3 P4 P5 P6 P7].
  assert (Hg : forall i, get_proc i s' = get_proc i s) by (intros i; unfold get_proc; by rewrite Hp).
  split; [by eapply vm_ok_frame; [..|exact P1]|by rewrite Hp|..]; intros i; rewrite ?Hg; auto.
  - intros Hi Hst. destruct (P4 i Hi Hst) as [L1 L2 L3 L4]. split; [by rewrite Hm|done..].
  - intros j. rewrite !Hg. apply P7.
Qed.

Lemma get_next_pid i s : get_proc i (next_pid s) = get_proc i s.
Proof. reflexivity. Qed.

Lemma proc0_clean : clean proc0.
Proof. by split. Qed.

Lemma proc0_shaped : shaped proc0.
Proof. by split. Qed.

Lemma demo_boot_procs i : (i < NPROC)%nat -> get_proc i demo_boot = proc0.
Proof.
  intros Hi. rewrite (mem_only_proc _ _ i demo_boot_mem). unfold get_proc.
  change (k_procs kst0) with (replicate NPROC proc0). by rewrite lookup_total_replicate_2.
Qed.

(** Every slot is free after [kinit]. *)
Lemma demo_boot_table : procs_ok demo_boot ∅ (pages [1;2;3;4;5;6;7;8;9;10;11;12;13;14;15;16]).
Proof.
  assert (Hst : forall i, (i < NPROC)%nat -> p_state (get_proc i demo_boot) = UNUSED)
    by (intros i Hi; by rewrite demo_boot_procs).
  split; [apply demo_boot_ok| |intros i Hi..].
  - destruct demo_boot_mem as (h & m & ->). apply length_replicate.
  - rewrite demo_boot_procs by done. apply proc0_shaped.
  - rewrite Hst by done. by intros [].
  - rewrite demo_boot_procs by done. intros _. apply proc0_clean.
  - rewrite Hst by done. done.
  - intros Hj _ _ H. exfalso. apply H. by apply Hst.
Qed.

Lemma demo_boot_slot : first_slot (is_unused demo_boot) NPROC = Some 0%nat.
Proof.
  apply first_slot_Some. split; [unfold NPROC; lia|]. split; [|lia].
  apply bool_decide_eq_true. rewrite demo_boot_procs; [done|unfold NPROC; lia].
Qed.

(** ** A process about to fork *)

Definition with_file (x : proc) : proc :=
  set_p_state RUNNING (set_p_cwd (Some 0%nat) (set_p_ofile (<[0%nat := Some 0%nat]> (p_ofile x)) x)).

(** Process 0 has one page of memory, one open file and a current directory. *)
Definition demo_parent : kst :=
  set_k_files (<[0%nat := set_f_ref 1 file0]> (k_files kst0)) (set_k_cur (Some 0%nat) (spawn 0 4096 with_file demo_boot)).

Lemma with_file_keeps : keeps_memory with_file.
Proof. split; [done| |done|done]. intros x [H1 H2 H3 H4]. split; [cbn; by rewrite length_insert|done..]. Qed.

Lemma demo_parent_ok : exists own fl, procs_ok demo_parent own fl /\ k_cur demo_parent = Some 0%nat /\
  k_held demo_parent = [] /\ k_files demo_parent = <[0%nat := set_f_ref 1 file0]> (k_files kst0) /\
  exists pid r tf btf, get_proc 0 demo_parent = with_file (set_p_sz 4096 (fresh pid r tf btf proc0)).
Proof.
  destruct (spawn_ok 0 4096 with_file demo_boot ∅ _ demo_boot_table (proj2 demo_boot_ok) demo_boot_slot)
    as (own & fl & pid & r & tf & btf & P & _ & Hmo); [lia|by vm_compute|by vm_compute|apply with_file_keeps|].
  assert (Hh : k_held (spawn 0 4096 with_file demo_boot) = []).
  { apply held_spawn. }
  unfold demo_parent. revert P Hmo Hh. generalize (spawn 0 4096 with_file demo_boot). intros s0 P Hmo Hh.
  exists own, fl. split; [|split; [done|split; [done|split; [done|]]]].
  - eapply procs_ok_same; [..|exact P]; [done|done|cbn; rewrite Hh; apply not_elem_of_nil|done].
  - exists pid, r, tf, btf. transitivity (get_proc 0 s0); [done|]. rewrite (mem_only_proc _ _ 0%nat Hmo).
    rewrite get_next_pid, get_upd_proc; [|rewrite (po_len _ _ _ demo_boot_table); unfold NPROC; lia].
    rewrite demo_boot_procs; [done|unfold NPROC; lia].
Qed.

#[global] Opaque demo_parent.
