(* ===== verification/Fork.v ===== *)
(** * Creating processes (kernel/proc.c: fork)

    [fork] on a machine whose process table satisfies [procs_ok]: it makes a copy of the
    calling process, or fails and leaves everything as it was. *)

From stdpp Require Import base functions gmap list strings.
From Stdlib Require Import ZArith Lia.
From S2P Require Import Prelude Riscv Memory State Spinlock Sched Kalloc Vm PageTable UserMem Uvm Freewalk.
From S2P Require Import Bio Log Fs Console Pipe File Proc ProcMem ProcTable Demo ProcDemo.

#[local] Set Warnings "-clear-no-such-hyp".

(** ** The open files of the child *)

(** The reference counts after every file of [l] has been duplicated. *)
Definition dup_refs (l : list (option nat)) (fs : list file) : list file :=
  foldl (fun fs o => match o with Some f => alter (fun x => set_f_ref (f_ref x + 1) x) f fs | None => fs end) fs l.

Definition dup_slots (src : nat -> option nat) (l : list nat) (o : list (option nat)) : list (option nat) :=
  foldl (fun o i => match src i with Some f => <[i := Some f]> o | None => o end) o l.

Lemma filedup_run f s env :
  LFtable ∉ k_held s -> 1 <= f_ref (k_files s !!! f) ->
  filedup f (mkWorld s env) =
  Ok f (mkWorld (set_k_files (alter (fun x => set_f_ref (f_ref x + 1) x) f (k_files s)) s) env).
Proof.
  intros Hl Href. apply run_wp. unfold filedup, file_of, file_upd, get_file. kstep. kstep.
  apply wpx_acquire; [done|]. cbn [w_ks w_env]. ksteps. cbn [k_files set_k_held].
  rewrite (proj2 (Z.ltb_ge _ _)) by lia. ksteps. eapply wpx_release; [reflexivity|]. ksteps. split; [done|].
  by f_equal.
Qed.

Lemma alter_ref (fs : list file) (f g : nat) n :
  n <= f_ref (fs !!! g) -> n <= f_ref (alter (fun x => set_f_ref (f_ref x + 1) x) f fs !!! g).
Proof.
  intros H. rewrite list_lookup_total_alter. case_decide as D; [|done]. destruct D as [-> _]. cbn. lia.
Qed.

Lemma dup_files np (src : nat -> option nat) l : forall s env,
  LFtable ∉ k_held s -> (forall i f, i ∈ l -> src i = Some f -> 1 <= f_ref (k_files s !!! f)) ->
  for_each l (fun i =>
    match src i with
    | Some f => f ← filedup f; proc_upd np (fun x => set_p_ofile (<[i := Some f]> (p_ofile x)) x)
    | None => mret tt
    end) (mkWorld s env) =
  Ok tt (mkWorld (upd_proc np (fun x => set_p_ofile (dup_slots src l (p_ofile x)) x)
                   (set_k_files (dup_refs (src <$> l) (k_files s)) s)) env).
Proof.
  induction l as [|i l IH]; intros s env Hl Href; cbn [for_each].
  - rewrite upd_proc_id; [|by destruct (get_proc np _)]. by destruct s.
  - destruct (src i) as [f|] eqn:Hi.
    + set (s1 := set_k_files (alter (fun x => set_f_ref (f_ref x + 1) x) f (k_files s)) s).
      set (s2 := upd_proc np (fun x => set_p_ofile (<[i := Some f]> (p_ofile x)) x) s1).
      rewrite (run_bind _ _ _ tt (mkWorld s2 env)).
      2:{ rewrite (run_bind _ _ _ f (mkWorld s1 env)); [done|]. apply filedup_run; [done|]. eapply Href; [left|done]. }
      rewrite IH; [|done|].
      * do 2 f_equal. unfold s2, dup_slots, dup_refs. cbn [fmap list_fmap foldl]. rewrite Hi.
        change (set_k_files ?a (upd_proc np ?g s1)) with (upd_proc np g (set_k_files a s1)).
        rewrite upd_proc_twice. unfold s1. by destruct s.
      * intros j g Hj Hg. cbn. apply alter_ref. eapply Href; [by right|done].
    + rewrite (run_bind _ _ _ tt (mkWorld s env)) by done. rewrite IH; [|done|].
      * do 2 f_equal. unfold dup_slots, dup_refs. cbn [fmap list_fmap foldl]. by rewrite Hi.
      * intros j g Hj Hg. eapply Href; [by right|done].
Qed.

(** The child's descriptor table, empty before, is the parent's. *)
Lemma dup_slots_copy (l : list (option nat)) n : length l = n ->
  dup_slots (fun i => l !! i ≫= id) (seq 0 n) (replicate n None) = l.
Proof.
  intros <-.
  assert (H : forall k, (k <= length l)%nat ->
    dup_slots (fun i => l !! i ≫= id) (seq 0 k) (replicate (length l) None) = take k l ++ replicate (length l - k) None).
  { induction k as [|k IH]; intros Hk; [by rewrite Nat.sub_0_r|].
    unfold dup_slots in *. rewrite seq_S, foldl_snoc, IH by lia. cbn [Nat.add].
    destruct (lookup_lt_is_Some_2 l k ltac:(lia)) as [o Ho]. rewrite (take_S_r l k o Ho), <- app_assoc, Ho.
    replace (length l - k)%nat with (S (length l - S k)) by lia. cbn [replicate app mbind option_bind id].
    destruct o as [f|]; [|done]. cbn.
    rewrite insert_app_r_alt by (rewrite length_take; lia). rewrite length_take, Nat.min_l by lia.
    by rewrite Nat.sub_diag. }
  rewrite H by lia. rewrite take_ge, Nat.sub_diag by lia. apply app_nil_r.
Qed.

(** ** After the memory has been copied *)

Section Fork.
Context {KS : KSyms}.

(** The part of [fork] after [uvmcopy], with the two processes as they were before. *)
Definition fork_tail (p np : nat) (pp cp : proc) : K Z :=
  proc_upd np (set_p_sz (p_sz pp));;
  proc_upd np (set_p_signalMask (p_signalMask pp));;
  for_each (seq 0 32) (fun i =>
    proc_upd np (fun x => set_p_signalHandlers
      (<[i := p_signalHandlers pp !!! i]> (p_signalHandlers x)) x);;
    proc_upd np (fun x => set_p_sigMaskArray
      (<[i := p_sigMaskArray pp !!! i]> (p_sigMaskArray x)) x));;
  memM (fun m => memmove m (p_trapframe cp) (p_trapframe pp) TF_SIZE);;
  tf_set np TF_a0 0;;
  for_each (seq 0 NOFILE) (fun i =>
    match p_ofile pp !! i ≫= id with
    | Some f =>
        f ← filedup f;
        proc_upd np (fun x => set_p_ofile (<[i := Some f]> (p_ofile x)) x)
    | None => mret tt
    end);;
  (match p_cwd pp with
   | Some d => d ← idup d; proc_upd np (set_p_cwd (Some d))
   | None => panic "kerneltrap"
   end);;
  proc_upd np (set_name (p_name pp));;
  c ← proc_of np;
  let pid := p_pid c in
  release (LProc np);;
  acquire LWait;;
  proc_upd np (set_p_parent (Some p));;
  release LWait;;
  acquire (LProc np);;
  proc_upd np (set_p_state RUNNABLE);;
  release (LProc np);;
  mret pid.

(** [fork] once it has a slot for the child. *)
Definition fork_copy (p np : nat) : K Z :=
  pp ← proc_of p;
  cp ← proc_of np;
  e ← uvmcopy (p_pagetable pp) (p_pagetable cp) (p_sz pp);
  if e <? 0 then freeproc np;; release (LProc np);; mret (-1) else fork_tail p np pp cp.

Lemma fork_eq :
  fork = (p ← curproc;
    r ← allocproc;
    match r with
    | None => mret (-1)
    | Some np =>
        fork_copy p np
    end).
Proof. unfold fork, fork_copy, fork_tail. reflexivity. Qed.

(** The last steps: the child gets its parent and becomes runnable. *)
Lemma fork_end p np s env :
  k_held s = [LProc np] -> (np < length (k_procs s))%nat ->
  (c ← proc_of np;
   let pid := p_pid c in
   release (LProc np);;
   acquire LWait;;
   proc_upd np (set_p_parent (Some p));;
   release LWait;;
   acquire (LProc np);;
   proc_upd np (set_p_state RUNNABLE);;
   release (LProc np);;
   mret pid) (mkWorld s env) =
  Ok (p_pid (get_proc np s))
    (mkWorld (set_k_held [] (upd_proc np (set_p_state RUNNABLE ∘ set_p_parent (Some p)) s)) env).
Proof.
  intros Hh Hnp. rewrite <- upd_proc_twice. apply run_wp. ksteps. eapply wpx_release; [exact Hh|].
  cbn [w_ks w_env]. kstep. apply wpx_acquire; [apply not_elem_of_nil|]. cbn [w_ks w_env]. ksteps.
  eapply wpx_release; [reflexivity|]. cbn [w_ks w_env]. kstep. apply wpx_acquire; [apply not_elem_of_nil|].
  cbn [w_ks w_env]. ksteps. eapply wpx_release; [reflexivity|]. ksteps. split; [done|]. by f_equal.
Qed.

(** [safestrcpy] stays within the name of the process. *)
Lemma length_safestrcpy_from t i n : (length (safestrcpy_from t i n) <= S n)%nat.
Proof.
  revert i. induction n as [|n IH]; intros i; cbn; [lia|]. destruct (t i =? 0); cbn; [lia|].
  specialize (IH (S i)). lia.
Qed.

Lemma length_set_name t x : length (p_name x) = 16%nat -> length (p_name (set_name t x)) = 16%nat.
Proof.
  intros Hx. unfold set_name. cbn [p_name set_p_name]. unfold safestrcpy. cbn [Z.leb].
  pose proof (length_safestrcpy_from (str_of_list t) 0 15) as H. change (Z.to_nat (16 - 1)) with 15%nat.
  change (16 <=? 0) with false. cbv iota. unfold splice. rewrite !length_app, length_take, length_drop. lia.
Qed.

(** What the child is, apart from its memory. *)
Definition child (p : nat) (pp : proc) (x : proc) : proc :=
  set_p_state RUNNABLE (set_p_parent (Some p) (set_name (p_name pp) (set_p_cwd (p_cwd pp)
    (set_p_ofile (p_ofile pp) (set_p_sigMaskArray (p_sigMaskArray pp) (set_p_signalHandlers (p_signalHandlers pp)
      (set_p_signalMask (p_signalMask pp) (set_p_sz (p_sz pp) x)))))))).

(** The trapframe of the child: the parent's, with 0 in a0. *)
Definition copy_frame (dst src : Z) (m : mem) : mem := st64 (memmove m dst src TF_SIZE) (dst + TF_a0) 0.

(** The references the child holds. *)
Definition share (pp : proc) (s : kst) : kst :=
  let s := set_k_files (dup_refs (p_ofile pp) (k_files s)) s in
  match p_cwd pp with
  | Some d => set_k_inodes (alter (fun x => set_i_ref (i_ref x + 1) x) d (k_inodes s)) s
  | None => s
  end.

Lemma total_lookup_seq (l : list Z) n : length l = n -> (fun i => l !!! i) <$> seq 0 n = l.
Proof.
  intros <-. apply list_eq. intros i. rewrite list_lookup_fmap.
  destruct (decide (i < length l)%nat) as [Hi|Hi].
  - rewrite lookup_seq_lt by done. cbn. symmetry. by apply list_lookup_lookup_total_lt.
  - rewrite lookup_seq_ge by lia. cbn. symmetry. apply lookup_ge_None_2. lia.
Qed.

Lemma slots_seq (l : list (option nat)) n : length l = n -> (fun i => l !! i ≫= id) <$> seq 0 n = l.
Proof.
  intros <-. apply list_eq. intros i. rewrite list_lookup_fmap.
  destruct (decide (i < length l)%nat) as [Hi|Hi].
  - rewrite lookup_seq_lt by done. cbn. destruct (lookup_lt_is_Some_2 l i Hi) as [o ->]. by destruct o.
  - rewrite lookup_seq_ge by lia. cbn. symmetry. apply lookup_ge_None_2. lia.
Qed.

Lemma idup_run i s env :
  LItable ∉ k_held s ->
  idup i (mkWorld s env) =
  Ok i (mkWorld (set_k_inodes (alter (fun x => set_i_ref (i_ref x + 1) x) i (k_inodes s)) s) env).
Proof.
  intros Hl. apply run_wp. unfold idup, inode_upd. kstep. kstep. apply wpx_acquire; [done|]. cbn [w_ks w_env].
  ksteps. eapply wpx_release; [reflexivity|]. ksteps. split; [done|]. by f_equal.
Qed.

Lemma fork_tail_run p np pp cp s env :
  k_held s = [LProc np] -> (np < length (k_procs s))%nat -> shaped (get_proc np s) -> shaped pp ->
  p_ofile (get_proc np s) = replicate NOFILE None -> p_trapframe (get_proc np s) = p_trapframe cp ->
  is_Some (p_cwd pp) -> (forall f, Some f ∈ p_ofile pp -> 1 <= f_ref (k_files s !!! f)) ->
  fork_tail p np pp cp (mkWorld s env) =
  Ok (p_pid (get_proc np s))
    (mkWorld (set_k_held [] (share pp (set_k_mem (copy_frame (p_trapframe cp) (p_trapframe pp) (k_mem s))
       (upd_proc np (child p pp) s)))) env).
Proof.
  intros Hh Hnp Hsh Hshp Hof Htf [d Hd] Href. unfold fork_tail. rewrite !bind_proc_upd, upd_proc_twice.
  set (g1 := set_p_signalMask (p_signalMask pp) ∘ set_p_sz (p_sz pp)).
  assert (Hget : forall g s', k_procs s' = k_procs s -> get_proc np (upd_proc np g s') = g (get_proc np s)).
  { intros g s' Hs'. rewrite get_upd_proc by (by rewrite Hs'). unfold get_proc. by rewrite Hs'. }
  assert (Hsh1 : shaped (get_proc np (upd_proc np g1 s))) by (rewrite Hget by done; destruct Hsh; by split).
  rewrite (run_bind _ _ _ _ _ (sig_arrays np (fun i => p_signalHandlers pp !!! i) (fun i => p_sigMaskArray pp !!! i)
    (upd_proc np g1 s) env Hsh1)).
  rewrite !total_lookup_seq by apply Hshp. rewrite upd_proc_twice.
  match goal with |- context [mkWorld (upd_proc np ?g s) env] => set (g2 := g) end.
  set (m1 := memmove (k_mem s) (p_trapframe cp) (p_trapframe pp) TF_SIZE).
  rewrite (run_bind _ _ _ tt (mkWorld (upd_proc np g2 (set_k_mem m1 s)) env)) by done.
  set (m2 := copy_frame (p_trapframe cp) (p_trapframe pp) (k_mem s)).
  rewrite (run_bind _ _ _ tt (mkWorld (upd_proc np g2 (set_k_mem m2 s)) env)).
  2:{ unfold tf_set. rewrite (run_bind _ _ _ (g2 (get_proc np s)) (mkWorld (upd_proc np g2 (set_k_mem m1 s)) env)).
      - change (p_trapframe (g2 (get_proc np s))) with (p_trapframe (get_proc np s)). by rewrite Htf.
      - unfold proc_of, kgets, gets. cbn [w_ks]. by rewrite Hget. }
  set (s3 := upd_proc np g2 (set_k_mem m2 s)).
  rewrite (run_bind _ _ _ tt (mkWorld (upd_proc np (fun x => set_p_ofile (dup_slots (fun i => p_ofile pp !! i ≫= id)
     (seq 0 NOFILE) (p_ofile x)) x) (set_k_files (dup_refs (p_ofile pp) (k_files s)) s3)) env)).
  2:{ rewrite (dup_files np (fun i => p_ofile pp !! i ≫= id)).
      - by rewrite slots_seq by apply Hshp.
      - cbn. rewrite Hh. by rewrite list_elem_of_singleton.
      - intros i f _ Hi. apply Href. apply list_elem_of_lookup. exists i. by destruct (p_ofile pp !! i) as [[]|]; cbn in Hi; simplify_eq. }
  rewrite Hd. set (s4 := set_k_files (dup_refs (p_ofile pp) (k_files s)) s3).
  match goal with |- context [mkWorld (upd_proc np ?g s4) env] => set (g4 := g) end.
  set (s5 := set_k_inodes (alter (fun x => set_i_ref (i_ref x + 1) x) d (k_inodes s)) s4).
  rewrite (run_bind _ _ _ tt (mkWorld (upd_proc np (set_p_cwd (Some d)) (upd_proc np g4 s5)) env)).
  2:{ rewrite (run_bind _ _ _ d (mkWorld (upd_proc np g4 s5) env)); [done|].
      rewrite idup_run; [done|]. cbn. rewrite Hh. by rewrite list_elem_of_singleton. }
  rewrite bind_proc_upd, !upd_proc_twice. set (g6 := set_name (p_name pp) ∘ (set_p_cwd (Some d) ∘ g4)).
  etransitivity; [apply fork_end; [exact Hh|cbn; by rewrite !length_alter]|].
  set (base := set_k_inodes (alter (fun x => set_i_ref (i_ref x + 1) x) d (k_inodes s))
    (set_k_files (dup_refs (p_ofile pp) (k_files s)) (set_k_mem m2 s))).
  change s5 with (upd_proc np g2 base). rewrite !upd_proc_twice, Hget by done. f_equal.
  f_equal. unfold share. rewrite Hd. f_equal. transitivity (upd_proc np (child p pp) base); [|reflexivity].
  apply upd_proc_get_ext. change (get_proc np base) with (get_proc np s).
  assert (Hslots : dup_slots (fun i => p_ofile pp !! i ≫= id) (seq 0 NOFILE) (p_ofile (get_proc np s)) = p_ofile pp)
    by (rewrite Hof; apply dup_slots_copy, Hshp).
  unfold child. rewrite Hd. rewrite <- Hslots at 1. reflexivity.
Qed.

End Fork.

(** ** fork *)

Section ForkTheorems.
Context {KS : KSyms} (Hks : ksyms_ok KS) `{PA : !PageAllocator kalloc kfree} (Htr : trampoline_ok KS).

(** Process [p] calls [fork]: a system call, with no spinlock held. *)
Record forking (s : kst) (own : gmap Z owner) (fl : list Z) (p : nat) : Prop := {
  fk_ok : procs_ok s own fl;
  fk_cur : k_cur s = Some p;
  fk_slot : (p < NPROC)%nat /\ p_state (get_proc p s) <> UNUSED;
  fk_held : k_held s = [];
  fk_cwd : is_Some (p_cwd (get_proc p s));
  fk_files f : Some f ∈ p_ofile (get_proc p s) -> 1 <= f_ref (k_files s !!! f)
}.

(** What a caller of [fork] sees of the rest of the machine: no byte of an address space
    and no page of the kernel changes, and no process but the new one. *)
Record undisturbed (s : kst) (own : gmap Z owner) (fl : list Z) (s' : kst) : Prop := {
  ud_bytes r va : is_root own r -> 0 <= va -> user_byte (k_mem s') r va = user_byte (k_mem s) r va;
  ud_kernel x : kernel_page own fl x -> same_page (k_mem s) (k_mem s') x;
  ud_procs i : p_state (get_proc i s) <> UNUSED -> get_proc i s' = get_proc i s;
  ud_held : k_held s' = k_held s
}.

Lemma builds_undisturbed r xs s own fl s' own' fl' np :
  vm_ok s own fl -> own !! r = None -> builds r xs s own fl s' own' fl' -> p_state (get_proc np s) = UNUSED ->
  (forall i, i <> np -> get_proc i s' = get_proc i s) -> k_held s' = k_held s -> undisturbed s own fl s'.
Proof.
  intros Hok Hn B Hst Hoth Hh. split; [..|done].
  - intros r' va Hr' Hva. apply (user_byte_frame s s' own fl r' va Hok Hr' Hva).
    + intros Hlt. eapply bd_pte; [exact B| |done|lia]. intros ->. unfold is_root in Hr'. congruence.
    + intros q vpn Hq. eapply bd_same; [exact B|by eapply pi_aligned; [apply Hok|]| |congruence].
      intros Hin. apply (vo_free _ _ _ Hok) in Hin. congruence.
  - intros x [Hp Ho Hf]. eapply bd_same; [exact B|apply Hp|done|congruence].
  - intros i Hi. apply Hoth. congruence.
Qed.

(** A call that failed: the slot it tried to use is as empty as before. *)
Lemma fork_failed np g s own fl s' fl' :
  procs_ok s own fl -> (np < NPROC)%nat -> p_state (get_proc np s) = UNUSED ->
  let c := g (get_proc np s) in shaped c -> clean c -> p_state c = UNUSED ->
  mem_only (next_pid (upd_proc np g s)) s' -> restored s own fl s' fl' ->
  procs_ok s' own fl' /\ undisturbed s own fl s' /\ fl' ≡ₚ fl /\
  k_files s' = k_files s /\ k_inodes s' = k_inodes s.
Proof.
  intros P Hnp Hst c Hsh Hcl Hun Hmo R. pose proof (restored_builds 0 _ _ _ _ _ R) as B.
  assert (H0 : own !! 0 = None) by (eapply (unowned_0 Hks), P).
  assert (Hlen : (np < length (k_procs s))%nat) by (by rewrite (po_len _ _ _ P)).
  assert (Hoth : forall i, i <> np -> get_proc i s' = get_proc i s).
  { intros i Hi. rewrite (mem_only_proc _ _ i Hmo). by apply (get_upd_proc_ne np i g s). }
  assert (Hc : get_proc np s' = c).
  { rewrite (mem_only_proc _ _ np Hmo). by apply (get_upd_proc np g s). }
  split; [|split; [|split; [apply R|]]].
  - eapply (procs_ok_slot 0 []); try done; rewrite ?Hc.
    + destruct Hmo as (h & m & ->). cbn. rewrite length_alter. apply P.
    + done.
    + done.
    + by rewrite Hun.
    + by rewrite Hun.
  - eapply builds_undisturbed; try done; [apply P|]. by destruct Hmo as (h & m & ->).
  - by destruct Hmo as (h & m & ->).
Qed.

Lemma builds_fill r xs s own fl s1 own1 fl1 x m' :
  builds r xs s own fl s1 own1 fl1 -> x ∈ xs -> page_ok x -> outside_same x (k_mem s1) m' ->
  builds r xs s own fl (set_k_mem m' s1) own1 fl1 /\ same_pte s1 own1 (set_k_mem m' s1).
Proof.
  intros B Hx Hp Hout. destruct (bd_frames _ _ _ _ _ _ _ _ B x Hx) as (Hin & Hni & Hno).
  destruct (fill_page s1 own1 fl1 x m' (bd_ok _ _ _ _ _ _ _ _ B) Hp Hno Hni Hout) as [Hok Hsp].
  split; [|done]. split; try apply B; [done|..].
  - intros r' va Hne Hr Hva. rewrite (same_pte_of s1 own1); [by eapply bd_pte|done| |done].
    eapply is_root_sub; [apply B|done].
  - intros p Hal Hpf Hnt. eapply same_page_trans; [by eapply bd_same|].
    apply (outside_same_page x); [apply Hp|done| |done]. by intros ->.
Qed.

Lemma copy_frame_outside dst src m : outside_same dst m (copy_frame dst src m).
Proof.
  intros a Ha. unfold copy_frame, TF_a0, TF_SIZE, PGSIZE in *. rewrite ld8_st64_ne by lia. rewrite ld8_memmove.
  destruct (Z.leb_spec dst a), (Z.ltb_spec a (dst + Z.of_nat 288)); cbn [andb]; try reflexivity; lia.
Qed.

(** The registers in the child's trapframe. *)
Lemma copy_frame_reg dst src m i : 0 <= i < 36 ->
  ld64 (copy_frame dst src m) (dst + 8 * i) = if 8 * i =? TF_a0 then 0 else ld64 m (src + 8 * i).
Proof.
  intros Hi. unfold copy_frame, TF_a0. destruct (Z.eqb_spec (8 * i) 112) as [->|Hne]; [apply ld64_st64_eq|].
  rewrite ld64_st64_ne by lia. apply ld64_memmove_in; [lia|]. unfold TF_SIZE. lia.
Qed.

(** ** The two ends of the call *)

(** The slot after [allocproc] and any change of memory. *)
Lemma new_slot np g s s2 :
  (np < length (k_procs s))%nat -> mem_only (set_k_held [LProc np] (next_pid (upd_proc np g s))) s2 ->
  get_proc np s2 = g (get_proc np s).
Proof. intros Hnp Hmo. rewrite (mem_only_proc _ _ np Hmo). by apply (get_upd_proc np g s). Qed.

(** The copy of the memory failed: everything that was allocated is freed. *)
Lemma fork_uncopied np s own fl r tf btf s1 own1 fl1 s2 env :
  let g := fresh (k_nextpid s) r tf btf in
  procs_ok s own fl -> (np < NPROC)%nat -> p_state (get_proc np s) = UNUSED -> k_held s = [] ->
  mem_only (set_k_held [LProc np] (next_pid (upd_proc np g s))) s1 ->
  new_proc s own fl r tf btf 0 s1 own1 fl1 -> alloc_failed r s1 own1 fl1 s2 ->
  exists s3 fl3, (freeproc np;; release (LProc np);; mret (-1)) (mkWorld s2 env) = Ok (-1) (mkWorld s3 env) /\
    mem_only (next_pid (upd_proc np (dead ∘ g) s)) s3 /\ restored s own fl s3 fl3.
Proof.
  intros g P Hnp Hst Hh Hmo [[Hrn Hr0] B Hsp Hf Hb] (own2 & fl2 & Hok2 & U).
  assert (Hlen : (np < length (k_procs s))%nat) by (by rewrite (po_len _ _ _ P)).
  assert (Hmo2 : mem_only (set_k_held [LProc np] (next_pid (upd_proc np g s))) s2) by (etrans; [exact Hmo|apply U]).
  pose proof (new_slot np g s s2 Hlen Hmo2) as Hg. pose proof (po_clean _ _ _ P np Hnp Hst) as C.
  pose proof (undone_builds _ _ _ _ _ _ _ Hok2 U) as B2.
  assert (Htf : tf <> 0) by (destruct Hf as [Hp _ _]; apply (page_ok_pos Hks) in Hp; lia).
  destruct (undo_proc Hks Htr (-1) np r (frame btf ++ frame tf) s own fl s2 own2 fl2 env) as (s3 & fl3 & Hrun & Hmo3 & R).
  - apply P.
  - done.
  - rewrite <- (app_nil_r (_ ++ _)). by eapply builds_trans.
  - rewrite Hg. split; cbn.
    + right. by eapply builds_kernel_page.
    + destruct Hb as [|[Hb _]]; [by left|right]. by eapply builds_kernel_page.
    + destruct Hb as [|[_ Hb]]; [by left|by right].
    + right. split; [done|]. rewrite (cl_sz _ C). split; [done|]. destruct Hsp as [S1 S2 S3 S4 S5 S6].
      split; [by apply U|done|intros vpn Hv; change (npages 0) with 0 in Hv; lia|..].
      * rewrite <- S4. apply U; [done|by vm_compute].
      * rewrite <- S5. apply U; [done|by vm_compute].
      * intros va Hva Hge. rewrite <- (S6 va Hva Hge). apply U; [done|].
        change TRAPFRAME with (2 ^ 38 - 8192) in Hva. change MAXVA with (2 ^ 38). lia.
  - by rewrite Hg.
  - intros x. by rewrite Hg.
  - by rewrite (mem_only_held _ _ Hmo2).
  - exists s3, fl3. split; [done|]. split; [|done]. etrans; [|exact Hmo3].
    etrans; [|apply mem_only_set_held, mem_only_upd_proc; exact Hmo2].
    exists (k_freelist s), (k_mem s). transitivity (set_k_held [] (next_pid (upd_proc np (dead ∘ g) s))).
    + rewrite <- upd_proc_twice. reflexivity.
    + destruct s. cbn in Hh. by subst.
Qed.

(** The child [np] of [p]: its slot, the bytes of its memory, the registers it starts
    with, and the references it holds. *)
Record forked (s : kst) (p np : nat) (s' : kst) : Prop := {
  fd_slot : (np < NPROC)%nat /\ p_state (get_proc np s) = UNUSED;
  fd_state : p_state (get_proc np s') = RUNNABLE;
  fd_family : p_parent (get_proc np s') = Some p /\ p_pid (get_proc np s') = k_nextpid s;
  fd_sz : p_sz (get_proc np s') = p_sz (get_proc p s);
  fd_open : p_ofile (get_proc np s') = p_ofile (get_proc p s) /\ p_cwd (get_proc np s') = p_cwd (get_proc p s);
  fd_signals : p_signalMask (get_proc np s') = p_signalMask (get_proc p s) /\
    p_signalHandlers (get_proc np s') = p_signalHandlers (get_proc p s) /\
    p_sigMaskArray (get_proc np s') = p_sigMaskArray (get_proc p s);
  fd_pending : p_pendingSignals (get_proc np s') = 0 /\ p_sigHandlerFlag (get_proc np s') = 0 /\
    p_frozen (get_proc np s') = 0 /\ p_killed (get_proc np s') = 0;
  fd_bytes va : 0 <= va < p_sz (get_proc p s) ->
    user_byte (k_mem s') (p_pagetable (get_proc np s')) va = user_byte (k_mem s) (p_pagetable (get_proc p s)) va;
  fd_regs i : 0 <= i < 36 ->
    ld64 (k_mem s') (p_trapframe (get_proc np s') + 8 * i) =
    if 8 * i =? TF_a0 then 0 else ld64 (k_mem s) (p_trapframe (get_proc p s) + 8 * i);
  fd_files : k_files s' = dup_refs (p_ofile (get_proc p s)) (k_files s);
  fd_inode d : p_cwd (get_proc p s) = Some d ->
    k_inodes s' = alter (fun x => set_i_ref (i_ref x + 1) x) d (k_inodes s)
}.

Lemma share_mem pp s : k_mem (share pp s) = k_mem s.
Proof. unfold share. by destruct (p_cwd pp). Qed.

Lemma share_procs pp s : k_procs (share pp s) = k_procs s.
Proof. unfold share. by destruct (p_cwd pp). Qed.

Lemma share_freelist pp s : k_freelist (share pp s) = k_freelist s.
Proof. unfold share. by destruct (p_cwd pp). Qed.

(** The memory of the child once [fork_tail] has written its trapframe. *)
Lemma child_memory pp s own fl r tf btf s1 own1 fl1 s2 m' :
  procs_ok s own fl -> live s own fl pp ->
  new_proc s own fl r tf btf 0 s1 own1 fl1 ->
  alloc_done r 0 (npages (p_sz pp)) (copy_perm (p_pagetable pp) s1) (copy_byte (p_pagetable pp) s1) s1 own1 fl1 s2 ->
  m' = copy_frame tf (p_trapframe pp) (k_mem s2) ->
  exists own2 fl2,
    builds r (frame btf ++ frame tf) s own fl (set_k_mem m' s2) own2 fl2 /\
    space m' own2 r (npages (p_sz pp)) tf /\ kernel_page own2 fl2 tf /\
    (btf = 0 \/ kernel_page own2 fl2 btf /\ btf <> tf) /\
    (forall va, 0 <= va < p_sz pp -> user_byte m' r va = user_byte (k_mem s) (p_pagetable pp) va) /\
    (forall i, 0 <= i < 36 -> ld64 m' (tf + 8 * i) =
       if 8 * i =? TF_a0 then 0 else ld64 (k_mem s) (p_trapframe pp + 8 * i)).
Proof.
  intros P L [[Hrn Hr0] B Hsp Hf Hb] Hd Hm'.
  assert (Hout : outside_same tf (k_mem s2) m') by (rewrite Hm'; apply copy_frame_outside).
  assert (Htf : tf <> 0) by (destruct Hf as [Hp _ _]; apply (page_ok_pos Hks) in Hp; lia).
  assert (Hne : p_pagetable pp <> r).
  { intros He. pose proof (live_root _ _ _ _ L) as H. rewrite He in H. unfold is_root in H. congruence. }
  pose proof (builds_live _ _ _ _ _ _ _ _ _ B Hne L) as L1.
  pose proof Hd as (own2 & fl2 & A & _ & _ & Hm). exists own2, fl2.
  pose proof (added_builds _ _ _ _ _ _ _ _ _ A) as B2.
  assert (B12 : builds r (frame btf ++ frame tf) s own fl s2 own2 fl2)
    by (rewrite <- (app_nil_r (_ ++ _)); by eapply builds_trans).
  assert (Hf2 : kernel_page own2 fl2 tf) by (eapply builds_kernel_page; [exact B2|exact Hf]).
  destruct (builds_fill _ _ _ _ _ _ _ _ tf m' B12) as [B3 Hpte].
  { apply elem_of_app. right. by apply elem_of_frame. } { apply Hf2. } { exact Hout. }
  pose proof (lv_space _ _ _ _ L) as S. pose proof (sp_size _ _ _ _ _ S) as Hsz.
  pose proof (npages_bounds (p_sz pp) (lv_sz _ _ _ _ L)) as Hnb.
  assert (Hmax : 0 <= p_sz pp <= MAXVA).
  { split; [apply L|]. change TRAPFRAME with (2 ^ 38 - 8192) in Hsz. change MAXVA with (2 ^ 38). unfold PGSIZE in *. lia. }
  assert (Sp2 : space (k_mem s2) own2 r (npages (p_sz pp)) tf)
    by (eapply added_space; [exact A|by eapply mapped_as_user|done|done]).
  assert (Hroot2 : is_root own2 r) by apply Sp2.
  split; [done|]. split; [|split; [done|split; [|split]]].
  - exact (space_frame s2 own2 (set_k_mem m' s2) _ _ _ Hpte Sp2).
  - destruct Hb as [|[Hb ?]]; [by left|right]. split; [|done]. eapply builds_kernel_page; [exact B2|exact Hb].
  - intros va Hva. transitivity (user_byte (k_mem s2) r va).
    + apply (user_byte_frame s2 (set_k_mem m' s2) own2 fl2 r va (ad_ok A) Hroot2); [lia|..].
      * intros Hlt. apply (same_pte_of s2 own2); [done|done|lia].
      * intros q vpn Hq. apply (outside_same_page tf); [apply Hf2| | |exact Hout].
        -- eapply pi_aligned; [apply (ad_ok A)|done].
        -- intros <-. destruct Hf2 as [_ Ho _]. congruence.
    + rewrite (copied_byte Hks (p_pagetable pp) r s1 own1 fl1 s2 (p_sz pp) va); try done.
      * apply (user_byte_frame s s1 own fl (p_pagetable pp) va (po_vm _ _ _ P) (live_root _ _ _ _ L)); [lia|..].
        -- intros Hlt. eapply bd_pte; [exact B|done|by eapply live_root|lia].
        -- intros q vpn Hq. eapply bd_same; [exact B|by eapply pi_aligned; [apply P|]| |congruence].
           intros Hin. apply (vo_free _ _ _ (po_vm _ _ _ P)) in Hin. congruence.
      * apply B.
      * by eapply live_root.
      * apply L1.
  - intros i Hi. rewrite Hm', copy_frame_reg by done. destruct (8 * i =? TF_a0); [done|].
    destruct (lv_frame _ _ _ _ L) as [Hp Ho Hfl]. apply same_page_ld64; [|lia|unfold PGSIZE; lia].
    eapply bd_same; [exact B12|apply Hp|done|congruence].
Qed.

Lemma child_shaped p pp x : shaped pp -> shaped x -> shaped (child p pp x).
Proof.
  intros [H1 H2 H3 H4] [I1 I2 I3 I4].
  assert (Hn : p_name (child p pp x) = p_name (set_name (p_name pp) x)) by (by destruct x).
  split; [done|rewrite Hn; by apply length_set_name|done|done].
Qed.

Lemma child_slot p pp pid r tf btf x : clean x ->
  let c := child p pp (fresh pid r tf btf x) in
  (p_pagetable c = r /\ p_trapframe c = tf /\ p_backupTrapframe c = btf) /\
  p_state c = RUNNABLE /\ (p_parent c = Some p /\ p_pid c = pid) /\ p_sz c = p_sz pp /\
  (p_ofile c = p_ofile pp /\ p_cwd c = p_cwd pp) /\
  (p_signalMask c = p_signalMask pp /\ p_signalHandlers c = p_signalHandlers pp /\
   p_sigMaskArray c = p_sigMaskArray pp) /\
  (p_pendingSignals c = 0 /\ p_sigHandlerFlag c = 0 /\ p_frozen c = 0 /\ p_killed c = 0).
Proof. intros [_ _ _ _ Hk _]. destruct x, pp. cbn in Hk. subst. by repeat split. Qed.

(** The state in which [fork_tail] leaves the kernel, with the child in its slot. *)
Lemma forked_state p np s own fl r tf btf s1 own1 fl1 s2 s' :
  let pp := get_proc p s in
  let g := fresh (k_nextpid s) r tf btf in
  forking s own fl p -> (np < NPROC)%nat -> p_state (get_proc np s) = UNUSED ->
  mem_only (set_k_held [LProc np] (next_pid (upd_proc np g s))) s2 ->
  new_proc s own fl r tf btf 0 s1 own1 fl1 ->
  alloc_done r 0 (npages (p_sz pp)) (copy_perm (p_pagetable pp) s1) (copy_byte (p_pagetable pp) s1) s1 own1 fl1 s2 ->
  k_mem s' = copy_frame tf (p_trapframe pp) (k_mem s2) -> k_freelist s' = k_freelist s2 -> k_held s' = [] ->
  k_procs s' = k_procs (upd_proc np (child p pp) s2) -> k_files s' = dup_refs (p_ofile pp) (k_files s) ->
  (forall d, p_cwd pp = Some d -> k_inodes s' = alter (fun x => set_i_ref (i_ref x + 1) x) d (k_inodes s)) ->
  exists own' fl', procs_ok s' own' fl' /\ undisturbed s own fl s' /\ forked s p np s'.
Proof.
  intros pp g [P _ [Hp Hpst] Hh _ _] Hnp Hst Hmo2 N Hdone Hmem Hfree Hheld Hps Hfiles Hinodes.
  assert (Hlen : (np < length (k_procs s))%nat) by (by rewrite (po_len _ _ _ P)).
  pose proof (po_live _ _ _ P p Hp Hpst) as L. pose proof (po_clean _ _ _ P np Hnp Hst) as C.
  pose proof (po_shape _ _ _ P np Hnp) as Hsh. pose proof (po_shape _ _ _ P p Hp) as Hshp.
  pose proof (new_slot np g s s2 Hlen Hmo2) as Hg.
  assert (Hlen2 : length (k_procs s2) = NPROC).
  { destruct Hmo2 as (h & m & ->). cbn. rewrite length_alter. apply P. }
  destruct (child_memory pp s own fl r tf btf s1 own1 fl1 s2 (k_mem s') P L N Hdone Hmem)
    as (own2 & fl2 & B & Sp & Hf & Hb & Hbytes & Hregs).
  assert (Hgp : forall i, get_proc i s' = get_proc i (upd_proc np (child p pp) s2))
    by (intros i; unfold get_proc; by rewrite Hps).
  assert (Hc : get_proc np s' = child p pp (g (get_proc np s))).
  { rewrite Hgp, get_upd_proc by (by rewrite Hlen2). by rewrite Hg. }
  assert (Hoth : forall i, i <> np -> get_proc i s' = get_proc i s).
  { intros i Hi. rewrite Hgp, get_upd_proc_ne by done. rewrite (mem_only_proc _ _ i Hmo2).
    by apply (get_upd_proc_ne np i g s). }
  assert (B' : builds r (frame btf ++ frame tf) s own fl s' own2 fl2).
  { eapply builds_frame; [| | |exact B]; [done|done|].
    apply (vm_ok_frame (set_k_mem (k_mem s') s2)); [done|done|rewrite Hheld; apply not_elem_of_nil|apply B]. }
  destruct N as [[Hrn _] _ _ _ _].
  assert (Hshc : shaped (child p pp (g (get_proc np s)))).
  { apply child_shaped; [done|]. destruct Hsh. by split. }
  destruct (child_slot p pp (k_nextpid s) r tf btf (get_proc np s) C)
    as ((C1 & C2 & C3) & C4 & C5 & C6 & C7 & C8 & C9). fold g in C1, C2, C3, C4, C5, C6, C7, C8, C9.
  revert Hshc C1 C2 C3 C4 C5 C6 C7 C8 C9. rewrite <- Hc. intros Hshc C1 C2 C3 C4 C5 C6 C7 C8 C9.
  exists own2, fl2. split; [|split].
  - eapply (procs_ok_slot r (frame btf ++ frame tf));
      [exact P|exact B'|exact Hrn|exact Hnp| |exact Hoth|exact Hshc|rewrite C4; discriminate|rewrite C4; discriminate|].
    + rewrite Hps. cbn. by rewrite length_alter.
    + intros _. split; [|split; [exact C1|]].
      * split; rewrite ?C1, ?C2, ?C3, ?C6; [exact Sp|apply L|exact Hf|exact Hb].
      * intros x. unfold frames. by rewrite C2, C3.
  - eapply builds_undisturbed; [apply P|exact Hrn|exact B'|exact Hst|exact Hoth|]. by rewrite Hh.
  - split; [by split|exact C4|exact C5|exact C6|exact C7|exact C8|exact C9|..|exact Hfiles|exact Hinodes].
    + by rewrite C1.
    + by rewrite C2.
Qed.

(** The copy succeeded. *)
Lemma fork_copied p np s own fl r tf btf s1 own1 fl1 s2 env :
  let pp := get_proc p s in
  let g := fresh (k_nextpid s) r tf btf in
  forking s own fl p -> (np < NPROC)%nat -> p_state (get_proc np s) = UNUSED ->
  mem_only (set_k_held [LProc np] (next_pid (upd_proc np g s))) s1 ->
  new_proc s own fl r tf btf 0 s1 own1 fl1 ->
  alloc_done r 0 (npages (p_sz pp)) (copy_perm (p_pagetable pp) s1) (copy_byte (p_pagetable pp) s1) s1 own1 fl1 s2 ->
  exists s' own' fl', fork_tail p np pp (g (get_proc np s)) (mkWorld s2 env) = Ok (k_nextpid s) (mkWorld s' env) /\
    procs_ok s' own' fl' /\ undisturbed s own fl s' /\ forked s p np s'.
Proof.
  intros pp g F Hnp Hst Hmo N Hdone. pose proof F as [P _ [Hp Hpst] Hh [d Hd] Href]. fold pp in Hd.
  assert (Hlen : (np < length (k_procs s))%nat) by (by rewrite (po_len _ _ _ P)).
  assert (Hmo2 : mem_only (set_k_held [LProc np] (next_pid (upd_proc np g s))) s2).
  { destruct Hdone as (? & ? & A & _). etrans; [exact Hmo|apply A]. }
  pose proof (new_slot np g s s2 Hlen Hmo2) as Hg.
  assert (Hsame : k_held s2 = [LProc np] /\ length (k_procs s2) = length (k_procs s) /\
    k_files s2 = k_files s /\ k_inodes s2 = k_inodes s).
  { destruct Hmo2 as (h & m & ->). cbn. by rewrite length_alter. }
  destruct Hsame as (Hh2 & Hl2 & Hf2 & Hi2).
  pose proof (fork_tail_run p np pp (g (get_proc np s)) s2 env Hh2) as Hrun. rewrite Hl2, Hg in Hrun.
  specialize (Hrun Hlen). ospecialize (Hrun _ _ _ _ _ _).
  { destruct (po_shape _ _ _ P np Hnp). by split. } { by apply P. } { by apply (po_clean _ _ _ P np). } { done. }
  { by exists d. } { intros f Hin. rewrite Hf2. by apply Href. }
  eexists. edestruct forked_state as (own' & fl' & Hres);
    [exact F|exact Hnp|exact Hst|exact Hmo2|exact N|exact Hdone|..|exists own', fl'; split; [exact Hrun|exact Hres]].
  - cbn [k_mem set_k_held]. by rewrite share_mem.
  - cbn [k_freelist set_k_held]. by rewrite share_freelist.
  - done.
  - cbn [k_procs set_k_held]. by rewrite share_procs.
  - unfold share. rewrite Hd. cbn. by rewrite Hf2.
  - intros d' Hd'. unfold share. fold pp in Hd'. rewrite Hd'. cbn. by rewrite Hi2.
Qed.

(** How [fork] ends. *)
Definition fork_outcome (s : kst) (own : gmap Z owner) (fl : list Z) (p : nat)
    (pid : Z) (s' : kst) (own' : gmap Z owner) (fl' : list Z) : Prop :=
  (pid = -1 /\ own' = own /\ fl' ≡ₚ fl /\ k_files s' = k_files s /\ k_inodes s' = k_inodes s /\
   (first_slot (is_unused s) NPROC = None \/ Z.of_nat (length fl) < 3 * npages (p_sz (get_proc p s)) + 7)) \/
  (pid = k_nextpid s /\ exists np, forked s p np s').

Lemma fork_no_slot s own fl p env :
  forking s own fl p -> first_slot (is_unused s) NPROC = None ->
  fork (mkWorld s env) = Ok (-1) (mkWorld s env).
Proof.
  intros [P Hcur _ Hh _ _] Hf. rewrite fork_eq.
  rewrite (run_bind _ _ _ p (mkWorld s env)) by (by apply curproc_run).
  rewrite (run_bind _ _ _ None (mkWorld s env)); [done|]. rewrite allocproc_eq.
  rewrite (run_bind _ _ _ None (mkWorld s env)); [done|]. by rewrite find_unused_run, Hf.
Qed.

Lemma fork_copy_runs p np s own fl r tf btf s1 own1 fl1 env :
  let g := fresh (k_nextpid s) r tf btf in
  forking s own fl p -> (np < NPROC)%nat -> p_state (get_proc np s) = UNUSED ->
  mem_only (set_k_held [LProc np] (next_pid (upd_proc np g s))) s1 ->
  new_proc s own fl r tf btf 0 s1 own1 fl1 -> Z.of_nat (length fl) <= Z.of_nat (length fl1) + 7 ->
  exists pid s' own' fl', fork_copy p np (mkWorld s1 env) = Ok pid (mkWorld s' env) /\
    procs_ok s' own' fl' /\ undisturbed s own fl s' /\ fork_outcome s own fl p pid s' own' fl'.
Proof.
  intros g F Hnp Hun Hmo N Hl. pose proof F as [P Hcur [Hp Hpst] Hh Hcwd Href]. set (pp := get_proc p s) in *.
  pose proof (po_clean _ _ _ P np Hnp Hun) as C. pose proof (po_shape _ _ _ P np Hnp) as Hsh.
  pose proof (po_live _ _ _ P p Hp Hpst) as L. fold pp in L.
  pose proof (npages_bounds (p_sz pp) (lv_sz _ _ _ _ L)) as Hnb.
  assert (Hne : p <> np) by (intros ->; exact (Hpst Hun)). unfold fork_copy.
  rewrite (run_bind _ _ _ pp (mkWorld s1 env)).
  2:{ unfold proc_of, kgets, gets. cbn [w_ks]. rewrite (mem_only_proc _ _ p Hmo). f_equal. by apply (get_upd_proc_ne np p g s). }
  rewrite (run_bind _ _ _ (g (get_proc np s)) (mkWorld s1 env)).
  2:{ unfold proc_of, kgets, gets. cbn [w_ks]. f_equal. apply new_slot; [by rewrite (po_len _ _ _ P)|done]. }
  assert (Hpt : p_pagetable (g (get_proc np s)) = r) by done. rewrite Hpt.
  assert (Hnr : p_pagetable pp <> r).
  { intros He. pose proof (live_root _ _ _ _ L) as H. destruct N as [[Hn _] _ _ _ _].
    rewrite He in H. unfold is_root in H. congruence. }
  pose proof (builds_live _ _ _ _ _ _ _ _ _ (np_builds _ _ _ _ _ _ _ _ _ _ N) Hnr L) as L1.
  pose proof (sp_size _ _ _ _ _ (lv_space _ _ _ _ L)) as Hsz.
  assert (Hmax : 0 <= p_sz pp <= MAXVA).
  { split; [apply L|]. change TRAPFRAME with (2 ^ 38 - 8192) in Hsz. change MAXVA with (2 ^ 38). unfold PGSIZE in *. lia. }
  assert (Hfree : pte_free s1 r 0 (npages (p_sz pp))).
  { intros vpn Hv. apply (sp_rest _ _ _ _ _ (np_space _ _ _ _ _ _ _ _ _ _ N)).
    - change TRAPFRAME with (2 ^ 38 - 8192) in *. unfold PGSIZE in *. lia.
    - apply Z.div_pos; [unfold PGSIZE; lia|done]. }
  destruct (uvmcopy_spec Hks (p_pagetable pp) r s1 own1 fl1 (bd_ok _ _ _ _ _ _ _ _ (np_builds _ _ _ _ _ _ _ _ _ _ N))
    (live_root _ _ _ _ L1) (sp_root _ _ _ _ _ (np_space _ _ _ _ _ _ _ _ _ _ N)) Hnr (p_sz pp) env Hmax
    (sp_user _ _ _ _ _ (lv_space _ _ _ _ L1)) Hfree) as (e & s2 & Hcp & [(-> & Hdone)|(-> & Hfew & Hfail)]).
  - rewrite (run_bind _ _ _ 0 (mkWorld s2 env)) by done. change (0 <? 0) with false. cbv iota.
    destruct (fork_copied p np s own fl r tf btf s1 own1 fl1 s2 env F Hnp Hun Hmo N Hdone)
      as (s' & own' & fl' & Hrun' & P' & U & Hfd).
    exists (k_nextpid s), s', own', fl'. split; [exact Hrun'|]. split; [done|]. split; [done|]. right. eauto.
  - rewrite (run_bind _ _ _ (-1) (mkWorld s2 env)) by done. change (-1 <? 0) with true. cbv iota.
    destruct (fork_uncopied np s own fl r tf btf s1 own1 fl1 s2 env P Hnp Hun Hh Hmo N Hfail)
      as (s' & fl' & Hrun' & Hmo' & R).
    destruct (fork_failed np (dead ∘ g) s own fl s' fl' P Hnp Hun) as (P' & U & Hfl & H1 & H2); [..|exact Hmo'|exact R|].
    + apply shaped_dead. destruct Hsh. by split.
    + destruct C as [C1 C2 C3 C4 C5 C6]. by split.
    + done.
    + exists (-1), s', own, fl'. split; [exact Hrun'|]. split; [done|]. split; [done|]. left.
      do 5 (split; [done|]). right. fold pp. lia.
Qed.

Lemma fork_runs s own fl p env :
  forking s own fl p ->
  exists pid s' own' fl', fork (mkWorld s env) = Ok pid (mkWorld s' env) /\
    procs_ok s' own' fl' /\ undisturbed s own fl s' /\ fork_outcome s own fl p pid s' own' fl'.
Proof.
  intros F. pose proof F as [P Hcur [Hp Hpst] Hh Hcwd Href]. set (pp := get_proc p s) in *.
  destruct (first_slot (is_unused s) NPROC) as [np|] eqn:Hslot.
  2:{ exists (-1), s, own, fl. split; [by eapply fork_no_slot|]. split; [done|]. split; [done|].
      left. do 5 (split; [done|]). by left. }
  pose proof (proj1 (first_slot_Some _ _ _) Hslot) as (Hnp & Hun & _). apply bool_decide_eq_true in Hun.
  pose proof (po_clean _ _ _ P np Hnp Hun) as C. pose proof (po_shape _ _ _ P np Hnp) as Hsh.
  pose proof (npages_bounds (p_sz pp) (lv_sz _ _ _ _ (po_live _ _ _ P p Hp Hpst))) as Hnb.
  rewrite fork_eq.
  rewrite (run_bind _ _ _ p (mkWorld s env)) by (by apply curproc_run).
  destruct (allocproc_spec Hks Htr np s own fl env Hh (po_vm _ _ _ P) Hslot (po_len _ _ _ P) C Hsh)
    as [(s' & fl' & Hrun & Hmo & R & Hl)|(s1 & own1 & fl1 & r & tf & btf & Hrun & Hmo & N & Hl)].
  { rewrite (run_bind _ _ _ None (mkWorld s' env)) by done. exists (-1), s', own, fl'.
    destruct (fork_failed np dead s own fl s' fl') as (P' & U & Hfl & H1 & H2); try done.
    { by apply shaped_dead. } { by apply clean_dead. }
    split; [done|]. split; [done|]. split; [done|]. left. do 5 (split; [done|]). right. fold pp. lia. }
  rewrite (run_bind _ _ _ (Some np) (mkWorld s1 env)) by done.
  by apply (fork_copy_runs p np s own fl r tf btf s1 own1 fl1 env).
Qed.

End ForkTheorems.

(** C2: [fork], called by a process that exists while no spinlock is held, always returns, and
    keeps the invariant of the process table: every process in use owns an address space of
    its own (the trampoline, its trapframe, its memory and nothing else) and its two frames,
    and no two processes share a page.  Nothing that existed changes: no byte of any address
    space, no page of the kernel, no other process.  Either it returns the new process id and
    the child is a RUNNABLE copy of the caller (the same bytes of memory, the same registers
    but 0 in a0, the same signal mask and handlers with no signal pending, the same open files
    and directory, each with its count of references one higher), or it returns -1, there was
    no free slot or less memory than the copy may take, and every page allocated on the way is
    free again. *)
Theorem fork_copies_process {KS : KSyms} `{PA : !PageAllocator kalloc kfree} s own fl p env :
  ksyms_ok KS -> trampoline_ok KS -> forking s own fl p ->
  exists pid s' own' fl', fork (mkWorld s env) = Ok pid (mkWorld s' env) /\
    procs_ok s' own' fl' /\ undisturbed s own fl s' /\
    ((pid = k_nextpid s /\ exists np, forked s p np s') \/
     (pid = -1 /\ own' = own /\ fl' ≡ₚ fl /\ k_files s' = k_files s /\ k_inodes s' = k_inodes s /\
      (first_slot (is_unused s) NPROC = None \/ Z.of_nat (length fl) < 3 * npages (p_sz (get_proc p s)) + 7))).
Proof.
  intros Hks Htr F. destruct (fork_runs Hks Htr s own fl p env F) as (pid & s' & own' & fl' & Hrun & P & U & H).
  exists pid, s', own', fl'. do 3 (split; [done|]). by destruct H as [H|H]; [right|left].
Qed.

Lemma demo_forking : exists own fl, forking demo_parent own fl 0.
Proof.
  destruct demo_parent_ok as (own & fl & P & Hcur & Hh & Hf & pid & r & tf & btf & Hg). exists own, fl.
  split; [done|done| |done|..]; rewrite ?Hg.
  - split; [unfold NPROC; lia|done].
  - by eexists.
  - intros f Hin. change (Some f ∈ Some 0%nat :: replicate 15 None) in Hin. rewrite Hf.
    apply elem_of_cons in Hin as [[= ->]|Hin]; [by vm_compute|]. by apply elem_of_replicate in Hin as [? _].
Qed.

Lemma fork_copies_process_witness : exists own fl pid s' own' fl',
  fork (mkWorld demo_parent []) = Ok pid (mkWorld s' []) /\
  procs_ok s' own' fl' /\ undisturbed demo_parent own fl s'.
Proof.
  destruct demo_forking as (own & fl & F). exists own, fl.
  destruct (fork_copies_process demo_parent own fl 0 [] demo_syms_ok demo_trampoline F)
    as (pid & s' & own' & fl' & Hrun & P & U & _).
  exists pid, s', own', fl'. split; [exact Hrun|]. split; [exact P|exact U].
Defined.
