(* ===== verification/Wait.v ===== *)
(** * wait (kernel/proc.c)

    The scan of the process table, what the parent gets from a child that has exited, and
    what happens to the memory of that child. *)

From stdpp Require Import base gmap list strings.
From Stdlib Require Import ZArith Lia.
From S2P Require Import Prelude Riscv Memory State Spinlock Sched Kalloc Vm PageTable UserMem Uvm Freewalk Demo.
From S2P Require Import Bio Log Fs Console Pipe File Proc ProcMem ProcTable ProcDemo.

(** ** The scan *)

Section Scan.
Context {KS : KSyms}.

Definition is_kid (s : kst) (p i : nat) : bool := bool_decide (p_parent (get_proc i s) = Some p).
Definition is_zombie_kid (s : kst) (p i : nat) : bool :=
  is_kid s p i && bool_decide (p_state (get_proc i s) = ZOMBIE).

(** What [wait] does with a child that has exited; its lock is held. *)
Definition reap (p np : nat) (addr : Z) : K (Z + bool) :=
  c ← proc_of np;
  if bool_decide (p_state c = ZOMBIE) then
    let pid := p_pid c in
    pp ← proc_of p;
    e ← (if negb (addr =? 0) then
           r ← copyout (p_pagetable pp) addr (le_split 4 (p_xstate c));
           mret (r <? 0)
         else mret false);
    if e : bool then release (LProc np);; release LWait;; mret (inl (-1))
    else freeproc np;; release (LProc np);; release LWait;; mret (inl pid)
  else release (LProc np);; mret (inr true).

Lemma held_back l h s : k_held s = h -> set_k_held h (set_k_held l s) = s.
Proof. intros <-. by destruct s. Qed.

Lemma wait_scan_skip p addr s env l1 l2 hk :
  k_held s = [LWait] -> (forall i, i ∈ l1 -> is_zombie_kid s p i = false) ->
  wait_scan (l1 ++ l2) p addr hk (mkWorld s env) =
  wait_scan l2 p addr (hk || existsb (is_kid s p) l1) (mkWorld s env).
Proof.
  intros Hh. revert hk. induction l1 as [|i l1 IH]; intros hk Hz; [by rewrite orb_false_r|].
  cbn [wait_scan app existsb]. rewrite (run_bind _ _ _ (get_proc i s) (mkWorld s env)) by done.
  pose proof (Hz i (list_elem_of_here _ _)) as Hi. unfold is_zombie_kid, is_kid in Hi.
  assert (Hz' : forall j, j ∈ l1 -> is_zombie_kid s p j = false)
    by (intros j Hj; apply Hz; by apply list_elem_of_further).
  unfold is_kid at 1. destruct (bool_decide (p_parent (get_proc i s) = Some p)); [|by apply IH].
  cbn [andb] in Hi. rewrite (run_bind _ _ _ tt (mkWorld (set_k_held [LProc i; LWait] s) env)).
  2:{ rewrite acquire_run; cbn; rewrite Hh; [done|]. by rewrite list_elem_of_singleton. }
  rewrite (run_bind _ _ _ (get_proc i s) (mkWorld (set_k_held [LProc i; LWait] s) env)) by done.
  rewrite Hi. rewrite (run_bind _ _ _ tt (mkWorld s env)).
  - rewrite IH by done. by destruct hk.
  - rewrite (release_run _ [LWait]) by done. cbn [w_ks w_env]. by rewrite held_back.
Qed.

Lemma wait_scan_found p addr s env np l hk :
  k_held s = [LWait] -> is_zombie_kid s p np = true ->
  wait_scan (np :: l) p addr hk (mkWorld s env) = reap p np addr (mkWorld (set_k_held [LProc np; LWait] s) env).
Proof.
  intros Hh Hz. apply andb_true_iff in Hz as [Hk Hz]. unfold is_kid in Hk.
  cbn [wait_scan]. rewrite (run_bind _ _ _ (get_proc np s) (mkWorld s env)) by done. rewrite Hk.
  rewrite (run_bind _ _ _ tt (mkWorld (set_k_held [LProc np; LWait] s) env)).
  2:{ rewrite acquire_run; cbn; rewrite Hh; [done|]. by rewrite list_elem_of_singleton. }
  unfold reap. rewrite !(run_bind _ _ _ (get_proc np s) (mkWorld (set_k_held [LProc np; LWait] s) env)) by done.
  by rewrite Hz.
Qed.

End Scan.

(** ** The table while its memory changes *)

Section Table.
Context {KS : KSyms} (Hks : ksyms_ok KS) `{PA : !PageAllocator kalloc kfree} (Htr : trampoline_ok KS).

(** Writes that leave the page tables alone. *)
Lemma procs_ok_pte s own fl s' :
  procs_ok s own fl -> vm_ok s' own fl -> same_pte s own s' -> k_procs s' = k_procs s -> procs_ok s' own fl.
Proof.
  intros [P1 P2 P3 P4 P5 P6 P7] Hok Hpte Hp.
  assert (Hg : forall i, get_proc i s' = get_proc i s) by (intros i; unfold get_proc; by rewrite Hp).
  split; [done|by rewrite Hp|..]; intros i; rewrite ?Hg; auto.
  - intros Hi Hst. destruct (P4 i Hi Hst) as [L1 L2 L3 L4]. split; [by eapply space_frame|done..].
  - intros j. rewrite !Hg. apply P7.
Qed.

(** Another process after the address space [r] and the frames [xs] are gone. *)
Lemma drops_kernel_page r xs s own fl s' fl' x :
  drops r xs s own fl s' fl' -> kernel_page own fl x -> x ∉ xs -> kernel_page (own_drop own r) fl' x.
Proof.
  intros D [Hp Ho Hf] Hx. split; [done|..].
  - destruct (own_drop own r !! x) as [o|] eqn:H; [|done]. apply own_drop_lookup in H as [H _]. congruence.
  - intros [H|[H|(o & H & _)]]%(dr_fl _ _ _ _ _ _ _ D); [done|done|congruence].
Qed.

Lemma drops_root r own r' : is_root own r' -> r' <> r -> is_root (own_drop own r) r'.
Proof. intros Hr Hne. apply own_drop_lookup. by split. Qed.

Lemma drops_live r xs s own fl s' fl' pr :
  drops r xs s own fl s' fl' -> live s own fl pr -> p_pagetable pr <> r ->
  (forall x, x ∈ frames pr -> x ∉ xs) -> live s' (own_drop own r) fl' pr.
Proof.
  intros D L Hne Hx. pose proof L as [[S1 S2 S3 S4 S5 S6] L2 L3 L4].
  assert (Hsame : forall va, 0 <= va < MAXVA -> pte_of (k_mem s') (p_pagetable pr) va = pte_of (k_mem s) (p_pagetable pr) va)
    by (intros va Hva; by eapply dr_pte).
  split; [|done|..].
  - split; [by apply drops_root|done|..].
    + intros vpn Hv. destruct (S3 vpn Hv) as [q Hq]. exists q. apply own_drop_lookup. by split.
    + rewrite <- S4. apply Hsame. by vm_compute.
    + rewrite <- S5. apply Hsame. by vm_compute.
    + intros va Hva Hn. rewrite Hsame; [by apply S6|]. change TRAPFRAME with (2 ^ 38 - 8192) in Hva.
      change MAXVA with (2 ^ 38). lia.
  - eapply drops_kernel_page; [exact D|done|]. apply Hx. apply elem_of_app. right. apply elem_of_frame.
    split; [done|]. destruct L3 as [Hp _ _]. apply (page_ok_pos Hks) in Hp. lia.
  - destruct L4 as [|[L4 L5]]; [by left|right]. split; [|done]. eapply drops_kernel_page; [exact D|done|].
    apply Hx. apply elem_of_app. left. apply elem_of_frame. split; [done|].
    destruct L4 as [Hp _ _]. apply (page_ok_pos Hks) in Hp. lia.
Qed.

(** [freeproc] on a process in use: the table keeps its invariant. *)
Lemma procs_ok_drop np s own fl s' fl' :
  let z := get_proc np s in
  procs_ok s own fl -> (np < NPROC)%nat -> p_state z <> UNUSED -> p_ofile z = replicate NOFILE None ->
  drops (p_pagetable z) (frames z) s own fl s' fl' -> k_procs s' = k_procs (upd_proc np dead s) ->
  procs_ok s' (own_drop own (p_pagetable z)) fl'.
Proof.
  intros z P Hnp Hst Hof D Hp. pose proof P as [P1 P2 P3 P4 P5 P6 P7].
  assert (Hg : forall i, get_proc i s' = get_proc i (upd_proc np dead s)) by (intros i; unfold get_proc; by rewrite Hp).
  assert (Hz : get_proc np s' = dead z) by (rewrite Hg; apply get_upd_proc; by rewrite P2).
  assert (Hoth : forall i, i <> np -> get_proc i s' = get_proc i s) by (intros i Hi; rewrite Hg; by apply get_upd_proc_ne).
  assert (Hun : p_state (dead z) = UNUSED) by done.
  split; [apply D|by rewrite Hp; cbn; rewrite length_alter|..].
  - intros i Hi. destruct (decide (i = np)) as [->|Hne]; [rewrite Hz; by apply shaped_dead, P3|]. rewrite Hoth by done. auto.
  - intros i Hi. destruct (decide (i = np)) as [->|Hne]; [rewrite Hz; done|]. rewrite Hoth by done. intros Hsi.
    destruct (P7 i np Hi Hnp Hne Hsi Hst) as [A1 A2]. eapply drops_live; [exact D|auto|done|done].
  - intros i Hi. destruct (decide (i = np)) as [->|Hne]; [rewrite Hz; by split|]. rewrite Hoth by done. auto.
  - intros i Hi. destruct (decide (i = np)) as [->|Hne]; [rewrite Hz; done|]. rewrite Hoth by done. auto.
  - intros i j Hi Hj Hij. destruct (decide (i = np)) as [->|Hni]; [rewrite Hz; done|].
    destruct (decide (j = np)) as [->|Hnj]; [rewrite Hz; done|]. rewrite !Hoth by done. auto.
Qed.

End Table.

(** ** A child that has exited *)

(** The first [k] bytes of the exit status are at [addr] in the address space [r], and no
    other byte of an address space of [own'] has changed. *)
Definition status_at (own' : gmap Z owner) (r addr : Z) (k : nat) (st : Z) (m m' : mem) : Prop :=
  forall r' va, is_root own' r' -> 0 <= va -> user_byte m' r' va =
    if decide (r' = r /\ addr <= va < addr + Z.of_nat k)
    then Some (u8 (nth (Z.to_nat (va - addr)) (le_split 4 st) 0)) else user_byte m r' va.

(** The slot is free, and so is every page the child had. *)
Record reaped (s : kst) (own : gmap Z owner) (fl : list Z) (np : nat)
    (s' : kst) (own' : gmap Z owner) (fl' : list Z) : Prop := {
  rp_slot : get_proc np s' = dead (get_proc np s);
  rp_others i : i <> np -> get_proc i s' = get_proc i s;
  rp_own p o : own' !! p = Some o <-> own !! p = Some o /\ root_of o <> p_pagetable (get_proc np s);
  rp_free q : q ∈ fl' <-> q ∈ fl \/ q ∈ frames (get_proc np s) \/
    exists o, own !! q = Some o /\ root_of o = p_pagetable (get_proc np s)
}.

Section Reap.
Context {KS : KSyms} (Hks : ksyms_ok KS) `{PA : !PageAllocator kalloc kfree} (Htr : trampoline_ok KS).

Definition reap_outcome (p np : nat) (addr : Z) (s : kst) (own : gmap Z owner) (fl : list Z)
    (v : Z) (s' : kst) : Prop :=
  exists k own' fl', procs_ok s' own' fl' /\ k_held s' = [] /\
    status_at own' (p_pagetable (get_proc p s)) addr k (p_xstate (get_proc np s)) (k_mem s) (k_mem s') /\
    ((v = p_pid (get_proc np s) /\ k = (if addr =? 0 then 0%nat else 4%nat) /\ reaped s own fl np s' own' fl') \/
     (v = -1 /\ addr <> 0 /\ (k < 4)%nat /\
      translate (k_mem s) (p_pagetable (get_proc p s)) (addr + Z.of_nat k) = None /\
      own' = own /\ fl' = fl /\ k_procs s' = k_procs s)).

(** The bytes of the address spaces that are left. *)
Lemma drops_bytes r xs s own fl s' fl' r' va :
  drops r xs s own fl s' fl' -> vm_ok s own fl -> (forall x, x ∈ xs -> kernel_page own fl x) ->
  is_root (own_drop own r) r' -> 0 <= va -> user_byte (k_mem s') r' va = user_byte (k_mem s) r' va.
Proof.
  intros D Hok Hxs Hr Hva. apply own_drop_lookup in Hr as [Hr Hne].
  apply (user_byte_frame s s' own fl r' va Hok Hr Hva).
  - intros Hlt. eapply dr_pte; [exact D|exact Hne|done|lia].
  - intros q vpn Hq. eapply dr_same; [exact D|by eapply pi_aligned; [apply Hok|]| |congruence].
    intros [H|[H|(o & Ho & Hro)]]%(dr_fl _ _ _ _ _ _ _ D).
    + apply (vo_free _ _ _ Hok) in H. congruence.
    + destruct (Hxs q H) as [_ Ho _]. congruence.
    + rewrite Hq in Ho. injection Ho as <-. done.
Qed.

(** [copyout] of the status, when the caller gave an address. *)
Lemma copy_status r addr st s own fl env :
  vm_ok s own fl -> is_root own r -> 0 <= addr ->
  exists (e : bool) k s', (if negb (addr =? 0) then
      c ← copyout r addr (le_split 4 st); mret (c <? 0) else mret false : K bool) (mkWorld s env) =
      Ok e (mkWorld s' env) /\
    vm_ok s' own fl /\ mem_only s s' /\ same_pte s own s' /\ status_at own r addr k st (k_mem s) (k_mem s') /\
    ((e = false /\ k = if addr =? 0 then 0%nat else 4%nat) \/
     (e = true /\ addr <> 0 /\ (k < 4)%nat /\ translate (k_mem s) r (addr + Z.of_nat k) = None)).
Proof.
  intros Hok Hr Ha. destruct (Z.eqb_spec addr 0) as [->|Hne]; cbn [negb].
  - exists false, 0%nat, s. do 3 (split; [done|]). split; [done|]. split; [|by left].
    intros r' va _ _. rewrite decide_False; [done|lia].
  - destruct (copyout_fuel_spec Hks r own fl env (length (le_split 4 st)) addr (le_split 4 st) s)
      as (e & k & s' & Hrun & [S1 S2 S3 S4 S5] & He); [lia|done..|].
    rewrite (run_bind _ _ _ e (mkWorld s' env)) by done. rewrite length_le_split in He.
    assert (Hk : (k <= 4)%nat) by (destruct He as [[_ ->]|(_ & ? & _)]; lia).
    exists (e <? 0), k, s'. do 4 (split; [done|]). split.
    + intros r' va Hr' Hva. rewrite (S4 r' va Hr' Hva), length_take, length_le_split, Nat.min_l by done.
      case_decide as D; [|done]. do 2 f_equal. rewrite !nth_lookup, lookup_take_lt by lia. done.
    + destruct He as [[-> ->]|(-> & Hlt & Ht)]; [by left|by right].
Qed.

Lemma release_two np v s env :
  k_held s = [LProc np; LWait] ->
  (release (LProc np);; release LWait;; mret v : K (Z + bool)) (mkWorld s env) =
  Ok v (mkWorld (set_k_held [] s) env).
Proof.
  intros Hh. rewrite (run_bind _ _ _ tt _ (release_run (LProc np) [LWait] (mkWorld s env) Hh)).
  rewrite (run_bind _ _ _ tt (mkWorld (set_k_held [] s) env)); [done|]. by rewrite (release_run _ []) by done.
Qed.

Lemma procs_ok_unheld s own fl : procs_ok s own fl -> procs_ok (set_k_held [] s) own fl.
Proof.
  intros P. apply (procs_ok_pte s); [done| |done|done].
  eapply vm_ok_frame; [..|apply P]; [done..|apply not_elem_of_nil].
Qed.

Lemma reap_runs p np addr s own fl env :
  procs_ok s own fl -> k_held s = [LProc np; LWait] -> (np < NPROC)%nat -> p_state (get_proc np s) = ZOMBIE ->
  (p < NPROC)%nat -> p_state (get_proc p s) <> UNUSED -> 0 <= addr ->
  exists v s', reap p np addr (mkWorld s env) = Ok (inl v) (mkWorld s' env) /\ reap_outcome p np addr s own fl v s'.
Proof.
  intros P Hh Hnp Hz Hp Hst Ha. set (z := get_proc np s) in *. set (pp := get_proc p s) in *. unfold reap.
  rewrite (run_bind _ _ _ z (mkWorld s env)) by done. rewrite bool_decide_eq_true_2 by done. cbv zeta.
  rewrite (run_bind _ _ _ pp (mkWorld s env)) by done.
  destruct (copy_status (p_pagetable pp) addr (p_xstate z) s own fl env (po_vm _ _ _ P))
    as (e & k & s1 & Hrun & Hok1 & Hmo1 & Hpte1 & Hst1 & He); [by eapply live_root, (po_live _ _ _ P p)|done|].
  rewrite (run_bind _ _ _ e (mkWorld s1 env)) by exact Hrun.
  assert (Hp1 : k_procs s1 = k_procs s) by (by destruct Hmo1 as (h & m & ->)).
  assert (Hh1 : k_held s1 = [LProc np; LWait]) by (by rewrite (mem_only_held _ _ Hmo1)).
  pose proof (procs_ok_pte s own fl s1 P Hok1 Hpte1 Hp1) as P1.
  destruct He as [[-> Hk]|(-> & Hne & Hk & Ht)].
  2:{ exists (-1), (set_k_held [] s1). split; [by apply release_two|]. exists k, own, fl.
      split; [by apply procs_ok_unheld|]. split; [done|]. split; [exact Hst1|]. right.
      do 6 (split; [done|]). exact Hp1. }
  assert (Hz1 : get_proc np s1 = z) by (unfold get_proc; by rewrite Hp1).
  assert (L1 : live s1 own fl z) by (rewrite <- Hz1; apply (po_live _ _ _ P1); [done|by rewrite Hz1, Hz]).
  destruct (freeproc_spec Hks Htr np s1 own fl env Hok1) as (s2 & fl2 & Hrun2 & Hmo2 & D).
  { rewrite Hz1. by apply (live_parts Hks). }
  rewrite Hz1 in D. rewrite (run_bind _ _ _ tt (mkWorld s2 env)) by done.
  exists (p_pid z), (set_k_held [] s2). split; [apply release_two; by rewrite (mem_only_held _ _ Hmo2)|].
  assert (Hp2 : k_procs s2 = k_procs (upd_proc np dead s)).
  { destruct Hmo2 as (h & m & ->). cbn. by rewrite Hp1. }
  assert (Hg2 : forall i, get_proc i (set_k_held [] s2) = get_proc i (upd_proc np dead s))
    by (intros i; unfold get_proc; cbn [k_procs set_k_held]; by rewrite Hp2).
  exists k, (own_drop own (p_pagetable z)), fl2. split; [|split; [done|split]].
  - apply procs_ok_unheld. rewrite <- Hz1. apply (procs_ok_drop Hks np s1 own fl s2 fl2 P1 Hnp); rewrite ?Hz1.
    + by rewrite Hz.
    + by apply (po_zombie _ _ _ P np).
    + exact D.
    + rewrite Hp2. cbn. by rewrite Hp1.
  - intros r' va Hr' Hva. cbn [k_mem set_k_held].
    rewrite (drops_bytes (p_pagetable z) (frames z) s1 own fl s2 fl2 r' va D Hok1); [|intros x Hx; by apply (live_frames _ _ _ _ x L1)|done|done].
    apply own_drop_lookup in Hr' as [Hr' _]. by apply Hst1.
  - left. split; [done|]. split; [done|]. split.
    + rewrite Hg2. apply get_upd_proc. by rewrite (po_len _ _ _ P).
    + intros i Hi. rewrite Hg2. by apply get_upd_proc_ne.
    + intros q o. apply own_drop_lookup.
    + apply D.
Qed.

End Reap.

(** ** wait *)

Section Wait.
Context {KS : KSyms} (Hks : ksyms_ok KS) `{PA : !PageAllocator kalloc kfree} (Htr : trampoline_ok KS).

Lemma acquire_wait s env : k_held s = [] ->
  acquire LWait (mkWorld s env) = Ok tt (mkWorld (set_k_held [LWait] s) env).
Proof. intros Hh. rewrite acquire_run; cbn; rewrite Hh; [done|apply not_elem_of_nil]. Qed.

Lemma wait_runs addr p s env :
  k_cur s = Some p -> k_held s = [] ->
  wait addr (mkWorld s env) = wait_loop (S (length env)) p addr (mkWorld (set_k_held [LWait] s) env).
Proof.
  intros Hcur Hh. unfold wait. rewrite (run_bind _ _ _ p (mkWorld s env)) by (by apply curproc_run).
  rewrite (run_bind _ _ _ tt _ (acquire_wait s env Hh)).
  by rewrite (run_bind _ _ _ (S (length env)) (mkWorld (set_k_held [LWait] s) env)) by done.
Qed.

(** The scan, given the first child that has exited. *)
Lemma scan_found p np addr s env :
  k_held s = [LWait] -> first_slot (is_zombie_kid s p) NPROC = Some np ->
  wait_scan proc_slots p addr false (mkWorld s env) = reap p np addr (mkWorld (set_k_held [LProc np; LWait] s) env).
Proof.
  intros Hh Hf. apply first_slot_Some in Hf as (Hnp & Hz & Hbef). unfold proc_slots.
  assert (Hseq : seq 0 NPROC = seq 0 np ++ np :: seq (S np) (NPROC - S np)).
  { replace NPROC with (np + S (NPROC - S np))%nat at 1 by lia. by rewrite seq_app. }
  rewrite Hseq, wait_scan_skip; [by apply wait_scan_found|done|].
  intros i Hi. apply Hbef. apply elem_of_seq in Hi. lia.
Qed.

Lemma scan_none p addr s env :
  k_held s = [LWait] -> first_slot (is_zombie_kid s p) NPROC = None ->
  wait_scan proc_slots p addr false (mkWorld s env) = Ok (inr (existsb (is_kid s p) proc_slots)) (mkWorld s env).
Proof.
  intros Hh Hf. rewrite <- (app_nil_r proc_slots) at 1. rewrite wait_scan_skip; [done|done|].
  intros i Hi. apply (proj1 (first_slot_None _ _) Hf). apply elem_of_seq in Hi. lia.
Qed.

(** The number of turns the loop may take does not matter once it exceeds the number of
    steps of the other processes. *)
Lemma wait_scan_env l p addr : forall hk w b w',
  wait_scan l p addr hk w = Ok (inr b) w' -> w_env w' = w_env w.
Proof.
  induction l as [|i l IH]; intros hk w b w' H; cbn in H; [by injection H as _ ->|].
  unfold mbind, M_bind in H. unfold proc_of, kgets, gets in H. cbv beta iota in H.
  destruct (bool_decide (p_parent _ = _)); [|by apply IH in H].
  destruct (acquire (LProc i) w) as [[] w1| |] eqn:H1; [|done..]. apply acquire_env in H1.
  destruct (bool_decide (p_state _ = _)).
  - exfalso. match type of H with match ?x with _ => _ end = _ => destruct x as [e w2| |]; [|done..] end.
    destruct e.
    + destruct (release (LProc i) w2) as [[] w3| |]; [|done..]. by destruct (release LWait w3).
    + destruct (freeproc i w2) as [[] w3| |]; [|done..]. destruct (release (LProc i) w3) as [[] w4| |]; [|done..].
      by destruct (release LWait w4).
  - destruct (release (LProc i) w1) as [[] w2| |] eqn:H2; [|done..]. apply release_env in H2.
    apply IH in H. congruence.
Qed.

Lemma wait_loop_more p addr : forall n m w, (length (w_env w) < n)%nat -> (length (w_env w) < m)%nat ->
  wait_loop n p addr w = wait_loop m p addr w.
Proof.
  induction n as [|n IH]; intros m w Hn Hm; [lia|]. destruct m as [|m]; [lia|]. cbn [wait_loop].
  unfold mbind, M_bind. destruct (wait_scan proc_slots p addr false w) as [[v|hk] w1| |] eqn:H1; [done| |done..].
  apply wait_scan_env in H1. unfold proc_of, kgets, gets. destruct (negb hk || _); [done|].
  destruct (sleep (ChProc p) LWait w1) as [[] w2| |] eqn:H2; [|done..]. apply sleep_env in H2.
  rewrite H1 in H2. apply IH; lia.
Qed.

(** With children that are all running, the caller sleeps and then starts again. *)
Lemma wait_sleeps addr p s env :
  k_cur s = Some p -> k_held s = [] -> (p < length (k_procs s))%nat ->
  first_slot (is_zombie_kid s p) NPROC = None -> existsb (is_kid s p) proc_slots = true ->
  p_killed (get_proc p s) = 0 ->
  wait addr (mkWorld s env) =
  match until_runnable p env (asleep p (ChProc p) s) with
  | Some (s', rest) => wait addr (mkWorld (set_k_held [] (awoken p LWait (k_intr s) s')) rest)
  | None => Blocked (mkWorld (run_all env (asleep p (ChProc p) s)) [])
  end.
Proof.
  intros Hcur Hh Hp Hf Hk Hkill. rewrite wait_runs with (p := p) by done. set (s1 := set_k_held [LWait] s).
  cbn [wait_loop]. rewrite (run_bind _ _ _ _ _ (scan_none p addr s1 env eq_refl Hf)).
  rewrite (run_bind _ _ _ (get_proc p s) (mkWorld s1 env)) by done.
  change (existsb (is_kid s1 p) proc_slots) with (existsb (is_kid s p) proc_slots). rewrite Hk, Hkill. cbn [negb orb Z.eqb].
  pose proof (sleep_run (ChProc p) LWait p s1 env Hcur Hp eq_refl) as Hs.
  specialize (Hs ltac:(done)). change (asleep p (ChProc p) s1) with (asleep p (ChProc p) s) in Hs.
  destruct (until_runnable p env (asleep p (ChProc p) s)) as [[s' rest]|] eqn:Hu.
  - rewrite (run_bind _ _ _ _ _ Hs). pose proof (sleep_env _ _ _ _ _ Hs) as Hlt. cbn in Hlt.
    rewrite wait_runs with (p := p) by done. apply wait_loop_more; cbn [w_env]; lia.
  - unfold mbind, M_bind. by rewrite Hs.
Qed.

(** No child, or killed. *)
Lemma wait_gives_up addr p s env :
  k_cur s = Some p -> k_held s = [] -> first_slot (is_zombie_kid s p) NPROC = None ->
  existsb (is_kid s p) proc_slots = false \/ p_killed (get_proc p s) <> 0 ->
  wait addr (mkWorld s env) = Ok (-1) (mkWorld s env).
Proof.
  intros Hcur Hh Hf Hno. rewrite wait_runs with (p := p) by done. set (s1 := set_k_held [LWait] s).
  cbn [wait_loop]. rewrite (run_bind _ _ _ _ _ (scan_none p addr s1 env eq_refl Hf)).
  rewrite (run_bind _ _ _ (get_proc p s) (mkWorld s1 env)) by done.
  change (existsb (is_kid s1 p) proc_slots) with (existsb (is_kid s p) proc_slots).
  assert (Hb : negb (existsb (is_kid s p) proc_slots) || negb (p_killed (get_proc p s) =? 0) = true).
  { destruct Hno as [->|Hno]; [done|]. apply Z.eqb_neq in Hno. rewrite Hno. by rewrite orb_true_r. }
  rewrite Hb. rewrite (run_bind _ _ _ tt (mkWorld s env)); [done|].
  rewrite (release_run _ []) by done. cbn [w_ks w_env]. unfold s1. by rewrite held_back.
Qed.

(** A child has exited. *)
Lemma wait_finds addr p np s own fl env :
  procs_ok s own fl -> k_cur s = Some p -> k_held s = [] -> (p < NPROC)%nat -> p_state (get_proc p s) <> UNUSED ->
  0 <= addr -> first_slot (is_zombie_kid s p) NPROC = Some np ->
  exists v s', wait addr (mkWorld s env) = Ok v (mkWorld s' env) /\ reap_outcome p np addr s own fl v s'.
Proof.
  intros P Hcur Hh Hp Hst Ha Hf. pose proof (proj1 (first_slot_Some _ _ _) Hf) as (Hnp & Hz & _).
  apply andb_true_iff in Hz as [_ Hz]. apply bool_decide_eq_true in Hz.
  set (s1 := set_k_held [LProc np; LWait] s).
  assert (P1 : procs_ok s1 own fl).
  { apply (procs_ok_pte s); [done| |done|done]. eapply vm_ok_frame; [..|apply P]; [done..|].
    cbn. rewrite !elem_of_cons. intros [H|[H|H]]; [done|done|by apply not_elem_of_nil in H]. }
  destruct (reap_runs Hks Htr p np addr s1 own fl env P1 eq_refl Hnp Hz Hp Hst Ha) as (v & s' & Hrun & Hout).
  exists v, s'. split.
  2:{ destruct Hout as (k & own' & fl' & P' & Hh' & Hs & [(Hv & Hk & [R1 R2 R3 R4])|Hfail]); exists k, own', fl';
        do 3 (split; [done|]); [left|by right]. split; [done|]. split; [done|]. by split. }
  rewrite wait_runs with (p := p) by done. cbn [wait_loop].
  rewrite (run_bind _ _ _ (inl v) (mkWorld s' env)); [done|].
  rewrite (scan_found p np addr (set_k_held [LWait] s) env eq_refl Hf). exact Hrun.
Qed.

End Wait.

(** C3: [wait] collects the children that have exited.  If some child is a zombie, it returns
    without sleeping: the first 4 bytes at [addr] of the caller's memory are the exit status
    (unless [addr] is 0), no other byte of any other address space changes, the result is the
    process id of the first such child in the table, its slot is unused again, and the free
    pages are exactly the former ones with every page the child had: its memory, its page
    tables, its trapframe and its saved trapframe.  If the status cannot be stored it returns -1
    and the child stays a zombie.  With no child at all, or for a caller that has been killed,
    it returns -1 and changes nothing; otherwise it sleeps until it is made runnable and then
    starts over. *)
Theorem wait_reaps_children {KS : KSyms} `{PA : !PageAllocator kalloc kfree} addr p s own fl env :
  ksyms_ok KS -> trampoline_ok KS -> procs_ok s own fl -> k_cur s = Some p -> k_held s = [] ->
  (p < NPROC)%nat -> p_state (get_proc p s) <> UNUSED -> 0 <= addr ->
  match first_slot (is_zombie_kid s p) NPROC with
  | Some np => exists v s', wait addr (mkWorld s env) = Ok v (mkWorld s' env) /\ reap_outcome p np addr s own fl v s'
  | None =>
      if existsb (is_kid s p) proc_slots && (p_killed (get_proc p s) =? 0) then
        wait addr (mkWorld s env) =
        match until_runnable p env (asleep p (ChProc p) s) with
        | Some (s', rest) => wait addr (mkWorld (set_k_held [] (awoken p LWait (k_intr s) s')) rest)
        | None => Blocked (mkWorld (run_all env (asleep p (ChProc p) s)) [])
        end
      else wait addr (mkWorld s env) = Ok (-1) (mkWorld s env)
  end.
Proof.
  intros Hks Htr P Hcur Hh Hp Hst Ha. destruct (first_slot _ _) as [np|] eqn:Hf; [by apply wait_finds|].
  destruct (existsb _ _) eqn:Hk; cbn [andb]; [destruct (Z.eqb_spec (p_killed (get_proc p s)) 0) as [Hz|Hz]|].
  - apply wait_sleeps; try done. by rewrite (po_len _ _ _ P).
  - apply wait_gives_up with (p := p); try done. by right.
  - apply wait_gives_up with (p := p); try done. by left.
Qed.

(** ** A parent and its exited child *)

Definition running_proc (x : proc) : proc := set_p_state RUNNING x.
Definition exited_proc (x : proc) : proc :=
  set_p_state ZOMBIE (set_p_xstate 7 (set_p_parent (Some 0%nat) (set_p_ofile (replicate NOFILE None) x))).

Definition demo_family : kst := set_k_cur (Some 0%nat) (spawn 1 0 exited_proc (spawn 0 0 running_proc demo_boot)).

Lemma running_keeps : keeps_memory running_proc.
Proof. split; [done| |done|done]. intros x [H1 H2 H3 H4]. by split. Qed.

Lemma exited_keeps : keeps_memory exited_proc.
Proof. split; [done| |done|done]. intros x [H1 H2 H3 H4]. by split. Qed.

(** The first slot has the process that was just made. *)
Lemma demo_parent_only : exists own fl pid r tf btf,
  let s := spawn 0 0 running_proc demo_boot in
  procs_ok s own fl /\ 7 <= Z.of_nat (length fl) /\ k_held s = [] /\
  get_proc 0 s = running_proc (set_p_sz 0 (fresh pid r tf btf proc0)) /\
  (forall i, (0 < i < NPROC)%nat -> get_proc i s = proc0).
Proof.
  destruct (spawn_ok 0 0 running_proc demo_boot ∅ _ demo_boot_table (proj2 demo_boot_ok) demo_boot_slot)
    as (own & fl & pid & r & tf & btf & P & Hl & Hmo); [lia|by vm_compute|by vm_compute|apply running_keeps|].
  exists own, fl, pid, r, tf, btf. pose proof (held_spawn 0 0 running_proc demo_boot) as Hh.
  revert P Hmo Hh. generalize (spawn 0 0 running_proc demo_boot). intros s0 P Hmo Hh. cbv zeta.
  split; [exact P|]. split; [cbn [length pages fmap list_fmap] in Hl; change (npages 0) with 0 in Hl; lia|].
  split; [exact Hh|]. split.
  - rewrite (mem_only_proc _ _ 0%nat Hmo), get_next_pid, get_upd_proc;
      [|rewrite (po_len _ _ _ demo_boot_table); unfold NPROC; lia].
    rewrite demo_boot_procs; [done|unfold NPROC; lia].
  - intros i Hi. rewrite (mem_only_proc _ _ i Hmo), get_next_pid, get_upd_proc_ne by lia. apply demo_boot_procs; lia.
Qed.

Lemma demo_family_ok : exists own fl, procs_ok demo_family own fl /\ k_cur demo_family = Some 0%nat /\
  k_held demo_family = [] /\ p_state (get_proc 0 demo_family) = RUNNING /\
  first_slot (is_zombie_kid demo_family 0) NPROC = Some 1%nat.
Proof.
  destruct demo_parent_only as (own0 & fl0 & pid0 & r0 & tf0 & btf0 & H). cbv zeta in H. unfold demo_family.
  revert H. generalize (spawn 0 0 running_proc demo_boot). intros s0 (P0 & Hl0 & Hh0 & Hg0 & Ho0).
  destruct (spawn_ok 1 0 exited_proc s0 own0 fl0 P0 Hh0) as (own & fl & pid & r & tf & btf & P & _ & Hmo).
  { apply first_slot_Some. split; [unfold NPROC; lia|]. split.
    - apply bool_decide_eq_true. rewrite Ho0 by (unfold NPROC; lia). done.
    - intros [|j] Hj; [|lia]. apply bool_decide_eq_false. by rewrite Hg0. }
  { lia. } { by vm_compute. } { change (npages 0) with 0. lia. } { apply exited_keeps. }
  exists own, fl. pose proof (held_spawn 1 0 exited_proc s0) as Hh.
  revert P Hmo Hh. generalize (spawn 1 0 exited_proc s0). intros s1 P Hmo Hh.
  assert (Hg : get_proc 0 s1 = get_proc 0 s0)
    by (rewrite (mem_only_proc _ _ 0%nat Hmo), get_next_pid; by apply get_upd_proc_ne).
  assert (Hz : get_proc 1 s1 = exited_proc (set_p_sz 0 (fresh pid r tf btf proc0))).
  { rewrite (mem_only_proc _ _ 1%nat Hmo), get_next_pid, get_upd_proc; [|rewrite (po_len _ _ _ P0); unfold NPROC; lia].
    by rewrite Ho0 by (unfold NPROC; lia). }
  split; [|split; [done|split; [exact Hh|split]]].
  - eapply procs_ok_same; [..|exact P]; [done|done|cbn; rewrite Hh; apply not_elem_of_nil|done].
  - transitivity (p_state (get_proc 0 s1)); [done|]. rewrite Hg, Hg0. done.
  - apply first_slot_Some. split; [unfold NPROC; lia|]. split.
    + transitivity (is_zombie_kid s1 0 1); [done|]. unfold is_zombie_kid, is_kid. rewrite Hz. by vm_compute.
    + intros [|j] Hj; [|lia]. transitivity (is_zombie_kid s1 0 0); [done|]. unfold is_zombie_kid, is_kid.
      rewrite Hg, Hg0. by vm_compute.
Qed.

#[global] Opaque demo_family.

Lemma wait_reaps_children_witness : exists own fl v s',
  wait 0 (mkWorld demo_family []) = Ok v (mkWorld s' []) /\ reap_outcome 0 1 0 demo_family own fl v s'.
Proof.
  destruct demo_family_ok as (own & fl & P & Hcur & Hh & Hst & Hz). exists own, fl.
  pose proof (wait_reaps_children 0 0 demo_family own fl [] demo_syms_ok demo_trampoline P Hcur Hh) as H.
  rewrite Hz in H. apply H; [unfold NPROC; lia|rewrite Hst; discriminate|lia].
Defined.
