(* ===== verification/KernelMap.v ===== *)
(** * The kernel's address space (kernel/vm.c: kvmmap, kvmmake; kernel/proc.c: proc_mapstacks)

    Which entries [kvmmake] leaves in the kernel's page table, and how many pages its
    tables take. *)

From stdpp Require Import base gmap list strings.
From Stdlib Require Import ZArith Lia.
From S2P Require Import Prelude Riscv Memory State Spinlock Sched Kalloc Vm PageTable UserMem Uvm Freewalk.
From S2P Require Import Bio Log Fs Console Pipe File Proc ProcMem ProcTable.

Section KernelMap.
Context {KS : KSyms} (Hks : ksyms_ok KS) `{PA : !PageAllocator kalloc kfree}.

(** ** Table pages that are already there *)

(** The leaf table of [va] in the address space [r] exists. *)
Definition has_leaf (own : gmap Z owner) (r va : Z) : Prop :=
  exists p, own !! p = Some (OTable r 0 (prefix 0 va)).

Lemma prefix_S_div l va : prefix l va / 512 = prefix (S l) va /\ prefix l va mod 512 = PX (Z.of_nat (S l)) va.
Proof.
  pose proof (PX_bound (Z.of_nat (S l)) va ltac:(lia)) as Hb. rewrite <- prefix_S. split; [by apply idx_div|by apply idx_mod].
Qed.

(** The entries on the way to a leaf table are valid. *)
Lemma leaf_above m own r va : pt_inv m own -> has_leaf own r va -> forall l pt,
  (l <= 2)%nat -> own !! pt = Some (OTable r l (prefix l va)) ->
  exists p, own !! p = Some (OTable r 0 (prefix 0 va)) /\ walk_addr m l pt va = p + 8 * PX 0 va.
Proof.
  intros Hi [p Hp].
  assert (Hdown : forall l pt, (S l <= 2)%nat -> own !! pt = Some (OTable r (S l) (prefix (S l) va)) ->
    (exists q, own !! q = Some (OTable r l (prefix l va))) ->
    has (ld64 m (pt + 8 * PX (Z.of_nat (S l)) va)) PTE_V = true).
  { intros l pt Hl Hpt [q Hq]. destruct (pi_table _ _ Hi _ _ _ _ Hq) as [(-> & _)|(_ & q' & Hq' & HV & _)]; [lia|].
    destruct (prefix_S_div l va) as [H1 H2]. rewrite H1 in Hq'. rewrite H2 in HV.
    by rewrite (table_unique m own r Hi _ _ _ _ _ eq_refl Hpt Hq'). }
  assert (H1 : exists q, own !! q = Some (OTable r 1 (prefix 1 va))).
  { destruct (pi_table _ _ Hi _ _ _ _ Hp) as [(? & _)|(_ & q & Hq & _)]; [lia|].
    exists q. by destruct (prefix_S_div 0 va) as [<- _]. }
  assert (Hall : forall l, (l <= 1)%nat -> exists q, own !! q = Some (OTable r l (prefix l va)))
    by (intros [|[|l]] Hl; [by exists p|done|lia]).
  induction l as [|l IH]; intros pt Hl Hpt; cbn [walk_addr]; cbv zeta; [by exists pt|].
  rewrite (Hdown l pt Hl Hpt (Hall l ltac:(lia))). apply IH; [lia|].
  destruct (pi_node _ _ Hi _ _ _ _ _ Hpt (PX_bound _ va (Zle_0_nat _)) (Hdown l pt Hl Hpt (Hall l ltac:(lia)))) as [Hc _].
  by rewrite prefix_S in Hc.
Qed.

(** [walk] then takes no page. *)
Lemma walk_present r va s own env :
  pt_inv (k_mem s) own -> is_root own r -> 0 <= va < MAXVA -> has_leaf own r va ->
  exists p, own !! p = Some (OTable r 0 (prefix 0 va)) /\
    walk r va true (mkWorld s env) = Ok (p + 8 * PX 0 va) (mkWorld s env).
Proof.
  intros Hi Hr Hva Hl. assert (Hr' : own !! r = Some (OTable r 2 (prefix 2 va))) by (by rewrite prefix_2).
  destruct (leaf_above _ _ _ _ Hi Hl 2 r ltac:(lia) Hr') as (p & Hp & Hw). exists p. split; [done|].
  unfold walk. rewrite (proj2 (Z.leb_gt _ _)) by lia. rewrite <- Hw. clear Hr. revert Hw.
  assert (Hpos : p + 8 * PX 0 va <> 0).
  { pose proof (PX_bound 0 va ltac:(lia)). apply (pi_page _ _ Hi) in Hp. apply (page_ok_pos Hks) in Hp. lia. }
  generalize r at 1 2 3. generalize 2%nat. induction n as [|l IH]; intros pt Hw; [done|].
  cbn [walk_from walk_addr] in *. cbv zeta in *. destruct (has _ PTE_V) eqn:HV; [|lia].
  rewrite (run_bind _ _ _ (ld64 (k_mem s) (pt + 8 * PX (Z.of_nat (S l)) va)) (mkWorld s env)) by done.
  rewrite HV. by apply IH.
Qed.

(** ** Ranges of kernel pages *)

Section Range.
Context (r perm : Z) (env : list (kst -> kst)).
Context (Hperm : 0 <= perm < 1024) (HRWX : has perm RWX = true) (HU : has perm PTE_U = false).

(** An entry that is not 0 is in a leaf table. *)
Lemma has_leaf_pte m own va : pt_inv m own -> is_root own r -> 0 <= va < MAXVA -> pte_of m r va <> 0 -> has_leaf own r va.
Proof.
  intros Hi Hr Hva Hne. assert (Hr' : own !! r = Some (OTable r 2 (prefix 2 va))) by (by rewrite prefix_2).
  destruct (walk_addr_leaf _ _ _ _ Hi 2 r Hr') as [[_ H0]|(p & Hp & _)]; [done|by exists p].
Qed.

Lemma mk_pte_valid pa : mk_pte pa perm <> 0.
Proof. unfold mk_pte. intros H. apply Z.lor_eq_0_iff in H as [_ H]. discriminate H. Qed.

(** One page: at most [b] pages are taken, none if its leaf table is there. *)
Lemma map_kpage a pa b s own fl :
  vm_ok s own fl -> is_root own r -> 0 <= a < MAXVA -> a mod PGSIZE = 0 -> 0 <= pa < 2 ^ 56 -> pa mod PGSIZE = 0 ->
  has (pte_of (k_mem s) r a) PTE_V = false ->
  (b = 2 \/ b = 0 /\ has_leaf own r a) -> b <= Z.of_nat (length fl) ->
  exists addr s1 own2 fl2, walk r a true (mkWorld s env) = Ok addr (mkWorld s1 env) /\ addr <> 0 /\
    has (ld64 (k_mem s1) addr) PTE_V = false /\
    let s2 := set_k_mem (st64 (k_mem s1) addr (mk_pte pa perm)) s1 in
    grows r (fun _ => False) s own fl s2 own2 fl2 /\ mapped own s r a 1 pa perm s2 /\
    has_leaf own2 r a /\ Z.of_nat (length fl) <= Z.of_nat (length fl2) + b.
Proof.
  intros Hok Hr Ha Hal Hpa Hpal Hun Hb Hlen.
  destruct (map_page Hks r a pa perm false s own fl env) as (addr & s1 & own1 & fl1 & Hw & Hres); try done; [congruence|].
  assert (Hpres : has_leaf own r a -> s1 = s /\ addr <> 0 /\
    exists p, own !! p = Some (OTable r 0 (prefix 0 a)) /\ addr = p + 8 * PX 0 a).
  { intros Hl. destruct (walk_present r a s own env (vo_inv _ _ _ Hok) Hr Ha Hl) as (p & Hp & Hw').
    rewrite Hw' in Hw. injection Hw as <- <-. split; [done|]. split; [|by exists p].
    pose proof (PX_bound 0 a ltac:(lia)). apply (pi_page _ _ (vo_inv _ _ _ Hok)) in Hp. apply (page_ok_pos Hks) in Hp. lia. }
  destruct Hres as [(-> & _ & Hshort & _)|(Hnz & Hl2 & Hinval & Hg & Hm)].
  { exfalso. destruct Hb as [->|[-> Hl]]; [lia|]. by destruct (Hpres Hl) as (_ & ? & _). }
  set (s2 := set_k_mem (st64 (k_mem s1) addr (mk_pte pa perm)) s1) in *.
  exists addr, s1, (map_owner own1 r (a / PGSIZE) pa false), fl1. do 3 (split; [done|]). cbv zeta. fold s2.
  split; [eapply grows_mono; [|exact Hg]; by intros q (? & _)|]. split; [done|]. split.
  - eapply (has_leaf_pte (k_mem s2)); [apply Hg|eapply is_root_sub; [apply Hg|done]|done|].
    rewrite Hm, decide_True by (try done; lia). apply mk_pte_valid.
  - destruct Hb as [->|[-> Hl]]; [lia|]. destruct (Hpres Hl) as (-> & _ & p & Hp & ->). enough (fl1 = fl) as -> by lia.
    eapply (avail_fun s2); [apply Hg|]. eapply (avail_frame s); [done| |apply Hok].
    pose proof (PX_bound 0 a ltac:(lia)) as Hb. pose proof (entry_off _ Hb).
    intros q Hq. apply same_page_st64; [by eapply pi_aligned; [apply Hok|]| | |lia|lia].
    + by apply (avail_page_ok _ _ _ (vo_avail _ _ _ Hok)) in Hq as [].
    + intros ->. apply (vo_free _ _ _ Hok) in Hq. congruence.
Qed.

(** The table pages for [n + 1] pages from [a] on, when [b] are enough for the first. *)
Definition map_cost (n : nat) (a b : Z) : Z := 2 * ((a / PGSIZE + Z.of_nat n) / 512 - a / PGSIZE / 512) + b.

Lemma next_leaf own a : a mod PGSIZE = 0 -> has_leaf own r a ->
  exists b, (b = 2 \/ b = 0 /\ has_leaf own r (a + PGSIZE)) /\
    2 * ((a / PGSIZE + 1) / 512) = 2 * (a / PGSIZE / 512) + b.
Proof.
  intros Hal [p Hp].
  assert (Hdiv : (a + PGSIZE) / PGSIZE = a / PGSIZE + 1).
  { replace (a + PGSIZE) with (a + 1 * PGSIZE) by lia. by apply page_succ. }
  assert (Hpre : forall x, prefix 0 x = x / PGSIZE / 512).
  { intros x. rewrite <- (prefix_0 x). symmetry. apply idx_div. apply PX_bound. lia. }
  destruct (decide ((a / PGSIZE + 1) / 512 = a / PGSIZE / 512)) as [He|Hne].
  - exists 0. split; [|lia]. right. split; [done|]. exists p. by rewrite Hpre, Hdiv, He, <- Hpre.
  - exists 2. split; [by left|]. pose proof (Z.div_le_mono (a / PGSIZE) (a / PGSIZE + 1) 512 ltac:(lia) ltac:(lia)).
    pose proof (Z.div_le_mono (a / PGSIZE + 1) (a / PGSIZE + 1 * 512) 512 ltac:(lia) ltac:(lia)) as H1.
    rewrite Z.div_add in H1 by lia. lia.
Qed.

(** One turn of the loop of [mappages]. *)
Lemma map_kturn n a pa b s own fl :
  vm_ok s own fl -> is_root own r -> 0 <= a < MAXVA -> a mod PGSIZE = 0 -> 0 <= pa < 2 ^ 56 -> pa mod PGSIZE = 0 ->
  has (pte_of (k_mem s) r a) PTE_V = false ->
  (b = 2 \/ b = 0 /\ has_leaf own r a) -> b <= Z.of_nat (length fl) ->
  exists s' own' fl', mappages_from n r a pa perm (mkWorld s env) =
      match n with
      | O => Ok 0 (mkWorld s' env)
      | S n => mappages_from n r (u64 (a + PGSIZE)) (u64 (pa + PGSIZE)) perm (mkWorld s' env)
      end /\
    grows r (fun _ => False) s own fl s' own' fl' /\ mapped own s r a 1 pa perm s' /\
    has_leaf own' r a /\ Z.of_nat (length fl) <= Z.of_nat (length fl') + b.
Proof.
  intros Hok Hr Ha Hal Hpa Hpal Hun Hb Hlen.
  destruct (map_kpage a pa b s own fl Hok Hr Ha Hal Hpa Hpal Hun Hb Hlen)
    as (addr & s1 & own2 & fl2 & Hw & Hnz & Hinval & Hrest). cbv zeta in Hrest.
  set (s2 := set_k_mem (st64 (k_mem s1) addr (mk_pte pa perm)) s1) in *.
  exists s2, own2, fl2. split; [|exact Hrest].
  assert (Hrun : forall (k : K Z), (v ← ldM64 addr; if has v PTE_V then panic "remap" else
      stM64 addr (Z.lor (Z.lor (PA2PTE pa) perm) PTE_V);; k) (mkWorld s1 env) = k (mkWorld s2 env)).
  { intros k. rewrite (run_bind _ _ _ (ld64 (k_mem s1) addr) (mkWorld s1 env)) by done. rewrite Hinval.
    by rewrite (run_bind _ _ _ tt (mkWorld s2 env)) by reflexivity. }
  destruct n as [|n]; cbn [mappages_from]; rewrite (run_bind _ _ _ addr (mkWorld s1 env)) by done;
    rewrite (proj2 (Z.eqb_neq addr 0)) by done; by rewrite Hrun.
Qed.

Lemma map_krange : forall n a pa b s own fl,
  vm_ok s own fl -> is_root own r -> a mod PGSIZE = 0 -> 0 <= a -> a + (Z.of_nat n + 1) * PGSIZE <= MAXVA ->
  pa mod PGSIZE = 0 -> 0 <= pa -> pa + (Z.of_nat n + 1) * PGSIZE <= 2 ^ 56 ->
  (forall i, 0 <= i <= Z.of_nat n -> has (pte_of (k_mem s) r (a + i * PGSIZE)) PTE_V = false) ->
  (b = 2 \/ b = 0 /\ has_leaf own r a) -> map_cost n a b <= Z.of_nat (length fl) ->
  exists s' own' fl', mappages_from n r a pa perm (mkWorld s env) = Ok 0 (mkWorld s' env) /\
    grows r (fun _ => False) s own fl s' own' fl' /\ mapped own s r a (Z.of_nat n + 1) pa perm s' /\
    Z.of_nat (length fl) <= Z.of_nat (length fl') + map_cost n a b.
Proof.
  induction n as [|n IH]; intros a pa b s own fl Hok Hr Hal Ha Hamax Hpal Hpa Hpamax Hun Hb Hlen;
    assert (HPG : PGSIZE = 4096) by done.
  all: assert (Hun0 : has (pte_of (k_mem s) r a) PTE_V = false)
         by (specialize (Hun 0 ltac:(lia)); by rewrite Z.mul_0_l, Z.add_0_r in Hun).
  - unfold map_cost in *. rewrite Z.add_0_r in *.
    destruct (map_kturn 0 a pa b s own fl) as (s' & own' & fl' & Hrun & Hg & Hm & _ & Hl); try done; try lia.
    exists s', own', fl'. split; [done|]. split; [done|]. split; [done|lia].
  - assert (Hmono : a / PGSIZE / 512 <= (a / PGSIZE + Z.of_nat (S n)) / 512) by (apply Z.div_le_mono; lia).
    destruct (map_kturn (S n) a pa b s own fl) as (s1 & own1 & fl1 & Hrun & Hg & Hm & Hleaf & Hl); try done; try lia.
    { unfold map_cost in Hlen. lia. }
    destruct (next_leaf own1 a Hal Hleaf) as (b' & Hb' & Hcost).
    assert (Hdiv : (a + PGSIZE) / PGSIZE = a / PGSIZE + 1).
    { replace (a + PGSIZE) with (a + 1 * PGSIZE) by lia. by apply page_succ. }
    assert (Hsum : map_cost (S n) a b = map_cost n (a + PGSIZE) b' + b).
    { unfold map_cost. rewrite Hdiv. replace (a / PGSIZE + 1 + Z.of_nat n) with (a / PGSIZE + Z.of_nat (S n)) by lia. lia. }
    assert (Hmod : forall x, x mod PGSIZE = 0 -> (x + PGSIZE) mod PGSIZE = 0).
    { intros x Hx. replace (x + PGSIZE) with (x + 1 * PGSIZE) by lia. by rewrite Z.mod_add. }
    rewrite Hrun. unfold u64. rewrite !Z.mod_small by (change MAXVA with (2 ^ 38) in Hamax; lia).
    destruct (IH (a + PGSIZE) (pa + PGSIZE) b' s1 own1 fl1) as (s' & own' & fl' & Hrun' & Hg' & Hm' & Hl');
      try lia; try done; try (by apply Hmod).
    + apply Hg.
    + eapply is_root_sub; [apply Hg|done].
    + intros i Hi. rewrite (Hm r) by (try done; lia).
      replace (a + PGSIZE + i * PGSIZE) with (a + (i + 1) * PGSIZE) by lia.
      rewrite page_succ, decide_False by (try done; lia). apply Hun. lia.
    + exists s', own', fl'. split; [done|]. split; [by eapply grows_trans|]. split; [|lia].
      replace (Z.of_nat (S n) + 1) with (Z.of_nat n + 1 + 1) by lia. eapply mapped_app; [done|apply Hg|lia|done..].
Qed.

End Range.

(** ** The calls of [kvmmap] *)

(** [g_n] pages from [g_va] on, mapped to the pages from [g_pa] on. *)
Record region := mkRegion { g_va : Z; g_pa : Z; g_n : Z; g_perm : Z }.

Record region_ok (g : region) : Prop := {
  go_va : g_va g mod PGSIZE = 0 /\ 0 <= g_va g /\ g_va g + g_n g * PGSIZE <= MAXVA;
  go_pa : g_pa g mod PGSIZE = 0 /\ 0 <= g_pa g /\ g_pa g + g_n g * PGSIZE <= 2 ^ 56;
  go_n : 1 <= g_n g;
  go_perm : 0 <= g_perm g < 1024 /\ has (g_perm g) RWX = true /\ has (g_perm g) PTE_U = false
}.

Definition in_region (g : region) (va : Z) : Prop := g_va g / PGSIZE <= va / PGSIZE < g_va g / PGSIZE + g_n g.

#[global] Instance in_region_dec g va : Decision (in_region g va) := _.

(** The entry of [va] once the regions [l] are mapped, the last one first. *)
Fixpoint region_pte (l : list region) (va : Z) : Z :=
  match l with
  | [] => 0
  | g :: l =>
      if decide (in_region g va) then mk_pte (g_pa g + (va / PGSIZE - g_va g / PGSIZE) * PGSIZE) (g_perm g)
      else region_pte l va
  end.

Definition region_cost (g : region) : Z := map_cost (Z.to_nat (g_n g - 1)) (g_va g) 2.

(** The address space [r] maps the regions [l] and nothing else; [xs] are the pages the
    kernel has taken on the way. *)
Record kvm (l : list region) (r : Z) (xs : list Z) (s : kst) (own : gmap Z owner) (fl : list Z)
    (s' : kst) (own' : gmap Z owner) (fl' : list Z) : Prop := {
  kv_builds : builds r xs s own fl s' own' fl';
  kv_root : is_root own' r;
  kv_mem : mem_only s s';
  kv_pte va : 0 <= va < MAXVA -> pte_of (k_mem s') r va = region_pte l va
}.

Lemma mapped_builds r n a pa perm s own fl s' own' fl' :
  grows r (fun _ => False) s own fl s' own' fl' -> mapped own s r a n pa perm s' ->
  builds r [] s own fl s' own' fl'.
Proof.
  intros G Hm. split; try apply G.
  - intros p o Ho Hn. by destruct (gr_new G p o Ho Hn) as [[? (l & pre & ->)]|[[] _]].
  - intros p Hp. destruct (gr_all G p Hp); [by left|right; by left].
  - by intros x ?%not_elem_of_nil.
  - intros p Hp. destruct (gr_fl G) as [u ->]. apply elem_of_app. by right.
  - intros r' va Hne Hr Hva. rewrite Hm by done. by rewrite decide_False by (by intros [? _]).
Qed.

Lemma kvmmap_run g r s own fl env :
  vm_ok s own fl -> is_root own r -> region_ok g ->
  (forall va, 0 <= va < MAXVA -> in_region g va -> pte_of (k_mem s) r va = 0) -> region_cost g <= Z.of_nat (length fl) ->
  exists s' own' fl',
    kvmmap r (g_va g) (g_pa g) (g_n g * PGSIZE) (g_perm g) (mkWorld s env) = Ok tt (mkWorld s' env) /\
    grows r (fun _ => False) s own fl s' own' fl' /\ mapped own s r (g_va g) (g_n g) (g_pa g) (g_perm g) s' /\
    Z.of_nat (length fl) <= Z.of_nat (length fl') + region_cost g.
Proof.
  intros Hok Hr [(Hva & Hva0 & Hvam) (Hpa & Hpa0 & Hpam) Hn (Hp1 & Hp2 & Hp3)] Hfree Hlen.
  assert (HPG : PGSIZE = 4096) by done. change MAXVA with (2 ^ 38) in Hvam.
  set (n := Z.to_nat (g_n g - 1)) in *. assert (Hnn : Z.of_nat n + 1 = g_n g) by lia.
  destruct (map_krange r (g_perm g) env Hp1 Hp2 Hp3 n (g_va g) (g_pa g) 2 s own fl)
    as (s' & own' & fl' & Hrun & Hg & Hm & Hl); try done; try lia.
  - change MAXVA with (2 ^ 38). lia.
  - intros i Hi. rewrite Hfree; [by rewrite has_0|change MAXVA with (2 ^ 38); lia|].
    unfold in_region. rewrite page_succ by done. lia.
  - exists s', own', fl'. rewrite Hnn in Hm. split; [|done]. unfold kvmmap, mappages.
    assert (Hdown : PGROUNDDOWN (g_va g) = g_va g).
    { rewrite PGROUNDDOWN_div. pose proof (Z.div_mod (g_va g) PGSIZE ltac:(lia)). lia. }
    assert (Hlast : PGROUNDDOWN (u64 (g_va g + g_n g * PGSIZE - 1)) = g_va g + Z.of_nat n * PGSIZE).
    { unfold u64. rewrite Z.mod_small by lia. rewrite PGROUNDDOWN_div.
      replace (g_va g + g_n g * PGSIZE - 1) with (4095 + (g_va g / PGSIZE + Z.of_nat n) * PGSIZE)
        by (pose proof (Z.div_mod (g_va g) PGSIZE ltac:(lia)); lia).
      rewrite Z.div_add by lia. change (4095 / PGSIZE) with 0.
      pose proof (Z.div_mod (g_va g) PGSIZE ltac:(lia)). lia. }
    rewrite Hdown, Hlast. replace (g_va g + Z.of_nat n * PGSIZE - g_va g) with (Z.of_nat n * PGSIZE) by lia.
    unfold u64. rewrite Z.mod_small by lia. rewrite Z.div_mul, Nat2Z.id by lia.
    by rewrite (run_bind _ _ _ 0 (mkWorld s' env)) by exact Hrun.
Qed.

Lemma kvmmap_kvm g l r xs s own fl s1 own1 fl1 env :
  kvm l r xs s own fl s1 own1 fl1 -> region_ok g ->
  (forall va, 0 <= va < MAXVA -> in_region g va -> region_pte l va = 0) -> region_cost g <= Z.of_nat (length fl1) ->
  exists s2 own2 fl2,
    kvmmap r (g_va g) (g_pa g) (g_n g * PGSIZE) (g_perm g) (mkWorld s1 env) = Ok tt (mkWorld s2 env) /\
    kvm (g :: l) r xs s own fl s2 own2 fl2 /\ Z.of_nat (length fl1) <= Z.of_nat (length fl2) + region_cost g.
Proof.
  intros [B Hr Hmo Hpte] Hg Hdis Hlen.
  destruct (kvmmap_run g r s1 own1 fl1 env (bd_ok _ _ _ _ _ _ _ _ B) Hr Hg) as (s2 & own2 & fl2 & Hrun & G & Hm & Hl); [|done|].
  { intros va Hva Hin. rewrite Hpte by done. by apply Hdis. }
  exists s2, own2, fl2. split; [done|]. split; [|done]. split.
  - rewrite <- (app_nil_r xs). eapply builds_trans; [exact B|]. by eapply mapped_builds.
  - eapply is_root_sub; [apply G|done].
  - etrans; [exact Hmo|apply G].
  - intros va Hva. rewrite Hm by done. cbn [region_pte]. unfold in_region.
    case_decide as D; case_decide as D'; try done; [tauto|tauto|by apply Hpte].
Qed.

(** ** kvmmake *)

Definition RW : Z := Z.lor PTE_R PTE_W.
Definition RX : Z := Z.lor PTE_R PTE_X.

(** Device registers, the kernel's text and data, the trampoline. *)
Definition fixed_regions : list region := [
  mkRegion TRAMPOLINE ksym_trampoline 1 RX;
  mkRegion ksym_etext ksym_etext ((PHYSTOP - ksym_etext) / PGSIZE) RW;
  mkRegion KERNBASE KERNBASE ((ksym_etext - KERNBASE) / PGSIZE) RX;
  mkRegion PLIC PLIC 1024 RW;
  mkRegion VIRTIO0 VIRTIO0 1 RW;
  mkRegion UART0 UART0 1 RW].

(** The kernel stacks; [pas !! i] is the page of process [i]. *)
Definition stack_region (i : nat) (pa : Z) : region := mkRegion (KSTACK (Z.of_nat i)) pa 1 RW.
Definition stack_regions (pas : list Z) : list region := reverse (imap stack_region pas).

Definition kernel_regions (pas : list Z) : list region := stack_regions pas ++ fixed_regions.

(** The layout of the image (kernel.ld): the trampoline is the last page of the text. *)
Record image_ok : Prop := {
  im_text : ksym_etext mod PGSIZE = 0 /\ ksym_trampoline = ksym_etext - PGSIZE;
  im_order : KERNBASE <= ksym_trampoline /\ ksym_etext < ksym_end
}.

Context (Him : image_ok).

Lemma etext_page : exists n, ksym_etext = KERNBASE + n * PGSIZE /\ 1 <= n < 32768.
Proof.
  destruct Him as [[H1 H2] [H3 H4]], Hks as [_ H5]. exists (ksym_etext / PGSIZE - KERNBASE / PGSIZE).
  unfold PHYSTOP, KERNBASE, PGSIZE in *. pose proof (Z.div_mod ksym_etext 4096 ltac:(lia)).
  change (0x80000000 / 4096) with 524288. lia.
Qed.

Lemma RW_ok : 0 <= RW < 1024 /\ has RW RWX = true /\ has RW PTE_U = false.
Proof. by vm_compute. Qed.

Lemma RX_ok : 0 <= RX < 1024 /\ has RX RWX = true /\ has RX PTE_U = false.
Proof. by vm_compute. Qed.

(** Page numbers. *)
Lemma page_numbers : UART0 / PGSIZE = 65536 /\ VIRTIO0 / PGSIZE = 65537 /\ PLIC / PGSIZE = 49152 /\
  KERNBASE / PGSIZE = 524288 /\ TRAMPOLINE / PGSIZE = 67108863.
Proof. by vm_compute. Qed.

Lemma etext_pages n : ksym_etext = KERNBASE + n * PGSIZE ->
  ksym_etext / PGSIZE = 524288 + n /\ (ksym_etext - KERNBASE) / PGSIZE = n /\ (PHYSTOP - ksym_etext) / PGSIZE = 32768 - n.
Proof.
  intros ->. replace (KERNBASE + n * PGSIZE - KERNBASE) with (n * PGSIZE) by lia.
  replace (PHYSTOP - (KERNBASE + n * PGSIZE)) with ((32768 - n) * PGSIZE) by (unfold PHYSTOP, PGSIZE; lia).
  rewrite Z.div_add, !Z.div_mul by done. by change (KERNBASE / PGSIZE) with 524288.
Qed.

Lemma kstack_page i : 0 <= i < 64 -> KSTACK i / PGSIZE = 67108861 - 2 * i /\ KSTACK i mod PGSIZE = 0.
Proof.
  intros Hi. replace (KSTACK i) with ((67108861 - 2 * i) * PGSIZE)
    by (unfold KSTACK; change TRAMPOLINE with (67108863 * PGSIZE); unfold PGSIZE; lia).
  by rewrite Z.div_mul, Z.mod_mul by done.
Qed.

(** Disjointness, alignment and sizes are statements about page numbers. *)
Ltac region_facts n Hn :=
  let P := fresh in let E := fresh in
  pose proof page_numbers as P; pose proof (etext_pages n Hn) as E;
  destruct P as (P1 & P2 & P3 & P4 & P5); destruct E as (E1 & E2 & E3);
  unfold region_cost, map_cost, in_region, fixed_regions in *; cbn [region_pte g_va g_n g_pa g_perm] in *;
  unfold in_region in *; cbn [region_pte g_va g_n g_pa g_perm] in *;
  rewrite ?P1, ?P2, ?P3, ?P4, ?P5, ?E1, ?E2, ?E3 in *.

Definition kvm_fixed (r : Z) : K unit :=
  kvmmap r UART0 UART0 PGSIZE RW;;
  kvmmap r VIRTIO0 VIRTIO0 PGSIZE RW;;
  kvmmap r PLIC PLIC 0x400000 RW;;
  kvmmap r KERNBASE KERNBASE (ksym_etext - KERNBASE) RX;;
  kvmmap r ksym_etext ksym_etext (PHYSTOP - ksym_etext) RW;;
  kvmmap r TRAMPOLINE ksym_trampoline PGSIZE RX.

Lemma fixed_ok g : g ∈ fixed_regions -> region_ok g.
Proof.
  destruct etext_page as (n & Hn & Hb). destruct Him as [[H1 H2] [H3 H4]].
  assert (Hmod : forall k, (KERNBASE + k * PGSIZE) mod PGSIZE = 0)
    by (intros k; rewrite Z.mod_add by done; by vm_compute).
  assert (Htr : ksym_trampoline = KERNBASE + (n - 1) * PGSIZE) by (unfold PGSIZE in *; lia).
  pose proof (etext_pages n Hn) as (E1 & E2 & E3). pose proof RW_ok. pose proof RX_ok.
  assert (HM : MAXVA = 2 ^ 38) by done. assert (HT : TRAMPOLINE = 2 ^ 38 - 4096) by done.
  unfold fixed_regions. rewrite !elem_of_cons, elem_of_nil.
  intros [->|[->|[->|[->|[->|[->|[]]]]]]]; split; cbn [g_va g_pa g_n g_perm]; rewrite ?E2, ?E3; try done;
    rewrite ?Htr, ?Hn, ?HM, ?HT, ?Hmod; unfold KERNBASE, PGSIZE, PLIC, VIRTIO0, UART0; try lia; try (split; [|lia]; by vm_compute).
Qed.

(** The regions do not overlap, whatever the size of the text. *)
Lemma fixed_apart g l l' va : fixed_regions = l' ++ g :: l -> in_region g va -> region_pte l va = 0.
Proof.
  destruct etext_page as (n & Hn & Hb). intros Heq Hin.
  destruct l' as [|? [|? [|? [|? [|? [|? l']]]]]]; unfold fixed_regions in Heq; cbn [app] in Heq;
    injection Heq; intros; subst; try (by destruct l'); clear Heq; region_facts n Hn; repeat case_decide; lia.
Qed.

Lemma fixed_cost : Forall (fun g => 0 <= region_cost g) (reverse fixed_regions) /\
  foldr (fun g c => region_cost g + c) 0 (reverse fixed_regions) <= 150.
Proof.
  destruct etext_page as (n & Hn & Hb). unfold fixed_regions, reverse. cbn [foldr rev_append]. rewrite !Forall_cons, Forall_nil.
  region_facts n Hn. rewrite !(Z2Nat.id (n - 1)), !(Z2Nat.id (32768 - n - 1)) by lia.
  replace (524288 + n + (32768 - n - 1)) with 557055 by lia.
  assert (Hdiv : forall k, (524288 + k) / 512 = 1024 + k / 512)
    by (intros k; change 524288 with (1024 * 512); rewrite Z.add_comm, Z.div_add by lia; lia).
  rewrite !Hdiv. change (557055 / 512) with 1087. change (524288 / 512) with 1024.
  assert (0 <= n / 512 <= (n - 1) / 512 + 1 /\ (n - 1) / 512 <= n / 512 /\ 0 <= (n - 1) / 512 <= 63).
  { pose proof (Z.div_le_mono (n - 1) n 512 ltac:(lia) ltac:(lia)).
    pose proof (Z.div_le_mono n (n - 1 + 1 * 512) 512 ltac:(lia) ltac:(lia)) as H'. rewrite Z.div_add in H' by lia.
    pose proof (Z.div_pos (n - 1) 512 ltac:(lia) ltac:(lia)).
    pose proof (Z.div_lt_upper_bound (n - 1) 512 64 ltac:(lia) ltac:(lia)). lia. }
  generalize dependent (n / 512). generalize dependent ((n - 1) / 512). intros a b Hab.
  repeat match goal with |- context [?x / 512] => let v := eval vm_compute in (x / 512) in change (x / 512) with v end.
  repeat split; lia.
Qed.

(** The calls for a list of regions, in order. *)
Definition kvm_all (r : Z) (gs : list region) : K unit :=
  for_each gs (fun g => kvmmap r (g_va g) (g_pa g) (g_n g * PGSIZE) (g_perm g)).

Lemma kvm_all_run r xs env : forall gs l s own fl s1 own1 fl1,
  kvm l r xs s own fl s1 own1 fl1 -> Forall region_ok gs ->
  (forall g l1 l2 va, gs = l1 ++ g :: l2 -> in_region g va -> region_pte (reverse l1 ++ l) va = 0) ->
  foldr (fun g c => region_cost g + c) 0 gs <= Z.of_nat (length fl1) -> Forall (fun g => 0 <= region_cost g) gs ->
  exists s2 own2 fl2, kvm_all r gs (mkWorld s1 env) = Ok tt (mkWorld s2 env) /\
    kvm (reverse gs ++ l) r xs s own fl s2 own2 fl2 /\
    Z.of_nat (length fl1) <= Z.of_nat (length fl2) + foldr (fun g c => region_cost g + c) 0 gs.
Proof.
  induction gs as [|g gs IH]; intros l s own fl s1 own1 fl1 V Hok Hdis Hlen Hpos; cbn [foldr] in *.
  { exists s1, own1, fl1. split; [done|]. split; [done|lia]. }
  apply Forall_cons in Hok as [Hg Hok], Hpos as [Hpg Hpos].
  assert (Hrest : 0 <= foldr (fun g c => region_cost g + c) 0 gs).
  { clear -Hpos. induction Hpos; cbn; lia. }
  destruct (kvmmap_kvm g l r xs s own fl s1 own1 fl1 env V Hg) as (s2 & own2 & fl2 & Hrun & V2 & Hl2); [|lia|].
  { intros va _ Hin. by apply (Hdis g [] gs va). }
  destruct (IH (g :: l) s own fl s2 own2 fl2 V2 Hok) as (s3 & own3 & fl3 & Hrun3 & V3 & Hl3); [|lia|done|].
  { intros g' l1 l2 va -> Hin. specialize (Hdis g' (g :: l1) l2 va eq_refl Hin).
    by rewrite reverse_cons, <- app_assoc in Hdis. }
  exists s3, own3, fl3. split; [|split; [|lia]].
  - unfold kvm_all. cbn [for_each]. by rewrite (run_bind _ _ _ tt (mkWorld s2 env)) by done.
  - by rewrite reverse_cons, <- app_assoc.
Qed.

Lemma kvm_fixed_eq r w : kvm_fixed r w = kvm_all r (reverse fixed_regions) w.
Proof.
  destruct etext_page as (n & Hn & Hb). pose proof (etext_pages n Hn) as (E1 & E2 & E3).
  unfold kvm_all, fixed_regions, reverse, kvm_fixed. cbn [rev_append for_each g_va g_pa g_n g_perm]. rewrite E2, E3.
  assert (H1 : ksym_etext - KERNBASE = n * PGSIZE) by lia.
  assert (H2 : PHYSTOP - ksym_etext = (32768 - n) * PGSIZE) by (unfold PHYSTOP, PGSIZE in *; lia).
  rewrite H1, H2, Z.mul_1_l. change (1024 * PGSIZE) with 0x400000. unfold mbind, M_bind.
  repeat match goal with |- context [match kvmmap ?a ?b ?c ?d ?e ?w with _ => _ end] => destruct (kvmmap a b c d e w) as [[] ?| |]; [|done..] end.
  done.
Qed.

Lemma fixed_run r s own fl s1 own1 fl1 env :
  kvm [] r [] s own fl s1 own1 fl1 -> 150 <= Z.of_nat (length fl1) ->
  exists s2 own2 fl2, kvm_fixed r (mkWorld s1 env) = Ok tt (mkWorld s2 env) /\
    kvm fixed_regions r [] s own fl s2 own2 fl2 /\ Z.of_nat (length fl1) <= Z.of_nat (length fl2) + 150.
Proof.
  intros V0 Hl0. destruct fixed_cost as [Hpos Hsum].
  destruct (kvm_all_run r [] env (reverse fixed_regions) [] s own fl s1 own1 fl1 V0)
    as (s2 & own2 & fl2 & Hrun & V & Hl); [..|lia|done|].
  - apply Forall_forall. intros g Hg. apply fixed_ok. by apply elem_of_reverse.
  - intros g l1 l2 va Heq Hin. rewrite app_nil_r. apply (fixed_apart g (reverse l1) (reverse l2)); [|done].
    rewrite <- (reverse_involutive fixed_regions), Heq, reverse_app, reverse_cons. by rewrite <- app_assoc.
  - exists s2, own2, fl2. rewrite kvm_fixed_eq. split; [done|]. rewrite reverse_involutive, app_nil_r in V.
    split; [done|lia].
Qed.

(** ** The kernel stacks *)

Lemma stack_regions_snoc pas pa : stack_regions (pas ++ [pa]) = stack_region (length pas) pa :: stack_regions pas.
Proof. unfold stack_regions. rewrite imap_app, reverse_app. cbn. by rewrite Nat.add_0_r. Qed.

Lemma stack_regions_pte pas va : (forall i, (i < length pas)%nat -> va / PGSIZE <> KSTACK (Z.of_nat i) / PGSIZE) ->
  region_pte (kernel_regions pas) va = region_pte fixed_regions va.
Proof.
  unfold kernel_regions. induction pas as [|pa pas IH] using rev_ind; intros H; [done|].
  rewrite stack_regions_snoc. cbn [app region_pte]. rewrite decide_False.
  - apply IH. intros i Hi. apply H. rewrite length_app. lia.
  - unfold in_region, stack_region. cbn [g_va g_n]. intros Hin. apply (H (length pas)); [rewrite length_app; cbn; lia|lia].
Qed.

Lemma stack_apart pas va : (length pas < NPROC)%nat ->
  in_region (stack_region (length pas) 0) va -> region_pte (kernel_regions pas) va = 0.
Proof.
  intros Hl Hin. unfold NPROC in Hl. unfold in_region, stack_region in Hin. cbn [g_va g_n] in Hin.
  destruct (kstack_page (Z.of_nat (length pas)) ltac:(lia)) as [Hk _]. rewrite Hk in Hin.
  rewrite stack_regions_pte.
  2:{ intros i Hi. rewrite (proj1 (kstack_page (Z.of_nat i) ltac:(lia))). lia. }
  destruct etext_page as (n & Hn & Hb). region_facts n Hn. repeat case_decide; lia.
Qed.

Lemma stack_ok i pa : (i < NPROC)%nat -> page_ok pa -> region_ok (stack_region i pa).
Proof.
  intros Hi [Hal Hpa]. unfold NPROC in Hi. destruct (kstack_page (Z.of_nat i) ltac:(lia)) as [Hk Hm].
  pose proof (Z.div_mod (KSTACK (Z.of_nat i)) PGSIZE ltac:(done)) as Hd. rewrite Hk, Hm in Hd.
  destruct Hks as [? ?]. unfold PHYSTOP, KERNBASE in *.
  split; cbn [g_va g_pa g_n g_perm stack_region]; [..|lia|apply RW_ok].
  - split; [done|]. change MAXVA with (2 ^ 38). unfold PGSIZE in *. lia.
  - split; [done|]. unfold PGSIZE in *. lia.
Qed.

Lemma stack_cost i pa : region_cost (stack_region i pa) = 2.
Proof. unfold region_cost, map_cost, stack_region. cbn [g_va g_n]. change (Z.to_nat (1 - 1)) with 0%nat. rewrite Z.add_0_r. lia. Qed.

(** The loop of [proc_mapstacks]. *)
Lemma stacks_run r env : forall m pas s own fl s1 own1 fl1,
  (length pas + m <= NPROC)%nat -> NoDup pas ->
  kvm (kernel_regions pas) r pas s own fl s1 own1 fl1 -> 3 * Z.of_nat m <= Z.of_nat (length fl1) ->
  exists pas' s2 own2 fl2,
    for_each (seq (length pas) m) (fun p =>
      pa ← kalloc;
      if pa =? 0 then panic "kalloc" else kvmmap r (KSTACK (Z.of_nat p)) pa PGSIZE RW) (mkWorld s1 env) =
      Ok tt (mkWorld s2 env) /\
    length pas' = (length pas + m)%nat /\ NoDup pas' /\ kvm (kernel_regions pas') r pas' s own fl s2 own2 fl2 /\
    Z.of_nat (length fl1) <= Z.of_nat (length fl2) + 3 * Z.of_nat m.
Proof.
  induction m as [|m IH]; intros pas s own fl s1 own1 fl1 Hm Hnd V Hlen.
  { exists pas, s1, own1, fl1. split; [done|]. split; [lia|]. split; [done|]. split; [done|lia]. }
  cbn [seq for_each]. pose proof V as [B Hr Hmo Hpte].
  destruct (kalloc_frame Hks s1 own1 fl1 env (bd_ok _ _ _ _ _ _ _ _ B)) as (x & s2 & fl2 & Hrun & Hmo2 & B2 & Hsp2 & Hx).
  destruct Hx as [[_ ->]|[Kx Hl2]]; [cbn in Hlen; lia|].
  assert (Hx0 : x <> 0) by (destruct Kx as [Hp _ _]; apply (page_ok_pos Hks) in Hp; lia).
  assert (Hf : frame x = [x]) by (unfold frame; by rewrite (proj2 (Z.eqb_neq x 0))).
  specialize (B2 r). rewrite Hf in B2.
  assert (V2 : kvm (kernel_regions pas) r (pas ++ [x]) s own fl s2 own1 fl2).
  { split; [by eapply builds_trans|done|by etrans|]. intros va Hva. rewrite <- Hpte by done. by apply (same_pte_of s1 own1). }
  assert (Hlt : (length pas < NPROC)%nat) by lia.
  destruct (kvmmap_kvm (stack_region (length pas) x) (kernel_regions pas) r (pas ++ [x]) s own fl s2 own1 fl2 env V2)
    as (s3 & own3 & fl3 & Hrun3 & V3 & Hl3).
  { apply stack_ok; [done|apply Kx]. } { intros va _ Hin. by apply stack_apart. } { rewrite stack_cost. lia. }
  rewrite stack_cost in Hl3.
  assert (Hk3 : stack_region (length pas) x :: kernel_regions pas = kernel_regions (pas ++ [x]))
    by (unfold kernel_regions; by rewrite stack_regions_snoc).
  rewrite Hk3 in V3.
  destruct (IH (pas ++ [x]) s own fl s3 own3 fl3) as (pas' & s4 & own4 & fl4 & Hrun4 & Hlen' & Hnd' & V4 & Hl4).
  - rewrite length_app. cbn. lia.
  - apply NoDup_app. split; [done|]. split; [|by apply NoDup_singleton].
    intros y Hy ->%list_elem_of_singleton. apply (bd_frames _ _ _ _ _ _ _ _ B) in Hy as (_ & Hy & _).
    apply Hy. by apply (bd_frames _ _ _ _ _ _ _ _ B2), list_elem_of_singleton.
  - done.
  - lia.
  - exists pas', s4, own4, fl4. rewrite length_app, Nat.add_1_r in Hrun4, Hlen'.
    split; [|split; [lia|split; [done|split; [done|lia]]]].
    rewrite (run_bind _ _ _ tt (mkWorld s3 env)); [exact Hrun4|].
    rewrite (run_bind _ _ _ x (mkWorld s2 env)) by done. rewrite (proj2 (Z.eqb_neq x 0)) by done. exact Hrun3.
Qed.

(** ** The whole page table *)

(** [kalloc] and the [memset] of [kvmmake] are [uvmcreate], when there is a page. *)
Lemma kvm_root {A} (k : Z -> K A) s own q fl env :
  vm_ok s own (q :: fl) ->
  (p ← kalloc; memM (fun m => memset m p 0 pgsize);; k p) (mkWorld s env) = (p ← uvmcreate; k p) (mkWorld s env).
Proof.
  intros Hok. destruct (take_page Hks s own fl q env Hok) as (s' & Hrun & _ & _ & _ & _ & _ & _ & _ & Hq0).
  unfold uvmcreate, mbind, M_bind. rewrite Hrun. by rewrite (proj2 (Z.eqb_neq q 0)) by lia.
Qed.

Lemma kvmmake_eq w : kvmmake w =
  (kpgtbl ← kalloc; memM (fun m => memset m kpgtbl 0 pgsize);; kvm_fixed kpgtbl;; proc_mapstacks kpgtbl;; mret kpgtbl) w.
Proof.
  unfold kvmmake, kvm_fixed, mbind, M_bind. destruct (kalloc w) as [r w1| |]; [|done..].
  destruct (memM _ w1) as [[] w2| |]; [|done..]. unfold RW, RX.
  repeat match goal with |- context [match kvmmap ?a ?b ?c ?d ?e ?w with _ => _ end] =>
    destruct (kvmmap a b c d e w) as [[] ?| |]; [|done..] end.
  done.
Qed.

Lemma kvmmake_run s own fl env :
  vm_ok s own fl -> 350 <= Z.of_nat (length fl) ->
  exists r pas s' own' fl', kvmmake (mkWorld s env) = Ok r (mkWorld s' env) /\ own !! r = None /\
    length pas = NPROC /\ NoDup pas /\ kvm (kernel_regions pas) r pas s own fl s' own' fl' /\
    Z.of_nat (length fl) <= Z.of_nat (length fl') + 343.
Proof.
  intros Hok Hlen. destruct fl as [|r fl]; [cbn in Hlen; lia|].
  destruct (uvmcreate_builds Hks s own r fl env Hok) as (s1 & Hrun1 & Hr0 & Hrn & B1 & Hmo1 & Hz1).
  rewrite kvmmake_eq, (kvm_root _ s own r fl env Hok), (run_bind _ _ _ r (mkWorld s1 env)) by done.
  assert (V1 : kvm [] r [] s own (r :: fl) s1 (<[r := OTable r 2 0]> own) fl).
  { split; [done| |done|by intros]. unfold is_root. apply lookup_insert_eq. }
  cbn [length] in *.
  destruct (fixed_run r s own (r :: fl) s1 _ fl env V1) as (s2 & own2 & fl2 & Hrun2 & V2 & Hl2); [lia|].
  rewrite (run_bind _ _ _ tt (mkWorld s2 env)) by done.
  destruct (stacks_run r env NPROC [] s own (r :: fl) s2 own2 fl2) as (pas & s3 & own3 & fl3 & Hrun3 & Hp3 & Hnd & V3 & Hl3).
  { done. } { apply NoDup_nil_2. } { exact V2. } { unfold NPROC. lia. }
  exists r, pas, s3, own3, fl3. split.
  { rewrite (run_bind _ _ _ tt (mkWorld s3 env)); [done|exact Hrun3]. }
  do 4 (split; [done|]). unfold NPROC in Hl3. lia.
Qed.

(** The entries of the table. *)
Lemma kernel_pte_ram pas va : KERNBASE <= va < PHYSTOP -> (length pas <= NPROC)%nat ->
  region_pte (kernel_regions pas) va = mk_pte (va / PGSIZE * PGSIZE) (if va <? ksym_etext then RX else RW).
Proof.
  intros Hva Hl. destruct etext_page as (n & Hn & Hb).
  assert (Hpg : 524288 <= va / PGSIZE < 557056).
  { change 524288 with (KERNBASE / PGSIZE). split; [apply Z.div_le_mono; [done|lia]|].
    apply Z.div_lt_upper_bound; [done|]. unfold PHYSTOP, KERNBASE, PGSIZE in *. lia. }
  assert (Hte : va / PGSIZE < 524288 + n <-> va < ksym_etext).
  { rewrite Hn. change KERNBASE with (524288 * PGSIZE). replace (524288 * PGSIZE + n * PGSIZE) with ((524288 + n) * PGSIZE) by lia.
    split; intros H.
    - pose proof (Z.div_mod va PGSIZE ltac:(done)). pose proof (Z.mod_pos_bound va PGSIZE ltac:(done)). unfold PGSIZE in *. lia.
    - apply Z.div_lt_upper_bound; [done|lia]. }
  rewrite stack_regions_pte.
  2:{ intros i Hi. unfold NPROC in Hl. rewrite (proj1 (kstack_page (Z.of_nat i) ltac:(lia))). lia. }
  region_facts n Hn. destruct (Z.ltb_spec va ksym_etext); repeat case_decide; try lia;
    f_equal; rewrite ?(proj1 (etext_pages n Hn)), ?Hn; change (KERNBASE / PGSIZE) with 524288; unfold KERNBASE, PGSIZE; lia.
Qed.

Lemma stack_regions_lookup pas i pa va : (length pas <= NPROC)%nat -> pas !! i = Some pa ->
  va / PGSIZE = KSTACK (Z.of_nat i) / PGSIZE -> region_pte (kernel_regions pas) va = mk_pte pa RW.
Proof.
  unfold kernel_regions. induction pas as [|x pas IH] using rev_ind; intros Hl Hi Hva; [done|].
  rewrite length_app in Hl. cbn in Hl. unfold NPROC in *. rewrite stack_regions_snoc. cbn [app region_pte].
  assert (Hlt : (i <= length pas)%nat) by (apply lookup_lt_Some in Hi; rewrite length_app in Hi; cbn in Hi; lia).
  pose proof (kstack_page (Z.of_nat i) ltac:(lia)) as [K1 _].
  pose proof (kstack_page (Z.of_nat (length pas)) ltac:(lia)) as [K2 _].
  destruct (decide (i = length pas)) as [->|Hne].
  - rewrite lookup_app_r, Nat.sub_diag in Hi by lia. injection Hi as ->.
    unfold in_region, stack_region. cbn [g_va g_n g_pa g_perm]. rewrite decide_True by lia. f_equal. rewrite Hva. lia.
  - rewrite lookup_app_l in Hi by lia. unfold in_region, stack_region. cbn [g_va g_n g_pa g_perm].
    rewrite decide_False by lia. apply IH; [lia|done|done].
Qed.

(** The page below a stack is not mapped. *)
Lemma guard_page pas i va : length pas = NPROC -> (i < NPROC)%nat ->
  va / PGSIZE = KSTACK (Z.of_nat i) / PGSIZE - 1 -> region_pte (kernel_regions pas) va = 0.
Proof.
  intros Hl Hi Hva. unfold NPROC in *. pose proof (kstack_page (Z.of_nat i) ltac:(lia)) as [K1 _].
  rewrite stack_regions_pte.
  - destruct etext_page as (n & Hn & Hb). region_facts n Hn. repeat case_decide; lia.
  - intros j Hj. rewrite (proj1 (kstack_page (Z.of_nat j) ltac:(lia))). lia.
Qed.

(** User code reaches no page through this table. *)
Lemma region_pte_kernel l va : Forall region_ok l -> has (region_pte l va) PTE_U = false.
Proof.
  induction 1 as [|g l Hg Hl IH]; [by rewrite has_0|]. cbn [region_pte]. destruct (decide (in_region g va)) as [Hin|]; [|done].
  destruct Hg as [(H1 & H2 & H3) (H4 & H5 & H6) H7 (H8 & H9 & H10)]. unfold in_region in Hin.
  rewrite has_U_mk_pte; try done. unfold PGSIZE in *. lia.
Qed.

Lemma kernel_regions_ok pas : (length pas <= NPROC)%nat -> Forall page_ok pas -> Forall region_ok (kernel_regions pas).
Proof.
  intros Hl Hp. apply Forall_app. split; [|apply Forall_forall, fixed_ok].
  apply Forall_forall. intros g Hg. unfold stack_regions in Hg. rewrite elem_of_reverse in Hg.
  apply elem_of_lookup_imap_1 in Hg as (i & pa & -> & Hpa).
  apply stack_ok; [apply lookup_lt_Some in Hpa; lia|]. by eapply Forall_lookup_1 in Hp.
Qed.

(** What is mapped is either writable or executable, and only for the kernel. *)
Lemma region_flags l va : Forall region_ok l -> Forall (fun g => g_perm g = RW \/ g_perm g = RX) l ->
  region_pte l va = 0 \/ PTE_FLAGS (region_pte l va) = Z.lor RW PTE_V \/ PTE_FLAGS (region_pte l va) = Z.lor RX PTE_V.
Proof.
  induction l as [|g l IH]; [by left|]. rewrite !Forall_cons. intros [Hg Hl] [Hp Hps]. cbn [region_pte].
  destruct (decide (in_region g va)) as [Hin|]; [|by apply IH]. right.
  destruct Hg as [(H1 & H2 & H3) (H4 & H5 & H6) H7 (H8 & H9 & H10)]. unfold in_region in Hin.
  rewrite PTE_FLAGS_mk_pte; try done; [destruct Hp as [-> | ->]; [by left|by right]|unfold PGSIZE in *; lia].
Qed.

Lemma kernel_perms pas : Forall (fun g => g_perm g = RW \/ g_perm g = RX) (kernel_regions pas).
Proof.
  apply Forall_app. split; [|unfold fixed_regions; rewrite !Forall_cons; repeat split; by (left + right)].
  apply Forall_forall. intros g Hg. unfold stack_regions in Hg.
  rewrite elem_of_reverse in Hg. apply elem_of_lookup_imap_1 in Hg as (i & pa & -> & _). by left.
Qed.

Lemma page_of_range p n va : p mod PGSIZE = 0 -> p <= va < p + n * PGSIZE -> p / PGSIZE <= va / PGSIZE < p / PGSIZE + n.
Proof.
  intros Hp Hva. pose proof (Z.div_mod p PGSIZE ltac:(done)). pose proof (Z.div_mod va PGSIZE ltac:(done)).
  pose proof (Z.mod_pos_bound va PGSIZE ltac:(done)). unfold PGSIZE in *. lia.
Qed.

(** The devices and the trampoline, away from the stacks. *)
Lemma kernel_pte_fixed pas va : (length pas <= NPROC)%nat ->
  (va / PGSIZE < 67108735 \/ va / PGSIZE = 67108863) ->
  region_pte (kernel_regions pas) va = region_pte fixed_regions va.
Proof.
  intros Hl Hva. unfold NPROC in *. apply stack_regions_pte.
  intros j Hj. rewrite (proj1 (kstack_page (Z.of_nat j) ltac:(lia))). lia.
Qed.

(** The address space of the kernel, by its page table entries. *)
Record kernel_space (pte : Z -> Z) (pas : list Z) : Prop := {
  ks_ram va : KERNBASE <= va < PHYSTOP ->
    pte va = mk_pte (va / PGSIZE * PGSIZE) (if va <? ksym_etext then RX else RW);
  ks_devices va : UART0 <= va < UART0 + PGSIZE \/ VIRTIO0 <= va < VIRTIO0 + PGSIZE \/ PLIC <= va < PLIC + 0x400000 ->
    pte va = mk_pte (va / PGSIZE * PGSIZE) RW;
  ks_trampoline va : TRAMPOLINE <= va < MAXVA -> pte va = mk_pte ksym_trampoline RX;
  ks_stack i pa va : pas !! i = Some pa ->
    KSTACK (Z.of_nat i) <= va < KSTACK (Z.of_nat i) + PGSIZE -> pte va = mk_pte pa RW;
  ks_guard i va : (i < NPROC)%nat -> KSTACK (Z.of_nat i) - PGSIZE <= va < KSTACK (Z.of_nat i) -> pte va = 0;
  ks_null va : 0 <= va < PLIC -> pte va = 0;
  ks_flags va : 0 <= va < MAXVA -> pte va = 0 \/ PTE_FLAGS (pte va) = Z.lor RW PTE_V \/ PTE_FLAGS (pte va) = Z.lor RX PTE_V
}.

Lemma kernel_regions_space pas : length pas = NPROC -> Forall page_ok pas ->
  kernel_space (region_pte (kernel_regions pas)) pas.
Proof.
  intros Hl Hp. destruct etext_page as (n & Hn & Hb). split.
  - intros va Hva. apply kernel_pte_ram; [done|lia].
  - intros va Hva.
    assert (Hpg : 65536 <= va / PGSIZE < 65538 \/ 49152 <= va / PGSIZE < 50176).
    { destruct Hva as [Hva|[Hva|Hva]]; [left|left|right].
      - pose proof (page_of_range UART0 1 va ltac:(done) ltac:(lia)). change (UART0 / PGSIZE) with 65536 in *. lia.
      - pose proof (page_of_range VIRTIO0 1 va ltac:(done) ltac:(lia)). change (VIRTIO0 / PGSIZE) with 65537 in *. lia.
      - pose proof (page_of_range PLIC 1024 va ltac:(done) ltac:(unfold PGSIZE; lia)). change (PLIC / PGSIZE) with 49152 in *. lia. }
    rewrite kernel_pte_fixed by lia. clear Hva. region_facts n Hn. repeat case_decide; try lia;
      f_equal; unfold UART0, VIRTIO0, PLIC, PGSIZE in *; lia.
  - intros va Hva. assert (Hpg : va / PGSIZE = 67108863).
    { pose proof (page_of_range TRAMPOLINE 1 va ltac:(done) ltac:(unfold TRAMPOLINE in *; lia)).
      change (TRAMPOLINE / PGSIZE) with 67108863 in *. lia. }
    rewrite kernel_pte_fixed by lia. region_facts n Hn. repeat case_decide; try lia. f_equal. lia.
  - intros i pa va Hi Hva. apply (stack_regions_lookup pas i); [lia|done|].
    pose proof (lookup_lt_Some _ _ _ Hi). unfold NPROC in Hl.
    pose proof (page_of_range (KSTACK (Z.of_nat i)) 1 va (proj2 (kstack_page (Z.of_nat i) ltac:(lia))) ltac:(lia)). lia.
  - intros i va Hi Hva. apply (guard_page pas i); [done|done|].
    pose proof (kstack_page (Z.of_nat i) ltac:(unfold NPROC in *; lia)) as [K1 K2].
    assert (K3 : (KSTACK (Z.of_nat i) - PGSIZE) mod PGSIZE = 0) by (rewrite Zminus_mod, K2; done).
    pose proof (page_of_range _ 1 va K3 ltac:(lia)) as Hpg.
    replace (KSTACK (Z.of_nat i) - PGSIZE) with (KSTACK (Z.of_nat i) + (-1) * PGSIZE) in Hpg by lia.
    rewrite Z.div_add in Hpg by done. lia.
  - intros va Hva. assert (Hpg : 0 <= va / PGSIZE < 49152).
    { pose proof (page_of_range 0 49152 va ltac:(done) ltac:(unfold PLIC, PGSIZE in *; lia)) as H. change (0 / PGSIZE) with 0 in H. lia. }
    rewrite kernel_pte_fixed by lia. region_facts n Hn. repeat case_decide; lia.
  - intros va _. apply region_flags; [apply kernel_regions_ok; [lia|done]|apply kernel_perms].
Qed.

Lemma builds_kernel_pages r xs s own fl s' own' fl' :
  vm_ok s own fl -> builds r xs s own fl s' own' fl' -> Forall (kernel_page own' fl') xs.
Proof.
  intros Hok B. apply Forall_forall. intros x Hx. destruct (bd_frames _ _ _ _ _ _ _ _ B x Hx) as (Hin & Hni & Hno). split; [|done..].
  destruct (avail_ok _ _ (vo_avail _ _ _ Hok)) as [Hall _]. rewrite Forall_forall in Hall. by apply Hall.
Qed.

Lemma kernel_space_ext pte pte' pas : length pas = NPROC -> (forall va, 0 <= va < MAXVA -> pte va = pte' va) ->
  kernel_space pte' pas -> kernel_space pte pas.
Proof.
  intros Hl E [H1 H2 H3 H4 H5 H6 H7].
  assert (HK : forall i, (i < NPROC)%nat -> PGSIZE <= KSTACK (Z.of_nat i) /\ KSTACK (Z.of_nat i) + PGSIZE <= MAXVA).
  { intros i Hi. unfold KSTACK, TRAMPOLINE, NPROC, PGSIZE in *. change MAXVA with (2 ^ 38). lia. }
  assert (HM : PHYSTOP < MAXVA /\ KERNBASE < MAXVA /\ 0 <= TRAMPOLINE) by (by vm_compute).
  split; intros *.
  - intros Hva. rewrite E by (unfold KERNBASE in *; lia). by apply H1.
  - intros Hva. rewrite E by (unfold UART0, VIRTIO0, PLIC, KERNBASE, PGSIZE in *; lia). by apply H2.
  - intros Hva. rewrite E by lia. by apply H3.
  - intros Hi Hva. pose proof (lookup_lt_Some _ _ _ Hi). specialize (HK i ltac:(lia)).
    rewrite E by (unfold PGSIZE in *; lia). by apply (H4 i).
  - intros Hi Hva. specialize (HK i Hi). rewrite E by (unfold PGSIZE in *; lia). by apply (H5 i).
  - intros Hva. rewrite E by (unfold PLIC, KERNBASE in *; lia). by apply H6.
  - intros Hva. rewrite E by done. by apply H7.
Qed.

(** C5: The address space of the kernel. With 350 free pages [kvmmake] returns, having taken at
    most 343 of them, with a page table in which RAM and the devices are mapped at their own
    addresses, the kernel's text without permission to write and everything else without
    permission to execute; the trampoline is at the top; each process has a stack, on a
    page nothing else uses, with an unmapped page below it; null pointers are not mapped,
    and no page at all is accessible to user code.  Every other address space is as
    before. *)
Theorem kernel_address_space s own fl env :
  vm_ok s own fl -> 350 <= Z.of_nat (length fl) ->
  exists r pas s' own' fl', kvmmake (mkWorld s env) = Ok r (mkWorld s' env) /\ vm_ok s' own' fl' /\
    Z.of_nat (length fl) <= Z.of_nat (length fl') + 343 /\
    is_root own' r /\ length pas = NPROC /\ NoDup pas /\ Forall (kernel_page own' fl') pas /\
    kernel_space (pte_of (k_mem s') r) pas /\
    forall r' va, is_root own r' -> 0 <= va < MAXVA -> pte_of (k_mem s') r' va = pte_of (k_mem s) r' va.
Proof.
  intros Hok Hlen. destruct (kvmmake_run s own fl env Hok Hlen) as (r & pas & s' & own' & fl' & Hrun & Hr & Hp & Hnd & [B Hroot Hmo Hpte] & Hl).
  assert (Hk : Forall (kernel_page own' fl') pas) by (by eapply builds_kernel_pages).
  exists r, pas, s', own', fl'. split; [done|]. split; [apply B|]. do 5 (split; [done|]). split.
  - apply (kernel_space_ext _ (region_pte (kernel_regions pas))); [done|done|]. apply kernel_regions_space; [done|].
    eapply Forall_impl; [exact Hk|]. by intros x [? _ _].
  - intros r' va Hr' Hva. eapply bd_pte; [exact B|intros ->; unfold is_root in Hr'; congruence|done|done].
Qed.

End KernelMap.

(** A machine with 512 pages behind the kernel. *)
Definition demo_machine : KSyms := {|
  ksym_end := PHYSTOP - 512 * PGSIZE;
  ksym_etext := KERNBASE + 0x8000;
  ksym_trampoline := KERNBASE + 0x7000;
  ksym_uservec := KERNBASE + 0x7000;
  ksym_userret := KERNBASE + 0x7090;
  ksym_kernelvec := KERNBASE + 0x5000;
  ksym_forkret := KERNBASE + 0x1a00;
  ksym_usertrap := KERNBASE + 0x2800;
  sigret_code := [0x93; 0x08; 0x80; 0x01; 0x73; 0x00; 0x00; 0x00]
|}.

Lemma demo_machine_ok : ksyms_ok demo_machine.
Proof. by vm_compute. Qed.

Lemma demo_machine_image : @image_ok demo_machine.
Proof. by split. Qed.

Definition demo_machine_allocator : @PageAllocator demo_machine (@kalloc) (@kfree demo_machine) := kalloc_allocator demo_machine_ok.

Lemma kernel_address_space_witness : exists s r pas s', @kvmmake demo_machine (mkWorld s []) = Ok r (mkWorld s' []) /\
  length pas = NPROC /\ @kernel_space demo_machine (pte_of (k_mem s') r) pas.
Proof.
  destruct (kinit_run demo_machine_ok kst0 []) as (s & Hrun & Hfl & Hmo).
  { split; [done|]. split; [done|]. apply NoDup_nil_2. }
  { apply not_elem_of_nil. }
  assert (Hok : @vm_ok demo_machine demo_machine_allocator s ∅ (reverse (@range_pages (PGROUNDUP (@ksym_end demo_machine)) (page_count (@ksym_end demo_machine) PHYSTOP)))).
  { split; [split; intros *; rewrite lookup_empty; done|exact Hfl|intros p _; apply lookup_empty|].
    rewrite (mem_only_held _ _ Hmo). apply not_elem_of_nil. }
  destruct (kernel_address_space demo_machine_ok demo_machine_image s ∅ _ [] Hok) as (r & pas & s' & own & fl & H1 & _ & _ & _ & H2 & _ & _ & H3 & _).
  { by vm_compute. }
  exists s, r, pas, s'. split; [exact H1|]. split; [exact H2|exact H3].
Defined.
