(* ===== verification/Signal.v ===== *)
(** * Signals (kernel/proc.c: kill, sigprocmask .. userSpaceHandler)

    A signal sent with [kill] is recorded in the target's [pendingSignals] word
    (SIGKILL apart, which sets [killed]).  [signalHandler] runs on the way back to
    user mode and deals with the pending, unblocked signals: default actions in the
    kernel, user handlers by rewriting the trapframe so that the process resumes in
    the handler, with the code of [sigret_func_start] pushed on its stack as the
    handler's return address. *)

From stdpp Require Import base gmap list strings.
From Stdlib Require Import ZArith Lia.
From S2P Require Import Prelude Riscv Memory State Spinlock Sched Kalloc Vm PageTable UserMem Uvm Demo Bio Log Fs Console Pipe File Proc.

(** [1 << i] as an unsigned 32-bit mask. *)
Definition sigbit (i : Z) : Z := Z.shiftl 1 i.

(** Record signal [signum] in process [p] ([p->lock] held). *)
Definition kill_one (p : nat) (signum : Z) : K unit :=
  if signum =? SIGKILL then
    proc_upd p (set_p_killed 1);;
    pr ← proc_of p;
    when (bool_decide (p_state pr = SLEEPING)) (proc_upd p (set_p_state RUNNABLE))
  else
    proc_upd p (fun x => set_p_pendingSignals (Z.lor (p_pendingSignals x) (sigbit signum)) x).

(** Send signal [signum] to the process with the given pid. *)
Definition kill (pid signum : Z) : K Z :=
  if (signum <? 0) || (32 <=? signum) then mret (-1) else
  r ← for_until proc_slots (fun p =>
    acquire (LProc p);;
    pr ← proc_of p;
    if p_pid pr =? pid then
      kill_one p signum;;
      release (LProc p);;
      mret (Some 0)
    else
      release (LProc p);;
      mret None);
  mret (default (-1) r).

Definition sigprocmask (sigmask : Z) : K Z :=
  p ← curproc;
  pr ← proc_of p;
  proc_upd p (set_p_signalMask sigmask);;
  mret (p_signalMask pr).

(** [struct sigaction] { void *sa_handler; uint sigmask; }: 16 bytes, the last four of
    them padding. *)
Definition SIZEOF_SIGACTION : nat := 16.
Definition sa_handler (l : list Z) : Z := le_combine (take 8 l).
Definition sa_sigmask (l : list Z) : Z := le_combine (take 4 (drop 8 l)).

(** The kernel memory behind the last element of a [sigMaskArray] ([struct proc]'s
    padding and the start of the next object), as 12 bytes; the arrays being read with
    [sizeof(struct sigaction)], [sigaction] can look at it. *)
Class SlotTail : Type := slot_tail : kst -> nat -> list Z.

Section Signal.
Context {KS : KSyms} {ST : SlotTail}.

(** The 16 bytes of kernel memory at [&p->signalHandlers[signum]]: two elements, the
    field after the array being [backupTrapframe]. *)
Definition handlers_at (pr : proc) (signum : nat) : list Z :=
  take SIZEOF_SIGACTION
    (drop (8 * signum)
      (mjoin (le_split 8 <$> p_signalHandlers pr) ++ le_split 8 (p_backupTrapframe pr))).

(** The 16 bytes at [&p->sigMaskArray[signum]]: four elements. *)
Definition masks_at (s : kst) (p : nat) (signum : nat) : list Z :=
  take SIZEOF_SIGACTION
    (drop (4 * signum)
      (mjoin (le_split 4 <$> p_sigMaskArray (get_proc p s)) ++ slot_tail s p)).

(** Install a handler for [signum]; [act] and [oldact] are user addresses. *)
Definition sigaction (signum act oldact : Z) : K Z :=
  if (signum =? SIGKILL) || (signum =? SIGSTOP) || (signum <? 0) || (32 <=? signum)
  then mret (-1) else
  let i := Z.to_nat signum in
  p ← curproc;
  pr ← proc_of p;
  tempAct ← copyin (p_pagetable pr) act SIZEOF_SIGACTION;
  if negb (fst tempAct =? 0) then mret (-1) else
  e ← (if negb (oldact =? 0) then
         pr ← proc_of p;
         e1 ← copyout (p_pagetable pr) oldact (handlers_at pr i);
         if negb (e1 =? 0) then mret true else
         bs ← kgets (fun s => masks_at s p i);
         e2 ← copyout (p_pagetable pr) (u64 (oldact + 8)) bs;
         mret (negb (e2 =? 0))
       else mret false);
  if e : bool then mret (-1) else
  proc_upd p (fun x => set_p_signalHandlers
    (<[i := sa_handler (snd tempAct)]> (p_signalHandlers x)) x);;
  proc_upd p (fun x => set_p_sigMaskArray
    (<[i := sa_sigmask (snd tempAct)]> (p_sigMaskArray x)) x);;
  mret 0.

(** [memmove] between two trapframe pages; address 0 is not mapped in the kernel. *)
Definition tf_move (dst src : Z) : K unit :=
  if (dst =? 0) || (src =? 0) then panic "kerneltrap"
  else memM (fun m => memmove m dst src TF_SIZE).

Definition sigret : K unit :=
  p ← myproc;
  match p with
  | None => mret tt
  | Some p =>
      pr ← proc_of p;
      tf_move (p_trapframe pr) (p_backupTrapframe pr);;
      proc_upd p (set_p_signalMask (p_backupSigMask pr))
  end.

Definition sigkillHandler : K unit :=
  p ← curproc; proc_upd p (set_p_killed 1).

(** [while(p->frozen)]: each turn gives up the CPU once, so a schedule of [n] elements
    allows at most [n] turns. *)
Fixpoint frozen_loop (fuel : nat) (p : nat) : K unit :=
  match fuel with
  | O => block
  | S fuel =>
      pr ← proc_of p;
      if p_frozen pr =? 0 then mret tt
      else if negb (Z.land (p_pendingSignals pr) (sigbit SIGKILL) =? 0) then
        proc_upd p (set_p_killed 1)
      else yield;; frozen_loop fuel p
  end.

Definition sigstopHandler : K unit :=
  p ← curproc;
  proc_upd p (set_p_frozen 1);;
  fuel ← gets (fun w => S (length (w_env w)));
  frozen_loop fuel p.

Definition sigcontHandler : K unit :=
  p ← curproc;
  pr ← proc_of p;
  when (p_frozen pr =? 1) (proc_upd p (set_p_frozen 0)).

Definition userSpaceHandler (p : nat) (signum : nat) : K unit :=
  pr ← proc_of p;
  if negb (p_sigHandlerFlag pr =? 0) then mret tt else
  proc_upd p (set_p_sigHandlerFlag 1);;
  acquire (LProc p);;
  tf_move (p_backupTrapframe pr) (p_trapframe pr);;
  sp ← tf_get p TF_sp;
  tf_set p TF_sp (u64 (sp - Z.of_nat (length sigret_code)));;
  sp ← tf_get p TF_sp;
  e ← copyout (p_pagetable pr) sp sigret_code;
  when (negb (e =? 0)) (printf ("faild in copyout " +:+ newline) []);;
  sp ← tf_get p TF_sp;
  tf_set p TF_ra sp;;
  tf_set p TF_a0 (Z.of_nat signum);;
  proc_upd p (fun x => set_p_backupSigMask (p_signalMask x) x);;
  proc_upd p (fun x => set_p_signalMask (p_sigMaskArray x !!! signum) x);;
  pr ← proc_of p;
  tf_set p TF_epc (p_signalHandlers pr !!! signum);;
  proc_upd p (fun x => set_p_pendingSignals
    (Z.land (p_pendingSignals x) (Z.lnot (sigbit (Z.of_nat signum)))) x);;
  release (LProc p).

(** The default action of signal [i]. *)
Definition default_action (i : Z) : K unit :=
  if i =? SIGKILL then sigkillHandler
  else if i =? SIGSTOP then sigstopHandler
  else if i =? SIGCONT then sigcontHandler
  else sigkillHandler.

(** Can signal [i] be delivered: pending and not blocked? *)
Definition deliverable (pr : proc) (i : Z) : bool :=
  negb (Z.land (sigbit i) (p_pendingSignals pr) =? 0)
  && (Z.land (sigbit i) (p_signalMask pr) =? 0).

(** The body of [signalHandler]'s loop. *)
Definition signal_one (p : nat) (i : nat) : K unit :=
  pr ← proc_of p;
  when (deliverable pr (Z.of_nat i)) (
    if p_signalHandlers pr !!! i =? SIG_IGN then mret tt
    else if p_signalHandlers pr !!! i =? SIG_DFL then
      default_action (Z.of_nat i);;
      proc_upd p (fun x => set_p_pendingSignals
        (Z.land (p_pendingSignals x) (Z.lnot (sigbit (Z.of_nat i)))) x)
    else
      proc_upd p (fun x => set_p_backupSigMask (p_signalMask x) x);;
      userSpaceHandler p i).

Definition signalHandler : K unit :=
  p ← myproc;
  match p with
  | None => mret tt
  | Some p =>
      pr ← proc_of p;
      if p_sigHandlerFlag pr =? 1 then mret tt
      else for_each (seq 0 32) (signal_one p)
  end.

End Signal.

(** ** Delivering a signal to a user handler *)

Lemma tf_get_run p f s env :
  tf_get p f (mkWorld s env) = Ok (ld64 (k_mem s) (p_trapframe (get_proc p s) + f)) (mkWorld s env).
Proof. done. Qed.

Lemma tf_set_run p f v s env :
  tf_set p f v (mkWorld s env)
  = Ok tt (mkWorld (set_k_mem (st64 (k_mem s) (p_trapframe (get_proc p s) + f) v) s) env).
Proof. done. Qed.

Section Delivery.
Context {KS : KSyms} (Hks : ksyms_ok KS) `{PA : !PageAllocator kalloc kfree}.

(** A process on the CPU with its trapframe pages. *)
Record frames (s : kst) (own : gmap Z owner) (fl : list Z) (p : nat) (r tf bk : Z) : Prop := {
  fr_cur : k_cur s = Some p;
  fr_slot : (p < length (k_procs s))%nat;
  fr_pt : p_pagetable (get_proc p s) = r;
  fr_tf : p_trapframe (get_proc p s) = tf;
  fr_bk : p_backupTrapframe (get_proc p s) = bk;
  fr_vm : vm_ok s own fl;
  fr_root : is_root own r;
  fr_tf_page : kernel_page own fl tf;
  fr_bk_page : kernel_page own fl bk;
  fr_ne : tf <> bk
}.

Lemma tf_move_run dst src s env : dst <> 0 -> src <> 0 ->
  tf_move dst src (mkWorld s env) = Ok tt (mkWorld (set_k_mem (memmove (k_mem s) dst src TF_SIZE) s) env).
Proof.
  intros H1 H2. unfold tf_move. rewrite (proj2 (Z.eqb_neq dst 0)), (proj2 (Z.eqb_neq src 0)) by done. done.
Qed.

Lemma kernel_page_pos own fl k : kernel_page own fl k -> k <> 0.
Proof. intros [H _ _]. apply (page_ok_pos Hks) in H. lia. Qed.

Lemma memmove_outside m dst src : outside_same dst m (memmove m dst src TF_SIZE).
Proof.
  intros a Ha. rewrite ld8_memmove. change (Z.of_nat TF_SIZE) with 288. unfold PGSIZE in Ha.
  destruct (Z.leb_spec dst a), (Z.ltb_spec a (dst + 288)); cbn [andb]; (reflexivity || lia).
Qed.

(** The process structure after delivery of [signum]. *)
Definition sig_masks (signum : nat) (x : proc) : proc :=
  set_p_pendingSignals (Z.land (p_pendingSignals x) (Z.lnot (sigbit (Z.of_nat signum))))
 (set_p_signalMask (p_sigMaskArray x !!! signum)
 (set_p_backupSigMask (p_signalMask x) x)).
Definition sig_proc (signum : nat) (x : proc) : proc := sig_masks signum (set_p_sigHandlerFlag 1 x).

(** The trapframe after delivery: the process resumes in the handler, with the signal
    number as its argument, its stack pointer below the code that calls [sigret], and its
    return address there. *)
Definition sig_field (m : mem) (tf : Z) (signum : nat) (handler off : Z) : Z :=
  let sp := u64 (ld64 m (tf + TF_sp) - Z.of_nat (length sigret_code)) in
  if off =? TF_sp then sp
  else if off =? TF_ra then sp
  else if off =? TF_a0 then Z.of_nat signum
  else if off =? TF_epc then u64 handler
  else ld64 m (tf + off).

Record delivered (own : gmap Z owner) (fl : list Z) (p signum : nat) (r tf bk : Z) (k : nat)
    (s s1 : kst) : Prop := {
  dl_frames : frames s1 own fl p r tf bk;
  dl_procs : k_procs s1 = alter (sig_proc signum) p (k_procs s);
  dl_held : k_held s1 = k_held s;
  dl_regs off : 0 <= off -> off + 8 <= Z.of_nat TF_SIZE -> off mod 8 = 0 ->
    ld64 (k_mem s1) (tf + off)
    = sig_field (k_mem s) tf signum (p_signalHandlers (get_proc p s) !!! signum) off;
  dl_backup i : 0 <= i < Z.of_nat TF_SIZE -> ld8 (k_mem s1) (bk + i) = ld8 (k_mem s) (tf + i);
  dl_user r' va : is_root own r' -> 0 <= va -> user_byte (k_mem s1) r' va =
    let sp := u64 (ld64 (k_mem s) (tf + TF_sp) - Z.of_nat (length sigret_code)) in
    if decide (r' = r /\ sp <= va < sp + Z.of_nat k)
    then Some (u8 (nth (Z.to_nat (va - sp)) sigret_code 0)) else user_byte (k_mem s) r' va
}.

(** The part of [userSpaceHandler] after the code has been pushed. *)
Definition sig_regs (p signum : nat) : K unit :=
  sp ← tf_get p TF_sp;
  tf_set p TF_ra sp;;
  tf_set p TF_a0 (Z.of_nat signum);;
  proc_upd p (fun x => set_p_backupSigMask (p_signalMask x) x);;
  proc_upd p (fun x => set_p_signalMask (p_sigMaskArray x !!! signum) x);;
  pr ← proc_of p;
  tf_set p TF_epc (p_signalHandlers pr !!! signum);;
  proc_upd p (fun x => set_p_pendingSignals
    (Z.land (p_pendingSignals x) (Z.lnot (sigbit (Z.of_nat signum)))) x);;
  release (LProc p).

(** The stores of [sig_regs] into the trapframe at [tf]. *)
Definition sig_stores (m : mem) (tf : Z) (signum : nat) (handler : Z) : mem :=
  st64 (st64 (st64 m (tf + TF_ra) (ld64 m (tf + TF_sp))) (tf + TF_a0) (Z.of_nat signum)) (tf + TF_epc) handler.

Lemma sig_regs_run p signum s h env :
  (p < length (k_procs s))%nat -> k_held s = LProc p :: h ->
  sig_regs p signum (mkWorld s env) = Ok tt (mkWorld
    (set_k_held h (upd_proc p (sig_masks signum)
      (set_k_mem (sig_stores (k_mem s) (p_trapframe (get_proc p s)) signum
        (p_signalHandlers (get_proc p s) !!! signum)) s))) env).
Proof.
  intros Hp Hh. unfold sig_regs. set (tf := p_trapframe (get_proc p s)).
  rewrite (run_bind _ _ _ _ _ (tf_get_run p TF_sp s env)). fold tf.
  rewrite (run_bind _ _ _ _ _ (tf_set_run p TF_ra _ s env)). fold tf.
  set (m1 := st64 (k_mem s) (tf + TF_ra) _).
  rewrite (run_bind _ _ _ _ _ (tf_set_run p TF_a0 _ (set_k_mem m1 s) env)).
  change (get_proc p (set_k_mem m1 s)) with (get_proc p s). fold tf.
  set (m2 := st64 m1 (tf + TF_a0) (Z.of_nat signum)).
  change (set_k_mem _ (set_k_mem m1 s)) with (set_k_mem m2 s).
  set (f x := set_p_signalMask (p_sigMaskArray x !!! signum) (set_p_backupSigMask (p_signalMask x) x)).
  set (s3 := upd_proc p f (set_k_mem m2 s)).
  rewrite (run_bind _ _ _ tt (mkWorld (upd_proc p (fun x => set_p_backupSigMask (p_signalMask x) x) (set_k_mem m2 s)) env)) by done.
  rewrite (run_bind _ _ _ tt (mkWorld s3 env)).
  2:{ unfold proc_upd, kmodify, modify. cbn [w_ks w_env]. rewrite upd_proc_twice. done. }
  rewrite (run_bind _ _ _ (get_proc p s3) (mkWorld s3 env)) by done.
  assert (Hg : get_proc p s3 = f (get_proc p s)) by (unfold s3; by rewrite get_upd_proc).
  rewrite Hg. change (p_signalHandlers (f (get_proc p s))) with (p_signalHandlers (get_proc p s)).
  rewrite (run_bind _ _ _ _ _ (tf_set_run p TF_epc _ s3 env)).
  rewrite Hg. change (p_trapframe (f (get_proc p s))) with tf.
  set (m4 := st64 _ (tf + TF_epc) _).
  set (s5 := upd_proc p (sig_masks signum) (set_k_mem m4 s)).
  rewrite (run_bind _ _ _ tt (mkWorld s5 env)).
  2:{ unfold proc_upd, kmodify, modify. cbn [w_ks w_env]. do 2 f_equal. unfold s5, s3.
      transitivity (upd_proc p ((fun x => set_p_pendingSignals
        (Z.land (p_pendingSignals x) (Z.lnot (sigbit (Z.of_nat signum)))) x) ∘ f) (set_k_mem m4 s)); [|done].
      rewrite <- upd_proc_twice. kst_eq. }
  rewrite (release_run (LProc p) h (mkWorld s5 env)) by done. done.
Qed.

Lemma field_st64 m a b off v : off mod 8 = 0 -> b mod 8 = 0 ->
  ld64 (st64 m (a + b) v) (a + off) = if off =? b then u64 v else ld64 m (a + off).
Proof.
  intros H1 H2. destruct (Z.eqb_spec off b) as [->|Hne]; [apply ld64_st64_eq|].
  apply ld64_st64_ne. Z.div_mod_to_equations. lia.
Qed.

Lemma sig_stores_field m tf signum handler off : off mod 8 = 0 -> (signum < 32)%nat ->
  ld64 (sig_stores m tf signum handler) (tf + off) =
  if off =? TF_epc then u64 handler
  else if off =? TF_a0 then Z.of_nat signum
  else if off =? TF_ra then ld64 m (tf + TF_sp)
  else ld64 m (tf + off).
Proof.
  intros Hoff Hs. unfold sig_stores. rewrite !field_st64 by done.
  assert (H1 : u64 (Z.of_nat signum) = Z.of_nat signum) by (unfold u64; apply Z.mod_small; lia).
  assert (H2 : u64 (ld64 m (tf + TF_sp)) = ld64 m (tf + TF_sp)) by (unfold u64; apply Z.mod_small, ld64_range).
  by rewrite H1, H2.
Qed.

Lemma st64_outside m k off v : 0 <= off -> off + 8 <= PGSIZE -> outside_same k m (st64 m (k + off) v).
Proof. apply outside_same_st64. Qed.

Lemma sig_stores_outside m tf signum handler : outside_same tf m (sig_stores m tf signum handler).
Proof.
  unfold sig_stores. repeat (eapply outside_same_trans; [|apply st64_outside; vm_compute; congruence]).
  apply outside_same_refl.
Qed.

(** The first half of [userSpaceHandler]: the trapframe is saved and the code that calls
    [sigret] is pushed on the user stack. *)
Lemma sig_push_run p signum r tf bk s own fl env :
  frames s own fl p r tf bk -> p_sigHandlerFlag (get_proc p s) = 0 -> LProc p ∉ k_held s ->
  panicked (k_uart s) = false -> (k_pr_locking s <> 0 -> LPr ∉ k_held s) ->
  let sp := u64 (ld64 (k_mem s) (tf + TF_sp) - Z.of_nat (length sigret_code)) in
  let sd := set_k_mem (st64 (memmove (k_mem s) bk tf TF_SIZE) (tf + TF_sp) sp)
    (set_k_held (LProc p :: k_held s) (upd_proc p (set_p_sigHandlerFlag 1) s)) in
  exists k se out, userSpaceHandler p signum (mkWorld s env) = sig_regs p signum (mkWorld (sent out se) env) /\
    stored own fl r sp (take k sigret_code) sd se /\
    (k = length sigret_code \/ (k < length sigret_code)%nat /\ translate (k_mem sd) r (sp + Z.of_nat k) = None).
Proof.
  intros Hfr Hflag Hl Hpan Hlk sp sd. destruct Hfr as [Hcur Hp Hpt Htf Hbk Hvm Hr Ktf Kbk Hne].
  pose proof (kernel_page_pos _ _ _ Ktf) as Htf0. pose proof (kernel_page_pos _ _ _ Kbk) as Hbk0.
  set (sa := upd_proc p (set_p_sigHandlerFlag 1) s). set (sb := set_k_held (LProc p :: k_held s) sa).
  set (mc := memmove (k_mem s) bk tf TF_SIZE).
  assert (Hga : get_proc p sa = set_p_sigHandlerFlag 1 (get_proc p s)) by (unfold sa; by rewrite get_upd_proc).
  assert (Hgd : p_trapframe (get_proc p sd) = tf).
  { change (get_proc p sd) with (get_proc p sa). by rewrite Hga. }
  assert (Hvb : vm_ok sb own fl).
  { apply (vm_ok_frame s); [done..| |done]. cbn. apply not_elem_of_cons. split; [done|apply Hvm]. }
  assert (Hvd : vm_ok sd own fl).
  { destruct (vm_ok_kernel sb mc own fl bk Hvb Kbk) as [Hvc _]; [apply memmove_outside|].
    destruct (vm_ok_kernel _ (st64 mc (tf + TF_sp) sp) own fl tf Hvc Ktf) as [Hvd _]; [|done].
    apply st64_outside; by vm_compute. }
  assert (Hspd : ld64 (k_mem sd) (tf + TF_sp) = sp).
  { unfold sd. cbn [k_mem set_k_mem]. rewrite ld64_st64_eq. unfold sp, u64. by rewrite Z.mod_mod. }
  assert (Hsp0 : 0 <= sp) by (apply Z.mod_pos_bound; lia).
  destruct (copyout_fuel_spec Hks r own fl env (length sigret_code) sp sigret_code sd)
    as (e & k & se & Hrun & Hst & He); [done..|].
  assert (Hdone : (exists out, (when (negb (e =? 0)) (printf ("faild in copyout " +:+ newline) [])) (mkWorld se env)
    = Ok tt (mkWorld (sent out se) env)) /\ (k = length sigret_code \/
      (k < length sigret_code)%nat /\ translate (k_mem sd) r (sp + Z.of_nat k) = None)).
  { destruct He as [[-> ->]|(-> & Hk & Ht)].
    - split; [|by left]. exists []. cbn. by rewrite sent_nil.
    - split; [|by right]. eexists. cbn [negb Z.eqb when]. apply printf_run.
      + destruct (sd_mem Hst) as (hd & m & ->). done.
      + destruct (sd_mem Hst) as (hd & m & ->). intros Hlocking. cbn. apply not_elem_of_cons.
        split; [done|by apply Hlk]. }
  destruct Hdone as [[out Hout] Hend]. exists k, se, out. split; [|done].
  unfold userSpaceHandler. rewrite (run_bind _ _ _ (get_proc p s) (mkWorld s env)) by done.
  rewrite Hflag. cbn [Z.eqb negb]. rewrite (run_bind _ _ _ tt (mkWorld sa env)) by done.
  rewrite (run_bind _ _ _ tt _ (acquire_run (LProc p) (mkWorld sa env) Hl)). cbn [w_ks w_env].
  change (set_k_held (LProc p :: k_held sa) sa) with sb. rewrite Hbk, Htf.
  rewrite (run_bind _ _ _ tt _ (tf_move_run bk tf sb env Hbk0 Htf0)). change (k_mem sb) with (k_mem s). fold mc.
  rewrite (run_bind _ _ _ _ _ (tf_get_run p TF_sp (set_k_mem mc sb) env)).
  change (get_proc p (set_k_mem mc sb)) with (get_proc p sa). rewrite Hga.
  change (p_trapframe (set_p_sigHandlerFlag 1 (get_proc p s))) with (p_trapframe (get_proc p s)). rewrite Htf.
  assert (Hspc : ld64 mc (tf + TF_sp) = ld64 (k_mem s) (tf + TF_sp)).
  { apply (same_page_ld64 (k_mem s) mc tf TF_sp); [|by vm_compute..].
    apply (kernel_same_page (k_mem s) mc own fl bk tf Kbk); [apply Ktf|done|apply memmove_outside]. }
  change (k_mem (set_k_mem mc sb)) with mc. rewrite Hspc.
  rewrite (run_bind _ _ _ _ _ (tf_set_run p TF_sp _ (set_k_mem mc sb) env)).
  change (get_proc p (set_k_mem mc sb)) with (get_proc p sa). rewrite Hga.
  change (p_trapframe (set_p_sigHandlerFlag 1 (get_proc p s))) with (p_trapframe (get_proc p s)). rewrite Htf.
  change (set_k_mem _ (set_k_mem mc sb)) with sd.
  rewrite (run_bind _ _ _ _ _ (tf_get_run p TF_sp sd env)). rewrite Hgd, Hspd, Hpt.
  unfold copyout. rewrite (run_bind _ _ _ _ _ Hrun). rewrite (run_bind _ _ _ _ _ Hout). unfold sig_regs. reflexivity.
Qed.

Lemma nth_take_lt (l : list Z) (k i : nat) d : (i < k)%nat -> nth i (take k l) d = nth i l d.
Proof.
  revert k i. induction l as [|x l IH]; intros [|k] [|i] H; try lia; cbn; [done..|]. apply IH. lia.
Qed.

(** The trapframe and its backup once [sig_regs] has run, [mc] being memory after the
    backup was taken and [me] memory after the code was pushed. *)
Lemma sig_pushed_regs m mc me tf signum handler off :
  let sp := u64 (ld64 m (tf + TF_sp) - Z.of_nat (length sigret_code)) in
  same_page m mc tf -> same_page (st64 mc (tf + TF_sp) sp) me tf -> (signum < 32)%nat ->
  0 <= off -> off + 8 <= Z.of_nat TF_SIZE -> off mod 8 = 0 ->
  ld64 (sig_stores me tf signum handler) (tf + off) = sig_field m tf signum handler off.
Proof.
  intros sp Hmc Ptf Hsig H1 H2 H3. rewrite sig_stores_field by done. unfold sig_field. fold sp.
  assert (H4 : off + 8 <= PGSIZE) by (change (Z.of_nat TF_SIZE) with 288 in H2; unfold PGSIZE; lia).
  rewrite (same_page_ld64 _ _ tf off Ptf), (same_page_ld64 _ _ tf TF_sp Ptf) by first [done|by vm_compute].
  rewrite !field_st64 by done. rewrite (same_page_ld64 _ _ tf off Hmc) by done.
  assert (Hsp : u64 sp = sp) by (unfold sp, u64; by rewrite Z.mod_mod). rewrite Hsp. cbn [Z.eqb TF_sp].
  destruct (Z.eqb_spec off TF_sp) as [->|_]; [done|]. destruct (Z.eqb_spec off TF_ra) as [->|_]; [done|].
  destruct (Z.eqb_spec off TF_a0) as [->|_]; [done|]. by destruct (Z.eqb_spec off TF_epc).
Qed.

Lemma sig_pushed_backup own fl m me tf bk sp signum handler i :
  kernel_page own fl tf -> kernel_page own fl bk -> tf <> bk -> 0 <= i < Z.of_nat TF_SIZE ->
  same_page (st64 (memmove m bk tf TF_SIZE) (tf + TF_sp) sp) me bk ->
  ld8 (sig_stores me tf signum handler) (bk + i) = ld8 m (tf + i).
Proof.
  intros Ktf Kbk Hne Hi Pbk. set (mc := memmove m bk tf TF_SIZE) in *.
  assert (Hi' : bk <= bk + i < bk + PGSIZE) by (change (Z.of_nat TF_SIZE) with 288 in Hi; unfold PGSIZE; lia).
  assert (P1 : same_page me (sig_stores me tf signum handler) bk).
  { apply (kernel_same_page _ _ own fl tf bk Ktf); [apply Kbk|done|apply sig_stores_outside]. }
  assert (P2 : same_page mc (st64 mc (tf + TF_sp) sp) bk).
  { apply (kernel_same_page _ _ own fl tf bk Ktf); [apply Kbk|done|]. apply st64_outside; by vm_compute. }
  rewrite (P1 _ Hi'), (Pbk _ Hi'), (P2 _ Hi'). unfold mc. rewrite ld8_memmove.
  destruct (Z.leb_spec bk (bk + i)), (Z.ltb_spec (bk + i) (bk + Z.of_nat TF_SIZE)); try lia.
  cbn [andb]. f_equal. lia.
Qed.

(** The state [sig_push_run] ends in, seen from the state it started in. *)
Lemma sig_pushed p signum r tf bk s own fl k se out :
  frames s own fl p r tf bk -> (signum < 32)%nat -> LProc p ∉ k_held s -> (k <= length sigret_code)%nat ->
  let sp := u64 (ld64 (k_mem s) (tf + TF_sp) - Z.of_nat (length sigret_code)) in
  stored own fl r sp (take k sigret_code)
    (set_k_mem (st64 (memmove (k_mem s) bk tf TF_SIZE) (tf + TF_sp) sp)
      (set_k_held (LProc p :: k_held s) (upd_proc p (set_p_sigHandlerFlag 1) s))) se ->
  delivered own fl p signum r tf bk k s
    (set_k_held (k_held s) (upd_proc p (sig_masks signum)
      (set_k_mem (sig_stores (k_mem se) tf signum (p_signalHandlers (get_proc p s) !!! signum)) (sent out se)))).
Proof.
  intros [Hcur Hp Hpt Htf Hbk Hvm Hr Ktf Kbk Hne] Hsig Hl Hk sp Hst.
  set (handler := p_signalHandlers (get_proc p s) !!! signum). set (mf := sig_stores (k_mem se) tf signum handler).
  pose proof (sig_stores_outside (k_mem se) tf signum handler) as Hout. fold mf in Hout.
  destruct (vm_ok_kernel se mf own fl tf (sd_ok Hst) Ktf Hout) as [Hvf Hub].
  pose proof (stored_kernel _ _ _ _ _ _ _ _ Hst Ktf) as Ptf.
  pose proof (stored_kernel _ _ _ _ _ _ _ _ Hst Kbk) as Pbk.
  pose proof (sd_wrote Hst) as Hwr. destruct (sd_mem Hst) as (hd & me & Hse).
  set (mc := memmove (k_mem s) bk tf TF_SIZE) in *. cbn [k_mem set_k_mem] in Ptf, Pbk, Hwr.
  assert (Hmc : same_page (k_mem s) mc tf).
  { apply (kernel_same_page (k_mem s) mc own fl bk tf Kbk); [apply Ktf|done|apply memmove_outside]. }
  assert (Hd : outside_same tf mc (st64 mc (tf + TF_sp) sp)) by (apply st64_outside; by vm_compute).
  assert (Hubd : forall r' va, is_root own r' -> 0 <= va ->
    user_byte (st64 mc (tf + TF_sp) sp) r' va = user_byte (k_mem s) r' va).
  { intros r' va Hr' Hva. destruct (vm_ok_kernel s mc own fl bk Hvm Kbk) as [Hvc Hub1]; [apply memmove_outside|].
    destruct (vm_ok_kernel _ _ own fl tf Hvc Ktf Hd) as [_ Hub2].
    etransitivity; [apply (Hub2 r' va Hr' Hva)|apply (Hub1 r' va Hr' Hva)]. }
  assert (Hprocs : k_procs (upd_proc p (sig_masks signum) (set_k_mem mf (sent out se)))
    = alter (sig_proc signum) p (k_procs s)).
  { rewrite Hse. cbn. apply (f_equal k_procs (upd_proc_twice p (sig_masks signum) (set_p_sigHandlerFlag 1) s)). }
  assert (Hget : get_proc p (upd_proc p (sig_masks signum) (set_k_mem mf (sent out se)))
    = sig_proc signum (get_proc p s)).
  { rewrite get_upd_proc by (rewrite Hse; cbn; by rewrite length_alter). rewrite Hse.
    change (get_proc p _) with (get_proc p (upd_proc p (set_p_sigHandlerFlag 1) s)) at 1.
    by rewrite get_upd_proc. }
  split.
  - split; [rewrite Hse; exact Hcur|rewrite Hse; cbn; by rewrite !length_alter| | | | |done..].
    + change (p_pagetable (get_proc p (upd_proc p (sig_masks signum) (set_k_mem mf (sent out se)))) = r). by rewrite Hget.
    + change (p_trapframe (get_proc p (upd_proc p (sig_masks signum) (set_k_mem mf (sent out se)))) = tf). by rewrite Hget.
    + change (p_backupTrapframe (get_proc p (upd_proc p (sig_masks signum) (set_k_mem mf (sent out se)))) = bk). by rewrite Hget.
    + apply (vm_ok_frame (set_k_mem mf se)); [done|done|cbn; apply Hvm|done].
  - exact Hprocs.
  - reflexivity.
  - intros off H1 H2 H3. by apply (sig_pushed_regs (k_mem s) mc).
  - intros i Hi. by apply (sig_pushed_backup own fl (k_mem s) (k_mem se) tf bk sp).
  - intros r' va Hr' Hva. etransitivity; [exact (proj2 (Hub r' va Hr' Hva))|].
    rewrite (Hwr r' va Hr' Hva), length_take, (Nat.min_l _ _ Hk), (Hubd r' va Hr' Hva). cbv zeta. fold sp.
    destruct (decide _) as [[_ Hin]|_]; [|done]. f_equal. f_equal. apply nth_take_lt. lia.
Qed.

(** What [userSpaceHandler] needs besides the trapframe pages: no signal being handled,
    and the locks it takes free. *)
Record can_deliver (s : kst) (p : nat) : Prop := {
  cd_flag : p_sigHandlerFlag (get_proc p s) = 0;
  cd_lock : LProc p ∉ k_held s;
  cd_print : panicked (k_uart s) = false;
  cd_pr : k_pr_locking s <> 0 -> LPr ∉ k_held s
}.

Lemma deliver_run p signum r tf bk s own fl env :
  frames s own fl p r tf bk -> can_deliver s p -> (signum < 32)%nat ->
  let sp := u64 (ld64 (k_mem s) (tf + TF_sp) - Z.of_nat (length sigret_code)) in
  exists k s1, userSpaceHandler p signum (mkWorld s env) = Ok tt (mkWorld s1 env) /\
    delivered own fl p signum r tf bk k s s1 /\
    (k = length sigret_code \/
     (k < length sigret_code)%nat /\ translate (k_mem s) r (sp + Z.of_nat k) = None).
Proof.
  intros Hfr [Hflag Hl Hpan Hpr] Hsig sp.
  destruct (sig_push_run p signum r tf bk s own fl env Hfr Hflag Hl Hpan Hpr) as (k & se & out & Hrun & Hst & Hk).
  assert (Hkle : (k <= length sigret_code)%nat) by (destruct Hk as [->|[Hk _]]; lia).
  pose proof (sig_pushed p signum r tf bk s own fl k se out Hfr Hsig Hl Hkle Hst) as Hdl.
  destruct (sd_mem Hst) as (hd & me & Hse). destruct Hfr as [Hcur Hp Hpt Htf Hbk Hvm Hr Ktf Kbk Hne].
  assert (Hget : get_proc p (sent out se) = set_p_sigHandlerFlag 1 (get_proc p s)).
  { rewrite Hse. change (get_proc p _) with (get_proc p (upd_proc p (set_p_sigHandlerFlag 1) s)) at 1.
    by rewrite get_upd_proc. }
  eexists k, _. split; [|split; [exact Hdl|]].
  - rewrite Hrun, (sig_regs_run p signum (sent out se) (k_held s)).
    + rewrite Hget. cbn [p_trapframe p_signalHandlers set_p_sigHandlerFlag]. rewrite Htf. done.
    + rewrite Hse. cbn. by rewrite length_alter.
    + rewrite Hse. done.
  - destruct Hk as [->|[Hk Ht]]; [by left|right]. split; [done|]. rewrite <- Ht. symmetry.
    destruct (vm_ok_kernel s (memmove (k_mem s) bk tf TF_SIZE) own fl bk Hvm Kbk) as [Hvc Hub1]; [apply memmove_outside|].
    destruct (vm_ok_kernel _ (st64 (memmove (k_mem s) bk tf TF_SIZE) (tf + TF_sp) sp) own fl tf Hvc Ktf) as [_ Hub2];
      [by apply st64_outside; vm_compute|].
    assert (Hva : 0 <= sp + Z.of_nat k) by (pose proof (Z.mod_pos_bound (ld64 (k_mem s) (tf + TF_sp) - Z.of_nat (length sigret_code)) (2 ^ 64)); unfold sp, u64; lia).
    etransitivity; [apply (Hub2 r _ Hr Hva)|apply (Hub1 r _ Hr Hva)].
Qed.

End Delivery.

(** ** Returning from a handler *)

Lemma sigret_run p s env :
  k_cur s = Some p -> p_trapframe (get_proc p s) <> 0 -> p_backupTrapframe (get_proc p s) <> 0 ->
  sigret (mkWorld s env) = Ok tt (mkWorld
    (upd_proc p (set_p_signalMask (p_backupSigMask (get_proc p s)))
      (set_k_mem (memmove (k_mem s) (p_trapframe (get_proc p s)) (p_backupTrapframe (get_proc p s)) TF_SIZE) s)) env).
Proof.
  intros Hcur H1 H2. unfold sigret. rewrite (run_bind _ _ _ (Some p) (mkWorld s env)).
  2:{ unfold myproc, kgets, gets. cbn [w_ks]. by rewrite Hcur. }
  rewrite (run_bind _ _ _ (get_proc p s) (mkWorld s env)) by done.
  by rewrite (run_bind _ _ _ _ _ (tf_move_run _ _ s env H1 H2)).
Qed.

(** A later state in which process [p] is running and its backup is as it was in [s1]. *)
Record backup_kept (p : nat) (tf bk : Z) (s1 s2 : kst) : Prop := {
  bp_cur : k_cur s2 = Some p;
  bp_slot : (p < length (k_procs s2))%nat;
  bp_tf : p_trapframe (get_proc p s2) = tf;
  bp_bk : p_backupTrapframe (get_proc p s2) = bk;
  bp_mask : p_backupSigMask (get_proc p s2) = p_backupSigMask (get_proc p s1);
  bp_mem i : 0 <= i < Z.of_nat TF_SIZE -> ld8 (k_mem s2) (bk + i) = ld8 (k_mem s1) (bk + i)
}.

Lemma backup_kept_sigret p tf bk s1 s2 env : tf <> 0 -> bk <> 0 -> backup_kept p tf bk s1 s2 ->
  exists s3, sigret (mkWorld s2 env) = Ok tt (mkWorld s3 env) /\
    (forall i, 0 <= i < Z.of_nat TF_SIZE -> ld8 (k_mem s3) (tf + i) = ld8 (k_mem s1) (bk + i)) /\
    outside_same tf (k_mem s2) (k_mem s3) /\ k_cur s3 = Some p /\
    get_proc p s3 = set_p_signalMask (p_backupSigMask (get_proc p s1)) (get_proc p s2).
Proof.
  intros H1 H2 [Hcur Hp Htf Hbk Hmask Hmem]. eexists. split; [apply sigret_run; [done|congruence..]|].
  rewrite Htf, Hbk, Hmask. split; [|split; [apply memmove_outside|split; [done|]]].
  - intros i Hi. cbn [k_mem set_k_mem set_k_procs upd_proc]. rewrite ld8_memmove.
    destruct (Z.leb_spec tf (tf + i)), (Z.ltb_spec (tf + i) (tf + Z.of_nat TF_SIZE)); try lia.
    cbn [andb]. rewrite <- Hmem by done. f_equal. lia.
  - rewrite get_upd_proc by done. done.
Qed.

(** ** kill *)

(** What sending [signum] does to the target. *)
Definition signalled (signum : Z) (x : proc) : proc :=
  if signum =? SIGKILL then
    let x := set_p_killed 1 x in
    if bool_decide (p_state x = SLEEPING) then set_p_state RUNNABLE x else x
  else set_p_pendingSignals (Z.lor (p_pendingSignals x) (sigbit signum)) x.

(** The first slot whose process has the given pid. *)
Definition pid_slot (pid : Z) (s : kst) : option nat :=
  first_slot (fun p => p_pid (get_proc p s) =? pid) NPROC.

Lemma kill_one_run p signum s env : (p < length (k_procs s))%nat ->
  kill_one p signum (mkWorld s env) = Ok tt (mkWorld (upd_proc p (signalled signum) s) env).
Proof.
  intros Hp. unfold kill_one. destruct (signum =? SIGKILL) eqn:Hsig.
  2:{ unfold proc_upd, kmodify, modify. cbn [w_ks w_env]. do 2 f_equal. apply upd_proc_get_ext.
      unfold signalled. by rewrite Hsig. }
  rewrite (run_bind _ _ _ tt (mkWorld (upd_proc p (set_p_killed 1) s) env)) by done.
  rewrite (run_bind _ _ _ (set_p_killed 1 (get_proc p s)) (mkWorld (upd_proc p (set_p_killed 1) s) env)).
  2:{ unfold proc_of, kgets, gets. cbn [w_ks]. by rewrite get_upd_proc. }
  destruct (bool_decide _) eqn:Hst; cbn [when].
  - unfold proc_upd, kmodify, modify. cbn [w_ks w_env]. rewrite upd_proc_twice. do 2 f_equal.
    apply upd_proc_get_ext. unfold signalled. rewrite Hsig. cbn zeta. by rewrite Hst.
  - unfold mret, M_ret. do 2 f_equal. apply upd_proc_get_ext. unfold signalled. rewrite Hsig. cbn zeta. by rewrite Hst.
Qed.

Lemma kill_run pid signum s env :
  length (k_procs s) = NPROC -> (forall p, LProc p ∉ k_held s) -> 0 <= signum < 32 ->
  kill pid signum (mkWorld s env) =
  match pid_slot pid s with
  | Some p => Ok 0 (mkWorld (upd_proc p (signalled signum) s) env)
  | None => Ok (-1) (mkWorld s env)
  end.
Proof.
  intros Hlen Hl Hsig. unfold kill.
  destruct (Z.ltb_spec signum 0), (Z.leb_spec 32 signum); try lia. cbn [orb].
  match goal with |- context [for_until _ ?f] => set (body := f) end.
  assert (Hacq : forall p (k : unit -> K (option Z)), (acquire (LProc p) ≫= k) (mkWorld s env)
    = k tt (mkWorld (set_k_held (LProc p :: k_held s) s) env)).
  { intros p k. by rewrite (run_bind _ _ _ tt _ (acquire_run (LProc p) (mkWorld s env) (Hl p))). }
  assert (Hskip : forall p, (p_pid (get_proc p s) =? pid) = false ->
    body p (mkWorld s env) = Ok None (mkWorld s env)).
  { intros p Hp. unfold body. rewrite Hacq.
    rewrite (run_bind _ _ _ (get_proc p s) (mkWorld (set_k_held (LProc p :: k_held s) s) env)) by done.
    rewrite Hp. rewrite (run_bind _ _ _ tt (mkWorld s env)); [done|].
    rewrite (release_run (LProc p) (k_held s)) by done. cbn [w_ks w_env]. do 2 f_equal. kst_eq. }
  unfold pid_slot, first_slot. destruct (List.find _ (seq 0 NPROC)) as [p|] eqn:Hf.
  - rewrite (run_bind _ _ _ (Some 0) (mkWorld (upd_proc p (signalled signum) s) env)); [done|].
    eapply (for_until_found _ (fun p => p_pid (get_proc p s) =? pid)); [exact Hskip|exact Hf| |done].
    apply find_seq_Some in Hf as (Hp & Hpid & _). unfold body. rewrite Hacq.
    rewrite (run_bind _ _ _ (get_proc p s) (mkWorld (set_k_held (LProc p :: k_held s) s) env)) by done.
    rewrite Hpid. rewrite (run_bind _ _ _ tt _ (kill_one_run p signum (set_k_held (LProc p :: k_held s) s) env ltac:(cbn; lia))).
    rewrite (run_bind _ _ _ tt (mkWorld (upd_proc p (signalled signum) s) env)); [done|].
    rewrite (release_run (LProc p) (k_held s)) by done. cbn [w_ks w_env]. done.
  - rewrite (run_bind _ _ _ None (mkWorld s env)); [done|].
    by apply (for_until_not_found _ (fun p => p_pid (get_proc p s) =? pid)).
Qed.

(** ** Stopped processes *)

(** [kill(pid, signum)] called by another process. *)
Definition kill_by (pid signum : Z) (s : kst) : kst :=
  match kill pid signum (mkWorld s []) with
  | Ok _ w | Panic _ w | Blocked w => w_ks w
  end.

(** [p] is stopped, and SIGKILL is not among its pending signals. *)
Record stopped (p : nat) (s : kst) : Prop := {
  sp_len : length (k_procs s) = NPROC;
  sp_frozen : p_frozen (get_proc p s) = 1;
  sp_bit : Z.testbit (p_pendingSignals (get_proc p s)) SIGKILL = false
}.

Lemma sigbit_testbit i j : 0 <= i -> 0 <= j -> Z.testbit (sigbit i) j = (i =? j).
Proof.
  intros Hi Hj. unfold sigbit. rewrite Z.shiftl_1_l.
  destruct (Z.eqb_spec i j) as [->|Hne]; [by apply Z.pow2_bits_true|by apply Z.pow2_bits_false].
Qed.

Lemma land_sigbit m i : 0 <= i -> (Z.land m (sigbit i) =? 0) = negb (Z.testbit m i).
Proof.
  intros Hi. destruct (Z.testbit m i) eqn:Hb; cbn [negb].
  - apply Z.eqb_neq. intros H. apply (f_equal (fun z => Z.testbit z i)) in H.
    rewrite Z.land_spec, Hb, sigbit_testbit, Z.eqb_refl, Z.bits_0 in H by done. done.
  - apply Z.eqb_eq, Z.bits_inj'. intros j Hj. rewrite Z.land_spec, sigbit_testbit, Z.bits_0 by done.
    destruct (Z.eqb_spec i j) as [->|_]; [by rewrite Hb|by rewrite andb_false_r].
Qed.

Lemma signalled_frozen signum x : p_frozen (signalled signum x) = p_frozen x.
Proof. unfold signalled. destruct (signum =? SIGKILL); [|done]. cbn. by destruct (bool_decide _). Qed.

Lemma signalled_bit signum x : 0 <= signum ->
  Z.testbit (p_pendingSignals (signalled signum x)) SIGKILL = Z.testbit (p_pendingSignals x) SIGKILL.
Proof.
  intros H. unfold signalled. destruct (Z.eqb_spec signum SIGKILL) as [->|Hne].
  - cbn. by destruct (bool_decide _).
  - cbn [p_pendingSignals set_p_pendingSignals]. rewrite Z.lor_spec, sigbit_testbit by done.
    rewrite (proj2 (Z.eqb_neq _ _) Hne). apply orb_false_r.
Qed.

Lemma kill_by_stopped pid signum p s : k_held s = [] -> stopped p s ->
  stopped p (kill_by pid signum s) /\ k_held (kill_by pid signum s) = [].
Proof.
  intros Hheld Hst. destruct (decide (0 <= signum < 32)) as [Hsig|Hsig].
  - unfold kill_by. rewrite kill_run; [|apply Hst|by rewrite Hheld; intros; apply not_elem_of_nil|done].
    destruct (pid_slot pid s) as [q|] eqn:Hq; [|done]. apply find_seq_Some in Hq as (Hq & _).
    destruct Hst as [Hlen Hf Hb]. cbn [w_ks]. split; [|done]. split.
    + cbn. by rewrite length_alter.
    + destruct (decide (q = p)) as [->|Hne]; [|by rewrite get_upd_proc_ne].
      rewrite get_upd_proc by (cbn; lia). by rewrite signalled_frozen.
    + destruct (decide (q = p)) as [->|Hne]; [|by rewrite get_upd_proc_ne].
      rewrite get_upd_proc by (cbn; lia). rewrite signalled_bit by lia. done.
  - unfold kill_by, kill.
    destruct (Z.ltb_spec signum 0), (Z.leb_spec 32 signum); cbn [orb]; [done..|lia].
Qed.

Lemma yield_run p s env :
  k_cur s = Some p -> k_held s = [] -> (p < length (k_procs s))%nat ->
  yield (mkWorld s env) =
  match until_runnable p env (set_k_cur None (upd_proc p (set_p_state RUNNABLE) s)) with
  | Some (s', rest) => Ok tt (mkWorld (set_k_held [] (set_k_intr (k_intr s) (resumed p s'))) rest)
  | None => Blocked (mkWorld (run_all env (set_k_cur None (upd_proc p (set_p_state RUNNABLE) s))) [])
  end.
Proof.
  intros Hcur Hheld Hp. unfold yield. rewrite (run_bind _ _ _ p (mkWorld s env)) by (by apply curproc_run).
  assert (Hnot : LProc p ∉ k_held s) by (rewrite Hheld; apply not_elem_of_nil).
  rewrite (run_bind _ _ _ tt _ (acquire_run (LProc p) (mkWorld s env) Hnot)). cbn [w_ks w_env]. rewrite Hheld.
  set (s2 := upd_proc p (set_p_state RUNNABLE) (set_k_held [LProc p] s)).
  rewrite (run_bind _ _ _ tt (mkWorld s2 env)) by done.
  assert (He : set_k_held [] (set_k_cur None s2) = set_k_cur None (upd_proc p (set_p_state RUNNABLE) s)).
  { unfold s2. rewrite <- Hheld. kst_eq. }
  assert (Hs : sched (mkWorld s2 env) = _) by (apply (sched_run p s2 env); [done|done|];
    unfold s2; by rewrite get_upd_proc).
  rewrite He in Hs. destruct (until_runnable p env _) as [[s' rest]|]; unfold mbind, M_bind; rewrite Hs; [|done].
  rewrite (release_run (LProc p) []) by done. done.
Qed.

(** What holds of the state while the others run. *)
Lemma until_runnable_inv (P : kst -> Prop) p env : forall s, P s ->
  Forall (fun e : kst -> kst => forall s, P s -> P (e s)) env ->
  match until_runnable p env s with
  | Some (s', rest) => P s' /\ Forall (fun e : kst -> kst => forall s, P s -> P (e s)) rest /\
      (length rest < length env)%nat
  | None => P (run_all env s)
  end.
Proof.
  induction env as [|e env IH]; intros s HP Henv; [done|].
  apply Forall_cons in Henv as [He Henv]. cbn [until_runnable].
  destruct (decide _); [split; [by apply He|split; [done|cbn; lia]]|].
  specialize (IH (e s) (He s HP) Henv). destruct (until_runnable p env (e s)) as [[s' rest]|]; [|done].
  destruct IH as (H1 & H2 & H3). cbn. by repeat split; [..|lia].
Qed.

(** [p] is stopped and nobody holds a lock. *)
Definition stopped_free (p : nat) (s : kst) : Prop := stopped p s /\ k_held s = [].

Lemma stopped_upd p f s s' : (p < NPROC)%nat -> k_procs s' = alter f p (k_procs s) ->
  (forall x, p_frozen (f x) = p_frozen x) -> (forall x, p_pendingSignals (f x) = p_pendingSignals x) ->
  stopped p s -> stopped p s'.
Proof.
  intros Hp Hs' H1 H2 [Hlen Hf Hb].
  assert (Hg : get_proc p s' = f (get_proc p s)).
  { unfold get_proc. rewrite Hs'. apply (get_upd_proc p f s). lia. }
  split; [by rewrite Hs', length_alter|by rewrite Hg, H1|by rewrite Hg, H2].
Qed.

(** The loop of [sigstopHandler] never ends while the other processes leave [p] stopped. *)
Lemma frozen_loop_stuck p : forall fuel env s, (p < NPROC)%nat -> k_cur s = Some p -> stopped_free p s ->
  Forall (fun e : kst -> kst => forall s, stopped_free p s -> stopped_free p (e s)) env ->
  exists s', frozen_loop fuel p (mkWorld s env) = Blocked s' /\ stopped p (w_ks s').
Proof.
  induction fuel as [|fuel IH]; intros env s Hp Hcur [Hst Hheld] Henv; [by eexists|].
  cbn [frozen_loop]. pose proof Hst as [Hlen Hf Hb].
  rewrite (run_bind _ _ _ (get_proc p s) (mkWorld s env)) by done. rewrite Hf. cbn [Z.eqb].
  rewrite land_sigbit, Hb by done. cbn [negb].
  assert (Hsa : stopped_free p (set_k_cur None (upd_proc p (set_p_state RUNNABLE) s))).
  { split; [|done]. by apply (stopped_upd p (set_p_state RUNNABLE) s). }
  pose proof (until_runnable_inv (stopped_free p) p env _ Hsa Henv) as Hu.
  pose proof (yield_run p s env Hcur Hheld ltac:(lia)) as Hy.
  destruct (until_runnable p env _) as [[s' rest]|]; unfold mbind, M_bind; rewrite Hy.
  - destruct Hu as ([Hs' _] & Hrest & _). apply IH; [done|done| |done]. split; [|done].
    by apply (stopped_upd p (set_p_state RUNNING) s').
  - eexists. split; [done|]. apply Hu.
Qed.

Lemma sigstop_stuck p s env : (p < NPROC)%nat -> k_cur s = Some p -> k_held s = [] ->
  length (k_procs s) = NPROC -> Z.testbit (p_pendingSignals (get_proc p s)) SIGKILL = false ->
  Forall (fun e : kst -> kst => forall s, stopped_free p s -> stopped_free p (e s)) env ->
  exists w', sigstopHandler (mkWorld s env) = Blocked w' /\ stopped p (w_ks w').
Proof.
  intros Hp Hcur Hheld Hlen Hb Henv. unfold sigstopHandler.
  rewrite (run_bind _ _ _ p (mkWorld s env)) by (by apply curproc_run).
  set (s1 := upd_proc p (set_p_frozen 1) s).
  rewrite (run_bind _ _ _ tt (mkWorld s1 env)) by done.
  rewrite (run_bind _ _ _ (S (length env)) (mkWorld s1 env)) by done.
  assert (Hg : get_proc p s1 = set_p_frozen 1 (get_proc p s)) by (apply get_upd_proc; lia).
  apply frozen_loop_stuck; [done|done| |done]. split; [|done]. split; [|by rewrite Hg..].
  unfold s1. by rewrite length_upd_proc.
Qed.

(** ** Default actions *)

(** Is signal [i] taken from [x]'s pending signals and given its default action? *)
Definition taken (x : proc) (i : nat) : bool :=
  deliverable x (Z.of_nat i) && (p_signalHandlers x !!! i =? SIG_DFL).

Definition acted (i : Z) (x : proc) : proc :=
  if i =? SIGCONT then (if p_frozen x =? 1 then set_p_frozen 0 x else x) else set_p_killed 1 x.

Definition handled (x : proc) (i : nat) : proc :=
  if taken x i then
    let x := acted (Z.of_nat i) x in
    set_p_pendingSignals (Z.land (p_pendingSignals x) (Z.lnot (sigbit (Z.of_nat i)))) x
  else x.

Lemma deliverable_bits x i : 0 <= i ->
  deliverable x i = Z.testbit (p_pendingSignals x) i && negb (Z.testbit (p_signalMask x) i).
Proof.
  intros Hi. unfold deliverable. rewrite !(Z.land_comm (sigbit i)), !land_sigbit by done.
  by rewrite negb_involutive.
Qed.

Lemma acted_fields i x : p_pendingSignals (acted i x) = p_pendingSignals x /\
  p_signalMask (acted i x) = p_signalMask x /\ p_signalHandlers (acted i x) = p_signalHandlers x.
Proof. unfold acted. destruct (i =? SIGCONT); [destruct (p_frozen x =? 1)|]; done. Qed.

Lemma handled_bit x i j : Z.testbit (p_pendingSignals (handled x i)) (Z.of_nat j) =
  Z.testbit (p_pendingSignals x) (Z.of_nat j) && negb ((i =? j)%nat && taken x i).
Proof.
  unfold handled. destruct (taken x i); [|by rewrite !andb_false_r, andb_true_r].
  cbn zeta. cbn [p_pendingSignals set_p_pendingSignals]. rewrite (proj1 (acted_fields _ x)).
  rewrite Z.land_spec, Z.lnot_spec, sigbit_testbit, andb_true_r by lia. f_equal. f_equal.
  destruct (Nat.eqb_spec i j), (Z.eqb_spec (Z.of_nat i) (Z.of_nat j)); lia.
Qed.

Lemma handled_taken x i j : i <> j -> taken (handled x i) j = taken x j.
Proof.
  intros Hne. unfold taken. rewrite !deliverable_bits, handled_bit by lia.
  rewrite (proj2 (Nat.eqb_neq i j) Hne). cbn [andb negb]. rewrite andb_true_r.
  unfold handled. destruct (taken x i); [|done]. destruct (acted_fields (Z.of_nat i) x) as (_ & H2 & H3).
  cbn zeta. cbn [p_signalMask p_signalHandlers set_p_pendingSignals]. by rewrite H2, H3.
Qed.

Lemma handled_all_bit l x j : NoDup l ->
  Z.testbit (p_pendingSignals (foldl handled x l)) (Z.of_nat j) =
  Z.testbit (p_pendingSignals x) (Z.of_nat j) && negb (bool_decide (j ∈ l) && taken x j).
Proof.
  revert x. induction l as [|i l IH]; intros x Hnd.
  { rewrite bool_decide_eq_false_2 by apply not_elem_of_nil. cbn. by rewrite andb_true_r. }
  apply NoDup_cons in Hnd as [Hi Hnd]. cbn [foldl]. rewrite IH, handled_bit by done.
  destruct (Nat.eqb_spec i j) as [->|Hne].
  - rewrite bool_decide_eq_false_2 by done. rewrite bool_decide_eq_true_2 by apply list_elem_of_here.
    cbn [andb negb]. by rewrite andb_true_r.
  - rewrite handled_taken by done. cbn [andb negb]. rewrite andb_true_r. do 3 f_equal.
    apply bool_decide_ext. rewrite elem_of_cons. split; [by right|by intros [?|?]].
Qed.

Lemma handled_killed x i : p_killed (handled x i) =
  if taken x i && negb (Z.of_nat i =? SIGCONT) then 1 else p_killed x.
Proof.
  unfold handled, acted. destruct (taken x i); [|done].
  destruct (Z.of_nat i =? SIGCONT); cbn; [by destruct (p_frozen x =? 1)|done].
Qed.

Lemma handled_all_killed l x : NoDup l -> p_killed (foldl handled x l) =
  if existsb (fun i => taken x i && negb (Z.of_nat i =? SIGCONT)) l then 1 else p_killed x.
Proof.
  revert x. induction l as [|i l IH]; intros x Hnd; [done|].
  apply NoDup_cons in Hnd as [Hi Hnd]. cbn [foldl existsb]. rewrite IH, handled_killed by done.
  assert (He : existsb (fun j => taken (handled x i) j && negb (Z.of_nat j =? SIGCONT)) l
    = existsb (fun j => taken x j && negb (Z.of_nat j =? SIGCONT)) l).
  { clear IH Hnd. induction l as [|j l IH]; [done|]. apply not_elem_of_cons in Hi as [Hne Hi].
    cbn [existsb]. rewrite handled_taken, IH by done. done. }
  rewrite He. generalize (existsb (fun j => taken x j && negb (Z.of_nat j =? SIGCONT)) l).
  by destruct (taken x i && negb (Z.of_nat i =? SIGCONT)); intros [].
Qed.

Lemma handled_frozen x i : p_frozen (handled x i) =
  if (i =? Z.to_nat SIGCONT)%nat && taken x i && (p_frozen x =? 1) then 0 else p_frozen x.
Proof.
  unfold handled, acted. destruct (taken x i); [|by rewrite andb_false_r].
  destruct (Nat.eqb_spec i (Z.to_nat SIGCONT)) as [->|Hne].
  - cbn. by destruct (p_frozen x =? 1) eqn:Hf; rewrite ?Hf.
  - rewrite (proj2 (Z.eqb_neq _ _)); [done|]. unfold SIGCONT in *. lia.
Qed.

Lemma handled_all_frozen l x : NoDup l -> p_frozen (foldl handled x l) =
  if bool_decide (Z.to_nat SIGCONT ∈ l) && taken x (Z.to_nat SIGCONT) && (p_frozen x =? 1)
  then 0 else p_frozen x.
Proof.
  revert x. induction l as [|i l IH]; intros x Hnd.
  { by rewrite bool_decide_eq_false_2 by apply not_elem_of_nil. }
  apply NoDup_cons in Hnd as [Hi Hnd]. cbn [foldl]. rewrite IH, handled_frozen by done.
  destruct (Nat.eqb_spec i (Z.to_nat SIGCONT)) as [->|Hne]; cbn [andb].
  - rewrite bool_decide_eq_false_2 by done. rewrite bool_decide_eq_true_2 by apply list_elem_of_here. done.
  - rewrite handled_taken by done. replace (bool_decide (Z.to_nat SIGCONT ∈ i :: l)) with (bool_decide (Z.to_nat SIGCONT ∈ l)); [done|].
    apply bool_decide_ext. rewrite elem_of_cons. split; [by right|by intros [?|?]].
Qed.

(** No handler of [x] is a user function, and SIGSTOP is not about to be handled. *)
Definition kernel_handled (x : proc) : Prop :=
  (forall i, (i < 32)%nat -> p_signalHandlers x !!! i = SIG_DFL \/ p_signalHandlers x !!! i = SIG_IGN) /\
  taken x (Z.to_nat SIGSTOP) = false.

Lemma kernel_handled_step x i : kernel_handled x -> i <> Z.to_nat SIGSTOP -> kernel_handled (handled x i).
Proof.
  intros [H1 H2] Hne. split; [|by rewrite handled_taken].
  intros j Hj. unfold handled. destruct (taken x i); [|by apply H1]. cbn zeta.
  cbn [p_signalHandlers set_p_pendingSignals]. rewrite (proj2 (proj2 (acted_fields _ x))). by apply H1.
Qed.

Lemma handled_stop x : kernel_handled x -> handled x (Z.to_nat SIGSTOP) = x.
Proof. intros [_ H]. unfold handled. by rewrite H. Qed.

Lemma default_action_run p i x s env :
  k_cur s = Some p -> (p < length (k_procs s))%nat -> get_proc p s = x -> i <> SIGSTOP ->
  default_action i (mkWorld s env) = Ok tt (mkWorld (upd_proc p (acted i) s) env).
Proof.
  intros Hcur Hp Hx Hne.
  assert (Hkill : i <> SIGCONT -> sigkillHandler (mkWorld s env) = Ok tt (mkWorld (upd_proc p (acted i) s) env)).
  { intros Hc. unfold sigkillHandler. rewrite (run_bind _ _ _ p (mkWorld s env)) by (by apply curproc_run).
    unfold proc_upd, kmodify, modify. cbn [w_ks w_env]. do 2 f_equal. apply upd_proc_get_ext.
    unfold acted. by rewrite (proj2 (Z.eqb_neq _ _) Hc). }
  unfold default_action. destruct (Z.eqb_spec i SIGKILL) as [->|_]; [by apply Hkill|].
  destruct (Z.eqb_spec i SIGSTOP) as [|_]; [done|]. destruct (Z.eqb_spec i SIGCONT) as [->|Hc]; [|by apply Hkill].
  unfold sigcontHandler. rewrite (run_bind _ _ _ p (mkWorld s env)) by (by apply curproc_run).
  rewrite (run_bind _ _ _ (get_proc p s) (mkWorld s env)) by done. rewrite Hx.
  destruct (p_frozen x =? 1) eqn:Hf; cbn [when].
  - unfold proc_upd, kmodify, modify. cbn [w_ks w_env]. do 2 f_equal. apply upd_proc_get_ext.
    rewrite Hx. unfold acted. cbn [Z.eqb SIGCONT Pos.eqb]. by rewrite Hf.
  - unfold mret, M_ret. do 2 f_equal. symmetry. apply upd_proc_id. rewrite Hx. unfold acted.
    cbn [Z.eqb SIGCONT Pos.eqb]. by rewrite Hf.
Qed.

Lemma signal_one_run `{KSyms} p i s env :
  k_cur s = Some p -> (p < length (k_procs s))%nat -> (i < 32)%nat -> kernel_handled (get_proc p s) ->
  signal_one p i (mkWorld s env) = Ok tt (mkWorld (upd_proc p (fun x => handled x i) s) env).
Proof.
  intros Hcur Hp Hi [Hh Hstop]. set (x := get_proc p s) in *. unfold signal_one.
  rewrite (run_bind _ _ _ x (mkWorld s env)) by done.
  assert (Hskip : taken x i = false -> Ok tt (mkWorld s env) = Ok tt (mkWorld (upd_proc p (fun x => handled x i) s) env)).
  { intros Hno. do 2 f_equal. symmetry. apply upd_proc_id. fold x. unfold handled. by rewrite Hno. }
  destruct (deliverable x (Z.of_nat i)) eqn:Hd; cbn [when].
  2:{ apply Hskip. unfold taken. by rewrite Hd. }
  destruct (Hh i Hi) as [He|He]; rewrite He; cbn [Z.eqb SIG_DFL SIG_IGN Pos.eqb].
  2:{ apply Hskip. unfold taken. rewrite He. apply andb_false_r. }
  assert (Ht : taken x i = true) by (unfold taken; by rewrite Hd, He).
  rewrite (run_bind _ _ _ tt _ (default_action_run p (Z.of_nat i) x s env Hcur Hp eq_refl
    ltac:(intros Hs; rewrite <- Hs, Nat2Z.id in Hstop; congruence))).
  unfold proc_upd, kmodify, modify. cbn [w_ks w_env]. rewrite upd_proc_twice. do 2 f_equal.
  apply upd_proc_get_ext. fold x. unfold handled. by rewrite Ht.
Qed.

Lemma signals_run `{KSyms} p : forall l s env,
  k_cur s = Some p -> (p < length (k_procs s))%nat -> Forall (fun i => (i < 32)%nat) l ->
  kernel_handled (get_proc p s) ->
  for_each l (signal_one p) (mkWorld s env) = Ok tt (mkWorld (upd_proc p (fun x => foldl handled x l) s) env).
Proof.
  induction l as [|i l IH]; intros s env Hcur Hp Hl Hk.
  { cbn. unfold mret, M_ret. do 2 f_equal. symmetry. by apply upd_proc_id. }
  apply Forall_cons in Hl as [Hi Hl]. cbn [for_each].
  rewrite (run_bind _ _ _ tt _ (signal_one_run p i s env Hcur Hp Hi Hk)).
  rewrite IH; [by rewrite upd_proc_twice|done|by rewrite length_upd_proc|done|].
  rewrite get_upd_proc by done. destruct (decide (i = Z.to_nat SIGSTOP)) as [->|Hne].
  - by rewrite handled_stop.
  - by apply kernel_handled_step.
Qed.

(** ** Theorems *)

Section Theorems.
Context {KS : KSyms} (Hks : ksyms_ok KS) `{PA : !PageAllocator kalloc kfree}.

(** C18: delivery of a signal to a user handler. [userSpaceHandler] returns; the process will
    resume at the handler with the signal number in a0, its return address and stack
    pointer at the code of [sigret_func_start] just below its old stack pointer, and every
    other register as it was; that code, or the part of it before the first unmapped
    address, is in its memory there and no other byte of any address space changed; the
    old trapframe is in the backup page, the signal is no longer pending, the handler's
    mask is in force and the old one saved. *)
Theorem signal_delivery p signum r tf bk s own fl env :
  frames s own fl p r tf bk -> can_deliver s p -> (signum < 32)%nat ->
  let sp := u64 (ld64 (k_mem s) (tf + TF_sp) - Z.of_nat (length sigret_code)) in
  exists k s1, userSpaceHandler p signum (mkWorld s env) = Ok tt (mkWorld s1 env) /\
    delivered own fl p signum r tf bk k s s1 /\
    (k = length sigret_code \/
     (k < length sigret_code)%nat /\ translate (k_mem s) r (sp + Z.of_nat k) = None).
Proof. apply (deliver_run Hks). Qed.

Lemma delivered_proc own fl p signum r tf bk k s s1 : (p < length (k_procs s))%nat ->
  delivered own fl p signum r tf bk k s s1 -> get_proc p s1 = sig_proc signum (get_proc p s).
Proof.
  intros Hp Hdl. unfold get_proc. rewrite (dl_procs _ _ _ _ _ _ _ _ _ _ Hdl). by apply (get_upd_proc p (sig_proc signum) s).
Qed.

(** C12: handler round trip. Whatever the process and the rest of the system do after the
    delivery, as long as the backup page and the saved mask stay, [sigret] returns with
    all 288 bytes of the trapframe and the signal mask exactly as they were when the
    signal was delivered, and changes no memory outside the trapframe's page. *)
Theorem sigret_restores p signum r tf bk s own fl env :
  frames s own fl p r tf bk -> can_deliver s p -> (signum < 32)%nat ->
  exists s1, userSpaceHandler p signum (mkWorld s env) = Ok tt (mkWorld s1 env) /\
  forall s2 env2, backup_kept p tf bk s1 s2 ->
  exists s3, sigret (mkWorld s2 env2) = Ok tt (mkWorld s3 env2) /\
    (forall i, 0 <= i < Z.of_nat TF_SIZE -> ld8 (k_mem s3) (tf + i) = ld8 (k_mem s) (tf + i)) /\
    p_signalMask (get_proc p s3) = p_signalMask (get_proc p s) /\
    outside_same tf (k_mem s2) (k_mem s3).
Proof.
  intros Hfr Hcan Hsig. destruct (deliver_run Hks p signum r tf bk s own fl env Hfr Hcan Hsig) as (k & s1 & Hrun & Hdl & _).
  exists s1. split; [done|]. intros s2 env2 Hkept.
  destruct (backup_kept_sigret p tf bk s1 s2 env2 (kernel_page_pos Hks _ _ _ (fr_tf_page _ _ _ _ _ _ _ Hfr))
    (kernel_page_pos Hks _ _ _ (fr_bk_page _ _ _ _ _ _ _ Hfr)) Hkept) as (s3 & Hret & Hmem & Hout & _ & Hget).
  exists s3. split; [done|]. split; [|split; [|done]].
  - intros i Hi. rewrite Hmem by done. by apply (dl_backup _ _ _ _ _ _ _ _ _ _ Hdl).
  - rewrite Hget, (delivered_proc own fl p signum r tf bk k s s1); [done|apply Hfr|done].
Qed.

(** a handler runs once. [sigret] leaves [sigHandlerFlag] set, and while it is set
    [signalHandler] does nothing: the first [signalHandler] after a return from a handler
    leaves every pending signal pending and the trapframe as [sigret] restored it. *)
Theorem no_delivery_after_sigret p tf bk s1 s2 env :
  tf <> 0 -> bk <> 0 -> backup_kept p tf bk s1 s2 -> p_sigHandlerFlag (get_proc p s2) = 1 ->
  exists s3, (sigret;; signalHandler) (mkWorld s2 env) = Ok tt (mkWorld s3 env) /\
    sigret (mkWorld s2 env) = Ok tt (mkWorld s3 env) /\
    p_pendingSignals (get_proc p s3) = p_pendingSignals (get_proc p s2) /\
    p_sigHandlerFlag (get_proc p s3) = 1.
Proof.
  intros H1 H2 Hkept Hflag.
  destruct (backup_kept_sigret p tf bk s1 s2 env H1 H2 Hkept) as (s3 & Hret & _ & _ & Hcur & Hget).
  exists s3. rewrite (run_bind _ _ _ tt _ Hret). split; [|split; [done|by rewrite Hget]].
  unfold signalHandler. rewrite (run_bind _ _ _ (Some p) (mkWorld s3 env)).
  2:{ unfold myproc, kgets, gets. cbn [w_ks]. by rewrite Hcur. }
  rewrite (run_bind _ _ _ (get_proc p s3) (mkWorld s3 env)) by done.
  rewrite Hget. cbn [p_sigHandlerFlag set_p_signalMask]. by rewrite Hflag.
Qed.

Lemma busy_signal p j s env : (p < length (k_procs s))%nat ->
  deliverable (get_proc p s) (Z.of_nat j) = true -> p_sigHandlerFlag (get_proc p s) = 1 ->
  p_signalHandlers (get_proc p s) !!! j <> SIG_IGN -> p_signalHandlers (get_proc p s) !!! j <> SIG_DFL ->
  signal_one p j (mkWorld s env)
  = Ok tt (mkWorld (upd_proc p (fun x => set_p_backupSigMask (p_signalMask x) x) s) env).
Proof.
  intros Hp Hd Hf H1 H2. unfold signal_one. rewrite (run_bind _ _ _ (get_proc p s) (mkWorld s env)) by done.
  rewrite Hd, (proj2 (Z.eqb_neq _ _) H1), (proj2 (Z.eqb_neq _ _) H2). cbn [when].
  set (s' := upd_proc p _ s). rewrite (run_bind _ _ _ tt (mkWorld s' env)) by done.
  unfold userSpaceHandler. rewrite (run_bind _ _ _ (get_proc p s') (mkWorld s' env)) by done.
  unfold s'. rewrite get_upd_proc by done. cbn [p_sigHandlerFlag set_p_backupSigMask]. by rewrite Hf.
Qed.

(** two handlers in one pass. If, after the delivery of [i], the loop of
    [signalHandler] meets a second signal [j] with a user handler that the mask of [i]'s
    handler does not block, it overwrites the saved mask; the later [sigret] puts the
    handler's mask in force, not the one the process had. *)
Theorem second_signal_loses_mask p i j r tf bk s own fl env :
  frames s own fl p r tf bk -> can_deliver s p -> (i < 32)%nat ->
  deliverable (sig_proc i (get_proc p s)) (Z.of_nat j) = true ->
  p_signalHandlers (get_proc p s) !!! j <> SIG_IGN -> p_signalHandlers (get_proc p s) !!! j <> SIG_DFL ->
  exists s2, (userSpaceHandler p i;; signal_one p j) (mkWorld s env) = Ok tt (mkWorld s2 env) /\
  forall s3 env3, backup_kept p tf bk s2 s3 ->
  exists s4, sigret (mkWorld s3 env3) = Ok tt (mkWorld s4 env3) /\
    p_signalMask (get_proc p s4) = p_sigMaskArray (get_proc p s) !!! i.
Proof.
  intros Hfr Hcan Hi Hd H1 H2.
  destruct (deliver_run Hks p i r tf bk s own fl env Hfr Hcan Hi) as (k & s1 & Hrun & Hdl & _).
  pose proof (delivered_proc own fl p i r tf bk k s s1 (fr_slot _ _ _ _ _ _ _ Hfr) Hdl) as Hg.
  pose proof (fr_slot _ _ _ _ _ _ _ (dl_frames _ _ _ _ _ _ _ _ _ _ Hdl)) as Hp1.
  pose proof (busy_signal p j s1 env Hp1) as Hone. rewrite Hg in Hone. specialize (Hone Hd eq_refl H1 H2).
  rewrite (run_bind _ _ _ tt _ Hrun), Hone. eexists. split; [done|]. intros s3 env3 Hkept.
  destruct (backup_kept_sigret p tf bk _ s3 env3 (kernel_page_pos Hks _ _ _ (fr_tf_page _ _ _ _ _ _ _ Hfr))
    (kernel_page_pos Hks _ _ _ (fr_bk_page _ _ _ _ _ _ _ Hfr)) Hkept) as (s4 & Hret & _ & _ & _ & Hget).
  exists s4. split; [done|]. rewrite Hget, get_upd_proc by done. by rewrite Hg.
Qed.

End Theorems.

(** [kill]. A signal number outside 0..31 or an unknown pid is refused with -1 and
    nothing changes; otherwise the first process with that pid, and nothing else, is
    changed, and 0 returned: SIGKILL marks it killed and makes it runnable if it was
    asleep, any other signal becomes pending, whatever its mask. *)
Theorem kill_signals pid signum s env :
  length (k_procs s) = NPROC -> (forall p, LProc p ∉ k_held s) ->
  exists e s', kill pid signum (mkWorld s env) = Ok e (mkWorld s' env) /\
  ((e = -1 /\ s' = s /\ (~ 0 <= signum < 32 \/ forall p, (p < NPROC)%nat -> p_pid (get_proc p s) <> pid)) \/
   (e = 0 /\ 0 <= signum < 32 /\ exists p, (p < NPROC)%nat /\ p_pid (get_proc p s) = pid /\
     (forall q, (q < p)%nat -> p_pid (get_proc q s) <> pid) /\ s' = set_k_procs (k_procs s') s /\
     (forall q, q <> p -> get_proc q s' = get_proc q s) /\
     get_proc p s' = if signum =? SIGKILL
       then set_p_killed 1 (if decide (p_state (get_proc p s) = SLEEPING) then set_p_state RUNNABLE (get_proc p s)
         else get_proc p s)
       else set_p_pendingSignals (Z.lor (p_pendingSignals (get_proc p s)) (2 ^ signum)) (get_proc p s))).
Proof.
  intros Hlen Hl. destruct (decide (0 <= signum < 32)) as [Hsig|Hsig].
  2:{ exists (-1), s. split; [|by left; repeat split; left]. unfold kill.
      destruct (Z.ltb_spec signum 0), (Z.leb_spec 32 signum); cbn [orb]; [done..|lia]. }
  rewrite kill_run by done. unfold pid_slot, first_slot.
  destruct (List.find _ _) as [p|] eqn:Hf.
  - apply find_seq_Some in Hf as (Hp & Hpid & Hmin). eexists 0, _. split; [done|]. right.
    split; [done|]. split; [done|]. exists p. split; [lia|]. split; [by apply Z.eqb_eq|].
    split; [intros q Hq; apply Z.eqb_neq, Hmin; lia|]. split; [done|]. split; [intros q Hq; by apply get_upd_proc_ne|].
    rewrite get_upd_proc by lia. unfold signalled, sigbit. rewrite Z.shiftl_1_l.
    destruct (signum =? SIGKILL); [|done]. cbn zeta. cbn [p_state set_p_killed].
    destruct (decide (p_state (get_proc p s) = SLEEPING)) as [Hs|Hs].
    + by rewrite bool_decide_eq_true_2.
    + by rewrite bool_decide_eq_false_2.
  - exists (-1), s. split; [done|]. left. split; [done|]. split; [done|]. right. intros p Hp.
    apply Z.eqb_neq. apply (List.find_none _ _ Hf p). apply in_seq. lia.
Qed.

(** a stopped process cannot be got going again. While the other processes do nothing
    but call [kill], [sigstopHandler] never returns, whatever they send and to whom,
    SIGCONT and SIGKILL included: after any number of calls the process is still frozen
    in the handler's loop. *)
Theorem sigstop_deaf_to_kill p s calls :
  (p < NPROC)%nat -> k_cur s = Some p -> k_held s = [] -> length (k_procs s) = NPROC ->
  Z.testbit (p_pendingSignals (get_proc p s)) SIGKILL = false ->
  exists w', sigstopHandler (mkWorld s ((fun c => kill_by (fst c) (snd c)) <$> calls)) = Blocked w' /\
    p_frozen (get_proc p (w_ks w')) = 1.
Proof.
  intros Hp Hcur Hheld Hlen Hb.
  destruct (sigstop_stuck p s ((fun c => kill_by (fst c) (snd c)) <$> calls)) as (w' & Hrun & Hst); [done..| |].
  - apply Forall_fmap, Forall_true. intros [pid sig] s' [Hst Hh]. by apply kill_by_stopped.
  - exists w'. split; [done|apply Hst].
Qed.

(** Default actions. For a process with no user handlers and no deliverable SIGSTOP,
    one pass of [signalHandler] returns and changes that process only: exactly the
    pending, unblocked signals with the default action stop being pending; the process is
    killed when one of them is not SIGCONT; SIGCONT unfreezes it. *)
Theorem signalHandler_defaults `{KSyms} p s env :
  k_cur s = Some p -> (p < length (k_procs s))%nat -> p_sigHandlerFlag (get_proc p s) = 0 ->
  kernel_handled (get_proc p s) ->
  exists x', signalHandler (mkWorld s env) = Ok tt (mkWorld (upd_proc p (fun _ => x') s) env) /\
  let x := get_proc p s in
  (forall i, (i < 32)%nat -> Z.testbit (p_pendingSignals x') (Z.of_nat i) =
     Z.testbit (p_pendingSignals x) (Z.of_nat i) &&
     (Z.testbit (p_signalMask x) (Z.of_nat i) || negb (p_signalHandlers x !!! i =? SIG_DFL))) /\
  p_killed x' = (if existsb (fun i => taken x i && negb (Z.of_nat i =? SIGCONT)) (seq 0 32) then 1 else p_killed x) /\
  p_frozen x' = (if taken x (Z.to_nat SIGCONT) && (p_frozen x =? 1) then 0 else p_frozen x).
Proof.
  intros Hcur Hp Hflag Hk. exists (foldl handled (get_proc p s) (seq 0 32)).
  assert (Hall : Forall (fun i => (i < 32)%nat) (seq 0 32)) by (apply Forall_seq; lia). split.
  - unfold signalHandler. rewrite (run_bind _ _ _ (Some p) (mkWorld s env)).
    2:{ unfold myproc, kgets, gets. cbn [w_ks]. by rewrite Hcur. }
    rewrite (run_bind _ _ _ (get_proc p s) (mkWorld s env)) by done. rewrite Hflag. cbn [Z.eqb].
    rewrite signals_run by done. do 2 f_equal. by apply upd_proc_get_ext.
  - assert (Hnd : NoDup (seq 0 32)) by apply NoDup_seq. cbn zeta. split; [|split].
    + intros i Hi. rewrite handled_all_bit by done. rewrite bool_decide_eq_true_2 by (apply elem_of_seq; lia).
      unfold taken. rewrite deliverable_bits by lia.
      destruct (Z.testbit (p_pendingSignals _) _), (Z.testbit (p_signalMask _) _), (_ =? SIG_DFL); done.
    + by rewrite handled_all_killed.
    + rewrite handled_all_frozen by done. by rewrite bool_decide_eq_true_2 by (apply elem_of_seq; unfold SIGCONT; lia).
Qed.

(** ** Witnesses *)

Lemma demo_frames_deliver : exists own fl, frames demo_frames own fl 3 root1 tf_page bk_page /\
  can_deliver demo_frames 3 /\ get_proc 3 demo_frames = with_handlers proc0 /\ length (k_procs demo_frames) = NPROC.
Proof.
  destruct demo_frames_ok as (own & fl & Hok & Hr & Ktf & Kbk & Hne & Hget & Hlen & Hcur & Hheld & Huart).
  exists own, fl. split; [|split; [|split; [exact Hget|exact Hlen]]].
  - split; [exact Hcur| | | | |exact Hok|exact Hr|exact Ktf|exact Kbk|exact Hne].
    + rewrite Hlen. unfold NPROC. lia.
    + rewrite Hget. reflexivity.
    + rewrite Hget. reflexivity.
    + rewrite Hget. reflexivity.
  - split.
    + rewrite Hget. reflexivity.
    + rewrite Hheld. apply not_elem_of_nil.
    + rewrite Huart. reflexivity.
    + intros _. rewrite Hheld. apply not_elem_of_nil.
Qed.

Lemma signal_delivery_witness : exists s1,
  userSpaceHandler 3 5 (mkWorld demo_frames []) = Ok tt (mkWorld s1 []) /\
  ld64 (k_mem s1) (tf_page + TF_epc) = 0x100 /\ ld64 (k_mem s1) (tf_page + TF_a0) = 5.
Proof.
  destruct demo_frames_deliver as (own & fl & Hfr & Hcan & Hget & _).
  destruct (signal_delivery demo_syms_ok 3 5 root1 tf_page bk_page demo_frames own fl [] Hfr Hcan)
    as (k & s1 & Hrun & Hdl & _); [lia|].
  pose proof (dl_regs _ _ _ _ _ _ _ _ _ _ Hdl) as Hregs. rewrite Hget in Hregs.
  exists s1. split; [exact Hrun|]. split.
  - rewrite Hregs; [reflexivity|vm_compute; congruence..].
  - rewrite Hregs; [reflexivity|vm_compute; congruence..].
Defined.

(** The states right after the delivery are such later states. *)
Lemma backup_kept_refl own fl p r tf bk s : frames s own fl p r tf bk -> backup_kept p tf bk s s.
Proof. intros [? ? ? ? ? ? ? ? ? ?]. by split. Qed.

Lemma sigret_restores_witness : exists s1,
  userSpaceHandler 3 5 (mkWorld demo_frames []) = Ok tt (mkWorld s1 []) /\
  forall s2, backup_kept 3 tf_page bk_page s1 s2 ->
  exists s3, sigret (mkWorld s2 []) = Ok tt (mkWorld s3 []) /\ p_signalMask (get_proc 3 s3) = 2.
Proof.
  destruct demo_frames_deliver as (own & fl & Hfr & Hcan & Hget & _).
  destruct (sigret_restores demo_syms_ok 3 5 root1 tf_page bk_page demo_frames own fl [] Hfr Hcan)
    as (s1 & Hrun & Hret); [lia|]. exists s1. split; [exact Hrun|]. intros s2 Hkept.
  destruct (Hret s2 [] Hkept) as (s3 & Hret3 & _ & Hmask & _). exists s3. split; [exact Hret3|].
  rewrite Hmask, Hget. reflexivity.
Defined.

Lemma no_delivery_after_sigret_witness : exists s1 s3,
  userSpaceHandler 3 5 (mkWorld demo_frames []) = Ok tt (mkWorld s1 []) /\
  (sigret;; signalHandler) (mkWorld s1 []) = Ok tt (mkWorld s3 []) /\
  Z.testbit (p_pendingSignals (get_proc 3 s3)) 7 = true.
Proof.
  destruct demo_frames_deliver as (own & fl & Hfr & Hcan & Hget & _).
  destruct (deliver_run demo_syms_ok 3 5 root1 tf_page bk_page demo_frames own fl [] Hfr Hcan)
    as (k & s1 & Hrun & Hdl & _); [lia|].
  pose proof (delivered_proc own fl 3 5 root1 tf_page bk_page k demo_frames s1 (fr_slot _ _ _ _ _ _ _ Hfr) Hdl) as Hg.
  rewrite Hget in Hg.
  destruct (no_delivery_after_sigret 3 tf_page bk_page s1 s1 []) as (s3 & Hboth & _ & Hpend & _).
  - exact (kernel_page_pos demo_syms_ok _ _ _ (fr_tf_page _ _ _ _ _ _ _ Hfr)).
  - exact (kernel_page_pos demo_syms_ok _ _ _ (fr_bk_page _ _ _ _ _ _ _ Hfr)).
  - exact (backup_kept_refl own fl 3 root1 tf_page bk_page s1 (dl_frames _ _ _ _ _ _ _ _ _ _ Hdl)).
  - rewrite Hg. reflexivity.
  - exists s1, s3. split; [exact Hrun|]. split; [exact Hboth|]. rewrite Hpend, Hg. vm_compute. reflexivity.
Defined.

Lemma second_signal_loses_mask_witness : exists s2,
  (userSpaceHandler 3 5;; signal_one 3 7) (mkWorld demo_frames []) = Ok tt (mkWorld s2 []) /\
  forall s3, backup_kept 3 tf_page bk_page s2 s3 ->
  exists s4, sigret (mkWorld s3 []) = Ok tt (mkWorld s4 []) /\ p_signalMask (get_proc 3 s4) = 64.
Proof.
  destruct demo_frames_deliver as (own & fl & Hfr & Hcan & Hget & _).
  destruct (second_signal_loses_mask demo_syms_ok 3 5 7 root1 tf_page bk_page demo_frames own fl [] Hfr Hcan)
    as (s2 & Hrun & Hret).
  - lia.
  - rewrite Hget. vm_compute. reflexivity.
  - rewrite Hget. discriminate.
  - rewrite Hget. discriminate.
  - exists s2. split; [exact Hrun|]. intros s3 Hkept.
    destruct (Hret s3 [] Hkept) as (s4 & Hret4 & Hmask). exists s4. split; [exact Hret4|].
    rewrite Hmask, Hget. reflexivity.
Defined.

(** Two processes: 2 (pid 7), on the CPU, and 5 (pid 9), asleep. *)
Definition demo_two : kst :=
  upd_proc 5 (fun x => set_p_pid 9 (set_p_state SLEEPING x))
    (on_cpu 2 (fun x => set_p_pid 7 (set_p_state RUNNING
       (set_p_pendingSignals (Z.lor (sigbit 3) (sigbit SIGCONT)) (set_p_signalMask (sigbit 4) x)))) kst0).

Lemma kill_signals_witness : exists e s',
  kill 9 SIGKILL (mkWorld demo_two []) = Ok e (mkWorld s' []) /\ e = 0.
Proof.
  destruct (kill_signals 9 SIGKILL demo_two []) as (e & s' & Hrun & Hres).
  - reflexivity.
  - intros p. apply not_elem_of_nil.
  - exists e, s'. split; [exact Hrun|]. destruct Hres as [(_ & _ & [H|H])|(H & _)]; [| |exact H].
    + destruct H. unfold SIGKILL. lia.
    + destruct (H 5%nat); [unfold NPROC; lia|reflexivity].
Defined.

Lemma sigstop_deaf_to_kill_witness : exists w',
  sigstopHandler (mkWorld demo_two [kill_by 7 SIGCONT; kill_by 7 SIGKILL; kill_by 7 3]) = Blocked w' /\
  p_frozen (get_proc 2 (w_ks w')) = 1.
Proof.
  apply (sigstop_deaf_to_kill 2 demo_two [(7, SIGCONT); (7, SIGKILL); (7, 3)]).
  - unfold NPROC. lia.
  - reflexivity.
  - reflexivity.
  - reflexivity.
  - reflexivity.
Defined.

Lemma signalHandler_defaults_witness : exists x',
  signalHandler (mkWorld demo_two []) = Ok tt (mkWorld (upd_proc 2 (fun _ => x') demo_two) []) /\ p_killed x' = 1.
Proof.
  destruct (signalHandler_defaults 2 demo_two []) as (x' & Hrun & _ & Hk & _).
  - reflexivity.
  - vm_compute. lia.
  - reflexivity.
  - split; [|reflexivity]. intros i Hi. left. do 32 (destruct i as [|i]; [reflexivity|]). lia.
  - exists x'. split; [exact Hrun|]. rewrite Hk. reflexivity.
Defined.
