(* ===== verification/Bsem.v ===== *)
(** * Binary semaphores (kernel/proc.c: allocsid, bsem_alloc .. bsem_up) *)

From stdpp Require Import base gmap list strings.
From Stdlib Require Import ZArith Lia.
From S2P Require Import Prelude Riscv Memory State Spinlock Sched Signal.

Definition get_sem (i : nat) (s : kst) : semaphore := k_sems s !!! i.
Definition upd_sem (i : nat) (f : semaphore -> semaphore) (s : kst) : kst :=
  set_k_sems (alter f i (k_sems s)) s.
Definition sem_slots : list nat := seq 0 MAX_BSEM.

Definition allocsid : K Z :=
  sid ← kgets k_nextsid;
  kmodify (fun s => set_k_nextsid (s32 (k_nextsid s + 1)) s);;
  mret sid.

Definition bsem_alloc : K Z :=
  acquire LBsem;;
  r ← for_until sem_slots (fun i =>
    sm ← kgets (get_sem i);
    if sem_is_used sm =? 0 then
      kmodify (upd_sem i (set_sem_is_used 1));;
      sid ← allocsid;
      kmodify (upd_sem i (set_sem_id sid));;
      kmodify (upd_sem i (set_sem_is_locked 0));;
      release LBsem;;
      sm ← kgets (get_sem i);
      mret (Some (sem_id sm))
    else mret None);
  match r with
  | Some id => mret id
  | None => release LBsem;; mret (-1)
  end.

Definition bsem_free (bsem_id : Z) : K unit :=
  acquire LBsem;;
  r ← for_until sem_slots (fun i =>
    sm ← kgets (get_sem i);
    if sem_id sm =? bsem_id then
      kmodify (upd_sem i (set_sem_is_used 0));;
      kmodify (upd_sem i (set_sem_id 0));;
      kmodify (upd_sem i (set_sem_is_locked 0));;
      release LBsem;;
      mret (Some tt)
    else mret None);
  match r with Some _ => mret tt | None => release LBsem end.

Definition bsem_down (bsem_id : Z) : K unit :=
  acquire LBsem;;
  r ← for_until sem_slots (fun i =>
    sm ← kgets (get_sem i);
    if sem_id sm =? bsem_id then
      sleep_while (kgets (fun s => sem_is_locked (get_sem i s) =? 1)) (ChSem i) LBsem;;
      kmodify (upd_sem i (set_sem_is_locked 1));;
      release LBsem;;
      mret (Some tt)
    else mret None);
  match r with Some _ => mret tt | None => release LBsem end.

Definition bsem_up (bsem_id : Z) : K unit :=
  acquire LBsem;;
  r ← for_until sem_slots (fun i =>
    sm ← kgets (get_sem i);
    if sem_id sm =? bsem_id then
      if sem_is_locked sm =? 1 then
        kmodify (upd_sem i (set_sem_is_locked 0));;
        release LBsem;;
        wakeup (ChSem i);;
        mret (Some tt)
      else mret None
    else mret None);
  match r with Some _ => mret tt | None => release LBsem end.

(** ** Effect of the operations *)

Lemma get_upd_sem i f s :
  (i < length (k_sems s))%nat -> get_sem i (upd_sem i f s) = f (get_sem i s).
Proof.
  intros H. unfold get_sem, upd_sem. cbn. rewrite list_lookup_total_alter, decide_True; done.
Qed.

(** The slot that [P] finds first. *)
Definition find_sem (P : semaphore -> bool) (s : kst) : option nat :=
  first_slot (fun i => P (get_sem i s)) MAX_BSEM.

Lemma find_sem_held P h s : find_sem P (set_k_held h s) = find_sem P s.
Proof. done. Qed.

Lemma find_sem_lt P s i : find_sem P s = Some i -> (i < MAX_BSEM)%nat /\ P (get_sem i s) = true.
Proof. unfold find_sem. rewrite first_slot_Some. tauto. Qed.

Lemma release_LBsem s s1 env : k_held s1 = LBsem :: k_held s ->
  release LBsem (mkWorld s1 env) = Ok tt (mkWorld (set_k_held (k_held s) s1) env).
Proof. intros H. by rewrite (release_run _ (k_held s)). Qed.

Lemma alter_twice {A} (f g : A -> A) (i : nat) (l : list A) :
  alter f i (alter g i l) = alter (f ∘ g) i l.
Proof.
  apply list_eq. intros j. rewrite !list_lookup_alter. case_decide; [|done].
  rewrite !decide_True by done. by destruct (l !! i).
Qed.

Lemma alter_ext_fun {A} (f g : A -> A) (i : nat) (l : list A) :
  (forall x, f x = g x) -> alter f i l = alter g i l.
Proof.
  intros H. apply list_eq. intros j. rewrite !list_lookup_alter. case_decide; [|done].
  destruct (l !! i); cbn; [by rewrite H|done].
Qed.

Lemma upd_sem_twice i f g s : upd_sem i f (upd_sem i g s) = upd_sem i (f ∘ g) s.
Proof. unfold upd_sem. cbn. rewrite alter_twice. by destruct s. Qed.

Lemma upd_sem_ext i f g s : (forall x, f x = g x) -> upd_sem i f s = upd_sem i g s.
Proof. intros H. unfold upd_sem. by rewrite (alter_ext_fun f g). Qed.

Lemma upd_sem_held i f h s : upd_sem i f (set_k_held h s) = set_k_held h (upd_sem i f s).
Proof. unfold upd_sem. kst_eq. Qed.

(** Running a computation under [binSemLock]. *)
Lemma under_LBsem {A} (m : K A) s env :
  LBsem ∉ k_held s ->
  (acquire LBsem;; m) (mkWorld s env) = m (mkWorld (set_k_held (LBsem :: k_held s) s) env).
Proof. intros Hl. by rewrite (run_bind _ _ _ tt _ (acquire_run _ (mkWorld s env) Hl)). Qed.

Lemma set_k_held_restore s h : set_k_held (k_held s) (set_k_held h s) = s.
Proof. by destruct s. Qed.

Lemma bsem_alloc_run s env :
  LBsem ∉ k_held s -> length (k_sems s) = MAX_BSEM ->
  bsem_alloc (mkWorld s env) =
  match find_sem (fun sm => sem_is_used sm =? 0) s with
  | Some i => Ok (k_nextsid s)
      (mkWorld (set_k_nextsid (s32 (k_nextsid s + 1))
                 (upd_sem i (fun _ => mkSemaphore (k_nextsid s) 0 1) s)) env)
  | None => Ok (-1) (mkWorld s env)
  end.
Proof.
  intros Hl Hlen. unfold bsem_alloc. rewrite under_LBsem by done.
  set (s1 := set_k_held (LBsem :: k_held s) s).
  match goal with |- context [for_until sem_slots ?b] => set (body := b) end.
  assert (Hno : forall i, (sem_is_used (get_sem i s) =? 0) = false -> body i (mkWorld s1 env) = Ok None (mkWorld s1 env)).
  { intros i Hi. unfold body. rewrite (run_bind _ _ _ (get_sem i s) (mkWorld s1 env)) by done. by rewrite Hi. }
  destruct (find_sem _ s) as [i|] eqn:Hf.
  - pose proof Hf as Hf'. apply find_sem_lt in Hf' as [Hi HP]. rewrite <- Hlen in Hi.
    set (s2 := set_k_nextsid (s32 (k_nextsid s + 1)) (upd_sem i (fun _ => mkSemaphore (k_nextsid s) 0 1) s)).
    rewrite (run_bind _ _ _ (Some (k_nextsid s)) (mkWorld s2 env)); [done|].
    eapply (for_until_found _ (fun i => sem_is_used (get_sem i s) =? 0)); [exact Hno|exact Hf| |done].
    apply run_wp. unfold body, allocsid. ksteps. change (get_sem i s1) with (get_sem i s). rewrite HP.
    ksteps. eapply wpx_release; [reflexivity|]. ksteps.
    match goal with |- _ /\ mkWorld ?x _ = _ => assert (Hsf : x = s2) end.
    { unfold s2, s1, upd_sem. cbn. rewrite !alter_twice.
      rewrite (alter_ext_fun _ (fun _ => mkSemaphore (k_nextsid s) 0 1)) by done. kst_eq. }
    rewrite Hsf. split; [|done]. unfold s2, get_sem, upd_sem. cbn.
    rewrite list_lookup_total_alter, decide_True by done. done.
  - rewrite (run_bind _ _ _ None (mkWorld s1 env)) by (by apply (for_until_not_found _ (fun i => sem_is_used (get_sem i s) =? 0))).
    rewrite (run_bind _ _ _ tt (mkWorld s env)); [done|].
    rewrite (release_LBsem s) by done. unfold s1. by rewrite set_k_held_restore.
Qed.

(** The last part of the loops that search for an id: nothing found, the lock dropped. *)
Lemma sem_not_found {R} (P : nat -> bool) (body : nat -> K (option R)) s env (k : R -> K unit) :
  (forall i, P i = false -> body i (mkWorld (set_k_held (LBsem :: k_held s) s) env)
     = Ok None (mkWorld (set_k_held (LBsem :: k_held s) s) env)) ->
  first_slot P MAX_BSEM = None ->
  (r ← for_until sem_slots body; match r with Some v => k v | None => release LBsem end)
    (mkWorld (set_k_held (LBsem :: k_held s) s) env) = Ok tt (mkWorld s env).
Proof.
  intros Hno Hf. rewrite (run_bind _ _ _ None (mkWorld (set_k_held (LBsem :: k_held s) s) env))
    by (by apply (for_until_not_found _ P)).
  rewrite (release_LBsem s) by done. by rewrite set_k_held_restore.
Qed.

Lemma bsem_free_run bsem_id s env :
  LBsem ∉ k_held s ->
  bsem_free bsem_id (mkWorld s env) =
  Ok tt (mkWorld (match find_sem (fun sm => sem_id sm =? bsem_id) s with
                  | Some i => upd_sem i (fun _ => mkSemaphore 0 0 0) s
                  | None => s
                  end) env).
Proof.
  intros Hl. unfold bsem_free. rewrite under_LBsem by done.
  set (s1 := set_k_held (LBsem :: k_held s) s).
  match goal with |- context [for_until sem_slots ?b] => set (body := b) end.
  assert (Hno : forall i, (sem_id (get_sem i s) =? bsem_id) = false -> body i (mkWorld s1 env) = Ok None (mkWorld s1 env)).
  { intros i Hi. unfold body. rewrite (run_bind _ _ _ (get_sem i s) (mkWorld s1 env)) by done. by rewrite Hi. }
  destruct (find_sem _ s) as [i|] eqn:Hf; [|by apply (sem_not_found _ _ _ _ _ Hno)].
  pose proof Hf as Hf'. apply find_sem_lt in Hf' as [Hi HP].
  rewrite (run_bind _ _ _ (Some tt) (mkWorld (upd_sem i (fun _ => mkSemaphore 0 0 0) s) env)); [done|].
  eapply (for_until_found _ (fun i => sem_id (get_sem i s) =? bsem_id)); [exact Hno|exact Hf| |done].
  apply run_wp. unfold body. ksteps. change (get_sem i s1) with (get_sem i s). rewrite HP.
  ksteps. eapply wpx_release; [reflexivity|]. ksteps. split; [done|]. f_equal.
  unfold s1, upd_sem. cbn. rewrite !alter_twice.
  rewrite (alter_ext_fun _ (fun _ => mkSemaphore 0 0 0)) by done. kst_eq.
Qed.

(** The state after [bsem_up] has opened the semaphore in slot [i]. *)
Definition sem_open (i : nat) (s : kst) : kst :=
  set_k_procs (imap (wakes (k_cur s) (Some (ChSem i))) (k_procs s)) (upd_sem i (set_sem_is_locked 0) s).

Lemma bsem_up_run bsem_id s env :
  LBsem ∉ k_held s -> length (k_procs s) = NPROC -> (forall p, LProc p ∈ k_held s -> k_cur s = Some p) ->
  bsem_up bsem_id (mkWorld s env) =
  Ok tt (mkWorld (match find_sem (fun sm => (sem_id sm =? bsem_id) && (sem_is_locked sm =? 1)) s with
                  | Some i => sem_open i s
                  | None => s
                  end) env).
Proof.
  intros Hl Hlen Hheld. unfold bsem_up. rewrite under_LBsem by done.
  set (s1 := set_k_held (LBsem :: k_held s) s).
  match goal with |- context [for_until sem_slots ?b] => set (body := b) end.
  set (P i := (sem_id (get_sem i s) =? bsem_id) && (sem_is_locked (get_sem i s) =? 1)).
  assert (Hno : forall i, P i = false -> body i (mkWorld s1 env) = Ok None (mkWorld s1 env)).
  { intros i Hi. unfold body, P in *. rewrite (run_bind _ _ _ (get_sem i s) (mkWorld s1 env)) by done.
    destruct (sem_id (get_sem i s) =? bsem_id); [|done]. cbn [andb] in Hi. by rewrite Hi. }
  destruct (find_sem _ s) as [i|] eqn:Hf; [|by apply (sem_not_found _ _ _ _ _ Hno)].
  pose proof Hf as Hf'. apply find_sem_lt in Hf' as [Hi HP]. apply andb_prop in HP as [HP1 HP2].
  rewrite (run_bind _ _ _ (Some tt) (mkWorld (sem_open i s) env)); [done|].
  eapply (for_until_found _ P); [exact Hno|exact Hf| |done].
  apply run_wp. unfold body. ksteps. change (get_sem i s1) with (get_sem i s). rewrite HP1, HP2.
  ksteps. eapply wpx_release; [reflexivity|]. kstep.
  eapply wp_of_run; [apply wakeup_run; [exact Hlen|exact Hheld]|]. ksteps. split; [done|]. by f_equal.
Qed.

(** [bsem_down] once the slot is found: wait for the semaphore, and take it. *)
Definition down_slot (i : nat) : K unit :=
  sleep_while (kgets (fun s => sem_is_locked (get_sem i s) =? 1)) (ChSem i) LBsem;;
  kmodify (upd_sem i (set_sem_is_locked 1));;
  release LBsem.

Lemma bsem_down_run bsem_id s env :
  LBsem ∉ k_held s ->
  bsem_down bsem_id (mkWorld s env) =
  match find_sem (fun sm => sem_id sm =? bsem_id) s with
  | Some i => down_slot i (mkWorld (set_k_held (LBsem :: k_held s) s) env)
  | None => Ok tt (mkWorld s env)
  end.
Proof.
  intros Hl. unfold bsem_down. rewrite under_LBsem by done.
  set (s1 := set_k_held (LBsem :: k_held s) s).
  match goal with |- context [for_until sem_slots ?b] => set (body := b) end.
  assert (Hno : forall i, (sem_id (get_sem i s) =? bsem_id) = false -> body i (mkWorld s1 env) = Ok None (mkWorld s1 env)).
  { intros i Hi. unfold body. rewrite (run_bind _ _ _ (get_sem i s) (mkWorld s1 env)) by done. by rewrite Hi. }
  destruct (find_sem _ s) as [i|] eqn:Hf; [|by apply (sem_not_found _ _ _ _ _ Hno)].
  pose proof Hf as Hf'. apply find_sem_lt in Hf' as [Hi HP].
  assert (Hbody : body i (mkWorld s1 env) = (down_slot i;; mret (Some tt)) (mkWorld s1 env)).
  { unfold body. rewrite (run_bind _ _ _ (get_sem i s) (mkWorld s1 env)) by done. rewrite HP.
    unfold down_slot, mbind, M_bind. destruct (sleep_while _ _ _ _) as [u w| |]; [|done..].
    destruct (kmodify _ w) as [u1 w1| |]; [|done..]. by destruct (release LBsem w1). }
  unfold mbind at 1, M_bind.
  erewrite (for_until_found _ (fun i => sem_id (get_sem i s) =? bsem_id)); [|exact Hno|exact Hf|exact Hbody|].
  - unfold mbind, M_bind. by destruct (down_slot i _) as [[] w| |].
  - intros s'. unfold mbind, M_bind. by destruct (down_slot i _).
Qed.

Lemma down_slot_free i s env :
  sem_is_locked (get_sem i s) <> 1 ->
  down_slot i (mkWorld (set_k_held (LBsem :: k_held s) s) env) =
  Ok tt (mkWorld (upd_sem i (set_sem_is_locked 1) s) env).
Proof.
  intros Hf. unfold down_slot. set (s1 := set_k_held (LBsem :: k_held s) s).
  rewrite (run_bind _ _ _ tt (mkWorld s1 env)).
  - rewrite (run_bind _ _ _ tt (mkWorld (upd_sem i (set_sem_is_locked 1) s1) env)) by done.
    rewrite (release_LBsem s) by done. by do 2 f_equal.
  - rewrite (sleep_while_unfold _ _ _ _ false); [done|by intros ? ? ? [= _ <-]|].
    unfold kgets, gets. cbn [w_ks]. do 2 f_equal. by apply Z.eqb_neq.
Qed.

(** ** The specification

    A semaphore is an id that is locked or not; the kernel state stands for the map from
    the ids in use to that bit. *)

Record sem_inv (s : kst) : Prop := {
  si_len : length (k_sems s) = MAX_BSEM;
  si_next : 1 <= k_nextsid s <= 2 ^ 31 - 1;
  si_slot i sm : k_sems s !! i = Some sm ->
    (sem_is_used sm = 0 /\ sem_id sm = 0) \/
    (sem_is_used sm = 1 /\ 1 <= sem_id sm < k_nextsid s /\ (sem_is_locked sm = 0 \/ sem_is_locked sm = 1));
  si_uniq i j a b : k_sems s !! i = Some a -> k_sems s !! j = Some b ->
    sem_id a = sem_id b -> sem_id a <> 0 -> i = j
}.

Definition sem_abs (s : kst) (m : gmap Z bool) : Prop :=
  forall id b, m !! id = Some b <->
    0 < id /\ exists i sm, k_sems s !! i = Some sm /\ sem_id sm = id /\ sem_is_locked sm = Z.b2z b.

Lemma get_sem_lookup i s sm : k_sems s !! i = Some sm -> get_sem i s = sm.
Proof. intros H. unfold get_sem. by rewrite list_lookup_total_alt, H. Qed.

Lemma get_sem_in i s : (i < length (k_sems s))%nat -> k_sems s !! i = Some (get_sem i s).
Proof. intros H. destruct (lookup_lt_is_Some_2 _ _ H) as [sm Hsm]. by rewrite (get_sem_lookup _ _ _ Hsm). Qed.

Section SemInv.
Context (s : kst) (Hinv : sem_inv s).

Lemma find_sem_some P i : find_sem P s = Some i ->
  exists sm, k_sems s !! i = Some sm /\ get_sem i s = sm /\ P sm = true.
Proof.
  intros H. apply find_sem_lt in H as [Hi HP]. rewrite <- (si_len s Hinv) in Hi.
  exists (get_sem i s). split; [by apply get_sem_in|done].
Qed.

Lemma find_sem_none P : find_sem P s = None -> forall i sm, k_sems s !! i = Some sm -> P sm = false.
Proof.
  intros H i sm Hsm. unfold find_sem in H. rewrite first_slot_None in H.
  specialize (H i). rewrite (get_sem_lookup i s sm Hsm) in H. apply H.
  rewrite <- (si_len s Hinv). by eapply lookup_lt_Some.
Qed.

(** The id determines the slot. *)
Lemma abs_slot m id b i sm : sem_abs s m -> m !! id = Some b -> k_sems s !! i = Some sm ->
  sem_id sm = id -> sem_is_locked sm = Z.b2z b.
Proof.
  intros Ha Hm Hi Hid. apply Ha in Hm as (Hpos & j & sm' & Hj & Hid' & Hl).
  assert (i = j) as <- by (eapply (si_uniq s Hinv i j); [done..|congruence|lia]). congruence.
Qed.

Lemma abs_none m id i sm : sem_abs s m -> m !! id = None -> 0 < id -> k_sems s !! i = Some sm ->
  sem_id sm <> id.
Proof.
  intros Ha Hm Hpos Hi Hid. destruct (si_slot s Hinv i sm Hi) as [[_ H0]|(_ & _ & Hl)]; [lia|].
  assert (Hb : exists b, sem_is_locked sm = Z.b2z b) by (destruct Hl; [exists false|exists true]; done).
  destruct Hb as [b Hb].
  assert (Hs : m !! id = Some b) by (apply Ha; split; [done|]; by exists i, sm). congruence.
Qed.

(** Changing the lock bit of slot [i]. *)
Lemma sem_inv_lock i v s' :
  k_sems s' = alter (set_sem_is_locked v) i (k_sems s) -> k_nextsid s' = k_nextsid s ->
  v = 0 \/ v = 1 -> sem_inv s'.
Proof.
  intros Hs Hn Hv. destruct Hinv as [H1 H2 H3 H4]. split.
  - by rewrite Hs, length_alter.
  - by rewrite Hn.
  - intros j sm. rewrite Hs, Hn, list_lookup_alter. case_decide as D; [|apply H3]. subst j.
    destruct (k_sems s !! i) as [x|] eqn:Hx; cbn; [|done]. intros [= <-]. cbn.
    destruct (H3 i x Hx) as [?|(? & ? & ?)]; [by left|right]; done.
  - assert (Hid : forall k sm, k_sems s' !! k = Some sm ->
      exists x, k_sems s !! k = Some x /\ sem_id x = sem_id sm).
    { intros k sm. rewrite Hs, list_lookup_alter. case_decide as D; [|by exists sm]. subst k.
      destruct (k_sems s !! i) as [x|] eqn:Hx; cbn; [|done]. intros [= <-]. by exists x. }
    intros j k a b Ha Hb He Hne. apply Hid in Ha as (x & Hx & Hxa). apply Hid in Hb as (y & Hy & Hyb).
    eapply (H4 j k x y); congruence.
Qed.

Lemma sem_abs_lock i v s' m sm :
  k_sems s' = alter (set_sem_is_locked (Z.b2z v)) i (k_sems s) -> sem_abs s m ->
  k_sems s !! i = Some sm -> 0 < sem_id sm -> sem_abs s' (<[sem_id sm := v]> m).
Proof.
  intros Hs Ha Hi Hpos id b. rewrite lookup_insert_Some. split.
  - intros [[<- <-]|[Hne Hm]].
    + split; [done|]. exists i, (set_sem_is_locked (Z.b2z v) sm).
      by rewrite Hs, list_lookup_alter, decide_True, Hi.
    + apply Ha in Hm as (Hp & j & sm' & Hj & Hid & Hl). split; [done|]. exists j, sm'.
      rewrite Hs, list_lookup_alter, decide_False; [done|]. intros <-. congruence.
  - intros (Hp & j & sm' & Hj & Hid & Hl). rewrite Hs, list_lookup_alter in Hj.
    case_decide as D.
    + subst j. rewrite Hi in Hj. cbn in Hj. injection Hj as <-. cbn in Hid, Hl. left. split; [done|].
      by destruct v, b.
    + right. split.
      * intros He. apply D. eapply (si_uniq s Hinv i j); [done|done|congruence|lia].
      * apply Ha. split; [done|]. by exists j, sm'.
Qed.

Lemma free_slot_ok m i sm :
  sem_abs s m -> k_sems s !! i = Some sm -> 0 < sem_id sm ->
  sem_inv (upd_sem i (fun _ => mkSemaphore 0 0 0) s) /\
  sem_abs (upd_sem i (fun _ => mkSemaphore 0 0 0) s) (delete (sem_id sm) m).
Proof.
  intros Ha Hi Hpos. destruct Hinv as [H1 H2 H3 H4].
  assert (Hlook : forall j x, k_sems (upd_sem i (fun _ => mkSemaphore 0 0 0) s) !! j = Some x <->
    (j = i /\ x = mkSemaphore 0 0 0) \/ (j <> i /\ k_sems s !! j = Some x)).
  { intros j x. cbn. rewrite list_lookup_alter. case_decide as D.
    - subst j. rewrite Hi. cbn. intuition congruence.
    - intuition congruence. }
  split.
  - split.
    + cbn. by rewrite length_alter.
    + done.
    + intros j x Hj. apply Hlook in Hj as [[-> ->]|[_ Hx]]; [by left|]. by apply (H3 j).
    + intros j k a b Hj Hk He Hne. apply Hlook in Hj as [[_ ->]|[_ Hj]]; [done|].
      apply Hlook in Hk as [[_ ->]|[_ Hk]]; [by rewrite He in Hne|]. by apply (H4 j k a b).
  - intros id b. rewrite lookup_delete_Some. split.
    + intros [Hne Hm]. apply Ha in Hm as (Hp & j & x & Hj & Hx & Hb). split; [done|].
      exists j, x. rewrite Hlook. split; [|done]. right. split; [|done]. intros ->. congruence.
    + intros (Hp & j & x & Hj & Hx & Hb). apply Hlook in Hj as [[_ ->]|[Hne Hj]]; [cbn in Hx; lia|].
      split; [|apply Ha; split; [done|]; by exists j, x].
      intros He. apply Hne. eapply (H4 j i); [done|done|congruence|lia].
Qed.

End SemInv.

(** ** Theorems *)

(** [bsem_alloc] returns a new id. If some slot is unused it returns an id that no
    semaphore in use has, and the new semaphore is unlocked; otherwise it returns -1 and
    changes nothing.  The table invariant (distinct ids, all below the next one) is kept,
    as long as fewer than 2^31 - 1 semaphores have ever been allocated. *)
Theorem bsem_alloc_fresh s m env :
  sem_inv s -> sem_abs s m -> LBsem ∉ k_held s -> k_nextsid s < 2 ^ 31 - 1 ->
  (exists id s', bsem_alloc (mkWorld s env) = Ok id (mkWorld s' env) /\ 0 < id /\ m !! id = None /\
     sem_inv s' /\ sem_abs s' (<[id := false]> m)) \/
  (bsem_alloc (mkWorld s env) = Ok (-1) (mkWorld s env) /\
     forall i sm, k_sems s !! i = Some sm -> sem_is_used sm = 1).
Proof.
  intros Hinv Ha Hl Hnext. rewrite bsem_alloc_run by (done || apply Hinv).
  destruct (find_sem _ s) as [i|] eqn:Hf; [left|right].
  - destruct (find_sem_some s Hinv _ i Hf) as (sm & Hi & _ & HP). apply Z.eqb_eq in HP.
    destruct Hinv as [H1 H2 H3 H4]. destruct (H3 i sm Hi) as [[_ Hid]|[? _]]; [|lia].
    assert (Hs32 : s32 (k_nextsid s + 1) = k_nextsid s + 1).
    { unfold s32. rewrite Z.mod_small by lia. lia. }
    assert (Hlook : forall j x, alter (fun _ => mkSemaphore (k_nextsid s) 0 1) i (k_sems s) !! j = Some x ->
      (j = i /\ x = mkSemaphore (k_nextsid s) 0 1) \/ (j <> i /\ k_sems s !! j = Some x)).
    { intros j x. rewrite list_lookup_alter. case_decide as D; [|by right]. subst j.
      rewrite Hi. cbn. intros [= <-]. by left. }
    assert (Hlt : forall j x, k_sems s !! j = Some x -> sem_id x < k_nextsid s).
    { intros j x Hx. destruct (H3 j x Hx) as [[_ ?]|(_ & ? & _)]; lia. }
    eexists _, _. split; [reflexivity|]. rewrite Hs32. split; [lia|]. split; [|split].
    + destruct (m !! k_nextsid s) as [b|] eqn:Hm; [|done]. apply Ha in Hm as (_ & j & x & Hj & Hx & _).
      specialize (Hlt j x Hj). lia.
    + split; cbn [k_sems k_nextsid set_k_nextsid upd_sem set_k_sems].
      * by rewrite length_alter.
      * lia.
      * intros j x Hj. destruct (Hlook j x Hj) as [[-> ->]|[_ Hx]]; [right; cbn; repeat split; (lia || by left)|].
        destruct (H3 j x Hx) as [?|(? & ? & ?)]; [by left|right]. repeat split; try done; lia.
      * intros j k a b Hj Hk. destruct (Hlook j a Hj) as [[-> ->]|[_ Hja]], (Hlook k b Hk) as [[-> ->]|[_ Hkb]]; cbn; try done.
        -- specialize (Hlt k b Hkb). lia.
        -- specialize (Hlt j a Hja). lia.
        -- by apply H4.
    + intros id b. rewrite lookup_insert_Some. split; cbn [k_sems set_k_nextsid upd_sem set_k_sems].
      * intros [[<- <-]|[Hne Hm]].
        -- split; [lia|]. exists i, (mkSemaphore (k_nextsid s) 0 1).
           by rewrite list_lookup_alter, decide_True, Hi.
        -- apply Ha in Hm as (Hp & j & x & Hj & Hx & Hb). split; [done|]. exists j, x.
           rewrite list_lookup_alter, decide_False; [done|]. intros <-. rewrite Hi in Hj. injection Hj as <-. lia.
      * intros (Hp & j & x & Hj & Hx & Hb). destruct (Hlook j x Hj) as [[-> ->]|[Hne Hx']].
        -- left. cbn in Hx, Hb. split; [done|]. by destruct b.
        -- right. split; [specialize (Hlt j x Hx'); lia|]. apply Ha. split; [done|]. by exists j, x.
  - split; [done|]. intros i sm Hi. pose proof (find_sem_none s Hinv _ Hf i sm Hi) as HP.
    apply Z.eqb_neq in HP. destruct (si_slot s Hinv i sm Hi) as [[? _]|[? _]]; [lia|done].
Qed.

(** C16: [bsem_free], [bsem_up] and a [bsem_down] that need not wait implement the
    operations on the map of semaphores: they return; freeing removes the id; up opens a
    locked semaphore and is ignored otherwise; down locks an open one; an unknown id is
    ignored.  Each keeps the table invariant. *)
Theorem bsem_ops_refine s m env id :
  sem_inv s -> sem_abs s m -> 0 < id -> LBsem ∉ k_held s -> length (k_procs s) = NPROC ->
  (forall p, LProc p ∈ k_held s -> k_cur s = Some p) ->
  (exists s', bsem_free id (mkWorld s env) = Ok tt (mkWorld s' env) /\
     sem_inv s' /\ sem_abs s' (delete id m)) /\
  (exists s', bsem_up id (mkWorld s env) = Ok tt (mkWorld s' env) /\
     sem_inv s' /\ sem_abs s' (match m !! id with Some true => <[id := false]> m | _ => m end)) /\
  (m !! id <> Some true -> exists s', bsem_down id (mkWorld s env) = Ok tt (mkWorld s' env) /\
     sem_inv s' /\ sem_abs s' (match m !! id with Some _ => <[id := true]> m | None => m end)).
Proof.
  intros Hinv Ha Hpos Hl Hlen Hheld. split; [|split].
  - rewrite bsem_free_run by done. eexists. split; [reflexivity|].
    destruct (find_sem _ s) as [i|] eqn:Hf.
    + destruct (find_sem_some s Hinv _ i Hf) as (sm & Hi & _ & HP). apply Z.eqb_eq in HP.
      rewrite <- HP. apply (free_slot_ok s Hinv m i sm); [done..|lia].
    + split; [done|]. rewrite delete_id; [done|]. destruct (m !! id) as [b|] eqn:Hm; [|done].
      apply Ha in Hm as (_ & i & sm & Hi & Hid & _).
      pose proof (find_sem_none s Hinv _ Hf i sm Hi) as HP. apply Z.eqb_neq in HP. lia.
  - rewrite bsem_up_run by done. eexists. split; [reflexivity|].
    destruct (find_sem _ s) as [i|] eqn:Hf.
    + destruct (find_sem_some s Hinv _ i Hf) as (sm & Hi & _ & HP).
      apply andb_prop in HP as [HP1 HP2]. apply Z.eqb_eq in HP1, HP2.
      assert (Hm : m !! id = Some true) by (apply Ha; split; [done|]; by exists i, sm).
      rewrite Hm. split; [by apply (sem_inv_lock s Hinv i 0); [..|left]|].
      rewrite <- HP1. apply (sem_abs_lock s Hinv i false _ m sm); try done. lia.
    + assert (Hm : m !! id <> Some true).
      { intros Hm. apply Ha in Hm as (_ & i & sm & Hi & Hid & Hlk).
        pose proof (find_sem_none s Hinv _ Hf i sm Hi) as HP. cbn in HP.
        rewrite Hid, Hlk, Z.eqb_refl in HP. done. }
      by destruct (m !! id) as [[]|].
  - intros Hm. rewrite bsem_down_run by done. destruct (find_sem _ s) as [i|] eqn:Hf.
    + destruct (find_sem_some s Hinv _ i Hf) as (sm & Hi & Hg & HP). apply Z.eqb_eq in HP.
      destruct (m !! id) as [b|] eqn:Hmb.
      2:{ by destruct (abs_none s Hinv m id i sm Ha Hmb Hpos Hi). }
      assert (Hlk : sem_is_locked sm = Z.b2z b) by (by apply (abs_slot s Hinv m id b i sm)).
      assert (b = false) as -> by (by destruct b).
      rewrite down_slot_free by (rewrite Hg, Hlk; done). eexists. split; [reflexivity|].
      split; [by apply (sem_inv_lock s Hinv i 1); [..|right]|].
      rewrite <- HP. apply (sem_abs_lock s Hinv i true _ m sm); try done. lia.
    + exists s. split; [done|]. split; [done|]. destruct (m !! id) as [b|] eqn:Hmb; [|done].
      apply Ha in Hmb as (_ & i & sm & Hi & Hid & _).
      pose proof (find_sem_none s Hinv _ Hf i sm Hi) as HP. apply Z.eqb_neq in HP. lia.
Qed.

(** One semaphore in use, with id 1, locked. *)
Definition demo_sems : kst :=
  set_k_nextsid 2 (upd_sem 0 (fun _ => mkSemaphore 1 1 1) kst0).

Lemma demo_sems_slot i sm : k_sems demo_sems !! i = Some sm ->
  (i = 0%nat /\ sm = mkSemaphore 1 1 1) \/ sm = semaphore0.
Proof.
  unfold demo_sems, upd_sem. cbn [k_sems set_k_nextsid set_k_sems kst0].
  rewrite list_lookup_alter. case_decide as D.
  - subst i. rewrite lookup_replicate_2 by (unfold MAX_BSEM; lia). cbn. intros [= <-]. by left.
  - rewrite lookup_replicate. intros [-> _]. by right.
Qed.

Lemma demo_sems_ok : sem_inv demo_sems /\ sem_abs demo_sems {[1 := true]}.
Proof.
  split; [split|].
  - unfold demo_sems, upd_sem. cbn [k_sems set_k_nextsid set_k_sems kst0].
    by rewrite length_alter, length_replicate.
  - cbn. lia.
  - intros i sm Hi. destruct (demo_sems_slot i sm Hi) as [[_ ->]| ->]; [right|by left].
    cbn. repeat split; (lia || by right).
  - intros i j a b Ha Hb He Hne.
    destruct (demo_sems_slot i a Ha) as [[-> _]| ->]; [|done].
    destruct (demo_sems_slot j b Hb) as [[-> _]| ->]; [done|by rewrite He in Hne].
  - intros id b. rewrite lookup_singleton_Some. split.
    + intros [<- <-]. split; [lia|]. by exists 0%nat, (mkSemaphore 1 1 1).
    + intros (Hp & i & sm & Hi & Hid & Hl).
      destruct (demo_sems_slot i sm Hi) as [[_ ->]| ->]; cbn in Hid, Hl; [|lia].
      split; [done|]. by destruct b.
Qed.

Lemma bsem_alloc_fresh_witness :
  (exists id s', bsem_alloc (mkWorld demo_sems []) = Ok id (mkWorld s' []) /\ id <> 1) \/
  bsem_alloc (mkWorld demo_sems []) = Ok (-1) (mkWorld demo_sems []).
Proof.
  destruct demo_sems_ok as [Hinv Ha].
  destruct (bsem_alloc_fresh demo_sems _ [] Hinv Ha) as [(id & s' & Hr & _ & Hm & _)|[Hr _]].
  - apply not_elem_of_nil.
  - vm_compute. reflexivity.
  - left. exists id, s'. split; [exact Hr|]. intros ->. vm_compute in Hm. discriminate Hm.
  - right. exact Hr.
Defined.

Lemma bsem_ops_refine_witness : exists s',
  bsem_up 1 (mkWorld demo_sems []) = Ok tt (mkWorld s' []) /\ sem_abs s' {[1 := false]}.
Proof.
  destruct demo_sems_ok as [Hinv Ha].
  destruct (bsem_ops_refine demo_sems _ [] 1 Hinv Ha) as (_ & (s' & Hr & _ & Ha') & _).
  - lia.
  - apply not_elem_of_nil.
  - reflexivity.
  - intros p Hp. inversion Hp.
  - exists s'. split; [exact Hr|]. rewrite lookup_singleton_eq, insert_singleton in Ha'. exact Ha'.
Defined.

(** ** Waiting *)

(** While [P] holds, [p] is not runnable and the others keep [P]. *)
Lemma until_runnable_skip (P : kst -> Prop) p env rest : forall s,
  (forall s, P s -> p_state (get_proc p s) <> RUNNABLE) ->
  Forall (fun e : kst -> kst => forall s, P s -> P (e s)) env -> P s ->
  until_runnable p (env ++ rest) s = until_runnable p rest (run_all env s) /\ P (run_all env s).
Proof.
  induction env as [|e env IH]; intros s Hn Henv HP; [done|].
  apply Forall_cons in Henv as [He Henv]. cbn [app until_runnable run_all foldl].
  rewrite decide_False by (apply Hn, He, HP). apply (IH (e s)); [done|done|by apply He].
Qed.

(** [bsem_up(id)] and [bsem_free(id)] called by process [q] while another one waits. *)
Definition by_proc (q : nat) (m : K unit) (s : kst) : kst :=
  match m (mkWorld (set_k_cur (Some q) s) []) with
  | Ok _ w | Panic _ w | Blocked w => set_k_cur (k_cur s) (w_ks w)
  end.

Lemma up_by_run q id s : k_held s = [] -> length (k_procs s) = NPROC ->
  by_proc q (bsem_up id) s =
  match find_sem (fun sm => (sem_id sm =? id) && (sem_is_locked sm =? 1)) s with
  | Some i => set_k_procs (imap (wakes (Some q) (Some (ChSem i))) (k_procs s)) (upd_sem i (set_sem_is_locked 0) s)
  | None => s
  end.
Proof.
  intros Hh Hlen. unfold by_proc. rewrite bsem_up_run.
  - cbn [w_ks]. change (find_sem _ (set_k_cur (Some q) s)) with (find_sem (fun sm => (sem_id sm =? id) && (sem_is_locked sm =? 1)) s).
    destruct (find_sem _ s) as [i|]; [unfold sem_open; kst_eq|kst_eq].
  - cbn. rewrite Hh. apply not_elem_of_nil.
  - done.
  - cbn. rewrite Hh. intros p Hp. inversion Hp.
Qed.

Lemma free_by_run q id s : k_held s = [] ->
  by_proc q (bsem_free id) s =
  match find_sem (fun sm => sem_id sm =? id) s with
  | Some i => upd_sem i (fun _ => mkSemaphore 0 0 0) s
  | None => s
  end.
Proof.
  intros Hh. unfold by_proc. rewrite bsem_free_run.
  - cbn [w_ks]. change (find_sem _ (set_k_cur (Some q) s)) with (find_sem (fun sm => sem_id sm =? id) s).
    destruct (find_sem _ s) as [i|]; kst_eq.
  - cbn. rewrite Hh. apply not_elem_of_nil.
Qed.

(** [p] sleeps on slot [i]; no process holds a lock. *)
Record on_sem (p i : nat) (s : kst) : Prop := {
  os_len : length (k_procs s) = NPROC;
  os_held : k_held s = [];
  os_state : p_state (get_proc p s) = SLEEPING;
  os_chan : p_chan (get_proc p s) = Some (ChSem i)
}.

(** ... and the slot holds the locked semaphore [id]. *)
Record waits (p i : nat) (id : Z) (s : kst) : Prop := {
  wt_on : on_sem p i s;
  wt_inv : sem_inv s;
  wt_sem : exists sm, k_sems s !! i = Some sm /\ sem_id sm = id /\ sem_is_locked sm = 1
}.

Lemma get_proc_imap p f s l : (p < length (k_procs s))%nat -> k_procs l = imap f (k_procs s) ->
  get_proc p l = f p (get_proc p s).
Proof.
  intros Hp Hl. unfold get_proc. destruct (lookup_lt_is_Some_2 _ _ Hp) as [x Hx].
  rewrite Hl, !list_lookup_total_alt, list_lookup_imap, Hx. done.
Qed.

Lemma on_sem_other p i j q s : (p < NPROC)%nat -> j <> i -> on_sem p i s ->
  on_sem p i (set_k_procs (imap (wakes (Some q) (Some (ChSem j))) (k_procs s)) (upd_sem j (set_sem_is_locked 0) s)).
Proof.
  intros Hp Hj [H1 H2 H3 H4].
  assert (Hg : get_proc p (set_k_procs (imap (wakes (Some q) (Some (ChSem j))) (k_procs s)) (upd_sem j (set_sem_is_locked 0) s))
    = get_proc p s).
  { rewrite (get_proc_imap p (wakes (Some q) (Some (ChSem j))) s) by (done || lia). unfold wakes.
    rewrite H4, (bool_decide_eq_false_2 (Some (ChSem i) = Some (ChSem j))) by congruence. by rewrite andb_false_r. }
  split; [cbn; by rewrite length_imap|done|by rewrite Hg..].
Qed.

Lemma waits_up_other p i id q id' s : (p < NPROC)%nat -> id' <> id ->
  waits p i id s -> waits p i id (by_proc q (bsem_up id') s).
Proof.
  intros Hp Hne [Hon Hinv (sm & Hsm & Hid & Hl)]. rewrite up_by_run by apply Hon.
  destruct (find_sem _ s) as [j|] eqn:Hf; [|by split; [..|exists sm]].
  apply (find_sem_some s Hinv) in Hf as (x & Hx & _ & HP). apply andb_prop in HP as [HP _]. apply Z.eqb_eq in HP.
  assert (Hji : j <> i) by (intros ->; congruence).
  split; [by apply on_sem_other| |].
  - by apply (sem_inv_lock s Hinv j 0); [..|left].
  - exists sm. split; [|done]. cbn. by rewrite list_lookup_alter, decide_False.
Qed.

Lemma up_wakes p i id q s : (p < NPROC)%nat -> q <> p -> 0 < id -> waits p i id s ->
  let s' := by_proc q (bsem_up id) s in
  p_state (get_proc p s') = RUNNABLE /\ k_sems s' = alter (set_sem_is_locked 0) i (k_sems s) /\
  k_nextsid s' = k_nextsid s.
Proof.
  intros Hp Hq Hid [Hon Hinv (sm & Hsm & Hi & Hl)]. cbn zeta. rewrite up_by_run by apply Hon.
  destruct (find_sem _ s) as [j|] eqn:Hf.
  2:{ pose proof (find_sem_none s Hinv _ Hf i sm Hsm) as HP. cbn in HP. rewrite Hi, Hl, Z.eqb_refl in HP. done. }
  apply (find_sem_some s Hinv) in Hf as (x & Hx & _ & HP). apply andb_prop in HP as [HP _]. apply Z.eqb_eq in HP.
  assert (j = i) as -> by (eapply (si_uniq s Hinv); [done|done|congruence|lia]).
  split; [|done]. destruct Hon as [H1 H2 H3 H4].
  rewrite (get_proc_imap p (wakes (Some q) (Some (ChSem i))) s) by (done || lia).
  unfold wakes. rewrite H3, H4, !bool_decide_eq_true_2 by (done || congruence). done.
Qed.

(** What the others may do while [p] waits: anything that leaves the slot with the locked
    semaphore [id] and [p] asleep on it, or woken.  The locks they take they release. *)
Record settled (p i : nat) (id : Z) (s : kst) : Prop := {
  st_len : length (k_procs s) = NPROC;
  st_held : k_held s = [];
  st_proc : (p_state (get_proc p s) = SLEEPING /\ p_chan (get_proc p s) = Some (ChSem i)) \/
    p_state (get_proc p s) = RUNNABLE;
  st_inv : sem_inv s;
  st_sem : exists sm, k_sems s !! i = Some sm /\ sem_id sm = id /\ sem_is_locked sm = 1
}.
Definition keeps_locked (p i : nat) (id : Z) (e : kst -> kst) : Prop :=
  forall s, waits p i id s -> settled p i id (e s).

Lemma waits_settled p i id s : waits p i id s -> settled p i id s.
Proof. intros [[H1 H2 H3 H4] H5 H6]. split; auto. Qed.

Lemma settled_waits p i id s : settled p i id s -> p_state (get_proc p s) <> RUNNABLE -> waits p i id s.
Proof. intros [H1 H2 [[H3 H4]|H3] H5 H6] Hn; [|done]. by split. Qed.

(** [bsem_up] on another semaphore, and signals to any process: SIGKILL wakes [p]. *)
Lemma up_keeps_locked p i id q id' : (p < NPROC)%nat -> id' <> id -> keeps_locked p i id (by_proc q (bsem_up id')).
Proof. intros Hp Hne s Hw. by apply waits_settled, waits_up_other. Qed.

Lemma signalled_state signum x : p_state (signalled signum x) = p_state x \/ p_state (signalled signum x) = RUNNABLE.
Proof. unfold signalled. destruct (signum =? SIGKILL); [|by left]. cbn. destruct (bool_decide _); [by right|by left]. Qed.

Lemma signalled_chan signum x : p_chan (signalled signum x) = p_chan x.
Proof. unfold signalled. destruct (signum =? SIGKILL); [|done]. cbn. by destruct (bool_decide _). Qed.

Lemma kill_keeps_locked p i id pid signum : 0 <= signum < 32 -> keeps_locked p i id (kill_by pid signum).
Proof.
  intros Hsig s Hw. pose proof (waits_settled _ _ _ _ Hw) as Hst. destruct Hw as [[H1 H2 H3 H4] H5 H6].
  unfold kill_by. rewrite kill_run; [|done|by rewrite H2; intros; apply not_elem_of_nil|done].
  destruct (pid_slot pid s) as [q|] eqn:Hq; [|done]. apply find_seq_Some in Hq as (Hq & _). cbn [w_ks].
  split; [cbn; by rewrite length_alter|done| |by destruct H5; split|done].
  destruct (decide (q = p)) as [->|Hne]; [|rewrite get_upd_proc_ne by done; by left].
  rewrite get_upd_proc by (cbn; lia). rewrite signalled_chan, H4.
  destruct (signalled_state signum (get_proc p s)) as [->|]; [left; by rewrite H3|by right].
Qed.

Section Loop.
Context (p i : nat) (id : Z) (Hp : (p < NPROC)%nat).

Lemma sem_cond_env (w : world) b w' :
  kgets (fun s => sem_is_locked (get_sem i s) =? 1) w = Ok b w' -> w_env w' = w_env w.
Proof. by intros [= _ <-]. Qed.

(** The waiter holds the lock of the table and looks at the slot. *)
Record looking (s : kst) : Prop := {
  lk_cur : k_cur s = Some p;
  lk_len : length (k_procs s) = NPROC;
  lk_held : k_held s = [LBsem];
  lk_inv : sem_inv s;
  lk_sem : exists sm, k_sems s !! i = Some sm /\ sem_id sm = id /\ sem_is_locked sm = 1
}.

(** What the waiter does from its sleep on. *)
Definition from_sleep (env : list (kst -> kst)) (intr : bool) (s : kst) : res world unit :=
  match until_runnable p env s with
  | Some (s', rest) => down_slot i (mkWorld (awoken p LBsem intr s') rest)
  | None => Blocked (mkWorld (run_all env s) [])
  end.

Lemma looking_sleeps s env : looking s ->
  down_slot i (mkWorld s env) = from_sleep env (k_intr s) (asleep p (ChSem i) s) /\
  waits p i id (asleep p (ChSem i) s).
Proof.
  intros [Hcur Hlen Hheld Hinv (sm & Hsm & Hi & Hl)]. split.
  - unfold down_slot at 1. unfold mbind at 1, M_bind.
    rewrite (sleep_while_unfold _ _ _ _ true).
    2:{ intros w b w'. apply sem_cond_env. }
    2:{ unfold kgets, gets. cbn [w_ks]. by rewrite (get_sem_lookup i s sm Hsm), Hl. }
    unfold mbind at 1, M_bind. rewrite (sleep_run (ChSem i) LBsem p s) by (done || (cbn; lia)).
    unfold from_sleep. by destruct (until_runnable p env _) as [[s' rest]|].
  - assert (Hg : get_proc p (asleep p (ChSem i) s) = set_p_state SLEEPING (set_p_chan (Some (ChSem i)) (get_proc p s))).
    { change (get_proc p (upd_proc p (fun x => set_p_state SLEEPING (set_p_chan (Some (ChSem i)) x)) s)
        = set_p_state SLEEPING (set_p_chan (Some (ChSem i)) (get_proc p s))). rewrite get_upd_proc by lia. done. }
    split; [|by destruct Hinv; split|by exists sm].
    split; [cbn; by rewrite length_alter|done|by rewrite Hg..].
Qed.

Lemma settled_looking s intr : settled p i id s -> looking (awoken p LBsem intr s).
Proof. intros [H1 H2 _ H4 H5]. split; [done|cbn; by rewrite length_alter|done|by destruct H4; split|done]. Qed.

(** However often it is woken, it is asleep again after each action of the others. *)
Lemma from_sleep_waits env : Forall (keeps_locked p i id) env -> forall intr s, waits p i id s ->
  exists intr' s', waits p i id s' /\ forall last, from_sleep (env ++ last) intr s = from_sleep last intr' s'.
Proof.
  induction 1 as [|e env He _ IH]; intros intr s Hw; [by exists intr, s|].
  specialize (He s Hw). unfold from_sleep. cbn [app until_runnable].
  destruct (decide (p_state (get_proc p (e s)) = RUNNABLE)) as [Hr|Hr].
  - pose proof (settled_looking (e s) intr He) as Hlk.
    destruct (IH (k_intr (awoken p LBsem intr (e s))) _ (proj2 (looking_sleeps _ [] Hlk))) as (intr' & s' & Hw' & H).
    exists intr', s'. split; [done|]. intros last.
    destruct (looking_sleeps (awoken p LBsem intr (e s)) (env ++ last) Hlk) as [-> _]. apply H.
  - destruct (IH intr (e s) (settled_waits _ _ _ _ He Hr)) as (intr' & s' & Hw' & H).
    exists intr', s'. split; [done|]. intros last. apply H.
Qed.

(** After [bsem_up] by another process it takes the semaphore. *)
Lemma from_sleep_up q intr s : q <> p -> 0 < id -> waits p i id s -> exists s',
  from_sleep [by_proc q (bsem_up id)] intr s = Ok tt (mkWorld s' []) /\
  k_cur s' = Some p /\ k_held s' = [] /\ p_state (get_proc p s') = RUNNING /\
  exists sm, k_sems s' !! i = Some sm /\ sem_id sm = id /\ sem_is_locked sm = 1.
Proof.
  intros Hq Hid Hw. destruct (up_wakes p i id q s Hp Hq Hid Hw) as (Hst & Hsems & Hns).
  unfold from_sleep. cbn [until_runnable]. rewrite decide_True by exact Hst.
  set (s3 := by_proc q (bsem_up id) s) in *. destruct Hw as [Hon _ (sm & Hsm & Hi & Hl)].
  set (s4 := awoken p LBsem intr s3).
  assert (Hsem4 : k_sems s4 !! i = Some (set_sem_is_locked 0 sm)).
  { change (k_sems s4) with (k_sems s3). by rewrite Hsems, list_lookup_alter, decide_True, Hsm. }
  pose proof (down_slot_free i (set_k_held [] s4) []) as Hd.
  change (set_k_held (LBsem :: k_held (set_k_held [] s4)) (set_k_held [] s4)) with s4 in Hd.
  rewrite Hd.
  2:{ change (get_sem i (set_k_held [] s4)) with (get_sem i s4). by rewrite (get_sem_lookup _ _ _ Hsem4). }
  eexists. split; [done|]. split; [done|]. split; [done|]. split.
  - change (p_state (get_proc p (upd_proc p (fun x => set_p_chan None (set_p_state RUNNING x)) s3)) = RUNNING).
    assert (Hlen3 : length (k_procs s3) = NPROC).
    { unfold s3. rewrite up_by_run by apply Hon. destruct (find_sem _ s); cbn; rewrite ?length_imap; apply Hon. }
    rewrite get_upd_proc by lia. done.
  - exists (set_sem_is_locked 1 (set_sem_is_locked 0 sm)). split; [|done].
    cbn [upd_sem k_sems set_k_sems]. change (k_sems (set_k_held [] s4)) with (k_sems s4).
    by rewrite list_lookup_alter, decide_True, Hsem4.
Qed.

End Loop.

Section Waiting.
Context (p i : nat) (id : Z) (s : kst).
Hypothesis (Hcur : k_cur s = Some p) (Hp : (p < NPROC)%nat) (Hlen : length (k_procs s) = NPROC)
  (Hheld : k_held s = []) (Hinv : sem_inv s) (Hid : 0 < id)
  (Hsem : exists sm, k_sems s !! i = Some sm /\ sem_id sm = id /\ sem_is_locked sm = 1).

Let s1 := set_k_held [LBsem] s.

Lemma down_looking : looking p i id s1.
Proof. split; [done..|by destruct Hinv; split|done]. Qed.

Lemma asleep_waits : waits p i id (asleep p (ChSem i) s1).
Proof. by apply (looking_sleeps p i id Hp s1 []), down_looking. Qed.

(** A [bsem_down] that has to wait. *)
Lemma bsem_down_sleeps env : bsem_down id (mkWorld s env) = from_sleep p i env (k_intr s) (asleep p (ChSem i) s1).
Proof.
  rewrite bsem_down_run by (rewrite Hheld; apply not_elem_of_nil).
  destruct Hsem as (sm & Hsm & Hi & Hl).
  destruct (find_sem _ s) as [j|] eqn:Hf.
  2:{ pose proof (find_sem_none s Hinv _ Hf i sm Hsm) as HP. cbn in HP. rewrite Hi, Z.eqb_refl in HP. done. }
  apply (find_sem_some s Hinv) in Hf as (x & Hx & _ & HP). apply Z.eqb_eq in HP.
  assert (j = i) as -> by (eapply (si_uniq s Hinv); [done|done|congruence|lia]).
  rewrite Hheld. fold s1. by apply (looking_sleeps p i id Hp s1 env down_looking).
Qed.

(** Nobody is woken by [bsem_up] once the slot is unlocked. *)
Lemma stranded_up q id' s' : on_sem p i s' /\ sem_is_locked (get_sem i s') <> 1 ->
  let s2 := by_proc q (bsem_up id') s' in on_sem p i s2 /\ sem_is_locked (get_sem i s2) <> 1.
Proof.
  intros [Hon Hl]. cbn zeta. rewrite up_by_run by apply Hon. destruct (find_sem _ s') as [j|] eqn:Hf; [|done].
  apply find_sem_lt in Hf as [_ HP]. apply andb_prop in HP as [_ HP]. apply Z.eqb_eq in HP.
  assert (Hji : j <> i) by (intros ->; done). split; [by apply on_sem_other|].
  unfold get_sem. cbn. rewrite list_lookup_total_alt, list_lookup_alter, decide_False by done.
  by rewrite <- list_lookup_total_alt.
Qed.

Lemma free_strands q : let s' := by_proc q (bsem_free id) (asleep p (ChSem i) s1) in
  on_sem p i s' /\ sem_is_locked (get_sem i s') <> 1.
Proof.
  destruct asleep_waits as [Hon Hinv' (sm & Hsm & Hi & Hl)]. cbn zeta. rewrite free_by_run by apply Hon.
  destruct (find_sem _ _) as [j|] eqn:Hf.
  2:{ pose proof (find_sem_none _ Hinv' _ Hf i sm Hsm) as HP. cbn in HP. rewrite Hi, Z.eqb_refl in HP. done. }
  apply (find_sem_some _ Hinv') in Hf as (x & Hx & _ & HP). apply Z.eqb_eq in HP.
  assert (j = i) as -> by (eapply (si_uniq _ Hinv'); [done|done|congruence|lia]).
  split; [destruct Hon; by split|]. rewrite get_upd_sem by (by eapply lookup_lt_Some). done.
Qed.

(** C22: A locked semaphore is waited for.  [bsem_down(id)] on a locked semaphore does not
    return while the others keep it allocated and locked, whatever else they do and however
    often they wake the caller, as [kill] with SIGKILL does: it goes back to sleep.  After a
    [bsem_up(id)] by another process it returns, with the semaphore locked again and the
    caller running and holding no lock. *)
Theorem bsem_down_waits_for_up (env : list (kst -> kst)) :
  Forall (keeps_locked p i id) env ->
  (exists w', bsem_down id (mkWorld s env) = Blocked w') /\
  forall q, q <> p -> exists s',
    bsem_down id (mkWorld s (env ++ [by_proc q (bsem_up id)])) = Ok tt (mkWorld s' []) /\
    k_cur s' = Some p /\ k_held s' = [] /\ p_state (get_proc p s') = RUNNING /\
    exists sm, k_sems s' !! i = Some sm /\ sem_id sm = id /\ sem_is_locked sm = 1.
Proof.
  intros He. destruct (from_sleep_waits p i id Hp env He (k_intr s) _ asleep_waits) as (intr & s2 & Hw & H). split.
  - rewrite bsem_down_sleeps. specialize (H []). rewrite app_nil_r in H. rewrite H. by eexists.
  - intros q Hq. rewrite bsem_down_sleeps, H. by apply from_sleep_up.
Qed.

(** freeing a semaphore strands its waiters. If another process calls [bsem_free(id)]
    while [bsem_down(id)] waits, the waiter is not woken: it is still asleep after any
    number of [bsem_up] calls, on [id] or any other semaphore. *)
Theorem bsem_free_strands_waiter q (others : list (nat * Z)) :
  exists w', bsem_down id (mkWorld s (by_proc q (bsem_free id) ::
      ((fun c => by_proc (fst c) (bsem_up (snd c))) <$> others))) = Blocked w' /\
    p_state (get_proc p (w_ks w')) = SLEEPING.
Proof.
  rewrite bsem_down_sleeps. destruct (free_strands q) as [Hon Hl]. cbn zeta in Hon, Hl.
  unfold from_sleep. cbn [until_runnable]. rewrite decide_False by (rewrite (os_state _ _ _ Hon); discriminate).
  set (s2 := by_proc q (bsem_free id) (asleep p (ChSem i) s1)) in *.
  destruct (until_runnable_skip (fun s => on_sem p i s /\ sem_is_locked (get_sem i s) <> 1) p
    ((fun c => by_proc (fst c) (bsem_up (snd c))) <$> others) [] s2) as [Hu [Hon' _]].
  - intros s' [Hs' _]. rewrite (os_state _ _ _ Hs'). discriminate.
  - apply Forall_fmap, Forall_true. intros c s' Hs'. by apply stranded_up.
  - done.
  - rewrite app_nil_r in Hu. rewrite Hu. eexists. split; [reflexivity|].
    cbn [w_ks run_all foldl]. apply (os_state _ _ _ Hon').
Qed.

End Waiting.

(** Process 3, with pid 7, on the CPU, the semaphore of [demo_sems] locked. *)
Definition demo_waiter : kst := set_k_cur (Some 3%nat) (upd_proc 3 (fun x => set_p_pid 7 (set_p_state RUNNING x)) demo_sems).

Lemma demo_waiter_ok : sem_inv demo_waiter /\
  exists sm, k_sems demo_waiter !! 0%nat = Some sm /\ sem_id sm = 1 /\ sem_is_locked sm = 1.
Proof.
  destruct demo_sems_ok as [[H1 H2 H3 H4] _]. split; [by split|]. by exists (mkSemaphore 1 1 1).
Qed.

(** Process 3 is woken by a SIGKILL, and goes back to sleep. *)
Lemma bsem_down_waits_for_up_witness : exists s',
  p_pid (get_proc 3 demo_waiter) = 7 /\
  bsem_down 1 (mkWorld demo_waiter [by_proc 4 (bsem_up 2); kill_by 7 SIGKILL; by_proc 5 (bsem_up 1)]) = Ok tt (mkWorld s' []) /\
  k_held s' = [].
Proof.
  destruct demo_waiter_ok as [Hinv Hsem].
  destruct (bsem_down_waits_for_up 3 0 1 demo_waiter) with (env := [by_proc 4 (bsem_up 2); kill_by 7 SIGKILL]) as [_ H];
    [reflexivity|unfold NPROC; lia|reflexivity|reflexivity|exact Hinv|lia|exact Hsem| |].
  - apply Forall_cons. split; [apply up_keeps_locked; [unfold NPROC; lia|lia]|].
    apply Forall_singleton, kill_keeps_locked. split; reflexivity || (intros; discriminate).
  - destruct (H 5%nat) as (s' & Hrun & _ & Hh & _); [lia|]. exists s'.
    split; [reflexivity|]. split; [exact Hrun|exact Hh].
Defined.

Lemma bsem_free_strands_waiter_witness : exists w',
  bsem_down 1 (mkWorld demo_waiter [by_proc 5 (bsem_free 1); by_proc 5 (bsem_up 1)]) = Blocked w' /\
  p_state (get_proc 3 (w_ks w')) = SLEEPING.
Proof.
  destruct demo_waiter_ok as [Hinv Hsem].
  apply (bsem_free_strands_waiter 3 0 1 demo_waiter) with (others := [(5%nat, 1)]);
    [reflexivity|unfold NPROC; lia|reflexivity|reflexivity|exact Hinv|lia|exact Hsem].
Defined.
