(* ===== verification/Syscall.v ===== *)
(** * System-call arguments and the process system calls
      (kernel/syscall.c: fetchaddr .. argstr; kernel/sysproc.c) *)

From stdpp Require Import base gmap list strings.
From Stdlib Require Import ZArith Lia.
From S2P Require Import Prelude Riscv Memory State Spinlock Sched Kalloc Vm Bio Log Fs Console Pipe File Proc Signal Bsem.

Section Syscall.
Context {KS : KSyms} {ST : SlotTail}.

(** Fetch the uint64 at addr from the current process; [None] is the return of -1. *)
Definition fetchaddr (addr : Z) : K (option Z) :=
  p ← curproc;
  pr ← proc_of p;
  if (p_sz pr <=? addr) || (p_sz pr <? u64 (addr + 8)) then mret None else
  r ← copyin (p_pagetable pr) addr 8;
  if negb (fst r =? 0) then mret None else mret (Some (le_combine (snd r))).

(** Fetch the nul-terminated string at addr from the current process into a buffer of
    [max] bytes.  Returns the return value (the length of the string, without its nul, or
    -1) and the bytes written to the buffer. *)
Definition fetchstr (addr : Z) (max : nat) : K (Z * list Z) :=
  p ← curproc;
  pr ← proc_of p;
  r ← copyinstr (p_pagetable pr) addr max;
  if fst r <? 0 then mret r else
  match strlen (str_of_list (snd r)) (length (snd r)) with
  | Some n => mret (n, snd r)
  | None => panic "kerneltrap"
  end.

Definition argraw (n : Z) : K Z :=
  p ← curproc;
  match n with
  | 0 => tf_get p TF_a0
  | 1 => tf_get p TF_a1
  | 2 => tf_get p TF_a2
  | 3 => tf_get p TF_a3
  | 4 => tf_get p TF_a4
  | 5 => tf_get p TF_a5
  | _ => panic "argraw"
  end.

(** Fetch the nth 32-bit system call argument. *)
Definition argint (n : Z) : K Z := x ← argraw n; mret (s32 x).
(** Retrieve an argument as a pointer. *)
Definition argaddr (n : Z) : K Z := argraw n.
(** Fetch the nth word-sized system call argument as a null-terminated string. *)
Definition argstr (n : Z) (max : nat) : K (Z * list Z) :=
  addr ← argaddr n; fetchstr addr max.

(** ** sysproc.c: every handler returns the uint64 that goes into a0 *)

Definition sys_exit : K Z :=
  n ← argint 0; exit n;; mret 0.

Definition sys_getpid : K Z :=
  p ← curproc; pr ← proc_of p; mret (u64 (p_pid pr)).

Definition sys_fork : K Z := r ← fork; mret (u64 r).

Definition sys_wait : K Z := p ← argaddr 0; r ← wait p; mret (u64 r).

Definition sys_sbrk : K Z :=
  n ← argint 0;
  p ← curproc;
  pr ← proc_of p;
  let addr := s32 (p_sz pr) in
  r ← growproc n;
  if r <? 0 then mret (u64 (-1)) else mret (u64 addr).

(** The loop of [sys_sleep]: [ticks - ticks0 < n] compares as unsigned. *)
Fixpoint sleep_ticks (fuel : nat) (p : nat) (ticks0 n : Z) : K Z :=
  match fuel with
  | O => block
  | S fuel =>
      t ← kgets k_ticks;
      if u32 (t - ticks0) <? u32 n then
        pr ← proc_of p;
        if negb (p_killed pr =? 0) then release LTicks;; mret (u64 (-1))
        else sleep ChTicks LTicks;; sleep_ticks fuel p ticks0 n
      else release LTicks;; mret 0
  end.

Definition sys_sleep : K Z :=
  n ← argint 0;
  acquire LTicks;;
  ticks0 ← kgets k_ticks;
  p ← curproc;
  fuel ← gets (fun w => S (length (w_env w)));
  sleep_ticks fuel p ticks0 n.

Definition sys_kill : K Z :=
  pid ← argint 0;
  signum ← argint 1;
  r ← kill pid signum;
  mret (u64 r).

Definition sys_uptime : K Z :=
  acquire LTicks;;
  xticks ← kgets k_ticks;
  release LTicks;;
  mret xticks.

Definition sys_sigprocmask : K Z :=
  sigmask ← argint 0;
  if sigmask <? 0 then mret (u64 (-1)) else sigprocmask (u32 sigmask).

Definition sys_sigaction : K Z :=
  signum ← argint 0;
  act ← argaddr 1;
  oldact ← argaddr 2;
  r ← sigaction signum act oldact;
  mret (u64 r).

Definition sys_sigret : K Z := sigret;; mret 0.

Definition sys_bsem_alloc : K Z := r ← bsem_alloc; mret (u64 r).
Definition sys_bsem_free : K Z := id ← argint 0; bsem_free id;; mret 0.
Definition sys_bsem_down : K Z := id ← argint 0; bsem_down id;; mret 0.
Definition sys_bsem_up : K Z := id ← argint 0; bsem_up id;; mret 0.

End Syscall.
