(* ===== verification/Exec.v ===== *)
(** * exec (kernel/exec.c, kernel/elf.h) *)

From stdpp Require Import base gmap list strings.
From Stdlib Require Import ZArith Lia.
From S2P Require Import Prelude Riscv Memory State Spinlock Sched Kalloc Vm Bio Log Fs Console Pipe File Proc.

(** ** elf.h *)

Definition ELF_MAGIC : Z := 0x464C457F.
Definition ELF_PROG_LOAD : Z := 1.
Definition SIZEOF_ELFHDR : Z := 64.
Definition SIZEOF_PROGHDR : Z := 56.

Definition get64 (l : list Z) (off : nat) : Z := le_combine (take 8 (drop off l)).

(** [struct elfhdr]: the fields [exec] reads. *)
Definition elf_magic (l : list Z) : Z := get32 l 0.
Definition elf_entry (l : list Z) : Z := get64 l 24.
Definition elf_phoff (l : list Z) : Z := get64 l 32.
Definition elf_phnum (l : list Z) : Z := get16 l 56.

(** [struct proghdr]. *)
Definition ph_type (l : list Z) : Z := get32 l 0.
Definition ph_off (l : list Z) : Z := get64 l 8.
Definition ph_vaddr (l : list Z) : Z := get64 l 16.
Definition ph_filesz (l : list Z) : Z := get64 l 32.
Definition ph_memsz (l : list Z) : Z := get64 l 40.

Section Exec.
Context {KS : KSyms}.

(** The loop of [loadseg] from offset [i]; [sz] and [offset] are 32-bit.  [i] also is
    32-bit, so with [sz] above 2^32 - PGSIZE it wraps to 0 and the loop goes on. *)
Fixpoint loadseg_loop (fuel : nat) (pagetable va : Z) (ip : nat) (offset sz i : Z) : K Z :=
  if i <? sz then
    match fuel with
    | O => block
    | S fuel =>
        pa ← walkaddr pagetable (u64 (va + i));
        if pa =? 0 then panic "loadseg: address should exist" else
        let n := if u32 (sz - i) <? PGSIZE then u32 (sz - i) else PGSIZE in
        r ← readi ip (DKern pa) (u32 (offset + i)) n;
        if negb (u32 (fst r) =? n) then mret (-1)
        else loadseg_loop fuel pagetable va ip offset sz (u32 (i + PGSIZE))
    end
  else mret 0.

(** Load a program segment into pagetable at virtual address va. *)
Definition loadseg (pagetable va : Z) (ip : nat) (offset sz : Z) : K Z :=
  if negb (va mod PGSIZE =? 0) then panic "loadseg: va must be page aligned"
  else loadseg_loop (Z.to_nat (sz / PGSIZE + 1)) pagetable va ip offset sz 0.

(** The loop over the program headers.  [inl sz]: goto bad with that [sz]; [inr sz]: all
    segments loaded. *)
Fixpoint exec_load (n : nat) (pagetable : Z) (ip : nat) (off sz : Z) : K (Z + Z) :=
  match n with
  | O => mret (inr sz)
  | S n =>
      r ← readi ip DLocal (u32 off) SIZEOF_PROGHDR;
      if negb (fst r =? SIZEOF_PROGHDR) then mret (inl sz) else
      let ph := snd r in
      if negb (ph_type ph =? ELF_PROG_LOAD) then
        exec_load n pagetable ip (s32 (off + SIZEOF_PROGHDR)) sz
      else if ph_memsz ph <? ph_filesz ph then mret (inl sz)
      else if u64 (ph_vaddr ph + ph_memsz ph) <? ph_vaddr ph then mret (inl sz)
      else
        sz1 ← uvmalloc pagetable sz (u64 (ph_vaddr ph + ph_memsz ph));
        if sz1 =? 0 then mret (inl sz) else
        if negb (ph_vaddr ph mod PGSIZE =? 0) then mret (inl sz1) else
        e ← loadseg pagetable (ph_vaddr ph) ip (u32 (ph_off ph)) (u32 (ph_filesz ph));
        if e <? 0 then mret (inl sz1)
        else exec_load n pagetable ip (s32 (off + SIZEOF_PROGHDR)) sz1
  end.

(** Push the argument strings; each element of [argv] is a string without its nul.
    Returns the stack pointer and the addresses pushed, [None] for goto bad. *)
Fixpoint push_args (argv : list (list Z)) (argc : nat) (pagetable sp stackbase : Z)
    (ustack : list Z) : K (option (Z * list Z)) :=
  match argv with
  | [] => mret (Some (sp, ustack))
  | s :: argv =>
      if bool_decide (MAXARG ≤ argc)%nat then mret None else
      let sp := u64 (sp - (Z.of_nat (length s) + 1)) in
      let sp := u64 (sp - sp mod 16) in
      if sp <? stackbase then mret None else
      e ← copyout pagetable sp (s ++ [0]);
      if e <? 0 then mret None
      else push_args argv (S argc) pagetable sp stackbase (ustack ++ [sp])
  end.

(** The part of the path after its last slash. *)
Fixpoint path_last (s last : list Z) : list Z :=
  match s with
  | [] => last
  | c :: s => path_last s (if c =? 47 then s else last)
  end.

(** Handlers other than SIG_IGN and SIG_DFL point into the old image: reset them. *)
Definition exec_handlers (p : nat) : K unit :=
  for_each (seq 0 32) (fun j =>
    pr ← proc_of p;
    when (negb ((p_signalHandlers pr !!! j =? SIG_IGN)
                || (p_signalHandlers pr !!! j =? SIG_DFL))) (
      proc_upd p (fun x => set_p_signalHandlers (<[j := SIG_DFL]> (p_signalHandlers x)) x);;
      proc_upd p (fun x => set_p_sigMaskArray (<[j := 0]> (p_sigMaskArray x)) x))).

(** The user stack: two pages above the image, the lower one made inaccessible, the
    arguments and their addresses pushed on the other.  [inl sz]: goto bad with that
    [sz]; [inr (sz, sp)]. *)
Definition exec_stack (pagetable sz : Z) (argv : list (list Z)) : K (Z + Z * Z) :=
  let sz := PGROUNDUP sz in
  sz1 ← uvmalloc pagetable sz (u64 (sz + 2 * PGSIZE));
  if sz1 =? 0 then mret (inl sz) else
  let sz := sz1 in
  uvmclear pagetable (u64 (sz - 2 * PGSIZE));;
  let stackbase := u64 (sz - PGSIZE) in
  r ← push_args argv 0 pagetable sz stackbase [];
  match r with
  | None => mret (inl sz)
  | Some (sp, ustack) =>
      let sp := u64 (sp - Z.of_nat (length argv + 1) * 8) in
      let sp := u64 (sp - sp mod 16) in
      if sp <? stackbase then mret (inl sz) else
      e ← copyout pagetable sp (mjoin (le_split 8 <$> (ustack ++ [0])));
      if e <? 0 then mret (inl sz) else mret (inr (sz, sp))
  end.

(** Replace the current process's image. [path] and the [argv] strings are without nul. *)
Definition exec (path : list Z) (argv : list (list Z)) : K Z :=
  p ← curproc;
  begin_op;;
  r ← namei path;
  match r with
  | None => end_op;; mret (-1)
  | Some ip =>
      ilock ip;;
      r ← readi ip DLocal 0 SIZEOF_ELFHDR;
      let elf := snd r in
      if negb (fst r =? SIZEOF_ELFHDR) || negb (elf_magic elf =? ELF_MAGIC) then
        iunlockput ip;; end_op;; mret (-1)
      else
      pagetable ← proc_pagetable p;
      if pagetable =? 0 then iunlockput ip;; end_op;; mret (-1) else
      r ← exec_load (Z.to_nat (elf_phnum elf)) pagetable ip (s32 (elf_phoff elf)) 0;
      match r with
      | inl sz =>
          proc_freepagetable pagetable sz;; iunlockput ip;; end_op;; mret (-1)
      | inr sz =>
          iunlockput ip;;
          end_op;;
          pr ← proc_of p;
          let oldsz := p_sz pr in
          r ← exec_stack pagetable sz argv;
          match r with
          | inl sz => proc_freepagetable pagetable sz;; mret (-1)
          | inr (sz, sp) =>
              tf_set p TF_a1 sp;;
              proc_upd p (set_name (path_last path path));;
              exec_handlers p;;
              pr ← proc_of p;
              let oldpagetable := p_pagetable pr in
              proc_upd p (set_p_pagetable pagetable);;
              proc_upd p (set_p_sz sz);;
              tf_set p TF_epc (elf_entry elf);;
              tf_set p TF_sp sp;;
              proc_freepagetable oldpagetable oldsz;;
              mret (Z.of_nat (length argv))
          end
      end
  end.

End Exec.
