(* ===== verification/Sysfile.v ===== *)
(** * File-system system calls (kernel/sysfile.c, kernel/fcntl.h)

    The handlers return the uint64 that goes into a0, [-1] as [u64 (-1)]. *)

From stdpp Require Import base gmap list strings.
From Stdlib Require Import ZArith Lia.
From S2P Require Import Prelude Riscv Memory State Spinlock Sched Kalloc Vm Bio Log Fs Console Pipe File Proc Signal Bsem Syscall Exec.

Definition O_RDONLY : Z := 0x000.
Definition O_WRONLY : Z := 0x001.
Definition O_RDWR : Z := 0x002.
Definition O_CREATE : Z := 0x200.
Definition O_TRUNC : Z := 0x400.

(** The kernel's return of -1 from a handler. *)
Definition FAIL : Z := u64 (-1).
Definition path_max : nat := Z.to_nat MAXPATH.

Section Sysfile.
Context {KS : KSyms}.

(** Fetch the nth system call argument as a file descriptor: the descriptor and its
    file; [None] is the return of -1. *)
Definition argfd (n : Z) : K (option (nat * nat)) :=
  fd ← argint n;
  p ← curproc;
  pr ← proc_of p;
  if (fd <? 0) || (Z.of_nat NOFILE <=? fd) then mret None else
  mret (match p_ofile pr !! Z.to_nat fd ≫= id with
        | Some f => Some (Z.to_nat fd, f)
        | None => None
        end).

(** Allocate a file descriptor for the given file; [None] is -1. *)
Definition fdalloc (f : nat) : K (option nat) :=
  p ← curproc;
  for_until (seq 0 NOFILE) (fun fd =>
    pr ← proc_of p;
    match p_ofile pr !! fd ≫= id with
    | None =>
        proc_upd p (fun x => set_p_ofile (<[fd := Some f]> (p_ofile x)) x);;
        mret (Some fd)
    | Some _ => mret None
    end).

Definition clear_fd (p fd : nat) : K unit :=
  proc_upd p (fun x => set_p_ofile (<[fd := None]> (p_ofile x)) x).

Definition sys_dup : K Z :=
  r ← argfd 0;
  match r with
  | None => mret FAIL
  | Some (_, f) =>
      fd ← fdalloc f;
      match fd with
      | None => mret FAIL
      | Some fd => filedup f;; mret (Z.of_nat fd)
      end
  end.

Definition sys_read : K Z :=
  r ← argfd 0;
  match r with
  | None => mret FAIL
  | Some (_, f) =>
      n ← argint 2; p ← argaddr 1;
      r ← fileread f p n; mret (u64 r)
  end.

Definition sys_write : K Z :=
  r ← argfd 0;
  match r with
  | None => mret FAIL
  | Some (_, f) =>
      n ← argint 2; p ← argaddr 1;
      r ← filewrite f p n; mret (u64 r)
  end.

Definition sys_close : K Z :=
  r ← argfd 0;
  match r with
  | None => mret FAIL
  | Some (fd, f) =>
      p ← curproc;
      clear_fd p fd;;
      fileclose f;;
      mret 0
  end.

Definition sys_fstat : K Z :=
  r ← argfd 0;
  match r with
  | None => mret FAIL
  | Some (_, f) => st ← argaddr 1; r ← filestat f st; mret (u64 r)
  end.

(** A path argument, up to its nul; [None] is an error. *)
Definition argpath (n : Z) : K (option (list Z)) :=
  r ← argstr n path_max;
  mret (if fst r <? 0 then None else Some (until_nul (snd r))).

(** The [bad:] exit of [sys_link]: undo the increment of nlink. *)
Definition link_bad (ip : nat) : K Z :=
  ilock ip;;
  inode_upd ip (fun x => set_i_nlink (s16 (i_nlink x - 1)) x);;
  iupdate ip;;
  iunlockput ip;;
  end_op;;
  mret FAIL.

(** Create the path new as a link to the same inode as old. *)
Definition sys_link : K Z :=
  old ← argpath 0;
  match old with None => mret FAIL | Some old =>
  new ← argpath 1;
  match new with None => mret FAIL | Some new =>
  begin_op;;
  r ← namei old;
  match r with
  | None => end_op;; mret FAIL
  | Some ip =>
      ilock ip;;
      x ← inode_of ip;
      if i_type x =? T_DIR then iunlockput ip;; end_op;; mret FAIL else
      inode_upd ip (fun x => set_i_nlink (s16 (i_nlink x + 1)) x);;
      iupdate ip;;
      iunlock ip;;
      r ← nameiparent new;
      match fst r with
      | None => link_bad ip
      | Some dp =>
          ilock dp;;
          d ← inode_of dp;
          x ← inode_of ip;
          e ← (if negb (i_dev d =? i_dev x) then mret true
               else r ← dirlink dp (snd r) (i_inum x); mret (r <? 0));
          if e : bool then iunlockput dp;; link_bad ip
          else
            iunlockput dp;;
            iput ip;;
            end_op;;
            mret 0
      end
  end end end.

(** Is the directory dp empty except for . and .. ? *)
Definition isdirempty (dp : nat) : K bool :=
  d ← inode_of dp;
  r ← for_until (seq 2 (dirent_iters (2 * DIRENT_SIZE) (i_size d))) (fun k =>
    r ← readi dp DLocal (Z.of_nat k * DIRENT_SIZE) DIRENT_SIZE;
    if negb (fst r =? DIRENT_SIZE) then panic "isdirempty: readi"
    else if negb (dirent_inum (snd r) =? 0) then mret (Some false)
    else mret None);
  mret (default true r).

(** The [bad:] exit of [sys_unlink]. *)
Definition unlink_bad (dp : nat) : K Z := iunlockput dp;; end_op;; mret FAIL.

Definition sys_unlink : K Z :=
  path ← argpath 0;
  match path with None => mret FAIL | Some path =>
  begin_op;;
  r ← nameiparent path;
  let name := snd r in
  match fst r with
  | None => end_op;; mret FAIL
  | Some dp =>
      ilock dp;;
      if (namecmp name (bytes_of ".") =? 0) || (namecmp name (bytes_of "..") =? 0)
      then unlink_bad dp else
      r ← dirlookup dp name;
      match r with
      | None => unlink_bad dp
      | Some (ip, off) =>
          ilock ip;;
          x ← inode_of ip;
          if i_nlink x <? 1 then panic "unlink: nlink < 1" else
          full ← (if i_type x =? T_DIR then b ← isdirempty ip; mret (negb b)
                  else mret false);
          if full : bool then iunlockput ip;; unlink_bad dp else
          n ← writei dp (SLocal (replicate 16 0)) off DIRENT_SIZE;
          if negb (n =? DIRENT_SIZE) then panic "unlink: writei" else
          x ← inode_of ip;
          when (i_type x =? T_DIR) (
            inode_upd dp (fun x => set_i_nlink (s16 (i_nlink x - 1)) x);;
            iupdate dp);;
          iunlockput dp;;
          inode_upd ip (fun x => set_i_nlink (s16 (i_nlink x - 1)) x);;
          iupdate ip;;
          iunlockput ip;;
          end_op;;
          mret 0
      end
  end end.

(** Create the inode [path] names; the result is locked. *)
Definition create (path : list Z) (type major minor : Z) : K (option nat) :=
  r ← nameiparent path;
  let name := snd r in
  match fst r with
  | None => mret None
  | Some dp =>
      ilock dp;;
      r ← dirlookup dp name;
      match r with
      | Some (ip, _) =>
          iunlockput dp;;
          ilock ip;;
          x ← inode_of ip;
          if (type =? T_FILE) && ((i_type x =? T_FILE) || (i_type x =? T_DEVICE))
          then mret (Some ip)
          else iunlockput ip;; mret None
      | None =>
          d ← inode_of dp;
          ip ← ialloc (i_dev d) type;
          ilock ip;;
          inode_upd ip (set_i_major major);;
          inode_upd ip (set_i_minor minor);;
          inode_upd ip (set_i_nlink 1);;
          iupdate ip;;
          when (type =? T_DIR) (
            inode_upd dp (fun x => set_i_nlink (s16 (i_nlink x + 1)) x);;
            iupdate dp;;
            x ← inode_of ip;
            e ← dirlink ip (bytes_of ".") (i_inum x);
            if e <? 0 then panic "create dots" else
            d ← inode_of dp;
            e ← dirlink ip (bytes_of "..") (i_inum d);
            if e <? 0 then panic "create dots" else mret tt);;
          x ← inode_of ip;
          e ← dirlink dp name (i_inum x);
          if e <? 0 then panic "create: dirlink" else
          iunlockput dp;;
          mret (Some ip)
      end
  end.

(** [omode & flag] as a truth value. *)
Definition flag (omode f : Z) : bool := negb (Z.land omode f =? 0).

(** The inode [sys_open] opens, locked; on failure the transaction has ended. *)
Definition open_inode (path : list Z) (omode : Z) : K (option nat) :=
  if flag omode O_CREATE then
    r ← create path T_FILE 0 0;
    match r with
    | None => end_op;; mret None
    | Some ip => mret (Some ip)
    end
  else
    r ← namei path;
    match r with
    | None => end_op;; mret None
    | Some ip =>
        ilock ip;;
        x ← inode_of ip;
        if (i_type x =? T_DIR) && negb (omode =? O_RDONLY)
        then iunlockput ip;; end_op;; mret None
        else mret (Some ip)
    end.

(** [(f = filealloc()) == 0 || (fd = fdalloc(f)) < 0], closing [f] in the second case. *)
Definition open_file : K (option (nat * nat)) :=
  f ← filealloc;
  match f with
  | None => mret None
  | Some f =>
      fd ← fdalloc f;
      match fd with
      | None => fileclose f;; mret None
      | Some fd => mret (Some (f, fd))
      end
  end.

Definition b2z (b : bool) : Z := if b then 1 else 0.

Definition sys_open : K Z :=
  path ← argpath 0;
  match path with None => mret FAIL | Some path =>
  omode ← argint 1;
  begin_op;;
  r ← open_inode path omode;
  match r with None => mret FAIL | Some ip =>
  x ← inode_of ip;
  if (i_type x =? T_DEVICE) && ((i_major x <? 0) || (NDEV <=? i_major x))
  then iunlockput ip;; end_op;; mret FAIL else
  r ← open_file;
  match r with
  | None => iunlockput ip;; end_op;; mret FAIL
  | Some (f, fd) =>
      (if i_type x =? T_DEVICE then
         file_upd f (fun y => set_f_major (i_major x) (set_f_type FD_DEVICE y))
       else file_upd f (fun y => set_f_off 0 (set_f_type FD_INODE y)));;
      file_upd f (set_f_ip (Some ip));;
      file_upd f (set_f_readable (b2z (negb (flag omode O_WRONLY))));;
      file_upd f (set_f_writable (b2z (flag omode O_WRONLY || flag omode O_RDWR)));;
      when (flag omode O_TRUNC && (i_type x =? T_FILE)) (itrunc ip);;
      iunlock ip;;
      end_op;;
      mret (Z.of_nat fd)
  end end end.

Definition sys_mkdir : K Z :=
  begin_op;;
  path ← argpath 0;
  match path with None => end_op;; mret FAIL | Some path =>
  r ← create path T_DIR 0 0;
  match r with
  | None => end_op;; mret FAIL
  | Some ip => iunlockput ip;; end_op;; mret 0
  end end.

Definition sys_mknod : K Z :=
  begin_op;;
  path ← argpath 0;
  match path with None => end_op;; mret FAIL | Some path =>
  major ← argint 1;
  minor ← argint 2;
  r ← create path T_DEVICE (s16 major) (s16 minor);
  match r with
  | None => end_op;; mret FAIL
  | Some ip => iunlockput ip;; end_op;; mret 0
  end end.

Definition sys_chdir : K Z :=
  p ← curproc;
  begin_op;;
  path ← argpath 0;
  match path with None => end_op;; mret FAIL | Some path =>
  r ← namei path;
  match r with
  | None => end_op;; mret FAIL
  | Some ip =>
      ilock ip;;
      x ← inode_of ip;
      if negb (i_type x =? T_DIR) then iunlockput ip;; end_op;; mret FAIL else
      iunlock ip;;
      pr ← proc_of p;
      (match p_cwd pr with Some d => iput d | None => panic "kerneltrap" end);;
      end_op;;
      proc_upd p (set_p_cwd (Some ip));;
      mret 0
  end end.

(** Fetch the argument vector from index [i]: each string goes into a fresh page.
    Returns the pages allocated so far and, unless the source goes to [bad], the
    strings. *)
Fixpoint fetch_argv (fuel : nat) (uargv i : Z) : K (list Z * option (list (list Z))) :=
  match fuel with
  | O => mret ([], None)   (* i >= NELEM(argv) *)
  | S fuel =>
      a ← fetchaddr (u64 (uargv + 8 * i));
      match a with
      | None => mret ([], None)
      | Some uarg =>
          if uarg =? 0 then mret ([], Some []) else
          page ← kalloc;
          if page =? 0 then mret ([], None) else
          r ← fetchstr uarg pgsize;
          memM (fun m => st_bytes m page (snd r));;
          if fst r <? 0 then mret ([page], None) else
          rest ← fetch_argv fuel uargv (i + 1);
          mret (page :: fst rest, (fun l => until_nul (snd r) :: l) <$> snd rest)
      end
  end.

Definition sys_exec : K Z :=
  path ← argpath 0;
  match path with None => mret FAIL | Some path =>
  uargv ← argaddr 1;
  r ← fetch_argv MAXARG uargv 0;
  ret ← (match snd r with
         | None => mret (-1)
         | Some argv => exec path argv
         end);
  for_each (fst r) kfree;;
  mret (u64 ret)
  end.

Definition sys_pipe : K Z :=
  p ← curproc;
  fdarray ← argaddr 0;
  r ← pipealloc;
  match r with None => mret FAIL | Some (rf, wf) =>
  fd0 ← fdalloc rf;
  match fd0 with
  | None => fileclose rf;; fileclose wf;; mret FAIL
  | Some fd0 =>
      fd1 ← fdalloc wf;
      match fd1 with
      | None => clear_fd p fd0;; fileclose rf;; fileclose wf;; mret FAIL
      | Some fd1 =>
          pr ← proc_of p;
          e ← copyout (p_pagetable pr) fdarray (le_split 4 (Z.of_nat fd0));
          e ← (if e <? 0 then mret true else
               e ← copyout (p_pagetable pr) (u64 (fdarray + 4)) (le_split 4 (Z.of_nat fd1));
               mret (e <? 0));
          if e : bool then
            clear_fd p fd0;; clear_fd p fd1;; fileclose rf;; fileclose wf;; mret FAIL
          else mret 0
      end
  end end.

End Sysfile.
