(* ===== verification/Plic.v ===== *)
(** * The interrupt controller (kernel/plic.c)

    The registers of the controller are 32-bit words at fixed physical addresses below the
    RAM.  What the driver stores there is kept in the memory of the model; what a load from
    the claim register returns is the device's choice, the parameter [reg] of [plic_claim]. *)

From stdpp Require Import base gmap list strings.
From Stdlib Require Import ZArith Lia.
From S2P Require Import Prelude Riscv Memory State.

Definition PLIC_SENABLE (hart : Z) : Z := PLIC + 0x2080 + hart * 0x100.
Definition PLIC_SPRIORITY (hart : Z) : Z := PLIC + 0x201000 + hart * 0x2000.
Definition PLIC_SCLAIM (hart : Z) : Z := PLIC + 0x201004 + hart * 0x2000.

(** The id of this hart, from tp. *)
Definition cpuid : K Z := h ← kgets k_hw; mret (s32 (r_tp h)).

(** Set the priorities of the two devices non-zero; zero would disable them. *)
Definition plicinit : K unit :=
  memM (fun m => st32 m (PLIC + UART0_IRQ * 4) 1);;
  memM (fun m => st32 m (PLIC + VIRTIO0_IRQ * 4) 1).

Definition plicinithart : K unit :=
  hart ← cpuid;
  memM (fun m => st32 m (PLIC_SENABLE hart) (Z.lor (Z.shiftl 1 UART0_IRQ) (Z.shiftl 1 VIRTIO0_IRQ)));;
  memM (fun m => st32 m (PLIC_SPRIORITY hart) 0).

(** Ask the PLIC what interrupt to serve; [reg a] is what a load from register [a] gives. *)
Definition plic_claim (reg : Z -> Z) : K Z :=
  hart ← cpuid;
  mret (s32 (reg (PLIC_SCLAIM hart))).

Definition plic_complete (irq : Z) : K unit :=
  hart ← cpuid;
  memM (fun m => st32 m (PLIC_SCLAIM hart) irq).

(** The words of the PLIC are below the RAM: storing one changes no page. *)
Lemma ld8_st32_ne (m : mem) (a b v : Z) : a < b \/ b + 4 <= a -> ld8 (st32 m b v) a = ld8 m a.
Proof.
  intros H. unfold st32. rewrite ld8_st_bytes, length_le_split.
  destruct (Z.leb_spec b a), (Z.ltb_spec a (b + Z.of_nat 4)); cbn [andb]; try done. lia.
Qed.

Lemma ld32_st32_eq (m : mem) (a v : Z) : ld32 (st32 m a v) a = u32 v.
Proof.
  unfold ld32, st32. pose proof (ld_bytes_st_bytes_eq m a (le_split 4 v)) as H.
  rewrite length_le_split in H. rewrite H, fmap_u8_le_split, le_combine_le_split. done.
Qed.

Lemma ld32_st32_ne (m : mem) (a b v : Z) : a + 4 <= b \/ b + 4 <= a -> ld32 (st32 m b v) a = ld32 m a.
Proof.
  intros H. unfold ld32. f_equal. apply ld_bytes_ext. intros i Hi. rewrite ld8_st32_ne by lia. done.
Qed.
