(* ===== verification/Trap.v ===== *)
(** * System-call dispatch, traps and interrupts
      (kernel/syscall.c: syscall; kernel/trap.c; forkret of kernel/proc.c) *)

From stdpp Require Import base gmap list strings.
From Stdlib Require Import ZArith Lia.
From S2P Require Import Prelude Riscv Memory State Spinlock Sched Kalloc Vm Demo Bio Log Fs Console Pipe File Proc Signal Bsem Syscall Exec Sysfile Plic.

(** ** syscall.h: system-call numbers *)
Definition SYS_fork : Z := 1.
Definition SYS_exit : Z := 2.
Definition SYS_wait : Z := 3.
Definition SYS_pipe : Z := 4.
Definition SYS_read : Z := 5.
Definition SYS_kill : Z := 6.
Definition SYS_exec : Z := 7.
Definition SYS_fstat : Z := 8.
Definition SYS_chdir : Z := 9.
Definition SYS_dup : Z := 10.
Definition SYS_getpid : Z := 11.
Definition SYS_sbrk : Z := 12.
Definition SYS_sleep : Z := 13.
Definition SYS_uptime : Z := 14.
Definition SYS_open : Z := 15.
Definition SYS_write : Z := 16.
Definition SYS_mknod : Z := 17.
Definition SYS_unlink : Z := 18.
Definition SYS_link : Z := 19.
Definition SYS_mkdir : Z := 20.
Definition SYS_close : Z := 21.
Definition SYS_sigprocmask : Z := 22.
Definition SYS_sigaction : Z := 23.
Definition SYS_sigret : Z := 24.
Definition SYS_bsem_alloc : Z := 25.
Definition SYS_bsem_free : Z := 26.
Definition SYS_bsem_down : Z := 27.
Definition SYS_bsem_up : Z := 28.

Section Trap.
Context {KS : KSyms} {ST : SlotTail}.

(** [syscalls[num]] *)
Definition syscalls (num : Z) : option (K Z) :=
  if num =? SYS_fork then Some sys_fork
  else if num =? SYS_exit then Some sys_exit
  else if num =? SYS_wait then Some sys_wait
  else if num =? SYS_pipe then Some sys_pipe
  else if num =? SYS_read then Some sys_read
  else if num =? SYS_kill then Some sys_kill
  else if num =? SYS_exec then Some sys_exec
  else if num =? SYS_fstat then Some sys_fstat
  else if num =? SYS_chdir then Some sys_chdir
  else if num =? SYS_dup then Some sys_dup
  else if num =? SYS_getpid then Some sys_getpid
  else if num =? SYS_sbrk then Some sys_sbrk
  else if num =? SYS_sleep then Some sys_sleep
  else if num =? SYS_uptime then Some sys_uptime
  else if num =? SYS_open then Some sys_open
  else if num =? SYS_write then Some sys_write
  else if num =? SYS_mknod then Some sys_mknod
  else if num =? SYS_unlink then Some sys_unlink
  else if num =? SYS_link then Some sys_link
  else if num =? SYS_mkdir then Some sys_mkdir
  else if num =? SYS_close then Some sys_close
  else if num =? SYS_sigprocmask then Some sys_sigprocmask
  else if num =? SYS_sigaction then Some sys_sigaction
  else if num =? SYS_sigret then Some sys_sigret
  else if num =? SYS_bsem_alloc then Some sys_bsem_alloc
  else if num =? SYS_bsem_free then Some sys_bsem_free
  else if num =? SYS_bsem_down then Some sys_bsem_down
  else if num =? SYS_bsem_up then Some sys_bsem_up
  else None.

Definition syscall : K unit :=
  p ← curproc;
  a7 ← tf_get p TF_a7;
  let num := s32 a7 in
  match syscalls num with
  | Some handler => r ← handler; tf_set p TF_a0 r
  | None =>
      pr ← proc_of p;
      printf ("%d %s: unknown sys call %d" +:+ newline)
        [VInt (p_pid pr); VStr (Some (until_nul (p_name pr))); VInt num];;
      tf_set p TF_a0 (u64 (-1))
  end.

(** ** trap.c *)

(** The supervisor registers. *)
Definition hw : K hwregs := kgets k_hw.
Definition hw_upd (f : hwregs -> hwregs) : K unit :=
  kmodify (fun s => set_k_hw (f (k_hw s)) s).
(** [r_sstatus]: the SIE bit is [intr_get], the others are in [r_sstatus_rest]. *)
Definition r_sstatus : K Z :=
  kgets (fun s => Z.lor (r_sstatus_rest (k_hw s)) (if intr_get s then SSTATUS_SIE else 0)).
Definition w_sstatus (x : Z) : K unit :=
  hw_upd (set_r_sstatus_rest (Z.land x (Z.lnot SSTATUS_SIE)));;
  kmodify (set_k_intr (negb (Z.land x SSTATUS_SIE =? 0))).
Definition intr_on : K unit := kmodify (set_k_intr true).
Definition intr_off : K unit := kmodify (set_k_intr false).
Definition w_stvec (x : Z) : K unit := hw_upd (set_r_stvec x).
Definition w_sepc (x : Z) : K unit := hw_upd (set_r_sepc x).

Definition trapinithart : K unit := w_stvec ksym_kernelvec.

Definition clockintr : K unit :=
  acquire LTicks;;
  kmodify (fun s => set_k_ticks (u32 (k_ticks s + 1)) s);;
  wakeup ChTicks;;
  release LTicks.

(** The interrupt controller and the disk driver: [plic_reg] is what loads from the PLIC's
    registers return, [disk_intr] is virtio_disk.c's interrupt handler. *)
Variables (plic_reg : Z -> Z) (disk_intr : K unit).

(** 2 if timer interrupt, 1 if other device, 0 if not recognized. *)
Definition devintr : K Z :=
  h ← hw;
  let scause := r_scause h in
  if negb (Z.land scause 0x8000000000000000 =? 0) && (Z.land scause 0xff =? 9) then
    irq ← plic_claim plic_reg;
    (if irq =? UART0_IRQ then uartintr
     else if irq =? VIRTIO0_IRQ then disk_intr
     else if negb (irq =? 0) then
       printf ("unexpected interrupt irq=%d" +:+ newline) [VInt irq]
     else mret tt);;
    when (negb (irq =? 0)) (plic_complete irq);;
    mret 1
  else if scause =? 0x8000000000000001 then
    hart ← cpuid;
    when (hart =? 0) clockintr;;
    hw_upd (fun h => set_r_sip (Z.land (r_sip h) (Z.lnot 2)) h);;
    mret 2
  else mret 0.

(** The mode the CPU enters when [usertrapret] jumps to [userret]. *)
Record uret : Type := mkUret { ur_fn : Z; ur_trapframe : Z; ur_satp : Z }.

(** Return to user space: the call of [userret(TRAPFRAME, satp)] it ends with. *)
Definition usertrapret : K uret :=
  p ← curproc;
  signalHandler;;
  intr_off;;
  w_stvec (TRAMPOLINE + (ksym_uservec - ksym_trampoline));;
  h ← hw;
  pr ← proc_of p;
  tf_set p TF_kernel_satp (r_satp h);;
  tf_set p TF_kernel_sp (p_kstack pr + PGSIZE);;
  tf_set p TF_kernel_trap ksym_usertrap;;
  tf_set p TF_kernel_hartid (r_tp h);;
  x ← r_sstatus;
  let x := Z.land x (Z.lnot SSTATUS_SPP) in
  let x := Z.lor x SSTATUS_SPIE in
  w_sstatus x;;
  epc ← tf_get p TF_epc;
  w_sepc epc;;
  mret (mkUret (TRAMPOLINE + (ksym_userret - ksym_trampoline)) TRAPFRAME
          (MAKE_SATP (p_pagetable pr))).

(** What [usertrap] does about the cause of the trap: the [which_dev] it found. *)
Definition usertrap_cause (p : nat) : K Z :=
  h ← hw;
  if r_scause h =? 8 then
    pr ← proc_of p;
    when (negb (p_killed pr =? 0)) (exit (-1));;
    epc ← tf_get p TF_epc;
    tf_set p TF_epc (u64 (epc + 4));;
    intr_on;;
    syscall;;
    mret 0
  else
    which_dev ← devintr;
    when (which_dev =? 0) (
      pr ← proc_of p;
      printf ("usertrap(): unexpected scause %p pid=%d" +:+ newline)
        [VInt (r_scause h); VInt (p_pid pr)];;
      printf ("            sepc=%p stval=%p" +:+ newline)
        [VInt (r_sepc h); VInt (r_stval h)];;
      proc_upd p (set_p_killed 1));;
    mret which_dev.

(** Handle an interrupt, exception, or system call from user space. *)
Definition usertrap : K uret :=
  x ← r_sstatus;
  if negb (Z.land x SSTATUS_SPP =? 0) then panic "usertrap: not from user mode" else
  w_stvec ksym_kernelvec;;
  p ← curproc;
  h ← hw;
  tf_set p TF_epc (r_sepc h);;
  which_dev ← usertrap_cause p;
  pr ← proc_of p;
  when (negb (p_killed pr =? 0)) (exit (-1));;
  when (which_dev =? 2) yield;;
  usertrapret.

(** Interrupts and exceptions from kernel code, via kernelvec. *)
Definition kerneltrap : K unit :=
  h ← hw;
  let sepc := r_sepc h in
  sstatus ← r_sstatus;
  let scause := r_scause h in
  if Z.land sstatus SSTATUS_SPP =? 0 then panic "kerneltrap: not from supervisor mode" else
  ie ← kgets intr_get;
  if ie : bool then panic "kerneltrap: interrupts enabled" else
  which_dev ← devintr;
  if which_dev =? 0 then
    printf ("scause %p" +:+ newline) [VInt scause];;
    h ← hw;
    printf ("sepc=%p stval=%p" +:+ newline) [VInt (r_sepc h); VInt (r_stval h)];;
    panic "kerneltrap"
  else
  me ← myproc;
  (match me with
   | Some p =>
       pr ← proc_of p;
       when ((which_dev =? 2) && bool_decide (p_state pr = RUNNING)) yield
   | None => mret tt
   end);;
  w_sepc sepc;;
  w_sstatus sstatus.

(** A fork child's very first scheduling by scheduler() will swtch to forkret. *)
Definition forkret : K uret :=
  p ← curproc;
  release (LProc p);;
  first ← kgets k_first;
  when first (
    kmodify (set_k_first false);;
    fsinit ROOTDEV);;
  usertrapret.

End Trap.

(** ** Theorems *)

Section SyscallTheorem.
Context {KS : KSyms} {ST : SlotTail}.

Lemma syscalls_range num : is_Some (syscalls num) <-> 1 <= num <= 28.
Proof.
  split.
  - intros [h Hh]. destruct (decide (1 <= num <= 28)) as [|Hn]; [done|]. unfold syscalls in Hh.
    repeat match type of Hh with (if ?a =? ?b then _ else _) = _ =>
      rewrite (proj2 (Z.eqb_neq a b)) in Hh by (intros ->; apply Hn; vm_compute; split; discriminate) end.
    discriminate Hh.
  - intros Hn. unfold syscalls.
    repeat match goal with |- is_Some (if ?a =? ?b then _ else _) =>
      destruct (Z.eqb_spec a b) as [|?]; [by eexists|] end.
    exfalso. repeat match goal with H : num <> ?c |- _ => unfold c in H end. lia.
Qed.

(** Dispatch. The system call number is the low 32 bits of a7, as an [int].  Between 1
    and 28 the handler of that number runs and its result goes to a0 in the trapframe; any
    other number prints a message, puts -1 in a0 and changes nothing else. *)
Theorem syscall_dispatches p s env :
  k_cur s = Some p -> panicked (k_uart s) = false -> (k_pr_locking s <> 0 -> LPr ∉ k_held s) ->
  let tf := p_trapframe (get_proc p s) in
  let num := s32 (ld64 (k_mem s) (tf + TF_a7)) in
  match syscalls num with
  | Some handler => 1 <= num <= 28 /\ syscall (mkWorld s env) = (r ← handler; tf_set p TF_a0 r) (mkWorld s env)
  | None => ~ 1 <= num <= 28 /\
      let out := printf_bytes (bytes_of ("%d %s: unknown sys call %d" +:+ newline))
        [VInt (p_pid (get_proc p s)); VStr (Some (until_nul (p_name (get_proc p s)))); VInt num] ≫= cons_out in
      syscall (mkWorld s env) = Ok tt (mkWorld (set_k_mem (st64 (k_mem s) (tf + TF_a0) (2 ^ 64 - 1)) (sent out s)) env)
  end.
Proof.
  intros Hcur Hpan Hpr tf num.
  assert (Hrun : syscall (mkWorld s env) = match syscalls num with
    | Some handler => (r ← handler; tf_set p TF_a0 r) (mkWorld s env)
    | None => (pr ← proc_of p;
        printf ("%d %s: unknown sys call %d" +:+ newline)
          [VInt (p_pid pr); VStr (Some (until_nul (p_name pr))); VInt num];;
        tf_set p TF_a0 (u64 (-1))) (mkWorld s env) end).
  { unfold syscall. rewrite (run_bind _ _ _ p (mkWorld s env)) by (by apply curproc_run).
    rewrite (run_bind _ _ _ _ _ (tf_get_run p TF_a7 s env)). fold tf num. by destruct (syscalls num). }
  pose proof (syscalls_range num) as Hrange. rewrite Hrun. destruct (syscalls num) as [handler|].
  - split; [|done]. apply Hrange. by eexists.
  - split; [by intros ?%Hrange%is_Some_None|].
    rewrite (run_bind _ _ _ (get_proc p s) (mkWorld s env)) by done. cbn zeta.
    rewrite (run_bind _ _ _ _ _ (printf_run _ _ s env Hpan Hpr)). rewrite tf_set_run. reflexivity.
Qed.

End SyscallTheorem.

Lemma syscall_dispatches_witness : exists out,
  @syscall demo_syms (fun _ _ => []) (mkWorld (on_cpu 3 (fun x => set_p_pid 4 x) kst0) [])
  = Ok tt (mkWorld (set_k_mem (st64 (k_mem kst0) (0 + TF_a0) (2 ^ 64 - 1))
      (sent out (on_cpu 3 (fun x => set_p_pid 4 x) kst0))) []).
Proof.
  pose proof (@syscall_dispatches demo_syms (fun _ _ => []) 3 (on_cpu 3 (fun x => set_p_pid 4 x) kst0) []) as H.
  specialize (H eq_refl eq_refl ltac:(intros _; apply not_elem_of_nil)). eexists. exact (proj2 H).
Defined.
