(* ===== verification/Trampoline.v ===== *)
(** * Entering and leaving the kernel (kernel/trampoline.S)

    [uservec] and [userret] as the lists of their instructions, run one at a time on the
    state of a hart: its registers, the control registers the code uses, its mode and the
    physical memory.  Fetches, loads and stores go through the page table in satp, with the
    permission checks of supervisor mode; both routines switch it under their feet.  An
    access that faults stops the model ([panic]).  The pc is followed only where the code
    or the hardware sets it: the routines have no branches.

    The theorem: a trap from user space saves the 31 registers in the fields of the process's
    struct trapframe and enters the kernel with the values the kernel left there, and
    [userret] loads all of them back and leaves sscratch ready for the next trap. *)

From stdpp Require Import base functions gmap list strings.
From Stdlib Require Import ZArith Lia.
From S2P Require Import Prelude Riscv Memory State Kalloc Vm PageTable UserMem Uvm Demo ProcMem ProcTable ProcDemo Trap.

(** ** The hart *)

Record tst : Type := mkTst {
  t_mem : mem;
  t_x : Z -> Z;          (* x1 .. x31 *)
  t_pc : Z;
  t_mode : Z;            (* 0 user, 1 supervisor *)
  t_satp : Z;
  t_sscratch : Z;
  t_stvec : Z;
  t_sepc : Z;
  t_sstatus : Z
}.

Definition set_t_mem (v : mem) (s : tst) : tst :=
  mkTst v (t_x s) (t_pc s) (t_mode s) (t_satp s) (t_sscratch s) (t_stvec s) (t_sepc s) (t_sstatus s).
Definition set_t_x (v : Z -> Z) (s : tst) : tst :=
  mkTst (t_mem s) v (t_pc s) (t_mode s) (t_satp s) (t_sscratch s) (t_stvec s) (t_sepc s) (t_sstatus s).
Definition set_t_pc (v : Z) (s : tst) : tst :=
  mkTst (t_mem s) (t_x s) v (t_mode s) (t_satp s) (t_sscratch s) (t_stvec s) (t_sepc s) (t_sstatus s).
Definition set_t_mode (v : Z) (s : tst) : tst :=
  mkTst (t_mem s) (t_x s) (t_pc s) v (t_satp s) (t_sscratch s) (t_stvec s) (t_sepc s) (t_sstatus s).
Definition set_t_satp (v : Z) (s : tst) : tst :=
  mkTst (t_mem s) (t_x s) (t_pc s) (t_mode s) v (t_sscratch s) (t_stvec s) (t_sepc s) (t_sstatus s).
Definition set_t_sscratch (v : Z) (s : tst) : tst :=
  mkTst (t_mem s) (t_x s) (t_pc s) (t_mode s) (t_satp s) v (t_stvec s) (t_sepc s) (t_sstatus s).
Definition set_t_sepc (v : Z) (s : tst) : tst :=
  mkTst (t_mem s) (t_x s) (t_pc s) (t_mode s) (t_satp s) (t_sscratch s) (t_stvec s) v (t_sstatus s).
Definition set_t_sstatus (v : Z) (s : tst) : tst :=
  mkTst (t_mem s) (t_x s) (t_pc s) (t_mode s) (t_satp s) (t_sscratch s) (t_stvec s) (t_sepc s) v.

Abbreviation T := (M tst).

(** The names of the registers. *)
Module Reg.
Definition ra : Z := 1.
Definition sp : Z := 2.
Definition gp : Z := 3.
Definition tp : Z := 4.
Definition t0 : Z := 5.
Definition t1 : Z := 6.
Definition t2 : Z := 7.
Definition s0 : Z := 8.
Definition s1 : Z := 9.
Definition a0 : Z := 10.
Definition a1 : Z := 11.
Definition a2 : Z := 12.
Definition a3 : Z := 13.
Definition a4 : Z := 14.
Definition a5 : Z := 15.
Definition a6 : Z := 16.
Definition a7 : Z := 17.
Definition s2 : Z := 18.
Definition s3 : Z := 19.
Definition s4 : Z := 20.
Definition s5 : Z := 21.
Definition s6 : Z := 22.
Definition s7 : Z := 23.
Definition s8 : Z := 24.
Definition s9 : Z := 25.
Definition s10 : Z := 26.
Definition s11 : Z := 27.
Definition t3 : Z := 28.
Definition t4 : Z := 29.
Definition t5 : Z := 30.
Definition t6 : Z := 31.
End Reg.

(** ** Instructions *)

Inductive instr :=
| Csrrw_a0_sscratch            (* csrrw a0, sscratch, a0 *)
| Csrr_sscratch (r : Z)        (* csrr r, sscratch *)
| Csrw_sscratch (r : Z)        (* csrw sscratch, r *)
| Csrw_satp (r : Z)            (* csrw satp, r *)
| Sfence_vma                   (* sfence.vma zero, zero *)
| Sd (r off base : Z)          (* sd r, off(base) *)
| Ld (r off base : Z)          (* ld r, off(base) *)
| Jr (r : Z)                   (* jr r *)
| Sret.

(** The page table in satp, when its mode is Sv39. *)
Definition satp_root (satp : Z) : option Z :=
  if Z.shiftr satp 60 =? 8 then Some (Z.shiftl (Z.land satp (Z.ones 44)) 12) else None.

(** The physical address of [va] in supervisor mode, for an access that needs the permission
    [perm]: pages of user code are out of reach. *)
Definition sv_pa (s : tst) (va perm : Z) : option Z :=
  root ← satp_root (t_satp s);
  if MAXVA <=? va then None else
  let v := pte_of (t_mem s) root va in
  if has v PTE_V && has v perm && negb (has v PTE_U) then Some (PTE2PA v + va mod PGSIZE) else None.

Section Trampoline.
Context {KS : KSyms}.

(** The next instruction of the trampoline page. *)
Definition fetch : T unit :=
  pa ← gets (fun s => sv_pa s TRAMPOLINE PTE_X);
  match pa with
  | Some pa => if pa =? ksym_trampoline then mret tt else panic "not the trampoline"
  | None => panic "instruction page fault"
  end.

Definition reg_set (r v : Z) : T unit := modify (fun s => set_t_x (<[r := v]> (t_x s)) s).

Definition sret_insn : T unit :=
  modify (fun s => set_t_mode (if Z.testbit (t_sstatus s) 8 then 1 else 0) s);;
  modify (fun s => set_t_sstatus (Z.lor (Z.land (t_sstatus s) (Z.lnot 0x122))
    (Z.lor 0x20 (if Z.testbit (t_sstatus s) 5 then 2 else 0))) s);;
  modify (fun s => set_t_pc (t_sepc s) s).

Definition exec_insn (i : instr) : T unit :=
  fetch;;
  match i with
  | Csrrw_a0_sscratch =>
      modify (fun s => set_t_sscratch (t_x s Reg.a0) (set_t_x (<[Reg.a0 := t_sscratch s]> (t_x s)) s))
  | Csrr_sscratch r => v ← gets t_sscratch; reg_set r v
  | Csrw_sscratch r => modify (fun s => set_t_sscratch (t_x s r) s)
  | Csrw_satp r => modify (fun s => set_t_satp (t_x s r) s)
  | Sfence_vma => mret tt
  | Sd r off base =>
      pa ← gets (fun s => sv_pa s (t_x s base + off) PTE_W);
      match pa with
      | Some pa => modify (fun s => set_t_mem (st64 (t_mem s) pa (t_x s r)) s)
      | None => panic "store page fault"
      end
  | Ld r off base =>
      pa ← gets (fun s => sv_pa s (t_x s base + off) PTE_R);
      match pa with
      | Some pa => v ← gets (fun s => ld64 (t_mem s) pa); reg_set r v
      | None => panic "load page fault"
      end
  | Jr r => modify (fun s => set_t_pc (t_x s r) s)
  | Sret => sret_insn
  end.

Definition run_insns (l : list instr) : T unit := for_each l exec_insn.

Import Reg.

Definition uservec : list instr := [
  Csrrw_a0_sscratch;
  Sd ra 40 a0; Sd sp 48 a0; Sd gp 56 a0; Sd tp 64 a0;
  Sd t0 72 a0; Sd t1 80 a0; Sd t2 88 a0; Sd s0 96 a0; Sd s1 104 a0;
  Sd a1 120 a0; Sd a2 128 a0; Sd a3 136 a0; Sd a4 144 a0; Sd a5 152 a0; Sd a6 160 a0; Sd a7 168 a0;
  Sd s2 176 a0; Sd s3 184 a0; Sd s4 192 a0; Sd s5 200 a0; Sd s6 208 a0; Sd s7 216 a0;
  Sd s8 224 a0; Sd s9 232 a0; Sd s10 240 a0; Sd s11 248 a0;
  Sd t3 256 a0; Sd t4 264 a0; Sd t5 272 a0; Sd t6 280 a0;
  Csrr_sscratch t0;
  Sd t0 112 a0;
  Ld sp 8 a0;
  Ld tp 32 a0;
  Ld t0 16 a0;
  Ld t1 0 a0;
  Csrw_satp t1;
  Sfence_vma;
  Jr t0].

Definition userret : list instr := [
  Csrw_satp a1;
  Sfence_vma;
  Ld t0 112 a0;
  Csrw_sscratch t0;
  Ld ra 40 a0; Ld sp 48 a0; Ld gp 56 a0; Ld tp 64 a0;
  Ld t0 72 a0; Ld t1 80 a0; Ld t2 88 a0; Ld s0 96 a0; Ld s1 104 a0;
  Ld a1 120 a0; Ld a2 128 a0; Ld a3 136 a0; Ld a4 144 a0; Ld a5 152 a0; Ld a6 160 a0; Ld a7 168 a0;
  Ld s2 176 a0; Ld s3 184 a0; Ld s4 192 a0; Ld s5 200 a0; Ld s6 208 a0; Ld s7 216 a0;
  Ld s8 224 a0; Ld s9 232 a0; Ld s10 240 a0; Ld s11 248 a0;
  Ld t3 256 a0; Ld t4 264 a0; Ld t5 272 a0; Ld t6 280 a0;
  Csrrw_a0_sscratch;
  Sret].

(** A trap in user mode: the hardware saves the pc and goes to the code at stvec, which the
    model knows if it is [uservec]. *)
Definition user_trap : T unit :=
  modify (fun s => set_t_sepc (t_pc s) s);;
  modify (fun s => set_t_sstatus (Z.lor (Z.land (t_sstatus s) (Z.lnot 0x122))
    (if Z.testbit (t_sstatus s) 1 then 0x20 else 0)) s);;
  modify (set_t_mode 1);;
  modify (fun s => set_t_pc (t_stvec s) s);;
  pc ← gets t_pc;
  if pc =? TRAMPOLINE + (ksym_uservec - ksym_trampoline) then run_insns uservec else block.

(** The offset of the field of struct trapframe for register [xn]: the fields ra, sp, gp,
    ... t6 follow the five words of the kernel in the order x1 .. x31. *)
Definition reg_offset (n : Z) : Z := 32 + 8 * n.

End Trampoline.

(** ** Address translation *)

Lemma satp_root_MAKE r : 0 <= r < 2 ^ 56 -> r mod PGSIZE = 0 -> satp_root (MAKE_SATP r) = Some r.
Proof.
  intros Hr Hal. unfold satp_root, MAKE_SATP, SATP_SV39.
  rewrite Z.land_ones by done. rewrite !Z.shiftl_mul_pow2 by done. rewrite !Z.shiftr_div_pow2 by done.
  assert (Hq : 0 <= r / 2 ^ 12 < 2 ^ 44).
  { split; [apply Z.div_pos; lia|]. apply Z.div_lt_upper_bound; [done|]. change (2 ^ 12 * 2 ^ 44) with (2 ^ 56). lia. }
  set (q := r / 2 ^ 12) in *. assert (Hr' : q * 2 ^ 12 = r).
  { unfold PGSIZE in Hal. change 4096 with (2 ^ 12) in Hal. pose proof (Z.div_mod r (2 ^ 12) ltac:(done)). lia. }
  clearbody q. change (8 * 2 ^ 60) with (2 ^ 19 * 2 ^ 44). rewrite lor_low by (done || lia).
  assert ((2 ^ 19 * 2 ^ 44 + q) / 2 ^ 60 = 8) as ->.
  { symmetry. apply Z.div_unique with q; [|done]. change (2 ^ 60) with (2 ^ 16 * 2 ^ 44). lia. }
  rewrite Z.eqb_refl, Z.add_comm, Z.mod_add, Z.mod_small by done. by rewrite Hr'.
Qed.

Section TrampolineProof.
Context {KS : KSyms} (Hks : ksyms_ok KS) (Htr : trampoline_ok KS).
Context (r kr tf : Z) (Hr : 0 <= r < 2 ^ 56 /\ r mod PGSIZE = 0) (Hkr : 0 <= kr < 2 ^ 56 /\ kr mod PGSIZE = 0).
Context (Htf : page_ok tf).

(** The user page table maps the trampoline and the trapframe, the kernel's the trampoline. *)
Record mapped (m : mem) : Prop := {
  mp_user : pte_of m r TRAMPOLINE = mk_pte ksym_trampoline TEXT_PERM;
  mp_frame : pte_of m r TRAPFRAME = mk_pte tf FRAME_PERM;
  mp_kernel : pte_of m kr TRAMPOLINE = mk_pte ksym_trampoline TEXT_PERM
}.

Definition in_user (s : tst) : Prop := t_satp s = MAKE_SATP r /\ mapped (t_mem s).
Definition in_kernel (s : tst) : Prop := t_satp s = MAKE_SATP kr /\ mapped (t_mem s).

Lemma tramp_range : 0 <= ksym_trampoline < 2 ^ 56 /\ ksym_trampoline mod PGSIZE = 0.
Proof. destruct (tramp_page Hks Htr) as [H1 H2]. unfold PHYSTOP, KERNBASE in H1. lia. Qed.

Lemma tf_range : 0 <= tf < 2 ^ 56 /\ tf mod PGSIZE = 0.
Proof. destruct Htf as [H1 H2]. pose proof (page_ok_pos Hks tf Htf). unfold PHYSTOP, KERNBASE in *. lia. Qed.

(** An address on a page with entry [mk_pte pa perm]. *)
Lemma sv_pa_mapped s root va off pa perm k :
  satp_root (t_satp s) = Some root -> pte_of (t_mem s) root va = mk_pte pa perm ->
  0 <= va -> va mod PGSIZE = 0 -> 0 <= off < PGSIZE -> va + off < MAXVA ->
  0 <= pa < 2 ^ 56 -> pa mod PGSIZE = 0 -> 0 <= perm < 1024 -> 0 <= k < 10 ->
  Z.testbit (Z.lor perm PTE_V) k = true -> has perm PTE_U = false ->
  sv_pa s (va + off) (2 ^ k) = Some (pa + off).
Proof.
  intros Hs Hp Hva Hal Hoff Hmax Hpa Hpal Hperm Hk Hbit HU. unfold sv_pa. rewrite Hs. cbn [mbind option_bind].
  destruct (Z.leb_spec MAXVA (va + off)); [lia|].
  assert (Hmod : (va + off) mod PGSIZE = off).
  { rewrite <- Z.add_mod_idemp_l, Hal by done. apply Z.mod_small. lia. }
  assert (Hpte : pte_of (t_mem s) root (va + off) = mk_pte pa perm).
  { rewrite <- Hp. apply pte_at_page. symmetry. apply Z.div_unique with off; [lia|].
    pose proof (Z.div_mod va PGSIZE ltac:(done)). lia. }
  rewrite Hpte, has_V_mk_pte, has_pow2, mk_pte_bit, Hbit, has_U_mk_pte, HU by lia. cbn [andb negb].
  by rewrite PTE2PA_mk_pte, Hmod by lia.
Qed.

Lemma fetch_ok s root : satp_root (t_satp s) = Some root ->
  pte_of (t_mem s) root TRAMPOLINE = mk_pte ksym_trampoline TEXT_PERM -> fetch s = Ok tt s.
Proof.
  intros Hs Hp. pose proof tramp_range as [H1 H2].
  pose proof (sv_pa_mapped s root TRAMPOLINE 0 ksym_trampoline TEXT_PERM 3 Hs Hp) as H.
  rewrite Z.add_0_r in H. change (2 ^ 3) with PTE_X in H.
  unfold fetch, mbind, M_bind, gets. rewrite H, Z.add_0_r, Z.eqb_refl by done. done.
Qed.

Lemma fetch_user s : in_user s -> fetch s = Ok tt s.
Proof.
  intros [Hs Hm]. apply (fetch_ok s r); [|apply Hm]. rewrite Hs. by apply satp_root_MAKE; destruct Hr.
Qed.

Lemma fetch_kernel s : in_kernel s -> fetch s = Ok tt s.
Proof.
  intros [Hs Hm]. apply (fetch_ok s kr); [|apply Hm]. rewrite Hs. by apply satp_root_MAKE; destruct Hkr.
Qed.

Lemma frame_pa s off k : in_user s -> 0 <= off < PGSIZE -> k = 1 \/ k = 2 ->
  sv_pa s (TRAPFRAME + off) (2 ^ k) = Some (tf + off).
Proof.
  intros [Hs Hm] Hoff Hk. pose proof tf_range as [H1 H2].
  apply (sv_pa_mapped s r TRAPFRAME off tf FRAME_PERM k); try done; [..|by destruct Hk as [-> | ->]].
  - rewrite Hs. by apply satp_root_MAKE; destruct Hr.
  - apply Hm.
  - unfold PGSIZE in Hoff. change TRAPFRAME with (MAXVA - 8192). lia.
  - lia.
Qed.

Lemma sd_run s x off base : in_user s -> t_x s base = TRAPFRAME -> 0 <= off < PGSIZE ->
  exec_insn (Sd x off base) s = Ok tt (set_t_mem (st64 (t_mem s) (tf + off) (t_x s x)) s).
Proof.
  intros Hu Hb Hoff. unfold exec_insn. rewrite (run_bind _ _ _ tt s) by (by apply fetch_user).
  rewrite (run_bind _ _ _ (Some (tf + off)) s); [done|]. unfold gets. rewrite Hb.
  by rewrite <- (frame_pa s off 2); auto.
Qed.

Lemma ld_run s x off base : in_user s -> t_x s base = TRAPFRAME -> 0 <= off < PGSIZE ->
  exec_insn (Ld x off base) s = Ok tt (set_t_x (<[x := ld64 (t_mem s) (tf + off)]> (t_x s)) s).
Proof.
  intros Hu Hb Hoff. unfold exec_insn. rewrite (run_bind _ _ _ tt s) by (by apply fetch_user).
  rewrite (run_bind _ _ _ (Some (tf + off)) s); [done|]. unfold gets. rewrite Hb.
  by rewrite <- (frame_pa s off 1); auto.
Qed.

Lemma run_insns_cons i l s s' : exec_insn i s = Ok tt s' -> run_insns (i :: l) s = run_insns l s'.
Proof. intros H. unfold run_insns. cbn [for_each]. by rewrite (run_bind _ _ _ _ _ H). Qed.

(** ** Blocks of stores and loads *)

Definition stores (l : list (Z * Z)) : list instr := (fun e => Sd e.1 e.2 Reg.a0) <$> l.
Definition loads (l : list (Z * Z)) : list instr := (fun e => Ld e.1 e.2 Reg.a0) <$> l.
Definition in_frame (l : list (Z * Z)) : Prop := Forall (fun e => 0 <= e.2 /\ e.2 + 8 <= PGSIZE) l.

Definition stored (x : Z -> Z) (l : list (Z * Z)) (m : mem) : mem :=
  foldl (fun m e => st64 m (tf + e.2) (x e.1)) m l.
Definition loaded (m : mem) (l : list (Z * Z)) (x : Z -> Z) : Z -> Z :=
  foldl (fun x e => <[e.1 := ld64 m (tf + e.2)]> x) x l.

Lemma stored_outside x l m : in_frame l -> outside_same tf m (stored x l m).
Proof.
  intros Hl. revert m. induction Hl as [|e l He _ IH]; intros m a Ha; [done|]. cbn [stored foldl].
  fold (stored x l (st64 m (tf + e.2) (x e.1))). rewrite IH by done. apply ld8_st64_ne. lia.
Qed.

(** The stores keep both page tables: they are on other pages. *)
Context (m0 : mem) (Hstable : forall m', outside_same tf m0 m' -> mapped m').

Lemma stores_run l rest s : in_frame l -> t_satp s = MAKE_SATP r -> outside_same tf m0 (t_mem s) ->
  t_x s Reg.a0 = TRAPFRAME ->
  run_insns (stores l ++ rest) s = run_insns rest (set_t_mem (stored (t_x s) l (t_mem s)) s).
Proof.
  intros Hl. revert s. induction Hl as [|e l He Hl IH]; intros s Hs Hm Ha; [by destruct s|].
  cbn [stores fmap list_fmap app]. fold (stores l).
  rewrite (run_insns_cons _ _ s (set_t_mem (st64 (t_mem s) (tf + e.2) (t_x s e.1)) s)).
  - rewrite IH; [done|done| |done]. intros a Hout. cbn. rewrite ld8_st64_ne by lia. by apply Hm.
  - apply sd_run; [|done|lia]. split; [done|by apply Hstable].
Qed.

Lemma loads_run l rest s : in_frame l -> in_user s -> t_x s Reg.a0 = TRAPFRAME -> Reg.a0 ∉ l.*1 ->
  run_insns (loads l ++ rest) s = run_insns rest (set_t_x (loaded (t_mem s) l (t_x s)) s).
Proof.
  intros Hl. revert s. induction Hl as [|e l He Hl IH]; intros s Hu Ha Hn; [by destruct s|].
  cbn [loads fmap list_fmap app]. fold (loads l). cbn in Hn. apply not_elem_of_cons in Hn as [Hne Hn].
  rewrite (run_insns_cons _ _ s (set_t_x (<[e.1 := ld64 (t_mem s) (tf + e.2)]> (t_x s)) s)).
  - rewrite IH; [done|done| |done]. cbn. by rewrite fn_lookup_insert_ne.
  - apply ld_run; [done|done|lia].
Qed.

(** What is where after them, when no two words overlap. *)
Lemma stored_other x l m b : Forall (fun e => tf + e.2 + 8 <= b \/ b + 8 <= tf + e.2) l ->
  ld64 (stored x l m) b = ld64 m b.
Proof.
  intros Hl. revert m. induction Hl as [|e l He _ IH]; intros m; [done|]. cbn [stored foldl].
  fold (stored x l (st64 m (tf + e.2) (x e.1))). rewrite IH. apply ld64_st64_ne. lia.
Qed.

Definition apart (l : list (Z * Z)) : Prop := NoDup l.*2 /\ Forall (fun e => e.2 mod 8 = 0) l.

Lemma apart_ne a b : a mod 8 = 0 -> b mod 8 = 0 -> a <> b -> a + 8 <= b \/ b + 8 <= a.
Proof. intros Ha Hb Hne. pose proof (Z.div_mod a 8). pose proof (Z.div_mod b 8). lia. Qed.

Lemma stored_word x l m n o : apart l -> (n, o) ∈ l -> ld64 (stored x l m) (tf + o) = u64 (x n).
Proof.
  intros [Hnd Hal]. revert m. induction l as [|e l IH]; intros m Hin; [by apply not_elem_of_nil in Hin|].
  apply Forall_cons in Hal as [He Hal]. cbn in Hnd. apply NoDup_cons in Hnd as [Hn Hnd]. cbn [stored foldl].
  fold (stored x l (st64 m (tf + e.2) (x e.1))). apply elem_of_cons in Hin as [<-|Hin]; [|by apply IH].
  rewrite stored_other; [apply ld64_st64_eq|]. cbn in *. apply Forall_forall. intros e' He'.
  rewrite Forall_forall in Hal. destruct (apart_ne e'.2 o); [by apply Hal|done| |lia..].
  intros <-. apply Hn. by apply list_elem_of_fmap_2.
Qed.

Lemma loaded_other m l x n : n ∉ l.*1 -> loaded m l x n = x n.
Proof.
  revert x. induction l as [|e l IH]; intros x Hn; [done|]. cbn in Hn. apply not_elem_of_cons in Hn as [Hne Hn].
  cbn [loaded foldl]. fold (loaded m l (<[e.1 := ld64 m (tf + e.2)]> x)). rewrite IH by done.
  by rewrite fn_lookup_insert_ne.
Qed.

Lemma loaded_reg m l x n o : NoDup l.*1 -> (n, o) ∈ l -> loaded m l x n = ld64 m (tf + o).
Proof.
  revert x. induction l as [|e l IH]; intros x Hnd Hin; [by apply not_elem_of_nil in Hin|].
  cbn in Hnd. apply NoDup_cons in Hnd as [Hn Hnd]. cbn [loaded foldl].
  fold (loaded m l (<[e.1 := ld64 m (tf + e.2)]> x)). apply elem_of_cons in Hin as [<-|Hin]; [|by apply IH].
  rewrite loaded_other by done. by rewrite fn_lookup_insert.
Qed.

(** ** The two routines *)

(** The registers both routines move, but for a0, and all of them. *)
Definition slots : list (Z * Z) := [
  (1, 40); (2, 48); (3, 56); (4, 64); (5, 72); (6, 80); (7, 88); (8, 96); (9, 104);
  (11, 120); (12, 128); (13, 136); (14, 144); (15, 152); (16, 160); (17, 168);
  (18, 176); (19, 184); (20, 192); (21, 200); (22, 208); (23, 216); (24, 224); (25, 232); (26, 240); (27, 248);
  (28, 256); (29, 264); (30, 272); (31, 280)].
Definition all_slots : list (Z * Z) := slots ++ [(10, 112)].

Lemma slots_frame : in_frame all_slots.
Proof. apply (bool_decide_eq_true_1 (Forall _ _)). by vm_compute. Qed.

Lemma all_slots_apart : apart all_slots.
Proof. split; [apply (bool_decide_eq_true_1 (NoDup _))|apply (bool_decide_eq_true_1 (Forall _ _))]; by vm_compute. Qed.

Lemma slots_regs : NoDup slots.*1 /\ Reg.a0 ∉ slots.*1.
Proof. split; [apply (bool_decide_eq_true_1 (NoDup _))|apply (bool_decide_eq_true_1 (_ ∉ _))]; by vm_compute. Qed.

Lemma slot_of n : 1 <= n < 32 -> (n, reg_offset n) ∈ all_slots.
Proof.
  intros Hn. assert (H : Forall (fun n => (n, reg_offset n) ∈ all_slots) (seqZ 1 31)).
  { apply (bool_decide_eq_true_1 (Forall _ _)). by vm_compute. }
  rewrite Forall_forall in H. apply H. apply elem_of_seqZ. lia.
Qed.

Lemma stored_bytes x l m a : Forall (fun e => a < tf + e.2 \/ tf + e.2 + 8 <= a) l -> ld8 (stored x l m) a = ld8 m a.
Proof.
  intros Hl. revert m. induction Hl as [|e l He _ IH]; intros m; [done|]. cbn [stored foldl].
  fold (stored x l (st64 m (tf + e.2) (x e.1))). rewrite IH. apply ld8_st64_ne. lia.
Qed.

Lemma stored_ext x x' l m : Forall (fun e => x e.1 = x' e.1) l -> stored x l m = stored x' l m.
Proof.
  intros Hl. revert m. induction Hl as [|e l He _ IH]; intros m; [done|]. cbn [stored foldl]. rewrite He. apply IH.
Qed.

Lemma saved_word x m n : 1 <= n < 32 -> 0 <= x n < 2 ^ 64 ->
  ld64 (stored x all_slots m) (tf + reg_offset n) = x n.
Proof.
  intros Hn Hx. rewrite (stored_word x all_slots m n) by (apply all_slots_apart || by apply slot_of).
  unfold u64. by apply Z.mod_small.
Qed.

(** The kernel's five words and everything outside the trapframe stay. *)
Lemma saved_rest x m a : a < tf + 40 \/ tf + 288 <= a -> ld8 (stored x all_slots m) a = ld8 m a.
Proof.
  intros Ha. apply stored_bytes.
  assert (H : Forall (fun e => 40 <= e.2 /\ e.2 + 8 <= 288) all_slots).
  { apply (bool_decide_eq_true_1 (Forall _ _)). by vm_compute. }
  eapply Forall_impl; [exact H|]. intros e He. cbn in *. lia.
Qed.

Lemma saved_kernel x m o : 0 <= o <= 32 -> ld64 (stored x all_slots m) (tf + o) = ld64 m (tf + o).
Proof. intros Ho. apply ld64_ext. intros i Hi. apply saved_rest. lia. Qed.

Lemma uservec_run s : t_mem s = m0 -> t_satp s = MAKE_SATP r -> t_sscratch s = TRAPFRAME ->
  ld64 m0 tf = MAKE_SATP kr ->
  exists s', run_insns uservec s = Ok tt s' /\ t_mem s' = stored (t_x s) all_slots m0 /\
    t_pc s' = ld64 m0 (tf + 16) /\ t_x s' Reg.sp = ld64 m0 (tf + 8) /\ t_x s' Reg.tp = ld64 m0 (tf + 32) /\
    t_satp s' = MAKE_SATP kr /\ t_sepc s' = t_sepc s /\ t_mode s' = t_mode s.
Proof.
  intros Hm Hs Hss Hk. set (x1 := <[Reg.a0 := TRAPFRAME]> (t_x s)).
  set (sA := set_t_sscratch (t_x s Reg.a0) (set_t_x x1 s)).
  assert (Hm1 : stored x1 slots m0 = stored (t_x s) slots m0).
  { apply stored_ext, Forall_forall. intros e He. unfold x1. rewrite fn_lookup_insert_ne; [done|].
    intros Heq. apply (proj2 slots_regs). rewrite Heq. by apply list_elem_of_fmap_2. }
  assert (Hall : forall x m, stored x all_slots m = st64 (stored x slots m) (tf + 112) (x 10)).
  { intros x m. unfold stored, all_slots. by rewrite foldl_app. }
  pose proof slots_frame as [Hfr _]%Forall_app.
  assert (Hout : outside_same tf m0 (stored (t_x s) all_slots m0)) by apply stored_outside, slots_frame.
  assert (Hout1 : outside_same tf m0 (stored (t_x s) slots m0)) by (by apply stored_outside).
  assert (Hrefl : outside_same tf m0 m0) by done.
  set (m2 := stored (t_x s) all_slots m0) in *.
  assert (Hu : forall s', t_mem s' = m2 -> t_satp s' = MAKE_SATP r -> in_user s').
  { intros s' E1 E2. split; [done|]. rewrite E1. by apply Hstable. }
  change uservec with (Csrrw_a0_sscratch :: stores slots ++ [Csrr_sscratch 5; Sd 5 112 10; Ld 2 8 10; Ld 4 32 10;
    Ld 5 16 10; Ld 6 0 10; Csrw_satp 6; Sfence_vma; Jr 5]).
  rewrite (run_insns_cons _ _ s sA).
  2:{ unfold exec_insn. rewrite (run_bind _ _ _ tt s) by (apply fetch_user; split; [done|rewrite Hm; by apply Hstable]).
      unfold sA, x1. by rewrite <- Hss. }
  rewrite stores_run; [|done|done|cbn; by rewrite Hm|by apply fn_lookup_insert].
  change (t_x sA) with x1. change (t_mem sA) with (t_mem s). rewrite Hm, Hm1.
  set (sB := set_t_mem (stored (t_x s) slots m0) sA).
  set (x2 := <[5 := t_x s 10]> x1). set (sC := set_t_x x2 sB).
  assert (Ha : forall v, <[5 := v]> x1 10 = TRAPFRAME).
  { intros v. rewrite fn_lookup_insert_ne by done. apply fn_lookup_insert. }
  rewrite (run_insns_cons _ _ sB sC).
  2:{ unfold exec_insn. rewrite (run_bind _ _ _ tt sB); [done|]. apply fetch_user. split; [done|by apply Hstable]. }
  set (sD := set_t_mem m2 sC).
  rewrite (run_insns_cons _ _ sC sD).
  2:{ rewrite sd_run; [|split; [done|by apply Hstable]|apply Ha|done]. unfold sD, m2. rewrite Hall. cbn.
      unfold x2. by rewrite fn_lookup_insert. }
  set (l := [(2, 8); (4, 32); (5, 16); (6, 0)] : list (Z * Z)). set (x3 := loaded m2 l x2).
  set (sE := set_t_x x3 sD).
  change [Ld 2 8 10; Ld 4 32 10; Ld 5 16 10; Ld 6 0 10; Csrw_satp 6; Sfence_vma; Jr 5]
    with (loads l ++ [Csrw_satp 6; Sfence_vma; Jr 5]).
  rewrite loads_run;
    [|apply (bool_decide_eq_true_1 (Forall _ _)); by vm_compute|by apply Hu|apply Ha|
      apply (bool_decide_eq_true_1 (_ ∉ _)); by vm_compute].
  change (set_t_x _ sD) with sE.
  assert (X : forall i n o, l !! i = Some (n, o) -> x3 n = ld64 m0 (tf + o)).
  { intros i n o Hin%list_elem_of_lookup_2. unfold x3. rewrite (loaded_reg m2 l x2 n o);
      [|apply (bool_decide_eq_true_1 (NoDup _)); by vm_compute|done].
    apply saved_kernel. assert (Hl : Forall (fun e => 0 <= e.2 <= 32) l).
    { apply (bool_decide_eq_true_1 (Forall _ _)). by vm_compute. }
    rewrite Forall_forall in Hl. apply (Hl _ Hin). }
  assert (X6 : x3 6 = MAKE_SATP kr) by (rewrite (X 3%nat 6 0 eq_refl); by rewrite Z.add_0_r).
  set (sF := set_t_satp (MAKE_SATP kr) sE).
  assert (Hk' : in_kernel sF) by (split; [done|by apply Hstable]).
  rewrite (run_insns_cons _ _ sE sF).
  2:{ unfold exec_insn. rewrite (run_bind _ _ _ tt sE) by (apply fetch_user; by apply Hu). unfold sF. by rewrite <- X6. }
  rewrite (run_insns_cons _ _ sF sF) by (unfold exec_insn; by rewrite (run_bind _ _ _ tt sF) by (by apply fetch_kernel)).
  rewrite (run_insns_cons _ _ sF (set_t_pc (x3 5) sF)) by (unfold exec_insn; by rewrite (run_bind _ _ _ tt sF) by (by apply fetch_kernel)).
  exists (set_t_pc (x3 5) sF). split; [done|]. split; [done|]. cbn.
  split; [by apply (X 2%nat)|]. split; [by apply (X 0%nat)|]. split; [by apply (X 1%nat)|]. done.
Qed.

Lemma userret_run s : in_kernel s -> t_x s Reg.a0 = TRAPFRAME -> t_x s Reg.a1 = MAKE_SATP r ->
  Z.testbit (t_sstatus s) 8 = false ->
  exists s', run_insns userret s = Ok tt s' /\ t_mem s' = t_mem s /\
    (forall n, 1 <= n < 32 -> t_x s' n = ld64 (t_mem s) (tf + reg_offset n)) /\
    t_pc s' = t_sepc s /\ t_mode s' = 0 /\ t_satp s' = MAKE_SATP r /\ t_sscratch s' = TRAPFRAME /\ t_stvec s' = t_stvec s.
Proof.
  intros Hk Ha Ha1 Hpp. pose proof Hk as [_ Hm]. set (m := t_mem s) in *.
  change userret with (Csrw_satp 11 :: Sfence_vma :: Ld 5 112 10 :: Csrw_sscratch 5 ::
    loads slots ++ [Csrrw_a0_sscratch; Sret]).
  set (sA := set_t_satp (MAKE_SATP r) s). assert (HA : in_user sA) by done.
  rewrite (run_insns_cons _ _ s sA).
  2:{ unfold exec_insn. rewrite (run_bind _ _ _ tt s) by (by apply fetch_kernel). unfold sA. by rewrite <- Ha1. }
  rewrite (run_insns_cons _ _ sA sA) by (unfold exec_insn; by rewrite (run_bind _ _ _ tt sA) by (by apply fetch_user)).
  set (x1 := <[5 := ld64 m (tf + 112)]> (t_x s)). set (sB := set_t_x x1 sA). assert (HB : in_user sB) by done.
  rewrite (run_insns_cons _ _ sA sB) by (by apply ld_run).
  set (sC := set_t_sscratch (ld64 m (tf + 112)) sB). assert (HC : in_user sC) by done.
  rewrite (run_insns_cons _ _ sB sC).
  2:{ unfold exec_insn. rewrite (run_bind _ _ _ tt sB) by (by apply fetch_user). by unfold modify; do 2 f_equal. }
  pose proof slots_frame as [Hfr _]%Forall_app. pose proof slots_regs as [Hnd Hn].
  assert (Ha' : x1 10 = TRAPFRAME) by (unfold x1; by rewrite fn_lookup_insert_ne).
  rewrite loads_run by done. set (x2 := loaded (t_mem sC) slots (t_x sC)). set (sD := set_t_x x2 sC).
  assert (HD : in_user sD) by done.
  set (sE := set_t_sscratch (x2 10) (set_t_x (<[10 := ld64 m (tf + 112)]> x2) sD)). assert (HE : in_user sE) by done.
  rewrite (run_insns_cons _ _ sD sE) by (unfold exec_insn; by rewrite (run_bind _ _ _ tt sD) by (by apply fetch_user)).
  eexists. split.
  { unfold run_insns. cbn [for_each]. unfold exec_insn. rewrite run_bind_assoc, (run_bind _ _ _ tt sE) by (by apply fetch_user).
    reflexivity. }
  cbn -[Z.testbit Z.lor Z.land loaded slots]. split; [done|]. split; [|split; [done|]; split; [by rewrite Hpp|]; split; [done|]; split; [|done]].
  - intros n Hn'. destruct (decide (n = 10)) as [->|Hne]; [by rewrite fn_lookup_insert|].
    rewrite fn_lookup_insert_ne by done. unfold x2. apply loaded_reg; [done|].
    pose proof (slot_of n Hn') as [|Hin]%elem_of_app; [done|]. apply list_elem_of_singleton in Hin. congruence.
  - unfold x2. by rewrite loaded_other.
Qed.

End TrampolineProof.

(** ** Theorems *)

Section TrapTheorem.
Context {KS : KSyms} `{PA : !PageAllocator kalloc kfree}.

(** Stores to a page of the kernel leave the page tables alone. *)
Lemma mapped_stable m own fl r kr tf n : pt_inv m own -> space m own r n tf -> is_root own kr ->
  pte_of m kr TRAMPOLINE = mk_pte ksym_trampoline TEXT_PERM -> kernel_page own fl tf ->
  forall m', outside_same tf m m' -> mapped r kr tf m'.
Proof.
  intros Hinv Hsp Hkr Hk Htf m' Hout.
  assert (Hsame : forall va root, 0 <= va < MAXVA -> is_root own root -> pte_of m' root va = pte_of m root va).
  { intros va root Hva Hroot. apply (pte_at_frame m m' own root va Hinv); [|by rewrite prefix_2].
    intros p r' l pre Hp. apply (kernel_same_page _ _ own fl tf); [done|by eapply pi_page| |done].
    intros ->. rewrite (kp_own _ _ _ Htf) in Hp. done. }
  split; rewrite Hsame; try done; apply Hsp.
Qed.

(** C40: User registers survive a trap.  A process runs with its own page table, sscratch
    pointing to its trapframe and stvec to the trampoline.  When it traps, [uservec] saves
    x1 .. x31 in the fields of struct trapframe, changes nothing else in memory, and enters
    the kernel with the page table, stack, hart number and entry point found in the
    trapframe's first words.  Whenever the kernel then calls [userret] with the address of
    the trapframe and the page table, all 31 registers, a0 and t0 included, get the
    values of those fields; the process goes on at sepc in user mode, with its page table,
    and sscratch is ready for the next trap. *)
Theorem user_registers_restored (s : tst) (own : gmap Z owner) (fl : list Z) (r kr tf n : Z) :
  ksyms_ok KS -> trampoline_ok KS -> pt_inv (t_mem s) own -> space (t_mem s) own r n tf -> kernel_page own fl tf ->
  is_root own kr -> pte_of (t_mem s) kr TRAMPOLINE = mk_pte ksym_trampoline TEXT_PERM ->
  t_satp s = MAKE_SATP r -> t_sscratch s = TRAPFRAME ->
  t_stvec s = TRAMPOLINE + (ksym_uservec - ksym_trampoline) -> ld64 (t_mem s) tf = MAKE_SATP kr ->
  (forall x, 1 <= x < 32 -> 0 <= t_x s x < 2 ^ 64) ->
  (exists s1, user_trap s = Ok tt s1 /\
    (forall x, 1 <= x < 32 -> ld64 (t_mem s1) (tf + reg_offset x) = t_x s x) /\
    (forall a, a < tf + 40 \/ tf + 288 <= a -> ld8 (t_mem s1) a = ld8 (t_mem s) a) /\
    t_satp s1 = MAKE_SATP kr /\ t_x s1 Reg.sp = ld64 (t_mem s) (tf + 8) /\
    t_pc s1 = ld64 (t_mem s) (tf + 16) /\ t_x s1 Reg.tp = ld64 (t_mem s) (tf + 32) /\
    t_sepc s1 = t_pc s /\ t_mode s1 = 1) /\
  (forall s2, mapped r kr tf (t_mem s2) -> t_satp s2 = MAKE_SATP kr -> Z.testbit (t_sstatus s2) 8 = false ->
    t_x s2 Reg.a0 = TRAPFRAME -> t_x s2 Reg.a1 = MAKE_SATP r ->
    exists s3, run_insns userret s2 = Ok tt s3 /\
      (forall x, 1 <= x < 32 -> t_x s3 x = ld64 (t_mem s2) (tf + reg_offset x)) /\
      t_pc s3 = t_sepc s2 /\ t_mode s3 = 0 /\ t_satp s3 = t_satp s /\ t_sscratch s3 = t_sscratch s /\
      t_stvec s3 = t_stvec s2 /\ t_mem s3 = t_mem s2).
Proof.
  intros Hks Htr Hinv Hsp Htf Hkr Hkp Hs Hss Hst Hk Hx.
  assert (Hrange : forall p, is_root own p -> 0 <= p < 2 ^ 56 /\ p mod PGSIZE = 0).
  { intros p Hp. destruct (pi_page _ _ Hinv _ _ Hp) as [H1 H2]. pose proof (page_ok_pos Hks p (conj H1 H2)).
    unfold PHYSTOP, KERNBASE in *. lia. }
  pose proof (Hrange r (sp_root _ _ _ _ _ Hsp)) as Hr. pose proof (Hrange kr Hkr) as Hkr'.
  pose proof (mapped_stable _ own fl r kr tf n Hinv Hsp Hkr Hkp Htf) as Hstable.
  pose proof (kp_ok _ _ _ Htf) as Hpage. split.
  - set (sT := set_t_pc (t_stvec s) (set_t_mode 1 (set_t_sstatus (Z.lor (Z.land (t_sstatus s) (Z.lnot 0x122))
      (if Z.testbit (t_sstatus s) 1 then 0x20 else 0)) (set_t_sepc (t_pc s) s)))).
    destruct (uservec_run Hks Htr r kr tf Hr Hkr' Hpage (t_mem s) Hstable sT) as (s1 & Hrun & Hm & Hpc & H2 & H4 & H5 & H6 & H7);
      [done..|].
    exists s1. split.
    { change (user_trap s) with ((if t_stvec s =? TRAMPOLINE + (ksym_uservec - ksym_trampoline)
        then run_insns uservec else block) sT). rewrite Hst, Z.eqb_refl. exact Hrun. }
    rewrite Hm. split; [|split].
    + intros x Hx'. apply saved_word; [done|by apply Hx].
    + intros a Ha. by apply saved_rest.
    + by repeat split.
  - intros s2 Hm Hs2 Hpp Ha0 Ha1.
    destruct (userret_run Hks Htr r kr tf Hr Hkr' Hpage s2 (conj Hs2 Hm) Ha0 Ha1 Hpp)
      as (s3 & Hrun & Hmem & Hregs & H1 & H2 & H3 & H4 & H5).
    exists s3. split; [done|]. split; [done|]. by rewrite Hs, Hss.
Qed.

End TrapTheorem.

Lemma tramp_va : 0 <= TRAMPOLINE < MAXVA.
Proof. done. Qed.

Lemma frame_va : 0 <= TRAPFRAME < MAXVA.
Proof. done. Qed.

(** A process of the small machine, on its way to user space. *)
Lemma demo_trap : exists m own fl r tf n, pt_inv m own /\ space m own r n tf /\ kernel_page own fl tf /\
  ld64 m tf = MAKE_SATP r.
Proof.
  destruct demo_parent_ok as (own & fl & P & _ & _ & _ & pid & r & tf & btf & Hp).
  assert (H0 : (0 < NPROC)%nat) by (unfold NPROC; lia).
  destruct (po_live _ _ _ P 0%nat H0) as [Hsp _ Htf _]; [by rewrite Hp|].
  pose proof (vo_inv _ _ _ (po_vm _ _ _ P)) as Hinv. rewrite Hp in Hsp, Htf. cbn in Hsp, Htf.
  revert Hinv Hsp. generalize (k_mem demo_parent), (npages 4096). intros m0 n Hinv Hsp.
  assert (Hword : ld64 (st64 m0 tf (MAKE_SATP r)) tf = MAKE_SATP r).
  { rewrite ld64_st64_eq. destruct (pi_page _ _ Hinv _ _ (sp_root _ _ _ _ _ Hsp)) as [H1 H2].
    assert (Hq : 0 <= r / 2 ^ 12 < 2 ^ 60).
    { pose proof (page_ok_pos demo_syms_ok r (conj H1 H2)). unfold PHYSTOP, KERNBASE in H2.
      split; [apply Z.div_pos; lia|]. apply Z.div_lt_upper_bound; lia. }
    unfold u64, MAKE_SATP. apply Z.mod_small. rewrite Z.shiftr_div_pow2 by done.
    change SATP_SV39 with (2 ^ 3 * 2 ^ 60). rewrite lor_low by (done || lia). lia. }
  assert (Hout : outside_same tf m0 (st64 m0 tf (MAKE_SATP r))).
  { intros a Ha. apply ld8_st64_ne. unfold PGSIZE in Ha. lia. }
  revert Hword Hout. generalize (st64 m0 tf (MAKE_SATP r)). intros m Hword Hout.
  assert (Hpg : forall p o, own !! p = Some o -> same_page m0 m p).
  { intros p o Ho. apply (kernel_same_page _ _ own fl tf); [done|exact (pi_page _ _ Hinv _ _ Ho)| |done].
    intros ->. rewrite (kp_own _ _ _ Htf) in Ho. done. }
  assert (Hsame : forall va, 0 <= va < MAXVA -> pte_of m r va = pte_of m0 r va).
  { intros va Hva. apply (pte_at_frame _ m own r va Hinv); [by intros; eapply Hpg|].
    rewrite prefix_2 by done. apply Hsp. }
  exists m, own, fl, r, tf, n. split; [|split; [|split; [done|done]]].
  - apply (pt_inv_frame m0); [|done]. intros q r' l pre Hq. by eapply Hpg.
  - destruct Hsp as [S1 S2 S3 S4 S5 S6]. 
    split.
    + exact S1.
    + exact S2.
    + exact S3.
    + rewrite (Hsame _ tramp_va). exact S4.
    + rewrite (Hsame _ frame_va). exact S5.
    + intros va Hva Hn. rewrite Hsame; [by apply S6|]. change TRAPFRAME with (MAXVA - 8192) in Hva. lia.
Qed.

(** The process traps, the kernel returns at once, and the process finds its registers. *)
Lemma user_registers_restored_witness : exists s s1 s2 s3, t_x s Reg.a0 = 10000 /\ user_trap s = Ok tt s1 /\
  t_mem s2 = t_mem s1 /\ run_insns userret s2 = Ok tt s3 /\ forall x, 1 <= x < 32 -> t_x s3 x = t_x s x.
Proof.
  destruct demo_trap as (m & own & fl & r & tf & n & Hinv & Hsp & Htf & Hk).
  pose (s := mkTst m (fun x => 1000 * x) 0x40 0 (MAKE_SATP r) TRAPFRAME (TRAMPOLINE + (ksym_uservec - ksym_trampoline)) 0 0).
  destruct (user_registers_restored s own fl r r tf n demo_syms_ok demo_trampoline Hinv Hsp Htf
              (sp_root _ _ _ _ _ Hsp) (sp_tramp _ _ _ _ _ Hsp) eq_refl eq_refl eq_refl Hk)
    as [(s1 & Hrun & Hregs & Hmem & Hsatp & _) Hret].
  { intros x Hx. cbn. lia. }
  pose (s2 := set_t_sstatus 0 (set_t_x (<[Reg.a0 := TRAPFRAME]> (<[Reg.a1 := MAKE_SATP r]> (t_x s1))) s1)).
  destruct (Hret s2) as (s3 & Hrun3 & Hregs3 & _).
  - apply (mapped_stable m own fl r r tf n Hinv Hsp (sp_root _ _ _ _ _ Hsp) (sp_tramp _ _ _ _ _ Hsp) Htf).
    intros a Ha. apply Hmem. unfold PGSIZE in Ha. lia.
  - exact Hsatp.
  - reflexivity.
  - reflexivity.
  - reflexivity.
  - exists s, s1, s2, s3. split; [reflexivity|]. split; [exact Hrun|]. split; [reflexivity|]. split; [exact Hrun3|].
    intros x Hx. rewrite (Hregs3 x Hx). exact (Hregs x Hx).
Defined.
