(* ===== verification/Init.v ===== *)
(** * The first process (userinit of kernel/proc.c)

    On an empty process table [userinit] returns, with slot 0 ready to run initcode in one
    page of memory, in the root directory. *)

From stdpp Require Import base gmap list strings.
From Stdlib Require Import ZArith Lia.
From S2P Require Import Prelude Riscv Memory State Spinlock Sched Kalloc Vm PageTable UserMem Uvm Freewalk.
From S2P Require Import Bio Log Fs Console Pipe File Proc ProcMem ProcTable Demo ProcDemo Fork KernelMap.
From S2P Require Import Signal Bsem Syscall Exec Sysfile Trap.

(** ** The first process *)

Section Userinit.
Context {KS : KSyms} (Hks : ksyms_ok KS) `{PA : !PageAllocator kalloc kfree} (Htr : trampoline_ok KS).

(** A user page of the address space under construction was free before. *)
Lemma builds_in r xs s own fl s1 own1 fl1 p o :
  vm_ok s own fl -> own !! r = None -> builds r xs s own fl s1 own1 fl1 -> own1 !! p = Some o -> root_of o = r -> p ∈ fl.
Proof.
  intros Hok Hn B Hp Ho. destruct (decide (p ∈ fl)) as [|Hni]; [done|]. exfalso.
  eapply (builds_old r s own fl s1 own1 fl1) in Hp; [|exact B|by left]. by eapply (not_root r s own fl) in Hp.
Qed.

(** Bytes stored in the address space under construction. *)
Lemma builds_stored r xs s own fl s1 own1 fl1 dst bs s2 :
  vm_ok s own fl -> own !! r = None -> builds r xs s own fl s1 own1 fl1 -> stored own1 fl1 r dst bs s1 s2 ->
  builds r xs s own fl s2 own1 fl1.
Proof.
  intros Hok Hn B [S1 S2 S3 S4 S5]. split; try apply B; [done|..].
  - intros r' va Hne Hr Hva. rewrite (same_pte_of s1 own1); [by eapply bd_pte|done| |done].
    eapply is_root_sub; [apply B|done].
  - intros p Hal Hpf Hnt. eapply same_page_trans; [by eapply bd_same|]. apply S5; [done|].
    intros vpn Hp. apply Hpf. eapply builds_in; [exact Hok|exact Hn|exact B|exact Hp|done].
Qed.

(** [uvminit] in an empty address space: one page that holds [src], filled up with zeros. *)
Lemma uvminit_run r src s own q fl env :
  vm_ok s own (q :: fl) -> is_root own r -> pte_of (k_mem s) r 0 = 0 ->
  Z.of_nat (length src) < PGSIZE -> (2 <= length fl)%nat ->
  exists s1 s' own' fl', uvminit r src (mkWorld s env) = Ok tt (mkWorld s' env) /\
    added r 0 1 s own (q :: fl) s1 own' fl' /\ user_mapped own' r 0 1 /\ stored own' fl' r 0 src s1 s' /\
    (length fl <= length fl' + 2)%nat /\
    (forall va, 0 <= va < PGSIZE -> user_byte (k_mem s1) r va = Some 0).
Proof.
  intros Hok Hr Hfree Hlen Hfl. destruct PTE_WRXU_ok as (Hp1 & Hp2 & Hp3).
  assert (Hpf : pte_free s r 0 (0 + 1)) by (intros vpn Hv; replace vpn with 0 by lia; exact Hfree).
  assert (Hout : forall m, outside_same q m (memset m q 0 pgsize)) by (intros m; apply outside_same_memset).
  destruct (add_page Hks r 0 0 s own (q :: fl) Hok Hr ltac:(lia) ltac:(lia) ltac:(by vm_compute) Hpf s own q fl
    (added_0 _ _ _ _ _ Hok) (ex_intro _ [] eq_refl) (fun m => memset m q 0 pgsize) PTE_WRXU env Hout Hp1 Hp2)
    as (s2 & Hrun & Hq0 & _ & e & s4 & own4 & fl4 & Hmap & Hres).
  destruct Hres as [(-> & A & _ & Hl4 & Ho4 & Hpte & Hsame & _ & _)|(_ & ? & _)]; [|lia].
  assert (Hr4 : is_root own4 r) by (eapply is_root_sub; [apply A|done]).
  assert (Hm : mapped_as r 0 1 (fun _ => PTE_WRXU) (fun _ _ => 0) s4 own4).
  { intros vpn Hv. replace vpn with 0 by lia. exists q. split; [exact Ho4|]. split; [exact Hpte|].
    intros j Hj. rewrite Hsame by lia. rewrite ld8_memset.
    destruct (Z.leb_spec q (q + j)), (Z.ltb_spec (q + j) (q + Z.of_nat pgsize)); cbn [andb]; try reflexivity;
      unfold pgsize, PGSIZE in *; lia. }
  assert (Hbyte : forall va, 0 <= va < PGSIZE -> user_byte (k_mem s4) r va = Some 0).
  { intros va Hva. assert (Hd : va / PGSIZE = 0) by (by apply Z.div_small).
    assert (Hin : 0 <= va / PGSIZE < 0 + 1) by lia.
    assert (Hmv : 0 <= va < MAXVA) by (change MAXVA with (2 ^ 38); unfold PGSIZE in Hva; lia).
    rewrite (mapped_as_byte Hks r 0 1 _ _ s4 own4 va (vo_inv _ _ _ (ad_ok A)) Hm (fun _ => Hp1) Hmv Hin).
    by rewrite Hp3. }
  assert (Htr0 : translate (k_mem s4) r 0 = Some (q + 0 mod PGSIZE)).
  { pose proof (pi_page _ _ (vo_inv _ _ _ (ad_ok A)) _ _ Ho4) as Hqok.
    pose proof (page_ok_range Hks q Hqok) as Hqr. destruct Hqok as [Hqa _].
    unfold translate. change (MAXVA <=? 0) with false. change ((0 + 0) * PGSIZE) with 0 in Hpte. rewrite Hpte. cbv zeta.
    by rewrite has_V_mk_pte, has_U_mk_pte, Hp3, PTE2PA_mk_pte. }
  pose proof (store_user s4 own4 fl4 r q 0 src (ad_ok A) Hr4 Ho4 ltac:(lia) Htr0) as St.
  change (0 mod PGSIZE) with 0 in St. rewrite Z.add_0_r in St.
  eexists s4, _, own4, fl4. split; [|split; [exact A|split; [by eapply mapped_as_user|split; [apply St; lia|split; [lia|exact Hbyte]]]]].
  unfold uvminit. rewrite (proj2 (Z.leb_gt _ _)) by lia.
  rewrite (run_bind _ _ _ q (mkWorld s2 env)) by done.
  rewrite (run_bind _ _ _ tt (mkWorld (set_k_mem (memset (k_mem s2) q 0 pgsize) s2) env)) by done.
  rewrite (run_bind _ _ _ 0 (mkWorld s4 env)) by exact Hmap. done.
Qed.

(** [iget] with nothing in the table takes its first slot. *)
Lemma iget_scan_unused tbl dev inum : forall slots e, (forall i, i ∈ slots -> i_ref (tbl !!! i) = 0) ->
  iget_scan slots tbl dev inum e = inr (match e with Some e => Some e | None => head slots end).
Proof.
  induction slots as [|i slots IH]; intros e H; cbn [iget_scan head]; [by destruct e|].
  rewrite (H i (list_elem_of_here _ _)). cbn [Z.ltb Z.compare andb Z.eqb]. rewrite IH.
  - by destruct e.
  - intros j Hj. apply H. by apply list_elem_of_further.
Qed.

Definition rooted (x : inode) : inode := set_i_valid 0 (set_i_ref 1 (set_i_inum ROOTINO (set_i_dev ROOTDEV x))).

Lemma iget_root s env :
  (forall i, (i < NINODE)%nat -> i_ref (k_inodes s !!! i) = 0) -> LItable ∉ k_held s ->
  iget ROOTDEV ROOTINO (mkWorld s env) =
  Ok 0%nat (mkWorld (set_k_inodes (alter rooted 0%nat (k_inodes s)) s) env).
Proof.
  intros Hz Hl. unfold iget. rewrite (run_bind _ _ _ tt _ (acquire_run LItable (mkWorld s env) Hl)). cbn [w_ks w_env].
  set (s1 := set_k_held (LItable :: k_held s) s).
  rewrite (run_bind _ _ _ (k_inodes s) (mkWorld s1 env)) by done.
  rewrite iget_scan_unused by (intros i Hi; apply Hz; unfold inode_slots in Hi; apply elem_of_seq in Hi; lia).
  change (head inode_slots) with (Some 0%nat). cbv iota.
  apply run_wp. unfold inode_upd. ksteps. eapply wpx_release; [reflexivity|]. ksteps. split; [done|].
  f_equal. unfold s1. destruct s. cbn. f_equal. destruct k_inodes; [done|]. done.
Qed.

Lemma namei_root s env :
  (forall i, (i < NINODE)%nat -> i_ref (k_inodes s !!! i) = 0) -> LItable ∉ k_held s ->
  namei (bytes_of "/") (mkWorld s env) =
  Ok (Some 0%nat) (mkWorld (set_k_inodes (alter rooted 0%nat (k_inodes s)) s) env).
Proof.
  intros Hz Hl. unfold namei, namex. change (bytes_of "/") with [47].
  change (47 =? SLASH) with true. cbv iota.
  rewrite (run_bind _ _ _ (Some 0%nat, replicate DIRSIZ 0) (mkWorld (set_k_inodes (alter rooted 0%nat (k_inodes s)) s) env)); [done|].
  by rewrite (run_bind _ _ _ _ _ (iget_root s env Hz Hl)).
Qed.

(** The state in which the first process is ready to run. *)
Record first_process (s' : kst) : Prop := {
  fp_init : k_initproc s' = Some 0%nat;
  fp_state : p_state (get_proc 0 s') = RUNNABLE;
  fp_others i : (0 < i < NPROC)%nat -> p_state (get_proc i s') = UNUSED;
  fp_sz : p_sz (get_proc 0 s') = PGSIZE;
  fp_code va : 0 <= va < PGSIZE ->
    user_byte (k_mem s') (p_pagetable (get_proc 0 s')) va = Some (nth (Z.to_nat va) initcode 0);
  fp_epc : ld64 (k_mem s') (p_trapframe (get_proc 0 s') + TF_epc) = 0;
  fp_sp : ld64 (k_mem s') (p_trapframe (get_proc 0 s') + TF_sp) = PGSIZE;
  fp_cwd : p_cwd (get_proc 0 s') = Some 0%nat /\ i_dev (k_inodes s' !!! 0%nat) = ROOTDEV /\
    i_inum (k_inodes s' !!! 0%nat) = ROOTINO /\ i_ref (k_inodes s' !!! 0%nat) = 1;
  fp_held : k_held s' = []
}.

(** [userinit] after [uvminit]. *)
Definition userinit_tail (p : nat) : K unit :=
  proc_upd p (set_p_sz PGSIZE);;
  tf_set p TF_epc 0;;
  tf_set p TF_sp PGSIZE;;
  proc_upd p (set_name (bytes_of "initcode"));;
  cwd ← namei (bytes_of "/");
  proc_upd p (set_p_cwd cwd);;
  proc_upd p (set_p_state RUNNABLE);;
  release (LProc p).

Lemma userinit_eq :
  userinit = (r ← allocproc;
    match r with
    | None => panic "kerneltrap"
    | Some p =>
        kmodify (set_k_initproc (Some p));;
        pr ← proc_of p;
        uvminit (p_pagetable pr) initcode;;
        userinit_tail p
    end).
Proof. unfold userinit, userinit_tail. reflexivity. Qed.

Definition ready (x : proc) : proc :=
  set_p_state RUNNABLE (set_p_cwd (Some 0%nat) (set_name (bytes_of "initcode") (set_p_sz PGSIZE x))).

Definition start_frame (tf : Z) (m : mem) : mem := st64 (st64 m (tf + TF_epc) 0) (tf + TF_sp) PGSIZE.

Lemma userinit_tail_run p s env :
  k_held s = [LProc p] -> (p < length (k_procs s))%nat ->
  (forall i, (i < NINODE)%nat -> i_ref (k_inodes s !!! i) = 0) ->
  userinit_tail p (mkWorld s env) =
  Ok tt (mkWorld (set_k_held [] (set_k_inodes (alter rooted 0%nat (k_inodes s))
    (set_k_mem (start_frame (p_trapframe (get_proc p s)) (k_mem s)) (upd_proc p ready s)))) env).
Proof.
  intros Hh Hp Hz. unfold userinit_tail. rewrite bind_proc_upd.
  set (tf := p_trapframe (get_proc p s)). set (g1 := set_p_sz PGSIZE).
  assert (Hget : forall g s', k_procs s' = k_procs s -> get_proc p (upd_proc p g s') = g (get_proc p s)).
  { intros g s' Hs'. rewrite get_upd_proc by (by rewrite Hs'). unfold get_proc. by rewrite Hs'. }
  set (m1 := st64 (k_mem s) (tf + TF_epc) 0). set (m2 := st64 m1 (tf + TF_sp) PGSIZE).
  assert (Htf : forall f v m, tf_set p f v (mkWorld (upd_proc p g1 (set_k_mem m s)) env) =
    Ok tt (mkWorld (upd_proc p g1 (set_k_mem (st64 m (tf + f) v) s)) env)).
  { intros f v m. unfold tf_set. rewrite (run_bind _ _ _ (g1 (get_proc p s)) (mkWorld (upd_proc p g1 (set_k_mem m s)) env)); [done|].
    unfold proc_of, kgets, gets. cbn [w_ks]. by rewrite Hget. }
  rewrite (run_bind _ _ _ tt (mkWorld (upd_proc p g1 (set_k_mem m1 s)) env)).
  2:{ pose proof (Htf TF_epc 0 (k_mem s)) as H. by replace (set_k_mem (k_mem s) s) with s in H by (by destruct s). }
  rewrite (run_bind _ _ _ tt (mkWorld (upd_proc p g1 (set_k_mem m2 s)) env)) by (by rewrite Htf).
  rewrite bind_proc_upd, upd_proc_twice. set (g2 := set_name (bytes_of "initcode") ∘ g1).
  set (s2 := upd_proc p g2 (set_k_mem m2 s)).
  rewrite (run_bind _ _ _ (Some 0%nat) (mkWorld (set_k_inodes (alter rooted 0%nat (k_inodes s)) s2) env)).
  2:{ rewrite namei_root; [done|exact Hz|]. change (k_held s2) with (k_held s). rewrite Hh. by rewrite list_elem_of_singleton. }
  rewrite !bind_proc_upd, upd_proc_twice.
  set (base := set_k_inodes (alter rooted 0%nat (k_inodes s)) (set_k_mem m2 s)).
  change (set_k_inodes (alter rooted 0%nat (k_inodes s)) s2) with (upd_proc p g2 base). rewrite upd_proc_twice.
  rewrite (release_run _ []) by exact Hh. reflexivity.
Qed.

Lemma start_frame_outside tf m : outside_same tf m (start_frame tf m).
Proof.
  eapply outside_same_trans; apply outside_same_st64; unfold TF_epc, TF_sp, PGSIZE; lia.
Qed.

(** What [userinit] leaves in the kernel, the memory apart. *)
Lemma ready_slot pid r tf btf x : clean x ->
  let c := ready (fresh pid r tf btf x) in
  (p_pagetable c = r /\ p_trapframe c = tf /\ p_backupTrapframe c = btf) /\
  p_state c = RUNNABLE /\ p_sz c = PGSIZE /\ p_cwd c = Some 0%nat.
Proof. intros _. destruct x. by repeat split. Qed.

Lemma ready_shaped pid r tf btf x : shaped x -> shaped (ready (fresh pid r tf btf x)).
Proof.
  intros [H1 H2 H3 H4].
  assert (Hn : p_name (ready (fresh pid r tf btf x)) = p_name (set_name (bytes_of "initcode") x)) by (by destruct x).
  split; [by destruct x|rewrite Hn; by apply length_set_name|by destruct x|by destruct x].
Qed.

Lemma initcode_u8 : Forall (fun b => u8 b = b) initcode.
Proof. repeat constructor. Qed.

Lemma Forall_nth_1 (Q : Z -> Prop) l i : Forall Q l -> (i < length l)%nat -> Q (nth i l 0).
Proof. intros HF Hi. rewrite Forall_nth in HF. by apply HF. Qed.

(** The memory of the first process. *)
Lemma init_memory s own fl r tf btf s1 own1 fl1 s2 s3 s4 own4 fl4 m' :
  procs_ok s own fl -> new_proc s own fl r tf btf 0 s1 own1 fl1 -> k_mem s2 = k_mem s1 -> vm_ok s2 own1 fl1 ->
  added r 0 1 s2 own1 fl1 s3 own4 fl4 -> user_mapped own4 r 0 1 -> stored own4 fl4 r 0 initcode s3 s4 ->
  (forall va, 0 <= va < PGSIZE -> user_byte (k_mem s3) r va = Some 0) -> m' = start_frame tf (k_mem s4) ->
  builds r (frame btf ++ frame tf) s own fl (set_k_mem m' s4) own4 fl4 /\ space m' own4 r 1 tf /\
  kernel_page own4 fl4 tf /\ (btf = 0 \/ kernel_page own4 fl4 btf /\ btf <> tf) /\
  (forall va, 0 <= va < PGSIZE -> user_byte m' r va = Some (nth (Z.to_nat va) initcode 0)) /\
  ld64 m' (tf + TF_epc) = 0 /\ ld64 m' (tf + TF_sp) = PGSIZE.
Proof.
  intros P [[Hrn Hr0] B Hsp Hf Hb] Hm2 Hok2 A Hum St Hz Hm'.
  assert (Hout : outside_same tf (k_mem s4) m') by (rewrite Hm'; apply start_frame_outside).
  assert (Htf : tf <> 0) by (destruct Hf as [Hp _ _]; apply (page_ok_pos Hks) in Hp; lia).
  assert (B2 : builds r (frame btf ++ frame tf) s own fl s2 own1 fl1) by (eapply builds_frame; [..|exact B]; done).
  pose proof (added_builds _ _ _ _ _ _ _ _ _ A) as B3.
  assert (B4 : builds r (frame btf ++ frame tf) s own fl s4 own4 fl4).
  { eapply builds_stored; [apply P|exact Hrn| |exact St]. rewrite <- (app_nil_r (_ ++ _)). by eapply builds_trans. }
  assert (Hf4 : kernel_page own4 fl4 tf) by (eapply builds_kernel_page; [exact B3|exact Hf]).
  destruct (builds_fill _ _ _ _ _ _ _ _ tf m' B4) as [B5 Hpte].
  { apply elem_of_app. right. by apply elem_of_frame. } { apply Hf4. } { exact Hout. }
  assert (Sp3 : space (k_mem s3) own4 r 1 tf).
  { eapply added_space; [exact A|exact Hum|by vm_compute|]. by rewrite Hm2. }
  assert (Sp4 : space (k_mem s4) own4 r 1 tf) by (eapply space_frame; [exact (sd_pte St)|exact Sp3]).
  assert (Hroot : is_root own4 r) by apply Sp4.
  split; [done|]. split; [exact (space_frame s4 own4 (set_k_mem m' s4) _ _ _ Hpte Sp4)|]. split; [done|].
  split. { destruct Hb as [|[Hb ?]]; [by left|right]. split; [|done]. eapply builds_kernel_page; [exact B3|exact Hb]. }
  split; [|split].
  - intros va Hva. transitivity (user_byte (k_mem s4) r va).
    + apply (user_byte_frame s4 (set_k_mem m' s4) own4 fl4 r va (bd_ok _ _ _ _ _ _ _ _ B4) Hroot); [lia|..].
      * intros Hlt. apply (same_pte_of s4 own4); [done|done|lia].
      * intros x vpn Hx. apply (outside_same_page tf); [apply Hf4| | |exact Hout].
        -- eapply pi_aligned; [apply (bd_ok _ _ _ _ _ _ _ _ B4)|done].
        -- intros <-. destruct Hf4 as [_ Ho _]. congruence.
    + rewrite (sd_wrote St r va Hroot ltac:(lia)), Hz by done. case_decide as D.
      * rewrite Z.sub_0_r. f_equal. apply (Forall_nth_1 _ _ (Z.to_nat va) initcode_u8). lia.
      * f_equal. symmetry. apply nth_overflow. lia.
  - rewrite Hm'. unfold start_frame, TF_epc, TF_sp. rewrite ld64_st64_ne by lia. apply ld64_st64_eq.
  - rewrite Hm'. unfold start_frame. apply ld64_st64_eq.
Qed.

Lemma init_state s own fl r tf btf s1 own1 fl1 s2 s3 s4 own4 fl4 s' :
  procs_ok s own fl -> (forall i, (i < NPROC)%nat -> p_state (get_proc i s) = UNUSED) -> length (k_inodes s) = NINODE ->
  new_proc s own fl r tf btf 0 s1 own1 fl1 -> k_mem s2 = k_mem s1 -> vm_ok s2 own1 fl1 ->
  added r 0 1 s2 own1 fl1 s3 own4 fl4 -> user_mapped own4 r 0 1 -> stored own4 fl4 r 0 initcode s3 s4 ->
  (forall va, 0 <= va < PGSIZE -> user_byte (k_mem s3) r va = Some 0) ->
  get_proc 0 s4 = fresh (k_nextpid s) r tf btf (get_proc 0 s) -> (forall i, i <> 0%nat -> get_proc i s4 = get_proc i s) ->
  length (k_procs s4) = NPROC ->
  k_mem s' = start_frame tf (k_mem s4) -> k_freelist s' = k_freelist s4 -> k_held s' = [] ->
  k_procs s' = k_procs (upd_proc 0 ready s4) -> k_inodes s' = alter rooted 0%nat (k_inodes s) -> k_initproc s' = Some 0%nat ->
  procs_ok s' own4 fl4 /\ first_process s' /\ builds r (frame btf ++ frame tf) s own fl s' own4 fl4 /\
  forall i, p_kstack (get_proc i s') = p_kstack (get_proc i s).
Proof.
  intros P Hun Hil N Hm2 Hok2 A Hum St Hz Hg4 Ho4 Hl4 Hmem Hfree Hheld Hps Hino Hinit.
  assert (H0 : (0 < NPROC)%nat) by (unfold NPROC; lia).
  pose proof (po_clean _ _ _ P 0%nat H0 (Hun 0%nat H0)) as C. pose proof (po_shape _ _ _ P 0%nat H0) as Hsh.
  destruct (init_memory s own fl r tf btf s1 own1 fl1 s2 s3 s4 own4 fl4 (k_mem s') P N Hm2 Hok2 A Hum St Hz Hmem)
    as (B & Sp & Hf & Hb & Hbytes & Hepc & Hsp).
  assert (Hgp : forall i, get_proc i s' = get_proc i (upd_proc 0 ready s4)) by (intros i; unfold get_proc; by rewrite Hps).
  assert (Hc : get_proc 0 s' = ready (fresh (k_nextpid s) r tf btf (get_proc 0 s))).
  { rewrite Hgp, get_upd_proc by (by rewrite Hl4). apply (f_equal ready), Hg4. }
  assert (Hoth : forall i, i <> 0%nat -> get_proc i s' = get_proc i s).
  { intros i Hi. rewrite Hgp, get_upd_proc_ne by done. by apply Ho4. }
  destruct (ready_slot (k_nextpid s) r tf btf (get_proc 0 s) C) as ((C1 & C2 & C3) & C4 & C5 & C6).
  pose proof (ready_shaped (k_nextpid s) r tf btf (get_proc 0 s) Hsh) as C7.
  assert (Hk : p_kstack (get_proc 0 s') = p_kstack (get_proc 0 s)) by (rewrite Hc; by destruct (get_proc 0 s)).
  rewrite <- Hc in C1, C2, C3, C4, C5, C6, C7.
  assert (B' : builds r (frame btf ++ frame tf) s own fl s' own4 fl4).
  { eapply builds_frame; [| | |exact B]; [done|done|].
    apply (vm_ok_frame (set_k_mem (k_mem s') s4)); [done|done|rewrite Hheld; apply not_elem_of_nil|apply B]. }
  destruct N as [[Hrn _] _ _ _ _]. split; [|split; [|split; [exact B'|]]].
  - eapply (procs_ok_slot r (frame btf ++ frame tf));
      [exact P|exact B'|exact Hrn|exact H0| |exact Hoth|exact C7|rewrite C4; discriminate|rewrite C4; discriminate|].
    + rewrite Hps. cbn. by rewrite length_alter.
    + intros _. split; [|split; [exact C1|]].
      * split; rewrite ?C1, ?C2, ?C3, ?C5; [exact Sp|by vm_compute|exact Hf|exact Hb].
      * intros x. unfold ProcTable.frames. by rewrite C2, C3.
  - split; [exact Hinit|exact C4| |exact C5|by rewrite C1|by rewrite C2|by rewrite C2| |exact Hheld].
    + intros i Hi. rewrite Hoth by lia. apply Hun. lia.
    + split; [exact C6|]. rewrite Hino, list_lookup_total_alter, decide_True by (rewrite Hil; unfold NINODE; lia). by repeat split.
  - intros i. destruct (decide (i = 0%nat)) as [->|Hne]; [exact Hk|]. by rewrite Hoth.
Qed.

Lemma userinit_runs s own fl env :
  procs_ok s own fl -> k_held s = [] -> (forall i, (i < NPROC)%nat -> p_state (get_proc i s) = UNUSED) ->
  (forall i, (i < NINODE)%nat -> i_ref (k_inodes s !!! i) = 0) -> length (k_inodes s) = NINODE ->
  10 <= Z.of_nat (length fl) ->
  exists r s' own' fl', userinit (mkWorld s env) = Ok tt (mkWorld s' env) /\
    procs_ok s' own' fl' /\ first_process s' /\ own !! r = None /\
    builds r (ProcTable.frames (get_proc 0 s')) s own fl s' own' fl' /\
    k_kpgtbl s' = k_kpgtbl s /\ k_hw s' = k_hw s /\ (forall i, p_kstack (get_proc i s') = p_kstack (get_proc i s)) /\
    k_bufs s' = k_bufs s /\ k_disk s' = k_disk s /\ k_uart s' = k_uart s.
Proof.
  intros P Hh Hun Hin Hil Hlen.
  assert (Hslot : first_slot (is_unused s) NPROC = Some 0%nat).
  { apply first_slot_Some. split; [unfold NPROC; lia|]. split; [|lia]. apply bool_decide_eq_true, Hun. unfold NPROC. lia. }
  assert (H0 : (0 < NPROC)%nat) by (unfold NPROC; lia).
  pose proof (po_clean _ _ _ P 0%nat H0 (Hun 0%nat H0)) as C. pose proof (po_shape _ _ _ P 0%nat H0) as Hsh.
  destruct (allocproc_spec Hks Htr 0 s own fl env Hh (po_vm _ _ _ P) Hslot (po_len _ _ _ P) C Hsh)
    as [(? & ? & _ & _ & _ & ?)|(s1 & own1 & fl1 & r & tf & btf & Hrun1 & Hmo1 & [[Hrn Hr0] B1 Sp1 Hf1 Hb1] & Hl1)]; [lia|].
  set (g := fresh (k_nextpid s) r tf btf) in *.
  assert (Hlen0 : (0 < length (k_procs s))%nat) by (by rewrite (po_len _ _ _ P)).
  pose proof (new_slot 0 g s s1 Hlen0 Hmo1) as Hg1.
  destruct fl1 as [|q fl1]; [cbn in Hl1; lia|]. cbn [length] in Hl1.
  set (s2 := set_k_initproc (Some 0%nat) s1).
  assert (Hok2 : vm_ok s2 own1 (q :: fl1)) by (eapply vm_ok_frame; [..|apply B1]; [done..|apply (vo_lock _ _ _ (bd_ok _ _ _ _ _ _ _ _ B1))]).
  assert (Hpte0 : pte_of (k_mem s2) r 0 = 0) by (by apply (sp_rest _ _ _ _ _ Sp1)).
  destruct (uvminit_run r initcode s2 own1 q fl1 env Hok2 (sp_root _ _ _ _ _ Sp1) Hpte0)
    as (s3 & s4 & own4 & fl4 & Hrun4 & A & Hum & St & Hl4 & Hz); [by vm_compute|lia|].
  assert (Hmo4 : mem_only s2 s4) by (etrans; [apply A|apply St]).
  assert (Hg4 : forall i, get_proc i s4 = get_proc i s1) by (intros i; by rewrite (mem_only_proc _ _ i Hmo4)).
  assert (Hsame : k_held s4 = [LProc 0] /\ length (k_procs s4) = NPROC /\ k_inodes s4 = k_inodes s /\
    k_initproc s4 = Some 0%nat /\ k_kpgtbl s4 = k_kpgtbl s /\ k_hw s4 = k_hw s /\
    k_bufs s4 = k_bufs s /\ k_disk s4 = k_disk s /\ k_uart s4 = k_uart s).
  { destruct Hmo4 as (h4 & m4 & ->). unfold s2. destruct Hmo1 as (h1 & m1 & ->). cbn. rewrite length_alter.
    split; [done|]. split; [apply P|]. by repeat split. }
  destruct Hsame as (Hh4 & Hl4' & Hi4 & Hinit4 & Hk4 & Hw4 & Hb4 & Hd4 & Hu4).
  pose proof (userinit_tail_run 0 s4 env Hh4) as Hrun5. rewrite Hl4', Hi4, Hg4, Hg1 in Hrun5.
  specialize (Hrun5 H0 Hin). change (p_trapframe (g (get_proc 0 s))) with tf in Hrun5.
  match type of Hrun5 with _ = Ok tt (mkWorld ?x env) => set (s' := x) in Hrun5 end.
  assert (Hfr : ProcTable.frames (get_proc 0 s') = frame btf ++ frame tf).
  { assert (E : get_proc 0 s' = ready (g (get_proc 0 s))).
    { etrans; [apply (get_upd_proc 0 ready s4); by rewrite Hl4'|]. apply (f_equal ready).
      etrans; [apply Hg4|exact Hg1]. }
    rewrite E. destruct (ready_slot (k_nextpid s) r tf btf (get_proc 0 s) C) as ((_ & E2 & E3) & _).
    unfold ProcTable.frames. fold g in E2, E3. by rewrite E2, E3. }
  exists r, s', own4, fl4. rewrite Hfr. split.
  { rewrite userinit_eq, (run_bind _ _ _ (Some 0%nat) (mkWorld s1 env)) by done.
    rewrite (run_bind _ _ _ tt (mkWorld s2 env)) by done.
    rewrite (run_bind _ _ _ (g (get_proc 0 s)) (mkWorld s2 env)) by (unfold proc_of, kgets, gets; cbn [w_ks]; by rewrite <- Hg1).
    change (p_pagetable (g (get_proc 0 s))) with r.
    rewrite (run_bind _ _ _ tt (mkWorld s4 env)) by exact Hrun4. exact Hrun5. }
  destruct (init_state s own fl r tf btf s1 own1 (q :: fl1) s2 s3 s4 own4 fl4 s') as (P' & F & B' & Hks');
    [exact P|exact Hun|exact Hil|by split|done|exact Hok2|exact A|exact Hum|exact St|exact Hz|by rewrite Hg4|..].
  - intros i Hi. rewrite Hg4, (mem_only_proc _ _ i Hmo1). by apply (get_upd_proc_ne 0 i g s).
  - exact Hl4'.
  - reflexivity.
  - reflexivity.
  - reflexivity.
  - reflexivity.
  - reflexivity.
  - exact Hinit4.
  - split; [exact P'|]. split; [exact F|]. split; [exact Hrn|]. split; [exact B'|]. split; [exact Hk4|]. split; [exact Hw4|].
    split; [exact Hks'|]. split; [exact Hb4|]. split; [exact Hd4|exact Hu4].
Qed.

End Userinit.
