(* ===== verification/Start.v ===== *)
(** * Machine mode (kernel/entry.S, kernel/start.c, timervec of kernel/kernelvec.S)

    A hart starts in machine mode at [entry], which gives it a stack and calls [start];
    [start] sets up the machine's control registers and leaves for [main] in supervisor
    mode.  From then on machine mode runs only for the timer: the interrupt enters
    [timervec], which arms the timer again, raises the software interrupt that trap.c
    handles, and returns.

    [mst] is a hart: its memory, the registers this code uses and its control registers;
    [machine_trap] and [mret] are the hardware's entry to and return from machine mode, as
    the privileged architecture manual gives them. *)

From stdpp Require Import base gmap list strings.
From Stdlib Require Import ZArith Lia.
From S2P Require Import Prelude Riscv Memory.

(** The addresses the linker gives to [main], [timervec], [stack0] and [timer_scratch]. *)
Class MSyms := { msym_main : Z; msym_timervec : Z; msym_stack0 : Z; msym_timer_scratch : Z }.

(** [timer_scratch], 40 bytes for each hart, is in RAM. *)
Definition msyms_ok (MS : MSyms) : Prop :=
  KERNBASE <= msym_timer_scratch /\ msym_timer_scratch + 40 * Z.of_nat NCPU <= PHYSTOP.

Definition MSTATUS_MPP_MASK : Z := Z.shiftl 3 11.
Definition MSTATUS_MPP_S : Z := Z.shiftl 1 11.
Definition MSTATUS_MIE : Z := Z.shiftl 1 3.
Definition MSTATUS_MPIE : Z := Z.shiftl 1 7.
Definition SIE_SEIE : Z := Z.shiftl 1 9.
Definition SIE_STIE : Z := Z.shiftl 1 5.
Definition SIE_SSIE : Z := Z.shiftl 1 1.
Definition MIE_MTIE : Z := Z.shiftl 1 7.
Definition CLINT : Z := 0x2000000.
Definition CLINT_MTIMECMP (hartid : Z) : Z := CLINT + 0x4000 + 8 * hartid.
Definition CLINT_MTIME : Z := CLINT + 0xBFF8.

(** A hart: memory with the device registers, privilege (0 user, 1 supervisor, 3 machine),
    registers, control registers. *)
Record mst : Type := mkMst {
  m_mem : mem;
  m_mode : Z;
  m_pc : Z;
  m_sp : Z;
  m_tp : Z;
  m_a0 : Z;
  m_a1 : Z;
  m_a2 : Z;
  m_a3 : Z;
  m_mhartid : Z;
  m_mstatus : Z;
  m_mepc : Z;
  m_satp : Z;
  m_medeleg : Z;
  m_mideleg : Z;
  m_sie : Z;
  m_mie : Z;
  m_mtvec : Z;
  m_mscratch : Z;
  m_sip : Z
}.

Definition set_m_mem (v : mem) (x : mst) : mst :=
  mkMst v (m_mode x) (m_pc x) (m_sp x) (m_tp x) (m_a0 x) (m_a1 x) (m_a2 x) (m_a3 x) (m_mhartid
    x) (m_mstatus x) (m_mepc x) (m_satp x) (m_medeleg x) (m_mideleg x) (m_sie x) (m_mie x)
    (m_mtvec x) (m_mscratch x) (m_sip x).
Definition set_m_mode (v : Z) (x : mst) : mst :=
  mkMst (m_mem x) v (m_pc x) (m_sp x) (m_tp x) (m_a0 x) (m_a1 x) (m_a2 x) (m_a3 x) (m_mhartid x)
    (m_mstatus x) (m_mepc x) (m_satp x) (m_medeleg x) (m_mideleg x) (m_sie x) (m_mie x) (m_mtvec
    x) (m_mscratch x) (m_sip x).
Definition set_m_pc (v : Z) (x : mst) : mst :=
  mkMst (m_mem x) (m_mode x) v (m_sp x) (m_tp x) (m_a0 x) (m_a1 x) (m_a2 x) (m_a3 x) (m_mhartid
    x) (m_mstatus x) (m_mepc x) (m_satp x) (m_medeleg x) (m_mideleg x) (m_sie x) (m_mie x)
    (m_mtvec x) (m_mscratch x) (m_sip x).
Definition set_m_sp (v : Z) (x : mst) : mst :=
  mkMst (m_mem x) (m_mode x) (m_pc x) v (m_tp x) (m_a0 x) (m_a1 x) (m_a2 x) (m_a3 x) (m_mhartid
    x) (m_mstatus x) (m_mepc x) (m_satp x) (m_medeleg x) (m_mideleg x) (m_sie x) (m_mie x)
    (m_mtvec x) (m_mscratch x) (m_sip x).
Definition set_m_tp (v : Z) (x : mst) : mst :=
  mkMst (m_mem x) (m_mode x) (m_pc x) (m_sp x) v (m_a0 x) (m_a1 x) (m_a2 x) (m_a3 x) (m_mhartid
    x) (m_mstatus x) (m_mepc x) (m_satp x) (m_medeleg x) (m_mideleg x) (m_sie x) (m_mie x)
    (m_mtvec x) (m_mscratch x) (m_sip x).
Definition set_m_a0 (v : Z) (x : mst) : mst :=
  mkMst (m_mem x) (m_mode x) (m_pc x) (m_sp x) (m_tp x) v (m_a1 x) (m_a2 x) (m_a3 x) (m_mhartid
    x) (m_mstatus x) (m_mepc x) (m_satp x) (m_medeleg x) (m_mideleg x) (m_sie x) (m_mie x)
    (m_mtvec x) (m_mscratch x) (m_sip x).
Definition set_m_a1 (v : Z) (x : mst) : mst :=
  mkMst (m_mem x) (m_mode x) (m_pc x) (m_sp x) (m_tp x) (m_a0 x) v (m_a2 x) (m_a3 x) (m_mhartid
    x) (m_mstatus x) (m_mepc x) (m_satp x) (m_medeleg x) (m_mideleg x) (m_sie x) (m_mie x)
    (m_mtvec x) (m_mscratch x) (m_sip x).
Definition set_m_a2 (v : Z) (x : mst) : mst :=
  mkMst (m_mem x) (m_mode x) (m_pc x) (m_sp x) (m_tp x) (m_a0 x) (m_a1 x) v (m_a3 x) (m_mhartid
    x) (m_mstatus x) (m_mepc x) (m_satp x) (m_medeleg x) (m_mideleg x) (m_sie x) (m_mie x)
    (m_mtvec x) (m_mscratch x) (m_sip x).
Definition set_m_a3 (v : Z) (x : mst) : mst :=
  mkMst (m_mem x) (m_mode x) (m_pc x) (m_sp x) (m_tp x) (m_a0 x) (m_a1 x) (m_a2 x) v (m_mhartid
    x) (m_mstatus x) (m_mepc x) (m_satp x) (m_medeleg x) (m_mideleg x) (m_sie x) (m_mie x)
    (m_mtvec x) (m_mscratch x) (m_sip x).
Definition set_m_mhartid (v : Z) (x : mst) : mst :=
  mkMst (m_mem x) (m_mode x) (m_pc x) (m_sp x) (m_tp x) (m_a0 x) (m_a1 x) (m_a2 x) (m_a3 x) v
    (m_mstatus x) (m_mepc x) (m_satp x) (m_medeleg x) (m_mideleg x) (m_sie x) (m_mie x) (m_mtvec
    x) (m_mscratch x) (m_sip x).
Definition set_m_mstatus (v : Z) (x : mst) : mst :=
  mkMst (m_mem x) (m_mode x) (m_pc x) (m_sp x) (m_tp x) (m_a0 x) (m_a1 x) (m_a2 x) (m_a3 x)
    (m_mhartid x) v (m_mepc x) (m_satp x) (m_medeleg x) (m_mideleg x) (m_sie x) (m_mie x)
    (m_mtvec x) (m_mscratch x) (m_sip x).
Definition set_m_mepc (v : Z) (x : mst) : mst :=
  mkMst (m_mem x) (m_mode x) (m_pc x) (m_sp x) (m_tp x) (m_a0 x) (m_a1 x) (m_a2 x) (m_a3 x)
    (m_mhartid x) (m_mstatus x) v (m_satp x) (m_medeleg x) (m_mideleg x) (m_sie x) (m_mie x)
    (m_mtvec x) (m_mscratch x) (m_sip x).
Definition set_m_satp (v : Z) (x : mst) : mst :=
  mkMst (m_mem x) (m_mode x) (m_pc x) (m_sp x) (m_tp x) (m_a0 x) (m_a1 x) (m_a2 x) (m_a3 x)
    (m_mhartid x) (m_mstatus x) (m_mepc x) v (m_medeleg x) (m_mideleg x) (m_sie x) (m_mie x)
    (m_mtvec x) (m_mscratch x) (m_sip x).
Definition set_m_medeleg (v : Z) (x : mst) : mst :=
  mkMst (m_mem x) (m_mode x) (m_pc x) (m_sp x) (m_tp x) (m_a0 x) (m_a1 x) (m_a2 x) (m_a3 x)
    (m_mhartid x) (m_mstatus x) (m_mepc x) (m_satp x) v (m_mideleg x) (m_sie x) (m_mie x)
    (m_mtvec x) (m_mscratch x) (m_sip x).
Definition set_m_mideleg (v : Z) (x : mst) : mst :=
  mkMst (m_mem x) (m_mode x) (m_pc x) (m_sp x) (m_tp x) (m_a0 x) (m_a1 x) (m_a2 x) (m_a3 x)
    (m_mhartid x) (m_mstatus x) (m_mepc x) (m_satp x) (m_medeleg x) v (m_sie x) (m_mie x)
    (m_mtvec x) (m_mscratch x) (m_sip x).
Definition set_m_sie (v : Z) (x : mst) : mst :=
  mkMst (m_mem x) (m_mode x) (m_pc x) (m_sp x) (m_tp x) (m_a0 x) (m_a1 x) (m_a2 x) (m_a3 x)
    (m_mhartid x) (m_mstatus x) (m_mepc x) (m_satp x) (m_medeleg x) (m_mideleg x) v (m_mie x)
    (m_mtvec x) (m_mscratch x) (m_sip x).
Definition set_m_mie (v : Z) (x : mst) : mst :=
  mkMst (m_mem x) (m_mode x) (m_pc x) (m_sp x) (m_tp x) (m_a0 x) (m_a1 x) (m_a2 x) (m_a3 x)
    (m_mhartid x) (m_mstatus x) (m_mepc x) (m_satp x) (m_medeleg x) (m_mideleg x) (m_sie x) v
    (m_mtvec x) (m_mscratch x) (m_sip x).
Definition set_m_mtvec (v : Z) (x : mst) : mst :=
  mkMst (m_mem x) (m_mode x) (m_pc x) (m_sp x) (m_tp x) (m_a0 x) (m_a1 x) (m_a2 x) (m_a3 x)
    (m_mhartid x) (m_mstatus x) (m_mepc x) (m_satp x) (m_medeleg x) (m_mideleg x) (m_sie x)
    (m_mie x) v (m_mscratch x) (m_sip x).
Definition set_m_mscratch (v : Z) (x : mst) : mst :=
  mkMst (m_mem x) (m_mode x) (m_pc x) (m_sp x) (m_tp x) (m_a0 x) (m_a1 x) (m_a2 x) (m_a3 x)
    (m_mhartid x) (m_mstatus x) (m_mepc x) (m_satp x) (m_medeleg x) (m_mideleg x) (m_sie x)
    (m_mie x) (m_mtvec x) v (m_sip x).
Definition set_m_sip (v : Z) (x : mst) : mst :=
  mkMst (m_mem x) (m_mode x) (m_pc x) (m_sp x) (m_tp x) (m_a0 x) (m_a1 x) (m_a2 x) (m_a3 x)
    (m_mhartid x) (m_mstatus x) (m_mepc x) (m_satp x) (m_medeleg x) (m_mideleg x) (m_sie x)
    (m_mie x) (m_mtvec x) (m_mscratch x) v.

Abbreviation H := (M mst).

(** ** The hardware *)

(** The mode field of mstatus, and mstatus with the three fields a trap uses cleared. *)
Definition mpp (x : Z) : Z := Z.land (Z.shiftr x 11) 3.
Definition without_trap_bits (x : Z) : Z :=
  Z.land x (Z.lnot (Z.lor MSTATUS_MPP_MASK (Z.lor MSTATUS_MPIE MSTATUS_MIE))).

(** A trap to machine mode: the interrupted pc, mode and MIE are saved. *)
Definition machine_trap : H unit :=
  modify (fun s => set_m_mepc (m_pc s) s);;
  modify (fun s => set_m_mstatus (Z.lor (without_trap_bits (m_mstatus s)) (Z.lor (Z.shiftl (m_mode s) 11)
    (if Z.testbit (m_mstatus s) 3 then MSTATUS_MPIE else 0))) s);;
  modify (set_m_mode 3);;
  modify (fun s => set_m_pc (m_mtvec s) s).

Definition mret_insn : H unit :=
  modify (fun s => set_m_mode (mpp (m_mstatus s)) s);;
  modify (fun s => set_m_mstatus (Z.lor (without_trap_bits (m_mstatus s)) (Z.lor MSTATUS_MPIE
    (if Z.testbit (m_mstatus s) 7 then MSTATUS_MIE else 0))) s);;
  modify (fun s => set_m_pc (m_mepc s) s).

(** Only the SSIP bit of sip can be written. *)
Definition w_sip (x : Z) : H unit :=
  modify (fun s => set_m_sip (Z.lor (Z.land (m_sip s) (Z.lnot SIE_SSIE)) (Z.land x SIE_SSIE)) s).

(** [sd r, off(base)] and [ld r, off(base)]. *)
Definition sd (r : mst -> Z) (off : Z) (base : mst -> Z) : H unit :=
  modify (fun s => set_m_mem (st64 (m_mem s) (base s + off) (r s)) s).
Definition ld (r : Z -> mst -> mst) (off : Z) (base : mst -> Z) : H unit :=
  modify (fun s => r (ld64 (m_mem s) (base s + off)) s).
(** [csrrw a0, mscratch, a0] *)
Definition swap_mscratch : H unit :=
  modify (fun s => set_m_mscratch (m_a0 s) (set_m_a0 (m_mscratch s) s)).

Section Machine.
Context {MS : MSyms}.

(** [&timer_scratch[id][0]] *)
Definition scratch (id : Z) : Z := msym_timer_scratch + id * 40.

(** ** start.c *)

Definition timerinit : H unit :=
  h ← gets m_mhartid;
  let id := s32 h in
  let interval := 1000000 in
  modify (fun s => set_m_mem (st64 (m_mem s) (CLINT_MTIMECMP id) (u64 (ld64 (m_mem s) CLINT_MTIME + interval))) s);;
  modify (fun s => set_m_mem (st64 (m_mem s) (scratch id + 24) (CLINT_MTIMECMP id)) s);;
  modify (fun s => set_m_mem (st64 (m_mem s) (scratch id + 32) interval) s);;
  modify (set_m_mscratch (scratch id));;
  modify (set_m_mtvec msym_timervec);;
  modify (fun s => set_m_mstatus (Z.lor (m_mstatus s) MSTATUS_MIE) s);;
  modify (fun s => set_m_mie (Z.lor (m_mie s) MIE_MTIE) s).

Definition start : H unit :=
  x ← gets m_mstatus;
  let x := Z.land x (Z.lnot MSTATUS_MPP_MASK) in
  let x := Z.lor x MSTATUS_MPP_S in
  modify (set_m_mstatus x);;
  modify (set_m_mepc msym_main);;
  modify (set_m_satp 0);;
  modify (set_m_medeleg 0xffff);;
  modify (set_m_mideleg 0xffff);;
  modify (fun s => set_m_sie (Z.lor (Z.lor (Z.lor (m_sie s) SIE_SEIE) SIE_STIE) SIE_SSIE) s);;
  timerinit;;
  id ← gets (fun s => s32 (m_mhartid s));
  modify (set_m_tp (u64 id));;
  mret_insn.

(** entry.S: a 4096-byte stack for each hart. *)
Definition entry : H unit :=
  modify (set_m_sp msym_stack0);;
  modify (set_m_a0 (1024 * 4));;
  modify (fun s => set_m_a1 (m_mhartid s) s);;
  modify (fun s => set_m_a1 (u64 (m_a1 s + 1)) s);;
  modify (fun s => set_m_a0 (u64 (m_a0 s * m_a1 s)) s);;
  modify (fun s => set_m_sp (u64 (m_sp s + m_a0 s)) s);;
  start.

(** ** kernelvec.S *)

Definition timervec : H unit :=
  swap_mscratch;;
  sd m_a1 0 m_a0;;
  sd m_a2 8 m_a0;;
  sd m_a3 16 m_a0;;
  ld set_m_a1 24 m_a0;;
  ld set_m_a2 32 m_a0;;
  ld set_m_a3 0 m_a1;;
  modify (fun s => set_m_a3 (u64 (m_a3 s + m_a2 s)) s);;
  sd m_a3 0 m_a1;;
  modify (set_m_a1 2);;
  a1 ← gets m_a1;
  w_sip a1;;
  ld set_m_a3 16 m_a0;;
  ld set_m_a2 8 m_a0;;
  ld set_m_a1 0 m_a0;;
  swap_mscratch;;
  mret_insn.

(** The timer interrupt of a hart below machine mode: the code at mtvec runs, which the
    model knows if it is [timervec]. *)
Definition timer_interrupt : H unit :=
  machine_trap;;
  pc ← gets m_pc;
  if pc =? msym_timervec then timervec else block.

(** ** The bits of mstatus *)

Lemma mpp_bits y m : 0 <= m < 4 -> Z.testbit y 11 = Z.testbit m 0 -> Z.testbit y 12 = Z.testbit m 1 -> mpp y = m.
Proof.
  intros Hm H0 H1. unfold mpp. apply Z.bits_inj'. intros i Hi. rewrite Z.land_spec, Z.shiftr_spec by done.
  destruct (decide (i = 0)) as [->|]; [change (Z.testbit 3 0) with true; by rewrite andb_true_r|].
  destruct (decide (i = 1)) as [->|]; [change (Z.testbit 3 1) with true; by rewrite andb_true_r|].
  change 3 with (Z.ones 2). rewrite Z.ones_spec_high, andb_false_r by lia. symmetry.
  apply Z.bits_above_log2; [lia|]. destruct (decide (m = 0)) as [->|]; [cbn; lia|].
  assert (Z.log2 m < 2) by (apply Z.log2_lt_pow2; lia). lia.
Qed.

Lemma testbit_if (b : bool) x i : Z.testbit (if b then x else 0) i = b && Z.testbit x i.
Proof. destruct b; [done|]. by rewrite Z.bits_0. Qed.

Lemma testbit_without x i : 0 <= i ->
  Z.testbit (without_trap_bits x) i = Z.testbit x i && negb (Z.testbit 0x1888 i).
Proof. intros Hi. unfold without_trap_bits. by rewrite Z.land_spec, Z.lnot_spec by done. Qed.

(** What [machine_trap] leaves in mstatus, and [mret_insn] makes of it. *)
Definition trapped (mode x : Z) : Z :=
  Z.lor (without_trap_bits x) (Z.lor (Z.shiftl mode 11) (if Z.testbit x 3 then MSTATUS_MPIE else 0)).
Definition returned (x : Z) : Z :=
  Z.lor (without_trap_bits x) (Z.lor MSTATUS_MPIE (if Z.testbit x 7 then MSTATUS_MIE else 0)).

Lemma mpp_trapped mode x : 0 <= mode < 4 -> mpp (trapped mode x) = mode.
Proof.
  intros Hm. apply mpp_bits; [done|..]; unfold trapped;
    rewrite !Z.lor_spec, testbit_without, Z.shiftl_spec, testbit_if by lia; cbn [negb Z.testbit Z.odd];
    by rewrite ?andb_false_r, ?orb_false_r, ?orb_false_l.
Qed.

Lemma MIE_trapped mode x : 0 <= mode -> Z.testbit (returned (trapped mode x)) 3 = Z.testbit x 3.
Proof.
  intros Hm. unfold returned. rewrite !Z.lor_spec, testbit_without, testbit_if by lia.
  change (Z.testbit 6280 3) with true. change (Z.testbit MSTATUS_MPIE 3) with false. change (Z.testbit MSTATUS_MIE 3) with true.
  cbn [negb]. rewrite andb_false_r, !orb_false_l, andb_true_r. unfold trapped.
  rewrite !Z.lor_spec, testbit_without, Z.shiftl_spec, testbit_if by lia.
  change (Z.testbit 6280 7) with true. change (Z.testbit MSTATUS_MPIE 7) with true. cbn [negb].
  rewrite andb_false_r, orb_false_l, andb_true_r, Z.testbit_neg_r by lia. done.
Qed.

Lemma mpp_start x :
  mpp (Z.lor (Z.lor (Z.land x (Z.lnot MSTATUS_MPP_MASK)) MSTATUS_MPP_S) MSTATUS_MIE) = 1.
Proof.
  apply mpp_bits; [lia|..]; rewrite !Z.lor_spec, Z.land_spec, Z.lnot_spec by lia; cbn;
    by rewrite ?andb_false_r, ?orb_true_r.
Qed.

(** ** The timer *)

(** What [timervec] relies on. *)
Record timer_set (hart : Z) (s : mst) : Prop := {
  ts_vec : m_mtvec s = msym_timervec;
  ts_scratch : m_mscratch s = scratch hart;
  ts_cmp : ld64 (m_mem s) (scratch hart + 24) = CLINT_MTIMECMP hart;
  ts_interval : ld64 (m_mem s) (scratch hart + 32) = 1000000;
  ts_enabled : Z.testbit (m_mie s) 7 = true
}.

(** The next timer interrupt comes when mtime reaches this. *)
Definition deadline (hart : Z) (s : mst) : Z := ld64 (m_mem s) (CLINT_MTIMECMP hart).

(** The registers hold 64-bit values. *)
Definition regs_ok (s : mst) : Prop :=
  0 <= m_a1 s < 2 ^ 64 /\ 0 <= m_a2 s < 2 ^ 64 /\ 0 <= m_a3 s < 2 ^ 64.

(** The interrupted code goes on as if nothing had happened: at the same place, in the same
    mode, with the same registers, and with the same memory but for the save area and the
    timer's register. *)
Record resumes (hart : Z) (s s' : mst) : Prop := {
  rs_pc : m_pc s' = m_pc s;
  rs_mode : m_mode s' = m_mode s;
  rs_regs : m_sp s' = m_sp s /\ m_tp s' = m_tp s /\ m_a0 s' = m_a0 s /\ m_a1 s' = m_a1 s /\
    m_a2 s' = m_a2 s /\ m_a3 s' = m_a3 s;
  rs_mie : Z.testbit (m_mstatus s') 3 = Z.testbit (m_mstatus s) 3;
  rs_csrs : m_satp s' = m_satp s /\ m_medeleg s' = m_medeleg s /\ m_mideleg s' = m_mideleg s /\ m_sie s' = m_sie s;
  rs_mem a : ~ scratch hart <= a < scratch hart + 24 -> ~ CLINT_MTIMECMP hart <= a < CLINT_MTIMECMP hart + 8 ->
    ld8 (m_mem s') a = ld8 (m_mem s) a
}.

Context (Hms : msyms_ok MS).

Lemma scratch_ram hart : 0 <= hart < 8 -> KERNBASE <= scratch hart /\ scratch hart + 40 <= PHYSTOP.
Proof. destruct Hms as [H1 H2]. intros Hh. unfold scratch. change (Z.of_nat NCPU) with 8 in H2. lia. Qed.

Lemma cmp_range hart : 0 <= hart < 8 -> 0 <= CLINT_MTIMECMP hart /\ CLINT_MTIMECMP hart + 8 <= CLINT_MTIME.
Proof. unfold CLINT_MTIMECMP, CLINT_MTIME, CLINT. lia. Qed.

(** The memory after the handler. *)
Definition handled (hart a1 a2 a3 : Z) (m : mem) : mem :=
  let m := st64 (st64 (st64 m (scratch hart + 0) a1) (scratch hart + 8) a2) (scratch hart + 16) a3 in
  st64 m (CLINT_MTIMECMP hart + 0) (u64 (ld64 m (CLINT_MTIMECMP hart + 0) + 1000000)).

Lemma handled_other hart a1 a2 a3 m a : ~ scratch hart <= a < scratch hart + 24 ->
  ~ CLINT_MTIMECMP hart <= a < CLINT_MTIMECMP hart + 8 -> ld8 (handled hart a1 a2 a3 m) a = ld8 m a.
Proof. intros H1 H2. unfold handled. by rewrite !ld8_st64_ne by lia. Qed.

Lemma handled_words hart a1 a2 a3 m : 0 <= hart < 8 ->
  let m' := handled hart a1 a2 a3 m in
  ld64 m' (scratch hart + 0) = u64 a1 /\ ld64 m' (scratch hart + 8) = u64 a2 /\ ld64 m' (scratch hart + 16) = u64 a3 /\
  ld64 m' (CLINT_MTIMECMP hart) = u64 (ld64 m (CLINT_MTIMECMP hart) + 1000000) /\
  ld64 m' (scratch hart + 24) = ld64 m (scratch hart + 24) /\ ld64 m' (scratch hart + 32) = ld64 m (scratch hart + 32).
Proof.
  intros Hh m'. pose proof (scratch_ram hart Hh) as Hs. pose proof (cmp_range hart Hh) as Hc.
  assert (Hlt : CLINT_MTIME < KERNBASE) by done. subst m'. unfold handled. rewrite !Z.add_0_r.
  repeat split; repeat first [rewrite ld64_st64_eq | rewrite ld64_st64_ne by lia]; unfold u64; rewrite ?Z.mod_mod by done; done.
Qed.

Lemma run_modify {A} (f : mst -> mst) (k : unit -> H A) s : (modify f ≫= k) s = k tt (f s).
Proof. done. Qed.
Lemma run_gets {A B} (f : mst -> A) (k : A -> H B) s : (gets f ≫= k) s = k (f s) s.
Proof. done. Qed.
Lemma modify_eq (f : mst -> mst) s : modify f s = Ok tt (f s).
Proof. done. Qed.

(** One instruction. *)
Ltac hstep := rewrite ?run_bind_assoc; first [rewrite run_modify | rewrite run_gets | rewrite modify_eq]; cbn [m_mem m_mode m_pc m_sp m_tp m_a0 m_a1 m_a2 m_a3 m_mhartid m_mstatus m_mepc m_satp m_medeleg m_mideleg m_sie m_mie m_mtvec m_mscratch m_sip set_m_mem set_m_mode set_m_pc set_m_sp set_m_tp set_m_a0 set_m_a1 set_m_a2 set_m_a3 set_m_mhartid set_m_mstatus set_m_mepc set_m_satp set_m_medeleg set_m_mideleg set_m_sie set_m_mie set_m_mtvec set_m_mscratch set_m_sip].

Lemma timer_interrupt_run hart s :
  0 <= hart < 8 -> timer_set hart s -> 0 <= m_mode s <= 1 -> regs_ok s ->
  exists s', timer_interrupt s = Ok tt s' /\ resumes hart s s' /\ timer_set hart s' /\
    deadline hart s' = u64 (deadline hart s + 1000000) /\ Z.testbit (m_sip s') 1 = true.
Proof.
  intros Hh [H1 H2 H3 H4 H5] Hm (R1 & R2 & R3). pose proof (scratch_ram hart Hh) as Hs. pose proof (cmp_range hart Hh) as Hc.
  assert (Hlt : CLINT_MTIME < KERNBASE) by done.
  pose proof (handled_words hart (m_a1 s) (m_a2 s) (m_a3 s) (m_mem s) Hh) as (W1 & W2 & W3 & W4 & W5 & W6).
  pose proof (handled_other hart (m_a1 s) (m_a2 s) (m_a3 s) (m_mem s)) as W7.
  destruct s as [m mode pc sp tp a0 a1 a2 a3 hid ms mepc satp md mi sie mie mtv msc sip].
  cbn [m_mtvec m_mscratch m_mem m_mie m_mode m_a1 m_a2 m_a3] in *. subst mtv msc.
  set (m' := handled hart a1 a2 a3 m) in *.
  exists (mkMst m' mode pc sp tp a0 a1 a2 a3 hid (returned (trapped mode ms)) pc satp md mi sie mie
    msym_timervec (scratch hart) (Z.lor (Z.land sip (Z.lnot SIE_SSIE)) (Z.land 2 SIE_SSIE))).
  split.
  { set (m3 := st64 (st64 (st64 m (scratch hart + 0) a1) (scratch hart + 8) a2) (scratch hart + 16) a3) in *.
    assert (E1 : ld64 m3 (scratch hart + 24) = CLINT_MTIMECMP hart) by (unfold m3; by rewrite !ld64_st64_ne by lia).
    assert (E2 : ld64 m3 (scratch hart + 32) = 1000000) by (unfold m3; by rewrite !ld64_st64_ne by lia).
    unfold timer_interrupt, machine_trap. do 4 hstep. fold (trapped mode ms).
    hstep. rewrite Z.eqb_refl. unfold timervec, swap_mscratch, sd. do 4 hstep. fold m3.
    unfold ld. hstep. rewrite E1. hstep. rewrite E2. do 3 hstep.
    change (st64 m3 (CLINT_MTIMECMP hart + 0) (u64 (ld64 m3 (CLINT_MTIMECMP hart + 0) + 1000000))) with m'.
    hstep. unfold w_sip. do 6 hstep. rewrite W1, W2, W3. unfold u64. rewrite !Z.mod_small by done.
    unfold mret_insn. do 3 hstep. by rewrite mpp_trapped by lia. }
  split; [split; try done|split; [split; try done|]].
  - apply MIE_trapped. lia.
  - cbn [m_mem]. by rewrite W5.
  - cbn [m_mem]. by rewrite W6.
  - split; [exact W4|]. cbn [m_sip]. rewrite Z.lor_spec. by rewrite orb_true_r.
Qed.

(** What supervisor and user code does: it cannot write the machine's control registers,
    and it does not write the words of the timer. *)
Record below (hart : Z) (s s' : mst) : Prop := {
  bl_csrs : m_mtvec s' = m_mtvec s /\ m_mscratch s' = m_mscratch s /\ m_mie s' = m_mie s;
  bl_cmp : ld64 (m_mem s') (scratch hart + 24) = ld64 (m_mem s) (scratch hart + 24);
  bl_interval : ld64 (m_mem s') (scratch hart + 32) = ld64 (m_mem s) (scratch hart + 32);
  bl_deadline : deadline hart s' = deadline hart s;
  bl_mode : 0 <= m_mode s' <= 1;
  bl_regs : regs_ok s'
}.

(** Executions of supervisor and user code interrupted [n] times by the timer. *)
Inductive ticks (hart : Z) (s : mst) : nat -> mst -> Prop :=
| ticks_0 s' : below hart s s' -> ticks hart s 0 s'
| ticks_S n s1 s2 s' : ticks hart s n s1 -> timer_interrupt s1 = Ok tt s2 -> below hart s2 s' ->
    ticks hart s (S n) s'.

Lemma timer_set_below hart s s' : timer_set hart s -> below hart s s' -> timer_set hart s'.
Proof. intros [] [(? & ? & E) ? ? ? ? ?]. split; [congruence..|]. by rewrite E. Qed.

Lemma ticks_deadline hart s n s' : 0 <= hart < 8 -> timer_set hart s -> ticks hart s n s' ->
  timer_set hart s' /\ 0 <= m_mode s' <= 1 /\ regs_ok s' /\
  deadline hart s' = u64 (deadline hart s + Z.of_nat n * 1000000).
Proof.
  intros Hh Hs. induction 1 as [s' B|n s1 s2 s' Ht IH Hrun B].
  - split; [by eapply timer_set_below|]. split; [apply B|]. split; [apply B|].
    rewrite (bl_deadline _ _ _ B), Z.add_0_r. unfold u64. by rewrite Z.mod_small by apply ld64_range.
  - destruct IH as (T1 & M1 & R1 & D1). destruct (timer_interrupt_run hart s1 Hh T1 M1 R1) as (s2' & Hrun' & _ & T2 & D2 & _).
    rewrite Hrun in Hrun'. injection Hrun' as <-.
    split; [by eapply timer_set_below|]. split; [apply B|]. split; [apply B|].
    rewrite (bl_deadline _ _ _ B), D2, D1. unfold u64. rewrite Zplus_mod_idemp_l. f_equal. lia.
Qed.

(** Where and how a hart enters [main]. *)
Record enters_main (hart : Z) (s : mst) : Prop := {
  em_mode : m_mode s = 1 /\ m_pc s = msym_main /\ m_satp s = 0;
  em_stack : m_sp s = u64 (msym_stack0 + 4096 * (hart + 1)) /\ m_tp s = hart;
  em_deleg : m_medeleg s = 0xffff /\ m_mideleg s = 0xffff;
  em_sie i : i = 9 \/ i = 5 \/ i = 1 -> Z.testbit (m_sie s) i = true
}.

Lemma entry_run s : 0 <= m_mhartid s < 8 ->
  exists s1, entry s = Ok tt s1 /\ enters_main (m_mhartid s) s1 /\ timer_set (m_mhartid s) s1 /\
    deadline (m_mhartid s) s1 = u64 (ld64 (m_mem s) CLINT_MTIME + 1000000).
Proof.
  intros Hh. pose proof (scratch_ram _ Hh) as Hs. pose proof (cmp_range _ Hh) as Hc.
  assert (Hlt : CLINT_MTIME < KERNBASE) by done.
  destruct s as [m mode pc sp tp a0 a1 a2 a3 hid ms mepc satp md mi sie mie mtv msc sip]. cbn [m_mhartid m_mem] in *.
  assert (Hid : s32 hid = hid) by (unfold s32; rewrite Z.mod_small by lia; lia).
  assert (H1 : u64 (hid + 1) = hid + 1) by (unfold u64; apply Z.mod_small; lia).
  eexists. split.
  { unfold entry, start, timerinit. do 14 hstep. rewrite Hid. do 8 hstep. rewrite Hid.
    unfold mret_insn. do 4 hstep. reflexivity. }
  split; [|split].
  - split; cbn.
    + split; [apply mpp_start|done].
    + rewrite H1. split; [|unfold u64; apply Z.mod_small; lia].
      unfold u64. by rewrite Zplus_mod_idemp_r.
    + done.
    + intros i Hi. rewrite !Z.lor_spec. destruct Hi as [->|[->| ->]]; by rewrite ?orb_true_r.
  - split; cbn -[Z.testbit Z.lor]; try done.
    + rewrite ld64_st64_ne, ld64_st64_eq by lia. unfold u64. apply Z.mod_small.
      assert (CLINT_MTIME < 2 ^ 64) by done. lia.
    + by rewrite ld64_st64_eq.
    + rewrite Z.lor_spec. by rewrite orb_true_r.
  - unfold deadline. cbn. rewrite !ld64_st64_ne by lia. rewrite ld64_st64_eq. unfold u64. by rewrite Z.mod_mod.
Qed.

(** C28: The clock. Every hart enters [main] in supervisor mode without paging, on a stack of
    its own, with its id in tp and all traps delegated; and from then on, whatever
    supervisor and user code runs, the timer interrupt that comes after [n] others finds
    the deadline [n + 1] intervals after the time at which the hart was started, moves it
    by one interval, leaves the software interrupt pending that makes the kernel count a
    tick, and returns to the interrupted code, which goes on with its registers and memory
    as they were. *)
Theorem clock_ticks s : 0 <= m_mhartid s < Z.of_nat NCPU ->
  let hart := m_mhartid s in
  let t0 := ld64 (m_mem s) CLINT_MTIME in
  exists s1, entry s = Ok tt s1 /\ enters_main hart s1 /\
    forall n s', ticks hart s1 n s' ->
      deadline hart s' = u64 (t0 + (Z.of_nat n + 1) * 1000000) /\ Z.testbit (m_mie s') 7 = true /\
      exists s2, timer_interrupt s' = Ok tt s2 /\ resumes hart s' s2 /\ Z.testbit (m_sip s2) 1 = true /\
        deadline hart s2 = u64 (t0 + (Z.of_nat n + 2) * 1000000).
Proof.
  intros Hh hart t0. destruct (entry_run s Hh) as (s1 & Hrun & He & Ht & Hd). fold hart t0 in Hd, He, Ht.
  exists s1. split; [done|]. split; [done|]. intros n s' Htk.
  destruct (ticks_deadline hart s1 n s' Hh Ht Htk) as (T & Hm & R & D). rewrite Hd in D.
  destruct (timer_interrupt_run hart s' Hh T Hm R) as (s2 & Hrun2 & Hres & _ & D2 & Hsip). rewrite D in D2.
  split; [|split; [apply T|exists s2; split; [done|split; [done|split; [done|]]]]].
  - rewrite D. unfold u64. rewrite Zplus_mod_idemp_l. f_equal. lia.
  - rewrite D2. unfold u64. rewrite Zplus_mod_idemp_l, <- Z.add_assoc, Zplus_mod_idemp_l. f_equal. lia.
Qed.

End Machine.

#[export] Instance demo_msyms : MSyms :=
  {| msym_main := KERNBASE + 0x1000; msym_timervec := KERNBASE + 0x5100; msym_stack0 := KERNBASE + 0x9000;
     msym_timer_scratch := KERNBASE + 0x12000 |}.

(** Hart 3 as it is switched on, with 70 cycles on the clock. *)
Definition demo_hart : mst :=
  mkMst (st64 ∅ CLINT_MTIME 70) 3 0x1000 0 0 0 0 0 0 3 0 0 0 0 0 0 0 0 0 0.

Lemma clock_ticks_witness : exists s1 s2, entry demo_hart = Ok tt s1 /\ timer_interrupt s1 = Ok tt s2 /\
  m_pc s2 = msym_main /\ deadline 3 s1 = 1000070 /\ deadline 3 s2 = 2000070.
Proof.
  assert (Hms : msyms_ok demo_msyms) by done.
  destruct (clock_ticks Hms demo_hart) as (s1 & Hrun & He & Ht); [done|].
  assert (Hs1 : below 3 s1 s1).
  { assert (Hr : Ok tt s1 = entry demo_hart) by done. vm_compute in Hr. injection Hr as ->. split; try done; vm_compute; repeat split; discriminate. }
  destruct (Ht 0%nat s1) as (D1 & _ & s2 & Hrun2 & Hres & _ & D2); [by constructor|].
  exists s1, s2. split; [done|]. split; [done|]. split; [|split; [exact D1|exact D2]].
  rewrite (rs_pc _ _ _ Hres). apply (em_mode _ _ He).
Defined.
