(* ===== verification/Main.v ===== *)
(** * Starting the kernel (kernel/main.c)

    [main] runs on every hart: hart 0 initialises the kernel, makes the first process and
    sets [started]; the others wait for it and turn on paging and interrupts.  [main]
    models it up to the call of [scheduler].  The disk driver has a state of its own
    ([Virtio.vst]); what loads from the device's registers return and the address of its
    queue are parameters, as in Virtio.v.

    The theorem: on a machine with enough memory and a disk, hart 0 gets through, and the
    kernel is then in the state the theorems about processes, virtual memory and the
    buffer cache start from. *)

From stdpp Require Import base gmap list strings.
From Stdlib Require Import ZArith Lia.
From S2P Require Import Prelude Riscv Memory State Spinlock Sched Kalloc Vm PageTable UserMem Uvm Freewalk.
From S2P Require Import Bio Virtio VirtioInv VirtioTheorems Cache Fs Console Proc ProcMem ProcTable ProcDemo KernelMap Plic Trap Init.

(** A call of the disk driver from kernel code. *)
Definition on_disk (m : V unit) (v : vst) : K vst := fun w =>
  match m v with
  | Ok _ v' => Ok v' w
  | Panic msg _ => Panic msg w
  | Blocked _ => Blocked w
  end.

Section Main.
Context {KS : KSyms}.

(** The part of hart 0.  [trapinit] and [fileinit] only initialise locks. *)
Definition main_boot (reg : Z -> Z) (pages : Z) (v : vst) : K vst :=
  consoleinit;;
  printfinit;;
  printf newline [];;
  printf ("xv6 kernel is booting" +:+ newline) [];;
  printf newline [];;
  kinit;;
  kvminit;;
  kvminithart;;
  procinit;;
  trapinithart;;
  plicinit;;
  plicinithart;;
  binit;;
  iinit;;
  v' ← on_disk (virtio_disk_init reg pages) v;
  userinit;;
  mret v'.

(** The part of the other harts, once hart 0 has set [started]. *)
Definition main_join : K unit :=
  hart ← cpuid;
  printf ("hart %d starting" +:+ newline) [VInt hart];;
  kvminithart;;
  trapinithart;;
  plicinithart.

(** [main] with the value of [started]; the new value, and the state of the disk driver. *)
Definition main (started : bool) (reg : Z -> Z) (pages : Z) (v : vst) : K (bool * vst) :=
  hart ← cpuid;
  if hart =? 0 then v' ← main_boot reg pages v; mret (true, v')
  else if started then main_join;; mret (true, v)
  else block.

End Main.

(** ** The pieces *)

(** The kernel as it is loaded: C's globals are zero. *)
Record loaded (s : kst) : Prop := {
  ld_freelist : k_freelist s = 0;
  ld_held : k_held s = [];
  ld_procs : k_procs s = replicate NPROC proc0;
  ld_inodes : k_inodes s = replicate NINODE inode0;
  ld_bufs : k_bufs s = replicate (S NBUF) buf0;
  ld_locking : k_pr_locking s = 0;
  ld_panicked : panicked (k_uart s) = false
}.

(** [procinit] on a table of unused slots. *)
Definition slots_with_stacks : list proc := (fun i => set_p_kstack (KSTACK (Z.of_nat i)) proc0) <$> seq 0 NPROC.

Lemma for_each_proc_upd (f : nat -> proc -> proc) l s env :
  for_each l (fun p => proc_upd p (f p)) (mkWorld s env)
  = Ok tt (mkWorld (set_k_procs (foldl (fun ps p => alter (f p) p ps) (k_procs s) l) s) env).
Proof.
  revert s. induction l as [|p l IH]; intros s; cbn [for_each foldl]; [by destruct s|].
  rewrite (run_bind _ _ _ tt (mkWorld (upd_proc p (f p) s) env)) by done. by rewrite IH.
Qed.

Lemma procinit_run s env : k_procs s = replicate NPROC proc0 ->
  procinit (mkWorld s env) = Ok tt (mkWorld (set_k_procs slots_with_stacks s) env).
Proof.
  intros Hp. unfold procinit. rewrite (for_each_proc_upd (fun p => set_p_kstack (KSTACK (Z.of_nat p)))), Hp.
  do 3 f_equal.
Qed.

Lemma iinit_run s env : k_inodes s = replicate NINODE inode0 -> iinit (mkWorld s env) = Ok tt (mkWorld s env).
Proof.
  intros Hi. unfold iinit. induction inode_slots as [|i l IH]; [done|]. cbn [for_each].
  rewrite (run_bind _ _ _ tt (mkWorld s env)); [exact IH|].
  unfold initsleeplock, kmodify, modify. cbn [w_ks w_env]. do 2 f_equal. cbn [upd_sl].
  rewrite Hi. assert (E : alter (fun x => set_i_lock (mkSleeplock 0 0) x) i (replicate NINODE inode0) = replicate NINODE inode0).
  { apply list_eq. intros j. destruct (decide (i = j)) as [->|]; [|by rewrite list_lookup_alter_ne].
    rewrite list_lookup_alter_eq. destruct (replicate NINODE inode0 !! j) as [x|] eqn:E; [|done].
    apply lookup_replicate in E as [-> _]. done. }
  rewrite E, <- Hi. by destruct s.
Qed.

Section Boot.
Context {KS : KSyms} (Hks : ksyms_ok KS).

#[local] Instance boot_allocator : PageAllocator kalloc kfree := kalloc_allocator Hks.

(** Stores below the RAM change no page. *)
Lemma vm_ok_low s own fl m' :
  vm_ok s own fl -> (forall a, KERNBASE <= a -> ld8 m' a = ld8 (k_mem s) a) ->
  vm_ok (set_k_mem m' s) own fl /\
  forall r va, is_root own r -> 0 <= va < MAXVA -> pte_of m' r va = pte_of (k_mem s) r va.
Proof.
  intros [H1 H2 H3 H4] Hm.
  assert (Hp : forall p, page_ok p -> same_page (k_mem s) m' p).
  { intros p [_ Hp] a Ha. apply Hm. destruct Hks. lia. }
  assert (Htab : forall x r' l pre, own !! x = Some (OTable r' l pre) -> same_page (k_mem s) m' x).
  { intros x r' l pre Hx. apply Hp. by eapply pi_page. }
  split; [split; [by apply (pt_inv_frame (k_mem s))| |done|done]|].
  - apply (avail_frame s); [done| |done]. intros p Hin. apply Hp. destruct (avail_ok _ _ H2) as [Hall _].
    rewrite Forall_forall in Hall. by apply Hall.
  - intros r va Hr Hva. unfold pte_of. apply (pte_at_frame _ _ own r); [done|done|]. by rewrite prefix_2.
Qed.

(** The memory after [plicinit] and [plicinithart] on hart 0. *)
Definition plic_set (m : mem) : mem :=
  st32 (st32 (st32 (st32 m (PLIC + UART0_IRQ * 4) 1) (PLIC + VIRTIO0_IRQ * 4) 1)
    (PLIC_SENABLE 0) (Z.lor (Z.shiftl 1 UART0_IRQ) (Z.shiftl 1 VIRTIO0_IRQ))) (PLIC_SPRIORITY 0) 0.

Lemma plic_set_ram m a : KERNBASE <= a -> ld8 (plic_set m) a = ld8 m a.
Proof.
  intros Ha. unfold plic_set. rewrite !ld8_st32_ne; [done|..]; right; cbv -[Z.le] in *; lia.
Qed.

(** What hart 0 prints. *)
Definition banner : list Z := bytes_of (newline +:+ "xv6 kernel is booting" +:+ newline +:+ newline).

(** The state at the call of [virtio_disk_init], from the one in which [kvmmake] ended. *)
Definition set_up (r : Z) (bs : list buf) (s : kst) : kst :=
  set_k_bufs bs (set_k_mem (plic_set (k_mem s))
    (set_k_hw (set_r_stvec ksym_kernelvec (set_r_satp (MAKE_SATP r) (k_hw s)))
      (set_k_procs slots_with_stacks (set_k_kpgtbl r s)))).

Lemma set_up_run {A} r s env (k : K A) :
  k_procs s = replicate NPROC proc0 -> k_inodes s = replicate NINODE inode0 -> k_bufs s = replicate (S NBUF) buf0 ->
  s32 (r_tp (k_hw s)) = 0 ->
  exists bs, (kmodify (set_k_kpgtbl r);; kvminithart;; procinit;; trapinithart;; plicinit;; plicinithart;; binit;; iinit;; k) (mkWorld s env)
    = k (mkWorld (set_up r bs s) env) /\
    cache_ok 1 (set_up r bs s) (disk_block (k_disk s)) (fun _ => 0) ∅.
Proof.
  intros Hp Hi Hb Ht. set (s1 := set_k_hw (set_r_satp (MAKE_SATP r) (k_hw s)) (set_k_kpgtbl r s)).
  set (s2 := set_k_mem (plic_set (k_mem s)) (set_k_hw (set_r_stvec ksym_kernelvec (set_r_satp (MAKE_SATP r) (k_hw s)))
      (set_k_procs slots_with_stacks (set_k_kpgtbl r s)))).
  destruct (binit_bufs 1 s2 env) as (bs & Hrun & Hok & _).
  { change (k_bufs s2) with (k_bufs s). rewrite Hb. apply length_replicate. }
  { intros b Hlt. unfold get_buf. change (k_bufs s2) with (k_bufs s). rewrite Hb, lookup_total_replicate_2 by lia. done. }
  exists bs. split; [|exact Hok].
  rewrite (run_bind _ _ _ tt (mkWorld (set_k_kpgtbl r s) env)) by done.
  rewrite (run_bind _ _ _ tt (mkWorld s1 env)) by done.
  rewrite (run_bind _ _ _ tt _ (procinit_run s1 env Hp)).
  rewrite (run_bind _ _ _ tt (mkWorld (set_k_hw (set_r_stvec ksym_kernelvec (k_hw s1)) (set_k_procs slots_with_stacks s1)) env)) by done.
  set (s3 := set_k_hw (set_r_stvec ksym_kernelvec (k_hw s1)) (set_k_procs slots_with_stacks s1)).
  rewrite (run_bind _ _ _ tt (mkWorld (set_k_mem (st32 (st32 (k_mem s3) (PLIC + UART0_IRQ * 4) 1) (PLIC + VIRTIO0_IRQ * 4) 1) s3) env)) by done.
  rewrite (run_bind _ _ _ tt (mkWorld s2 env)).
  2: { unfold plicinithart, cpuid, memM, kmodify, modify, kgets, gets, mbind, M_bind, mret, M_ret.
       cbn [w_ks w_env k_hw set_k_mem s3 s1 set_k_hw set_k_procs r_tp set_r_stvec set_r_satp set_k_kpgtbl k_mem].
       rewrite Ht. done. }
  rewrite (run_bind _ _ _ tt _ Hrun).
  by rewrite (run_bind _ _ _ tt _ (iinit_run (set_k_bufs bs s2) env Hi)).
Qed.

(** The state at the call of [kinit]. *)
Definition greeted (s : kst) : kst :=
  sent banner (set_k_pr_locking 1 (set_k_devsw (<[1%nat := Some DevConsole]> (k_devsw s)) s)).

Lemma greeted_run {A} s env (k : K A) : loaded s ->
  (consoleinit;; printfinit;; printf newline [];; printf ("xv6 kernel is booting" +:+ newline) [];; printf newline [];; k)
    (mkWorld s env) = k (mkWorld (greeted s) env).
Proof.
  intros [H1 H2 H3 H4 H5 H6 H7].
  set (s1 := set_k_pr_locking 1 (set_k_devsw (<[1%nat := Some DevConsole]> (k_devsw s)) s)).
  assert (Hl : LPr ∉ k_held s1) by (change (k_held s1) with (k_held s); rewrite H2; apply not_elem_of_nil).
  rewrite (run_bind _ _ _ tt (mkWorld (set_k_devsw (<[1%nat := Some DevConsole]> (k_devsw s)) s) env)) by done.
  rewrite (run_bind _ _ _ tt (mkWorld s1 env)) by done.
  rewrite (run_bind _ _ _ _ _ (printf_run newline [] s1 env H7 ltac:(done))).
  rewrite (run_bind _ _ _ _ _ (printf_run _ [] (sent _ s1) env H7 ltac:(done))).
  rewrite (run_bind _ _ _ _ _ (printf_run newline [] (sent _ (sent _ s1)) env H7 ltac:(done))).
  rewrite !sent_app. reflexivity.
Qed.

(** The free pages after [kinit]. *)
Lemma kinit_pages s env : loaded s ->
  exists s' fl, kinit (mkWorld (greeted s) env) = Ok tt (mkWorld s' env) /\ mem_only (greeted s) s' /\
    vm_ok s' ∅ fl /\ length fl = page_count ksym_end PHYSTOP.
Proof.
  intros [H1 H2 H3 H4 H5 H6 H7].
  destruct (kinit_run Hks (greeted s) env) as (s' & Hrun & Hfl & Hmo).
  { split; [exact H1|]. split; [done|]. apply NoDup_nil_2. }
  { change (k_held (greeted s)) with (k_held s). rewrite H2. apply not_elem_of_nil. }
  eexists s', _. split; [exact Hrun|]. split; [done|]. split.
  - split; [split; intros *; rewrite lookup_empty; done|exact Hfl|intros p _; apply lookup_empty|].
    rewrite (mem_only_held _ _ Hmo). change (k_held (greeted s)) with (k_held s). rewrite H2. apply not_elem_of_nil.
  - unfold range_pages. by rewrite length_reverse, length_fmap, length_seq.
Qed.

(** ** Hart 0 *)

Context (Him : image_ok).

(** The kernel, ready to schedule its first process. *)
Record booted (s s' : kst) (r : Z) (pas : list Z) (own : gmap Z owner) (fl : list Z) : Prop := {
  bt_procs : procs_ok s' own fl;
  bt_first : first_process s';
  bt_root : is_root own r /\ k_kpgtbl s' = r /\ r_satp (k_hw s') = MAKE_SATP r;
  bt_kernel : kernel_space (pte_of (k_mem s') r) pas;
  bt_stacks : length pas = NPROC /\ NoDup pas /\ Forall (kernel_page own fl) pas;
  bt_frames pa : pa ∈ pas -> pa ∉ ProcTable.frames (get_proc 0 s');
  bt_kstack i : (i < NPROC)%nat -> p_kstack (get_proc i s') = KSTACK (Z.of_nat i);
  bt_cache : cache_ok 1 s' (disk_block (k_disk s)) (fun _ => 0) ∅ /\ k_disk s' = k_disk s;
  bt_traps : r_stvec (k_hw s') = ksym_kernelvec;
  bt_output : uart_out (k_uart s') = uart_out (k_uart s) ++ banner
}.

Lemma slot_with_stack i : (i < NPROC)%nat ->
  slots_with_stacks !!! i = set_p_kstack (KSTACK (Z.of_nat i)) proc0.
Proof.
  intros Hi. unfold slots_with_stacks. apply list_lookup_total_correct. rewrite list_lookup_fmap, lookup_seq_lt by done. done.
Qed.

Lemma set_up_procs r bs s own fl : vm_ok s own fl -> k_held s = [] -> procs_ok (set_up r bs s) own fl.
Proof.
  intros Hok Hh.
  assert (Hg : forall i, (i < NPROC)%nat -> get_proc i (set_up r bs s) = set_p_kstack (KSTACK (Z.of_nat i)) proc0)
    by (intros i Hi; apply (slot_with_stack i Hi)).
  split.
  - eapply vm_ok_frame; [..|apply (vm_ok_low s own fl (plic_set (k_mem s)) Hok)]; [done..| |apply plic_set_ram].
    change (LKmem ∉ k_held s). rewrite Hh. apply not_elem_of_nil.
  - reflexivity.
  - intros i Hi. rewrite Hg by done. by split.
  - intros i Hi. by rewrite Hg by done.
  - intros i Hi _. rewrite Hg by done. by split.
  - intros i Hi. by rewrite Hg by done.
  - intros i j Hi _ _. by rewrite Hg by done.
Qed.

Lemma image_trampoline : trampoline_ok KS.
Proof.
  destruct Him as [[H1 H2] [H3 H4]]. split; [|unfold PGSIZE in *; lia].
  rewrite H2. rewrite Zminus_mod, H1. done.
Qed.

(** Up to the disk driver. *)
Lemma boot_to_disk reg pages v s env :
  loaded s -> s32 (r_tp (k_hw s)) = 0 -> 350 <= Z.of_nat (page_count ksym_end PHYSTOP) ->
  exists r pas s3 bs own fl, main_boot reg pages v (mkWorld s env)
      = (v' ← on_disk (virtio_disk_init reg pages) v; userinit;; mret v') (mkWorld (set_up r bs s3) env) /\
    mem_only (greeted s) s3 /\ vm_ok s3 own fl /\ is_root own r /\ length pas = NPROC /\ NoDup pas /\
    Forall (kernel_page own fl) pas /\
    (forall va, 0 <= va < MAXVA -> pte_of (k_mem s3) r va = region_pte (kernel_regions pas) va) /\
    cache_ok 1 (set_up r bs s3) (disk_block (k_disk s)) (fun _ => 0) ∅ /\
    Z.of_nat (page_count ksym_end PHYSTOP) <= Z.of_nat (length fl) + 343.
Proof.
  intros Hl Ht Hn. destruct (kinit_pages s env Hl) as (s2 & fl2 & Hrun2 & Hmo2 & Hok2 & Hlen2).
  destruct (kvmmake_run Hks Him s2 ∅ fl2 env Hok2) as (r & pas & s3 & own & fl & Hrun3 & Hr & Hp & Hnd & [B Hroot Hmo3 Hpte] & Hlen3); [lia|].
  assert (Hmo : mem_only (greeted s) s3) by (by etrans).
  assert (Hf : k_procs s3 = k_procs s /\ k_inodes s3 = k_inodes s /\ k_bufs s3 = k_bufs s /\ k_hw s3 = k_hw s /\ k_disk s3 = k_disk s)
    by (destruct Hmo as (h & m & ->); done).
  destruct Hf as (F1 & F2 & F3 & F4 & F5). pose proof Hl as [L1 L2 L3 L4 L5 L6 L7].
  destruct (set_up_run r s3 env (v' ← on_disk (virtio_disk_init reg pages) v; userinit;; mret v')) as (bs & Hrun & Hc);
    [congruence..|by rewrite F4|].
  exists r, pas, s3, bs, own, fl. split.
  { unfold main_boot. rewrite (greeted_run s env _ Hl). rewrite (run_bind _ _ _ _ _ Hrun2).
    unfold kvminit. rewrite run_bind_assoc, (run_bind _ _ _ _ _ Hrun3). exact Hrun. }
  split; [done|]. split; [apply B|]. split; [done|]. split; [done|]. split; [done|]. split; [|split; [done|split; [by rewrite <- F5|lia]]].
  by eapply builds_kernel_pages.
Qed.

Lemma cache_ok_frame dev s s' cv refs lk : k_bufs s' = k_bufs s -> k_disk s' = k_disk s ->
  cache_ok dev s cv refs lk -> cache_ok dev s' cv refs lk.
Proof.
  intros Hb Hd [H1 H2 H3 H4 H5 H6 H7 H8 H9 H10 H11]. unfold caches, get_buf in *.
  split; unfold caches, get_buf; rewrite ?Hb, ?Hd; assumption.
Qed.

Lemma boot_process r pas s s3 bs own fl env :
  loaded s -> mem_only (greeted s) s3 -> vm_ok s3 own fl -> is_root own r -> length pas = NPROC -> NoDup pas ->
  Forall (kernel_page own fl) pas ->
  (forall va, 0 <= va < MAXVA -> pte_of (k_mem s3) r va = region_pte (kernel_regions pas) va) ->
  cache_ok 1 (set_up r bs s3) (disk_block (k_disk s)) (fun _ => 0) ∅ -> 10 <= Z.of_nat (length fl) ->
  exists s' own' fl', userinit (mkWorld (set_up r bs s3) env) = Ok tt (mkWorld s' env) /\ booted s s' r pas own' fl'.
Proof.
  intros Hl Hmo Hok Hr Hp Hnd Hk Hpte Hc Hlen.
  assert (Hf : k_held s3 = [] /\ k_inodes s3 = replicate NINODE inode0 /\ k_uart s3 = k_uart (greeted s) /\ k_disk s3 = k_disk s).
  { destruct Hl as [L1 L2 L3 L4 L5 L6 L7]. destruct Hmo as (h & m & ->). done. }
  destruct Hf as (Fh & Fi & Fu & Fd). pose proof (set_up_procs r bs s3 own fl Hok Fh) as P.
  destruct (userinit_runs Hks image_trampoline (set_up r bs s3) own fl env P) as
    (r' & s' & own' & fl' & Hrun & P' & F' & Hr' & B & E1 & E2 & E3 & E4 & E5 & E6).
  - exact Fh.
  - intros i Hi. change (get_proc i (set_up r bs s3)) with (slots_with_stacks !!! i). by rewrite slot_with_stack.
  - intros i Hi. change (k_inodes (set_up r bs s3)) with (k_inodes s3). rewrite Fi, lookup_total_replicate_2 by done. done.
  - change (k_inodes (set_up r bs s3)) with (k_inodes s3). rewrite Fi. apply length_replicate.
  - done.
  - exists s', own', fl'. split; [exact Hrun|].
    assert (Hk' : Forall (kernel_page own' fl') pas).
    { eapply Forall_impl; [exact Hk|]. intros x Hx. eapply builds_kernel_page; [exact B|exact Hx]. }
    split; try done.
    + split; [eapply is_root_sub; [apply B|done]|]. by rewrite E1, E2.
    + apply (kernel_space_ext _ (region_pte (kernel_regions pas)));
        [done| |apply kernel_regions_space; [done|done|done|eapply Forall_impl; [exact Hk|]; by intros x [? _ _]]].
      intros va Hva. rewrite (bd_pte _ _ _ _ _ _ _ _ B) by (done || intros ->; unfold is_root in Hr; congruence).
      rewrite <- Hpte by done. apply (vm_ok_low s3 own fl (plic_set (k_mem s3)) Hok); [apply plic_set_ram|done|done].
    + intros pa Hpa Hfr. destruct (bd_frames _ _ _ _ _ _ _ _ B pa Hfr) as (Hin & _).
      rewrite Forall_forall in Hk. by apply (kp_fl _ _ _ (Hk pa Hpa)).
    + intros i Hi. rewrite E3. change (get_proc i (set_up r bs s3)) with (slots_with_stacks !!! i). by rewrite slot_with_stack.
    + split; [|by rewrite E5]. by eapply cache_ok_frame; [..|exact Hc].
    + by rewrite E2.
    + rewrite E6. change (k_uart (set_up r bs s3)) with (k_uart s3). by rewrite Fu.
Qed.

(** A hart that comes later: it uses the kernel page table and takes traps. *)
Lemma main_joins reg pages v s env :
  s32 (r_tp (k_hw s)) <> 0 -> panicked (k_uart s) = false -> LPr ∉ k_held s ->
  main false reg pages v (mkWorld s env) = Blocked (mkWorld s env) /\
  exists s', main true reg pages v (mkWorld s env) = Ok (true, v) (mkWorld s' env) /\
    r_satp (k_hw s') = MAKE_SATP (k_kpgtbl s) /\ r_stvec (k_hw s') = ksym_kernelvec /\
    k_procs s' = k_procs s /\ (forall a, KERNBASE <= a -> 0 <= s32 (r_tp (k_hw s)) < 8 -> ld8 (k_mem s') a = ld8 (k_mem s) a).
Proof.
  intros Ht Hp Hl. unfold main. rewrite !(run_bind _ _ _ (s32 (r_tp (k_hw s))) (mkWorld s env)) by done.
  rewrite (proj2 (Z.eqb_neq _ 0)) by done. split; [done|]. set (h := s32 (r_tp (k_hw s))) in *.
  set (s1 := sent (printf_bytes (bytes_of ("hart %d starting" +:+ newline)) [VInt h] ≫= cons_out) s).
  exists (set_k_mem (st32 (st32 (k_mem s) (PLIC_SENABLE h) (Z.lor (Z.shiftl 1 UART0_IRQ) (Z.shiftl 1 VIRTIO0_IRQ))) (PLIC_SPRIORITY h) 0)
    (set_k_hw (set_r_stvec ksym_kernelvec (set_r_satp (MAKE_SATP (k_kpgtbl s)) (k_hw s))) s1)). split.
  - unfold main_join. rewrite !run_bind_assoc, (run_bind _ _ _ h (mkWorld s env)) by done.
    rewrite run_bind_assoc, (run_bind _ _ _ _ _ (printf_run _ _ s env Hp (fun _ => Hl))). reflexivity.
  - split; [done|]. split; [done|]. split; [done|]. intros a Ha Hh. cbn [k_mem set_k_mem].
    assert (PLIC_SENABLE h + 4 <= KERNBASE /\ PLIC_SPRIORITY h + 4 <= KERNBASE)
      by (unfold PLIC_SENABLE, PLIC_SPRIORITY, PLIC, KERNBASE; lia).
    by rewrite !ld8_st32_ne by lia.
Qed.

(** C4: Booting. Let the kernel be loaded on a machine whose memory behind the kernel has at
    least 353 pages.  If the registers of the disk identify a usable device, [main] on hart
    0 returns, with [started] set, the boot message printed, and the kernel ready:
    - the process table is in order, and its only process is the first one, ready to run
      initcode in its one page of memory, in the root directory;
    - paging is on, with a page table that maps the devices, the kernel's text and data, the
      trampoline and a stack for each process, and nothing else; the stacks are different
      pages, and no user memory, page table, trapframe or free page;
    - every slot of the table knows its stack, traps go to kernelvec;
    - the buffer cache is empty, and all descriptors of the disk driver are free.

    Without a usable disk it panics. *)
Theorem main_boots started reg pages v s env :
  loaded s -> s32 (r_tp (k_hw s)) = 0 -> 353 <= Z.of_nat (page_count ksym_end PHYSTOP) ->
  0 <= reg VIRTIO_MMIO_QUEUE_NUM_MAX ->
  if decide (device_found reg) then
    exists r pas own fl s' v', main started reg pages v (mkWorld s env) = Ok (true, v') (mkWorld s' env) /\
      booted s s' r pas own fl /\ forall i, 0 <= i < NUM -> v_free v' i = 1
  else exists msg w, main started reg pages v (mkWorld s env) = Panic msg w.
Proof.
  intros Hl Ht Hn Hq.
  destruct (boot_to_disk reg pages v s env Hl Ht) as (r & pas & s3 & bs & own & fl & Hrun & Hmo & Hok & Hr & Hp & Hnd & Hk & Hpte & Hc & Hlen); [lia|].
  assert (Hmain : main started reg pages v (mkWorld s env) = (v' ← main_boot reg pages v; mret (true, v')) (mkWorld s env)).
  { unfold main. rewrite (run_bind _ _ _ (s32 (r_tp (k_hw s))) (mkWorld s env)) by done. by rewrite Ht. }
  rewrite Hmain. pose proof (virtio_disk_init_checks reg pages v Hq) as Hd.
  destruct (virtio_disk_init reg pages v) as [[] v'|msg v'|v'] eqn:Hv; [|destruct Hd as [Hd _]|done].
  - destruct Hd as [Hd Hfree]. rewrite decide_True by done.
    destruct (boot_process r pas s s3 bs own fl env Hl Hmo Hok Hr Hp Hnd Hk Hpte Hc) as (s' & own' & fl' & Hrun' & Hb); [lia|].
    exists r, pas, own', fl', s', v'. split; [|done].
    rewrite (run_bind _ _ _ v' (mkWorld s' env)); [done|]. rewrite Hrun.
    rewrite (run_bind _ _ _ v' (mkWorld (set_up r bs s3) env)) by (unfold on_disk; by rewrite Hv).
    by rewrite (run_bind _ _ _ _ _ Hrun').
  - rewrite decide_False by done. exists msg, (mkWorld (set_up r bs s3) env).
    unfold mbind at 1, M_bind at 1. rewrite Hrun. unfold mbind at 1, M_bind at 1, on_disk. by rewrite Hv.
Qed.

End Boot.

Lemma main_boots_witness : exists r pas own fl s' v',
  @main demo_machine false demo_reg 0x80020000 demo_v0 (mkWorld kst0 []) = Ok (true, v') (mkWorld s' []) /\
  booted demo_machine_ok kst0 s' r pas own fl.
Proof.
  pose proof (main_boots demo_machine_ok demo_machine_image false demo_reg 0x80020000 demo_v0 kst0 []) as H.
  rewrite decide_True in H by (by vm_compute).
  destruct H as (r & pas & own & fl & s' & v' & Hrun & Hb & _); [by split|done|by vm_compute|by vm_compute|].
  exists r, pas, own, fl, s', v'. split; [exact Hrun|exact Hb].
Defined.
