(* ===== verification/User.v ===== *)
(** * The C library of user programs (user/printf.c, user/ulib.c)

    A user program is a computation over the state [W] of the system as its process sees
    it: the system calls it makes are the operations of the class [Os], each a function of
    that state.  A program that calls [exit] or whose [exec] succeeds does not go on: it is
    [Blocked], with the status recorded.  Strings are lists of bytes without the
    terminating NUL.

    The class [Files] states what the theorems about user programs rely on: the behaviour
    of read, write, open, fstat and close on descriptors that are apart from each other.
    The theorem of this file: [printf] writes what its format says. *)

From stdpp Require Import base list strings.
From Stdlib Require Import ZArith Lia.
From S2P Require Import Prelude Riscv Memory State Fs Console.

(** ** System calls (user.h) *)

Class Os (W : Type) := {
  os_read : Z -> Z -> W -> option (list Z) * W;  (* None for -1 *)
  os_write : Z -> list Z -> W -> Z * W;
  os_open : list Z -> Z -> W -> Z * W;
  os_close : Z -> W -> Z * W;
  os_fstat : Z -> W -> option stat * W;  (* None for -1 *)
  os_dup : Z -> W -> Z * W;
  os_link : list Z -> list Z -> W -> Z * W;
  os_unlink : list Z -> W -> Z * W;
  os_mkdir : list Z -> W -> Z * W;
  os_mknod : list Z -> Z -> Z -> W -> Z * W;
  os_kill : Z -> Z -> W -> Z * W;
  os_fork : W -> Z * W;
  os_wait : W -> Z * W;
  os_exec : list Z -> list (list Z) -> W -> option Z * W;  (* None when it does not return *)
  os_sleep : Z -> W -> Z * W
}.

(** A process: the system, and the status with which it called [exit]. *)
Record ust (W : Type) : Type := mkUst { u_sys : W; u_status : option Z }.
Arguments mkUst {W} u_sys u_status.
Arguments u_sys {W} u.
Arguments u_status {W} u.

Abbreviation U W := (M (ust W)).

Section Library.
Context {W : Type} `{OS : Os W}.

Definition sys {A} (f : W -> A * W) : U W A := fun s =>
  let '(a, w) := f (u_sys s) in Ok a (mkUst w (u_status s)).

Definition exit {A} (status : Z) : U W A := fun s => Blocked (mkUst (u_sys s) (Some status)).

(** ** printf.c *)

Definition udigits : list Z := bytes_of "0123456789ABCDEF".

Definition putc (fd c : Z) : U W unit := sys (os_write fd [u8 c]);; mret tt.

(** The [do .. while] of [printint]: least significant digit first.  Ten turns are enough
    for a 32-bit number in base 10 or 16; [buf] has 16 bytes. *)
Fixpoint udigits_of (fuel : nat) (x base : Z) : list Z :=
  match fuel with
  | O => []
  | S fuel =>
      (udigits !!! Z.to_nat (x mod base)) ::
      (if x / base =? 0 then [] else udigits_of fuel (x / base) base)
  end.

Definition printint (fd xx base : Z) (sgn : bool) : U W unit :=
  let neg := sgn && (xx <? 0) in
  let x := if neg then u32 (- xx) else u32 xx in
  let buf := udigits_of 16 x base ++ (if neg then [45] else []) in
  for_each (rev buf) (putc fd).

(** The loop of [printptr]. *)
Fixpoint printptr_loop (n : nat) (fd x : Z) : U W unit :=
  match n with
  | O => mret tt
  | S n => putc fd (udigits !!! Z.to_nat (Z.shiftr x 60));; printptr_loop n fd (u64 (Z.shiftl x 4))
  end.
Definition printptr (fd x : Z) : U W unit :=
  putc fd 48;;
  putc fd 120;;
  printptr_loop 16 fd x.

(** One character of the format, in state 0 or '%': the next state and the arguments
    left. *)
Definition vprintf_char (fd c state : Z) (ap : list va) : U W (Z * list va) :=
  let c := Z.land c 0xff in
  if state =? 0 then
    if c =? 37 then mret (37, ap) else putc fd c;; mret (0, ap)
  else if state =? 37 then
    if c =? 100 then printint fd (s32 (va_int ap)) 10 true;; mret (0, tail ap)
    else if c =? 108 then printint fd (s32 (u64 (va_int ap))) 10 false;; mret (0, tail ap)
    else if c =? 120 then printint fd (s32 (va_int ap)) 16 false;; mret (0, tail ap)
    else if c =? 112 then printptr fd (u64 (va_int ap));; mret (0, tail ap)
    else if c =? 115 then
      for_each (default (bytes_of "(null)") (va_str ap)) (putc fd);; mret (0, tail ap)
    else if c =? 99 then putc fd (u32 (va_int ap));; mret (0, tail ap)
    else if c =? 37 then putc fd c;; mret (0, ap)
    else putc fd 37;; putc fd c;; mret (0, ap)
  else mret (state, ap).

Fixpoint vprintf_loop (fd : Z) (fmt : list Z) (state : Z) (ap : list va) : U W unit :=
  match fmt with
  | [] => mret tt
  | c :: fmt => r ← vprintf_char fd c state ap; vprintf_loop fd fmt r.1 r.2
  end.
Definition vprintf (fd : Z) (fmt : list Z) (ap : list va) : U W unit := vprintf_loop fd fmt 0 ap.

Definition fprintf (fd : Z) (fmt : string) (ap : list va) : U W unit := vprintf fd (bytes_of fmt) ap.
Definition printf (fmt : string) (ap : list va) : U W unit := vprintf 1 (bytes_of fmt) ap.

(** ** ulib.c *)

(** [atoi]: [n] is an [int]; a number too large for it wraps around. *)
Fixpoint atoi_from (s : list Z) (n : Z) : Z :=
  match s with
  | c :: s => if (48 <=? c) && (c <=? 57) then atoi_from s (s32 (n * 10 + c - 48)) else n
  | [] => n
  end.
Definition atoi (s : list Z) : Z := atoi_from s 0.

(** [strcmp(p, q)]; the byte behind a string is 0. *)
Fixpoint strcmp (p q : list Z) : Z :=
  match p, q with
  | a :: p', b :: q' => if a =? b then strcmp p' q' else a - b
  | a :: _, [] => a
  | [], b :: _ => - b
  | [], [] => 0
  end.

(** [memcmp(s1, s2, n)], for arrays of at least [n] bytes; [char] is unsigned. *)
Fixpoint memcmp (s1 s2 : list Z) (n : nat) : Z :=
  match n, s1, s2 with
  | S n, a :: s1, b :: s2 => if a =? b then memcmp s1 s2 n else a - b
  | _, _, _ => 0
  end.

(** [stat(n, st)] *)
Definition stat_call (n : list Z) : U W (option stat) :=
  fd ← sys (os_open n 0);
  if fd <? 0 then mret None else
  r ← sys (os_fstat fd);
  sys (os_close fd);;
  mret r.

End Library.

(** ** What programs rely on *)

(** [sink w fd]: [fd] is open for writing, to something no descriptor of the process reads.
    [source w fd]: [fd] is open for reading; [pending w fd] is what it has left.
    [written w fd] is what the process has written through [fd] so far.  [file_at w path]
    is the stat and the contents of the file a path names; [solid w fd] says [fd] is open
    on such a file, rather than on a pipe or a terminal.  [room w n]: the process can open
    [n] more files; a process has NOFILE descriptors, and the system NFILE files. *)
Class View (W : Type) := {
  sink : W -> Z -> Prop;
  source : W -> Z -> Prop;
  solid : W -> Z -> stat -> Prop;
  pending : W -> Z -> list Z;
  written : W -> Z -> list Z;
  file_at : W -> list Z -> option (stat * list Z);
  room : W -> nat -> Prop
}.

Section View.
Context {W : Type} `{!View W}.

(** [w'] differs from [w] in what is read only. *)
Definition keeps (w w' : W) : Prop :=
  (forall fd, written w' fd = written w fd) /\ (forall fd, sink w fd -> sink w' fd) /\
  (forall path, file_at w' path = file_at w path).

Definition room_kept (w w' : W) : Prop := forall n, room w n -> room w' n.

(** The input of every descriptor is as it was, but for those in [except]. *)
Definition sources_kept (except : Z -> Prop) (w w' : W) : Prop :=
  forall fd, ~ except fd -> source w fd ->
    source w' fd /\ pending w' fd = pending w fd /\ forall st, solid w fd st -> solid w' fd st.

(** [w'] is [w] with [bs] written to [fd]. *)
Record wrote (fd : Z) (bs : list Z) (w w' : W) : Prop := {
  wr_out : written w' fd = written w fd ++ bs;
  wr_other fd' : fd' <> fd -> written w' fd' = written w fd';
  wr_sink fd' : sink w fd' -> sink w' fd';
  wr_file path : file_at w' path = file_at w path;
  wr_source : sources_kept (fun _ => False) w w';
  wr_room : room_kept w w'
}.

End View.

Class Files (W : Type) `{OS : Os W} `{V : !View W} := {
  solid_source w fd st : solid w fd st -> source w fd;
  room_less w n m : (m <= n)%nat -> room w n -> room w m;
  (** write to a sink takes all the bytes. *)
  write_law w fd bs : sink w fd -> exists w', os_write fd bs w = (Z.of_nat (length bs), w') /\ wrote fd bs w w';
  (** read returns the next bytes, at least one unless the input is at its end. *)
  read_law w fd n : source w fd -> 0 < n -> exists bs w', os_read fd n w = (Some bs, w') /\
    pending w fd = bs ++ pending w' fd /\ Z.of_nat (length bs) <= n /\ (bs = [] -> pending w fd = []) /\
    source w' fd /\ (forall st, solid w fd st -> solid w' fd st) /\ keeps w w' /\ room_kept w w';
  (** From a file it returns as many as are asked for, if there are so many. *)
  read_solid w fd n st : solid w fd st -> 0 < n ->
    (os_read fd n w).1 = Some (take (Z.to_nat n) (pending w fd));
  (** open for reading, if there is room: a descriptor that was not in use, or -1. *)
  open_law w path st bs : file_at w path = Some (st, bs) -> room w 1 -> exists fd w', os_open path 0 w = (fd, w') /\
    0 <= fd /\ ~ sink w fd /\ ~ source w fd /\ solid w' fd st /\ pending w' fd = bs /\ keeps w w' /\
    sources_kept (fun x => x = fd) w w' /\ (forall n, room w (S n) -> room w' n);
  open_none w path : file_at w path = None -> exists w', os_open path 0 w = (-1, w') /\ keeps w w' /\
    sources_kept (fun _ => False) w w' /\ room_kept w w';
  fstat_law w fd st : solid w fd st -> exists w', os_fstat fd w = (Some st, w') /\ keeps w w' /\
    sources_kept (fun _ => False) w w' /\ room_kept w w';
  close_law w fd : source w fd -> exists w', os_close fd w = (0, w') /\
    (forall fd', written w' fd' = written w fd') /\ (forall fd', fd' <> fd -> sink w fd' -> sink w' fd') /\
    (forall path, file_at w' path = file_at w path) /\ sources_kept (fun x => x = fd) w w' /\
    (forall n, room w n -> room w' (S n))
}.

Section Laws.
Context {W : Type} `{FS : Files W}.

Lemma sources_kept_refl (except : Z -> Prop) (w : W) : sources_kept except w w.
Proof. by intros fd _ Hs. Qed.

Lemma sources_kept_trans except (w1 w2 w3 : W) :
  sources_kept except w1 w2 -> sources_kept except w2 w3 -> sources_kept except w1 w3.
Proof.
  intros H1 H2 fd Hn Hs. destruct (H1 fd Hn Hs) as (S1 & P1 & D1). destruct (H2 fd Hn S1) as (S2 & P2 & D2).
  split; [done|]. split; [congruence|]. intros st Hst. by apply D2, D1.
Qed.

Lemma wrote_nil fd (w : W) : wrote fd [] w w.
Proof. split; [by rewrite app_nil_r|done..|apply sources_kept_refl|by intros n]. Qed.

Lemma wrote_app fd bs1 bs2 (w1 w2 w3 : W) : wrote fd bs1 w1 w2 -> wrote fd bs2 w2 w3 -> wrote fd (bs1 ++ bs2) w1 w3.
Proof.
  intros A B. split.
  - by rewrite (wr_out _ _ _ _ B), (wr_out _ _ _ _ A), app_assoc.
  - intros fd' Hne. by rewrite (wr_other _ _ _ _ B), (wr_other _ _ _ _ A).
  - intros fd' Hs. by apply B, A.
  - intros path. by rewrite (wr_file _ _ _ _ B), (wr_file _ _ _ _ A).
  - eapply sources_kept_trans; [apply A|apply B].
  - intros n Hn. by apply B, A.
Qed.

(** [m] returns, having written [bs] to [fd] and done nothing else. *)
Definition prints {A} (fd : Z) (bs : list Z) (m : U W A) (a : A) : Prop :=
  forall w st, sink w fd -> exists w', m (mkUst w st) = Ok a (mkUst w' st) /\ wrote fd bs w w'.

Lemma prints_ret {A} fd (a : A) : prints fd [] (mret a) a.
Proof. intros w st Hs. exists w. split; [done|apply wrote_nil]. Qed.

Lemma prints_bind {A B} fd bs1 bs2 (m : U W A) (k : A -> U W B) a b :
  prints fd bs1 m a -> prints fd bs2 (k a) b -> prints fd (bs1 ++ bs2) (m ≫= k) b.
Proof.
  intros H1 H2 w st Hs. destruct (H1 w st Hs) as (w1 & Hr1 & W1). destruct (H2 w1 st) as (w2 & Hr2 & W2); [by apply W1|].
  exists w2. split; [by rewrite (run_bind _ _ _ _ _ Hr1)|by eapply wrote_app].
Qed.

Lemma putc_prints fd c : prints fd [u8 c] (putc fd c) tt.
Proof.
  intros w st Hs. destruct (write_law w fd [u8 c] Hs) as (w' & Hw & Hwr). exists w'. split; [|done].
  unfold putc, sys, mbind, M_bind. cbn [u_sys]. by rewrite Hw.
Qed.

Lemma for_each_prints fd l : prints fd (u8 <$> l) (for_each l (putc fd)) tt.
Proof.
  induction l as [|c l IH]; [apply prints_ret|]. cbn [for_each fmap list_fmap].
  apply (prints_bind fd [u8 c] (u8 <$> l) _ _ tt); [apply putc_prints|exact IH].
Qed.

(** ** What printf prints *)

(** The digit [d], and a number in positional notation. *)
Definition digit (d : Z) : Z := udigits !!! Z.to_nat d.
Fixpoint numeral (fuel : nat) (base n : Z) : list Z :=
  match fuel with
  | O => []
  | S fuel => if n <? base then [digit n] else numeral fuel base (n / base) ++ [digit (n mod base)]
  end.

(** The pieces of a format: a plain character, a conversion with its argument, or a percent
    sign in front of a character that is no conversion. *)
Inductive item :=
| ILit (c : Z) | IDec (n : Z) | ILong (n : Z) | IHex (n : Z) | IPtr (n : Z)
| IStr (s : option (list Z)) | IChr (c : Z) | IPct | IUnk (c : Z).

Definition item_fmt (i : item) : list Z :=
  match i with
  | ILit c => [c] | IDec _ => [37; 100] | ILong _ => [37; 108] | IHex _ => [37; 120] | IPtr _ => [37; 112]
  | IStr _ => [37; 115] | IChr _ => [37; 99] | IPct => [37; 37] | IUnk c => [37; c]
  end.
Definition item_args (i : item) : list va :=
  match i with
  | ILit _ | IPct | IUnk _ => []
  | IDec n | ILong n | IHex n | IPtr n | IChr n => [VInt n]
  | IStr s => [VStr s]
  end.

Definition byte_ok (c : Z) : Prop := 0 < c < 256.
Definition conversion (c : Z) : bool :=
  (c =? 100) || (c =? 108) || (c =? 120) || (c =? 112) || (c =? 115) || (c =? 99) || (c =? 37).
Definition item_ok (i : item) : Prop :=
  match i with
  | ILit c => byte_ok c /\ c <> 37
  | IDec n => - 2 ^ 31 <= n < 2 ^ 31
  | IPtr n => 0 <= n < 2 ^ 64
  | ILong n | IHex n => 0 <= n < 2 ^ 32
  | IStr s => Forall byte_ok (default [] s)
  | IChr c => byte_ok c
  | IPct => True
  | IUnk c => byte_ok c /\ conversion c = false
  end.

(** What the format asks for. *)
Definition render (i : item) : list Z :=
  match i with
  | ILit c | IChr c => [c]
  | IDec n => if n <? 0 then 45 :: numeral 16 10 (- n) else numeral 16 10 n
  | ILong n => numeral 16 10 n
  | IHex n => numeral 16 16 n
  | IPtr n => [48; 120] ++ ((fun k => digit (n / 16 ^ Z.of_nat k mod 16)) <$> rev (seq 0 16))
  | IStr s => default (bytes_of "(null)") s
  | IPct => [37]
  | IUnk c => [37; c]
  end.

Lemma rev_udigits base : 1 < base -> forall fuel x, 0 <= x -> rev (udigits_of fuel x base) = numeral fuel base x.
Proof.
  intros Hb. induction fuel as [|fuel IH]; intros x Hx; [done|]. cbn [udigits_of numeral rev].
  destruct (Z.eqb_spec (x / base) 0) as [Hz|Hz].
  - apply Z.div_small_iff in Hz as [Hz|]; [|lia|lia]. rewrite (proj2 (Z.ltb_lt x base)) by lia. cbn.
    by rewrite Z.mod_small.
  - rewrite (proj2 (Z.ltb_ge x base)).
    2:{ apply Z.le_ngt. intros H. apply Hz. by apply Z.div_small. }
    rewrite IH by (apply Z.div_pos; lia). done.
Qed.

Lemma digit_u8 d : 0 <= d < 16 -> u8 (digit d) = digit d.
Proof.
  intros Hd. assert (Hall : Forall (fun c => u8 c = c) udigits) by (repeat constructor).
  unfold digit. apply (Forall_lookup_total_1 _ _ _ Hall). change (length udigits) with 16%nat. lia.
Qed.

Lemma numeral_u8 base : 1 < base <= 16 -> forall fuel x, 0 <= x -> u8 <$> numeral fuel base x = numeral fuel base x.
Proof.
  intros Hb. induction fuel as [|fuel IH]; intros x Hx; [done|]. cbn [numeral].
  destruct (Z.ltb_spec x base).
  - cbn. by rewrite digit_u8 by lia.
  - rewrite fmap_app, IH by (apply Z.div_pos; lia). cbn.
    rewrite digit_u8; [done|]. pose proof (Z.mod_pos_bound x base ltac:(lia)). lia.
Qed.

Lemma uprintint_prints fd xx base (sgn : bool) : 1 < base <= 16 ->
  let neg := sgn && (xx <? 0) in
  prints fd ((if neg then [45] else []) ++ numeral 16 base (if neg then u32 (- xx) else u32 xx)) (printint fd xx base sgn) tt.
Proof.
  intros Hb neg. unfold printint. cbv zeta. fold neg. set (x := if neg then u32 (- xx) else u32 xx).
  assert (Hx : 0 <= x) by (unfold x, u32; destruct neg; apply Z.mod_pos_bound; lia).
  pose proof (for_each_prints fd (rev (udigits_of 16 x base ++ (if neg then [45] else [])))) as H.
  rewrite rev_app_distr, rev_udigits in H by lia. rewrite fmap_app, numeral_u8 in H by lia.
  assert (E : u8 <$> rev (if neg then [45] else []) = if neg then [45] else []) by (by destruct neg). rewrite E in H.
  rewrite rev_app_distr, rev_udigits by lia. exact H.
Qed.

Lemma top_digit x j : 0 <= x -> 0 <= j <= 15 ->
  Z.shiftr (u64 (Z.shiftl x (4 * j))) 60 = x / 16 ^ (15 - j) mod 16.
Proof.
  intros Hx Hj. unfold u64. change 16 with (2 ^ 4) at 1. rewrite <- Z.pow_mul_r by lia.
  change 16 with (2 ^ 4). apply Z.bits_inj'. intros i Hi. rewrite Z.shiftr_spec by done.
  destruct (Z.lt_ge_cases i 4).
  - rewrite !Z.mod_pow2_bits_low by lia. rewrite Z.shiftl_spec, Z.div_pow2_bits by lia. f_equal. lia.
  - rewrite !Z.mod_pow2_bits_high by lia. done.
Qed.

Lemma printptr_loop_prints fd x : 0 <= x < 2 ^ 64 -> forall n, (n <= 16)%nat ->
  prints fd ((fun k => digit (x / 16 ^ Z.of_nat k mod 16)) <$> rev (seq 0 n))
    (printptr_loop n fd (u64 (Z.shiftl x (4 * (16 - Z.of_nat n))))) tt.
Proof.
  intros Hx. induction n as [|n IH]; intros Hn; [apply prints_ret|].
  rewrite seq_S, rev_app_distr. cbn [rev app fmap list_fmap printptr_loop Nat.add].
  apply (prints_bind fd [digit (x / 16 ^ Z.of_nat n mod 16)] _ _ _ tt).
  - rewrite top_digit by lia. replace (15 - (16 - Z.of_nat (S n))) with (Z.of_nat n) by lia.
    rewrite <- (digit_u8 (x / 16 ^ Z.of_nat n mod 16)) by (apply Z.mod_pos_bound; lia). apply putc_prints.
  - replace (u64 (Z.shiftl (u64 (Z.shiftl x (4 * (16 - Z.of_nat (S n))))) 4))
      with (u64 (Z.shiftl x (4 * (16 - Z.of_nat n)))); [apply IH; lia|].
    unfold u64. rewrite !Z.shiftl_mul_pow2 by lia. rewrite Zmult_mod_idemp_l, <- Z.mul_assoc, <- Z.pow_add_r by lia.
    do 3 f_equal. lia.
Qed.

Lemma byte_u8 c : byte_ok c -> u8 c = c.
Proof. intros H. unfold u8. apply Z.mod_small. unfold byte_ok in H. lia. Qed.

Lemma bytes_u8 l : Forall byte_ok l -> u8 <$> l = l.
Proof. induction 1 as [|c l Hc Hl IH]; [done|]. cbn. by rewrite byte_u8, IH. Qed.

Lemma byte_land c : byte_ok c -> Z.land c 0xff = c.
Proof. intros H. change 0xff with (Z.ones 8). rewrite Z.land_ones by lia. by apply byte_u8. Qed.

Lemma s32_id n : - 2 ^ 31 <= n < 2 ^ 31 -> s32 n = n.
Proof. intros H. unfold s32. rewrite Z.mod_small by lia. lia. Qed.

Lemma u32_s32 n : u32 (s32 n) = u32 n.
Proof. unfold u32, s32. rewrite Zminus_mod_idemp_l. f_equal. lia. Qed.

(** One conversion, in state '%'. *)
Lemma conversion_prints fd i c ap : item_ok i -> item_fmt i = [37; c] ->
  prints fd (render i) (vprintf_char fd c 37 (item_args i ++ ap)) (0, ap).
Proof.
  intros Hok Hf. rewrite <- (app_nil_r (render i)).
  destruct i as [| n | n | n | n | s | x | | x]; cbn [item_fmt] in Hf; try discriminate Hf; injection Hf as <-; cbn [item_ok] in Hok.
  - apply (prints_bind fd _ _ _ _ tt); [|apply prints_ret].
    pose proof (uprintint_prints fd (s32 n) 10 true ltac:(lia)) as H. cbn [item_args app va_int].
    rewrite (s32_id n) in H |- * by done. cbn [render]. cbn [andb] in H. destruct (Z.ltb_spec n 0); cbn [app] in H.
    + replace (u32 (- n)) with (- n) in H by (unfold u32; rewrite Z.mod_small; lia). exact H.
    + replace (u32 n) with n in H by (unfold u32; rewrite Z.mod_small; lia). exact H.
  - apply (prints_bind fd _ _ _ _ tt); [|apply prints_ret].
    pose proof (uprintint_prints fd (s32 (u64 n)) 10 false ltac:(lia)) as H. cbn [andb app] in H. rewrite u32_s32 in H.
    cbn [item_args app va_int render]. replace (u64 n) with n in H |- * by (unfold u64; rewrite Z.mod_small; lia).
    replace (u32 n) with n in H by (unfold u32; rewrite Z.mod_small; lia). exact H.
  - apply (prints_bind fd _ _ _ _ tt); [|apply prints_ret].
    pose proof (uprintint_prints fd (s32 n) 16 false ltac:(lia)) as H. cbn [andb app] in H. rewrite u32_s32 in H.
    cbn [item_args app va_int render]. replace (u32 n) with n in H by (unfold u32; rewrite Z.mod_small; lia). exact H.
  - apply (prints_bind fd _ _ _ _ tt); [|apply prints_ret]. cbn [item_args app va_int render].
    assert (Hn : u64 n = n) by (unfold u64; rewrite Z.mod_small; lia). rewrite Hn. unfold printptr.
    apply (prints_bind fd [48] _ _ _ tt); [apply (putc_prints fd 48)|].
    apply (prints_bind fd [120] _ _ _ tt); [apply (putc_prints fd 120)|].
    pose proof (printptr_loop_prints fd n Hok 16 ltac:(lia)) as H. change (4 * (16 - Z.of_nat 16)) with 0 in H.
    rewrite Z.shiftl_0_r, Hn in H. exact H.
  - apply (prints_bind fd _ _ _ _ tt); [|apply prints_ret]. cbn [item_args app va_str render].
    pose proof (for_each_prints fd (default (bytes_of "(null)") s)) as H. rewrite bytes_u8 in H; [exact H|].
    destruct s; [done|]. repeat constructor.
  - apply (prints_bind fd _ _ _ _ tt); [|apply prints_ret]. cbn [item_args app va_int render].
    pose proof (putc_prints fd (u32 x)) as H. unfold byte_ok in Hok.
    replace (u32 x) with x in H |- * by (unfold u32; rewrite Z.mod_small; lia). by rewrite byte_u8 in H.
  - apply (prints_bind fd _ _ _ _ tt); [|apply prints_ret]. apply (putc_prints fd 37).
  - destruct Hok as [Hb Hc]. unfold conversion in Hc. rewrite !orb_false_iff in Hc. destruct Hc as ((((((E1 & E2) & E3) & E4) & E5) & E6) & E7).
    unfold vprintf_char. rewrite byte_land by done. cbv zeta. change (37 =? 0) with false. change (37 =? 37) with true. cbv iota.
    rewrite E1, E2, E3, E4, E5, E6, E7. cbn [render item_args app].
    apply (prints_bind fd [37] [x] _ _ tt); [apply (putc_prints fd 37)|].
    apply (prints_bind fd [x] [] _ _ tt); [|apply prints_ret]. rewrite <- (byte_u8 x) at 1 by done. apply putc_prints.
Qed.

(** A format of items prints their renderings. *)
Lemma vprintf_renders fd items : Forall item_ok items ->
  prints fd (items ≫= render) (vprintf fd (items ≫= item_fmt) (items ≫= item_args)) tt.
Proof.
  unfold vprintf. induction 1 as [|i items Hi Hitems IH]; [apply prints_ret|].
  cbn [mbind list_bind]. set (ap := items ≫= item_args) in *. set (fmt := items ≫= item_fmt) in *.
  assert (Hconv : forall c, item_fmt i = [37; c] -> prints fd (render i ++ (items ≫= render))
    (vprintf_loop fd ([37; c] ++ fmt) 0 (item_args i ++ ap)) tt).
  { intros c Hc. cbn [app vprintf_loop].
    apply (prints_bind fd [] _ _ _ (37, item_args i ++ ap)); [apply (prints_ret fd (37, item_args i ++ ap))|].
    cbn [fst snd]. apply (prints_bind fd (render i) _ _ _ (0, ap)); [by apply conversion_prints|exact IH]. }
  destruct i as [c| | | | | | | |]; try exact (Hconv _ eq_refl).
  destruct Hi as [Hb Hne]. cbn [item_fmt item_args render app vprintf_loop].
  apply (prints_bind fd [c] _ _ _ (0, ap)); [|exact IH]. unfold vprintf_char. rewrite byte_land by done. cbv zeta.
  change (0 =? 0) with true. cbv iota. rewrite (proj2 (Z.eqb_neq c 37)) by done.
  apply (prints_bind fd [c] [] _ _ tt); [|apply prints_ret]. rewrite <- (byte_u8 c) at 1 by done. apply putc_prints.
Qed.

(** A call of [printf] with a given format. *)
Lemma fprintf_items fd fmt ap items :
  bytes_of fmt = items ≫= item_fmt -> ap = items ≫= item_args -> Forall item_ok items ->
  prints fd (items ≫= render) (fprintf fd fmt ap) tt.
Proof. intros Hf -> Hok. unfold fprintf. rewrite Hf. by apply vprintf_renders. Qed.

Lemma digit_code d : 0 <= d < 10 -> digit d = 48 + d.
Proof.
  intros Hd. assert (Hc : d = 0 \/ d = 1 \/ d = 2 \/ d = 3 \/ d = 4 \/ d = 5 \/ d = 6 \/ d = 7 \/ d = 8 \/ d = 9) by lia.
  repeat (destruct Hc as [->|Hc]; [done|]). by subst d.
Qed.

Lemma atoi_numeral : forall fuel n l, 0 <= n < 10 ^ Z.of_nat (S fuel) -> n < 2 ^ 31 ->
  atoi_from (numeral (S fuel) 10 n ++ l) 0 = atoi_from l n.
Proof.
  assert (Hstep : forall m d l, 0 <= m -> 0 <= d < 10 -> m * 10 + d < 2 ^ 31 ->
    atoi_from (digit d :: l) m = atoi_from l (m * 10 + d)).
  { intros m d l Hm Hd Hlt. cbn [atoi_from]. rewrite digit_code by done.
    rewrite (proj2 (Z.leb_le 48 (48 + d))), (proj2 (Z.leb_le (48 + d) 57)) by lia. cbn [andb].
    f_equal. rewrite s32_id by lia. lia. }
  induction fuel as [|fuel IH]; intros n l Hn Hlt.
  - change (10 ^ Z.of_nat 1) with 10 in Hn. cbn [numeral]. rewrite (proj2 (Z.ltb_lt n 10)) by lia. cbn [app].
    rewrite Hstep by lia. done.
  - cbn [numeral]. destruct (Z.ltb_spec n 10) as [Hlt'|Hge].
    + cbn [app]. rewrite Hstep by lia. done.
    + rewrite <- app_assoc. pose proof (Z.div_mod n 10 ltac:(lia)). pose proof (Z.mod_pos_bound n 10 ltac:(lia)).
      change (if n / 10 <? 10 then _ else _) with (numeral (S fuel) 10 (n / 10)).
      rewrite IH; [cbn [app]; rewrite Hstep by lia; f_equal; lia| |lia].
      split; [lia|]. apply Z.div_lt_upper_bound; [lia|]. rewrite Nat2Z.inj_succ, Z.pow_succ_r in Hn by lia. lia.
Qed.

Lemma atoi_decimal n : 0 <= n < 2 ^ 31 -> atoi (render (IDec n)) = n.
Proof.
  intros Hn. cbn [render]. rewrite (proj2 (Z.ltb_ge n 0)) by lia. unfold atoi.
  rewrite <- (app_nil_r (numeral _ _ _)). rewrite (atoi_numeral 15) by (change (10 ^ Z.of_nat 16) with (10 ^ 16); lia). done.
Qed.

Lemma strcmp_eq p q : Forall byte_ok p -> Forall byte_ok q -> (strcmp p q = 0 <-> p = q).
Proof.
  intros Hp. revert q. induction Hp as [|a p Ha Hp IH]; intros q Hq; destruct Hq as [|b q Hb Hq]; cbn [strcmp];
    unfold byte_ok in *; [done|split; [lia|done]|split; [lia|done]|].
  destruct (Z.eqb_spec a b) as [->|Hne]; [rewrite IH by done; split; congruence|]. split; [lia|congruence].
Qed.

(** [%l] of an argument that does not fit in 32 bits prints its low 32 bits. *)
Lemma long_truncated fd n ap : 0 <= n < 2 ^ 64 ->
  prints fd (numeral 16 10 (n mod 2 ^ 32)) (vprintf_char fd 108 37 (VInt n :: ap)) (0, ap).
Proof.
  intros Hn. rewrite <- (app_nil_r (numeral _ _ _)). apply (prints_bind fd _ _ _ _ tt); [|apply prints_ret].
  pose proof (uprintint_prints fd (s32 (u64 n)) 10 false ltac:(lia)) as H. cbn [andb app] in H. rewrite u32_s32 in H.
  cbn [va_int]. replace (u64 n) with n in H |- * by (unfold u64; rewrite Z.mod_small; lia). exact H.
Qed.


End Laws.

(** ** A small system

    Files that can be opened for reading, two descriptors to write to, and descriptors from
    3 on to open files with. *)

Record toy : Type := mkToy {
  t_files : list (list Z * (stat * list Z));
  t_open : list (option (stat * list Z));  (* descriptors from 3 on *)
  t_out : Z -> list Z
}.

Definition t_file (w : toy) (path : list Z) : option (stat * list Z) :=
  snd <$> List.find (fun f => bool_decide (f.1 = path)) (t_files w).
Definition t_slot (w : toy) (fd : Z) : option (stat * list Z) :=
  if fd <? 3 then None else mjoin (t_open w !! Z.to_nat (fd - 3)).
Definition t_put (i : nat) (x : option (stat * list Z)) (w : toy) : toy :=
  mkToy (t_files w) (<[i := x]> (t_open w)) (t_out w).
Definition t_set (fd : Z) (x : option (stat * list Z)) (w : toy) : toy := t_put (Z.to_nat (fd - 3)) x w.

(** The first free descriptor, and how many there are. *)
Fixpoint t_free (l : list (option (stat * list Z))) : option nat :=
  match l with [] => None | None :: _ => Some 0%nat | Some _ :: l => S <$> t_free l end.
Definition t_room (l : list (option (stat * list Z))) : nat :=
  list_sum ((fun x => match x with None => 1 | Some _ => 0 end)%nat <$> l).

#[export] Instance toy_os : Os toy := {|
  os_read fd n w :=
    match t_slot w fd with
    | Some (st, l) => (Some (take (Z.to_nat n) l), t_set fd (Some (st, drop (Z.to_nat n) l)) w)
    | None => (None, w)
    end;
  os_write fd bs w := (Z.of_nat (length bs), mkToy (t_files w) (t_open w)
    (fun x => if x =? fd then t_out w x ++ bs else t_out w x));
  os_open path mode w :=
    match t_file w path, t_free (t_open w) with
    | Some f, Some i => (3 + Z.of_nat i, t_put i (Some f) w)
    | _, _ => (-1, w)
    end;
  os_close fd w := (0, t_set fd None w);
  os_fstat fd w := (fst <$> t_slot w fd, w);
  os_dup _ w := (-1, w); os_link _ _ w := (-1, w); os_unlink _ w := (-1, w); os_mkdir _ w := (-1, w);
  os_mknod _ _ _ w := (-1, w); os_kill _ _ w := (-1, w); os_fork w := (-1, w); os_wait w := (-1, w);
  os_exec _ _ w := (Some (-1), w); os_sleep _ w := (0, w)
|}.

#[export] Instance toy_view : View toy := {|
  sink _ fd := fd = 1 \/ fd = 2;
  source w fd := is_Some (t_slot w fd);
  solid w fd st := exists l, t_slot w fd = Some (st, l);
  pending w fd := default [] (snd <$> t_slot w fd);
  written w fd := t_out w fd;
  file_at := t_file;
  room w n := (n <= t_room (t_open w))%nat
|}.

Lemma t_slot_set w fd x fd' : is_Some (t_slot w fd) ->
  t_slot (t_set fd x w) fd' = if decide (fd' = fd) then x else t_slot w fd'.
Proof.
  intros Hs. unfold t_slot in *. destruct (Z.ltb_spec fd 3) as [|Hge]; [by destruct Hs|]. cbn [t_open t_set t_put].
  destruct (decide (fd' = fd)) as [->|Hne].
  - rewrite (proj2 (Z.ltb_ge fd 3)) by lia. destruct (t_open w !! Z.to_nat (fd - 3)) as [y|] eqn:E; [|by destruct Hs].
    rewrite list_lookup_insert_eq; [done|]. by eapply lookup_lt_Some.
  - destruct (Z.ltb_spec fd' 3); [done|]. rewrite list_lookup_insert_ne by lia. done.
Qed.

Lemma t_slot_taken w fd y : t_slot w fd = Some y -> t_open w !! Z.to_nat (fd - 3) = Some (Some y).
Proof. unfold t_slot. destruct (fd <? 3); [done|]. destruct (t_open w !! _) as [z|]; cbn; congruence. Qed.

Lemma t_free_slot l i : t_free l = Some i -> l !! i = Some None.
Proof.
  revert i. induction l as [|[y|] l IH]; intros i H; cbn in H; [done| |by injection H as <-].
  destruct (t_free l) as [j|]; [|done]. injection H as <-. by apply IH.
Qed.

Lemma t_room_free l : (1 <= t_room l)%nat -> is_Some (t_free l).
Proof.
  induction l as [|[y|] l IH]; cbn; [lia| |by eexists]. intros H. destruct (IH H) as [j ->]. by eexists.
Qed.

(** How much room a change of one slot makes or takes. *)
Lemma t_room_insert l i x y : l !! i = Some y ->
  (t_room (<[i := x]> l) + (match y with None => 1 | _ => 0 end) = t_room l + (match x with None => 1 | _ => 0 end))%nat.
Proof.
  revert i. induction l as [|z l IH]; intros [|i] H; cbn in H; [done|done|injection H as ->; cbn; lia|].
  specialize (IH i H). change (<[S i := x]> (z :: l)) with (z :: <[i := x]> l). unfold t_room in *.
  rewrite !fmap_cons. cbn [list_sum foldr]. unfold list_sum in *. lia.
Qed.

#[export] Instance toy_files : Files toy.
Proof.
  split.
  - intros w fd st [l Hl]. cbn. rewrite Hl. by eexists.
  - intros w n m Hle Hn. cbn in *. lia.
  - intros w fd bs Hs. eexists. split; [reflexivity|]. split; cbn.
    + by rewrite Z.eqb_refl.
    + intros fd' Hne. by rewrite (proj2 (Z.eqb_neq fd' fd)).
    + done.
    + done.
    + intros fd' _ Hsrc. done.
    + by intros n.
  - intros w fd n [[st l] Hl] Hn. cbn. rewrite Hl. eexists _, _. split; [reflexivity|].
    rewrite t_slot_set by (by eexists). rewrite decide_True by done. cbn.
    split; [by rewrite take_drop|]. split; [rewrite length_take; lia|]. split.
    { intros Ht. apply (f_equal length) in Ht. rewrite length_take in Ht. cbn in Ht. destruct l; [done|cbn in Ht; lia]. }
    split; [by eexists|]. split; [intros st' [l' [= <- <-]]; by eexists|]. split; [done|]. intros m Hm. pose proof (t_room_insert _ _ (Some (st, drop (Z.to_nat n) l)) _ (t_slot_taken _ _ _ Hl)) as E.
    cbv beta iota in E. cbn [room toy_view t_open t_set t_put] in *. lia.
  - intros w fd n st [l Hl] Hn. cbn. by rewrite Hl.
  - intros w path st bs Hf Hroom. cbn in Hf, Hroom. destruct (t_room_free _ Hroom) as [i Hi]. cbn. rewrite Hf, Hi.
    eexists _, _. split; [reflexivity|]. pose proof (t_free_slot _ _ Hi) as Hslot.
    assert (Hlen : Z.to_nat (3 + Z.of_nat i - 3) = i) by lia.
    assert (Hnew : t_slot (t_put i (Some (st, bs)) w) (3 + Z.of_nat i) = Some (st, bs)).
    { unfold t_slot. rewrite (proj2 (Z.ltb_ge _ 3)) by lia. cbn [t_open t_put].
      rewrite Hlen, list_lookup_insert_eq; [done|]. by eapply lookup_lt_Some. }
    split; [lia|]. split; [lia|]. split.
    { intros [x Hx]. apply t_slot_taken in Hx. rewrite Hlen in Hx. congruence. }
    rewrite Hnew. split; [by eexists|]. split; [done|]. split; [done|]. split.
    + intros fd' Hne [x Hx].
      assert (Hsame : t_slot (t_put i (Some (st, bs)) w) fd' = t_slot w fd').
      { unfold t_slot in *. destruct (Z.ltb_spec fd' 3); [done|]. cbn [t_open t_put].
        rewrite list_lookup_insert_ne by lia. done. }
      cbn. rewrite Hsame. by split; [eexists|].
    + intros n Hn. pose proof (t_room_insert _ _ (Some (st, bs)) _ Hslot) as E.
      cbv beta iota in E. cbn [room toy_view t_open t_put] in *. lia.
  - intros w path Hf. cbn in *. rewrite Hf. eexists. split; [reflexivity|]. split; [done|]. split; [by intros fd' _ Hs|by intros n].
  - intros w fd st [l Hl]. cbn. rewrite Hl. eexists. split; [reflexivity|]. split; [done|]. split; [by intros fd' _ Hs|by intros n].
  - intros w fd Hs. eexists. split; [reflexivity|]. split; [done|]. split; [done|]. split; [done|]. split.
    + intros fd' Hne [x Hx]. cbn in *. rewrite t_slot_set by done. rewrite decide_False by done. by split; [eexists|].
    + intros n Hn. destruct Hs as [y Hy]. pose proof (t_room_insert _ _ None _ (t_slot_taken _ _ _ Hy)) as E.
      cbv beta iota in E. cbn [room toy_view t_open t_set t_put] in *. lia.
Qed.

