(* ===== verification/Programs.v ===== *)
(** * User programs (user/cat.c, echo.c, wc.c, ls.c, rm.c, mkdir.c, ln.c, kill.c, init.c,
    zombie.c)

    [main] of each program gets its arguments without argv[0].  The theorems show, for any
    system that keeps the laws of [Files] and whatever the sizes of the pieces [read]
    returns: [cat] copies its files to the standard output, [wc] prints the numbers of
    lines, words and bytes of each file, and [ls] prints a line for each entry of a
    directory. *)

From stdpp Require Import base list strings.
From Stdlib Require Import ZArith Lia.
From S2P Require Import Prelude Riscv Memory State Fs Console User.

Section Programs.
Context {W : Type} `{OS : Os W}.

(** ** cat.c *)

(** [while((n = read(fd, buf, sizeof(buf))) > 0)]; a turn that goes on has read a byte. *)
Fixpoint cat (fuel : nat) (fd : Z) : U W unit :=
  match fuel with
  | O => block
  | S fuel =>
      r ← sys (os_read fd 512);
      match r with
      | None => fprintf 2 ("cat: read error" +:+ newline) [];; exit 1
      | Some [] => mret tt
      | Some buf =>
          n ← sys (os_write 1 buf);
          if negb (n =? Z.of_nat (length buf)) then
            fprintf 2 ("cat: write error" +:+ newline) [];; exit 1
          else cat fuel fd
      end
  end.

Definition cat_file (fuel : nat) (arg : list Z) : U W unit :=
  fd ← sys (os_open arg 0);
  if fd <? 0 then
    fprintf 2 ("cat: cannot open %s" +:+ newline) [VStr (Some arg)];; exit 1
  else
  cat fuel fd;;
  sys (os_close fd);;
  mret tt.

Definition cat_main (fuel : nat) (argv : list (list Z)) : U W unit :=
  match argv with
  | [] => cat fuel 0;; exit 0
  | _ => for_each argv (cat_file fuel);; exit 0
  end.

(** ** echo.c *)

Fixpoint echo_args (argv : list (list Z)) : U W unit :=
  match argv with
  | [] => mret tt
  | a :: rest =>
      sys (os_write 1 a);;
      match rest with
      | _ :: _ => sys (os_write 1 [32]);; echo_args rest
      | [] => sys (os_write 1 [10]);; mret tt
      end
  end.
Definition echo_main (argv : list (list Z)) : U W unit := echo_args argv;; exit 0.

(** ** wc.c *)

(** The variables l, w, c and inword. *)
Record counts : Type := mkCounts { c_l : Z; c_w : Z; c_c : Z; c_inword : bool }.

(** [strchr] of ulib.c on the bytes of a C string: the index of the first [c]. The loop
    stops at the NUL, which it therefore never finds. *)
Fixpoint strchr_at (s : list Z) (c : Z) : option nat :=
  match s with
  | [] => None
  | x :: s => if x =? 0 then None else if x =? c then Some 0%nat else S <$> strchr_at s c
  end.

(** [strchr(" \r\t\n\v", c)], as a condition. *)
Definition is_space (c : Z) : bool := bool_decide (is_Some (strchr_at [32; 13; 9; 10; 11; 0] c)).

(** The body of the loop over [buf]. *)
Definition wc_char (k : counts) (x : Z) : counts :=
  let c := s32 (c_c k + 1) in
  let l := if x =? 10 then s32 (c_l k + 1) else c_l k in
  if is_space x then mkCounts l (c_w k) c false
  else if c_inword k then mkCounts l (c_w k) c true
  else mkCounts l (s32 (c_w k + 1)) c true.

Fixpoint wc_loop (fuel : nat) (fd : Z) (k : counts) : U W counts :=
  match fuel with
  | O => block
  | S fuel =>
      r ← sys (os_read fd 512);
      match r with
      | None => printf ("wc: read error" +:+ newline) [];; exit 1
      | Some [] => mret k
      | Some buf => wc_loop fuel fd (foldl wc_char k buf)
      end
  end.

Definition wc (fuel : nat) (fd : Z) (name : list Z) : U W unit :=
  k ← wc_loop fuel fd (mkCounts 0 0 0 false);
  printf ("%d %d %d %s" +:+ newline) [VInt (c_l k); VInt (c_w k); VInt (c_c k); VStr (Some name)].

Definition wc_file (fuel : nat) (arg : list Z) : U W unit :=
  fd ← sys (os_open arg 0);
  if fd <? 0 then
    printf ("wc: cannot open %s" +:+ newline) [VStr (Some arg)];; exit 1
  else
  wc fuel fd arg;;
  sys (os_close fd);;
  mret tt.

Definition wc_main (fuel : nat) (argv : list (list Z)) : U W unit :=
  match argv with
  | [] => wc fuel 0 [];; exit 0
  | _ => for_each argv (wc_file fuel);; exit 0
  end.

(** ** ls.c *)

(** The part of a path after its last slash. *)
Fixpoint after_slash (path : list Z) : list Z :=
  match path with
  | [] => []
  | c :: rest => if existsb (Z.eqb 47) rest then after_slash rest else if c =? 47 then rest else path
  end.

Definition fmtname (path : list Z) : list Z :=
  let p := after_slash path in
  if (DIRSIZ <=? length p)%nat then p else p ++ replicate (DIRSIZ - length p) 32.

(** [while(read(fd, &de, sizeof(de)) == sizeof(de))] *)
Fixpoint ls_entries (fuel : nat) (fd : Z) (path : list Z) : U W unit :=
  match fuel with
  | O => block
  | S fuel =>
      r ← sys (os_read fd 16);
      match r with
      | Some de =>
          if negb (length de =? 16)%nat then mret tt
          else if dirent_inum de =? 0 then ls_entries fuel fd path
          else
            let buf := path ++ [47] ++ until_nul (dirent_name de) in
            st ← stat_call buf;
            match st with
            | None => printf ("ls: cannot stat %s" +:+ newline) [VStr (Some buf)];; ls_entries fuel fd path
            | Some st =>
                printf ("%s %d %d %d" +:+ newline)
                  [VStr (Some (fmtname buf)); VInt (st_type st); VInt (st_ino st); VInt (st_size st)];;
                ls_entries fuel fd path
            end
      | None => mret tt
      end
  end.

Definition ls (fuel : nat) (path : list Z) : U W unit :=
  fd ← sys (os_open path 0);
  if fd <? 0 then fprintf 2 ("ls: cannot open %s" +:+ newline) [VStr (Some path)] else
  st ← sys (os_fstat fd);
  match st with
  | None => fprintf 2 ("ls: cannot stat %s" +:+ newline) [VStr (Some path)];; sys (os_close fd);; mret tt
  | Some st =>
      (if st_type st =? T_FILE then
         printf ("%s %d %d %l" +:+ newline)
           [VStr (Some (fmtname path)); VInt (st_type st); VInt (st_ino st); VInt (st_size st)]
       else if st_type st =? T_DIR then
         if (512 <? length path + 1 + DIRSIZ + 1)%nat then printf ("ls: path too long" +:+ newline) []
         else ls_entries fuel fd path
       else mret tt);;
      sys (os_close fd);;
      mret tt
  end.

Definition ls_main (fuel : nat) (argv : list (list Z)) : U W unit :=
  match argv with
  | [] => ls fuel [46];; exit 0
  | _ => for_each argv (ls fuel);; exit 0
  end.

(** ** rm.c, mkdir.c, ln.c, kill.c *)

Definition rm_main (argv : list (list Z)) : U W unit :=
  match argv with
  | [] => fprintf 2 ("Usage: rm files..." +:+ newline) [];; exit 1
  | _ =>
      for_until argv (fun a =>
        r ← sys (os_unlink a);
        if r <? 0 then fprintf 2 ("rm: %s failed to delete" +:+ newline) [VStr (Some a)];; mret (Some tt)
        else mret None);;
      exit 0
  end.

Definition mkdir_main (argv : list (list Z)) : U W unit :=
  match argv with
  | [] => fprintf 2 ("Usage: mkdir files..." +:+ newline) [];; exit 1
  | _ =>
      for_until argv (fun a =>
        r ← sys (os_mkdir a);
        if r <? 0 then fprintf 2 ("mkdir: %s failed to create" +:+ newline) [VStr (Some a)];; mret (Some tt)
        else mret None);;
      exit 0
  end.

Definition ln_main (argv : list (list Z)) : U W unit :=
  match argv with
  | [a; b] =>
      r ← sys (os_link a b);
      when (r <? 0) (fprintf 2 ("link %s %s: failed" +:+ newline) [VStr (Some a); VStr (Some b)]);;
      exit 0
  | _ => fprintf 2 ("Usage: ln old new" +:+ newline) [];; exit 1
  end.

(** [for(i=1; i<argc-1; i+=2)] *)
Fixpoint kill_pairs (argv : list (list Z)) : U W unit :=
  match argv with
  | p :: sg :: rest => sys (os_kill (atoi p) (atoi sg));; kill_pairs rest
  | _ => mret tt
  end.
Definition kill_main (argv : list (list Z)) : U W unit :=
  match argv with
  | [] => fprintf 2 ("usage: kill pid..." +:+ newline) [];; exit 1
  | _ => kill_pairs argv;; exit 0
  end.

(** ** init.c, zombie.c *)

(** The inner [for(;;)]: wait until the shell [pid] has exited. *)
Fixpoint init_wait (fuel : nat) (pid : Z) : U W unit :=
  match fuel with
  | O => block
  | S fuel =>
      wpid ← sys os_wait;
      if wpid =? pid then mret tt
      else if wpid <? 0 then printf ("init: wait returned an error" +:+ newline) [];; exit 1
      else init_wait fuel pid
  end.

Definition exec_call {A} (path : list Z) (argv : list (list Z)) (failed : U W A) : U W A :=
  r ← sys (os_exec path argv);
  match r with Some _ => failed | None => block end.

(** One turn of the outer [for(;;)]. *)
Definition init_turn (fuel : nat) : U W unit :=
  printf ("init: starting sh" +:+ newline) [];;
  pid ← sys os_fork;
  if pid <? 0 then printf ("init: fork failed" +:+ newline) [];; exit 1
  else if pid =? 0 then
    exec_call (bytes_of "sh") [bytes_of "sh"] (printf ("init: exec sh failed" +:+ newline) [];; exit 1)
  else init_wait fuel pid.

Fixpoint init_loop (turns fuel : nat) : U W unit :=
  match turns with
  | O => block
  | S turns => init_turn fuel;; init_loop turns fuel
  end.

Definition init_main (turns fuel : nat) : U W unit :=
  fd ← sys (os_open (bytes_of "console") 2);
  when (fd <? 0) (
    sys (os_mknod (bytes_of "console") 1 0);;
    sys (os_open (bytes_of "console") 2);;
    mret tt);;
  sys (os_dup 0);;
  sys (os_dup 0);;
  init_loop turns fuel.

Definition zombie_main : U W unit :=
  pid ← sys os_fork;
  (if 0 <? pid then sys (os_sleep 5);; mret tt else mret tt);;
  exit 0.

End Programs.

(** ** Copying and counting *)

(** White space: blank, and the control characters from tab to vertical tab, and carriage
    return.  (The form feed, 12, is not one for wc.) *)
Definition white (c : Z) : Prop := c = 32 \/ 9 <= c <= 11 \/ c = 13.
#[global] Instance white_dec c : Decision (white c).
Proof. unfold white. apply _. Defined.

(** What wc counts: newlines, and maximal runs of characters other than white space. *)
Definition lines (l : list Z) : Z := Z.of_nat (length (filter (fun c => c = 10) l)).
Fixpoint pieces (l : list Z) : list (list Z) :=
  match l with
  | [] => [[]]
  | c :: l =>
      if decide (white c) then [] :: pieces l
      else match pieces l with p :: ps => (c :: p) :: ps | [] => [[c]] end
  end.
Definition words (l : list Z) : list (list Z) := filter (fun p => p <> []) (pieces l).

(** The test of wc.c finds exactly the white space. *)
Lemma is_space_white c : is_space c = bool_decide (white c).
Proof.
  unfold is_space, white. apply bool_decide_ext. cbn -[Z.le Z.eqb].
  rewrite Z.eqb_refl, !(proj2 (Z.eqb_neq _ 0)) by done.
  destruct (Z.eqb_spec 32 c), (Z.eqb_spec 13 c), (Z.eqb_spec 9 c), (Z.eqb_spec 10 c), (Z.eqb_spec 11 c); cbn -[Z.le Z.eqb].
  all: first [split; [intros _; lia|intros _; by eexists]|split; [by intros [? ?]|intros H; exfalso; lia]].
Qed.

Lemma pieces_cons l : exists p ps, pieces l = p :: ps.
Proof. destruct l as [|c l]; cbn; [by eexists _, _|]. destruct (decide (white c)); [by eexists _, _|]. destruct (pieces l); by eexists _, _. Qed.

(** The words that begin in [l], when the character before it is in a word. *)
Definition new_words (inword : bool) (l : list Z) : Z :=
  Z.of_nat (length (words l)) - (if inword && negb (bool_decide (head (pieces l) = Some [])) then 1 else 0).

Lemma new_words_cons inword c l : new_words inword (c :: l) =
  if is_space c then new_words false l else (if inword then 0 else 1) + new_words true l.
Proof.
  unfold new_words, words. cbn [pieces]. destruct (pieces_cons l) as (p & ps & E). rewrite E.
  rewrite is_space_white, (bool_decide_decide (white c)). destruct (decide (white c)) as [Hs|Hs].
  - rewrite filter_cons_False by (intros H; by apply H). cbn. rewrite andb_false_r. done.
  - rewrite (filter_cons_True _ (c :: p)) by done. cbn [head].
    rewrite (bool_decide_eq_false_2 (Some (c :: p) = Some [])) by done. cbn [negb].
    destruct p as [|d p].
    + rewrite filter_cons_False by (intros H; by apply H). rewrite bool_decide_eq_true_2 by done. cbn [negb].
      rewrite !andb_false_r, andb_true_r. destruct inword; cbn [length]; lia.
    + rewrite (filter_cons_True _ (d :: p)) by done. rewrite bool_decide_eq_false_2 by done. cbn [negb].
      rewrite !andb_true_r. destruct inword; cbn [length]; lia.
Qed.

Lemma lines_cons c l : lines (c :: l) = (if c =? 10 then 1 else 0) + lines l.
Proof.
  unfold lines. destruct (Z.eqb_spec c 10) as [->|Hne]; [rewrite filter_cons_True by done; cbn [length]; lia|].
  rewrite filter_cons_False by done. lia.
Qed.

Lemma new_words_range inword l : 0 <= new_words inword l <= Z.of_nat (length l).
Proof.
  revert inword. induction l as [|c l IH]; intros inword; [by destruct inword|].
  rewrite new_words_cons. cbn [length]. pose proof (IH false). pose proof (IH true). destruct (is_space c), inword; lia.
Qed.

Lemma lines_range l : 0 <= lines l <= Z.of_nat (length l).
Proof. unfold lines. pose proof (length_filter (fun c => c = 10) l). lia. Qed.

Lemma wc_counts_from l : forall k, 0 <= c_l k <= c_c k -> 0 <= c_w k <= c_c k -> c_c k + Z.of_nat (length l) < 2 ^ 31 ->
  let k' := foldl wc_char k l in
  c_l k' = c_l k + lines l /\ c_w k' = c_w k + new_words (c_inword k) l /\ c_c k' = c_c k + Z.of_nat (length l).
Proof.
  induction l as [|x l IH]; intros k H1 H2 H3.
  - cbn [foldl length]. replace (new_words (c_inword k) []) with 0 by (by destruct (c_inword k)).
    change (lines []) with 0. cbv zeta. lia.
  - cbn [foldl length] in *. cbv zeta. rewrite new_words_cons, lines_cons.
    assert (Hk : c_c (wc_char k x) = c_c k + 1 /\ c_l (wc_char k x) = c_l k + (if x =? 10 then 1 else 0) /\
      c_w (wc_char k x) = c_w k + (if is_space x then 0 else if c_inword k then 0 else 1) /\
      c_inword (wc_char k x) = negb (is_space x)).
    { unfold wc_char. rewrite !s32_id by lia. destruct (x =? 10), (is_space x), (c_inword k) eqn:E; cbn; rewrite ?E; repeat split; lia. }
    destruct Hk as (E1 & E2 & E3 & E4). destruct (IH (wc_char k x)) as (I1 & I2 & I3).
    { rewrite E1, E2. destruct (x =? 10); lia. }
    { rewrite E1, E3. destruct (is_space x), (c_inword k); lia. }
    { rewrite E1. lia. }
    rewrite I1, I2, I3, E1, E2, E3, E4. destruct (is_space x), (c_inword k); cbn [negb]; lia.
Qed.

(** The counters after a whole file. *)
Lemma wc_counts l : Z.of_nat (length l) < 2 ^ 31 ->
  let k := foldl wc_char (mkCounts 0 0 0 false) l in
  c_l k = lines l /\ c_w k = Z.of_nat (length (words l)) /\ c_c k = Z.of_nat (length l).
Proof.
  intros Hl. pose proof (wc_counts_from l (mkCounts 0 0 0 false)) as H. cbn [c_l c_w c_c c_inword] in H.
  unfold new_words in H. cbn [andb] in H. destruct H as (H1 & H2 & H3); [lia..|]. cbv zeta. lia.
Qed.

Section Runs.
Context {W : Type} `{FS : Files W}.

(** [w'] is [w] after [out] was written to the standard output and [fd] was read. *)
Record ran (fd : Z) (out : list Z) (w w' : W) : Prop := {
  rn_out : written w' 1 = written w 1 ++ out;
  rn_other fd' : fd' <> 1 -> written w' fd' = written w fd';
  rn_sink fd' : sink w fd' -> sink w' fd';
  rn_file path : file_at w' path = file_at w path;
  rn_source : source w' fd;
  rn_room : room_kept w w'
}.

Lemma ran_read fd (w w' : W) : source w' fd -> keeps w w' -> room_kept w w' -> ran fd [] w w'.
Proof. intros Hs (K1 & K2 & K3) Hm. split; [by rewrite app_nil_r, K1|by intros; apply K1|done..]. Qed.

Lemma ran_write fd bs (w w' : W) : source w fd -> wrote 1 bs w w' -> ran fd bs w w'.
Proof. intros Hs [H1 H2 H3 H4 H5 H6]. split; try done. by destruct (H5 fd (fun x => x) Hs) as (? & _). Qed.

Lemma ran_app fd o1 o2 (w1 w2 w3 : W) : ran fd o1 w1 w2 -> ran fd o2 w2 w3 -> ran fd (o1 ++ o2) w1 w3.
Proof.
  intros A B. split.
  - by rewrite (rn_out _ _ _ _ B), (rn_out _ _ _ _ A), app_assoc.
  - intros fd' Hne. by rewrite (rn_other _ _ _ _ B), (rn_other _ _ _ _ A).
  - intros fd' Hs. by apply B, A.
  - intros path. by rewrite (rn_file _ _ _ _ B), (rn_file _ _ _ _ A).
  - apply B.
  - intros n Hn. by apply B, A.
Qed.

Lemma cat_run fuel : forall fd w x, source w fd -> sink w 1 -> (length (pending w fd) < fuel)%nat ->
  exists w', cat fuel fd (mkUst w x) = Ok tt (mkUst w' x) /\ ran fd (pending w fd) w w'.
Proof.
  induction fuel as [|fuel IH]; intros fd w x Hs H1 Hf; [lia|]. cbn [cat].
  destruct (read_law w fd 512 Hs ltac:(lia)) as (bs & w1 & Hr & Hp & _ & He & Hs1 & _ & K & Km).
  rewrite (run_bind _ _ _ (Some bs) (mkUst w1 x)) by (unfold sys; cbn [u_sys]; by rewrite Hr).
  pose proof (ran_read fd w w1 Hs1 K Km) as R1. destruct bs as [|b bs].
  - exists w1. rewrite (He eq_refl). by split.
  - destruct (write_law w1 1 (b :: bs)) as (w2 & Hw & Hwr); [by apply K|].
    rewrite (run_bind _ _ _ (Z.of_nat (length (b :: bs))) (mkUst w2 x)) by (unfold sys; cbn [u_sys]; by rewrite Hw).
    rewrite Z.eqb_refl. cbn [negb]. destruct (wr_source _ _ _ _ Hwr fd (fun y => y) Hs1) as (Hs2 & Hp2 & _).
    destruct (IH fd w2 x Hs2) as (w' & Hrun & R3); [apply Hwr, K; done|rewrite Hp2; rewrite Hp, length_app in Hf; cbn in Hf; lia|].
    exists w'. split; [exact Hrun|]. rewrite Hp. rewrite Hp2 in R3.
    apply (ran_app fd [] ((b :: bs) ++ pending w1 fd) w w1 w'); [done|].
    eapply ran_app; [|exact R3]. by apply ran_write.
Qed.

Lemma wc_loop_run fuel : forall fd w x k, source w fd -> (length (pending w fd) < fuel)%nat ->
  exists w', wc_loop fuel fd k (mkUst w x) = Ok (foldl wc_char k (pending w fd)) (mkUst w' x) /\ ran fd [] w w'.
Proof.
  induction fuel as [|fuel IH]; intros fd w x k Hs Hf; [lia|]. cbn [wc_loop].
  destruct (read_law w fd 512 Hs ltac:(lia)) as (bs & w1 & Hr & Hp & _ & He & Hs1 & _ & K & Km).
  rewrite (run_bind _ _ _ (Some bs) (mkUst w1 x)) by (unfold sys; cbn [u_sys]; by rewrite Hr).
  pose proof (ran_read fd w w1 Hs1 K Km) as R1. destruct bs as [|b bs].
  - exists w1. rewrite (He eq_refl). by split.
  - destruct (IH fd w1 x (foldl wc_char k (b :: bs)) Hs1) as (w' & Hrun & R3); [rewrite Hp, length_app in Hf; cbn in Hf; lia|].
    exists w'. split; [rewrite Hrun, Hp, foldl_app; done|]. by apply (ran_app fd [] [] w w1 w').
Qed.

(** The line wc prints. *)
Definition wc_line (name l : list Z) : list Z :=
  render (IDec (lines l)) ++ [32] ++ render (IDec (Z.of_nat (length (words l)))) ++ [32] ++
  render (IDec (Z.of_nat (length l))) ++ [32] ++ name ++ [10].

Lemma wc_line_prints name l : Forall byte_ok name -> Z.of_nat (length l) < 2 ^ 31 ->
  let k := foldl wc_char (mkCounts 0 0 0 false) l in
  prints (W := W) 1 (wc_line name l)
    (printf ("%d %d %d %s" +:+ newline) [VInt (c_l k); VInt (c_w k); VInt (c_c k); VStr (Some name)]) tt.
Proof.
  intros Hn Hl k. destruct (wc_counts l Hl) as (E1 & E2 & E3). fold k in E1, E2, E3. rewrite E1, E2, E3.
  set (items := [IDec (lines l); ILit 32; IDec (Z.of_nat (length (words l))); ILit 32; IDec (Z.of_nat (length l)); ILit 32; IStr (Some name); ILit 10]).
  pose proof (fprintf_items (W := W) 1 ("%d %d %d %s" +:+ newline)
    [VInt (lines l); VInt (Z.of_nat (length (words l))); VInt (Z.of_nat (length l)); VStr (Some name)] items eq_refl eq_refl) as H.
  assert (Hr : items ≫= render = wc_line name l).
  { unfold items, wc_line. cbn -[render lines words]. cbn [render]. by rewrite ?app_nil_r, <- ?app_assoc. }
  rewrite Hr in H. apply H. pose proof (lines_range l).
  assert (Hw : 0 <= Z.of_nat (length (words l)) <= Z.of_nat (length l)).
  { pose proof (new_words_range false l) as Hr2. unfold new_words in Hr2. cbn [andb] in Hr2. lia. }
  unfold items. repeat constructor; cbn [item_ok]; unfold byte_ok; try lia. exact Hn.
Qed.

Lemma wc_run fuel fd name w x : source w fd -> sink w 1 -> (length (pending w fd) < fuel)%nat ->
  Forall byte_ok name -> Z.of_nat (length (pending w fd)) < 2 ^ 31 ->
  exists w', wc fuel fd name (mkUst w x) = Ok tt (mkUst w' x) /\ ran fd (wc_line name (pending w fd)) w w'.
Proof.
  intros Hs H1 Hf Hn Hl. destruct (wc_loop_run fuel fd w x (mkCounts 0 0 0 false) Hs Hf) as (w1 & Hr1 & R1).
  destruct (wc_line_prints name (pending w fd) Hn Hl w1 x) as (w2 & Hr2 & W2); [by apply R1|].
  exists w2. split; [unfold wc; by rewrite (run_bind _ _ _ _ _ Hr1)|].
  apply (ran_app fd [] _ w w1 w2); [done|]. apply ran_write; [apply R1|done].
Qed.

(** ** Programs that visit their files one after the other *)

(** [cat_file] and [wc_file]: [fail] prints the message, [proc] does the work. *)
Definition visit (fail : list Z -> U W unit) (proc : list Z -> Z -> U W unit) (arg : list Z) : U W unit :=
  fd ← sys (os_open arg 0);
  if fd <? 0 then fail arg;; exit 1
  else
  proc arg fd;;
  sys (os_close fd);;
  mret tt.

(** What such a program prints for each file, [g], up to the first file that does not
    exist; the message about that one, [msg]; and its exit status. *)
Fixpoint visited (f : list Z -> option (stat * list Z)) (g : list Z -> list Z -> list Z) (msg : list Z -> list Z)
    (argv : list (list Z)) : list Z * list Z * Z :=
  match argv with
  | [] => ([], [], 0)
  | a :: rest =>
      match f a with
      | None => ([], msg a, 1)
      | Some (_, bs) => let '(o, e, st) := visited f g msg rest in (g a bs ++ o, e, st)
      end
  end.

Section Visit.
Context (errfd : Z) (fail : list Z -> U W unit) (proc : list Z -> Z -> U W unit).
Context (g : list Z -> list Z -> list Z) (msg : list Z -> list Z) (good : list Z -> list Z -> Prop).
Hypothesis (Hfail : forall a, Forall byte_ok a -> prints errfd (msg a) (fail a) tt).
Hypothesis (Hproc : forall a fd w x, source w fd -> sink w 1 -> Forall byte_ok a -> good a (pending w fd) ->
  exists w', proc a fd (mkUst w x) = Ok tt (mkUst w' x) /\ ran fd (g a (pending w fd)) w w').

Lemma visit_ok a w x st bs : room w 1 -> sink w 1 -> sink w errfd -> file_at w a = Some (st, bs) -> Forall byte_ok a -> good a bs ->
  exists w', visit fail proc a (mkUst w x) = Ok tt (mkUst w' x) /\
    written w' 1 = written w 1 ++ g a bs /\ (forall fd', fd' <> 1 -> written w' fd' = written w fd') /\
    sink w' 1 /\ sink w' errfd /\ (forall path, file_at w' path = file_at w path) /\ room w' 1.
Proof.
  intros H0 H1 H2 Hf Hb Hg. destruct (open_law w a st bs Hf H0) as (fd & w1 & Ho & Hfd & Hns & _ & Hsol & Hp & (K1 & K2 & K3) & _ & M1).
  unfold visit. rewrite (run_bind _ _ _ fd (mkUst w1 x)) by (unfold sys; cbn [u_sys]; by rewrite Ho).
  rewrite (proj2 (Z.ltb_ge fd 0)) by lia. pose proof (solid_source _ _ _ Hsol) as Hs.
  destruct (Hproc a fd w1 x Hs (K2 1 H1) Hb) as (w2 & Hr2 & R); [by rewrite Hp|]. rewrite Hp in R.
  rewrite (run_bind _ _ _ _ _ Hr2). destruct (close_law w2 fd (rn_source _ _ _ _ R)) as (w3 & Hc & C1 & C2 & C3 & _ & M3).
  exists w3. split.
  { rewrite (run_bind _ _ _ 0 (mkUst w3 x)) by (unfold sys; cbn [u_sys]; by rewrite Hc). done. }
  split; [by rewrite C1, (rn_out _ _ _ _ R), K1|].
  split; [intros fd' Hne; by rewrite C1, (rn_other _ _ _ _ R), K1|].
  split; [apply C2; [by intros <-|by apply R, K2]|]. split; [apply C2; [by intros <-|by apply R, K2]|].
  split; [intros path; by rewrite C3, (rn_file _ _ _ _ R), K3|]. by apply M3, R, M1.
Qed.

Lemma visits_run argv : forall w x, room w 1 -> sink w 1 -> sink w errfd -> Forall (Forall byte_ok) argv ->
  (forall a st bs, a ∈ argv -> file_at w a = Some (st, bs) -> good a bs) ->
  let '(o, e, st) := visited (file_at w) g msg argv in
  exists w', (for_each argv (visit fail proc);; exit 0) (mkUst w x) = (Blocked (mkUst w' (Some st)) : res _ unit) /\
    forall fd, written w' fd = written w fd ++ (if fd =? 1 then o else []) ++ (if fd =? errfd then e else []).
Proof.
  induction argv as [|a argv IH]; intros w x H0 H1 H2 Hb Hg; cbn [visited for_each].
  - exists w. split; [done|]. intros fd. destruct (fd =? 1), (fd =? errfd); by rewrite ?app_nil_r.
  - rewrite Forall_cons in Hb. destruct Hb as [Ha Hb]. destruct (file_at w a) as [[st bs]|] eqn:Hf.
    + destruct (visit_ok a w x st bs H0 H1 H2 Hf Ha) as (w1 & Hr1 & O1 & O2 & S1 & S2 & F1 & M1); [by eapply Hg; [left|]|].
      specialize (IH w1 x M1 S1 S2 Hb). rewrite run_bind_assoc, (run_bind _ _ _ _ _ Hr1).
      assert (Hext : forall l, visited (file_at w1) g msg l = visited (file_at w) g msg l).
      { induction l as [|b l IHl]; [done|]. cbn [visited]. by rewrite F1, IHl. }
      rewrite Hext in IH. destruct (visited (file_at w) g msg argv) as [[o e] r]. destruct IH as (w' & Hr & O).
      { intros b st' bs' Hin Hb'. rewrite F1 in Hb'. eapply Hg; [by right|done]. }
      exists w'. split; [exact Hr|]. intros fd. rewrite O. destruct (Z.eqb_spec fd 1) as [->|Hne].
      * by rewrite O1, <- !app_assoc.
      * by rewrite O2.
    + destruct (open_none w a Hf) as (w1 & Ho & (K1 & K2 & K3) & _ & _). destruct (Hfail a Ha w1 x (K2 _ H2)) as (w2 & Hr2 & Wr).
      exists w2. split.
      { rewrite run_bind_assoc. unfold visit. rewrite run_bind_assoc, (run_bind _ _ _ (-1) (mkUst w1 x)) by (unfold sys; cbn [u_sys]; by rewrite Ho).
        change (-1 <? 0) with true. cbv iota. rewrite run_bind_assoc, (run_bind _ _ _ _ _ Hr2). reflexivity. }
      intros fd. destruct (Z.eqb_spec fd errfd) as [->|Hne].
      * rewrite (wr_out _ _ _ _ Wr), K1. by destruct (errfd =? 1).
      * rewrite (wr_other _ _ _ _ Wr), K1 by done. destruct (fd =? 1); by rewrite ?app_nil_r.
Qed.

End Visit.

Definition cat_msg (a : list Z) : list Z := bytes_of "cat: cannot open " ++ a ++ [10].
Definition wc_msg (a : list Z) : list Z := bytes_of "wc: cannot open " ++ a ++ [10].

(** A format "...%s\n" with a literal before it. *)
Lemma name_message_prints fd fmt lit a : bytes_of fmt = lit ++ [37; 115; 10] ->
  Forall (fun c => byte_ok c /\ c <> 37) lit -> Forall byte_ok a ->
  prints (W := W) fd (lit ++ a ++ [10]) (fprintf fd fmt [VStr (Some a)]) tt.
Proof.
  intros Hf Hlit Ha. set (items := (ILit <$> lit) ++ [IStr (Some a); ILit 10]).
  assert (H1 : (ILit <$> lit) ≫= item_fmt = lit) by (clear; induction lit as [|c l IH]; [done|]; cbn; by rewrite IH).
  assert (H2 : (ILit <$> lit) ≫= item_args = []) by (clear; induction lit as [|c l IH]; [done|]; cbn; by rewrite IH).
  assert (H3 : (ILit <$> lit) ≫= render = lit) by (clear; induction lit as [|c l IH]; [done|]; cbn; by rewrite IH).
  pose proof (fprintf_items (W := W) fd fmt [VStr (Some a)] items) as H. unfold items in H.
  rewrite !bind_app, H1, H2, H3 in H. cbn in H. apply H; [done|done|].
  apply Forall_app. split; [by apply Forall_fmap|]. repeat constructor; cbn; done.
Qed.

Lemma cat_files_run fuel argv w x : room w 1 -> sink w 1 -> sink w 2 -> Forall (Forall byte_ok) argv ->
  (forall a st bs, a ∈ argv -> file_at w a = Some (st, bs) -> (length bs < fuel)%nat) ->
  let '(o, e, st) := visited (file_at w) (fun _ bs => bs) cat_msg argv in
  exists w', (for_each argv (cat_file fuel);; exit 0) (mkUst w x) = (Blocked (mkUst w' (Some st)) : res _ unit) /\
    forall fd, written w' fd = written w fd ++ (if fd =? 1 then o else []) ++ (if fd =? 2 then e else []).
Proof.
  intros H0 H1 H2 Hb Hg.
  apply (visits_run 2 (fun a => fprintf 2 ("cat: cannot open %s" +:+ newline) [VStr (Some a)]) (fun _ fd => cat fuel fd)
    (fun _ bs => bs) cat_msg (fun _ bs => (length bs < fuel)%nat)); [| |done..].
  - intros a Ha. apply (name_message_prints 2 _ (bytes_of "cat: cannot open ")); [done| |done].
    repeat constructor; done.
  - intros a fd w0 x0 Hs Hs1 _ Hl. by apply cat_run.
Qed.

Lemma wc_files_run fuel argv w x : room w 1 -> sink w 1 -> Forall (Forall byte_ok) argv ->
  (forall a st bs, a ∈ argv -> file_at w a = Some (st, bs) -> (length bs < fuel)%nat /\ Z.of_nat (length bs) < 2 ^ 31) ->
  let '(o, e, st) := visited (file_at w) wc_line wc_msg argv in
  exists w', (for_each argv (wc_file fuel);; exit 0) (mkUst w x) = (Blocked (mkUst w' (Some st)) : res _ unit) /\
    forall fd, written w' fd = written w fd ++ (if fd =? 1 then o else []) ++ (if fd =? 1 then e else []).
Proof.
  intros H0 H1 Hb Hg.
  apply (visits_run 1 (fun a => printf ("wc: cannot open %s" +:+ newline) [VStr (Some a)]) (fun a fd => wc fuel fd a)
    wc_line wc_msg (fun _ bs => (length bs < fuel)%nat /\ Z.of_nat (length bs) < 2 ^ 31)); [| |done..].
  - intros a Ha. apply (name_message_prints 1 _ (bytes_of "wc: cannot open ")); [done| |done].
    repeat constructor; done.
  - intros a fd w0 x0 Hs Hs1 Ha [Hl1 Hl2]. by apply wc_run.
Qed.

(** C32: cat. With file names as arguments and a free descriptor, [cat] writes the contents of the files, in order and
    byte for byte, to the standard output; at the first name it cannot open it stops, with
    a message on the standard error and status 1.  Without arguments it copies the
    standard input.  It always exits, whatever the sizes of the pieces [read] returns. *)
Theorem cat_copies_files fuel argv w :
  room w 1 -> sink w 1 -> sink w 2 -> Forall (Forall byte_ok) argv ->
  (forall a st bs, a ∈ argv -> file_at w a = Some (st, bs) -> (length bs < fuel)%nat) ->
  (argv = [] -> source w 0 /\ (length (pending w 0) < fuel)%nat) ->
  let '(o, e, st) := match argv with [] => (pending w 0, [], 0) | _ => visited (file_at w) (fun _ bs => bs) cat_msg argv end in
  exists w', cat_main fuel argv (mkUst w None) = Blocked (mkUst w' (Some st)) /\
    written w' 1 = written w 1 ++ o /\ written w' 2 = written w 2 ++ e.
Proof.
  intros Hm H1 H2 Hb Hg H0. destruct argv as [|a argv].
  - destruct (H0 eq_refl) as [Hs Hl]. destruct (cat_run fuel 0 w None Hs H1 Hl) as (w' & Hr & R).
    exists w'. split; [unfold cat_main; by rewrite (run_bind _ _ _ _ _ Hr)|].
    split; [apply R|]. by rewrite (rn_other _ _ _ _ R), app_nil_r.
  - pose proof (cat_files_run fuel (a :: argv) w None Hm H1 H2 Hb Hg) as H.
    destruct (visited (file_at w) (fun _ bs => bs) cat_msg (a :: argv)) as [[o e] st].
    destruct H as (w' & Hr & O). exists w'. split; [exact Hr|]. split; rewrite O; cbn; by rewrite ?app_nil_r.
Qed.

(** C29: wc. With a free descriptor, for each file, [wc] prints the number of its newlines, of its words (maximal runs of
    characters other than space, tab, newline, carriage return and vertical tab) and of its
    bytes, and its name; a word that lies across two pieces [read] returns counts once.  At
    the first name it cannot open it stops with a message and status 1. *)
Theorem wc_counts_files fuel argv w :
  room w 1 -> sink w 1 -> argv <> [] -> Forall (Forall byte_ok) argv ->
  (forall a st bs, a ∈ argv -> file_at w a = Some (st, bs) -> (length bs < fuel)%nat /\ Z.of_nat (length bs) < 2 ^ 31) ->
  let '(o, e, st) := visited (file_at w) wc_line wc_msg argv in
  exists w', wc_main fuel argv (mkUst w None) = Blocked (mkUst w' (Some st)) /\
    written w' 1 = written w 1 ++ o ++ e.
Proof.
  intros Hm H1 Hne Hb Hg. pose proof (wc_files_run fuel argv w None Hm H1 Hb Hg) as H.
  destruct (visited (file_at w) wc_line wc_msg argv) as [[o e] st]. destruct H as (w' & Hr & O). exists w'.
  split; [by destruct argv|apply O].
Qed.

(** ** ls *)

(** A name as ls prints it, and the line of an entry of the directory [path]. *)
Definition pad (name : list Z) : list Z := name ++ replicate (DIRSIZ - length name) 32.
Definition entry_line (f : list Z -> option (stat * list Z)) (path name : list Z) : list Z :=
  match f (path ++ [47] ++ name) with
  | None => bytes_of "ls: cannot stat " ++ (path ++ [47] ++ name) ++ [10]
  | Some (st, _) =>
      pad name ++ [32] ++ render (IDec (st_type st)) ++ [32] ++ render (IDec (st_ino st)) ++ [32] ++
      render (IDec (st_size st)) ++ [10]
  end.

(** The lines of the entries in use; an entry has 16 bytes. *)
Fixpoint ls_lines (fuel : nat) (f : list Z -> option (stat * list Z)) (path bs : list Z) : list Z :=
  match fuel with
  | O => []
  | S fuel =>
      if (length bs <? 16)%nat then [] else
      (if dirent_inum (take 16 bs) =? 0 then [] else entry_line f path (until_nul (dirent_name (take 16 bs)))) ++
      ls_lines fuel f path (drop 16 bs)
  end.

(** Names hold no slash; the numbers in a stat fit an int. *)
Definition names_ok (bs : list Z) : Prop :=
  Forall (fun c => 0 <= c < 256) bs /\ forall i, (i * 16 + 16 <= length bs)%nat -> 47 ∉ dirent_name (take 16 (drop (i * 16) bs)).
Definition stat_ok (st : stat) : Prop :=
  0 <= st_type st < 2 ^ 31 /\ 0 <= st_ino st < 2 ^ 31 /\ 0 <= st_size st < 2 ^ 31.

Lemma names_ok_drop bs : names_ok bs -> names_ok (drop 16 bs).
Proof.
  intros [H1 H2]. split; [by apply Forall_drop|]. intros i Hi. rewrite length_drop in Hi. rewrite drop_drop.
  replace (16 + i * 16)%nat with (S i * 16)%nat by lia. apply H2. lia.
Qed.

Lemma elem_until_nul c l : c ∈ until_nul l -> c ∈ l /\ c <> 0.
Proof.
  induction l as [|x l IH]; cbn; [by intros ?%not_elem_of_nil|]. destruct (Z.eqb_spec x 0); [by intros ?%not_elem_of_nil|].
  intros [->|H]%elem_of_cons; [split; [left|done]|]. destruct (IH H). split; [by right|done].
Qed.

Lemma length_until_nul l : (length (until_nul l) <= length l)%nat.
Proof. induction l as [|x l IH]; [done|]. cbn. destruct (x =? 0); cbn; lia. Qed.

Lemma after_slash_app path name : 47 ∉ name -> after_slash (path ++ [47] ++ name) = name.
Proof.
  intros Hn. assert (Hno : existsb (Z.eqb 47) name = false).
  { destruct (existsb (Z.eqb 47) name) eqn:E; [|done]. apply existsb_exists in E as (x & Hx & Ex). apply Z.eqb_eq in Ex as <-.
    destruct Hn. by apply list_elem_of_In. }
  induction path as [|c path IH]; cbn [app after_slash]; [by rewrite Hno|].
  assert (Hyes : existsb (Z.eqb 47) (path ++ 47 :: name) = true) by (rewrite existsb_app; cbn; by rewrite orb_true_r).
  by rewrite Hyes.
Qed.

Lemma fmtname_pad path name : 47 ∉ name -> (length name <= DIRSIZ)%nat -> fmtname (path ++ [47] ++ name) = pad name.
Proof.
  intros Hn Hl. unfold fmtname. rewrite after_slash_app by done. unfold pad.
  destruct (Nat.leb_spec DIRSIZ (length name)); [|done]. replace (DIRSIZ - length name)%nat with 0%nat by lia. by rewrite app_nil_r.
Qed.

(** [stat] of a path leaves everything open as it was. *)
Lemma stat_call_run path w x fd st0 : room w 1 -> solid w fd st0 -> exists w',
  stat_call path (mkUst w x) = Ok (fst <$> file_at w path) (mkUst w' x) /\ ran fd [] w w' /\
  solid w' fd st0 /\ pending w' fd = pending w fd.
Proof.
  intros Hm Hsol. pose proof (solid_source _ _ _ Hsol) as Hs. unfold stat_call. destruct (file_at w path) as [[st bs]|] eqn:Hf.
  - destruct (open_law w path st bs Hf Hm) as (fd' & w1 & Ho & Hfd & Hns & Hnsrc & Hsol' & Hp & (K1 & K2 & K3) & S1 & M1).
    rewrite (run_bind _ _ _ fd' (mkUst w1 x)) by (unfold sys; cbn [u_sys]; by rewrite Ho).
    rewrite (proj2 (Z.ltb_ge fd' 0)) by lia.
    destruct (fstat_law w1 fd' st Hsol') as (w2 & Hst & (L1 & L2 & L3) & S2 & M2).
    rewrite (run_bind _ _ _ (Some st) (mkUst w2 x)) by (unfold sys; cbn [u_sys]; by rewrite Hst).
    destruct (S2 fd' (fun y => y) (solid_source _ _ _ Hsol')) as (Hs2 & _).
    destruct (close_law w2 fd' Hs2) as (w3 & Hc & C1 & C2 & C3 & S3 & M3).
    exists w3. split.
    { rewrite (run_bind _ _ _ 0 (mkUst w3 x)) by (unfold sys; cbn [u_sys]; by rewrite Hc). done. }
    assert (Hne : fd <> fd') by (intros ->; by apply Hnsrc).
    destruct (S1 fd Hne Hs) as (A1 & P1 & D1). destruct (S2 fd (fun y => y) A1) as (A2 & P2 & D2).
    destruct (S3 fd Hne A2) as (A3 & P3 & D3).
    split; [|split; [by apply D3, D2, D1|congruence]]. split.
    + by rewrite app_nil_r, C1, L1, K1.
    + intros fd'' _. by rewrite C1, L1, K1.
    + intros fd'' Hk. apply C2; [|by apply L2, K2]. by intros ->.
    + intros p. by rewrite C3, L3, K3.
    + done.
    + intros [|n] Hn; [|by apply M3, M2, M1]. apply (room_less w3 1); [lia|]. by apply M3, M2, M1.
  - destruct (open_none w path Hf) as (w1 & Ho & K & S1 & M1).
    rewrite (run_bind _ _ _ (-1) (mkUst w1 x)) by (unfold sys; cbn [u_sys]; by rewrite Ho).
    destruct (S1 fd (fun y => y) Hs) as (A1 & P1 & D1). exists w1. split; [done|]. split; [by apply ran_read|].
    split; [by apply D1|done].
Qed.

(** The line of an entry is printed. *)
Lemma entry_prints path name (f : list Z -> option (stat * list Z)) :
  Forall byte_ok path -> Forall byte_ok name -> 47 ∉ name -> (length name <= DIRSIZ)%nat ->
  (forall p st l, f p = Some (st, l) -> stat_ok st) ->
  let buf := path ++ [47] ++ name in
  prints (W := W) 1 (entry_line f path name)
    (match fst <$> f buf with
     | None => printf ("ls: cannot stat %s" +:+ newline) [VStr (Some buf)]
     | Some st => printf ("%s %d %d %d" +:+ newline)
         [VStr (Some (fmtname buf)); VInt (st_type st); VInt (st_ino st); VInt (st_size st)]
     end) tt.
Proof.
  intros Hp Hn Hsl Hl Hst buf.
  assert (Hbuf : Forall byte_ok buf).
  { unfold buf. rewrite !Forall_app. split; [done|]. split; [|done]. repeat constructor; done. }
  unfold entry_line. fold buf. destruct (f buf) as [[st l]|] eqn:Hf; cbn [fmap option_fmap option_map fst].
  - unfold buf. rewrite fmtname_pad by done. destruct (Hst _ _ _ Hf) as (S1 & S2 & S3).
    set (items := [IStr (Some (pad name)); ILit 32; IDec (st_type st); ILit 32; IDec (st_ino st); ILit 32; IDec (st_size st); ILit 10]).
    pose proof (fprintf_items (W := W) 1 ("%s %d %d %d" +:+ newline)
      [VStr (Some (pad name)); VInt (st_type st); VInt (st_ino st); VInt (st_size st)] items eq_refl eq_refl) as H.
    assert (Hr : items ≫= render = pad name ++ [32] ++ render (IDec (st_type st)) ++ [32] ++ render (IDec (st_ino st)) ++ [32] ++
      render (IDec (st_size st)) ++ [10]) by (unfold items; cbn -[render pad]; cbn [render]; by rewrite ?app_nil_r, <- ?app_assoc).
    rewrite Hr in H. apply H. unfold items. repeat constructor; cbn [item_ok default]; unfold byte_ok; try lia.
    apply Forall_app. split; [done|]. apply Forall_replicate. unfold byte_ok. lia.
  - apply (name_message_prints 1 _ (bytes_of "ls: cannot stat ")); [done| |done]. repeat constructor; done.
Qed.

Lemma ls_entries_run fuel : forall fd path st0 w x, room w 1 -> solid w fd st0 -> sink w 1 -> Forall byte_ok path ->
  names_ok (pending w fd) -> (forall p st l, file_at w p = Some (st, l) -> stat_ok st) ->
  (length (pending w fd) < fuel)%nat ->
  exists w', ls_entries fuel fd path (mkUst w x) = Ok tt (mkUst w' x) /\
    ran fd (ls_lines fuel (file_at w) path (pending w fd)) w w'.
Proof.
  induction fuel as [|fuel IH]; intros fd path st0 w x Hm Hsol H1 Hp Hn Hst Hf; [lia|]. cbn [ls_entries ls_lines].
  pose proof (solid_source _ _ _ Hsol) as Hs.
  destruct (read_law w fd 16 Hs ltac:(lia)) as (bs & w1 & Hr & Hpd & _ & _ & Hs1 & D1 & K & Km).
  pose proof (read_solid w fd 16 st0 Hsol ltac:(lia)) as Hex. rewrite Hr in Hex. cbn [fst] in Hex. injection Hex as Hbs.
  change (Z.to_nat 16) with 16%nat in Hbs.
  rewrite (run_bind _ _ _ (Some bs) (mkUst w1 x)) by (unfold sys; cbn [u_sys]; by rewrite Hr).
  pose proof (ran_read fd w w1 Hs1 K Km) as R1. destruct (Nat.ltb_spec (length (pending w fd)) 16) as [Hlt|Hge].
  - rewrite (proj2 (Nat.eqb_neq (length bs) 16)) by (rewrite Hbs, length_take; lia). exists w1. by split.
  - assert (Hl16 : length bs = 16%nat) by (rewrite Hbs, length_take; lia). rewrite Hl16, Nat.eqb_refl. cbn [negb].
    assert (Hdrop : pending w1 fd = drop 16 (pending w fd)).
    { rewrite Hpd. by rewrite drop_app_length'. }
    rewrite <- Hbs. pose proof (D1 st0 Hsol) as Hsol1.
    assert (Hn1 : names_ok (pending w1 fd)) by (rewrite Hdrop; by apply names_ok_drop).
    assert (Hf1 : (length (pending w1 fd) < fuel)%nat) by (rewrite Hdrop, length_drop; lia).
    assert (Hfile : forall w2, (forall p, file_at w2 p = file_at w p) -> forall n l, ls_lines n (file_at w2) path l = ls_lines n (file_at w) path l).
    { intros w2 E n. induction n as [|n IHn]; intros l; [done|]. cbn [ls_lines]. rewrite IHn. unfold entry_line. by rewrite E. }
    destruct (dirent_inum bs =? 0) eqn:Hin.
    + destruct (IH fd path st0 w1 x (Km 1%nat Hm) Hsol1 (proj1 (proj2 K) 1 H1) Hp Hn1) as (w' & Hrun & R); [|done|].
      { intros p st l Hpl. rewrite (proj2 (proj2 K)) in Hpl. by eapply Hst. }
      exists w'. split; [exact Hrun|]. rewrite Hdrop, (Hfile w1) in R by apply K. by apply (ran_app fd [] _ w w1 w').
    + set (name := until_nul (dirent_name bs)).
      destruct (stat_call_run (path ++ [47] ++ name) w1 x fd st0 (Km 1%nat Hm) Hsol1) as (w2 & Hr2 & R2 & Hsol2 & Hp2).
      rewrite (run_bind _ _ _ _ _ Hr2).
      assert (Hname : Forall byte_ok name /\ (47 ∉ name) /\ (length name <= DIRSIZ)%nat).
      { destruct Hn as [N1 N2]. specialize (N2 0%nat ltac:(lia)). cbn [Nat.mul] in N2. rewrite drop_0, <- Hbs in N2.
        unfold name. split; [|split].
        - apply Forall_forall. intros c [Hc Hc0]%elem_until_nul.
          assert (Hin' : c ∈ pending w fd).
          { rewrite Hpd. apply elem_of_app. left. rewrite <- (take_drop 2 bs). apply elem_of_app. by right. }
          rewrite Forall_forall in N1. specialize (N1 c Hin'). unfold byte_ok. lia.
        - by intros [Hc _]%elem_until_nul.
        - pose proof (length_until_nul (dirent_name bs)) as Hl. unfold dirent_name in Hl at 2. rewrite length_drop, Hl16 in Hl. unfold DIRSIZ. lia. }
      destruct Hname as (B1 & B2 & B3).
      destruct (entry_prints path name (file_at w1) Hp B1 B2 B3) with (w := w2) (st := x) as (w3 & Hr3 & W3).
      { intros p st l Hpl. rewrite (proj2 (proj2 K)) in Hpl. by eapply Hst. }
      { apply R2, K. done. }
      assert (Hs3 : source w2 fd) by (by eapply solid_source).
      destruct (wr_source _ _ _ _ W3 fd (fun y => y) Hs3) as (A3 & P3 & D3).
      destruct (IH fd path st0 w3 x) as (w' & Hrun & R); [by apply W3, R2, Km|by apply D3|apply W3, R2, K; done|done|by rewrite P3, Hp2| |by rewrite P3, Hp2|].
      { intros p st l Hpl. rewrite (wr_file _ _ _ _ W3), (rn_file _ _ _ _ R2), (proj2 (proj2 K)) in Hpl. by eapply Hst. }
      exists w'. split.
      { destruct (fst <$> file_at w1 (path ++ [47] ++ name)); by rewrite (run_bind _ _ _ _ _ Hr3). }
      rewrite P3, Hp2, Hdrop, (Hfile w3) in R by (intros p; by rewrite (wr_file _ _ _ _ W3), (rn_file _ _ _ _ R2), (proj2 (proj2 K))).
      apply (ran_app fd [] _ w w1 w'); [done|]. apply (ran_app fd [] _ w1 w2 w'); [done|].
      eapply ran_app; [|exact R].
      replace (entry_line (file_at w) path name) with (entry_line (file_at w1) path name)
        by (unfold entry_line; by rewrite (proj2 (proj2 K))).
      by apply ran_write.
Qed.

(** C30: ls. With two free descriptors, for a directory, [ls] prints a line for each entry that is in use, in the order of
    the directory: the name, padded with blanks to 14 characters, and the type, inode number
    and size of the file the entry leads to, or a message if there is none. *)
Theorem ls_lists_directory fuel path w x st bs :
  room w 2 -> sink w 1 -> file_at w path = Some (st, bs) -> st_type st = T_DIR -> (length path <= 496)%nat ->
  Forall byte_ok path -> names_ok bs -> (forall p st' l, file_at w p = Some (st', l) -> stat_ok st') ->
  (length bs < fuel)%nat ->
  exists w', ls fuel path (mkUst w x) = Ok tt (mkUst w' x) /\
    written w' 1 = written w 1 ++ ls_lines fuel (file_at w) path bs /\
    forall fd, fd <> 1 -> written w' fd = written w fd.
Proof.
  intros Hm H1 Hf Ht Hl Hp Hn Hst Hfuel.
  destruct (open_law w path st bs Hf (room_less w 2 1 ltac:(lia) Hm))
    as (fd & w1 & Ho & Hfd & Hns & Hnsrc & Hsol & Hpd & (K1 & K2 & K3) & S1 & M1).
  unfold ls. rewrite (run_bind _ _ _ fd (mkUst w1 x)) by (unfold sys; cbn [u_sys]; by rewrite Ho).
  rewrite (proj2 (Z.ltb_ge fd 0)) by lia.
  destruct (fstat_law w1 fd st Hsol) as (w2 & Hs2 & (L1 & L2 & L3) & S2 & M2).
  rewrite (run_bind _ _ _ (Some st) (mkUst w2 x)) by (unfold sys; cbn [u_sys]; by rewrite Hs2).
  destruct (S2 fd (fun y => y) (solid_source _ _ _ Hsol)) as (A2 & P2 & D2).
  rewrite Ht. change (T_DIR =? T_FILE) with false. change (T_DIR =? T_DIR) with true. cbv iota.
  rewrite (proj2 (Nat.ltb_ge 512 (length path + 1 + DIRSIZ + 1))) by (unfold DIRSIZ; lia).
  destruct (ls_entries_run fuel fd path st w2 x) as (w3 & Hr3 & R); [by apply M2, M1|by apply D2|by apply L2, K2|done|by rewrite P2, Hpd| |by rewrite P2, Hpd|].
  { intros p st' l Hpl. rewrite L3, K3 in Hpl. by eapply Hst. }
  rewrite (run_bind _ _ _ _ _ Hr3). destruct (close_law w3 fd (rn_source _ _ _ _ R)) as (w4 & Hc & C1 & C2 & C3 & S4 & _).
  exists w4. split.
  { rewrite (run_bind _ _ _ 0 (mkUst w4 x)) by (unfold sys; cbn [u_sys]; by rewrite Hc). done. }
  rewrite P2, Hpd in R. split.
  - rewrite C1, (rn_out _ _ _ _ R), L1, K1. f_equal. clear -L3 K3.
    assert (E : forall p, file_at w2 p = file_at w p) by (intros p; by rewrite L3, K3). clear L3 K3.
    revert bs. induction fuel as [|n IHn]; intros l; [done|]. cbn [ls_lines]. rewrite IHn. unfold entry_line. by rewrite E.
  - intros fd' Hne. by rewrite C1, (rn_other _ _ _ _ R), L1, K1.
Qed.

(** init waits for the shell through any number of orphans, and then starts it again. *)
Lemma init_reaps pid : forall orphans (w : W) x (waits : nat -> W),
  waits 0%nat = w -> (forall i q, orphans !! i = Some q -> 0 <= q /\ q <> pid /\ os_wait (waits i) = (q, waits (S i))) ->
  os_wait (waits (length orphans)) = (pid, waits (S (length orphans))) ->
  init_wait (S (length orphans)) pid (mkUst w x) = Ok tt (mkUst (waits (S (length orphans))) x).
Proof.
  induction orphans as [|q orphans IH]; intros w x waits <- Ho He.
  - cbn [init_wait length] in *. rewrite (run_bind _ _ _ pid (mkUst (waits 1%nat) x)) by (unfold sys; cbn [u_sys]; by rewrite He).
    by rewrite Z.eqb_refl.
  - destruct (Ho 0%nat q eq_refl) as (H1 & H2 & H3). cbn [length] in *.
    remember (S (length orphans)) as n eqn:Hn. cbn [init_wait].
    rewrite (run_bind _ _ _ q (mkUst (waits 1%nat) x)) by (unfold sys; cbn [u_sys]; by rewrite H3).
    rewrite (proj2 (Z.eqb_neq q pid)), (proj2 (Z.ltb_ge q 0)) by lia. subst n.
    apply (IH (waits 1%nat) x (fun i => waits (S i))); [done| |done]. intros i q' Hi. by apply (Ho (S i)).
Qed.

End Runs.

(** ** A system with three files *)

Definition demo_stat (ty ino size : Z) : stat := mkStat 1 ino ty 1 size.
Definition demo_dir : list Z :=
  [5; 0; 97] ++ replicate 13 0 ++ replicate 16 0 ++ [7; 0; 98; 46; 99] ++ replicate 11 0.
Definition demo_toy : toy := mkToy [
    (bytes_of "x", (demo_stat T_FILE 3 8, bytes_of " ab cd" ++ [10; 101]));
    (bytes_of "d", (demo_stat T_DIR 4 48, demo_dir));
    (bytes_of "d/a", (demo_stat T_FILE 5 2, [104; 105]))
  ] (replicate 13 None) (fun _ => []).

Lemma cat_copies_files_witness : exists w',
  cat_main 100 [bytes_of "x"; bytes_of "d/a"; bytes_of "y"] (mkUst demo_toy None) = Blocked (mkUst w' (Some 1)) /\
  written w' 1 = bytes_of " ab cd" ++ [10; 101; 104; 105] /\ written w' 2 = bytes_of "cat: cannot open y" ++ [10].
Proof.
  destruct (cat_copies_files 100 [bytes_of "x"; bytes_of "d/a"; bytes_of "y"] demo_toy) as (w' & H1 & H2 & H3).
  - by apply Nat.leb_le.
  - by left.
  - by right.
  - repeat constructor; done.
  - intros a st bs Ha. rewrite !elem_of_cons in Ha. destruct Ha as [->|[->|[->|Ha]]]; [..|by apply not_elem_of_nil in Ha];
      first [intros [= <- <-]; by apply Nat.ltb_lt | by vm_compute].
  - done.
  - exists w'. split; [exact H1|]. split; [exact H2|exact H3].
Defined.

Lemma wc_counts_files_witness : exists w',
  wc_main 100 [bytes_of "x"] (mkUst demo_toy None) = Blocked (mkUst w' (Some 0)) /\
  written w' 1 = bytes_of "1 3 8 x" ++ [10].
Proof.
  destruct (wc_counts_files 100 [bytes_of "x"] demo_toy) as (w' & H1 & H2).
  - by apply Nat.leb_le.
  - by left.
  - done.
  - repeat constructor; done.
  - intros a st bs Ha. rewrite elem_of_cons in Ha. destruct Ha as [->|Ha]; [|by apply not_elem_of_nil in Ha].
    intros [= <- <-]. split; [by apply Nat.ltb_lt|done].
  - exists w'. split; [exact H1|exact H2].
Defined.

Lemma ls_lists_directory_witness : exists w',
  ls 100 (bytes_of "d") (mkUst demo_toy None) = Ok tt (mkUst w' None) /\
  written w' 1 = bytes_of "a              2 5 2" ++ [10] ++ bytes_of "ls: cannot stat d/b.c" ++ [10].
Proof.
  destruct (ls_lists_directory 100 (bytes_of "d") demo_toy None (demo_stat T_DIR 4 48) demo_dir) as (w' & H1 & H2 & _).
  - by apply Nat.leb_le.
  - by left.
  - done.
  - done.
  - by apply Nat.leb_le.
  - repeat constructor; done.
  - split; [repeat constructor; done|]. intros i Hi. change (length demo_dir) with 48%nat in Hi.
    destruct i as [|[|[|i]]]; [..|lia]; apply (bool_decide_unpack _); by vm_compute.
  - intros p st' l Hp. unfold file_at, toy_view, t_file in Hp. cbn [demo_toy t_files List.find fst] in Hp.
    repeat (case_bool_decide; [injection Hp as <- <-; by vm_compute|]). discriminate Hp.
  - by apply Nat.leb_le.
  - exists w'. split; [exact H1|exact H2].
Defined.
