(* ===== verification/Grep.v ===== *)
(** * grep (user/grep.c)

    The pattern matcher ([match], [matchhere], [matchstar]) and the loop that reads a
    file in pieces and prints the lines that match ([grep]).  Strings are lists of
    characters without the terminating NUL.  [match] is called [re_match] here.  The
    theorems compare the matcher with regular languages, and [grep] with the matching
    lines of the file. *)

From stdpp Require Import base list.
From Stdlib Require Import ZArith Lia.
From S2P Require Import Prelude.

Definition CH_HAT : Z := 94.
Definition CH_DOT : Z := 46.
Definition CH_STAR : Z := 42.
Definition CH_DOLLAR : Z := 36.
Definition CH_NL : Z := 10.

(** [matchstar(c, re, text)]; [here] is [matchhere(re, .)]. *)
Fixpoint matchstar (here : list Z -> bool) (c : Z) (text : list Z) : bool :=
  if here text then true
  else match text with
       | [] => false
       | t :: text => if (t =? c) || (c =? CH_DOT) then matchstar here c text else false
       end.

(** [matchhere(re, text)]: search for re at beginning of text. *)
Fixpoint matchhere (re text : list Z) : bool :=
  match re with
  | [] => true
  | c :: re1 =>
      let one :=
        match text with
        | t :: text => if (c =? CH_DOT) || (c =? t) then matchhere re1 text else false
        | [] => false
        end in
      match re1 with
      | [] => if c =? CH_DOLLAR then (match text with [] => true | _ => false end) else one
      | d :: re2 => if d =? CH_STAR then matchstar (matchhere re2) c text else one
      end
  end.

(** The [do .. while] loop of [match]. *)
Fixpoint match_anywhere (re text : list Z) : bool :=
  if matchhere re text then true
  else match text with [] => false | _ :: text => match_anywhere re text end.

Definition re_match (re text : list Z) : bool :=
  match re with
  | c :: re1 => if c =? CH_HAT then matchhere re1 text else match_anywhere re text
  | [] => match_anywhere re text
  end.

(** [strchr(p, '\n')]: the index of the newline, when there is one before the NUL. *)
Fixpoint strchr_nl (l : list Z) : option nat :=
  match l with
  | [] => None
  | c :: l => if c =? 0 then None else if c =? CH_NL then Some 0%nat else S <$> strchr_nl l
  end.

(** The inner loop of [grep] on the buffer: what it prints, and what is left.  Every turn
    removes at least the newline, so the length of the buffer is enough fuel. *)
Fixpoint grep_lines (fuel : nat) (pattern buf : list Z) : list Z * list Z :=
  match fuel with
  | O => ([], buf)
  | S fuel =>
      match strchr_nl buf with
      | None => ([], buf)
      | Some q =>
          let printed := if re_match pattern (take q buf) then take (S q) buf else [] in
          let rest := grep_lines fuel pattern (drop (S q) buf) in
          (printed ++ rest.1, rest.2)
      end
  end.

Definition GREP_BUF : nat := 1024.

(** The outer loop.  [file] is what is still to be read; [sizes] says how much each [read]
    returns, when more than one size is possible: at least one byte, and at most what is
    asked for and what is there.  Every read but the last takes a byte of the file, so one
    more turn than the file has bytes is enough. *)
Fixpoint grep_loop (fuel : nat) (pattern buf file : list Z) (sizes : list nat) : list Z :=
  match fuel with
  | O => []
  | S fuel =>
      let room := (GREP_BUF - length buf - 1)%nat in
      let n := Nat.min (Nat.min room (length file)) (Nat.max 1 (default room (head sizes))) in
      if decide (n = 0)%nat then []
      else
        let buf := buf ++ take n file in
        let r := grep_lines (length buf) pattern buf in
        r.1 ++ grep_loop fuel pattern r.2 (drop n file) (tail sizes)
  end.

Definition grep (pattern file : list Z) (sizes : list nat) : list Z :=
  grep_loop (S (length file)) pattern [] file sizes.

(** ** Regular expressions *)

Inductive regex :=
| Eps | Chr (c : Z) | AnyChr | Cat (r1 r2 : regex) | Star (r : regex).

Inductive lang : regex -> list Z -> Prop :=
| lang_eps : lang Eps []
| lang_chr c : lang (Chr c) [c]
| lang_any c : lang AnyChr [c]
| lang_cat r1 r2 s1 s2 : lang r1 s1 -> lang r2 s2 -> lang (Cat r1 r2) (s1 ++ s2)
| lang_star_nil r : lang (Star r) []
| lang_star_cons r s1 s2 : lang r s1 -> lang (Star r) s2 -> lang (Star r) (s1 ++ s2).

Definition sym (c : Z) : regex := if c =? CH_DOT then AnyChr else Chr c.

(** The regular expression a pattern stands for, and whether it ends with an anchor. *)
Fixpoint compile (re : list Z) : regex * bool :=
  match re with
  | [] => (Eps, false)
  | c :: re1 =>
      match re1 with
      | [] => if c =? CH_DOLLAR then (Eps, true) else (Cat (sym c) Eps, false)
      | d :: re2 =>
          if d =? CH_STAR then let r := compile re2 in (Cat (Star (sym c)) r.1, r.2)
          else let r := compile re1 in (Cat (sym c) r.1, r.2)
      end
  end.

(** [text] starts with a word of the language, and is that word if the pattern is anchored. *)
Definition starts (re text : list Z) : Prop :=
  exists s rest, text = s ++ rest /\ lang (compile re).1 s /\ ((compile re).2 = true -> rest = []).

Lemma lang_sym c t : lang (sym c) [t] <-> c = CH_DOT \/ c = t.
Proof.
  unfold sym. destruct (Z.eqb_spec c CH_DOT) as [->|Hne].
  - split; [by left|]. intros _. apply lang_any.
  - split; [|intros [?|<-]; [done|apply lang_chr]]. inversion 1; subst; by right.
Qed.

Lemma lang_sym_one c s : lang (sym c) s -> exists t, s = [t].
Proof. unfold sym. destruct (c =? CH_DOT); inversion 1; subst; by eexists. Qed.

Lemma lang_star_sym c s : lang (Star (sym c)) s <-> Forall (fun t => c = CH_DOT \/ c = t) s.
Proof.
  split.
  - intros H. remember (Star (sym c)) as r eqn:Hr. induction H; try discriminate Hr.
    + apply Forall_nil_2.
    + injection Hr as ->. apply Forall_app. split; [|by apply IHlang2].
      destruct (lang_sym_one c s1 H) as [t ->]. apply Forall_singleton. by apply lang_sym.
  - induction 1 as [|t s Ht _ IH]; [apply lang_star_nil|].
    change (t :: s) with ([t] ++ s). apply lang_star_cons; [by apply lang_sym|done].
Qed.

Lemma lang_cat_inv r1 r2 s : lang (Cat r1 r2) s <-> exists s1 s2, s = s1 ++ s2 /\ lang r1 s1 /\ lang r2 s2.
Proof. split; [inversion 1; subst; by eexists _, _|]. intros (s1 & s2 & -> & H1 & H2). by apply lang_cat. Qed.

(** ** The matcher *)

Lemma matchstar_spec here c : forall text, matchstar here c text = true <->
  exists s rest, text = s ++ rest /\ Forall (fun t => c = CH_DOT \/ c = t) s /\ here rest = true.
Proof.
  induction text as [|t text IH]; cbn [matchstar].
  - destruct (here []) eqn:Hh.
    + split; [|done]. intros _. exists [], []. split; [done|]. split; [apply Forall_nil_2|done].
    + split; [done|]. intros (s & rest & He & _ & Hr). symmetry in He. apply app_nil in He as [-> ->]. congruence.
  - destruct (here (t :: text)) eqn:Hh.
    + split; [|done]. intros _. exists [], (t :: text). split; [done|]. split; [apply Forall_nil_2|done].
    + destruct ((t =? c) || (c =? CH_DOT)) eqn:Hc.
      * rewrite IH. assert (Ht : c = CH_DOT \/ c = t).
        { apply orb_prop in Hc as [Hc|Hc]; apply Z.eqb_eq in Hc; [by right|by left]. }
        split.
        -- intros (s & rest & -> & Hs & Hr). exists (t :: s), rest. split; [done|]. split; [by apply Forall_cons|done].
        -- intros (s & rest & He & Hs & Hr). destruct s as [|t' s]; [cbn in He; rewrite <- He in Hr; congruence|].
           injection He as <- ->. apply Forall_cons in Hs as [_ Hs]. by exists s, rest.
      * split; [done|]. intros (s & rest & He & Hs & Hr).
        destruct s as [|t' s]; [cbn in He; rewrite <- He in Hr; congruence|].
        injection He as <- ->. apply Forall_cons in Hs as [Ht _]. apply orb_false_elim in Hc as [H1 H2].
        apply Z.eqb_neq in H1, H2. destruct Ht; congruence.
Qed.

Lemma starts_cons c re text : compile (c :: re) = (Cat (sym c) (compile re).1, (compile re).2) ->
  starts (c :: re) text <-> exists t text', text = t :: text' /\ (c = CH_DOT \/ c = t) /\ starts re text'.
Proof.
  intros Hc. unfold starts. rewrite Hc. cbn [fst snd]. split.
  - intros (s & rest & -> & Hl & Hr). apply lang_cat_inv in Hl as (s1 & s2 & -> & H1 & H2).
    destruct (lang_sym_one c s1 H1) as [t ->]. exists t, (s2 ++ rest). split; [done|].
    split; [by apply lang_sym|]. by exists s2, rest.
  - intros (t & text' & -> & Ht & s & rest & -> & Hl & Hr). exists (t :: s), rest. split; [done|]. split; [|done].
    change (t :: s) with ([t] ++ s). apply lang_cat; [by apply lang_sym|done].
Qed.

Lemma matchone_spec (here : list Z -> bool) c text (P : list Z -> Prop) :
  (forall text', here text' = true <-> P text') ->
  match text with t :: text => if (c =? CH_DOT) || (c =? t) then here text else false | [] => false end = true <->
  exists t text', text = t :: text' /\ (c = CH_DOT \/ c = t) /\ P text'.
Proof.
  intros HP. destruct text as [|t text]; [split; [done|by intros (? & ? & ? & _)]|].
  destruct (Z.eqb_spec c CH_DOT) as [->|H1]; cbn [orb].
  - rewrite HP. split; [intros H; exists t, text; auto|by intros (? & ? & [= <- <-] & _ & H)].
  - destruct (Z.eqb_spec c t) as [->|H2].
    + rewrite HP. split; [intros H; exists t, text; auto|by intros (? & ? & [= <- <-] & _ & H)].
    + split; [done|]. intros (? & ? & [= <- <-] & [?|?] & _); congruence.
Qed.

Lemma starts_star c re text :
  starts (c :: CH_STAR :: re) text <->
  exists s rest, text = s ++ rest /\ Forall (fun t => c = CH_DOT \/ c = t) s /\ starts re rest.
Proof.
  unfold starts. cbn [compile]. rewrite Z.eqb_refl. cbn [fst snd]. split.
  - intros (s & rest & -> & Hl & Hr). apply lang_cat_inv in Hl as (s1 & s2 & -> & H1 & H2).
    apply lang_star_sym in H1. exists s1, (s2 ++ rest). split; [by rewrite app_assoc|]. split; [done|].
    by exists s2, rest.
  - intros (s1 & rest1 & -> & H1 & s2 & rest & -> & Hl & Hr). exists (s1 ++ s2), rest.
    split; [by rewrite app_assoc|]. split; [|done]. apply lang_cat; [by apply lang_star_sym|done].
Qed.

Lemma starts_nil text : starts [] text.
Proof. exists [], text. split; [done|]. split; [apply lang_eps|done]. Qed.

Lemma starts_end text : starts [CH_DOLLAR] text <-> text = [].
Proof.
  split.
  - intros (s & rest & -> & Hl & Hr). cbn in Hl, Hr. inversion Hl; subst. by rewrite Hr.
  - intros ->. exists [], []. split; [done|]. split; [apply lang_eps|done].
Qed.

Lemma matchhere_spec : forall n re text, (length re <= n)%nat -> matchhere re text = true <-> starts re text.
Proof.
  induction n as [|n IH]; intros re text Hn.
  { destruct re; [|cbn in Hn; lia]. split; [intros _; apply starts_nil|done]. }
  destruct re as [|c [|d re2]].
  - split; [intros _; apply starts_nil|done].
  - cbn [matchhere]. destruct (Z.eqb_spec c CH_DOLLAR) as [->|Hc].
    + rewrite starts_end. destruct text; by split.
    + rewrite (starts_cons c []); [|cbn [compile]; by apply Z.eqb_neq in Hc as ->].
      apply (matchone_spec (matchhere [])). intros text'. apply IH. cbn; lia.
  - cbn [matchhere]. destruct (Z.eqb_spec d CH_STAR) as [->|Hd].
    + rewrite starts_star, matchstar_spec. cbn in Hn.
      split; intros (s & rest & -> & Hs & Hr); exists s, rest; (split; [done|]); (split; [done|]);
        apply IH; [lia|done|lia|done].
    + rewrite (starts_cons c (d :: re2));
        [|change (compile (c :: d :: re2)) with
            (if d =? CH_STAR then (Cat (Star (sym c)) (compile re2).1, (compile re2).2)
             else (Cat (sym c) (compile (d :: re2)).1, (compile (d :: re2)).2)); by apply Z.eqb_neq in Hd as ->].
      apply (matchone_spec (matchhere (d :: re2))). intros text'. apply IH. cbn in Hn |- *; lia.
Qed.

Lemma match_anywhere_spec re : forall text, match_anywhere re text = true <->
  exists pre rest, text = pre ++ rest /\ matchhere re rest = true.
Proof.
  induction text as [|t text IH]; cbn [match_anywhere].
  - destruct (matchhere re []) eqn:Hm.
    + split; [|done]. intros _. by exists [], [].
    + split; [done|]. intros (pre & rest & He & Hr). symmetry in He. apply app_nil in He as [-> ->]. congruence.
  - destruct (matchhere re (t :: text)) eqn:Hm.
    + split; [|done]. intros _. by exists [], (t :: text).
    + rewrite IH. split; intros (pre & rest & He & Hr).
      * exists (t :: pre), rest. by rewrite He.
      * destruct pre as [|t' pre]; [cbn in He; rewrite <- He in Hr; congruence|].
        injection He as <- ->. by exists pre, rest.
Qed.

(** C34: [match] decides the regular language of the pattern.  It answers 1 exactly when
    some part of the text is a word of the regular expression that the pattern stands for
    (concatenation of characters, of dots and of starred ones); the part is a prefix of the
    text when the pattern starts with a hat, and a suffix when it ends with a dollar. *)
Theorem match_decides_pattern re text :
  let anchored := match re with c :: _ => c =? CH_HAT | [] => false end in
  let body := if anchored then tail re else re in
  re_match re text = true <->
  exists pre s post, text = pre ++ s ++ post /\ lang (compile body).1 s /\
    (anchored = true -> pre = []) /\ ((compile body).2 = true -> post = []).
Proof.
  assert (Hany : forall re, match_anywhere re text = true <->
    exists pre s post, text = pre ++ s ++ post /\ lang (compile re).1 s /\
      (false = true -> pre = []) /\ ((compile re).2 = true -> post = [])).
  { intros re'. rewrite match_anywhere_spec. split.
    - intros (pre & rest & -> & Hm). apply (matchhere_spec (length re')) in Hm as (s & post & -> & Hl & Hp); [|lia].
      by exists pre, s, post.
    - intros (pre & s & post & -> & Hl & _ & Hp). exists pre, (s ++ post). split; [done|].
      apply (matchhere_spec (length re')); [lia|]. by exists s, post. }
  destruct re as [|c re]; [apply Hany|]. cbn [re_match tail].
  destruct (c =? CH_HAT); [|apply Hany]. rewrite (matchhere_spec (length re)) by lia. split.
  - intros (s & post & -> & Hl & Hp). by exists [], s, post.
  - intros (pre & s & post & -> & Hl & Hpre & Hp). rewrite (Hpre eq_refl). by exists s, post.
Qed.

(** ** The lines of a file *)

(** The complete lines of a file, without their newlines. *)
Fixpoint complete_lines (line file : list Z) : list (list Z) :=
  match file with
  | [] => []
  | c :: file => if c =? CH_NL then line :: complete_lines [] file else complete_lines (line ++ [c]) file
  end.

Definition printed (pattern : list Z) (ls : list (list Z)) : list Z :=
  mjoin ((fun l => if re_match pattern l then l ++ [CH_NL] else []) <$> ls).

Definition no_nul (l : list Z) : Prop := Forall (fun c => c <> 0) l.

Lemma strchr_nl_none l : no_nul l -> strchr_nl l = None -> CH_NL ∉ l.
Proof.
  induction 1 as [|c l Hc _ IH]; intros Hs; [apply not_elem_of_nil|]. cbn [strchr_nl] in Hs.
  apply Z.eqb_neq in Hc. rewrite Hc in Hs. destruct (Z.eqb_spec c CH_NL) as [|Hn]; [done|].
  apply not_elem_of_cons. split; [congruence|]. apply IH. by destruct (strchr_nl l).
Qed.

Lemma strchr_nl_some l : forall q, strchr_nl l = Some q ->
  exists line rest, l = line ++ CH_NL :: rest /\ length line = q /\ CH_NL ∉ line.
Proof.
  induction l as [|c l IH]; intros q Hs; [done|]. cbn [strchr_nl] in Hs.
  destruct (c =? 0); [done|]. destruct (Z.eqb_spec c CH_NL) as [->|Hn].
  - injection Hs as <-. exists [], l. split; [done|]. split; [done|apply not_elem_of_nil].
  - destruct (strchr_nl l) as [q'|]; [|done]. injection Hs as <-.
    destruct (IH q' eq_refl) as (line & rest & -> & <- & Hin). exists (c :: line), rest. split; [done|].
    split; [done|]. apply not_elem_of_cons. split; [congruence|done].
Qed.

Lemma complete_lines_acc l rest : CH_NL ∉ l -> forall acc,
  complete_lines acc (l ++ rest) = complete_lines (acc ++ l) rest.
Proof.
  induction l as [|c l IH]; intros Hl acc; [by rewrite app_nil_r|].
  apply not_elem_of_cons in Hl as [Hc Hl]. cbn [app complete_lines].
  destruct (Z.eqb_spec c CH_NL); [congruence|]. rewrite (IH Hl). by rewrite <- app_assoc.
Qed.

Lemma complete_lines_line line rest : CH_NL ∉ line ->
  complete_lines [] (line ++ CH_NL :: rest) = line :: complete_lines [] rest.
Proof. intros Hl. by rewrite complete_lines_acc. Qed.

Lemma complete_lines_none l : CH_NL ∉ l -> complete_lines [] l = [].
Proof. intros Hl. rewrite <- (app_nil_r l) at 1. by rewrite complete_lines_acc. Qed.

(** The inner loop prints the lines of the buffer that match and leaves the part of a line
    that comes after them. *)
Lemma grep_lines_spec pattern : forall fuel buf, (length buf <= fuel)%nat -> no_nul buf ->
  exists done, buf = done ++ (grep_lines fuel pattern buf).2 /\ (CH_NL ∉ (grep_lines fuel pattern buf).2) /\
    forall more, (grep_lines fuel pattern buf).1 ++ printed pattern (complete_lines [] ((grep_lines fuel pattern buf).2 ++ more)) =
      printed pattern (complete_lines [] (buf ++ more)) /\
      (complete_lines [] ((grep_lines fuel pattern buf).2 ++ more)) `suffix_of` (complete_lines [] (buf ++ more)).
Proof.
  induction fuel as [|fuel IH]; intros buf Hf Hz.
  { destruct buf; [|cbn in Hf; lia]. exists []. split; [done|]. split; [apply not_elem_of_nil|]. by intros more. }
  cbn [grep_lines]. destruct (strchr_nl buf) as [q|] eqn:Hq.
  - destruct (strchr_nl_some buf q Hq) as (line & rest & -> & <- & Hline).
    assert (Hd : drop (S (length line)) (line ++ CH_NL :: rest) = rest).
    { replace (S (length line)) with (length (line ++ [CH_NL])) by (rewrite length_app; cbn; lia).
      change (CH_NL :: rest) with ([CH_NL] ++ rest). by rewrite app_assoc, drop_app_length. }
    assert (Ht : take (S (length line)) (line ++ CH_NL :: rest) = line ++ [CH_NL]).
    { replace (S (length line)) with (length (line ++ [CH_NL])) by (rewrite length_app; cbn; lia).
      change (CH_NL :: rest) with ([CH_NL] ++ rest). by rewrite app_assoc, take_app_length. }
    rewrite Hd, Ht, take_app_length. rewrite length_app in Hf. cbn in Hf.
    apply Forall_app in Hz as [_ Hz]. apply Forall_cons in Hz as [_ Hz].
    destruct (IH rest ltac:(lia) Hz) as (dn & He & Hn & Hm). cbn [fst snd].
    exists (line ++ CH_NL :: dn). split; [rewrite <- app_assoc; cbn [app]; by rewrite <- He|]. split; [done|].
    intros more. destruct (Hm more) as [Hp Hs]. rewrite <- (app_assoc line). cbn [app].
    rewrite complete_lines_line by done. split; [|by apply suffix_cons_r].
    rewrite <- app_assoc, Hp. done.
  - exists []. split; [done|]. split; [by apply strchr_nl_none|]. by intros more.
Qed.

(** A line that is not complete in the buffer, but is in the file, is shorter than the
    buffer when the lines of the file are. *)
Lemma line_fits buf file : CH_NL ∉ buf -> CH_NL ∈ file ->
  Forall (fun l => (length l < GREP_BUF - 1)%nat) (complete_lines [] (buf ++ file)) -> (length buf < GREP_BUF - 1)%nat.
Proof.
  intros Hb Hf HF.
  assert (exists l file', file = l ++ CH_NL :: file' /\ CH_NL ∉ l) as (l & file' & -> & Hl).
  { apply list_elem_of_split_l in Hf as (l & file' & -> & Hl). by exists l, file'. }
  rewrite app_assoc, complete_lines_line in HF.
  - apply Forall_cons in HF as [HF _]. rewrite length_app in HF. lia.
  - rewrite not_elem_of_app. done.
Qed.

Lemma grep_loop_spec pattern : forall fuel buf file sizes, (length file < fuel)%nat -> no_nul (buf ++ file) -> CH_NL ∉ buf ->
  Forall (fun l => (length l < GREP_BUF - 1)%nat) (complete_lines [] (buf ++ file)) ->
  grep_loop fuel pattern buf file sizes = printed pattern (complete_lines [] (buf ++ file)).
Proof.
  induction fuel as [|fuel IH]; intros buf file sizes Hf Hz Hb HF; [lia|]. cbn [grep_loop].
  set (room := (GREP_BUF - length buf - 1)%nat).
  set (n := Nat.min (Nat.min room (length file)) (Nat.max 1 (default room (head sizes)))).
  destruct (decide (n = 0)%nat) as [Hn|Hn].
  - rewrite complete_lines_none; [done|]. rewrite not_elem_of_app. split; [done|]. intros Hin.
    pose proof (line_fits buf file Hb Hin HF).
    assert (length file <> 0%nat) by (destruct file; [by apply not_elem_of_nil in Hin|cbn; lia]). lia.
  - assert (Hsplit : buf ++ file = (buf ++ take n file) ++ drop n file) by (by rewrite <- app_assoc, take_drop).
    rewrite Hsplit in Hz, HF |- *. set (buf' := buf ++ take n file) in *.
    pose proof Hz as Hz'. apply Forall_app in Hz' as [Hzb _].
    destruct (grep_lines_spec pattern (length buf') buf' ltac:(lia) Hzb) as (dn & He & Hnl & Hm).
    destruct (Hm (drop n file)) as [Hp Hs]. rewrite IH.
    + exact Hp.
    + rewrite length_drop. lia.
    + apply Forall_app in Hz as [Hz1 Hz2]. apply Forall_app. split; [|done].
      rewrite He in Hz1. by apply Forall_app in Hz1 as [_ Hz1].
    + done.
    + destruct Hs as [ls Hls]. rewrite Hls in HF. by apply Forall_app in HF as [_ HF].
Qed.

(** C35: [grep] prints the lines that match.  Whatever the sizes of the pieces that [read]
    returns, for a file without NUL bytes whose lines are shorter than 1023 characters the
    output is the complete lines that match the pattern, each with its newline, in the
    order of the file.  What comes after the last newline is never looked at. *)
Theorem grep_prints_matching_lines pattern file sizes :
  no_nul file -> Forall (fun l => (length l < 1023)%nat) (complete_lines [] file) ->
  grep pattern file sizes = printed pattern (complete_lines [] file).
Proof.
  intros Hz HF. apply (grep_loop_spec pattern _ [] file sizes); [lia|done|apply not_elem_of_nil|exact HF].
Qed.

(** [a*b] on the lines [aab], [c], [b] and an unterminated [b], read two bytes at a time. *)
Lemma grep_prints_matching_lines_witness :
  grep [97; 42; 98] [97; 97; 98; 10; 99; 10; 98; 10; 98] [2; 2; 2; 2; 2]%nat = [97; 97; 98; 10; 98; 10].
Proof.
  rewrite (grep_prints_matching_lines [97; 42; 98] [97; 97; 98; 10; 99; 10; 98; 10; 98] [2; 2; 2; 2; 2]%nat).
  - reflexivity.
  - repeat constructor; discriminate.
  - cbn. repeat constructor; cbn; lia.
Defined.
