(* ===== verification/Shell.v ===== *)
(** * The shell's parser (user/sh.c)

    A pointer into the command line is the list of the characters from there to the end
    [es], so [s < es] is "not empty" and [*s] at the end is the terminating NUL.  The
    functions that move [*ps] are computations over that pointer; [panic] of the shell,
    which prints a message and exits, is [Panic].

    [cmd T] is the tree of struct cmd, with the strings as [T]: a pair of pointers
    [token] in the trees the parser builds, texts in those the printer takes.

    [parseexec] hands the node it allocated to [parseredirs], which wraps it, and goes on
    storing arguments into the node inside; here the arguments and the redirections are
    collected separately and put together at the end, which gives the same tree. *)

From stdpp Require Import base list strings.
From Stdlib Require Import ZArith Lia.
From S2P Require Import Prelude.

Definition CH_LT : Z := 60.
Definition CH_GT : Z := 62.
Definition CH_PIPE : Z := 124.
Definition CH_AMP : Z := 38.
Definition CH_SEMI : Z := 59.
Definition CH_LPAREN : Z := 40.
Definition CH_RPAREN : Z := 41.
Definition CH_PLUS : Z := 43.
Definition CH_a : Z := 97.
Definition CH_SPACE : Z := 32.

Definition whitespace : list Z := [CH_SPACE; 9; 13; 10; 11].
Definition symbols : list Z := [CH_LT; CH_PIPE; CH_GT; CH_AMP; CH_SEMI; CH_LPAREN; CH_RPAREN].

Definition MAXARGS : nat := 10.
Definition O_RDONLY : Z := 0x000.
Definition O_WRONLY : Z := 0x001.
Definition O_CREATE : Z := 0x200.
Definition O_TRUNC : Z := 0x400.

(** Does [c] occur in the string? *)
Definition strchr (s : list Z) (c : Z) : bool := existsb (Z.eqb c) s.

(** ** Commands *)

Inductive cmd (T : Type) :=
| EXEC (argv : list T)
| REDIR (c : cmd T) (file : T) (mode : Z) (fd : Z)
| PIPE (left right : cmd T)
| LIST (left right : cmd T)
| BACK (c : cmd T).
Arguments EXEC {T} argv.
Arguments REDIR {T} c file mode fd.
Arguments PIPE {T} left right.
Arguments LIST {T} left right.
Arguments BACK {T} c.

(** A string is counted: from [t_q] up to, not including, [t_eq]. *)
Record token := mkToken { t_q : list Z; t_eq : list Z }.

Record redir (T : Type) := mkRedir { r_file : T; r_mode : Z; r_fd : Z }.
Arguments mkRedir {T} r_file r_mode r_fd.
Arguments r_file {T} r.
Arguments r_mode {T} r.
Arguments r_fd {T} r.

(** The constructors of sh.c. *)
Definition redircmd {T} (subcmd : cmd T) (file : T) (mode fd : Z) : cmd T := REDIR subcmd file mode fd.
Definition pipecmd {T} (left right : cmd T) : cmd T := PIPE left right.
Definition listcmd {T} (left right : cmd T) : cmd T := LIST left right.
Definition backcmd {T} (subcmd : cmd T) : cmd T := BACK subcmd.

(** Wrap a command in redirections, the first one innermost. *)
Definition with_redirs {T} (rs : list (redir T)) (c : cmd T) : cmd T :=
  foldl (fun c r => redircmd c (r_file r) (r_mode r) (r_fd r)) c rs.

(** ** Tokens *)

(** [while(s < es && strchr(whitespace, *s)) s++;] *)
Fixpoint skip_space (s : list Z) : list Z :=
  match s with
  | c :: s' => if strchr whitespace c then skip_space s' else s
  | [] => []
  end.

(** [while(s < es && !strchr(whitespace, *s) && !strchr(symbols, *s)) s++;] *)
Fixpoint skip_word (s : list Z) : list Z :=
  match s with
  | c :: s' => if negb (strchr whitespace c) && negb (strchr symbols c) then skip_word s' else s
  | [] => []
  end.

(** The switch of [gettoken]: the kind of token at [s], and its end. *)
Definition token_at (s : list Z) : Z * list Z :=
  match s with
  | [] => (0, s)
  | c :: s1 =>
      if c =? 0 then (0, s)
      else if strchr [CH_PIPE; CH_LPAREN; CH_RPAREN; CH_SEMI; CH_AMP; CH_LT] c then (c, s1)
      else if c =? CH_GT then
        match s1 with
        | d :: s2 => if d =? CH_GT then (CH_PLUS, s2) else (c, s1)
        | [] => (c, s1)
        end
      else (CH_a, skip_word s)
  end.

Abbreviation P := (M (list Z)).

Definition gettoken : P (Z * token) := fun ps =>
  let q := skip_space ps in
  let '(ret, eq) := token_at q in
  Ok (ret, mkToken q eq) (skip_space eq).

Definition peek (toks : list Z) : P bool := fun ps =>
  let s := skip_space ps in
  Ok (match s with c :: _ => negb (c =? 0) && strchr toks c | [] => false end) s.

(** ** Parsing

    Every turn of a loop, and every recursive call below a ';', a '|' or a '(', has moved
    the pointer past a token, so the number of characters left bounds both. *)

Definition here : P nat := gets length.

Fixpoint redirs_loop (fuel : nat) (rs : list (redir token)) : P (list (redir token)) :=
  match fuel with
  | O => block
  | S fuel =>
      b ← peek [CH_LT; CH_GT];
      if (b : bool) then
        x ← gettoken;
        y ← gettoken;
        let tok := fst x in
        let t := snd y in
        if negb (fst y =? CH_a) then panic "missing file for redirection" else
        if tok =? CH_LT then redirs_loop fuel (rs ++ [mkRedir t O_RDONLY 0])
        else if tok =? CH_GT then
          redirs_loop fuel (rs ++ [mkRedir t (Z.lor (Z.lor O_WRONLY O_CREATE) O_TRUNC) 1])
        else if tok =? CH_PLUS then redirs_loop fuel (rs ++ [mkRedir t (Z.lor O_WRONLY O_CREATE) 1])
        else redirs_loop fuel rs
      else mret rs
  end.

(** The redirections at the pointer, after those in [rs]. *)
Definition parseredirs (rs : list (redir token)) : P (list (redir token)) :=
  n ← here; redirs_loop (S n) rs.

(** The loop of [parseexec]; [argv] are the arguments stored so far. *)
Fixpoint args_loop (fuel : nat) (argv : list token) (rs : list (redir token)) : P (cmd token) :=
  match fuel with
  | O => block
  | S fuel =>
      b ← peek [CH_PIPE; CH_RPAREN; CH_AMP; CH_SEMI];
      if (b : bool) then mret (with_redirs rs (EXEC argv)) else
      x ← gettoken;
      let tok := fst x in
      let t := snd x in
      if tok =? 0 then mret (with_redirs rs (EXEC argv)) else
      if negb (tok =? CH_a) then panic "syntax" else
      let argv := argv ++ [t] in
      if (MAXARGS <=? length argv)%nat then panic "too many args" else
      rs ← parseredirs rs;
      args_loop fuel argv rs
  end.

(** [while(peek(ps, es, "&"))] of [parseline]. *)
Fixpoint back_loop (fuel : nat) (c : cmd token) : P (cmd token) :=
  match fuel with
  | O => block
  | S fuel =>
      b ← peek [CH_AMP];
      if (b : bool) then gettoken;; back_loop fuel (backcmd c) else mret c
  end.

Fixpoint parseline (fuel : nat) : P (cmd token) :=
  match fuel with
  | O => block
  | S fuel =>
      c ← parsepipe fuel;
      n ← here;
      c ← back_loop (S n) c;
      b ← peek [CH_SEMI];
      if (b : bool) then gettoken;; r ← parseline fuel; mret (listcmd c r) else mret c
  end
with parsepipe (fuel : nat) : P (cmd token) :=
  match fuel with
  | O => block
  | S fuel =>
      c ← parseexec fuel;
      b ← peek [CH_PIPE];
      if (b : bool) then gettoken;; r ← parsepipe fuel; mret (pipecmd c r) else mret c
  end
with parseexec (fuel : nat) : P (cmd token) :=
  match fuel with
  | O => block
  | S fuel =>
      b ← peek [CH_LPAREN];
      if (b : bool) then parseblock fuel else
      rs ← parseredirs [];
      n ← here;
      args_loop (S n) [] rs
  end
with parseblock (fuel : nat) : P (cmd token) :=
  match fuel with
  | O => block
  | S fuel =>
      b ← peek [CH_LPAREN];
      if negb b then panic "parseblock" else
      gettoken;;
      c ← parseline fuel;
      b ← peek [CH_RPAREN];
      if negb b then panic "syntax - missing )" else
      gettoken;;
      rs ← parseredirs [];
      mret (with_redirs rs c)
  end.

(** A level of nesting takes four calls and at least one character. *)
Definition parse_fuel (s : list Z) : nat := 4 * length s + 4.

(** ** Terminating the strings

    The command line in memory is its characters and a NUL; [nulterminate] stores a NUL at
    the end of each counted string. *)

Abbreviation Buf := (M (list Z)).

Definition store_nul (n : nat) (eq : list Z) : Buf unit :=
  modify (fun buf => <[(n - length eq)%nat := 0]> buf).

(** [n] is the length of the line: a pointer with [k] characters left is at [n - k]. *)
Fixpoint nulterminate (n : nat) (c : cmd token) : Buf unit :=
  match c with
  | EXEC argv => for_each argv (fun t => store_nul n (t_eq t))
  | REDIR c t _ _ => nulterminate n c;; store_nul n (t_eq t)
  | PIPE l r => nulterminate n l;; nulterminate n r
  | LIST l r => nulterminate n l;; nulterminate n r
  | BACK c => nulterminate n c
  end.

(** [parsecmd(s)]: the command and the line in memory afterwards. *)
Definition parsecmd (s : list Z) : res (list Z) (cmd token) :=
  match (c ← parseline (parse_fuel s); peek [];; mret c) s with
  | Ok c ps =>
      if negb (length ps =? 0)%nat then Panic "syntax" ps else
      match nulterminate (length s) c (s ++ [0]) with
      | Ok _ buf => Ok c buf
      | Panic msg buf => Panic msg buf
      | Blocked buf => Blocked buf
      end
  | Panic msg ps => Panic msg ps
  | Blocked ps => Blocked ps
  end.

(** The C string at a pointer. *)
Fixpoint until_nul (l : list Z) : list Z :=
  match l with c :: l => if c =? 0 then [] else c :: until_nul l | [] => [] end.
Definition string_at (n : nat) (buf : list Z) (p : list Z) : list Z :=
  until_nul (drop (n - length p) buf).
