(* ===== verification/ShellTheorems.v ===== *)
(** * Theorems about the shell's parser

    The parser returns a command or one of its error messages for every line; the commands
    fit the fixed arrays and point to words of the line, which [nulterminate] turns into C
    strings; and the parser inverts a printer of commands. *)

From stdpp Require Import base gmap list strings.
From Stdlib Require Import ZArith Lia.
From S2P Require Import Prelude Shell.

#[local] Set Warnings "-clear-no-such-hyp".
#[local] Arguments strchr : simpl never.

(** ** Pointers *)

Definition word_char (c : Z) : bool :=
  negb (strchr whitespace c) && negb (strchr symbols c) && negb (c =? 0).

Lemma skip_space_suffix s : skip_space s `suffix_of` s.
Proof.
  induction s as [|c s IH]; cbn; [done|].
  destruct (strchr whitespace c); [by apply suffix_cons_r|done].
Qed.

Lemma skip_space_idem s : skip_space (skip_space s) = skip_space s.
Proof.
  induction s as [|c s IH]; cbn; [done|]. destruct (strchr whitespace c) eqn:Hc; [done|].
  cbn. by rewrite Hc.
Qed.

Lemma skip_space_head s c r : skip_space s = c :: r -> strchr whitespace c = false.
Proof.
  induction s as [|d s IH]; cbn; [done|]. destruct (strchr whitespace d) eqn:Hd; [done|].
  by intros [= <- <-].
Qed.

(** A word: the characters before the next blank or symbol. *)
Lemma skip_word_split s : exists w, s = w ++ skip_word s /\
  Forall (fun c => strchr whitespace c = false /\ strchr symbols c = false) w /\
  (skip_word s = [] \/ exists c r, skip_word s = c :: r /\
     (strchr whitespace c = true \/ strchr symbols c = true)).
Proof.
  induction s as [|c s (w & H1 & H2 & H3)]; cbn.
  - exists []. auto.
  - destruct (strchr whitespace c) eqn:Hw; cbn; [exists []; eauto 10|].
    destruct (strchr symbols c) eqn:Hs; cbn; [exists []; eauto 10|].
    exists (c :: w). cbn. split; [by f_equal|]. auto.
Qed.

Lemma suffix_length_le {A} (l k : list A) : l `suffix_of` k -> (length l <= length k)%nat.
Proof. apply suffix_length. Qed.

(** ** Tokens *)

(** A counted string of the line [s]: a nonempty word, up to a blank, a symbol or the end. *)
Record tok_ok (s : list Z) (t : token) : Prop := {
  tk_in : t_q t `suffix_of` s;
  tk_word : exists w, t_q t = w ++ t_eq t /\ w <> [] /\
    Forall (fun c => strchr whitespace c = false /\ strchr symbols c = false) w;
  tk_end : t_eq t = [] \/ exists c r, t_eq t = c :: r /\
    (strchr whitespace c = true \/ strchr symbols c = true)
}.

Lemma tok_ok_mono s s' t : s' `suffix_of` s -> tok_ok s' t -> tok_ok s t.
Proof. intros H [H1 H2 H3]. split; [by etransitivity|done|done]. Qed.

(** A character of one of the cases of [gettoken]'s switch. *)
Lemma symbol_cases c : strchr symbols c = false <->
  strchr [CH_PIPE; CH_LPAREN; CH_RPAREN; CH_SEMI; CH_AMP; CH_LT] c = false /\ (c =? CH_GT) = false.
Proof.
  unfold strchr, symbols. cbn [existsb].
  destruct (c =? CH_LT), (c =? CH_PIPE), (c =? CH_GT), (c =? CH_AMP), (c =? CH_SEMI),
    (c =? CH_LPAREN), (c =? CH_RPAREN); cbn; naive_solver.
Qed.

(** What [gettoken] does at a character that is not a blank. *)
Lemma token_at_spec s ret eq : token_at s = (ret, eq) ->
  match s with [] => True | c :: _ => strchr whitespace c = false end ->
  eq `suffix_of` s /\ (ret <> 0 -> (length eq < length s)%nat) /\
  (ret = CH_a -> tok_ok s (mkToken s eq)).
Proof.
  destruct s as [|c s1]; cbn [token_at].
  { intros [= <- <-] _. split; [done|]. split; [done|done]. }
  intros Ht Hw. destruct (c =? 0) eqn:H0.
  { injection Ht as <- <-. split; [done|]. split; [done|done]. }
  destruct (strchr _ c) eqn:Hs.
  { injection Ht as <- <-. split; [by apply suffix_cons_r|]. split; [cbn; lia|].
    intros ->. done. }
  destruct (c =? CH_GT) eqn:Hg.
  { destruct s1 as [|d s2].
    - injection Ht as <- <-. split; [by apply suffix_cons_r|]. split; [cbn; lia|]. intros ->. done.
    - destruct (d =? CH_GT); injection Ht as <- <-.
      + split; [by do 2 apply suffix_cons_r|]. split; [cbn; lia|done].
      + split; [by apply suffix_cons_r|]. split; [cbn; lia|]. intros ->. done. }
  assert (Hsym : strchr symbols c = false) by (by apply symbol_cases).
  destruct (skip_word_split s1) as (w & H1 & H2 & H3). cbn [skip_word] in Ht. rewrite Hw, Hsym in Ht.
  cbn in Ht. injection Ht as <- <-.
  assert (Hsuf : skip_word s1 `suffix_of` s1) by (exists w; done).
  split; [by apply suffix_cons_r|]. split.
  - intros _. apply suffix_length in Hsuf. cbn. lia.
  - intros _. split; cbn; [done| |done]. exists (c :: w). cbn. split; [by f_equal|]. split; [done|].
    constructor; auto.
Qed.

Lemma gettoken_spec ps : exists ret t ps', gettoken ps = Ok (ret, t) ps' /\ ps' `suffix_of` ps /\
  (ret <> 0 -> (length ps' < length ps)%nat) /\ (ret = CH_a -> tok_ok ps t).
Proof.
  unfold gettoken. destruct (token_at (skip_space ps)) as [ret eq] eqn:Ht.
  pose proof (skip_space_suffix ps) as Hs. pose proof (skip_space_suffix eq) as He.
  destruct (token_at_spec _ _ _ Ht) as (H1 & H2 & H3).
  { destruct (skip_space ps) eqn:Hp; [done|]. by eapply skip_space_head. }
  exists ret, (mkToken (skip_space ps) eq), (skip_space eq). split; [done|]. split.
  { etransitivity; [done|]. by etransitivity. }
  apply suffix_length in Hs, He. split; [intros H; specialize (H2 H); lia|].
  intros H. eapply tok_ok_mono; [apply skip_space_suffix|auto].
Qed.

Lemma peek_spec toks ps : exists b, peek toks ps = Ok b (skip_space ps) /\
  (b = true -> exists c r, skip_space ps = c :: r /\ c <> 0 /\ strchr toks c = true).
Proof.
  unfold peek. eexists. split; [done|]. destruct (skip_space ps) as [|c r]; [done|].
  intros [H1 H2]%andb_prop. exists c, r. split; [done|]. split; [|done].
  apply negb_true_iff, Z.eqb_neq in H1. done.
Qed.

(** After a [peek] that succeeds, [gettoken] moves on. *)
Lemma peeked_gettoken toks ps : peek toks ps = Ok true (skip_space ps) ->
  (forall c, strchr toks c = true -> strchr symbols c = true) ->
  exists ret t ps', gettoken (skip_space ps) = Ok (ret, t) ps' /\ ps' `suffix_of` ps /\
    (length ps' < length ps)%nat.
Proof.
  intros Hp Hsub. destruct (peek_spec toks ps) as (b & Hb & Hc). rewrite Hb in Hp. injection Hp as ->.
  destruct (Hc eq_refl) as (c & r & Hps & H0 & Hin).
  destruct (gettoken_spec (skip_space ps)) as (ret & t & ps' & Hg & Hs & Hlt & _).
  exists ret, t, ps'. split; [done|]. pose proof (skip_space_suffix ps) as Hs'.
  split; [by etransitivity|]. apply suffix_length in Hs'.
  enough (ret <> 0) by (specialize (Hlt H); lia).
  unfold gettoken in Hg. rewrite skip_space_idem, Hps in Hg. cbn [token_at] in Hg.
  rewrite (proj2 (Z.eqb_neq c 0)) in Hg by done.
  destruct (strchr _ c) eqn:E1 in Hg; [by injection Hg as <- _ _|].
  destruct (c =? CH_GT) eqn:E2.
  - destruct r as [|d r']; [by injection Hg as <- _ _|]. destruct (d =? CH_GT); by injection Hg as <- _ _.
  - assert (strchr symbols c = false) by (by apply symbol_cases). rewrite Hsub in H by done. done.
Qed.

(** ** Every line is parsed or refused *)

(** The messages with which the parser can refuse a line. *)
Definition shell_errors : list string :=
  ["missing file for redirection"; "syntax"; "too many args"; "syntax - missing )"]%string.

(** A command whose strings satisfy [Q], whose argument lists fit their arrays with the
    final null pointer, and whose redirections are of the three kinds. *)
Definition redir_ok {T} (Q : T -> Prop) (r : redir T) : Prop :=
  Q (r_file r) /\ (r_mode r, r_fd r) ∈ [(0, 0); (0x601, 1); (0x201, 1)].

Fixpoint cmd_ok {T} (Q : T -> Prop) (c : cmd T) : Prop :=
  match c with
  | EXEC argv => Forall Q argv /\ (length argv < MAXARGS)%nat
  | REDIR c f m d => cmd_ok Q c /\ redir_ok Q (mkRedir f m d)
  | PIPE l r | LIST l r => cmd_ok Q l /\ cmd_ok Q r
  | BACK c => cmd_ok Q c
  end.

Lemma with_redirs_ok {T} (Q : T -> Prop) rs c :
  cmd_ok Q c -> Forall (redir_ok Q) rs -> cmd_ok Q (with_redirs rs c).
Proof.
  intros Hc Hr. revert c Hc. induction Hr as [|r rs Hr _ IH]; intros c Hc; [done|].
  cbn. apply IH. cbn. split; [done|]. by destruct r.
Qed.

Lemma redir_snoc {T} (Q : T -> Prop) rs t m d : Forall (redir_ok Q) rs -> Q t ->
  (m, d) ∈ [(0, 0); (0x601, 1); (0x201, 1)] -> Forall (redir_ok Q) (rs ++ [mkRedir t m d]).
Proof. intros H1 H2 H3. apply Forall_app. split; [done|]. by apply Forall_singleton. Qed.

(** [m] returns a result that satisfies [Q], or one of the errors. *)
Definition parses {A} (m : P A) (Q : A -> list Z -> Prop) (ps : list Z) : Prop :=
  wpx (fun msg _ => msg ∈ shell_errors) (fun _ => False) m Q ps.

#[local] Ltac refused := apply wpx_panic; unfold shell_errors; set_solver.

Section Total.
Context (s : list Z).

Let tok := tok_ok s.

Lemma parses_peek {B} toks (k : bool -> P B) Q ps :
  (forall b, peek toks ps = Ok b (skip_space ps) -> parses (k b) Q (skip_space ps)) ->
  parses (peek toks ≫= k) Q ps.
Proof.
  intros H. apply wpx_bind. destruct (peek_spec toks ps) as (b & Hb & _).
  eapply wp_of_run; [exact Hb|]. by apply H.
Qed.

Lemma parses_here {B} (k : nat -> P B) Q ps : parses (k (length ps)) Q ps -> parses (here ≫= k) Q ps.
Proof. done. Qed.

(** A token, anywhere. *)
Lemma parses_gettoken {B} (k : Z * token -> P B) Q ps : ps `suffix_of` s ->
  (forall ret t ps', ps' `suffix_of` ps -> (ret <> 0 -> (length ps' < length ps)%nat) ->
     (ret = CH_a -> tok t) -> parses (k (ret, t)) Q ps') ->
  parses (gettoken ≫= k) Q ps.
Proof.
  intros Hs H. apply wpx_bind. destruct (gettoken_spec ps) as (ret & t & ps' & Hg & H1 & H2 & H3).
  eapply wp_of_run; [exact Hg|]. apply H; [done|done|]. intros Ha. eapply tok_ok_mono; [done|auto].
Qed.

(** A token that was peeked at. *)
Lemma parses_peeked {B} toks (k : Z * token -> P B) Q ps :
  peek toks ps = Ok true (skip_space ps) -> (forall c, strchr toks c = true -> strchr symbols c = true) ->
  (forall x ps', ps' `suffix_of` ps -> (length ps' < length ps)%nat -> parses (k x) Q ps') ->
  parses (gettoken ≫= k) Q (skip_space ps).
Proof.
  intros Hp Hsub H. apply wpx_bind.
  destruct (peeked_gettoken toks ps Hp Hsub) as (ret & t & ps' & Hg & H1 & H2).
  eapply wp_of_run; [exact Hg|]. by apply H.
Qed.

Lemma symbols_sub toks : forallb (fun c => strchr symbols c) toks = true ->
  forall c, strchr toks c = true -> strchr symbols c = true.
Proof.
  intros Hf c Hc. apply existsb_exists in Hc as (x & Hx & ->%Z.eqb_eq).
  rewrite forallb_forall in Hf. by apply Hf.
Qed.

Lemma parses_mono {A} (m : P A) Q Q' ps : parses m Q ps -> (forall a ps', Q a ps' -> Q' a ps') ->
  parses m Q' ps.
Proof. apply wpx_mono. Qed.

Lemma redirs_loop_total fuel rs ps : (length ps < fuel)%nat -> ps `suffix_of` s ->
  Forall (redir_ok tok) rs ->
  parses (redirs_loop fuel rs) (fun rs' ps' => Forall (redir_ok tok) rs' /\ ps' `suffix_of` ps) ps.
Proof.
  revert rs ps. induction fuel as [|fuel IH]; intros rs ps Hf Hs Hrs; [lia|]. cbn [redirs_loop].
  pose proof (skip_space_suffix ps) as Hss.
  apply parses_peek. intros [|] Hp; [|done].
  eapply parses_peeked; [exact Hp|by apply symbols_sub|]. intros [ret1 t1] ps1 H1 L1.
  apply parses_gettoken; [by etransitivity|]. intros ret t ps2 H2 L2 Ht. cbn [fst snd].
  destruct (ret =? CH_a) eqn:Ha; cbn [negb]; [|refused].
  apply Z.eqb_eq in Ha. specialize (Ht Ha). apply suffix_length in H2 as L2'.
  assert (Hps2 : ps2 `suffix_of` ps) by (by etransitivity).
  assert (Hgo : forall rs', Forall (redir_ok tok) rs' -> parses (redirs_loop fuel rs')
    (fun rs' ps' => Forall (redir_ok tok) rs' /\ ps' `suffix_of` ps) ps2).
  { intros rs' Hrs'. eapply parses_mono; [apply IH; [lia|by etransitivity|done]|].
    intros rs'' ps' [H H']. split; [done|]. by etransitivity. }
  repeat case_match; apply Hgo; try done; apply redir_snoc; try done;
    apply list_elem_of_In; vm_compute; auto.
Qed.

Lemma parseredirs_total rs ps : ps `suffix_of` s -> Forall (redir_ok tok) rs ->
  parses (parseredirs rs) (fun rs' ps' => Forall (redir_ok tok) rs' /\ ps' `suffix_of` ps) ps.
Proof. intros Hs Hrs. apply parses_here, redirs_loop_total; [lia|done|done]. Qed.

Lemma args_loop_total fuel argv rs ps : (length ps < fuel)%nat -> ps `suffix_of` s ->
  Forall tok argv -> (length argv < MAXARGS)%nat -> Forall (redir_ok tok) rs ->
  parses (args_loop fuel argv rs) (fun c ps' => cmd_ok tok c /\ ps' `suffix_of` ps) ps.
Proof.
  revert argv rs ps. induction fuel as [|fuel IH]; intros argv rs ps Hf Hs Hargv Hlen Hrs; [lia|].
  cbn [args_loop]. pose proof (skip_space_suffix ps) as Hss.
  assert (Hdone : forall ps', ps' `suffix_of` ps ->
    parses (mret (with_redirs rs (EXEC argv))) (fun c ps' => cmd_ok tok c /\ ps' `suffix_of` ps) ps').
  { intros ps' H. split; [|done]. by apply with_redirs_ok. }
  apply parses_peek. intros [|] Hp; [by apply Hdone|].
  apply parses_gettoken; [by etransitivity|]. intros ret t ps1 H1 L1 Ht. cbn [fst snd].
  assert (Hps1 : ps1 `suffix_of` ps) by (by etransitivity). apply suffix_length in Hss as Lss.
  destruct (ret =? 0) eqn:H0; [by apply Hdone|]. apply Z.eqb_neq in H0. specialize (L1 H0).
  destruct (ret =? CH_a) eqn:Ha; cbn [negb]; [|refused]. apply Z.eqb_eq in Ha. specialize (Ht Ha).
  destruct (_ <=? _)%nat eqn:Hmax; [refused|]. apply Nat.leb_gt in Hmax.
  apply wpx_bind. eapply parses_mono; [apply parseredirs_total; [by etransitivity|done]|].
  intros rs' ps2 [Hrs' H2]. apply suffix_length in H2 as L2.
  eapply parses_mono; [apply IH; [lia|do 2 (etransitivity; [done|]); done| |done|done]|].
  - apply Forall_app. split; [done|]. by apply Forall_singleton.
  - intros c ps' [H H']. split; [done|]. by do 2 (etransitivity; [done|]).
Qed.

Lemma back_loop_total fuel c ps : (length ps < fuel)%nat -> ps `suffix_of` s -> cmd_ok tok c ->
  parses (back_loop fuel c) (fun c ps' => cmd_ok tok c /\ ps' `suffix_of` ps) ps.
Proof.
  revert c ps. induction fuel as [|fuel IH]; intros c ps Hf Hs Hc; [lia|]. cbn [back_loop].
  pose proof (skip_space_suffix ps) as Hss. apply parses_peek. intros [|] Hp; [|done].
  eapply parses_peeked; [exact Hp|by apply symbols_sub|]. intros _ ps1 H1 L1.
  eapply parses_mono; [apply IH; [lia|by etransitivity|done]|].
  intros c' ps' [H H']. split; [done|]. by etransitivity.
Qed.

(** The mutual recursion: the fuel of each function at a pointer with [n] characters left. *)
Lemma parse_total fuel :
  (forall ps, ps `suffix_of` s -> (4 * length ps + 4 <= fuel)%nat ->
     parses (parseline fuel) (fun c ps' => cmd_ok tok c /\ ps' `suffix_of` ps) ps) /\
  (forall ps, ps `suffix_of` s -> (4 * length ps + 3 <= fuel)%nat ->
     parses (parsepipe fuel) (fun c ps' => cmd_ok tok c /\ ps' `suffix_of` ps) ps) /\
  (forall ps, ps `suffix_of` s -> (4 * length ps + 2 <= fuel)%nat ->
     parses (parseexec fuel) (fun c ps' => cmd_ok tok c /\ ps' `suffix_of` ps) ps) /\
  (forall ps, ps `suffix_of` s -> (4 * length ps + 1 <= fuel)%nat ->
     peek [CH_LPAREN] ps = Ok true (skip_space ps) ->
     parses (parseblock fuel) (fun c ps' => cmd_ok tok c /\ ps' `suffix_of` ps) ps).
Proof.
  induction fuel as [|fuel (IHl & IHp & IHe & IHb)]; [repeat split; intros; lia|].
  split; [|split; [|split]]; intros ps Hs Hf.
  - cbn [parseline]. apply wpx_bind. eapply parses_mono; [apply IHp; [done|lia]|].
    intros c ps1 [Hc H1]. apply suffix_length in H1 as L1. apply parses_here.
    apply wpx_bind. eapply parses_mono; [apply back_loop_total; [lia|by etransitivity|done]|].
    intros c2 ps2 [Hc2 H2]. apply suffix_length in H2 as L2. pose proof (skip_space_suffix ps2) as Hss.
    assert (Hps2 : ps2 `suffix_of` ps) by (by etransitivity).
    apply parses_peek. intros [|] Hp; [|split; [done|by etransitivity]].
    eapply parses_peeked; [exact Hp|by apply symbols_sub|]. intros _ ps3 H3 L3. apply wpx_bind.
    eapply parses_mono; [apply IHl; [by do 2 (etransitivity; [done|])|lia]|].
    intros c3 ps4 [Hc3 H4]. split; [done|]. by do 2 (etransitivity; [done|]).
  - cbn [parsepipe]. apply wpx_bind. eapply parses_mono; [apply IHe; [done|lia]|].
    intros c ps1 [Hc H1]. apply suffix_length in H1 as L1. pose proof (skip_space_suffix ps1) as Hss.
    apply parses_peek. intros [|] Hp; [|split; [done|by etransitivity]].
    eapply parses_peeked; [exact Hp|by apply symbols_sub|]. intros _ ps3 H3 L3. apply wpx_bind.
    eapply parses_mono; [apply IHp; [by do 2 (etransitivity; [done|])|lia]|].
    intros c3 ps4 [Hc3 H4]. split; [done|]. by do 2 (etransitivity; [done|]).
  - cbn [parseexec]. pose proof (skip_space_suffix ps) as Hss. apply suffix_length in Hss as Lss.
    apply parses_peek. intros [|] Hp.
    + eapply parses_mono; [apply IHb; [by etransitivity|lia|]|].
      * unfold peek in Hp |- *. rewrite skip_space_idem. congruence.
      * intros c ps' [H H']. split; [done|]. by etransitivity.
    + apply wpx_bind. eapply parses_mono; [apply parseredirs_total; [by etransitivity|done]|].
      intros rs ps1 [Hrs H1]. apply parses_here. apply suffix_length in H1 as L1.
      eapply parses_mono; [apply args_loop_total; [lia|by do 2 (etransitivity; [done|])|done|cbn; unfold MAXARGS; lia|done]|].
      intros c ps' [H H']. split; [done|]. by do 2 (etransitivity; [done|]).
  - intros Hp. cbn [parseblock]. apply parses_peek. intros b Hb.
    assert (b = true) as -> by congruence. cbn [negb].
    eapply parses_peeked; [exact Hp|by apply symbols_sub|]. intros _ ps1 H1 L1. apply wpx_bind.
    eapply parses_mono; [apply IHl; [by etransitivity|lia]|].
    intros c ps2 [Hc H2]. apply suffix_length in H2 as L2. apply parses_peek. intros [|] Hp2; cbn [negb]; [|refused].
    eapply parses_peeked; [exact Hp2|by apply symbols_sub|]. intros _ ps3 H3 L3. apply wpx_bind.
    eapply parses_mono; [apply parseredirs_total; [by do 3 (etransitivity; [done|])|done]|].
    intros rs ps4 [Hrs H4]. split; [by apply with_redirs_ok|]. by do 3 (etransitivity; [done|]).
Qed.

End Total.

(** ** The strings of a command *)

Fixpoint tokens {T} (c : cmd T) : list T :=
  match c with
  | EXEC argv => argv
  | REDIR c f _ _ => tokens c ++ [f]
  | PIPE l r | LIST l r => tokens l ++ tokens r
  | BACK c => tokens c
  end.

(** The characters of a counted string. *)
Definition text (t : token) : list Z := take (length (t_q t) - length (t_eq t)) (t_q t).

Lemma cmd_ok_tokens {T} (Q : T -> Prop) (c : cmd T) : cmd_ok Q c -> Forall Q (tokens c).
Proof.
  induction c as [argv|c IH f m d|l IHl r IHr|l IHl r IHr|c IH]; cbn.
  - by intros [].
  - intros [H1 [H2 _]]. apply Forall_app. split; [auto|]. by apply Forall_singleton.
  - intros [H1 H2]. apply Forall_app. auto.
  - intros [H1 H2]. apply Forall_app. auto.
  - done.
Qed.

Definition ends (n : nat) (ts : list token) : list nat :=
  (fun t => (n - length (t_eq t))%nat) <$> ts.

Definition store_all (idx : list nat) (buf : list Z) : list Z :=
  foldl (fun buf i => <[i := 0]> buf) buf idx.

Lemma store_args_run n argv buf :
  for_each argv (fun t => store_nul n (t_eq t)) buf = Ok tt (store_all (ends n argv) buf).
Proof.
  revert buf. induction argv as [|t argv IH]; intros buf; [done|]. cbn [for_each].
  rewrite (run_bind _ _ _ tt (<[(n - length (t_eq t))%nat := 0]> buf)) by done. apply IH.
Qed.

Lemma nulterminate_run n c buf : nulterminate n c buf = Ok tt (store_all (ends n (tokens c)) buf).
Proof.
  revert buf. induction c as [argv|c IH f m d|l IHl r IHr|l IHl r IHr|c IH]; intros buf; cbn.
  - apply store_args_run.
  - rewrite (run_bind _ _ _ _ _ (IH buf)). unfold ends, store_all. by rewrite fmap_app, foldl_app.
  - rewrite (run_bind _ _ _ _ _ (IHl buf)), IHr. unfold ends, store_all. by rewrite fmap_app, foldl_app.
  - rewrite (run_bind _ _ _ _ _ (IHl buf)), IHr. unfold ends, store_all. by rewrite fmap_app, foldl_app.
  - apply IH.
Qed.

Lemma store_all_lookup idx buf i :
  store_all idx buf !! i = if decide (i ∈ idx) then (fun _ => 0) <$> buf !! i else buf !! i.
Proof.
  revert buf. induction idx as [|j idx IH]; intros buf; [done|].
  change (store_all (j :: idx) buf) with (store_all idx (<[j := 0]> buf)). rewrite IH. destruct (decide (i = j)) as [->|Hne].
  - rewrite (decide_True (P := j ∈ j :: idx)) by set_solver.
    destruct (decide (j < length buf)%nat) as [Hj|Hj].
    + rewrite list_lookup_insert_eq by done.
      destruct (lookup_lt_is_Some_2 buf j Hj) as [x ->]. by case_decide.
    + rewrite list_insert_ge by lia. rewrite (lookup_ge_None_2 buf j) by lia. by case_decide.
  - rewrite list_lookup_insert_ne by done. repeat case_decide; set_solver.
Qed.

Lemma length_store_all idx buf : length (store_all idx buf) = length buf.
Proof.
  revert buf. induction idx as [|j idx IH]; intros buf; [done|].
  change (store_all (j :: idx) buf) with (store_all idx (<[j := 0]> buf)). by rewrite IH, length_insert.
Qed.

Lemma until_nul_app w r : Forall (fun c => c <> 0) w -> until_nul (w ++ 0 :: r) = w.
Proof.
  induction 1 as [|c w Hc _ IH]; cbn; [done|]. rewrite (proj2 (Z.eqb_neq c 0)) by done. by f_equal.
Qed.

(** The place where a string ends holds no character of a word. *)
Lemma end_not_word s t i c : tok_ok s t -> s !! i = Some c ->
  strchr whitespace c = false -> strchr symbols c = false -> i <> (length s - length (t_eq t))%nat.
Proof.
  intros [[pre Hq] (w & Hw & _) He] Hi H1 H2 ->. rewrite Hw, app_assoc in Hq.
  assert (Hn : (length s - length (t_eq t))%nat = length (pre ++ w)).
  { rewrite Hq, length_app. lia. }
  rewrite Hn, Hq, lookup_app_r, Nat.sub_diag in Hi by lia.
  destruct He as [He|(d & r & He & Hd)]; rewrite He in Hi; [done|]. cbn in Hi.
  injection Hi as ->. destruct Hd; congruence.
Qed.

Lemma text_app q w eq : q = w ++ eq -> text (mkToken q eq) = w.
Proof. intros ->. unfold text. cbn. rewrite length_app, Nat.add_sub. by rewrite take_app_length. Qed.

(** Terminating the strings of a command gives each of them back as a C string. *)
Lemma terminated s ts t : Forall (tok_ok s) ts -> t ∈ ts -> Forall (fun c => c <> 0) s ->
  string_at (length s) (store_all (ends (length s) ts) (s ++ [0])) (t_q t) = text t.
Proof.
  intros Hts Ht H0. pose proof (proj1 (Forall_forall _ _) Hts t Ht) as Htok.
  destruct Htok as [[pre Hq] (w & Hw & _ & Hch) He].
  destruct t as [q eq]. cbn [t_q t_eq] in *. rewrite (text_app q w eq) by done.
  unfold string_at. set (buf := store_all _ _).
  assert (Hp : (length s - length q)%nat = length pre) by (rewrite Hq, length_app; lia).
  assert (Hbuf : drop (length pre) buf = w ++ 0 :: drop (S (length (pre ++ w))) buf).
  { assert (Hlen : length buf = S (length s)).
    { unfold buf. rewrite length_store_all, length_app. cbn. lia. }
    apply list_eq. intros j. rewrite lookup_drop.
    destruct (decide (j < length w)%nat) as [Hj|Hj].
    - rewrite lookup_app_l by done. unfold buf. rewrite store_all_lookup.
      destruct (lookup_lt_is_Some_2 w j Hj) as [c Hc]. rewrite Hc.
      assert (Hs : s !! (length pre + j)%nat = Some c).
      { rewrite Hq, Hw, lookup_app_r by lia.
        rewrite lookup_app_l by lia. by replace (length pre + j - length pre)%nat with j by lia. }
      pose proof (proj1 (Forall_lookup _ _) Hch j c Hc) as [C1 C2].
      rewrite decide_False.
      + rewrite lookup_app_l; [done|]. by eapply lookup_lt_Some.
      + intros (t' & Hi & Ht')%list_elem_of_fmap. pose proof (proj1 (Forall_forall _ _) Hts t' Ht') as Htok'.
        by eapply (end_not_word s t' _ c Htok' Hs C1 C2).
    - rewrite lookup_app_r by lia. destruct (decide (j = length w)) as [->|Hne].
      + rewrite Nat.sub_diag. cbn. unfold buf. rewrite store_all_lookup, decide_True.
        2:{ apply list_elem_of_fmap. exists (mkToken q eq). split; [|done]. cbn.
            rewrite Hq, Hw, !length_app. lia. }
        assert (Hin : (length pre + length w < length (s ++ [0%Z]))%nat).
        { rewrite Hq, Hw, !length_app. cbn. lia. }
        destruct (lookup_lt_is_Some_2 _ _ Hin) as [x ->]. done.
      + replace (j - length w)%nat with (S (j - length w - 1)) by lia.
        change ((0 :: drop (S (length (pre ++ w))) buf) !! S (j - length w - 1)%nat)
          with (drop (S (length (pre ++ w))) buf !! (j - length w - 1)%nat).
        rewrite lookup_drop. f_equal. rewrite length_app. lia. }
  rewrite Hp, Hbuf. apply until_nul_app.
  rewrite Hq, Hw in H0. apply Forall_app in H0 as [_ H0]. by apply Forall_app in H0 as [H0 _].
Qed.

(** [parsecmd] in terms of its parts. *)
Lemma parsecmd_cases s :
  match parsecmd s with
  | Ok c buf => cmd_ok (tok_ok s) c /\ buf = store_all (ends (length s) (tokens c)) (s ++ [0])
  | Panic msg _ => msg ∈ shell_errors
  | Blocked _ => False
  end.
Proof.
  unfold parsecmd. destruct (parse_total s (parse_fuel s)) as [Hl _].
  specialize (Hl s ltac:(done) ltac:(unfold parse_fuel; lia)). unfold parses, wpx in Hl.
  unfold mbind, M_bind. destruct (parseline (parse_fuel s) s) as [c ps| |]; [|done|done]. cbn.
  destruct Hl as [Hc _]. destruct (negb _); [unfold shell_errors; set_solver|].
  rewrite nulterminate_run. done.
Qed.

(** ** A printer of commands

    Every token is followed by a blank; a command is put in parentheses where the grammar
    needs a tighter one. *)

Definition word (w : list Z) : list Z := w ++ [CH_SPACE].
Definition sym (c : Z) : list Z := [c; CH_SPACE].
Definition parens (l : list Z) : list Z := sym CH_LPAREN ++ l ++ sym CH_RPAREN.

Definition print_redir (r : redir (list Z)) : list Z :=
  (if r_fd r =? 0 then sym CH_LT
   else if r_mode r =? 0x601 then sym CH_GT else [CH_GT; CH_GT; CH_SPACE]) ++ word (r_file r).

(** How tightly a command binds: 0 a simple command, 1 a pipeline, 2 a background command,
    3 a list. *)
Definition level {T} (c : cmd T) : nat :=
  match c with EXEC _ | REDIR _ _ _ _ => 0 | PIPE _ _ => 1 | BACK _ => 2 | LIST _ _ => 3 end.

Definition print_at (print : cmd (list Z) -> list Z) (l : nat) (c : cmd (list Z)) : list Z :=
  if (level c <=? l)%nat then print c else parens (print c).

Fixpoint print (c : cmd (list Z)) : list Z :=
  match c with
  | EXEC argv => concat (word <$> argv)
  | REDIR c f m d => print_at print 0 c ++ print_redir (mkRedir f m d)
  | PIPE l r => print_at print 0 l ++ sym CH_PIPE ++ print_at print 1 r
  | BACK c => print_at print 2 c ++ sym CH_AMP
  | LIST l r => print_at print 2 l ++ sym CH_SEMI ++ print r
  end.

Fixpoint cmd_map {T U} (f : T -> U) (c : cmd T) : cmd U :=
  match c with
  | EXEC argv => EXEC (f <$> argv)
  | REDIR c t m d => REDIR (cmd_map f c) (f t) m d
  | PIPE l r => PIPE (cmd_map f l) (cmd_map f r)
  | LIST l r => LIST (cmd_map f l) (cmd_map f r)
  | BACK c => BACK (cmd_map f c)
  end.

Definition redir_map {T U} (f : T -> U) (r : redir T) : redir U :=
  mkRedir (f (r_file r)) (r_mode r) (r_fd r).

(** The words that can be typed. *)
Definition word_ok (w : list Z) : Prop := w <> [] /\ Forall (fun c => word_char c = true) w.

Lemma cmd_map_redirs {T U} (f : T -> U) rs c :
  cmd_map f (with_redirs rs c) = with_redirs (redir_map f <$> rs) (cmd_map f c).
Proof. revert c. induction rs as [|r rs IH]; intros c; [done|]. apply (IH (REDIR _ _ _ _)). Qed.

(** *** Reading printed tokens *)

(** What follows a token starts with no blank. *)
Definition tight (s : list Z) : Prop := skip_space s = s.

Lemma tight_cons c s : strchr whitespace c = false -> tight (c :: s).
Proof. intros H. unfold tight. cbn. by rewrite H. Qed.

Lemma word_char_split c : word_char c = true ->
  strchr whitespace c = false /\ strchr symbols c = false /\ c <> 0.
Proof.
  unfold word_char. rewrite !andb_true_iff, !negb_true_iff, Z.eqb_neq. tauto.
Qed.

Lemma tight_word w s : word_ok w -> tight (word w ++ s).
Proof.
  intros [Hne Hw]. destruct w as [|c w]; [done|]. apply Forall_cons in Hw as [Hc _].
  apply word_char_split in Hc as (Hc & _). by apply tight_cons.
Qed.

Lemma skip_blank s : tight s -> skip_space (CH_SPACE :: s) = s.
Proof. done. Qed.

Lemma skip_word_word w s : Forall (fun c => word_char c = true) w ->
  skip_word (w ++ CH_SPACE :: s) = CH_SPACE :: s.
Proof.
  induction 1 as [|c w Hc _ IH]; [done|]. cbn [app skip_word].
  apply word_char_split in Hc as (H1 & H2 & _). by rewrite H1, H2.
Qed.

Lemma gettoken_word w s : word_ok w -> tight s -> exists t,
  gettoken (word w ++ s) = Ok (CH_a, t) s /\ text t = w.
Proof.
  intros Hok Hs. pose proof (tight_word w s Hok) as Ht. destruct Hok as [Hne Hw].
  unfold word in *. rewrite <- app_assoc in *. cbn [app] in *.
  exists (mkToken (w ++ CH_SPACE :: s) (CH_SPACE :: s)). split; [|by apply text_app].
  unfold gettoken. rewrite Ht. pose proof (skip_word_word w s Hw) as Hsk.
  destruct w as [|c w]; [done|]. cbn [app] in *. apply Forall_cons in Hw as [Hc _].
  apply word_char_split in Hc as (H1 & H2 & H3). cbn [token_at].
  rewrite (proj2 (Z.eqb_neq c 0)) by done. destruct (proj1 (symbol_cases c) H2) as [-> ->].
  rewrite Hsk. by rewrite skip_blank.
Qed.

(** The symbols of one character. *)
Lemma gettoken_sym c s : strchr [CH_PIPE; CH_LPAREN; CH_RPAREN; CH_SEMI; CH_AMP; CH_LT; CH_GT] c = true ->
  tight s -> exists t, gettoken (sym c ++ s) = Ok (c, t) s.
Proof.
  intros Hc Hs.
  assert (Hin : c ∈ [CH_PIPE; CH_LPAREN; CH_RPAREN; CH_SEMI; CH_AMP; CH_LT; CH_GT]).
  { apply existsb_exists in Hc as (x & Hx & ->%Z.eqb_eq). by apply list_elem_of_In. }
  exists (mkToken (sym c ++ s) (CH_SPACE :: s)).
  transitivity (Ok (c, mkToken (sym c ++ s) (CH_SPACE :: s)) (skip_space s)); [|by rewrite Hs].
  repeat (apply elem_of_cons in Hin as [->|Hin]; [reflexivity|]). by apply not_elem_of_nil in Hin.
Qed.

Lemma gettoken_append s : tight s -> exists t, gettoken ([CH_GT; CH_GT; CH_SPACE] ++ s) = Ok (CH_PLUS, t) s.
Proof.
  intros Hs. exists (mkToken ([CH_GT; CH_GT; CH_SPACE] ++ s) (CH_SPACE :: s)).
  transitivity (Ok (CH_PLUS, mkToken ([CH_GT; CH_GT; CH_SPACE] ++ s) (CH_SPACE :: s)) (skip_space s));
    [reflexivity|by rewrite Hs].
Qed.

(** The text ends or goes on with one of the symbols [toks]. *)
Definition stops (toks s : list Z) : Prop := s = [] \/ exists c r, s = c :: r /\ strchr toks c = true.

Definition starts (toks s : list Z) : bool :=
  match s with c :: _ => negb (c =? 0) && strchr toks c | [] => false end.

Lemma peek_tight toks s : tight s -> peek toks s = Ok (starts toks s) s.
Proof. intros H. unfold peek. by rewrite H. Qed.

Lemma stops_tight toks s : stops toks s -> forallb (fun c => negb (strchr whitespace c)) toks = true -> tight s.
Proof.
  intros [->|(c & r & -> & Hc)] Hf; [done|]. apply tight_cons.
  apply existsb_exists in Hc as (x & Hx & ->%Z.eqb_eq). rewrite forallb_forall in Hf.
  by apply negb_true_iff, Hf.
Qed.

Lemma stops_not toks toks' s : stops toks s -> forallb (fun c => negb (strchr toks' c)) toks = true ->
  starts toks' s = false.
Proof.
  intros [->|(c & r & -> & Hc)] Hf; [done|]. cbn.
  apply existsb_exists in Hc as (x & Hx & ->%Z.eqb_eq). rewrite forallb_forall in Hf.
  rewrite (proj1 (negb_true_iff _) (Hf x Hx)). by rewrite andb_false_r.
Qed.

Lemma stops_mono toks toks' s : stops toks s -> forallb (fun c => strchr toks' c) toks = true ->
  stops toks' s.
Proof.
  intros [->|(c & r & -> & Hc)] Hf; [by left|right]. exists c, r. split; [done|].
  apply existsb_exists in Hc as (x & Hx & ->%Z.eqb_eq). rewrite forallb_forall in Hf. by apply Hf.
Qed.

(** What may follow a simple command, a pipeline, a background command and a line. *)
Definition after_exec : list Z := [CH_RPAREN; CH_SEMI; CH_AMP; CH_PIPE].
Definition after_pipe : list Z := [CH_RPAREN; CH_SEMI; CH_AMP].
Definition after_back : list Z := [CH_RPAREN; CH_SEMI].
Definition after_line : list Z := [CH_RPAREN].

Lemma starts_word toks w s : word_ok w -> forallb (fun c => strchr symbols c) toks = true ->
  starts toks (word w ++ s) = false.
Proof.
  intros [Hne Hw] Hf. destruct w as [|c w]; [done|]. apply Forall_cons in Hw as [Hc _].
  apply word_char_split in Hc as (_ & Hs & _). cbn.
  destruct (strchr toks c) eqn:Ht; [|by rewrite andb_false_r].
  rewrite (symbols_sub toks Hf c Ht) in Hs. done.
Qed.

(** *** Redirections *)

Lemma print_redir_head r : exists c s, print_redir r = c :: s /\ (c = CH_LT \/ c = CH_GT).
Proof. unfold print_redir. repeat case_match; eexists _, _; (split; [reflexivity|]); auto. Qed.

Lemma tight_redirs rs s : tight s -> tight (concat (print_redir <$> rs) ++ s).
Proof.
  intros Hs. destruct rs as [|r rs]; [done|]. cbn [fmap list_fmap concat].
  destruct (print_redir_head r) as (c & l & -> & [-> | ->]); by apply tight_cons.
Qed.

Lemma starts_redir r s : starts [CH_LT; CH_GT] (print_redir r ++ s) = true.
Proof. destruct (print_redir_head r) as (c & l & -> & [-> | ->]); done. Qed.

(** The symbol of a printed redirection, read back. *)
Lemma gettoken_redir r s : redir_ok word_ok r -> tight s -> exists tok t1 t2,
  gettoken (print_redir r ++ s) = Ok (tok, t1) (word (r_file r) ++ s) /\
  gettoken (word (r_file r) ++ s) = Ok (CH_a, t2) s /\ text t2 = r_file r /\
  (tok = CH_LT /\ r_mode r = O_RDONLY /\ r_fd r = 0 \/
   tok = CH_GT /\ r_mode r = Z.lor (Z.lor O_WRONLY O_CREATE) O_TRUNC /\ r_fd r = 1 \/
   tok = CH_PLUS /\ r_mode r = Z.lor O_WRONLY O_CREATE /\ r_fd r = 1).
Proof.
  destruct r as [f m d]. intros [Hw Hin] Hs. cbn in Hw.
  destruct (gettoken_word f s Hw Hs) as (t2 & H2 & Ht2). pose proof (tight_word f s Hw) as Hf.
  unfold print_redir. cbn [r_file r_mode r_fd] in *. rewrite <- app_assoc.
  apply elem_of_cons in Hin as [[= -> ->]|Hin].
  { destruct (gettoken_sym CH_LT (word f ++ s) eq_refl Hf) as [t1 H1]. exists CH_LT, t1, t2.
    do 3 (split; [done|]). by left. }
  apply elem_of_cons in Hin as [[= -> ->]|Hin].
  { destruct (gettoken_sym CH_GT (word f ++ s) eq_refl Hf) as [t1 H1]. exists CH_GT, t1, t2.
    do 3 (split; [done|]). by right; left. }
  apply list_elem_of_singleton in Hin as [= -> ->].
  destruct (gettoken_append (word f ++ s) Hf) as [t1 H1]. exists CH_PLUS, t1, t2.
  do 3 (split; [done|]). by right; right.
Qed.

Lemma redirs_loop_print fuel acc rs s : Forall (redir_ok word_ok) rs -> tight s ->
  starts [CH_LT; CH_GT] s = false -> (length rs < fuel)%nat ->
  exists ts, redirs_loop fuel acc (concat (print_redir <$> rs) ++ s) = Ok (acc ++ ts) s /\
    redir_map text <$> ts = rs.
Proof.
  intros Hrs Hs Hst. revert acc rs Hrs. induction fuel as [|fuel IH]; intros acc rs Hrs Hf; [lia|].
  cbn [redirs_loop]. destruct rs as [|r rs].
  - rewrite (run_bind _ _ _ false s); [|cbn; rewrite peek_tight by done; by rewrite Hst].
    exists []. by rewrite app_nil_r.
  - apply Forall_cons in Hrs as [Hr Hrs]. cbn [fmap list_fmap concat]. rewrite <- app_assoc.
    set (s1 := concat (print_redir <$> rs) ++ s). assert (Hs1 : tight s1) by (by apply tight_redirs).
    rewrite (run_bind _ _ _ true (print_redir r ++ s1)).
    2:{ rewrite peek_tight; [by rewrite starts_redir|].
        apply (tight_redirs [r] s1) in Hs1. cbn in Hs1. by rewrite app_nil_r in Hs1. }
    destruct (gettoken_redir r s1 Hr Hs1) as (tok & t1 & t2 & H1 & H2 & Ht & Hk).
    rewrite (run_bind _ _ _ _ _ H1), (run_bind _ _ _ _ _ H2). cbn [fst snd].
    rewrite Z.eqb_refl. cbn [negb].
    destruct (IH (acc ++ [mkRedir t2 (r_mode r) (r_fd r)]) rs Hrs) as (ts & Hrun & Hmap).
    { cbn in Hf. lia. }
    exists (mkRedir t2 (r_mode r) (r_fd r) :: ts). split.
    + rewrite <- app_assoc in Hrun. cbn [app] in Hrun. rewrite <- Hrun. destruct Hk as [(-> & -> & ->)|[(-> & -> & ->)|(-> & -> & ->)]]; done.
    + cbn. rewrite Hmap. unfold redir_map at 1. cbn. rewrite Ht. by destruct r.
Qed.

Lemma length_redirs rs : (length rs <= length (concat (print_redir <$> rs)))%nat.
Proof.
  induction rs as [|r rs IH]; [cbn; lia|]. rewrite fmap_cons. cbn [concat length]. rewrite length_app.
  destruct (print_redir_head r) as (c & l & -> & _). cbn [length]. lia.
Qed.

Lemma parseredirs_print acc rs s : Forall (redir_ok word_ok) rs -> tight s ->
  starts [CH_LT; CH_GT] s = false ->
  exists ts, parseredirs acc (concat (print_redir <$> rs) ++ s) = Ok (acc ++ ts) s /\
    redir_map text <$> ts = rs.
Proof.
  intros Hrs Hs Hst. unfold parseredirs.
  rewrite (run_bind _ _ _ (length (concat (print_redir <$> rs) ++ s)) (concat (print_redir <$> rs) ++ s)) by done.
  apply redirs_loop_print; [done|done|done|]. pose proof (length_redirs rs). rewrite length_app. lia.
Qed.

(** *** Simple commands *)

(** [m] reads the text [s] up to [rest] as the command [c]. *)
Definition reads (m : P (cmd token)) (s rest : list Z) (c : cmd (list Z)) : Prop :=
  exists c', m s = Ok c' rest /\ cmd_map text c' = c.

Lemma tight_words ws s : Forall word_ok ws -> tight s -> tight (concat (word <$> ws) ++ s).
Proof.
  intros Hw Hs. destruct ws as [|w ws]; [done|]. apply Forall_cons in Hw as [Hw _].
  rewrite fmap_cons. cbn [concat]. rewrite <- app_assoc. by apply tight_word.
Qed.

Lemma args_loop_end fuel argv rs s : stops after_exec s ->
  args_loop (S fuel) argv rs s = Ok (with_redirs rs (EXEC argv)) s.
Proof.
  intros Hs. assert (Ht : tight s) by (by eapply stops_tight). cbn [args_loop].
  rewrite (run_bind _ _ _ _ _ (peek_tight _ s Ht)). destruct Hs as [->|(c & r & -> & Hc)]; [done|].
  apply existsb_exists in Hc as (x & Hx & ->%Z.eqb_eq). apply list_elem_of_In in Hx.
  repeat (apply elem_of_cons in Hx as [->|Hx]; [done|]). by apply not_elem_of_nil in Hx.
Qed.

Lemma args_loop_print fuel argv ws rs s : ws <> [] -> Forall word_ok ws ->
  Forall (redir_ok word_ok) rs -> stops after_exec s ->
  (length argv + length ws < MAXARGS)%nat -> (length ws < fuel)%nat ->
  exists toks ts, args_loop fuel argv [] (concat (word <$> ws) ++ concat (print_redir <$> rs) ++ s) =
    Ok (with_redirs ts (EXEC (argv ++ toks))) s /\ text <$> toks = ws /\ redir_map text <$> ts = rs.
Proof.
  intros Hne Hws Hrs Hs Hmax Hf. assert (Ht : tight s) by (by eapply stops_tight).
  assert (Hst : starts [CH_LT; CH_GT] s = false) by (by eapply stops_not).
  revert argv ws Hne Hws Hmax Hf. induction fuel as [|fuel IH]; intros argv ws Hne Hws Hmax Hf; [lia|].
  destruct ws as [|w ws]; [done|]. apply Forall_cons in Hws as [Hw Hws]. cbn [length] in Hmax, Hf.
  rewrite fmap_cons. cbn [concat args_loop]. rewrite <- app_assoc.
  set (s1 := concat (word <$> ws) ++ concat (print_redir <$> rs) ++ s).
  assert (Hs1 : tight s1) by (apply tight_words, tight_redirs; done).
  rewrite (run_bind _ _ _ _ _ (peek_tight _ _ (tight_word w s1 Hw))), starts_word by done.
  destruct (gettoken_word w s1 Hw Hs1) as (t & Hg & Htext). rewrite (run_bind _ _ _ _ _ Hg).
  cbn [fst snd]. change (CH_a =? 0) with false. rewrite Z.eqb_refl. cbn [negb].
  rewrite (proj2 (Nat.leb_gt _ _)) by (rewrite length_app; cbn; lia).
  destruct ws as [|w2 ws].
  - destruct (parseredirs_print [] rs s Hrs Ht Hst) as (ts & Hr & Hmap). cbn [app] in Hr.
    unfold s1. cbn [fmap list_fmap concat app]. rewrite (run_bind _ _ _ _ _ Hr).
    destruct fuel as [|fuel]; [lia|]. exists [t], ts. rewrite args_loop_end by done.
    split; [done|]. split; [cbn; by rewrite Htext|done].
  - assert (Hw2 : word_ok w2) by (by inversion Hws).
    destruct (parseredirs_print [] [] s1) as (ts & Hr & Hmap); [done|done| |].
    { unfold s1. rewrite fmap_cons. cbn [concat]. rewrite <- app_assoc. by apply starts_word. }
    apply fmap_nil_inv in Hmap as ->. cbn [fmap list_fmap concat app] in Hr.
    rewrite (run_bind _ _ _ _ _ Hr).
    destruct (IH (argv ++ [t]) (w2 :: ws)) as (toks & ts & Hrun & H1 & H2); [done|done| | |].
    { rewrite length_app. cbn [length] in *. lia. }
    { cbn [length] in *. lia. }
    exists (t :: toks), ts. unfold s1. rewrite Hrun. rewrite <- app_assoc. cbn [app].
    split; [done|]. split; [|done]. by rewrite fmap_cons, Htext, H1.
Qed.

Lemma length_words ws : (length ws <= length (concat (word <$> ws)))%nat.
Proof.
  induction ws as [|w ws IH]; [cbn; lia|]. rewrite fmap_cons. cbn [concat length]. unfold word at 1.
  rewrite !length_app. cbn [length]. lia.
Qed.

(** A list of words and redirections. *)
Lemma exec_print fuel ws rs s : Forall word_ok ws -> Forall (redir_ok word_ok) rs ->
  (length ws < MAXARGS)%nat -> stops after_exec s ->
  reads (parseexec (S fuel)) (concat (word <$> ws) ++ concat (print_redir <$> rs) ++ s) s
    (with_redirs rs (EXEC ws)).
Proof.
  intros Hws Hrs Hmax Hs. assert (Ht : tight s) by (by eapply stops_tight).
  assert (Hst : starts [CH_LT; CH_GT] s = false) by (by eapply stops_not).
  unfold reads. cbn [parseexec].
  rewrite (run_bind _ _ _ _ _ (peek_tight _ _ (tight_words ws _ Hws (tight_redirs rs s Ht)))).
  destruct ws as [|w ws].
  - cbn [fmap list_fmap concat app].
    assert (Hp : starts [CH_LPAREN] (concat (print_redir <$> rs) ++ s) = false).
    { destruct rs as [|r rs]; [by eapply stops_not|]. rewrite fmap_cons. cbn [concat].
      destruct (print_redir_head r) as (c & l & -> & [-> | ->]); done. }
    rewrite Hp. destruct (parseredirs_print [] rs s Hrs Ht Hst) as (ts & Hr & Hmap).
    rewrite (run_bind _ _ _ _ _ Hr). rewrite (run_bind _ _ _ (length s) s) by done.
    rewrite args_loop_end by done. eexists. split; [done|]. rewrite cmd_map_redirs. cbn [app]. by rewrite Hmap.
  - assert (Hw : word_ok w) by (by inversion Hws).
    assert (Hp : forall toks, forallb (fun c => strchr symbols c) toks = true ->
      starts toks (concat (word <$> w :: ws) ++ concat (print_redir <$> rs) ++ s) = false).
    { intros toks Hf. rewrite fmap_cons. cbn [concat]. rewrite <- app_assoc. by apply starts_word. }
    rewrite Hp by done. set (s1 := concat (word <$> w :: ws) ++ _ ++ s) in *.
    destruct (parseredirs_print [] [] s1) as (ts & Hr & Hmap); [done| |by apply Hp|].
    { unfold s1. by apply tight_words, tight_redirs. }
    apply fmap_nil_inv in Hmap as ->. cbn [fmap list_fmap concat app] in Hr.
    rewrite (run_bind _ _ _ _ _ Hr), (run_bind _ _ _ (length s1) s1) by done.
    destruct (args_loop_print (S (length s1)) [] (w :: ws) rs s) as (toks & ts & Hrun & H1 & H2);
      [done|done|done|done|cbn [length] in *; lia| |].
    { unfold s1. rewrite length_app. pose proof (length_words (w :: ws)). lia. }
    fold s1 in Hrun. rewrite Hrun. eexists. split; [done|]. rewrite cmd_map_redirs, H2. cbn [cmd_map app].
    by rewrite H1.
Qed.

(** *** Pipelines, background commands, lists and parentheses *)

Fixpoint backs {T} (k : nat) (c : cmd T) : cmd T :=
  match k with O => c | S k => BACK (backs k c) end.

Definition amps (k : nat) : list Z := concat (replicate k (sym CH_AMP)).

Fixpoint size {T} (c : cmd T) : nat :=
  match c with
  | EXEC _ => 1
  | REDIR c _ _ _ | BACK c => S (size c)
  | PIPE l r | LIST l r => S (size l + size r)
  end.

Lemma amps_snoc k : amps k ++ sym CH_AMP = sym CH_AMP ++ amps k.
Proof.
  induction k as [|k IH]; [done|]. unfold amps in *. cbn [replicate concat]. by rewrite <- app_assoc, IH.
Qed.

(** A command at level 2 is a tighter one followed by ampersands. *)
Lemma print_backs c : exists k p, c = backs k p /\
  print_at print 2 c = print_at print 1 p ++ amps k /\ ((p = c /\ level c <> 2%nat) \/ (size p < size c)%nat).
Proof.
  induction c as [argv|c IH f m d|l IHl r IHr|l IHl r IHr|c (k & p & Hc & Hp & Hk)].
  1-4: eexists 0%nat, _; split; [reflexivity|]; split; [unfold amps; cbn; by rewrite app_nil_r|by left].
  exists (S k), p. cbn [backs]. split; [by f_equal|]. split.
  - unfold print_at at 1. cbn [level Nat.leb print]. rewrite Hp, <- app_assoc. f_equal.
    apply amps_snoc.
  - right. cbn. destruct Hk as [[-> _]|Hk]; lia.
Qed.

Lemma back_loop_print fuel k c s : stops after_back s -> (k < fuel)%nat ->
  back_loop fuel c (amps k ++ s) = Ok (backs k c) s.
Proof.
  intros Hs. assert (Ht : tight s) by (by eapply stops_tight).
  assert (Hst : starts [CH_AMP] s = false) by (by eapply stops_not).
  revert fuel c. induction k as [|k IH]; intros fuel c Hf; (destruct fuel as [|fuel]; [lia|]); cbn [back_loop].
  - rewrite (run_bind _ _ _ _ _ (peek_tight _ (amps 0 ++ s) Ht)). cbn [amps replicate concat app]. by rewrite Hst.
  - change (amps (S k) ++ s) with (sym CH_AMP ++ (amps k ++ s)).
    assert (Ht1 : tight (amps k ++ s)) by (destruct k; [done|by apply tight_cons]).
    rewrite (run_bind _ _ _ true (sym CH_AMP ++ (amps k ++ s))) by (by rewrite peek_tight by (by apply tight_cons)).
    destruct (gettoken_sym CH_AMP (amps k ++ s) eq_refl Ht1) as [t Hg].
    rewrite (run_bind _ _ _ _ _ Hg), IH by lia.
    f_equal. clear. induction k as [|k IH]; [done|]. cbn. by rewrite IH.
Qed.

Lemma cmd_map_backs {T U} (f : T -> U) k c : cmd_map f (backs k c) = backs k (cmd_map f c).
Proof. induction k as [|k IH]; [done|]. cbn. by rewrite IH. Qed.

(** A command at level 0 is one that is not a redirection, in parentheses or a list of
    words, followed by redirections. *)
Lemma print_redirs c : cmd_ok word_ok c -> exists rs c0, c = with_redirs rs c0 /\
  print_at print 0 c = print_at print 0 c0 ++ concat (print_redir <$> rs) /\
  Forall (redir_ok word_ok) rs /\ cmd_ok word_ok c0 /\ (size c0 <= size c)%nat /\
  (rs = [] /\ c0 = c \/ (size c0 < size c)%nat) /\
  ((exists argv, c0 = EXEC argv) \/ (0 < level c0)%nat).
Proof.
  induction c as [argv|c IH f m d|l IHl r IHr|l IHl r IHr|c IH]; intros Hok.
  2:{ destruct Hok as [Hc Hr]. destruct (IH Hc) as (rs & c0 & H1 & H2 & H3 & H4 & H5 & H6 & H7).
      exists (rs ++ [mkRedir f m d]), c0. split; [unfold with_redirs; rewrite foldl_app; cbn; by rewrite H1|].
      split.
      { change (print_at print 0 (REDIR c f m d)) with (print_at print 0 c ++ print_redir (mkRedir f m d)).
        rewrite H2, fmap_app, concat_app. cbn [fmap list_fmap concat]. by rewrite app_nil_r, app_assoc. }
      split; [apply Forall_app; split; [done|by apply Forall_singleton]|].
      split; [done|]. cbn [size]. split; [lia|]. split; [right; lia|done]. }
  all: eexists [], _; split; [reflexivity|]; cbn [fmap list_fmap concat]; rewrite app_nil_r;
    (split; [done|]); (split; [done|]); (split; [done|]); (split; [done|]); (split; [by left|]).
  1: left; by eexists.
  all: right; cbn; lia.
Qed.

Lemma tight_print_at l c s : cmd_ok word_ok c -> tight s -> tight (print_at print l c ++ s).
Proof.
  revert l s. induction c as [argv|c IH f m d|l IHl r IHr|l IHl r IHr|c IH]; intros lv s Hok Hs;
    unfold print_at; case_match; try (by apply tight_cons); cbn [print]; rewrite <- ?app_assoc.
  - apply tight_words; [apply Hok|done].
  - apply IH; [apply Hok|]. apply (tight_redirs [mkRedir f m d] s) in Hs. cbn [fmap list_fmap concat] in Hs.
    rewrite app_nil_r in Hs. exact Hs.
  - apply IHl; [apply Hok|]. by apply tight_cons.
  - apply IHl; [apply Hok|]. by apply tight_cons.
  - apply IH; [apply Hok|]. by apply tight_cons.
Qed.

Lemma tight_print c s : cmd_ok word_ok c -> tight s -> tight (print c ++ s).
Proof.
  intros Hok Hs. apply (tight_print_at 3 c s Hok) in Hs. revert Hs. unfold print_at.
  by destruct c.
Qed.

(** The three entry points, for commands below a size. *)
Definition exec_reads (c : cmd (list Z)) : Prop := forall fuel s, cmd_ok word_ok c ->
  stops after_exec s -> (4 * length (print_at print 0 c ++ s) + 2 <= fuel)%nat ->
  reads (parseexec fuel) (print_at print 0 c ++ s) s c.
Definition pipe_reads (c : cmd (list Z)) : Prop := forall fuel s, cmd_ok word_ok c ->
  stops after_pipe s -> (4 * length (print_at print 1 c ++ s) + 3 <= fuel)%nat ->
  reads (parsepipe fuel) (print_at print 1 c ++ s) s c.
Definition line_reads (c : cmd (list Z)) : Prop := forall fuel s, cmd_ok word_ok c ->
  stops after_line s -> (4 * length (print c ++ s) + 4 <= fuel)%nat ->
  reads (parseline fuel) (print c ++ s) s c.

(** A block, with its redirections. *)
Lemma block_print c rs fuel s : line_reads c -> cmd_ok word_ok c -> Forall (redir_ok word_ok) rs ->
  stops after_exec s ->
  (4 * length (parens (print c) ++ concat (print_redir <$> rs) ++ s) + 2 <= fuel)%nat ->
  reads (parseexec fuel) (parens (print c) ++ concat (print_redir <$> rs) ++ s) s (with_redirs rs c).
Proof.
  intros Hline Hok Hrs Hs Hf. destruct fuel as [|[|fuel]]; [lia|lia|].
  assert (Ht : tight s) by (by eapply stops_tight).
  assert (Hst : starts [CH_LT; CH_GT] s = false) by (by eapply stops_not).
  unfold parens in *. rewrite <- !app_assoc in *.
  set (s1 := concat (print_redir <$> rs) ++ s) in *. assert (Hs1 : tight s1) by (by apply tight_redirs).
  set (s2 := sym CH_RPAREN ++ s1) in *. assert (Hs2 : tight s2) by (by apply tight_cons).
  assert (Hs3 : tight (print c ++ s2)) by (by apply tight_print).
  destruct (Hline fuel s2 Hok) as (c' & Hrun & Hmap).
  { right. eexists _, _. split; [reflexivity|done]. }
  { cbn [sym app length] in Hf. lia. }
  destruct (parseredirs_print [] rs s Hrs Ht Hst) as (ts & Hr & Hts).
  assert (Hpk : forall (k : bool -> P (cmd token)),
    (peek [CH_LPAREN] ≫= k) (sym CH_LPAREN ++ print c ++ s2) = k true (sym CH_LPAREN ++ print c ++ s2)).
  { intros k. by rewrite (run_bind _ _ _ _ _ (peek_tight _ (sym CH_LPAREN ++ print c ++ s2) eq_refl)). }
  destruct (gettoken_sym CH_LPAREN (print c ++ s2) eq_refl Hs3) as [t1 H1].
  destruct (gettoken_sym CH_RPAREN s1 eq_refl Hs1) as [t2 H2].
  exists (with_redirs ts c'). split; [|by rewrite cmd_map_redirs, Hts, Hmap].
  cbn [parseexec parseblock]. rewrite Hpk, Hpk. cbn [negb].
  rewrite (run_bind _ _ _ _ _ H1), (run_bind _ _ _ _ _ Hrun).
  rewrite (run_bind _ _ _ _ _ (peek_tight _ s2 Hs2)). cbn [starts s2 sym app].
  change (negb (CH_RPAREN =? 0) && strchr [CH_RPAREN] CH_RPAREN) with true. cbn [negb].
  fold (sym CH_RPAREN). change (CH_RPAREN :: CH_SPACE :: s1) with (sym CH_RPAREN ++ s1).
  rewrite (run_bind _ _ _ _ _ H2). unfold s1. rewrite (run_bind _ _ _ _ _ Hr). done.
Qed.

Section Reads.
Context (n : nat) (IHe : forall c, (size c < n)%nat -> exec_reads c)
  (IHp : forall c, (size c < n)%nat -> pipe_reads c) (IHl : forall c, (size c < n)%nat -> line_reads c).

(** A simple command, possibly with its inner command in parentheses. *)
Lemma level0_reads c : (size c <= n)%nat -> level c = 0%nat -> exec_reads c.
Proof.
  intros Hn Hlv fuel s Hok Hs Hf.
  destruct (print_redirs c Hok) as (rs & c0 & -> & Hp & Hrs & Hok0 & _ & Hsz & Hk).
  rewrite Hp in *. rewrite <- app_assoc in *. destruct Hk as [[argv ->]|Hlv0].
  - destruct fuel as [|fuel]; [lia|]. apply exec_print; [apply Hok0|done|apply Hok0|done].
  - unfold print_at in *. rewrite (proj2 (Nat.leb_gt (level c0) 0)) in * by lia.
    apply block_print; [|done|done|done|done]. apply IHl.
    destruct Hsz as [[-> _]|Hsz]; [|lia]. cbn in Hlv. lia.
Qed.

(** A pipeline. *)
Lemma level1_reads c : (size c <= n)%nat -> (level c <= 1)%nat -> pipe_reads c.
Proof.
  intros Hn Hlv fuel s Hok Hs Hf. destruct fuel as [|fuel]; [lia|].
  assert (Hs0 : stops after_exec s) by (by eapply stops_mono).
  assert (Ht : tight s) by (by eapply stops_tight).
  destruct (decide (level c = 0%nat)) as [H0|H0].
  - assert (Hpr : print_at print 1 c = print_at print 0 c).
    { unfold print_at. rewrite H0. done. }
    rewrite Hpr in *. destruct (level0_reads c Hn H0 fuel s Hok Hs0) as (c' & Hrun & Hmap); [lia|].
    exists c'. split; [|done]. cbn [parsepipe]. rewrite (run_bind _ _ _ _ _ Hrun).
    rewrite (run_bind _ _ _ _ _ (peek_tight _ s Ht)).
    assert (Hst : starts [CH_PIPE] s = false) by (by apply (stops_not after_pipe)). by rewrite Hst.
  - destruct c as [| |l r| |]; cbn in Hlv, H0; try lia. destruct Hok as [Hl Hr]. cbn [size] in Hn.
    change (print_at print 1 (PIPE l r)) with (print_at print 0 l ++ sym CH_PIPE ++ print_at print 1 r) in *.
    rewrite <- !app_assoc in *. set (s1 := print_at print 1 r ++ s) in *.
    assert (Hs1 : tight s1) by (by apply tight_print_at).
    destruct (IHe l ltac:(lia) fuel (sym CH_PIPE ++ s1) Hl) as (l' & Hrl & Hml).
    { right. eexists _, _. split; [reflexivity|done]. }
    { lia. }
    destruct (IHp r ltac:(lia) fuel s Hr Hs) as (r' & Hrr & Hmr).
    { rewrite !length_app in Hf. cbn [length sym] in Hf. unfold s1 in Hf. lia. }
    destruct (gettoken_sym CH_PIPE s1 eq_refl Hs1) as [t Hg].
    exists (PIPE l' r'). split; [|cbn; by rewrite Hml, Hmr]. cbn [parsepipe].
    rewrite (run_bind _ _ _ _ _ Hrl).
    rewrite (run_bind _ _ _ _ _ (peek_tight _ (sym CH_PIPE ++ s1) eq_refl)).
    change (starts [CH_PIPE] (sym CH_PIPE ++ s1)) with true. cbn iota.
    rewrite (run_bind _ _ _ _ _ Hg). unfold s1. by rewrite (run_bind _ _ _ _ _ Hrr).
Qed.

(** The part of a line before its semicolon. *)
Lemma background_reads c fuel s : (forall p, (p = c /\ level c <> 2%nat) \/ (size p < size c)%nat -> pipe_reads p) ->
  cmd_ok word_ok c -> stops after_back s ->
  (4 * length (print_at print 2 c ++ s) + 3 <= fuel)%nat ->
  reads (c ← parsepipe fuel; n ← here; back_loop (S n) c) (print_at print 2 c ++ s) s c.
Proof.
  intros Hp Hok Hs Hf. destruct (print_backs c) as (k & p & Hc & Hpr & Hk). rewrite Hpr in *.
  rewrite <- app_assoc in *.
  assert (Hokp : cmd_ok word_ok p).
  { rewrite Hc in Hok. clear -Hok. induction k; [done|]. apply IHk, Hok. }
  destruct (Hp p Hk fuel (amps k ++ s) Hokp) as (p' & Hrun & Hmap).
  { destruct k; [by eapply stops_mono|]. right. eexists _, _. split; [reflexivity|done]. }
  { done. }
  exists (backs k p'). rewrite (run_bind _ _ _ _ _ Hrun).
  rewrite (run_bind _ _ _ (length (amps k ++ s)) (amps k ++ s)) by done. split.
  - apply back_loop_print; [done|]. rewrite length_app. clear. unfold amps.
    induction k as [|k IH]; [lia|]. cbn [replicate concat]. rewrite length_app. cbn [length sym]. lia.
  - by rewrite cmd_map_backs, Hmap, Hc.
Qed.

End Reads.

(** A line that is not a list. *)
Lemma single_reads c fuel s : (forall p, (p = c /\ level c <> 2%nat) \/ (size p < size c)%nat -> pipe_reads p) ->
  (level c <= 2)%nat -> cmd_ok word_ok c -> stops after_line s ->
  (4 * length (print c ++ s) + 4 <= fuel)%nat -> reads (parseline fuel) (print c ++ s) s c.
Proof.
  intros Hp Hlv Hok Hs Hf. destruct fuel as [|fuel]; [lia|].
  assert (Hpr : print_at print 2 c = print c).
  { unfold print_at. by rewrite (proj2 (Nat.leb_le (level c) 2)). }
  destruct (background_reads c fuel s Hp Hok) as (c' & Hrun & Hmap).
  { by eapply stops_mono. }
  { rewrite Hpr. lia. }
  rewrite Hpr in Hrun. exists c'. split; [|done]. cbn [parseline].
  assert (Hst : starts [CH_SEMI] s = false) by (by apply (stops_not after_line)).
  assert (Ht : tight s) by (by eapply stops_tight).
  unfold mbind, M_bind in Hrun |- *.
  destruct (parsepipe fuel (print c ++ s)) as [c1 s1| |]; [|done|done]. cbn -[back_loop peek] in Hrun |- *.
  rewrite Hrun, peek_tight, Hst by done. done.
Qed.

(** A list: a background command and the rest of the line. *)
Lemma list_reads l r fuel s : (forall p, (size p <= size l)%nat -> pipe_reads p) -> line_reads r ->
  cmd_ok word_ok (LIST l r) -> stops after_line s ->
  (4 * length (print (LIST l r) ++ s) + 4 <= fuel)%nat ->
  reads (parseline fuel) (print (LIST l r) ++ s) s (LIST l r).
Proof.
  intros Hl Hr [Hokl Hokr] Hs Hf. destruct fuel as [|fuel]; [lia|]. cbn [print] in *.
  rewrite <- !app_assoc in *. set (s1 := print r ++ s) in *.
  assert (Ht : tight s) by (by eapply stops_tight). assert (Hs1 : tight s1) by (by apply tight_print).
  destruct (background_reads l fuel (sym CH_SEMI ++ s1)) as (l' & Hrun & Hmap).
  { intros p [[-> _]|Hp]; apply Hl; lia. }
  { done. }
  { right. eexists _, _. split; [reflexivity|done]. }
  { lia. }
  destruct (Hr fuel s Hokr Hs) as (r' & Hrr & Hmr).
  { rewrite !length_app in Hf. cbn [length sym] in Hf. unfold s1 in Hf. lia. }
  destruct (gettoken_sym CH_SEMI s1 eq_refl Hs1) as [t Hg].
  exists (LIST l' r'). split; [|cbn; by rewrite Hmap, Hmr]. cbn [parseline].
  assert (Hpk : peek [CH_SEMI] (sym CH_SEMI ++ s1) = Ok true (sym CH_SEMI ++ s1)).
  { by rewrite peek_tight by (by apply tight_cons). }
  unfold mbind, M_bind in Hrun |- *.
  destruct (parsepipe fuel (print_at print 2 l ++ sym CH_SEMI ++ s1)) as [c1 s2| |]; [|done|done].
  cbn -[back_loop peek sym gettoken] in Hrun |- *. rewrite Hrun, Hpk, Hg. unfold s1. by rewrite Hrr.
Qed.

Lemma all_reads n c : (size c < n)%nat -> exec_reads c /\ pipe_reads c /\ line_reads c.
Proof.
  revert c. induction n as [|n IH]; intros c Hn; [lia|].
  assert (IHe : forall c, (size c < n)%nat -> exec_reads c) by (intros; by apply IH).
  assert (IHp : forall c, (size c < n)%nat -> pipe_reads c) by (intros; by apply IH).
  assert (IHl : forall c, (size c < n)%nat -> line_reads c) by (intros; by apply IH).
  assert (Hp1 : (level c <= 1)%nat -> pipe_reads c) by (intros; apply (level1_reads n); [done..|lia|done]).
  assert (Hline : line_reads c).
  { intros fuel s Hok Hs Hf. destruct (decide (level c <= 2)%nat) as [Hlv|Hlv].
    - apply single_reads; [|done|done|done|done]. intros p [[-> H2]|Hp]; [apply Hp1; lia|apply IHp; lia].
    - destruct c as [| | |l r|]; cbn in Hlv; try lia. cbn [size] in Hn.
      apply list_reads; [intros; apply IHp; lia|apply IHl; lia|done|done|done]. }
  assert (Hexec : exec_reads c).
  { destruct (decide (level c = 0%nat)) as [H0|H0]; [apply (level0_reads n); [done|lia|done]|].
    intros fuel s Hok Hs. unfold print_at. rewrite (proj2 (Nat.leb_gt (level c) 0)) by lia.
    intros Hf. apply (block_print c [] fuel s Hline Hok); [done|done|done]. }
  split; [done|]. split; [|done]. destruct (decide (level c <= 1)%nat) as [H1|H1]; [by apply Hp1|].
  intros fuel s Hok Hs Hf. destruct fuel as [|fuel]; [lia|].
  assert (Hpr : print_at print 1 c = print_at print 0 c).
  { unfold print_at. by rewrite !(proj2 (Nat.leb_gt _ _)) by lia. }
  rewrite Hpr in *. destruct (Hexec fuel s Hok) as (c' & Hrun & Hmap); [by eapply stops_mono|lia|].
  exists c'. split; [|done]. cbn [parsepipe]. rewrite (run_bind _ _ _ _ _ Hrun).
  assert (Ht : tight s) by (by eapply stops_tight). rewrite (run_bind _ _ _ _ _ (peek_tight _ s Ht)).
  assert (Hst : starts [CH_PIPE] s = false) by (by apply (stops_not after_pipe)). by rewrite Hst.
Qed.

(** ** Theorems *)

(** C37: Parsing terminates: for every line [parsecmd] returns a command or exits with one of
    four messages ("parseblock" is not among them: that test cannot fail). *)
Theorem parsecmd_terminates (s : list Z) :
  match parsecmd s with
  | Ok _ _ => True
  | Panic msg _ => msg ∈ shell_errors
  | Blocked _ => False
  end.
Proof. pose proof (parsecmd_cases s) as H. by destruct (parsecmd s). Qed.

(** C36: The commands [parsecmd] builds fit their arrays: each argument list leaves room for
    the null pointer that ends it within MAXARGS entries, and every string is a nonempty
    word that lies inside the line. *)
Theorem parsecmd_in_bounds (s : list Z) (c : cmd token) (buf : list Z) :
  parsecmd s = Ok c buf -> cmd_ok (tok_ok s) c /\ length buf = S (length s).
Proof.
  intros H. pose proof (parsecmd_cases s) as Hc. rewrite H in Hc. destruct Hc as [Hc ->].
  split; [done|]. rewrite length_store_all, length_app. cbn. lia.
Qed.

(** "a > f b" *)
Definition demo_line : list Z := [97; 32; 62; 32; 102; 32; 98].
Definition demo_res : res (list Z) (cmd token) := parsecmd demo_line.
Definition demo_cmd : cmd token := match demo_res with Ok c _ => c | _ => EXEC [] end.
Definition demo_buf : list Z := match demo_res with Ok _ b => b | _ => [] end.

Lemma parsecmd_in_bounds_witness :
  cmd_ok (tok_ok demo_line) demo_cmd /\ length demo_buf = S (length demo_line).
Proof. apply (parsecmd_in_bounds demo_line demo_cmd demo_buf). vm_compute. reflexivity. Defined.

(** After [parsecmd] every string of the command is a C string: the NULs that
    [nulterminate] stores end each word where the parser found its end, and destroy no
    character of any other. *)
Theorem parsecmd_strings (s : list Z) (c : cmd token) (buf : list Z) (t : token) :
  Forall (fun x => x <> 0) s -> parsecmd s = Ok c buf -> t ∈ tokens c ->
  string_at (length s) buf (t_q t) = text t.
Proof.
  intros H0 H Ht. pose proof (parsecmd_cases s) as Hc. rewrite H in Hc. destruct Hc as [Hc ->].
  apply terminated; [by apply cmd_ok_tokens|done|done].
Qed.

Lemma parsecmd_strings_witness :
  string_at (length demo_line) demo_buf [102; 32; 98] = text (mkToken [102; 32; 98] [32; 98]).
Proof.
  apply (parsecmd_strings demo_line demo_cmd demo_buf (mkToken [102; 32; 98] [32; 98])).
  - repeat constructor; done.
  - vm_compute. reflexivity.
  - apply list_elem_of_In. vm_compute. auto.
Defined.

(** C11: The parser inverts the printer: the text of any command whose words can be typed and
    whose argument lists are short enough is parsed to that command. *)
Theorem parse_print (c : cmd (list Z)) : cmd_ok word_ok c ->
  exists c' buf, parsecmd (print c) = Ok c' buf /\ cmd_map text c' = c.
Proof.
  intros Hok. destruct (all_reads (S (size c)) c ltac:(lia)) as (_ & _ & Hline).
  destruct (Hline (parse_fuel (print c)) [] Hok) as (c' & Hrun & Hmap).
  { by left. }
  { rewrite app_nil_r. unfold parse_fuel. lia. }
  rewrite app_nil_r in Hrun. eexists c', _. split; [|done]. unfold parsecmd.
  rewrite (run_bind _ _ _ _ _ Hrun), (run_bind _ _ _ false []) by done.
  change ((mret c' : P (cmd token)) []) with (Ok c' [] : res (list Z) (cmd token)).
  cbn [length Nat.eqb negb]. by rewrite nulterminate_run.
Qed.

(** ( ls & ) | wc > f *)
Definition demo_tree : cmd (list Z) :=
  REDIR (PIPE (BACK (EXEC [[108; 115]])) (EXEC [[119; 99]])) [102] 0x601 1.

Lemma parse_print_witness :
  exists c' buf, parsecmd (print demo_tree) = Ok c' buf /\ cmd_map text c' = demo_tree.
Proof.
  apply (parse_print demo_tree). cbn. unfold word_ok, MAXARGS.
  repeat split; try done; try lia; try (repeat constructor; done).
Defined.
