(* ===== verification/ShellRun.v ===== *)
(** * Running commands (user/sh.c)

    A process of the shell is a tree of the system calls it makes, [prog]: each node names
    the call and says how the process goes on with its result.  [runcmd] and [main] are
    the functions of sh.c as such trees.  [run] collects the programs a tree starts: the
    processes it creates run with copies of the descriptor table ([fork], proc.c), a new
    descriptor is the lowest that is free ([fdalloc], sysfile.c), and a process ends by
    [exec], keeping its descriptors, or by [exit].  [run] says nothing about the order in
    which the programs start, nor about forks that fail: the processes side by side, with
    [wait] and failing forks, are the subject of ShellOrder.v.

    The theorem: every program of a command line is started with exactly the descriptors
    the command asks for, redirected to files or connected by pipes, and with no other end
    of a pipe open. *)

From stdpp Require Import base gmap list strings.
From Stdlib Require Import ZArith Lia.
From S2P Require Import Prelude Riscv Shell ShellTheorems.

#[local] Set Warnings "-clear-no-such-hyp".

(** ** Programs *)

Inductive prog :=
| Exit (status : Z)
| Exec (path : list Z) (argv : list (list Z)) (failed : prog)
| Close (fd : Z) (k : prog)
| Open (path : list Z) (mode : Z) (k : Z -> prog)
| Dup (fd : Z) (k : prog)
| Pipe (k : option (Z * Z) -> prog)
| Fork (k : Z -> prog)
| Wait (k : prog)
| Chdir (path : list Z) (k : Z -> prog)
| Print (msg : string) (arg : list Z) (k : prog).

Definition sh_panic (msg : string) : prog := Print msg [] (Exit 1).

Definition fork1 (k : Z -> prog) : prog :=
  Fork (fun pid => if pid =? -1 then sh_panic "fork" else k pid).

(** [runcmd] never returns: each branch ends in [exit] or in a call of [runcmd]. *)
Fixpoint runcmd (c : cmd (list Z)) : prog :=
  match c with
  | EXEC argv =>
      match argv with
      | [] => Exit 1
      | a :: _ => Exec a argv (Print "exec %s failed" a (Exit 0))
      end
  | REDIR c file mode fd =>
      Close fd (Open file mode (fun r =>
        if r <? 0 then Print "open %s failed" file (Exit 1) else runcmd c))
  | LIST l r =>
      fork1 (fun pid => if pid =? 0 then runcmd l else Wait (runcmd r))
  | PIPE l r =>
      Pipe (fun p =>
        match p with
        | None => sh_panic "pipe"
        | Some (p0, p1) =>
            fork1 (fun pid =>
              if pid =? 0 then Close 1 (Dup p1 (Close p0 (Close p1 (runcmd l)))) else
              fork1 (fun pid =>
                if pid =? 0 then Close 0 (Dup p0 (Close p0 (Close p1 (runcmd r)))) else
                Close p0 (Close p1 (Wait (Wait (Exit 0))))))
        end)
  | BACK c => fork1 (fun pid => if pid =? 0 then runcmd c else Exit 0)
  end.

(** ** The loop of the shell *)

(** [gets(buf, max)] with [k] of the [max - 1] characters still to read: the characters up
    to a line end, and the rest of the input. *)
Fixpoint gets_loop (k : nat) (input : list Z) : list Z * list Z :=
  match k, input with
  | S k, c :: input =>
      if (c =? 10) || (c =? 13) then ([c], input)
      else let '(l, rest) := gets_loop k input in (c :: l, rest)
  | _, _ => ([], input)
  end.

Definition gets_line (max : nat) (input : list Z) : list Z * list Z := gets_loop (max - 1) input.

(** A line with a NUL in it ends there for the string functions. *)
Definition cstring (l : list Z) : list Z := until_nul l.

(** [getcmd(buf, nbuf)], after its prompt: the string in [buf], empty where [getcmd] returns
    -1, and the rest of the input. *)
Definition getcmd (nbuf : nat) (input : list Z) : list Z * list Z :=
  let '(buf, rest) := gets_line nbuf input in (cstring buf, rest).

(** The command of a line: the strings are those in memory after [parsecmd]. *)
Definition run_line (line : list Z) : prog :=
  match parsecmd line with
  | Ok c buf => runcmd (cmd_map (fun t => string_at (length line) buf (t_q t)) c)
  | Panic msg _ => Print msg [] (Exit 1)
  | Blocked _ => Exit 1
  end.

Definition NBUFCMD : nat := 100.

(** [while(getcmd(buf, sizeof(buf)) >= 0)]; every turn reads at least one character. *)
Fixpoint command_loop (fuel : nat) (input : list Z) : prog :=
  match fuel with
  | O => Exit 0
  | S fuel =>
      let '(buf, rest) := getcmd NBUFCMD input in
      Print "$ " [] (
        match buf with
        | [] => Exit 0
        | line =>
            match line with
            | 99 :: 100 :: 32 :: dir =>
                let dir := take (length line - 1 - 3) dir in
                Chdir dir (fun r =>
                  if r <? 0 then Print "cannot cd %s" dir (command_loop fuel rest)
                  else command_loop fuel rest)
            | _ =>
                fork1 (fun pid => if pid =? 0 then run_line line
                                  else Wait (command_loop fuel rest))
            end
        end)
  end.

(** [while((fd = open("console", O_RDWR)) >= 0)]: at most NOFILE turns succeed. *)
Definition O_RDWR : Z := 0x002.
Definition console : list Z := [99; 111; 110; 115; 111; 108; 101].

Fixpoint open_console (fuel : nat) (k : prog) : prog :=
  match fuel with
  | O => k
  | S fuel =>
      Open console O_RDWR (fun fd =>
        if fd <? 0 then k else if 3 <=? fd then Close fd k else open_console fuel k)
  end.

Definition sh_main (input : list Z) : prog :=
  open_console (S NOFILE) (command_loop (S (length input)) input).

(** ** The kernel's side *)

Inductive obj := OFile (path : list Z) (mode : Z) | OPipeR (id : nat) | OPipeW (id : nat).

Abbreviation fds := (list (option obj)).

(** The lowest free descriptor. *)
Fixpoint fd_free (t : fds) : option nat :=
  match t with [] => None | None :: _ => Some 0%nat | Some _ :: t => S <$> fd_free t end.

Definition fd_close (fd : Z) (t : fds) : fds := <[Z.to_nat fd := None]> t.
Definition fd_get (fd : Z) (t : fds) : option obj := t !! Z.to_nat fd ≫= id.
Definition fd_put (o : obj) (t : fds) : option (Z * fds) :=
  n ← fd_free t; Some (Z.of_nat n, <[n := Some o]> t).

Section Kernel.

(** Which files can be opened and which programs started. *)
Context (can_open : list Z -> Z -> bool) (can_exec : list Z -> bool).

(** The programs that a process with descriptors [t] and its children start, each with its
    descriptors, if no fork fails.  [id] is the next pipe.  The list goes through the tree
    of processes, a child before the rest of its parent; that is not the order of time
    (ShellOrder.v). *)
Fixpoint run (p : prog) (t : fds) (id : nat) : list (list (list Z) * fds) * nat :=
  match p with
  | Exit _ => ([], id)
  | Exec path argv failed => if can_exec path then ([(argv, t)], id) else run failed t id
  | Close fd k => run k (fd_close fd t) id
  | Open path mode k =>
      match (if can_open path mode then fd_put (OFile path mode) t else None) with
      | Some (fd, t) => run (k fd) t id
      | None => run (k (-1)) t id
      end
  | Dup fd k =>
      match o ← fd_get fd t; fd_put o t with
      | Some (_, t) => run k t id
      | None => run k t id
      end
  | Pipe k =>
      match x ← fd_put (OPipeR id) t; y ← fd_put (OPipeW id) (snd x); Some (fst x, fst y, snd y) with
      | Some (p0, p1, t) => run (k (Some (p0, p1))) t (S id)
      | None => run (k None) t id
      end
  | Fork k =>
      let '(child, id) := run (k 0) t id in
      let '(parent, id) := run (k 1) t id in
      (child ++ parent, id)
  | Wait k => run k t id
  | Chdir _ k => run (k 0) t id
  | Print _ _ k => run k t id
  end.

(** ** What a command means *)

(** The programs of a command and their descriptors: a redirection replaces one descriptor,
    a pipeline connects the output of its left side to the input of its right side. *)
Fixpoint starts_with (c : cmd (list Z)) (t : fds) (id : nat) : list (list (list Z) * fds) * nat :=
  match c with
  | EXEC argv =>
      (match argv with [] => [] | a :: _ => if can_exec a then [(argv, t)] else [] end, id)
  | REDIR c f m d =>
      if can_open f m then starts_with c (<[Z.to_nat d := Some (OFile f m)]> t) id else ([], id)
  | LIST l r =>
      let '(a, id) := starts_with l t id in
      let '(b, id) := starts_with r t id in (a ++ b, id)
  | PIPE l r =>
      let '(a, id') := starts_with l (<[1%nat := Some (OPipeW id)]> t) (S id) in
      let '(b, id') := starts_with r (<[0%nat := Some (OPipeR id)]> t) id' in (a ++ b, id')
  | BACK c => starts_with c t id
  end.

End Kernel.

(** ** Descriptor tables *)

(** The standard descriptors are open, and two others are free. *)
Definition standard (t : fds) : Prop :=
  forall i, (i < 3)%nat -> exists o, t !! i = Some (Some o).
Definition ready (t : fds) : Prop :=
  standard t /\ exists i j, (i < j)%nat /\ t !! i = Some None /\ t !! j = Some None.

Lemma fd_free_spec t n : fd_free t = Some n <->
  t !! n = Some None /\ forall m, (m < n)%nat -> exists o, t !! m = Some (Some o).
Proof.
  revert n. induction t as [|[o|] t IH]; intros n; cbn.
  - split; [done|]. by intros [H _].
  - destruct n as [|n].
    + split; [by intros (m & _ & [=])%fmap_Some|]. by intros [H _].
    + rewrite fmap_Some. split.
      * intros (m & Hm & [= ->]). apply IH in Hm as [H1 H2]. split; [done|].
        intros [|k] Hk; [by exists o|]. apply H2. lia.
      * intros [H1 H2]. exists n. split; [|done]. apply IH. split; [done|]. intros k Hk.
        apply (H2 (S k)). lia.
  - split.
    + intros [= <-]. split; [done|]. lia.
    + intros [H1 H2]. destruct n as [|n]; [done|]. destruct (H2 0%nat) as [o Ho]; [lia|done].
Qed.

Lemma ready_insert t d o : ready t -> (d < 3)%nat -> ready (<[d := Some o]> t).
Proof.
  intros [H1 (i & j & Hij & Hi & Hj)] Hd. split.
  - intros k Hk. destruct (decide (k = d)) as [->|Hne].
    + exists o. rewrite list_lookup_insert_eq; [done|]. destruct (H1 d Hd) as [o' Ho]. by eapply lookup_lt_Some.
    + rewrite list_lookup_insert_ne by done. by apply H1.
  - assert (Hbig : forall k, t !! k = Some None -> k <> d).
    { intros k Hk ->. destruct (H1 d Hd). congruence. }
    pose proof (Hbig i Hi). pose proof (Hbig j Hj). exists i, j.
    by rewrite !list_lookup_insert_ne by done.
Qed.

(** Closing a standard descriptor and allocating one gives it back. *)
Lemma reopen t d o : standard t -> (d < 2)%nat ->
  fd_put o (<[d := None]> t) = Some (Z.of_nat d, <[d := Some o]> t).
Proof.
  intros H1 Hd. unfold fd_put.
  assert (Hf : fd_free (<[d := None]> t) = Some d).
  { apply fd_free_spec. destruct (H1 d) as [o' Ho]; [lia|]. split.
    - rewrite list_lookup_insert_eq; [done|]. by eapply lookup_lt_Some.
    - intros m Hm. rewrite list_lookup_insert_ne by lia. apply H1. lia. }
  rewrite Hf. cbn. by rewrite list_insert_insert_eq.
Qed.

(** A pipe takes two descriptors that were free. *)
Lemma pipe_fds t r w : ready t -> exists n0 n1, (3 <= n0 < n1)%nat /\
  t !! n0 = Some None /\ t !! n1 = Some None /\
  fd_put r t = Some (Z.of_nat n0, <[n0 := Some r]> t) /\
  fd_put w (<[n0 := Some r]> t) = Some (Z.of_nat n1, <[n1 := Some w]> (<[n0 := Some r]> t)).
Proof.
  intros [H1 (i & j & Hij & Hi & Hj)].
  assert (Hex : forall t k, t !! k = Some None -> exists n, fd_free t = Some n).
  { clear. induction t as [|[o|] t IH]; intros k Hk; cbn.
    - done.
    - destruct k as [|k]; [done|]. destruct (IH k Hk) as [n ->]. by exists (S n).
    - by exists 0%nat. }
  destruct (Hex t i Hi) as [n0 Hn0]. pose proof (proj1 (fd_free_spec t n0) Hn0) as [F1 F2].
  assert (Hj0 : n0 <> j). { intros <-. destruct (F2 i Hij). congruence. }
  set (t1 := <[n0 := Some r]> t).
  assert (Hj1 : t1 !! j = Some None) by (unfold t1; by rewrite list_lookup_insert_ne).
  destruct (Hex t1 j Hj1) as [n1 Hn1]. pose proof (proj1 (fd_free_spec t1 n1) Hn1) as [G1 G2].
  assert (Hn1n : n1 <> n0).
  { intros ->. unfold t1 in G1. rewrite list_lookup_insert_eq in G1; [done|]. by eapply lookup_lt_Some. }
  unfold t1 in G1. rewrite list_lookup_insert_ne in G1 by done.
  exists n0, n1. repeat split; try done.
  - destruct (decide (n0 < 3)%nat) as [H|H]; [|lia]. destruct (H1 n0 H). congruence.
  - destruct (decide (n1 < n0)%nat) as [H|H]; [|lia]. destruct (F2 n1 H). congruence.
  - unfold fd_put. by rewrite Hn0.
  - unfold fd_put. fold t1. by rewrite Hn1.
Qed.

(** What is left of the table in a child of a pipeline, and in its parent. *)
Lemma pipe_close t n0 n1 (r w : obj) (x : fds -> fds) : (n0 < n1)%nat ->
  t !! n0 = Some None -> t !! n1 = Some None ->
  (forall i l, i = n0 \/ i = n1 -> x l !! i = l !! i) ->
  (forall i l l', i <> n0 -> i <> n1 -> l !! i = l' !! i -> x l !! i = x l' !! i) ->
  <[n1 := None]> (<[n0 := None]> (x (<[n1 := Some w]> (<[n0 := Some r]> t)))) = x t.
Proof.
  intros Hn H0 H1 Hx Hy. apply list_eq. intros i.
  destruct (decide (i = n1)) as [->|Hi1].
  { rewrite Hx, H1 by auto. apply list_lookup_insert_Some. left. split; [done|]. split; [done|].
    rewrite length_insert. apply (lookup_lt_is_Some _ n1). rewrite Hx by auto.
    rewrite list_lookup_insert_eq; [done|]. rewrite length_insert. by eapply lookup_lt_Some. }
  rewrite list_lookup_insert_ne by done. destruct (decide (i = n0)) as [->|Hi0].
  { rewrite Hx, H0 by auto. apply list_lookup_insert_Some. left. split; [done|]. split; [done|].
    apply (lookup_lt_is_Some _ n0). rewrite Hx by auto. rewrite list_lookup_insert_ne by done.
    rewrite list_lookup_insert_eq; [done|]. by eapply lookup_lt_Some. }
  rewrite list_lookup_insert_ne by done. apply Hy; [done|done|].
  by rewrite !list_lookup_insert_ne.
Qed.

Lemma standard_insert t n o : standard t -> (3 <= n)%nat -> standard (<[n := o]> t).
Proof. intros H Hn i Hi. rewrite list_lookup_insert_ne by lia. by apply H. Qed.

(** A child of a pipeline moves its end of the pipe to descriptor [d]. *)
Lemma plumb t d n0 n1 n (r w o : obj) : ready t -> (d < 2)%nat -> (3 <= n0 < n1)%nat ->
  t !! n0 = Some None -> t !! n1 = Some None -> n = n0 /\ o = r \/ n = n1 /\ o = w ->
  let t2 := <[n1 := Some w]> (<[n0 := Some r]> t) in
  (x ← fd_get (Z.of_nat n) (fd_close (Z.of_nat d) t2); fd_put x (fd_close (Z.of_nat d) t2)) =
    Some (Z.of_nat d, <[d := Some o]> t2) /\
  fd_close (Z.of_nat n1) (fd_close (Z.of_nat n0) (<[d := Some o]> t2)) = <[d := Some o]> t.
Proof.
  intros Hr Hd Hn H0 H1 Ho t2.
  assert (Hstd : standard t2) by (apply standard_insert; [apply standard_insert; [apply Hr|lia]|lia]).
  assert (Hget : t2 !! n = Some (Some o)).
  { apply lookup_lt_Some in H0, H1. destruct Ho as [[-> ->]|[-> ->]]; unfold t2.
    - rewrite list_lookup_insert_ne by lia. by apply list_lookup_insert_eq.
    - apply list_lookup_insert_eq. by rewrite length_insert. }
  unfold fd_get, fd_close. rewrite !Nat2Z.id. split.
  - rewrite list_lookup_insert_ne by (destruct Ho as [[-> _]|[-> _]]; lia). rewrite Hget. cbn.
    by apply reopen.
  - apply (pipe_close t n0 n1 r w (fun l => <[d := Some o]> l)); [lia|done|done| |].
    + intros i l Hi. rewrite list_lookup_insert_ne; [done|]. lia.
    + intros i l l' _ _ Hl. destruct (decide (i = d)) as [->|Hne].
      * destruct (decide (d < length l)%nat) as [Hlt|Hlt].
        -- assert (d < length l')%nat.
           { apply lookup_lt_is_Some. rewrite <- Hl. by apply lookup_lt_is_Some. }
           by rewrite !list_lookup_insert_eq.
        -- assert (~ (d < length l')%nat).
           { rewrite <- lookup_lt_is_Some in Hlt |- *. by rewrite <- Hl. }
           by rewrite !list_insert_ge by lia.
      * by rewrite !list_lookup_insert_ne.
Qed.

Section Run.
Context (can_open : list Z -> Z -> bool) (can_exec : list Z -> bool).

Lemma run_fork1 k t id : run can_open can_exec (fork1 k) t id =
  let '(child, id) := run can_open can_exec (k 0) t id in
  let '(parent, id) := run can_open can_exec (k 1) t id in (child ++ parent, id).
Proof. done. Qed.

Lemma redir_fd {T} (Q : T -> Prop) f m d : redir_ok Q (mkRedir f m d) -> exists n, d = Z.of_nat n /\ (n < 2)%nat.
Proof.
  intros [_ Hin]. cbn in Hin. apply elem_of_cons in Hin as [[= _ ->]|Hin]; [exists 0%nat; lia|].
  exists 1%nat. apply elem_of_cons in Hin as [[= _ ->]|Hin]; [lia|].
  apply list_elem_of_singleton in Hin as [= _ ->]. lia.
Qed.

(** The programs that [runcmd] starts, with their descriptors. *)
Lemma runcmd_run Q c t id : cmd_ok Q c -> ready t ->
  run can_open can_exec (runcmd c) t id = starts_with can_open can_exec c t id.
Proof.
  revert t id. induction c as [argv|c IH f m d|l IHl r IHr|l IHl r IHr|c IH]; intros t id Hok Ht.
  - cbn. destruct argv as [|a argv]; [done|]. cbn. by destruct (can_exec a).
  - destruct Hok as [Hc Hr]. destruct (redir_fd Q f m d Hr) as (n & -> & Hn).
    cbn [runcmd run starts_with]. unfold fd_close. rewrite Nat2Z.id.
    destruct (can_open f m); [|done]. rewrite reopen by (try apply Ht; done).
    rewrite (proj2 (Z.ltb_ge (Z.of_nat n) 0)) by lia. apply IH; [done|]. apply ready_insert; [done|lia].
  - destruct Hok as [Hl Hr]. cbn [runcmd run starts_with].
    destruct (pipe_fds t (OPipeR id) (OPipeW id) Ht) as (n0 & n1 & Hn & H0 & H1 & Hp0 & Hp1).
    rewrite Hp0. cbn [mbind option_bind fst snd]. rewrite Hp1. cbn [mbind option_bind fst snd].
    destruct (plumb t 1 n0 n1 n1 (OPipeR id) (OPipeW id) (OPipeW id) Ht) as [L1 L2]; [lia|done..|by right|].
    destruct (plumb t 0 n0 n1 n0 (OPipeR id) (OPipeW id) (OPipeR id) Ht) as [R1 R2]; [lia|done..|by left|].
    set (t2 := <[n1 := Some (OPipeW id)]> (<[n0 := Some (OPipeR id)]> t)) in *.
    rewrite run_fork1. cbn [Z.eqb Pos.eqb run]. change (fd_close 1 t2) with (fd_close (Z.of_nat 1) t2).
    rewrite L1, L2. rewrite IHl by (try apply ready_insert; try done; lia).
    destruct (starts_with _ _ l _ _) as [a id1].
    rewrite run_fork1. cbn [Z.eqb Pos.eqb run]. change (fd_close 0 t2) with (fd_close (Z.of_nat 0) t2).
    rewrite R1, R2. rewrite IHr by (try apply ready_insert; try done; lia).
    destruct (starts_with _ _ r _ _) as [b id2]. by rewrite app_nil_r.
  - destruct Hok as [Hl Hr]. cbn [runcmd starts_with]. rewrite run_fork1. cbn [Z.eqb Pos.eqb run].
    rewrite IHl by done. destruct (starts_with _ _ l _ _) as [a id1]. by rewrite IHr by done.
  - cbn [runcmd starts_with]. rewrite run_fork1. cbn [Z.eqb Pos.eqb run]. rewrite IH by done.
    destruct (starts_with _ _ c _ _) as [a id1]. by rewrite app_nil_r.
Qed.

End Run.

(** ** Lines *)

Lemma cmd_map_ext {T U} (f g : T -> U) c : Forall (fun t => f t = g t) (tokens c) -> cmd_map f c = cmd_map g c.
Proof.
  induction c as [argv|c IH t m d|l IHl r IHr|l IHl r IHr|c IH]; cbn; rewrite ?Forall_app, ?Forall_singleton.
  - intros H. f_equal. induction H as [|t argv Ht _ IH]; cbn; [done|]. by rewrite Ht, IH.
  - intros [H ->]. by rewrite IH.
  - intros [H1 H2]. by rewrite IHl, IHr.
  - intros [H1 H2]. by rewrite IHl, IHr.
  - intros H. by rewrite IH.
Qed.

Lemma cmd_ok_map {T U} (Q : T -> Prop) (f : T -> U) c : cmd_ok Q c -> cmd_ok (fun _ => True) (cmd_map f c).
Proof.
  induction c as [argv|c IH t m d|l IHl r IHr|l IHl r IHr|c IH]; cbn; try naive_solver.
  - intros [_ H]. split; [by apply Forall_true|]. by rewrite length_fmap.
  - intros [H [_ Hr]]. split; [auto|]. by split.
Qed.

(** A line that fits the buffer, is ended by a newline, and is not a change of directory. *)
Definition good_line (line : list Z) : Prop :=
  exists body, line = body ++ [10] /\ (length line < NBUFCMD)%nat /\
    Forall (fun c => c <> 10 /\ c <> 13 /\ c <> 0) body /\ take 3 line <> [99; 100; 32].

Lemma gets_line_newline k body rest : (length body < k)%nat -> Forall (fun c => c <> 10 /\ c <> 13 /\ c <> 0) body ->
  gets_loop k (body ++ 10 :: rest) = (body ++ [10], rest).
Proof.
  revert k. induction body as [|c body IH]; intros k Hk Hb; (destruct k as [|k]; [cbn in Hk; lia|]); [done|].
  apply Forall_cons in Hb as [(H1 & H2 & _) Hb]. cbn [app gets_loop].
  rewrite (proj2 (Z.eqb_neq c 10)), (proj2 (Z.eqb_neq c 13)) by done. cbn [orb].
  rewrite IH; [done| |done]. cbn in Hk. lia.
Qed.

Lemma until_nul_all l : Forall (fun c => c <> 0) l -> until_nul l = l.
Proof.
  induction 1 as [|c l Hc _ IH]; cbn; [done|]. rewrite (proj2 (Z.eqb_neq c 0)) by done. by rewrite IH.
Qed.

Lemma good_line_nonul line : good_line line -> Forall (fun c => c <> 0) line.
Proof.
  intros (body & -> & _ & Hb & _). apply Forall_app. split; [|by apply Forall_singleton].
  eapply Forall_impl; [exact Hb|]. cbn. tauto.
Qed.

(** One turn of the loop of the shell. *)
Lemma command_loop_turn fuel line rest : good_line line ->
  command_loop (S fuel) (line ++ rest) =
    Print "$ " [] (fork1 (fun pid => if pid =? 0 then run_line line else Wait (command_loop fuel rest))).
Proof.
  intros Hl. pose proof (good_line_nonul line Hl) as H0. destruct Hl as (body & Hline & Hlen & Hb & Hcd).
  assert (Hg : gets_line NBUFCMD (line ++ rest) = (line, rest)).
  { rewrite Hline, <- app_assoc. cbn [app]. unfold gets_line. apply gets_line_newline; [|done].
    rewrite Hline, length_app in Hlen. cbn in Hlen. unfold NBUFCMD in *. lia. }
  cbn [command_loop]. unfold getcmd. rewrite Hg. unfold cstring. rewrite (until_nul_all line H0).
  destruct line as [|c1 line]; [by destruct body|].
  destruct (decide (take 3 (c1 :: line) = [99; 100; 32])) as [|_]; [done|].
  destruct (decide (c1 = 99)) as [->|H1]; [|by repeat (case_match; try done)].
  destruct line as [|c2 line]; [done|].
  destruct (decide (c2 = 100)) as [->|H2]; [|by repeat (case_match; try done)].
  destruct line as [|c3 line]; [done|].
  destruct (decide (c3 = 32)) as [->|H3]; [done|by repeat (case_match; try done)].
Qed.

(** ** Theorems *)

(** C15: A command starts its programs with the right descriptors.  If the standard
    descriptors are open, then every program that [runcmd] starts has the descriptors the
    structure of the command says: the shell's own, with the redirected ones replaced and
    the two sides of each pipeline connected; no other end of a pipe stays open, so the
    reader of a pipe sees its end when the writer exits. *)
Theorem runcmd_plumbs (can_open : list Z -> Z -> bool) (can_exec : list Z -> bool) (c : cmd (list Z))
    (t : fds) (id : nat) :
  cmd_ok (fun _ => True) c -> ready t ->
  run can_open can_exec (runcmd c) t id = starts_with can_open can_exec c t id.
Proof. apply runcmd_run. Qed.

(** Descriptors as init leaves them, and "ls | wc > f". *)
Definition demo_fds : fds :=
  replicate 3 (Some (OFile console O_RDWR)) ++ replicate 13 None.
Definition demo_pipeline : cmd (list Z) :=
  PIPE (EXEC [[108; 115]]) (REDIR (EXEC [[119; 99]]) [102] 0x601 1).

Lemma demo_ready : ready demo_fds.
Proof.
  split.
  - intros i Hi. exists (OFile console O_RDWR). destruct i as [|[|[|i]]]; [done..|lia].
  - exists 3%nat, 4%nat. split; [lia|done].
Qed.

Lemma runcmd_plumbs_witness :
  run (fun _ _ => true) (fun _ => true) (runcmd demo_pipeline) demo_fds 7 =
  starts_with (fun _ _ => true) (fun _ => true) demo_pipeline demo_fds 7.
Proof.
  apply (runcmd_plumbs (fun _ _ => true) (fun _ => true) demo_pipeline demo_fds 7).
  - cbn. unfold MAXARGS. repeat split; try lia; try (by repeat constructor).
  - apply demo_ready.
Defined.
