(* ===== verification/ShellOrder.v ===== *)
(** * The processes of the shell side by side (user/sh.c)

    The programs of ShellRun.v, run as processes that the kernel interleaves as it likes.
    A process has children; [fork] adds one or fails, [wait] needs a child that has exited,
    [exit] leaves the children to init, and a program that has been started runs until it
    exits by itself.  What happens is recorded as a trace of events.

    The theorem: whatever the interleaving, the lines of the input are run one after the
    other, and so are the commands of a list [a; b], while the two sides of a pipeline run
    side by side, connected by a pipe of their own. *)

From stdpp Require Import base gmap list strings.
From Stdlib Require Import ZArith Lia.
From S2P Require Import Prelude Riscv Shell ShellTheorems ShellRun.

#[local] Set Warnings "-register-all,-clear-no-such-hyp".

(** ** Processes *)

Inductive process :=
| Shell (p : prog) (t : fds) (kids : list process)
| Running (argv : list (list Z)) (t : fds) (kids : list process)
| Zombie.

Inductive event :=
| Start (argv : list (list Z)) (t : fds)   (* [exec] has succeeded *)
| End (argv : list (list Z)) (t : fds)     (* the program has exited *)
| NewPipe (id : nat)
| ForkFailed.

Definition pipes (tr : list event) : list nat :=
  omap (fun e => match e with NewPipe id => Some id | _ => None end) tr.

Section Kernel.
Context (can_open : list Z -> Z -> bool) (can_exec : list Z -> bool).

(** The system calls that concern the process alone. *)
Definition call (p : prog) (t : fds) : option (prog * fds) :=
  match p with
  | Close fd k => Some (k, fd_close fd t)
  | Open path mode k =>
      Some (match (if can_open path mode then fd_put (OFile path mode) t else None) with
            | Some (fd, t') => (k fd, t')
            | None => (k (-1), t)
            end)
  | Dup fd k => Some (match o ← fd_get fd t; fd_put o t with Some (_, t') => (k, t') | None => (k, t) end)
  | Exec path argv failed => if can_exec path then None else Some (failed, t)
  | Print _ _ k => Some (k, t)
  | _ => None
  end.

(** [pipe]: the two descriptors, if there are two. *)
Definition new_pipe (id : nat) (t : fds) : option (Z * Z * fds) :=
  x ← fd_put (OPipeR id) t; y ← fd_put (OPipeW id) (snd x); Some (fst x, fst y, snd y).

(** One step of a process or of one of its descendants: the events, and the processes
    that have lost their parent by it. *)
Inductive step : process -> list event -> process -> list process -> Prop :=
| S_call p t kids p' t' : call p t = Some (p', t') ->
    step (Shell p t kids) [] (Shell p' t' kids) []
| S_chdir path k t kids r : r = 0 \/ r = -1 ->
    step (Shell (Chdir path k) t kids) [] (Shell (k r) t kids) []
| S_pipe k t kids id p0 p1 t' : new_pipe id t = Some (p0, p1, t') ->
    step (Shell (Pipe k) t kids) [NewPipe id] (Shell (k (Some (p0, p1))) t' kids) []
| S_pipe_fail k t kids : new_pipe 0 t = None ->
    step (Shell (Pipe k) t kids) [] (Shell (k None) t kids) []
| S_fork k t kids pid : 0 < pid ->
    step (Shell (Fork k) t kids) [] (Shell (k pid) t (kids ++ [Shell (k 0) t []])) []
| S_fork_fail k t kids :
    step (Shell (Fork k) t kids) [ForkFailed] (Shell (k (-1)) t kids) []
| S_wait k t l1 l2 :
    step (Shell (Wait k) t (l1 ++ Zombie :: l2)) [] (Shell k t (l1 ++ l2)) []
| S_wait_none k t :
    step (Shell (Wait k) t []) [] (Shell k t []) []
| S_exec path argv failed t kids : can_exec path = true ->
    step (Shell (Exec path argv failed) t kids) [Start argv t] (Running argv t kids) []
| S_exit status t kids : step (Shell (Exit status) t kids) [] Zombie kids
| S_end argv t kids : step (Running argv t kids) [End argv t] Zombie kids
| S_kid p t l1 x l2 e x' os : step x e x' os ->
    step (Shell p t (l1 ++ x :: l2)) e (Shell p t (l1 ++ x' :: l2)) os
| S_prog_kid argv t l1 x l2 e x' os : step x e x' os ->
    step (Running argv t (l1 ++ x :: l2)) e (Running argv t (l1 ++ x' :: l2)) os.

(** The machine: any of its processes takes a step; those without a parent go to the end
    of the list, where init waits for them.  A new pipe has a number that is not in use. *)
Inductive machine_step : nat -> list process -> list event -> nat -> list process -> Prop :=
| M_step id l1 x l2 e x' os : step x e x' os -> (forall i, i ∈ pipes e -> i = id) ->
    machine_step id (l1 ++ x :: l2) e (id + length (pipes e)) (l1 ++ x' :: l2 ++ os).

Inductive execution (id : nat) (l : list process) : list event -> nat -> list process -> Prop :=
| E_start : execution id l [] id l
| E_step tr id1 l1 e id2 l2 : execution id l tr id1 l1 -> machine_step id1 l1 e id2 l2 ->
    execution id l (tr ++ e) id2 l2.

End Kernel.

(** ** What a command means over time *)

(** The sequences that are interleaved in [l]. *)
Inductive merges {A} : list (list A) -> list A -> Prop :=
| merges_nil ls : Forall (fun l => l = []) ls -> merges ls []
| merges_cons ls1 x l ls2 rest : merges (ls1 ++ l :: ls2) rest -> merges (ls1 ++ (x :: l) :: ls2) (x :: rest).

(** No command in the background. *)
Fixpoint foreground {T} (c : cmd T) : Prop :=
  match c with
  | EXEC _ => True
  | REDIR c _ _ _ => foreground c
  | PIPE l r | LIST l r => foreground l /\ foreground r
  | BACK _ => False
  end.

Section Meaning.
Context (can_open : list Z -> Z -> bool) (can_exec : list Z -> bool).

(** The traces of a command whose process has the descriptors [t]. *)
Inductive cmd_trace : cmd (list Z) -> fds -> list event -> Prop :=
| T_exec a argv t : can_exec a = true ->
    cmd_trace (EXEC (a :: argv)) t [Start (a :: argv) t; End (a :: argv) t]
| T_exec_none a argv t : can_exec a = false -> cmd_trace (EXEC (a :: argv)) t []
| T_exec_empty t : cmd_trace (EXEC []) t []
| T_redir c f m d t tr : can_open f m = true -> cmd_trace c (<[Z.to_nat d := Some (OFile f m)]> t) tr ->
    cmd_trace (REDIR c f m d) t tr
| T_redir_none c f m d t : can_open f m = false -> cmd_trace (REDIR c f m d) t []
| T_list l r t tr1 tr2 : cmd_trace l t tr1 -> cmd_trace r t tr2 -> cmd_trace (LIST l r) t (tr1 ++ tr2)
| T_pipe l r t id tr1 tr2 tr :
    cmd_trace l (<[1%nat := Some (OPipeW id)]> t) tr1 -> cmd_trace r (<[0%nat := Some (OPipeR id)]> t) tr2 ->
    merges [tr1; tr2] tr -> cmd_trace (PIPE l r) t (NewPipe id :: tr).

(** The traces of a line; nothing happens if it is refused. *)
Definition line_trace (t : fds) (line : list Z) (tr : list event) : Prop :=
  match parsecmd line with Ok c _ => cmd_trace (cmd_map text c) t tr | _ => tr = [] end.

Definition foreground_line (line : list Z) : Prop :=
  match parsecmd line with Ok c _ => foreground c | _ => True end.

End Meaning.

(** ** Merging *)

Lemma merges_insert_nil {A} (ls1 ls2 : list (list A)) l : merges (ls1 ++ ls2) l -> merges (ls1 ++ [] :: ls2) l.
Proof.
  intros H. remember (ls1 ++ ls2) as ls eqn:E. revert ls1 ls2 E.
  induction H as [ls H|k1 x l k2 rest _ IH]; intros ls1 ls2 E.
  - subst. apply merges_nil. apply Forall_app in H as [H1 H2]. by apply Forall_app_2; [|apply Forall_cons_2].
  - apply app_eq_app in E as (m & [[-> ->]|[-> E]]).
    + rewrite app_comm_cons, app_assoc. apply merges_cons. rewrite <- app_assoc. cbn. apply IH. by rewrite <- app_assoc.
    + destruct m as [|y m]; cbn in E.
      * subst ls2. rewrite app_nil_r. rewrite (cons_middle []), app_assoc.
        apply merges_cons. rewrite <- app_assoc. by apply IH.
      * injection E as <- ->. rewrite <- app_assoc. cbn. apply merges_cons.
        specialize (IH (k1 ++ l :: m) ls2). rewrite <- !app_assoc in IH. cbn in IH. by apply IH.
Qed.

(** ** Complete runs of one process *)

Section Runs.
Context (can_open : list Z -> Z -> bool) (can_exec : list Z -> bool).
#[local] Abbreviation step := (step can_open can_exec).
#[local] Abbreviation call := (call can_open can_exec).

(** A process runs until it has exited: the trace, and the processes it has left to init. *)
Inductive completes : process -> list event -> list process -> Prop :=
| C_done : completes Zombie [] []
| C_step x e x' os tr os' : step x e x' os -> completes x' tr os' -> completes x (e ++ tr) (os ++ os').

Lemma step_event x e x' os : step x e x' os -> e = [] \/ exists ev, e = [ev].
Proof. induction 1; eauto. Qed.

Lemma zombie_stops e x' os : ~ step Zombie e x' os.
Proof. inversion 1. Qed.

Lemma completes_zombie tr os : completes Zombie tr os -> tr = [] /\ os = [].
Proof. inversion 1 as [|x e x' os1 tr1 os2 Hs]; subst; [done|]. by apply zombie_stops in Hs. Qed.

(** A call of a process without children. *)
Lemma completes_call p t p' t' tr os : call p t = Some (p', t') ->
  completes (Shell p t []) tr os -> completes (Shell p' t' []) tr os.
Proof.
  intros Hc H. inversion H as [|x e x' os1 tr1 os2 Hs Hr]; subst. inversion Hs; subst; try (by cbn in Hc).
  - match goal with E : ShellOrder.call _ _ _ _ = _ |- _ => rewrite Hc in E; by injection E as <- <- end.
  - cbn in Hc. by case_match.
  - by destruct l1.
Qed.

(** [fork]: what the other children do before can as well be done after it. *)
Lemma completes_fork k t kids tr os : completes (Shell (Fork k) t kids) tr os -> ForkFailed ∉ tr ->
  exists pid, 0 < pid /\ completes (Shell (k pid) t (kids ++ [Shell (k 0) t []])) tr os.
Proof.
  intros H. remember (Shell (Fork k) t kids) as x eqn:E. revert kids E.
  induction H as [|x e x' os1 tr1 os2 Hs Hr IH]; intros kids E Hf; [done|subst x].
  rewrite not_elem_of_app in Hf. destruct Hf as [Hf1 Hf2]. inversion Hs; subst; try done.
  - by exists pid.
  - destruct Hf1. left.
  - destruct (IH _ eq_refl Hf2) as (pid & Hpid & Hc). exists pid. split; [done|].
    rewrite <- app_assoc in *. cbn in *. eapply C_step; [by apply S_kid|done].
Qed.

(** [wait] with one child. *)
Lemma completes_wait k t x tr os : completes (Shell (Wait k) t [x]) tr os ->
  exists tr1 os1 tr2 os2, completes x tr1 os1 /\ completes (Shell k t []) tr2 os2 /\ tr = tr1 ++ tr2 /\ os = os1 ++ os2.
Proof.
  intros H. remember (Shell (Wait k) t [x]) as y eqn:E. revert x E.
  induction H as [|y e y' os1 tr1 os2 Hs Hr IH]; intros x E; [done|subst y].
  inversion Hs; subst; try done.
  - destruct l1 as [|z l1]; [|by destruct l1]. destruct l2; [|done].
    match goal with E : [] ++ _ = [x] |- _ => injection E as <- end.
    exists [], [], tr1, os2. split; [apply C_done|done].
  - destruct l1 as [|z l1]; [|by destruct l1]. destruct l2; [|done].
    match goal with E : [] ++ _ = [x] |- _ => injection E as <- end.
    destruct (IH _ eq_refl) as (u1 & o1 & u2 & o2 & H1 & H2 & -> & ->).
    exists (e ++ u1), (os1 ++ o1), u2, o2. rewrite <- !app_assoc. split; [by eapply C_step|done].
Qed.

(** Code that only closes descriptors and waits, [n] times, and exits. *)
Inductive joins : nat -> prog -> Prop :=
| J_exit status : joins 0 (Exit status)
| J_wait n k : joins n k -> joins (S n) (Wait k)
| J_close n fd k : joins n k -> joins n (Close fd k).

(** A process that waits for all its children runs them side by side. *)
Lemma completes_join n q t kids tr os : joins n q -> length kids = n -> completes (Shell q t kids) tr os ->
  exists runs, Forall2 (fun x r => completes x r.1 r.2) kids runs /\ merges (fst <$> runs) tr /\ os ≡ₚ concat (snd <$> runs).
Proof.
  intros Hj Hn H. remember (Shell q t kids) as x eqn:E. revert n q t kids Hj Hn E.
  induction H as [|x e x' os1 tr1 os2 Hs Hr IH]; intros n q t kids Hj Hn E; [done|subst x].
  inversion Hs; subst; try (by inversion Hj).
  - inversion Hj as [| |n fd k Hk]; subst; try done.
    match goal with E : ShellOrder.call _ _ _ _ = _ |- _ => cbn in E; injection E as <- <- end.
    by apply (IH _ k (fd_close fd t) kids Hk).
  - inversion Hj as [|n' k' Hk|]; subst. rewrite length_app in *. cbn in *.
    destruct (IH n' k t (l1 ++ l2) Hk) as (runs & Hruns & Hm & Ho); [rewrite length_app; lia|done|].
    apply Forall2_app_inv_l in Hruns as (r1 & r2 & F1 & F2 & ->). exists (r1 ++ ([], []) :: r2).
    split; [by apply Forall2_app; [|apply Forall2_cons; split; [apply C_done|]]|].
    rewrite !fmap_app, !fmap_cons in *. cbn. split; [by apply merges_insert_nil|].
    rewrite concat_app in *. done.
  - inversion Hj; subst. destruct os1; [|done]. apply completes_zombie in Hr as [-> ->]. exists [].
    split; [constructor|]. split; [by apply merges_nil|done].
  - destruct (IH _ q t (l1 ++ x'0 :: l2) Hj) as (runs & Hruns & Hm & Ho); [rewrite !length_app; done|done|].
    apply Forall2_app_inv_l in Hruns as (r1 & r2 & F1 & F2 & ->).
    apply Forall2_cons_inv_l in F2 as ([u o] & r3 & Hx & F3 & ->). exists (r1 ++ (e ++ u, os1 ++ o) :: r3).
    split; [by apply Forall2_app; [|apply Forall2_cons; split; [by eapply C_step|]]|].
    rewrite !fmap_app, !fmap_cons in *. cbn in *. split.
    + assert (e = [] \/ exists ev, e = [ev]) as [->|[ev ->]] by (by eapply step_event); [done|]. by apply merges_cons.
    + rewrite Ho, !concat_app. cbn. rewrite <- app_assoc. by rewrite (Permutation_app_swap_app os1).
Qed.

Lemma completes_exit status t tr os : completes (Shell (Exit status) t []) tr os -> tr = [] /\ os = [].
Proof.
  intros H. inversion H as [|x e x' os1 tr1 os2 Hs Hr]; subst. inversion Hs; subst; try done; [|by destruct l1].
  by apply completes_zombie in Hr as [-> ->].
Qed.

Lemma completes_exec path argv failed t tr os : can_exec path = true ->
  completes (Shell (Exec path argv failed) t []) tr os -> tr = [Start argv t; End argv t] /\ os = [].
Proof.
  intros Hc H. inversion H as [|x e x' os1 tr1 os2 Hs Hr]; subst. inversion Hs; subst; try (by destruct l1).
  - match goal with E : ShellOrder.call _ _ _ _ = _ |- _ => cbn in E; by rewrite Hc in E end.
  - inversion Hr as [|x e x' os1 tr2 os3 Hs' Hr']; subst. inversion Hs'; subst; [|by destruct l1].
    by apply completes_zombie in Hr' as [-> ->].
Qed.

Lemma completes_pipe k t tr os : ready t -> completes (Shell (Pipe k) t []) tr os ->
  exists id p0 p1 t' tr', new_pipe id t = Some (p0, p1, t') /\ tr = NewPipe id :: tr' /\
    completes (Shell (k (Some (p0, p1))) t' []) tr' os.
Proof.
  intros Ht H. inversion H as [|x e x' os1 tr1 os2 Hs Hr]; subst. inversion Hs; subst; try done.
  - by exists id, p0, p1, t', tr1.
  - destruct (pipe_fds t (OPipeR 0) (OPipeW 0) Ht) as (n0 & n1 & _ & _ & _ & Hp0 & Hp1).
    match goal with E : new_pipe _ _ = None |- _ => unfold new_pipe in E; rewrite Hp0 in E; cbn [mbind option_bind fst snd] in E;
      rewrite Hp1 in E; done end.
  - by destruct l1.
Qed.

(** [fork1] when the fork succeeds. *)
Lemma completes_fork1 k (parent : prog) t kids tr os : (forall pid, 0 < pid -> k pid = parent) ->
  completes (Shell (fork1 k) t kids) tr os -> ForkFailed ∉ tr ->
  completes (Shell parent t (kids ++ [Shell (k 0) t []])) tr os.
Proof.
  intros Hk H Hf. apply completes_fork in H as (pid & Hpid & H); [|done].
  rewrite (proj2 (Z.eqb_neq pid (-1))) in H by lia. by rewrite Hk in H.
Qed.

Lemma positive_branch {A} (x y : A) pid : 0 < pid -> (if pid =? 0 then x else y) = y.
Proof. intros H. by rewrite (proj2 (Z.eqb_neq pid 0)) by lia. Qed.

Lemma merges_in {A} (ls : list (list A)) l k x : merges ls l -> k ∈ ls -> x ∈ k -> x ∈ l.
Proof.
  intros H. revert k. induction H as [ls H|ls1 y l ls2 rest _ IH]; intros k Hk Hx.
  - rewrite Forall_forall in H. by rewrite (H k Hk) in Hx.
  - rewrite elem_of_app, elem_of_cons in Hk. destruct Hk as [Hk|[->|Hk]].
    + right. apply (IH k); [|done]. apply elem_of_app. by left.
    + apply elem_of_cons in Hx as [->|Hx]; [left|right]. apply (IH l); [|done]. apply elem_of_app. right. left.
    + right. apply (IH k); [|done]. apply elem_of_app. right. by right.
Qed.

(** A child of a pipeline, before its command: its end of the pipe is descriptor [d]. *)
Lemma completes_plumb t d n0 n1 n (r w o : obj) k tr os : ready t -> (d < 2)%nat -> (3 <= n0 < n1)%nat ->
  t !! n0 = Some None -> t !! n1 = Some None -> n = n0 /\ o = r \/ n = n1 /\ o = w ->
  completes (Shell (Close (Z.of_nat d) (Dup (Z.of_nat n) (Close (Z.of_nat n0) (Close (Z.of_nat n1) k))))
    (<[n1 := Some w]> (<[n0 := Some r]> t)) []) tr os ->
  completes (Shell k (<[d := Some o]> t) []) tr os.
Proof.
  intros Ht Hd Hn H0 H1 Ho H. destruct (plumb t d n0 n1 n r w o Ht Hd Hn H0 H1 Ho) as [P1 P2].
  eapply completes_call in H; [|done]. eapply completes_call in H; [|cbn; by rewrite P1].
  do 2 (eapply completes_call in H; [|done]). by rewrite P2 in H.
Qed.

(** What [runcmd] does is what the command means. *)
Lemma runcmd_completes Q c : forall t tr os, cmd_ok Q c -> foreground c -> ready t ->
  completes (Shell (runcmd c) t []) tr os -> ForkFailed ∉ tr -> os = [] /\ cmd_trace can_open can_exec c t tr.
Proof.
  induction c as [argv|c IH f m d|l IHl r IHr|l IHl r IHr|c IH]; intros t tr os Hok Hfg Ht H Hf.
  - destruct argv as [|a argv]; cbn [runcmd] in H.
    { apply completes_exit in H as [-> ->]. split; [done|apply T_exec_empty]. }
    destruct (can_exec a) eqn:Ha.
    + apply completes_exec in H as [-> ->]; [|done]. split; [done|by apply T_exec].
    + eapply completes_call in H; [|cbn; by rewrite Ha]. eapply completes_call in H; [|done].
      apply completes_exit in H as [-> ->]. split; [done|by apply T_exec_none].
  - destruct Hok as [Hc Hr]. destruct (redir_fd Q f m d Hr) as (n & -> & Hn). cbn [runcmd] in H.
    eapply completes_call in H; [|done]. unfold fd_close in H. rewrite Nat2Z.id in H.
    destruct (can_open f m) eqn:Ho.
    + eapply completes_call in H; [|cbn; by rewrite Ho, reopen by (try apply Ht; done)]. rewrite (proj2 (Z.ltb_ge (Z.of_nat n) 0)) in H by lia.
      destruct (IH (<[n := Some (OFile f m)]> t) tr os) as [-> Htr]; [done|done|apply ready_insert; [done|lia]|done|done|].
      split; [done|]. apply T_redir; [done|]. by rewrite Nat2Z.id.
    + eapply completes_call in H; [|cbn; by rewrite Ho]. change (-1 <? 0) with true in H. cbn iota in H. eapply completes_call in H; [|done].
      apply completes_exit in H as [-> ->]. split; [done|by apply T_redir_none].
  - destruct Hok as [Hl Hr]. destruct Hfg as [Hfl Hfr]. cbn [runcmd] in H.
    apply completes_pipe in H as (id & p0 & p1 & t' & tr' & Hp & -> & H); [|done].
    apply not_elem_of_cons in Hf as [_ Hf].
    destruct (pipe_fds t (OPipeR id) (OPipeW id) Ht) as (n0 & n1 & Hn & H0 & H1 & Hp0 & Hp1).
    unfold new_pipe in Hp. rewrite Hp0 in Hp. cbn [mbind option_bind fst snd] in Hp. rewrite Hp1 in Hp.
    cbn [mbind option_bind fst snd] in Hp. injection Hp as <- <- <-.
    eapply completes_fork1 in H; [|intros pid Hpid; by apply positive_branch|done].
    eapply completes_fork1 in H; [|intros pid Hpid; by apply positive_branch|done]. cbn [Z.eqb app] in H.
    eapply completes_join in H as (runs & Hruns & Hm & Ho); [|by repeat constructor|done].
    apply Forall2_cons_inv_l in Hruns as ([u1 o1] & r1 & Hx1 & Hruns & ->).
    apply Forall2_cons_inv_l in Hruns as ([u2 o2] & r2 & Hx2 & Hruns & ->). apply Forall2_nil_inv_l in Hruns as ->. cbn in *.
    apply (completes_plumb t 1 n0 n1 n1 _ _ (OPipeW id)) in Hx1; [|done|lia|done..|by right].
    apply (completes_plumb t 0 n0 n1 n0 _ _ (OPipeR id)) in Hx2; [|done|lia|done..|by left].
    apply IHl in Hx1 as [-> T1]; [|done|done|apply ready_insert; [done|lia]|intros Hin; apply Hf; eapply merges_in; [exact Hm|left|done]].
    apply IHr in Hx2 as [-> T2]; [|done|done|apply ready_insert; [done|lia]|intros Hin; apply Hf; eapply merges_in; [exact Hm|right; left|done]].
    split; [by apply Permutation_nil_r in Ho|]. by eapply T_pipe.
  - destruct Hok as [Hl Hr]. destruct Hfg as [Hfl Hfr]. cbn [runcmd] in H.
    eapply completes_fork1 in H; [|intros pid Hpid; by apply positive_branch|done].
    apply completes_wait in H as (u1 & o1 & u2 & o2 & H1 & H2 & -> & ->). apply not_elem_of_app in Hf as [Hf1 Hf2].
    apply IHl in H1 as [-> T1]; [|done..]. apply IHr in H2 as [-> T2]; [|done..]. split; [done|by apply T_list].
  - done.
Qed.

Lemma foreground_map {T U} (f : T -> U) c : foreground c -> foreground (cmd_map f c).
Proof. induction c; cbn; tauto. Qed.

Lemma line_completes line t tr os : good_line line -> foreground_line line -> ready t ->
  completes (Shell (run_line line) t []) tr os -> ForkFailed ∉ tr -> os = [] /\ line_trace can_open can_exec t line tr.
Proof.
  intros Hl%good_line_nonul Hfg Ht H Hf. unfold run_line, line_trace, foreground_line in *. pose proof (parsecmd_cases line) as Hc.
  destruct (parsecmd line) as [c buf|msg s|s]; [|..|done].
  - destruct Hc as [Hok ->]. rewrite (cmd_map_ext _ text) in H.
    + eapply runcmd_completes; [by eapply cmd_ok_map|by apply foreground_map|done..].
    + apply Forall_forall. intros x Hx. apply terminated; [by apply cmd_ok_tokens|done|done].
  - eapply completes_call in H; [|done]. by apply completes_exit in H as [-> ->].
Qed.

Lemma loop_completes lines t : ready t -> forall fuel tr os, Forall good_line lines -> Forall foreground_line lines ->
  (length lines < fuel)%nat -> completes (Shell (command_loop fuel (concat lines)) t []) tr os -> ForkFailed ∉ tr ->
  os = [] /\ exists trs, tr = concat trs /\ Forall2 (line_trace can_open can_exec t) lines trs.
Proof.
  intros Ht. induction lines as [|line lines IH]; intros fuel tr os Hl Hfg Hn H Hf; (destruct fuel as [|fuel]; [cbn in Hn; lia|]).
  - cbn [concat] in H. eapply completes_call in H; [|done]. apply completes_exit in H as [-> ->].
    split; [done|]. exists []. by split; [|constructor].
  - apply Forall_cons in Hl as [Hline Hl], Hfg as [Hfline Hfg]. cbn [concat] in H. rewrite command_loop_turn in H by done.
    eapply completes_call in H; [|done]. eapply completes_fork1 in H; [|intros pid Hpid; by apply positive_branch|done].
    apply completes_wait in H as (u1 & o1 & u2 & o2 & H1 & H2 & -> & ->). apply not_elem_of_app in Hf as [Hf1 Hf2].
    apply line_completes in H1 as [-> T1]; [|done..]. cbn in Hn.
    apply IH in H2 as [-> (trs & -> & F)]; [|done|done|lia|done]. split; [done|]. exists (u1 :: trs). by split; [|constructor].
Qed.

Lemma main_completes lines t tr os : ready t -> Forall good_line lines -> Forall foreground_line lines ->
  completes (Shell (sh_main (concat lines)) t []) tr os -> ForkFailed ∉ tr ->
  os = [] /\ exists trs, tr = concat trs /\ Forall2 (line_trace can_open can_exec t) lines trs.
Proof.
  intros Ht Hl Hfg H Hf. apply (loop_completes lines t Ht (S (length (concat lines)))); try done.
  - apply le_n_S. clear -Hl. induction Hl as [|line lines Hline _ IH]; cbn; [lia|]. rewrite length_app.
    destruct Hline as (body & -> & _). rewrite length_app. cbn. lia.
  - unfold sh_main in H. cbn [open_console] in H. destruct (can_open console O_RDWR) eqn:Ho.
    + destruct (pipe_fds t (OFile console O_RDWR) (OFile console O_RDWR) Ht) as (n0 & n1 & Hn & H0 & _ & Hp & _).
      eapply completes_call in H; [|cbn; by rewrite Ho, Hp].
      rewrite (proj2 (Z.ltb_ge _ 0)), (proj2 (Z.leb_le 3 _)) in H by lia. eapply completes_call in H; [|done].
      unfold fd_close in H. by rewrite Nat2Z.id, list_insert_insert_eq, list_insert_id in H.
    + eapply completes_call in H; [|cbn; by rewrite Ho]. done.
Qed.

(** ** Every process can finish *)

Lemma process_ind_kids (P : process -> Prop) :
  (forall p t kids, Forall P kids -> P (Shell p t kids)) -> (forall argv t kids, P (Running argv t kids)) -> P Zombie ->
  forall x, P x.
Proof.
  intros HS HR HZ. fix IH 1. intros [p t kids|argv t kids|]; [|apply HR|exact HZ].
  apply HS. induction kids as [|x kids IHk]; constructor; [apply IH|exact IHk].
Qed.

(** The process can run to its end without a failing fork, the next pipe being [id]. *)
Definition can_finish (x : process) (id : nat) : Prop :=
  exists tr os, completes x tr os /\ (ForkFailed ∉ tr) /\ pipes tr = seq id (length (pipes tr)).

Lemma pipes_app tr1 tr2 : pipes (tr1 ++ tr2) = pipes tr1 ++ pipes tr2.
Proof. apply omap_app. Qed.

Lemma finish_step x e x' os id : step x e x' os -> ForkFailed ∉ e -> pipes e = [] -> can_finish x' id -> can_finish x id.
Proof.
  intros Hs Hf He (tr & os' & H & Hf' & Hp). exists (e ++ tr), (os ++ os'). split; [by eapply C_step|].
  rewrite not_elem_of_app. split; [done|]. by rewrite pipes_app, He.
Qed.

(** A child runs to its end, then the rest happens. *)
Lemma completes_kid x tr1 os1 : completes x tr1 os1 -> forall p t l1 l2 tr2 os2,
  completes (Shell p t (l1 ++ Zombie :: l2)) tr2 os2 -> completes (Shell p t (l1 ++ x :: l2)) (tr1 ++ tr2) (os1 ++ os2).
Proof.
  induction 1 as [|x e x' os tr os' Hs _ IH]; intros p t l1 l2 tr2 os2 H2; [done|].
  rewrite <- !app_assoc. eapply C_step; [by apply S_kid|]. by apply IH.
Qed.

Lemma finish_kid x p t l1 l2 id : can_finish x id -> (forall id, can_finish (Shell p t (l1 ++ Zombie :: l2)) id) ->
  can_finish (Shell p t (l1 ++ x :: l2)) id.
Proof.
  intros (tr1 & os1 & H1 & Hf1 & Hp1) Hrest. destruct (Hrest (id + length (pipes tr1))%nat) as (tr2 & os2 & H2 & Hf2 & Hp2).
  exists (tr1 ++ tr2), (os1 ++ os2). split; [by apply completes_kid|]. split; [by apply not_elem_of_app|].
  rewrite !pipes_app, length_app, seq_app. by f_equal.
Qed.

Lemma new_pipe_none id id' t : new_pipe id t = None -> new_pipe id' t = None.
Proof.
  unfold new_pipe, fd_put. destruct (fd_free t) as [n|]; cbn; [|done].
  assert (Hf : forall o o' : obj, fd_free (<[n := Some o]> t) = fd_free (<[n := Some o']> t)).
  { intros o o'. revert n. induction t as [|[x|] t IH]; intros [|n]; cbn; try done. f_equal. apply (IH n). }
  rewrite (Hf _ (OPipeR id')). by destruct (fd_free _).
Qed.

Lemma finish_shell p : forall t kids id, Forall (fun x => x = Zombie) kids -> can_finish (Shell p t kids) id.
Proof.
  induction p as [st|path argv failed IH|fd k IH|path mode k IH|fd k IH|k IH|k IH|k IH|path k IH|msg arg k IH]; intros t kids id Hz.
  - exists [], (kids ++ []). split; [|by split; [apply not_elem_of_nil|]]. eapply (C_step _ []); [apply S_exit|apply C_done].
  - destruct (can_exec path) eqn:Hc.
    + exists ([Start argv t] ++ [End argv t] ++ []), ([] ++ kids ++ []).
      split; [|split; [by set_solver|done]].
      eapply C_step; [by apply S_exec|]. eapply C_step; [apply S_end|apply C_done].
    + eapply finish_step; [apply S_call; cbn; by rewrite Hc|apply not_elem_of_nil|done|by apply IH].
  - eapply finish_step; [by apply S_call|apply not_elem_of_nil|done|by apply IH].
  - destruct (if can_open path mode then fd_put (OFile path mode) t else None) as [[fd t']|] eqn:E;
      (eapply finish_step; [apply S_call; cbn; by rewrite E|apply not_elem_of_nil|done|by apply IH]).
  - destruct (o ← fd_get fd t; fd_put o t) as [[fd' t']|] eqn:E;
      (eapply finish_step; [apply S_call; cbn; by rewrite E|apply not_elem_of_nil|done|by apply IH]).
  - destruct (new_pipe id t) as [[[p0 p1] t']|] eqn:E.
    + destruct (IH (Some (p0, p1)) t' kids (S id) Hz) as (tr & os & H & Hf & Hp).
      exists ([NewPipe id] ++ tr), ([] ++ os). split; [eapply C_step; [by apply S_pipe|done]|].
      split; [by set_solver|]. cbn. by rewrite Hp at 1.
    + eapply finish_step; [apply S_pipe_fail; by eapply new_pipe_none|apply not_elem_of_nil|done|by apply IH].
  - eapply finish_step; [by apply (S_fork _ _ k t kids 1)|apply not_elem_of_nil|done|].
    apply finish_kid; [by apply IH|]. intros id'. apply IH. apply Forall_app_2; [done|by apply Forall_singleton].
  - destruct kids as [|x kids].
    + eapply finish_step; [apply S_wait_none|apply not_elem_of_nil|done|by apply IH].
    + apply Forall_cons in Hz as [-> Hz]. eapply finish_step; [by apply (S_wait _ _ k t [] kids)|apply not_elem_of_nil|done|by apply IH].
  - eapply finish_step; [apply (S_chdir _ _ path k t kids 0); by left|apply not_elem_of_nil|done|by apply IH].
  - eapply finish_step; [by apply S_call|apply not_elem_of_nil|done|by apply IH].
Qed.

Lemma finishes x : forall id, can_finish x id.
Proof.
  induction x as [p t kids Hk|argv t kids|] using process_ind_kids; intros id.
  - cut (forall l1 l2 id, Forall (fun x => x = Zombie) l1 -> Forall (fun x => forall id, can_finish x id) l2 ->
      can_finish (Shell p t (l1 ++ l2)) id); [intros H; by apply (H [])|]. clear. intros l1 l2. revert l1.
    induction l2 as [|x l2 IH]; intros l1 id Hz Hk; [rewrite app_nil_r; by apply finish_shell|].
    apply Forall_cons in Hk as [Hx Hk]. apply finish_kid; [done|]. intros id'.
    rewrite (app_assoc l1 [Zombie] l2 : l1 ++ Zombie :: l2 = _). apply IH; [|done].
    apply Forall_app_2; [done|by apply Forall_singleton].
  - exists ([End argv t] ++ []), (kids ++ []). split; [eapply C_step; [apply S_end|apply C_done]|].
    by split; [set_solver|].
  - exists [], []. split; [apply C_done|]. by split; [apply not_elem_of_nil|].
Qed.

(** ** The machine *)

#[local] Abbreviation execution := (execution can_open can_exec).

Lemma execution_cons id l e id1 l1 tr id2 l2 : machine_step can_open can_exec id l e id1 l1 ->
  execution id1 l1 tr id2 l2 -> execution id l (e ++ tr) id2 l2.
Proof.
  intros Hm. induction 1 as [|tr id3 l3 e' id4 l4 _ IH Hs].
  - rewrite app_nil_r. change e with ([] ++ e). eapply E_step; [apply E_start|done].
  - rewrite app_assoc. by eapply E_step.
Qed.

(** A complete run of one process as an execution of the machine. *)
Lemma completes_execution x tr os : completes x tr os -> forall id l1 l2, pipes tr = seq id (length (pipes tr)) ->
  exists id', execution id (l1 ++ x :: l2) tr id' (l1 ++ Zombie :: l2 ++ os).
Proof.
  induction 1 as [|x e x' os tr os' Hs _ IH]; intros id l1 l2 Hp.
  { exists id. rewrite app_nil_r. apply E_start. }
  rewrite pipes_app, length_app, seq_app in Hp. apply app_inj_1 in Hp as [Hp1 Hp2]; [|by rewrite length_seq].
  destruct (IH _ l1 (l2 ++ os) Hp2) as [id' H]. exists id'. rewrite app_assoc. eapply execution_cons; [|exact H].
  apply M_step; [done|]. intros i Hi. destruct (step_event _ _ _ _ Hs) as [->|[ev ->]]; [by apply not_elem_of_nil in Hi|].
  rewrite Hp1 in Hi. destruct ev; cbn in Hi; set_solver.
Qed.

(** The pipes of an execution are numbered one after the other. *)
Lemma execution_pipes id l tr id' l' : execution id l tr id' l' ->
  pipes tr = seq id (length (pipes tr)) /\ id' = (id + length (pipes tr))%nat.
Proof.
  induction 1 as [|tr id1 l1 e id2 l2 _ [IH1 IH2] Hs]; [cbn; split; [done|lia]|].
  inversion Hs as [id3 k1 x k2 e' x' os Hx Hi]; subst. rewrite pipes_app, length_app, seq_app. split; [|lia].
  f_equal; [done|]. destruct (step_event _ _ _ _ Hx) as [->|[[] ->]]; try done. cbn in *. f_equal. apply Hi. left.
Qed.

(** A process that leaves nothing to init stays alone. *)
Lemma execution_alone x id tr id' l : (forall tr os, completes x tr os -> ForkFailed ∉ tr -> os = []) ->
  execution id [x] tr id' l -> ForkFailed ∉ tr ->
  exists x', l = [x'] /\ forall tr' os, completes x' tr' os -> completes x (tr ++ tr') os.
Proof.
  intros Htidy. induction 1 as [|tr id1 l1 e id2 l2 _ IH Hs]; intros Hf; [by exists x|].
  apply not_elem_of_app in Hf as [Hf1 Hf2]. destruct (IH Hf1) as (x1 & -> & Hx1).
  inversion Hs as [id3 k1 y k2 e' y' os Hy Hi]; subst. destruct k1 as [|z k1]; [|by destruct k1].
  destruct k2; [|done]. match goal with E : [] ++ _ = [x1] |- _ => injection E as -> end. cbn [app] in *.
  assert (Hext : forall tr' os', completes y' tr' os' -> completes x ((tr ++ e) ++ tr') (os ++ os')).
  { intros tr' os' H. rewrite <- app_assoc. apply Hx1. by eapply C_step. }
  destruct (finishes y' 0) as (tr2 & os2 & H2 & Hf & _).
  assert (os ++ os2 = []) as [-> ->]%app_nil.
  { eapply Htidy; [by apply Hext|]. set_solver. }
  by exists y'.
Qed.

End Runs.

(** ** Theorem *)

(** C33: The shell runs its input line by line, whatever the interleaving of the processes.
    The lines fit the shell's buffer, are not changes of directory, and have no command in
    the background.  Then every execution of the machine in which no fork fails, observed at
    any time, can be continued until the shell has exited, and its trace is the
    concatenation of one trace for each line, in order; so a program of a line starts only
    when all the programs of the lines before have ended.  The trace of a line is that of
    its command: the parts of a list one after the other, the sides of a pipeline
    interleaved, each program with the descriptors the command says, each pipe with a number
    of its own.  A line with a syntax error starts nothing and does not stop the shell. *)
Theorem shell_runs_lines (can_open : list Z -> Z -> bool) (can_exec : list Z -> bool)
    (lines : list (list Z)) (t : fds) (id : nat) tr id1 l :
  Forall good_line lines -> Forall foreground_line lines -> ready t ->
  execution can_open can_exec id [Shell (sh_main (concat lines)) t []] tr id1 l -> ForkFailed ∉ tr ->
  exists tr' id2 trs, execution can_open can_exec id1 l tr' id2 [Zombie] /\ (ForkFailed ∉ tr') /\
    tr ++ tr' = concat trs /\ Forall2 (line_trace can_open can_exec t) lines trs /\ NoDup (pipes (tr ++ tr')).
Proof.
  intros Hl Hfg Ht He Hf. pose proof (execution_pipes _ _ _ _ _ _ _ He) as [Hp Hid].
  pose proof (fun tr os => main_completes can_open can_exec lines t tr os Ht Hl Hfg) as Hmain.
  apply execution_alone in He as (x & -> & Hx); [|intros u os H1 H2; by apply (Hmain u os H1 H2)|done].
  destruct (finishes can_open can_exec x id1) as (tr' & os & H & Hf' & Hp').
  destruct (Hmain (tr ++ tr') os) as [-> (trs & E & F)]; [by apply Hx|set_solver|].
  destruct (completes_execution _ _ _ _ _ H id1 [] [] Hp') as [id2 He'].
  exists tr', id2, trs. split; [done|]. split; [done|]. split; [done|]. split; [done|].
  rewrite pipes_app, Hp, Hp', Hid, <- seq_app. apply NoDup_seq.
Qed.

(** "a; b", "(" and "c" *)
Definition demo_lines : list (list Z) := [[97; 59; 32; 98; 10]; [40; 10]; [99; 10]].

Lemma shell_runs_lines_witness : exists tr id,
  execution (fun _ _ => true) (fun _ => true) 0 [Shell (sh_main (concat demo_lines)) demo_fds []] tr id [Zombie] /\
  tr = [Start [[97]] demo_fds; End [[97]] demo_fds; Start [[98]] demo_fds; End [[98]] demo_fds;
        Start [[99]] demo_fds; End [[99]] demo_fds].
Proof.
  destruct (shell_runs_lines (fun _ _ => true) (fun _ => true) demo_lines demo_fds 0 [] 0
    [Shell (sh_main (concat demo_lines)) demo_fds []]) as (tr & id & trs & He & _ & E & F & _).
  - repeat apply Forall_cons_2; [..|apply Forall_nil_2].
    + exists [97; 59; 32; 98]. unfold NBUFCMD. repeat split; [cbn; lia|by repeat constructor|done].
    + exists [40]. unfold NBUFCMD. repeat split; [cbn; lia|by repeat constructor|done].
    + exists [99]. unfold NBUFCMD. repeat split; [cbn; lia|by repeat constructor|done].
  - repeat apply Forall_cons_2; [..|apply Forall_nil_2]; vm_compute; repeat split.
  - apply demo_ready.
  - apply E_start.
  - apply not_elem_of_nil.
  - exists tr, id. split; [exact He|]. cbn [app] in E. rewrite E. clear E He.
    apply Forall2_cons_inv_l in F as (u1 & r1 & H1 & F & ->). apply Forall2_cons_inv_l in F as (u2 & r2 & H2 & F & ->).
    apply Forall2_cons_inv_l in F as (u3 & r3 & H3 & F & ->). apply Forall2_nil_inv_l in F as ->.
    unfold line_trace in *.
    change (cmd_trace (fun _ _ => true) (fun _ => true) (LIST (EXEC [[97]]) (EXEC [[98]])) demo_fds u1) in H1.
    change (u2 = []) in H2. change (cmd_trace (fun _ _ => true) (fun _ => true) (EXEC [[99]]) demo_fds u3) in H3.
    inversion H1 as [| | | | |l r t tr1 tr2 Ha Hb|]; subst.
    inversion Ha; [subst|done]. inversion Hb; [subst|done]. inversion H3; [subst|done]. reflexivity.
Defined.
