(* ===== verification/Malloc.v ===== *)
(** * The user-level allocator (user/umalloc.c)

    Memory is counted in units of sizeof(Header) = 16 bytes: a [Header *] is the number of
    its unit, and [bp + n] is [n] units further.  The headers in memory are a function from
    units; [base] is the unit of the static variable of that name, below the heap.  Units
    from [m_lo] to [m_brk] have been obtained from the kernel with sbrk; [m_grants] says of
    each further call of sbrk whether it succeeds, in which case it returns the old break. *)

From stdpp Require Import base functions gmap list strings.
From Stdlib Require Import ZArith Lia.
From S2P Require Import Prelude.

#[local] Set Warnings "-clear-no-such-hyp".

Record header := mkHeader { s_ptr : Z; s_size : Z }.

Record heap := mkHeap {
  m_hd : Z -> header;
  m_freep : Z;            (* 0: malloc has not been called *)
  m_lo : Z;
  m_brk : Z;
  m_grants : list bool
}.

Definition set_m_hd (x : Z -> header) (s : heap) : heap := mkHeap x (m_freep s) (m_lo s) (m_brk s) (m_grants s).
Definition set_m_freep (x : Z) (s : heap) : heap := mkHeap (m_hd s) x (m_lo s) (m_brk s) (m_grants s).
Definition set_m_brk (x : Z) (s : heap) : heap := mkHeap (m_hd s) (m_freep s) (m_lo s) x (m_grants s).
Definition set_m_grants (x : list bool) (s : heap) : heap := mkHeap (m_hd s) (m_freep s) (m_lo s) (m_brk s) x.

Abbreviation H := (M heap).

Definition ptr_of (p : Z) : H Z := gets (fun s => s_ptr (m_hd s p)).
Definition size_of (p : Z) : H Z := gets (fun s => s_size (m_hd s p)).
Definition set_ptr (p x : Z) : H unit :=
  modify (fun s => set_m_hd (<[p := mkHeader x (s_size (m_hd s p))]> (m_hd s)) s).
Definition set_size (p x : Z) : H unit :=
  modify (fun s => set_m_hd (<[p := mkHeader (s_ptr (m_hd s p)) x]> (m_hd s)) s).
Definition set_freep (x : Z) : H unit := modify (set_m_freep x).

Definition HEADER : Z := 16.

(** All of physical memory, PHYSTOP - KERNBASE, in units. *)
Definition MAXUNITS : Z := 128 * 1024 * 1024 / HEADER.

(** sbrk(n): the argument is an int; a negative one gives memory back, unless there is less
    than that.  Returns the old break. *)
Definition sbrk (n : Z) : H (option Z) := fun s =>
  let n := s32 n / HEADER in
  if n <=? 0 then Ok (Some (m_brk s)) (set_m_brk (if m_brk s + n <? 0 then m_brk s else m_brk s + n) s)
  else
    match m_grants s with
    | true :: g =>
        if m_brk s + n <=? m_lo s + MAXUNITS
        then Ok (Some (m_brk s)) (set_m_grants g (set_m_brk (m_brk s + n) s))
        else Ok None (set_m_grants g s)
    | false :: g => Ok None (set_m_grants g s)
    | [] => Ok None s
    end.

Section Alloc.

(** The address of the static variable base. *)
Context (base : Z).

(** A walk along the list visits each unit of the heap and [base] at most once. *)
Definition list_fuel (s : heap) : nat := Z.to_nat (m_brk s - m_lo s) + 2.

(** [for(p = freep; !(bp > p && bp < p->s.ptr); p = p->s.ptr) ...] *)
Fixpoint find_place (fuel : nat) (bp p : Z) : H Z :=
  match fuel with
  | O => block
  | S fuel =>
      n ← ptr_of p;
      if (p <? bp) && (bp <? n) then mret p
      else if (n <=? p) && ((p <? bp) || (bp <? n)) then mret p
      else find_place fuel bp n
  end.

(** Join [bp] to the block after it, [n], if they touch, or link it in front of it. *)
Definition join_upper (bp n : Z) : H unit :=
  bs ← size_of bp;
  if bp + bs =? n then
    ns ← size_of n;
    set_size bp (u32 (bs + ns));;
    nn ← ptr_of n;
    set_ptr bp nn
  else set_ptr bp n.

(** Join [bp] to the block before it, [p]. *)
Definition join_lower (p bp : Z) : H unit :=
  ps ← size_of p;
  if p + ps =? bp then
    bs ← size_of bp;
    set_size p (u32 (ps + bs));;
    n ← ptr_of bp;
    set_ptr p n
  else set_ptr p bp.

(** [free(ap)]; [bp] is the header before [ap]. *)
Definition free_header (bp : Z) : H unit :=
  p0 ← gets m_freep;
  fuel ← gets list_fuel;
  p ← find_place fuel bp p0;
  n ← ptr_of p;
  join_upper bp n;;
  join_lower p bp;;
  set_freep p.

Definition free (ap : Z) : H unit := free_header (ap - 1).

Definition morecore (nu : Z) : H (option Z) :=
  let nu := if nu <? 4096 then 4096 else nu in
  p ← sbrk (nu * HEADER);
  match p with
  | None => mret None
  | Some hp =>
      set_size hp nu;;
      free (hp + 1);;
      p ← gets m_freep;
      mret (Some p)
  end.

(** Take [nunits] units from the block [p], whose size is [sz]: all of it, or its tail end. *)
Definition take_block (nunits prevp p sz : Z) : H (option Z) :=
  r ← (if sz =? nunits then
         n ← ptr_of p;
         set_ptr prevp n;;
         mret p
       else
         set_size p (u32 (sz - nunits));;
         sz ← size_of p;
         let p := p + sz in
         set_size p nunits;;
         mret p);
  set_freep prevp;;
  mret (Some r).

(** The loop of [malloc]: returns the header of the block. *)
Fixpoint malloc_loop (fuel : nat) (nunits : Z) (prevp p : Z) : H (option Z) :=
  match fuel with
  | O => block
  | S fuel =>
      sz ← size_of p;
      if nunits <=? sz then take_block nunits prevp p sz
      else
        f ← gets m_freep;
        if p =? f then
          r ← morecore nunits;
          match r with
          | None => mret None
          | Some p => n ← ptr_of p; malloc_loop fuel nunits p n
          end
        else
          n ← ptr_of p;
          malloc_loop fuel nunits p n
  end.

Definition units (nbytes : Z) : Z := (nbytes + HEADER - 1) / HEADER + 1.

(** [malloc(nbytes)]: the pointer, or [None] for 0. *)
Definition malloc (nbytes : Z) : H (option Z) :=
  let nunits := units nbytes in
  f ← gets m_freep;
  prevp ← (if f =? 0 then
             set_freep base;;
             set_ptr base base;;
             set_size base 0;;
             mret base
           else mret f);
  p ← ptr_of prevp;
  fuel ← gets list_fuel;
  r ← malloc_loop (2 * fuel + 2) nunits prevp p;
  mret (option_map (fun p => p + 1) r).

End Alloc.
