(* ===== verification/MallocTheorems.v ===== *)
(** * Theorems about the user-level allocator

    The invariant of the heap, its preservation by [malloc] and [free], termination; and
    what a program that keeps to the rules of the interface sees of the two. *)

From stdpp Require Import base functions gmap list strings.
From Stdlib Require Import ZArith Lia.
From S2P Require Import Prelude Malloc.

#[local] Set Warnings "-clear-no-such-hyp".

(** ** Free lists *)

(** The nodes [l] follow [p] in memory, and the last one points to [e]. *)
Fixpoint links (hd : Z -> header) (p : Z) (l : list (Z * Z)) (e : Z) : Prop :=
  match l with
  | [] => s_ptr (hd p) = e
  | (a, n) :: l => s_ptr (hd p) = a /\ s_size (hd a) = n /\ links hd a l e
  end.

(** The blocks are in address order above [x], and no two of them touch. *)
Fixpoint spaced (x : Z) (l : list (Z * Z)) : Prop :=
  match l with
  | [] => True
  | (a, n) :: l => x < a /\ 0 < n /\ spaced (a + n) l
  end.

Definition last_of (p : Z) (l : list (Z * Z)) : Z := default p (last l.*1).

Lemma last_of_nil p : last_of p [] = p.
Proof. done. Qed.

Lemma last_of_snoc p l a n : last_of p (l ++ [(a, n)]) = a.
Proof. unfold last_of. rewrite fmap_app. cbn [fmap list_fmap fst]. by rewrite last_snoc. Qed.

Lemma last_of_cons p a n l : last_of p ((a, n) :: l) = last_of a l.
Proof.
  destruct l as [|[b m] l]; [done|]. unfold last_of. rewrite !fmap_cons, last_cons_cons.
  destruct (last _) eqn:Hl; [done|]. by apply last_None in Hl.
Qed.

Lemma links_app hd p l1 l2 e : links hd p (l1 ++ l2) e <->
  exists m, links hd p l1 m /\ links hd (last_of p l1) l2 e /\
    m = match l2 with [] => e | (a, _) :: _ => a end.
Proof.
  revert p. induction l1 as [|[a n] l1 IH]; intros p.
  - cbn. destruct l2 as [|[b m] l2]; cbn; [naive_solver|].
    split; [intros (H1 & H2 & H3); exists b; auto|by intros (x & _ & H & _)].
  - cbn [app links]. rewrite IH, last_of_cons. naive_solver.
Qed.

Lemma spaced_app x l1 l2 : spaced x (l1 ++ l2) <->
  spaced x l1 /\ spaced (match last l1 with Some (a, n) => a + n | None => x end) l2.
Proof.
  revert x. induction l1 as [|[a n] l1 IH]; intros x; [cbn; naive_solver|].
  cbn [app spaced]. rewrite IH. destruct l1 as [|[b m] l1]; [cbn; tauto|].
  rewrite last_cons_cons. destruct (last ((b, m) :: l1)) as [[c k]|] eqn:Hl; [tauto|].
  by apply last_None in Hl.
Qed.

Lemma spaced_gt x l a n : spaced x l -> (a, n) ∈ l -> x < a /\ 0 < n.
Proof.
  revert x. induction l as [|[b m] l IH]; intros x Hs Hin; [by apply not_elem_of_nil in Hin|].
  destruct Hs as (H1 & H2 & H3). apply elem_of_cons in Hin as [[= -> ->]|Hin]; [done|].
  destruct (IH _ H3 Hin). lia.
Qed.

Lemma spaced_before x l1 c k l2 a m : spaced x (l1 ++ (c, k) :: l2) -> (a, m) ∈ l1 -> a + m < c.
Proof.
  revert x. induction l1 as [|[b l] l1 IH]; intros x Hs Hin; [by apply not_elem_of_nil in Hin|].
  destruct Hs as (_ & _ & Hs). apply elem_of_cons in Hin as [[= -> ->]|Hin]; [|by eapply IH].
  eapply (spaced_gt _ _ c k Hs). set_solver.
Qed.

Lemma spaced_mono x y l : spaced x l -> y <= x -> spaced y l.
Proof. destruct l as [|[a n] l]; [done|]. cbn. intros (H1 & H2 & H3) H. repeat split; [lia|done|done]. Qed.

Lemma spaced_NoDup x l : spaced x l -> NoDup l.*1 /\ (x ∉ l.*1).
Proof.
  revert x. induction l as [|[a n] l IH]; intros x Hs; cbn; [split; [apply NoDup_nil_2|set_solver]|].
  destruct Hs as (H1 & H2 & H3).
  assert (Hgt : forall y, y ∈ l.*1 -> a + n < y).
  { intros y ([b m] & -> & Hb)%list_elem_of_fmap. by eapply spaced_gt. }
  split.
  - apply NoDup_cons. split; [|by eapply IH]. intros Hin. specialize (Hgt a Hin). lia.
  - intros [->|Hin]%elem_of_cons; [lia|]. specialize (Hgt x Hin). lia.
Qed.

(** Changing a header that is not in the list. *)
Lemma links_upd hd x v p l e : x <> p -> (x ∉ l.*1) -> links (<[x := v]> hd) p l e <-> links hd p l e.
Proof.
  revert p. induction l as [|[a n] l IH]; intros p Hp Hl; cbn.
  - by rewrite fn_lookup_insert_ne.
  - cbn in Hl. apply not_elem_of_cons in Hl as [Hxa Hl].
    rewrite fn_lookup_insert_ne by done. rewrite fn_lookup_insert_ne by done. by rewrite IH.
Qed.

(** Only the pointer of the first node matters. *)
Lemma links_retarget hd hd' p q l e : s_ptr (hd p) = s_ptr (hd' q) ->
  (forall a, a ∈ l.*1 -> hd a = hd' a) -> links hd p l e -> links hd' q l e.
Proof.
  revert p q. induction l as [|[a n] l IH]; intros p q Hp Hl; cbn; [congruence|].
  intros (H1 & H2 & H3). assert (Ha : hd a = hd' a) by (apply Hl; cbn; set_solver).
  split; [congruence|]. split; [congruence|]. apply (IH a a); [by rewrite Ha| |done].
  intros b Hb. apply Hl. cbn. set_solver.
Qed.

(** Changing where the last node points. *)
Lemma links_end hd p l e e' v : links hd p l e -> spaced p l ->
  s_size v = s_size (hd (last_of p l)) -> s_ptr v = e' -> links (<[last_of p l := v]> hd) p l e'.
Proof.
  intros Hl Hs Hv He. destruct l as [|[c k] l _] using rev_ind.
  - cbn. by rewrite fn_lookup_insert.
  - rewrite last_of_snoc in *. apply links_app in Hl as (m & H1 & H2 & ->). cbn in H2. destruct H2 as (H2 & H3 & H4).
    pose proof (spaced_NoDup _ _ Hs) as [Hnd Hp]. rewrite fmap_app in Hnd, Hp. cbn in Hnd, Hp.
    apply NoDup_app in Hnd as (Hnd & Hdis & _). apply not_elem_of_app in Hp as [Hp1 Hp2].
    assert (Hc : (c ∉ l.*1)). { intros Hin. by apply (Hdis c Hin); left. }
    assert (Hpc : p <> c) by set_solver.
    apply links_app. exists c. split; [by apply links_upd|]. split; [|done]. cbn.
    assert (Hlc : last_of p l <> c).
    { destruct l as [|[b m] l _] using rev_ind; [done|]. rewrite last_of_snoc. intros ->.
      apply Hc. rewrite fmap_app. cbn. set_solver. }
    rewrite fn_lookup_insert_ne by done. rewrite !fn_lookup_insert. split; [done|]. split; [congruence|done].
Qed.

(** ** The units of a list of blocks *)

Definition block_units (b : Z * Z) : list Z := seqZ (fst b) (snd b).
Definition units_of (l : list (Z * Z)) : list Z := concat (block_units <$> l).

Lemma units_app l1 l2 : units_of (l1 ++ l2) = units_of l1 ++ units_of l2.
Proof. unfold units_of. by rewrite fmap_app, concat_app. Qed.

Lemma units_cons a n l : units_of ((a, n) :: l) = seqZ a n ++ units_of l.
Proof. done. Qed.

Lemma units_join a n m : 0 <= n -> 0 <= m -> seqZ a n ++ seqZ (a + n) m = seqZ a (n + m).
Proof. intros Hn Hm. symmetry. by apply seqZ_app. Qed.

Lemma units_in l u : u ∈ units_of l <-> exists a n, (a, n) ∈ l /\ a <= u < a + n.
Proof.
  unfold units_of. rewrite list_elem_of_In, in_concat. split.
  - intros (x & Hx & Hu). apply list_elem_of_In, list_elem_of_fmap in Hx as ([a n] & -> & Hin).
    apply list_elem_of_In, elem_of_seqZ in Hu. eauto.
  - intros (a & n & Hin & Hu). exists (seqZ a n). split; apply list_elem_of_In.
    + apply list_elem_of_fmap. by exists (a, n).
    + by apply elem_of_seqZ.
Qed.

(** ** The invariant *)

Record heap_ok (base : Z) (s : heap) (fl al : list (Z * Z)) : Prop := {
  ok_base : 0 < base < m_lo s;
  ok_brk : m_lo s <= m_brk s <= m_lo s + MAXUNITS;
  ok_links : links (m_hd s) base fl base;
  ok_bsize : s_size (m_hd s base) = 0;
  ok_freep : m_freep s ∈ base :: fl.*1;
  ok_spaced : spaced (m_lo s - 1) fl;
  ok_alloc : forall a n, (a, n) ∈ al -> s_size (m_hd s a) = n /\ 0 < n;
  ok_part : units_of (fl ++ al) ≡ₚ seqZ (m_lo s) (m_brk s - m_lo s)
}.

Section Heap.
Context (base : Z).

Lemma ptr_run p s : ptr_of p s = Ok (s_ptr (m_hd s p)) s.
Proof. done. Qed.

(** A walk from a node before the place. *)
Lemma find_forward k bp p l1 l2 s : links (m_hd s) p (l1 ++ l2) base -> spaced p l1 ->
  base <= p -> p < bp -> (forall a n, (a, n) ∈ l1 -> a < bp) -> (forall a n, (a, n) ∈ l2 -> bp < a) ->
  find_place (S (length l1) + k) bp p s = Ok (last_of p l1) s.
Proof.
  revert p. induction l1 as [|[a n] l1 IH]; intros p Hl Hs Hb Hp H1 H2; cbn [length find_place Nat.add].
  - rewrite (run_bind _ _ _ _ _ (ptr_run p s)). destruct l2 as [|[a n] l2]; cbn in Hl.
    + rewrite Hl. rewrite (proj2 (Z.ltb_lt p bp)), (proj2 (Z.ltb_ge bp base)), (proj2 (Z.leb_le base p)) by lia.
      done.
    + destruct Hl as [-> _]. assert (bp < a) by (eapply H2; left).
      rewrite (proj2 (Z.ltb_lt p bp)), (proj2 (Z.ltb_lt bp a)) by lia. done.
  - cbn [app links] in Hl. destruct Hl as (Hpa & _ & Hl). destruct Hs as (Hpa' & Hn & Hs).
    assert (a < bp) by (eapply H1; left).
    rewrite (run_bind _ _ _ _ _ (ptr_run p s)), Hpa.
    rewrite (proj2 (Z.ltb_lt p bp)), (proj2 (Z.ltb_ge bp a)), (proj2 (Z.leb_gt a p)) by lia. cbn [andb].
    rewrite last_of_cons. apply IH; [done|eapply spaced_mono; [done|lia]|lia|done| |done].
    intros x y Hin. eapply H1. by right.
Qed.

(** A walk from a node after the place wraps around. *)
Lemma find_wrap k bp p l s : links (m_hd s) p l base -> spaced p l -> base < bp -> bp < p ->
  find_place (S (length l) + k) bp p s = find_place k bp base s.
Proof.
  revert p. induction l as [|[a n] l IH]; intros p Hl Hs Hb Hp; cbn [length find_place Nat.add];
    rewrite (run_bind _ _ _ _ _ (ptr_run p s)); cbn [links] in Hl.
  - rewrite Hl. rewrite (proj2 (Z.ltb_ge p bp)), (proj2 (Z.ltb_ge bp base)) by lia. cbn [andb orb].
    by rewrite andb_false_r.
  - destruct Hl as (-> & _ & Hl). destruct Hs as (Hpa & Hn & Hs).
    rewrite (proj2 (Z.ltb_ge p bp)), (proj2 (Z.leb_gt a p)) by lia. cbn [andb].
    apply IH; [done|eapply spaced_mono; [done|lia]|done|lia].
Qed.

Lemma last_of_app p l1 l2 : last_of p (l1 ++ l2) = last_of (last_of p l1) l2.
Proof.
  destruct l2 as [|[a n] l2 _] using rev_ind; [by rewrite app_nil_r|].
  by rewrite app_assoc, !last_of_snoc.
Qed.

(** The place of a block in the list. *)
Lemma find_place_run s f1 f2 bp fuel : links (m_hd s) base (f1 ++ f2) base ->
  spaced base (f1 ++ f2) -> base < bp -> m_freep s ∈ base :: (f1 ++ f2).*1 ->
  (forall a n, (a, n) ∈ f1 -> a < bp) -> (forall a n, (a, n) ∈ f2 -> bp < a) ->
  (length (f1 ++ f2) + 2 <= fuel)%nat ->
  find_place fuel bp (m_freep s) s = Ok (last_of base f1) s.
Proof.
  intros Hl Hs Hb Hin H1 H2 Hf. rewrite length_app in Hf.
  assert (Hs1 : spaced base f1) by (by apply spaced_app in Hs as [Hs _]).
  assert (Hfwd : forall k, find_place (S (length f1) + k) bp base s = Ok (last_of base f1) s).
  { intros k. eapply find_forward; done || lia. }
  apply elem_of_cons in Hin as [->|Hin].
  { replace fuel with (S (length f1) + (fuel - S (length f1)))%nat by lia. apply Hfwd. }
  rewrite fmap_app in Hin. apply elem_of_app in Hin as [Hin|Hin].
  - apply list_elem_of_fmap in Hin as ([c k] & Hc & Hin). cbn in Hc.
    apply list_elem_of_split in Hin as (g & g' & ->). rewrite Hc.
    rewrite <- app_assoc in Hl. apply links_app in Hl as (m & _ & Hl & _). cbn in Hl. destruct Hl as (_ & _ & Hl).
    apply spaced_app in Hs1 as [_ Hs1]. cbn in Hs1. destruct Hs1 as (_ & Hk & Hs1).
    assert (Hcb : base <= c).
    { rewrite <- app_assoc in Hs. cbn in Hs. apply Z.lt_le_incl. eapply (spaced_gt _ _ c k Hs). set_solver. }
    rewrite length_app in Hf. cbn in Hf.
    replace fuel with (S (length g') + (fuel - S (length g')))%nat by lia.
    rewrite last_of_app, last_of_cons. eapply find_forward; [done|eapply spaced_mono; [done|lia]|done| | |done].
    + apply (H1 _ k). set_solver.
    + intros a n Ha. apply (H1 a n). set_solver.
  - apply list_elem_of_fmap in Hin as ([c k] & Hc & Hin). cbn in Hc.
    apply list_elem_of_split in Hin as (g & g' & ->). rewrite Hc.
    assert (Hlc : links (m_hd s) c g' base).
    { rewrite app_assoc in Hl. apply links_app in Hl as (m & _ & Hl & _). apply Hl. }
    assert (Hsc : spaced (c + k) g').
    { rewrite app_assoc in Hs. apply spaced_app in Hs as [_ Hs]. apply Hs. }
    assert (Hck : bp < c) by (apply (H2 c k); set_solver).
    assert (Hk : 0 < k). { eapply (spaced_gt _ _ c k Hs). set_solver. }
    rewrite length_app in Hf. cbn in Hf.
    replace fuel with (S (length g') + (S (length f1) + (fuel - S (length g') - S (length f1))))%nat by lia.
    rewrite find_wrap; [apply Hfwd|done|eapply spaced_mono; [done|lia]|done|done].
Qed.

(** There are at most as many free blocks as units. *)
Lemma fl_length s fl al : heap_ok base s fl al -> (length fl <= Z.to_nat (m_brk s - m_lo s))%nat.
Proof.
  intros I. pose proof (Permutation_length (ok_part _ _ _ _ I)) as Hp.
  rewrite units_app, length_app, length_seqZ in Hp.
  enough (length fl <= length (units_of fl))%nat by lia.
  pose proof (ok_spaced _ _ _ _ I) as Hs. clear -Hs. revert Hs. generalize (m_lo s - 1).
  induction fl as [|[a n] fl IH]; intros x Hs; [cbn; lia|]. destruct Hs as (_ & Hn & Hs).
  rewrite units_cons, length_app, length_seqZ. specialize (IH _ Hs). cbn [length]. lia.
Qed.

(** *** Blocks do not overlap *)

Lemma block_range s fl al a n : heap_ok base s fl al -> (a, n) ∈ fl ++ al -> 0 < n ->
  m_lo s <= a /\ a + n <= m_brk s.
Proof.
  intros I Hin Hn.
  assert (Hu : forall u, a <= u < a + n -> m_lo s <= u < m_brk s).
  { intros u Hu. assert (Hin' : u ∈ seqZ (m_lo s) (m_brk s - m_lo s)).
    { rewrite <- (ok_part _ _ _ _ I). apply units_in. eauto. }
    apply elem_of_seqZ in Hin'. lia. }
  pose proof (Hu a). pose proof (Hu (a + n - 1)). lia.
Qed.

(** Two blocks at different places of the list are disjoint. *)
Lemma blocks_disjoint s fl al l1 l2 a n b m u : heap_ok base s fl al -> fl ++ al ≡ₚ l1 ++ l2 ->
  (a, n) ∈ l1 -> (b, m) ∈ l2 -> a <= u < a + n -> ~ (b <= u < b + m).
Proof.
  intros I Hp H1 H2 Hu Hu'.
  assert (Hnd : NoDup (units_of (l1 ++ l2))).
  { assert (Hpu : units_of (l1 ++ l2) ≡ₚ units_of (fl ++ al)).
    { unfold units_of. rewrite <- Hp. done. }
    rewrite Hpu, (ok_part _ _ _ _ I). apply NoDup_seqZ. }
  rewrite units_app in Hnd. apply NoDup_app in Hnd as (_ & Hd & _).
  apply (Hd u); apply units_in; eauto.
Qed.

(** The list around an address that is in none of its blocks. *)
Lemma spaced_split x l bp : spaced x l -> (forall a n, (a, n) ∈ l -> ~ (a <= bp < a + n)) ->
  exists f1 f2, l = f1 ++ f2 /\ (forall a n, (a, n) ∈ f1 -> a + n <= bp) /\
    (forall a n, (a, n) ∈ f2 -> bp < a).
Proof.
  revert x. induction l as [|[a n] l IH]; intros x Hs Hno.
  - exists [], []. split; [done|]. split; set_solver.
  - destruct Hs as (Hx & Hn & Hs). destruct (decide (bp < a)) as [Hlt|Hge].
    + exists [], ((a, n) :: l). split; [done|]. split; [set_solver|].
      intros b m [[= -> ->]|Hin]%elem_of_cons; [done|].
      destruct (spaced_gt _ _ b m Hs Hin). lia.
    + assert (Hend : a + n <= bp). { pose proof (Hno a n ltac:(left)). lia. }
      destruct (IH (a + n) Hs) as (f1 & f2 & -> & H1 & H2).
      { intros b m Hin. apply Hno. by right. }
      exists ((a, n) :: f1), f2. split; [done|]. split; [|done].
      intros b m [[= -> ->]|Hin]%elem_of_cons; [done|]. by apply H1.
Qed.

(** *** Changes of headers, pointwise *)

Definition same_but (xs : list Z) (hd hd' : Z -> header) : Prop := forall x, (x ∉ xs) -> hd' x = hd x.

Lemma links_same xs hd hd' p l e : same_but xs hd hd' -> (forall x, x ∈ p :: l.*1 -> (x ∉ xs)) ->
  links hd p l e -> links hd' p l e.
Proof.
  intros Hs Hx. apply links_retarget.
  - rewrite Hs; [done|]. apply Hx. by left.
  - intros a Ha. symmetry. apply Hs, Hx. by right.
Qed.

Lemma links_end' hd hd' p l e e' : links hd p l e -> spaced p l -> same_but [last_of p l] hd hd' ->
  s_size (hd' (last_of p l)) = s_size (hd (last_of p l)) -> s_ptr (hd' (last_of p l)) = e' ->
  links hd' p l e'.
Proof.
  intros Hl Hs Hb Hv He. pose proof (links_end hd p l e e' (hd' (last_of p l)) Hl Hs Hv He) as Hl'.
  assert (Hpt : forall x, <[last_of p l := hd' (last_of p l)]> hd x = hd' x).
  { intros x. destruct (decide (x = last_of p l)) as [->|Hx]; [by rewrite fn_lookup_insert|].
    rewrite fn_lookup_insert_ne by done. symmetry. apply Hb. set_solver. }
  revert Hl'. apply links_retarget; [by rewrite Hpt|]. intros a _. apply Hpt.
Qed.

Lemma join_upper_run s bp n : bp <> n -> exists hd,
  join_upper bp n s = Ok tt (set_m_hd hd s) /\ same_but [bp] (m_hd s) hd /\
  hd bp = (if bp + s_size (m_hd s bp) =? n
           then mkHeader (s_ptr (m_hd s n)) (u32 (s_size (m_hd s bp) + s_size (m_hd s n)))
           else mkHeader n (s_size (m_hd s bp))).
Proof.
  intros Hne. unfold join_upper. rewrite (run_bind _ _ _ (s_size (m_hd s bp)) s) by done.
  destruct (bp + s_size (m_hd s bp) =? n); eexists; (split; [reflexivity|]); (split; [|cbn]).
  - intros x Hx. cbn. rewrite !fn_lookup_insert_ne by set_solver. done.
  - rewrite !fn_lookup_insert. cbn. by rewrite fn_lookup_insert_ne.
  - intros x Hx. cbn. rewrite fn_lookup_insert_ne by set_solver. done.
  - by rewrite fn_lookup_insert.
Qed.

Lemma join_lower_run s p bp : p <> bp -> exists hd,
  join_lower p bp s = Ok tt (set_m_hd hd s) /\ same_but [p] (m_hd s) hd /\
  hd p = (if p + s_size (m_hd s p) =? bp
          then mkHeader (s_ptr (m_hd s bp)) (u32 (s_size (m_hd s p) + s_size (m_hd s bp)))
          else mkHeader bp (s_size (m_hd s p))).
Proof.
  intros Hne. unfold join_lower. rewrite (run_bind _ _ _ (s_size (m_hd s p)) s) by done.
  destruct (p + s_size (m_hd s p) =? bp); eexists; (split; [reflexivity|]); (split; [|cbn]).
  - intros x Hx. cbn. rewrite !fn_lookup_insert_ne by set_solver. done.
  - rewrite !fn_lookup_insert. cbn. by rewrite fn_lookup_insert_ne.
  - intros x Hx. cbn. rewrite fn_lookup_insert_ne by set_solver. done.
  - by rewrite fn_lookup_insert.
Qed.

(** What the two joins make of the list. *)
Definition join_right (bp n : Z) (f2 : list (Z * Z)) : list (Z * Z) :=
  match f2 with
  | (a, m) :: f2' => if bp + n =? a then (bp, n + m) :: f2' else (bp, n) :: f2
  | [] => [(bp, n)]
  end.

Definition join_left (f1 : list (Z * Z)) (x : Z * Z) (rest : list (Z * Z)) : list (Z * Z) :=
  match last f1 with
  | Some (c, k) => if c + k =? fst x then removelast f1 ++ (c, k + snd x) :: rest else f1 ++ x :: rest
  | None => x :: rest
  end.

Lemma join_right_shape bp n f2 : exists sz rest, join_right bp n f2 = (bp, sz) :: rest /\
  (sz = n /\ rest = f2 \/ exists m, f2 = (bp + n, m) :: rest /\ sz = n + m).
Proof.
  destruct f2 as [|[a m] f2]; cbn; [eauto 10|]. destruct (Z.eqb_spec (bp + n) a) as [<-|Hne]; eauto 10.
Qed.

Lemma removelast_snoc {A} (l : list A) x : removelast (l ++ [x]) = l.
Proof. apply removelast_last. Qed.

(** The units of the joined list. *)
Lemma join_units f1 bp n f2 : 0 < n -> (forall a m, (a, m) ∈ f1 ++ f2 -> 0 < m) ->
  exists sz rest, join_right bp n f2 = (bp, sz) :: rest /\
    units_of (join_left f1 (bp, sz) rest) ≡ₚ units_of (f1 ++ f2) ++ seqZ bp n.
Proof.
  intros Hn Hpos. destruct (join_right_shape bp n f2) as (sz & rest & Hj & Hsz). exists sz, rest.
  split; [done|].
  assert (Hr : 0 < sz /\ units_of ((bp, sz) :: rest) ≡ₚ seqZ bp n ++ units_of f2).
  { destruct Hsz as [[-> ->]|(m & -> & ->)]; [split; [done|by rewrite units_cons]|].
    assert (0 < m) by (apply (Hpos (bp + n)); set_solver). split; [lia|].
    rewrite !units_cons, <- units_join by lia. by rewrite app_assoc. }
  destruct Hr as [Hsz0 Hr]. unfold join_left. destruct f1 as [|[c k] f1 _] using rev_ind.
  - cbn [last app]. rewrite Hr. apply Permutation_app_comm.
  - rewrite last_snoc. cbn [fst snd]. destruct (Z.eqb_spec (c + k) bp) as [<-|Hne].
    + rewrite removelast_snoc, <- app_assoc. cbn [app]. rewrite !units_app, !units_cons.
      assert (0 < k) by (apply (Hpos c); set_solver).
      rewrite <- (units_join c k sz) by lia. rewrite units_cons in Hr. rewrite <- app_assoc, Hr.
      rewrite <- !app_assoc. do 2 apply Permutation_app_head. apply Permutation_app_comm.
    + rewrite (units_app _ ((bp, sz) :: rest)), (units_app _ f2), Hr, <- app_assoc.
      apply Permutation_app_head, Permutation_app_comm.
Qed.

Lemma starts_lt (l : list (Z * Z)) x (P : Z -> Prop) : (forall a m, (a, m) ∈ l -> P a) -> x ∈ l.*1 -> P x.
Proof. intros H ([a m] & -> & Hin)%list_elem_of_fmap. by eapply H. Qed.

(** The upper join keeps the list after [bp]. *)
Lemma upper_links hd hd1 p bp n f2 sz rest : links hd p f2 base -> base < bp ->
  (forall a m, (a, m) ∈ f2 -> bp < a) -> s_size (hd bp) = n -> 0 < n ->
  (forall a m, (a, m) ∈ f2 -> n + m < 2 ^ 32) -> (forall a m, (a, m) ∈ f2 -> 0 < m) ->
  same_but [bp] hd hd1 ->
  hd1 bp = (if bp + s_size (hd bp) =? s_ptr (hd p)
            then mkHeader (s_ptr (hd (s_ptr (hd p)))) (u32 (s_size (hd bp) + s_size (hd (s_ptr (hd p)))))
            else mkHeader (s_ptr (hd p)) (s_size (hd bp))) ->
  join_right bp n f2 = (bp, sz) :: rest -> links hd1 bp rest base /\ s_size (hd1 bp) = sz.
Proof.
  intros Hl Hb Hgt Hn Hn0 Hu Hm Hsame Hbp Hj. rewrite Hn in Hbp.
  assert (Hne : forall x, x ∈ f2.*1 -> x <> bp).
  { intros x Hx ->. pose proof (starts_lt f2 bp (fun a => bp < a) Hgt Hx). cbn in *. lia. }
  destruct f2 as [|[a m] f2]; cbn [links] in Hl.
  - rewrite Hl in Hbp. rewrite (proj2 (Z.eqb_neq (bp + n) base)) in Hbp by lia.
    cbn in Hj. injection Hj as <- <-. cbn [links]. by rewrite Hbp.
  - destruct Hl as (Hp & Ha & Hl). rewrite Hp, Ha in Hbp. cbn [join_right] in Hj.
    destruct (Z.eqb_spec (bp + n) a) as [He|He]; injection Hj as <- <-; rewrite Hbp; cbn [s_size].
    + split.
      * eapply links_retarget; [|intros x Hx|exact Hl]; [by rewrite Hbp|].
        symmetry. apply Hsame. rewrite list_elem_of_singleton. apply Hne. cbn. set_solver.
      * unfold u32. rewrite Z.mod_small; [done|]. pose proof (Hu a m ltac:(left)). pose proof (Hm a m ltac:(left)). lia.
    + split; [|done]. cbn [links]. rewrite Hbp. split; [done|].
      assert (Ha1 : hd1 a = hd a) by (apply Hsame; rewrite list_elem_of_singleton; apply Hne; cbn; set_solver).
      split; [by rewrite Ha1|]. eapply links_same; [exact Hsame| |done].
      intros x Hx. rewrite list_elem_of_singleton. by apply Hne.
Qed.

(** The lower join gives the whole list. *)
Lemma lower_links hd hd1 hd2 bp f1 f2 sz rest : links hd base (f1 ++ f2) base -> spaced base f1 ->
  base < bp -> s_size (hd base) = 0 -> (forall a m, (a, m) ∈ f1 -> a + m <= bp) ->
  (forall x, x ∈ rest.*1 -> bp < x) -> (forall a m, (a, m) ∈ f1 -> m + sz < 2 ^ 32) -> 0 < sz ->
  same_but [bp] hd hd1 -> links hd1 bp rest base -> s_size (hd1 bp) = sz ->
  same_but [last_of base f1] hd1 hd2 ->
  hd2 (last_of base f1) =
    (if last_of base f1 + s_size (hd1 (last_of base f1)) =? bp
     then mkHeader (s_ptr (hd1 bp)) (u32 (s_size (hd1 (last_of base f1)) + s_size (hd1 bp)))
     else mkHeader bp (s_size (hd1 (last_of base f1)))) ->
  links hd2 base (join_left f1 (bp, sz) rest) base /\ s_size (hd2 base) = 0.
Proof.
  intros Hl Hs Hb Hb0 Hle Hgt Hu Hsz Hs1 Hl1 Hsz1 Hs2 Hp.
  set (p := last_of base f1) in *.
  assert (Hf1 : forall x, x ∈ base :: f1.*1 -> x < bp).
  { intros x [->|([a m] & -> & Hin)%list_elem_of_fmap]%elem_of_cons; [done|]. cbn.
    pose proof (Hle a m Hin). pose proof (spaced_gt _ _ a m Hs Hin). lia. }
  assert (Hpin : p ∈ base :: f1.*1).
  { unfold p. destruct f1 as [|[c k] f1 _] using rev_ind; [by left|]. rewrite last_of_snoc, fmap_app.
    right. apply elem_of_app. right. by left. }
  assert (Hpbp : p < bp) by (by apply Hf1).
  apply links_app in Hl as (mid & Hl & Hl2 & _).
  assert (Hlf1 : links hd1 base f1 mid).
  { eapply links_same; [exact Hs1| |done]. intros x Hx. rewrite list_elem_of_singleton. specialize (Hf1 x Hx). lia. }
  assert (Hbp2 : hd2 bp = hd1 bp) by (apply Hs2; rewrite list_elem_of_singleton; lia).
  assert (Hrest : links hd2 bp rest base).
  { eapply links_same; [exact Hs2| |done]. intros x [->|Hx]%elem_of_cons; rewrite list_elem_of_singleton; [lia|].
    specialize (Hgt x Hx). lia. }
  assert (Hp1 : hd1 p = hd p) by (apply Hs1; rewrite list_elem_of_singleton; lia).
  (* not joined to the block before *)
  assert (Hlink : p + s_size (hd1 p) <> bp -> links hd2 base (f1 ++ (bp, sz) :: rest) base).
  { intros Hne. rewrite (proj2 (Z.eqb_neq _ _)) in Hp by done. apply links_app. exists bp.
    split; [|split; [|done]].
    - eapply links_end'; [exact Hlf1|done|exact Hs2| |]; fold p; by rewrite Hp.
    - cbn [links]. fold p. rewrite Hp, Hbp2. done. }
  unfold join_left. destruct f1 as [|[c k] g _] using rev_ind.
  - cbn [last]. assert (Hbase : p + s_size (hd1 p) <> bp).
    { rewrite Hp1. change p with base. rewrite Hb0. lia. }
    split; [apply Hlink, Hbase|]. assert (Hpb : hd2 p = hd2 base) by done.
    rewrite <- Hpb, Hp, (proj2 (Z.eqb_neq _ _)) by done. cbn [s_size]. by rewrite Hp1.
  - rewrite last_snoc. cbn [fst snd]. assert (Hpc : p = c) by (unfold p; apply last_of_snoc).
    apply links_app in Hl as (m2 & Hg & Hc & ->). cbn in Hc. destruct Hc as (Hgc & Hck & _).
    assert (Hcg : forall x, x ∈ base :: g.*1 -> x < c).
    { pose proof (spaced_gt _ _ c k Hs ltac:(set_solver)) as [Hbc _].
      intros x [->|([a m] & -> & Hin)%list_elem_of_fmap]%elem_of_cons; [done|]. cbn.
      pose proof (spaced_before _ _ _ _ _ a m Hs Hin).
      pose proof (spaced_gt _ _ a m Hs ltac:(set_solver)). lia. }
    destruct (Z.eqb_spec (c + k) bp) as [He|He].
    + rewrite Hp1, Hpc, Hck, (proj2 (Z.eqb_eq _ _) He) in Hp. rewrite Hsz1 in Hp.
      assert (Hkz : u32 (k + sz) = k + sz).
      { unfold u32. pose proof (Hu c k ltac:(set_solver)). pose proof (spaced_gt _ _ c k Hs ltac:(set_solver)).
        rewrite Z.mod_small; lia. }
      rewrite Hkz in Hp. rewrite removelast_snoc. rewrite Hpc in Hs2.
      assert (Hg2 : forall x, x ∈ base :: g.*1 -> hd2 x = hd x).
      { intros x Hx. specialize (Hcg x Hx). rewrite Hs2 by (rewrite list_elem_of_singleton; lia).
        apply Hs1. rewrite list_elem_of_singleton. lia. }
      split; [|by rewrite Hg2 by left]. apply links_app. exists c. split; [|split; [|done]].
      * eapply links_retarget; [| |exact Hg]; [by rewrite Hg2 by left|].
        intros x Hx. symmetry. apply Hg2. by right.
      * assert (Hlast : last_of base g ∈ base :: g.*1).
        { destruct g as [|[b l] g _] using rev_ind; [by left|]. rewrite last_of_snoc, fmap_app.
          right. apply elem_of_app. right. by left. }
        cbn [links]. rewrite (Hg2 _ Hlast), Hp. split; [done|]. split; [done|].
        eapply links_retarget; [| |exact Hrest]; [by rewrite Hp, Hbp2|done].
    + split; [apply Hlink; by rewrite Hp1, Hpc, Hck|]. rewrite Hs2, Hs1; [done|..]; rewrite list_elem_of_singleton.
      * lia.
      * rewrite Hpc. specialize (Hcg base ltac:(left)). lia.
Qed.

(** The joined list is in order, and its blocks do not touch. *)
Lemma join_spaced x f1 f2 bp n sz rest : spaced x (f1 ++ f2) -> x < bp -> 0 < n ->
  (forall a m, (a, m) ∈ f1 -> a + m <= bp) -> (forall a m, (a, m) ∈ f2 -> bp + n <= a) ->
  join_right bp n f2 = (bp, sz) :: rest -> spaced x (join_left f1 (bp, sz) rest).
Proof.
  intros Hs Hx Hn H1 H2 Hj. apply spaced_app in Hs as [Hs1 Hs2].
  assert (Hr : spaced (bp + sz) rest /\ 0 < sz).
  { destruct f2 as [|[a m] f2]; cbn [join_right] in Hj; [by injection Hj as <- <-|].
    destruct Hs2 as (_ & Hm & Hs2). pose proof (H2 a m ltac:(left)) as Ha.
    destruct (Z.eqb_spec (bp + n) a) as [He|He]; injection Hj as <- <-.
    - split; [|lia]. by replace (bp + (n + m)) with (a + m) by lia.
    - split; [|done]. repeat split; [lia|done|done]. }
  destruct Hr as [Hr Hsz]. unfold join_left. destruct f1 as [|[c k] g _] using rev_ind; [done|].
  rewrite last_snoc. cbn [fst snd]. pose proof (H1 c k ltac:(set_solver)) as Hck.
  destruct (Z.eqb_spec (c + k) bp) as [He|He].
  - rewrite removelast_snoc. apply spaced_app in Hs1 as [Hg Hc]. cbn in Hc. apply spaced_app.
    split; [done|]. cbn. destruct Hc as (Hc1 & Hc2 & _). split; [done|]. split; [lia|].
    by replace (c + (k + sz)) with (bp + sz) by lia.
  - apply spaced_app. split; [done|]. rewrite last_snoc. cbn. split; [lia|done].
Qed.

(** The freed units are in a block of the new list. *)
Lemma join_contains f1 bp n f2 sz rest : join_right bp n f2 = (bp, sz) :: rest -> 0 < n ->
  (forall a m, (a, m) ∈ f1 ++ f2 -> 0 < m) ->
  exists a m, (a, m) ∈ join_left f1 (bp, sz) rest /\ a <= bp /\ bp + n <= a + m.
Proof.
  intros Hj Hn Hpos. destruct (join_right_shape bp n f2) as (sz' & rest' & Hj' & Hsz).
  rewrite Hj in Hj'. injection Hj' as <- <-.
  assert (Hle : n <= sz).
  { destruct Hsz as [[-> _]|(m & -> & ->)]; [done|]. pose proof (Hpos (bp + n) m ltac:(set_solver)). lia. }
  unfold join_left. destruct f1 as [|[c k] g _] using rev_ind.
  - exists bp, sz. cbn. split; [by left|lia].
  - rewrite last_snoc. cbn [fst snd]. destruct (Z.eqb_spec (c + k) bp) as [He|He].
    + exists c, (k + sz). rewrite removelast_snoc. pose proof (Hpos c k ltac:(set_solver)).
      split; [set_solver|lia].
    + exists bp, sz. split; [set_solver|lia].
Qed.

Lemma join_length f1 bp n f2 sz rest : join_right bp n f2 = (bp, sz) :: rest ->
  (length (join_left f1 (bp, sz) rest) <= S (length (f1 ++ f2)))%nat.
Proof.
  intros Hj. destruct (join_right_shape bp n f2) as (sz' & rest' & Hj' & Hsz). rewrite Hj in Hj'. injection Hj' as <- <-.
  assert (Hr : (length rest <= length f2)%nat) by (destruct Hsz as [[_ ->]|(m & -> & _)]; cbn; lia).
  unfold join_left. destruct f1 as [|[c k] g _] using rev_ind; [cbn; lia|]. rewrite last_snoc.
  destruct (_ =? _); rewrite ?removelast_snoc, !length_app; cbn; lia.
Qed.

(** [free] gives a block back. *)
Lemma free_ok s fl bp n al : heap_ok base s fl ((bp, n) :: al) -> exists s' fl',
  free_header bp s = Ok tt s' /\ heap_ok base s' fl' al /\ m_brk s' = m_brk s /\ m_lo s' = m_lo s /\
  m_grants s' = m_grants s /\ (exists a m, (a, m) ∈ fl' /\ a <= bp /\ bp + n <= a + m) /\
  (length fl' <= S (length fl))%nat.
Proof.
  intros I. pose proof I as [Hbase Hbrk Hl Hb0 Hfr Hsp Hal Hpart].
  destruct (Hal bp n ltac:(left)) as [Hbs Hn].
  destruct (block_range s fl _ bp n I ltac:(set_solver) Hn) as [Hlo Hhi].
  assert (Hpos : forall a m, (a, m) ∈ fl -> 0 < m) by (intros a m Hin; by eapply spaced_gt).
  assert (Hdis : forall a m u, (a, m) ∈ fl -> a <= u < a + m -> ~ (bp <= u < bp + n)).
  { intros a m u Hin Hu. eapply (blocks_disjoint s fl _ fl ((bp, n) :: al)); [exact I|done|done|by left|done]. }
  destruct (spaced_split _ fl bp Hsp) as (f1 & f2 & -> & H1 & H2).
  { intros a m Hin Hu. apply (Hdis a m bp Hin Hu). lia. }
  assert (H2' : forall a m, (a, m) ∈ f2 -> bp + n <= a).
  { intros a m Hin. pose proof (H2 a m Hin). pose proof (Hpos a m ltac:(set_solver)).
    destruct (Z.le_gt_cases (bp + n) a); [done|]. exfalso. apply (Hdis a m a); [set_solver|lia|lia]. }
  assert (Hspb : spaced base (f1 ++ f2)) by (eapply spaced_mono; [done|lia]).
  assert (Hspb1 : spaced base f1) by (by apply spaced_app in Hspb as [? _]).
  assert (Hrange : forall a m, (a, m) ∈ f1 ++ f2 -> m <= MAXUNITS).
  { intros a m Hin. destruct (block_range s _ _ a m I ltac:(set_solver) (Hpos a m Hin)). lia. }
  assert (Hnmax : n <= MAXUNITS) by lia.
  set (p := last_of base f1).
  assert (Hp : p < bp).
  { unfold p. destruct f1 as [|[c k] g _] using rev_ind; [cbn; lia|]. rewrite last_of_snoc.
    pose proof (H1 c k ltac:(set_solver)). pose proof (Hpos c k ltac:(set_solver)). lia. }
  pose proof (fl_length s _ _ I) as Hlen.
  assert (Hfind : find_place (list_fuel s) bp (m_freep s) s = Ok p s).
  { apply find_place_run with (f2 := f2); [done|done|lia|done| |done|unfold list_fuel; lia].
    intros a m Hin. pose proof (H1 a m Hin). pose proof (Hpos a m ltac:(set_solver)). lia. }
  assert (Hl2 : links (m_hd s) p f2 base) by (by apply links_app in Hl as (? & _ & ? & _)).
  set (nxt := s_ptr (m_hd s p)).
  assert (Hnxt : bp <> nxt).
  { unfold nxt. destruct f2 as [|[a m] f2]; cbn in Hl2; [lia|]. destruct Hl2 as [-> _].
    pose proof (H2 a m ltac:(left)). lia. }
  destruct (join_upper_run s bp nxt Hnxt) as (hd1 & Hrun1 & Hs1 & Hbp1).
  destruct (join_lower_run (set_m_hd hd1 s) p bp ltac:(lia)) as (hd2 & Hrun2 & Hs2 & Hp2). cbn in Hrun2, Hs2, Hp2.
  destruct (join_units f1 bp n f2 Hn Hpos) as (sz & rest & Hj & Hun).
  destruct (join_right_shape bp n f2) as (sz' & rest' & Hj' & Hsz).
  rewrite Hj in Hj'. injection Hj' as <- <-.
  assert (Hszb : 0 < sz <= 2 * MAXUNITS).
  { destruct Hsz as [[-> _]|(m & -> & ->)]; [lia|]. pose proof (Hpos (bp + n) m ltac:(set_solver)).
    pose proof (Hrange (bp + n) m ltac:(set_solver)). lia. }
  change MAXUNITS with 8388608 in *.
  destruct (upper_links (m_hd s) hd1 p bp n f2 sz rest) as [Hrest Hsz1]; [done|lia|done|done|done| | |done|done|done|].
  { intros a m Hin. pose proof (Hrange a m ltac:(set_solver)). lia. }
  { intros a m Hin. apply (Hpos a m). set_solver. }
  destruct (lower_links (m_hd s) hd1 hd2 bp f1 f2 sz rest) as [Hfin Hb2];
    [done|done|lia|done|done| | |lia|done|done|done|done|done|].
  { intros x Hx. assert (Hx2 : x ∈ f2.*1).
    { destruct Hsz as [[_ ->]|(m & -> & _)]; [done|]. cbn. by right. }
    exact (starts_lt f2 x (fun a => bp < a) H2 Hx2). }
  { intros a m Hin. pose proof (Hrange a m ltac:(set_solver)). lia. }
  exists (set_m_freep p (set_m_hd hd2 s)), (join_left f1 (bp, sz) rest).
  split.
  { unfold free_header. rewrite (run_bind _ _ _ (m_freep s) s), (run_bind _ _ _ (list_fuel s) s) by done.
    rewrite (run_bind _ _ _ _ _ Hfind), (run_bind _ _ _ nxt s) by done.
    rewrite (run_bind _ _ _ _ _ Hrun1), (run_bind _ _ _ _ _ Hrun2). done. }
  split; [|split; [done|split; [done|split; [done|split]]]];
    [|by apply join_contains with (f2 := f2)|by eapply join_length].
  split; cbn; try done.
  - unfold p, join_left. destruct f1 as [|[c k] g _] using rev_ind; [by left|]. rewrite last_of_snoc, last_snoc.
    cbn [fst snd]. right. destruct (c + k =? bp); [rewrite removelast_snoc|]; rewrite ?fmap_app; cbn; set_solver.
  - eapply join_spaced; [done|lia|done|done|done|done].
  - intros a m Hin. destruct (Hal a m ltac:(by right)) as [Ha Hm]. split; [|done].
    assert (Hne : forall x, x ∈ bp :: base :: f1.*1 -> a <> x).
    { intros x Hx ->. apply elem_of_cons in Hx as [->|Hx].
      - apply (blocks_disjoint s _ _ ((bp, n) :: f1 ++ f2) al bp n bp m bp I); [|by left|done|lia|lia].
        cbn. symmetry. apply Permutation_middle.
      - apply elem_of_cons in Hx as [->|([c k] & -> & Hc)%list_elem_of_fmap].
        + destruct (block_range s _ _ base m I ltac:(set_solver) Hm). lia.
        + cbn in *. pose proof (Hpos c k ltac:(set_solver)).
          apply (blocks_disjoint s _ _ (f1 ++ f2) ((bp, n) :: al) c k c m c I); [done|set_solver|by right|lia|lia]. }
    rewrite Hs2, Hs1; [done|rewrite list_elem_of_singleton; apply Hne; by left|].
    rewrite list_elem_of_singleton. apply Hne. unfold p.
    destruct f1 as [|[c k] g _] using rev_ind; [right; by left|]. rewrite last_of_snoc, fmap_app. cbn. set_solver.
  - rewrite units_app, Hun, <- Hpart, (units_app _ ((bp, n) :: al)), units_cons. by rewrite app_assoc.
Qed.

(** *** More memory *)

(** A block at the break, of [nu] units, that the kernel has added. *)
Lemma grow_ok s fl al nu hd g : heap_ok base s fl al -> 0 < nu -> m_brk s + nu <= m_lo s + MAXUNITS ->
  same_but [m_brk s] (m_hd s) hd -> s_size (hd (m_brk s)) = nu ->
  heap_ok base (mkHeap hd (m_freep s) (m_lo s) (m_brk s + nu) g) fl ((m_brk s, nu) :: al).
Proof.
  intros I Hnu Hmax Hs Hsz. pose proof I as [Hbase Hbrk Hl Hb0 Hfr Hsp Hal Hpart].
  assert (Hne : forall x, x ∈ base :: fl.*1 -> x <> m_brk s).
  { intros x [->|([a n] & -> & Hin)%list_elem_of_fmap]%elem_of_cons; [lia|]. cbn.
    destruct (spaced_gt _ _ a n Hsp Hin) as [_ Hn].
    destruct (block_range s fl al a n I ltac:(set_solver) Hn). lia. }
  split; cbn; try done.
  - lia.
  - eapply links_same; [exact Hs| |done]. intros x Hx. rewrite list_elem_of_singleton. by apply Hne.
  - rewrite Hs; [done|]. rewrite list_elem_of_singleton. apply Hne. by left.
  - intros a n [[= -> ->]|Hin]%elem_of_cons; [by split|]. destruct (Hal a n Hin) as [Ha Hn]. split; [|done].
    rewrite Hs; [done|]. rewrite list_elem_of_singleton.
    destruct (block_range s fl al a n I ltac:(set_solver) Hn). lia.
  - rewrite units_app, units_cons.
    replace (m_brk s + nu - m_lo s) with ((m_brk s - m_lo s) + nu) by lia.
    rewrite <- units_join by lia. replace (m_lo s + (m_brk s - m_lo s)) with (m_brk s) by lia.
    rewrite <- Hpart, units_app. rewrite (Permutation_app_comm (seqZ _ _) (units_of al)). by rewrite app_assoc.
Qed.

(** The kernel does not give [nu] units more. *)
Definition refused (s : heap) (nu : Z) : Prop :=
  forall g, m_grants s = true :: g -> m_lo s + MAXUNITS < m_brk s + nu.

Lemma sbrk_run s nu : 0 < nu -> nu * HEADER < 2 ^ 31 ->
  exists g, (sbrk (nu * HEADER) s = Ok None (set_m_grants g s) /\ refused s nu) \/
    (sbrk (nu * HEADER) s = Ok (Some (m_brk s)) (set_m_grants g (set_m_brk (m_brk s + nu) s)) /\
     m_brk s + nu <= m_lo s + MAXUNITS).
Proof.
  intros H0 H1. unfold sbrk. change HEADER with 16 in *.
  assert (Hn : s32 (nu * 16) / 16 = nu).
  { unfold s32. rewrite Z.mod_small by lia. replace (nu * 16 + 2 ^ 31 - 2 ^ 31) with (nu * 16) by lia.
    apply Z.div_mul. lia. }
  rewrite Hn, (proj2 (Z.leb_gt nu 0)) by lia. destruct (m_grants s) as [|[|] g] eqn:Hg.
  - exists []. left. split; [rewrite <- Hg; by destruct s|]. intros g Hg'. by rewrite Hg in Hg'.
  - exists g. destruct (Z.leb_spec (m_brk s + nu) (m_lo s + MAXUNITS)); [right; done|left]. split; [done|]. intros g' _. lia.
  - exists g. left. split; [done|]. intros g' Hg'. by rewrite Hg in Hg'.
Qed.

Lemma morecore_ok s fl al nunits : heap_ok base s fl al -> 0 < nunits -> nunits * HEADER < 2 ^ 31 ->
  exists r s', morecore nunits s = Ok r s' /\
    match r with
    | None => heap_ok base s' fl al /\ refused s (Z.max nunits 4096)
    | Some p => p = m_freep s' /\ exists fl', heap_ok base s' fl' al /\
        (exists a m, (a, m) ∈ fl' /\ nunits <= m) /\ (length fl' <= S (length fl))%nat
    end.
Proof.
  intros I H0 H1. unfold morecore. set (nu := if nunits <? 4096 then 4096 else nunits).
  assert (Hnu : nunits <= nu /\ 0 < nu /\ nu * HEADER < 2 ^ 31 /\ Z.max nunits 4096 = nu).
  { unfold nu, HEADER in *. destruct (Z.ltb_spec nunits 4096); lia. }
  destruct Hnu as (N1 & N2 & N3 & ->). destruct (sbrk_run s nu N2 N3) as (g & [[Hr Hno]|[Hr Hmax]]).
  - rewrite (run_bind _ _ _ _ _ Hr). eexists None, _. split; [done|]. split; [|done].
    destruct I as [X1 X2 X3 X4 X5 X6 X7 X8]. by split.
  - rewrite (run_bind _ _ _ _ _ Hr).
    set (hd := <[m_brk s := mkHeader (s_ptr (m_hd s (m_brk s))) nu]> (m_hd s)).
    set (s1 := mkHeap hd (m_freep s) (m_lo s) (m_brk s + nu) g).
    rewrite (run_bind _ _ _ tt s1) by done.
    assert (I1 : heap_ok base s1 fl ((m_brk s, nu) :: al)).
    { apply grow_ok; [done|done|done| |unfold hd; by rewrite fn_lookup_insert].
      intros x Hx. unfold hd. rewrite fn_lookup_insert_ne; [done|]. set_solver. }
    destruct (free_ok s1 fl (m_brk s) nu al I1) as (s' & fl' & Hf & I' & _ & _ & _ & (a & m & Hin & Ha & Hm) & Hlen).
    unfold free. replace (m_brk s + 1 - 1) with (m_brk s) by lia. rewrite (run_bind _ _ _ _ _ Hf).
    rewrite (run_bind _ _ _ (m_freep s') s') by done. eexists (Some _), s'. split; [done|].
    split; [done|]. exists fl'. split; [done|]. split; [exists a, m; split; [done|lia]|done].
Qed.

(** *** The search *)

(** The nodes a walk from [p] visits. *)
Fixpoint visits (hd : Z -> header) (p : Z) (l : list Z) : Prop :=
  match l with
  | [] => True
  | a :: l => s_ptr (hd p) = a /\ visits hd a l
  end.

Lemma last_from (l : list Z) a p : List.last (a :: l) p = List.last l a.
Proof.
  destruct l as [|b l]; [done|]. change (List.last (a :: b :: l) p) with (List.last (b :: l) p).
  revert b. induction l as [|c l IH]; intros b; [done|]. apply (IH c).
Qed.

Lemma visits_app hd p l1 l2 : visits hd p (l1 ++ l2) <-> visits hd p l1 /\ visits hd (List.last l1 p) l2.
Proof.
  revert p. induction l1 as [|a l1 IH]; intros p; [cbn; tauto|]. cbn [app visits]. rewrite IH, last_from. tauto.
Qed.

Lemma links_visits hd p l e : links hd p l e -> visits hd p (l.*1 ++ [e]).
Proof.
  revert p. induction l as [|[a n] l IH]; intros p; cbn; [done|]. intros (H1 & _ & H3). split; [done|by apply IH].
Qed.

Lemma links_sizes hd p l e a n : links hd p l e -> (a, n) ∈ l -> s_size (hd a) = n.
Proof.
  revert p. induction l as [|[b m] l IH]; intros p Hl Hin; [by apply not_elem_of_nil in Hin|].
  destruct Hl as (_ & Hb & Hl). apply elem_of_cons in Hin as [[= -> ->]|Hin]; [done|by eapply IH].
Qed.

(** All the way round from a node. *)
Lemma ring_visits hd fl f : links hd base fl base -> f ∈ base :: fl.*1 ->
  exists l, visits hd f (l ++ [f]) /\ l ++ [f] ≡ₚ base :: fl.*1.
Proof.
  intros Hl%links_visits Hf. apply elem_of_cons in Hf as [->|(l1 & l2 & Hf)%list_elem_of_split].
  - exists fl.*1. split; [done|]. symmetry. apply Permutation_cons_append.
  - rewrite Hf in *. rewrite <- app_assoc in Hl. cbn [app] in Hl.
    replace (l1 ++ f :: l2 ++ [base]) with ((l1 ++ [f]) ++ (l2 ++ [base])) in Hl by (by rewrite <- app_assoc).
    apply visits_app in Hl as [H1 H2]. rewrite last_last in H2. exists (l2 ++ base :: l1). split.
    + replace ((l2 ++ base :: l1) ++ [f]) with ((l2 ++ [base]) ++ (l1 ++ [f])) by (by rewrite <- !app_assoc).
      apply visits_app. by rewrite last_last.
    + rewrite <- app_assoc. cbn [app]. rewrite <- Permutation_middle. constructor.
      rewrite Permutation_app_comm, <- app_assoc. done.
Qed.

(** The loop stops at the first block on its way that is large enough, or asks for more memory
    when it is back at [freep]. *)
Lemma malloc_scan s nunits l prevp k : visits (m_hd s) prevp (l ++ [m_freep s]) -> (m_freep s ∉ l) ->
  (exists l1 a l2, l ++ [m_freep s] = l1 ++ a :: l2 /\ nunits <= s_size (m_hd s a) /\
     malloc_loop (S (length l) + k) nunits prevp (s_ptr (m_hd s prevp)) s =
     take_block nunits (List.last l1 prevp) a (s_size (m_hd s a)) s) \/
  ((forall a, a ∈ l ++ [m_freep s] -> s_size (m_hd s a) < nunits) /\
   malloc_loop (S (length l) + k) nunits prevp (s_ptr (m_hd s prevp)) s =
   (r ← morecore nunits;
    match r with
    | None => mret None
    | Some p => n ← ptr_of p; malloc_loop k nunits p n
    end) s).
Proof.
  revert prevp. induction l as [|b l IH]; intros prevp Hw Hf; cbn [app visits] in Hw; destruct Hw as [Hb Hw];
    rewrite Hb; cbn [length Nat.add malloc_loop].
  - rewrite (run_bind _ _ _ (s_size (m_hd s (m_freep s))) s) by done.
    destruct (Z.leb_spec nunits (s_size (m_hd s (m_freep s)))) as [Hle|Hgt].
    + left. by exists [], (m_freep s), [].
    + right. split; [intros a ->%list_elem_of_singleton; done|].
      rewrite (run_bind _ _ _ (m_freep s) s) by done. by rewrite Z.eqb_refl.
  - apply not_elem_of_cons in Hf as [Hfb Hf]. rewrite (run_bind _ _ _ (s_size (m_hd s b)) s) by done.
    destruct (Z.leb_spec nunits (s_size (m_hd s b))) as [Hle|Hgt].
    + left. by exists [], b, (l ++ [m_freep s]).
    + rewrite (run_bind _ _ _ (m_freep s) s) by done. rewrite (proj2 (Z.eqb_neq b (m_freep s))) by done.
      rewrite (run_bind _ _ _ (s_ptr (m_hd s b)) s) by done.
      destruct (IH b Hw Hf) as [(l1 & a & l2 & Hl & Hle & Hrun)|[Hall Hrun]].
      * left. exists (b :: l1), a, l2. split; [cbn; by rewrite Hl|]. split; [done|].
        etrans; [exact Hrun|]. by rewrite last_from.
      * right. split; [|done]. intros a [->|Ha]%elem_of_cons; [done|by apply Hall].
Qed.

Lemma links_next hd p l e q : links hd p l e -> q ∈ p :: l.*1 -> s_ptr (hd q) ∈ l.*1 ++ [e].
Proof.
  revert p. induction l as [|[a n] l IH]; intros p Hl Hq; cbn in *.
  - apply list_elem_of_singleton in Hq as ->. set_solver.
  - destruct Hl as (H1 & _ & H3). apply elem_of_cons in Hq as [->|Hq]; [rewrite H1; by left|].
    right. by eapply IH.
Qed.

(** The node before a block in the list. *)
Lemma links_prev hd p g1 a n g2 e q : links hd p (g1 ++ (a, n) :: g2) e ->
  NoDup (g1 ++ (a, n) :: g2).*1 -> (e ∉ (g1 ++ (a, n) :: g2).*1) ->
  q ∈ p :: (g1 ++ (a, n) :: g2).*1 -> s_ptr (hd q) = a -> q = last_of p g1.
Proof.
  revert p. induction g1 as [|[b m] g1 IH]; intros p Hl Hnd He Hq Ha; cbn in *;
    destruct Hl as (H1 & _ & H3); apply NoDup_cons in Hnd as [Hn Hnd]; apply elem_of_cons in Hq as [->|Hq].
  - done.
  - pose proof (links_next _ _ _ _ _ H3 Hq) as Hin. rewrite Ha in Hin.
    apply elem_of_app in Hin as [Hin|Hin%list_elem_of_singleton]; [done|]. subst e. destruct He. by left.
  - rewrite Ha in H1. subst b. destruct Hn. rewrite fmap_app. apply elem_of_app. right. by left.
  - rewrite last_of_cons. apply IH; [done|done| |done|done]. intros Hin. apply He. by right.
Qed.

Lemma take_all_run s q a n : take_block n q a n s =
  Ok (Some a) (set_m_freep q (set_m_hd (<[q := mkHeader (s_ptr (m_hd s a)) (s_size (m_hd s q))]> (m_hd s)) s)).
Proof.
  unfold take_block. rewrite Z.eqb_refl. done.
Qed.

Lemma take_tail_run s q a n k : 0 < k < n -> n < 2 ^ 32 -> exists hd,
  take_block k q a n s = Ok (Some (a + (n - k))) (set_m_freep q (set_m_hd hd s)) /\
  same_but [a; a + (n - k)] (m_hd s) hd /\
  s_ptr (hd a) = s_ptr (m_hd s a) /\ s_size (hd a) = n - k /\ s_size (hd (a + (n - k))) = k.
Proof.
  intros Hk Hn. unfold take_block. rewrite (proj2 (Z.eqb_neq n k)) by lia.
  assert (Hu : u32 (n - k) = n - k) by (unfold u32; apply Z.mod_small; lia). rewrite Hu.
  set (h1 := <[a := mkHeader (s_ptr (m_hd s a)) (n - k)]> (m_hd s)).
  exists (<[a + (n - k) := mkHeader (s_ptr (h1 (a + (n - k)))) k]> h1).
  assert (Ha : s_size (h1 a) = n - k) by (unfold h1; by rewrite fn_lookup_insert). split.
  { rewrite (run_bind _ _ _ (a + (n - k)) (set_m_hd (<[a + (n - k) := mkHeader (s_ptr (h1 (a + (n - k)))) k]> h1) s));
      [done|].
    rewrite (run_bind _ _ _ tt (set_m_hd h1 s)), (run_bind _ _ _ (n - k) (set_m_hd h1 s)); [done| |done].
    unfold size_of, gets. cbn [m_hd set_m_hd]. by rewrite Ha. }
  split; [|split; [|split]].
  - intros x Hx. unfold h1. rewrite !fn_lookup_insert_ne; [done|set_solver|set_solver].
  - rewrite fn_lookup_insert_ne by lia. unfold h1. by rewrite fn_lookup_insert.
  - rewrite fn_lookup_insert_ne by lia. done.
  - by rewrite fn_lookup_insert.
Qed.

Lemma head_ptr hd p l e : links hd p l e -> s_ptr (hd p) = match l with [] => e | (a, _) :: _ => a end.
Proof. destruct l as [|[a n] l]; cbn; tauto. Qed.

Lemma last_of_in p l : last_of p l ∈ p :: l.*1.
Proof.
  destruct l as [|[c k] g _] using rev_ind; [by left|]. rewrite last_of_snoc, fmap_app. cbn. set_solver.
Qed.

(** The nodes up to a block are below it, and the blocks after it are above its end. *)
Lemma nodes_around s g1 a n g2 al : heap_ok base s (g1 ++ (a, n) :: g2) al ->
  0 < n /\ (forall x, x ∈ base :: g1.*1 -> x < a) /\ (forall x, x ∈ g2.*1 -> a + n < x) /\ spaced base g1.
Proof.
  intros I. pose proof (ok_spaced _ _ _ _ I) as Hsp. pose proof (ok_base _ _ _ _ I) as Hb.
  pose proof Hsp as [Hg1 (Ha & Hn & Hg2)]%spaced_app.
  destruct (spaced_gt _ _ a n Hsp ltac:(set_solver)) as [Hlo _].
  split; [done|]. split; [|split; [|eapply spaced_mono; [done|lia]]].
  - intros x [->|([c k] & -> & Hc)%list_elem_of_fmap]%elem_of_cons; [lia|]. cbn.
    pose proof (spaced_before _ _ _ _ _ _ _ Hsp Hc). pose proof (spaced_gt _ _ _ _ Hg1 Hc). lia.
  - intros x ([c k] & -> & Hc)%list_elem_of_fmap. by eapply spaced_gt.
Qed.

(** All of a block is taken. *)
Lemma take_all_ok s g1 a n g2 al q : heap_ok base s (g1 ++ (a, n) :: g2) al -> q = last_of base g1 ->
  heap_ok base (set_m_freep q (set_m_hd (<[q := mkHeader (s_ptr (m_hd s a)) (s_size (m_hd s q))]> (m_hd s)) s))
    (g1 ++ g2) ((a, n) :: al).
Proof.
  intros I ->. destruct (nodes_around _ _ _ _ _ _ I) as (Hn & Hb & Hab & Hg1).
  pose proof I as [Hbase Hbrk Hl Hb0 Hfr Hsp Hal Hpart].
  pose proof (Hb _ (last_of_in base g1)) as Hq. set (q := last_of base g1) in *.
  set (hd := <[q := _]> (m_hd s)).
  assert (Hsize : forall x, s_size (hd x) = s_size (m_hd s x)).
  { intros x. unfold hd. destruct (decide (x = q)) as [->|Hx]; [by rewrite fn_lookup_insert|].
    by rewrite fn_lookup_insert_ne. }
  assert (Hsame : same_but [q] (m_hd s) hd).
  { intros x Hx. unfold hd. rewrite fn_lookup_insert_ne; [done|]. set_solver. }
  assert (Hptr : s_ptr (hd q) = s_ptr (m_hd s a)) by (unfold hd; by rewrite fn_lookup_insert).
  clearbody hd. apply links_app in Hl as (m & Hl1 & (Hqa & Ha & Hl2) & ->).
  split; cbn [m_hd m_freep m_lo m_brk set_m_hd set_m_freep]; try done.
  - apply links_app. exists (s_ptr (m_hd s a)). split; [|split; [|by apply head_ptr in Hl2]].
    + by eapply links_end'; [exact Hl1| | | |].
    + eapply links_retarget; [|intros x Hx|exact Hl2]; [done|]. symmetry. apply Hsame.
      rewrite list_elem_of_singleton. pose proof (Hab x Hx). lia.
  - by rewrite Hsize.
  - pose proof (last_of_in base g1). rewrite fmap_app. set_solver.
  - apply spaced_app in Hsp as [H1 (H2 & _ & H3)]. apply spaced_app. split; [done|].
    eapply spaced_mono; [done|]. lia.
  - intros c k Hin. rewrite Hsize. apply elem_of_cons in Hin as [[= -> ->]|Hin]; [done|by apply Hal].
  - rewrite <- Hpart, !units_app, !units_cons, <- !app_assoc.
    apply Permutation_app_head. rewrite !app_assoc. apply Permutation_app_tail, Permutation_app_comm.
Qed.

(** The last [k] units of a block are taken. *)
Lemma take_tail_ok s g1 a n k g2 al q hd : heap_ok base s (g1 ++ (a, n) :: g2) al -> q = last_of base g1 ->
  0 < k < n -> same_but [a; a + (n - k)] (m_hd s) hd -> s_ptr (hd a) = s_ptr (m_hd s a) ->
  s_size (hd a) = n - k -> s_size (hd (a + (n - k))) = k ->
  heap_ok base (set_m_freep q (set_m_hd hd s)) (g1 ++ (a, n - k) :: g2) ((a + (n - k), k) :: al).
Proof.
  intros I -> Hk Hsame Hptr Hsa Hsb. destruct (nodes_around _ _ _ _ _ _ I) as (Hn & Hb & Hab & Hg1).
  pose proof I as [Hbase Hbrk Hl Hb0 Hfr Hsp Hal Hpart].
  apply links_app in Hl as (m & Hl1 & (Hqa & Ha & Hl2) & ->).
  assert (Hlow : forall x, x ∈ base :: g1.*1 -> hd x = m_hd s x).
  { intros x Hx. apply Hsame. pose proof (Hb x Hx). intros Hin%elem_of_cons. rewrite list_elem_of_singleton in Hin. lia. }
  split; cbn [m_hd m_freep m_lo m_brk set_m_hd set_m_freep]; try done.
  - apply links_app. exists a. split; [|split; [split; [|split; [done|]]|done]].
    + eapply links_retarget; [|intros x Hx|exact Hl1]; [rewrite Hlow; [done|by left]|]. symmetry. apply Hlow. by right.
    + rewrite Hlow; [done|]. apply last_of_in.
    + eapply links_retarget; [|intros x Hx|exact Hl2]; [done|]. symmetry. apply Hsame. pose proof (Hab x Hx).
      intros Hin%elem_of_cons. rewrite list_elem_of_singleton in Hin. lia.
  - rewrite Hlow; [done|by left].
  - pose proof (last_of_in base g1). rewrite fmap_app. cbn. set_solver.
  - apply spaced_app in Hsp as [H1 (H2 & _ & H3)]. apply spaced_app. split; [done|].
    split; [done|]. split; [lia|]. eapply spaced_mono; [done|]. lia.
  - intros c l Hin. apply elem_of_cons in Hin as [[= -> ->]|Hin]; [by split; [|lia]|].
    destruct (Hal c l Hin) as [Hc Hl]. split; [|done]. rewrite Hsame; [done|].
    assert (Hd : ~ (a <= c < a + n)).
    { intros Hu. eapply (blocks_disjoint s _ al (g1 ++ (a, n) :: g2) al a n c l c I); [done|set_solver|done|done|lia]. }
    intros Hin'%elem_of_cons. rewrite list_elem_of_singleton in Hin'. lia.
  - rewrite <- Hpart, !units_app, !units_cons, <- !app_assoc.
    apply Permutation_app_head. replace (seqZ a n) with (seqZ a (n - k) ++ seqZ (a + (n - k)) k);
      [|rewrite units_join by lia; f_equal; lia]. rewrite <- !app_assoc. apply Permutation_app_head. rewrite !app_assoc.
    apply Permutation_app_tail, Permutation_app_comm.
Qed.

Lemma take_ok s fl al a q nunits : heap_ok base s fl al -> a ∈ base :: fl.*1 -> q ∈ base :: fl.*1 ->
  s_ptr (m_hd s q) = a -> 0 < nunits <= s_size (m_hd s a) ->
  exists x s' fl', take_block nunits q a (s_size (m_hd s a)) s = Ok (Some x) s' /\
    heap_ok base s' fl' ((x, nunits) :: al).
Proof.
  intros I Ha Hq Hqa Hn. pose proof (ok_bsize _ _ _ _ I) as Hb0.
  apply elem_of_cons in Ha as [->|([a' n] & Ha & Hin)%list_elem_of_fmap]; [lia|]. cbn in Ha. subst a'.
  rewrite (links_sizes _ _ _ _ _ _ (ok_links _ _ _ _ I) Hin) in *.
  apply list_elem_of_split in Hin as (g1 & g2 & ->).
  pose proof (ok_spaced _ _ _ _ I) as Hsp.
  assert (Hpr : q = last_of base g1).
  { pose proof (spaced_NoDup _ _ Hsp) as [Hnd _]. apply (links_prev (m_hd s) base g1 a n g2 base); try done.
    - apply I.
    - pose proof (spaced_mono _ base _ Hsp ltac:(pose proof (ok_base _ _ _ _ I); lia)) as Hsb.
      by apply spaced_NoDup in Hsb as [_ ?]. }
  destruct (block_range s _ _ a n I ltac:(set_solver) ltac:(lia)) as [Hlo Hhi].
  pose proof (ok_brk _ _ _ _ I) as Hbrk. change MAXUNITS with 8388608 in *.
  destruct (decide (nunits = n)) as [->|Hne].
  - rewrite take_all_run. eexists a, _, (g1 ++ g2). split; [done|]. by apply take_all_ok.
  - destruct (take_tail_run s q a n nunits ltac:(lia) ltac:(lia)) as (hd & Hrun & Hsame & Hp & Hsa & Hsb).
    eexists _, _, (g1 ++ (a, n - nunits) :: g2). split; [exact Hrun|].
    apply take_tail_ok; [done|done|lia|done|done|done|done].
Qed.

(** *** malloc *)

Lemma visits_nodes hd p l1 a l2 : visits hd p (l1 ++ a :: l2) -> s_ptr (hd (List.last l1 p)) = a.
Proof. intros [_ [H _]]%visits_app. done. Qed.

Lemma last_in (l : list Z) p : List.last l p ∈ p :: l.
Proof.
  destruct l as [|b l _] using rev_ind; [by left|]. rewrite last_last. set_solver.
Qed.

(** The walk from [freep] goes once round the list. *)
Lemma scan_setup s fl al : heap_ok base s fl al -> exists l,
  visits (m_hd s) (m_freep s) (l ++ [m_freep s]) /\ l ++ [m_freep s] ≡ₚ base :: fl.*1 /\ (m_freep s ∉ l) /\
  length l = length fl.
Proof.
  intros I. destruct (ring_visits (m_hd s) fl (m_freep s)) as (l & Hw & Hp); [apply I|apply I|].
  exists l. split; [done|]. split; [done|]. split.
  - assert (Hnd : NoDup (l ++ [m_freep s])).
    { rewrite Hp. apply NoDup_cons.
      pose proof (spaced_mono _ base _ (ok_spaced _ _ _ _ I) ltac:(pose proof (ok_base _ _ _ _ I); lia)) as Hsb.
      apply spaced_NoDup in Hsb as [??]. done. }
    apply NoDup_app in Hnd as (_ & Hnd & _). intros Hin. apply (Hnd _ Hin). by left.
  - apply Permutation_length in Hp. rewrite length_app in Hp. cbn in Hp. rewrite length_fmap in Hp. lia.
Qed.

(** A search that passes a block that is large enough takes one. *)
Lemma scan_takes s fl al l l1 a l2 nunits : heap_ok base s fl al -> 0 < nunits ->
  visits (m_hd s) (m_freep s) (l ++ [m_freep s]) -> l ++ [m_freep s] ≡ₚ base :: fl.*1 ->
  l ++ [m_freep s] = l1 ++ a :: l2 -> nunits <= s_size (m_hd s a) ->
  exists x s' fl', take_block nunits (List.last l1 (m_freep s)) a (s_size (m_hd s a)) s = Ok (Some x) s' /\
    heap_ok base s' fl' ((x, nunits) :: al).
Proof.
  intros I Hn Hw Hp Hl Hle. rewrite Hl in *. apply (take_ok s fl); [done| | | |done].
  - rewrite <- Hp. set_solver.
  - pose proof (last_in l1 (m_freep s)) as [->|Hin]%elem_of_cons; [apply I|]. rewrite <- Hp. set_solver.
  - by eapply visits_nodes.
Qed.

(** malloc returns 0 only when no free block is large enough and the kernel gives no more memory. *)
Lemma malloc_loop_ok s fl al nunits fuel : heap_ok base s fl al -> 0 < nunits -> nunits * HEADER < 2 ^ 31 ->
  (2 * length fl + 3 <= fuel)%nat ->
  exists r s' fl', malloc_loop fuel nunits (m_freep s) (s_ptr (m_hd s (m_freep s))) s = Ok r s' /\
    heap_ok base s' fl' (match r with Some x => (x, nunits) :: al | None => al end) /\
    (r = None -> refused s (Z.max nunits 4096) /\ forall a m, (a, m) ∈ fl -> m < nunits).
Proof.
  intros I Hn Hmax Hf. destruct (scan_setup s fl al I) as (l & Hw & Hp & Hni & Hlen).
  replace fuel with (S (length l) + (fuel - S (length l)))%nat by lia.
  destruct (malloc_scan s nunits l (m_freep s) (fuel - S (length l)) Hw Hni)
    as [(l1 & a & l2 & Hl & Hle & ->)|[Hnone ->]].
  { destruct (scan_takes s fl al l l1 a l2 nunits I Hn Hw Hp Hl Hle) as (x & s' & fl' & -> & Hok).
    by exists (Some x), s', fl'. }
  destruct (morecore_ok s fl al nunits I Hn Hmax) as ([p|] & s1 & Hr & Hcase);
    rewrite (run_bind _ _ _ _ _ Hr); [|exists None, s1, fl; destruct Hcase as [Hok Href]; split; [done|split; [done|]]; intros _; split; [done|];
      intros a m Hin; rewrite <- (links_sizes _ _ _ _ _ _ (ok_links _ _ _ _ I) Hin); apply Hnone; rewrite Hp;
      right; apply list_elem_of_fmap; by exists (a, m)].
  destruct Hcase as (-> & fl1 & I1 & (b & m & Hin & Hm) & Hlen1).
  rewrite (run_bind _ _ _ (s_ptr (m_hd s1 (m_freep s1))) s1) by done.
  destruct (scan_setup s1 fl1 al I1) as (l' & Hw' & Hp' & Hni' & Hlen').
  replace (fuel - S (length l))%nat with (S (length l') + (fuel - S (length l) - S (length l')))%nat by lia.
  destruct (malloc_scan s1 nunits l' (m_freep s1) (fuel - S (length l) - S (length l')) Hw' Hni')
    as [(l1 & a & l2 & Hl & Hle & ->)|[Hall _]].
  { destruct (scan_takes s1 fl1 al l' l1 a l2 nunits I1 Hn Hw' Hp' Hl Hle) as (x & s' & fl' & -> & Hok).
    by exists (Some x), s', fl'. }
  exfalso. pose proof (links_sizes _ _ _ _ _ _ (ok_links _ _ _ _ I1) Hin) as Hb.
  assert (Hbin : b ∈ l' ++ [m_freep s1]).
  { rewrite Hp'. right. apply list_elem_of_fmap. by exists (b, m). }
  specialize (Hall b Hbin). lia.
Qed.

(** *** The client *)

(** What holds of the heap between calls, when the client has the blocks [al]. *)
Definition heap_inv (s : heap) (al : list (Z * Z)) : Prop :=
  (m_freep s = 0 /\ al = [] /\ 0 < base < m_lo s /\ m_brk s = m_lo s) \/ exists fl, heap_ok base s fl al.

Lemma freep_pos s fl al : heap_ok base s fl al -> m_freep s <> 0.
Proof.
  intros I. pose proof (ok_freep _ _ _ _ I) as Hf. pose proof (ok_base _ _ _ _ I).
  apply elem_of_cons in Hf as [->|([a n] & -> & Hin)%list_elem_of_fmap]; [lia|]. cbn.
  destruct (spaced_gt _ _ _ _ (ok_spaced _ _ _ _ I) Hin). lia.
Qed.

(** The first call sets up the list. *)
Lemma malloc_start s nbytes : m_freep s = 0 -> 0 < base < m_lo s -> m_brk s = m_lo s -> exists s',
  malloc base nbytes s = malloc base nbytes s' /\ heap_ok base s' [] [] /\ m_grants s' = m_grants s /\
  m_brk s' = m_brk s /\ m_lo s' = m_lo s.
Proof.
  intros Hf Hb Hbrk.
  set (h1 := <[base := mkHeader base (s_size (m_hd s base))]> (m_hd s)).
  set (h2 := <[base := mkHeader (s_ptr (h1 base)) 0]> h1).
  assert (H2 : h2 base = mkHeader base 0) by (unfold h2, h1; by rewrite !fn_lookup_insert).
  exists (mkHeap h2 base (m_lo s) (m_brk s) (m_grants s)). split; [|split; [|done]].
  - unfold malloc. rewrite (run_bind _ _ _ (m_freep s) s) by done. rewrite Hf, Z.eqb_refl.
    symmetry. rewrite (run_bind _ _ _ base _) by done. rewrite (proj2 (Z.eqb_neq base 0)) by lia. done.
  - split; cbn; rewrite ?H2, ?Hbrk; try done; [change MAXUNITS with 8388608; lia|set_solver|set_solver|].
    by rewrite Z.sub_diag.
Qed.

Lemma units_spec nbytes : 0 <= nbytes -> 0 < units nbytes /\ nbytes <= (units nbytes - 1) * HEADER.
Proof.
  intros Hn. unfold units. change HEADER with 16. pose proof (Z.div_mod (nbytes + 16 - 1) 16 ltac:(lia)) as Hd.
  pose proof (Z.mod_pos_bound (nbytes + 16 - 1) 16 ltac:(lia)). lia.
Qed.

Lemma malloc_listed s fl al nbytes : heap_ok base s fl al -> 0 <= nbytes < 2 ^ 31 - 2 * HEADER ->
  exists r s' fl', malloc base nbytes s = Ok r s' /\
    heap_ok base s' fl' (match r with Some ap => (ap - 1, units nbytes) :: al | None => al end) /\
    (r = None -> refused s (Z.max (units nbytes) 4096) /\ forall a m, (a, m) ∈ fl -> m < units nbytes).
Proof.
  intros I Hn. destruct (units_spec nbytes ltac:(lia)) as [Hu0 _].
  assert (Hu : units nbytes * HEADER < 2 ^ 31).
  { unfold units. change HEADER with 16 in *. pose proof (Z.div_mod (nbytes + 16 - 1) 16 ltac:(lia)).
    pose proof (Z.mod_pos_bound (nbytes + 16 - 1) 16 ltac:(lia)). lia. }
  pose proof (fl_length s fl al I) as Hlen.
  destruct (malloc_loop_ok s fl al (units nbytes) (2 * list_fuel s + 2) I Hu0 Hu ltac:(unfold list_fuel; lia))
    as (r & s' & fl' & Hr & Hok & Hnone).
  exists (option_map (fun p => p + 1) r), s', fl'. split; [|split].
  - unfold malloc. rewrite (run_bind _ _ _ (m_freep s) s) by done.
    rewrite (proj2 (Z.eqb_neq (m_freep s) 0)) by (by eapply freep_pos).
    rewrite (run_bind _ _ _ (m_freep s) s) by done.
    rewrite (run_bind _ _ _ (s_ptr (m_hd s (m_freep s))) s), (run_bind _ _ _ (list_fuel s) s) by done.
    by rewrite (run_bind _ _ _ _ _ Hr).
  - destruct r as [x|]; cbn; [|done]. by replace (x + 1 - 1) with x by lia.
  - destruct r; [done|]. intros _. by apply Hnone.
Qed.

Lemma malloc_inv s al nbytes : heap_inv s al -> 0 <= nbytes < 2 ^ 31 - 2 * HEADER ->
  exists r s', malloc base nbytes s = Ok r s' /\
    heap_inv s' (match r with Some ap => (ap - 1, units nbytes) :: al | None => al end) /\
    (r = None -> refused s (Z.max (units nbytes) 4096)).
Proof.
  intros [(Hf & -> & Hb & Hbrk)|(fl & I)] Hn.
  - destruct (malloc_start s nbytes Hf Hb Hbrk) as (s0 & -> & I & Hg & Hbk & Hlo).
    destruct (malloc_listed s0 [] [] nbytes I Hn) as (r & s' & fl' & Hr & Hok & Hno).
    exists r, s'. split; [done|]. split; [right; by exists fl'|]. intros Hrn.
    destruct (Hno Hrn) as [Href _]. unfold refused in *. by rewrite <- Hg, <- Hbk, <- Hlo.
  - destruct (malloc_listed s fl al nbytes I Hn) as (r & s' & fl' & Hr & Hok & Hno).
    exists r, s'. split; [done|]. split; [right; by exists fl'|]. intros Hrn. by apply Hno.
Qed.

(** A program that uses malloc and free, and no other sbrk, from its start: it frees blocks it
    has got, once, and writes in them. *)
Inductive client : heap -> list (Z * Z) -> Prop :=
| client_start s : m_freep s = 0 -> 0 < base < m_lo s -> m_brk s = m_lo s -> client s []
| client_malloc s al nbytes r s' : client s al -> 0 <= nbytes < 2 ^ 31 - 2 * HEADER ->
    malloc base nbytes s = Ok r s' ->
    client s' (match r with Some ap => (ap - 1, units nbytes) :: al | None => al end)
| client_free s al ap n al' s' : client s al -> al ≡ₚ (ap - 1, n) :: al' -> free ap s = Ok tt s' -> client s' al'
| client_write s al a n u v : client s al -> (a, n) ∈ al -> a < u < a + n ->
    client (set_m_hd (<[u := v]> (m_hd s)) s) al.

Lemma heap_ok_perm s fl al al' : heap_ok base s fl al -> al ≡ₚ al' -> heap_ok base s fl al'.
Proof.
  intros [H1 H2 H3 H4 H5 H6 H7 H8] Hp. split; try done.
  - intros a n Hin. apply H7. by rewrite Hp.
  - rewrite <- H8, !units_app. apply Permutation_app_head. unfold units_of. by rewrite Hp.
Qed.

(** A block's contents are not part of the allocator's data. *)
Lemma write_ok s fl al a n u v : heap_ok base s fl al -> (a, n) ∈ al -> a < u < a + n ->
  heap_ok base (set_m_hd (<[u := v]> (m_hd s)) s) fl al.
Proof.
  intros I Hin Hu. pose proof I as [H1 H2 H3 H4 H5 H6 H7 H8].
  destruct (block_range s fl al a n I ltac:(set_solver) ltac:(lia)) as [Hlo _].
  assert (Hfl : u ∉ fl.*1).
  { intros ([c k] & Hc & Hin')%list_elem_of_fmap. cbn in Hc. subst c. destruct (spaced_gt _ _ _ _ H6 Hin').
    eapply (blocks_disjoint s fl al fl al u k a n u I); [done|done|done|lia|lia]. }
  split; cbn; try done.
  - apply links_upd; [lia|done|done].
  - rewrite fn_lookup_insert_ne; [done|lia].
  - intros c k Hc. destruct (H7 c k Hc) as [Hs Hk]. split; [|done]. rewrite fn_lookup_insert_ne; [done|].
    intros ->. apply list_elem_of_split in Hin as (x1 & x2 & ->).
    apply elem_of_app in Hc as [Hc|[[= -> ->]|Hc]%elem_of_cons]; [|lia|];
      (eapply (blocks_disjoint s fl _ [(a, n)] (fl ++ x1 ++ x2) a n c k c I);
        [rewrite app_assoc, <- Permutation_middle, <- app_assoc; done|by left|set_solver|lia|lia]).
Qed.

Lemma client_inv s al : client s al -> heap_inv s al.
Proof.
  induction 1 as [s Hf Hb Hbrk|s al nbytes r s' _ IH Hn Hr|s al ap n al' s' _ IH Hp Hr|s al a n u v _ IH Hin Hu].
  - by left.
  - destruct (malloc_inv s al nbytes IH Hn) as (r' & s2 & Hr' & Hok & _).
    rewrite Hr in Hr'. by injection Hr' as <- <-.
  - destruct IH as [(_ & -> & _)|(fl & I)]; [by apply Permutation_nil_cons in Hp|].
    destruct (free_ok s fl (ap - 1) n al' (heap_ok_perm _ _ _ _ I Hp)) as (s2 & fl' & Hr' & I' & _).
    unfold free in Hr. rewrite Hr in Hr'. injection Hr' as <-. right. by exists fl'.
  - destruct IH as [(_ & -> & _)|(fl & I)]; [by apply not_elem_of_nil in Hin|].
    right. exists fl. by eapply write_ok.
Qed.

(** C10: A program that calls malloc and free from its start, frees each block once and writes
    only in its blocks always gets an answer: malloc returns, with a block of at least the
    size asked for that lies in the memory from sbrk and overlaps none of the blocks the
    program has, or with 0, and then only when the kernel refuses more memory; free of a block
    it has returns. *)
Theorem malloc_free_correct s al : client s al ->
  (forall nbytes, 0 <= nbytes < 2 ^ 31 - 2 * HEADER -> exists r s', malloc base nbytes s = Ok r s' /\
     match r with
     | Some ap => nbytes <= (units nbytes - 1) * HEADER /\
         m_lo s' <= ap - 1 /\ ap - 1 + units nbytes <= m_brk s' /\
         forall a n u, (a, n) ∈ al -> a <= u < a + n -> ~ (ap - 1 <= u < ap - 1 + units nbytes)
     | None => refused s (Z.max (units nbytes) 4096)
     end) /\
  (forall a n, (a, n) ∈ al -> exists s', free (a + 1) s = Ok tt s').
Proof.
  intros Hc%client_inv. split.
  - intros nbytes Hn. destruct (malloc_inv s al nbytes Hc Hn) as ([ap|] & s' & Hr & Hok & Hno);
      [|exists None, s'; split; [done|by apply Hno]].
    exists (Some ap), s'. split; [done|]. destruct (units_spec nbytes ltac:(lia)) as [Hu Hb].
    destruct Hok as [(_ & ? & _)|(fl & I)]; [done|].
    destruct (block_range s' fl _ (ap - 1) (units nbytes) I ltac:(set_solver) Hu) as [H1 H2].
    split; [done|]. split; [done|]. split; [done|]. intros a n u Hin Hu1 Hu2.
    eapply (blocks_disjoint s' fl _ [(ap - 1, units nbytes)] (fl ++ al) _ _ a n u I);
      [cbn; symmetry; apply Permutation_middle|by left|set_solver|done|done].
  - intros a n (x1 & x2 & ->)%list_elem_of_split. destruct Hc as [(_ & ? & _)|(fl & I)]; [by destruct x1|].
    destruct (free_ok s fl a n (x1 ++ x2)) as (s' & fl' & Hr & _).
    { eapply heap_ok_perm; [done|]. symmetry. apply Permutation_middle. }
    exists s'. unfold free. by replace (a + 1 - 1) with a by lia.
Qed.

(** The blocks of a list that covers an interval without touching each other are one block. *)
Lemma spaced_cover lo len fl : spaced (lo - 1) fl -> units_of fl ≡ₚ seqZ lo len -> 0 < len -> fl = [(lo, len)].
Proof.
  intros Hs Hp Hlen. assert (Hin : forall u, u ∈ units_of fl <-> lo <= u < lo + len).
  { intros u. rewrite Hp. by rewrite elem_of_seqZ. }
  destruct fl as [|[a n] fl]; [exfalso; by apply (not_elem_of_nil lo), (Hin lo); lia|].
  destruct Hs as (Ha & Hn & Hs).
  assert (Hrest : fl = []).
  { destruct fl as [|[b m] fl]; [done|]. exfalso. destruct Hs as (Hb & Hm & Hs).
    assert (Hbin : b ∈ units_of ((a, n) :: (b, m) :: fl)) by (apply units_in; exists b, m; split; [set_solver|lia]).
    apply Hin in Hbin. assert (Hu : a + n ∈ units_of ((a, n) :: (b, m) :: fl)) by (apply Hin; lia).
    apply units_in in Hu as (c & k & [[= -> ->]|[[= -> ->]|Hc]%elem_of_cons]%elem_of_cons & Hu); [lia|lia|].
    pose proof (spaced_gt _ _ _ _ Hs Hc). lia. }
  subst fl. rewrite units_cons, app_nil_r in Hp. apply Permutation_length in Hp as Hl.
  rewrite !length_seqZ in Hl. assert (n = len) as -> by lia. f_equal. f_equal.
  assert (Hlo : lo ∈ units_of [(a, len)]) by (apply Hin; lia).
  apply units_in in Hlo as (c & k & [= -> ->]%list_elem_of_singleton & Hu). lia.
Qed.

(** C27: When the program has freed all its blocks, in whatever order, the free list is one
    block that is all the memory obtained from the kernel: freed neighbours are always
    joined. *)
Theorem free_all_coalesces s : client s [] -> m_lo s < m_brk s ->
  let hd := m_hd s in
  s_ptr (hd base) = m_lo s /\ s_size (hd (m_lo s)) = m_brk s - m_lo s /\ s_ptr (hd (m_lo s)) = base.
Proof.
  intros [(_ & _ & _ & Hb)|(fl & I)]%client_inv Hlt; [lia|].
  assert (Hfl : fl = [(m_lo s, m_brk s - m_lo s)]).
  { apply (spaced_cover (m_lo s) (m_brk s - m_lo s) fl); [apply I| |lia].
    pose proof (ok_part _ _ _ _ I) as Hp. by rewrite app_nil_r in Hp. }
  pose proof (ok_links _ _ _ _ I) as Hl. rewrite Hfl in Hl. by destruct Hl as (? & ? & ?).
Qed.

End Heap.

(** ** A program *)

(** The kernel grants one request; then malloc(100), malloc(20), and both are freed. *)
Definition demo_heap : heap := mkHeap (fun _ => mkHeader 0 0) 0 16 16 [true; false].

Definition after {A} (m : H A) (s : heap) : heap := match m s with Ok _ s' => s' | _ => s end.
Definition answers (m : H (option Z)) (s : heap) (r : option Z) : bool :=
  match m s with Ok x _ => bool_decide (x = r) | _ => false end.
Definition finishes (m : H unit) (s : heap) : bool := match m s with Ok _ _ => true | _ => false end.

Lemma answers_run m s r : answers m s r = true -> m s = Ok r (after m s).
Proof. unfold answers, after. destruct (m s); [|done|done]. by intros ->%bool_decide_eq_true. Qed.

Lemma finishes_run m s : finishes m s = true -> m s = Ok tt (after m s).
Proof. unfold finishes, after. by destruct (m s) as [[] ?| |]. Qed.

Definition demo_h1 : heap := after (malloc 1 100) demo_heap.
Definition demo_h2 : heap := after (malloc 1 20) demo_h1.
Definition demo_h3 : heap := after (free 4105) demo_h2.
Definition demo_h4 : heap := after (free 4102) demo_h3.

Lemma demo_client1 : client 1 demo_h1 [(4104, 8)].
Proof.
  apply (client_malloc 1 demo_heap [] 100 (Some 4105)); [by apply client_start|by vm_compute|].
  apply answers_run. vm_compute. reflexivity.
Qed.

Lemma demo_client2 : client 1 demo_h2 [(4101, 3); (4104, 8)].
Proof.
  apply (client_malloc 1 demo_h1 [(4104, 8)] 20 (Some 4102)); [apply demo_client1|by vm_compute|].
  apply answers_run. vm_compute. reflexivity.
Qed.

Lemma demo_client4 : client 1 demo_h4 [].
Proof.
  apply (client_free 1 demo_h3 [(4101, 3)] 4102 3 []); [|done|apply finishes_run; vm_compute; reflexivity].
  apply (client_free 1 demo_h2 [(4101, 3); (4104, 8)] 4105 8 [(4101, 3)]);
    [apply demo_client2|apply Permutation_swap|apply finishes_run; vm_compute; reflexivity].
Qed.

Lemma malloc_free_correct_witness : exists s', free 4102 demo_h2 = Ok tt s'.
Proof.
  destruct (malloc_free_correct 1 demo_h2 [(4101, 3); (4104, 8)] demo_client2) as [_ Hf].
  apply (Hf 4101 3). left.
Defined.

Lemma free_all_coalesces_witness : s_size (m_hd demo_h4 16) = 4096.
Proof.
  assert (Hb : m_brk demo_h4 = 4112) by (vm_compute; reflexivity).
  assert (Hl : m_lo demo_h4 = 16) by (vm_compute; reflexivity).
  destruct (free_all_coalesces 1 demo_h4 demo_client4 ltac:(rewrite Hb, Hl; lia)) as (_ & Hs & _).
  rewrite Hl, Hb in Hs. exact Hs.
Defined.
