(* ===== verification/Mkfs.v ===== *)
(** * The tool that makes the initial file system (mkfs/mkfs.c)

    The image is a map from block numbers to blocks, as the disk of the kernel is; it grows as
    blocks are written, and a read at its end, which returns less than a block, makes mkfs
    exit.  Every block is read or was written by the loop at the start before it is written,
    so the image has no holes.  Exits with an error and failed assertions are panics.  The
    host is little-endian, as the machine for which the image is made; a host file is what
    open gives for its name: nothing, or the pieces that the calls of read return. *)

From stdpp Require Import base functions gmap list strings.
From Stdlib Require Import ZArith Lia.
From S2P Require Import Prelude Riscv Memory State Bio Log Fs Console.

Record mkfs := mkMkfs {
  img : gmap Z (list Z);
  freeinode : Z;
  freeblock : Z
}.

Definition set_img (x : gmap Z (list Z)) (s : mkfs) : mkfs := mkMkfs x (freeinode s) (freeblock s).
Definition set_freeinode (x : Z) (s : mkfs) : mkfs := mkMkfs (img s) x (freeblock s).
Definition set_freeblock (x : Z) (s : mkfs) : mkfs := mkMkfs (img s) (freeinode s) x.

Abbreviation Mk := (M mkfs).

Definition NINODES : Z := 200.
Definition nbitmap : Z := FSSIZE / (BSIZE * 8) + 1.
Definition ninodeblocks : Z := NINODES / IPB + 1.
Definition nlog : Z := LOGSIZE.
Definition nmeta : Z := 2 + nlog + ninodeblocks + nbitmap.
Definition nblocks : Z := FSSIZE - nmeta.

(** Convert to intel byte order: the bytes of the result, in memory. *)
Definition xshort (x : Z) : Z := le_combine [u8 x; u8 (Z.shiftr x 8)].
Definition xint (x : Z) : Z :=
  le_combine [u8 x; u8 (Z.shiftr x 8); u8 (Z.shiftr x 16); u8 (Z.shiftr x 24)].

Definition sb : superblock :=
  mkSuperblock FSMAGIC (xint FSSIZE) (xint nblocks) (xint NINODES) (xint nlog) (xint 2)
    (xint (2 + nlog)) (xint (2 + nlog + ninodeblocks)).

Definition sb_bytes (b : superblock) : list Z :=
  [sb_magic b; sb_size b; sb_nblocks b; sb_ninodes b; sb_nlog b; sb_logstart b; sb_inodestart b; sb_bmapstart b]
  ≫= le_split 4.

Definition zeroes : list Z := replicate bsize 0.

(** The block at the position lseek goes to, an unsigned product. *)
Definition sector (sec : Z) : Z := u32 (sec * BSIZE) / BSIZE.

Definition wsect (sec : Z) (buf : list Z) : Mk unit :=
  modify (fun s => set_img (<[sector sec := buf]> (img s)) s).

Definition rsect (sec : Z) : Mk (list Z) :=
  m ← gets img;
  match m !! sector sec with
  | Some buf => mret buf
  | None => panic "read"
  end.

(** A [struct dinode] is the fields of an inode that are on disk. *)
Definition winode (inum : Z) (ip : inode) : Mk unit :=
  let bn := IBLOCK inum sb in
  buf ← rsect bn;
  wsect bn (dinode_store ip (dinode_off inum) buf).

Definition rinode (inum : Z) : Mk inode :=
  let bn := IBLOCK inum sb in
  buf ← rsect bn;
  mret (dinode_load buf (dinode_off inum) inode0).

Definition ialloc (type : Z) : Mk Z :=
  inum ← gets freeinode;
  modify (set_freeinode (u32 (inum + 1)));;
  winode inum (set_i_type (xshort type) (set_i_nlink (xshort 1) (set_i_size (xint 0) inode0)));;
  mret inum.

(** [buf[i/8] = buf[i/8] | (0x1 << (i%8))] *)
Definition set_bit (i : Z) (buf : list Z) : list Z :=
  alter (fun byte => u8 (Z.lor byte (Z.shiftl 1 (i mod 8)))) (Z.to_nat (i / 8)) buf.

Definition balloc (used : Z) : Mk unit :=
  if negb (used <? BSIZE * 8) then panic "assert" else
  wsect (sb_bmapstart sb) (foldl (fun buf i => set_bit (Z.of_nat i) buf) zeroes (seq 0 (Z.to_nat used))).

(** Take the next free block. *)
Definition next_block : Mk Z :=
  b ← gets freeblock;
  modify (set_freeblock (u32 (b + 1)));;
  mret b.

(** Entry [k] of the indirect block, allocated if need be. *)
Definition indirect_entry (din : inode) (k : nat) : Mk Z :=
  indirect ← rsect (xint (i_addrs din !!! NDIRECT));
  indirect ← (if get32 indirect (4 * k) =? 0 then
                b ← next_block;
                let indirect := put32 indirect (4 * k) (xint b) in
                wsect (xint (i_addrs din !!! NDIRECT)) indirect;;
                mret indirect
              else mret indirect);
  mret (xint (get32 indirect (4 * k))).

(** The block of the file that holds its block [fbn], allocated if need be; and the inode. *)
Definition append_block (din : inode) (fbn : Z) : Mk (inode * Z) :=
  if fbn <? Z.of_nat NDIRECT then
    let k := Z.to_nat fbn in
    din ← (if xint (i_addrs din !!! k) =? 0 then
             b ← next_block;
             mret (set_i_addrs (<[k := xint b]> (i_addrs din)) din)
           else mret din);
    mret (din, xint (i_addrs din !!! k))
  else
    din ← (if xint (i_addrs din !!! NDIRECT) =? 0 then
             b ← next_block;
             mret (set_i_addrs (<[NDIRECT := xint b]> (i_addrs din)) din)
           else mret din);
    x ← indirect_entry din (Z.to_nat (fbn - Z.of_nat NDIRECT));
    mret (din, x).

(** The loop of iappend over the bytes [p] that are left; each turn writes at least one. *)
Fixpoint iappend_loop (fuel : nat) (din : inode) (off : Z) (p : list Z) : Mk (inode * Z) :=
  match p with
  | [] => mret (din, off)
  | _ =>
      match fuel with
      | O => block
      | S fuel =>
          let fbn := off / BSIZE in
          if negb (fbn <? MAXFILE) then panic "assert" else
          '(din, x) ← append_block din fbn;
          let n1 := Z.min (Z.of_nat (length p)) ((fbn + 1) * BSIZE - off) in
          buf ← rsect x;
          wsect x (splice buf (Z.to_nat (off - fbn * BSIZE)) (take (Z.to_nat n1) p));;
          iappend_loop fuel din (u32 (off + n1)) (drop (Z.to_nat n1) p)
      end
  end.

Definition iappend (inum : Z) (p : list Z) : Mk unit :=
  din ← rinode inum;
  '(din, off) ← iappend_loop (length p) din (xint (i_size din)) p;
  winode inum (set_i_size (xint off) din).

(** A [struct dirent], after bzero, with the name copied by strcpy or strncpy. *)
Definition dirent (inum : Z) (name : list Z) : list Z :=
  le_split 2 (xshort inum) ++ strncpy (str_of_list name) DIRSIZ.

(** The name in the file system: without "user/" and without a leading underscore. *)
Definition shortname (path : list Z) : list Z :=
  if bool_decide (take 5 path = bytes_of "user/") then drop 5 path else path.
Definition skip_underscore (name : list Z) : list Z :=
  match name with
  | c :: rest => if c =? 95 then rest else name
  | [] => []
  end.

(** One file on the command line: its path and what reading it gives. *)
Definition add_file (rootino : Z) (f : list Z * option (list (list Z))) : Mk unit :=
  let name := shortname f.1 in
  if bool_decide (SLASH ∈ name) then panic "assert" else
  match f.2 with
  | None => panic "open"
  | Some chunks =>
      let name := skip_underscore name in
      inum ← ialloc T_FILE;
      iappend rootino (dirent inum name);;
      for_each chunks (iappend inum)
  end.

(** The size of the root directory becomes a multiple of the block size. *)
Definition fix_root (rootino : Z) : Mk unit :=
  din ← rinode rootino;
  let off := xint (i_size din) in
  let off := u32 ((off / BSIZE + 1) * BSIZE) in
  winode rootino (set_i_size (xint off) din).

Definition mkfs_main (files : list (list Z * option (list (list Z)))) : Mk unit :=
  modify (set_freeblock nmeta);;
  for_each (seq 0 (Z.to_nat FSSIZE)) (fun i => wsect (Z.of_nat i) zeroes);;
  wsect 1 (splice zeroes 0 (sb_bytes sb));;
  rootino ← ialloc T_DIR;
  if negb (rootino =? ROOTINO) then panic "assert" else
  iappend rootino (dirent rootino (bytes_of "."));;
  iappend rootino (dirent rootino (bytes_of ".."));;
  for_each files (add_file rootino);;
  fix_root rootino;;
  b ← gets freeblock;
  balloc b.

(** The state of the program at its start. *)
Definition mkfs_start : mkfs := mkMkfs ∅ 1 0.
