(* ===== verification/MkfsFiles.v ===== *)
(** * The files of an image while mkfs makes it

    [holds] says that the blocks of an inode hold the bytes of a file and zeroes behind them,
    [data_ok] that an image holds a list of files whose blocks partition the blocks taken so
    far.  [iappend_loop] keeps both and appends its bytes. *)

From stdpp Require Import base functions gmap list strings.
From Stdlib Require Import ZArith Lia.
From S2P Require Import Prelude Riscv Memory State Bio Cache Log Recovery Fs Inode Blocks Dinode Console Mkfs.

#[local] Set Warnings "-clear-no-such-hyp".

(** ** Bytes *)

Lemma xint_u32 x : xint x = u32 x.
Proof.
  unfold xint. rewrite !Z.shiftr_div_pow2 by lia.
  assert (Hs : [u8 x; u8 (x / 2 ^ 8); u8 (x / 2 ^ 16); u8 (x / 2 ^ 24)] = le_split 4 x).
  { cbn [le_split]. rewrite !Z.div_div by lia. done. }
  rewrite Hs. apply le_combine_le_split.
Qed.

Lemma xint_small x : 0 <= x < 2 ^ 32 -> xint x = x.
Proof. intros H. rewrite xint_u32. by apply Z.mod_small. Qed.

Lemma xshort_small x : 0 <= x < 2 ^ 16 -> xshort x = x.
Proof.
  intros H. unfold xshort. rewrite Z.shiftr_div_pow2 by lia. change [_; _] with (le_split 2 x).
  rewrite le_combine_le_split. by apply Z.mod_small.
Qed.

Lemma sector_small b : 0 <= b < FSSIZE -> sector b = b.
Proof.
  intros H. unfold sector, u32. change FSSIZE with 1000 in H. change BSIZE with 1024.
  rewrite Z.mod_small by lia. by apply Z.div_mul.
Qed.

Lemma splice_nth l off B i : (off + length B <= length l)%nat ->
  splice l off B !!! i = if decide (off <= i < off + length B)%nat then B !!! (i - off)%nat else l !!! i.
Proof.
  intros HB. unfold splice. rewrite !list_lookup_total_alt.
  destruct (decide (i < off)%nat) as [H1|H1].
  - rewrite lookup_app_l by (rewrite length_take; lia). rewrite lookup_take_lt by lia. rewrite decide_False by lia. done.
  - rewrite lookup_app_r by (rewrite length_take; lia). rewrite length_take.
    replace (i - off `min` length l)%nat with (i - off)%nat by lia. case_decide as H2.
    + rewrite lookup_app_l by lia. done.
    + rewrite lookup_app_r by lia. rewrite lookup_drop. do 2 f_equal. lia.
Qed.

Lemma zeroes_get32 off : get32 zeroes off = 0.
Proof.
  unfold get32, zeroes. rewrite drop_replicate, take_replicate. generalize (4 `min` (bsize - off))%nat.
  intros n. induction n as [|n IH]; [done|]. cbn [replicate le_combine]. rewrite IH. done.
Qed.

(** ** A file *)

(** A file in the image: its inode, the number of its data blocks, whether it has an indirect
    block, and its bytes. *)
Record ffile := mkFile { f_ino : inode; f_nb : nat; f_ind : bool; f_bytes : list Z }.

Definition block_of (cv : Z -> list Z) (ip : inode) (k : nat) : Z := file_block cv ip (Z.of_nat k).

Definition blocks_of (cv : Z -> list Z) (f : ffile) : list Z :=
  (block_of cv (f_ino f) <$> seq 0 (f_nb f)) ++ (if f_ind f then [i_addrs (f_ino f) !!! NDIRECT] else []).

Record holds (cv : Z -> list Z) (f : ffile) : Prop := {
  h_addrs : length (i_addrs (f_ino f)) = 13%nat /\ Forall (fun a => 0 <= a < FSSIZE) (i_addrs (f_ino f));
  h_fit : (length (f_bytes f) <= f_nb f * 1024)%nat;
  h_direct k : (f_nb f <= k < 12)%nat -> i_addrs (f_ino f) !!! k = 0;
  h_max : (f_nb f <= (if f_ind f then 268 else 12))%nat;
  h_none : f_ind f = false -> i_addrs (f_ino f) !!! 12%nat = 0;
  h_some : f_ind f = true -> (12 <= f_nb f)%nat /\
    forall j, (f_nb f - 12 <= j < 256)%nat -> get32 (cv (i_addrs (f_ino f) !!! 12%nat)) (4 * j) = 0;
  h_byte o : (o < f_nb f * 1024)%nat -> cv (block_of cv (f_ino f) (o / 1024)) !!! (o mod 1024)%nat = default 0 (f_bytes f !! o)
}.

Lemma block_of_direct cv ip k : (k < 12)%nat -> block_of cv ip k = i_addrs ip !!! k.
Proof.
  intros Hk. unfold block_of, file_block. change (Z.of_nat NDIRECT) with 12.
  rewrite (proj2 (Z.ltb_lt (Z.of_nat k) 12)) by lia. by rewrite Nat2Z.id.
Qed.

Lemma block_of_indirect cv ip k : (12 <= k)%nat -> block_of cv ip k = get32 (cv (i_addrs ip !!! 12%nat)) (4 * (k - 12)).
Proof.
  intros Hk. unfold block_of, file_block. change (Z.of_nat NDIRECT) with 12. change NDIRECT with 12%nat.
  rewrite (proj2 (Z.ltb_ge (Z.of_nat k) 12)) by lia. do 2 f_equal. lia.
Qed.

Lemma blocks_of_data cv f k : (k < f_nb f)%nat -> block_of cv (f_ino f) k ∈ blocks_of cv f.
Proof.
  intros Hk. apply elem_of_app. left. apply list_elem_of_fmap. exists k. split; [done|]. apply elem_of_seq. lia.
Qed.

Lemma blocks_of_ind cv f : f_ind f = true -> i_addrs (f_ino f) !!! 12%nat ∈ blocks_of cv f.
Proof. intros Hi. apply elem_of_app. right. rewrite Hi. by left. Qed.

(** A change of the data that keeps the indirect block keeps the block numbers. *)
Lemma block_of_frame cv cv' f k : holds cv f -> (k < f_nb f)%nat ->
  (f_ind f = true -> cv' (i_addrs (f_ino f) !!! 12%nat) = cv (i_addrs (f_ino f) !!! 12%nat)) ->
  block_of cv' (f_ino f) k = block_of cv (f_ino f) k.
Proof.
  intros Hh Hk Hi. destruct (decide (k < 12)%nat); [by rewrite !block_of_direct|].
  rewrite !block_of_indirect by lia. rewrite Hi; [done|]. pose proof (h_max _ _ Hh). destruct (f_ind f); [done|lia].
Qed.

Lemma blocks_of_frame cv cv' f : holds cv f ->
  (f_ind f = true -> cv' (i_addrs (f_ino f) !!! 12%nat) = cv (i_addrs (f_ino f) !!! 12%nat)) ->
  blocks_of cv' f = blocks_of cv f.
Proof.
  intros Hh Hi. unfold blocks_of. f_equal. apply list_fmap_ext. intros i k [-> Hk]%lookup_seq.
  apply block_of_frame; [done|lia|done].
Qed.

Lemma holds_frame cv cv' f : holds cv f -> (forall b, b ∈ blocks_of cv f -> cv' b = cv b) ->
  holds cv' f /\ blocks_of cv' f = blocks_of cv f.
Proof.
  intros Hh Hb. assert (Hi : f_ind f = true -> cv' (i_addrs (f_ino f) !!! 12%nat) = cv (i_addrs (f_ino f) !!! 12%nat)).
  { intros Hi. by apply Hb, blocks_of_ind. }
  split; [|by apply blocks_of_frame]. pose proof Hh as [H1 H2 H3 H4 H5 H6 H7]. split; try done.
  - intros Hind. destruct (H6 Hind) as [Hn He]. split; [done|]. intros j Hj. rewrite Hi by done. by apply He.
  - intros o Ho. assert (Hk : (o / 1024 < f_nb f)%nat) by (apply Nat.Div0.div_lt_upper_bound; lia).
    rewrite (block_of_frame cv cv') by done. rewrite Hb by (by apply blocks_of_data). by apply H7.
Qed.

(** ** New blocks *)

Definition with_addrs (a : list Z) (f : ffile) : ffile :=
  mkFile (set_i_addrs a (f_ino f)) (f_nb f) (f_ind f) (f_bytes f).
Definition with_nb (n : nat) (f : ffile) : ffile := mkFile (f_ino f) n (f_ind f) (f_bytes f).
Definition with_ind (f : ffile) : ffile := mkFile (f_ino f) (f_nb f) true (f_bytes f).

(** The bytes of one more block, which is zero. *)
Lemma holds_byte_next cv cv' f ip' : holds cv f ->
  (forall k, (k < f_nb f)%nat -> block_of cv' ip' k = block_of cv (f_ino f) k) ->
  (forall k, (k < f_nb f)%nat -> cv' (block_of cv (f_ino f) k) = cv (block_of cv (f_ino f) k)) ->
  cv' (block_of cv' ip' (f_nb f)) = zeroes ->
  forall o, (o < S (f_nb f) * 1024)%nat ->
    cv' (block_of cv' ip' (o / 1024)) !!! (o mod 1024)%nat = default 0 (f_bytes f !! o).
Proof.
  intros Hh Hb Hc Hz o Ho. assert (Hmod : (o mod 1024 < 1024)%nat) by (apply Nat.mod_upper_bound; lia).
  pose proof (Nat.div_mod_eq o 1024) as Hdm.
  destruct (decide (o / 1024 < f_nb f)%nat) as [Hk|Hk].
  - rewrite Hb, Hc by done. apply (h_byte _ _ Hh). lia.
  - replace (o / 1024)%nat with (f_nb f) by lia. rewrite Hz. unfold zeroes.
    rewrite lookup_total_replicate_2 by (change bsize with 1024%nat; lia).
    rewrite lookup_ge_None_2; [done|]. pose proof (h_fit _ _ Hh). lia.
Qed.

Lemma seq_blocks cv cv' ip ip' n : (forall k, (k < n)%nat -> block_of cv' ip' k = block_of cv ip k) ->
  block_of cv' ip' <$> seq 0 (S n) = (block_of cv ip <$> seq 0 n) ++ [block_of cv' ip' n].
Proof.
  intros H. rewrite seq_S, fmap_app. cbn [Nat.add fmap list_fmap]. f_equal. apply list_fmap_ext.
  intros i k [-> Hk]%lookup_seq. by apply H.
Qed.

Lemma addrs_insert a k b : length a = 13%nat /\ Forall (fun a => 0 <= a < FSSIZE) a -> 0 <= b < FSSIZE ->
  length (<[k := b]> a) = 13%nat /\ Forall (fun a => 0 <= a < FSSIZE) (<[k := b]> a).
Proof. intros [H1 H2] Hb. split; [by rewrite length_insert|]. by apply Forall_insert. Qed.

(** A direct block. *)
Lemma alloc_direct cv f b : holds cv f -> f_ind f = false -> (f_nb f < 12)%nat -> cv b = zeroes -> 0 <= b < FSSIZE ->
  let f' := with_nb (S (f_nb f)) (with_addrs (<[f_nb f := b]> (i_addrs (f_ino f))) f) in
  holds cv f' /\ blocks_of cv f' = blocks_of cv f ++ [b] /\ block_of cv (f_ino f') (f_nb f) = b.
Proof.
  intros Hh Hi Hnb Hz Hb f'. destruct (h_addrs _ _ Hh) as [Hlen Hall].
  assert (Hother : forall k, (k < f_nb f)%nat -> block_of cv (f_ino f') k = block_of cv (f_ino f) k).
  { intros k Hk. rewrite !block_of_direct by lia. cbn. by rewrite list_lookup_total_insert_ne by lia. }
  assert (Hnew : block_of cv (f_ino f') (f_nb f) = b).
  { rewrite block_of_direct by done. cbn. apply list_lookup_total_insert_eq. lia. }
  split; [|split; [|done]].
  - split; cbn.
    + by apply addrs_insert.
    + pose proof (h_fit _ _ Hh). lia.
    + intros k Hk. rewrite list_lookup_total_insert_ne by lia. apply (h_direct _ _ Hh). lia.
    + rewrite Hi. lia.
    + intros _. rewrite list_lookup_total_insert_ne by lia. by apply (h_none _ _ Hh).
    + by rewrite Hi.
    + apply (holds_byte_next cv); [done|done|done|]. change (set_i_addrs _ _) with (f_ino f'). by rewrite Hnew.
  - unfold blocks_of. cbn [f_nb f_ind f' with_nb with_addrs]. rewrite Hi, !app_nil_r.
    rewrite (seq_blocks cv cv (f_ino f)); [|exact Hother]. do 2 f_equal. exact Hnew.
Qed.

(** The indirect block. *)
Lemma alloc_indirect cv f b : holds cv f -> f_ind f = false -> f_nb f = 12%nat -> cv b = zeroes -> 0 <= b < FSSIZE ->
  let f' := with_ind (with_addrs (<[12%nat := b]> (i_addrs (f_ino f))) f) in
  holds cv f' /\ blocks_of cv f' = blocks_of cv f ++ [b].
Proof.
  intros Hh Hi Hnb Hz Hb f'. destruct (h_addrs _ _ Hh) as [Hlen Hall].
  assert (Hsame : forall k, (k < 12)%nat -> block_of cv (f_ino f') k = block_of cv (f_ino f) k).
  { intros k Hk. rewrite !block_of_direct by lia. cbn. by rewrite list_lookup_total_insert_ne by lia. }
  assert (H12 : i_addrs (f_ino f') !!! 12%nat = b) by (cbn; apply list_lookup_total_insert_eq; lia).
  split.
  - split; cbn.
    + by apply addrs_insert.
    + apply Hh.
    + intros k Hk. lia.
    + lia.
    + done.
    + intros _. split; [lia|]. intros j _. change (<[12%nat:=b]> _) with (i_addrs (f_ino f')). rewrite H12, Hz.
      apply zeroes_get32.
    + intros o Ho. change (set_i_addrs _ _) with (f_ino f').
      assert (o / 1024 < 12)%nat by (apply Nat.Div0.div_lt_upper_bound; lia).
      rewrite Hsame by done. by apply (h_byte _ _ Hh).
  - unfold blocks_of. cbn [f_nb f_ind f' with_ind with_addrs]. rewrite Hi, app_nil_r, Hnb. f_equal.
    + apply list_fmap_ext. intros i k [-> Hk]%lookup_seq. apply Hsame. lia.
    + change NDIRECT with 12%nat. by rewrite <- H12.
Qed.

(** A block of the indirect block. *)
Lemma alloc_entry cv cv' f b : holds cv f -> f_ind f = true -> (f_nb f < 268)%nat -> cv b = zeroes -> 0 <= b < FSSIZE ->
  let i := i_addrs (f_ino f) !!! 12%nat in
  b <> i -> length (cv i) = bsize -> (i ∉ block_of cv (f_ino f) <$> seq 0 (f_nb f)) ->
  cv' i = put32 (cv i) (4 * (f_nb f - 12)) b -> (forall x, x <> i -> cv' x = cv x) ->
  let f' := with_nb (S (f_nb f)) f in
  holds cv' f' /\ blocks_of cv' f' ≡ₚ blocks_of cv f ++ [b] /\ block_of cv' (f_ino f) (f_nb f) = b.
Proof.
  intros Hh Hi Hnb Hz Hb i Hbi Hlen Hni Hci Hc f'. destruct (h_some _ _ Hh Hi) as [Hn He].
  assert (Hput : forall j, (j < 256)%nat -> get32 (cv' i) (4 * j) =
    if decide (j = (f_nb f - 12)%nat) then b else get32 (cv i) (4 * j)).
  { intros j Hj. rewrite Hci. change bsize with 1024%nat in Hlen. case_decide as Hd.
    - subst j. rewrite get32_put32_eq by lia. unfold u32. apply Z.mod_small. change FSSIZE with 1000 in Hb. lia.
    - rewrite get32_put32_ne; [done|lia|lia]. }
  assert (Hother : forall k, (k < f_nb f)%nat -> block_of cv' (f_ino f) k = block_of cv (f_ino f) k).
  { intros k Hk. destruct (decide (k < 12)%nat); [by rewrite !block_of_direct|].
    rewrite !block_of_indirect by lia. fold i. rewrite Hput by lia. rewrite decide_False by lia. done. }
  assert (Hnew : block_of cv' (f_ino f) (f_nb f) = b).
  { rewrite block_of_indirect by done. fold i. rewrite Hput by lia. by rewrite decide_True. }
  split; [|split; [|done]].
  - pose proof Hh as [H1 H2 H3 H4 H5 H6 H7]. split; unfold f'; cbn [f_ino f_nb f_ind f_bytes with_nb]; try done.
    + lia.
    + intros k Hk. lia.
    + rewrite Hi. lia.
    + intros _. split; [lia|]. intros j Hj. fold i. rewrite Hput by lia. rewrite decide_False by lia. apply He. lia.
    + apply (holds_byte_next cv); [done|done| |by rewrite Hnew, Hc].
      intros k Hk. apply Hc. intros Heq. apply Hni. rewrite <- Heq. apply list_elem_of_fmap. exists k.
      split; [done|]. apply elem_of_seq. lia.
  - unfold blocks_of. cbn [f_nb f_ind f' with_nb f_ino]. rewrite Hi, (seq_blocks cv cv' (f_ino f)) by done.
    rewrite Hnew, <- !app_assoc. apply Permutation_app_head, Permutation_app_comm.
Qed.

(** Bytes at the end, in the last block. *)
Lemma append_bytes cv cv' f c : holds cv f -> NoDup (blocks_of cv f) -> (0 < f_nb f)%nat ->
  (f_nb f * 1024 <= length (f_bytes f) + 1024)%nat -> (length (f_bytes f) + length c <= f_nb f * 1024)%nat ->
  let x := block_of cv (f_ino f) (f_nb f - 1) in
  length (cv x) = bsize ->
  cv' x = splice (cv x) (length (f_bytes f) - (f_nb f - 1) * 1024) c -> (forall y, y <> x -> cv' y = cv y) ->
  let f' := mkFile (f_ino f) (f_nb f) (f_ind f) (f_bytes f ++ c) in
  holds cv' f' /\ blocks_of cv' f' = blocks_of cv f.
Proof.
  intros Hh Hnd Hnb0 Hlast Hroom x Hlen Hx Hy f'. change bsize with 1024%nat in Hlen.
  apply NoDup_app in Hnd as (Hnd & Hdis & _).
  assert (Hind : f_ind f = true -> cv' (i_addrs (f_ino f) !!! 12%nat) = cv (i_addrs (f_ino f) !!! 12%nat)).
  { intros Hi. apply Hy. intros Heq. apply (Hdis x).
    - apply list_elem_of_fmap. exists (f_nb f - 1)%nat. split; [done|]. apply elem_of_seq. lia.
    - rewrite Hi, <- Heq. by left. }
  assert (Hb : forall k, (k < f_nb f)%nat -> block_of cv' (f_ino f) k = block_of cv (f_ino f) k).
  { intros k Hk. by apply (block_of_frame cv cv' f). }
  assert (Hinj : forall k, (k < f_nb f)%nat -> block_of cv (f_ino f) k = x -> k = (f_nb f - 1)%nat).
  { intros k Hk Heq. apply (NoDup_lookup _ _ _ x Hnd); rewrite list_lookup_fmap, lookup_seq_lt by lia; cbn; [by rewrite Heq|done]. }
  split; [|by apply (blocks_of_frame cv cv' f)].
  pose proof Hh as [H1 H2 H3 H4 H5 H6 H7]. split; unfold f'; cbn [f_ino f_nb f_ind f_bytes]; try done.
  - by rewrite length_app.
  - intros Hi. destruct (H6 Hi) as [Hn He]. split; [done|]. intros j Hj. rewrite Hind by done. by apply He.
  - intros o Ho. assert (Hmod : (o mod 1024 < 1024)%nat) by (apply Nat.mod_upper_bound; lia).
    pose proof (Nat.div_mod_eq o 1024) as Hdm.
    assert (Hk : (o / 1024 < f_nb f)%nat) by lia. rewrite Hb by done. specialize (H7 o Ho).
    destruct (decide (block_of cv (f_ino f) (o / 1024) = x)) as [Heq|Hne].
    + rewrite Heq in *. rewrite Hx, splice_nth by lia. pose proof (Hinj _ Hk Heq) as Hko. case_decide as Hd.
      * rewrite lookup_app_r by lia. replace (o - length (f_bytes f))%nat with
          (o mod 1024 - (length (f_bytes f) - (f_nb f - 1) * 1024))%nat by lia.
        rewrite list_lookup_total_alt. destruct (lookup_lt_is_Some_2 c (o mod 1024 - (length (f_bytes f) - (f_nb f - 1) * 1024))%nat) as [v Hv]; [lia|].
        by rewrite Hv.
      * rewrite H7. destruct (decide (o < length (f_bytes f))%nat); [by rewrite lookup_app_l|].
        rewrite !lookup_ge_None_2; [done|rewrite length_app; lia|lia].
    + rewrite Hy by done. rewrite H7. rewrite lookup_app_l; [done|].
      assert (o / 1024 <> f_nb f - 1)%nat by (intros Heq; apply Hne; unfold x; by rewrite Heq). lia.
Qed.

(** ** The data blocks of the image *)

Definition view (s : mkfs) : Z -> list Z := disk_block (img s).

Record data_ok (s : mkfs) (fs : list ffile) : Prop := {
  d_img b : 0 <= b < FSSIZE -> exists l, img s !! b = Some l /\ length l = bsize;
  d_range : nmeta <= freeblock s <= FSSIZE;
  d_file k f : fs !! k = Some f -> holds (view s) f;
  d_part : concat (blocks_of (view s) <$> fs) ≡ₚ seqZ nmeta (freeblock s - nmeta);
  d_zero b : freeblock s <= b < FSSIZE -> view s b = zeroes
}.

(** Nothing else has changed: the blocks in front of the data, and the inode counter. *)
Definition meta_same (s s' : mkfs) : Prop :=
  freeinode s' = freeinode s /\ forall b, b < nmeta -> view s' b = view s b.

Lemma meta_same_refl s : meta_same s s.
Proof. done. Qed.

Lemma meta_same_trans s1 s2 s3 : meta_same s1 s2 -> meta_same s2 s3 -> meta_same s1 s3.
Proof. intros [H1 H2] [H3 H4]. split; [congruence|]. intros b Hb. rewrite H4 by done. by apply H2. Qed.

Lemma rsect_run s b : 0 <= b < FSSIZE -> (exists l, img s !! b = Some l /\ length l = bsize) ->
  rsect b s = Ok (view s b) s /\ length (view s b) = bsize.
Proof.
  intros Hb (l & Hl & Hlen). unfold rsect, view, disk_block. rewrite (run_bind _ _ _ (img s) s) by done.
  by rewrite sector_small, Hl.
Qed.

Lemma wsect_run s b l : 0 <= b < FSSIZE -> wsect b l s = Ok tt (set_img (<[b := l]> (img s)) s).
Proof. intros Hb. unfold wsect, modify. by rewrite sector_small. Qed.

Lemma view_write s b l : view (set_img (<[b := l]> (img s)) s) b = l.
Proof. unfold view, disk_block. cbn. by rewrite lookup_insert_eq. Qed.

Lemma view_write_ne s b l x : x <> b -> view (set_img (<[b := l]> (img s)) s) x = view s x.
Proof. intros H. unfold view, disk_block. cbn. by rewrite lookup_insert_ne. Qed.

Lemma img_write s b l : length l = bsize ->
  (forall x, 0 <= x < FSSIZE -> exists l, img s !! x = Some l /\ length l = bsize) ->
  forall x, 0 <= x < FSSIZE -> exists l', <[b := l]> (img s) !! x = Some l' /\ length l' = bsize.
Proof.
  intros Hl Hi x Hx. destruct (decide (b = x)) as [->|Hne]; [rewrite lookup_insert_eq; eauto|].
  rewrite lookup_insert_ne by done. by apply Hi.
Qed.

Section Data.
Context (s : mkfs) (fs : list ffile) (D : data_ok s fs) (k : nat) (f : ffile) (Hk : fs !! k = Some f).

Lemma fs_split : exists l1 l2, fs = l1 ++ f :: l2 /\ length l1 = k.
Proof. by apply list_elem_of_split_length in Hk as (l1 & l2 & -> & ->); eauto. Qed.

Lemma file_range b : b ∈ blocks_of (view s) f -> nmeta <= b < freeblock s.
Proof.
  intros Hb. assert (Hin : b ∈ seqZ nmeta (freeblock s - nmeta)).
  { rewrite <- (d_part _ _ D). destruct fs_split as (l1 & l2 & -> & _). rewrite fmap_app, concat_app. cbn. set_solver. }
  apply elem_of_seqZ in Hin. lia.
Qed.

Lemma file_NoDup : NoDup (blocks_of (view s) f).
Proof.
  assert (Hnd : NoDup (concat (blocks_of (view s) <$> fs))) by (rewrite (d_part _ _ D); apply NoDup_seqZ).
  destruct fs_split as (l1 & l2 & -> & _). rewrite fmap_app, concat_app in Hnd. cbn in Hnd.
  apply NoDup_app in Hnd as (_ & _ & Hnd). by apply NoDup_app in Hnd as (Hnd & _ & _).
Qed.

Lemma other_blocks k' f' b : k' <> k -> fs !! k' = Some f' -> b ∈ blocks_of (view s) f ->
  (b ∉ blocks_of (view s) f').
Proof.
  intros Hne Hk' Hb Hb'.
  assert (Hnd : NoDup (concat (blocks_of (view s) <$> fs))) by (rewrite (d_part _ _ D); apply NoDup_seqZ).
  destruct fs_split as (l1 & l2 & Hfs & Hl). rewrite Hfs in Hnd, Hk'. rewrite fmap_app, concat_app in Hnd. cbn in Hnd.
  apply NoDup_app in Hnd as (_ & Hd1 & Hnd). apply NoDup_app in Hnd as (_ & Hd2 & _).
  assert (Hcc : forall l j, l !! j = Some f' -> b ∈ concat (blocks_of (view s) <$> l)).
  { intros l j Hj. apply list_elem_of_In, in_concat. exists (blocks_of (view s) f'). split; apply list_elem_of_In; [|done].
    apply list_elem_of_fmap. exists f'. split; [done|]. by eapply list_elem_of_lookup_2. }
  destruct (decide (k' < k)%nat) as [Hlt|Hge].
  - rewrite lookup_app_l in Hk' by lia. apply (Hd1 b); [by eapply Hcc|]. apply elem_of_app. by left.
  - rewrite lookup_app_r in Hk' by lia. destruct (k' - length l1)%nat as [|j] eqn:Hj; [lia|]. cbn in Hk'.
    apply (Hd2 b Hb). by eapply Hcc.
Qed.

(** A step that changes one file and takes the next blocks for it. *)
Lemma data_step s' f' : freeblock s <= freeblock s' <= FSSIZE ->
  (forall b, 0 <= b < FSSIZE -> exists l, img s' !! b = Some l /\ length l = bsize) ->
  holds (view s') f' ->
  blocks_of (view s') f' ≡ₚ blocks_of (view s) f ++ seqZ (freeblock s) (freeblock s' - freeblock s) ->
  (forall b, (b ∉ blocks_of (view s) f) -> b < freeblock s \/ freeblock s' <= b -> view s' b = view s b) ->
  data_ok s' (<[k := f']> fs).
Proof.
  intros Hfb Himg Hh Hbl Hsame. pose proof (d_range _ _ D) as Hr.
  assert (Hothers : forall k' g, k' <> k -> fs !! k' = Some g ->
    holds (view s') g /\ blocks_of (view s') g = blocks_of (view s) g).
  { intros k' g Hne Hg. apply holds_frame; [by apply (d_file _ _ D k')|]. intros b Hb.
    assert (Hbr : nmeta <= b < freeblock s).
    { clear - D Hg Hb. assert (Hin : b ∈ seqZ nmeta (freeblock s - nmeta)).
      { rewrite <- (d_part _ _ D). apply list_elem_of_split_length in Hg as (l1 & l2 & -> & _).
        rewrite fmap_app, concat_app. cbn. set_solver. }
      apply elem_of_seqZ in Hin. lia. }
    apply Hsame; [|lia]. intros Hb'. by apply (other_blocks k' g b Hne Hg Hb'). }
  split; try done.
  - lia.
  - intros j g Hj. apply list_lookup_insert_Some in Hj as [(-> & <- & _)|[Hne Hj]]; [done|].
    by apply (Hothers j g).
  - destruct fs_split as (l1 & l2 & Hfs & Hl). subst fs. rewrite insert_app_r_alt by lia.
    replace (k - length l1)%nat with 0%nat by lia. cbn [insert list_insert].
    pose proof (d_part _ _ D) as Hp. rewrite !fmap_app, !concat_app in *. rewrite !fmap_cons in *. cbn [concat] in *.
    assert (Hl1 : blocks_of (view s') <$> l1 = blocks_of (view s) <$> l1).
    { apply list_fmap_ext. intros i g Hg. eapply (Hothers i); [apply lookup_lt_Some in Hg; lia|].
      by apply lookup_app_l_Some. }
    assert (Hl2 : blocks_of (view s') <$> l2 = blocks_of (view s) <$> l2).
    { apply list_fmap_ext. intros i g Hg. eapply (Hothers (length l1 + S i)%nat); [lia|].
      rewrite lookup_app_r by lia. by replace (length l1 + S i - length l1)%nat with (S i) by lia. }
    rewrite Hl1, Hl2, Hbl.
    replace (freeblock s' - nmeta) with ((freeblock s - nmeta) + (freeblock s' - freeblock s)) by lia.
    rewrite seqZ_app by lia. replace (nmeta + (freeblock s - nmeta)) with (freeblock s) by lia.
    rewrite <- Hp, <- !app_assoc. do 2 apply Permutation_app_head. apply Permutation_app_comm.
  - intros b Hb. rewrite Hsame; [apply (d_zero _ _ D); lia| |lia]. intros Hin. pose proof (file_range b Hin). lia.
Qed.
End Data.

(** ** append_block *)

Lemma next_block_run s : 0 <= freeblock s < FSSIZE ->
  next_block s = Ok (freeblock s) (set_freeblock (freeblock s + 1) s).
Proof.
  intros H. unfold next_block. rewrite (run_bind _ _ _ (freeblock s) s) by done.
  change FSSIZE with 1000 in H.
  rewrite (run_bind _ _ _ tt (set_freeblock (freeblock s + 1) s)); [done|].
  unfold modify. do 2 f_equal. unfold u32. by rewrite Z.mod_small by lia.
Qed.

Lemma addr_small cv f j : holds cv f -> (j < 13)%nat -> 0 <= i_addrs (f_ino f) !!! j < FSSIZE.
Proof.
  intros Hh Hj. destruct (h_addrs _ _ Hh) as [Hlen Hall]. rewrite Forall_lookup in Hall.
  destruct (lookup_lt_is_Some_2 (i_addrs (f_ino f)) j) as [a Ha]; [lia|].
  rewrite (list_lookup_total_correct _ _ _ Ha). by apply (Hall j).
Qed.

Lemma xint_fs x : 0 <= x < FSSIZE -> xint x = x.
Proof. change FSSIZE with 1000. intros H. apply xint_small. lia. Qed.

(** The block is there already. *)
Lemma append_block_old s fs k f j : data_ok s fs -> fs !! k = Some f -> (j < f_nb f)%nat ->
  append_block (f_ino f) (Z.of_nat j) s = Ok (f_ino f, block_of (view s) (f_ino f) j) s.
Proof.
  intros D Hk Hj. pose proof (d_file _ _ D k f Hk) as Hh. pose proof (d_range _ _ D) as Hr.
  pose proof (file_range s fs D k f Hk _ (blocks_of_data (view s) f j Hj)) as Hb.
  change nmeta with 46 in *. unfold append_block. change (Z.of_nat NDIRECT) with 12.
  destruct (Z.ltb_spec (Z.of_nat j) 12) as [Hlt|Hge].
  - rewrite block_of_direct in Hb |- * by lia. rewrite Nat2Z.id, xint_fs by lia.
    rewrite (proj2 (Z.eqb_neq _ 0)) by lia. rewrite (run_bind _ _ _ (f_ino f) s) by done.
    by rewrite xint_fs by lia.
  - assert (Hi : f_ind f = true) by (pose proof (h_max _ _ Hh); destruct (f_ind f); [done|lia]).
    pose proof (file_range s fs D k f Hk _ (blocks_of_ind (view s) f Hi)) as Hib.
    change nmeta with 46 in *. change NDIRECT with 12%nat.
    rewrite xint_fs by lia. rewrite (proj2 (Z.eqb_neq _ 0)) by lia. rewrite (run_bind _ _ _ (f_ino f) s) by done.
    rewrite (run_bind _ _ _ (block_of (view s) (f_ino f) j) s); [done|].
    rewrite block_of_indirect in Hb |- * by lia. unfold indirect_entry. change NDIRECT with 12%nat. rewrite xint_fs by lia.
    destruct (rsect_run s (i_addrs (f_ino f) !!! 12%nat)) as [Hrd _]; [lia|apply (d_img _ _ D); lia|].
    rewrite (run_bind _ _ _ _ _ Hrd). replace (Z.to_nat (Z.of_nat j - 12)) with (j - 12)%nat by lia.
    rewrite (proj2 (Z.eqb_neq _ 0)) by lia. rewrite (run_bind _ _ _ (view s (i_addrs (f_ino f) !!! 12%nat)) s) by done.
    by rewrite xint_fs by lia.
Qed.

(** What one more block does to a file. *)
Record grown (f f' : ffile) : Prop := {
  g_ino : exists a, f_ino f' = set_i_addrs a (f_ino f);
  g_nb : f_nb f' = S (f_nb f);
  g_bytes : f_bytes f' = f_bytes f
}.

Lemma set_fb_same s b : view (set_freeblock b s) = view s.
Proof. done. Qed.

Lemma append_direct s fs k f : data_ok s fs -> fs !! k = Some f -> (f_nb f < 12)%nat -> f_ind f = false ->
  freeblock s < FSSIZE -> exists s' f',
    append_block (f_ino f) (Z.of_nat (f_nb f)) s = Ok (f_ino f', block_of (view s') (f_ino f') (f_nb f)) s' /\
    data_ok s' (<[k := f']> fs) /\ grown f f' /\ f_ind f' = false /\ freeblock s' = freeblock s + 1 /\ meta_same s s'.
Proof.
  intros D Hk Hnb Hi Hfb. pose proof (d_file _ _ D k f Hk) as Hh. pose proof (d_range _ _ D) as Hr.
  change nmeta with 46 in *.
  destruct (alloc_direct (view s) f (freeblock s)) as (Hh' & Hbl & Hnew); [done|done|done|apply (d_zero _ _ D); lia|lia|].
  set (f' := with_nb _ _) in *. exists (set_freeblock (freeblock s + 1) s), f'. rewrite set_fb_same, Hnew.
  destruct (h_addrs _ _ Hh) as [Hlen _].
  split; [|split; [|split; [|split; [done|split; [done|done]]]]].
  - unfold append_block. change (Z.of_nat NDIRECT) with 12. rewrite (proj2 (Z.ltb_lt _ 12)) by lia.
    rewrite Nat2Z.id, (h_direct _ _ Hh) by lia. change (xint 0 =? 0) with true. cbn match.
    rewrite (run_bind _ _ _ (f_ino f') (set_freeblock (freeblock s + 1) s)).
    + rewrite xint_fs; [|cbn; rewrite list_lookup_total_insert_eq by lia; lia]. cbn. by rewrite list_lookup_total_insert_eq by lia.
    + rewrite (run_bind _ _ _ _ _ (next_block_run s ltac:(lia))). by rewrite xint_fs by lia.
  - apply (data_step s fs D k f Hk); cbn [freeblock set_freeblock]; try done.
    + lia.
    + apply (d_img _ _ D).
    + rewrite set_fb_same, Hbl. by replace (freeblock s + 1 - freeblock s) with 1 by lia.
  - split; [by eexists|done|done].
Qed.

(** An entry of the indirect block, when there is one. *)
Lemma entry_new s fs k f : data_ok s fs -> fs !! k = Some f -> (f_nb f < 268)%nat -> f_ind f = true ->
  freeblock s < FSSIZE -> exists s',
    indirect_entry (f_ino f) (f_nb f - 12) s = Ok (block_of (view s') (f_ino f) (f_nb f)) s' /\
    data_ok s' (<[k := with_nb (S (f_nb f)) f]> fs) /\ freeblock s' = freeblock s + 1 /\ meta_same s s'.
Proof.
  intros D Hk Hnb Hi Hfb. pose proof (d_file _ _ D k f Hk) as Hh. pose proof (d_range _ _ D) as Hr.
  pose proof (file_range s fs D k f Hk _ (blocks_of_ind (view s) f Hi)) as Hib.
  destruct (h_some _ _ Hh Hi) as [Hn He]. change nmeta with 46 in *.
  set (i := i_addrs (f_ino f) !!! 12%nat) in *. set (b := freeblock s) in *.
  destruct (rsect_run s i) as [Hrd Hlen]; [lia|apply (d_img _ _ D); lia|].
  set (l := put32 (view s i) (4 * (f_nb f - 12)) b).
  set (s1 := set_freeblock (b + 1) s). set (s' := set_img (<[i := l]> (img s1)) s1).
  assert (Hll : length l = bsize).
  { unfold l. rewrite length_put32; [done|]. rewrite Hlen. change bsize with 1024%nat. lia. }
  assert (Hvi : view s' i = l) by (apply (view_write s1)).
  assert (Hvo : forall x, x <> i -> view s' x = view s x) by (intros x Hx; by apply (view_write_ne s1)).
  pose proof (file_NoDup s fs D k f Hk) as Hnd. unfold blocks_of in Hnd. rewrite Hi in Hnd.
  apply NoDup_app in Hnd as (_ & Hdis & _).
  destruct (alloc_entry (view s) (view s') f b) as (Hh' & Hbl & Hnew);
    [done|done|done|apply (d_zero _ _ D); lia|lia|fold i; lia|done| |done|done|].
  { intros Hin. apply (Hdis _ Hin). left. }
  exists s'. rewrite Hnew. split; [|split; [|split; [done|split; [done|]]]].
  - unfold indirect_entry. change NDIRECT with 12%nat. fold i. rewrite xint_fs by lia.
    rewrite (run_bind _ _ _ _ _ Hrd). fold i in He. rewrite He by lia. rewrite Z.eqb_refl.
    rewrite (run_bind _ _ _ l s').
    + unfold l. rewrite get32_put32_eq by (rewrite Hlen; change bsize with 1024%nat; lia).
      change FSSIZE with 1000 in *. unfold u32. rewrite Z.mod_small by lia. by rewrite xint_small by lia.
    + rewrite (run_bind _ _ _ _ _ (next_block_run s ltac:(lia))). fold b. fold s1. rewrite xint_fs by lia. fold l.
      rewrite (run_bind _ _ _ _ _ (wsect_run s1 i l ltac:(lia))). done.
  - apply (data_step s fs D k f Hk); cbn [freeblock set_freeblock set_img s' s1]; fold b; try done.
    + lia.
    + apply (img_write s1); [done|]. apply (d_img _ _ D).
    + rewrite Hbl. by replace (b + 1 - b) with 1 by lia.
    + intros x Hx _. apply Hvo. intros ->. apply Hx. by apply blocks_of_ind.
  - intros x Hx. apply Hvo. change nmeta with 46 in Hx. lia.
Qed.

Lemma append_indirect s fs k f : data_ok s fs -> fs !! k = Some f -> (f_nb f < 268)%nat -> f_ind f = true ->
  freeblock s < FSSIZE -> exists s',
    append_block (f_ino f) (Z.of_nat (f_nb f)) s = Ok (f_ino f, block_of (view s') (f_ino f) (f_nb f)) s' /\
    data_ok s' (<[k := with_nb (S (f_nb f)) f]> fs) /\ freeblock s' = freeblock s + 1 /\ meta_same s s'.
Proof.
  intros D Hk Hnb Hi Hfb. pose proof (d_file _ _ D k f Hk) as Hh. pose proof (d_range _ _ D) as Hr.
  pose proof (file_range s fs D k f Hk _ (blocks_of_ind (view s) f Hi)) as Hib.
  destruct (h_some _ _ Hh Hi) as [Hn He]. change nmeta with 46 in *.
  destruct (entry_new s fs k f D Hk Hnb Hi Hfb) as (s' & Hrun & Hrest). exists s'. split; [|done].
  unfold append_block. change (Z.of_nat NDIRECT) with 12. change NDIRECT with 12%nat.
  rewrite (proj2 (Z.ltb_ge _ 12)) by lia. rewrite xint_fs by lia. rewrite (proj2 (Z.eqb_neq _ 0)) by lia.
  rewrite (run_bind _ _ _ (f_ino f) s) by done. replace (Z.to_nat (Z.of_nat (f_nb f) - 12)) with (f_nb f - 12)%nat by lia.
  by rewrite (run_bind _ _ _ _ _ Hrun).
Qed.

(** The first block behind the direct ones: the indirect block as well. *)
Lemma append_thirteenth s fs k f : data_ok s fs -> fs !! k = Some f -> f_nb f = 12%nat -> f_ind f = false ->
  freeblock s + 1 < FSSIZE -> exists s' f',
    append_block (f_ino f) (Z.of_nat (f_nb f)) s = Ok (f_ino f', block_of (view s') (f_ino f') (f_nb f)) s' /\
    data_ok s' (<[k := f']> fs) /\ grown f f' /\ f_ind f' = true /\ freeblock s' = freeblock s + 2 /\ meta_same s s'.
Proof.
  intros D Hk Hnb Hi Hfb. pose proof (d_file _ _ D k f Hk) as Hh. pose proof (d_range _ _ D) as Hr.
  change nmeta with 46 in *.
  destruct (alloc_indirect (view s) f (freeblock s)) as (Hh' & Hbl); [done|done|done|apply (d_zero _ _ D); lia|lia|].
  set (f1 := with_ind _) in *. set (s1 := set_freeblock (freeblock s + 1) s).
  assert (D1 : data_ok s1 (<[k := f1]> fs)).
  { apply (data_step s fs D k f Hk); cbn [freeblock set_freeblock s1]; try done.
    - lia.
    - apply (d_img _ _ D).
    - unfold s1. rewrite set_fb_same, Hbl. by replace (freeblock s + 1 - freeblock s) with 1 by lia. }
  assert (Hk1 : <[k := f1]> fs !! k = Some f1).
  { apply list_lookup_insert_eq. by eapply lookup_lt_Some. }
  destruct (entry_new s1 _ k f1 D1 Hk1) as (s' & Hrun & D' & Hfb' & Hm);
    [cbn; lia|done|cbn; lia|].
  rewrite list_insert_insert_eq in D'.
  exists s', (with_nb (S (f_nb f1)) f1). split; [|split; [done|split; [|split; [done|split; [|]]]]].
  - unfold append_block. change (Z.of_nat NDIRECT) with 12. change NDIRECT with 12%nat.
    rewrite (proj2 (Z.ltb_ge _ 12)) by lia. rewrite (h_none _ _ Hh Hi). change (xint 0 =? 0) with true. cbn match.
    rewrite (run_bind _ _ _ (f_ino f1) s1).
    + replace (Z.to_nat (Z.of_nat (f_nb f) - 12)) with (f_nb f1 - 12)%nat by (cbn; lia).
      by rewrite (run_bind _ _ _ _ _ Hrun).
    + rewrite (run_bind _ _ _ _ _ (next_block_run s ltac:(lia))). by rewrite xint_fs by lia.
  - split; [by eexists|done|done].
  - rewrite Hfb'. cbn. lia.
  - exact Hm.
Qed.

(** ** iappend *)

(** The number of data blocks of a file of [n] bytes, and of all its blocks. *)
Definition nblk (n : nat) : nat := ((n + 1023) / 1024)%nat.
Definition need (n : nat) : Z := Z.of_nat (nblk n) + (if (12 <? nblk n)%nat then 1 else 0).

(** A file between two calls of iappend: no block too many. *)
Definition at_rest (f : ffile) : Prop :=
  f_nb f = nblk (length (f_bytes f)) /\ f_ind f = (12 <? nblk (length (f_bytes f)))%nat.

Lemma nblk_bounds n : (n <= nblk n * 1024 /\ nblk n * 1024 < n + 1024)%nat.
Proof.
  unfold nblk. pose proof (Nat.div_mod_eq (n + 1023) 1024). pose proof (Nat.mod_upper_bound (n + 1023) 1024). lia.
Qed.

Lemma nblk_unique n m : (n <= m * 1024 -> m * 1024 < n + 1024 -> nblk n = m)%nat.
Proof. intros H1 H2. pose proof (nblk_bounds n). lia. Qed.

Lemma need_mono n m : (n <= m)%nat -> need n <= need m.
Proof.
  intros H. pose proof (nblk_bounds n). pose proof (nblk_bounds m). unfold need.
  destruct (Nat.ltb_spec 12 (nblk n)), (Nat.ltb_spec 12 (nblk m)); lia.
Qed.

Lemma set_addrs_id ip : set_i_addrs (i_addrs ip) ip = ip.
Proof. by destruct ip. Qed.

(** The block for the next byte. *)
Lemma turn_block s fs k f : data_ok s fs -> fs !! k = Some f -> at_rest f ->
  let off := length (f_bytes f) in
  (off < 268 * 1024)%nat -> freeblock s + (need (off + 1) - need off) <= FSSIZE -> exists s' f',
    append_block (f_ino f) (Z.of_nat (off / 1024)) s = Ok (f_ino f', block_of (view s') (f_ino f') (off / 1024)) s' /\
    data_ok s' (<[k := f']> fs) /\ f_nb f' = S (off / 1024) /\ f_bytes f' = f_bytes f /\
    f_ind f' = (12 <? f_nb f')%nat /\ (exists a, f_ino f' = set_i_addrs a (f_ino f)) /\
    freeblock s' = freeblock s + (need (off + 1) - need off) /\ meta_same s s'.
Proof.
  intros D Hk [Hnb Hind] off Hoff Hroom. fold off in Hnb, Hind.
  pose proof (Nat.div_mod_eq off 1024) as Hdm. pose proof (Nat.mod_upper_bound off 1024 ltac:(lia)) as Hmod.
  set (q := (off / 1024)%nat) in *. assert (Hn1 : nblk (off + 1) = S q) by (apply nblk_unique; lia).
  unfold need in *. rewrite Hn1 in *. destruct (decide (off mod 1024 = 0)%nat) as [H0|H0].
  - assert (Hn : nblk off = q) by (apply nblk_unique; lia). rewrite Hn in *. rewrite <- Hnb in *.
    destruct (Nat.ltb_spec 12 (f_nb f)) as [H12|H12].
    + destruct (append_indirect s fs k f D Hk) as (s' & Hrun & D' & Hfb & Hm); [lia|done| |].
      { destruct (Nat.ltb_spec 12 (S (f_nb f))); lia. }
      exists s', (with_nb (S (f_nb f)) f). split; [done|]. split; [done|]. split; [done|]. split; [done|]. cbn [f_ind f_nb f_ino with_nb].
      rewrite Hind. destruct (Nat.ltb_spec 12 (S (f_nb f))); [|lia]. split; [done|]. split; [|split; [lia|done]].
      exists (i_addrs (f_ino f)). by rewrite set_addrs_id.
    + destruct (decide (f_nb f = 12%nat)) as [He|Hne].
      * destruct (append_thirteenth s fs k f D Hk He Hind) as (s' & f' & Hrun & D' & [G1 G2 G3] & Hi & Hfb & Hm).
        { rewrite He in Hroom. cbn in Hroom. lia. }
        exists s', f'. split; [done|]. split; [done|]. split; [done|]. split; [done|]. rewrite G2, Hi, Hfb, He.
        split; [done|]. split; [done|]. split; [cbn; lia|done].
      * destruct (append_direct s fs k f D Hk) as (s' & f' & Hrun & D' & [G1 G2 G3] & Hi & Hfb & Hm); [lia|done| |].
        { destruct (Nat.ltb_spec 12 (S (f_nb f))); lia. }
        exists s', f'. split; [done|]. split; [done|]. split; [done|]. split; [done|]. rewrite G2, Hi, Hfb.
        destruct (Nat.ltb_spec 12 (S (f_nb f))); [lia|]. split; [done|]. split; [done|]. split; [lia|done].
  - assert (Hn : nblk off = S q) by (apply nblk_unique; lia). rewrite Hn in *.
    exists s, f. split; [apply (append_block_old s fs k f q D Hk); lia|]. rewrite list_insert_id by done.
    split; [done|]. split; [done|]. split; [done|]. split; [by rewrite Hnb|].
    split; [exists (i_addrs (f_ino f)); by rewrite set_addrs_id|]. split; [lia|done].
Qed.

(** One turn of the loop. *)
Lemma turn_ok s fs k f c : data_ok s fs -> fs !! k = Some f -> at_rest f ->
  let off := length (f_bytes f) in let q := (off / 1024)%nat in
  (0 < length c)%nat -> (off + length c <= S q * 1024)%nat -> (q < 268)%nat ->
  freeblock s + (need (off + length c) - need off) <= FSSIZE -> exists s1 s' f' x,
    append_block (f_ino f) (Z.of_nat q) s = Ok (f_ino f', x) s1 /\
    rsect x s1 = Ok (view s1 x) s1 /\
    wsect x (splice (view s1 x) (off - q * 1024) c) s1 = Ok tt s' /\
    data_ok s' (<[k := f']> fs) /\ at_rest f' /\ f_bytes f' = f_bytes f ++ c /\
    (exists a, f_ino f' = set_i_addrs a (f_ino f)) /\
    freeblock s' = freeblock s + (need (off + length c) - need off) /\ meta_same s s'.
Proof.
  intros D Hk Hrest off q Hc Hfit Hq Hroom.
  pose proof (Nat.div_mod_eq off 1024) as Hdm. pose proof (Nat.mod_upper_bound off 1024 ltac:(lia)) as Hmod. fold q in Hdm.
  assert (Hnc : nblk (off + length c) = S q) by (apply nblk_unique; lia).
  assert (Hn1 : nblk (off + 1) = S q) by (apply nblk_unique; lia).
  assert (Hneed : need (off + length c) = need (off + 1)) by (unfold need; by rewrite Hnc, Hn1). rewrite Hneed in *.
  destruct (turn_block s fs k f D Hk Hrest) as (s1 & f1 & Hrun & D1 & Hnb1 & Hb1 & Hi1 & Ha1 & Hfb1 & Hm1); [fold off; lia|done|].
  fold off q in Hrun, Hnb1, Hfb1. set (x := block_of (view s1) (f_ino f1) q) in *.
  assert (Hk1 : <[k := f1]> fs !! k = Some f1) by (apply list_lookup_insert_eq; by eapply lookup_lt_Some).
  pose proof (file_range s1 _ D1 k f1 Hk1 x ltac:(apply blocks_of_data; lia)) as Hx. pose proof (d_range _ _ D1) as Hr.
  pose proof (file_NoDup s1 _ D1 k f1 Hk1) as Hnd. pose proof (d_file _ _ D1 k f1 Hk1) as Hh1. change nmeta with 46 in *.
  destruct (rsect_run s1 x) as [Hrd Hlen]; [lia|apply (d_img _ _ D1); lia|].
  set (l := splice (view s1 x) (off - q * 1024) c). change bsize with 1024%nat in Hlen.
  assert (Hll : length l = bsize) by (unfold l; rewrite length_splice; [done|lia]).
  set (s' := set_img (<[x := l]> (img s1)) s1). set (f' := mkFile (f_ino f1) (f_nb f1) (f_ind f1) (f_bytes f1 ++ c)).
  assert (Hvo : forall y, y <> x -> view s' y = view s1 y) by (intros y Hy; by apply view_write_ne).
  assert (Hxq : x = block_of (view s1) (f_ino f1) (f_nb f1 - 1)) by (unfold x; rewrite Hnb1; f_equal; lia).
  destruct (append_bytes (view s1) (view s') f1 c Hh1 Hnd) as [Hh' Hbl]; rewrite ?Hb1, <- ?Hxq; [lia|fold off; lia|fold off; lia|done| |done|].
  { etrans; [apply (view_write s1)|]. unfold l. fold off. rewrite Hnb1. f_equal. lia. }
  exists s1, s', f', x. split; [done|]. split; [done|]. split; [by apply wsect_run; lia|].
  split; [|split; [|split; [cbn; by rewrite Hb1|split; [done|split; [done|]]]]].
  - replace (<[k:=f']> fs) with (<[k:=f']> (<[k:=f1]> fs)) by apply list_insert_insert_eq.
    apply (data_step s1 _ D1 k f1 Hk1); change (freeblock s') with (freeblock s1); try done.
    + lia.
    + apply img_write; [done|]. apply (d_img _ _ D1).
    + fold f' in Hbl. rewrite Hbl, Z.sub_diag. cbn. by rewrite app_nil_r.
    + intros b Hb _. apply Hvo. intros ->. apply Hb, blocks_of_data. lia.
  - unfold at_rest, f'. cbn [f_nb f_ind f_bytes]. rewrite length_app, Hb1. fold off. rewrite Hnc.
    split; [done|]. by rewrite Hi1, Hnb1.
  - eapply meta_same_trans; [exact Hm1|]. split; [done|]. intros b Hb. apply Hvo. change nmeta with 46 in Hb. lia.
Qed.

Lemma set_addrs_twice a b ip : set_i_addrs a (set_i_addrs b ip) = set_i_addrs a ip.
Proof. done. Qed.

Lemma iappend_loop_ok k : forall fuel p s fs f, data_ok s fs -> fs !! k = Some f -> at_rest f ->
  let off := length (f_bytes f) in
  (length p <= fuel)%nat -> (off + length p <= 268 * 1024)%nat ->
  freeblock s + (need (off + length p) - need off) <= FSSIZE -> exists s' f',
    iappend_loop fuel (f_ino f) (Z.of_nat off) p s = Ok (f_ino f', Z.of_nat (off + length p)) s' /\
    data_ok s' (<[k := f']> fs) /\ at_rest f' /\ f_bytes f' = f_bytes f ++ p /\
    (exists a, f_ino f' = set_i_addrs a (f_ino f)) /\ meta_same s s'.
Proof.
  induction fuel as [|fuel IH]; intros p s fs f D Hk Hrest off Hfuel Hmax Hroom;
    (destruct p as [|c0 p0]; [exists s, f; cbn [length]; rewrite Nat.add_0_r, list_insert_id, app_nil_r by done;
      split; [done|split; [done|split; [done|split; [done|split; [exists (i_addrs (f_ino f)); by rewrite set_addrs_id|done]]]]]|]);
    [cbn in Hfuel; lia|].
  set (p := c0 :: p0) in *. assert (Hp : (0 < length p)%nat) by (cbn; lia).
  pose proof (Nat.div_mod_eq off 1024) as Hdm. pose proof (Nat.mod_upper_bound off 1024 ltac:(lia)) as Hmod.
  set (q := (off / 1024)%nat) in *. set (n := Nat.min (length p) (S q * 1024 - off)).
  set (c := take n p). assert (Hc : length c = n) by (unfold c; rewrite length_take; lia).
  pose proof (need_mono (off + n) (off + length p) ltac:(lia)) as Hmono.
  destruct (turn_ok s fs k f c D Hk Hrest) as (s1 & s2 & f2 & x & R1 & R2 & R3 & D2 & Hr2 & Hb2 & (a2 & Ha2) & Hfb2 & Hm2);
    fold off q; rewrite ?Hc; [lia|lia|lia|lia|]. fold off q in R1, R3, Hfb2. rewrite Hc in Hfb2.
  assert (Hl2 : length (f_bytes f2) = (off + n)%nat) by (rewrite Hb2, length_app, Hc; done).
  assert (Hk2 : <[k := f2]> fs !! k = Some f2) by (apply list_lookup_insert_eq; by eapply lookup_lt_Some).
  assert (Hdl : length (drop n p) = (length p - n)%nat) by apply length_drop.
  destruct (IH (drop n p) s2 _ f2 D2 Hk2 Hr2) as (s' & f' & Hrun & D' & Hr' & Hb' & (a' & Ha') & Hm');
    rewrite ?Hl2, ?Hdl; [lia|lia|replace (off + n + (length p - n))%nat with (off + length p)%nat by lia; lia|].
  rewrite list_insert_insert_eq in D'. rewrite Hl2, Hdl in Hrun.
  replace (off + n + (length p - n))%nat with (off + length p)%nat in Hrun by lia.
  exists s', f'. split; [|split; [done|split; [done|split; [|split; [|by eapply meta_same_trans]]]]].
  - unfold iappend_loop at 1; fold iappend_loop. unfold p at 1. cbv zeta. change BSIZE with 1024. change MAXFILE with 268.
    replace (Z.of_nat off / 1024) with (Z.of_nat q) by (unfold q; by rewrite Nat2Z.inj_div).
    rewrite (proj2 (Z.ltb_lt (Z.of_nat q) 268)) by lia. cbn [negb]. rewrite (run_bind _ _ _ _ _ R1).
    rewrite (run_bind _ _ _ _ _ R2).
    replace (Z.min (Z.of_nat (length p)) ((Z.of_nat q + 1) * 1024 - Z.of_nat off)) with (Z.of_nat n) by lia.
    rewrite Nat2Z.id. fold c. replace (Z.to_nat (Z.of_nat off - Z.of_nat q * 1024)) with (off - q * 1024)%nat by lia.
    rewrite (run_bind _ _ _ _ _ R3). unfold u32. rewrite Z.mod_small by lia. by rewrite <- Nat2Z.inj_add.
  - rewrite Hb', Hb2, <- app_assoc. f_equal. apply take_drop.
  - exists a'. by rewrite Ha', Ha2.
Qed.
