(* ===== verification/MkfsTheorems.v ===== *)
(** * Theorems about mkfs

    [stores] says that an image holds a list of files, inodes included; [ialloc] adds a file
    to it and [iappend] bytes to a file.  With that, [made] is what a run of mkfs leaves. *)

From stdpp Require Import base functions gmap list strings.
From Stdlib Require Import ZArith Lia.
From S2P Require Import Prelude Riscv Memory State Bio Cache Log Recovery Fs Inode Blocks Dinode Console Mkfs MkfsFiles.

#[local] Set Warnings "-clear-no-such-hyp".

(** ** Inodes *)

(** What mkfs puts in an inode. *)
Definition dino (ty size : Z) (a : list Z) : inode := mkInode 0 0 0 sleeplock0 0 ty 0 0 1 size a.

Definition inode_at (cv : Z -> list Z) (n : Z) : inode := dinode_load (cv (IBLOCK n sb)) (dinode_off n) inode0.

Lemma iblock_run n : 0 <= n < 208 -> IBLOCK n sb = n / 16 + 32.
Proof. intros H. unfold IBLOCK, u32. change (sb_inodestart sb) with 32. change IPB with 16.
  apply Z.mod_small. Z.to_euclidean_division_equations. lia.
Qed.

Lemma iblock_range n : 0 <= n < 208 -> 32 <= IBLOCK n sb < 45.
Proof. intros H. rewrite iblock_run by done. Z.to_euclidean_division_equations. lia. Qed.

Lemma dinode_off_room n : (dinode_off n + 64 <= 1024)%nat.
Proof. unfold dinode_off. change IPB with 16. Z.to_euclidean_division_equations. lia. Qed.

Lemma dinode_off_apart n n' : 0 <= n < 208 -> 0 <= n' < 208 -> n <> n' -> IBLOCK n sb = IBLOCK n' sb ->
  (dinode_off n' + 64 <= dinode_off n)%nat \/ (dinode_off n + 64 <= dinode_off n')%nat.
Proof. intros H1 H2 Hne. rewrite !iblock_run by done. unfold dinode_off. change IPB with 16.
  Z.to_euclidean_division_equations. lia.
Qed.

Lemma data_ok_meta s s' fs : data_ok s fs -> freeblock s' = freeblock s ->
  (forall b, nmeta <= b -> view s' b = view s b) ->
  (forall b, 0 <= b < FSSIZE -> exists l, img s' !! b = Some l /\ length l = bsize) -> data_ok s' fs.
Proof.
  intros D Hfb Hv Hi. pose proof (d_range _ _ D) as Hr.
  assert (Hf : forall k f, fs !! k = Some f -> holds (view s') f /\ blocks_of (view s') f = blocks_of (view s) f).
  { intros k f Hk. apply holds_frame; [by apply (d_file _ _ D k)|]. intros b Hb.
    pose proof (file_range s fs D k f Hk b Hb). apply Hv. lia. }
  split; rewrite ?Hfb; try done.
  - intros k f Hk. by apply (Hf k).
  - rewrite <- (d_part _ _ D). replace (blocks_of (view s') <$> fs) with (blocks_of (view s) <$> fs); [done|].
    apply list_fmap_ext. intros k f Hk. symmetry. by apply (Hf k).
  - intros b Hb. rewrite Hv by lia. by apply (d_zero _ _ D).
Qed.

(** The blocks of mkfs that are not inode blocks and not data. *)
Definition low (b : Z) : Prop := b < 32 \/ b = 45.
Definition low_same (s s' : mkfs) : Prop := forall b, low b -> view s' b = view s b.

Lemma winode_ok s fs n ip : data_ok s fs -> 0 <= n < 208 -> fields_ok ip -> exists s',
  winode n ip s = Ok tt s' /\ data_ok s' fs /\ inode_at (view s') n = with_fields ip inode0 /\
  (forall n', 0 <= n' < 208 -> n' <> n -> inode_at (view s') n' = inode_at (view s) n') /\
  low_same s s' /\ freeinode s' = freeinode s /\ freeblock s' = freeblock s.
Proof.
  intros D Hn Hip. pose proof (iblock_range n Hn) as Hbn. set (bn := IBLOCK n sb) in *.
  change FSSIZE with 1000. destruct (rsect_run s bn) as [Hrd Hlen];
    [change FSSIZE with 1000; lia|apply (d_img _ _ D); change FSSIZE with 1000; lia|].
  pose proof (dinode_off_room n) as Hoff. change bsize with 1024%nat in Hlen. destruct (fk_addrs _ Hip) as [Ha _].
  set (l := dinode_store ip (dinode_off n) (view s bn)).
  assert (Hll : length l = bsize).
  { unfold l. rewrite dinode_store_bytes by lia. rewrite length_splice; [done|]. rewrite length_dinode_bytes by done. lia. }
  set (s' := set_img (<[bn := l]> (img s)) s).
  assert (Hvb : view s' bn = l) by apply view_write.
  assert (Hvo : forall x, x <> bn -> view s' x = view s x) by (intros x Hx; by apply view_write_ne).
  exists s'. split; [|split; [|split; [|split; [|split; [|done]]]]].
  - unfold winode. fold bn. rewrite (run_bind _ _ _ _ _ Hrd). apply wsect_run. change FSSIZE with 1000. lia.
  - apply (data_ok_meta s); [done|done| |].
    + intros b Hb. apply Hvo. change nmeta with 46 in Hb. lia.
    + apply img_write; [done|]. apply (d_img _ _ D).
  - unfold inode_at. fold bn. rewrite Hvb. apply dinode_roundtrip; [done|lia].
  - intros n' Hn' Hne. unfold inode_at. destruct (decide (IBLOCK n' sb = bn)) as [He|He].
    + rewrite He, Hvb. apply dinode_other; [done|lia|]. apply dinode_off_apart; [done|done|done|by rewrite He].
    + by rewrite Hvo.
  - intros b [Hb|Hb]; apply Hvo; lia.
Qed.

(** ** The image as a list of files

    The files of an image, by inode number from 1: their types and contents. *)

Record image_ok (s : mkfs) (fs : list ffile) : Prop := {
  im_data : data_ok s fs;
  im_count : freeinode s = 1 + Z.of_nat (length fs) /\ (length fs <= 207)%nat;
  im_inode k f : fs !! k = Some f -> at_rest f /\ inode_at (view s) (1 + Z.of_nat k) = f_ino f /\
    exists ty a, f_ino f = dino ty (Z.of_nat (length (f_bytes f))) a /\ 0 <= ty < 2 ^ 15
}.

Definition contents (f : ffile) : Z * list Z := (i_type (f_ino f), f_bytes f).
Definition stores (s : mkfs) (l : list (Z * list Z)) : Prop := exists fs, image_ok s fs /\ contents <$> fs = l.

(** The blocks the files take. *)
Definition blocks_needed (l : list (Z * list Z)) : Z := foldr Z.add 0 ((fun e => need (length e.2)) <$> l).

Definition fits (l : list (Z * list Z)) : Prop :=
  (forall e, e ∈ l -> (length e.2 <= 268 * 1024)%nat) /\ nmeta + blocks_needed l <= FSSIZE.

Lemma length_blocks_of cv f : at_rest f -> Z.of_nat (length (blocks_of cv f)) = need (length (f_bytes f)).
Proof.
  intros [H1 H2]. unfold blocks_of, need. rewrite length_app, length_fmap, length_seq, H1, H2.
  destruct (12 <? _)%nat; cbn; lia.
Qed.

Lemma image_freeblock s fs : image_ok s fs -> freeblock s = nmeta + blocks_needed (contents <$> fs).
Proof.
  intros I. pose proof (d_part _ _ (im_data _ _ I)) as Hp. pose proof (d_range _ _ (im_data _ _ I)) as Hr.
  apply Permutation_length in Hp. rewrite length_seqZ in Hp.
  assert (Hn : Z.of_nat (length (concat (blocks_of (view s) <$> fs))) = blocks_needed (contents <$> fs)).
  { assert (Hrest : Forall at_rest fs) by (apply Forall_lookup; intros k f Hk; by apply (im_inode _ _ I k)).
    clear -Hrest. induction Hrest as [|f fs Hf _ IH]; [done|]. rewrite !fmap_cons. cbn [concat].
    rewrite length_app, Nat2Z.inj_add, IH, length_blocks_of by done. done. }
  lia.
Qed.

Lemma fields_dino ty size a : 0 <= ty < 2 ^ 15 -> 0 <= size < 2 ^ 32 ->
  length a = 13%nat /\ Forall (fun a => 0 <= a < FSSIZE) a -> fields_ok (dino ty size a).
Proof.
  intros H1 H2 [H3 H4]. split; cbn; [lia|lia|lia|lia|done|]. split; [done|].
  eapply Forall_impl; [exact H4|]. cbn. change FSSIZE with 1000. lia.
Qed.

Lemma holds_ino cv f ip : i_addrs ip = i_addrs (f_ino f) -> holds cv f ->
  let f' := mkFile ip (f_nb f) (f_ind f) (f_bytes f) in holds cv f' /\ blocks_of cv f' = blocks_of cv f.
Proof.
  intros Ha [H1 H2 H3 H4 H5 H6 H7] f'.
  assert (Hb : forall k, block_of cv ip k = block_of cv (f_ino f) k) by (intros k; unfold block_of, file_block; by rewrite Ha).
  split; [split; unfold f'; cbn [f_ino f_nb f_ind f_bytes]; rewrite ?Ha; try done|].
  - intros o Ho. rewrite Hb. by apply H7.
  - unfold blocks_of, f'. cbn [f_ino f_nb f_ind f_bytes]. rewrite Ha. f_equal. apply list_fmap_ext. intros. apply Hb.
Qed.

Lemma data_ok_ino s fs k f ip : data_ok s fs -> fs !! k = Some f -> i_addrs ip = i_addrs (f_ino f) ->
  data_ok s (<[k := mkFile ip (f_nb f) (f_ind f) (f_bytes f)]> fs).
Proof.
  intros D Hk Ha. destruct (holds_ino (view s) f ip Ha (d_file _ _ D k f Hk)) as [Hh Hb].
  apply (data_step s fs D k f Hk); try done.
  - pose proof (d_range _ _ D). lia.
  - apply (d_img _ _ D).
  - rewrite Hb, Z.sub_diag. cbn. by rewrite app_nil_r.
Qed.

(** ialloc adds an empty file. *)
Lemma data_ok_new s fs ip : data_ok s fs -> i_addrs ip = replicate 13 0 -> data_ok s (fs ++ [mkFile ip 0 false []]).
Proof.
  intros D Ha. pose proof D as [H1 H2 H3 H4 H5]. split; try done.
  - intros k f Hk. apply lookup_app_Some in Hk as [Hk|[_ Hk]]; [by apply (H3 k)|].
    apply list_lookup_singleton_Some in Hk as [_ <-].
    assert (Hz : forall j, (j < 13)%nat -> replicate 13 0 !!! j = 0).
    { intros j Hj. by apply lookup_total_replicate_2. }
    split; cbn [f_ino f_nb f_ind f_bytes]; rewrite ?Ha; try done; try lia.
    + split; [done|]. apply Forall_replicate. change FSSIZE with 1000. lia.
    + intros j Hj. apply Hz. lia.
  - rewrite fmap_app, concat_app. cbn. by rewrite app_nil_r.
Qed.

Lemma ialloc_stores s l ty : stores s l -> (length l < 207)%nat -> 0 <= ty < 2 ^ 15 -> exists s',
  ialloc ty s = Ok (1 + Z.of_nat (length l)) s' /\ stores s' (l ++ [(ty, [])]) /\ low_same s s'.
Proof.
  intros (fs & I & <-) Hl Hty. rewrite length_fmap in *. pose proof (im_count _ _ I) as [Hc _].
  set (n := 1 + Z.of_nat (length fs)) in *. set (s1 := set_freeinode (n + 1) s).
  set (ip := dino ty 0 (replicate 13 0)).
  assert (D1 : data_ok s1 fs) by exact (data_ok_meta s s1 fs (im_data _ _ I) eq_refl (fun _ _ => eq_refl) (d_img _ _ (im_data _ _ I))).
  destruct (winode_ok s1 fs n ip D1) as (s' & Hw & D' & Hat & Hother & Hlow & Hfi & Hfb); [unfold n; lia| |].
  { apply fields_dino; [done|lia|]. split; [done|]. apply Forall_replicate. change FSSIZE with 1000. lia. }
  exists s'. split; [|split; [|done]].
  - unfold ialloc. rewrite (run_bind _ _ _ n s) by (rewrite <- Hc; done).
    rewrite (run_bind _ _ _ tt s1).
    + rewrite xshort_small by lia. change (xshort 1) with 1. change (xint 0) with 0.
      change (set_i_type _ _) with ip. by rewrite (run_bind _ _ _ _ _ Hw).
    + unfold modify, s1. do 2 f_equal. unfold u32. rewrite Z.mod_small by lia. done.
  - exists (fs ++ [mkFile ip 0 false []]). split; [|by rewrite fmap_app]. split.
    + by apply data_ok_new.
    + rewrite Hfi, length_app. cbn. lia.
    + intros k f Hk. apply lookup_app_Some in Hk as [Hk|[Hk1 Hk]].
      * destruct (im_inode _ _ I k f Hk) as (Hr & Hi & He). split; [done|]. split; [|done].
        apply lookup_lt_Some in Hk. rewrite Hother by (unfold n; lia). done.
      * apply list_lookup_singleton_Some in Hk as [Hk2 <-]. split; [done|].
        replace (1 + Z.of_nat k) with n by (unfold n; lia). rewrite Hat. split; [done|].
        exists ty, (replicate 13 0). split; [done|done].
Qed.

Lemma blocks_needed_cons e l : blocks_needed (e :: l) = need (length e.2) + blocks_needed l.
Proof. done. Qed.

Lemma blocks_needed_insert l k e e' : l !! k = Some e ->
  blocks_needed (<[k := e']> l) = blocks_needed l + (need (length e'.2) - need (length e.2)).
Proof.
  revert k. induction l as [|x l IH]; intros [|k] Hk; [done|done| |].
  - injection Hk as ->. change (<[0%nat := e']> (e :: l)) with (e' :: l). rewrite !blocks_needed_cons. lia.
  - change (<[S k := e']> (x :: l)) with (x :: <[k := e']> l). rewrite !blocks_needed_cons, IH by done. lia.
Qed.

Lemma iappend_stores s l k ty bs p : stores s l -> l !! k = Some (ty, bs) -> fits (<[k := (ty, bs ++ p)]> l) ->
  exists s', iappend (1 + Z.of_nat k) p s = Ok tt s' /\ stores s' (<[k := (ty, bs ++ p)]> l) /\ low_same s s'.
Proof.
  intros (fs & I & <-) Hk [Hmax Hroom]. rewrite list_lookup_fmap in Hk.
  destruct (fs !! k) as [f|] eqn:Hf; [|done]. injection Hk as Hty Hbs.
  pose proof (im_data _ _ I) as D. pose proof (im_count _ _ I) as [Hc Hc']. pose proof (lookup_lt_Some _ _ _ Hf) as Hlt.
  destruct (im_inode _ _ I k f Hf) as (Hrest & Hat & ty' & a & Hino & Hty').
  rewrite Hino in Hty. cbn in Hty. subst ty'.
  pose proof (blocks_needed_insert (contents <$> fs) k (contents f) (ty, bs ++ p) ltac:(by rewrite list_lookup_fmap, Hf)) as Hbn.
  cbn [fst snd contents] in Hbn. rewrite Hbs, length_app in Hbn. pose proof (image_freeblock s fs I) as Hfb.
  specialize (Hmax (ty, bs ++ p)). cbn [snd] in Hmax. rewrite length_app in Hmax.
  assert (Hin : (ty, bs ++ p) ∈ <[k := (ty, bs ++ p)]> (contents <$> fs)).
  { apply (list_elem_of_lookup_2 _ k). apply list_lookup_insert_eq. by rewrite length_fmap. }
  specialize (Hmax Hin). set (n := 1 + Z.of_nat k). pose proof (iblock_range n ltac:(unfold n; lia)) as Hib.
  destruct (iappend_loop_ok k (length p) p s fs f D Hf Hrest) as (s1 & f1 & Hrun & D1 & Hr1 & Hb1 & (a1 & Ha1) & Hfi1 & Hm1);
    rewrite ?Hbs; [done|done|lia|].
  rewrite Hbs in Hrun, Hb1.
  assert (Hk1 : <[k := f1]> fs !! k = Some f1) by (by apply list_lookup_insert_eq).
  destruct (h_addrs _ _ (d_file _ _ D1 k f1 Hk1)) as [Hal Haa]. rewrite Ha1 in Hal, Haa. cbn in Hal, Haa.
  set (ip := dino ty (Z.of_nat (length bs + length p)) a1).
  assert (Hfo : fields_ok ip) by (apply fields_dino; [done|lia|done]).
  destruct (winode_ok s1 _ n ip D1 ltac:(unfold n; lia) Hfo) as (s' & Hw & D' & Hat' & Hother & Hlow & Hfi & Hfb').
  exists s'. split; [|split].
  - unfold iappend, rinode. destruct (rsect_run s (IBLOCK n sb)) as [Hrd _];
      [change FSSIZE with 1000; lia|apply (d_img _ _ D); change FSSIZE with 1000; lia|].
    rewrite (run_bind _ _ _ (f_ino f) s).
    + rewrite Hino. cbn [i_size dino]. rewrite Hbs, xint_small by lia. rewrite Hino, Hbs in Hrun.
      rewrite (run_bind _ _ _ _ _ Hrun). rewrite xint_small by lia. rewrite Ha1, Hino. exact Hw.
    + fold n. rewrite (run_bind _ _ _ _ _ Hrd). unfold mret, M_ret. f_equal. unfold inode_at in Hat. fold n in Hat. by rewrite Hat.
  - exists (<[k := mkFile ip (f_nb f1) (f_ind f1) (f_bytes f1)]> (<[k := f1]> fs)). rewrite list_insert_insert_eq. split; [split|].
    + rewrite <- (list_insert_insert_eq fs k _ f1). apply data_ok_ino; [done|done|]. rewrite Ha1. done.
    + rewrite Hfi, Hfi1, length_insert. lia.
    + intros j g Hj. apply list_lookup_insert_Some in Hj as [(<- & <- & _)|[Hne Hj]].
      * split; [exact Hr1|]. split; [exact Hat'|]. exists ty, a1. cbn. rewrite Hb1, length_app. done.
      * destruct (im_inode _ _ I j g Hj) as (Hr & Hi & He). split; [done|]. split; [|done].
        apply lookup_lt_Some in Hj as Hjl. rewrite Hother by (unfold n; lia). unfold inode_at.
        pose proof (iblock_range (1 + Z.of_nat j) ltac:(lia)). rewrite Hm1 by (change nmeta with 46; lia). exact Hi.
    + rewrite list_fmap_insert. cbn. by rewrite Hb1.
  - intros b Hb. rewrite Hlow by done. apply Hm1. change nmeta with 46. destruct Hb; lia.
Qed.

(** ** main *)

Lemma low_same_trans s1 s2 s3 : low_same s1 s2 -> low_same s2 s3 -> low_same s1 s3.
Proof. intros H1 H2 b Hb. rewrite H2 by done. by apply H1. Qed.

Lemma need_pos n : 0 <= need n.
Proof. unfold need. destruct (_ <? _)%nat; lia. Qed.

Lemma blocks_needed_app l1 l2 : blocks_needed (l1 ++ l2) = blocks_needed l1 + blocks_needed l2.
Proof. induction l1 as [|e l1 IH]; [done|]. cbn [app]. rewrite !blocks_needed_cons, IH. lia. Qed.

Lemma blocks_needed_pos l : 0 <= blocks_needed l.
Proof. induction l as [|e l IH]; [done|]. rewrite blocks_needed_cons. pose proof (need_pos (length e.2)). lia. Qed.

(** An image with less in every file needs fewer blocks. *)
Lemma fits_less l l' : fits l -> (forall k e', l' !! k = Some e' -> exists e, l !! k = Some e /\ (length e'.2 <= length e.2)%nat) ->
  fits l'.
Proof.
  intros [H1 H2] Hle. split.
  - intros e' [k Hk]%list_elem_of_lookup. destruct (Hle k e' Hk) as (e & He & Hl).
    specialize (H1 e (list_elem_of_lookup_2 _ _ _ He)). lia.
  - enough (blocks_needed l' <= blocks_needed l) by lia. clear H1 H2. revert l Hle.
    induction l' as [|e' l' IH]; intros l Hle; [apply blocks_needed_pos|].
    destruct (Hle 0%nat e' eq_refl) as (e & He & Hl). destruct l as [|x l]; [done|]. injection He as ->.
    rewrite !blocks_needed_cons. pose proof (need_mono _ _ Hl). enough (blocks_needed l' <= blocks_needed l) by lia.
    apply IH. intros k f Hf. exact (Hle (S k) f Hf).
Qed.

Lemma append_chunks k ty chunks : forall s l bs, stores s l -> l !! k = Some (ty, bs) ->
  fits (<[k := (ty, bs ++ concat chunks)]> l) -> exists s',
    for_each chunks (iappend (1 + Z.of_nat k)) s = Ok tt s' /\ stores s' (<[k := (ty, bs ++ concat chunks)]> l) /\ low_same s s'.
Proof.
  induction chunks as [|c chunks IH]; intros s l bs Hst Hk Hf; cbn [concat for_each].
  - rewrite app_nil_r, list_insert_id by done. by exists s.
  - cbn [concat] in Hf. pose proof (lookup_lt_Some _ _ _ Hk) as Hlt.
    destruct (iappend_stores s l k ty bs c Hst Hk) as (s1 & R1 & Hst1 & Hlow1).
    { eapply fits_less; [exact Hf|]. intros j e' Hj. apply list_lookup_insert_Some in Hj as [(<- & <- & _)|[Hne Hj]].
      - eexists. split; [by apply list_lookup_insert_eq|]. cbn. rewrite !length_app. lia.
      - exists e'. rewrite list_lookup_insert_ne by done. done. }
    destruct (IH s1 _ (bs ++ c) Hst1) as (s2 & R2 & Hst2 & Hlow2).
    { by apply list_lookup_insert_eq. }
    { rewrite list_insert_insert_eq, <- app_assoc. exact Hf. }
    rewrite list_insert_insert_eq, <- app_assoc in Hst2. exists s2. rewrite (run_bind _ _ _ _ _ R1).
    split; [done|]. split; [done|]. by eapply low_same_trans.
Qed.

(** A file on the command line that can be opened: its path and the pieces read returns. *)
Definition argument (f : list Z * list (list Z)) : list Z * option (list (list Z)) := (f.1, Some f.2).
Definition name_of (f : list Z * list (list Z)) : list Z := skip_underscore (shortname f.1).

Definition root_bytes (names : list (list Z)) : list Z :=
  dirent 1 (bytes_of ".") ++ dirent 1 (bytes_of "..") ++
  concat (imap (fun i nm => dirent (2 + Z.of_nat i) nm) names).

(** The root directory and the files. *)
Definition tree (files : list (list Z * list (list Z))) : list (Z * list Z) :=
  (T_DIR, root_bytes (name_of <$> files)) :: ((fun f => (T_FILE, concat f.2)) <$> files).

Lemma root_bytes_snoc names nm : root_bytes (names ++ [nm]) = root_bytes names ++ dirent (2 + Z.of_nat (length names)) nm.
Proof.
  unfold root_bytes. rewrite imap_app, concat_app. cbn. rewrite Nat.add_0_r, app_nil_r. by rewrite <- !app_assoc.
Qed.

Lemma tree_prefix files rest : fits (tree (files ++ rest)) -> fits (tree files).
Proof.
  intros Hf. eapply fits_less; [exact Hf|]. intros [|k] e' Hk.
  - injection Hk as <-. eexists. split; [done|]. cbn [snd]. rewrite fmap_app. generalize (name_of <$> files). intros n1.
    induction (name_of <$> rest) as [|x n2 IH] using rev_ind; [by rewrite app_nil_r|].
    rewrite app_assoc, root_bytes_snoc, length_app. lia.
  - exists e'. split; [|done]. cbn in *. rewrite fmap_app. by apply lookup_app_l_Some.
Qed.

Lemma lookup_cons_S {A} (x : A) l n : (x :: l) !! S n = l !! n.
Proof. done. Qed.

Lemma insert_cons_S {A} (x y : A) l n : <[S n := y]> (x :: l) = x :: <[n := y]> l.
Proof. done. Qed.

Lemma add_file_stores s files f : stores s (tree files) -> (length files < 206)%nat ->
  (SLASH ∉ shortname f.1) -> fits (tree (files ++ [f])) -> exists s',
    add_file 1 (argument f) s = Ok tt s' /\ stores s' (tree (files ++ [f])) /\ low_same s s'.
Proof.
  intros Hst Hlen Hsl Hfit. set (n := length files) in *.
  destruct (ialloc_stores s (tree files) T_FILE Hst) as (s1 & R1 & Hst1 & Hlow1);
    [cbn; rewrite length_fmap; fold n; lia|done|].
  replace (1 + Z.of_nat (length (tree files))) with (2 + Z.of_nat n) in R1 by (cbn; rewrite length_fmap; fold n; lia).
  set (de := dirent (2 + Z.of_nat n) (name_of f)).
  assert (Hroot : root_bytes (name_of <$> (files ++ [f])) = root_bytes (name_of <$> files) ++ de).
  { rewrite fmap_app. cbn [fmap list_fmap]. rewrite root_bytes_snoc, length_fmap. done. }
  set (l2 := <[0%nat := (T_DIR, root_bytes (name_of <$> files) ++ de)]> (tree files ++ [(T_FILE, [])])).
  assert (Hl2 : l2 = (T_DIR, root_bytes (name_of <$> files) ++ de) :: ((fun f => (T_FILE, concat f.2)) <$> files) ++ [(T_FILE, [])]) by done.
  assert (Hl3 : <[S n := (T_FILE, concat f.2)]> l2 = tree (files ++ [f])).
  { rewrite Hl2, insert_cons_S. unfold tree. rewrite Hroot, fmap_app. f_equal. rewrite insert_app_r_alt by (rewrite length_fmap; fold n; lia).
    rewrite length_fmap. fold n. by rewrite Nat.sub_diag. }
  assert (Hk : l2 !! S n = Some (T_FILE, [])).
  { rewrite Hl2, lookup_cons_S. rewrite lookup_app_r by (rewrite length_fmap; fold n; lia). rewrite length_fmap. fold n. by rewrite Nat.sub_diag. }
  destruct (iappend_stores s1 _ 0 T_DIR (root_bytes (name_of <$> files)) de Hst1 eq_refl) as (s2 & R2 & Hst2 & Hlow2).
  { eapply fits_less; [exact Hfit|]. fold l2. rewrite <- Hl3. intros k e' Hj.
    destruct (decide (k = S n)) as [->|Hne].
    - eexists. split; [apply list_lookup_insert_eq; rewrite Hl2; cbn; rewrite length_app, length_fmap; fold n; cbn; lia|].
      rewrite Hk in Hj. injection Hj as <-. cbn. lia.
    - exists e'. rewrite list_lookup_insert_ne by done. done. }
  fold l2 in Hst2.
  destruct (append_chunks (S n) T_FILE f.2 s2 l2 [] Hst2 Hk) as (s3 & R3 & Hst3 & Hlow3); [by rewrite app_nil_l, Hl3|].
  rewrite app_nil_l, Hl3 in Hst3. exists s3. split; [|split; [done|]].
  - unfold add_file, argument. cbn [fst snd]. rewrite bool_decide_false by done.
    rewrite (run_bind _ _ _ _ _ R1). change 1 with (1 + Z.of_nat 0) at 1. rewrite (run_bind _ _ _ _ _ R2).
    replace (2 + Z.of_nat n) with (1 + Z.of_nat (S n)) by lia. exact R3.
  - eapply low_same_trans; [|done]. by eapply low_same_trans.
Qed.

Lemma add_files_store rest : forall s files, stores s (tree files) -> (length (files ++ rest) <= 206)%nat ->
  (forall f, f ∈ rest -> (SLASH ∉ shortname f.1)) -> fits (tree (files ++ rest)) -> exists s',
    for_each (argument <$> rest) (add_file 1) s = Ok tt s' /\ stores s' (tree (files ++ rest)) /\ low_same s s'.
Proof.
  induction rest as [|f rest IH]; intros s files Hst Hlen Hsl Hfit.
  - rewrite app_nil_r. by exists s.
  - replace (files ++ f :: rest) with ((files ++ [f]) ++ rest) in * by (by rewrite <- app_assoc).
    rewrite !length_app in Hlen. cbn in Hlen.
    destruct (add_file_stores s files f Hst) as (s1 & R1 & Hst1 & Hlow1);
      [lia|apply Hsl; by left|by eapply tree_prefix|].
    destruct (IH s1 (files ++ [f]) Hst1) as (s2 & R2 & Hst2 & Hlow2);
      [rewrite !length_app; cbn; lia|intros g Hg; apply Hsl; by right|done|].
    exists s2. rewrite fmap_cons. cbn [for_each]. rewrite (run_bind _ _ _ _ _ R1). split; [done|]. split; [done|].
    by eapply low_same_trans.
Qed.

(** *** The start *)

Lemma zero_blocks n : forall j s, (j + n <= 1000)%nat -> exists s',
  for_each (seq j n) (fun i => wsect (Z.of_nat i) zeroes) s = Ok tt s' /\
  freeinode s' = freeinode s /\ freeblock s' = freeblock s /\
  forall b, Z.of_nat j <= b < Z.of_nat (j + n) -> img s' !! b = Some zeroes.
Proof.
  assert (Hgen : forall j s (P : Z -> Prop), (j + n <= 1000)%nat -> (forall b, P b -> img s !! b = Some zeroes) ->
    exists s', for_each (seq j n) (fun i => wsect (Z.of_nat i) zeroes) s = Ok tt s' /\
      freeinode s' = freeinode s /\ freeblock s' = freeblock s /\
      forall b, P b \/ Z.of_nat j <= b < Z.of_nat (j + n) -> img s' !! b = Some zeroes).
  { induction n as [|n IH]; intros j s P Hj HP.
    - exists s. split; [done|]. split; [done|]. split; [done|]. intros b [Hb|Hb]; [by apply HP|lia].
    - cbn [seq for_each]. rewrite (run_bind _ _ _ _ _ (wsect_run s (Z.of_nat j) zeroes ltac:(change FSSIZE with 1000; lia))).
      destruct (IH (S j) (set_img (<[Z.of_nat j := zeroes]> (img s)) s) (fun b => P b \/ b = Z.of_nat j)) as (s' & R & H1 & H2 & H3).
      + lia.
      + intros b Hb. cbn. destruct (decide (Z.of_nat j = b)) as [->|Hne]; [apply lookup_insert_eq|].
        rewrite lookup_insert_ne by done. apply HP. destruct Hb; [done|congruence].
      + exists s'. split; [done|]. split; [done|]. split; [done|]. intros b Hb. apply H3.
        destruct (decide (b = Z.of_nat j)); [by left; right|]. destruct Hb as [Hb|Hb]; [by left; left|right; lia]. }
  intros j s Hj. destruct (Hgen j s (fun _ => False) Hj ltac:(done)) as (s' & R & H1 & H2 & H3).
  exists s'. split; [done|]. split; [done|]. split; [done|]. intros b Hb. apply H3. by right.
Qed.

Lemma start_stores s : freeinode s = 1 -> freeblock s = nmeta ->
  (forall b, 0 <= b < FSSIZE -> exists l, img s !! b = Some l /\ length l = bsize) ->
  (forall b, nmeta <= b < FSSIZE -> view s b = zeroes) -> stores s [].
Proof.
  intros H1 H2 H3 H4. exists []. split; [|done]. split; [split|split; [by rewrite H1|cbn; lia]|done]; try done.
  - rewrite H2. done.
  - rewrite H2. done.
  - by rewrite H2.
Qed.

(** *** The bitmap *)

Lemma bitmap_bits used b : Z.of_nat used <= 8192 -> 0 <= b < 8192 ->
  let l := foldl (fun buf i => set_bit (Z.of_nat i) buf) zeroes (seq 0 used) in
  length l = bsize /\ bit_clear l b = negb (b <? Z.of_nat used).
Proof.
  intros Hu Hb. induction used as [|n IH]; cbv zeta.
  - split; [done|]. rewrite bit_clear_testbit by lia. cbn [seq foldl]. unfold zeroes.
    rewrite lookup_total_replicate_2, Z.bits_0; [by destruct (Z.ltb_spec b (Z.of_nat 0)); [lia|]|].
    change bsize with 1024%nat. assert (b / 8 < 1024) by (apply Z.div_lt_upper_bound; lia). lia.
  - destruct (IH ltac:(lia)) as [IH1 IH2]. rewrite seq_S, foldl_app. cbn [foldl Nat.add].
    set (l := foldl _ zeroes (seq 0 n)) in *. change (set_bit (Z.of_nat n) l) with (Blocks.set_bit l (Z.of_nat n)).
    split; [by rewrite length_set_bit|]. change bsize with 1024%nat in IH1.
    rewrite bit_clear_set by lia. rewrite IH2.
    destruct (Z.eqb_spec b (Z.of_nat n)), (Z.ltb_spec b (Z.of_nat n)), (Z.ltb_spec b (Z.of_nat (S n))); try done; lia.
Qed.

(** ** What the image is *)

(** The blocks of a file of [len] bytes with the inode [ip]: those of the data, and the
    indirect block. *)
Definition inode_blocks (cv : Z -> list Z) (ip : inode) (len : nat) : list Z :=
  blocks_of cv (mkFile ip (nblk len) (12 <? nblk len)%nat []).

(** The file with inode number [n] has the given type, size and first bytes. *)
Record file_at (cv : Z -> list Z) (n ty size : Z) (bytes : list Z) : Prop := {
  fa_inode : exists a, inode_at cv n = dino ty size a /\ length a = 13%nat;
  fa_bytes : file_data cv (inode_at cv n) 0 (length bytes) = bytes;
  fa_rest o : (length bytes <= o < nblk (length bytes) * 1024)%nat -> file_byte cv (inode_at cv n) (Z.of_nat o) = 0;
  fa_blocks b : b ∈ inode_blocks cv (inode_at cv n) (length bytes) -> nmeta <= b < FSSIZE /\ length (cv b) = bsize;
  fa_hole k : (nblk (length bytes) <= k < 12)%nat -> i_addrs (inode_at cv n) !!! k = 0
}.

Lemma file_byte_block cv ip o : file_byte cv ip (Z.of_nat o) = cv (block_of cv ip (o / 1024)) !!! (o mod 1024)%nat.
Proof.
  unfold file_byte, block_of. change BSIZE with (Z.of_nat 1024). rewrite <- Nat2Z.inj_div, <- Nat2Z.inj_mod.
  by rewrite Nat2Z.id.
Qed.

Lemma holds_bytes cv f : holds cv f -> at_rest f ->
  file_data cv (f_ino f) 0 (length (f_bytes f)) = f_bytes f /\
  forall o, (length (f_bytes f) <= o < nblk (length (f_bytes f)) * 1024)%nat -> file_byte cv (f_ino f) (Z.of_nat o) = 0.
Proof.
  intros Hh [Hnb _]. pose proof (h_fit _ _ Hh) as Hfit. split.
  - apply list_eq. intros o. unfold file_data. rewrite list_lookup_fmap. destruct (decide (o < length (f_bytes f))%nat) as [Ho|Ho].
    + rewrite lookup_seq_lt by done. cbn [fmap option_fmap option_map Nat.add]. rewrite Z.add_0_l, file_byte_block.
      rewrite (h_byte _ _ Hh) by lia. destruct (lookup_lt_is_Some_2 _ _ Ho) as [v Hv]. by rewrite Hv.
    + rewrite lookup_seq_ge by lia. symmetry. apply lookup_ge_None_2. lia.
  - intros o Ho. rewrite file_byte_block, (h_byte _ _ Hh) by (rewrite Hnb; lia). by rewrite lookup_ge_None_2 by lia.
Qed.

(** The image of a finished run. *)
Definition made (cv : Z -> list Z) (files : list (list Z * list (list Z))) : Prop :=
  let root := root_bytes (name_of <$> files) in
  let used := nmeta + blocks_needed (tree files) in
  superblock_load (cv 1) = sb /\
  (forall b, 2 <= b < 32 -> cv b = zeroes) /\
  file_at cv ROOTINO T_DIR ((Z.of_nat (length root) / BSIZE + 1) * BSIZE) root /\
  (forall i f, files !! i = Some f ->
     file_at cv (2 + Z.of_nat i) T_FILE (Z.of_nat (length (concat f.2))) (concat f.2)) /\
  concat (imap (fun i e => inode_blocks cv (inode_at cv (1 + Z.of_nat i)) (length e.2)) (tree files))
    ≡ₚ seqZ nmeta (used - nmeta) /\
  bitmap_ok cv sb ∅ /\ free_blocks cv sb (list_to_set (seqZ used (FSSIZE - used))) /\
  (forall b, 0 <= b < FSSIZE -> length (cv b) = bsize).

(** The inode numbers of the image, after the size of the root directory has been changed. *)
Lemma fix_root_ok s fs f0 : image_ok s fs -> fs !! 0%nat = Some f0 -> (length (f_bytes f0) < 268 * 1024)%nat -> exists s' a,
  fix_root 1 s = Ok tt s' /\ data_ok s' fs /\ low_same s s' /\ freeblock s' = freeblock s /\
  inode_at (view s') 1 = dino (i_type (f_ino f0)) ((Z.of_nat (length (f_bytes f0)) / BSIZE + 1) * BSIZE) a /\
  a = i_addrs (f_ino f0) /\
  forall k f, (0 < k)%nat -> fs !! k = Some f -> inode_at (view s') (1 + Z.of_nat k) = f_ino f.
Proof.
  intros I H0 Hmax. pose proof (im_data _ _ I) as D. destruct (im_inode _ _ I 0 f0 H0) as (Hrest & Hat & ty & a & Hino & Hty).
  destruct (im_count _ _ I) as [_ Hc]. set (len := length (f_bytes f0)) in *. change (1 + Z.of_nat 0) with 1 in Hat.
  set (sz := (Z.of_nat len / BSIZE + 1) * BSIZE).
  assert (Hsz : 0 <= sz < 2 ^ 32).
  { unfold sz. change BSIZE with 1024. assert (0 <= Z.of_nat len / 1024 < 268); [|lia].
    split; [apply Z.div_pos; lia|apply Z.div_lt_upper_bound; lia]. }
  destruct (h_addrs _ _ (d_file _ _ D 0 f0 H0)) as [Hal Haa]. rewrite Hino in Hal, Haa. cbn in Hal, Haa.
  destruct (winode_ok s fs 1 (dino ty sz a) D) as (s' & Hw & D' & Hat' & Hother & Hlow & Hfi & Hfb);
    [lia|by apply fields_dino|].
  exists s', a. split; [|split; [done|split; [done|split; [done|split; [|split; [by rewrite Hino|]]]]]].
  - unfold fix_root, rinode. pose proof (iblock_range 1 ltac:(lia)) as Hib.
    destruct (rsect_run s (IBLOCK 1 sb)) as [Hrd _];
      [change FSSIZE with 1000; lia|apply (d_img _ _ D); change FSSIZE with 1000; lia|].
    rewrite (run_bind _ _ _ (f_ino f0) s).
    + cbv zeta. rewrite Hino. cbn [i_size dino]. fold len. rewrite (xint_small (Z.of_nat len)) by lia. fold sz.
      unfold u32. rewrite Z.mod_small by done. rewrite xint_small by done. exact Hw.
    + rewrite (run_bind _ _ _ _ _ Hrd). unfold inode_at in Hat. unfold mret, M_ret. by rewrite Hat.
  - rewrite Hat', Hino. done.
  - intros k f Hk Hf. pose proof (lookup_lt_Some _ _ _ Hf). rewrite Hother by lia. by apply (im_inode _ _ I k).
Qed.

Lemma inode_blocks_of cv f : at_rest f -> inode_blocks cv (f_ino f) (length (f_bytes f)) = blocks_of cv f.
Proof. intros [H1 H2]. unfold inode_blocks, blocks_of. cbn. by rewrite H1, H2. Qed.

(** A file of the data, with its inode on the disk, perhaps with another size. *)
Lemma file_at_ok s fs k f n ty size : data_ok s fs -> fs !! k = Some f -> at_rest f ->
  inode_at (view s) n = dino ty size (i_addrs (f_ino f)) -> file_at (view s) n ty size (f_bytes f).
Proof.
  intros D Hk Hrest Hat. pose proof (d_file _ _ D k f Hk) as Hh.
  set (ip := dino ty size (i_addrs (f_ino f))) in *. set (f' := mkFile ip (f_nb f) (f_ind f) (f_bytes f)).
  destruct (holds_ino (view s) f ip eq_refl Hh) as [Hh' Hb']. fold f' in Hh', Hb'.
  destruct (holds_bytes (view s) f' Hh' Hrest) as [H1 H2]. cbn [f_ino f_bytes f'] in H1, H2.
  split; rewrite Hat; try done.
  - exists (i_addrs (f_ino f)). split; [done|]. apply Hh.
  - intros b Hb. change ip with (f_ino f') in Hb. change (f_bytes f) with (f_bytes f') in Hb.
    rewrite inode_blocks_of, Hb' in Hb by done. pose proof (file_range s fs D k f Hk b Hb) as Hr.
    pose proof (d_range _ _ D). change nmeta with 46 in *. split; [lia|].
    apply (rsect_run s b ltac:(lia)). apply (d_img _ _ D). lia.
  - intros j Hj. apply (h_direct _ _ Hh). by rewrite (proj1 Hrest).
Qed.

Lemma balloc_ok s fs : data_ok s fs -> exists s', balloc (freeblock s) s = Ok tt s' /\ data_ok s' fs /\
  (forall b, b <> 45 -> view s' b = view s b) /\ bitmap_ok (view s') sb ∅ /\
  free_blocks (view s') sb (list_to_set (seqZ (freeblock s) (FSSIZE - freeblock s))).
Proof.
  intros D. pose proof (d_range _ _ D) as Hr. change nmeta with 46 in Hr. change FSSIZE with 1000 in *.
  set (u := freeblock s) in *. set (n := Z.to_nat u).
  set (l := foldl (fun buf i => set_bit (Z.of_nat i) buf) zeroes (seq 0 n)).
  assert (Hbits : forall b, 0 <= b < 8192 -> length l = bsize /\ bit_clear l b = negb (b <? u)).
  { intros b Hb. destruct (bitmap_bits n b ltac:(lia) Hb) as [H1 H2]. split; [done|]. etrans; [exact H2|]. do 2 f_equal. lia. }
  assert (Hll : length l = bsize) by (by apply (Hbits 0)).
  set (s' := set_img (<[45 := l]> (img s)) s).
  assert (Hv : view s' 45 = l) by apply view_write.
  assert (Hvo : forall b, b <> 45 -> view s' b = view s b) by (intros b Hb; by apply view_write_ne).
  assert (HB : forall b, 0 <= b < 1000 -> BBLOCK b sb = 45).
  { intros b Hb. unfold BBLOCK. change BPB with 8192. rewrite Z.div_small by lia. done. }
  assert (Hfree : forall b, 0 <= b < 1000 -> block_free (view s') sb b = negb (b <? u)).
  { intros b Hb. unfold block_free. rewrite HB, Hv by done. change BPB with 8192. rewrite Z.mod_small by lia.
    apply Hbits. lia. }
  exists s'. split; [|split; [|split; [done|split]]].
  - unfold balloc. change (BSIZE * 8) with 8192. rewrite (proj2 (Z.ltb_lt u 8192)) by lia. cbn [negb].
    change (sb_bmapstart sb) with 45. apply wsect_run. change FSSIZE with 1000. lia.
  - apply (data_ok_meta s); [done|done| |].
    + intros b Hb. apply Hvo. change nmeta with 46 in Hb. lia.
    + apply img_write; [done|]. apply (d_img _ _ D).
  - split; change (sb_size sb) with 1000; change (sb_bmapstart sb) with 45; [lia|lia| |].
    + intros b Hb. rewrite HB, Hv by done. split; [done|apply lookup_empty].
    + intros b c Hb Hc Hf. rewrite HB by done. rewrite Hfree in Hf by done. intros ->.
      rewrite (proj2 (Z.ltb_lt 45 u)) in Hf by lia. done.
  - intros b. change (sb_size sb) with 1000. rewrite elem_of_list_to_set, elem_of_seqZ. split.
    + intros Hb. split; [lia|]. rewrite Hfree by lia. by rewrite (proj2 (Z.ltb_ge b u)) by lia.
    + intros [Hb Hf]. rewrite Hfree in Hf by done. destruct (Z.ltb_spec b u); [done|lia].
Qed.

Lemma imap_blocks cv fs n : (forall k f, fs !! k = Some f -> at_rest f /\ i_addrs (inode_at cv (1 + Z.of_nat (n + k))) = i_addrs (f_ino f)) ->
  imap (fun i e => inode_blocks cv (inode_at cv (1 + Z.of_nat (n + i))) (length e.2)) (contents <$> fs) = blocks_of cv <$> fs.
Proof.
  revert n. induction fs as [|f fs IH]; intros n Hf; [done|]. rewrite !fmap_cons, imap_cons. f_equal.
  - destruct (Hf 0%nat f eq_refl) as [Hr Ha]. rewrite <- (inode_blocks_of cv f) by done. cbn [snd contents].
    unfold inode_blocks, blocks_of, block_of, file_block. cbn [f_ino f_nb f_ind]. by rewrite Ha.
  - rewrite <- (IH (S n)).
    + apply imap_ext. intros i e _. unfold compose. by rewrite Nat.add_succ_r.
    + intros k g Hk. specialize (Hf (S k) g Hk). by rewrite Nat.add_succ_r in Hf.
Qed.

Lemma length_strncpy t n : length (strncpy t n) = n.
Proof.
  unfold strncpy. generalize 0%nat. induction n as [|n IH]; intros i; [done|]. cbn [strncpy_from].
  destruct (t i =? 0); cbn [length]; f_equal; [apply length_replicate|apply IH].
Qed.

Lemma length_root_bytes names : length (root_bytes names) = (16 * (2 + length names))%nat.
Proof.
  induction names as [|nm names IH] using rev_ind; [done|]. rewrite root_bytes_snoc, !length_app, IH. unfold dirent.
  rewrite length_app, length_le_split, length_strncpy. change DIRSIZ with 14%nat. cbn [length]. lia.
Qed.

(** The end of main: what has been stored is the image. *)
Lemma finish_ok s files : stores s (tree files) -> (length files <= 206)%nat ->
  superblock_load (view s 1) = sb -> (forall b, 2 <= b < 32 -> view s b = zeroes) -> exists s',
    (fix_root 1;; b ← gets freeblock; balloc b) s = Ok tt s' /\ made (view s') files.
Proof.
  intros (fs & I & Hfs) Hlen Hsb Hlog. pose proof (image_freeblock s fs I) as Hfb. rewrite Hfs in Hfb.
  destruct (fs !! 0%nat) as [f0|] eqn:H0; [|by destruct fs].
  assert (Hc0 : contents f0 = (T_DIR, root_bytes (name_of <$> files))).
  { assert (Hx : (contents <$> fs) !! 0%nat = Some (contents f0)) by (by rewrite list_lookup_fmap, H0).
    assert (Ht : tree files !! 0%nat = Some (T_DIR, root_bytes (name_of <$> files))) by done. congruence. }
  injection Hc0 as Hty0 Hby0.
  destruct (fix_root_ok s fs f0 I H0) as (s1 & a & R1 & D1 & Hlow1 & Hfb1 & Hat1 & -> & Hothers1).
  { rewrite Hby0, length_root_bytes, length_fmap. lia. }
  destruct (balloc_ok s1 fs D1) as (s2 & R2 & D2 & Hv2 & Hbm & Hfree). rewrite Hfb1, Hfb in Hfree.
  assert (Hino : forall n, 0 <= n < 208 -> inode_at (view s2) n = inode_at (view s1) n).
  { intros n Hn. unfold inode_at. rewrite Hv2; [done|]. pose proof (iblock_range n Hn). lia. }
  pose proof (im_count _ _ I) as [_ Hcount].
  assert (Hlast : forall k f, fs !! k = Some f -> at_rest f /\ (k < 207)%nat /\
    i_addrs (inode_at (view s2) (1 + Z.of_nat k)) = i_addrs (f_ino f)).
  { intros k f Hk. pose proof (lookup_lt_Some _ _ _ Hk). destruct (im_inode _ _ I k f Hk) as (Hr & _). split; [done|].
    split; [lia|]. rewrite Hino by lia. destruct k as [|k]; [|by rewrite (Hothers1 (S k) f ltac:(lia) Hk)].
    change (1 + Z.of_nat 0) with 1. rewrite Hat1. rewrite H0 in Hk. by injection Hk as ->. }
  exists s2. split.
  { rewrite (run_bind _ _ _ _ _ R1), (run_bind _ _ _ (freeblock s1) s1) by done. exact R2. }
  split; [rewrite Hv2, Hlow1 by (done || by left); done|].
  split; [intros b Hb; rewrite Hv2, Hlow1 by (lia || (left; lia)); by apply Hlog|].
  split; [|split; [|split; [|split; [done|split; [done|]]]]].
  - rewrite <- Hby0. destruct (Hlast 0%nat f0 H0) as (Hr & _ & _). apply (file_at_ok s2 fs 0 f0); [done|done|done|].
    change ROOTINO with 1. rewrite Hino by lia. by rewrite Hat1, Hty0.
  - intros i f Hi. assert (Hx : (contents <$> fs) !! S i = Some (T_FILE, concat f.2)).
    { rewrite Hfs. unfold tree. rewrite lookup_cons_S, list_lookup_fmap, Hi. done. }
    rewrite list_lookup_fmap in Hx. destruct (fs !! S i) as [g|] eqn:Hg; [|done]. injection Hx as Hty Hby.
    destruct (Hlast (S i) g Hg) as (Hr & Hlt & _). rewrite <- Hby. replace (2 + Z.of_nat i) with (1 + Z.of_nat (S i)) by lia.
    destruct (im_inode _ _ I (S i) g Hg) as (_ & _ & ty & a & Hgi & _).
    apply (file_at_ok s2 fs (S i) g); [done|done|done|]. rewrite Hino by lia. rewrite (Hothers1 (S i) g) by (done || lia).
    rewrite Hgi in *. cbn in Hty |- *. by subst ty.
  - pose proof (imap_blocks (view s2) fs 0) as Him. cbn [Nat.add] in Him. rewrite <- Hfs, Him by (intros k f Hk; split; by apply (Hlast k f)).
    rewrite (d_part _ _ D2). pose proof (image_freeblock s fs I) as Hfb'. rewrite Hfs.
    assert (Hfb2 : freeblock s2 = freeblock s1).
    { unfold balloc in R2. destruct (negb _); [done|]. unfold wsect, modify in R2. by injection R2 as <-. }
    by rewrite Hfb2, Hfb1, Hfb.
  - intros b Hb. apply (rsect_run s2 b Hb), (d_img _ _ D2 b Hb).
Qed.

Lemma sb_stored : superblock_load (splice zeroes 0 (sb_bytes sb)) = sb.
Proof. vm_compute. reflexivity. Qed.

(** The set-up of main: the superblock, and the root directory with its first two entries. *)
Lemma setup_ok : fits (tree []) -> exists s2 s3 s4 s5 s1,
  for_each (seq 0 (Z.to_nat FSSIZE)) (fun i => wsect (Z.of_nat i) zeroes) (set_freeblock nmeta mkfs_start) = Ok tt s1 /\
  wsect 1 (splice zeroes 0 (sb_bytes sb)) s1 = Ok tt s2 /\ ialloc T_DIR s2 = Ok 1 s3 /\
  iappend 1 (dirent 1 (bytes_of ".")) s3 = Ok tt s4 /\ iappend 1 (dirent 1 (bytes_of "..")) s4 = Ok tt s5 /\
  stores s5 (tree []) /\ superblock_load (view s5 1) = sb /\ (forall b, 2 <= b < 32 -> view s5 b = zeroes).
Proof.
  intros Hfit. destruct (zero_blocks (Z.to_nat FSSIZE) 0 (set_freeblock nmeta mkfs_start)) as (s1 & R1 & Hfi & Hfb & Hz).
  { change FSSIZE with 1000. lia. }
  change (Z.of_nat (0 + Z.to_nat FSSIZE)) with 1000 in Hz. change (Z.of_nat 0) with 0 in Hz.
  set (l := splice zeroes 0 (sb_bytes sb)). set (s2 := set_img (<[1 := l]> (img s1)) s1).
  assert (Hv1 : view s2 1 = l) by apply view_write.
  assert (Hv : forall b, b <> 1 -> 0 <= b < 1000 -> view s2 b = zeroes).
  { intros b Hb Hr. etrans; [by apply view_write_ne|]. unfold view, disk_block. by rewrite Hz. }
  assert (Hst2 : stores s2 []).
  { apply start_stores; [done|done| |].
    - apply img_write; [done|]. intros x Hx. exists zeroes. split; [apply Hz; exact Hx|apply length_replicate].
    - intros b Hb. change nmeta with 46 in Hb. change FSSIZE with 1000 in Hb. apply Hv; lia. }
  destruct (ialloc_stores s2 [] T_DIR Hst2) as (s3 & R3 & Hst3 & Hlow3); [cbn; lia|done|].
  destruct (iappend_stores s3 _ 0 T_DIR [] (dirent 1 (bytes_of ".")) Hst3 eq_refl) as (s4 & R4 & Hst4 & Hlow4).
  { eapply fits_less; [exact Hfit|]. intros [|k] e' Hk; [|by destruct k].
    assert (Hk' : Some (T_DIR, [] ++ dirent 1 (bytes_of ".")) = Some e') by exact Hk. injection Hk' as <-.
    eexists. split; [done|]. apply Nat.leb_le. vm_compute. reflexivity. }
  destruct (iappend_stores s4 _ 0 T_DIR _ (dirent 1 (bytes_of "..")) Hst4 eq_refl) as (s5 & R5 & Hst5 & Hlow5).
  { exact Hfit. }
  exists s2, s3, s4, s5, s1. split; [exact R1|]. split; [apply wsect_run; done|]. split; [exact R3|].
  split; [exact R4|]. split; [exact R5|]. split; [exact Hst5|].
  assert (Hlow : forall b, low b -> view s5 b = view s2 b).
  { intros b Hb. rewrite Hlow5, Hlow4, Hlow3 by done. done. }
  split.
  - rewrite Hlow, Hv1 by (left; lia). apply sb_stored.
  - intros b Hb. rewrite Hlow by (left; lia). apply Hv; lia.
Qed.

Lemma mkfs_run files : (length files <= 206)%nat -> (forall f, f ∈ files -> (SLASH ∉ shortname f.1)) ->
  fits (tree files) -> exists s', mkfs_main (argument <$> files) mkfs_start = Ok tt s' /\ made (disk_block (img s')) files.
Proof.
  intros Hlen Hsl Hfit. destruct (setup_ok (tree_prefix [] files Hfit)) as (s2 & s3 & s4 & s5 & s1 & R1 & R2 & R3 & R4 & R5 & Hst & Hsb & Hlog).
  destruct (add_files_store files s5 [] Hst Hlen Hsl Hfit) as (s6 & R6 & Hst6 & Hlow6). cbn [app] in Hst6.
  destruct (finish_ok s6 files Hst6 Hlen) as (s7 & R7 & Hmade).
  { rewrite Hlow6 by (left; lia). exact Hsb. }
  { intros b Hb. rewrite Hlow6 by (left; lia). by apply Hlog. }
  exists s7. split; [|exact Hmade]. unfold mkfs_main. rewrite (run_bind _ _ _ tt (set_freeblock nmeta mkfs_start)) by done.
  rewrite (run_bind _ _ _ _ _ R1), (run_bind _ _ _ _ _ R2), (run_bind _ _ _ _ _ R3). change (1 =? ROOTINO) with true. cbn [negb].
  rewrite (run_bind _ _ _ _ _ R4), (run_bind _ _ _ _ _ R5), (run_bind _ _ _ _ _ R6). exact R7.
Qed.

(** ** Theorems *)

(** C13: mkfs makes the file system it is asked for.  When the files on the command line can be
    opened, have no slash in their names, are not larger than the largest file and fit on the
    disk, mkfs returns.  Then the superblock describes the disk and the log is empty; inode 1
    is a directory whose bytes are the entries ".", ".." and the name and inode number of
    each file, with zeroes up to the end of its last block; inode 2 + i is a regular file with
    one link and the size and bytes of the i-th host file; the blocks of all the files are
    different from each other and fill the disk from the first data block on; and the bitmap
    marks exactly them and the blocks in front of them as used. *)
Theorem mkfs_makes_file_system files : (length files <= 206)%nat -> (forall f, f ∈ files -> (SLASH ∉ shortname f.1)) ->
  fits (tree files) -> exists st, mkfs_main (argument <$> files) mkfs_start = Ok tt st /\ made (disk_block (img st)) files.
Proof. exact (mkfs_run files). Qed.

(** The size of the root directory is rounded up to one block too many when its entries
    fill their last block: with a multiple of 64 entries the last block inside the size of the
    directory has no block on the disk (its address is 0). *)
Theorem mkfs_root_hole files m : (length files <= 206)%nat -> (forall f, f ∈ files -> (SLASH ∉ shortname f.1)) ->
  fits (tree files) -> (2 + length files = 64 * m)%nat -> exists st,
    mkfs_main (argument <$> files) mkfs_start = Ok tt st /\
    let cv := disk_block (img st) in let ip := inode_at cv ROOTINO in
    i_size ip = (Z.of_nat m + 1) * BSIZE /\ file_block cv ip (Z.of_nat m) = 0.
Proof.
  intros H1 H2 H3 Hm. destruct (mkfs_run files H1 H2 H3) as (st & Hrun & _ & _ & [(a & Ha & _) _ _ _ Hhole] & _).
  exists st. split; [done|]. cbv zeta. rewrite length_root_bytes, length_fmap in *.
  assert (Hn : nblk (16 * (2 + length files)) = m) by (apply nblk_unique; lia). rewrite Hn in Hhole. split.
  - rewrite Ha. cbn [i_size dino]. f_equal. f_equal. change BSIZE with 1024.
    replace (Z.of_nat (16 * (2 + length files))) with (Z.of_nat m * 1024) by lia. by apply Z.div_mul.
  - change (file_block ?cv ?ip (Z.of_nat m)) with (block_of cv ip m). rewrite block_of_direct by lia. apply Hhole. lia.
Qed.

(** ** Witnesses *)

(** One file of five bytes, in two pieces. *)
Definition demo_file : list Z * list (list Z) := (bytes_of "user/_cat", [[104; 101]; [108; 108; 111]]).

Lemma demo_fits : fits (tree [demo_file]).
Proof.
  split.
  - intros e He. apply elem_of_cons in He as [->|He]; [|apply list_elem_of_singleton in He as ->];
      apply Nat.leb_le; vm_compute; reflexivity.
  - apply Z.leb_le. vm_compute. reflexivity.
Qed.

Lemma demo_names f : f ∈ [demo_file] -> (SLASH ∉ shortname f.1).
Proof. intros ->%list_elem_of_singleton. apply (bool_decide_unpack _). vm_compute. exact I. Qed.

Lemma mkfs_makes_file_system_witness : exists st,
  mkfs_main [argument demo_file] mkfs_start = Ok tt st /\
  let cv := disk_block (img st) in
  i_size (inode_at cv 2) = 5 /\ file_data cv (inode_at cv 2) 0 5 = [104; 101; 108; 108; 111].
Proof.
  destruct (mkfs_makes_file_system [demo_file]) as (st & Hrun & _ & _ & _ & Hf & _).
  - cbn. lia.
  - exact demo_names.
  - exact demo_fits.
  - destruct (Hf 0%nat demo_file eq_refl) as [(a & Ha & _) Hb _ _ _]. exists st. split; [exact Hrun|]. cbv zeta.
    change (2 + Z.of_nat 0) with 2 in *. split; [rewrite Ha; reflexivity|exact Hb].
Defined.

(** 62 empty files: 64 entries. *)
Lemma mkfs_root_hole_witness : exists st,
  mkfs_main (argument <$> replicate 62 (bytes_of "x", [])) mkfs_start = Ok tt st /\
  i_size (inode_at (disk_block (img st)) ROOTINO) = 2048.
Proof.
  destruct (mkfs_root_hole (replicate 62 (bytes_of "x", [])) 1) as (st & Hrun & Hs & _).
  - rewrite length_replicate. lia.
  - intros f Hf. apply elem_of_replicate_inv in Hf as ->. apply (bool_decide_unpack _). vm_compute. exact I.
  - split; [|apply Z.leb_le; vm_compute; reflexivity].
    assert (Hall : Forall (fun e => (length e.2 <= 268 * 1024)%nat) (tree (replicate 62 (bytes_of "x", [])))).
    { unfold tree. apply Forall_cons. split; [apply Nat.leb_le; vm_compute; reflexivity|].
      rewrite fmap_replicate. apply Forall_replicate. apply Nat.le_0_l. }
    rewrite Forall_forall in Hall. exact Hall.
  - rewrite length_replicate. lia.
  - exists st. split; [exact Hrun|]. rewrite Hs. reflexivity.
Defined.
