(* ===== verification/Boot.v ===== *)
(** * The kernel on the image made by mkfs

    The composition of mkfs with the kernel's file system: an inode that [ilock] loads from
    the image is a file the theorem about [readi] applies to, and the bytes it delivers are
    those of the host file. *)

From stdpp Require Import base functions gmap list strings.
From Stdlib Require Import ZArith Lia.
From S2P Require Import Prelude Riscv Memory State Spinlock Sched Kalloc Vm PageTable UserMem Bio Cache Log Recovery.
From S2P Require Import Fs Inode Blocks Dinode Console Demo Mkfs MkfsFiles MkfsTheorems.

#[local] Set Warnings "-clear-no-such-hyp".

Lemma file_block_addrs cv ip ip' bn : i_addrs ip = i_addrs ip' -> file_block cv ip bn = file_block cv ip' bn.
Proof. intros H. unfold file_block. by rewrite H. Qed.

Lemma file_data_addrs cv ip ip' off n : i_addrs ip = i_addrs ip' -> file_data cv ip off n = file_data cv ip' off n.
Proof.
  intros H. unfold file_data, file_byte. apply list_fmap_ext. intros i k _. by rewrite (file_block_addrs cv ip ip').
Qed.

(** Part of the data of a file. *)
Lemma file_data_part cv ip off k len : (off + k <= len)%nat ->
  file_data cv ip (Z.of_nat off) k = take k (drop off (file_data cv ip 0 len)).
Proof.
  intros H. apply list_eq. intros i. destruct (decide (i < k)%nat) as [Hi|Hi].
  - rewrite lookup_take_lt, lookup_drop by done. unfold file_data.
    rewrite !list_lookup_fmap, !lookup_seq_lt by lia. cbn. do 2 f_equal. lia.
  - rewrite !lookup_ge_None_2; [done|rewrite length_take, length_drop; lia|].
    unfold file_data. rewrite length_fmap, length_seq. lia.
Qed.

Section Boot.
Context (dev : Z) (p : nat) (pid : Z).

(** A file of the image, in memory, can be read. *)
Lemma made_file_ok cv refs lk s k n bytes ip : file_at cv n T_FILE (Z.of_nat (length bytes)) bytes ->
  fs_state dev p pid s cv refs lk k -> 0 <= k -> (forall b, lk !! b = None) -> (length bytes <= 268 * 1024)%nat ->
  i_dev ip = dev -> i_size ip = Z.of_nat (length bytes) -> i_addrs ip = i_addrs (inode_at cv n) ->
  file_ok dev cv refs lk ip.
Proof.
  intros [_ _ _ Hblk] Hs Hk Hlk Hmax Hdev Hsize Ha. pose proof (nblk_bounds (length bytes)) as Hnb.
  assert (Hidle : forall b, b ∈ inode_blocks cv (inode_at cv n) (length bytes) -> idle refs lk b /\ length (cv b) = bsize).
  { intros b Hb. destruct (Hblk b Hb) as [Hr Hl]. split; [|done]. split; [change nmeta with 46 in Hr; lia|].
    split; [apply Hlk|]. pose proof (fs_small _ _ _ _ _ _ _ _ Hs b). lia. }
  split.
  - done.
  - rewrite Hsize. change (MAXFILE * BSIZE) with 274432. lia.
  - intros bn H0 Hbn. rewrite Hsize in Hbn. change BSIZE with 1024 in Hbn. rewrite (file_block_addrs cv ip _ bn Ha).
    apply Hidle. replace bn with (Z.of_nat (Z.to_nat bn)) by lia. apply (blocks_of_data cv (mkFile _ _ _ _)). cbn [f_nb]. lia.
  - intros Hind. rewrite Hsize in Hind. change (Z.of_nat NDIRECT * BSIZE) with 12288 in Hind. change NDIRECT with 12%nat.
    rewrite Ha. apply Hidle. apply (blocks_of_ind cv (mkFile _ _ _ _)). cbn [f_ind]. apply Nat.ltb_lt. lia.
  - destruct (fs_spare _ _ _ _ _ _ _ _ Hs) as (busy & Hb & Hl). exists busy. split; [done|]. lia.
Qed.

(** ** Mounting *)

Lemma cache_sb s cv refs lk x : cache_ok dev s cv refs lk -> cache_ok dev (set_k_sb x s) cv refs lk.
Proof. intros [H1 H2 H3 H4 H5 H6 H7 H8 H9 H10 H11]. by split. Qed.

Lemma thread_sb s x : thread p pid s -> thread p pid (set_k_sb x s).
Proof. intros [H1 H2 H3 H4 H5 H6]. by split. Qed.

Lemma readsb_run d s env : rebooted dev p pid d s -> exists s',
  readsb dev (mkWorld s env) = Ok tt (mkWorld s' env) /\ rebooted dev p pid d s' /\
  k_sb s' = superblock_load (disk_block d 1) /\ k_log s' = k_log s /\ k_held s' = k_held s.
Proof.
  intros [Hth Hok Hd Hlog]. unfold readsb.
  assert (Hg : gettable s (fun _ => 0) ∅ 1).
  { split; [apply lookup_empty| |lia]. right. apply (free_buffer dev s (disk_block d) (fun _ => 0) ∅ [] Hok); [lia|unfold NBUF; cbn; lia]. }
  destruct (bread_spec dev s (disk_block d) _ ∅ 1 p pid env Hth Hok Hg) as (b & s1 & Hrun1 & Hok1 & Hc1 & _ & Hio1 & Hd1 & _).
  rewrite (run_bind _ _ _ _ _ Hrun1). rewrite (run_bind _ _ _ (get_buf b s1) (mkWorld s1 env)) by done.
  destruct (caches_valid dev s1 _ _ _ b 1 Hok1 Hc1) as [_ Hdata]; [rewrite fn_lookup_insert; lia|].
  rewrite Hdata. set (s2 := set_k_sb (superblock_load (disk_block d 1)) s1).
  rewrite (run_bind _ _ _ tt (mkWorld s2 env)) by done.
  pose proof (thread_io _ _ _ _ Hio1 Hth) as Hth1.
  destruct (brelse_spec dev s2 (disk_block d) _ _ b 1 p pid env (thread_sb _ _ Hth1) (cache_sb _ _ _ _ _ Hok1))
    as (s3 & Hrun3 & Hok3 & _ & Hio3 & Hd3 & _); [done|apply lookup_insert_eq|right; by rewrite <- Hd, <- Hd1|].
  assert (Hsb3 : k_sb s3 = k_sb s2) by (by destruct Hio3 as (? & ? & ? & ? & -> & _)).
  assert (Hl3 : k_log s3 = k_log s) by (rewrite (io_only_log _ _ Hio3); exact (io_only_log _ _ Hio1)).
  assert (Hh3 : k_held s3 = k_held s) by (rewrite (io_only_held _ _ Hio3); exact (io_only_held _ _ Hio1)).
  exists s3. split; [exact Hrun3|]. split; [|by rewrite Hsb3]. split.
  - apply (thread_io _ _ _ _ Hio3). by apply thread_sb.
  - eapply cache_back; [exact Hok3|apply lookup_empty|apply (fn_back (fun _ => 0))].
  - rewrite Hd3. change (k_disk s2) with (k_disk s1). congruence.
  - by rewrite Hl3.
Qed.

(** The log of a new image is empty: recovery writes an empty header over an empty header. *)
Lemma recovered_made d files : made (disk_block d) files ->
  log_disk 2 d /\ forall b, disk_block (recovered 2 d) b = disk_block d b.
Proof.
  intros (_ & Hlog & _). pose proof (Hlog 2 ltac:(lia)) as H2.
  assert (Hn : disk_n 2 d = 0%nat) by (unfold disk_n; by rewrite H2, zeroes_get32).
  split; [apply empty_log; rewrite H2; [apply length_replicate|apply zeroes_get32]|].
  intros b. unfold recovered, rec_writes. rewrite Hn, H2, write_all_lookup. cbn [seq fmap list_fmap app written fst snd].
  case_decide as Hb; [|done]. subst b. rewrite H2. by vm_compute.
Qed.

(** The first operation after the start of the log. *)
Lemma begin_op_run s env : LLog ∉ k_held s -> log_committing (k_log s) = 0 -> log_outstanding (k_log s) = 0 ->
  lh_n (k_log s) = 0 ->
  begin_op (mkWorld s env) = Ok tt (mkWorld (set_k_log (set_log_outstanding 1 (k_log s)) s) env).
Proof.
  intros Hh Hc Ho Hn. unfold begin_op. rewrite (run_bind _ _ _ _ _ (acquire_run LLog (mkWorld s env) Hh)). cbn [w_ks w_env].
  set (s1 := set_k_held (LLog :: k_held s) s).
  assert (Hw : begin_op_must_wait (k_log s1) = false).
  { unfold begin_op_must_wait. change (k_log s1) with (k_log s). by rewrite Hc, Ho, Hn. }
  rewrite (run_bind _ _ _ tt (mkWorld s1 env)).
  2:{ rewrite (sleep_while_unfold _ _ _ _ false); [done| |].
      - intros w b w' H. by injection H as _ <-.
      - unfold log_get, kgets, gets, mbind, M_bind. cbn [w_ks]. by rewrite Hw. }
  rewrite (run_bind _ _ _ tt (mkWorld (set_k_log (set_log_outstanding 1 (k_log s)) s1) env)).
  2:{ unfold log_upd, kmodify, modify. cbn [w_ks w_env]. change (k_log s1) with (k_log s). by rewrite Ho. }
  rewrite (release_run LLog (k_held s)) by done. by destruct s.
Qed.

(** What the boot finds: the cache is empty and no system call is in progress. *)
Record booting (d : gmap Z (list Z)) (s : kst) : Prop := {
  bo_boot : rebooted dev p pid d s;
  bo_idle : log_outstanding (k_log s) = 0 /\ log_committing (k_log s) = 0;
  bo_locks : LLog ∉ k_held s
}.

Lemma mount_run d files s env : made (disk_block d) files -> booting d s -> exists s',
  (fsinit dev;; begin_op) (mkWorld s env) = Ok tt (mkWorld s' env) /\ k_sb s' = sb /\
  fs_state dev p pid s' (disk_block d) (fun _ => 0) ∅ MAXOPBLOCKS.
Proof.
  intros Hm [Hb [Ho Hc] Hh]. destruct (recovered_made d files Hm) as [Hld Hrec].
  destruct (readsb_run d s env Hb) as (s1 & R1 & Hb1 & Hsb1 & Hl1 & Hh1). destruct Hm as (Hsb & _).
  rewrite Hsb in Hsb1.
  destruct (initlog_run dev 2 sb p pid d s1 env) as (s2 & R2 & Hd2 & _ & s0 & l & [S1 S2 S3 (l' & S4 & S5 & S6 & S7 & S8 & S9 & S10)] & -> & L1 & L2 & L3 & L4 & L5 & L6);
    [lia|done|done|done|].
  destruct (fs_only_fields _ _ S3) as (F1 & F2 & _). cbn [k_held k_sb set_k_log] in F1, F2.
  rewrite Hl1, Ho in L4. rewrite Hl1, Hc in L5. rewrite Hh1 in F1.
  pose proof (begin_op_run s2 env ltac:(by rewrite F1) ltac:(rewrite S4; cbn; congruence) ltac:(rewrite S4; cbn; congruence) ltac:(by rewrite S4)) as R3.
  exists (set_k_log (set_log_outstanding 1 (k_log s2)) s2). split; [|split; [cbn [k_sb set_k_log]; congruence|]].
  { unfold fsinit. rewrite !run_bind_assoc. rewrite (run_bind _ _ _ _ _ R1). rewrite run_bind_assoc.
    rewrite (run_bind _ _ _ sb (mkWorld s1 env)) by (rewrite <- Hsb1; done). change (sb_magic sb =? FSMAGIC) with true. cbn [negb].
    rewrite (run_bind _ _ _ _ _ R2). exact R3. }
  split.
  - by apply thread_log.
  - apply cache_log. apply (cache_ok_ext dev s2 (disk_block (k_disk s2)) _ (fun _ => 0)); [|done|done].
    intros x. by rewrite Hd2, Hrec.
  - cbn [k_held set_k_log]. by rewrite F1.
  - cbn [k_log set_k_log]. rewrite S4. split; cbn [lh_n log_size log_outstanding lh_block set_log_outstanding set_lh_n].
    + lia.
    + rewrite S7, L3. change (s32 (sb_nlog sb)) with 30. change MAXOPBLOCKS with 10. lia.
    + lia.
    + congruence.
    + intros i Hi. by apply not_elem_of_nil in Hi.
    + apply NoDup_nil_2.
  - cbn [k_log set_k_log]. rewrite S4. intros x Hx. by apply not_elem_of_nil in Hx.
  - intros x. change MAXOPBLOCKS with 10. lia.
  - exists []. split; [lia|]. change MAXOPBLOCKS with 10. unfold NBUF. cbn. lia.
Qed.

(** C17: The image mkfs makes can be mounted.  When the files on the command line can be opened,
    have no slash in their names, are not larger than the largest file and fit on the disk,
    mkfs returns; a kernel that boots with the image as its disk finds the superblock and an
    empty log, [fsinit] and the first [begin_op] return, and after that the disk is as mkfs
    left it, nothing is locked and the transaction has room for MAXOPBLOCKS blocks. *)
Theorem kernel_mounts_image files : (length files <= 206)%nat -> (forall f, f ∈ files -> (SLASH ∉ shortname f.1)) ->
  fits (tree files) -> exists st, mkfs_main (argument <$> files) mkfs_start = Ok tt st /\
    forall s env, booting (img st) s -> exists s',
      (fsinit dev;; begin_op) (mkWorld s env) = Ok tt (mkWorld s' env) /\ k_sb s' = sb /\
      fs_state dev p pid s' (disk_block (img st)) (fun _ => 0) ∅ MAXOPBLOCKS.
Proof.
  intros H1 H2 H3. destruct (mkfs_run files H1 H2 H3) as (st & Hrun & Hm). exists st. split; [done|].
  intros s env Hb. by apply (mount_run (img st) files).
Qed.

(** ** Reading *)

Lemma ilock_made cv refs lk s k j n bytes env : file_at cv n T_FILE (Z.of_nat (length bytes)) bytes ->
  fs_state dev p pid s cv refs lk k -> 0 <= k -> k_sb s = sb -> (forall b, lk !! b = None) ->
  length (cv (IBLOCK n sb)) = bsize -> 0 <= n < 208 ->
  (j < length (k_inodes s))%nat -> i_dev (get_inode j s) = dev -> i_inum (get_inode j s) = n ->
  1 <= i_ref (get_inode j s) -> i_valid (get_inode j s) = 0 -> sl_locked (i_lock (get_inode j s)) = 0 ->
  exists s1, ilock j (mkWorld s env) = Ok tt (mkWorld s1 env) /\ fs_state dev p pid s1 cv refs lk k /\
    let ip := get_inode j s1 in
    i_type ip = T_FILE /\ i_dev ip = dev /\ i_size ip = Z.of_nat (length bytes) /\ i_addrs ip = i_addrs (inode_at cv n).
Proof.
  intros [(a & Ha & _) _ _ _] Hs Hk Hsb Hlk Hlen Hn Hj Hd Hi Hr Hv Hl. pose proof (iblock_range n Hn) as Hib.
  destruct (ilock_run dev p pid sb s cv refs lk k j (get_inode j s) env) as (s1 & Hrun & Hg & Hs1 & _); try done.
  { rewrite Hi. split; [lia|]. split; [lia|]. split; [apply Hlk|done]. }
  rewrite Hi in Hrun, Hg. set (y := dinode_load _ _ _) in *.
  assert (Hf : i_type y = i_type (inode_at cv n) /\ i_size y = i_size (inode_at cv n) /\ i_addrs y = i_addrs (inode_at cv n) /\ i_dev y = dev) by done.
  clearbody y. destruct Hf as (Ht & Hsz & Had & Hdv). rewrite Ha in Ht, Hsz. cbn in Ht, Hsz. rewrite Ht in Hrun. change (T_FILE =? 0) with false in Hrun.
  exists s1. split; [done|]. split; [done|]. rewrite Hg. cbn [i_type i_dev i_size i_addrs set_i_valid]. rewrite Ht, Hsz, Had. done.
Qed.

Section Read.
Context {KS : KSyms} (Hks : ksyms_ok KS) `{PA : !PageAllocator kalloc kfree}.
Context (own : gmap Z owner) (fl : list Z) (r : Z) (Hroot : is_root own r).

(** What a read of [n] bytes at [off] gives of a file with the given bytes. *)
Definition piece (bytes : list Z) (off n : Z) : list Z :=
  take (Z.to_nat n) (drop (Z.to_nat off) bytes).

Lemma readi_made cv refs lk s j n bytes k s0 d off len env :
  file_at cv n T_FILE (Z.of_nat (length bytes)) bytes -> (length bytes <= 268 * 1024)%nat ->
  fs_state dev p pid s0 cv refs lk k -> 0 <= k -> (forall b, lk !! b = None) ->
  reader r dev p pid s cv refs lk -> i_dev (get_inode j s) = dev ->
  i_size (get_inode j s) = Z.of_nat (length bytes) -> i_addrs (get_inode j s) = i_addrs (inode_at cv n) ->
  can_send own fl d len s -> 0 <= off < 2 ^ 31 -> 0 <= len < 2 ^ 31 ->
  let bs := piece bytes off len in
  exists e s', readi j d off len (mkWorld s env) = Ok e (mkWorld s' env) /\ k_disk s' = k_disk s /\
    ((e = (Z.of_nat (length bs), bs) /\ Inode.sent own fl r d bs s s') \/
     (e.1 = -1 /\ exists i, (i < length bs)%nat /\ Inode.sent own fl r d (take i bs) s s' /\ faults r d i s)).
Proof.
  intros Hfa Hmax Hs0 Hk Hlk Hrd Hdev Hsz Had Hsend Hoff Hlen bs.
  pose proof (made_file_ok cv refs lk s0 k n bytes (get_inode j s) Hfa Hs0 Hk Hlk Hmax Hdev Hsz Had) as Hfo.
  destruct (readi_run Hks own fl r Hroot dev p pid cv refs lk j (get_inode j s) Hfo d off len s env Hrd eq_refl Hsend ltac:(lia) ltac:(lia))
    as (e & s' & Hrun & _ & _ & Hd & Hres).
  assert (Hbs : file_data cv (get_inode j s) off (readable (get_inode j s) off len) = bs /\
    readable (get_inode j s) off len = length bs).
  { unfold readable, bs, piece. rewrite Hsz, (proj2 (Z.ltb_lt (off + len) (2 ^ 32))), andb_true_r by lia.
    rewrite length_take, length_drop. destruct (Z.leb_spec off (Z.of_nat (length bytes))) as [Hle|Hgt].
    - split; [|lia]. rewrite (file_data_addrs _ _ (inode_at cv n)) by done.
      replace off with (Z.of_nat (Z.to_nat off)) at 1 by lia.
      rewrite (file_data_part _ _ (Z.to_nat off) _ (length bytes)) by lia. rewrite (fa_bytes _ _ _ _ _ Hfa).
      destruct (Z.le_gt_cases len (Z.of_nat (length bytes) - off)); [by rewrite Z.min_l by lia|].
      rewrite !take_ge; [done|rewrite length_drop; lia|rewrite length_drop; lia].
    - split; [|lia]. rewrite drop_ge by lia. by rewrite take_nil. }
  destruct Hbs as [Hb1 Hb2]. unfold read_result in Hres. rewrite Hb1, Hb2 in Hres. exists e, s'. split; [done|]. by split.
Qed.

(** C6: What mkfs puts in the image, the kernel reads.  For every file on the command line,
    [ilock] of its inode number returns with a regular file of its size, and [readi] delivers
    the bytes of the host file from the given offset on, as many as were asked for and as
    there are, to user memory, kernel memory or a variable; or returns -1, having delivered
    the bytes in front of the first address that user code has no access to. *)
Theorem mkfs_files_readable files i f : (length files <= 206)%nat -> (forall f, f ∈ files -> (SLASH ∉ shortname f.1)) ->
  fits (tree files) -> files !! i = Some f -> exists st, mkfs_main (argument <$> files) mkfs_start = Ok tt st /\
    forall s refs lk k j env, let cv := disk_block (img st) in let x := get_inode j s in
    fs_state dev p pid s cv refs lk k -> 0 <= k -> k_sb s = sb -> (forall b, lk !! b = None) ->
    (j < length (k_inodes s))%nat -> i_dev x = dev -> i_inum x = 2 + Z.of_nat i ->
    1 <= i_ref x -> i_valid x = 0 -> sl_locked (i_lock x) = 0 ->
    exists s1, ilock j (mkWorld s env) = Ok tt (mkWorld s1 env) /\
      i_type (get_inode j s1) = T_FILE /\ i_size (get_inode j s1) = Z.of_nat (length (concat f.2)) /\
    forall s2 d off n env2, reader r dev p pid s2 cv refs lk -> get_inode j s2 = get_inode j s1 ->
    can_send own fl d n s2 -> 0 <= off < 2 ^ 31 -> 0 <= n < 2 ^ 31 ->
    let bs := piece (concat f.2) off n in
    exists e s3, readi j d off n (mkWorld s2 env2) = Ok e (mkWorld s3 env2) /\
      ((e = (Z.of_nat (length bs), bs) /\ Inode.sent own fl r d bs s2 s3) \/
       (e.1 = -1 /\ exists m, (m < length bs)%nat /\ Inode.sent own fl r d (take m bs) s2 s3 /\ faults r d m s2)).
Proof.
  intros H1 H2 H3 Hf. destruct (mkfs_run files H1 H2 H3) as (st & Hrun & Hm). exists st. split; [done|].
  intros s refs lk k j env cv x Hs Hk Hsb Hlk Hj Hd Hi Hr Hv Hl.
  destruct Hm as (_ & _ & _ & Hfiles & _ & _ & _ & Hlen). pose proof (Hfiles i f Hf) as Hfa.
  apply lookup_lt_Some in Hf as Hlt. pose proof (iblock_range (2 + Z.of_nat i) ltac:(lia)) as Hib.
  destruct (ilock_made cv refs lk s k j (2 + Z.of_nat i) (concat f.2) env Hfa Hs Hk Hsb Hlk
    (Hlen (IBLOCK (2 + Z.of_nat i) sb) ltac:(change FSSIZE with 1000; lia)) ltac:(lia) Hj Hd Hi Hr Hv Hl) as (s1 & Hrun1 & Hs1 & Ht & Hdv & Hsz & Had).
  exists s1. split; [done|]. split; [done|]. split; [done|].
  intros s2 d off n env2 Hrd Hg Hsend Hoff Hn bs.
  assert (Hmax : (length (concat f.2) <= 268 * 1024)%nat).
  { destruct H3 as [Hmax _]. apply (Hmax (T_FILE, concat f.2)). unfold tree. right. apply list_elem_of_fmap.
    exists f. split; [done|]. by eapply list_elem_of_lookup_2. }
  rewrite <- Hg in Hdv, Hsz, Had.
  destruct (readi_made cv refs lk s2 j (2 + Z.of_nat i) (concat f.2) k s1 d off n env2 Hfa Hmax Hs1 Hk Hlk Hrd Hdv Hsz Had Hsend Hoff Hn)
    as (e & s3 & Hrun3 & _ & Hres).
  exists e, s3. split; [exact Hrun3|exact Hres].
Qed.
End Read.
End Boot.

(** ** Witness: an image with one file of five bytes *)

Lemma demo_booting d : exists s, booting 1 2 7 d s.
Proof.
  set (s0 := set_k_disk d (demo_cpu (mkLog 0 0 0 0 0 0 (replicate 30 0)))).
  destruct (binit_spec 1 s0 []) as (s1 & Hrun & Hio & Hd & Hok & _).
  - reflexivity.
  - intros b Hb. assert (Hg : get_buf b s0 = buf0) by (apply lookup_total_replicate_2; lia).
    rewrite Hg. split; [discriminate|reflexivity].
  - assert (Hth : thread 2 7 s0) by (split; [reflexivity|reflexivity|reflexivity|intros *; apply not_elem_of_nil..]).
    pose proof (io_only_log _ _ Hio) as Hl. exists s1. split; [split| |].
    + by apply (thread_io _ _ s0).
    + exact Hok.
    + exact Hd.
    + rewrite Hl. reflexivity.
    + rewrite Hl. split; reflexivity.
    + rewrite (io_only_held _ _ Hio). apply not_elem_of_nil.
Qed.

Lemma kernel_mounts_image_witness : exists st s s',
  mkfs_main [argument demo_file] mkfs_start = Ok tt st /\
  (fsinit 1;; begin_op) (mkWorld s []) = Ok tt (mkWorld s' []) /\ k_sb s' = sb.
Proof.
  destruct (kernel_mounts_image 1 2 7 [demo_file]) as (st & Hrun & Hmount).
  - cbn. lia.
  - exact demo_names.
  - exact demo_fits.
  - destruct (demo_booting (img st)) as (s & Hb). destruct (Hmount s [] Hb) as (s' & Hrun' & Hsb & _).
    exists st, s, s'. split; [exact Hrun|]. split; [exact Hrun'|exact Hsb].
Defined.

(** A process in the kernel, with inode [x] in slot 0 and an empty cache on the disk [d]. *)
Lemma disk_reader d x s1 own fl :
  user_of s1 own fl 3 root1 -> length (k_procs s1) = NPROC -> k_held s1 = [] ->
  k_bufs s1 = replicate (S NBUF) buf0 -> p_pid (get_proc 3 s1) = 4 ->
  exists s, reader root1 1 3 4 s (disk_block d) (fun _ => 0) ∅ /\ get_inode 0 s = x /\ k_held s = [] /\
    length (k_inodes s) = 1%nat.
Proof.
  intros [U1 _ U3 U4 U5] Hlen Hheld Hb Hpid. set (s0 := set_k_inodes [x] (set_k_disk d s1)).
  destruct (binit_spec 1 s0 []) as (s & _ & Hio & _ & Hok & _).
  - change (k_bufs s0) with (k_bufs s1). rewrite Hb. apply length_replicate.
  - intros b Hlt. unfold get_buf. change (k_bufs s0) with (k_bufs s1). rewrite Hb, lookup_total_replicate_2 by lia.
    split; [discriminate|reflexivity].
  - change (k_disk s0) with d in Hok. pose proof (io_only_held _ _ Hio) as E3. change (k_held s0) with (k_held s1) in E3.
    assert (Hth : thread 3 4 s).
    { apply (thread_io _ _ s0 s Hio). split; change (k_held s0) with (k_held s1); rewrite ?Hheld; [exact U1|exact Hpid|exact Hlen|..];
        intros; apply not_elem_of_nil. }
    exists s. split; [split; [exact Hth|exact Hok| |rewrite E3, Hheld; apply not_elem_of_nil]|].
    + destruct Hio as (bs & dk & tr & l & -> & _ & Hq). destruct (Hq 3%nat) as [st Hst].
      change (p_pagetable (l !!! 3%nat) = root1). rewrite Hst. rewrite <- U3. change (get_proc 3 s0) with (get_proc 3 s1).
      by destruct (get_proc 3 s1).
    + split; [exact (get_inode_io 0 s0 s Hio)|]. split; [by rewrite E3|]. by destruct Hio as (? & ? & ? & ? & -> & _).
Qed.

Definition demo_slot2 : inode := mkInode 1 2 1 sleeplock0 0 0 0 0 0 0 (replicate 13 0).

Lemma reader_fs d s : reader root1 1 3 4 s (disk_block d) (fun _ => 0) ∅ -> k_held s = [] ->
  fs_state 1 3 4 (set_k_sb sb (set_k_log demo_open s)) (disk_block d) (fun _ => 0) ∅ 3.
Proof.
  intros [R1 R2 _ _] Hh. apply fs_sb. split.
  - by apply thread_log.
  - by apply cache_log.
  - change (LLog ∉ k_held s). rewrite Hh. apply not_elem_of_nil.
  - split; [cbn; lia|cbn; lia|cbn; lia|reflexivity| |apply NoDup_nil_2]. intros i Hi. by apply not_elem_of_nil in Hi.
  - intros x Hx. by apply not_elem_of_nil in Hx.
  - intros x. lia.
  - exists []. split; [intros x Hx; lia|change (Z.of_nat NBUF) with 30; cbn; lia].
Qed.

(** The last three bytes of the file, read into a variable of the kernel. *)
Lemma mkfs_files_readable_witness : exists st s s1 s2 s3,
  mkfs_main [argument demo_file] mkfs_start = Ok tt st /\
  ilock 0 (mkWorld s []) = Ok tt (mkWorld s1 []) /\ get_inode 0 s2 = get_inode 0 s1 /\
  readi 0 DLocal 2 100 (mkWorld s2 []) = Ok (3, [108; 108; 111]) (mkWorld s3 []).
Proof.
  destruct demo_proc_ok as (own & fl & Hu & _ & Hlen & Hheld & _). destruct demo_proc_bufs as [Hbufs Hpid].
  destruct (mkfs_files_readable 1 3 4 demo_syms_ok own fl root1 (us_root _ _ _ _ _ Hu) [demo_file] 0 demo_file) as (st & Hrun & Hread).
  - cbn. lia.
  - exact demo_names.
  - exact demo_fits.
  - reflexivity.
  - destruct (disk_reader (img st) demo_slot2 demo_proc own fl Hu Hlen Hheld Hbufs Hpid) as (s0 & Hrd & Hi & Hh & Hl).
    assert (Hi' : get_inode 0 (set_k_sb sb (set_k_log demo_open s0)) = demo_slot2) by exact Hi.
    destruct (Hread (set_k_sb sb (set_k_log demo_open s0)) (fun _ => 0) ∅ 3 0%nat []) as (s1 & Hrun1 & _ & _ & Hrest).
    + exact (reader_fs (img st) s0 Hrd Hh).
    + lia.
    + reflexivity.
    + intros b. apply lookup_empty.
    + change (0 < length (k_inodes s0))%nat. rewrite Hl. lia.
    + rewrite Hi'. reflexivity.
    + rewrite Hi'. reflexivity.
    + rewrite Hi'. cbn. lia.
    + rewrite Hi'. reflexivity.
    + rewrite Hi'. reflexivity.
    + destruct (disk_reader (img st) (get_inode 0 s1) demo_proc own fl Hu Hlen Hheld Hbufs Hpid) as (s2 & Hrd2 & Hi2 & _).
      destruct (Hrest s2 DLocal 2 100 []) as (e & s3 & Hrun3 & [[-> _]|(_ & m & _ & _ & [])]);
        [exact Hrd2|exact Hi2|exact I|lia|lia|].
      exists st, (set_k_sb sb (set_k_log demo_open s0)), s1, s2, s3.
      split; [exact Hrun|]. split; [exact Hrun1|]. split; [exact Hi2|]. exact Hrun3.
Defined.
